(* ===== verification/_CoqProject ===== *)
-Q . S2P
Prelude.v
AesTables.v
Aes.v
Milenage.v
Snow3g.v
NasSecurity.v
AperBits.v
AperPrim.v
AperCodec.v
AperProps.v
Chaos.v
Kdf.v
GoStrings.v
AperField.v
AperFieldProps.v
AperSize.v
NgapTypes.v
NgapOctets.v
UeContext.v
UeProps.v
NasMessage.v
NasLayouts.v
NasCodec.v
NasAccess.v
NasTypes.v
NasFields.v
NasConvert.v
NasConvertProps.v
NasProtect.v
UeNas.v
UeNasProps.v
UeNasLive.v
GnbContext.v
Ngap.v
GnbNgap.v
GnbNas.v
GnbProps.v
GnbWp.v
GnbDemo.v
GnbSession.v
GnbInv.v
GnbRelay.v
GnbRelease.v
GnbHandover.v
NgapValues.v
NgapFits.v
NgapTransfers.v
NgapReader.v
Monitoring.v
GnbStart.v
Config.v
UeStart.v
Fleet.v
Startup.v
