(* ===== verification/Prelude.v ===== *)
(** * OmniRAN-Emulator: a verified model

    OmniRAN-Emulator simulates the radio side of a 5G network: UEs and gNBs
    that register, open sessions and move, against a real core network.  This
    development models its Go code and proves what it does.  A definition has
    the name of the Go function, type or field it stands for.

    ** The program and the files that model it

    - Cryptography: lib/aes (AesTables, Aes), lib/milenage (Milenage),
      lib/nas/security/snow3g (Snow3g), lib/nas/security (NasSecurity: NEA/NIA
      and the NAS counter), lib/UeauCommon (Kdf).
    - lib/aper: the bit buffers (AperBits), a writer and a reader per ASN.1
      primitive (AperPrim), the algebra of codecs (AperCodec), what they
      guarantee (AperProps); the traversal of a value by its Go type and tags,
      which the code does by reflection, over a datatype of Go types and values
      (AperField), its round trip (AperFieldProps) and the length of its
      results (AperSize).
    - lib/ngap: every struct of ngapType as such a type (NgapTypes), Encoder
      and Decoder and what they do with these types (NgapOctets).
    - lib/nas: messages as lists of elements (NasMessage), one layout per
      message (NasLayouts), headers, dispatch by type and the UE's builders
      (NasCodec), the accessors of nasType (NasAccess has their forms, NasTypes
      the accessors, NasFields the fields they read and write), nasConvert
      (NasConvert, NasConvertProps).
    - internal/chaos (Chaos): dropping, delaying and fuzzing of messages.
    - internal/control_test_engine/ue: the context (UeContext, UeProps), the
      protection of messages (NasProtect), every handler, the state machine and
      the triggers (UeNas, UeNasProps, UeNasLive).
    - internal/control_test_engine/gnb: the context (GnbContext), the NGAP
      messages (Ngap), handlers, triggers and sender (GnbNgap), the side
      towards UEs, other gNBs, UPF and simulated AMF (GnbNas); their properties
      in GnbProps, GnbSession, GnbInv, GnbRelay, GnbRelease and GnbHandover,
      with the program logic of GnbWp and the example of GnbDemo.  Its messages
      as values of ngapType are in NgapValues, the transfers inside them in
      NgapTransfers, that both fit their types in NgapFits and NgapTransfers,
      and what the gNB reads of a decoded value in NgapReader.
    - config: the configuration and its check (Config), the saved profiles
      (Fleet); a UE from the configuration and its requests for a hand-over,
      ue/ue.go (UeStart); the starts of a gNB for the load, latency and
      availability tests and for the fleet, gnb/gnb.go (GnbStart), with the
      counters of these tests, monitoring (Monitoring).
    - GoStrings: what is used of Go's strings, encoding/hex and net.

    The UE and the gNB meet in GnbRelay: a NAS message the UE protected
    (NasProtect) is what the gNB's [receive_ue] forwards in an NGAP message of
    Ngap through GnbNgap's sender, and the two frames the gNB writes for the
    first downlink message are read by UeNas.  The gNB and lib/ngap meet in
    NgapReader: [library_codec] is an instance of the class [NgapCodec] that
    the handlers are written against, made of lib/aper's functions, and
    [library_messages] and [library_answerable] discharge for it what the
    theorems on the gNB ask of a codec.  Startup has what begins at the
    configuration: the UE's identity as the network reads it, the NG Setup
    Request of a gNB through lib/ngap, and the frame of TriggerHandover as the
    gNB reads it.

    ** How Go is read

    - A call returns a value, returns an error or panics: [outcome] is [Ret],
      [Fail] or [Panic].  An index or slice out of range, a nil dereference, a
      failed type assertion and a write to a nil map panic.
    - A machine integer is a Z; wherever it may wrap around the result is
      [wrap]ped to its width.  A slice is a list; a slice expression is
      [slice], which panics out of range.  A buffer that a callee fills is
      passed and returned; nil is [None] where the code tells it apart.
    - State that functions share is passed: the SNOW 3G package variables
      ([snow]), the UE's [world] (UeNas), the gNB's [world] and [heap] of
      numbered objects (GnbContext), in which a UE is one object that several
      pools point to.  Effects (a frame sent, a packet forwarded, a route
      added) are appended to a log of the world.
    - The handlers of the UE and the gNB are monadic functions on such a world,
      composed as the code composes them.  Each runs as one step, and the locks
      are left out; where the code starts a goroutine the model has a further
      operation, and the invariants are about every order of the operations.
    - Strings are ASCII; [range] over a map follows an arbitrary order (a
      parameter [visit], or the class [MapOrder]); random numbers come from the
      class [Rand] with a state of its own; durations and probabilities are
      integers and rationals.

    ** Parameters

    What is not in the repository is an argument: the CMAC of
    github.com/aead/cmac ([cmac_sum], of which only the length of its result is
    used), the answers of the operating system ([Host], [dial], netlink, files),
    and YAML and JSON (an argument of LoadConfig, and the class [Json]).
    The gNB's handlers take the codec of NGAP messages as the class
    [NgapCodec], so that their theorems do not depend on octets; the class
    does not tell a panic of the codec from an error.  Each theorem that
    assumes something of a parameter has a witness with a concrete instance.

    ** What is shown

    - Cryptography refines its standards: AES is FIPS-197 on every key and
      block, Milenage is TS 35.206, SNOW 3G is UEA2 for any previous contents
      of its package variables, NIA1 is 128-EIA1; NASEncrypt undoes itself; an
      AUTN of the network is accepted by the UE with the same keys exactly if
      its sequence number is larger and agrees in the first octet, and answered
      with the UE's own sequence number otherwise.
    - Codecs: each NAS message and each APER primitive is read back as written;
      reading ends on every input, with an error, a value or, in the one place
      that is named, a panic; whatever is read is well formed and can be
      written again; any value that fits its Go type and tags, so any NGAP
      message in its constraints, is marshalled, unmarshalled to itself (but
      for the unused bits of a bit string's last octet) and marshalled to the
      same octets again; whatever is marshalled has bounds for every part, so
      that fields of ngapType whose tags lack them are never sent; bounds of
      the bit reader; accessors of nasType touch exactly the bits they document,
      but for four setters that clear more; identities, slices and options are
      read back as written.
    - The UE: identity, the three outcomes of an authentication, protection of
      uplink messages, acceptance and rejection of downlink ones, an invariant
      of every reachable state, and the way from Registration Accept and PDU
      Session Establishment Accept to an active session.
    - The gNB: an invariant of its heap in every reachable world; the relay of
      NAS messages both ways, with every error of the downlink; what session
      setup, release, N2 hand-over and their refusals do to pools, messages and
      user data; compliance of every
      message it builds, and that lib/ngap encodes each of them and decodes it
      to the message it was.

    - The configuration: what Validate accepts gives a UE its credentials and,
      with MSINs of eight or ten digits, the identity the network reads; with
      hexadecimal identities of the gNB, which it does not ask for, an NG Setup
      Request; each kind of saved profile is a map from names to profiles, and
      what was stored is what the program starts with.

    Where the code differs from what it means to do, the theorem states what it
    does: the forged message that moves the downlink count, a session that is
    reported as set up with TEID 0, the packet that ends a listener, and others.

    ** Fuel and bounds

    Loops of bounded length are structural.  Fuel appears in the fragments of
    AperPrim (the number of bytes; each turn consumes one) and its shifts
    ([range_bytes], [least_width]: enough turns for the largest range),
    in the optional elements of NasMessage (the number of octets; each turn
    consumes one), in [hex_digits] (sixteen digits, of at most sixteen), and in NasConvert, where a
    loop that need not end is [None] for every fuel and the theorems give the
    fuel that is enough.  The round trips of APER strings and open types are for
    fewer than 16384 octets, the fragmentation that the code gets wrong beyond;
    [weight] bounds an encoding, so that the messages of the gNB are known to
    stay below without being encoded.

    ** Not modelled

    Sockets, signals, goroutine scheduling and sleeping (ue/nas/service, the
    gNB's servers, the ends of ue.go and gnb.go that wait for a signal or poll
    the clock): I/O around the modelled handlers.  Of lib/aper the trace output
    and fields of interface type, which ngapType has none of; of lib/ngap the
    printing of a value for a log.  The structures of the NGAP elements that
    neither the gNB nor its simulated AMF builds or looks at have their types
    and their round trip, but no reader.  Command line, scenarios, web server
    and the fleet runner: glue over external libraries.  lib/openapi: data without operations.  go_sdk: a copy of the Go toolchain. *)

From stdpp Require Export base tactics list numbers option strings gmap.
From Stdlib Require Export ZArith Lia.

#[local] Open Scope Z_scope.

(** ** Go results

    A Go call either returns, returns an error value, or panics (index out of
    range, nil dereference, ...). *)

Inductive outcome (A : Type) : Type :=
| Ret (a : A)
| Fail (e : string)
| Panic.

Arguments Ret {_} _.
Arguments Fail {_} _%_string.
Arguments Panic {_}.

#[export] Instance outcome_mret : MRet outcome := fun A a => Ret a.
#[export] Instance outcome_mbind : MBind outcome := fun A B f m =>
  match m with Ret a => f a | Fail e => Fail e | Panic => Panic end.
#[export] Instance outcome_fmap : FMap outcome := fun A B f m =>
  match m with Ret a => Ret (f a) | Fail e => Fail e | Panic => Panic end.

#[export] Instance outcome_eq_dec `{EqDecision A} : EqDecision (outcome A).
Proof. solve_decision. Defined.

(** ** Machine integers: a value of width [w] is a Z in [0, 2^w). *)

Definition wrap (w z : Z) : Z := z mod 2 ^ w.
Abbreviation u8 := (wrap 8).
Abbreviation u16 := (wrap 16).
Abbreviation u32 := (wrap 32).
Abbreviation u64 := (wrap 64).

(** Conversion to a signed integer of 64 and of 32 bits. *)
Definition s64 (z : Z) : Z := (z + 2 ^ 63) mod 2 ^ 64 - 2 ^ 63.
Definition s32 (z : Z) : Z := (z + 2 ^ 31) mod 2 ^ 32 - 2 ^ 31.

Definition in_width (w z : Z) : Prop := 0 ≤ z < 2 ^ w.

Declare Scope go_scope.
Delimit Scope go_scope with go.
Infix "⊕" := Z.lxor (at level 50, left associativity) : go_scope.
Infix "&" := Z.land (at level 40, left associativity) : go_scope.
Infix "∣∣" := Z.lor (at level 50, left associativity) : go_scope.

(** [x << n] at width [w] *)
Definition shl (w x n : Z) : Z := wrap w (Z.shiftl x n).

(** ** Go slices as lists, indexed by Z *)

Definition blen {A} (l : list A) : Z := Z.of_nat (length l).

(** [l[i]] *)
Definition rd {A} (l : list A) (i : Z) : outcome A :=
  if i <? 0 then Panic
  else match l !! Z.to_nat i with Some x => Ret x | None => Panic end.

(** [l[i] = x] *)
Definition wr {A} (l : list A) (i : Z) (x : A) : outcome (list A) :=
  if (i <? 0) || (blen l <=? i) then Panic else Ret (<[Z.to_nat i := x]> l).

(** [l[a:b]] of a slice whose capacity is its length *)
Definition slice {A} (l : list A) (a b : Z) : outcome (list A) :=
  if (a <? 0) || (b <? a) || (blen l <? b) then Panic
  else Ret (take (Z.to_nat (b - a)) (drop (Z.to_nat a) l)).

(** [copy(dst, src)]: the new contents of [dst] *)
Definition gocopy {A} (dst src : list A) : list A :=
  take (length dst) src ++ drop (length src) dst.

(** [f] works in place on the sub-slice [l[off:]], which shares its array
    with [l]: the prefix is kept and the tail replaced by what [f] leaves. *)
Definition with_tail {A R} (off : Z) (f : list A → outcome (R * list A)) (l : list A)
  : outcome (R * list A) :=
  if (off <? 0) || (blen l <? off) then Panic
  else '(r, tl) ← f (drop (Z.to_nat off) l);
       Ret (r, take (Z.to_nat off) l ++ tl).

(** A monadic left fold: the body of a [for] loop over a list of indices. *)
Fixpoint forM {A S} (xs : list A) (f : A → S → outcome S) (s : S) : outcome S :=
  match xs with
  | [] => Ret s
  | x :: xs => s ← f x s; forM xs f s
  end.

Definition bytes_ok (l : list Z) : Prop := Forall (in_width 8) l.

(** Big-endian 32-bit word of four bytes, and back. *)
Definition word4 (a b c d : Z) : Z := ((a * 2 ^ 8 + b) * 2 ^ 8 + c) * 2 ^ 8 + d.
Definition bytes4 (w : Z) : list Z :=
  [u8 (w ≫ 24); u8 (w ≫ 16); u8 (w ≫ 8); u8 w].

(** The [n] low bytes of a number, big-endian. *)
Fixpoint be_bytes (n : nat) (z : Z) : list Z :=
  match n with O => [] | S n => be_bytes n (Z.div z 256) ++ [z mod 256] end.

(** ** Lemmas on outcomes and slices *)

Lemma bind_Ret {A B} (f : A → outcome B) (a : A) : mbind (M:=outcome) f (Ret a) = f a.
Proof. reflexivity. Qed.

Lemma Ret_inj {A} (a b : A) : Ret a = Ret b → a = b.
Proof. congruence. Qed.

Lemma result_inj {A B C} (a a' : A) (b b' : B) (c c' : C) : Ret (a, b, c) = Ret (a', b', c') → a = a' ∧ c = c'.
Proof. intros [=]. done. Qed.

Lemma bind_inv {A B} (f : A → outcome B) (m : outcome A) (b : B) :
  (x ← m; f x) = Ret b → ∃ a, m = Ret a ∧ f a = Ret b.
Proof. destruct m; simpl; [eauto|discriminate..]. Qed.

Lemma rd_lookup {A} (l : list A) i x :
  0 ≤ i → l !! Z.to_nat i = Some x → rd l i = Ret x.
Proof. intros Hi Hl. unfold rd. rewrite (proj2 (Z.ltb_ge _ _)), Hl; [done|lia]. Qed.

Lemma rd_in_range {A} (l : list A) i :
  0 ≤ i < blen l → ∃ x, rd l i = Ret x ∧ l !! Z.to_nat i = Some x.
Proof.
  unfold blen; intros Hi. destruct (lookup_lt_is_Some_2 l (Z.to_nat i)) as [x Hx]; [lia|].
  exists x. split; [apply rd_lookup|]; [lia|done..].
Qed.

Lemma rd_out_of_range {A} (l : list A) i : i < 0 ∨ blen l ≤ i → rd l i = Panic.
Proof.
  unfold rd, blen; intros Hi. destruct (Z.ltb_spec i 0); [done|].
  rewrite lookup_ge_None_2; [done|lia].
Qed.

Lemma rd_cons {A} (a : A) l i : rd (a :: l) i = if i =? 0 then Ret a else rd l (i - 1).
Proof.
  unfold rd. destruct (Z.eqb_spec i 0) as [->|Hi]; [done|].
  destruct (Z.ltb_spec i 0), (Z.ltb_spec (i - 1) 0); try done; try lia.
  replace (Z.to_nat i) with (S (Z.to_nat (i - 1))) by lia. done.
Qed.

Lemma wr_cons {A} (a x : A) l i :
  wr (a :: l) i x = if i =? 0 then Ret (x :: l) else l' ← wr l (i - 1) x; Ret (a :: l').
Proof.
  unfold wr, blen. cbn [length]. destruct (Z.eqb_spec i 0) as [->|Hi].
  { destruct (Z.leb_spec (Z.of_nat (S (length l))) 0); [lia|done]. }
  destruct (Z.ltb_spec i 0), (Z.ltb_spec (i - 1) 0); simpl; try done; try lia.
  destruct (Z.leb_spec (Z.of_nat (S (length l))) i), (Z.leb_spec (Z.of_nat (length l)) (i - 1));
    simpl; try done; try lia.
  replace (Z.to_nat i) with (S (Z.to_nat (i - 1))) by lia. done.
Qed.

Lemma wr_app {A} (p l : list A) i x y : i = blen p → wr (p ++ x :: l) i y = Ret (p ++ y :: l).
Proof.
  unfold wr, blen. intros ->. rewrite length_app. cbn [length].
  rewrite (proj2 (Z.ltb_ge _ _)), (proj2 (Z.leb_gt _ _)) by lia.
  cbn [orb]. rewrite Nat2Z.id. f_equal. rewrite insert_app_r_alt by lia. by rewrite Nat.sub_diag.
Qed.

Lemma rd_app_r {A} (p l : list A) i : blen p ≤ i → rd (p ++ l) i = rd l (i - blen p).
Proof.
  unfold rd, blen. intros Hi. destruct (Z.ltb_spec i 0), (Z.ltb_spec (i - Z.of_nat (length p)) 0); try lia.
  rewrite lookup_app_r by lia. do 2 f_equal. replace (Z.to_nat i - length p)%nat with (Z.to_nat (i - Z.of_nat (length p))) by lia. done.
Qed.

(** Reads and writes behind a prefix. *)
Lemma rd_at {A} (p l : list A) i j : i = blen p + j → 0 ≤ j → rd (p ++ l) i = rd l j.
Proof. intros -> Hj. rewrite rd_app_r by lia. f_equal. lia. Qed.

Lemma wr_at {A} (p l : list A) i j x :
  i = blen p + j → 0 ≤ j → wr (p ++ l) i x = (l' ← wr l j x; Ret (p ++ l')).
Proof.
  intros -> Hj. unfold wr, blen. rewrite length_app.
  rewrite (proj2 (Z.ltb_ge _ 0)), (proj2 (Z.ltb_ge j 0)) by lia. cbn [orb].
  destruct (Z.leb_spec (Z.of_nat (length p + length l)) (Z.of_nat (length p) + j)),
    (Z.leb_spec (Z.of_nat (length l)) j); try lia; cbn [mbind outcome_mbind]; [done|].
  f_equal. rewrite insert_app_r_alt by lia. do 2 f_equal. lia.
Qed.

Lemma rd_drop {A} (l : list A) (n : nat) j : 0 ≤ j → rd (drop n l) j = rd l (Z.of_nat n + j).
Proof.
  intros Hj. unfold rd. destruct (Z.ltb_spec j 0), (Z.ltb_spec (Z.of_nat n + j) 0); try lia.
  rewrite lookup_drop. by replace (n + Z.to_nat j)%nat with (Z.to_nat (Z.of_nat n + j)) by lia.
Qed.

Lemma with_tail_app {A R} off (f : list A → outcome (R * list A)) p l :
  off = blen p → with_tail off f (p ++ l) = ('(r, tl) ← f l; Ret (r, p ++ tl)).
Proof.
  unfold with_tail, blen. intros ->. rewrite length_app.
  rewrite (proj2 (Z.ltb_ge _ _)), (proj2 (Z.ltb_ge _ _)) by lia. simpl.
  by rewrite Nat2Z.id, drop_app_length, take_app_length.
Qed.

Lemma list_split3 {A} (n m : nat) (l : list A) : (n + m ≤ length l)%nat →
  ∃ p q r, l = p ++ q ++ r ∧ length p = n ∧ length q = m.
Proof.
  intros H. exists (take n l), (take m (drop n l)), (drop m (drop n l)).
  rewrite take_drop, take_drop, length_take, length_take, length_drop. split; [done|lia].
Qed.

Lemma slice_from {A} (l : list A) a :
  0 ≤ a ≤ blen l → slice l a (blen l) = Ret (drop (Z.to_nat a) l).
Proof.
  unfold slice, blen. intros Ha.
  rewrite (proj2 (Z.ltb_ge _ _)), (proj2 (Z.ltb_ge _ _)), (proj2 (Z.ltb_ge _ _)) by lia. simpl.
  rewrite take_ge; [done|]. rewrite length_drop. lia.
Qed.

Lemma forM_app {A S} (xs ys : list A) (f : A → S → outcome S) s :
  forM (xs ++ ys) f s = (s ← forM xs f s; forM ys f s).
Proof. revert s. induction xs as [|x xs IH]; intros s; simpl; [done|]. destruct (f x s); simpl; auto. Qed.

(** A loop each of whose steps is a pure function of an invariant state. *)
Lemma forM_pure {A S T} (P : T → Prop) (Q : A → Prop) (h : T → S) (f : A → S → outcome S)
    (g : T → A → T) (xs : list A) (t : T) :
  (∀ x t, Q x → P t → f x (h t) = Ret (h (g t x)) ∧ P (g t x)) →
  Forall Q xs → P t → forM xs f (h t) = Ret (h (foldl g t xs)) ∧ P (foldl g t xs).
Proof.
  intros Hf Hxs. revert t. induction Hxs as [|x xs Hx _ IH]; intros t Ht; simpl; [done|].
  destruct (Hf x t Hx Ht) as [-> Ht']. simpl. by apply IH.
Qed.

(** ** Lemmas on words *)

Lemma in_width_0 w : 0 ≤ w → in_width w 0.
Proof. intros Hw. split; [lia|]. apply Z.pow_pos_nonneg; lia. Qed.

Lemma wrap_in_width w z : 0 ≤ w → in_width w (wrap w z).
Proof. intros Hw. apply Z.mod_pos_bound, Z.pow_pos_nonneg; lia. Qed.

Lemma wrap_small w z : in_width w z → wrap w z = z.
Proof. apply Z.mod_small. Qed.

Lemma in_width_mono w1 w2 z : 0 ≤ w1 ≤ w2 → in_width w1 z → in_width w2 z.
Proof.
  intros Hw [H0 H1]. split; [done|]. eapply Z.lt_le_trans; [exact H1|].
  apply Z.pow_le_mono_r; lia.
Qed.

Lemma testbit_above w z i : in_width w z → w ≤ i → Z.testbit z i = false.
Proof.
  intros [H0 H1] Hi. destruct (Z.eq_dec z 0) as [->|Hz]; [apply Z.bits_0|].
  apply Z.bits_above_log2; [done|].
  apply Z.log2_lt_pow2; [lia|]. eapply Z.lt_le_trans; [exact H1|].
  apply Z.pow_le_mono_r; lia.
Qed.

Lemma in_width_testbit w z :
  0 ≤ w → 0 ≤ z → (∀ i, w ≤ i → Z.testbit z i = false) → in_width w z.
Proof.
  intros Hw Hz Hb. split; [done|]. destruct (Z.eq_dec z 0) as [->|Hnz].
  { apply Z.pow_pos_nonneg; lia. }
  apply Z.log2_lt_pow2; [lia|]. destruct (Z.lt_ge_cases (Z.log2 z) w) as [|Hge]; [done|].
  specialize (Hb _ Hge). rewrite Z.bit_log2 in Hb by lia. discriminate.
Qed.

Lemma in_width_lxor w a b : 0 ≤ w → in_width w a → in_width w b → in_width w (Z.lxor a b).
Proof.
  intros Hw Ha Hb. apply in_width_testbit; [done| |].
  { apply Z.lxor_nonneg. destruct Ha, Hb. lia. }
  intros i Hi. rewrite Z.lxor_spec.
  by rewrite (testbit_above w a), (testbit_above w b).
Qed.

Lemma in_width_land w a b : 0 ≤ w → in_width w a → 0 ≤ b → in_width w (Z.land a b).
Proof.
  intros Hw Ha Hb. apply in_width_testbit; [done| |].
  { apply Z.land_nonneg. destruct Ha; lia. }
  intros i Hi. rewrite Z.land_spec. by rewrite (testbit_above w a).
Qed.

Lemma in_width_lor w a b : 0 ≤ w → in_width w a → in_width w b → in_width w (Z.lor a b).
Proof.
  intros Hw Ha Hb. apply in_width_testbit; [done| |].
  { apply Z.lor_nonneg. destruct Ha, Hb. lia. }
  intros i Hi. rewrite Z.lor_spec.
  by rewrite (testbit_above w a), (testbit_above w b).
Qed.

Lemma land_shiftl_low k a b : 0 ≤ k → in_width k b → Z.land (Z.shiftl a k) b = 0.
Proof.
  intros Hk Hb. apply Z.bits_inj_0. intros j. rewrite Z.land_spec.
  destruct (Z.lt_ge_cases j 0); [by rewrite Z.testbit_neg_r|].
  destruct (Z.lt_ge_cases j k); [by rewrite Z.shiftl_spec_low|].
  by rewrite (testbit_above k b), andb_false_r.
Qed.

(** A word split at bit [k]: high part and low part. *)
Lemma pack_lor k a b : 0 ≤ k → in_width k b → a * 2 ^ k + b = Z.lor (Z.shiftl a k) b.
Proof.
  intros Hk Hb. pose proof (land_shiftl_low k a b Hk Hb) as H0.
  rewrite <-Z.shiftl_mul_pow2 by done.
  by rewrite Z.add_nocarry_lxor, Z.lxor_lor.
Qed.

Lemma testbit_pack k a b i :
  0 ≤ k → in_width k b → 0 ≤ i →
  Z.testbit (a * 2 ^ k + b) i = if i <? k then Z.testbit b i else Z.testbit a (i - k).
Proof.
  intros Hk Hb Hi. rewrite pack_lor, Z.lor_spec by done.
  destruct (Z.ltb_spec i k); [by rewrite Z.shiftl_spec_low|].
  rewrite Z.shiftl_spec_high by lia. by rewrite (testbit_above k b), orb_false_r.
Qed.

Lemma lxor_pack k a b c d :
  0 ≤ k → in_width k b → in_width k d →
  Z.lxor (a * 2 ^ k + b) (c * 2 ^ k + d) = Z.lxor a c * 2 ^ k + Z.lxor b d.
Proof.
  intros Hk Hb Hd. apply Z.bits_inj'. intros i Hi.
  rewrite Z.lxor_spec, !testbit_pack by auto using in_width_lxor.
  destruct (i <? k); by rewrite Z.lxor_spec.
Qed.

Lemma land_pack k a b c d :
  0 ≤ k → in_width k b → in_width k d →
  Z.land (a * 2 ^ k + b) (c * 2 ^ k + d) = Z.land a c * 2 ^ k + Z.land b d.
Proof.
  intros Hk Hb Hd. apply Z.bits_inj'. intros i Hi.
  assert (in_width k (Z.land b d)) by (apply in_width_land; [..|destruct Hd]; done).
  rewrite Z.land_spec, !testbit_pack by done.
  destruct (i <? k); by rewrite Z.land_spec.
Qed.

Lemma lor_pack k a b c d :
  0 ≤ k → in_width k b → in_width k d →
  Z.lor (a * 2 ^ k + b) (c * 2 ^ k + d) = Z.lor a c * 2 ^ k + Z.lor b d.
Proof.
  intros Hk Hb Hd. apply Z.bits_inj'. intros i Hi.
  rewrite Z.lor_spec, !testbit_pack by auto using in_width_lor.
  destruct (i <? k); by rewrite Z.lor_spec.
Qed.

(** Masking with ones. *)
Lemma land_ones_id w z : 0 ≤ w → in_width w z → Z.land z (Z.ones w) = z.
Proof. intros Hw Hz. rewrite Z.land_ones by done. by apply Z.mod_small. Qed.

Lemma lxor_word4 a b c d a' b' c' d' :
  in_width 8 b → in_width 8 c → in_width 8 d →
  in_width 8 b' → in_width 8 c' → in_width 8 d' →
  Z.lxor (word4 a b c d) (word4 a' b' c' d')
  = word4 (Z.lxor a a') (Z.lxor b b') (Z.lxor c c') (Z.lxor d d').
Proof. intros. unfold word4. by rewrite !lxor_pack by (lia || done). Qed.

Lemma land_word4 a b c d a' b' c' d' :
  in_width 8 b → in_width 8 c → in_width 8 d →
  in_width 8 b' → in_width 8 c' → in_width 8 d' →
  Z.land (word4 a b c d) (word4 a' b' c' d')
  = word4 (Z.land a a') (Z.land b b') (Z.land c c') (Z.land d d').
Proof. intros. unfold word4. by rewrite !land_pack by (lia || done). Qed.

Lemma word4_in_width a b c d :
  in_width 8 a → in_width 8 b → in_width 8 c → in_width 8 d → in_width 32 (word4 a b c d).
Proof. unfold in_width, word4. change (2 ^ 8) with 256. change (2 ^ 32) with 4294967296. lia. Qed.

Lemma shiftr_word4 a b c d :
  in_width 8 a → in_width 8 b → in_width 8 c → in_width 8 d →
  Z.shiftr (word4 a b c d) 24 = a ∧ Z.land (Z.shiftr (word4 a b c d) 16) 255 = b ∧
  Z.land (Z.shiftr (word4 a b c d) 8) 255 = c ∧ Z.land (word4 a b c d) 255 = d.
Proof.
  unfold in_width, word4. intros.
  change 255 with (Z.ones 8). rewrite !Z.land_ones, !Z.shiftr_div_pow2 by lia.
  change (2 ^ 24) with 16777216. change (2 ^ 16) with 65536. change (2 ^ 8) with 256 in *.
  repeat split; Z.to_euclidean_division_equations; lia.
Qed.

Lemma bytes4_word4 a b c d :
  in_width 8 a → in_width 8 b → in_width 8 c → in_width 8 d →
  bytes4 (word4 a b c d) = [a; b; c; d].
Proof.
  intros Ha Hb Hc Hd. pose proof (shiftr_word4 a b c d Ha Hb Hc Hd) as (H1&H2&H3&H4).
  unfold bytes4, wrap. rewrite <-!Z.land_ones by lia. change (Z.ones 8) with 255.
  rewrite H1, H2, H3, H4. f_equal. change 255 with (Z.ones 8).
  rewrite Z.land_ones by lia. by apply Z.mod_small.
Qed.

Lemma word4_shiftl a b c d :
  in_width 8 b → in_width 8 c → in_width 8 d →
  Z.lxor (Z.lxor (Z.lxor (Z.shiftl a 24) (Z.shiftl b 16)) (Z.shiftl c 8)) d = word4 a b c d.
Proof.
  intros Hb Hc Hd. unfold word4.
  assert (∀ x y k, 0 ≤ k → in_width k y → x * 2 ^ k + y = Z.lxor (Z.shiftl x k) y) as H.
  { intros x y k Hk Hy. rewrite pack_lor by done. symmetry. apply Z.lxor_lor. by apply land_shiftl_low. }
  rewrite !H by done. rewrite !Z.shiftl_lxor, !Z.shiftl_shiftl by lia. done.
Qed.

Lemma word4_bytes w :
  in_width 32 w → ∃ a b c d, w = word4 a b c d ∧
    in_width 8 a ∧ in_width 8 b ∧ in_width 8 c ∧ in_width 8 d.
Proof.
  unfold in_width, word4. change (2 ^ 32) with 4294967296. change (2 ^ 8) with 256. intros Hw.
  exists (w / 16777216), (w / 65536 mod 256), (w / 256 mod 256), (w mod 256).
  Z.to_euclidean_division_equations; lia.
Qed.

Lemma be_bytes_length n z : length (be_bytes n z) = n.
Proof. revert z. induction n as [|n IH]; intros z; simpl; [done|]. rewrite length_app, IH. simpl. lia. Qed.

Lemma be_bytes_ok n z : bytes_ok (be_bytes n z).
Proof.
  revert z. induction n as [|n IH]; intros z; simpl; [constructor|]. apply Forall_app. split; [apply IH|].
  constructor; [|constructor]. apply Z.mod_pos_bound. lia.
Qed.

(** A decidable property of bytes, checked on all of them. *)
Lemma bytes_dec (l : list Z) : forallb (λ z, (0 <=? z) && (z <? 256)) l = true → bytes_ok l.
Proof.
  intros Hb. apply Forall_forall. intros z Hz. rewrite forallb_forall in Hb.
  apply list_elem_of_In in Hz. specialize (Hb z Hz). unfold in_width. change (2 ^ 8) with 256. lia.
Qed.


Lemma forallb_byte (P : Z → bool) : forallb P (seqZ 0 256) = true → ∀ x, in_width 8 x → P x = true.
Proof.
  intros HP x Hx. rewrite forallb_forall in HP. apply HP, list_elem_of_In, elem_of_seqZ.
  unfold in_width in Hx. change (2 ^ 8) with 256 in Hx. lia.
Qed.

(** ** Hints and tactics *)

Create HintDb go.
#[export] Hint Resolve in_width_lxor in_width_0 wrap_in_width word4_in_width : go.
#[export] Hint Extern 1 (0 ≤ _)%Z => lia : go.

(** Evaluate closed differences and zero tests. *)
Ltac zconst :=
  repeat match goal with
  | |- context [Z.sub (Zpos ?a) ?b] =>
      let v := eval vm_compute in (Z.sub (Zpos a) b) in
      lazymatch v with Z0 => idtac | Zpos _ => idtac end;
      change (Z.sub (Zpos a) b) with v
  | |- context [Z.eqb (Zpos ?a) 0] => change (Z.eqb (Zpos a) 0) with false
  | |- context [Z.eqb 0 0] => change (Z.eqb 0 0) with true
  end.

(** Reads and writes at constant positions of explicit lists. *)
Ltac slots :=
  repeat (first [rewrite rd_cons | rewrite wr_cons];
    zconst; cbn [mbind outcome_mbind]).

(** Reduce binds of calls that are known to return, keeping the others folded. *)
Ltac ret_bind :=
  repeat match goal with
  | |- context [@mbind outcome ?i ?A ?B ?f (Ret ?x)] =>
      rewrite (bind_Ret f x); cbv beta
  end.
