(* ===== verification/Aes.v ===== *)
(** * lib/aes/aes.go: the table-driven AES block cipher

    [AesSetupEnc] and [AesEncrypt] as the code runs them (T-tables, unrolled
    rounds, in-place key schedule), the FIPS-197 cipher over byte states, and
    the proof that the first computes the second. *)

From S2P Require Import Prelude AesTables.

#[local] Open Scope Z_scope.
#[local] Open Scope go_scope.

(** ** The code *)

Definition GETU32 (key : list Z) (index : Z) : outcome Z :=
  b0 ← rd key index; b1 ← rd key (index + 1);
  b2 ← rd key (index + 2); b3 ← rd key (index + 3);
  Ret (shl 32 b0 24 ⊕ shl 32 b1 16 ⊕ shl 32 b2 8 ⊕ b3).

Definition PUTU32 (st : Z) (ciphertext : list Z) : outcome (unit * list Z) :=
  c ← wr ciphertext 0 (u8 (st ≫ 24)); c ← wr c 1 (u8 (st ≫ 16));
  c ← wr c 2 (u8 (st ≫ 8)); c ← wr c 3 (u8 st);
  Ret (tt, c).

(** The word [temp] is passed through during key expansion: rotated. *)
Definition key_core (temp : Z) : outcome Z :=
  a ← rd Te4 ((temp ≫ 16) & 0xff); b ← rd Te4 ((temp ≫ 8) & 0xff);
  c ← rd Te4 (temp & 0xff); d ← rd Te4 (temp ≫ 24);
  Ret ((a & 0xff000000) ⊕ (b & 0x00ff0000) ⊕ (c & 0x0000ff00) ⊕ (d & 0x000000ff)).

(** The word of the second half of a 256-bit schedule step: not rotated. *)
Definition key_core_256 (temp : Z) : outcome Z :=
  a ← rd Te4 (temp ≫ 24); b ← rd Te4 ((temp ≫ 16) & 0xff);
  c ← rd Te4 ((temp ≫ 8) & 0xff); d ← rd Te4 (temp & 0xff);
  Ret ((a & 0xff000000) ⊕ (b & 0x00ff0000) ⊕ (c & 0x0000ff00) ⊕ (d & 0x000000ff)).

(** [rk[dst] = rk[src] ^ rk[dst-1]], the shape of most schedule writes *)
Definition chain (src dst : Z) (rk : list Z) : outcome (list Z) :=
  a ← rd rk src; b ← rd rk (dst - 1); wr rk dst (a ⊕ b).

(** The three [for] loops of [AesSetupEnc]; [rk = rk[4:]] moves the window.
    Each exits when [i] reaches its bound: the fuel is the loop bound. *)
Fixpoint setup128 (fuel : nat) (i : Z) (rk : list Z) : outcome (Z * list Z) :=
  match fuel with
  | O => Panic
  | S fuel =>
    temp ← rd rk 3; k0 ← rd rk 0; w ← key_core temp; rc ← rd rcon i;
    rk ← wr rk 4 (k0 ⊕ w ⊕ rc);
    rk ← chain 1 5 rk; rk ← chain 2 6 rk; rk ← chain 3 7 rk;
    if i + 1 =? 10 then Ret (10, rk) else with_tail 4 (setup128 fuel (i + 1)) rk
  end.

Fixpoint setup192 (fuel : nat) (i : Z) (rk : list Z) : outcome (Z * list Z) :=
  match fuel with
  | O => Panic
  | S fuel =>
    temp ← rd rk 5; k0 ← rd rk 0; w ← key_core temp; rc ← rd rcon i;
    rk ← wr rk 6 (k0 ⊕ w ⊕ rc);
    rk ← chain 1 7 rk; rk ← chain 2 8 rk; rk ← chain 3 9 rk;
    if i + 1 =? 8 then Ret (12, rk)
    else rk ← chain 4 10 rk; rk ← chain 5 11 rk; with_tail 6 (setup192 fuel (i + 1)) rk
  end.

Fixpoint setup256 (fuel : nat) (i : Z) (rk : list Z) : outcome (Z * list Z) :=
  match fuel with
  | O => Panic
  | S fuel =>
    temp ← rd rk 7; k0 ← rd rk 0; w ← key_core temp; rc ← rd rcon i;
    rk ← wr rk 8 (k0 ⊕ w ⊕ rc);
    rk ← chain 1 9 rk; rk ← chain 2 10 rk; rk ← chain 3 11 rk;
    if i + 1 =? 7 then Ret (14, rk)
    else
      temp ← rd rk 11; k4 ← rd rk 4; w ← key_core_256 temp;
      rk ← wr rk 12 (k4 ⊕ w);
      rk ← chain 5 13 rk; rk ← chain 6 14 rk; rk ← chain 7 15 rk;
      with_tail 8 (setup256 fuel (i + 1)) rk
  end.

Definition AesSetupEnc (rk key : list Z) (keybits : Z) : outcome (Z * list Z) :=
  k ← GETU32 key 0; rk ← wr rk 0 k; k ← GETU32 key 4; rk ← wr rk 1 k;
  k ← GETU32 key 8; rk ← wr rk 2 k; k ← GETU32 key 12; rk ← wr rk 3 k;
  if keybits =? 128 then setup128 10 0 rk
  else
    k ← GETU32 key 16; rk ← wr rk 4 k; k ← GETU32 key 20; rk ← wr rk 5 k;
    if keybits =? 192 then setup192 8 0 rk
    else
      k ← GETU32 key 24; rk ← wr rk 6 k; k ← GETU32 key 28; rk ← wr rk 7 k;
      if keybits =? 256 then setup256 7 0 rk else Ret (0, rk).

(** One output word of a full round and of the last round. *)
Definition te_word (s0 s1 s2 s3 k : Z) : outcome Z :=
  a ← rd Te0 (s0 ≫ 24); b ← rd Te1 ((s1 ≫ 16) & 0xff);
  c ← rd Te2 ((s2 ≫ 8) & 0xff); d ← rd Te3 (s3 & 0xff);
  Ret (a ⊕ b ⊕ c ⊕ d ⊕ k).

Definition te4_word (t0 t1 t2 t3 k : Z) : outcome Z :=
  a ← rd Te4 (t0 ≫ 24); b ← rd Te4 ((t1 ≫ 16) & 0xff);
  c ← rd Te4 ((t2 ≫ 8) & 0xff); d ← rd Te4 (t3 & 0xff);
  Ret ((a & 0xff000000) ⊕ (b & 0x00ff0000) ⊕ (c & 0x0000ff00) ⊕ (d & 0x000000ff) ⊕ k).

Definition state4 : Type := (Z * Z * Z * Z)%type.

(** One of the unrolled rounds, with round keys [rk[i..i+3]]. *)
Definition enc_round (rk : list Z) (i : Z) (st : state4) : outcome state4 :=
  let '(s0, s1, s2, s3) := st in
  k ← rd rk i;       t0 ← te_word s0 s1 s2 s3 k;
  k ← rd rk (i + 1); t1 ← te_word s1 s2 s3 s0 k;
  k ← rd rk (i + 2); t2 ← te_word s2 s3 s0 s1 k;
  k ← rd rk (i + 3); t3 ← te_word s3 s0 s1 s2 k;
  Ret (t0, t1, t2, t3).

(** The last round: each word is computed and stored before the next. *)
Definition final_round (rk : list Z) (st : state4) (ciphertext : list Z) : outcome (list Z) :=
  let '(t0, t1, t2, t3) := st in
  k ← rd rk 0; s0 ← te4_word t0 t1 t2 t3 k; '(_, c) ← PUTU32 s0 ciphertext;
  k ← rd rk 1; s1 ← te4_word t1 t2 t3 t0 k; '(_, c) ← with_tail 4 (PUTU32 s1) c;
  k ← rd rk 2; s2 ← te4_word t2 t3 t0 t1 k; '(_, c) ← with_tail 8 (PUTU32 s2) c;
  k ← rd rk 3; s3 ← te4_word t3 t0 t1 t2 k; '(_, c) ← with_tail 12 (PUTU32 s3) c;
  Ret c.

(** Load the block and add the first round key. *)
Definition first_key (rk plaintext : list Z) : outcome state4 :=
  p0 ← GETU32 plaintext 0;  k0 ← rd rk 0;
  p1 ← GETU32 plaintext 4;  k1 ← rd rk 1;
  p2 ← GETU32 plaintext 8;  k2 ← rd rk 2;
  p3 ← GETU32 plaintext 12; k3 ← rd rk 3;
  Ret (p0 ⊕ k0, p1 ⊕ k1, p2 ⊕ k2, p3 ⊕ k3).

Definition AesEncrypt (rk : list Z) (nrounds : Z) (plaintext ciphertext : list Z)
  : outcome (list Z) :=
  st ← first_key rk plaintext;
  st ← forM [4; 8; 12; 16; 20; 24; 28; 32; 36] (enc_round rk) st;
  st ← (if 10 <? nrounds then
          st ← forM [40; 44] (enc_round rk) st;
          if 12 <? nrounds then forM [48; 52] (enc_round rk) st else Ret st
        else Ret st);
  rk' ← slice rk (nrounds ≪ 2) (blen rk);
  final_round rk' st ciphertext.

(** ** FIPS-197 *)

Module Fips.

(** Multiplication by x and multiplication in GF(2^8) modulo x^8+x^4+x^3+x+1. *)
Definition xtime (a : Z) : Z :=
  if Z.testbit a 7 then u8 (a ≪ 1) ⊕ 0x1b else u8 (a ≪ 1).

Fixpoint gmul (n : nat) (a b : Z) : Z :=
  match n with
  | O => 0
  | S n => (if Z.testbit b 0 then a else 0) ⊕ gmul n (xtime a) (b ≫ 1)
  end.

Definition mul (a b : Z) : Z := gmul 8 a b.

(** The inverse is the 254th power; the S-box adds the affine transformation. *)
Definition inv (a : Z) : Z :=
  let a2 := mul a a in let a4 := mul a2 a2 in let a8 := mul a4 a4 in
  let a16 := mul a8 a8 in let a32 := mul a16 a16 in let a64 := mul a32 a32 in
  let a128 := mul a64 a64 in
  mul (mul (mul a2 a4) (mul a8 a16)) (mul (mul a32 a64) a128).

Definition rotl8 (a n : Z) : Z := u8 (a ≪ n) ∣∣ (a ≫ (8 - n)).

Definition sbox (a : Z) : Z :=
  let b := inv a in b ⊕ rotl8 b 1 ⊕ rotl8 b 2 ⊕ rotl8 b 3 ⊕ rotl8 b 4 ⊕ 0x63.

(** States are the 16 bytes in column order. *)
Definition SubBytes (s : list Z) : list Z := sbox <$> s.

Definition ShiftRows (s : list Z) : list Z :=
  (λ i, s !!! i) <$> [0; 5; 10; 15; 4; 9; 14; 3; 8; 13; 2; 7; 12; 1; 6; 11]%nat.

Definition mix_column (c : list Z) : list Z :=
  match c with
  | [a; b; c; d] =>
    [xtime a ⊕ (xtime b ⊕ b) ⊕ c ⊕ d; a ⊕ xtime b ⊕ (xtime c ⊕ c) ⊕ d;
     a ⊕ b ⊕ xtime c ⊕ (xtime d ⊕ d); (xtime a ⊕ a) ⊕ b ⊕ c ⊕ xtime d]
  | _ => []
  end.

Definition MixColumns (s : list Z) : list Z :=
  mix_column (take 4 s) ++ mix_column (take 4 (drop 4 s)) ++
  mix_column (take 4 (drop 8 s)) ++ mix_column (drop 12 s).

Definition AddRoundKey (k s : list Z) : list Z := zip_with Z.lxor s k.

Definition Round (k s : list Z) : list Z := AddRoundKey k (MixColumns (ShiftRows (SubBytes s))).
Definition LastRound (k s : list Z) : list Z := AddRoundKey k (ShiftRows (SubBytes s)).

(** Key expansion, one word at a time, for a key of [Nk] words. *)
Definition SubWord (w : Z) : Z :=
  word4 (sbox (w ≫ 24)) (sbox ((w ≫ 16) & 0xff)) (sbox ((w ≫ 8) & 0xff)) (sbox (w & 0xff)).
Definition RotWord (w : Z) : Z := u32 (w ≪ 8) ∣∣ (w ≫ 24).
Fixpoint xpow (n : nat) : Z := match n with O => 1 | S n => xtime (xpow n) end.
Definition Rcon (j : nat) : Z := word4 (xpow (j - 1)) 0 0 0.

Definition next_word (Nk : nat) (ws : list Z) : Z :=
  let i := length ws in
  let temp := ws !!! (i - 1)%nat in
  let temp :=
    if (i mod Nk =? 0)%nat then SubWord (RotWord temp) ⊕ Rcon (i / Nk)
    else if (6 <? Nk)%nat && (i mod Nk =? 4)%nat then SubWord temp else temp in
  (ws !!! (i - Nk)%nat) ⊕ temp.

Fixpoint expand (Nk n : nat) (ws : list Z) : list Z :=
  match n with O => ws | S n => expand Nk n (ws ++ [next_word Nk ws]) end.

Fixpoint key_words (n : nat) (key : list Z) : list Z :=
  match n, key with
  | S n, a :: b :: c :: d :: key => word4 a b c d :: key_words n key
  | _, _ => []
  end.

(** The [Nr + 1] round keys are slices of four words. *)
Definition KeyExpansion (Nk Nr : nat) (key : list Z) : list Z :=
  expand Nk (4 * (Nr + 1) - Nk) (key_words Nk key).

Definition round_key (ws : list Z) (r : nat) : list Z := mjoin (bytes4 <$> take 4 (drop (4 * r) ws)).

Definition Cipher (Nr : nat) (ws : list Z) (pt : list Z) : list Z :=
  LastRound (round_key ws Nr)
    (foldl (λ s r, Round (round_key ws r) s) (AddRoundKey (round_key ws 0) pt) (seq 1 (Nr - 1))).

Definition encrypt128 (key pt : list Z) : list Z := Cipher 10 (KeyExpansion 4 10 key) pt.

End Fips.

(** ** The tables are the S-box and its multiples *)

Lemma byte_forall (P : Z → bool) (x : Z) :
  forallb P (seqZ 0 256) = true → in_width 8 x → P x = true.
Proof.
  rewrite forallb_forall. intros H Hx. apply H, list_elem_of_In, elem_of_seqZ.
  unfold in_width in Hx. change (2 ^ 8) with 256 in Hx. lia.
Qed.

Lemma table_lookup (T : list Z) (f : Z → Z) (x : Z) :
  T = f <$> seqZ 0 256 → in_width 8 x → rd T x = Ret (f x).
Proof.
  intros -> [H0 H1]. change (2 ^ 8) with 256 in H1. apply rd_lookup; [done|].
  rewrite list_lookup_fmap, lookup_seqZ_lt by lia. simpl. do 2 f_equal. lia.
Qed.

Lemma sbox_width x : in_width 8 x → in_width 8 (Fips.sbox x).
Proof.
  intros Hx. pose proof (byte_forall (λ x, bool_decide (0 ≤ Fips.sbox x < 2 ^ 8)) x) as H.
  apply (bool_decide_eq_true_1 _), H; [|done]. vm_compute. reflexivity.
Qed.

Lemma xtime_width x : in_width 8 (Fips.xtime x).
Proof. unfold Fips.xtime. destruct (Z.testbit x 7); auto with go. apply in_width_lxor; auto with go. by compute. Qed.

#[local] Hint Resolve sbox_width xtime_width : go.

Lemma Te0_spec x : in_width 8 x → rd Te0 x =
  Ret (let s := Fips.sbox x in word4 (Fips.xtime s) s s (Fips.xtime s ⊕ s)).
Proof. apply (table_lookup Te0 (λ x, let s := Fips.sbox x in word4 (Fips.xtime s) s s (Fips.xtime s ⊕ s))). by vm_compute. Qed.

Lemma Te1_spec x : in_width 8 x → rd Te1 x =
  Ret (let s := Fips.sbox x in word4 (Fips.xtime s ⊕ s) (Fips.xtime s) s s).
Proof. apply (table_lookup Te1 (λ x, let s := Fips.sbox x in word4 (Fips.xtime s ⊕ s) (Fips.xtime s) s s)). by vm_compute. Qed.

Lemma Te2_spec x : in_width 8 x → rd Te2 x =
  Ret (let s := Fips.sbox x in word4 s (Fips.xtime s ⊕ s) (Fips.xtime s) s).
Proof. apply (table_lookup Te2 (λ x, let s := Fips.sbox x in word4 s (Fips.xtime s ⊕ s) (Fips.xtime s) s)). by vm_compute. Qed.

Lemma Te3_spec x : in_width 8 x → rd Te3 x =
  Ret (let s := Fips.sbox x in word4 s s (Fips.xtime s ⊕ s) (Fips.xtime s)).
Proof. apply (table_lookup Te3 (λ x, let s := Fips.sbox x in word4 s s (Fips.xtime s ⊕ s) (Fips.xtime s))). by vm_compute. Qed.

Lemma Te4_spec x : in_width 8 x → rd Te4 x = Ret (let s := Fips.sbox x in word4 s s s s).
Proof. apply (table_lookup Te4 (λ x, let s := Fips.sbox x in word4 s s s s)). by vm_compute. Qed.

#[local] Opaque Fips.sbox Fips.xtime Te0 Te1 Te2 Te3 Te4.

(** ** Rounds *)

Definition col_word (l : list Z) : Z :=
  match l with [a; b; c; d] => word4 a b c d | _ => 0 end.

(** The words of a 16-byte state. *)
Definition st_of (s : list Z) : state4 :=
  (col_word (take 4 s), col_word (take 4 (drop 4 s)),
   col_word (take 4 (drop 8 s)), col_word (drop 12 s)).

Ltac split_bytes H := repeat (apply Forall_cons in H; destruct H as [? H]).
Ltac solve_bytes :=
  unfold bytes_ok; repeat (apply Forall_cons; split); [..|by apply Forall_nil]; auto 10 with go.
Ltac split_list l :=
  repeat (destruct l as [|? l]; [discriminate|]); destruct l; [|discriminate].

Ltac word_bytes :=
  repeat match goal with
  | Ha : in_width 8 ?a, Hb : in_width 8 ?b, Hc : in_width 8 ?c, Hd : in_width 8 ?d
    |- context [word4 ?a ?b ?c ?d ≫ 24] =>
      rewrite (proj1 (shiftr_word4 a b c d Ha Hb Hc Hd))
  | Ha : in_width 8 ?a, Hb : in_width 8 ?b, Hc : in_width 8 ?c, Hd : in_width 8 ?d
    |- context [Z.land (word4 ?a ?b ?c ?d ≫ 16) 255] =>
      rewrite (proj1 (proj2 (shiftr_word4 a b c d Ha Hb Hc Hd)))
  | Ha : in_width 8 ?a, Hb : in_width 8 ?b, Hc : in_width 8 ?c, Hd : in_width 8 ?d
    |- context [Z.land (word4 ?a ?b ?c ?d ≫ 8) 255] =>
      rewrite (proj1 (proj2 (proj2 (shiftr_word4 a b c d Ha Hb Hc Hd))))
  | Ha : in_width 8 ?a, Hb : in_width 8 ?b, Hc : in_width 8 ?c, Hd : in_width 8 ?d
    |- context [Z.land (word4 ?a ?b ?c ?d) 255] =>
      rewrite (proj2 (proj2 (proj2 (shiftr_word4 a b c d Ha Hb Hc Hd))))
  end.

Lemma te_word_spec a0 b0 c0 d0 a1 b1 c1 d1 a2 b2 c2 d2 a3 b3 c3 d3 k :
  Forall (in_width 8) [a0; b0; c0; d0; a1; b1; c1; d1; a2; b2; c2; d2; a3; b3; c3; d3] →
  te_word (word4 a0 b0 c0 d0) (word4 a1 b1 c1 d1) (word4 a2 b2 c2 d2) (word4 a3 b3 c3 d3) k =
  Ret (col_word (Fips.mix_column (Fips.SubBytes [a0; b1; c2; d3])) ⊕ k).
Proof.
  intros H. split_bytes H. unfold te_word. word_bytes.
  rewrite Te0_spec, Te1_spec, Te2_spec, Te3_spec by done. cbn [mbind outcome_mbind].
  do 2 f_equal. cbn [Fips.SubBytes fmap list_fmap Fips.mix_column col_word].
  by rewrite !lxor_word4 by auto 10 with go.
Qed.

Lemma land_byte_255 a : in_width 8 a → Z.land a 255 = a.
Proof. intros Ha. change 255 with (Z.ones 8). rewrite Z.land_ones by lia. by apply Z.mod_small. Qed.

(** The masks of the last round and of the key schedule pick one byte each. *)
Lemma mask_bytes a b c d :
  in_width 8 a → in_width 8 b → in_width 8 c → in_width 8 d →
  (word4 a a a a & 0xff000000) ⊕ (word4 b b b b & 0x00ff0000) ⊕
  (word4 c c c c & 0x0000ff00) ⊕ (word4 d d d d & 0x000000ff) = word4 a b c d.
Proof.
  intros. change 0xff000000 with (word4 255 0 0 0). change 0x00ff0000 with (word4 0 255 0 0).
  change 0x0000ff00 with (word4 0 0 255 0). change 0xff with (word4 0 0 0 255).
  assert (in_width 8 255) by (by compute).
  rewrite !land_word4, !land_byte_255, !Z.land_0_r by auto with go.
  rewrite !lxor_word4 by auto with go. by rewrite ?Z.lxor_0_r, ?Z.lxor_0_l.
Qed.

Lemma te4_word_spec a0 b0 c0 d0 a1 b1 c1 d1 a2 b2 c2 d2 a3 b3 c3 d3 k :
  Forall (in_width 8) [a0; b0; c0; d0; a1; b1; c1; d1; a2; b2; c2; d2; a3; b3; c3; d3] →
  te4_word (word4 a0 b0 c0 d0) (word4 a1 b1 c1 d1) (word4 a2 b2 c2 d2) (word4 a3 b3 c3 d3) k =
  Ret (col_word (Fips.SubBytes [a0; b1; c2; d3]) ⊕ k).
Proof.
  intros H. split_bytes H. unfold te4_word. word_bytes.
  rewrite !Te4_spec by done. cbn [mbind outcome_mbind]. cbv zeta.
  rewrite mask_bytes by auto with go. done.
Qed.

(** ** The state invariant: 16 bytes *)

Definition block (s : list Z) : Prop := length s = 16%nat ∧ bytes_ok s.

Definition key_word_ok (k : Z) : Prop := in_width 32 k.

(** The four words at index [i], as four round-key words. *)
Definition key_at (rk : list Z) (i : Z) (k0 k1 k2 k3 : Z) : Prop :=
  rd rk i = Ret k0 ∧ rd rk (i + 1) = Ret k1 ∧ rd rk (i + 2) = Ret k2 ∧ rd rk (i + 3) = Ret k3 ∧
  Forall (in_width 32) [k0; k1; k2; k3].

Definition key_bytes (k0 k1 k2 k3 : Z) : list Z := mjoin (bytes4 <$> [k0; k1; k2; k3]).

Lemma col_word_xor l k :
  length l = 4%nat → bytes_ok l → in_width 32 k →
  col_word l ⊕ k = col_word (Fips.AddRoundKey (bytes4 k) l).
Proof.
  intros Hl Hb Hk. split_list l. split_bytes Hb.
  destruct (word4_bytes k Hk) as (a&b&c&d&->&?&?&?&?).
  rewrite bytes4_word4 by done. cbn [col_word Fips.AddRoundKey zip_with].
  by rewrite lxor_word4.
Qed.

Lemma enc_round_spec rk i s k0 k1 k2 k3 :
  block s → key_at rk i k0 k1 k2 k3 →
  enc_round rk i (st_of s) = Ret (st_of (Fips.Round (key_bytes k0 k1 k2 k3) s)).
Proof.
  intros [Hl Hb] (H0&H1&H2&H3&Hk). split_list s. split_bytes Hb. split_bytes Hk.
  unfold enc_round, st_of. cbn [take drop col_word].
  rewrite H0, H1, H2, H3. cbn [mbind outcome_mbind].
  rewrite !te_word_spec by solve_bytes. cbn [mbind outcome_mbind].
  cbn [Fips.SubBytes fmap list_fmap Fips.mix_column].
  rewrite !col_word_xor by (done || solve_bytes).
  f_equal.
Qed.

Lemma bytes4_ok w : bytes_ok (bytes4 w).
Proof. solve_bytes. Qed.

Lemma AddRoundKey_block k s : block k → block s → block (Fips.AddRoundKey k s).
Proof.
  intros [Hk Hkb] [Hs Hsb]. split; [unfold Fips.AddRoundKey; rewrite length_zip_with; lia|].
  apply (Forall_zip_with_fst _ (in_width 8)); [done|].
  eapply Forall_impl; [exact Hkb|]. auto with go.
Qed.

Lemma key_bytes_block k0 k1 k2 k3 : block (key_bytes k0 k1 k2 k3).
Proof. split; [done|]. unfold key_bytes. cbn. solve_bytes. Qed.

Lemma Round_block k s : block k → block s → block (Fips.Round k s).
Proof.
  intros Hk [Hl Hb]. apply AddRoundKey_block; [done|]. split_list s. split_bytes Hb.
  split; [done|]. cbn. solve_bytes.
Qed.

Lemma LastRound_block k s : block k → block s → block (Fips.LastRound k s).
Proof.
  intros Hk [Hl Hb]. apply AddRoundKey_block; [done|]. split_list s. split_bytes Hb.
  split; [done|]. cbn. solve_bytes.
Qed.

Lemma PUTU32_spec w a b c d l : PUTU32 w (a :: b :: c :: d :: l) = Ret (tt, bytes4 w ++ l).
Proof. unfold PUTU32. slots. done. Qed.

Lemma GETU32_spec a b c d l : bytes_ok [a; b; c; d] → GETU32 (a :: b :: c :: d :: l) 0 = Ret (word4 a b c d).
Proof.
  intros Hb. split_bytes Hb. unfold GETU32. rewrite !Z.add_0_l. slots.
  f_equal. unfold shl. change (2 ^ 8) with 256.
  rewrite !wrap_small by (unfold in_width in *; rewrite Z.shiftl_mul_pow2 by lia;
    change (2 ^ 8) with 256 in *; change (2 ^ 16) with 65536; change (2 ^ 24) with 16777216;
    change (2 ^ 32) with 4294967296; lia).
  rewrite <-(word4_shiftl a b c d) by done. done.
Qed.

Lemma GETU32_cons x l p : GETU32 (x :: l) (Zpos p) = GETU32 l (Zpos p - 1).
Proof.
  unfold GETU32. rewrite !rd_cons. rewrite !(proj2 (Z.eqb_neq _ _)) by lia.
  by rewrite !(Z.add_sub_swap (Zpos p)).
Qed.

Lemma block_cols s : block s →
  ∃ a b c d, s = a ++ b ++ c ++ d ∧ Forall (λ x, length x = 4%nat ∧ bytes_ok x) [a; b; c; d].
Proof.
  intros [Hl Hb]. split_list s. split_bytes Hb.
  eexists [_; _; _; _], [_; _; _; _], [_; _; _; _], [_; _; _; _]. split; [reflexivity|].
  repeat (apply Forall_cons; split); [..|by apply Forall_nil]; (split; [done|solve_bytes]).
Qed.

Lemma bytes4_col_word l : length l = 4%nat → bytes_ok l → bytes4 (col_word l) = l.
Proof. intros Hl Hb. split_list l. split_bytes Hb. cbn [col_word]. by apply bytes4_word4. Qed.

Lemma final_round_spec rk s k0 k1 k2 k3 ct :
  block s → key_at rk 0 k0 k1 k2 k3 → (16 ≤ length ct)%nat →
  final_round rk (st_of s) ct = Ret (Fips.LastRound (key_bytes k0 k1 k2 k3) s ++ drop 16 ct).
Proof.
  intros [Hl Hb] (H0&H1&H2&H3&Hk) Hct. split_list s. split_bytes Hb. split_bytes Hk.
  do 16 (destruct ct as [|? ct]; [simpl in Hct; lia|]). clear Hct.
  rewrite Z.add_0_l in H1, H2, H3.
  unfold final_round, st_of. cbn [take drop col_word]. rewrite H0, H1, H2, H3. cbn [mbind outcome_mbind].
  rewrite !te4_word_spec by solve_bytes. cbn [mbind outcome_mbind].
  rewrite PUTU32_spec. cbn [mbind outcome_mbind].
  rewrite with_tail_app, PUTU32_spec by done. cbn [mbind outcome_mbind].
  rewrite app_assoc, with_tail_app, PUTU32_spec by done. cbn [mbind outcome_mbind].
  rewrite app_assoc, with_tail_app, PUTU32_spec by done. cbn [mbind outcome_mbind].
  cbn [Fips.SubBytes fmap list_fmap].
  rewrite !col_word_xor by (done || solve_bytes).
  rewrite !bytes4_col_word by (done || (apply (Forall_zip_with_fst _ (in_width 8)); [solve_bytes|];
     eapply Forall_impl; [apply bytes4_ok|]; auto with go)).
  by rewrite <-!app_assoc.
Qed.

Lemma round_key_at rk r :
  (4 * r + 4 ≤ length rk)%nat → Forall (in_width 32) rk →
  ∃ k0 k1 k2 k3, key_at rk (4 * Z.of_nat r) k0 k1 k2 k3 ∧ Fips.round_key rk r = key_bytes k0 k1 k2 k3.
Proof.
  intros Hr Hok. destruct (list_split3 (4 * r) 4 rk Hr) as (p&ks&rest&->&Hp&Hks).
  apply Forall_app in Hok as [_ [Hok _]%Forall_app].
  unfold Fips.round_key. rewrite drop_app_length', take_app_length' by done.
  split_list ks. do 4 eexists. split; [|reflexivity].
  assert (blen p = 4 * Z.of_nat r) as Hb by (unfold blen; lia).
  unfold key_at. rewrite !(rd_app_r p) by lia. rewrite Hb, Z.sub_diag, !Z.add_simpl_l. cbn [app].
  slots. done.
Qed.

(** The rounds of the code are the rounds of FIPS-197. *)
Lemma rounds_spec rk s rs :
  Forall (λ r, (4 * r + 4 ≤ length rk)%nat) rs → Forall (in_width 32) rk → block s →
  forM ((λ r, 4 * Z.of_nat r) <$> rs) (enc_round rk) (st_of s)
  = Ret (st_of (foldl (λ s r, Fips.Round (Fips.round_key rk r) s) s rs)) ∧
  block (foldl (λ s r, Fips.Round (Fips.round_key rk r) s) s rs).
Proof.
  intros Hrs Hok. revert s. induction Hrs as [|r rs Hr _ IH]; intros s Hs; [done|].
  destruct (round_key_at rk r Hr Hok) as (k0&k1&k2&k3&Hat&Hrk).
  cbn [fmap list_fmap forM foldl].
  rewrite (enc_round_spec _ _ _ _ _ _ _ Hs Hat), <-Hrk. apply IH.
  apply Round_block; [|done]. rewrite Hrk. apply key_bytes_block.
Qed.

Lemma first_key_spec rk s : (4 ≤ length rk)%nat → Forall (in_width 32) rk → block s →
  first_key rk s = Ret (st_of (Fips.AddRoundKey (Fips.round_key rk 0) s)) ∧
  block (Fips.AddRoundKey (Fips.round_key rk 0) s).
Proof.
  intros Hl Hok Hs.
  destruct (round_key_at rk 0 Hl Hok) as (k0&k1&k2&k3&(H0&H1&H2&H3&Hk)&Hrk).
  rewrite Hrk. split; [|by apply AddRoundKey_block, Hs; apply key_bytes_block].
  destruct Hs as [Hsl Hb]. split_list s. split_bytes Hb. split_bytes Hk.
  change (4 * Z.of_nat 0) with 0 in *. rewrite Z.add_0_l in H1, H2, H3.
  unfold first_key. repeat (rewrite GETU32_cons; zconst). rewrite !GETU32_spec by solve_bytes.
  rewrite H0, H1, H2, H3. cbn [mbind outcome_mbind]. unfold st_of.
  repeat match goal with |- context [word4 ?a ?b ?c ?d ⊕ ?k] =>
    change (word4 a b c d ⊕ k) with (col_word [a; b; c; d] ⊕ k) end.
  by rewrite !col_word_xor by (done || solve_bytes).
Qed.

(** ** The cipher *)

Definition rounds_of (Nr : nat) : Prop := Nr = 10%nat ∨ Nr = 12%nat ∨ Nr = 14%nat.

Lemma AesEncrypt_Cipher rk Nr s ct :
  rounds_of Nr → (4 * (Nr + 1) ≤ length rk)%nat → Forall (in_width 32) rk →
  block s → (16 ≤ length ct)%nat →
  AesEncrypt rk (Z.of_nat Nr) s ct = Ret (Fips.Cipher Nr rk s ++ drop 16 ct).
Proof.
  intros HNr Hl Hok Hs Hct. unfold AesEncrypt.
  destruct (first_key_spec rk s) as [-> Hb0]; [lia|done..|]. ret_bind.
  set (s0 := Fips.AddRoundKey _ s) in *.
  assert (∀ rs s, block s → Forall (λ r, r < Nr)%nat rs →
    forM ((λ r, 4 * Z.of_nat r) <$> rs) (enc_round rk) (st_of s)
    = Ret (st_of (foldl (λ s r, Fips.Round (Fips.round_key rk r) s) s rs)) ∧
    block (foldl (λ s r, Fips.Round (Fips.round_key rk r) s) s rs)) as Hrounds.
  { intros rs s' Hs' Hrs. apply rounds_spec; [|done..]. eapply Forall_impl; [exact Hrs|]. simpl; lia. }
  pose proof (Hrounds (seq 1 9) s0 Hb0) as [H9 Hb9].
  { apply Forall_forall. intros r Hr%elem_of_seq. destruct HNr as [->|[->| ->]]; lia. }
  change (_ <$> seq 1 9) with [4; 8; 12; 16; 20; 24; 28; 32; 36] in H9. rewrite H9.
  ret_bind.
  assert (∀ s', block s' →
    (rk' ← slice rk (Z.of_nat Nr ≪ 2) (blen rk); final_round rk' (st_of s') ct)
    = Ret (Fips.LastRound (Fips.round_key rk Nr) s' ++ drop 16 ct)) as Hlast.
  { intros s' Hs'. rewrite Z.shiftl_mul_pow2 by lia. rewrite slice_from by (unfold blen; lia).
    destruct (round_key_at rk Nr) as (k0&k1&k2&k3&(H0&H1&H2&H3&Hk)&Hrk); [lia|done|].
    ret_bind. rewrite Hrk. apply final_round_spec; [done| |done].
    unfold key_at. rewrite !rd_drop by lia.
    replace (Z.of_nat (Z.to_nat (Z.of_nat Nr * 2 ^ 2))) with (4 * Z.of_nat Nr) by lia.
    rewrite Z.add_0_r, Z.add_0_l. done. }
  unfold Fips.Cipher. fold s0. destruct HNr as [->|[->| ->]].
  - change (10 <? Z.of_nat 10) with false. cbv iota. ret_bind. by rewrite Hlast.
  - destruct (Hrounds [10; 11]%nat _ Hb9) as [H11 Hb11]; [repeat constructor; lia|].
    change (_ <$> [10; 11]%nat) with [40; 44] in H11.
    change (10 <? Z.of_nat 12) with true. change (12 <? Z.of_nat 12) with false. cbv iota.
    rewrite H11. ret_bind. by rewrite Hlast.
  - destruct (Hrounds [10; 11]%nat _ Hb9) as [H11 Hb11]; [repeat constructor; lia|].
    change (_ <$> [10; 11]%nat) with [40; 44] in H11.
    destruct (Hrounds [12; 13]%nat _ Hb11) as [H13 Hb13]; [repeat constructor; lia|].
    change (_ <$> [12; 13]%nat) with [48; 52] in H13.
    change (10 <? Z.of_nat 14) with true. change (12 <? Z.of_nat 14) with true. cbv iota.
    rewrite H11. ret_bind. rewrite H13. ret_bind. by rewrite Hlast.
Qed.

(** ** Key schedule *)

Lemma expand_app Nk m n ws : Fips.expand Nk (m + n) ws = Fips.expand Nk n (Fips.expand Nk m ws).
Proof. revert ws. induction m as [|m IH]; intros ws; [done|]. apply IH. Qed.

Lemma expand_prefix Nk n ws : ∃ ext, Fips.expand Nk n ws = ws ++ ext ∧ length ext = n.
Proof.
  revert ws. induction n as [|n IH]; intros ws; [exists []; by rewrite app_nil_r|].
  destruct (IH (ws ++ [Fips.next_word Nk ws])) as (ext&E&<-).
  exists (Fips.next_word Nk ws :: ext). cbn [Fips.expand]. rewrite E. by rewrite <-app_assoc.
Qed.

Lemma RotWord_word4 a b c d :
  in_width 8 a → in_width 8 b → in_width 8 c → in_width 8 d →
  Fips.RotWord (word4 a b c d) = word4 b c d a.
Proof.
  intros Ha Hb Hc Hd. unfold Fips.RotWord. rewrite (proj1 (shiftr_word4 a b c d Ha Hb Hc Hd)).
  replace (u32 (word4 a b c d ≪ 8)) with (word4 b c d 0).
  2: { unfold wrap, word4, in_width in *. rewrite Z.shiftl_mul_pow2 by lia.
       change (2 ^ 8) with 256 in *. change (2 ^ 32) with 4294967296.
       apply (Z.mod_unique_pos _ _ a); lia. }
  unfold word4. rewrite (pack_lor 8 _ a) by done. by rewrite Z.add_0_r, Z.shiftl_mul_pow2.
Qed.

Lemma SubWord_width w : in_width 32 w → in_width 32 (Fips.SubWord w).
Proof.
  intros Hw. destruct (word4_bytes w Hw) as (a&b&c&d&->&?&?&?&?).
  unfold Fips.SubWord. word_bytes. auto with go.
Qed.

Lemma key_core_spec w : in_width 32 w →
  key_core w = Ret (Fips.SubWord (Fips.RotWord w)) ∧ in_width 32 (Fips.SubWord (Fips.RotWord w)).
Proof.
  intros Hw. destruct (word4_bytes w Hw) as (a&b&c&d&->&?&?&?&?).
  rewrite RotWord_word4 by done. split; [|apply SubWord_width; auto with go].
  unfold key_core, Fips.SubWord. word_bytes. rewrite !Te4_spec by done. ret_bind. cbv zeta.
  by rewrite mask_bytes by auto with go.
Qed.

Lemma key_core_256_spec w : in_width 32 w → key_core_256 w = Ret (Fips.SubWord w).
Proof.
  intros Hw. destruct (word4_bytes w Hw) as (a&b&c&d&->&?&?&?&?).
  unfold key_core_256, Fips.SubWord. word_bytes. rewrite !Te4_spec by done. ret_bind. cbv zeta.
  by rewrite mask_bytes by auto with go.
Qed.

Lemma rcon_spec i : 0 ≤ i < 10 →
  rd rcon i = Ret (Fips.Rcon (Z.to_nat i + 1)) ∧ in_width 32 (Fips.Rcon (Z.to_nat i + 1)).
Proof.
  intros Hi. assert (i ∈ seqZ 0 10) as Hin by (apply elem_of_seqZ; lia).
  change (seqZ 0 10) with [0;1;2;3;4;5;6;7;8;9] in Hin.
  rewrite !list_elem_of_In in Hin. simpl in Hin.
  repeat destruct Hin as [<-|Hin]; try done; (split; [reflexivity|by compute]).
Qed.

(** The word appended after [pre ++ w], where [w] holds the last [Nk] words. *)
Lemma next_word_at Nk pre w j last first :
  length w = Nk → (0 < Nk)%nat → length pre = (Nk * j)%nat →
  w !! (Nk - 1)%nat = Some last → w !! 0%nat = Some first →
  Fips.next_word Nk (pre ++ w) = first ⊕ (Fips.SubWord (Fips.RotWord last) ⊕ Fips.Rcon (j + 1)).
Proof.
  intros Hw HNk Hpre Hl Hf. unfold Fips.next_word. rewrite length_app, Hpre, Hw.
  replace (Nk * j + Nk)%nat with ((j + 1) * Nk)%nat by lia.
  rewrite Nat.Div0.mod_mul, Nat.div_mul by lia. rewrite Nat.eqb_refl.
  rewrite !list_lookup_total_alt, !(lookup_app_r pre) by lia.
  replace ((j + 1) * Nk - 1 - length pre)%nat with (Nk - 1)%nat by lia.
  replace ((j + 1) * Nk - Nk - length pre)%nat with 0%nat by lia. by rewrite Hl, Hf.
Qed.

Lemma next_word_mid Nk pre w new j last src :
  length w = Nk → (0 < length new < Nk)%nat → length pre = (Nk * j)%nat →
  new !! (length new - 1)%nat = Some last → w !! length new = Some src →
  Fips.next_word Nk (pre ++ w ++ new) =
  src ⊕ (if (6 <? Nk)%nat && (length new =? 4)%nat then Fips.SubWord last else last).
Proof.
  intros Hw Hr Hpre Hl Hs. unfold Fips.next_word. rewrite !length_app, Hpre, Hw.
  replace (Nk * j + (Nk + length new))%nat with (length new + (j + 1) * Nk)%nat by lia.
  rewrite Nat.Div0.mod_add, Nat.mod_small by lia.
  rewrite (proj2 (Nat.eqb_neq (length new) 0)) by lia.
  assert ((j + 1) * Nk = Nk + length pre)%nat as -> by lia.
  rewrite !list_lookup_total_alt.
  rewrite (lookup_app_r pre), (lookup_app_l w) by lia.
  rewrite (lookup_app_r pre), (lookup_app_r w) by lia.
  replace (length new + (Nk + length pre) - 1 - length pre - length w)%nat with (length new - 1)%nat by lia.
  replace (length new + (Nk + length pre) - Nk - length pre)%nat with (length new) by lia.
  by rewrite Hl, Hs.
Qed.

(** The two shapes of a step of the word recurrence. *)
Lemma expand_first n Nk pre w j last first :
  length w = Nk → (0 < Nk)%nat → length pre = (Nk * j)%nat →
  w !! (Nk - 1)%nat = Some last → w !! 0%nat = Some first →
  Fips.expand Nk (S n) (pre ++ w) =
  Fips.expand Nk n (pre ++ w ++ [first ⊕ (Fips.SubWord (Fips.RotWord last) ⊕ Fips.Rcon (j + 1))]).
Proof. intros. cbn [Fips.expand]. by erewrite next_word_at, <-app_assoc. Qed.

Lemma expand_mid n Nk pre w new j last src x :
  length w = Nk → (0 < length new < Nk)%nat → length pre = (Nk * j)%nat →
  new !! (length new - 1)%nat = Some last → w !! length new = Some src →
  x = src ⊕ (if (6 <? Nk)%nat && (length new =? 4)%nat then Fips.SubWord last else last) →
  Fips.expand Nk (S n) (pre ++ w ++ new) = Fips.expand Nk n (pre ++ w ++ (new ++ [x])).
Proof. intros. subst x. cbn [Fips.expand]. by erewrite next_word_mid, <-!app_assoc. Qed.

(** The window after [Nk] new words: what one loop iteration writes. *)
Definition next4 (j : nat) (w0 w1 w2 w3 : Z) : list Z :=
  let n0 := w0 ⊕ (Fips.SubWord (Fips.RotWord w3) ⊕ Fips.Rcon (j + 1)) in
  [n0; w1 ⊕ n0; w2 ⊕ (w1 ⊕ n0); w3 ⊕ (w2 ⊕ (w1 ⊕ n0))].

Lemma expand_next4 n pre w0 w1 w2 w3 j :
  length pre = (4 * j)%nat →
  Fips.expand 4 (4 + n) (pre ++ [w0; w1; w2; w3]) =
  Fips.expand 4 n ((pre ++ [w0; w1; w2; w3]) ++ next4 j w0 w1 w2 w3).
Proof.
  intros Hpre. rewrite <-app_assoc. remember [w0; w1; w2; w3] as w eqn:Hw. cbn [Nat.add].
  erewrite expand_first by (try rewrite Hw; done || lia).
  do 3 (erewrite expand_mid by (try rewrite Hw; try reflexivity; try done; simpl; lia); cbn [app]).
  done.
Qed.

(** One iteration of the 128-bit loop appends four words. *)
Lemma setup128_spec fuel i pre w0 w1 w2 w3 rest ext :
  i + Z.of_nat fuel = 10 → 0 ≤ i → (0 < fuel)%nat → length pre = (4 * Z.to_nat i)%nat →
  Forall (in_width 32) [w0; w1; w2; w3] → (4 * fuel ≤ length rest)%nat →
  Fips.expand 4 (4 * fuel) (pre ++ [w0; w1; w2; w3]) = (pre ++ [w0; w1; w2; w3]) ++ ext →
  setup128 fuel i ([w0; w1; w2; w3] ++ rest)
  = Ret (10, [w0; w1; w2; w3] ++ ext ++ drop (4 * fuel) rest) ∧ Forall (in_width 32) ext.
Proof.
  revert i pre w0 w1 w2 w3 rest ext.
  induction fuel as [|fuel IH]; intros i pre w0 w1 w2 w3 rest ext Hi Hi0 Hf Hpre Hok Hrest He; [lia|].
  pose proof Hok as Hok'. split_bytes Hok'.
  destruct rest as [|x0 [|x1 [|x2 [|x3 rest]]]]; try (simpl in Hrest; lia).
  destruct (key_core_spec w3) as [Hc Hcw]; [done|].
  destruct (rcon_spec i) as [Hr Hrw]; [lia|].
  replace (4 * S fuel)%nat with (4 + 4 * fuel)%nat in * by lia.
  rewrite (expand_next4 _ _ _ _ _ _ (Z.to_nat i)) in He by done.
  destruct (expand_prefix 4 (4 * fuel) ((pre ++ [w0; w1; w2; w3]) ++ next4 (Z.to_nat i) w0 w1 w2 w3))
    as (ext'&He'&Hl'). rewrite He', <-(app_assoc (pre ++ _)) in He. apply app_inv_head in He as <-.
  cbn [setup128 app]. slots. rewrite Hc. ret_bind. rewrite Hr. ret_bind. unfold chain. slots.
  rewrite (Z.lxor_assoc w0).
  assert (Forall (in_width 32) (next4 (Z.to_nat i) w0 w1 w2 w3)) as Hn by (unfold next4; solve_bytes).
  unfold next4 in *. set (n0 := w0 ⊕ _) in *. set (n1 := w1 ⊕ _) in *. set (n2 := w2 ⊕ _) in *.
  set (n3 := w3 ⊕ _) in *. destruct (Z.eqb_spec (i + 1) 10) as [Hlast|Hmore].
  { destruct fuel; [|lia]. apply nil_length_inv in Hl' as ->. done. }
  specialize (IH (i + 1) (pre ++ [w0; w1; w2; w3]) n0 n1 n2 n3 rest ext').
  destruct IH as [IHr IHok]; try lia; try done.
  { rewrite length_app, Hpre. simpl. lia. }
  { simpl in Hrest. lia. }
  split; [|by apply Forall_app].
  pose proof (with_tail_app 4 (setup128 fuel (i + 1)) [w0; w1; w2; w3] ([n0; n1; n2; n3] ++ rest) eq_refl) as Ht.
  rewrite IHr in Ht. exact Ht.
Qed.

(** The words of a key. *)
Lemma key_words_4 key : block key → ∃ w0 w1 w2 w3, Fips.key_words 4 key = [w0; w1; w2; w3] ∧
  Forall (in_width 32) [w0; w1; w2; w3] ∧ GETU32 key 0 = Ret w0 ∧ GETU32 key 4 = Ret w1 ∧
  GETU32 key 8 = Ret w2 ∧ GETU32 key 12 = Ret w3.
Proof.
  intros [Hl Hb]. split_list key. split_bytes Hb. do 4 eexists. split; [reflexivity|].
  split; [solve_bytes|]. repeat (rewrite GETU32_cons; zconst). by rewrite !GETU32_spec by solve_bytes.
Qed.

Lemma AesSetupEnc_128 rk key :
  block key → length rk = 44%nat →
  AesSetupEnc rk key 128 = Ret (10, Fips.KeyExpansion 4 10 key) ∧
  Forall (in_width 32) (Fips.KeyExpansion 4 10 key) ∧ length (Fips.KeyExpansion 4 10 key) = 44%nat.
Proof.
  intros Hk Hl. destruct (key_words_4 key Hk) as (w0&w1&w2&w3&Hw&Hok&H0&H1&H2&H3).
  unfold Fips.KeyExpansion. rewrite Hw. change (4 * (10 + 1) - 4)%nat with 40%nat.
  destruct (expand_prefix 4 40 [w0; w1; w2; w3]) as (ext&He&Hext).
  destruct rk as [|x0 [|x1 [|x2 [|x3 rest]]]]; try discriminate Hl.
  destruct (setup128_spec 10 0 [] w0 w1 w2 w3 rest ext) as [Hs Hse];
    [lia|lia|lia|reflexivity|exact Hok|simpl in Hl; lia|exact He|].
  rewrite He. clear He. split; [|split; [by apply Forall_app|rewrite length_app, Hext; reflexivity]].
  unfold AesSetupEnc. rewrite H0, H1, H2, H3. ret_bind. slots.
  change (128 =? 128) with true. cbv iota. cbn [app] in Hs. rewrite Hs.
  rewrite drop_ge by (simpl in Hl; lia). by rewrite app_nil_r.
Qed.

(** Blocks and byte lists given by constants. *)
Lemma block_dec (l : list Z) :
  Nat.eqb (length l) 16 && forallb (λ z, (0 <=? z) && (z <? 256)) l = true → block l.
Proof.
  intros [Hl Hb]%andb_true_iff. split; [by apply Nat.eqb_eq|].
  apply Forall_forall. intros z Hz. rewrite forallb_forall in Hb.
  apply list_elem_of_In in Hz. specialize (Hb z Hz). unfold in_width. change (2 ^ 8) with 256. lia.
Qed.

(** ** Block ciphers

    What the users of the cipher need: a function on blocks of 16 bytes. *)

Class BlockCipher := {
  bc_encrypt : list Z → list Z → list Z;
  bc_block key x : block key → block x → block (bc_encrypt key x);
}.

Lemma Cipher_block Nr ws s :
  (0 < Nr)%nat → (4 * (Nr + 1) ≤ length ws)%nat → Forall (in_width 32) ws → block s →
  block (Fips.Cipher Nr ws s).
Proof.
  intros HNr Hl Hok Hs.
  assert (∀ r, (r ≤ Nr)%nat → block (Fips.round_key ws r)) as Hrk.
  { intros r Hr. destruct (round_key_at ws r) as (k0&k1&k2&k3&_&->); [lia|done|]. apply key_bytes_block. }
  apply LastRound_block; [auto|]. apply rounds_spec; [|done|apply AddRoundKey_block; auto with lia].
  apply Forall_forall. intros r Hr%elem_of_seq. lia.
Qed.

Lemma encrypt128_block key x : block key → block x → block (Fips.encrypt128 key x).
Proof.
  intros Hk Hx. destruct (AesSetupEnc_128 (replicate 44 0) key Hk) as (_&Hok&Hl); [done|].
  apply Cipher_block; [lia|rewrite Hl; lia|done..].
Qed.

#[export] Instance aes128 : BlockCipher :=
  {| bc_encrypt := Fips.encrypt128; bc_block := encrypt128_block |}.

Lemma aes128_run key rk s ct :
  block key → block s → length rk = 44%nat → (16 ≤ length ct)%nat →
  ('(nrounds, rk) ← AesSetupEnc rk key 128; AesEncrypt rk nrounds s ct)
  = Ret (Fips.encrypt128 key s ++ drop 16 ct).
Proof.
  intros Hk Hs Hrk Hct. destruct (AesSetupEnc_128 rk key Hk Hrk) as (->&Hok&Hl). ret_bind.
  apply (AesEncrypt_Cipher _ 10); [by left|rewrite Hl; lia|done..].
Qed.

(** ** Properties *)

(** AesEncrypt computes the FIPS-197 cipher for 10, 12 and 14 rounds: with
    any expanded key of enough 32-bit words, the first 16 bytes of the output
    buffer become the cipher of the plaintext block and the rest is kept. *)
Theorem AesEncrypt_refines_FIPS197 rk Nr s ct :
  rounds_of Nr → (4 * (Nr + 1) ≤ length rk)%nat → Forall (in_width 32) rk →
  block s → (16 ≤ length ct)%nat →
  AesEncrypt rk (Z.of_nat Nr) s ct = Ret (Fips.Cipher Nr rk s ++ drop 16 ct).
Proof. apply AesEncrypt_Cipher. Qed.

(** C7. Key setup followed by encryption is AES-128: the table-driven code with
    the key expanded by AesSetupEnc equals the S-box, ShiftRows, MixColumns and
    key-expansion definition of FIPS-197 on every key and block. *)
Theorem aes128_refines_FIPS197 key rk s ct :
  block key → block s → length rk = 44%nat → (16 ≤ length ct)%nat →
  ('(nrounds, rk) ← AesSetupEnc rk key 128; AesEncrypt rk nrounds s ct)
  = Ret (Fips.encrypt128 key s ++ drop 16 ct).
Proof. apply aes128_run. Qed.

Lemma seq_block : block (seqZ 0 16).
Proof.
  split; [reflexivity|]. apply Forall_forall. intros z Hz%elem_of_seqZ.
  unfold in_width. change (2 ^ 8) with 256. lia.
Qed.

Lemma AesEncrypt_refines_FIPS197_witness :
  AesEncrypt (replicate 44 1) 10 (seqZ 0 16) (seqZ 0 16)
  = Ret (Fips.Cipher 10 (replicate 44 1) (seqZ 0 16) ++ drop 16 (seqZ 0 16)).
Proof.
  apply (AesEncrypt_refines_FIPS197 (replicate 44 1) 10).
  - left. reflexivity.
  - simpl. lia.
  - apply Forall_replicate. split; [lia|reflexivity].
  - exact seq_block.
  - simpl. lia.
Defined.

Lemma aes128_refines_FIPS197_witness :
  ('(nrounds, rk) ← AesSetupEnc (replicate 44 0) (seqZ 0 16) 128;
   AesEncrypt rk nrounds (seqZ 0 16) (seqZ 0 16))
  = Ret (Fips.encrypt128 (seqZ 0 16) (seqZ 0 16) ++ drop 16 (seqZ 0 16)).
Proof.
  apply aes128_refines_FIPS197; [exact seq_block|exact seq_block|reflexivity|simpl; lia].
Defined.

#[global] Opaque Fips.encrypt128 AesSetupEnc AesEncrypt.
