(* ===== verification/Milenage.v ===== *)
(** * lib/milenage/milenage.go: the Milenage authentication functions

    The functions write into caller-supplied buffers; a [nil] buffer is
    [None].  [Ts35206] holds the functions f1..f5* of 3GPP TS 35.206. *)

From S2P Require Import Prelude AesTables Aes.

#[local] Open Scope Z_scope.
#[local] Open Scope go_scope.

(** ** The code *)

Definition rtLength (keybits : Z) : Z := Z.quot keybits 8 + 28.

Definition aes128EncryptBlock (key inp out : list Z) : outcome (Z * list Z) :=
  let rk := replicate (Z.to_nat (rtLength 128)) 0 in
  '(nrounds, rk) ← AesSetupEnc rk key 128;
  out ← AesEncrypt rk nrounds inp out;
  Ret (0, out).

(** [for i := 0; i < n; i++ { dst[(i+r)%16] = a[i] ^ b[i] }] *)
Definition xor_rot (n r : Z) (a b dst : list Z) : outcome (list Z) :=
  forM (seqZ 0 n) (λ i dst, x ← rd a i; y ← rd b i; wr dst ((i + r) mod 16) (x ⊕ y)) dst.

(** [for i := 0; i < n; i++ { dst[i] ^= b[i] }] *)
Definition xor_into (n : Z) (b dst : list Z) : outcome (list Z) :=
  forM (seqZ 0 n) (λ i dst, x ← rd dst i; y ← rd b i; wr dst i (x ⊕ y)) dst.

(** [tmp1[15] ^= c] *)
Definition xor_const (c : Z) (tmp1 : list Z) : outcome (list Z) :=
  x ← rd tmp1 15; wr tmp1 15 (x ⊕ c).

(** [copy(dst[off:], src)] *)
Definition copy_at (off : Z) (dst src : list Z) : outcome (list Z) :=
  '(_, dst) ← with_tail off (λ tl, Ret (tt, gocopy tl src)) dst; Ret dst.

(** [if dst != nil { copy(dst[0:], src) }] *)
Definition copy_opt (dst : option (list Z)) (src : list Z) : option (list Z) :=
  (λ d, gocopy d src) <$> dst.

Definition zeros (n : nat) : list Z := replicate n 0.

(** IN1 = SQN || AMF || SQN || AMF, built in [tmp2]. *)
Definition build_in1 (sqn amf : list Z) : outcome (list Z) :=
  sqn6 ← slice sqn 0 6; tmp2 ← copy_at 0 (zeros 16) sqn6;
  amf2 ← slice amf 0 2; tmp2 ← copy_at 6 tmp2 amf2;
  t8 ← slice tmp2 0 8; copy_at 8 tmp2 t8.

Definition milenageF1 (opc k _rand sqn amf : list Z) (mac_a mac_s : option (list Z))
  : outcome (Z * (option (list Z) * option (list Z))) :=
  rijndaelInput ← xor_rot 16 0 _rand opc (zeros 16);
  '(e, tmp1) ← aes128EncryptBlock k rijndaelInput (zeros 16);
  if negb (e =? 0) then Ret (-1, (mac_a, mac_s)) else
  tmp2 ← build_in1 sqn amf;
  tmp3 ← xor_rot 16 8 tmp2 opc (zeros 16);
  tmp3 ← xor_into 16 tmp1 tmp3;
  '(e, tmp1) ← aes128EncryptBlock k tmp3 tmp1;
  if negb (e =? 0) then Ret (-1, (mac_a, mac_s)) else
  tmp1 ← xor_into 16 opc tmp1;
  ma ← slice tmp1 0 8; ms ← slice tmp1 8 16;
  Ret (0, (copy_opt mac_a ma, copy_opt mac_s ms)).

(** The five output buffers of [milenageF2345]. *)
Record kbufs := KBufs {
  b_res : option (list Z); b_ck : option (list Z); b_ik : option (list Z);
  b_ak : option (list Z); b_akstar : option (list Z);
}.

(** The [if ck != nil] and [if ik != nil] blocks: rotate, add the constant,
    encrypt into the buffer, add OPc there.  [tmp1] is scratch space. *)
Definition f34_block (rot c : Z) (opc k tmp2 : list Z) (tmp1 : list Z) (buf : option (list Z))
  : outcome (Z * (list Z * option (list Z))) :=
  match buf with
  | None => Ret (0, (tmp1, None))
  | Some out =>
    tmp1 ← xor_rot 16 rot tmp2 opc tmp1;
    tmp1 ← xor_const c tmp1;
    '(e, out) ← aes128EncryptBlock k tmp1 out;
    if negb (e =? 0) then Ret (-1, (tmp1, Some out)) else
    out ← xor_into 16 opc out;
    Ret (0, (tmp1, Some out))
  end.

(** The [if akstar != nil] block, which encrypts [tmp1] in place. *)
Definition f5star_block (opc k tmp2 tmp1 : list Z) (buf : option (list Z))
  : outcome (Z * option (list Z)) :=
  match buf with
  | None => Ret (0, None)
  | Some akstar =>
    tmp1 ← xor_rot 16 4 tmp2 opc tmp1;
    tmp1 ← xor_const 8 tmp1;
    '(e, tmp1) ← aes128EncryptBlock k tmp1 tmp1;
    if negb (e =? 0) then Ret (-1, Some akstar) else
    akstar ← xor_rot 6 0 tmp1 opc akstar;
    Ret (0, Some akstar)
  end.

Definition milenageF2345 (opc k _rand : list Z) (b : kbufs) : outcome (Z * kbufs) :=
  tmp1 ← xor_rot 16 0 _rand opc (zeros 16);
  '(e, tmp2) ← aes128EncryptBlock k tmp1 (zeros 16);
  if negb (e =? 0) then Ret (-1, b) else
  tmp1 ← xor_rot 16 0 tmp2 opc tmp1;
  tmp1 ← xor_const 1 tmp1;
  '(e, tmp3) ← aes128EncryptBlock k tmp1 (zeros 16);
  if negb (e =? 0) then Ret (-1, b) else
  tmp3 ← xor_into 16 opc tmp3;
  r8 ← slice tmp3 8 16; a6 ← slice tmp3 0 6;
  let res := copy_opt (b_res b) r8 in
  let ak := copy_opt (b_ak b) a6 in
  '(e, (tmp1, ck)) ← f34_block 12 2 opc k tmp2 tmp1 (b_ck b);
  if negb (e =? 0) then Ret (-1, KBufs res ck (b_ik b) ak (b_akstar b)) else
  '(e, (tmp1, ik)) ← f34_block 8 4 opc k tmp2 tmp1 (b_ik b);
  if negb (e =? 0) then Ret (-1, KBufs res ck ik ak (b_akstar b)) else
  '(e, akstar) ← f5star_block opc k tmp2 tmp1 (b_akstar b);
  if negb (e =? 0) then Ret (-1, KBufs res ck ik ak akstar) else
  Ret (0, KBufs res ck ik ak akstar).

(** Indexing and slicing a [nil] slice panics, unless the slice is empty. *)
Definition rd_opt (l : option (list Z)) (i : Z) : outcome Z := rd (default [] l) i.

Record gen_out := GenOut {
  g_autn : list Z; g_ik : option (list Z); g_ck : option (list Z);
  g_ak : option (list Z); g_res : option (list Z); g_res_len : Z;
}.

(** The AUTN loop copies AMF and MAC on every turn. *)
Definition autn_loop (sqn amf mac_a : list Z) (ak : option (list Z)) (autn : list Z) : outcome (list Z) :=
  forM (seqZ 0 6) (λ i autn,
    s ← rd sqn i; a ← rd_opt ak i; autn ← wr autn i (s ⊕ a);
    amf2 ← slice amf 0 2; autn ← copy_at 6 autn amf2;
    m8 ← slice mac_a 0 8; copy_at 8 autn m8) autn.

Definition MilenageGenerate (opc amf k sqn _rand autn : list Z) (ik ck ak res : option (list Z))
    (res_len : Z) : outcome gen_out :=
  if res_len <? 8 then Ret (GenOut autn ik ck ak res 0) else
  '(e, (mac_a, _)) ← milenageF1 opc k _rand sqn amf (Some (zeros 8)) None;
  if negb (e =? 0) then Ret (GenOut autn ik ck ak res 0) else
  '(e, b) ← milenageF2345 opc k _rand (KBufs res ck ik ak None);
  if negb (e =? 0) then Ret (GenOut autn (b_ik b) (b_ck b) (b_ak b) (b_res b) 0) else
  autn ← autn_loop sqn amf (default [] mac_a) (b_ak b) autn;
  Ret (GenOut autn (b_ik b) (b_ck b) (b_ak b) (b_res b) 8).

(** Result code and the [sqn] buffer. *)
Definition Milenage_auts (opc k _rand auts sqn : list Z) : outcome (Z * list Z) :=
  let amf := [0x00; 0x00] in
  '(e, b) ← milenageF2345 opc k _rand (KBufs None None None None (Some (zeros 6)));
  if negb (e =? 0) then Ret (-1, sqn) else
  sqn ← xor_rot 6 0 auts (default [] (b_akstar b)) sqn;
  '(e, (_, mac_s)) ← milenageF1 opc k _rand sqn amf None (Some (zeros 8));
  if negb (e =? 0) then Ret (-1, sqn) else
  m ← slice auts 6 14;
  if bool_decide (default [] mac_s = m) then Ret (0, sqn) else Ret (-1, sqn).

(** Result code, [sres] and [kc]. *)
Definition Gsm_milenage (opc k _rand sres kc : list Z) : outcome (Z * (list Z * list Z)) :=
  '(e, b) ← milenageF2345 opc k _rand
    (KBufs (Some (zeros 8)) (Some (zeros 16)) (Some (zeros 16)) None None);
  if negb (e =? 0) then Ret (-1, (sres, kc)) else
  let ck := default [] (b_ck b) in let ik := default [] (b_ik b) in
  let res := default [] (b_res b) in
  kc ← forM (seqZ 0 8) (λ i kc,
    c0 ← rd ck i; c8 ← rd ck (i + 8); i0 ← rd ik i; i8 ← rd ik (i + 8);
    wr kc i (c0 ⊕ c8 ⊕ i0 ⊕ i8)) kc;
  sres ← forM (seqZ 0 4) (λ i sres,
    r0 ← rd res i; r4 ← rd res (i + 4); wr sres i (r0 ⊕ r4)) sres;
  Ret (0, (sres, kc)).

(** [os_memcmp]: the index of the first difference, with a sign. *)
Fixpoint memcmp_from (n : nat) (i : Z) (a b : list Z) : outcome Z :=
  match n with
  | O => Ret 0
  | S n =>
    x ← rd a i; y ← rd b i;
    if x <? y then Ret (- i) else if y <? x then Ret i else memcmp_from n (i + 1) a b
  end.

Definition os_memcmp (a b : list Z) (num : Z) : outcome Z := memcmp_from (Z.to_nat num) 0 a b.

Record check_out := CheckOut {
  c_ret : Z; c_ik : option (list Z); c_ck : option (list Z); c_res : option (list Z);
  c_res_len : Z; c_auts : list Z;
}.

Definition Milenage_check (opc k sqn _rand autn : list Z) (ik ck res : option (list Z))
    (res_len : Z) (auts : list Z) : outcome check_out :=
  '(e, b) ← milenageF2345 opc k _rand (KBufs res ck ik (Some (zeros 6)) None);
  let out code auts := CheckOut code (b_ik b) (b_ck b) (b_res b) 8 auts in
  if negb (e =? 0) then Ret (CheckOut (-1) (b_ik b) (b_ck b) (b_res b) res_len auts) else
  rx_sqn ← xor_rot 6 0 autn (default [] (b_ak b)) (zeros 6);
  c ← os_memcmp rx_sqn sqn 6;
  if c <=? 0 then
    '(e, b') ← milenageF2345 opc k _rand (KBufs None None None None (b_ak b));
    if negb (e =? 0) then Ret (out (-1) auts) else
    auts ← xor_rot 6 0 sqn (default [] (b_akstar b')) auts;
    '(e, auts) ← with_tail 6 (λ tl,
      '(e, (_, ms)) ← milenageF1 opc k _rand sqn [0x00; 0x00] None (Some tl);
      Ret (e, default tl ms)) auts;
    if negb (e =? 0) then Ret (out (-1) auts) else Ret (out (-2) auts)
  else
    amf ← slice autn 6 (blen autn);
    '(e, (mac_a, _)) ← milenageF1 opc k _rand rx_sqn amf (Some (zeros 8)) None;
    if negb (e =? 0) then Ret (out (-1) auts) else
    m ← slice autn 8 (blen autn);
    c ← os_memcmp (default [] mac_a) m 8;
    if negb (c =? 0) then Ret (out (-1) auts) else Ret (out 0 auts).

Definition milenage_opc (k op opc : list Z) : outcome (list Z) :=
  '(_, opc) ← aes128EncryptBlock k op opc; xor_into 16 op opc.

Definition GenerateOPC (k op opc : list Z) : outcome (list Z) := milenage_opc k op opc.
Definition F1_Test := milenageF1.
Definition F2345_Test := milenageF2345.

(** ** 3GPP TS 35.206 *)

Module Ts35206.
Section Functions.
Context `{BlockCipher}.

Definition xor (a b : list Z) : list Z := zip_with Z.lxor a b.
(** Cyclic rotation left by [n] bytes. *)
Definition rot (n : nat) (x : list Z) : list Z := drop n x ++ take n x.
Definition const (c : Z) : list Z := replicate 15 0 ++ [c].

Definition OPc (k op : list Z) : list Z := xor (bc_encrypt k op) op.
Definition TEMP (opc k rand : list Z) : list Z := bc_encrypt k (xor rand opc).
Definition IN1 (sqn amf : list Z) : list Z := sqn ++ amf ++ sqn ++ amf.
Definition OUT1 (opc k rand sqn amf : list Z) : list Z :=
  xor (bc_encrypt k (xor (rot 8 (xor (IN1 sqn amf) opc)) (TEMP opc k rand))) opc.
(** OUT2..OUT5, with rotation [r] in bytes and constant [c]. *)
Definition OUT (r : nat) (c : Z) (opc k rand : list Z) : list Z :=
  xor (bc_encrypt k (xor (rot r (xor (TEMP opc k rand) opc)) (const c))) opc.

Definition f1 opc k rand sqn amf := take 8 (OUT1 opc k rand sqn amf).
Definition f1star opc k rand sqn amf := drop 8 (OUT1 opc k rand sqn amf).
Definition f2 opc k rand := drop 8 (OUT 0 1 opc k rand).
Definition f3 opc k rand := OUT 4 2 opc k rand.
Definition f4 opc k rand := OUT 8 4 opc k rand.
Definition f5 opc k rand := take 6 (OUT 0 1 opc k rand).
Definition f5star opc k rand := take 6 (OUT 12 8 opc k rand).
End Functions.
End Ts35206.

(** ** The buffers hold what the standard says *)

Section Spec.
Import Ts35206.

Lemma slice_prefix {A} (l : list A) b : 0 ≤ b ≤ blen l → slice l 0 b = Ret (take (Z.to_nat b) l).
Proof.
  intros Hb. unfold slice.
  rewrite (proj2 (Z.ltb_ge _ _)), (proj2 (Z.ltb_ge _ _)), (proj2 (Z.ltb_ge _ _)) by lia.
  by rewrite Z.sub_0_r.
Qed.

Lemma slice_suffix {A} (l : list A) a b :
  0 ≤ a ≤ b → blen l = b → slice l a b = Ret (drop (Z.to_nat a) l).
Proof. intros Ha <-. by apply slice_from. Qed.

Lemma xor_block a b : block a → block b → block (xor a b).
Proof. intros. by apply AddRoundKey_block. Qed.

Lemma rot_block n x : block x → block (rot n x).
Proof.
  intros [Hl Hb]. unfold rot. split; [rewrite length_app, length_drop, length_take; lia|].
  apply Forall_app. split; [by apply Forall_drop|by apply Forall_take].
Qed.

Lemma const_block c : in_width 8 c → block (const c).
Proof. intros Hc. split; [done|]. unfold const. cbn. solve_bytes. Qed.

Lemma aes128EncryptBlock_spec k x out : block k → block x → (16 ≤ length out)%nat →
  aes128EncryptBlock k x out = Ret (0, bc_encrypt k x ++ drop 16 out).
Proof.
  intros Hk Hx Ho. unfold aes128EncryptBlock.
  set (rk0 := replicate (Z.to_nat (rtLength 128)) 0).
  pose proof (aes128_run k rk0 x out Hk Hx eq_refl Ho) as H.
  destruct (AesSetupEnc rk0 k 128) as [[nr rk]|e|]; try discriminate H.
  cbn [mbind outcome_mbind] in H |- *. by rewrite H.
Qed.

Lemma xor_rot_spec r n a b t :
  (r = 0 ∧ n = 0 ∨ r = 8 ∧ n = 8 ∨ r = 12 ∧ n = 4 ∨ r = 4 ∧ n = 12)%Z →
  length a = 16%nat → length b = 16%nat → length t = 16%nat →
  xor_rot 16 r a b t = Ret (rot (Z.to_nat n) (xor a b)).
Proof.
  intros Hr Ha Hb Ht. split_list a. split_list b. split_list t.
  destruct Hr as [[-> ->]|[[-> ->]|[[-> ->]|[-> ->]]]]; reflexivity.
Qed.

Lemma xor_into_spec b t : length b = 16%nat → length t = 16%nat → xor_into 16 b t = Ret (xor t b).
Proof. intros Hb Ht. split_list b. split_list t. reflexivity. Qed.

Lemma xor_const_spec c s : length s = 16%nat → xor_const c s = Ret (xor s (const c)).
Proof. intros Hs. split_list s. unfold xor_const, xor, const. cbn -[Z.lxor]. by rewrite !Z.lxor_0_r. Qed.

Lemma build_in1_spec sqn amf : length sqn = 6%nat → (2 ≤ length amf)%nat →
  build_in1 sqn amf = Ret (IN1 sqn (take 2 amf)).
Proof.
  intros Hs Ha. split_list sqn. destruct amf as [|a [|b amf]]; try (simpl in Ha; lia).
  unfold build_in1. rewrite (slice_prefix (a :: b :: amf) 2) by (unfold blen; simpl; lia). reflexivity.
Qed.

(** Blocks and buffer lengths. *)
#[local] Ltac blk :=
  try assumption;
  lazymatch goal with
  | |- length (zeros _) = _ => apply length_replicate
  | |- length ?x = 16%nat => apply (proj1 (A:=length x = 16%nat) (B:=bytes_ok x)); change (block x); blk
  | |- block (xor _ _) => apply xor_block; blk
  | |- block (rot _ _) => apply rot_block; blk
  | |- block (const _) => apply const_block; assumption
  | |- block (bc_encrypt _ _) => apply bc_block; blk
  | |- block (TEMP _ _ _) => unfold TEMP; blk
  end.

Lemma OUT_block r c opc k rand :
  in_width 8 c → block opc → block k → block rand → block (OUT r c opc k rand).
Proof. intros. unfold OUT. blk. Qed.

Lemma IN1_block sqn amf :
  length sqn = 6%nat → length amf = 2%nat → bytes_ok sqn → bytes_ok amf → block (IN1 sqn amf).
Proof.
  intros Hs Ha Hsb Hab. unfold IN1. split; [rewrite !length_app; lia|].
  unfold bytes_ok. rewrite !Forall_app. done.
Qed.

Lemma OUT1_block opc k rand sqn amf :
  block (IN1 sqn amf) → block opc → block k → block rand → block (OUT1 opc k rand sqn amf).
Proof. intros. unfold OUT1. blk. Qed.

Lemma xor_rot_0 a b t : length a = 16%nat → length b = 16%nat → length t = 16%nat →
  xor_rot 16 0 a b t = Ret (xor a b).
Proof.
  intros Ha Hb Ht. rewrite (xor_rot_spec 0 0) by auto.
  unfold rot. simpl. by rewrite app_nil_r.
Qed.

(** A call of the cipher whose return code is tested. *)
Lemma aes_call {A} k x out (f : list Z → outcome A) (g : list Z → outcome A) :
  block k → block x → length out = 16%nat →
  ('(e, out) ← aes128EncryptBlock k x out; if negb (e =? 0) then g out else f out)
  = f (bc_encrypt k x).
Proof.
  intros Hk Hx Ho. rewrite aes128EncryptBlock_spec by (done || lia). ret_bind.
  rewrite drop_ge, app_nil_r by lia. done.
Qed.

Lemma f1_spec opc k rand sqn amf ma ms :
  block opc → block k → block rand → length sqn = 6%nat → bytes_ok sqn →
  (2 ≤ length amf)%nat → bytes_ok amf →
  milenageF1 opc k rand sqn amf ma ms =
  Ret (0, (copy_opt ma (f1 opc k rand sqn (take 2 amf)), copy_opt ms (f1star opc k rand sqn (take 2 amf)))).
Proof.
  intros Ho Hk Hr Hs Hsb Ha Hab.
  assert (length (take 2 amf) = 2%nat) as Ha2 by (rewrite length_take; lia).
  assert (bytes_ok (take 2 amf)) as Hab2 by by apply Forall_take.
  pose proof (IN1_block sqn _ Hs Ha2 Hsb Hab2) as Hi.
  pose proof (OUT1_block opc k rand sqn _ Hi Ho Hk Hr) as Hout.
  unfold milenageF1.
  rewrite xor_rot_0 by blk. ret_bind.
  rewrite (aes_call k) by blk.
  rewrite build_in1_spec by done. ret_bind.
  rewrite (xor_rot_spec 8 8) by (lia || blk). ret_bind.
  rewrite xor_into_spec by blk. ret_bind.
  rewrite (aes_call k) by blk.
  rewrite xor_into_spec by blk. ret_bind.
  change (xor (bc_encrypt k _) opc) with (OUT1 opc k rand sqn (take 2 amf)).
  assert (blen (OUT1 opc k rand sqn (take 2 amf)) = 16) as Hl by (unfold blen; rewrite (proj1 Hout); lia).
  rewrite slice_prefix by lia. ret_bind.
  rewrite slice_suffix by lia. done.
Qed.

Lemma f34_block_spec rot r c opc k rand t buf :
  (rot = 8 ∧ r = 8%nat ∨ rot = 12 ∧ r = 4%nat)%Z →
  in_width 8 c → block opc → block k → block rand → length t = 16%nat →
  (∀ b, buf = Some b → length b = 16%nat) →
  ∃ t', length t' = 16%nat ∧
    f34_block rot c opc k (TEMP opc k rand) t buf =
    Ret (0, (t', (λ _, OUT r c opc k rand) <$> buf)).
Proof.
  intros Hrot Hc Ho Hk Hr Ht Hbuf. destruct buf as [b|]; [|exists t; split; [done|reflexivity]].
  specialize (Hbuf b eq_refl).
  exists (xor (Ts35206.rot r (xor (TEMP opc k rand) opc)) (const c)). split; [blk|].
  unfold f34_block. rewrite (xor_rot_spec rot (Z.of_nat r)) by (lia || blk). ret_bind.
  rewrite Nat2Z.id, xor_const_spec by blk. ret_bind.
  rewrite (aes_call k) by blk.
  rewrite xor_into_spec by blk. ret_bind. done.
Qed.

Lemma f5star_block_spec opc k rand t buf :
  block opc → block k → block rand → length t = 16%nat →
  (∀ b, buf = Some b → length b = 6%nat) →
  f5star_block opc k (TEMP opc k rand) t buf = Ret (0, (λ _, f5star opc k rand) <$> buf).
Proof.
  intros Ho Hk Hr Ht Hbuf. destruct buf as [b|]; [|reflexivity].
  specialize (Hbuf b eq_refl). assert (in_width 8 8) as Hc by (unfold in_width; lia).
  unfold f5star_block. rewrite (xor_rot_spec 4 12) by (lia || blk). ret_bind.
  rewrite xor_const_spec by blk. ret_bind.
  rewrite (aes_call k) by blk.
  unfold f5star, OUT. change (Z.to_nat 12) with 12%nat.
  assert (block (bc_encrypt k (xor (Ts35206.rot 12 (xor (TEMP opc k rand) opc)) (const 8)))) as Hb by blk.
  revert Hb. generalize (bc_encrypt k (xor (Ts35206.rot 12 (xor (TEMP opc k rand) opc)) (const 8))).
  intros x [Hx _]. destruct Ho as [Ho _]. split_list x. split_list opc. split_list b. reflexivity.
Qed.

(** Buffers of the sizes [milenageF2345] writes; [ck] and [ik] are blocks. *)
Definition kbufs_ok (b : kbufs) : Prop :=
  (∀ x, b_ck b = Some x → length x = 16%nat) ∧ (∀ x, b_ik b = Some x → length x = 16%nat) ∧
  (∀ x, b_akstar b = Some x → length x = 6%nat).

Definition kbufs_spec (opc k rand : list Z) (b : kbufs) : kbufs :=
  KBufs (copy_opt (b_res b) (f2 opc k rand)) ((λ _, f3 opc k rand) <$> b_ck b)
    ((λ _, f4 opc k rand) <$> b_ik b) (copy_opt (b_ak b) (f5 opc k rand))
    ((λ _, f5star opc k rand) <$> b_akstar b).

Lemma f2345_spec opc k rand b :
  block opc → block k → block rand → kbufs_ok b →
  milenageF2345 opc k rand b = Ret (0, kbufs_spec opc k rand b).
Proof.
  intros Ho Hk Hr (Hck & Hik & Has). unfold milenageF2345.
  rewrite xor_rot_0 by blk. ret_bind.
  rewrite (aes_call k) by blk.
  change (bc_encrypt k (xor rand opc)) with (TEMP opc k rand).
  rewrite xor_rot_0 by blk. ret_bind.
  rewrite xor_const_spec by blk. ret_bind.
  assert (in_width 8 1) as H1 by (unfold in_width; lia).
  assert (in_width 8 2) as H2 by (unfold in_width; lia).
  assert (in_width 8 4) as H4 by (unfold in_width; lia).
  rewrite (aes_call k) by blk.
  rewrite xor_into_spec by blk. ret_bind.
  set (o := xor (bc_encrypt k (xor (xor (TEMP opc k rand) opc) (const 1))) opc).
  assert (o = OUT 0 1 opc k rand) as Heq.
  { unfold o, OUT, Ts35206.rot. simpl. by rewrite app_nil_r. }
  assert (blen o = 16) as Hl by (rewrite Heq; unfold blen; rewrite (proj1 (OUT_block 0 1 opc k rand H1 Ho Hk Hr)); lia).
  rewrite (slice_suffix o 8 16), (slice_prefix o 6) by lia. ret_bind. cbv zeta.
  destruct (f34_block_spec 12 4 2 opc k rand (xor (xor (TEMP opc k rand) opc) (const 1)) (b_ck b))
    as (t1 & Ht1 & ->); [lia|blk..|done|]. ret_bind. change (negb (0 =? 0)) with false. cbn iota.
  destruct (f34_block_spec 8 8 4 opc k rand t1 (b_ik b)) as (t2 & Ht2 & ->); [lia|blk..|done|].
  ret_bind. change (negb (0 =? 0)) with false. cbn iota.
  rewrite f5star_block_spec by (done || blk). ret_bind. change (negb (0 =? 0)) with false. cbn iota.
  unfold kbufs_spec, f2, f5. by rewrite Heq.
Qed.

Lemma opc_spec k op opc : block k → block op → length opc = 16%nat →
  GenerateOPC k op opc = Ret (OPc k op).
Proof.
  intros Hk Hop Hl. unfold GenerateOPC, milenage_opc.
  rewrite aes128EncryptBlock_spec by (done || lia). ret_bind.
  rewrite drop_ge, app_nil_r by lia. by rewrite xor_into_spec by blk.
Qed.

(** ** Comparison, generation and checking *)

(** The first position where two lists differ, and whether the first list is
    the larger one there. *)
Fixpoint first_diff (a b : list Z) : option (Z * bool) :=
  match a, b with
  | x :: a, y :: b =>
    if x =? y then prod_map (Z.add 1) id <$> first_diff a b else Some (0, y <? x)
  | _, _ => None
  end.

Definition memcmp_result (d : option (Z * bool)) : Z :=
  match d with None => 0 | Some (i, true) => i | Some (i, false) => - i end.

Lemma first_diff_refl a : first_diff a a = None.
Proof. induction a as [|x a IH]; simpl; [done|]. by rewrite Z.eqb_refl, IH. Qed.

Lemma first_diff_app p a b :
  first_diff (p ++ a) (p ++ b) = prod_map (Z.add (blen p)) id <$> first_diff a b.
Proof.
  induction p as [|x p IH]; simpl.
  - by destruct (first_diff a b) as [[i g]|].
  - rewrite Z.eqb_refl, IH. destruct (first_diff a b) as [[i g]|]; [|done].
    unfold blen. cbn [fmap option_fmap option_map prod_map fst snd id length]. do 2 f_equal. lia.
Qed.

Lemma memcmp_from_drop (n i : nat) a b :
  (i + n ≤ length a)%nat → (i + n ≤ length b)%nat →
  memcmp_from n (Z.of_nat i) a b =
  Ret (memcmp_result (prod_map (Z.add (Z.of_nat i)) id <$>
    first_diff (take n (drop i a)) (take n (drop i b)))).
Proof.
  revert i. induction n as [|n IH]; intros i Ha Hb; [done|]. cbn [memcmp_from].
  destruct (lookup_lt_is_Some_2 a i) as [x Hx]; [lia|].
  destruct (lookup_lt_is_Some_2 b i) as [y Hy]; [lia|].
  rewrite (rd_lookup a _ x), (rd_lookup b _ y) by (lia || by rewrite Nat2Z.id). cbn [mbind outcome_mbind].
  rewrite (drop_S a x i Hx), (drop_S b y i Hy). cbn [take first_diff].
  destruct (Z.ltb_spec x y); [rewrite (proj2 (Z.eqb_neq x y)), (proj2 (Z.ltb_ge y x)) by lia; simpl; do 2 f_equal; lia|].
  destruct (Z.ltb_spec y x); [rewrite (proj2 (Z.eqb_neq x y)) by lia; simpl; do 2 f_equal; lia|].
  rewrite (proj2 (Z.eqb_eq x y)) by lia.
  replace (Z.of_nat i + 1) with (Z.of_nat (S i)) by lia. rewrite IH by lia. do 2 f_equal.
  destruct (first_diff _ _) as [[j g]|]; [|done]. simpl. do 2 f_equal. lia.
Qed.

Lemma os_memcmp_spec (n : nat) a b : (n ≤ length a)%nat → (n ≤ length b)%nat →
  os_memcmp a b (Z.of_nat n) = Ret (memcmp_result (first_diff (take n a) (take n b))).
Proof.
  intros Ha Hb. unfold os_memcmp. rewrite Nat2Z.id. change 0 with (Z.of_nat 0).
  rewrite memcmp_from_drop by lia. rewrite !drop_0.
  by destruct (first_diff _ _) as [[i g]|].
Qed.

Lemma xor_cancel a b : length a = length b → xor (xor a b) b = a.
Proof.
  revert b. induction a as [|x a IH]; intros [|y b] Hl; try done. simpl in *.
  unfold xor in *. simpl. rewrite IH by lia. by rewrite Z.lxor_assoc, Z.lxor_nilpotent, Z.lxor_0_r.
Qed.

Lemma autn_loop_spec sqn amf m ak autn :
  length sqn = 6%nat → (2 ≤ length amf)%nat → length m = 8%nat → length ak = 6%nat →
  length autn = 16%nat →
  autn_loop sqn amf m (Some ak) autn = Ret (xor sqn ak ++ take 2 amf ++ m).
Proof.
  intros Hs Ha Hm Hk Hn. unfold autn_loop.
  rewrite (slice_prefix amf), (slice_prefix m) by (unfold blen; lia).
  destruct amf as [|a0 [|a1 amf]]; try (simpl in Ha; lia).
  split_list sqn. split_list m. split_list ak. split_list autn. reflexivity.
Qed.

Lemma first_diff_nonneg a b i g : first_diff a b = Some (i, g) → 0 ≤ i.
Proof.
  revert b i. induction a as [|x a IH]; intros [|y b] i; simpl; try done.
  destruct (x =? y); [|intros [= <- <-]; lia].
  destruct (first_diff a b) as [[j g']|] eqn:E; simpl; intros [= <- ->]. apply IH in E. lia.
Qed.

(** What the sign of [os_memcmp] says: a first difference at index 0 counts as
    no difference. *)
Definition fresh (rx_sqn sqn : list Z) : bool :=
  match first_diff rx_sqn sqn with Some (i, true) => 0 <? i | _ => false end.
Definition mac_ok (mac m : list Z) : bool :=
  match first_diff mac m with None => true | Some (i, _) => i =? 0 end.

Lemma memcmp_fresh a b : (memcmp_result (first_diff a b) <=? 0) = negb (fresh a b).
Proof.
  unfold fresh. destruct (first_diff a b) as [[i []]|] eqn:E; simpl; try done.
  - destruct (Z.leb_spec i 0), (Z.ltb_spec 0 i); done || lia.
  - apply first_diff_nonneg in E. destruct (Z.leb_spec (- i) 0); done || lia.
Qed.

Lemma memcmp_mac a b : (memcmp_result (first_diff a b) =? 0) = mac_ok a b.
Proof.
  unfold mac_ok. destruct (first_diff a b) as [[i []]|]; simpl; try done.
  destruct (Z.eqb_spec (- i) 0), (Z.eqb_spec i 0); done || lia.
Qed.

Lemma xor_rot_6 a b t :
  (6 ≤ length a)%nat → length b = 6%nat → length t = 6%nat ∨ length t = 14%nat →
  xor_rot 6 0 a b t = Ret (xor (take 6 a) b ++ drop 6 t).
Proof.
  intros Ha Hb Ht. do 6 (destruct a as [|? a]; [simpl in Ha; lia|]). split_list b.
  destruct Ht as [Ht|Ht]; split_list t; reflexivity.
Qed.

Lemma xor_bytes a b : bytes_ok a → bytes_ok b → bytes_ok (xor a b).
Proof.
  unfold bytes_ok, xor. intros Ha. revert b. induction Ha as [|x a Hx _ IH]; intros b Hb; [done|].
  destruct Hb; simpl; constructor; auto. apply in_width_lxor; done.
Qed.

Lemma kbufs_ok_intro res ck ik ak akstar :
  (∀ x, ck = Some x → length x = 16%nat) → (∀ x, ik = Some x → length x = 16%nat) →
  (∀ x, akstar = Some x → length x = 6%nat) → kbufs_ok (KBufs res ck ik ak akstar).
Proof. done. Qed.

Lemma zero_amf_ok : bytes_ok [0; 0].
Proof. apply Forall_cons; split; [|apply Forall_cons; split; [|constructor]]; apply in_width_0; lia. Qed.

Section Check.
Context (opc k rand : list Z) (Ho : block opc) (Hk : block k) (Hr : block rand).

Lemma f5_ok : length (f5 opc k rand) = 6%nat ∧ bytes_ok (f5 opc k rand).
Proof.
  destruct (OUT_block 0 1 opc k rand ltac:(unfold in_width; lia) Ho Hk Hr) as [Hl Hb].
  unfold f5. split; [rewrite length_take; lia|by apply Forall_take].
Qed.

Lemma f5star_ok : length (f5star opc k rand) = 6%nat ∧ bytes_ok (f5star opc k rand).
Proof.
  destruct (OUT_block 12 8 opc k rand ltac:(unfold in_width; lia) Ho Hk Hr) as [Hl Hb].
  unfold f5star. split; [rewrite length_take; lia|by apply Forall_take].
Qed.

Lemma f1_ok sqn amf : block (IN1 sqn amf) →
  length (f1 opc k rand sqn amf) = 8%nat ∧ length (f1star opc k rand sqn amf) = 8%nat.
Proof.
  intros Hi. destruct (OUT1_block opc k rand sqn amf Hi Ho Hk Hr) as [Hl _].
  unfold f1, f1star. rewrite length_take, length_drop. lia.
Qed.

(** What [Milenage_check] decides. *)
Definition check_spec (sqn autn : list Z) (res : option (list Z)) (auts : list Z) : check_out :=
  let rx := xor (take 6 autn) (f5 opc k rand) in
  let out c a := CheckOut c (Some (f4 opc k rand)) (Some (f3 opc k rand))
    (copy_opt res (f2 opc k rand)) 8 a in
  if fresh rx sqn
  then out (if mac_ok (f1 opc k rand rx (take 2 (drop 6 autn))) (drop 8 autn) then 0 else -1) auts
  else out (-2) (xor sqn (f5star opc k rand) ++ f1star opc k rand sqn [0; 0]).

Lemma copy_opt_full t s : length t = length s → copy_opt (Some t) s = Some s.
Proof.
  intros Hl. unfold copy_opt, gocopy. simpl. rewrite take_ge by lia. rewrite drop_ge by lia.
  by rewrite app_nil_r.
Qed.

Lemma f2345_main res ck ik :
  length ck = 16%nat → length ik = 16%nat →
  milenageF2345 opc k rand (KBufs res (Some ck) (Some ik) (Some (zeros 6)) None) =
  Ret (0, KBufs (copy_opt res (f2 opc k rand)) (Some (f3 opc k rand)) (Some (f4 opc k rand))
    (Some (f5 opc k rand)) None).
Proof.
  intros Hck Hik. rewrite f2345_spec by
    (assumption || by apply kbufs_ok_intro; intros ? [= <-]).
  unfold kbufs_spec. cbn [b_res b_ck b_ik b_ak b_akstar].
  rewrite copy_opt_full; [reflexivity|]. rewrite (proj1 f5_ok). reflexivity.
Qed.

Lemma f2345_star x : length x = 6%nat →
  milenageF2345 opc k rand (KBufs None None None None (Some x)) =
  Ret (0, KBufs None None None None (Some (f5star opc k rand))).
Proof.
  intros Hx. rewrite f2345_spec by (assumption || by apply kbufs_ok_intro; intros ? [= <-]).
  reflexivity.
Qed.

Lemma check_spec_ok sqn autn ik ck res n auts :
  length sqn = 6%nat → bytes_ok sqn → block autn →
  length ik = 16%nat → length ck = 16%nat → length auts = 14%nat →
  Milenage_check opc k sqn rand autn (Some ik) (Some ck) res n auts
  = Ret (check_spec sqn autn res auts).
Proof.
  intros Hs Hsb [Hn Hnb] Hik Hck Hau. destruct f5_ok as [Hf5 Hf5b], f5star_ok as [Hf5s Hf5sb].
  unfold Milenage_check.
  rewrite f2345_main by assumption. ret_bind.
  cbv beta iota zeta. change (negb (0 =? 0)) with false. cbv iota.
  cbn [b_res b_ck b_ik b_ak b_akstar default from_option id].
  rewrite xor_rot_6 by (auto || lia). ret_bind.
  set (rx := xor (take 6 autn) (f5 opc k rand)).
  change (drop 6 (zeros 6)) with (@nil Z). rewrite app_nil_r.
  unfold check_spec. fold rx.
  assert (length rx = 6%nat) as Hrx by (unfold rx, xor; rewrite length_zip_with, length_take; lia).
  assert (bytes_ok rx) as Hrxb by (apply xor_bytes; [by apply Forall_take|assumption]).
  clearbody rx.
  rewrite (os_memcmp_spec 6) by lia. ret_bind. rewrite (take_ge rx), (take_ge sqn), memcmp_fresh by lia.
  destruct (fresh rx sqn); cbn [negb].
  - assert (bytes_ok (drop 6 autn)) as Hab by by apply Forall_drop.
    assert (2 ≤ length (drop 6 autn))%nat as Ha by (rewrite length_drop; lia).
    rewrite (slice_from autn 6), (slice_from autn 8) by (unfold blen; lia). ret_bind.
    change (Z.to_nat 6) with 6%nat. change (Z.to_nat 8) with 8%nat.
    destruct (f1_ok rx (take 2 (drop 6 autn))) as [Hf1 _].
    { apply IN1_block; [assumption|rewrite length_take; lia|assumption|by apply Forall_take]. }
    rewrite f1_spec by assumption. ret_bind.
    change (negb (0 =? 0)) with false. cbv beta iota.
    rewrite copy_opt_full by (symmetry; exact Hf1). cbn [default from_option id].
    rewrite (os_memcmp_spec 8) by (rewrite ?length_drop; lia). ret_bind.
    rewrite (take_ge (f1 _ _ _ _ _)), (take_ge (drop 8 autn)), memcmp_mac by (rewrite ?length_drop; lia).
    by destruct (mac_ok _ _).
  - rewrite f2345_star by assumption. ret_bind.
    change (negb (0 =? 0)) with false. cbv beta iota. cbn [b_akstar default from_option id].
    rewrite xor_rot_6 by (auto || lia). ret_bind. rewrite (take_ge sqn) by lia.
    assert (length (xor sqn (f5star opc k rand)) = 6%nat) as Hx
      by (unfold xor; rewrite length_zip_with; lia).
    rewrite with_tail_app by (unfold blen; lia).
    pose proof zero_amf_ok as Hz.
    destruct (f1_ok sqn [0; 0]) as [_ Hf1]; [by apply IN1_block|].
    rewrite f1_spec by (assumption || simpl; lia). ret_bind.
    change (negb (0 =? 0)) with false. cbv beta iota.
    rewrite copy_opt_full by (change (take 2 [0; 0]) with [0; 0]; rewrite length_drop; lia). reflexivity.
Qed.

(** The AUTN the network sends. *)
Definition autn_of (sqn amf : list Z) : list Z :=
  xor sqn (f5 opc k rand) ++ amf ++ f1 opc k rand sqn amf.
(** The AUTS the UE answers with. *)
Definition auts_of (sqn : list Z) : list Z :=
  xor sqn (f5star opc k rand) ++ f1star opc k rand sqn [0; 0].

Lemma generate_spec sqn amf autn ik ck res n :
  length sqn = 6%nat → bytes_ok sqn → length amf = 2%nat → bytes_ok amf → length autn = 16%nat →
  length ik = 16%nat → length ck = 16%nat → 8 ≤ n →
  MilenageGenerate opc amf k sqn rand autn (Some ik) (Some ck) (Some (zeros 6)) res n =
  Ret (GenOut (autn_of sqn amf) (Some (f4 opc k rand)) (Some (f3 opc k rand))
    (Some (f5 opc k rand)) (copy_opt res (f2 opc k rand)) 8).
Proof.
  intros Hs Hsb Ha Hab Hn Hik Hck Hl. unfold MilenageGenerate.
  rewrite (proj2 (Z.ltb_ge n 8)) by lia.
  destruct (f1_ok sqn amf) as [Hf1 _]; [by apply IN1_block|].
  rewrite f1_spec by (assumption || lia). ret_bind.
  change (negb (0 =? 0)) with false. cbv beta iota. rewrite (take_ge amf) by lia.
  rewrite copy_opt_full by (symmetry; exact Hf1).
  rewrite f2345_main by assumption. ret_bind.
  change (negb (0 =? 0)) with false. cbv beta iota. cbn [b_res b_ck b_ik b_ak b_akstar default from_option id].
  rewrite autn_loop_spec by (assumption || lia || exact (proj1 f5_ok)). ret_bind.
  rewrite (take_ge amf) by lia. reflexivity.
Qed.

Lemma auts_spec sqn sqn0 :
  length sqn = 6%nat → bytes_ok sqn → length sqn0 = 6%nat →
  Milenage_auts opc k rand (auts_of sqn) sqn0 = Ret (0, sqn).
Proof.
  intros Hs Hsb Hs0. unfold Milenage_auts.
  rewrite f2345_star by reflexivity. ret_bind.
  change (negb (0 =? 0)) with false. cbv beta iota. cbn [b_akstar default from_option id].
  destruct f5star_ok as [Hf5 _].
  assert (length (xor sqn (f5star opc k rand)) = 6%nat) as Hx
    by (unfold xor; rewrite length_zip_with; lia).
  pose proof zero_amf_ok as Hz.
  destruct (f1_ok sqn [0; 0]) as [_ Hf1]; [by apply IN1_block|].
  assert (length (auts_of sqn) = 14%nat) as Hau by (unfold auts_of; rewrite length_app; lia).
  rewrite xor_rot_6 by (auto || lia). ret_bind.
  assert (take 6 (auts_of sqn) = xor sqn (f5star opc k rand)) as ->.
  { unfold auts_of. by rewrite take_app_length'. }
  rewrite xor_cancel by lia. rewrite (drop_ge sqn0), app_nil_r by lia.
  rewrite f1_spec by (assumption || simpl; lia). ret_bind.
  change (negb (0 =? 0)) with false. cbv beta iota. change (take 2 [0; 0]) with [0; 0].
  rewrite slice_suffix by (unfold blen; lia). ret_bind.
  rewrite copy_opt_full by (symmetry; exact Hf1). cbn [default from_option id].
  rewrite bool_decide_true; [done|].
  unfold auts_of. by rewrite drop_app_length'.
Qed.

Lemma autn_of_ok sqn amf :
  length sqn = 6%nat → bytes_ok sqn → length amf = 2%nat → bytes_ok amf →
  block (autn_of sqn amf) ∧ take 6 (autn_of sqn amf) = xor sqn (f5 opc k rand) ∧
  take 2 (drop 6 (autn_of sqn amf)) = amf ∧ drop 8 (autn_of sqn amf) = f1 opc k rand sqn amf.
Proof.
  intros Hs Hsb Ha Hab. destruct f5_ok as [Hf5 Hf5b].
  assert (block (IN1 sqn amf)) as Hi by by apply IN1_block.
  destruct (f1_ok sqn amf Hi) as [Hf1 _].
  assert (length (xor sqn (f5 opc k rand)) = 6%nat) as Hx
    by (unfold xor; rewrite length_zip_with; lia).
  unfold autn_of. repeat split.
  - rewrite !length_app. lia.
  - apply Forall_app. split; [by apply xor_bytes|]. apply Forall_app. split; [done|].
    apply Forall_take. apply (proj2 (OUT1_block opc k rand sqn amf Hi Ho Hk Hr)).
  - by rewrite take_app_length'.
  - rewrite drop_app_length' by done. by rewrite take_app_length'.
  - rewrite app_assoc. rewrite drop_app_length'; [done|]. rewrite length_app. lia.
Qed.

Lemma mac_ok_refl m : mac_ok m m = true.
Proof. unfold mac_ok. by rewrite first_diff_refl. Qed.
End Check.
End Spec.

(** ** Properties *)

#[local] Opaque Ts35206.OUT Ts35206.OUT1.

Section Properties.
Import Ts35206.

(** C22. The Milenage functions of the code fill their buffers with the values
    3GPP TS 35.206 defines over AES-128: F1 gives MAC-A and MAC-S, F2345 gives
    RES, CK, IK, AK and AK* (each only where a buffer is passed), and
    GenerateOPC gives OPc. *)
Theorem milenage_refines_TS35206 opc k rand op sqn amf ma ms b buf :
  block opc → block k → block rand → block op → length buf = 16%nat →
  length sqn = 6%nat → bytes_ok sqn → length amf = 2%nat → bytes_ok amf → kbufs_ok b →
  GenerateOPC k op buf = Ret (OPc k op) ∧
  F1_Test opc k rand sqn amf ma ms =
    Ret (0, (copy_opt ma (f1 opc k rand sqn amf), copy_opt ms (f1star opc k rand sqn amf))) ∧
  F2345_Test opc k rand b =
    Ret (0, KBufs (copy_opt (b_res b) (f2 opc k rand)) ((λ _, f3 opc k rand) <$> b_ck b)
      ((λ _, f4 opc k rand) <$> b_ik b) (copy_opt (b_ak b) (f5 opc k rand))
      ((λ _, f5star opc k rand) <$> b_akstar b)).
Proof.
  intros Ho Hk Hr Hop Hb Hs Hsb Ha Hab Hbufs. split; [by apply opc_spec|]. split.
  - unfold F1_Test. rewrite f1_spec by (assumption || lia). by rewrite (take_ge amf) by lia.
  - by apply f2345_spec.
Qed.

(** The number that octets stand for, the highest first. *)
Fixpoint octets_value (l : list Z) : Z := match l with [] => 0 | x :: l => x * 256 ^ blen l + octets_value l end.

Lemma octets_value_bound l : bytes_ok l → 0 ≤ octets_value l < 256 ^ blen l.
Proof.
  induction 1 as [|x l Hx _ IH]; [change (blen []) with 0; cbn; lia|]. cbn [octets_value]. unfold in_width in Hx. change (2 ^ 8) with 256 in Hx.
  unfold blen in *. cbn [length]. rewrite Nat2Z.inj_succ, Z.pow_succ_r by lia. nia.
Qed.

(** The first difference decides which number is larger. *)
Lemma first_diff_value a b : length a = length b → bytes_ok a → bytes_ok b →
  match first_diff a b with
  | None => octets_value a = octets_value b
  | Some (_, true) => octets_value b < octets_value a
  | Some (_, false) => octets_value a < octets_value b
  end.
Proof.
  revert b. induction a as [|x a IH]; intros [|y b] Hl Ha Hb; try done. injection Hl as Hl.
  apply Forall_cons in Ha as [_ Ha]. apply Forall_cons in Hb as [_ Hb]. specialize (IH b Hl Ha Hb).
  pose proof (octets_value_bound a Ha) as Va. pose proof (octets_value_bound b Hb) as Vb. cbn [first_diff octets_value].
  assert (blen a = blen b) as El by (unfold blen; lia). rewrite El in *. destruct (Z.eqb_spec x y) as [->|Hne].
  - destruct (first_diff a b) as [[i []]|]; cbn; lia.
  - destruct (Z.ltb_spec y x); nia.
Qed.

Lemma fresh_value a b : length a = 6%nat → length b = 6%nat → bytes_ok a → bytes_ok b →
  fresh a b = true ↔ octets_value b < octets_value a ∧ hd 0 a = hd 0 b.
Proof.
  intros Hla Hlb Ha Hb. pose proof (first_diff_value a b ltac:(lia) Ha Hb) as Hv. unfold fresh.
  destruct a as [|x a], b as [|y b]; try done. cbn [first_diff hd] in *. destruct (Z.eqb_spec x y) as [->|Hne].
  - destruct (first_diff a b) as [[i []]|] eqn:E; cbn in Hv |- *; [|split; [done|lia]..].
    apply first_diff_nonneg in E. rewrite (proj2 (Z.ltb_lt 0 (1 + i))) by lia. tauto.
  - destruct (y <? x); cbn; split; [done|by intros [_ ?]|done|by intros [_ ?]].
Qed.

(** C9. What the UE makes of an AUTN that the network generates with the same
    keys: both derive the same IK, CK and RES, and the UE accepts it exactly
    when its sequence number is larger than the UE's own and has the same first
    octet.  Any other, also one that is larger in its first octet, is answered
    as a synchronisation failure, with an AUTS from which the network recovers
    the UE's sequence number. *)
Theorem milenage_generate_check opc k rand sqn sqn0 amf autn0 ik ck ik' ck' res n auts buf :
  block opc → block k → block rand → length sqn = 6%nat → bytes_ok sqn →
  length sqn0 = 6%nat → bytes_ok sqn0 → length amf = 2%nat → bytes_ok amf →
  length autn0 = 16%nat → length ik = 16%nat → length ck = 16%nat → length ik' = 16%nat →
  length ck' = 16%nat → length auts = 14%nat → length buf = 6%nat → 8 ≤ n →
  ∃ g c, MilenageGenerate opc amf k sqn rand autn0 (Some ik) (Some ck) (Some (zeros 6)) res n = Ret g ∧
    Milenage_check opc k sqn0 rand (g_autn g) (Some ik') (Some ck') res n auts = Ret c ∧
    c_ik c = g_ik g ∧ c_ck c = g_ck g ∧ c_res c = g_res g ∧
    (c_ret c = 0 ↔ octets_value sqn0 < octets_value sqn ∧ hd 0 sqn = hd 0 sqn0) ∧
    (c_ret c ≠ 0 → c_ret c = -2 ∧ Milenage_auts opc k rand (c_auts c) buf = Ret (0, sqn0)).
Proof.
  intros Ho Hk Hr Hs Hsb Hs0 Hs0b Ha Hab Hn Hik Hck Hik' Hck' Hau Hbuf Hl.
  rewrite generate_spec by assumption. eexists _, _. split; [reflexivity|].
  destruct (autn_of_ok opc k rand Ho Hk Hr sqn amf Hs Hsb Ha Hab) as (Hb & H6 & H2 & H8).
  cbn [g_autn]. rewrite check_spec_ok by assumption. split; [reflexivity|].
  unfold check_spec. rewrite H6, H2, H8. rewrite xor_cancel by (rewrite (proj1 (f5_ok opc k rand Ho Hk Hr)); lia).
  rewrite <-fresh_value by assumption. cbn [c_ik c_ck c_res c_ret c_auts g_ik g_ck g_res]. destruct (fresh sqn sqn0).
  - rewrite mac_ok_refl. do 3 (split; [reflexivity|]). split; [by split|]. intros Hc. by destruct Hc.
  - do 3 (split; [reflexivity|]). split; [by split|]. intros _. split; [reflexivity|]. by apply auts_spec.
Qed.

(** When the SQN is not fresh, the UE answers "synchronisation failure" (-2)
    with an AUTS from which the network recovers the SQN of the UE. *)
Theorem milenage_resynchronise opc k rand sqn sqn0 amf ik ck res n auts buf :
  block opc → block k → block rand → length sqn = 6%nat → bytes_ok sqn →
  length sqn0 = 6%nat → bytes_ok sqn0 → length amf = 2%nat → bytes_ok amf →
  length ik = 16%nat → length ck = 16%nat → length auts = 14%nat → length buf = 6%nat →
  fresh sqn sqn0 = false →
  ∃ c, Milenage_check opc k sqn0 rand (autn_of opc k rand sqn amf) (Some ik) (Some ck) res n auts
       = Ret c ∧ c_ret c = -2 ∧ Milenage_auts opc k rand (c_auts c) buf = Ret (0, sqn0).
Proof.
  intros Ho Hk Hr Hs Hsb Hs0 Hs0b Ha Hab Hik Hck Hau Hbuf Hf.
  destruct (autn_of_ok opc k rand Ho Hk Hr sqn amf Hs Hsb Ha Hab) as (Hb & H6 & H2 & H8).
  rewrite check_spec_ok by assumption. eexists. split; [reflexivity|].
  unfold check_spec. rewrite H6.
  rewrite xor_cancel by (rewrite (proj1 (f5_ok opc k rand Ho Hk Hr)); lia).
  rewrite Hf. split; [reflexivity|]. by apply auts_spec.
Qed.

(** The first byte of the MAC is not authenticated: [os_memcmp] returns the
    index of the first difference, so a difference at index 0 reads as
    equality, and an AUTN whose MAC has any first byte is accepted. *)
Theorem milenage_check_first_mac_byte opc k rand sqn sqn0 amf x ik ck res n auts :
  block opc → block k → block rand → length sqn = 6%nat → bytes_ok sqn →
  length sqn0 = 6%nat → bytes_ok sqn0 → length amf = 2%nat → bytes_ok amf →
  length ik = 16%nat → length ck = 16%nat → length auts = 14%nat → in_width 8 x →
  fresh sqn sqn0 = true →
  c_ret <$> Milenage_check opc k sqn0 rand (<[8%nat := x]> (autn_of opc k rand sqn amf))
    (Some ik) (Some ck) res n auts = Ret 0.
Proof.
  intros Ho Hk Hr Hs Hsb Hs0 Hs0b Ha Hab Hik Hck Hau Hx Hf.
  destruct (autn_of_ok opc k rand Ho Hk Hr sqn amf Hs Hsb Ha Hab) as ([Hl Hb] & H6 & H2 & H8).
  rewrite check_spec_ok; [|try assumption..].
  2:{ split; [by rewrite length_insert|by apply Forall_insert]. }
  cbn [fmap outcome_fmap]. unfold check_spec.
  rewrite take_insert_ge, H6 by lia.
  rewrite xor_cancel by (rewrite (proj1 (f5_ok opc k rand Ho Hk Hr)); lia). rewrite Hf.
  rewrite take_drop_commute, take_insert_ge, <-take_drop_commute, H2 by lia.
  rewrite drop_insert_ge by lia. rewrite H8.
  destruct (f1 opc k rand sqn amf) as [|y m]; [reflexivity|].
  change (<[(8 - 8)%nat:=x]> (y :: m)) with (x :: m).
  unfold mac_ok. cbn [first_diff]. destruct (y =? x); [by rewrite first_diff_refl|reflexivity].
Qed.
End Properties.

(** ** Test set 1 of 3GPP TS 35.207 *)

Definition ts_k : list Z := [0x46; 0x5b; 0x5c; 0xe8; 0xb1; 0x99; 0xb4; 0x9f; 0xaa; 0x5f; 0x0a; 0x2e; 0xe2; 0x38; 0xa6; 0xbc].
Definition ts_op : list Z := [0xcd; 0xc2; 0x02; 0xd5; 0x12; 0x3e; 0x20; 0xf6; 0x2b; 0x6d; 0x67; 0x6a; 0xc7; 0x2c; 0xb3; 0x18].
Definition ts_opc : list Z := [0xcd; 0x63; 0xcb; 0x71; 0x95; 0x4a; 0x9f; 0x4e; 0x48; 0xa5; 0x99; 0x4e; 0x37; 0xa0; 0x2b; 0xaf].
Definition ts_rand : list Z := [0x23; 0x55; 0x3c; 0xbe; 0x96; 0x37; 0xa8; 0x9d; 0x21; 0x8a; 0xe6; 0x4d; 0xae; 0x47; 0xbf; 0x35].
Definition ts_sqn : list Z := [0xff; 0x9b; 0xb4; 0xd0; 0xb6; 0x07].
Definition ts_amf : list Z := [0xb9; 0xb9].

(** Discharge the side conditions of a test vector. *)
#[local] Ltac vec :=
  first [ apply block_dec; vm_compute; reflexivity
        | apply bytes_dec; vm_compute; reflexivity
        | vm_compute; reflexivity
        | lia
        | apply kbufs_ok_intro; intros ? [= <-]; reflexivity ].

Example ts_opc_ok : GenerateOPC ts_k ts_op (zeros 16) = Ret ts_opc.
Proof. vm_compute. reflexivity. Qed.

Lemma milenage_refines_TS35206_witness :
  GenerateOPC ts_k ts_op (zeros 16) = Ret (Ts35206.OPc ts_k ts_op).
Proof.
  apply (milenage_refines_TS35206 ts_opc ts_k ts_rand ts_op ts_sqn ts_amf None None
    (KBufs None None None None None) (zeros 16)); vec.
Defined.

(** Accepted by a UE whose number is one less, refused by one whose first octet
    is smaller. *)
Lemma milenage_generate_check_witness : let sqn := [1; 0; 0; 0; 0; 1] in
  let run sqn0 := g ← MilenageGenerate ts_opc ts_amf ts_k sqn ts_rand (zeros 16) (Some (zeros 16))
      (Some (zeros 16)) (Some (zeros 6)) (Some (zeros 8)) 8;
    c ← Milenage_check ts_opc ts_k sqn0 ts_rand (g_autn g) (Some (zeros 16)) (Some (zeros 16)) (Some (zeros 8)) 8 (zeros 14);
    Ret (c_ret c) in
  run [1; 0; 0; 0; 0; 0] = Ret 0 ∧ run [0; 0; 0; 0; 0; 1] = Ret (-2).
Proof.
  intros sqn run. split.
  - destruct (milenage_generate_check ts_opc ts_k ts_rand sqn [1; 0; 0; 0; 0; 0] ts_amf (zeros 16) (zeros 16) (zeros 16) (zeros 16) (zeros 16)
      (Some (zeros 8)) 8 (zeros 14) (zeros 6)) as (g&c&Eg&Ec&_&_&_&[_ Ha]&_); [vec..|].
    unfold run. rewrite Eg. cbn [mbind outcome_mbind]. rewrite Ec. cbn [mbind outcome_mbind]. f_equal. apply Ha. vm_compute. by split.
  - destruct (milenage_generate_check ts_opc ts_k ts_rand sqn [0; 0; 0; 0; 0; 1] ts_amf (zeros 16) (zeros 16) (zeros 16) (zeros 16) (zeros 16)
      (Some (zeros 8)) 8 (zeros 14) (zeros 6)) as (g&c&Eg&Ec&_&_&_&[Ha _]&Hr); [vec..|].
    unfold run. rewrite Eg. cbn [mbind outcome_mbind]. rewrite Ec. cbn [mbind outcome_mbind]. f_equal. apply Hr. intros E.
    apply Ha in E as [_ E]. discriminate E.
Defined.

Lemma milenage_resynchronise_witness :
  ∃ c, Milenage_check ts_opc ts_k ts_sqn ts_rand
      (autn_of ts_opc ts_k ts_rand [0xff; 0; 0; 0; 0; 0] ts_amf)
      (Some (zeros 16)) (Some (zeros 16)) None 8 (zeros 14) = Ret c ∧
    c_ret c = -2 ∧ Milenage_auts ts_opc ts_k ts_rand (c_auts c) (zeros 6) = Ret (0, ts_sqn).
Proof. apply milenage_resynchronise; vec. Defined.

Lemma milenage_check_first_mac_byte_witness :
  c_ret <$> Milenage_check ts_opc ts_k [0xff; 0; 0; 0; 0; 0] ts_rand
    (<[8%nat := 0x5a]> (autn_of ts_opc ts_k ts_rand ts_sqn ts_amf))
    (Some (zeros 16)) (Some (zeros 16)) None 8 (zeros 14) = Ret 0.
Proof. apply milenage_check_first_mac_byte; first [vec | split; lia]. Defined.
