(* ===== verification/Snow3g.v ===== *)
(** * lib/nas/security/snow3g/snow3g.go: the SNOW 3G keystream generator

    The package keeps the LFSR and the FSM in global variables; every function
    takes and returns them as [snow].  [Uea2] is the generator of ETSI/SAGE
    "UEA2 & UIA2" Document 2: the linear recurrence over GF(2^32) and the FSM. *)

From S2P Require Import Prelude AesTables Aes.

#[local] Open Scope Z_scope.
#[local] Open Scope go_scope.

(** ** The code *)

Definition sr : list Z := [
  0x63; 0x7c; 0x77; 0x7b; 0xf2; 0x6b; 0x6f; 0xc5; 0x30; 0x01; 0x67; 0x2b; 0xfe; 0xd7; 0xab; 0x76;
  0xca; 0x82; 0xc9; 0x7d; 0xfa; 0x59; 0x47; 0xf0; 0xad; 0xd4; 0xa2; 0xaf; 0x9c; 0xa4; 0x72; 0xc0;
  0xb7; 0xfd; 0x93; 0x26; 0x36; 0x3f; 0xf7; 0xcc; 0x34; 0xa5; 0xe5; 0xf1; 0x71; 0xd8; 0x31; 0x15;
  0x04; 0xc7; 0x23; 0xc3; 0x18; 0x96; 0x05; 0x9a; 0x07; 0x12; 0x80; 0xe2; 0xeb; 0x27; 0xb2; 0x75;
  0x09; 0x83; 0x2c; 0x1a; 0x1b; 0x6e; 0x5a; 0xa0; 0x52; 0x3b; 0xd6; 0xb3; 0x29; 0xe3; 0x2f; 0x84;
  0x53; 0xd1; 0x00; 0xed; 0x20; 0xfc; 0xb1; 0x5b; 0x6a; 0xcb; 0xbe; 0x39; 0x4a; 0x4c; 0x58; 0xcf;
  0xd0; 0xef; 0xaa; 0xfb; 0x43; 0x4d; 0x33; 0x85; 0x45; 0xf9; 0x02; 0x7f; 0x50; 0x3c; 0x9f; 0xa8;
  0x51; 0xa3; 0x40; 0x8f; 0x92; 0x9d; 0x38; 0xf5; 0xbc; 0xb6; 0xda; 0x21; 0x10; 0xff; 0xf3; 0xd2;
  0xcd; 0x0c; 0x13; 0xec; 0x5f; 0x97; 0x44; 0x17; 0xc4; 0xa7; 0x7e; 0x3d; 0x64; 0x5d; 0x19; 0x73;
  0x60; 0x81; 0x4f; 0xdc; 0x22; 0x2a; 0x90; 0x88; 0x46; 0xee; 0xb8; 0x14; 0xde; 0x5e; 0x0b; 0xdb;
  0xe0; 0x32; 0x3a; 0x0a; 0x49; 0x06; 0x24; 0x5c; 0xc2; 0xd3; 0xac; 0x62; 0x91; 0x95; 0xe4; 0x79;
  0xe7; 0xc8; 0x37; 0x6d; 0x8d; 0xd5; 0x4e; 0xa9; 0x6c; 0x56; 0xf4; 0xea; 0x65; 0x7a; 0xae; 0x08;
  0xba; 0x78; 0x25; 0x2e; 0x1c; 0xa6; 0xb4; 0xc6; 0xe8; 0xdd; 0x74; 0x1f; 0x4b; 0xbd; 0x8b; 0x8a;
  0x70; 0x3e; 0xb5; 0x66; 0x48; 0x03; 0xf6; 0x0e; 0x61; 0x35; 0x57; 0xb9; 0x86; 0xc1; 0x1d; 0x9e;
  0xe1; 0xf8; 0x98; 0x11; 0x69; 0xd9; 0x8e; 0x94; 0x9b; 0x1e; 0x87; 0xe9; 0xce; 0x55; 0x28; 0xdf;
  0x8c; 0xa1; 0x89; 0x0d; 0xbf; 0xe6; 0x42; 0x68; 0x41; 0x99; 0x2d; 0x0f; 0xb0; 0x54; 0xbb; 0x16].

Definition sq : list Z := [
  0x25; 0x24; 0x73; 0x67; 0xd7; 0xae; 0x5c; 0x30; 0xa4; 0xee; 0x6e; 0xcb; 0x7d; 0xb5; 0x82; 0xdb;
  0xe4; 0x8e; 0x48; 0x49; 0x4f; 0x5d; 0x6a; 0x78; 0x70; 0x88; 0xe8; 0x5f; 0x5e; 0x84; 0x65; 0xe2;
  0xd8; 0xe9; 0xcc; 0xed; 0x40; 0x2f; 0x11; 0x28; 0x57; 0xd2; 0xac; 0xe3; 0x4a; 0x15; 0x1b; 0xb9;
  0xb2; 0x80; 0x85; 0xa6; 0x2e; 0x02; 0x47; 0x29; 0x07; 0x4b; 0x0e; 0xc1; 0x51; 0xaa; 0x89; 0xd4;
  0xca; 0x01; 0x46; 0xb3; 0xef; 0xdd; 0x44; 0x7b; 0xc2; 0x7f; 0xbe; 0xc3; 0x9f; 0x20; 0x4c; 0x64;
  0x83; 0xa2; 0x68; 0x42; 0x13; 0xb4; 0x41; 0xcd; 0xba; 0xc6; 0xbb; 0x6d; 0x4d; 0x71; 0x21; 0xf4;
  0x8d; 0xb0; 0xe5; 0x93; 0xfe; 0x8f; 0xe6; 0xcf; 0x43; 0x45; 0x31; 0x22; 0x37; 0x36; 0x96; 0xfa;
  0xbc; 0x0f; 0x08; 0x52; 0x1d; 0x55; 0x1a; 0xc5; 0x4e; 0x23; 0x69; 0x7a; 0x92; 0xff; 0x5b; 0x5a;
  0xeb; 0x9a; 0x1c; 0xa9; 0xd1; 0x7e; 0x0d; 0xfc; 0x50; 0x8a; 0xb6; 0x62; 0xf5; 0x0a; 0xf8; 0xdc;
  0x03; 0x3c; 0x0c; 0x39; 0xf1; 0xb8; 0xf3; 0x3d; 0xf2; 0xd5; 0x97; 0x66; 0x81; 0x32; 0xa0; 0x00;
  0x06; 0xce; 0xf6; 0xea; 0xb7; 0x17; 0xf7; 0x8c; 0x79; 0xd6; 0xa7; 0xbf; 0x8b; 0x3f; 0x1f; 0x53;
  0x63; 0x75; 0x35; 0x2c; 0x60; 0xfd; 0x27; 0xd3; 0x94; 0xa5; 0x7c; 0xa1; 0x05; 0x58; 0x2d; 0xbd;
  0xd9; 0xc7; 0xaf; 0x6b; 0x54; 0x0b; 0xe0; 0x38; 0x04; 0xc8; 0x9d; 0xe7; 0x14; 0xb1; 0x87; 0x9c;
  0xdf; 0x6f; 0xf9; 0xda; 0x2a; 0xc4; 0x59; 0x16; 0x74; 0x91; 0xab; 0x26; 0x61; 0x76; 0x34; 0x2b;
  0xad; 0x99; 0xfb; 0x72; 0xec; 0x33; 0x12; 0xde; 0x98; 0x3b; 0xc0; 0x9b; 0x3e; 0x18; 0x10; 0x3a;
  0x56; 0xe1; 0x77; 0xc9; 0x1e; 0x9e; 0x95; 0xa3; 0x90; 0x19; 0xa8; 0x6c; 0x09; 0xd0; 0xf0; 0x86].

(** The globals [lfsr.s] and [fsm.r]. *)
Record snow := Snow { lfsr_s : list Z; fsm_r : list Z }.

Definition mulx (V c : Z) : Z :=
  if negb (V & 0x80 =? 0) then shl 8 V 1 ⊕ c else shl 8 V 1.

Fixpoint mulxPow (V : Z) (i : nat) (c : Z) : Z :=
  match i with O => V | S i => mulx (mulxPow V i c) c end.

(** The body of [s1] and [s2], which differ in table and constant. *)
Definition s_box (tab : list Z) (c w : Z) : outcome Z :=
  t0 ← rd tab ((w ≫ 24) & 0xff); t1 ← rd tab ((w ≫ 16) & 0xff);
  t2 ← rd tab ((w ≫ 8) & 0xff); t3 ← rd tab (w & 0xff);
  let r0 := mulx t0 c ⊕ t1 ⊕ t2 ⊕ mulx t3 c ⊕ t3 in
  let r1 := mulx t0 c ⊕ t0 ⊕ mulx t1 c ⊕ t2 ⊕ t3 in
  let r2 := t0 ⊕ mulx t1 c ⊕ t1 ⊕ mulx t2 c ⊕ t3 in
  let r3 := t0 ⊕ t1 ⊕ mulx t2 c ⊕ t2 ⊕ mulx t3 c in
  Ret (shl 32 r0 24 ∣∣ shl 32 r1 16 ∣∣ shl 32 r2 8 ∣∣ r3).

Definition s1 (w : Z) : outcome Z := s_box sr 0x1b w.
Definition s2 (w : Z) : outcome Z := s_box sq 0x69 w.

Definition mulAlpha (c : Z) : Z :=
  let r0 := mulxPow c 23 0xa9 in let r1 := mulxPow c 245 0xa9 in
  let r2 := mulxPow c 48 0xa9 in let r3 := mulxPow c 239 0xa9 in
  shl 32 r0 24 ∣∣ shl 32 r1 16 ∣∣ shl 32 r2 8 ∣∣ r3.

Definition divAlpha (c : Z) : Z :=
  let r0 := mulxPow c 16 0xa9 in let r1 := mulxPow c 39 0xa9 in
  let r2 := mulxPow c 6 0xa9 in let r3 := mulxPow c 64 0xa9 in
  shl 32 r0 24 ∣∣ shl 32 r1 16 ∣∣ shl 32 r2 8 ∣∣ r3.

(** The feedback word common to both LFSR modes. *)
Definition feedback (s : list Z) : outcome Z :=
  s0 ← rd s 0; s2' ← rd s 2; s11 ← rd s 11;
  Ret (shl 32 s0 8 ⊕ mulAlpha (u8 (s0 ≫ 24) & 0xff) ⊕ s2' ⊕ (s11 ≫ 8)
       ⊕ divAlpha (u8 (s11 & 0xff))).

(** [for i := 0; i < 15; i++ { s[i] = s[i+1] }; s[15] = v] *)
Definition shift_in (v : Z) (s : list Z) : outcome (list Z) :=
  s ← forM (seqZ 0 15) (λ i s, x ← rd s (i + 1); wr s i x) s;
  wr s 15 v.

Definition lfsrInitialisationMode (F : Z) (g : snow) : outcome snow :=
  v ← feedback (lfsr_s g); s ← shift_in (v ⊕ F) (lfsr_s g); Ret (Snow s (fsm_r g)).

Definition lfsrKeystreamMode (g : snow) : outcome snow :=
  v ← feedback (lfsr_s g); s ← shift_in v (lfsr_s g); Ret (Snow s (fsm_r g)).

Definition clockFsm (s15 s5 : Z) (g : snow) : outcome (Z * snow) :=
  r0 ← rd (fsm_r g) 0; r1 ← rd (fsm_r g) 1; r2 ← rd (fsm_r g) 2;
  let F := u32 (s15 + r0) ⊕ r1 in
  let r := u32 (r1 + (r2 ⊕ s5)) in
  x2 ← s2 r1; rs ← wr (fsm_r g) 2 x2;
  x1 ← s1 r0; rs ← wr rs 1 x1;
  rs ← wr rs 0 r;
  Ret (F, Snow (lfsr_s g) rs).

(** [clockFsm(lfsr.s[15], lfsr.s[5])] *)
Definition clock (g : snow) : outcome (Z * snow) :=
  s15 ← rd (lfsr_s g) 15; s5 ← rd (lfsr_s g) 5; clockFsm s15 s5 g.

Definition InitSnow3g (k iv : list Z) (g : snow) : outcome snow :=
  let ff := 0xffffffff in
  k0 ← rd k 0; k1 ← rd k 1; k2 ← rd k 2; k3 ← rd k 3;
  iv0 ← rd iv 0; iv1 ← rd iv 1; iv2 ← rd iv 2; iv3 ← rd iv 3;
  s ← forM (zip (seqZ 0 16)
      [k0 ⊕ ff; k1 ⊕ ff; k2 ⊕ ff; k3 ⊕ ff; k0; k1; k2; k3;
       k0 ⊕ ff; k1 ⊕ ff ⊕ iv3; k2 ⊕ ff ⊕ iv2; k3 ⊕ ff; k0 ⊕ iv1; k1; k2; k3 ⊕ iv0])
    (λ '(i, x) s, wr s i x) (lfsr_s g);
  r ← forM (seqZ 0 3) (λ i r, wr r i 0) (fsm_r g);
  forM (seqZ 0 32) (λ _ g, '(F, g) ← clock g; lfsrInitialisationMode F g) (Snow s r).

(** Returns the globals and the buffer [ks]. *)
Definition GenerateKeystream (n : Z) (ks : list Z) (g : snow) : outcome (snow * list Z) :=
  '(_, g) ← clock g;
  g ← lfsrKeystreamMode g;
  forM (seqZ 0 n) (λ i '(g, ks),
    '(F, g) ← clock g;
    s0 ← rd (lfsr_s g) 0;
    ks ← wr ks i (F ⊕ s0);
    g ← lfsrKeystreamMode g;
    Ret (g, ks)) (g, ks).

(** ** The generator of UEA2 & UIA2, Document 2 *)

Module Uea2.
(** GF(2^8) with the reduction byte [p] of its polynomial. *)
Definition xt (p b : Z) : Z := if b <? 128 then 2 * b else (2 * b - 256) ⊕ p.
Fixpoint gf_mul_n (p : Z) (n : nat) (a b : Z) : Z :=
  match n with
  | O => 0
  | S n => (if Z.odd b then a else 0) ⊕ gf_mul_n p n (xt p a) (Z.div2 b)
  end.
Definition gf_mul (p a b : Z) : Z := gf_mul_n p 8 a b.
Definition gf_pow (p a : Z) (n : nat) : Z := Nat.iter n (gf_mul p a) 1.

(** [SR] is the Rijndael S-box; [SQ] is given by a Dickson polynomial. *)
Definition SR (x : Z) : Z := Fips.sbox x.
Definition SQ (x : Z) : Z :=
  foldr (λ n z, gf_pow 0x69 x n ⊕ z) 0x25 [1; 9; 13; 15; 33; 41; 45; 47; 49]%nat.

(** The circulant matrix (2 1 1 3) applied to four substituted bytes. *)
Definition diffuse (p t0 t1 t2 t3 : Z) : Z :=
  let m := gf_mul p in
  word4 (m t0 2 ⊕ t1 ⊕ t2 ⊕ m t3 3) (m t0 3 ⊕ m t1 2 ⊕ t2 ⊕ t3)
        (t0 ⊕ m t1 3 ⊕ m t2 2 ⊕ t3) (t0 ⊕ t1 ⊕ m t2 3 ⊕ m t3 2).
Definition on_bytes {A} (f : Z → Z → Z → Z → A) (w : Z) : A :=
  f (u8 (w ≫ 24)) (u8 (w ≫ 16)) (u8 (w ≫ 8)) (u8 w).
Definition S1 : Z → Z := on_bytes (λ a b c d, diffuse 0x1b (SR a) (SR b) (SR c) (SR d)).
Definition S2 : Z → Z := on_bytes (λ a b c d, diffuse 0x69 (SQ a) (SQ b) (SQ c) (SQ d)).

(** GF(2^32) as polynomials of degree 3 over GF(2^8): multiplication by the
    root [α] of x^4 + β^23 x^3 + β^245 x^2 + β^48 x + β^239, where β = 2, and
    by its inverse. *)
Definition β (n : nat) : Z := gf_pow 0xa9 2 n.
Definition alpha_mul : Z → Z := on_bytes (λ a b c d,
  let m n := gf_mul 0xa9 a (β n) in word4 (b ⊕ m 23%nat) (c ⊕ m 245%nat) (d ⊕ m 48%nat) (m 239%nat)).
Definition alpha_div : Z → Z := on_bytes (λ a b c d,
  let m n := gf_mul 0xa9 d (β n) in word4 (m 16%nat) (a ⊕ m 39%nat) (b ⊕ m 6%nat) (c ⊕ m 64%nat)).

(** The LFSR words s_t .. s_(t+15) and the FSM registers. *)
Record state := St { L : list Z; R1 : Z; R2 : Z; R3 : Z }.
Definition fsm_out (g : state) : Z := u32 (L g !!! 15%nat + R1 g) ⊕ R2 g.
Definition step (F : Z) (g : state) : state :=
  let s i := L g !!! i in
  St (drop 1 (L g) ++ [alpha_mul (s 0%nat) ⊕ s 2%nat ⊕ alpha_div (s 11%nat) ⊕ F])
     (u32 (R2 g + (R3 g ⊕ s 5%nat))) (S1 (R1 g)) (S2 (R2 g)).
Definition init_step (g : state) : state := step (fsm_out g) g.
Definition ks_step (g : state) : state := step 0 g.
Definition z (g : state) : Z := fsm_out g ⊕ L g !!! 0%nat.

Definition load (k iv : Z * Z * Z * Z) : state :=
  let '(k0, k1, k2, k3) := k in let '(iv0, iv1, iv2, iv3) := iv in
  let n x := x ⊕ 0xffffffff in
  St [n k0; n k1; n k2; n k3; k0; k1; k2; k3;
      n k0; n k1 ⊕ iv3; n k2 ⊕ iv2; n k3; k0 ⊕ iv1; k1; k2; k3 ⊕ iv0] 0 0 0.

Definition initialised k iv : state := Nat.iter 32 init_step (load k iv).
Fixpoint generate (n : nat) (g : state) : list Z :=
  match n with O => [] | S n => z g :: generate n (ks_step g) end.
Definition keystream k iv (n : nat) : list Z := generate n (ks_step (initialised k iv)).
End Uea2.

(** ** The code computes the specification *)

Lemma word4_shl_lor a b c d :
  in_width 8 a → in_width 8 b → in_width 8 c → in_width 8 d →
  shl 32 a 24 ∣∣ shl 32 b 16 ∣∣ shl 32 c 8 ∣∣ d = word4 a b c d.
Proof.
  intros Ha Hb Hc Hd. unfold shl. rewrite !wrap_small.
  - unfold word4. rewrite !pack_lor by (done || lia).
    by rewrite !Z.shiftl_lor, !Z.shiftl_shiftl by lia.
  - rewrite Z.shiftl_mul_pow2 by lia. unfold in_width in *. lia.
  - rewrite Z.shiftl_mul_pow2 by lia. unfold in_width in *. lia.
  - rewrite Z.shiftl_mul_pow2 by lia. unfold in_width in *. lia.
Qed.

Section Words.
Import Uea2.

Lemma on_bytes_word4 {A} (f : Z → Z → Z → Z → A) a b c d :
  in_width 8 a → in_width 8 b → in_width 8 c → in_width 8 d →
  on_bytes f (word4 a b c d) = f a b c d.
Proof.
  intros Ha Hb Hc Hd. pose proof (bytes4_word4 a b c d Ha Hb Hc Hd) as [= H1 H2 H3 H4].
  unfold on_bytes. by rewrite H1, H2, H3, H4.
Qed.

Lemma xt_width p b : in_width 8 p → in_width 8 b → in_width 8 (xt p b).
Proof.
  intros Hp Hb. unfold xt, in_width in *. change (2 ^ 8) with 256 in *.
  destruct (Z.ltb_spec b 128); [lia|]. apply (in_width_lxor 8); unfold in_width; lia.
Qed.

Lemma gf_mul_width p a b : in_width 8 p → in_width 8 a → in_width 8 (gf_mul p a b).
Proof.
  unfold gf_mul. intros Hp. generalize 8%nat as n. intros n. revert a b.
  induction n as [|n IH]; intros a b Ha; simpl; [by apply in_width_0|].
  apply in_width_lxor; [lia|destruct (Z.odd b); auto with go|]. apply IH. by apply xt_width.
Qed.

Lemma mulx_2 c : c = 0x1b ∨ c = 0x69 → ∀ t, in_width 8 t →
  mulx t c = gf_mul c t 2 ∧ mulx t c ⊕ t = gf_mul c t 3.
Proof.
  intros Hc t Ht.
  assert ((mulx t c =? gf_mul c t 2) && (mulx t c ⊕ t =? gf_mul c t 3) = true) as H.
  { destruct Hc as [-> | ->]; revert t Ht; apply forallb_byte; vm_compute; reflexivity. }
  apply andb_true_iff in H as [H1%Z.eqb_eq H2%Z.eqb_eq]. done.
Qed.

(** A table entry is the given byte. *)
Definition entry_ok (tab : list Z) (T : Z → Z) (x : Z) : bool :=
  match rd tab x with
  | Ret y => (0 <=? y) && (y <? 256) && (T x =? y)
  | _ => false
  end.

Lemma entry_ok_spec tab T x : entry_ok tab T x = true → rd tab x = Ret (T x) ∧ in_width 8 (T x).
Proof.
  unfold entry_ok. destruct (rd tab x) as [y|e|]; [|done..].
  intros [[H1%Z.leb_le H2%Z.ltb_lt]%andb_true_iff H3%Z.eqb_eq]%andb_true_iff.
  rewrite H3. split; [done|]. split; [lia|done].
Qed.

Lemma sr_spec x : in_width 8 x → rd sr x = Ret (SR x) ∧ in_width 8 (SR x).
Proof. intros Hx. apply entry_ok_spec. revert x Hx. apply forallb_byte. vm_compute. reflexivity. Qed.
Lemma sq_spec x : in_width 8 x → rd sq x = Ret (SQ x) ∧ in_width 8 (SQ x).
Proof. intros Hx. apply entry_ok_spec. revert x Hx. apply forallb_byte. vm_compute. reflexivity. Qed.

Lemma s_box_spec c tab (T : Z → Z) w :
  c = 0x1b ∨ c = 0x69 → (∀ x, in_width 8 x → rd tab x = Ret (T x) ∧ in_width 8 (T x)) →
  in_width 32 w →
  s_box tab c w = Ret (on_bytes (λ a b c' d, diffuse c (T a) (T b) (T c') (T d)) w) ∧
  in_width 32 (on_bytes (λ a b c' d, diffuse c (T a) (T b) (T c') (T d)) w).
Proof.
  intros Hc HT Hw. assert (in_width 8 c) as Hcw by (destruct Hc as [-> | ->]; split; lia).
  destruct (word4_bytes w Hw) as (a&b&e&d&->&Ha&Hb&He&Hd).
  rewrite on_bytes_word4 by done.
  destruct (HT a Ha) as [Ra Wa], (HT b Hb) as [Rb Wb], (HT e He) as [Re We], (HT d Hd) as [Rd Wd].
  pose proof (shiftr_word4 a b e d Ha Hb He Hd) as (H1&H2&H3&H4).
  assert (Z.land a 255 = a) as Ha'.
  { change 255 with (Z.ones 8). rewrite Z.land_ones by lia. by apply Z.mod_small. }
  unfold diffuse. split; [|apply word4_in_width; auto 8 using gf_mul_width with go].
  unfold s_box. rewrite H1, H2, H3, H4, Ha', Ra, Rb, Re, Rd. ret_bind. cbv zeta.
  generalize dependent (T a); intros t0 _ Wa. generalize dependent (T b); intros t1 _ Wb.
  generalize dependent (T e); intros t2 _ We. generalize dependent (T d); intros t3 _ Wd.
  destruct (mulx_2 c Hc t0 Wa) as [<- <-], (mulx_2 c Hc t1 Wb) as [<- <-],
    (mulx_2 c Hc t2 We) as [<- <-], (mulx_2 c Hc t3 Wd) as [<- <-].
  assert (∀ t, in_width 8 t → in_width 8 (mulx t c)) as Hm.
  { intros t Ht. rewrite (proj1 (mulx_2 c Hc t Ht)). by apply gf_mul_width. }
  rewrite word4_shl_lor by auto 10 with go. do 2 f_equal; by rewrite ?Z.lxor_assoc.
Qed.

Lemma s1_spec w : in_width 32 w → s1 w = Ret (S1 w) ∧ in_width 32 (S1 w).
Proof. apply s_box_spec; [by left|exact sr_spec]. Qed.
Lemma s2_spec w : in_width 32 w → s2 w = Ret (S2 w) ∧ in_width 32 (S2 w).
Proof. apply s_box_spec; [by right|exact sq_spec]. Qed.

Lemma alpha_tables x : in_width 8 x →
  let m n := gf_mul 0xa9 x (β n) in
  mulAlpha x = word4 (m 23%nat) (m 245%nat) (m 48%nat) (m 239%nat) ∧
  divAlpha x = word4 (m 16%nat) (m 39%nat) (m 6%nat) (m 64%nat).
Proof.
  intros Hx m.
  assert ((mulAlpha x =? word4 (m 23%nat) (m 245%nat) (m 48%nat) (m 239%nat)) &&
    (divAlpha x =? word4 (m 16%nat) (m 39%nat) (m 6%nat) (m 64%nat)) = true) as H.
  { subst m. cbv beta. revert x Hx. apply forallb_byte. vm_compute. reflexivity. }
  apply andb_true_iff in H as [H1%Z.eqb_eq H2%Z.eqb_eq]. split; assumption.
Qed.

#[local] Opaque mulAlpha divAlpha gf_mul gf_pow S1 S2.

Lemma shl_word4 a b c d :
  in_width 8 a → in_width 8 b → in_width 8 c → in_width 8 d →
  shl 32 (word4 a b c d) 8 = word4 b c d 0 ∧ word4 a b c d ≫ 8 = word4 0 a b c.
Proof.
  intros Ha Hb Hc Hd. unfold shl, wrap. rewrite Z.shiftl_mul_pow2, Z.shiftr_div_pow2 by lia.
  unfold word4, in_width in *. change (2 ^ 8) with 256 in *. change (2 ^ 32) with 4294967296.
  split; Z.to_euclidean_division_equations; lia.
Qed.

(** The two halves of the feedback are multiplications by [α] and [1/α]. *)
Lemma alpha_spec w : in_width 32 w →
  shl 32 w 8 ⊕ mulAlpha (u8 (w ≫ 24) & 0xff) = alpha_mul w ∧ in_width 32 (alpha_mul w) ∧
  (w ≫ 8) ⊕ divAlpha (u8 (w & 0xff)) = alpha_div w ∧ in_width 32 (alpha_div w).
Proof.
  intros Hw. destruct (word4_bytes w Hw) as (a&b&c&d&->&Ha&Hb&Hc&Hd).
  unfold alpha_mul, alpha_div. rewrite !on_bytes_word4 by done.
  destruct (shiftr_word4 a b c d Ha Hb Hc Hd) as (H1&_&_&H4). rewrite H1, H4.
  destruct (shl_word4 a b c d Ha Hb Hc Hd) as [-> ->].
  rewrite !wrap_small by done.
  assert (a & 0xff = a) as ->.
  { change 255 with (Z.ones 8). rewrite Z.land_ones by lia. by apply Z.mod_small. }
  assert (in_width 8 0xa9) as Hp by (split; lia).
  assert (∀ x n, in_width 8 x → in_width 8 (gf_mul 0xa9 x (β n))) as Hm
    by (intros; by apply gf_mul_width).
  destruct (alpha_tables a Ha) as [-> _], (alpha_tables d Hd) as [_ ->].
  rewrite !lxor_word4 by auto with go. rewrite !Z.lxor_0_l.
  split; [done|]. split; [apply word4_in_width; auto with go|].
  split; [done|]. apply word4_in_width; auto with go.
Qed.

Lemma xor_xor_cancel a b : a ⊕ b ⊕ b = a.
Proof. by rewrite Z.lxor_assoc, Z.lxor_nilpotent, Z.lxor_0_r. Qed.

Lemma alpha_inverse w : in_width 32 w → alpha_div (alpha_mul w) = w.
Proof.
  intros Hw. destruct (word4_bytes w Hw) as (a&b&c&d&->&Ha&Hb&Hc&Hd).
  assert (in_width 8 0xa9) as Hp by (split; lia).
  assert (∀ x n, in_width 8 x → in_width 8 (gf_mul 0xa9 x (β n))) as Hm
    by (intros; by apply gf_mul_width).
  unfold alpha_mul, alpha_div. rewrite on_bytes_word4 by done.
  rewrite on_bytes_word4 by auto with go.
  assert ((gf_mul 0xa9 (gf_mul 0xa9 a (β 239)) (β 16) =? a) &&
    ((gf_mul 0xa9 (gf_mul 0xa9 a (β 239)) (β 39) =? gf_mul 0xa9 a (β 23)) &&
    ((gf_mul 0xa9 (gf_mul 0xa9 a (β 239)) (β 6) =? gf_mul 0xa9 a (β 245)) &&
    (gf_mul 0xa9 (gf_mul 0xa9 a (β 239)) (β 64) =? gf_mul 0xa9 a (β 48)))) = true) as H.
  { clear -Ha. revert a Ha. apply forallb_byte. vm_compute. reflexivity. }
  apply andb_true_iff in H as [H0%Z.eqb_eq H]. apply andb_true_iff in H as [H1%Z.eqb_eq H].
  apply andb_true_iff in H as [H2%Z.eqb_eq H3%Z.eqb_eq].
  rewrite H0, H1, H2, H3. by rewrite !xor_xor_cancel.
Qed.

(** ** The generator *)

Definition words (l : list Z) : Prop := Forall (in_width 32) l.

(** A state of the specification that fits the code's arrays. *)
Definition wf (g : state) : Prop :=
  length (L g) = 16%nat ∧ words (L g) ∧ in_width 32 (R1 g) ∧ in_width 32 (R2 g) ∧ in_width 32 (R3 g).
(** The globals that hold it. *)
Definition repr (g : state) : snow := Snow (L g) [R1 g; R2 g; R3 g].

(** The state after [clockFsm], before the LFSR moves. *)
Definition fsm_next (g : state) : state :=
  St (L g) (u32 (R2 g + (R3 g ⊕ L g !!! 5%nat))) (S1 (R1 g)) (S2 (R2 g)).

Lemma rd_total (l : list Z) (z : Z) (i : nat) :
  z = Z.of_nat i → (i < length l)%nat → rd l z = Ret (l !!! i).
Proof.
  intros -> Hi. apply rd_lookup; [lia|]. rewrite Nat2Z.id. by apply list_lookup_lookup_total_lt.
Qed.

Lemma words_lookup l i : words l → (i < length l)%nat → in_width 32 (l !!! i).
Proof.
  intros Hw Hi. eapply Forall_lookup_1; [exact Hw|]. by apply list_lookup_lookup_total_lt.
Qed.

Lemma clock_spec g : wf g → clock (repr g) = Ret (fsm_out g, repr (fsm_next g)).
Proof.
  intros (Hl & Hw & H1 & H2 & H3). unfold clock, repr. cbn [lfsr_s].
  rewrite (rd_total (L g) 15 15), (rd_total (L g) 5 5) by lia. ret_bind.
  unfold clockFsm. cbn [fsm_r lfsr_s]. slots.
  destruct (s2_spec (R2 g) H2) as [-> _]. ret_bind. slots.
  destruct (s1_spec (R1 g) H1) as [-> _]. ret_bind. slots. reflexivity.
Qed.

Lemma shift_in_spec v s : length s = 16%nat → shift_in v s = Ret (drop 1 s ++ [v]).
Proof.
  intros Hs. do 16 (destruct s as [|? s]; [discriminate Hs|]). destruct s; [|discriminate Hs].
  reflexivity.
Qed.

Lemma feedback_spec s : length s = 16%nat → words s →
  feedback s = Ret (alpha_mul (s !!! 0%nat) ⊕ s !!! 2%nat ⊕ alpha_div (s !!! 11%nat)).
Proof.
  intros Hl Hw. unfold feedback.
  rewrite (rd_total s 0 0), (rd_total s 2 2), (rd_total s 11 11) by lia. ret_bind.
  destruct (alpha_spec (s !!! 0%nat)) as (<-&_); [apply words_lookup; [done|lia]|].
  destruct (alpha_spec (s !!! 11%nat)) as (_&_&<-&_); [apply words_lookup; [done|lia]|].
  f_equal. by rewrite !Z.lxor_assoc.
Qed.

Lemma init_mode_spec F g : wf g →
  lfsrInitialisationMode F (repr (fsm_next g)) = Ret (repr (step F g)).
Proof.
  intros (Hl & Hw & _). unfold lfsrInitialisationMode. cbn [lfsr_s fsm_r repr fsm_next L].
  rewrite feedback_spec by done. ret_bind. rewrite shift_in_spec by done. ret_bind. reflexivity.
Qed.

Lemma ks_mode_spec g : wf g → lfsrKeystreamMode (repr (fsm_next g)) = Ret (repr (ks_step g)).
Proof.
  intros (Hl & Hw & _). unfold lfsrKeystreamMode. cbn [lfsr_s fsm_r repr fsm_next L].
  rewrite feedback_spec by done. ret_bind. rewrite shift_in_spec by done. ret_bind.
  unfold ks_step, step, repr. cbn [L R1 R2 R3]. by rewrite Z.lxor_0_r.
Qed.

Lemma step_wf F g : in_width 32 F → wf g → wf (step F g).
Proof.
  intros HF (Hl & Hw & H1 & H2 & H3).
  assert (∀ i, (i < 16)%nat → in_width 32 (L g !!! i)) as Hs by (intros; apply words_lookup; [done|lia]).
  destruct (alpha_spec (L g !!! 0%nat)) as (_&Ha&_&_); [apply Hs; lia|].
  destruct (alpha_spec (L g !!! 11%nat)) as (_&_&_&Hd); [apply Hs; lia|].
  unfold wf, step. cbn [L R1 R2 R3]. split; [rewrite length_app, length_drop; simpl; lia|].
  split; [|split; [apply wrap_in_width; lia|split; [by apply s1_spec|by apply s2_spec]]].
  apply Forall_app. split; [by apply Forall_drop|]. apply Forall_cons; split; [|constructor].
  apply in_width_lxor; [lia| |done]. apply in_width_lxor; [lia| |done].
  apply in_width_lxor; [lia|done|]. apply Hs. lia.
Qed.

Lemma fsm_out_width g : wf g → in_width 32 (fsm_out g).
Proof. intros (_&_&_&H2&_). unfold fsm_out. auto with go. Qed.

Lemma init_step_wf g : wf g → wf (init_step g).
Proof. intros Hg. apply step_wf; [by apply fsm_out_width|done]. Qed.
Lemma ks_step_wf g : wf g → wf (ks_step g).
Proof. apply step_wf. by apply in_width_0. Qed.

Lemma forM_iter {A S} (f : A → S → outcome S) (step : S → S) (P : S → Prop) (xs : list A) s :
  (∀ x s, P s → f x s = Ret (step s) ∧ P (step s)) → P s →
  forM xs f s = Ret (Nat.iter (length xs) step s) ∧ P (Nat.iter (length xs) step s).
Proof.
  intros Hf. revert s. induction xs as [|x xs IH]; intros s Hs; [done|].
  cbn [forM length]. destruct (Hf x s Hs) as [-> Hs']. ret_bind.
  rewrite Nat.iter_succ_r. by apply IH.
Qed.

Definition words4 (k : Z * Z * Z * Z) : Prop :=
  let '(a, b, c, d) := k in in_width 32 a ∧ in_width 32 b ∧ in_width 32 c ∧ in_width 32 d.
Definition list4 (k : Z * Z * Z * Z) : list Z := let '(a, b, c, d) := k in [a; b; c; d].

Lemma load_wf k iv : words4 k → words4 iv → wf (load k iv).
Proof.
  destruct k as [[[k0 k1] k2] k3], iv as [[[i0 i1] i2] i3]. intros (?&?&?&?) (?&?&?&?).
  assert (in_width 32 0xffffffff) by (split; lia).
  split; [done|]. cbn [load L R1 R2 R3]. split; [|auto using in_width_0 with lia].
  unfold words. rewrite !Forall_cons. auto 20 with go.
Qed.

Lemma InitSnow3g_spec k iv g :
  words4 k → words4 iv → length (lfsr_s g) = 16%nat → length (fsm_r g) = 3%nat →
  InitSnow3g (list4 k) (list4 iv) g = Ret (repr (initialised k iv)) ∧ wf (initialised k iv).
Proof.
  intros Hk Hiv Hs Hr. pose proof (load_wf k iv Hk Hiv) as Hwf.
  destruct g as [s r]. cbn [lfsr_s fsm_r] in Hs, Hr.
  do 16 (destruct s as [|? s]; [discriminate Hs|]). destruct s; [|discriminate Hs].
  do 3 (destruct r as [|? r]; [discriminate Hr|]). destruct r; [|discriminate Hr].
  assert (∃ x, x = repr (load k iv) ∧ InitSnow3g (list4 k) (list4 iv) (Snow
    [z0; z1; z2; z3; z4; z5; z6; z7; z8; z9; z10; z11; z12; z13; z14; z15] [z16; z17; z18]) =
    forM (seqZ 0 32) (λ _ g, '(F, g) ← clock g; lfsrInitialisationMode F g) x) as (x&->&->).
  { destruct k as [[[k0 k1] k2] k3], iv as [[[i0 i1] i2] i3]. eexists. split; reflexivity. }
  assert (∀ xs g, wf g →
    forM xs (λ (_ : Z) g, '(F, g) ← clock g; lfsrInitialisationMode F g) (repr g)
    = Ret (repr (Nat.iter (length xs) init_step g)) ∧ wf (Nat.iter (length xs) init_step g)) as H.
  { clear. intros xs. induction xs as [|y xs IH]; intros g Hg; [done|].
    cbn [forM length]. rewrite clock_spec by done. ret_bind.
    rewrite init_mode_spec by done. ret_bind. rewrite Nat.iter_succ_r.
    apply IH. by apply init_step_wf. }
  exact (H (seqZ 0 32) (load k iv) Hwf).
Qed.

Lemma generate_loop n m i pre rest g :
  wf g → i = blen pre → (n ≤ length rest)%nat → m = Z.of_nat n →
  ∃ g', wf g' ∧ forM (seqZ i m) (λ i '(g, ks),
    '(F, g) ← clock g;
    s0 ← rd (lfsr_s g) 0;
    ks ← wr ks i (F ⊕ s0);
    g ← lfsrKeystreamMode g;
    Ret (g, ks)) (repr g, pre ++ rest) = Ret (repr g', pre ++ generate n g ++ drop n rest).
Proof.
  intros Hg Hi Hl ->. revert i pre rest g Hg Hi Hl.
  induction n as [|n IH]; intros i pre rest g Hg Hi Hl; [by exists g|].
  destruct rest as [|x rest]; [simpl in Hl; lia|]. simpl in Hl.
  rewrite seqZ_cons by lia. cbn [forM]. rewrite clock_spec by done. ret_bind.
  cbn [lfsr_s repr fsm_next L]. rewrite (rd_total (L g) 0 0) by (pose proof (proj1 Hg); lia). ret_bind.
  rewrite (wr_app pre rest i x) by done. ret_bind. subst i.
  rewrite (ks_mode_spec g) by done. ret_bind.
  destruct (IH (Z.succ (blen pre)) (pre ++ [z g]) rest (ks_step g)) as (g'&Hg'&E);
    [by apply ks_step_wf|unfold blen; rewrite length_app; simpl; lia|lia|].
  exists g'. split; [done|]. rewrite <-!app_assoc in E. cbn [app] in E.
  replace (Z.pred (Z.of_nat (S n))) with (Z.of_nat n) by lia. exact E.
Qed.

Lemma GenerateKeystream_spec n ks g : wf g → length ks = n →
  ∃ g', wf g' ∧ GenerateKeystream (Z.of_nat n) ks (repr g) = Ret (repr g', generate n (ks_step g)).
Proof.
  intros Hg Hl. unfold GenerateKeystream. rewrite clock_spec by done. ret_bind.
  rewrite ks_mode_spec by done. ret_bind.
  destruct (generate_loop n (Z.of_nat n) 0 [] ks (ks_step g)) as (g'&Hg'&E);
    [by apply ks_step_wf|done|lia|done|].
  exists g'. split; [done|]. cbn [app] in E. rewrite E. by rewrite drop_ge, app_nil_r by lia.
Qed.

Lemma generate_length n g : length (generate n g) = n.
Proof. revert g. induction n as [|n IH]; intros g; simpl; [done|by rewrite IH]. Qed.

Lemma generate_words n g : wf g → words (generate n g).
Proof.
  revert g. induction n as [|n IH]; intros g Hg; simpl; [constructor|].
  constructor; [|by apply IH, ks_step_wf]. apply in_width_lxor; [lia|by apply fsm_out_width|].
  destruct Hg as (Hl & Hw & _). apply words_lookup; [done|lia].
Qed.

(** Globals the package can hold between two calls. *)
Definition globals_ok (g : snow) : Prop := length (lfsr_s g) = 16%nat ∧ length (fsm_r g) = 3%nat.

Lemma repr_globals g : wf g → globals_ok (repr g).
Proof. intros [Hl _]. by split. Qed.

Lemma keystream_run k iv (n : nat) g ks :
  words4 k → words4 iv → globals_ok g → length ks = n →
  ∃ g', globals_ok g' ∧
    (g ← InitSnow3g (list4 k) (list4 iv) g; GenerateKeystream (Z.of_nat n) ks g)
    = Ret (g', keystream k iv n) ∧
    length (keystream k iv n) = n ∧ words (keystream k iv n).
Proof.
  intros Hk Hiv [Hs Hr] Hn. destruct (InitSnow3g_spec k iv g Hk Hiv Hs Hr) as [-> Hw]. ret_bind.
  destruct (GenerateKeystream_spec n ks _ Hw Hn) as (g'&Hg'&E). exists (repr g').
  split; [by apply repr_globals|]. split; [exact E|]. unfold keystream.
  split; [apply generate_length|]. by apply generate_words, ks_step_wf.
Qed.
End Words.

(** ** Properties *)

(** C10. InitSnow3g followed by GenerateKeystream produces the UEA2 keystream:
    whatever the package globals held before, the words written to [ks] are
    those of the LFSR recurrence over GF(2^32) and the FSM with the Rijndael
    and Dickson S-boxes, and the globals stay usable for the next call. *)
Theorem snow3g_refines_UEA2 k iv (n : nat) g ks :
  words4 k → words4 iv → globals_ok g → length ks = n →
  ∃ g', globals_ok g' ∧
    (g ← InitSnow3g (list4 k) (list4 iv) g; GenerateKeystream (Z.of_nat n) ks g)
    = Ret (g', Uea2.keystream k iv n).
Proof.
  intros Hk Hiv Hg Hn. destruct (keystream_run k iv n g ks Hk Hiv Hg Hn) as (g'&H1&H2&_).
  by exists g'.
Qed.

(** The feedback words of the code are multiplications by α and 1/α in
    GF(2^32): the shift-and-table expressions built from mulAlpha and divAlpha
    are inverse to each other on 32-bit words. *)
Theorem snow3g_alpha_inverse w : in_width 32 w →
  let m := shl 32 w 8 ⊕ mulAlpha (u8 (w ≫ 24) & 0xff) in
  (m ≫ 8) ⊕ divAlpha (u8 (m & 0xff)) = w.
Proof.
  intros Hw m. destruct (alpha_spec w Hw) as (Hm&Hmw&_). unfold m. rewrite Hm.
  destruct (alpha_spec _ Hmw) as (_&_&->&_). by apply alpha_inverse.
Qed.

Lemma snow3g_refines_UEA2_witness :
  ∃ g', globals_ok g' ∧
    (g ← InitSnow3g (list4 (0x2BD6459F, 0x82C5B300, 0x952C4910, 0x4881FF48))
           (list4 (0xEA024714, 0xAD5C4D84, 0xDF1F9B25, 0x1C0BF45F))
           (Snow (replicate 16 0) (replicate 3 0));
     GenerateKeystream (Z.of_nat 2) [0; 0] g)
    = Ret (g', Uea2.keystream (0x2BD6459F, 0x82C5B300, 0x952C4910, 0x4881FF48)
                 (0xEA024714, 0xAD5C4D84, 0xDF1F9B25, 0x1C0BF45F) 2).
Proof.
  apply snow3g_refines_UEA2; [cbv; repeat split; discriminate..|split; reflexivity|reflexivity].
Defined.

Lemma snow3g_alpha_inverse_witness :
  let m := shl 32 0x12345678 8 ⊕ mulAlpha (u8 (0x12345678 ≫ 24) & 0xff) in
  (m ≫ 8) ⊕ divAlpha (u8 (m & 0xff)) = 0x12345678.
Proof. apply snow3g_alpha_inverse. split; lia. Defined.

(** Test set 1 of the implementors' test data. *)
Example keystream_test_1 :
  Uea2.keystream (0x2BD6459F, 0x82C5B300, 0x952C4910, 0x4881FF48)
    (0xEA024714, 0xAD5C4D84, 0xDF1F9B25, 0x1C0BF45F) 2 = [0xABEE9704; 0x7AC31373].
Proof. vm_compute. reflexivity. Qed.

#[global] Opaque InitSnow3g GenerateKeystream Uea2.keystream.
