(* ===== verification/NasSecurity.v ===== *)
(** * lib/nas/security: NAS ciphering, integrity and the NAS counter

    [Section WithCmac] models security.go; github.com/aead/cmac is not part of
    the repository, so [cmac.Sum] is the parameter [cmac_sum].  The standard
    library's crypto/aes and cipher.NewCTR are AES-128 ([Fips.encrypt128]) in
    counter mode.  [Count] models counter.go.  The SNOW 3G globals are passed
    as [snow]. *)

From S2P Require Import Prelude AesTables Aes Snow3g.

#[local] Open Scope Z_scope.
#[local] Open Scope go_scope.

(** ** parameters.go *)

Definition AlgIntegrity128NIA0 : Z := 0x00.
Definition AlgIntegrity128NIA1 : Z := 0x01.
Definition AlgIntegrity128NIA2 : Z := 0x02.
Definition AlgIntegrity128NIA3 : Z := 0x03.
Definition AlgCiphering128NEA0 : Z := 0x00.
Definition AlgCiphering128NEA1 : Z := 0x01.
Definition AlgCiphering128NEA2 : Z := 0x02.
Definition AlgCiphering128NEA3 : Z := 0x03.
Definition DirectionUplink : Z := 0x00.
Definition DirectionDownlink : Z := 0x01.
Definition Bearer3GPP : Z := 0x01.

(** ** counter.go

    A [Count] is its one field, a uint32. *)

Module Count.
Definition maskTo24Bits (count : Z) : Z := count & 0x00ffffff.
Definition SQN (count : Z) : Z := u8 (count & 0x000000ff).
Definition SetSQN (sqn count : Z) : Z := (count & 0xffffff00) ∣∣ sqn.
Definition Overflow (count : Z) : Z := u16 ((count & 0x00ffff00) ≫ 8).
Definition SetOverflow (overflow count : Z) : Z := (count & 0xff0000ff) ∣∣ shl 32 overflow 8.
Definition Set_ (overflow sqn count : Z) : Z := SetSQN sqn (SetOverflow overflow count).
Definition Get (count : Z) : Z := count.
Definition AddOne (count : Z) : Z := maskTo24Bits (u32 (count + 1)).
End Count.

(** ** encoding/binary *)

(** [binary.BigEndian.Uint32(b)] and [Uint64(b)]: the first [n] bytes. *)
Definition be_uint (n : Z) (b : list Z) : outcome Z :=
  bs ← slice b 0 n; Ret (foldl (λ z x, z * 2 ^ 8 + x) 0 bs).

(** [binary.BigEndian.PutUint32(b, v)] *)
Definition PutUint32 (b : list Z) (v : Z) : outcome (list Z) :=
  b ← wr b 0 (u8 (v ≫ 24)); b ← wr b 1 (u8 (v ≫ 16));
  b ← wr b 2 (u8 (v ≫ 8)); wr b 3 (u8 v).

(** ** security.go *)

(** The four key words, last first: [k[i] = Uint32(ck[4*(3-i) : 4*(3-i+1)])]. *)
Definition key_words_rev (ck : list Z) : outcome (list Z) :=
  forM (seqZ 0 4) (λ i k, b ← slice ck (4 * (3 - i)) (4 * (3 - i + 1)); w ← be_uint 4 b; wr k i w)
    [0; 0; 0; 0].

(** [obs[4*i+j] = ibs[4*i+j] ^ byte((ks[i]>>(8*(3-j)))&0xff)] for [j < n] *)
Definition xor_word (n i : Z) (ks ibs obs : list Z) : outcome (list Z) :=
  forM (seqZ 0 n) (λ j obs,
    x ← rd ibs (4 * i + j); w ← rd ks i;
    wr obs (4 * i + j) (x ⊕ u8 ((w ≫ (8 * (3 - j))) & 0xff))) obs.

Definition NEA1 (ck : list Z) (countC bearer direction : Z) (ibs : list Z) (length : Z) (g : snow)
  : outcome (snow * list Z) :=
  k ← key_words_rev ck;
  let bd := shl 32 bearer 27 ∣∣ shl 32 direction 26 in
  let iv := [bd; countC; bd; countC] in
  g ← InitSnow3g k iv g;
  let l := Z.quot (u32 (length + 31)) 32 in
  let r := Z.rem length 32 in
  let ks := replicate (Z.to_nat l) 0 in
  '(g, ks) ← GenerateKeystream l ks g;
  last ← rd ks (u32 (l - 1));
  let mask := Z.ldiff 0xffffffff (u32 (shl 32 1 (32 - r) - 1)) in
  ks ← wr ks (u32 (l - 1)) (last & mask);
  let obs := replicate (Z.to_nat (blen ibs)) 0 in
  obs ← forM (seqZ 0 (Z.quot length 32)) (λ i obs, xor_word 4 i ks ibs obs) obs;
  if negb (r =? 0)
  then obs ← xor_word (Z.quot (r + 7) 8) (Z.quot length 32) ks ibs obs; Ret (g, obs)
  else Ret (g, obs).

(** Counter mode of the standard library: the counter block is incremented as
    a 128-bit big-endian number for every 16 bytes. *)
Definition be_value (l : list Z) : Z := foldl (λ z x, z * 2 ^ 8 + x) 0 l.
Definition ctr_block (key iv : list Z) (i : nat) : list Z :=
  Fips.encrypt128 key (be_bytes 16 (be_value iv + Z.of_nat i)).
Definition ctr_stream (key iv : list Z) (n : nat) : list Z :=
  take n (mjoin (ctr_block key iv <$> seq 0 (S (n / 16)))).
Definition XORKeyStream (key iv src : list Z) : list Z :=
  zip_with Z.lxor src (ctr_stream key iv (length src)).

Definition NEA2 (key : list Z) (count bearer direction : Z) (ibs : list Z) : outcome (list Z) :=
  couterBlk ← PutUint32 (replicate 16 0) count;
  couterBlk ← wr couterBlk 4 (shl 8 bearer 3 ∣∣ shl 8 direction 2);
  Ret (XORKeyStream key couterBlk ibs).

(** A [nil] payload is [None]. *)
Definition NASEncrypt (AlgoID : Z) (KnasEnc : list Z) (Count Bearer Direction : Z)
    (payload : option (list Z)) (g : snow) : outcome (snow * list Z) :=
  if Bearer >? 0x1f then Fail "Bearer is beyond 5 bits" else
  if Direction >? 1 then Fail "Direction is beyond 1 bits" else
  match payload with
  | None => Fail "Nas Payload is nil"
  | Some payload =>
    if AlgoID =? AlgCiphering128NEA0 then Ret (g, payload)
    else if AlgoID =? AlgCiphering128NEA1 then
      '(g, output) ← NEA1 KnasEnc Count Bearer Direction payload (u32 (u32 (blen payload) * 8)) g;
      Ret (g, gocopy payload output)
    else if AlgoID =? AlgCiphering128NEA2 then
      output ← NEA2 KnasEnc Count Bearer Direction payload; Ret (g, gocopy payload output)
    else if AlgoID =? AlgCiphering128NEA3 then Fail "NEA3 not implement yet."
    else Fail "Unknown Algorithm Identity"
  end.

(** GF(2^64) arithmetic of NIA1. *)
Definition mulx64 (V c : Z) : Z :=
  if negb (V & 0x8000000000000000 =? 0) then shl 64 V 1 ⊕ c else shl 64 V 1.
Fixpoint mulxPow64 (V : Z) (i : nat) (c : Z) : Z :=
  match i with O => V | S i => mulx64 (mulxPow64 V i c) c end.
Definition mul64 (V P c : Z) : Z :=
  foldl (λ rst i, if (P ≫ Z.of_nat i) & 1 =? 1 then rst ⊕ mulxPow64 V i c else rst) 0 (seq 0 64).

Definition NIA1 (ik : list Z) (countI bearer direction : Z) (msg : list Z) (length : Z) (g : snow)
  : outcome (snow * list Z) :=
  let fresh := shl 32 bearer 27 in
  k ← key_words_rev ik;
  let iv := [fresh ⊕ shl 32 direction 15; countI ⊕ shl 32 direction 31; fresh; countI] in
  let D := u64 (Z.quot (u64 (length + 63)) 64 + 1) in
  g ← InitSnow3g k iv g;
  '(g, z) ← GenerateKeystream 5 (replicate 5 0) g;
  z0 ← rd z 0; z1 ← rd z 1; z2 ← rd z 2; z3 ← rd z 3; z4 ← rd z 4;
  let P := shl 64 z0 32 ∣∣ z1 in
  let Q := shl 64 z2 32 ∣∣ z3 in
  let c := 0x000000000000001b in
  let D2 := u64 (D - 2) in
  Eval ← forM (seqZ 0 D2) (λ i Eval,
    b ← slice msg (u64 (8 * i)) (blen msg); M ← be_uint 8 b;
    Ret (mul64 (Eval ⊕ M) P c)) 0;
  tl ← slice msg (u64 (8 * D2)) (blen msg);
  M ← be_uint 8 (gocopy (replicate 8 0) tl);
  let Eval := mul64 (Eval ⊕ M) P c in
  let Eval := Eval ⊕ length in
  let Eval := mul64 Eval Q c in
  let MacI := u32 (Eval ≫ 32) ⊕ z4 in
  b ← PutUint32 (replicate 4 0) MacI;
  Ret (g, b).

Section WithCmac.
(** [cmac.Sum(m, block, 16)] with the AES-128 block cipher of [key]. *)
Context (cmac_sum : list Z → list Z → outcome (list Z)).

Definition NIA2 (key : list Z) (count bearer direction : Z) (msg : list Z) : outcome (list Z) :=
  let m := replicate (length msg + 8) 0 in
  m ← PutUint32 m count;
  m ← wr m 4 (shl 8 bearer 3 ∣∣ shl 8 direction 2);
  '(_, m) ← with_tail 8 (λ tl, Ret (tt, gocopy tl msg)) m;
  mac ← cmac_sum key m;
  slice mac 0 4.

(** A [nil] MAC is [None]. *)
Definition NASMacCalculate (AlgoID : Z) (KnasInt : list Z) (Count Bearer Direction : Z)
    (msg : option (list Z)) (g : snow) : outcome (snow * option (list Z)) :=
  if Bearer >? 0x1f then Fail "Bearer is beyond 5 bits" else
  if Direction >? 1 then Fail "Direction is beyond 1 bits" else
  match msg with
  | None => Fail "Nas Payload is nil"
  | Some msg =>
    if AlgoID =? AlgIntegrity128NIA0 then Ret (g, None)
    else if AlgoID =? AlgIntegrity128NIA1 then
      '(g, mac) ← NIA1 KnasInt Count Bearer Direction msg (u64 (blen msg * 8)) g; Ret (g, Some mac)
    else if AlgoID =? AlgIntegrity128NIA2 then
      mac ← NIA2 KnasInt Count Bearer Direction msg; Ret (g, Some mac)
    else if AlgoID =? AlgIntegrity128NIA3 then Ret (g, None)
    else Fail "Unknown Algorithm Identity"
  end.
End WithCmac.

(** ** Counter *)

Section CountSpec.
Import Count.

(** A 32-bit word as top byte, overflow and sequence number. *)
Definition parts (t o s : Z) : Z := t * 2 ^ 24 + (o * 2 ^ 8 + s).

Lemma low_width o s : in_width 16 o → in_width 8 s → in_width 24 (o * 2 ^ 8 + s).
Proof. unfold in_width. lia. Qed.

Lemma parts_ex c : in_width 32 c →
  ∃ t o s, c = parts t o s ∧ in_width 8 t ∧ in_width 16 o ∧ in_width 8 s.
Proof.
  intros Hc. exists (c / 16777216), (c / 256 mod 65536), (c mod 256). unfold parts, in_width in *.
  change (2 ^ 8) with 256. change (2 ^ 24) with 16777216. change (2 ^ 16) with 65536.
  change (2 ^ 32) with 4294967296 in Hc.
  assert (c / 16777216 = c / 256 / 65536) as -> by (rewrite Z.div_div by lia; reflexivity).
  pose proof (Z.mod_pos_bound c 256 eq_refl) as B0. pose proof (Z.div_mod c 256 ltac:(done)) as E0.
  pose proof (Z.mod_pos_bound (c / 256) 65536 eq_refl) as B1.
  pose proof (Z.div_mod (c / 256) 65536 ltac:(done)) as E1.
  revert B0 E0 B1 E1. generalize (c mod 256) as s. generalize (c / 256) as q. intros q s.
  generalize (q mod 65536) as o. generalize (q / 65536) as t. intros. subst q. lia.
Qed.

Lemma parts_land t o s t' o' s' :
  in_width 16 o → in_width 8 s → in_width 16 o' → in_width 8 s' →
  parts t o s & parts t' o' s' = parts (t & t') (o & o') (s & s').
Proof. intros. unfold parts. rewrite !land_pack by (lia || by (try apply low_width)). done. Qed.

Lemma parts_lor t o s t' o' s' :
  in_width 16 o → in_width 8 s → in_width 16 o' → in_width 8 s' →
  parts t o s ∣∣ parts t' o' s' = parts (t ∣∣ t') (o ∣∣ o') (s ∣∣ s').
Proof. intros. unfold parts. rewrite !lor_pack by (lia || by (try apply low_width)). done. Qed.

Lemma count_ops t o s : in_width 8 t → in_width 16 o → in_width 8 s →
  let c := parts t o s in
  SQN c = s ∧ Overflow c = o ∧ maskTo24Bits c = parts 0 o s ∧
  (∀ s', in_width 8 s' → SetSQN s' c = parts t o s') ∧
  (∀ o', in_width 16 o' → SetOverflow o' c = parts t o' s).
Proof.
  intros Ht Ho Hs c. unfold SQN, Overflow, maskTo24Bits, SetSQN, SetOverflow, c.
  assert (in_width 8 0) as Z8 by (apply in_width_0; lia).
  assert (in_width 16 0) as Z16 by (apply in_width_0; lia).
  assert (in_width 8 (Z.ones 8)) as F8 by (split; [discriminate|reflexivity]).
  assert (in_width 16 (Z.ones 16)) as F16 by (split; [discriminate|reflexivity]).
  change 0x000000ff with (parts 0 0 (Z.ones 8)). change 0x00ffff00 with (parts 0 (Z.ones 16) 0).
  change 0x00ffffff with (parts 0 (Z.ones 16) (Z.ones 8)).
  change 0xffffff00 with (parts (Z.ones 8) (Z.ones 16) 0).
  change 0xff0000ff with (parts (Z.ones 8) 0 (Z.ones 8)).
  rewrite !parts_land by done. rewrite !Z.land_0_r, !land_ones_id by (lia || done).
  split; [|split; [|split; [done|split]]].
  - unfold parts, wrap. rewrite Z.mod_small; [lia|]. unfold in_width in Hs. lia.
  - unfold parts, wrap. rewrite Z.shiftr_div_pow2 by lia. unfold in_width in *.
    change (2 ^ 8) with 256. change (2 ^ 16) with 65536 in *. Z.to_euclidean_division_equations; lia.
  - intros s' Hs'. change s' with (parts 0 0 s') at 1. rewrite parts_lor by done.
    by rewrite Z.lor_0_r, Z.lor_0_r, Z.lor_0_l.
  - intros o' Ho'. assert (shl 32 o' 8 = parts 0 o' 0) as ->.
    { unfold shl, parts. rewrite wrap_small; rewrite Z.shiftl_mul_pow2 by lia; unfold in_width in *; lia. }
    rewrite parts_lor by done. by rewrite Z.lor_0_r, Z.lor_0_l, Z.lor_0_r.
Qed.

Lemma count_set t o s o' s' :
  in_width 8 t → in_width 16 o → in_width 8 s → in_width 16 o' → in_width 8 s' →
  Set_ o' s' (parts t o s) = parts t o' s'.
Proof.
  intros Ht Ho Hs Ho' Hs'. unfold Set_.
  destruct (count_ops t o s) as (_&_&_&_&H); [done..|]. rewrite H by done.
  destruct (count_ops t o' s) as (_&_&_&H'&_); [done..|]. by apply H'.
Qed.

(** The 24-bit successor. *)
Lemma count_addone c : in_width 24 c → AddOne c = (c + 1) mod 2 ^ 24.
Proof.
  intros Hc. unfold AddOne, maskTo24Bits, wrap. change 0x00ffffff with (Z.ones 24).
  rewrite Z.land_ones by lia. unfold in_width in Hc. rewrite (Z.mod_small _ (2 ^ 32)); [done|lia].
Qed.
End CountSpec.

(** ** NEA1 *)

Section Nea1.

Definition word_at (l : list Z) (o : nat) : Z := be_value (take 4 (drop o l)).
(** The key words in the order [InitSnow3g] receives them. *)
Definition k4 (ck : list Z) : Z * Z * Z * Z := (word_at ck 12, word_at ck 8, word_at ck 4, word_at ck 0).
Definition iv4 (count bearer direction : Z) : Z * Z * Z * Z :=
  let bd := shl 32 bearer 27 ∣∣ shl 32 direction 26 in (bd, count, bd, count).

Lemma be_value_4 a b c d : be_value [a; b; c; d] = word4 a b c d.
Proof. unfold be_value, word4. simpl foldl. lia. Qed.

Lemma key_words_rev_spec ck : block ck → key_words_rev ck = Ret (list4 (k4 ck)) ∧ words4 (k4 ck).
Proof.
  intros [Hl Hb]. split_list ck. split; [reflexivity|]. split_bytes Hb.
  unfold k4, word_at. cbn [take drop]. rewrite !be_value_4. repeat split; auto with go; apply word4_in_width; done.
Qed.

Lemma u8_land_ff x : u8 (x & 0xff) = u8 x.
Proof.
  change 0xff with (Z.ones 8). rewrite Z.land_ones by lia. unfold wrap. apply Z.mod_mod. done.
Qed.

Lemma bytes4_shifts w : bytes4 w = (λ j, u8 ((w ≫ (8 * (3 - j))) & 0xff)) <$> [0; 1; 2; 3].
Proof. cbn [fmap list_fmap]. rewrite !u8_land_ff. reflexivity. Qed.

Lemma xor_word_spec n i kp k kr ip il ir op ol or :
  i = blen kp → 4 * i = blen ip → 4 * i = blen op → 1 ≤ n ≤ 4 → blen il = n → blen ol = n →
  xor_word n i (kp ++ k :: kr) (ip ++ il ++ ir) (op ++ ol ++ or) =
  Ret (op ++ zip_with Z.lxor il (bytes4 k) ++ or).
Proof.
  intros Hi Hip Hop Hn Hil Hol. unfold xor_word. rewrite bytes4_shifts.
  assert (rd (kp ++ k :: kr) i = Ret k) as -> by (rewrite (rd_at _ _ _ 0); [done|lia|done]).
  assert (∀ j, 0 ≤ j → rd (ip ++ il ++ ir) (4 * i + j) = rd (il ++ ir) j) as Hrd
    by (intros; apply rd_at; lia).
  assert (∀ j x l, 0 ≤ j → wr (op ++ l) (4 * i + j) x = (l' ← wr l j x; Ret (op ++ l'))) as Hwr
    by (intros; apply wr_at; lia).
  clear Hi Hip Hop. unfold blen in Hil, Hol.
  assert (n = 1 ∨ n = 2 ∨ n = 3 ∨ n = 4) as [-> | [-> | [-> | ->]]] by lia;
    [change (seqZ 0 1) with [0]|change (seqZ 0 2) with [0; 1]
    |change (seqZ 0 3) with [0; 1; 2]|change (seqZ 0 4) with [0; 1; 2; 3]];
  do 4 (try (destruct il as [|? il]; [try (simpl in Hil; lia)|]));
  do 4 (try (destruct ol as [|? ol]; [try (simpl in Hol; lia)|]));
  try (simpl in Hil, Hol; lia); try (destruct il; [|simpl in Hil; lia]);
  try (destruct ol; [|simpl in Hol; lia]); clear Hil Hol;
  cbn [forM]; repeat (first [rewrite Hrd by lia|rewrite Hwr by lia]; cbn [app]; slots);
  reflexivity.
Qed.

Definition stream_bytes (ks : list Z) : list Z := mjoin (bytes4 <$> ks).

Lemma stream_bytes_length ks : length (stream_bytes ks) = (4 * length ks)%nat.
Proof.
  unfold stream_bytes. induction ks as [|k ks IH]; [done|]. cbn [fmap list_fmap mjoin list_join length].
  rewrite length_app. fold (mjoin (M:=list) (A:=Z)) in *. unfold mjoin in *. rewrite IH. simpl. lia.
Qed.

Lemma take_4 {A} (l : list A) n : (4 * S n ≤ length l)%nat →
  ∃ w r, l = w ++ r ∧ length w = 4%nat ∧ take (4 * S n) l = w ++ take (4 * n) r ∧
         drop (4 * S n) l = drop (4 * n) r.
Proof.
  intros Hl. destruct l as [|a [|b [|c [|d l]]]]; try (simpl in Hl; lia).
  exists [a; b; c; d], l. replace (4 * S n)%nat with (S (S (S (S (4 * n))))) by lia. done.
Qed.

Lemma nea1_loop n i kp ks kr ip ibs op obs :
  i = blen kp → 4 * i = blen ip → 4 * i = blen op → length ks = n →
  (4 * n ≤ length ibs)%nat → (4 * n ≤ length obs)%nat →
  forM (seqZ i (Z.of_nat n)) (λ i obs, xor_word 4 i (kp ++ ks ++ kr) (ip ++ ibs) obs) (op ++ obs)
  = Ret (op ++ zip_with Z.lxor (take (4 * n) ibs) (stream_bytes ks) ++ drop (4 * n) obs).
Proof.
  revert i kp ks ip ibs op obs. induction n as [|n IH]; intros i kp ks ip ibs op obs Hi Hip Hop Hk Hn Ho;
    [done|].
  destruct ks as [|k ks]; [done|]. injection Hk as Hk.
  destruct (take_4 ibs n Hn) as (iw&ir&->&Hiw&->&_), (take_4 obs n Ho) as (ow&or&->&How&_&->).
  rewrite length_app in Hn, Ho. rewrite seqZ_cons by lia. cbn [forM].
  change ((k :: ks) ++ kr) with (k :: ks ++ kr).
  rewrite (xor_word_spec 4 i kp k (ks ++ kr) ip iw ir op ow or) by (unfold blen in *; lia). ret_bind.
  replace (Z.pred (Z.of_nat (S n))) with (Z.of_nat n) by lia.
  replace (kp ++ k :: ks ++ kr) with ((kp ++ [k]) ++ ks ++ kr) by (by rewrite <-app_assoc).
  rewrite (app_assoc ip), (app_assoc op).
  assert (length (zip_with Z.lxor iw (bytes4 k)) = 4%nat) as Hz by (rewrite length_zip_with; simpl; lia).
  rewrite IH; [|unfold blen in *; rewrite ?length_app; simpl; lia..].
  rewrite <-!app_assoc. f_equal. f_equal.
  change (stream_bytes (k :: ks)) with (bytes4 k ++ stream_bytes ks).
  rewrite zip_with_app by (rewrite Hiw; done). by rewrite <-app_assoc.
Qed.

(** The keystream words NEA1 uses for [n] bytes: the last word is cleared when
    it is used completely. *)
Definition nea1_words (n : nat) (ks : list Z) : list Z :=
  if (n mod 4 =? 0)%nat then take (length ks - 1) ks ++ [0] else ks.

Definition nea1_spec (ck : list Z) (count bearer direction : Z) (ibs : list Z) : list Z :=
  let n := length ibs in
  zip_with Z.lxor ibs (stream_bytes (nea1_words n
    (Uea2.keystream (k4 ck) (iv4 count bearer direction) ((n + 3) / 4)))).

Lemma iv4_words c b d : in_width 32 c → words4 (iv4 c b d) ∧
  list4 (iv4 c b d) = (let bd := shl 32 b 27 ∣∣ shl 32 d 26 in [bd; c; bd; c]).
Proof.
  intros Hc. split; [|done].
  assert (in_width 32 (shl 32 b 27 ∣∣ shl 32 d 26)) as H by (apply in_width_lor; [lia|apply wrap_in_width; lia..]).
  exact (conj H (conj Hc (conj H Hc))).
Qed.

(** The mask for the last word, when [r] of its bytes are used. *)
Lemma nea1_mask r last : in_width 32 last → 0 ≤ r < 4 →
  let last' := last & Z.ldiff 0xffffffff (u32 (shl 32 1 (32 - 8 * r) - 1)) in
  (r = 0 → last' = 0) ∧
  (∀ il, blen il = r → zip_with Z.lxor il (bytes4 last') = zip_with Z.lxor il (bytes4 last)).
Proof.
  intros Hl Hr last'. split; [intros ->; unfold last'; apply Z.land_0_r|].
  intros il Hil. subst last'.
  destruct (word4_bytes last Hl) as (a&b&c&d&->&Ha&Hb&Hc&Hd).
  assert (∃ ma mb mc, Z.ldiff 0xffffffff (u32 (shl 32 1 (32 - 8 * r) - 1)) = word4 ma mb mc 0 ∧
    in_width 8 ma ∧ in_width 8 mb ∧ in_width 8 mc ∧ (1 ≤ r → ma = Z.ones 8) ∧ (2 ≤ r → mb = Z.ones 8) ∧
    (3 ≤ r → mc = Z.ones 8)) as (ma&mb&mc&->&Hma&Hmb&Hmc&H1&H2&H3).
  { assert (in_width 8 0xff ∧ in_width 8 0) as [? ?] by (split; split; (lia || reflexivity)).
    assert (r = 0 ∨ r = 1 ∨ r = 2 ∨ r = 3) as [-> | [-> | [-> | ->]]] by lia;
    [exists 0, 0, 0|exists 0xff, 0, 0|exists 0xff, 0xff, 0|exists 0xff, 0xff, 0xff];
    (split; [reflexivity|repeat (split; [done|])]; repeat split; intros; done || lia). }
  assert (in_width 8 0) as H0 by (apply in_width_0; lia).
  rewrite land_word4 by done.
  rewrite !bytes4_word4 by (try done; apply in_width_land; (lia || done || apply Hma || apply Hmb || apply Hmc || apply H0)).
  unfold blen in Hil.
  destruct il as [|x [|y [|z [|? ?]]]]; cbn [length zip_with] in *; [done| | |..|lia];
  rewrite ?H1, ?H2, ?H3 by lia; by rewrite !land_ones_id by (lia || done).
Qed.

Lemma nea1_body kp last ibs (n q r : nat) (g : snow) :
  in_width 32 last → length ibs = n → n = (4 * q + r)%nat → (r < 4)%nat → (0 < n)%nat →
  length kp = (if decide (r = 0) then q - 1 else q)%nat →
  let K := kp ++ [last & Z.ldiff 0xffffffff (u32 (shl 32 1 (32 - 8 * Z.of_nat r) - 1))] in
  (obs ← forM (seqZ 0 (Z.of_nat q)) (λ i obs, xor_word 4 i K ibs obs) (replicate n 0);
   if negb (8 * Z.of_nat r =? 0)
   then obs ← xor_word (Z.quot (8 * Z.of_nat r + 7) 8) (Z.of_nat q) K ibs obs; Ret (g, obs)
   else Ret (g, obs))
  = Ret (g, zip_with Z.lxor ibs (stream_bytes (nea1_words n (kp ++ [last])))).
Proof.
  intros Hlast Hibs Hn Hr Hn0 Hkp K.
  destruct (nea1_mask (Z.of_nat r) last Hlast) as [Hm0 Hm]; [lia|].
  set (last' := last & _) in *.
  assert (nea1_words n (kp ++ [last]) = if decide (r = 0%nat) then kp ++ [0] else kp ++ [last]) as ->.
  { unfold nea1_words. rewrite Hn, Nat.mul_comm, Nat.add_comm, Nat.Div0.mod_add, Nat.mod_small by lia.
    rewrite length_app, Nat.add_sub, take_app_length.
    destruct (decide (r = 0%nat)) as [->|Hr0]; [done|]. by rewrite (proj2 (Nat.eqb_neq r 0)). }
  destruct (decide (r = 0%nat)) as [->|Hr0].
  - rewrite Nat.add_0_r in Hn. change (negb _) with false. cbn iota.
    pose proof (nea1_loop q 0 [] K [] [] ibs [] (replicate n 0)) as E.
    rewrite app_nil_r in E. cbn [app] in E. rewrite E; clear E; [|unfold K, blen; rewrite ?length_app, ?length_replicate; simpl; lia..].
    ret_bind. rewrite drop_ge, app_nil_r, take_ge by (rewrite ?length_replicate; lia).
    unfold K. by rewrite (Hm0 eq_refl).
  - rewrite (proj2 (Z.eqb_neq _ 0)) by lia. cbn [negb].
    pose proof (nea1_loop q 0 [] kp [last'] [] ibs [] (replicate n 0)) as E.
    cbn [app] in E. fold K in E. rewrite E; clear E; [|unfold blen; rewrite ?length_replicate; simpl; lia..].
    ret_bind. replace (Z.quot (8 * Z.of_nat r + 7) 8) with (Z.of_nat r) by (Z.to_euclidean_division_equations; lia).
    assert (drop (4 * q) (replicate n 0) = replicate r 0 ++ []) as ->.
    { rewrite drop_replicate, app_nil_r. f_equal. lia. }
    set (iw := drop (4 * q) ibs). assert (length iw = r) as Hiw by (unfold iw; rewrite length_drop; lia).
    assert (ibs = take (4 * q) ibs ++ iw ++ []) as Hi
      by (unfold iw; by rewrite app_nil_r, take_drop).
    assert (length (take (4 * q) ibs) = (4 * q)%nat) as Ht by (rewrite length_take; lia).
    rewrite Hi at 1. unfold K.
    rewrite (xor_word_spec (Z.of_nat r) (Z.of_nat q) kp last' [] _ iw [])
      by (unfold blen; rewrite ?length_zip_with, ?length_replicate, ?stream_bytes_length; lia).
    ret_bind. do 2 f_equal. rewrite Hm by (unfold blen; lia). rewrite app_nil_r.
    rewrite Hi at 2. rewrite app_nil_r. unfold stream_bytes. rewrite fmap_app, join_app.
    rewrite zip_with_app by (fold (stream_bytes kp); rewrite stream_bytes_length; lia).
    f_equal.
Qed.

Lemma NEA1_spec ck count bearer direction ibs g :
  block ck → in_width 32 count → globals_ok g → (0 < length ibs)%nat → 8 * blen ibs + 31 < 2 ^ 32 →
  ∃ g', globals_ok g' ∧
    NEA1 ck count bearer direction ibs (8 * blen ibs) g
    = Ret (g', nea1_spec ck count bearer direction ibs).
Proof.
  intros Hck Hc Hg Hn Hlen.
  destruct (key_words_rev_spec ck Hck) as [Hk Hkw], (iv4_words count bearer direction Hc) as [Hivw Hiv].
  set (n := length ibs) in *. set (l := ((n + 3) / 4)%nat).
  assert (Z.quot (u32 (8 * blen ibs + 31)) 32 = Z.of_nat l ∧ (l - 1) * 4 < n ≤ l * 4 ∧ 0 < l)%nat as (Hl&Hl4&Hl0).
  { unfold l, wrap, blen in *. fold n in Hlen |- *. rewrite Z.mod_small by lia.
    rewrite Z.quot_div_nonneg by lia. rewrite Nat2Z.inj_div.
    split; [Z.to_euclidean_division_equations; lia|]. pose proof (Nat.div_mod (n + 3) 4).
    pose proof (Nat.mod_upper_bound (n + 3) 4). lia. }
  destruct (keystream_run (k4 ck) (iv4 count bearer direction) l g (replicate l 0) Hkw Hivw Hg) as
    (g'&Hg'&E&Hlk&Hw); [apply length_replicate|].
  exists g'. split; [done|]. unfold NEA1, nea1_spec. fold n. fold l.
  rewrite Hk. ret_bind. cbv zeta. rewrite Hl, Nat2Z.id.
  cbv zeta in Hiv. rewrite <-Hiv.
  revert E Hlk Hw. generalize (Uea2.keystream (k4 ck) (iv4 count bearer direction) l). intros ks E Hlk Hw.
  apply bind_inv in E as (g1&E1&E2). rewrite E1. ret_bind. rewrite E2. ret_bind.
  clear E1 E2 Hk Hkw Hivw Hiv.
  destruct ks as [|last kp _] using rev_ind; [simpl in Hlk; lia|].
  rewrite length_app in Hlk. simpl in Hlk. apply Forall_app in Hw as [_ Hlast].
  apply Forall_cons in Hlast as [Hlast _].
  assert (u32 (Z.of_nat l - 1) = blen kp) as ->.
  { unfold blen, wrap. rewrite Z.mod_small; [lia|]. unfold l, blen in *. fold n in Hlen. lia. }
  rewrite (rd_at kp [last] _ 0) by lia. rewrite rd_cons. change (0 =? 0) with true. cbn iota. ret_bind.
  rewrite (wr_app kp [] _ last) by done. ret_bind.
  set (q := (n / 4)%nat). set (r := (n mod 4)%nat).
  assert (n = 4 * q + r ∧ r < 4)%nat as [Hqr Hr4]
    by (pose proof (Nat.div_mod n 4); pose proof (Nat.mod_upper_bound n 4); lia).
  replace (Z.to_nat (blen ibs)) with n by (unfold blen; lia).
  assert (Z.quot (8 * blen ibs) 32 = Z.of_nat q ∧ Z.rem (8 * blen ibs) 32 = 8 * Z.of_nat r) as [-> ->].
  { unfold blen. fold n. rewrite Z.quot_div_nonneg, Z.rem_mod_nonneg by lia.
    split; [symmetry; apply (Z.div_unique_pos _ _ _ (8 * Z.of_nat r)); lia|].
    symmetry; apply (Z.mod_unique_pos _ _ (Z.of_nat q)); lia. }
  apply nea1_body; try done. destruct (decide (r = 0%nat)); lia.
Qed.
End Nea1.

(** ** NEA2 and the ciphering function *)

Section Cipher.

Lemma zip_lxor_involutive p s : (length p ≤ length s)%nat →
  zip_with Z.lxor (zip_with Z.lxor p s) s = p.
Proof.
  revert s. induction p as [|x p IH]; intros [|y s] Hl; simpl in *; try done; try lia.
  by rewrite Z.lxor_assoc, Z.lxor_nilpotent, Z.lxor_0_r, IH by lia.
Qed.

Lemma ctr_stream_length key iv n : block key → length (ctr_stream key iv n) = n.
Proof.
  intros Hk. unfold ctr_stream. rewrite length_take.
  assert (∀ l, length (mjoin (ctr_block key iv <$> l)) = (16 * length l)%nat) as H.
  { intros l. induction l as [|i l IH]; [done|].
    change (mjoin (ctr_block key iv <$> i :: l)) with (ctr_block key iv i ++ mjoin (ctr_block key iv <$> l)).
    rewrite length_app, IH. unfold ctr_block.
    rewrite (proj1 (encrypt128_block key _ Hk (conj (be_bytes_length 16 _) (be_bytes_ok 16 _)))). simpl. lia. }
  rewrite H, length_seq. pose proof (Nat.div_mod n 16). pose proof (Nat.mod_upper_bound n 16). lia.
Qed.

(** The counter block of TS 33.401 B.1.3: COUNT, BEARER, DIRECTION, zeros. *)
Definition nea2_iv (count bearer direction : Z) : list Z :=
  bytes4 count ++ [shl 8 bearer 3 ∣∣ shl 8 direction 2] ++ replicate 11 0.

Lemma NEA2_spec key count bearer direction ibs :
  NEA2 key count bearer direction ibs = Ret (XORKeyStream key (nea2_iv count bearer direction) ibs).
Proof. reflexivity. Qed.

(** The keystream of each algorithm; NEA0 has the zero keystream. *)
Definition nas_stream (alg : Z) (key : list Z) (count bearer direction : Z) (n : nat) : list Z :=
  if alg =? AlgCiphering128NEA1 then
    stream_bytes (nea1_words n (Uea2.keystream (k4 key) (iv4 count bearer direction) ((n + 3) / 4)))
  else if alg =? AlgCiphering128NEA2 then ctr_stream key (nea2_iv count bearer direction) n
  else replicate n 0.

Definition supported_enc (alg : Z) : Prop :=
  alg = AlgCiphering128NEA0 ∨ alg = AlgCiphering128NEA1 ∨ alg = AlgCiphering128NEA2.

(** Payloads the uint32 bit length of the code can hold. *)
Definition payload_ok (p : list Z) : Prop := (0 < length p)%nat ∧ 8 * blen p + 31 < 2 ^ 32.

Lemma gocopy_same {A} (d s : list A) : length s = length d → gocopy d s = s.
Proof. intros H. unfold gocopy. rewrite take_ge, drop_ge by lia. apply app_nil_r. Qed.

Lemma zip_lxor_zeros p n : (length p ≤ n)%nat → zip_with Z.lxor p (replicate n 0) = p.
Proof.
  revert n. induction p as [|x p IH]; intros [|n] Hl; simpl in *; try done; try lia.
  by rewrite Z.lxor_0_r, IH by lia.
Qed.

Lemma nea1_words_length n ks : length ks = ((n + 3) / 4)%nat → (0 < n)%nat →
  length (nea1_words n ks) = ((n + 3) / 4)%nat.
Proof.
  intros Hl Hn. unfold nea1_words. destruct (n mod 4 =? 0)%nat; [|done].
  rewrite length_app, length_take. change (length [0]) with 1%nat.
  assert (1 ≤ (n + 3) / 4)%nat as H1 by (apply Nat.div_le_lower_bound; lia).
  revert Hl H1. generalize ((n + 3) / 4)%nat. intros m Hm H1. rewrite Hm. lia.
Qed.

Lemma nea1_words_split n ks : length ks = ((n + 3) / 4)%nat → (0 < n)%nat → (n mod 4 = 0)%nat →
  ∃ kp, nea1_words n ks = kp ++ [0] ∧ (4 * length kp + 4 = n)%nat.
Proof.
  intros Hl Hn Hm. pose proof (nea1_words_length n ks Hl Hn) as Hw. unfold nea1_words in *.
  rewrite Hm in *. cbn [Nat.eqb] in *. exists (take (length ks - 1) ks). split; [done|].
  rewrite length_app in Hw. change (length [0]) with 1%nat in Hw.
  pose proof (Nat.div_mod n 4) as E. assert ((n + 3) / 4 = n / 4)%nat as E'.
  { symmetry. apply (Nat.div_unique _ _ _ 3); lia. }
  revert Hw. rewrite E'. revert E. rewrite Hm. generalize (n / 4)%nat. lia.
Qed.

Lemma keystream_length key count bearer direction n g :
  block key → in_width 32 count → globals_ok g →
  length (Uea2.keystream (k4 key) (iv4 count bearer direction) n) = n.
Proof.
  intros Hk Hc Hg.
  destruct (key_words_rev_spec key Hk) as [_ Hkw], (iv4_words count bearer direction Hc) as [Hivw _].
  by destruct (keystream_run _ _ n g (replicate n 0) Hkw Hivw Hg)
    as (g'&_&_&Hl&_); [apply length_replicate|].
Qed.

Lemma nas_stream_length alg key count bearer direction n g :
  block key → in_width 32 count → globals_ok g → (0 < n)%nat →
  (n ≤ length (nas_stream alg key count bearer direction n))%nat.
Proof.
  intros Hk Hc Hg Hn. unfold nas_stream. destruct (alg =? AlgCiphering128NEA1).
  - rewrite stream_bytes_length, nea1_words_length by (done || by apply (keystream_length _ _ _ _ _ g)).
    pose proof (Nat.div_mod (n + 3) 4). pose proof (Nat.mod_upper_bound (n + 3) 4). lia.
  - destruct (alg =? AlgCiphering128NEA2); [by rewrite ctr_stream_length|by rewrite length_replicate].
Qed.

Lemma NASEncrypt_stream alg key count bearer direction p g :
  supported_enc alg → block key → in_width 32 count → bearer ≤ 0x1f → direction ≤ 1 →
  globals_ok g → payload_ok p →
  ∃ g', globals_ok g' ∧ NASEncrypt alg key count bearer direction (Some p) g =
    Ret (g', zip_with Z.lxor p (nas_stream alg key count bearer direction (length p))).
Proof.
  intros Ha Hk Hc Hb Hd Hg [Hn Hl].
  pose proof (nas_stream_length alg key count bearer direction _ g Hk Hc Hg Hn) as Hs.
  unfold NASEncrypt. rewrite !Z.gtb_ltb.
  rewrite (proj2 (Z.ltb_ge _ bearer)), (proj2 (Z.ltb_ge _ direction)) by done.
  assert (u32 (u32 (blen p) * 8) = 8 * blen p) as ->.
  { unfold wrap, blen in *. change (2 ^ 32) with 4294967296 in *.
    rewrite (Z.mod_small (Z.of_nat (length p))) by lia. rewrite Z.mod_small by lia. lia. }
  destruct Ha as [-> | [-> | ->]]; cbn [Z.eqb Pos.eqb AlgCiphering128NEA0 AlgCiphering128NEA1 AlgCiphering128NEA2].
  - exists g. split; [done|]. unfold nas_stream. cbn [Z.eqb Pos.eqb AlgCiphering128NEA0 AlgCiphering128NEA1 AlgCiphering128NEA2].
    by rewrite zip_lxor_zeros.
  - destruct (NEA1_spec key count bearer direction p g) as (g'&Hg'&->); [done..|].
    exists g'. split; [done|]. ret_bind. rewrite gocopy_same; [reflexivity|].
    change (nea1_spec key count bearer direction p) with
      (zip_with Z.lxor p (nas_stream AlgCiphering128NEA1 key count bearer direction (length p))).
    rewrite length_zip_with. lia.
  - exists g. split; [done|]. rewrite NEA2_spec. ret_bind. rewrite gocopy_same; [reflexivity|].
    unfold XORKeyStream. rewrite length_zip_with, ctr_stream_length by done. lia.
Qed.
End Cipher.

(** ** 128-EIA1 (TS 33.401 B.2.2): a polynomial over GF(2^64) *)

Module Eia1.
(** Multiplication by x modulo x^64 + x^4 + x^3 + x + 1, and the product. *)
Definition xt (a : Z) : Z := if Z.testbit a 63 then u64 (2 * a) ⊕ 0x1b else u64 (2 * a).
Fixpoint gf_mul_n (n : nat) (a b : Z) : Z :=
  match n with
  | O => 0
  | S n => (if Z.odd b then a else 0) ⊕ gf_mul_n n (xt a) (Z.div2 b)
  end.
Definition gf_mul (a b : Z) : Z := gf_mul_n 64 a b.

Fixpoint chunks (k : nat) (l : list Z) : list (list Z) :=
  match k with O => [] | S k => take 8 l :: chunks k (drop 8 l) end.
(** A block of 64 bits, padded with zeros on the right. *)
Definition block64 (c : list Z) : Z := be_value (c ++ replicate (8 - length c) 0).
Definition eval (P : Z) (e : Z) (ms : list (list Z)) : Z :=
  foldl (λ e c, gf_mul (e ⊕ block64 c) P) e ms.
Definition iv (count bearer direction : Z) : Z * Z * Z * Z :=
  let fresh := shl 32 bearer 27 in
  (fresh ⊕ shl 32 direction 15, count ⊕ shl 32 direction 31, fresh, count).
Definition mac (key : list Z) (count bearer direction : Z) (msg : list Z) : list Z :=
  match Uea2.keystream (k4 key) (iv count bearer direction) 5 with
  | [z1; z2; z3; z4; z5] =>
    let e := eval (z1 * 2 ^ 32 + z2) 0 (chunks ((length msg + 7) / 8) msg) in
    bytes4 (u32 (gf_mul (e ⊕ (8 * blen msg)) (z3 * 2 ^ 32 + z4) ≫ 32) ⊕ z5)
  | _ => []
  end.
End Eia1.

Section Nia1.

Lemma mulx64_xt V : in_width 64 V → mulx64 V 0x1b = Eia1.xt V.
Proof.
  intros HV. unfold mulx64, Eia1.xt, shl. rewrite Z.shiftl_mul_pow2, (Z.mul_comm V) by lia.
  change (2 ^ 1) with 2. change 0x8000000000000000 with (2 ^ 63).
  assert (V & 2 ^ 63 = if Z.testbit V 63 then 2 ^ 63 else 0) as ->.
  { apply Z.bits_inj'. intros i Hi. rewrite Z.land_spec, Z.pow2_bits_eqb by lia.
    destruct (Z.eqb_spec 63 i) as [<-|Hne].
    - rewrite andb_true_r. destruct (Z.testbit V 63); [by rewrite Z.pow2_bits_true|by rewrite Z.bits_0].
    - rewrite andb_false_r. destruct (Z.testbit V 63); [by rewrite Z.pow2_bits_false by lia|by rewrite Z.bits_0]. }
  by destruct (Z.testbit V 63).
Qed.

Lemma xt64_width V : in_width 64 (Eia1.xt V).
Proof.
  unfold Eia1.xt. assert (in_width 64 (u64 (2 * V))) by (apply wrap_in_width; lia).
  destruct (Z.testbit V 63); [|done]. apply in_width_lxor; [lia|done|]. split; lia.
Qed.

Lemma mulxPow64_iter V i : in_width 64 V →
  mulxPow64 V i 0x1b = Nat.iter i Eia1.xt V ∧ in_width 64 (Nat.iter i Eia1.xt V).
Proof.
  intros HV. induction i as [|i [IH IHw]]; [done|]. cbn [mulxPow64 Nat.iter nat_rect].
  rewrite IH, mulx64_xt by done. split; [done|]. apply xt64_width.
Qed.

Lemma mul64_bits n s V P rst : in_width 64 V →
  foldl (λ rst i, if (P ≫ Z.of_nat i) & 1 =? 1 then rst ⊕ mulxPow64 V i 0x1b else rst) rst (seq s n)
  = rst ⊕ Eia1.gf_mul_n n (Nat.iter s Eia1.xt V) (P ≫ Z.of_nat s).
Proof.
  intros HV. revert s rst. induction n as [|n IH]; intros s rst; cbn [seq foldl Eia1.gf_mul_n].
  { by rewrite Z.lxor_0_r. }
  rewrite IH. destruct (mulxPow64_iter V s HV) as [-> _].
  change 1 with (Z.ones 1) at 1. rewrite Z.land_ones, Zmod_odd by lia.
  rewrite Z.div2_spec, Z.shiftr_shiftr by lia.
  replace (Z.of_nat s + 1) with (Z.of_nat (S s)) by lia. cbn [Nat.iter nat_rect].
  destruct (Z.odd (P ≫ Z.of_nat s)); cbn [Z.eqb Pos.eqb]; [by rewrite Z.lxor_assoc|by rewrite Z.lxor_0_l].
Qed.

Lemma mul64_spec V P : in_width 64 V → mul64 V P 0x1b = Eia1.gf_mul V P.
Proof.
  intros HV. unfold mul64. rewrite mul64_bits by done.
  by rewrite Z.lxor_0_l, Z.shiftr_0_r.
Qed.

Lemma gf64_mul_width V P : in_width 64 V → in_width 64 (Eia1.gf_mul V P).
Proof.
  unfold Eia1.gf_mul. generalize 64%nat as n. intros n. revert V P.
  induction n as [|n IH]; intros V P HV; [by apply in_width_0|]. cbn [Eia1.gf_mul_n].
  apply in_width_lxor; [lia|destruct (Z.odd P); [done|by apply in_width_0]|]. apply IH, xt64_width.
Qed.

Lemma be_value_width l : bytes_ok l → in_width (8 * blen l) (be_value l).
Proof.
  unfold be_value, blen. induction l as [|x l IH] using rev_ind; intros Hb; [split; [done|reflexivity]|].
  apply Forall_app in Hb as [Hb Hx]. apply Forall_cons in Hx as [Hx _]. specialize (IH Hb).
  rewrite foldl_app, length_app. cbn [foldl length]. unfold in_width in *.
  replace (8 * Z.of_nat (length l + 1)) with (8 * Z.of_nat (length l) + 8) by lia.
  rewrite Z.pow_add_r by lia. lia.
Qed.

Lemma block64_width c : bytes_ok c → (length c ≤ 8)%nat → in_width 64 (Eia1.block64 c).
Proof.
  intros Hb Hl. unfold Eia1.block64.
  pose proof (be_value_width (c ++ replicate (8 - length c) 0)) as H.
  replace 64 with (8 * blen (c ++ replicate (8 - length c) 0))
    by (unfold blen; rewrite length_app, length_replicate; lia).
  apply H. apply Forall_app. split; [done|]. apply Forall_replicate. by apply in_width_0.
Qed.

Lemma be_uint_8 l : (8 ≤ length l)%nat → be_uint 8 l = Ret (be_value (take 8 l)).
Proof.
  intros Hl. unfold be_uint, slice. change (Z.to_nat 0) with 0%nat. rewrite drop_0.
  rewrite (proj2 (Z.ltb_ge (blen l) 8)) by (unfold blen; lia). reflexivity.
Qed.

(** The loop over the complete blocks. *)
Lemma nia1_loop msg P n (i : nat) e :
  (8 * (i + n) ≤ length msg)%nat → 8 * blen msg < 2 ^ 64 → bytes_ok msg → in_width 64 e →
  let e' := Eia1.eval P e (Eia1.chunks n (drop (8 * i) msg)) in
  forM (seqZ (Z.of_nat i) (Z.of_nat n)) (λ i Eval,
    b ← slice msg (u64 (8 * i)) (blen msg); M ← be_uint 8 b;
    Ret (mul64 (Eval ⊕ M) P 0x1b)) e = Ret e' ∧ in_width 64 e'.
Proof.
  intros Hl Hlen Hb. revert i e Hl. induction n as [|n IH]; intros i e Hl He; [done|].
  rewrite seqZ_cons by lia. cbn [forM Eia1.chunks Eia1.eval foldl].
  replace (Z.pred (Z.of_nat (S n))) with (Z.of_nat n) by lia.
  rewrite (wrap_small 64 (8 * Z.of_nat i)) by (unfold in_width, blen in *; lia).
  rewrite slice_from by (unfold blen; lia). ret_bind.
  replace (Z.to_nat (8 * Z.of_nat i)) with (8 * i)%nat by lia.
  rewrite be_uint_8 by (rewrite length_drop; lia). ret_bind.
  assert (be_value (take 8 (drop (8 * i) msg)) = Eia1.block64 (take 8 (drop (8 * i) msg))) as ->.
  { unfold Eia1.block64. rewrite length_take, length_drop.
    replace (8 - _)%nat with 0%nat by lia. by rewrite app_nil_r. }
  assert (in_width 64 (Eia1.block64 (take 8 (drop (8 * i) msg)))) as Hw.
  { apply block64_width; [by apply Forall_take, Forall_drop|rewrite length_take; lia]. }
  rewrite mul64_spec by (apply in_width_lxor; (lia || done)).
  rewrite drop_drop. replace (8 * i + 8)%nat with (8 * S i)%nat by lia.
  replace (Z.succ (Z.of_nat i)) with (Z.of_nat (S i)) by lia.
  apply IH; [lia|]. apply gf64_mul_width, in_width_lxor; (lia || done).
Qed.

Lemma chunks_snoc k l :
  Eia1.chunks (S k) l = Eia1.chunks k l ++ [take 8 (drop (8 * k) l)].
Proof.
  revert l. induction k as [|k IH]; intros l; [by rewrite drop_0|].
  change (Eia1.chunks (S (S k)) l) with (take 8 l :: Eia1.chunks (S k) (drop 8 l)).
  rewrite IH, drop_drop. cbn [Eia1.chunks app]. by replace (8 + 8 * k)%nat with (8 * S k)%nat by lia.
Qed.

Lemma be4_words (w : Z) : PutUint32 (replicate 4 0) w = Ret (bytes4 w).
Proof. reflexivity. Qed.

Lemma eia1_iv_words c b d : in_width 32 c →
  words4 (Eia1.iv c b d) ∧
  list4 (Eia1.iv c b d) = [shl 32 b 27 ⊕ shl 32 d 15; c ⊕ shl 32 d 31; shl 32 b 27; c].
Proof.
  intros Hc. split; [|reflexivity]. unfold words4, Eia1.iv.
  assert (∀ x n, in_width 32 (shl 32 x n)) as Hs by (intros; apply wrap_in_width; lia).
  exact (conj (in_width_lxor 32 _ _ ltac:(lia) (Hs b 27) (Hs d 15))
    (conj (in_width_lxor 32 _ _ ltac:(lia) Hc (Hs d 31)) (conj (Hs b 27) Hc))).
Qed.

Lemma shl64_lor a b : in_width 32 a → in_width 32 b → shl 64 a 32 ∣∣ b = a * 2 ^ 32 + b.
Proof.
  intros Ha Hb. rewrite pack_lor by (lia || done). unfold shl. f_equal. apply wrap_small.
  rewrite Z.shiftl_mul_pow2 by lia. unfold in_width in *. lia.
Qed.

Lemma NIA1_spec ik count bearer direction msg g :
  block ik → in_width 32 count → globals_ok g → bytes_ok msg → (0 < length msg)%nat →
  8 * blen msg + 63 < 2 ^ 64 →
  ∃ g', globals_ok g' ∧
    NIA1 ik count bearer direction msg (8 * blen msg) g = Ret (g', Eia1.mac ik count bearer direction msg).
Proof.
  intros Hik Hc Hg Hb Hn Hlen.
  destruct (key_words_rev_spec ik Hik) as [Hk Hkw], (eia1_iv_words count bearer direction Hc) as [Hivw Hiv].
  destruct (keystream_run (k4 ik) (Eia1.iv count bearer direction) 5 g (replicate 5 0) Hkw Hivw Hg)
    as (g'&Hg'&E&Hlk&Hw); [reflexivity|].
  exists g'. split; [done|]. unfold NIA1, Eia1.mac. rewrite Hk. ret_bind. cbv zeta. rewrite <-Hiv.
  apply bind_inv in E as (g1&E1&E2). rewrite E1. ret_bind. change 5 with (Z.of_nat 5). rewrite E2. ret_bind.
  clear E1 E2. revert Hlk Hw.
  generalize (Uea2.keystream (k4 ik) (Eia1.iv count bearer direction) 5). intros ks Hlk Hw.
  destruct ks as [|z1 [|z2 [|z3 [|z4 [|z5 [|? ?]]]]]]; try discriminate Hlk.
  repeat (apply Forall_cons in Hw as [? Hw]). slots.
  assert (∃ k, (length msg + 7) / 8 = S k ∧ 8 * k < length msg ≤ 8 * S k)%nat as (k&->&Hkl).
  { exists ((length msg + 7) / 8 - 1)%nat. pose proof (Nat.div_mod (length msg + 7) 8).
    pose proof (Nat.mod_upper_bound (length msg + 7) 8). lia. }
  assert (u64 (u64 (Z.quot (u64 (8 * blen msg + 63)) 64 + 1) - 2) = Z.of_nat k) as ->.
  { unfold blen in *. rewrite (wrap_small 64 (8 * _ + 63)) by (unfold in_width; lia).
    rewrite Z.quot_div_nonneg by lia.
    rewrite <-(Z.div_unique_pos _ 64 (Z.of_nat k + 1) (8 * Z.of_nat (length msg) + 63 - 64 * (Z.of_nat k + 1))) by lia.
    rewrite (wrap_small 64 (Z.of_nat k + 1 + 1)) by (unfold in_width; lia).
    rewrite wrap_small by (unfold in_width; lia). lia. }
  rewrite !shl64_lor by done. set (P := z1 * 2 ^ 32 + z2). set (Q := z3 * 2 ^ 32 + z4).
  destruct (nia1_loop msg P k 0 0) as [E He]; [lia|lia|done|by apply in_width_0|].
  rewrite drop_0 in E, He. change (Z.of_nat 0) with 0 in E. rewrite E. clear E. ret_bind.
  rewrite (wrap_small 64 (8 * Z.of_nat k)) by (unfold in_width, blen in *; lia).
  rewrite slice_from by (unfold blen; lia). ret_bind.
  replace (Z.to_nat (8 * Z.of_nat k)) with (8 * k)%nat by lia.
  rewrite chunks_snoc. unfold Eia1.eval. rewrite foldl_app. cbn [foldl].
  fold (Eia1.eval P 0 (Eia1.chunks k msg)).
  set (c := drop (8 * k) msg). assert (length c ≤ 8)%nat as Hc8 by (unfold c; rewrite length_drop; lia).
  rewrite (take_ge c) by lia.
  assert (gocopy (replicate 8 0) c = c ++ replicate (8 - length c) 0) as ->.
  { unfold gocopy. rewrite length_replicate, take_ge by lia. by rewrite drop_replicate. }
  rewrite be_uint_8 by (rewrite length_app, length_replicate; lia). ret_bind.
  rewrite take_ge by (rewrite length_app, length_replicate; lia).
  fold (Eia1.block64 c).
  assert (in_width 64 (Eia1.block64 c)) as Hbc by (apply block64_width; [by apply Forall_drop|done]).
  rewrite (mul64_spec (_ ⊕ Eia1.block64 c)) by (apply in_width_lxor; (lia || done)).
  rewrite mul64_spec; [rewrite be4_words; ret_bind; reflexivity|].
  apply in_width_lxor; [lia|apply gf64_mul_width, in_width_lxor; (lia || done)|].
  unfold in_width, blen in *. lia.
Qed.

(** Without blocks the block count wraps around and the first read is out of
    range. *)
Lemma NIA1_empty ik count bearer direction g :
  block ik → in_width 32 count → globals_ok g → NIA1 ik count bearer direction [] 0 g = Panic.
Proof.
  intros Hik Hc Hg.
  destruct (key_words_rev_spec ik Hik) as [Hk Hkw], (eia1_iv_words count bearer direction Hc) as [Hivw Hiv].
  destruct (keystream_run (k4 ik) (Eia1.iv count bearer direction) 5 g (replicate 5 0) Hkw Hivw Hg)
    as (g'&Hg'&E&Hlk&_); [reflexivity|].
  unfold NIA1. rewrite Hk. ret_bind. cbv zeta. rewrite <-Hiv.
  apply bind_inv in E as (g1&E1&E2). rewrite E1. ret_bind. change 5 with (Z.of_nat 5). rewrite E2. ret_bind.
  destruct (Uea2.keystream _ _ 5) as [|z1 [|z2 [|z3 [|z4 [|z5 [|? ?]]]]]]; try discriminate Hlk.
  slots. change (u64 (u64 (Z.quot (u64 (0 + 63)) 64 + 1) - 2)) with (2 ^ 64 - 1).
  rewrite seqZ_cons by lia. reflexivity.
Qed.
End Nia1.

(** The prefix of the NIA2 input: COUNT, BEARER, DIRECTION, zeros. *)
Definition nea2_iv_8 (count bearer direction : Z) : list Z :=
  bytes4 count ++ [shl 8 bearer 3 ∣∣ shl 8 direction 2; 0; 0; 0].

Lemma NIA2_spec cmac key count bearer direction msg t :
  cmac key (nea2_iv_8 count bearer direction ++ msg) = Ret t → (4 ≤ length t)%nat →
  NIA2 cmac key count bearer direction msg = Ret (take 4 t).
Proof.
  intros Ht Hl. unfold NIA2. cbv zeta.
  replace (length msg + 8)%nat with (8 + length msg)%nat by lia. rewrite replicate_add.
  change (replicate 8 0) with [0; 0; 0; 0; 0; 0; 0; 0]. unfold PutUint32. cbn [app]. slots.
  match goal with |- context [with_tail 8 ?f (?a :: ?b :: ?c :: ?d :: ?e :: ?f1 :: ?g :: ?h :: ?r)] =>
    change (a :: b :: c :: d :: e :: f1 :: g :: h :: r) with ([a; b; c; d; e; f1; g; h] ++ r) end.
  rewrite with_tail_app by reflexivity. ret_bind.
  rewrite gocopy_same by (by rewrite length_replicate).
  change ([_; _; _; _; _; _; _; _] ++ msg) with (nea2_iv_8 count bearer direction ++ msg).
  rewrite Ht. ret_bind. unfold slice. rewrite (proj2 (Z.ltb_ge (blen t) 4)) by (unfold blen; lia).
  reflexivity.
Qed.

(** ** Properties *)

Section Properties.

(** Deciphering undoes ciphering: for NEA0, NEA1 and NEA2, NASEncrypt
    applied twice with the same key, count, bearer and direction gives the
    payload back, whatever the SNOW 3G globals hold at each call. *)
Theorem NASEncrypt_roundtrip alg key count bearer direction p g h :
  supported_enc alg → block key → in_width 32 count → bearer ≤ 0x1f → direction ≤ 1 →
  globals_ok g → globals_ok h → payload_ok p →
  ∃ g' h' c, NASEncrypt alg key count bearer direction (Some p) g = Ret (g', c) ∧
    NASEncrypt alg key count bearer direction (Some c) h = Ret (h', p).
Proof.
  intros Ha Hk Hc Hb Hd Hg Hh [Hn Hl].
  pose proof (nas_stream_length alg key count bearer direction _ g Hk Hc Hg Hn) as Hs.
  destruct (NASEncrypt_stream alg key count bearer direction p g) as (g'&_&E1); [done..|].
  set (s := nas_stream alg key count bearer direction (length p)) in *.
  assert (length (zip_with Z.lxor p s) = length p) as Hz by (rewrite length_zip_with; lia).
  destruct (NASEncrypt_stream alg key count bearer direction (zip_with Z.lxor p s) h) as (h'&_&E2);
    [done..|unfold payload_ok, blen; by rewrite Hz|].
  exists g', h', (zip_with Z.lxor p s). split; [exact E1|]. rewrite E2, Hz.
  fold s. by rewrite zip_lxor_involutive.
Qed.

(** NASEncrypt adds the keystream of the selected algorithm, and rejects
    out-of-range bearers and directions, nil payloads, NEA3 and unknown
    algorithms with an error. *)
Theorem NASEncrypt_branches alg key count bearer direction p g :
  (bearer > 0x1f → NASEncrypt alg key count bearer direction p g = Fail "Bearer is beyond 5 bits") ∧
  (bearer ≤ 0x1f → direction > 1 →
    NASEncrypt alg key count bearer direction p g = Fail "Direction is beyond 1 bits") ∧
  (bearer ≤ 0x1f → direction ≤ 1 →
    NASEncrypt alg key count bearer direction None g = Fail "Nas Payload is nil" ∧
    ∀ p, (alg = AlgCiphering128NEA3 →
            NASEncrypt alg key count bearer direction (Some p) g = Fail "NEA3 not implement yet.") ∧
         (3 < alg → NASEncrypt alg key count bearer direction (Some p) g = Fail "Unknown Algorithm Identity") ∧
         (supported_enc alg → block key → in_width 32 count → globals_ok g → payload_ok p →
            snd <$> NASEncrypt alg key count bearer direction (Some p) g =
            Ret (zip_with Z.lxor p (nas_stream alg key count bearer direction (length p))))).
Proof.
  unfold NASEncrypt at 1 2 3 4 5. rewrite !Z.gtb_ltb. split; [|split].
  - intros Hb. by rewrite (proj2 (Z.ltb_lt _ _)) by lia.
  - intros Hb Hd. rewrite (proj2 (Z.ltb_ge _ _)), (proj2 (Z.ltb_lt _ _)) by lia. done.
  - intros Hb Hd. rewrite !(proj2 (Z.ltb_ge _ _)) by lia. split; [done|]. intros q.
    split; [by intros ->|]. split.
    + intros Ha. unfold AlgCiphering128NEA0, AlgCiphering128NEA1, AlgCiphering128NEA2, AlgCiphering128NEA3.
      by rewrite !(proj2 (Z.eqb_neq alg _)) by lia.
    + intros Ha Hk Hc Hg Hp.
      destruct (NASEncrypt_stream alg key count bearer direction q g) as (g'&_&->); done.
Qed.

(** NEA1 sends the end of a message in clear: when the payload is a
    multiple of four bytes, the mask meant for a partial last word clears the
    whole last keystream word and the last four bytes are not encrypted; on an
    empty payload it panics. *)
Theorem NEA1_last_word_in_clear key count bearer direction p g :
  block key → in_width 32 count → bearer ≤ 0x1f → direction ≤ 1 → globals_ok g →
  payload_ok p → (length p mod 4 = 0)%nat →
  ∃ g' c, NASEncrypt AlgCiphering128NEA1 key count bearer direction (Some p) g = Ret (g', c) ∧
    drop (length p - 4) c = drop (length p - 4) p.
Proof.
  intros Hk Hc Hb Hd Hg Hp Hm. destruct Hp as [Hn Hl].
  destruct (NASEncrypt_stream AlgCiphering128NEA1 key count bearer direction p g) as (g'&_&E);
    [by right; left|done..|].
  exists g'. eexists. split; [exact E|]. clear E.
  unfold nas_stream. cbn [Z.eqb Pos.eqb AlgCiphering128NEA1].
  destruct (nea1_words_split (length p) _
    (keystream_length key count bearer direction ((length p + 3) / 4) g Hk Hc Hg) Hn Hm) as (kp&->&Hkp).
  unfold stream_bytes. rewrite fmap_app, join_app. fold (stream_bytes kp).
  change (mjoin (bytes4 <$> [0])) with (replicate 4 0).
  set (m := (length p - 4)%nat). pose proof (stream_bytes_length kp) as Hs.
  rewrite <-(take_drop m p) at 1.
  rewrite zip_with_app by (rewrite length_take; lia).
  rewrite drop_app_length' by (rewrite length_zip_with, length_take; lia).
  apply zip_lxor_zeros. rewrite length_drop. lia.
Qed.

(** C33. NIA1 computes the 128-EIA1 message authentication code: the evaluation
    over GF(2^64) of the zero-padded message blocks with the UIA2 keystream. *)
Theorem NIA1_refines_EIA1 ik count bearer direction msg g :
  block ik → in_width 32 count → globals_ok g → bytes_ok msg → (0 < length msg)%nat →
  8 * blen msg + 63 < 2 ^ 64 →
  ∃ g', globals_ok g' ∧
    NIA1 ik count bearer direction msg (8 * blen msg) g = Ret (g', Eia1.mac ik count bearer direction msg).
Proof. apply NIA1_spec. Qed.

(** The MAC by algorithm: NIA1 and NIA2 return four bytes, NIA0 and NIA3 a
    nil MAC without an error, unknown algorithms and bad arguments an error;
    NIA1 on an empty message panics because its block count wraps around. *)
Theorem NASMacCalculate_branches cmac key count bearer direction g :
  block key → in_width 32 count → bearer ≤ 0x1f → direction ≤ 1 → globals_ok g →
  (∀ k m, ∃ t, cmac k m = Ret t ∧ length t = 16%nat) →
  (∀ alg msg, alg = AlgIntegrity128NIA0 ∨ alg = AlgIntegrity128NIA3 →
     NASMacCalculate cmac alg key count bearer direction (Some msg) g = Ret (g, None)) ∧
  (∀ msg, bytes_ok msg → (0 < length msg)%nat → 8 * blen msg + 63 < 2 ^ 64 →
     snd <$> NASMacCalculate cmac AlgIntegrity128NIA1 key count bearer direction (Some msg) g
     = Ret (Some (Eia1.mac key count bearer direction msg))) ∧
  (∀ msg, ∃ t, cmac key (nea2_iv_8 count bearer direction ++ msg) = Ret t ∧
     NASMacCalculate cmac AlgIntegrity128NIA2 key count bearer direction (Some msg) g
     = Ret (g, Some (take 4 t))) ∧
  NASMacCalculate cmac AlgIntegrity128NIA1 key count bearer direction (Some []) g = Panic ∧
  (∀ alg, NASMacCalculate cmac alg key count bearer direction None g = Fail "Nas Payload is nil") ∧
  (∀ alg msg, 3 < alg → NASMacCalculate cmac alg key count bearer direction (Some msg) g
     = Fail "Unknown Algorithm Identity").
Proof.
  intros Hk Hc Hb Hd Hg Hcm. unfold NASMacCalculate. rewrite !Z.gtb_ltb, !(proj2 (Z.ltb_ge _ _)) by lia.
  split; [by intros alg msg [-> | ->]|]. split; [|split; [|split; [|split]]].
  - intros msg Hbm Hn Hl. cbn [Z.eqb Pos.eqb AlgIntegrity128NIA0 AlgIntegrity128NIA1].
    rewrite (wrap_small 64) by (unfold in_width, blen in *; lia). rewrite (Z.mul_comm (blen msg)).
    destruct (NIA1_spec key count bearer direction msg g) as (g'&_&->); done.
  - intros msg. destruct (Hcm key (nea2_iv_8 count bearer direction ++ msg)) as (t&Ht&Hl).
    exists t. split; [done|]. cbn [Z.eqb Pos.eqb AlgIntegrity128NIA0 AlgIntegrity128NIA1 AlgIntegrity128NIA2].
    rewrite (NIA2_spec cmac key count bearer direction msg t Ht) by lia. done.
  - cbn [Z.eqb Pos.eqb AlgIntegrity128NIA0 AlgIntegrity128NIA1].
    change (u64 (blen [] * 8)) with 0. by rewrite NIA1_empty.
  - done.
  - intros alg msg Ha. unfold AlgIntegrity128NIA0, AlgIntegrity128NIA1, AlgIntegrity128NIA2, AlgIntegrity128NIA3.
    by rewrite !(proj2 (Z.eqb_neq alg _)) by lia.
Qed.

(** The NAS counter: overflow and sequence number are read back as they
    were set, each setter leaves the other part alone, and AddOne counts modulo
    2^24, carrying from the sequence number into the overflow. *)
Theorem Count_operations c o s :
  in_width 24 c → in_width 16 o → in_width 8 s →
  Count.Get (Count.Set_ o s c) = o * 2 ^ 8 + s ∧
  Count.Overflow (Count.Set_ o s c) = o ∧ Count.SQN (Count.Set_ o s c) = s ∧
  Count.Overflow (Count.SetSQN s c) = Count.Overflow c ∧
  Count.SQN (Count.SetOverflow o c) = Count.SQN c ∧
  Count.AddOne c = (c + 1) mod 2 ^ 24 ∧
  in_width 24 (Count.AddOne c).
Proof.
  intros Hc Ho Hs.
  destruct (parts_ex c (in_width_mono 24 32 c ltac:(lia) Hc)) as (t&o0&s0&->&Ht&Ho0&Hs0).
  assert (t = 0) as ->.
  { unfold parts, in_width in *. change (2 ^ 24) with 16777216 in Hc. lia. }
  assert (in_width 8 0) as H8 by (apply in_width_0; lia).
  rewrite count_set by done.
  destruct (count_ops 0 o s H8 Ho Hs) as (E1&E2&_&_&_).
  destruct (count_ops 0 o0 s0 H8 Ho0 Hs0) as (E3&E4&_&E5&E6).
  rewrite E1, E2, E3, E4, E5, E6 by done.
  destruct (count_ops 0 o0 s H8 Ho0 Hs) as (_&->&_), (count_ops 0 o s0 H8 Ho Hs0) as (->&_).
  rewrite count_addone by done. repeat (split; [done|]). apply Z.mod_pos_bound. lia.
Qed.
End Properties.

(** ** Witnesses *)

Definition globals0 : snow := Snow (replicate 16 0) (replicate 3 0).

#[local] Ltac vec :=
  first [ apply block_dec; vm_compute; reflexivity
        | apply bytes_dec; vm_compute; reflexivity
        | split; vm_compute; (reflexivity || discriminate)
        | split; [simpl; lia|vm_compute; reflexivity]
        | vm_compute; reflexivity
        | vm_compute; discriminate
        | simpl; lia ].

Lemma NASEncrypt_roundtrip_witness :
  ∃ g' h' c, NASEncrypt 2 (seqZ 0 16) 7 1 0 (Some (seqZ 0 20)) globals0 = Ret (g', c) ∧
    NASEncrypt 2 (seqZ 0 16) 7 1 0 (Some c) globals0 = Ret (h', seqZ 0 20).
Proof. apply NASEncrypt_roundtrip; try vec. by right; right. Defined.

Lemma NASEncrypt_branches_witness :
  NASEncrypt 3 (seqZ 0 16) 7 1 0 (Some [1]) globals0 = Fail "NEA3 not implement yet.".
Proof.
  destruct (NASEncrypt_branches 3 (seqZ 0 16) 7 1 0 None globals0) as (_&_&H).
  destruct H as [_ H]; [lia|lia|]. destruct (H [1]) as [H3 _]. apply H3. reflexivity.
Defined.

Lemma NEA1_last_word_in_clear_witness :
  ∃ g' c, NASEncrypt 1 (seqZ 0 16) 7 1 0 (Some (seqZ 0 8)) globals0 = Ret (g', c) ∧
    drop 4 c = [4; 5; 6; 7].
Proof.
  apply (NEA1_last_word_in_clear (seqZ 0 16) 7 1 0 (seqZ 0 8) globals0); vec.
Defined.

Lemma NIA1_refines_EIA1_witness :
  ∃ g', globals_ok g' ∧
    NIA1 (seqZ 0 16) 7 1 0 (seqZ 0 11) (8 * blen (seqZ 0 11)) globals0
    = Ret (g', Eia1.mac (seqZ 0 16) 7 1 0 (seqZ 0 11)).
Proof. apply NIA1_refines_EIA1; vec. Defined.

Lemma NASMacCalculate_branches_witness :
  NASMacCalculate (λ _ _, Ret (replicate 16 0)) AlgIntegrity128NIA1 (seqZ 0 16) 7 1 0 (Some []) globals0
  = Panic.
Proof.
  destruct (NASMacCalculate_branches (λ _ _, Ret (replicate 16 0)) (seqZ 0 16) 7 1 0 globals0)
    as (_&_&_&H&_); [vec..| |exact H].
  intros k m. exists (replicate 16 0). split; reflexivity.
Defined.

Lemma Count_operations_witness :
  Count.Get (Count.Set_ 0x1234 0xff 5) = 0x1234 * 2 ^ 8 + 0xff.
Proof. destruct (Count_operations 5 0x1234 0xff) as [H _]; [vec..|exact H]. Defined.
