(* ===== verification/AperBits.v ===== *)
(** * lib/aper: the bit reader and writer

    [perBitData] (aper.go) reads, [perRawBitData] (marshal.go) writes.  A Go
    [uint], [uint64] or [int] is a Z; what wraps around is wrapped.  The
    abstract view of both is a list of bits, most significant first. *)

From S2P Require Import Prelude.

#[local] Open Scope Z_scope.
#[local] Open Scope go_scope.

(** ** aper.go: reading *)

Record perBitData := PerBitData { r_bytes : list Z; r_byteOffset : Z; r_bitsOffset : Z }.

Definition GetBitString (srcBytes : list Z) (bitsOffset numBits : Z) : outcome (list Z) :=
  let bitsLeft := u64 (blen srcBytes * 8 - bitsOffset) in
  if numBits >? bitsLeft then Fail "Get bits overflow" else
  let byteLen := u64 (bitsOffset + numBits + 7) ≫ 3 in
  let numBitsByteLen := u64 (numBits + 7) ≫ 3 in
  let dstBytes := replicate (Z.to_nat numBitsByteLen) 0 in
  let modEight := numBits & 0x7 in
  let numBitsMask := if negb (modEight =? 0) then shl 8 0xff (8 - modEight) else 0xff in
  dstBytes ← forM (seqZ 1 (byteLen - 1)) (λ i dst,
    a ← rd srcBytes (i - 1); b ← rd srcBytes i;
    wr dst (i - 1) (shl 8 a bitsOffset ∣∣ (b ≫ u64 (8 - bitsOffset)))) dstBytes;
  dstBytes ← (if byteLen =? numBitsByteLen
    then a ← rd srcBytes (byteLen - 1); wr dstBytes (byteLen - 1) (shl 8 a bitsOffset)
    else Ret dstBytes);
  x ← rd dstBytes (numBitsByteLen - 1);
  wr dstBytes (numBitsByteLen - 1) (x & numBitsMask).

Definition GetBitsValue (srcBytes : list Z) (bitsOffset numBits : Z) : outcome Z :=
  dstBytes ← GetBitString srcBytes bitsOffset numBits;
  value ← forM (seqZ 0 (Z.div numBits 8)) (λ i value,
    x ← rd dstBytes i; Ret (shl 64 value 8 ∣∣ x)) 0;
  let numBitsOff := numBits & 0x7 in
  if negb (numBitsOff =? 0) then
    let mask := Z.shiftl 1 numBitsOff - 1 in
    x ← rd dstBytes (blen dstBytes - 1);
    Ret (shl 64 value numBitsOff ∣∣ ((x ≫ (8 - numBitsOff)) & mask))
  else Ret value.

Definition bitCarry (pd : perBitData) : perBitData :=
  PerBitData (r_bytes pd) (u64 (r_byteOffset pd + (r_bitsOffset pd ≫ 3))) (r_bitsOffset pd & 0x07).

Definition getBitString (numBits : Z) (pd : perBitData) : outcome (list Z * perBitData) :=
  tl ← slice (r_bytes pd) (r_byteOffset pd) (blen (r_bytes pd));
  dstBytes ← GetBitString tl (r_bitsOffset pd) numBits;
  Ret (dstBytes, bitCarry (PerBitData (r_bytes pd) (r_byteOffset pd) (u64 (r_bitsOffset pd + numBits)))).

Definition getBitsValue (numBits : Z) (pd : perBitData) : outcome (Z * perBitData) :=
  tl ← slice (r_bytes pd) (r_byteOffset pd) (blen (r_bytes pd));
  value ← GetBitsValue tl (r_bitsOffset pd) numBits;
  Ret (value, bitCarry (PerBitData (r_bytes pd) (r_byteOffset pd) (u64 (r_bitsOffset pd + numBits)))).

Definition parseAlignBits (pd : perBitData) : outcome perBitData :=
  if (r_bitsOffset pd & 0x7) >? 0 then
    '(val, pd) ← getBitsValue (8 - (r_bitsOffset pd & 0x7)) pd;
    if negb (val =? 0) then Fail "Align Bit is not zero" else Ret pd
  else if negb (r_bitsOffset pd =? 0) then Ret (bitCarry pd) else Ret pd.

(** ** marshal.go: writing *)

Record perRawBitData := PerRaw { w_bytes : list Z; w_bitsOffset : Z }.

Definition rawBitCarry (pd : perRawBitData) : perRawBitData :=
  PerRaw (w_bytes pd) (w_bitsOffset pd & 0x07).

Definition appendAlignBits (pd : perRawBitData) : perRawBitData := PerRaw (w_bytes pd) 0.

Definition putBitString (bytes : list Z) (numBits : Z) (pd : perRawBitData) : outcome perRawBitData :=
  bytes ← slice bytes 0 (u64 (numBits + 7) ≫ 3);
  if w_bitsOffset pd =? 0 then Ret (PerRaw (w_bytes pd ++ bytes) (numBits & 0x7)) else
  let bitsLeft := 8 - w_bitsOffset pd in
  let currentByte := blen (w_bytes pd) - 1 in
  pd ← (if numBits <=? bitsLeft then
      b0 ← rd bytes 0; c ← rd (w_bytes pd) currentByte;
      bs ← wr (w_bytes pd) currentByte (c ∣∣ (b0 ≫ w_bitsOffset pd));
      Ret (PerRaw bs (w_bitsOffset pd))
    else
      shiftBytes ← GetBitString (0x00 :: bytes) bitsLeft (u64 (w_bitsOffset pd + numBits));
      s0 ← rd shiftBytes 0; c ← rd (w_bytes pd) currentByte;
      bs ← wr (w_bytes pd) currentByte (c ∣∣ s0);
      Ret (PerRaw (bs ++ drop 1 shiftBytes) (w_bitsOffset pd)));
  Ret (rawBitCarry (PerRaw (w_bytes pd) (u64 ((numBits & 0x7) + w_bitsOffset pd)))).

(** The loop of [putBitsValue], which stops when [value] is 0. *)
Fixpoint put_bytes (fuel : nat) (i value : Z) (tempBytes : list Z) : outcome (list Z) :=
  match fuel with
  | O => Ret tempBytes
  | S fuel =>
    if value >? 0 then
      if i <? 0 then Fail "Bits Value is over capacity"
      else t ← wr tempBytes i (u8 (value & 0xff)); put_bytes fuel (i - 1) (value ≫ 8) t
    else Ret tempBytes
  end.

(** [value] is a uint64: nine turns of the loop bring it to 0. *)
Definition putBitsValue (value numBits : Z) (pd : perRawBitData) : outcome perRawBitData :=
  if numBits =? 0 then Ret pd else
  let Byteslen := u64 (numBits + 7) ≫ 3 in
  let tempBytes := replicate (Z.to_nat Byteslen) 0 in
  let bitOff := if numBits & 0x7 =? 0 then 8 else numBits & 0x7 in
  let LeftbitOff := 8 - bitOff in
  tempBytes ← wr tempBytes (Byteslen - 1) (u8 (shl 64 value LeftbitOff & 0xff));
  tempBytes ← put_bytes 9 (Byteslen - 2) (value ≫ bitOff) tempBytes;
  putBitString tempBytes numBits pd.

(** ** Bits *)

Definition byte_bits (b : Z) : list bool := (λ i, Z.testbit b i) <$> [7; 6; 5; 4; 3; 2; 1; 0].
Definition bits_of (l : list Z) : list bool := mjoin (byte_bits <$> l).
(** The number the bits stand for. *)
Definition bits_val (l : list bool) : Z := foldl (λ z b, 2 * z + Z.b2z b) 0 l.
(** The [n] low bits of a number. *)
Definition num_bits (n : nat) (z : Z) : list bool :=
  (λ i, Z.testbit z (Z.of_nat (n - 1 - i))) <$> seq 0 n.
(** Bits of a list by position; false outside. *)
Definition bit_at (l : list Z) (k : nat) : bool :=
  match l !! (k / 8)%nat with Some b => Z.testbit b (7 - Z.of_nat (k mod 8)) | None => false end.

Lemma bits_of_cons b l : bits_of (b :: l) = byte_bits b ++ bits_of l.
Proof. reflexivity. Qed.

Lemma bits_of_app l l' : bits_of (l ++ l') = bits_of l ++ bits_of l'.
Proof. unfold bits_of. by rewrite fmap_app, join_app. Qed.

Lemma bits_of_length l : length (bits_of l) = (8 * length l)%nat.
Proof. induction l as [|b l IH]; [done|]. rewrite bits_of_cons, length_app, IH. simpl. lia. Qed.

Lemma bits_of_lookup l q t : (t < 8)%nat →
  bits_of l !! (8 * q + t)%nat = (λ b, Z.testbit b (7 - Z.of_nat t)) <$> l !! q.
Proof.
  intros Ht. revert q. induction l as [|b l IH]; intros q; [done|]. rewrite bits_of_cons.
  destruct q as [|q].
  - rewrite lookup_app_l by (simpl; lia). rewrite Nat.mul_0_r. cbn [lookup list_lookup fmap option_fmap option_map].
    do 8 (destruct t as [|t]; [done|]). lia.
  - rewrite lookup_app_r by (simpl; lia). change (length (byte_bits b)) with 8%nat.
    replace (8 * S q + t - 8)%nat with (8 * q + t)%nat by lia. by rewrite IH.
Qed.

Lemma bit_at_split l q t : (t < 8)%nat →
  bit_at l (8 * q + t) = match l !! q with Some b => Z.testbit b (7 - Z.of_nat t) | None => false end.
Proof.
  intros Ht. unfold bit_at. rewrite Nat.mul_comm, Nat.div_add_l, Nat.div_small, Nat.add_0_r by lia.
  by rewrite Nat.add_comm, Nat.Div0.mod_add, Nat.mod_small by lia.
Qed.

Lemma split8 k : ∃ q t, k = (8 * q + t)%nat ∧ (t < 8)%nat.
Proof.
  exists (k / 8)%nat, (k mod 8)%nat. pose proof (Nat.div_mod k 8).
  pose proof (Nat.mod_upper_bound k 8). lia.
Qed.

Lemma bits_of_bit_at l : bits_of l = bit_at l <$> seq 0 (8 * length l).
Proof.
  apply list_eq. intros k. rewrite list_lookup_fmap. destruct (split8 k) as (q&t&->&Ht).
  rewrite bits_of_lookup by done. destruct (Nat.lt_ge_cases q (length l)) as [Hq|Hq].
  - rewrite lookup_seq_lt by lia. cbn [fmap option_fmap option_map].
    rewrite Nat.add_0_l, bit_at_split by done.
    by destruct (lookup_lt_is_Some_2 l q Hq) as [b ->].
  - rewrite lookup_ge_None_2 by done. rewrite lookup_seq_ge by lia. done.
Qed.

Lemma fmap_seq_eq {A} (f g : nat → A) n : (∀ k, (k < n)%nat → f k = g k) → f <$> seq 0 n = g <$> seq 0 n.
Proof.
  intros H. apply list_fmap_ext. intros i k Hk. apply lookup_seq in Hk as [-> Hk]. by apply H.
Qed.

(** ** Shifts and masks on bytes *)

Lemma testbit_shl8 a off j : 0 ≤ off → 0 ≤ j < 8 →
  Z.testbit (shl 8 a off) j = (off <=? j) && Z.testbit a (j - off).
Proof.
  intros Ho Hj. unfold shl, wrap. rewrite Z.mod_pow2_bits_low by lia.
  rewrite Z.shiftl_spec by lia. destruct (Z.leb_spec off j); [done|].
  by rewrite Z.testbit_neg_r by lia.
Qed.

Lemma testbit_shr a s j : 0 ≤ j → Z.testbit (a ≫ s) j = Z.testbit a (j + s).
Proof. intros. by rewrite Z.shiftr_spec. Qed.

(** The mask that keeps the [m] high bits of a byte. *)
Lemma testbit_mask m j : 0 < m < 8 → 0 ≤ j < 8 → Z.testbit (shl 8 0xff (8 - m)) j = (8 - m <=? j).
Proof.
  intros Hm Hj. rewrite testbit_shl8 by lia. destruct (Z.leb_spec (8 - m) j); [|done].
  change 0xff with (Z.ones 8). rewrite Z.ones_spec_low by lia. done.
Qed.

Lemma land7 n : 0 ≤ n → n & 0x7 = n mod 8.
Proof. intros. change 7 with (Z.ones 3). by rewrite Z.land_ones by lia. Qed.

Lemma shiftr3 n : n ≫ 3 = n / 8.
Proof. by rewrite Z.shiftr_div_pow2. Qed.

(** Lists short enough for bit counts in 64 bits. *)
Definition sized (l : list Z) : Prop := 8 * blen l + 64 < 2 ^ 63.

(** ** GetBitString *)

Section GetBits.
Context (src : list Z) (off n : nat).
Context (Hsrc : bytes_ok src) (Hsz : sized src) (Hoff : (off < 8)%nat) (Hn : (0 < n)%nat)
  (Hfit : (off + n ≤ 8 * length src)%nat).

Let nb := ((n + 7) / 8)%nat.
Let bl := ((off + n + 7) / 8)%nat.

Lemma nb_bl : (8 * (nb - 1) < n ≤ 8 * nb ∧ 1 ≤ nb ∧ (bl = nb ∨ bl = S nb) ∧
  8 * (bl - 1) < off + n ≤ 8 * bl ∧ bl ≤ length src)%nat.
Proof.
  subst nb bl. pose proof (Nat.div_mod (n + 7) 8). pose proof (Nat.mod_upper_bound (n + 7) 8).
  pose proof (Nat.div_mod (off + n + 7) 8). pose proof (Nat.mod_upper_bound (off + n + 7) 8). lia.
Qed.

(** A byte of the result before masking. *)
Definition raw (q : nat) : Z :=
  shl 8 (src !!! q) (Z.of_nat off) ∣∣ ((src !!! S q) ≫ (8 - Z.of_nat off)).

Lemma rd_src q z : z = Z.of_nat q → (q < length src)%nat → rd src z = Ret (src !!! q).
Proof.
  intros -> Hq. apply rd_lookup; [lia|]. rewrite Nat2Z.id. by apply list_lookup_lookup_total_lt.
Qed.

Lemma src_byte q : (q < length src)%nat → in_width 8 (src !!! q).
Proof. intros Hq. eapply Forall_lookup_1; [exact Hsrc|]. by apply list_lookup_lookup_total_lt. Qed.

Lemma get_loop m : (m < bl)%nat →
  forM (seqZ 1 (Z.of_nat m)) (λ i dst,
    a ← rd src (i - 1); b ← rd src i;
    wr dst (i - 1) (shl 8 a (Z.of_nat off) ∣∣ (b ≫ u64 (8 - Z.of_nat off)))) (replicate nb 0)
  = Ret ((raw <$> seq 0 m) ++ replicate (nb - m) 0).
Proof.
  pose proof nb_bl as Hb.
  assert (u64 (8 - Z.of_nat off) = 8 - Z.of_nat off) as Hu by (apply wrap_small; unfold in_width; lia).
  induction m as [|m IH]; intros Hm; [by rewrite Nat.sub_0_r|].
  replace (Z.of_nat (S m)) with (Z.of_nat m + 1) by lia.
  rewrite seqZ_app, forM_app, IH by lia. ret_bind.
  change (seqZ (1 + Z.of_nat m) 1) with [0 + (1 + Z.of_nat m)]. set (z := 0 + (1 + Z.of_nat m)).
  cbn [forM]. rewrite (rd_src m (z - 1)), (rd_src (S m) z) by lia. ret_bind. rewrite Hu.
  replace (nb - m)%nat with (S (nb - S m)) by lia. cbn [replicate].
  rewrite wr_app by (unfold blen; rewrite length_fmap, length_seq; lia). ret_bind.
  rewrite seq_S, fmap_app, <-app_assoc. done.
Qed.

Lemma raw_bit q t : (t < 8)%nat → (q < length src)%nat →
  (S q < length src ∨ 8 - t > off)%nat →
  Z.testbit (raw q) (7 - Z.of_nat t) = bit_at src (off + (8 * q + t)).
Proof.
  intros Ht Hq Hor. unfold raw. rewrite Z.lor_spec, testbit_shl8, testbit_shr by lia.
  destruct (Z.leb_spec (Z.of_nat off) (7 - Z.of_nat t)) as [Hle|Hgt]; cbn [andb orb].
  - replace (off + (8 * q + t))%nat with (8 * q + (off + t))%nat by lia.
    rewrite bit_at_split by lia. rewrite (list_lookup_lookup_total_lt src q) by done.
    assert (Z.testbit (src !!! S q) (7 - Z.of_nat t + (8 - Z.of_nat off)) = false) as ->.
    { destruct (Nat.lt_ge_cases (S q) (length src)) as [Hs|Hs].
      - eapply testbit_above; [by apply src_byte|lia].
      - rewrite list_lookup_total_alt, lookup_ge_None_2 by done.
        apply (testbit_above 8); [split; done|lia]. }
    rewrite orb_false_r. f_equal. lia.
  - replace (off + (8 * q + t))%nat with (8 * S q + (off + t - 8))%nat by lia.
    rewrite bit_at_split by lia. rewrite (list_lookup_lookup_total_lt src (S q)) by lia.
    f_equal. lia.
Qed.

(** The last byte when the source ends with it. *)
Lemma last_bit q t : (t < 8)%nat → (q < length src)%nat →
  Z.testbit (shl 8 (src !!! q) (Z.of_nat off)) (7 - Z.of_nat t) =
  (off + t <? 8)%nat && bit_at src (off + (8 * q + t)).
Proof.
  intros Ht Hq. rewrite testbit_shl8 by lia.
  destruct (Z.leb_spec (Z.of_nat off) (7 - Z.of_nat t)), (Nat.ltb_spec (off + t) 8); try lia.
  cbn [andb]. replace (off + (8 * q + t))%nat with (8 * q + (off + t))%nat by lia.
  rewrite bit_at_split by lia. rewrite (list_lookup_lookup_total_lt src q) by done. f_equal. lia.
Qed.

Definition mask8 : Z := if negb ((Z.of_nat n) & 0x7 =? 0) then shl 8 0xff (8 - (Z.of_nat n & 0x7)) else 0xff.

Lemma mask8_bit t : (t < 8)%nat →
  Z.testbit mask8 (7 - Z.of_nat t) = (8 * (nb - 1) + t <? n)%nat.
Proof.
  intros Ht. pose proof nb_bl as (Hb&_). unfold mask8. rewrite land7 by lia.
  replace (Z.of_nat n mod 8) with (Z.of_nat (n mod 8)) by (by rewrite Nat2Z.inj_mod).
  pose proof (Nat.div_mod n 8) as E. pose proof (Nat.mod_upper_bound n 8) as Hm.
  destruct (Z.eqb_spec (Z.of_nat (n mod 8)) 0) as [Hz|Hz]; cbn [negb].
  - change 0xff with (Z.ones 8). rewrite Z.ones_spec_low by lia. symmetry. apply Nat.ltb_lt. lia.
  - rewrite testbit_mask by lia.
    destruct (Z.leb_spec (8 - Z.of_nat (n mod 8)) (7 - Z.of_nat t)),
      (Nat.ltb_spec (8 * (nb - 1) + t) n); lia || done.
Qed.

(** The bytes of the result: all but the last are raw. *)
Definition result : list Z :=
  (raw <$> seq 0 (nb - 1)) ++
  [(if decide (bl = nb) then shl 8 (src !!! (nb - 1)%nat) (Z.of_nat off) else raw (nb - 1)) & mask8].

Lemma GetBitString_result : GetBitString src (Z.of_nat off) (Z.of_nat n) = Ret result.
Proof.
  pose proof nb_bl as (Hb1&Hb2&Hb3&Hb4&Hb5). unfold sized, blen in Hsz.
  unfold GetBitString. unfold blen.
  rewrite (wrap_small 64 (Z.of_nat (length src) * 8 - _)) by (unfold in_width; lia).
  rewrite Z.gtb_ltb, (proj2 (Z.ltb_ge _ _)) by lia. cbv zeta.
  rewrite !shiftr3.
  rewrite (wrap_small 64 (Z.of_nat off + _ + 7)), (wrap_small 64 (Z.of_nat n + 7)) by (unfold in_width; lia).
  assert ((Z.of_nat n + 7) / 8 = Z.of_nat nb) as ->
    by (unfold nb; rewrite Nat2Z.inj_div; f_equal; lia).
  assert ((Z.of_nat off + Z.of_nat n + 7) / 8 = Z.of_nat bl) as ->
    by (unfold bl; rewrite Nat2Z.inj_div; f_equal; lia).
  rewrite Nat2Z.id. fold mask8.
  replace (seqZ 1 (Z.of_nat bl - 1)) with (seqZ 1 (Z.of_nat (bl - 1))) by (f_equal; lia).
  rewrite get_loop by lia. ret_bind. unfold result.
  assert (∀ w, blen ((raw <$> seq 0 (nb - 1)) ++ [w]) = Z.of_nat nb) as Hlen
    by (intros; unfold blen; rewrite length_app, length_fmap, length_seq; simpl; lia).
  assert (∀ w v, rd ((raw <$> seq 0 (nb - 1)) ++ [w]) (Z.of_nat nb - 1) = Ret w ∧
    wr ((raw <$> seq 0 (nb - 1)) ++ [w]) (Z.of_nat nb - 1) v = Ret ((raw <$> seq 0 (nb - 1)) ++ [v])) as Hrw.
  { intros w v. split; [rewrite (rd_at _ _ _ 0)|rewrite wr_app]; try done;
      unfold blen; rewrite length_fmap, length_seq; lia. }
  destruct (decide (bl = nb)) as [E|E].
  - rewrite E, Z.eqb_refl. replace (nb - (nb - 1))%nat with 1%nat by lia. cbn [replicate].
    rewrite (rd_src (nb - 1)) by lia. ret_bind.
    destruct (Hrw 0 (shl 8 (src !!! (nb - 1)%nat) (Z.of_nat off))) as [_ ->]. ret_bind.
    set (w := shl 8 _ _). destruct (Hrw w (w & mask8)) as [E1 E2]. rewrite E1. ret_bind. by rewrite E2.
  - rewrite (proj2 (Z.eqb_neq _ _)) by lia. ret_bind.
    replace (bl - 1)%nat with nb by lia. rewrite Nat.sub_diag, app_nil_r.
    replace (seq 0 nb) with (seq 0 (nb - 1) ++ [(nb - 1)%nat]).
    2:{ replace nb with (S (nb - 1)) at 3 by lia. by rewrite seq_S. }
    rewrite fmap_app. cbn [fmap list_fmap].
    set (w := raw (nb - 1)). destruct (Hrw w (w & mask8)) as [E1 E2]. rewrite E1. ret_bind. by rewrite E2.
Qed.

Lemma result_bit k : (k < 8 * nb)%nat → bit_at result k = (k <? n)%nat && bit_at src (off + k).
Proof.
  intros Hk. pose proof nb_bl as (Hb1&Hb2&Hb3&Hb4&Hb5).
  destruct (split8 k) as (q&t&->&Ht). rewrite bit_at_split by done.
  assert (q < nb)%nat as Hq by lia. unfold result.
  destruct (decide (q = nb - 1)%nat) as [->|Hne].
  - rewrite lookup_app_r by (rewrite length_fmap, length_seq; lia).
    rewrite length_fmap, length_seq, Nat.sub_diag. cbn [lookup list_lookup].
    rewrite Z.land_spec, mask8_bit, andb_comm by done.
    destruct (Nat.ltb_spec (8 * (nb - 1) + t) n) as [Hlt|]; [|done]. cbn [andb].
    destruct (decide (bl = nb)) as [E|E].
    + rewrite last_bit by lia. destruct (Nat.ltb_spec (off + t) 8); [done|lia].
    + apply raw_bit; lia.
  - rewrite lookup_app_l by (rewrite length_fmap, length_seq; lia).
    rewrite list_lookup_fmap, lookup_seq_lt by lia. cbn [fmap option_fmap option_map].
    rewrite Nat.add_0_l, raw_bit by lia.
    rewrite (proj2 (Nat.ltb_lt _ _)) by lia. done.
Qed.

Lemma result_length : length result = nb.
Proof. pose proof nb_bl. unfold result. rewrite length_app, length_fmap, length_seq. simpl. lia. Qed.

Lemma result_bytes : bytes_ok result.
Proof.
  assert (∀ a, in_width 8 (shl 8 a (Z.of_nat off))) as Hs by (intros; apply wrap_in_width; lia).
  assert (∀ q, (S q < length src)%nat → in_width 8 (raw q)) as Hr.
  { intros q Hq. unfold raw. apply in_width_lor; [lia|done|].
    rewrite Z.shiftr_div_pow2 by lia. pose proof (src_byte (S q) Hq) as [H0 H1].
    split; [apply Z.div_pos; [done|]; apply Z.pow_pos_nonneg; lia|].
    apply Z.div_lt_upper_bound; [apply Z.pow_pos_nonneg; lia|].
    assert (1 ≤ 2 ^ (8 - Z.of_nat off)) by (apply (Z.pow_le_mono_r 2 0); lia). nia. }
  assert (0 ≤ mask8) as Hm.
  { unfold mask8. destruct (negb _); [|lia]. apply wrap_in_width. lia. }
  pose proof nb_bl as (Hb1&Hb2&Hb3&Hb4&Hb5). unfold result. apply Forall_app. split.
  - apply Forall_fmap, Forall_forall. intros q Hq%elem_of_seq. apply Hr. lia.
  - constructor; [|constructor]. apply in_width_land; [lia| |done].
    destruct (decide (bl = nb)); [apply Hs|apply Hr; lia].
Qed.

(** The result holds the [n] bits from bit [off] on, padded with zeros. *)
Lemma GetBitString_spec : ∃ dst,
  GetBitString src (Z.of_nat off) (Z.of_nat n) = Ret dst ∧ bytes_ok dst ∧ length dst = nb ∧
  bits_of dst = take n (drop off (bits_of src)) ++ replicate (8 * nb - n) false.
Proof.
  exists result. split; [apply GetBitString_result|]. split; [apply result_bytes|].
  split; [apply result_length|]. pose proof nb_bl as (Hb1&_).
  apply list_eq. intros k. destruct (Nat.lt_ge_cases k (8 * nb)) as [Hk|Hk].
  - rewrite bits_of_bit_at, result_length, list_lookup_fmap, lookup_seq_lt by done.
    cbn [fmap option_fmap option_map]. rewrite Nat.add_0_l, result_bit by done.
    destruct (Nat.ltb_spec k n) as [Hkn|Hkn]; cbn [andb].
    + rewrite lookup_app_l by (rewrite length_take, length_drop, bits_of_length; lia).
      rewrite lookup_take_lt, lookup_drop, bits_of_bit_at, list_lookup_fmap, lookup_seq_lt by lia.
      done.
    + rewrite lookup_app_r by (rewrite length_take, length_drop, bits_of_length; lia).
      symmetry. apply lookup_replicate. split; [done|].
      rewrite length_take, length_drop, bits_of_length. lia.
  - rewrite !lookup_ge_None_2; [done|..].
    + rewrite length_app, length_replicate, length_take, length_drop, bits_of_length. lia.
    + rewrite bits_of_length, result_length. lia.
Qed.
End GetBits.

(** ** Bits as numbers *)

Lemma bits_val_app l l' : bits_val (l ++ l') = bits_val l * 2 ^ Z.of_nat (length l') + bits_val l'.
Proof.
  unfold bits_val. rewrite foldl_app. generalize (foldl (λ z b, 2 * z + Z.b2z b) 0 l).
  induction l' as [|b l' IH] using rev_ind; intros z; [simpl; lia|].
  rewrite !foldl_app, IH. cbn [foldl]. rewrite length_app. cbn [length].
  replace (Z.of_nat (length l' + 1)) with (Z.of_nat (length l') + 1) by lia.
  rewrite Z.pow_add_r by lia. lia.
Qed.

Lemma bits_val_width l : in_width (Z.of_nat (length l)) (bits_val l).
Proof.
  induction l as [|b l IH] using rev_ind; [split; [done|reflexivity]|].
  rewrite bits_val_app, length_app. cbn [length]. unfold in_width in *.
  replace (Z.of_nat (length l + 1)) with (Z.of_nat (length l) + 1) by lia.
  rewrite Z.pow_add_r by lia. unfold bits_val at 2 4. cbn [foldl]. destruct b; cbn [Z.b2z]; lia.
Qed.

Lemma num_bits_S n z : num_bits (S n) z = num_bits n (z / 2) ++ [Z.odd z].
Proof.
  unfold num_bits. rewrite seq_S, fmap_app. cbn [fmap list_fmap]. f_equal.
  - apply fmap_seq_eq. intros k Hk. rewrite <-Z.div2_div, Z.div2_spec, Z.shiftr_spec by lia.
    f_equal. lia.
  - replace (S n - 1 - (0 + n))%nat with 0%nat by lia. by rewrite Z.bit0_odd.
Qed.

Lemma num_bits_length n z : length (num_bits n z) = n.
Proof. unfold num_bits. by rewrite length_fmap, length_seq. Qed.

Lemma bits_val_num n z : in_width (Z.of_nat n) z → bits_val (num_bits n z) = z.
Proof.
  revert z. induction n as [|n IH]; intros z Hz.
  { destruct Hz as [H0 H1]. change (2 ^ Z.of_nat 0) with 1 in H1. cbn. lia. }
  rewrite num_bits_S, bits_val_app. rewrite IH.
  - cbn. pose proof (Z.div_mod z 2). rewrite (Zmod_odd z) in *. destruct (Z.odd z); simpl; lia.
  - destruct Hz as [H0 H1]. replace (Z.of_nat (S n)) with (Z.of_nat n + 1) in H1 by lia.
    rewrite Z.pow_add_r in H1 by lia. split; [apply Z.div_pos; lia|apply Z.div_lt_upper_bound; lia].
Qed.

Lemma num_bits_8 b : num_bits 8 b = byte_bits b.
Proof. reflexivity. Qed.

Lemma bits_val_byte b : in_width 8 b → bits_val (byte_bits b) = b.
Proof. rewrite <-num_bits_8. apply (bits_val_num 8). Qed.

Lemma byte_bits_inj a b : in_width 8 a → in_width 8 b → byte_bits a = byte_bits b → a = b.
Proof. intros Ha Hb E. by rewrite <-(bits_val_byte a), <-(bits_val_byte b), E. Qed.

Lemma num_bits_app n m z : num_bits (n + m) z = num_bits n (z ≫ Z.of_nat m) ++ num_bits m z.
Proof.
  unfold num_bits. rewrite seq_app, fmap_app. f_equal.
  - apply fmap_seq_eq. intros k Hk. rewrite Z.shiftr_spec by lia. f_equal. lia.
  - rewrite Nat.add_0_l. replace (seq n m) with (seq (n + 0) m) by (f_equal; lia).
    rewrite <-fmap_add_seq, <-list_fmap_compose. apply fmap_seq_eq. intros k Hk. cbn. f_equal. lia.
Qed.

(** [value <<= k; value |= x] on a uint64. *)
Lemma shl64_lor_low v k x : 0 ≤ k ≤ 64 → in_width k x → shl 64 v k ∣∣ x = u64 (v * 2 ^ k + x).
Proof.
  intros Hk Hx. unfold shl, wrap. rewrite Z.shiftl_mul_pow2 by lia.
  assert (2 ^ 64 = 2 ^ (64 - k) * 2 ^ k) as E by (rewrite <-Z.pow_add_r by lia; f_equal; lia).
  assert (0 < 2 ^ k) by (apply Z.pow_pos_nonneg; lia).
  assert (0 < 2 ^ (64 - k)) by (apply Z.pow_pos_nonneg; lia).
  rewrite E at 1. rewrite Z.mul_mod_distr_r by lia.
  rewrite <-Z.shiftl_mul_pow2, <-pack_lor by (done || lia). rewrite E.
  apply (Z.mod_unique_pos _ _ (v / 2 ^ (64 - k))).
  - pose proof (Z.mod_pos_bound v (2 ^ (64 - k))). unfold in_width in Hx. nia.
  - pose proof (Z.div_mod v (2 ^ (64 - k))). nia.
Qed.

Lemma u64_acc v k x : u64 (u64 v * 2 ^ k + x) = u64 (v * 2 ^ k + x).
Proof.
  unfold wrap. by rewrite Z.add_mod, Z.mul_mod_idemp_l, <-Z.add_mod by done.
Qed.

(** ** GetBitsValue *)

Lemma value_loop dst f : bytes_ok dst → (f ≤ length dst)%nat →
  forM (seqZ 0 (Z.of_nat f)) (λ i value, x ← rd dst i; Ret (shl 64 value 8 ∣∣ x)) 0
  = Ret (u64 (bits_val (bits_of (take f dst)))).
Proof.
  intros Hd. induction f as [|f IH]; intros Hf; [done|].
  rewrite seqZ_S, forM_app, IH by lia. ret_bind. rewrite Z.add_0_l. cbn [forM].
  destruct (lookup_lt_is_Some_2 dst f) as [x Hx]; [lia|].
  rewrite (rd_lookup dst _ x) by (lia || by rewrite Nat2Z.id). ret_bind.
  assert (in_width 8 x) as Hxw by (by eapply Forall_lookup_1).
  rewrite (take_S_r _ _ x Hx), bits_of_app, bits_val_app, shl64_lor_low by (lia || done).
  rewrite u64_acc. cbn [bits_of fmap list_fmap mjoin list_join]. rewrite app_nil_r, bits_val_byte by done.
  reflexivity.
Qed.

Lemma high_bits x m : in_width 8 x → (0 < m < 8)%nat →
  (x ≫ (8 - Z.of_nat m)) & (Z.shiftl 1 (Z.of_nat m) - 1) = bits_val (take m (byte_bits x)).
Proof.
  intros Hx Hm. replace (Z.shiftl 1 (Z.of_nat m) - 1) with (Z.ones (Z.of_nat m)) by (unfold Z.ones; lia).
  rewrite Z.land_ones, Z.shiftr_div_pow2 by lia.
  pose proof (bits_val_byte x Hx) as E. pose proof (bits_val_width (drop m (byte_bits x))) as W.
  rewrite <-(take_drop m (byte_bits x)) in E. rewrite bits_val_app in E.
  pose proof (bits_val_width (take m (byte_bits x))) as W'.
  rewrite length_drop in E, W. rewrite length_take in W'. change (length (byte_bits x)) with 8%nat in *.
  replace (8 `min` m)%nat with m in W' by lia. replace (m `min` 8)%nat with m in W' by lia.
  replace (8 - Z.of_nat m) with (Z.of_nat (8 - m)) by lia.
  rewrite <-(Z.div_unique_pos x (2 ^ Z.of_nat (8 - m)) (bits_val (take m (byte_bits x)))
    (bits_val (drop m (byte_bits x)))) by (unfold in_width in *; lia).
  by apply Z.mod_small.
Qed.

Lemma GetBitsValue_spec src off n :
  bytes_ok src → sized src → (off < 8)%nat → (0 < n)%nat → (off + n ≤ 8 * length src)%nat →
  GetBitsValue src (Z.of_nat off) (Z.of_nat n) = Ret (u64 (bits_val (take n (drop off (bits_of src))))).
Proof.
  intros Hs Hsz Ho Hn Hfit. unfold GetBitsValue.
  destruct (GetBitString_spec src off n Hs Hsz Ho Hn Hfit) as (dst&->&Hd&Hl&Hb). ret_bind.
  pose proof (Nat.div_mod n 8) as E. pose proof (Nat.mod_upper_bound n 8) as Hm.
  pose proof (Nat.div_mod (n + 7) 8) as E'. pose proof (Nat.mod_upper_bound (n + 7) 8) as Hm'.
  set (f := (n / 8)%nat) in *. set (m := (n mod 8)%nat) in *.
  assert (length (take n (drop off (bits_of src))) = n) as Htl
    by (rewrite length_take, length_drop, bits_of_length; lia).
  replace (Z.of_nat n / 8) with (Z.of_nat f) by (unfold f; by rewrite Nat2Z.inj_div).
  rewrite value_loop by (done || lia). ret_bind.
  rewrite land7 by lia. replace (Z.of_nat n mod 8) with (Z.of_nat m) by (unfold m; by rewrite Nat2Z.inj_mod).
  assert (take n (drop off (bits_of src)) = take n (bits_of dst)) as ->.
  { rewrite Hb, take_app_length'; done. }
  destruct (Z.eqb_spec (Z.of_nat m) 0) as [Hz|Hz]; cbn [negb].
  - do 3 f_equal. rewrite <-(take_drop f dst) at 2. rewrite bits_of_app.
    rewrite take_app_length'; [done|]. rewrite bits_of_length, length_take. lia.
  - cbv zeta. destruct (lookup_lt_is_Some_2 dst f) as [x Hx]; [lia|].
    assert (in_width 8 x) as Hxw by (by eapply Forall_lookup_1).
    assert (length dst = S f) as Hlf by lia.
    rewrite (rd_lookup dst _ x); [|unfold blen; lia|unfold blen; by replace (Z.to_nat _) with f by lia].
    ret_bind. rewrite high_bits by (done || lia).
    assert (dst = take f dst ++ [x]) as Hdst by (rewrite <-(take_S_r _ _ _ Hx), take_ge; done || lia).
    assert (length (take m (byte_bits x)) = m) as Hmm by (rewrite length_take; simpl; lia).
    rewrite shl64_lor_low; [|lia|rewrite <-Hmm at 1; apply bits_val_width].
    rewrite u64_acc. do 2 f_equal. rewrite Hdst at 2. rewrite bits_of_app.
    rewrite take_app_ge by (rewrite bits_of_length, length_take; lia).
    rewrite bits_of_length, length_take. replace (n - 8 * (f `min` length dst))%nat with m by lia.
    rewrite bits_val_app. do 2 f_equal.
    by rewrite Hmm at 1.
Qed.

(** ** Reader positions *)

(** The reader of [bytes] before bit [pos]. *)
Definition at_pos (bytes : list Z) (pos : nat) : perBitData :=
  PerBitData bytes (Z.of_nat (pos / 8)) (Z.of_nat (pos mod 8)).

Section Reader.
Context (bytes : list Z) (Hb : bytes_ok bytes) (Hsz : sized bytes).

Lemma pos_split pos : (pos = 8 * (pos / 8) + pos mod 8 ∧ pos mod 8 < 8)%nat.
Proof. pose proof (Nat.div_mod pos 8). pose proof (Nat.mod_upper_bound pos 8). lia. Qed.

Lemma bits_of_drop q (l : list Z) : bits_of (drop q l) = drop (8 * q) (bits_of l).
Proof.
  destruct (Nat.le_ge_cases q (length l)) as [Hq|Hq].
  - rewrite <-(take_drop q l) at 2. rewrite bits_of_app, drop_app_length'; [done|].
    rewrite bits_of_length, length_take. lia.
  - rewrite !drop_ge; [done|rewrite bits_of_length; lia|done].
Qed.

Lemma carry_at pos n : (pos + n ≤ 8 * length bytes)%nat →
  bitCarry (PerBitData bytes (Z.of_nat (pos / 8)) (u64 (Z.of_nat (pos mod 8) + Z.of_nat n)))
  = at_pos bytes (pos + n).
Proof.
  intros Hp. unfold bitCarry, at_pos. cbn [r_bytes r_byteOffset r_bitsOffset].
  destruct (pos_split pos) as [Hd Hm]. unfold sized, blen in Hsz.
  rewrite (wrap_small 64 (_ + Z.of_nat n)) by (unfold in_width; lia).
  rewrite <-Nat2Z.inj_add, shiftr3, land7 by lia.
  change 8 with (Z.of_nat 8). rewrite <-Nat2Z.inj_div, <-Nat2Z.inj_mod, <-Nat2Z.inj_add.
  destruct (pos_split (pos + n)) as [Hd' Hm'].
  destruct (pos_split (pos mod 8 + n)) as [Hd'' Hm''].
  rewrite wrap_small by (unfold in_width; lia). f_equal; f_equal; lia.
Qed.

Lemma tail_at pos : (pos ≤ 8 * length bytes)%nat →
  slice bytes (Z.of_nat (pos / 8)) (blen bytes) = Ret (drop (pos / 8) bytes) ∧
  sized (drop (pos / 8) bytes) ∧ bytes_ok (drop (pos / 8) bytes).
Proof.
  intros Hp. destruct (pos_split pos) as [Hd Hm]. split; [|split; [|by apply Forall_drop]].
  - rewrite slice_from by (unfold blen; lia). by rewrite Nat2Z.id.
  - unfold sized, blen in *. rewrite length_drop. lia.
Qed.

Lemma drop_at pos : drop (pos mod 8) (bits_of (drop (pos / 8) bytes)) = drop pos (bits_of bytes).
Proof. rewrite bits_of_drop, drop_drop. f_equal. destruct (pos_split pos). lia. Qed.

Lemma getBitsValue_at pos n : (0 < n)%nat → (pos + n ≤ 8 * length bytes)%nat →
  getBitsValue (Z.of_nat n) (at_pos bytes pos) =
  Ret (u64 (bits_val (take n (drop pos (bits_of bytes)))), at_pos bytes (pos + n)).
Proof.
  intros Hn Hp. unfold getBitsValue. cbn [at_pos r_bytes r_byteOffset r_bitsOffset].
  destruct (tail_at pos) as (->&Hs&Hbt); [lia|]. ret_bind. destruct (pos_split pos) as [Hd Hm].
  rewrite GetBitsValue_spec by (done || rewrite ?length_drop; lia). ret_bind.
  by rewrite drop_at, carry_at.
Qed.

Lemma getBitString_at pos n : (0 < n)%nat → (pos + n ≤ 8 * length bytes)%nat → ∃ dst,
  getBitString (Z.of_nat n) (at_pos bytes pos) = Ret (dst, at_pos bytes (pos + n)) ∧
  bytes_ok dst ∧ length dst = ((n + 7) / 8)%nat ∧
  bits_of dst = take n (drop pos (bits_of bytes)) ++ replicate (8 * ((n + 7) / 8) - n) false.
Proof.
  intros Hn Hp. unfold getBitString. cbn [at_pos r_bytes r_byteOffset r_bitsOffset].
  destruct (tail_at pos) as (->&Hs&Hbt); [lia|]. ret_bind. destruct (pos_split pos) as [Hd Hm].
  destruct (GetBitString_spec (drop (pos / 8) bytes) (pos mod 8) n) as (dst&->&?&?&Hdst);
    [done|done|done|done|rewrite length_drop; lia|].
  ret_bind. exists dst. rewrite drop_at in Hdst. by rewrite carry_at.
Qed.

(** Reading beyond the data is an error. *)
Lemma getBitsValue_overflow pos n :
  (pos ≤ 8 * length bytes)%nat → (8 * length bytes < pos + n)%nat → Z.of_nat n < 2 ^ 63 →
  getBitsValue (Z.of_nat n) (at_pos bytes pos) = Fail "Get bits overflow".
Proof.
  intros Hp Hn Hlt. unfold getBitsValue. cbn [at_pos r_bytes r_byteOffset r_bitsOffset].
  destruct (tail_at pos Hp) as (->&Hs&_). ret_bind. destruct (pos_split pos) as [Hd Hm].
  unfold GetBitsValue, GetBitString, blen. rewrite length_drop. unfold sized, blen in Hsz.
  rewrite (wrap_small 64 (_ * 8 - _)) by (unfold in_width; lia).
  rewrite Z.gtb_ltb, (proj2 (Z.ltb_lt _ _)) by lia. done.
Qed.

(** Bits up to the next byte boundary. *)
Definition pad (pos : nat) : nat := ((8 - pos mod 8) mod 8)%nat.

Lemma pad_spec pos : (pos + pad pos = 8 * ((pos + 7) / 8) ∧ pad pos < 8 ∧ (pos + pad pos) mod 8 = 0)%nat.
Proof.
  unfold pad. destruct (pos_split pos) as [Hd Hm].
  assert (pos + (8 - pos mod 8) mod 8 = 8 * ((pos + 7) / 8))%nat as E.
  { destruct (Nat.eq_dec (pos mod 8) 0) as [E|E].
    - rewrite E, Nat.sub_0_r. change (8 mod 8)%nat with 0%nat.
      assert ((pos + 7) / 8 = pos / 8)%nat as -> by (symmetry; apply (Nat.div_unique _ _ _ 7); lia). lia.
    - rewrite Nat.mod_small by lia.
      assert ((pos + 7) / 8 = S (pos / 8))%nat as ->
        by (symmetry; apply (Nat.div_unique _ _ _ (pos mod 8 - 1)); lia). lia. }
  split; [exact E|]. split; [apply Nat.mod_upper_bound; lia|].
  rewrite E, Nat.mul_comm. apply Nat.Div0.mod_mul.
Qed.

Lemma parseAlignBits_at pos : (pos ≤ 8 * length bytes)%nat →
  take (pad pos) (drop pos (bits_of bytes)) = replicate (pad pos) false →
  parseAlignBits (at_pos bytes pos) = Ret (at_pos bytes (pos + pad pos)).
Proof.
  intros Hp Hz. unfold parseAlignBits. cbn [at_pos r_bitsOffset].
  destruct (pos_split pos) as [Hd Hm]. destruct (pad_spec pos) as (Hp8&Hpl&_).
  rewrite land7 by lia. rewrite Z.mod_small by lia. rewrite Z.gtb_ltb.
  destruct (Z.ltb_spec 0 (Z.of_nat (pos mod 8))) as [Hpos|Hzero].
  - assert (pad pos = 8 - pos mod 8)%nat as E by (unfold pad; rewrite Nat.mod_small; lia).
    replace (8 - Z.of_nat (pos mod 8)) with (Z.of_nat (pad pos)) by lia.
    rewrite getBitsValue_at by lia. ret_bind. rewrite Hz.
    assert (∀ k, bits_val (replicate k false) = 0) as H0.
    { intros k. induction k as [|k IH]; [done|].
      change (replicate (S k) false) with ([false] ++ replicate k false). rewrite bits_val_app, IH. done. }
    rewrite H0. done.
  - rewrite (proj2 (Z.eqb_eq _ _)) by lia. cbn [negb].
    assert (pad pos = 0)%nat as -> by (unfold pad; replace (pos mod 8)%nat with 0%nat by lia; done).
    by rewrite Nat.add_0_r.
Qed.
End Reader.

(** ** The writer *)

(** The writer has put the bits [bs]; the rest of the last byte is 0. *)
Definition holds (w : perRawBitData) (bs : list bool) : Prop :=
  bytes_ok (w_bytes w) ∧ bits_of (w_bytes w) = bs ++ replicate (pad (length bs)) false ∧
  w_bitsOffset w = Z.of_nat (length bs mod 8).

Lemma holds_empty : holds (PerRaw [] 0) [].
Proof. split; [constructor|done]. Qed.

Lemma pad_0 pos : (pos mod 8 = 0)%nat → pad pos = 0%nat.
Proof. intros H. unfold pad. by rewrite H. Qed.

Definition align_bits (bs : list bool) : list bool := bs ++ replicate (pad (length bs)) false.

Lemma align_bits_length bs : (length (align_bits bs) mod 8 = 0)%nat.
Proof. unfold align_bits. rewrite length_app, length_replicate. apply pad_spec. Qed.

Lemma appendAlignBits_spec w bs : holds w bs → holds (appendAlignBits w) (align_bits bs).
Proof.
  intros (Hb&Hbits&Ho). pose proof (align_bits_length bs) as Hl. unfold holds. cbn [appendAlignBits w_bytes w_bitsOffset].
  rewrite (pad_0 _ Hl), app_nil_r, Hl. by repeat split.
Qed.

Lemma byte_bits_lor a b : byte_bits (a ∣∣ b) = zip_with orb (byte_bits a) (byte_bits b).
Proof. unfold byte_bits. cbn [fmap list_fmap zip_with]. by rewrite !Z.lor_spec. Qed.

Lemma zip_orb_l (l l' : list bool) n m : length l = n → length l' = m →
  zip_with orb (l ++ replicate m false) (replicate n false ++ l') = l ++ l'.
Proof.
  intros <- <-. rewrite zip_with_app by (by rewrite length_replicate). f_equal.
  - induction l as [|b l IH]; [done|]. cbn. by rewrite orb_false_r, IH.
  - induction l' as [|b l' IH]; [done|]. cbn. by rewrite IH.
Qed.

Lemma byte_bits_shr b off : in_width 8 b → (off < 8)%nat →
  byte_bits (b ≫ Z.of_nat off) = replicate off false ++ take (8 - off) (byte_bits b).
Proof.
  intros Hb Ho. unfold byte_bits. cbn [fmap list_fmap].
  rewrite !testbit_shr by lia.
  assert (∀ j, 8 ≤ j → Z.testbit b j = false) as Hz by (intros; by eapply testbit_above).
  do 8 (destruct off as [|off]; [cbn [replicate app take Nat.sub Z.of_nat];
    repeat (rewrite Hz by (simpl; lia)); reflexivity|]). lia.
Qed.

Lemma bits_of_single b : bits_of [b] = byte_bits b.
Proof. reflexivity. Qed.

(** Offsets inside a byte: the last byte and what precedes it. *)
Lemma holds_open w bs : holds w bs → (length bs mod 8 ≠ 0)%nat → ∃ p c bs0 t,
  w_bytes w = p ++ [c] ∧ bytes_ok p ∧ in_width 8 c ∧ bs = bs0 ++ t ∧ bits_of p = bs0 ∧
  length t = (length bs mod 8)%nat ∧ byte_bits c = t ++ replicate (8 - length t) false.
Proof.
  intros (Hb&Hbits&_) Hm. destruct (pos_split (length bs)) as [Hd Ho].
  assert (pad (length bs) = 8 - length bs mod 8)%nat as Hpad by (unfold pad; rewrite Nat.mod_small; lia).
  set (o := (length bs mod 8)%nat) in *. clearbody o.
  assert (length (w_bytes w) = S (length bs / 8)) as Hl.
  { pose proof (bits_of_length (w_bytes w)) as E. rewrite Hbits, length_app, length_replicate in E. lia. }
  destruct (w_bytes w) as [|c p _] using rev_ind; [done|].
  rewrite length_app in Hl. cbn [length] in Hl. apply Forall_app in Hb as [Hp Hc]. apply Forall_cons in Hc as [Hc _].
  rewrite bits_of_app, bits_of_single in Hbits.
  exists p, c, (take (8 * length p) bs), (drop (8 * length p) bs). rewrite take_drop.
  assert (length (drop (8 * length p) bs) = o) as Ht by (rewrite length_drop; lia).
  assert (bits_of p = take (8 * length p) bs) as Ep.
  { pose proof (f_equal (take (8 * length p)) Hbits) as E.
    rewrite take_app_length' in E by (symmetry; apply bits_of_length). by rewrite take_app_le in E by lia. }
  refine (conj eq_refl (conj Hp (conj Hc (conj eq_refl (conj Ep (conj Ht _)))))).
  pose proof (f_equal (drop (8 * length p)) Hbits) as E.
  rewrite drop_app_length' in E by (symmetry; apply bits_of_length). rewrite drop_app_le in E by lia.
  by rewrite E, Hpad, Ht.
Qed.

Lemma in_width_bits b l : byte_bits b = l → 0 ≤ b → (∀ j, 8 ≤ j → Z.testbit b j = false) → in_width 8 b.
Proof. intros _ H0 Hj. apply in_width_testbit; [lia|done|]. apply Hj. Qed.

Lemma shr_width b s : in_width 8 b → 0 ≤ s → in_width 8 (b ≫ s).
Proof.
  intros [H0 H1] Hs. rewrite Z.shiftr_div_pow2 by done. assert (0 < 2 ^ s) by (apply Z.pow_pos_nonneg; lia).
  split; [apply Z.div_pos; lia|]. apply Z.div_lt_upper_bound; [done|]. nia.
Qed.

Lemma pad_add n m : (n mod 8 = 0)%nat → pad (n + m) = pad m.
Proof.
  intros H. unfold pad. rewrite (Nat.Div0.add_mod n m), H, Nat.add_0_l. by rewrite Nat.Div0.mod_mod.
Qed.

Section PutBits.
Context (bytes : list Z) (n : nat) (B : list bool).
Context (Hbytes : bytes_ok bytes) (Hn : (0 < n)%nat) (HnB : length B = n).
Context (Hlen : length bytes = ((n + 7) / 8)%nat).
Context (Hbits : bits_of bytes = B ++ replicate (pad n) false).
Context (Hsz : Z.of_nat n + 128 < 2 ^ 63).

Lemma put_slice : slice bytes 0 (u64 (Z.of_nat n + 7) ≫ 3) = Ret bytes.
Proof.
  rewrite (wrap_small 64) by (unfold in_width; lia). rewrite shiftr3.
  assert ((Z.of_nat n + 7) / 8 = blen bytes) as ->.
  { unfold blen. rewrite Hlen, Nat2Z.inj_div. f_equal. lia. }
  rewrite slice_from by (unfold blen; lia). done.
Qed.

Lemma put_aligned w bs : holds w bs → (length bs mod 8 = 0)%nat →
  holds (PerRaw (w_bytes w ++ bytes) (Z.of_nat n & 0x7)) (bs ++ B).
Proof.
  intros (Hb&Hw&_) Hm. rewrite pad_0, app_nil_r in Hw by done.
  unfold holds. cbn [w_bytes w_bitsOffset]. rewrite length_app, HnB, pad_add by done.
  split; [by apply Forall_app|]. split; [by rewrite bits_of_app, Hw, Hbits, app_assoc|].
  rewrite land7 by lia. rewrite (Nat.Div0.add_mod (length bs)), Hm, Nat.add_0_l, Nat.Div0.mod_mod.
  by rewrite Nat2Z.inj_mod.
Qed.

(** The bits fit into the open byte. *)
Lemma put_within w bs b0 : holds w bs → (length bs mod 8 ≠ 0)%nat → (length bs mod 8 + n ≤ 8)%nat →
  bytes = [b0] → ∃ p c, w_bytes w = p ++ [c] ∧
  ∀ o, o = Z.of_nat ((length bs + n) mod 8) →
    holds (PerRaw (p ++ [c ∣∣ (b0 ≫ Z.of_nat (length bs mod 8))]) o) (bs ++ B).
Proof.
  intros Hw Hm Hfit ->. destruct (holds_open w bs Hw Hm) as (p&c&bs0&t&Ew&Hp&Hc&Ebs&Ep&Ht&Ec).
  exists p, c. split; [done|]. intros o Ho.
  destruct (pos_split (length bs)) as [Hd Hm8]. apply Forall_cons in Hbytes as [Hb0 _].
  assert (byte_bits (c ∣∣ (b0 ≫ Z.of_nat (length bs mod 8))) = t ++ B ++ replicate (8 - length t - n) false) as Eb.
  { rewrite byte_bits_lor, Ec, byte_bits_shr by done.
    rewrite <-Ht. rewrite zip_orb_l; [|done|rewrite length_take; simpl; lia].
    f_equal. rewrite bits_of_single in Hbits. rewrite Hbits, take_app_ge by lia.
    f_equal. rewrite take_replicate. f_equal. rewrite HnB.
    destruct (pad_spec n) as (_&Hpn&_).
    assert (length (byte_bits b0) = 8%nat) as H8 by done. rewrite Hbits, length_app, length_replicate in H8. lia. }
  unfold holds. cbn [w_bytes w_bitsOffset]. rewrite length_app, HnB. split; [|split; [|done]].
  - apply Forall_app. split; [done|]. constructor; [|constructor].
    apply in_width_lor; [lia|done|]. apply shr_width; [done|lia].
  - rewrite bits_of_app, bits_of_single, Eb, Ep, Ebs, <-!app_assoc. do 3 f_equal.
    rewrite <-Ebs. f_equal.
    assert (length bs + n = 8 * length p + (length t + n))%nat as El.
    { rewrite Ebs, length_app, <-Ep, bits_of_length. lia. }
    rewrite El, pad_add by (rewrite Nat.mul_comm; apply Nat.Div0.mod_mul).
    destruct (Nat.eq_dec (length t + n) 8) as [E8|E8]; [rewrite E8; unfold pad; simpl; lia|].
    unfold pad. rewrite (Nat.mod_small (length t + n)) by lia. rewrite Nat.mod_small by lia. lia.
Qed.

(** The bits run over the open byte. *)
Lemma put_beyond w bs : holds w bs → (length bs mod 8 ≠ 0)%nat → (8 < length bs mod 8 + n)%nat →
  ∃ p c s0 s, w_bytes w = p ++ [c] ∧
  GetBitString (0 :: bytes) (8 - Z.of_nat (length bs mod 8)) (Z.of_nat (length bs mod 8 + n)) = Ret (s0 :: s) ∧
  ∀ o, o = Z.of_nat ((length bs + n) mod 8) →
    holds (PerRaw (p ++ [c ∣∣ s0] ++ s) o) (bs ++ B).
Proof.
  intros Hw Hm Hfit. destruct (holds_open w bs Hw Hm) as (p&c&bs0&t&Ew&Hp&Hc&Ebs&Ep&Ht&Ec).
  destruct (pos_split (length bs)) as [Hd Hm8].
  destruct (pad_spec n) as (Hpn&Hpl&_).
  assert (bits_of (0 :: bytes) = replicate 8 false ++ B ++ replicate (pad n) false) as E0
    by (rewrite bits_of_cons, Hbits; done).
  destruct (GetBitString_spec (0 :: bytes) (8 - length t) (length t + n)) as (dst&Hg&Hdb&Hdl&Hdst).
  { constructor; [by apply in_width_0|done]. }
  { clear -Hsz Hlen Hpn Hpl. unfold sized, blen. cbn [length]. rewrite Hlen.
    revert Hpn. generalize ((n + 7) / 8)%nat. lia. }
  { lia. } { lia. } { cbn [length]. lia. }
  assert (take (length t + n) (drop (8 - length t) (bits_of (0 :: bytes))) = replicate (length t) false ++ B) as Ed.
  { rewrite E0, drop_app_le by (rewrite length_replicate; lia). rewrite drop_replicate.
    replace (8 - (8 - length t))%nat with (length t) by lia. rewrite app_assoc.
    apply take_app_length'. rewrite length_app, length_replicate. lia. }
  rewrite Ed in Hdst. destruct dst as [|s0 s]; [exfalso; apply (f_equal length) in Hdst;
    rewrite !length_app, length_replicate in Hdst; cbn in Hdst; lia|].
  exists p, c, s0, s. split; [done|]. split.
  { rewrite <-Hg. f_equal; lia. }
  intros o Ho. apply Forall_cons in Hdb as [Hs0 Hs].
  rewrite bits_of_cons in Hdst.
  (* the first byte of the shifted bits *)
  assert (byte_bits s0 = replicate (length t) false ++ take (8 - length t) B) as Es0.
  { pose proof (f_equal (take 8) Hdst) as E. rewrite take_app_length' in E by done. rewrite E.
    rewrite <-app_assoc, take_app_ge by (rewrite length_replicate; lia). rewrite length_replicate.
    by rewrite take_app_le by lia. }
  assert (bits_of s = drop (8 - length t) B ++ replicate (8 * ((length t + n + 7) / 8) - (length t + n)) false) as Es.
  { pose proof (f_equal (drop 8) Hdst) as E. rewrite drop_app_length' in E by done. rewrite E.
    rewrite <-app_assoc, drop_app_ge by (rewrite length_replicate; lia). rewrite length_replicate.
    by rewrite drop_app_le by lia. }
  unfold holds. cbn [w_bytes w_bitsOffset]. rewrite length_app, HnB. split; [|split; [|done]].
  - apply Forall_app. split; [done|]. constructor; [|done]. apply in_width_lor; [lia|done|done].
  - rewrite !bits_of_app, bits_of_single, byte_bits_lor, Ec, Es0.
    rewrite zip_orb_l; [|done|rewrite length_take; lia]. rewrite Ep, Es.
    rewrite Ebs, <-!app_assoc. do 2 f_equal. rewrite app_assoc, take_drop. f_equal.
    rewrite <-Ebs.
    assert (length bs + n = 8 * length p + (length t + n))%nat as ->.
    { rewrite Ebs, length_app, <-Ep, bits_of_length. lia. }
    rewrite pad_add by (rewrite Nat.mul_comm; apply Nat.Div0.mod_mul).
    destruct (pad_spec (length t + n)) as (Hpt&_&_). f_equal. lia.
Qed.

Lemma putBitString_spec w bs : holds w bs → ∃ w',
  putBitString bytes (Z.of_nat n) w = Ret w' ∧ holds w' (bs ++ B).
Proof.
  intros Hw. unfold putBitString. rewrite put_slice. ret_bind.
  destruct (pos_split (length bs)) as [Hd Hm8].
  rewrite (proj2 (proj2 Hw)).
  destruct (Nat.eq_dec (length bs mod 8) 0) as [Hz|Hz].
  { rewrite Hz. change (Z.of_nat 0 =? 0) with true. cbn iota. eexists. split; [reflexivity|].
    by apply put_aligned. }
  rewrite (proj2 (Z.eqb_neq _ 0)) by lia.
  assert (u64 ((Z.of_nat n & 7) + Z.of_nat (length bs mod 8)) & 7 = Z.of_nat ((length bs + n) mod 8)) as Hoff.
  { rewrite (land7 (Z.of_nat n)) by lia. replace (Z.of_nat n mod 8) with (Z.of_nat (n mod 8)) by (by rewrite Nat2Z.inj_mod).
    pose proof (Nat.mod_upper_bound n 8).
    rewrite wrap_small by (unfold in_width; lia). rewrite land7 by lia.
    rewrite <-Nat2Z.inj_add. change 8 with (Z.of_nat 8) at 1. rewrite <-Nat2Z.inj_mod. f_equal.
    rewrite <-Nat.Div0.add_mod. f_equal. lia. }
  destruct (Nat.le_gt_cases (length bs mod 8 + n) 8) as [Hfit|Hover].
  - rewrite (proj2 (Z.leb_le _ _)) by lia.
    assert (∃ b0, bytes = [b0]) as [b0 Eb].
    { destruct (pad_spec n) as (Hp&Hpl&_). rewrite <-Hlen in Hp. clear -Hp Hpl Hfit Hn Hz.
      destruct bytes as [|b0 [|b1 r]]; cbn [length] in Hp; [lia|by exists b0|lia]. }
    destruct (put_within w bs b0 Hw Hz Hfit Eb) as (p&c&Ew&Hh).
    rewrite Eb, Ew. slots. unfold blen. rewrite length_app. cbn [length].
    replace (Z.of_nat (length p + 1) - 1) with (blen p) by (unfold blen; lia).
    rewrite (rd_at p [c] _ 0) by lia. slots. rewrite wr_app by done. ret_bind.
    eexists. split; [reflexivity|]. unfold rawBitCarry. cbn [w_bytes w_bitsOffset]. apply Hh.
    by rewrite Hoff.
  - rewrite (proj2 (Z.leb_gt _ _)) by lia.
    destruct (put_beyond w bs Hw Hz Hover) as (p&c&s0&s&Ew&Hg&Hh).
    rewrite (wrap_small 64 (_ + Z.of_nat n)) by (unfold in_width; lia).
    rewrite <-Nat2Z.inj_add, Hg. ret_bind. rewrite Ew. slots.
    unfold blen. rewrite length_app. cbn [length].
    replace (Z.of_nat (length p + 1) - 1) with (blen p) by (unfold blen; lia).
    rewrite (rd_at p [c] _ 0) by lia. slots. rewrite wr_app by done. ret_bind.
    eexists. split; [reflexivity|]. unfold rawBitCarry. cbn [w_bytes w_bitsOffset drop].
    rewrite Hoff, <-app_assoc. by apply Hh.
Qed.
End PutBits.

(** ** putBitsValue *)

Lemma put_bytes_zero fuel i t : put_bytes fuel i 0 t = Ret t.
Proof. by destruct fuel. Qed.

Lemma be_bytes_zero n : be_bytes n 0 = replicate n 0.
Proof.
  induction n as [|n IH]; [done|]. cbn [be_bytes]. change (0 / 256) with 0. rewrite IH.
  change [0 mod 256] with (replicate 1 0). rewrite <-replicate_add. f_equal. lia.
Qed.

Lemma put_bytes_spec k fuel v suf : 0 ≤ v < 2 ^ (8 * Z.of_nat k) → (k < fuel)%nat →
  put_bytes fuel (Z.of_nat k - 1) v (replicate k 0 ++ suf) = Ret (be_bytes k v ++ suf).
Proof.
  revert fuel v suf. induction k as [|k IH]; intros fuel v suf Hv Hf.
  { assert (v = 0) as -> by lia. apply put_bytes_zero. }
  destruct fuel as [|fuel]; [lia|]. cbn [put_bytes]. rewrite Z.gtb_ltb.
  destruct (Z.ltb_spec 0 v) as [Hpos|Hz].
  - rewrite (proj2 (Z.ltb_ge (Z.of_nat (S k) - 1) 0)) by lia.
    replace (replicate (S k) 0) with (replicate k 0 ++ [0]) by (rewrite <-replicate_S_end; done).
    rewrite <-app_assoc. cbn [app]. rewrite wr_app by (unfold blen; rewrite length_replicate; lia). ret_bind.
    assert (u8 (v & 255) = v mod 256) as ->.
    { change 255 with (Z.ones 8). rewrite Z.land_ones by lia. unfold wrap. by rewrite Z.mod_mod. }
    rewrite Z.shiftr_div_pow2 by lia. change (2 ^ 8) with 256.
    replace (Z.of_nat (S k) - 1 - 1) with (Z.of_nat k - 1) by lia.
    rewrite IH; [cbn [be_bytes]; by rewrite <-app_assoc| |lia].
    replace (8 * Z.of_nat (S k)) with (8 * Z.of_nat k + 8) in Hv by lia.
    rewrite Z.pow_add_r in Hv by lia. change (2 ^ 8) with 256 in Hv.
    split; [apply Z.div_pos; lia|apply Z.div_lt_upper_bound; lia].
  - assert (v = 0) as -> by lia. by rewrite be_bytes_zero.
Qed.

Lemma put_bytes_overflow k fuel v suf : 2 ^ (8 * Z.of_nat k) ≤ v → (k < fuel)%nat →
  put_bytes fuel (Z.of_nat k - 1) v (replicate k 0 ++ suf) = Fail "Bits Value is over capacity".
Proof.
  revert fuel v suf. induction k as [|k IH]; intros fuel v suf Hv Hf;
    (destruct fuel as [|fuel]; [lia|]); cbn [put_bytes]; rewrite Z.gtb_ltb.
  { rewrite (proj2 (Z.ltb_lt 0 v)) by (change (2 ^ (8 * Z.of_nat 0)) with 1 in Hv; lia). done. }
  assert (0 < 2 ^ (8 * Z.of_nat k)) as Hk by (apply Z.pow_pos_nonneg; lia).
  replace (8 * Z.of_nat (S k)) with (8 * Z.of_nat k + 8) in Hv by lia.
  rewrite Z.pow_add_r in Hv by lia. change (2 ^ 8) with 256 in Hv.
  rewrite (proj2 (Z.ltb_lt 0 v)), (proj2 (Z.ltb_ge (Z.of_nat (S k) - 1) 0)) by lia.
  replace (replicate (S k) 0) with (replicate k 0 ++ [0]) by (rewrite <-replicate_S_end; done).
  rewrite <-app_assoc. cbn [app]. rewrite wr_app by (unfold blen; rewrite length_replicate; lia). ret_bind.
  rewrite Z.shiftr_div_pow2 by lia. change (2 ^ 8) with 256.
  replace (Z.of_nat (S k) - 1 - 1) with (Z.of_nat k - 1) by lia.
  apply IH; [apply Z.div_le_lower_bound; lia|lia].
Qed.

Lemma bits_of_be_bytes k v : bits_of (be_bytes k v) = num_bits (8 * k) v.
Proof.
  revert v. induction k as [|k IH]; intros v; [done|]. cbn [be_bytes].
  rewrite bits_of_app, IH, bits_of_single. replace (8 * S k)%nat with (8 * k + 8)%nat by lia.
  rewrite num_bits_app. rewrite Z.shiftr_div_pow2 by lia. f_equal.
  unfold num_bits, byte_bits. cbn [seq fmap list_fmap Nat.sub Z.of_nat].
  change 256 with (2 ^ 8). by rewrite !Z.mod_pow2_bits_low by lia.
Qed.

(** Bits of a byte that holds [m] bits on the left. *)
Lemma left_bits v m : (0 < m ≤ 8)%nat → 0 ≤ v →
  byte_bits (u8 (shl 64 v (8 - Z.of_nat m) & 0xff)) = num_bits m v ++ replicate (8 - m) false.
Proof.
  intros Hm Hv.
  assert (∀ j, 0 ≤ j < 8 → Z.testbit (u8 (shl 64 v (8 - Z.of_nat m) & 0xff)) j =
    (8 - Z.of_nat m <=? j) && Z.testbit v (j - (8 - Z.of_nat m))) as H.
  { intros j Hj. change 0xff with (Z.ones 8). rewrite Z.land_ones by lia.
    unfold wrap, shl, wrap. rewrite Z.mod_mod by lia. rewrite !Z.mod_pow2_bits_low by lia.
    rewrite Z.shiftl_spec by lia. destruct (Z.leb_spec (8 - Z.of_nat m) j); [done|].
    by rewrite Z.testbit_neg_r by lia. }
  unfold byte_bits. cbn [fmap list_fmap]. rewrite !H by lia. clear H.
  do 9 (destruct m as [|m]; [try lia; cbn; reflexivity|]). lia.
Qed.

(** [n] bits as whole bytes and 1 to 8 bits. *)
Lemma split_put n : (0 < n)%nat → ∃ k m, n = (8 * k + m)%nat ∧ (0 < m ≤ 8)%nat ∧
  ((n + 7) / 8 = S k)%nat ∧ (if Z.of_nat n & 0x7 =? 0 then 8 else Z.of_nat n & 0x7) = Z.of_nat m ∧
  (pad n = 8 - m)%nat.
Proof.
  intros Hn. destruct (pos_split (n - 1)) as [Hd Hm].
  exists ((n - 1) / 8)%nat, (S ((n - 1) mod 8)). set (k := ((n - 1) / 8)%nat) in *.
  set (r := ((n - 1) mod 8)%nat) in *. clearbody k r.
  assert ((n + 7) / 8 = S k)%nat as E by (symmetry; apply (Nat.div_unique _ _ _ r); lia).
  destruct (pad_spec n) as (Hp&_&_). rewrite E in Hp.
  split; [lia|]. split; [lia|]. split; [done|]. split; [|lia].
  rewrite land7 by lia. destruct (Nat.eq_dec r 7) as [->|Hr].
  - rewrite <-(Z.mod_unique_pos _ 8 (Z.of_nat k + 1) 0) by lia. done.
  - rewrite <-(Z.mod_unique_pos _ 8 (Z.of_nat k) (Z.of_nat (S r))) by lia.
    rewrite (proj2 (Z.eqb_neq _ 0)) by lia. done.
Qed.

Lemma putBitsValue_spec v n w bs : (0 < n ≤ 64)%nat → in_width (Z.of_nat n) v → holds w bs →
  ∃ w', putBitsValue v (Z.of_nat n) w = Ret w' ∧ holds w' (bs ++ num_bits n v).
Proof.
  intros Hn Hv Hw. destruct (split_put n) as (k&m&En&Hm&Ek&Eoff&Epad); [lia|].
  unfold putBitsValue. rewrite (proj2 (Z.eqb_neq _ 0)) by lia.
  rewrite (wrap_small 64 (Z.of_nat n + 7)) by (unfold in_width; lia). rewrite shiftr3.
  assert ((Z.of_nat n + 7) / 8 = Z.of_nat (S k)) as ->
    by (rewrite <-Ek, Nat2Z.inj_div; f_equal; lia).
  cbv zeta. rewrite Nat2Z.id, Eoff.
  replace (replicate (S k) 0) with (replicate k 0 ++ [0]) by (rewrite <-replicate_S_end; done).
  rewrite wr_app by (unfold blen; rewrite length_replicate; lia). ret_bind.
  set (last := u8 _). replace (Z.of_nat (S k) - 2) with (Z.of_nat k - 1) by lia.
  rewrite Z.shiftr_div_pow2 by lia.
  assert (0 < 2 ^ Z.of_nat m) as Hpm by (apply Z.pow_pos_nonneg; lia).
  unfold in_width in Hv.
  replace (Z.of_nat n) with (Z.of_nat m + 8 * Z.of_nat k) in Hv by lia. rewrite Z.pow_add_r in Hv by lia.
  rewrite put_bytes_spec;
    [|split; [apply Z.div_pos; lia|apply Z.div_lt_upper_bound; lia]|lia].
  ret_bind. apply putBitString_spec; try done; try lia.
  - apply Forall_app. split; [apply be_bytes_ok|]. constructor; [|constructor]. apply wrap_in_width. lia.
  - apply num_bits_length.
  - rewrite length_app, be_bytes_length. cbn [length]. lia.
  - rewrite bits_of_app, bits_of_be_bytes, bits_of_single. unfold last. rewrite left_bits by lia.
    rewrite Epad, app_assoc. f_equal. rewrite En, num_bits_app. f_equal. by rewrite Z.shiftr_div_pow2 by lia.
Qed.

Lemma putBitsValue_overflow v n w : (0 < n ≤ 64)%nat → 2 ^ Z.of_nat n ≤ v →
  putBitsValue v (Z.of_nat n) w = Fail "Bits Value is over capacity".
Proof.
  intros Hn Hv. destruct (split_put n) as (k&m&En&Hm&Ek&Eoff&Epad); [lia|].
  unfold putBitsValue. rewrite (proj2 (Z.eqb_neq _ 0)) by lia.
  rewrite (wrap_small 64 (Z.of_nat n + 7)) by (unfold in_width; lia). rewrite shiftr3.
  assert ((Z.of_nat n + 7) / 8 = Z.of_nat (S k)) as ->
    by (rewrite <-Ek, Nat2Z.inj_div; f_equal; lia).
  cbv zeta. rewrite Nat2Z.id, Eoff.
  replace (replicate (S k) 0) with (replicate k 0 ++ [0]) by (rewrite <-replicate_S_end; done).
  rewrite wr_app by (unfold blen; rewrite length_replicate; lia). ret_bind.
  replace (Z.of_nat (S k) - 2) with (Z.of_nat k - 1) by lia. rewrite Z.shiftr_div_pow2 by lia.
  assert (0 < 2 ^ Z.of_nat m) as Hpm by (apply Z.pow_pos_nonneg; lia).
  replace (Z.of_nat n) with (Z.of_nat m + 8 * Z.of_nat k) in Hv by lia. rewrite Z.pow_add_r in Hv by lia.
  rewrite put_bytes_overflow; [done| |lia]. apply Z.div_le_lower_bound; lia.
Qed.
