(* ===== verification/AperPrim.v ===== *)
(** * lib/aper: the primitive types of the codec

    Each ASN.1 type has a writer ([append...], marshal.go) and a reader
    ([parse...], aper.go).  A bound pointer is an [option Z]; a loop over
    length fragments has the number of bytes as fuel, each turn but the last
    consuming at least one. *)

From S2P Require Import Prelude AperBits.

#[local] Open Scope Z_scope.
#[local] Open Scope go_scope.

(** The loop [for i = 1; i <= 8; i++ { if 1<<i >= r { break } }]. *)
Fixpoint least_width (fuel : nat) (i r : Z) : Z :=
  match fuel with
  | O => i
  | S fuel => if Z.shiftl 1 i >=? r then i else least_width fuel (i + 1) r
  end.

(** ** aper.go *)

Definition parseConstraintValue (valueRange : Z) (pd : perBitData) : outcome (Z * perBitData) :=
  if valueRange <=? 255 then
    if valueRange <? 0 then Fail "Value range is negative"
    else getBitsValue (least_width 8 1 valueRange) pd
  else if valueRange =? 256 then pd ← parseAlignBits pd; getBitsValue 8 pd
  else if valueRange <=? 65536 then pd ← parseAlignBits pd; getBitsValue 16 pd
  else Fail "Constraint Value is large than 65536".

(** Returns the value, [repeat] and the reader. *)
Definition parseLength (sizeRange : Z) (pd : perBitData) : outcome (Z * bool * perBitData) :=
  if (sizeRange <=? 65536) && (sizeRange >? 0) then
    '(v, pd) ← parseConstraintValue sizeRange pd; Ret (v, false, pd)
  else
  pd ← parseAlignBits pd;
  '(firstByte, pd) ← getBitsValue 8 pd;
  if firstByte & 128 =? 0 then Ret (firstByte & 0x7F, false, pd)
  else if firstByte & 64 =? 0 then
    '(secondByte, pd) ← getBitsValue 8 pd;
    Ret (shl 64 (firstByte & 63) 8 ∣∣ secondByte, false, pd)
  else
    let firstByte := firstByte & 63 in
    if (firstByte <? 1) || (firstByte >? 4) then Fail "Parse Length Out of Constraint"
    else Ret (u64 (16384 * firstByte), true, pd).

(** [lb], [ub] and [sizeRange] of a string, as both readers compute them. *)
Definition size_bounds (extensed : bool) (lowerBoundPtr upperBoundPtr : option Z) : Z * Z * Z :=
  let '(lb, ub, sizeRange) :=
    if extensed then (0, -1, -1) else
    let lb := default 0 lowerBoundPtr in
    match upperBoundPtr with Some ub => (lb, ub, s64 (ub - lb + 1)) | None => (lb, -1, -1) end in
  (lb, ub, if ub >? 65535 then -1 else sizeRange).

(** The next [n] bytes of an aligned reader. *)
Definition take_bytes (n : Z) (pd : perBitData) : outcome (list Z) :=
  if u64 (r_byteOffset pd + n) >? blen (r_bytes pd) then Fail "PER data out of range"
  else slice (r_bytes pd) (r_byteOffset pd) (r_byteOffset pd + n).

(** [byteOffset += sizes; bitsOffset = n & 7; if bitsOffset > 0 { byteOffset-- }] *)
Definition skip_bits (sizes n : Z) (pd : perBitData) : perBitData :=
  let o := n & 0x7 in
  PerBitData (r_bytes pd) (r_byteOffset pd + sizes - (if o >? 0 then 1 else 0)) o.

Fixpoint parseBitString_loop (fuel : nat) (lb sizeRange : Z) (bs : list Z) (len : Z) (pd : perBitData)
  : outcome (list Z * Z * perBitData) :=
  match fuel with
  | O => Panic
  | S fuel =>
    '(rawLength, repeat_, pd) ← parseLength sizeRange pd;
    let rawLength := u64 (rawLength + u64 lb) in
    if rawLength =? 0 then Ret (bs, len, pd) else
    let sizes := u64 (rawLength + 7) ≫ 3 in
    pd ← parseAlignBits pd;
    chunk ← take_bytes sizes pd;
    let pd := skip_bits sizes rawLength pd in
    if repeat_ : bool
    then parseBitString_loop fuel lb sizeRange (bs ++ chunk) (u64 (len + rawLength)) pd
    else Ret (bs ++ chunk, u64 (len + rawLength), pd)
  end.

(** Bytes and bit length. *)
Definition parseBitString (extensed : bool) (lowerBoundPtr upperBoundPtr : option Z) (pd : perBitData)
  : outcome (list Z * Z * perBitData) :=
  let '(lb, ub, sizeRange) := size_bounds extensed lowerBoundPtr upperBoundPtr in
  if sizeRange =? 1 then
    let sizes := u64 (ub + 7) ≫ 3 in
    if sizes >? 2 then
      pd ← parseAlignBits pd;
      bs ← take_bytes sizes pd;
      Ret (bs, u64 ub, skip_bits sizes ub pd)
    else '(bs, pd) ← getBitString (u64 ub) pd; Ret (bs, u64 ub, pd)
  else parseBitString_loop (S (length (r_bytes pd))) lb sizeRange [] 0 pd.

Fixpoint parseOctetString_loop (fuel : nat) (lb sizeRange : Z) (os : list Z) (pd : perBitData)
  : outcome (list Z * perBitData) :=
  match fuel with
  | O => Panic
  | S fuel =>
    '(rawLength, repeat_, pd) ← parseLength sizeRange pd;
    let rawLength := u64 (rawLength + u64 lb) in
    if rawLength =? 0 then Ret (os, pd) else
    pd ← parseAlignBits pd;
    chunk ← take_bytes rawLength pd;
    let pd := PerBitData (r_bytes pd) (r_byteOffset pd + rawLength) (r_bitsOffset pd) in
    if repeat_ : bool then parseOctetString_loop fuel lb sizeRange (os ++ chunk) pd
    else Ret (os ++ chunk, pd)
  end.

Definition parseOctetString (extensed : bool) (lowerBoundPtr upperBoundPtr : option Z) (pd : perBitData)
  : outcome (list Z * perBitData) :=
  let '(lb, ub, sizeRange) := size_bounds extensed lowerBoundPtr upperBoundPtr in
  if sizeRange =? 1 then
    if ub >? 2 then
      pd ← parseAlignBits pd;
      os ← take_bytes ub pd;
      Ret (os, PerBitData (r_bytes pd) (r_byteOffset pd + ub) (r_bitsOffset pd))
    else getBitString (u64 (ub * 8)) pd
  else parseOctetString_loop (S (length (r_bytes pd))) lb sizeRange [] pd.

Definition parseBool (pd : perBitData) : outcome (bool * perBitData) :=
  '(bit, pd) ← getBitsValue 1 pd; Ret (bit =? 1, pd).

(** [for byteLen = 1; byteLen <= 127; byteLen++ { r >>= 8; if r <= stop { break } }] *)
Fixpoint range_bytes (fuel : nat) (stop byteLen r : Z) : Z :=
  match fuel with
  | O => byteLen
  | S fuel => let r := r ≫ 8 in if r <=? stop then byteLen else range_bytes fuel stop (byteLen + 1) r
  end.

(** One byte of the reader, [pd.bytes[pd.byteOffset]; pd.byteOffset++]. *)
Definition next_byte (pd : perBitData) : outcome (Z * perBitData) :=
  if r_byteOffset pd >=? blen (r_bytes pd) then Fail "per data out of range" else
  b ← rd (r_bytes pd) (r_byteOffset pd);
  Ret (b, PerBitData (r_bytes pd) (r_byteOffset pd + 1) (r_bitsOffset pd)).

(** The octets of an INTEGER, two's complement when the range is negative. *)
Definition parseInteger_octets (valueRange lb rawLength : Z) (pd : perBitData) : outcome (Z * perBitData) :=
  '(rawValue, pd) ← getBitsValue (rawLength * 8) pd;
  let signedBitMask := shl 64 1 (u64 (rawLength * 8 - 1)) in
  let valueMask := u64 (signedBitMask - 1) in
  if (valueRange <? 0) && (rawValue & signedBitMask >? 0)
  then Ret (s64 (s64 (u64 ((u64 (Z.lnot rawValue) & valueMask) + 1)) * -1), pd)
  else Ret (s64 (s64 rawValue + lb), pd).

Definition parseInteger (extensed : bool) (lowerBoundPtr upperBoundPtr : option Z) (pd : perBitData)
  : outcome (Z * perBitData) :=
  let '(lb, ub, valueRange) :=
    if extensed then (0, -1, -1) else
    match lowerBoundPtr with
    | None => (0, -1, -1)
    | Some lb => match upperBoundPtr with Some ub => (lb, ub, s64 (ub - lb + 1)) | None => (lb, -1, 0) end
    end in
  if valueRange =? 1 then Ret (ub, pd)
  else if valueRange <=? 0 then
    pd ← parseAlignBits pd;
    '(rawLength, pd) ← next_byte pd;
    parseInteger_octets valueRange lb rawLength pd
  else if valueRange <=? 65536 then
    '(rawValue, pd) ← parseConstraintValue valueRange pd; Ret (s64 (rawValue + lb), pd)
  else
    let byteLen := range_bytes 127 0 1 (valueRange - 1) in
    '(tempLength, pd) ← getBitsValue (least_width 8 1 byteLen) pd;
    let rawLength := u64 (tempLength + 1) in
    pd ← parseAlignBits pd;
    parseInteger_octets valueRange lb rawLength pd.

Definition parseEnumerated (extensed : bool) (lowerBoundPtr upperBoundPtr : option Z) (pd : perBitData)
  : outcome (Z * perBitData) :=
  if extensed then Fail "Unsupport the extensive value of ENUMERATED " else
  match lowerBoundPtr, upperBoundPtr with
  | Some lb, Some ub =>
    if s64 (ub - lb + 1) >? 1 then parseConstraintValue (s64 (ub - lb + 1)) pd else Ret (0, pd)
  | _, _ => Fail "ENUMERATED value constraint is error "
  end.

Definition getChoiceIndex (extensed : bool) (upperBoundPtr : option Z) (pd : perBitData)
  : outcome (Z * perBitData) :=
  if extensed then Fail "Unsupport value of CHOICE type is in Extensed" else
  match upperBoundPtr with
  | None => Fail "The upper bound of CHIOCE is missing"
  | Some ub =>
    if ub <? 0 then Fail "The upper bound of CHIOCE is negative"
    else '(rawChoice, pd) ← parseConstraintValue (s64 (ub + 1)) pd; Ret (s64 (rawChoice + 1), pd)
  end.

(** The number of elements in [parseSequenceOf]. *)
Definition parse_count (sizeExtensed : bool) (sizeLB sizeUB : option Z) (pd : perBitData)
  : outcome (Z * perBitData) :=
  let lb := match sizeLB with Some l => if l <? 65536 then l else 0 | None => 0 end in
  let sizeRange := match sizeUB with
    | Some ub => if negb sizeExtensed && (ub <? 65536) then s64 (ub - lb + 1) else -1
    | None => -1 end in
  if sizeRange >? 1 then '(n, pd) ← parseConstraintValue sizeRange pd; Ret (u64 (n + u64 lb), pd)
  else if sizeRange =? 1 then Ret (u64 lb, pd)
  else pd ← parseAlignBits pd; next_byte pd.

(** The bytes of an open type, before they are parsed themselves. *)
Fixpoint parseOpenType_loop (fuel : nat) (acc : list Z) (pd : perBitData) : outcome (list Z * perBitData) :=
  match fuel with
  | O => Panic
  | S fuel =>
    '(rawLength, repeat_, pd) ← parseLength (-1) pd;
    if rawLength =? 0 then Ret (acc, pd) else
    pd ← parseAlignBits pd;
    chunk ← take_bytes rawLength pd;
    let pd := PerBitData (r_bytes pd) (r_byteOffset pd + rawLength) (r_bitsOffset pd) in
    if repeat_ : bool then parseOpenType_loop fuel (acc ++ chunk) pd
    else pd ← parseAlignBits pd; Ret (acc ++ chunk, pd)
  end.

(** [parseOpenType] with the parser of the contents as an argument. *)
Definition parseOpenType {A} (parseField : perBitData → outcome (A * perBitData)) (pd : perBitData)
  : outcome (A * perBitData) :=
  '(bs, pd) ← parseOpenType_loop (S (length (r_bytes pd))) [] pd;
  '(v, _) ← parseField (PerBitData bs 0 0);
  Ret (v, pd).

(** ** marshal.go *)

Definition appendConstraintValue (valueRange value : Z) (pd : perRawBitData) : outcome perRawBitData :=
  if valueRange <=? 255 then
    if valueRange <? 0 then Fail "Value range is negative"
    else putBitsValue value (least_width 8 1 valueRange) pd
  else if valueRange =? 256 then putBitsValue value 8 (appendAlignBits pd)
  else if valueRange <=? 65536 then putBitsValue value 16 (appendAlignBits pd)
  else Fail "Constraint Value is large than 65536".

Definition appendLength (sizeRange value : Z) (pd : perRawBitData) : outcome perRawBitData :=
  if (sizeRange <=? 65536) && (sizeRange >? 0) then appendConstraintValue sizeRange value pd else
  let pd := appendAlignBits pd in
  if value <=? 127 then putBitsValue value 8 pd
  else if value <=? 16383 then putBitsValue (value ∣∣ 0x8000) 16 pd
  else putBitsValue ((value ≫ 14) ∣∣ 0xc0) 8 pd.

(** [lb], [ub], [sizeRange] and the writer after the extension bit, for a
    string of [len] units; an error of that bit is only logged. *)
Definition string_bounds (len : Z) (extensive : bool) (lowerBoundPtr upperBoundPtr : option Z)
    (over : string) (pd : perRawBitData) : outcome (Z * Z * Z * perRawBitData) :=
  match lowerBoundPtr, upperBoundPtr with
  | Some lb, Some ub =>
    let sizeRange := if len <=? u64 ub then Some (s64 (ub - lb + 1)) else None in
    match sizeRange, extensive with
    | None, false => Fail over
    | None, true =>
      match putBitsValue 1 1 pd with
      | Ret pd => Ret (0, ub, -1, pd) | Fail _ => Ret (0, ub, -1, pd) | Panic => Panic
      end
    | Some r, true =>
      let r' := if ub >? 65535 then -1 else r in
      let lb' := if r =? -1 then 0 else lb in
      match putBitsValue (if r =? -1 then 1 else 0) 1 pd with
      | Ret pd => Ret (lb', ub, r', pd) | Fail _ => Ret (lb', ub, r', pd) | Panic => Panic
      end
    | Some r, false => Ret (lb, ub, if ub >? 65535 then -1 else r, pd)
    end
  | Some lb, None => Ret (lb, -1, -1, pd)
  | None, _ => Ret (0, -1, -1, pd)
  end.

(** The length of the next fragment. *)
Definition part_length (rawLength : Z) : Z :=
  if rawLength >? 65536 then 65536
  else if rawLength >=? 16384 then rawLength & 0xc000
  else rawLength.

(** One turn per fragment; [lb] is added to every fragment. *)
Fixpoint appendBitString_loop (fuel : nat) (lb sizeRange rawLength byteOffset : Z) (bytes : list Z)
    (pd : perRawBitData) : outcome perRawBitData :=
  match fuel with
  | O => Panic
  | S fuel =>
    let part := part_length rawLength in
    pd ← appendLength sizeRange part pd;
    let part' := u64 (part + u64 lb) in
    let sizes := u64 (part' + 7) ≫ 3 in
    if part' =? 0 then Ret pd else
    let pd := appendAlignBits pd in
    chunk ← slice bytes byteOffset (byteOffset + sizes);
    let pd := PerRaw (w_bytes pd ++ chunk) (w_bitsOffset pd) in
    let rawLength := u64 (rawLength - u64 (part' - u64 lb)) in
    if rawLength >? 0 then appendBitString_loop fuel lb sizeRange rawLength (byteOffset + sizes) bytes pd
    else Ret (PerRaw (w_bytes pd) (w_bitsOffset pd + (part' & 0x7)))
  end.

(** [bytes[sizes-1] &= (0xff << shift)] on the caller's slice, when the last
    byte is not full. *)
Definition mask_last (bytes : list Z) (bitsLength : Z) : outcome (list Z) :=
  let sizes := u64 (bitsLength + 7) ≫ 3 in
  let shift := 8 - (bitsLength & 0x7) in
  if negb (shift =? 8) then b ← rd bytes (sizes - 1); wr bytes (sizes - 1) (b & shl 8 0xff shift)
  else Ret bytes.

(** The writer, and the caller's slice after masking. *)
Definition appendBitString (bytes : list Z) (bitsLength : Z) (extensive : bool)
    (lowerBoundPtr upperBoundPtr : option Z) (pd : perRawBitData) : outcome (perRawBitData * list Z) :=
  '(lb, ub, sizeRange, pd) ← string_bounds bitsLength extensive lowerBoundPtr upperBoundPtr
    "bitString Length is over upperbound" pd;
  let sizes := u64 (bitsLength + 7) ≫ 3 in
  bytes ← mask_last bytes bitsLength;
  if sizeRange =? 1 then
    if sizes >? 2 then
      if negb (bitsLength =? u64 ub) then Fail "bitString Length is not match fix-sized"
      else Ret (PerRaw (w_bytes (appendAlignBits pd) ++ bytes) (ub & 0x7), bytes)
    else pd ← putBitString bytes bitsLength pd; Ret (pd, bytes)
  else
    pd ← appendBitString_loop (S (length bytes)) lb sizeRange (u64 (bitsLength - u64 lb)) 0 bytes pd;
    Ret (pd, bytes).

Fixpoint appendOctetString_loop (fuel : nat) (lb sizeRange rawLength byteOffset : Z) (bytes : list Z)
    (pd : perRawBitData) : outcome perRawBitData :=
  match fuel with
  | O => Panic
  | S fuel =>
    let part := part_length rawLength in
    pd ← appendLength sizeRange part pd;
    let part' := u64 (part + u64 lb) in
    if part' =? 0 then Ret pd else
    let pd := appendAlignBits pd in
    chunk ← slice bytes byteOffset (byteOffset + part');
    let pd := PerRaw (w_bytes pd ++ chunk) (w_bitsOffset pd) in
    let rawLength := u64 (rawLength - u64 (part' - u64 lb)) in
    if rawLength >? 0 then appendOctetString_loop fuel lb sizeRange rawLength (byteOffset + part') bytes pd
    else Ret pd
  end.

Definition appendOctetString (bytes : list Z) (extensive : bool)
    (lowerBoundPtr upperBoundPtr : option Z) (pd : perRawBitData) : outcome perRawBitData :=
  let byteLen := blen bytes in
  '(lb, ub, sizeRange, pd) ← string_bounds byteLen extensive lowerBoundPtr upperBoundPtr
    "OctetString Length is over upperbound" pd;
  if sizeRange =? 1 then
    if byteLen >? 2 then
      if negb (byteLen =? u64 ub) then Fail "OctetString Length is not match fix-sized"
      else Ret (PerRaw (w_bytes (appendAlignBits pd) ++ bytes) (w_bitsOffset (appendAlignBits pd)))
    else putBitString bytes (byteLen * 8) pd
  else appendOctetString_loop (S (length bytes)) lb sizeRange (u64 (byteLen - u64 lb)) 0 bytes pd.

Definition appendBool (value : bool) (pd : perRawBitData) : outcome perRawBitData :=
  if value then putBitsValue 1 1 pd else putBitsValue 0 1 pd.

(** [for rawLength = 1; rawLength <= 127; rawLength++ { if v == 0 { break }; v >>= 8 }] *)
Fixpoint octet_count (fuel : nat) (n v : Z) : Z :=
  match fuel with
  | O => n
  | S fuel => if v =? 0 then n else octet_count fuel (n + 1) (v ≫ 8)
  end.

(** The octets of an INTEGER on [rawLength] bytes. *)
Definition appendInteger_octets (valueRange lb value rawLength : Z) (pd : perRawBitData)
  : outcome perRawBitData :=
  let n := rawLength * 8 in
  let pd := appendAlignBits pd in
  if valueRange <? 0 then
    let mask := s64 (shl 64 1 n - 1) in
    putBitsValue (u64 value & u64 mask) n pd
  else putBitsValue (u64 (value - lb)) n pd.

(** [value] is an int64; an error of the extension bit is only printed. *)
Definition appendInteger (value : Z) (extensive : bool) (lowerBoundPtr upperBoundPtr : option Z)
    (pd : perRawBitData) : outcome perRawBitData :=
  '(lb, valueRange, pd) ← match lowerBoundPtr with
    | None => Ret (0, -1, pd)
    | Some lb =>
      if value <? lb then Fail "INTEGER value is smaller than lowerbound" else
      match upperBoundPtr with
      | None => Ret (lb, 0, pd)
      | Some ub =>
        let r := if value <=? ub then s64 (ub - lb + 1) else 0 in
        if negb (value <=? ub) && negb extensive then Fail "INTEGER value is larger than upperbound"
        else if extensive then
          let r' := if r =? 0 then -1 else r in
          match putBitsValue (if r =? 0 then 1 else 0) 1 pd with
          | Ret pd => Ret (lb, r', pd) | Fail _ => Ret (lb, r', pd) | Panic => Panic
          end
        else Ret (lb, r, pd)
      end
    end;
  if valueRange =? 1 then Ret pd else
  let unsignedValue := if value <? 0 then u64 (u64 (- value) - 1) else u64 value in
  if valueRange <=? 0 then
    let rawLength := octet_count 127 1 (unsignedValue ≫ 7) in
    let pd := appendAlignBits pd in
    let pd := PerRaw (w_bytes pd ++ [u8 rawLength]) (w_bitsOffset pd) in
    appendInteger_octets valueRange lb value rawLength pd
  else if valueRange <=? 65536 then appendConstraintValue valueRange (u64 (value - lb)) pd
  else
    let rawLength := octet_count 127 1 (unsignedValue ≫ 8) in
    let byteLen := range_bytes 127 1 1 (valueRange - 1) in
    pd ← putBitsValue (rawLength - 1) (least_width 8 1 byteLen) pd;
    appendInteger_octets valueRange lb value rawLength pd.

Definition appendEnumerated (value : Z) (extensive : bool) (lowerBoundPtr upperBoundPtr : option Z)
    (pd : perRawBitData) : outcome perRawBitData :=
  match lowerBoundPtr, upperBoundPtr with
  | Some lb, Some ub =>
    if s64 value >? ub then
      if extensive then Fail "Unsupport the extensive value of ENUMERATED "
      else Fail "ENUMERATED value is larger than upperbound"
    else if s64 value <? lb then Fail "ENUMERATED value is smaller than lowerbound"
    else
      pd ← (if extensive then putBitsValue 0 1 pd else Ret pd);
      let valueRange := s64 (ub - lb + 1) in
      if valueRange >? 1 then appendConstraintValue valueRange value pd else Ret pd
  | _, _ => Fail "ENUMERATED value constraint is error "
  end.

(** The number of elements in the writer's [parseSequenceOf]. *)
Definition append_count (numElements : Z) (sizeExtensible : bool) (sizeLB sizeUB : option Z)
    (pd : perRawBitData) : outcome perRawBitData :=
  let lb := match sizeLB with Some l => if l <? 65536 then l else 0 | None => 0 end in
  '(ub, sizeRange, pd) ← match sizeUB with
    | Some u =>
      if u <? 65536 then
        if sizeExtensible then
          if numElements >? u then pd ← putBitsValue 1 1 pd; Ret (u, -1, pd)
          else pd ← putBitsValue 0 1 pd; Ret (u, s64 (u - lb + 1), pd)
        else if numElements >? u then Fail "SEQUENCE OF Size is larger than upperbound"
        else Ret (u, s64 (u - lb + 1), pd)
      else Ret (-1, -1, pd)
    | None => Ret (-1, -1, pd)
    end;
  if numElements <? lb then Fail "SEQUENCE OF Size is lower than lowerbound"
  else if sizeRange =? 1 then
    if negb (numElements =? ub) then Fail "Encoding Length != fix-size" else Ret pd
  else if sizeRange >? 0 then appendConstraintValue sizeRange (u64 (numElements - lb)) pd
  else
    let pd := appendAlignBits pd in
    Ret (PerRaw (w_bytes pd ++ [u8 (numElements & 0xff)]) (w_bitsOffset pd)).

Definition appendChoiceIndex (present : Z) (extensive : bool) (upperBoundPtr : option Z)
    (pd : perRawBitData) : outcome perRawBitData :=
  match upperBoundPtr with
  | None => Fail "The upper bound of CHIOCE is missing"
  | Some ub =>
    if ub <? 0 then Fail "The upper bound of CHIOCE is negative"
    else if extensive && (present - 1 >? ub) then Fail "Unsupport value of CHOICE type is in Extensed"
    else appendConstraintValue (s64 (ub + 1)) (u64 (present - 1)) pd
  end.

Fixpoint appendOpenType_loop (fuel : nat) (rawLength byteOffset : Z) (bytes : list Z)
    (pd : perRawBitData) : outcome perRawBitData :=
  match fuel with
  | O => Panic
  | S fuel =>
    let part := part_length rawLength in
    pd ← appendLength (-1) part pd;
    if part =? 0 then Ret pd else
    let pd := appendAlignBits pd in
    chunk ← slice bytes byteOffset (byteOffset + part);
    let pd := PerRaw (w_bytes pd ++ chunk) (w_bitsOffset pd) in
    let rawLength := u64 (rawLength - part) in
    if rawLength >? 0 then appendOpenType_loop fuel rawLength (byteOffset + part) bytes pd
    else Ret (appendAlignBits pd)
  end.

(** [appendOpenType] with the writer of the contents as an argument. *)
Definition appendOpenType (makeField : perRawBitData → outcome perRawBitData) (pd : perRawBitData)
  : outcome perRawBitData :=
  o ← makeField (PerRaw [] 0);
  appendOpenType_loop (S (length (w_bytes o))) (blen (w_bytes o)) 0 (w_bytes o) pd.

(** ** parseField: the extension bit

    Before a string with [sizeExt] (an integer with [valueExt]) is read,
    [parseField] reads its extension bit. *)
Definition with_extension {A} (extensible : bool) (parse : bool → perBitData → outcome (A * perBitData))
    (pd : perBitData) : outcome (A * perBitData) :=
  if extensible then '(b, pd) ← getBitsValue 1 pd; parse (negb (b =? 0)) pd
  else parse false pd.
