(* ===== verification/AperCodec.v ===== *)
(** * lib/aper: round trips of the primitive types

    [roundtrip put get v]: after any bits written before, [put] writes bits
    from which [get], at the same position of any data that continues with
    them, reads [v] and stops right behind.  [Codec] is the interface that
    composite encodings are built on. *)

From S2P Require Import Prelude AperBits AperPrim.

#[local] Open Scope Z_scope.
#[local] Open Scope go_scope.

Definition puts (put : perRawBitData → outcome perRawBitData) (pre e : list bool) : Prop :=
  ∀ w, holds w pre → ∃ w', put w = Ret w' ∧ holds w' (pre ++ e).

Definition decodes {A} (get : perBitData → outcome (A * perBitData)) (pre e : list bool) (v : A) : Prop :=
  ∀ bytes suf, bytes_ok bytes → sized bytes → bits_of bytes = pre ++ e ++ suf →
  get (at_pos bytes (length pre)) = Ret (v, at_pos bytes (length (pre ++ e))).

Definition roundtrip {A} (put : perRawBitData → outcome perRawBitData)
    (get : perBitData → outcome (A * perBitData)) (v : A) : Prop :=
  ∀ pre, ∃ e, puts put pre e ∧ decodes get pre e v.

(** ** Composition *)

Lemma puts_bind p1 p2 pre e1 e2 :
  puts p1 pre e1 → puts p2 (pre ++ e1) e2 → puts (λ w, w ← p1 w; p2 w) pre (e1 ++ e2).
Proof.
  intros H1 H2 w Hw. destruct (H1 w Hw) as (w1&->&Hw1). destruct (H2 w1 Hw1) as (w2&E&Hw2).
  exists w2. split; [exact E|]. by rewrite app_assoc.
Qed.

Lemma decodes_bind {A B} (g1 : perBitData → outcome (A * perBitData))
    (g2 : A → perBitData → outcome (B * perBitData)) pre e1 e2 x y :
  decodes g1 pre e1 x → decodes (g2 x) (pre ++ e1) e2 y →
  decodes (λ r, '(x, r) ← g1 r; g2 x r) pre (e1 ++ e2) y.
Proof.
  intros H1 H2 bytes suf Hb Hs E. rewrite (H1 bytes (e2 ++ suf)) by (done || by rewrite E, <-app_assoc).
  ret_bind. rewrite (H2 bytes suf) by (done || by rewrite E, <-!app_assoc). by rewrite app_assoc.
Qed.

Lemma decodes_ret {A} pre (v : A) : decodes (λ r, Ret (v, r)) pre [] v.
Proof. intros bytes suf _ _ _. by rewrite app_nil_r. Qed.

Lemma puts_ret pre : puts (λ w, Ret w) pre [].
Proof. intros w Hw. exists w. by rewrite app_nil_r. Qed.

Lemma roundtrip_bind {A B} p1 p2 (g1 : perBitData → outcome (A * perBitData))
    (g2 : A → perBitData → outcome (B * perBitData)) x y :
  roundtrip p1 g1 x → roundtrip p2 (g2 x) y →
  roundtrip (λ w, w ← p1 w; p2 w) (λ r, '(x, r) ← g1 r; g2 x r) y.
Proof.
  intros H1 H2 pre. destruct (H1 pre) as (e1&P1&D1), (H2 (pre ++ e1)) as (e2&P2&D2).
  exists (e1 ++ e2). split; [by apply puts_bind|by eapply decodes_bind].
Qed.

Lemma decodes_map {A B} (f : A → B) (g : perBitData → outcome (A * perBitData)) pre e x y :
  decodes g pre e x → y = f x → decodes (λ r, '(x, r) ← g r; Ret (f x, r)) pre e y.
Proof. intros H -> bytes suf Hb Hs E. by rewrite (H bytes suf Hb Hs E). Qed.

Lemma roundtrip_ext {A} p p' (g g' : perBitData → outcome (A * perBitData)) x :
  (∀ w, p w = p' w) → (∀ r, g r = g' r) → roundtrip p' g' x → roundtrip p g x.
Proof.
  intros Hp Hg H pre. destruct (H pre) as (e&P&D). exists e. split.
  - intros w Hw. rewrite Hp. by apply P.
  - intros bytes suf Hb Hs E. rewrite Hg. by eapply D.
Qed.

(** The interface of an encoding. *)
Class Codec (A : Type) := {
  put : A → perRawBitData → outcome perRawBitData;
  get : perBitData → outcome (A * perBitData);
  valid : A → Prop;
  codec_roundtrip v : valid v → roundtrip (put v) get v;
}.

(** Two encodings one after the other, as in a SEQUENCE. *)
#[export, refine] Instance pair_codec {A B} (CA : Codec A) (CB : Codec B) : Codec (A * B) :=
  {| put v w := w ← put (fst v) w; put (snd v) w;
     get r := '(a, r) ← get r; '(b, r) ← get r; Ret ((a, b), r);
     valid v := valid (fst v) ∧ valid (snd v) |}.
Proof.
  intros [a b] [Ha Hb]. eapply roundtrip_bind; [by apply codec_roundtrip|].
  intros pre. destruct (codec_roundtrip b Hb pre) as (e&P&D). exists e. split; [exact P|].
  by eapply (decodes_map (λ b, (a, b))).
Defined.

(** ** Bits, alignment and bytes *)

Lemma bits_roundtrip v n : (0 < n ≤ 64)%nat → in_width (Z.of_nat n) v →
  roundtrip (putBitsValue v (Z.of_nat n)) (getBitsValue (Z.of_nat n)) v.
Proof.
  intros Hn Hv pre. exists (num_bits n v). split.
  - intros w Hw. by apply putBitsValue_spec.
  - intros bytes suf Hb Hs E.
    assert (8 * length bytes = length pre + (n + length suf))%nat as Hl
      by (rewrite <-bits_of_length, E, !length_app, num_bits_length; done).
    rewrite getBitsValue_at by (done || lia). rewrite length_app, num_bits_length. do 2 f_equal.
    rewrite E, drop_app_length, take_app_length' by (by rewrite num_bits_length).
    rewrite bits_val_num by done. apply wrap_small. by apply (in_width_mono (Z.of_nat n)); [lia|].
Qed.

Lemma align_puts pre : puts (λ w, Ret (appendAlignBits w)) pre (replicate (pad (length pre)) false).
Proof. intros w Hw. eexists. split; [reflexivity|]. by apply appendAlignBits_spec. Qed.

Lemma align_decodes pre :
  decodes (λ r, r ← parseAlignBits r; Ret (tt, r)) pre (replicate (pad (length pre)) false) tt.
Proof.
  intros bytes suf Hb Hs E.
  assert (length pre ≤ 8 * length bytes)%nat as Hl by (rewrite <-bits_of_length, E, length_app; lia).
  rewrite parseAlignBits_at; [by rewrite length_app, length_replicate|done..|].
  by rewrite E, drop_app_length, take_app_length' by (by rewrite length_replicate).
Qed.

Lemma align_roundtrip : roundtrip (λ w, Ret (appendAlignBits w)) (λ r, r ← parseAlignBits r; Ret (tt, r)) tt.
Proof. intros pre. eexists. split; [apply align_puts|apply align_decodes]. Qed.

(** A writer or reader that aligns first. *)
Lemma aligned {A} p (g : perBitData → outcome (A * perBitData)) x :
  (∀ pre, (length pre mod 8 = 0)%nat → ∃ e, puts p pre e ∧ decodes g pre e x) →
  roundtrip (λ w, p (appendAlignBits w)) (λ r, r ← parseAlignBits r; g r) x.
Proof.
  intros H pre. set (z := replicate (pad (length pre)) false).
  destruct (H (pre ++ z)) as (e&P&D).
  { unfold z. rewrite length_app, length_replicate. apply pad_spec. }
  exists (z ++ e). split.
  - intros w Hw. destruct (P (appendAlignBits w)) as (w'&Ew&Hw'); [by apply appendAlignBits_spec|].
    exists w'. split; [exact Ew|]. by rewrite app_assoc.
  - intros bytes suf Hb Hs E. pose proof (align_decodes pre bytes (e ++ suf) Hb Hs) as Ha.
    fold z in Ha. rewrite E, <-app_assoc in Ha. specialize (Ha eq_refl).
    destruct (parseAlignBits (at_pos bytes (length pre))) as [r|er|]; [|discriminate Ha..].
    injection Ha as ->. ret_bind. rewrite (D bytes suf Hb Hs) by (by rewrite E, <-!app_assoc).
    by rewrite app_assoc.
Qed.

Lemma roundtrip_at {A} p (g : perBitData → outcome (A * perBitData)) x : roundtrip p g x →
  ∀ pre, (length pre mod 8 = 0)%nat → ∃ e, puts p pre e ∧ decodes g pre e x.
Proof. intros H pre _. apply H. Qed.

Lemma byte_bits_length b : length (byte_bits b) = 8%nat.
Proof. done. Qed.

Lemma bits_of_inj l l' : bytes_ok l → bytes_ok l' → bits_of l = bits_of l' → l = l'.
Proof.
  intros Hl. revert l'. induction Hl as [|a l Ha _ IH]; intros [|b l'] Hl' E; try done.
  apply Forall_cons in Hl' as [Hb Hl']. rewrite !bits_of_cons in E.
  apply app_inj_1 in E as [E1 E2]; [|done]. f_equal; [by apply byte_bits_inj|by apply IH].
Qed.

Lemma put_bytes_puts bs pre : bytes_ok bs → (length pre mod 8 = 0)%nat →
  puts (λ w, Ret (PerRaw (w_bytes w ++ bs) (w_bitsOffset w))) pre (bits_of bs).
Proof.
  intros Hbs Hp w (Hb&Hw&Ho). eexists. split; [reflexivity|]. unfold holds. cbn [w_bytes w_bitsOffset].
  rewrite pad_0, app_nil_r in Hw by done. split; [by apply Forall_app|].
  assert (length (pre ++ bits_of bs) mod 8 = 0)%nat as Hm.
  { rewrite length_app, bits_of_length, Nat.Div0.add_mod, Hp, (Nat.mul_comm 8), Nat.Div0.mod_mul. done. }
  rewrite pad_0, app_nil_r, bits_of_app, Hw by done. by rewrite Ho, Hp, Hm.
Qed.

(** Reading whole bytes at an aligned position. *)
Lemma take_bytes_at bytes bs pre suf :
  bytes_ok bytes → sized bytes → bytes_ok bs → (length pre mod 8 = 0)%nat →
  bits_of bytes = pre ++ bits_of bs ++ suf →
  take_bytes (blen bs) (at_pos bytes (length pre)) = Ret bs ∧
  (length pre + 8 * length bs ≤ 8 * length bytes)%nat.
Proof.
  intros Hb Hs Hbs Hp E.
  assert (8 * length bytes = length pre + (8 * length bs + length suf))%nat as Hl
    by (rewrite <-bits_of_length, E, !length_app, bits_of_length; done).
  destruct (pos_split (length pre)) as [Hd _]. rewrite Hp, Nat.add_0_r in Hd.
  set (q := (length pre / 8)%nat) in *. split; [|lia].
  unfold take_bytes. cbn [at_pos r_bytes r_byteOffset]. fold q. unfold sized, blen in *.
  rewrite (wrap_small 64) by (unfold in_width; lia).
  rewrite Z.gtb_ltb, (proj2 (Z.ltb_ge _ _)) by lia. unfold slice, blen.
  rewrite (proj2 (Z.ltb_ge (Z.of_nat q) 0)), (proj2 (Z.ltb_ge (_ + _) _)), (proj2 (Z.ltb_ge _ (_ + _))) by lia.
  cbn [orb]. f_equal. replace (Z.to_nat (Z.of_nat q + Z.of_nat (length bs) - Z.of_nat q)) with (length bs) by lia.
  rewrite Nat2Z.id. apply bits_of_inj; [by apply Forall_take, Forall_drop|done|].
  pose proof (f_equal (drop (8 * q)) E) as E'. rewrite <-bits_of_drop in E'.
  rewrite drop_app_length' in E' by lia.
  rewrite <-(take_drop (length bs) (drop q bytes)) in E'. rewrite bits_of_app in E'.
  apply app_inj_1 in E' as [E' _]; [done|].
  rewrite !bits_of_length, length_take, length_drop. lia.
Qed.

Lemma at_pos_bytes bytes pos k : (pos mod 8 = 0)%nat →
  PerBitData bytes (Z.of_nat (pos / 8) + Z.of_nat k) (Z.of_nat (pos mod 8)) = at_pos bytes (pos + 8 * k).
Proof.
  intros Hp. unfold at_pos. rewrite (Nat.mul_comm 8), Nat.div_add, Nat.Div0.mod_add by lia.
  by rewrite Nat2Z.inj_add.
Qed.

(** ** Constrained whole numbers *)

Lemma least_width_spec r : r ≤ 256 → ∃ k, least_width 8 1 r = Z.of_nat k ∧ (1 ≤ k ≤ 8)%nat ∧ r ≤ 2 ^ Z.of_nat k.
Proof.
  intros Hr. cbn [least_width].
  repeat match goal with |- context [Z.shiftl 1 ?i >=? r] =>
    let v := eval vm_compute in (Z.shiftl 1 i) in change (Z.shiftl 1 i) with v;
    rewrite (Z.geb_leb v r); destruct (Z.leb_spec r v) end;
  [exists 1%nat|exists 2%nat|exists 3%nat|exists 4%nat|exists 5%nat|exists 6%nat|exists 7%nat|exists 8%nat|lia];
  (split; [reflexivity|split; [lia|simpl; lia]]).
Qed.

(** Values the encoding of a range has room for: those of the range and, in
    the bits of the last power of two, some above it. *)
Definition capacity (r : Z) : Z :=
  if r <=? 255 then 2 ^ least_width 8 1 r else if r =? 256 then 256 else 65536.

Lemma range_capacity r : 1 ≤ r ≤ 65536 → r ≤ capacity r.
Proof.
  intros Hr. unfold capacity. destruct (Z.leb_spec r 255).
  - destruct (least_width_spec r) as (k&->&_&?); [lia|done].
  - destruct (Z.eqb_spec r 256); lia.
Qed.

Lemma constraint_roundtrip r v : 0 ≤ r ≤ 65536 → 0 ≤ v < capacity r →
  roundtrip (appendConstraintValue r v) (parseConstraintValue r) v.
Proof.
  intros Hr Hv. unfold appendConstraintValue, parseConstraintValue, capacity in *.
  destruct (Z.leb_spec r 255).
  - rewrite (proj2 (Z.ltb_ge r 0)) by lia. destruct (least_width_spec r) as (k&Ek&Hk&_); [lia|].
    rewrite Ek in *. apply bits_roundtrip; [lia|done].
  - destruct (Z.eqb_spec r 256).
    + apply aligned. intros pre _. apply (bits_roundtrip v 8); [lia|done].
    + rewrite (proj2 (Z.leb_le r 65536)) by lia.
      apply aligned. intros pre _. apply (bits_roundtrip v 16); [lia|done].
Qed.

Lemma constraint_out_of_range r v w : r < 0 ∨ 65536 < r →
  ∃ e, appendConstraintValue r v w = Fail e.
Proof.
  intros Hr. unfold appendConstraintValue. destruct (Z.leb_spec r 255).
  - rewrite (proj2 (Z.ltb_lt r 0)) by lia. by eexists.
  - rewrite (proj2 (Z.eqb_neq r 256)), (proj2 (Z.leb_gt r 65536)) by lia. by eexists.
Qed.

(** The codec of a range [0 .. r-1]. *)
#[refine] Definition range_codec (r : Z) (Hr : 1 ≤ r ≤ 65536) : Codec Z :=
  {| put := appendConstraintValue r; get := parseConstraintValue r; valid v := 0 ≤ v < r |}.
Proof. intros v Hv. apply constraint_roundtrip; [lia|]. pose proof (range_capacity r Hr). lia. Defined.

Lemma bool_roundtrip b : roundtrip (appendBool b) parseBool b.
Proof.
  intros pre. destruct (bits_roundtrip (Z.b2z b) 1 ltac:(lia)) with (pre := pre) as (e&P&D).
  { destruct b; split; done. }
  exists e. split; [by destruct b|].
  apply (decodes_map (λ bit, bit =? 1) _ _ _ (Z.b2z b)); [exact D|by destruct b].
Qed.

#[export, refine] Instance bool_codec : Codec bool :=
  {| put := appendBool; get := parseBool; valid _ := True |}.
Proof. intros v _. apply bool_roundtrip. Defined.

Lemma enumerated_roundtrip v ub : 0 ≤ v ≤ ub → ub < 65536 →
  roundtrip (appendEnumerated v false (Some 0) (Some ub)) (parseEnumerated false (Some 0) (Some ub)) v.
Proof.
  intros Hv Hub. unfold appendEnumerated, parseEnumerated, s64.
  rewrite !Z.sub_0_r, !(Z.mod_small (_ + 2 ^ 63)), !Z.add_simpl_r by lia.
  rewrite !Z.gtb_ltb, (proj2 (Z.ltb_ge ub v)), (proj2 (Z.ltb_ge v 0)) by lia.
  destruct (Z.ltb_spec 1 (ub + 1)).
  - apply constraint_roundtrip; [lia|]. pose proof (range_capacity (ub + 1)). lia.
  - assert (v = 0) as -> by lia. intros pre. exists []. split; [apply puts_ret|apply decodes_ret].
Qed.

Lemma choice_roundtrip present ub : 1 ≤ present ≤ ub + 1 → ub < 65536 →
  roundtrip (appendChoiceIndex present false (Some ub)) (getChoiceIndex false (Some ub)) present.
Proof.
  intros Hp Hub. unfold appendChoiceIndex, getChoiceIndex. rewrite (proj2 (Z.ltb_ge ub 0)) by lia.
  cbn [andb]. assert (s64 (ub + 1) = ub + 1) as -> by (unfold s64; rewrite Z.mod_small; lia).
  rewrite (wrap_small 64 (present - 1)) by (unfold in_width; lia).
  intros pre. destruct (constraint_roundtrip (ub + 1) (present - 1)) with (pre := pre) as (e&P&D).
  { lia. } { pose proof (range_capacity (ub + 1)). lia. }
  exists e. split; [exact P|].
  apply (decodes_map (λ c, s64 (c + 1)) _ _ _ (present - 1)); [exact D|].
  unfold s64. rewrite Z.mod_small; lia.
Qed.

(** ** Length determinants *)

Definition length_ok (sizeRange value : Z) (repeat_ : bool) : Prop :=
  if (sizeRange <=? 65536) && (sizeRange >? 0) then 0 ≤ value < capacity sizeRange ∧ repeat_ = false
  else (0 ≤ value ≤ 16383 ∧ repeat_ = false) ∨
       (∃ k, 1 ≤ k ≤ 4 ∧ value = 16384 * k ∧ repeat_ = true).

Lemma bits_decodes z n pre : (0 < n ≤ 64)%nat → in_width (Z.of_nat n) z →
  decodes (getBitsValue (Z.of_nat n)) pre (num_bits n z) z.
Proof.
  intros Hn Hz bytes suf Hb Hs E.
  assert (8 * length bytes = length pre + (n + length suf))%nat as Hl
    by (rewrite <-bits_of_length, E, !length_app, num_bits_length; done).
  rewrite getBitsValue_at by (done || lia). rewrite length_app, num_bits_length. do 2 f_equal.
  rewrite E, drop_app_length, take_app_length' by (by rewrite num_bits_length).
  rewrite bits_val_num by done. apply wrap_small. by apply (in_width_mono (Z.of_nat n)); [lia|].
Qed.

Lemma num_bits_mod n z : num_bits n (z mod 2 ^ Z.of_nat n) = num_bits n z.
Proof.
  unfold num_bits. apply fmap_seq_eq. intros k Hk. by rewrite Z.mod_pow2_bits_low by lia.
Qed.

(** First bytes of the two-byte length form. *)
Lemma first_byte b : 128 ≤ b < 192 → (b & 128 =? 0) = false ∧ (b & 64 =? 0) = true ∧ b & 63 = b - 128.
Proof.
  intros Hb.
  assert (((b <? 128) || (192 <=? b) || (negb (b & 128 =? 0) && (b & 64 =? 0) && (b & 63 =? b - 128)))%bool = true) as H.
  { apply (forallb_byte (λ b, ((b <? 128) || (192 <=? b) || (negb (b & 128 =? 0) && (b & 64 =? 0) && (b & 63 =? b - 128)))%bool)).
    - vm_compute. reflexivity.
    - split; [lia|]. change (2 ^ 8) with 256. lia. }
  rewrite (proj2 (Z.ltb_ge b 128)), (proj2 (Z.leb_gt 192 b)) in H by lia. cbn [orb] in H.
  apply andb_true_iff in H as [[H1 H2]%andb_true_iff H3%Z.eqb_eq].
  apply negb_true_iff in H1. done.
Qed.

Lemma low_byte b : 0 ≤ b < 128 → (b & 128 =? 0) = true ∧ b & 0x7F = b.
Proof.
  intros Hb. split; [|change 127 with (Z.ones 7); by apply land_ones_id].
  apply Z.eqb_eq. pose proof (land_shiftl_low 7 1 b ltac:(lia) Hb) as H.
  by rewrite Z.land_comm.
Qed.

Lemma two_byte_length v pre : 0 ≤ v ≤ 16383 →
  decodes (λ pd, '(firstByte, pd) ← getBitsValue 8 pd;
    if firstByte & 128 =? 0 then Ret ((firstByte & 0x7F, false), pd)
    else if firstByte & 64 =? 0 then
      '(secondByte, pd) ← getBitsValue 8 pd;
      Ret ((shl 64 (firstByte & 63) 8 ∣∣ secondByte, false), pd)
    else let firstByte := firstByte & 63 in
      if (firstByte <? 1) || (firstByte >? 4) then Fail "Parse Length Out of Constraint"
      else Ret ((u64 (16384 * firstByte), true), pd)) pre (num_bits 16 (v + 0x8000)) (v, false).
Proof.
  intros Hv. change 16%nat with (8 + 8)%nat. rewrite num_bits_app. change (Z.of_nat 8) with 8.
  rewrite <-(num_bits_mod 8 (v + 32768)). rewrite Z.shiftr_div_pow2 by lia.
  change (2 ^ Z.of_nat 8) with 256. change (2 ^ 8) with 256.
  set (f := (v + 32768) / 256). set (s := (v + 32768) mod 256).
  assert (f * 256 + s = v + 32768 ∧ 0 ≤ s < 256 ∧ 128 ≤ f < 192) as (E&Hs&Hf).
  { unfold f, s. pose proof (Z.div_mod (v + 32768) 256). pose proof (Z.mod_pos_bound (v + 32768) 256).
    split; [lia|]. split; [lia|]. split; [apply Z.div_le_lower_bound; lia|apply Z.div_lt_upper_bound; lia]. }
  clearbody f s. destruct (first_byte f Hf) as (E1&E2&E3).
  apply (decodes_bind (getBitsValue 8)) with (x := f); [apply (bits_decodes f 8); [lia|split; simpl; lia]|].
  rewrite E1, E2, E3. cbn iota.
  apply (decodes_map (λ sb, (shl 64 (f - 128) 8 ∣∣ sb, false)) _ _ _ s);
    [apply (bits_decodes s 8); [lia|done]|].
  rewrite shl64_lor_low by (done || lia). f_equal. rewrite wrap_small; [lia|]. unfold in_width. lia.
Qed.

Lemma length_roundtrip r v rep : length_ok r v rep →
  roundtrip (appendLength r v) (λ pd, '(v, rp, pd) ← parseLength r pd; Ret ((v, rp), pd)) (v, rep).
Proof.
  unfold length_ok, appendLength, parseLength. destruct ((r <=? 65536) && (r >? 0)) eqn:Er.
  - intros [Hv ->]. apply andb_true_iff in Er as [H1%Z.leb_le H2%Z.gtb_lt].
    intros pre. destruct (constraint_roundtrip r v) with (pre := pre) as (e&P&D); [lia|done|].
    exists e. split; [exact P|]. intros bytes suf Hb Hs E. by rewrite (D bytes suf Hb Hs E).
  - intros Hor. clear Er.
    set (g := λ pd, '(firstByte, pd) ← getBitsValue 8 pd;
      if firstByte & 128 =? 0 then Ret ((firstByte & 0x7F, false), pd)
      else if firstByte & 64 =? 0 then
        '(secondByte, pd) ← getBitsValue 8 pd;
        Ret ((shl 64 (firstByte & 63) 8 ∣∣ secondByte, false), pd)
      else let firstByte := firstByte & 63 in
        if (firstByte <? 1) || (firstByte >? 4) then Fail "Parse Length Out of Constraint"
        else Ret ((u64 (16384 * firstByte), true), pd) : outcome (Z * bool * perBitData)).
    set (p := λ w, if v <=? 127 then putBitsValue v 8 w
      else if v <=? 16383 then putBitsValue (v ∣∣ 0x8000) 16 w else putBitsValue ((v ≫ 14) ∣∣ 0xc0) 8 w).
    apply (roundtrip_ext _ (λ w, p (appendAlignBits w)) _ (λ r, r ← parseAlignBits r; g r)).
    { done. }
    { intros r'. unfold g. destruct (parseAlignBits r') as [r1|e|]; [|done..]. cbn [mbind outcome_mbind].
      destruct (getBitsValue 8 r1) as [[f r2]|e|]; [|done..]. cbn [mbind outcome_mbind].
      destruct (f & 128 =? 0); [done|]. destruct (f & 64 =? 0); [|by destruct (_ || _)].
      by destruct (getBitsValue 8 r2) as [[? ?]|?|]. }
    apply aligned. intros pre _. unfold p.
    destruct Hor as [[Hv ->]|(k&Hk&->&->)].
    + destruct (Z.leb_spec v 127).
      * exists (num_bits 8 v). split; [intros w Hw; apply (putBitsValue_spec v 8); [lia|split; simpl; lia|done]|].
        destruct (low_byte v) as [E1 E2]; [lia|].
        rewrite <-(app_nil_r (num_bits 8 v)).
        apply (decodes_bind (getBitsValue 8)) with (x := v); [apply (bits_decodes v 8); [lia|split; simpl; lia]|].
        rewrite E1, E2. apply decodes_ret.
      * rewrite (proj2 (Z.leb_le v 16383)) by lia.
        assert (v ∣∣ 0x8000 = v + 0x8000) as ->.
        { pose proof (pack_lor 15 1 v ltac:(lia)) as E. rewrite Z.lor_comm.
          change (Z.shiftl 1 15) with 0x8000 in E. rewrite <-E; [lia|]. split; [lia|]. change (2 ^ 15) with 32768. lia. }
        exists (num_bits 16 (v + 0x8000)). split; [|apply two_byte_length; lia].
        intros w Hw. apply (putBitsValue_spec _ 16); [lia|split; simpl; lia|done].
    + assert ((16384 * k <=? 127) = false) as -> by (apply Z.leb_gt; lia).
      assert ((16384 * k <=? 16383) = false) as -> by (apply Z.leb_gt; lia).
      assert (k = 1 ∨ k = 2 ∨ k = 3 ∨ k = 4) as Hk4 by lia.
      assert (((16384 * k) ≫ 14) ∣∣ 0xc0 = 192 + k) as -> by (by destruct Hk4 as [-> | [-> | [-> | ->]]]).
      exists (num_bits 8 (192 + k)). split.
      { intros w Hw. apply (putBitsValue_spec _ 8); [lia|split; simpl; lia|done]. }
      rewrite <-(app_nil_r (num_bits 8 _)).
      apply (decodes_bind (getBitsValue 8)) with (x := 192 + k); [apply (bits_decodes _ 8); [lia|split; simpl; lia]|].
      destruct Hk4 as [-> | [-> | [-> | ->]]]; apply decodes_ret.
Qed.

(** The same as an equation on the reader. *)
Lemma length_plan r v rep pre : length_ok r v rep → ∃ e, puts (appendLength r v) pre e ∧
  ∀ bytes suf, bytes_ok bytes → sized bytes → bits_of bytes = pre ++ e ++ suf →
  parseLength r (at_pos bytes (length pre)) = Ret (v, rep, at_pos bytes (length (pre ++ e))).
Proof.
  intros H. destruct (length_roundtrip r v rep H pre) as (e&P&D). exists e. split; [exact P|].
  intros bytes suf Hb Hs E. specialize (D bytes suf Hb Hs E). cbv beta in D.
  destruct (parseLength r (at_pos bytes (length pre))) as [[[v' rp] r']|er|]; [|discriminate D..].
  cbn in D. by injection D as -> -> ->.
Qed.

Lemma align_at pre bytes suf : bytes_ok bytes → sized bytes →
  bits_of bytes = pre ++ replicate (pad (length pre)) false ++ suf →
  parseAlignBits (at_pos bytes (length pre)) =
  Ret (at_pos bytes (length (pre ++ replicate (pad (length pre)) false))).
Proof.
  intros Hb Hs E. pose proof (align_decodes pre bytes suf Hb Hs E) as Ha. cbv beta in Ha.
  destruct (parseAlignBits (at_pos bytes (length pre))) as [r|er|]; [|discriminate Ha..].
  cbn in Ha. by injection Ha as ->.
Qed.

(** ** Sizes of strings *)

(** Lengths that are written without fragments, for the constraints the type
    tags use: none, a lower bound, or both bounds, the latter extensible. *)
Definition size_ok (len : Z) (ext : bool) (lo hi : option Z) : Prop :=
  match lo, hi with
  | None, None => ext = false ∧ 0 ≤ len < 16384
  | Some lb, None => ext = false ∧ 0 ≤ lb ≤ len ∧ len - lb < 16384 ∧ len < 2 ^ 60
  | Some lb, Some ub => 0 ≤ lb ≤ ub ∧ ub < 2 ^ 60 ∧
      ((lb ≤ len ≤ ub ∧ len - lb < 16384 ∧ (lb = ub → 1 ≤ lb)) ∨ (ext = true ∧ ub < len < 16384))
  | None, Some _ => False
  end.

(** What both sides agree on after the extension bit [e]. *)
Record size_plan (len lb sr : Z) : Prop := {
  sp_lb : 0 ≤ lb ≤ len; sp_len : len < 2 ^ 60; sp_small : len - lb < 16384;
  sp_length : sr ≠ 1 → length_ok sr (len - lb) false;
  sp_fixed : sr = 1 → 1 ≤ len ≤ 65535;
}.

Lemma s64_small z : - 2 ^ 63 ≤ z < 2 ^ 63 → s64 z = z.
Proof. intros Hz. unfold s64. rewrite Z.mod_small; lia. Qed.

Lemma extension_at {A} (ext x : bool) (g : bool → perBitData → outcome (A * perBitData)) pre bytes suf :
  (ext = false → x = false) → bytes_ok bytes → sized bytes →
  let e := if ext then num_bits 1 (Z.b2z x) else [] in
  bits_of bytes = pre ++ e ++ suf →
  with_extension ext g (at_pos bytes (length pre)) = g x (at_pos bytes (length (pre ++ e))).
Proof.
  intros Hx Hb Hs e E. unfold with_extension, e in *. destruct ext.
  - pose proof (bits_decodes (Z.b2z x) 1 pre ltac:(lia) ltac:(destruct x; split; done) bytes suf Hb Hs E) as D.
    change (Z.of_nat 1) with 1 in D. rewrite D. ret_bind. by destruct x.
  - by rewrite Hx, app_nil_r.
Qed.

Lemma extension_decodes {A} (ext x : bool) (g : bool → perBitData → outcome (A * perBitData)) pre e' v :
  (ext = false → x = false) →
  let e := if ext then num_bits 1 (Z.b2z x) else [] in
  decodes (g x) (pre ++ e) e' v → decodes (with_extension ext g) pre (e ++ e') v.
Proof.
  intros Hx e D bytes suf Hb Hs E. rewrite <-app_assoc in E.
  rewrite (extension_at ext x g pre bytes (e' ++ suf)) by done. fold e.
  rewrite (D bytes suf Hb Hs) by (by rewrite <-app_assoc). by rewrite app_assoc.
Qed.

Lemma bit_puts (x : bool) w pre : holds w pre →
  ∃ w', putBitsValue (Z.b2z x) 1 w = Ret w' ∧ holds w' (pre ++ num_bits 1 (Z.b2z x)).
Proof. intros Hw. apply (putBitsValue_spec _ 1); [lia|destruct x; split; done|done]. Qed.

Lemma length_ok_range r v : 2 ≤ r ≤ 65536 → 0 ≤ v < r → length_ok r v false.
Proof.
  intros Hr Hv. unfold length_ok.
  rewrite (proj2 (Z.leb_le r 65536)), Z.gtb_ltb, (proj2 (Z.ltb_lt 0 r)) by lia. cbn [andb].
  pose proof (range_capacity r). split; [lia|done].
Qed.

Lemma length_ok_unbounded v : 0 ≤ v < 16384 → length_ok (-1) v false.
Proof. intros Hv. left. split; [lia|done]. Qed.

Lemma bounds_plan len ext lo hi msg : 0 ≤ len → size_ok len ext lo hi →
  ∃ x lb ub ub' sr, (ext = false → x = false) ∧ size_plan len lb sr ∧
    (∀ w pre, holds w pre → ∃ w',
      string_bounds len ext lo hi msg w = Ret (lb, ub, sr, w') ∧
      holds w' (pre ++ if ext then num_bits 1 (Z.b2z x) else [])) ∧
    size_bounds x lo hi = (lb, ub', sr) ∧ (sr = 1 → ub = len ∧ ub' = len).
Proof.
  intros Hlen H. unfold size_ok in H.
  destruct lo as [lb|], hi as [ub|]; try done.
  - destruct H as (Hlb&Hub&[(Hl&Hd&Hf)|(->&Hl)]).
    + (* within the bounds *)
      set (r := ub - lb + 1). set (sr := if ub >? 65535 then -1 else r).
      exists false, lb, ub, ub, sr.
      assert (u64 ub = ub) as Eu by (apply wrap_small; unfold in_width; lia).
      assert (s64 (ub - lb + 1) = r) as Es by (apply s64_small; lia).
      split; [done|]. split; [|split; [|split]].
      * constructor; [lia|lia|lia| |]; unfold sr; rewrite Z.gtb_ltb; destruct (Z.ltb_spec 65535 ub).
        -- intros _. apply length_ok_unbounded. lia.
        -- intros Hne. apply length_ok_range; unfold r in *; lia.
        -- lia.
        -- unfold r. lia.
      * intros w pre Hw. unfold string_bounds. rewrite Eu, (proj2 (Z.leb_le len ub)), Es by lia.
        assert ((r =? -1) = false) as -> by (apply Z.eqb_neq; unfold r; lia).
        destruct ext.
        -- destruct (bit_puts false w pre Hw) as (w'&E&Hw'). change (Z.b2z false) with 0 in E.
           rewrite E. by exists w'.
        -- exists w. by rewrite app_nil_r.
      * unfold size_bounds, from_option, id. cbv zeta iota. by rewrite Es.
      * unfold sr. destruct (ub >? 65535); [lia|]. unfold r. lia.
    + (* beyond the upper bound, with the extension bit *)
      exists true, 0, ub, (-1), (-1). split; [done|]. split; [|split; [|split; [done|lia]]].
      * constructor; [lia|lia|lia| |lia]. intros _. rewrite Z.sub_0_r. apply length_ok_unbounded. lia.
      * intros w pre Hw. unfold string_bounds.
        rewrite (wrap_small 64 ub) by (unfold in_width; lia). rewrite (proj2 (Z.leb_gt len ub)) by lia.
        destruct (bit_puts true w pre Hw) as (w'&E&Hw'). change (Z.b2z true) with 1 in E.
        rewrite E. by exists w'.
  - destruct H as (->&Hlb&Hd&Hl). exists false, lb, (-1), (-1), (-1).
    split; [done|]. split; [|split; [|split; [done|lia]]].
    + constructor; [lia|lia|lia| |lia]. intros _. apply length_ok_unbounded. lia.
    + intros w pre Hw. exists w. by rewrite app_nil_r.
  - destruct H as (->&Hl). exists false, 0, (-1), (-1), (-1).
    split; [done|]. split; [|split; [|split; [done|lia]]].
    + constructor; [lia|lia|lia| |lia]. intros _. rewrite Z.sub_0_r. apply length_ok_unbounded. lia.
    + intros w pre Hw. exists w. by rewrite app_nil_r.
Qed.

(** ** OCTET STRING *)

Lemma mod8_mul k : ((8 * k) mod 8 = 0)%nat.
Proof. rewrite Nat.mul_comm. apply Nat.Div0.mod_mul. Qed.

(** Whole bytes at any position. *)
Lemma unaligned_bytes bs pre : bytes_ok bs → (0 < length bs)%nat → 8 * blen bs + 128 < 2 ^ 63 →
  puts (putBitString bs (8 * blen bs)) pre (bits_of bs) ∧
  decodes (getBitString (8 * blen bs)) pre (bits_of bs) bs.
Proof.
  intros Hb Hl Hsz.
  assert ((8 * length bs + 7) / 8 = length bs)%nat as Hd by (symmetry; apply (Nat.div_unique _ _ _ 7); lia).
  assert (pad (8 * length bs) = 0)%nat as Hp by apply pad_0, mod8_mul.
  replace (8 * blen bs) with (Z.of_nat (8 * length bs)) in * by (unfold blen; lia). split.
  - intros w Hw. apply putBitString_spec; try done.
    + lia.
    + apply bits_of_length.
    + by rewrite Hp, app_nil_r.
  - intros bytes suf Hbb Hs E.
    assert (8 * length bytes = length pre + (8 * length bs + length suf))%nat as Hlen
      by (rewrite <-bits_of_length, E, !length_app, bits_of_length; done).
    destruct (getBitString_at bytes Hbb Hs (length pre) (8 * length bs)) as (dst&Eg&Hdb&Hdl&Hdst); [lia|lia|].
    rewrite Eg, length_app, bits_of_length. do 2 f_equal. apply bits_of_inj; [done|done|].
    rewrite Hdst, Hd, Nat.sub_diag, app_nil_r, E, drop_app_length.
    apply take_app_length'. by rewrite bits_of_length.
Qed.

(** Whole bytes behind an alignment. *)
Lemma aligned_bytes {A} bs pre (f : list Z → A) : bytes_ok bs → (length pre mod 8 = 0)%nat →
  puts (λ w, Ret (PerRaw (w_bytes w ++ bs) (w_bitsOffset w))) pre (bits_of bs) ∧
  decodes (λ r, chunk ← take_bytes (blen bs) r;
    Ret (f chunk, PerBitData (r_bytes r) (r_byteOffset r + blen bs) (r_bitsOffset r))) pre (bits_of bs) (f bs).
Proof.
  intros Hb Hp. split; [by apply put_bytes_puts|]. intros bytes suf Hbb Hs E.
  destruct (take_bytes_at bytes bs pre suf) as [-> _]; [done..|]. ret_bind.
  cbn [r_bytes r_byteOffset r_bitsOffset at_pos]. unfold blen.
  rewrite at_pos_bytes by done. by rewrite length_app, bits_of_length.
Qed.

Definition valid_octets (bs : list Z) (ext : bool) (lo hi : option Z) : Prop :=
  bytes_ok bs ∧ size_ok (blen bs) ext lo hi.

Lemma part_length_small n : n < 16384 → part_length n = n.
Proof.
  intros Hn. unfold part_length. rewrite Z.gtb_ltb, Z.geb_leb.
  by rewrite (proj2 (Z.ltb_ge 65536 n)), (proj2 (Z.leb_gt 16384 n)) by lia.
Qed.

Lemma length_ok_small sr v : length_ok sr v false → 0 ≤ v.
Proof.
  unfold length_ok. destruct ((sr <=? 65536) && (sr >? 0)); [lia|].
  intros [[? _]|(k&?&?&?)]; [lia|done].
Qed.

Lemma slice_all {A} (l : list A) b : b = blen l → slice l 0 (0 + b) = Ret l.
Proof.
  intros ->. rewrite Z.add_0_l. unfold slice. rewrite (proj2 (Z.ltb_ge 0 0)), !(proj2 (Z.ltb_ge _ _)) by (unfold blen; lia).
  cbn [orb]. rewrite Z.sub_0_r. unfold blen. rewrite Nat2Z.id. change (Z.to_nat 0) with 0%nat.
  by rewrite drop_0, take_ge.
Qed.

(** One fragment. *)
Lemma octet_loop_roundtrip bs lb sr fuel pre : bytes_ok bs → size_plan (blen bs) lb sr → sr ≠ 1 →
  ∃ e, puts (appendOctetString_loop (S fuel) lb sr (u64 (blen bs - u64 lb)) 0 bs) pre e ∧
    ∀ fuel', decodes (parseOctetString_loop (S fuel') lb sr []) pre e bs.
Proof.
  intros Hb [Hlb Hlen Hd Hplan _] Hsr. specialize (Hplan Hsr).
  assert (u64 lb = lb) as Eu by (apply wrap_small; unfold in_width; lia).
  assert (u64 (blen bs - lb) = blen bs - lb) as El by (apply wrap_small; unfold in_width; lia).
  destruct (length_plan _ _ _ pre Hplan) as (e1&P1&D1).
  assert (u64 (blen bs - lb + lb) = blen bs) as Es by (rewrite wrap_small; [lia|unfold in_width; lia]).
  set (z := replicate (pad (length (pre ++ e1))) false).
  assert (length (pre ++ e1 ++ z) mod 8 = 0)%nat as Hal.
  { rewrite app_assoc, length_app. unfold z. rewrite length_replicate. apply pad_spec. }
  destruct (aligned_bytes bs (pre ++ e1 ++ z) (λ c, c) Hb Hal) as [P3 D3].
  destruct (Z.eqb_spec (blen bs) 0) as [H0|H0].
  - (* empty *)
    assert (bs = []) as -> by (destruct bs; [done|unfold blen in H0; simpl in H0; lia]).
    exists e1. split.
    + intros w Hw. cbn [appendOctetString_loop]. rewrite Eu, El, part_length_small by lia.
      destruct (P1 w Hw) as (w1&->&Hw1). ret_bind. rewrite Es. exists w1. by split.
    + intros fuel' bytes suf Hbb Hs E. cbn [parseOctetString_loop]. rewrite (D1 bytes suf Hbb Hs E).
      ret_bind. rewrite Eu, Es. reflexivity.
  - exists (e1 ++ z ++ bits_of bs). split.
    + intros w Hw. cbn [appendOctetString_loop]. rewrite Eu, El, part_length_small by lia.
      destruct (P1 w Hw) as (w1&->&Hw1). ret_bind. rewrite Es, (proj2 (Z.eqb_neq _ 0)) by done.
      rewrite slice_all by done. ret_bind.
      assert (u64 (blen bs - lb - u64 (blen bs - lb)) = 0) as -> by (rewrite El, Z.sub_diag; reflexivity).
      change (0 >? 0) with false. cbn iota.
      destruct (P3 (appendAlignBits w1)) as (w3&Ew3&Hw3).
      { rewrite app_assoc. unfold z. by apply appendAlignBits_spec. }
      injection Ew3 as <-. eexists. split; [reflexivity|]. by rewrite <-!app_assoc in *.
    + intros fuel' bytes suf Hbb Hs E. cbn [parseOctetString_loop].
      rewrite <-!app_assoc in E.
      rewrite (D1 bytes (z ++ bits_of bs ++ suf) Hbb Hs E). ret_bind.
      rewrite Eu, Es, (proj2 (Z.eqb_neq _ 0)) by done.
      rewrite (align_at (pre ++ e1) bytes (bits_of bs ++ suf)) by (done || by rewrite <-!app_assoc). ret_bind.
      fold z. specialize (D3 bytes suf Hbb Hs). rewrite <-!app_assoc in D3. specialize (D3 E).
      rewrite <-!app_assoc. cbv beta in D3.
      destruct (take_bytes (blen bs) (at_pos bytes (length (pre ++ e1 ++ z)))) as [c|?|]; try discriminate D3.
      cbn [mbind outcome_mbind] in D3 |- *. cbn [app]. exact D3.
Qed.

Lemma octets_roundtrip bs ext lo hi : valid_octets bs ext lo hi →
  roundtrip (appendOctetString bs ext lo hi) (with_extension ext (λ x, parseOctetString x lo hi)) bs.
Proof.
  intros [Hb Hs] pre.
  destruct (bounds_plan (blen bs) ext lo hi "OctetString Length is over upperbound" ltac:(unfold blen; lia) Hs)
    as (x&lb&ub&ub'&sr&Hx&Hplan&HP&Hsb&Hfix).
  set (e0 := if ext then num_bits 1 (Z.b2z x) else []) in *.
  assert (∃ e, (∀ w, holds w (pre ++ e0) → ∃ w', (if sr =? 1 then
        if blen bs >? 2 then
          if negb (blen bs =? u64 ub) then Fail "OctetString Length is not match fix-sized"
          else Ret (PerRaw (w_bytes (appendAlignBits w) ++ bs) (w_bitsOffset (appendAlignBits w)))
        else putBitString bs (blen bs * 8) w
      else appendOctetString_loop (S (length bs)) lb sr (u64 (blen bs - u64 lb)) 0 bs w) = Ret w'
      ∧ holds w' ((pre ++ e0) ++ e)) ∧
    decodes (parseOctetString x lo hi) (pre ++ e0) e bs) as (e&P&D).
  { unfold parseOctetString. rewrite Hsb. destruct (Z.eqb_spec sr 1) as [H1|H1].
    - destruct (Hfix H1) as [-> ->]. pose proof (sp_fixed _ _ _ Hplan H1) as Hl.
      assert (u64 (blen bs) = blen bs) as Eu by (apply wrap_small; unfold in_width; lia).
      rewrite Eu, Z.eqb_refl. cbn [negb]. rewrite Z.gtb_ltb. destruct (Z.ltb_spec 2 (blen bs)).
      + pose proof (aligned (λ w, Ret (PerRaw (w_bytes w ++ bs) (w_bitsOffset w)))
          (λ r, chunk ← take_bytes (blen bs) r;
            Ret (chunk, PerBitData (r_bytes r) (r_byteOffset r + blen bs) (r_bitsOffset r))) bs) as R.
        specialize (R (λ p Hp, ex_intro _ (bits_of bs) (aligned_bytes bs p (λ c, c) Hb Hp))).
        destruct (R (pre ++ e0)) as (e&P&D). by exists e.
      + exists (bits_of bs).
        destruct (unaligned_bytes bs (pre ++ e0) Hb) as [P D]; [unfold blen in *; lia|lia|].
        rewrite (wrap_small 64 (blen bs * 8)) by (unfold in_width; lia).
        rewrite (Z.mul_comm (blen bs)). by split.
    - destruct (octet_loop_roundtrip bs lb sr (length bs) (pre ++ e0) Hb Hplan H1) as (e&P&D).
      exists e. split; [exact P|]. intros bytes suf. apply D. }
  exists (e0 ++ e). split.
  - intros w Hw. unfold appendOctetString. destruct (HP w pre Hw) as (w1&->&Hw1). ret_bind.
    destruct (P w1 Hw1) as (w2&E2&Hw2). exists w2. rewrite app_assoc. by split.
  - by apply extension_decodes.
Qed.

(** ** BIT STRING *)

Lemma mask_bits b m : (0 < m < 8)%nat →
  byte_bits (b & shl 8 0xff (8 - Z.of_nat m)) = take m (byte_bits b) ++ replicate (8 - m) false.
Proof.
  intros Hm.
  assert (∀ j, 0 ≤ j < 8 → Z.testbit (b & shl 8 0xff (8 - Z.of_nat m)) j =
    Z.testbit b j && (8 - Z.of_nat m <=? j)) as H.
  { intros j Hj. rewrite Z.land_spec, testbit_mask by lia. done. }
  unfold byte_bits. cbn [fmap list_fmap]. rewrite !H by lia. clear H.
  do 8 (destruct m as [|m]; [try lia; cbn; rewrite ?andb_true_r, ?andb_false_r; reflexivity|]). lia.
Qed.

Lemma mask_last_spec bs n : bytes_ok bs → length bs = ((n + 7) / 8)%nat → Z.of_nat n < 2 ^ 62 → ∃ bs',
  mask_last bs (Z.of_nat n) = Ret bs' ∧ bytes_ok bs' ∧ length bs' = length bs ∧
  bits_of bs' = take n (bits_of bs) ++ replicate (pad n) false.
Proof.
  intros Hb Hl Hn. unfold mask_last. rewrite land7 by lia.
  replace (Z.of_nat n mod 8) with (Z.of_nat (n mod 8)) by (by rewrite Nat2Z.inj_mod).
  destruct (pos_split n) as [Hd Hm]. destruct (pad_spec n) as (Hp&_&_). rewrite <-Hl in Hp.
  destruct (Nat.eq_dec (n mod 8) 0) as [Hz|Hz].
  - rewrite Hz. change (negb (8 - Z.of_nat 0 =? 8)) with false. cbn iota. exists bs.
    rewrite (pad_0 n Hz) in *. rewrite app_nil_r, take_ge by (rewrite bits_of_length; lia). done.
  - rewrite (proj2 (Z.eqb_neq _ 8)) by lia. cbn [negb].
    rewrite (wrap_small 64) by (unfold in_width; lia). rewrite shiftr3.
    assert ((Z.of_nat n + 7) / 8 = blen bs) as ->.
    { unfold blen. rewrite Hl, Nat2Z.inj_div. f_equal. lia. }
    assert (pad n = 8 - n mod 8)%nat as Hpad by (unfold pad; rewrite Nat.mod_small; lia).
    destruct bs as [|b p _] using rev_ind; [simpl in Hp; lia|].
    rewrite length_app in Hp. cbn [length] in Hp. apply Forall_app in Hb as [Hbp Hbb].
    assert (blen (p ++ [b]) - 1 = blen p) as -> by (unfold blen; rewrite length_app; simpl; lia).
    rewrite (rd_at p [b] _ 0) by lia. slots. rewrite wr_app by done.
    eexists. split; [reflexivity|]. apply Forall_cons in Hbb as [Hbb _].
    split; [apply Forall_app; split; [done|]; constructor; [|constructor];
      apply in_width_land; [lia|done|apply wrap_in_width; lia]|].
    split; [by rewrite !length_app|].
    rewrite !bits_of_app, !bits_of_single, mask_bits by lia.
    rewrite take_app_ge by (rewrite bits_of_length; lia). rewrite bits_of_length, <-app_assoc.
    do 2 f_equal; [f_equal; lia|]. f_equal. lia.
Qed.

(** The next [n] bits of an aligned reader as bytes; the rest of the last byte
    is what follows in the data. *)
Lemma take_bytes_bits bytes B pre suf n :
  bytes_ok bytes → sized bytes → (length pre mod 8 = 0)%nat → length B = n → (0 < n)%nat →
  bits_of bytes = pre ++ B ++ suf → ∃ c,
  take_bytes (Z.of_nat ((n + 7) / 8)) (at_pos bytes (length pre)) = Ret c ∧
  take n (bits_of c) = B ∧ length c = ((n + 7) / 8)%nat ∧ bytes_ok c ∧
  skip_bits (Z.of_nat ((n + 7) / 8)) (Z.of_nat n) (at_pos bytes (length pre)) = at_pos bytes (length (pre ++ B)).
Proof.
  intros Hb Hs Hp HB Hn E. destruct (pad_spec n) as (Hpn&Hpl&_).
  assert (8 * length bytes = length pre + (n + length suf))%nat as Hl
    by (rewrite <-bits_of_length, E, !length_app, HB; done).
  destruct (pos_split (length pre)) as [Hd _]. rewrite Hp, Nat.add_0_r in Hd.
  set (q := (length pre / 8)%nat) in *. set (k := ((n + 7) / 8)%nat) in *.
  assert (length (take k (drop q bytes)) = k) as Hk by (rewrite length_take, length_drop; lia).
  exists (take k (drop q bytes)). split; [|split; [|split; [done|split; [by apply Forall_take, Forall_drop|]]]].
  - unfold take_bytes. cbn [at_pos r_bytes r_byteOffset]. fold q. unfold sized, blen in *.
    rewrite (wrap_small 64) by (unfold in_width; lia).
    rewrite Z.gtb_ltb, (proj2 (Z.ltb_ge _ _)) by lia. unfold slice, blen.
    rewrite (proj2 (Z.ltb_ge (Z.of_nat q) 0)), (proj2 (Z.ltb_ge (_ + _) _)), (proj2 (Z.ltb_ge _ (_ + _))) by lia.
    cbn [orb]. do 2 f_equal; [lia|]. by rewrite Nat2Z.id.
  - pose proof (f_equal (drop (8 * q)) E) as E'. rewrite <-bits_of_drop in E'.
    rewrite drop_app_length' in E' by lia.
    rewrite <-(take_drop k (drop q bytes)), bits_of_app in E'.
    apply (f_equal (take n)) in E'. rewrite (take_app_length' B) in E' by done.
    by rewrite take_app_le in E' by (rewrite bits_of_length; lia).
  - unfold skip_bits. cbn [at_pos r_bytes r_byteOffset]. fold q. rewrite land7 by lia.
    replace (Z.of_nat n mod 8) with (Z.of_nat (n mod 8)) by (by rewrite Nat2Z.inj_mod).
    destruct (pos_split n) as [Hdn Hmn]. unfold at_pos. rewrite length_app, HB, Hd.
    assert ((8 * q + n) / 8 = q + n / 8)%nat as ->.
    { rewrite (Nat.mul_comm 8), Nat.div_add_l by lia. done. }
    assert ((8 * q + n) mod 8 = n mod 8)%nat as ->.
    { rewrite Nat.Div0.add_mod, mod8_mul, Nat.add_0_l. apply Nat.Div0.mod_mod. }
    rewrite Z.gtb_ltb. f_equal. destruct (Nat.eq_dec (n mod 8) 0) as [Hz|Hz].
    + rewrite (proj2 (Z.ltb_ge 0 _)) by lia. rewrite (pad_0 n Hz) in Hpn. lia.
    + rewrite (proj2 (Z.ltb_lt 0 _)) by lia.
      assert (pad n = 8 - n mod 8)%nat by (unfold pad; rewrite Nat.mod_small; lia). lia.
Qed.

(** Bits written from masked bytes behind an alignment. *)
Lemma aligned_bits bs B n pre w o : bytes_ok bs → bits_of bs = B ++ replicate (pad n) false →
  length B = n → (length pre mod 8 = 0)%nat → holds w pre → o = Z.of_nat (n mod 8) →
  holds (PerRaw (w_bytes w ++ bs) o) (pre ++ B).
Proof.
  intros Hbs Hbits HB Hp (Hb&Hw&Ho) ->. unfold holds. cbn [w_bytes w_bitsOffset].
  rewrite (pad_0 _ Hp), app_nil_r in Hw. split; [by apply Forall_app|].
  rewrite length_app, HB, pad_add by done. split; [by rewrite bits_of_app, Hw, Hbits, app_assoc|].
  by rewrite Nat.Div0.add_mod, Hp, Nat.add_0_l, Nat.Div0.mod_mod.
Qed.

Definition valid_bits (bs : list Z) (n : nat) (ext : bool) (lo hi : option Z) : Prop :=
  bytes_ok bs ∧ length bs = ((n + 7) / 8)%nat ∧ size_ok (Z.of_nat n) ext lo hi.

(** The bits come back; the unused bits of the last byte may not be 0. *)
Definition bits_read (bs : list Z) (n : nat) (r : list Z * Z) : Prop :=
  snd r = Z.of_nat n ∧ bytes_ok (fst r) ∧ length (fst r) = length bs ∧ take n (bits_of (fst r)) = take n (bits_of bs).

Lemma n_land7 n : Z.of_nat n & 0x7 = Z.of_nat (n mod 8).
Proof. rewrite land7 by lia. by rewrite Nat2Z.inj_mod. Qed.

(** The writing and reading of [n] bits for the agreed plan. *)
Section BitString.
Context (bs bs' : list Z) (n : nat) (lb sr : Z).
Context (Hbs' : bytes_ok bs') (Hl' : length bs' = ((n + 7) / 8)%nat) (Hl : length bs = ((n + 7) / 8)%nat)
  (Hbits : bits_of bs' = take n (bits_of bs) ++ replicate (pad n) false)
  (Hplan : size_plan (Z.of_nat n) lb sr).

Let B := take n (bits_of bs).

Lemma B_length : length B = n.
Proof.
  destruct (pad_spec n) as (Hp&_&_). unfold B. rewrite length_take, bits_of_length, Hl. lia.
Qed.

Lemma sizes_n : u64 (Z.of_nat n + 7) ≫ 3 = Z.of_nat ((n + 7) / 8).
Proof.
  destruct Hplan. rewrite (wrap_small 64) by (unfold in_width; lia). rewrite shiftr3, Nat2Z.inj_div.
  f_equal. lia.
Qed.

Lemma short_bits pre : (0 < n)%nat →
  puts (putBitString bs' (Z.of_nat n)) pre B ∧ decodes (getBitString (Z.of_nat n)) pre B bs'.
Proof.
  intros Hn. pose proof B_length as HB. destruct Hplan as [_ Hlen _ _ _]. split.
  - intros w Hw. apply putBitString_spec; try done. lia.
  - intros bytes suf Hb Hs E.
    assert (8 * length bytes = length pre + (n + length suf))%nat as Hlb
      by (rewrite <-bits_of_length, E, !length_app, HB; done).
    destruct (getBitString_at bytes Hb Hs (length pre) n) as (dst&Eg&Hdb&Hdl&Hdst); [done|lia|].
    rewrite Eg, length_app, HB. do 2 f_equal. apply bits_of_inj; [done|done|].
    rewrite Hdst, Hbits, E, drop_app_length. rewrite take_app_length' by done. fold B. do 2 f_equal.
    destruct (pad_spec n). lia.
Qed.

Lemma long_bits pre : (0 < n)%nat → (length pre mod 8 = 0)%nat →
  (∀ w o, holds w pre → o = Z.of_nat (n mod 8) → holds (PerRaw (w_bytes w ++ bs') o) (pre ++ B)) ∧
  (∀ bytes suf, bytes_ok bytes → sized bytes → bits_of bytes = pre ++ B ++ suf → ∃ c,
    take_bytes (Z.of_nat ((n + 7) / 8)) (at_pos bytes (length pre)) = Ret c ∧ bits_read bs n (c, Z.of_nat n) ∧
    skip_bits (Z.of_nat ((n + 7) / 8)) (Z.of_nat n) (at_pos bytes (length pre)) = at_pos bytes (length (pre ++ B))).
Proof.
  intros Hn Hp. split.
  - intros w o Hw Ho. apply (aligned_bits bs' B n); try done. apply B_length.
  - intros bytes suf Hb Hs E.
    destruct (take_bytes_bits bytes B pre suf n Hb Hs Hp B_length Hn E) as (c&Et&Ec&Hlc&Hbc&Esk).
    exists c. split; [done|]. split; [|done]. split; [done|]. split; [done|]. split; [by rewrite Hl|]. done.
Qed.

Lemma bit_loop_roundtrip fuel pre : sr ≠ 1 →
  ∃ e, puts (appendBitString_loop (S fuel) lb sr (u64 (Z.of_nat n - u64 lb)) 0 bs') pre e ∧
    ∀ fuel' bytes suf, bytes_ok bytes → sized bytes → bits_of bytes = pre ++ e ++ suf → ∃ v,
      parseBitString_loop (S fuel') lb sr [] 0 (at_pos bytes (length pre))
      = Ret (v, at_pos bytes (length (pre ++ e))) ∧ bits_read bs n v.
Proof.
  intros Hsr. destruct Hplan as [Hlb Hlen Hd Hlp _]. specialize (Hlp Hsr).
  assert (u64 lb = lb) as Eu by (apply wrap_small; unfold in_width; lia).
  assert (u64 (Z.of_nat n - lb) = Z.of_nat n - lb) as El by (apply wrap_small; unfold in_width; lia).
  assert (u64 (Z.of_nat n - lb + lb) = Z.of_nat n) as Es by (rewrite wrap_small; [lia|unfold in_width; lia]).
  destruct (length_plan _ _ _ pre Hlp) as (e1&P1&D1).
  set (z := replicate (pad (length (pre ++ e1))) false).
  assert (length (pre ++ e1 ++ z) mod 8 = 0)%nat as Hal.
  { rewrite app_assoc, length_app. unfold z. rewrite length_replicate. apply pad_spec. }
  destruct (Nat.eq_dec n 0) as [H0|H0].
  - exists e1. split.
    + intros w Hw. cbn [appendBitString_loop]. rewrite Eu, El, part_length_small by lia.
      destruct (P1 w Hw) as (w1&->&Hw1). ret_bind. rewrite Es.
      rewrite (proj2 (Z.eqb_eq (Z.of_nat n) 0)) by lia. exists w1. by split.
    + intros fuel' bytes suf Hbb Hs E. cbn [parseBitString_loop]. rewrite (D1 bytes suf Hbb Hs E). ret_bind.
      rewrite Eu, Es. rewrite (proj2 (Z.eqb_eq (Z.of_nat n) 0)) by lia. eexists. split; [reflexivity|].
      split; [simpl; lia|]. split; [constructor|]. rewrite Hl, H0. done.
  - destruct (long_bits (pre ++ e1 ++ z)) as [P3 D3]; [lia|done|].
    exists (e1 ++ z ++ B). split.
    + intros w Hw. cbn [appendBitString_loop]. rewrite Eu, El, part_length_small by lia.
      destruct (P1 w Hw) as (w1&->&Hw1). ret_bind. rewrite Es, sizes_n, (proj2 (Z.eqb_neq _ 0)) by lia.
      rewrite slice_all by (unfold blen; by rewrite Hl'). ret_bind.
      assert (u64 (Z.of_nat n - lb - u64 (Z.of_nat n - lb)) = 0) as -> by (rewrite El, Z.sub_diag; reflexivity).
      change (0 >? 0) with false. cbn iota. eexists. split; [reflexivity|].
      rewrite n_land7. cbn [w_bytes w_bitsOffset appendAlignBits].
      rewrite !app_assoc in *. apply (P3 (appendAlignBits w1)); [|done].
      unfold z. by apply appendAlignBits_spec.
    + intros fuel' bytes suf Hbb Hs E. cbn [parseBitString_loop]. rewrite <-!app_assoc in E.
      rewrite (D1 bytes (z ++ B ++ suf) Hbb Hs E). ret_bind.
      rewrite Eu, Es, (proj2 (Z.eqb_neq _ 0)) by lia. rewrite sizes_n.
      rewrite (align_at (pre ++ e1) bytes (B ++ suf)) by (done || by rewrite <-!app_assoc). ret_bind.
      fold z. destruct (D3 bytes suf Hbb Hs) as (c&Et&Hc&Esk); [by rewrite <-!app_assoc|].
      rewrite <-!app_assoc in *. rewrite Et. ret_bind. eexists. split; [rewrite Esk; reflexivity|].
      cbn [app]. rewrite Z.add_0_l, wrap_small by (unfold in_width; lia). done.
Qed.
End BitString.

Lemma bit_string_roundtrip bs n ext lo hi pre : valid_bits bs n ext lo hi →
  ∃ e, (∀ w, holds w pre → ∃ w' bs',
      appendBitString bs (Z.of_nat n) ext lo hi w = Ret (w', bs') ∧ holds w' (pre ++ e)) ∧
    ∀ bytes suf, bytes_ok bytes → sized bytes → bits_of bytes = pre ++ e ++ suf → ∃ v,
      with_extension ext (λ x, parseBitString x lo hi) (at_pos bytes (length pre))
      = Ret (v, at_pos bytes (length (pre ++ e))) ∧ bits_read bs n v.
Proof.
  intros (Hb&Hl&Hs).
  destruct (bounds_plan (Z.of_nat n) ext lo hi "bitString Length is over upperbound" ltac:(lia) Hs)
    as (x&lb&ub&ub'&sr&Hx&Hplan&HP&Hsb&Hfix).
  destruct (mask_last_spec bs n Hb Hl) as (bs'&Em&Hb'&Hl'&Hbits); [destruct Hplan; lia|].
  rewrite Hl in Hl'.
  set (e0 := if ext then num_bits 1 (Z.b2z x) else []) in *.
  assert (∃ e, (∀ w, holds w (pre ++ e0) → ∃ w', (if sr =? 1 then
        if u64 (Z.of_nat n + 7) ≫ 3 >? 2 then
          if negb (Z.of_nat n =? u64 ub) then Fail "bitString Length is not match fix-sized"
          else Ret (PerRaw (w_bytes (appendAlignBits w) ++ bs') (ub & 0x7), bs')
        else pd ← putBitString bs' (Z.of_nat n) w; Ret (pd, bs')
      else pd ← appendBitString_loop (S (length bs')) lb sr (u64 (Z.of_nat n - u64 lb)) 0 bs' w;
        Ret (pd, bs')) = Ret (w', bs')
      ∧ holds w' ((pre ++ e0) ++ e)) ∧
    ∀ bytes suf, bytes_ok bytes → sized bytes → bits_of bytes = (pre ++ e0) ++ e ++ suf → ∃ v,
      parseBitString x lo hi (at_pos bytes (length (pre ++ e0)))
      = Ret (v, at_pos bytes (length ((pre ++ e0) ++ e))) ∧ bits_read bs n v) as (e&P&D).
  { unfold parseBitString. rewrite Hsb. destruct (Z.eqb_spec sr 1) as [H1|H1].
    - destruct (Hfix H1) as [-> ->]. pose proof (sp_fixed _ _ _ Hplan H1) as Hn.
      assert (u64 (Z.of_nat n) = Z.of_nat n) as Eu by (apply wrap_small; unfold in_width; lia).
      rewrite Eu, Z.eqb_refl, (sizes_n bs bs' n lb sr Hl' Hl Hplan). cbn [negb]. rewrite Z.gtb_ltb.
      destruct (Z.ltb_spec 2 (Z.of_nat ((n + 7) / 8))).
      + set (z := replicate (pad (length (pre ++ e0))) false).
        assert (length ((pre ++ e0) ++ z) mod 8 = 0)%nat as Hal.
        { rewrite length_app. unfold z. rewrite length_replicate. apply pad_spec. }
        destruct (long_bits bs bs' n Hb' Hl' Hl Hbits ((pre ++ e0) ++ z)) as [P3 D3]; [lia|done|].
        exists (z ++ take n (bits_of bs)). split.
        * intros w Hw. eexists. split; [reflexivity|]. rewrite app_assoc.
          apply (P3 (appendAlignBits w)); [by apply appendAlignBits_spec|]. apply n_land7.
        * intros bytes suf Hbb Hss E. rewrite <-(app_assoc z) in E.
          rewrite (align_at (pre ++ e0) bytes (take n (bits_of bs) ++ suf)) by done. ret_bind. fold z.
          destruct (D3 bytes suf Hbb Hss) as (c&Et&Hc&Esk); [by rewrite E, <-!app_assoc|].
          rewrite Et. ret_bind. eexists. rewrite Esk, (app_assoc _ z). split; [reflexivity|done].
      + destruct (short_bits bs bs' n lb sr Hb' Hl' Hl Hbits Hplan (pre ++ e0)) as [P3 D3]; [lia|].
        exists (take n (bits_of bs)). split.
        * intros w Hw. destruct (P3 w Hw) as (w'&->&Hw'). ret_bind. by exists w'.
        * intros bytes suf Hbb Hss E. rewrite (D3 bytes suf Hbb Hss E). ret_bind.
          eexists. split; [reflexivity|]. split; [done|]. cbn [fst]. split; [done|]. split; [by rewrite Hl', Hl|].
          rewrite Hbits. apply take_app_length'. by rewrite (B_length bs bs' n Hl' Hl).
    - destruct (bit_loop_roundtrip bs bs' n lb sr Hb' Hl' Hl Hbits Hplan (length bs') (pre ++ e0) H1)
        as (e&P3&D3). exists e. split.
      * intros w Hw. destruct (P3 w Hw) as (w'&->&Hw'). ret_bind. by exists w'.
      * intros bytes suf. apply D3. }
  exists (e0 ++ e). split.
  - intros w Hw. unfold appendBitString. destruct (HP w pre Hw) as (w1&->&Hw1). ret_bind.
    rewrite Em. ret_bind. destruct (P w1 Hw1) as (w2&E2&Hw2). exists w2, bs'. rewrite app_assoc. by split.
  - intros bytes suf Hbb Hss E.
    destruct (D bytes suf Hbb Hss) as (v&Ev&Hv); [by rewrite E, <-!app_assoc|].
    exists v. split; [|done].
    rewrite (extension_at ext x _ pre bytes (e ++ suf)) by (done || by rewrite E, <-!app_assoc).
    fold e0. by rewrite Ev, <-app_assoc.
Qed.

(** ** INTEGER *)

Lemma octet_count_spec fuel n v : 0 ≤ v < 2 ^ (8 * Z.of_nat fuel) → ∃ k,
  octet_count fuel n v = n + Z.of_nat k ∧ v < 2 ^ (8 * Z.of_nat k) ∧ (k = 0%nat ∨ 2 ^ (8 * (Z.of_nat k - 1)) ≤ v).
Proof.
  revert n v. induction fuel as [|fuel IH]; intros n v Hv.
  { exists 0%nat. cbn [octet_count]. split; [lia|]. split; [|by left]. exact (proj2 Hv). }
  cbn [octet_count]. destruct (Z.eqb_spec v 0) as [->|Hne].
  { exists 0%nat. split; [lia|]. split; [done|by left]. }
  rewrite Z.shiftr_div_pow2 by lia. change (2 ^ 8) with 256.
  replace (8 * Z.of_nat (S fuel)) with (8 * Z.of_nat fuel + 8) in Hv by lia.
  rewrite Z.pow_add_r in Hv by lia. change (2 ^ 8) with 256 in Hv.
  destruct (IH (n + 1) (v / 256)) as (k&->&Hk&Hlow).
  { split; [apply Z.div_pos; lia|apply Z.div_lt_upper_bound; lia]. }
  exists (S k). split; [lia|]. split.
  - replace (8 * Z.of_nat (S k)) with (8 * Z.of_nat k + 8) by lia. rewrite Z.pow_add_r by lia.
    change (2 ^ 8) with 256. pose proof (Z.div_mod v 256). pose proof (Z.mod_pos_bound v 256). nia.
  - right. replace (8 * (Z.of_nat (S k) - 1)) with (8 * Z.of_nat k) by lia.
    destruct Hlow as [->|Hlow]; [simpl; lia|].
    replace (8 * Z.of_nat k) with (8 * (Z.of_nat k - 1) + 8) by lia.
    destruct k as [|k]; [simpl; lia|]. rewrite Z.pow_add_r by lia. change (2 ^ 8) with 256.
    pose proof (Z.div_mod v 256). pose proof (Z.mod_pos_bound v 256). nia.
Qed.

Lemma range_bytes_count fuel n r : 0 ≤ r → range_bytes fuel 0 n r = octet_count fuel n (r ≫ 8).
Proof.
  revert n r. induction fuel as [|fuel IH]; intros n r Hr; [done|]. cbn [range_bytes octet_count].
  assert (0 ≤ r ≫ 8) as H0 by (by apply Z.shiftr_nonneg).
  destruct (Z.leb_spec (r ≫ 8) 0), (Z.eqb_spec (r ≫ 8) 0); try lia. by apply IH.
Qed.

(** The number of octets of a value, the top octet of which has [s] bits for it. *)
Lemma octets_of s v : (s = 7 ∨ s = 8) → 0 ≤ v < 2 ^ (56 + s) → ∃ k,
  octet_count 127 1 (v ≫ s) = Z.of_nat k ∧ (1 ≤ k ≤ 8)%nat ∧
  v < 2 ^ (8 * (Z.of_nat k - 1) + s) ∧ (k = 1%nat ∨ 2 ^ (8 * (Z.of_nat k - 2) + s) ≤ v).
Proof.
  intros Hs Hv. rewrite Z.shiftr_div_pow2 by lia.
  assert (0 < 2 ^ s) as Hp by (apply Z.pow_pos_nonneg; lia).
  pose proof (Z.div_mod v (2 ^ s)) as Hdm. pose proof (Z.mod_pos_bound v (2 ^ s)) as Hmb.
  assert (v / 2 ^ s < 2 ^ 56) as H56.
  { apply Z.div_lt_upper_bound; [done|]. rewrite <-Z.pow_add_r by lia. replace (s + 56) with (56 + s) by lia. lia. }
  destruct (octet_count_spec 127 1 (v / 2 ^ s)) as (k&->&Hk&Hlow).
  { split; [apply Z.div_pos; lia|]. apply (Z.lt_le_trans _ (2 ^ 56)); [done|]. apply Z.pow_le_mono_r; lia. }
  exists (S k). split; [lia|].
  assert (v < 2 ^ (8 * (Z.of_nat (S k) - 1) + s)) as Hup.
  { replace (8 * (Z.of_nat (S k) - 1) + s) with (8 * Z.of_nat k + s) by lia. rewrite Z.pow_add_r by lia. nia. }
  split; [|split; [exact Hup|]].
  - destruct Hlow as [->|Hlow]; [lia|]. destruct (Nat.le_gt_cases (S k) 8) as [|Hgt]; [lia|].
    assert (2 ^ 56 ≤ 2 ^ (8 * (Z.of_nat k - 1))) by (apply Z.pow_le_mono_r; lia). lia.
  - destruct k as [|k]; [by left|right]. destruct Hlow as [|Hlow]; [done|].
    replace (8 * (Z.of_nat (S (S k)) - 2) + s) with (8 * (Z.of_nat (S k) - 1) + s) by lia.
    rewrite Z.pow_add_r by lia. nia.
Qed.

Lemma s64_mod a b : (a - b) mod 2 ^ 64 = 0 → s64 a = s64 b.
Proof.
  intros H. unfold s64. f_equal. rewrite <-(Z.mod_add (b + _) ((a - b) / 2 ^ 64)) by lia.
  f_equal. pose proof (Z.div_mod (a - b) (2 ^ 64)). lia.
Qed.

Lemma mod_pow_mod a m n : 0 ≤ m ≤ n → (a mod 2 ^ n) mod 2 ^ m = a mod 2 ^ m.
Proof.
  intros H. symmetry. rewrite (Z.div_mod a (2 ^ n)) at 1 by lia.
  replace n with (n - m + m) at 1 by lia. rewrite Z.pow_add_r by lia.
  replace (2 ^ (n - m) * 2 ^ m * (a / 2 ^ n) + a mod 2 ^ n)
    with (a mod 2 ^ n + 2 ^ (n - m) * (a / 2 ^ n) * 2 ^ m) by ring.
  apply Z.mod_add. lia.
Qed.

Section Octets.
Context (lb value : Z) (k : nat) (Hk : (1 ≤ k ≤ 8)%nat) (Hv : - 2 ^ 63 ≤ value < 2 ^ 63).

Lemma align_puts_0 w pre : (length pre mod 8 = 0)%nat → holds w pre → holds (appendAlignBits w) pre.
Proof.
  intros Hp Hw. apply appendAlignBits_spec in Hw. unfold align_bits in Hw.
  by rewrite (pad_0 _ Hp), app_nil_r in Hw.
Qed.

(** [x] is the unsigned number on the [k] octets. *)
Lemma octets_at vr x pre : (length pre mod 8 = 0)%nat → in_width (8 * Z.of_nat k) x →
  (if vr <? 0 then (u64 value & u64 (s64 (shl 64 1 (8 * Z.of_nat k) - 1))) else u64 (value - lb)) = x →
  puts (appendInteger_octets vr lb value (Z.of_nat k)) pre (num_bits (8 * k) x) ∧
  decodes (getBitsValue (Z.of_nat k * 8)) pre (num_bits (8 * k) x) x.
Proof.
  intros Hp Hx Ex. replace (Z.of_nat k * 8) with (Z.of_nat (8 * k)) by lia.
  replace (8 * Z.of_nat k) with (Z.of_nat (8 * k)) in * by lia. split.
  - intros w Hw. unfold appendInteger_octets. replace (Z.of_nat k * 8) with (Z.of_nat (8 * k)) by lia.
    destruct (vr <? 0); rewrite Ex; apply putBitsValue_spec; try lia; try done; by apply align_puts_0.
  - apply bits_decodes; [lia|done].
Qed.

Lemma unsigned_octets vr pre : 0 ≤ vr → 0 ≤ value - lb < 2 ^ (8 * Z.of_nat k) → value - lb < 2 ^ 63 →
  (length pre mod 8 = 0)%nat → ∃ e,
  puts (appendInteger_octets vr lb value (Z.of_nat k)) pre e ∧
  decodes (parseInteger_octets vr lb (Z.of_nat k)) pre e value.
Proof.
  intros Hvr Hd Hd' Hp. exists (num_bits (8 * k) (value - lb)).
  destruct (octets_at vr (value - lb) pre Hp Hd) as [P D].
  { rewrite (proj2 (Z.ltb_ge vr 0)) by done. apply wrap_small. unfold in_width. lia. }
  split; [exact P|]. intros bytes suf Hb Hs E. unfold parseInteger_octets.
  rewrite (D bytes suf Hb Hs E). ret_bind. cbv zeta.
  rewrite (proj2 (Z.ltb_ge vr 0)) by done. cbn [andb].
  rewrite (s64_small (value - lb)) by lia. rewrite s64_small by lia. do 2 f_equal. lia.
Qed.

Lemma sign_bit n x : 0 < n → in_width n x → (x & 2 ^ (n - 1) >? 0) = (2 ^ (n - 1) <=? x).
Proof.
  intros Hn Hx.
  assert (x & 2 ^ (n - 1) = if Z.testbit x (n - 1) then 2 ^ (n - 1) else 0) as ->.
  { apply Z.bits_inj'. intros i Hi. rewrite Z.land_spec, Z.pow2_bits_eqb by lia.
    destruct (Z.eqb_spec (n - 1) i) as [<-|Hne].
    - rewrite andb_true_r. destruct (Z.testbit x (n - 1)); [by rewrite Z.pow2_bits_true by lia|by rewrite Z.bits_0].
    - rewrite andb_false_r. destruct (Z.testbit x (n - 1)); [by rewrite Z.pow2_bits_false by lia|by rewrite Z.bits_0]. }
  assert (0 < 2 ^ (n - 1)) as Hpos by (apply Z.pow_pos_nonneg; lia).
  assert (2 ^ n = 2 * 2 ^ (n - 1)) as E by (rewrite <-Z.pow_succ_r by lia; f_equal; lia).
  assert (Z.testbit x (n - 1) = (2 ^ (n - 1) <=? x)) as ->.
  { unfold in_width in Hx. rewrite Z.testbit_odd, Z.shiftr_div_pow2 by lia.
    destruct (Z.leb_spec (2 ^ (n - 1)) x).
    - by rewrite <-(Z.div_unique_pos x (2 ^ (n - 1)) 1 (x - 2 ^ (n - 1))) by lia.
    - by rewrite Z.div_small by lia. }
  rewrite Z.gtb_ltb. destruct (2 ^ (n - 1) <=? x); [by apply Z.ltb_lt|done].
Qed.

Lemma signed_octets vr pre : vr < 0 → - 2 ^ (8 * Z.of_nat k - 1) ≤ value < 2 ^ (8 * Z.of_nat k - 1) →
  (length pre mod 8 = 0)%nat → ∃ e,
  puts (appendInteger_octets vr lb value (Z.of_nat k)) pre e ∧
  decodes (parseInteger_octets vr 0 (Z.of_nat k)) pre e value.
Proof.
  intros Hvr Hval Hp. set (n := 8 * Z.of_nat k) in *.
  assert (0 < 2 ^ (n - 1)) as Hpos by (apply Z.pow_pos_nonneg; lia).
  assert (2 ^ n = 2 * 2 ^ (n - 1)) as E2 by (rewrite <-Z.pow_succ_r by lia; f_equal; lia).
  assert (2 ^ n ≤ 2 ^ 64) as H64 by (apply Z.pow_le_mono_r; lia).
  set (x := value mod 2 ^ n).
  assert (in_width n x) as Hx by (apply Z.mod_pos_bound; lia).
  assert (x = if value <? 0 then value + 2 ^ n else value) as Ex.
  { unfold x. destruct (Z.ltb_spec value 0); [symmetry; apply (Z.mod_unique_pos _ _ (-1)); lia|by apply Z.mod_small; lia]. }
  assert (u64 (s64 (shl 64 1 n - 1)) = Z.ones n) as Em.
  { unfold shl. rewrite Z.shiftl_mul_pow2, Z.mul_1_l by lia. rewrite Z.ones_equiv.
    unfold s64, wrap. rewrite Zminus_mod_idemp_l, Zplus_mod_idemp_l || idtac.
    destruct (Z.eq_dec n 64) as [En|En].
    - rewrite En. reflexivity.
    - assert (2 ^ n ≤ 2 ^ 56) by (apply Z.pow_le_mono_r; lia).
      rewrite (Z.mod_small (2 ^ n)) by lia. rewrite (Z.mod_small (2 ^ n - 1 + 2 ^ 63)) by lia.
      rewrite Z.mod_small by lia. lia. }
  exists (num_bits (8 * k) x).
  destruct (octets_at vr x pre Hp Hx) as [P D].
  { rewrite (proj2 (Z.ltb_lt vr 0)) by done. fold n. rewrite Em, Z.land_ones by lia. unfold x, wrap.
    apply mod_pow_mod. lia. }
  split; [exact P|]. intros bytes suf Hb Hs E. unfold parseInteger_octets.
  rewrite (D bytes suf Hb Hs E). ret_bind. cbv zeta. rewrite (proj2 (Z.ltb_lt vr 0)) by done. cbn [andb].
  replace (Z.of_nat k * 8) with n by lia. rewrite (wrap_small 64 (n - 1)) by (unfold in_width; lia).
  assert (shl 64 1 (n - 1) = 2 ^ (n - 1)) as ->.
  { unfold shl. rewrite Z.shiftl_mul_pow2, Z.mul_1_l by lia. apply wrap_small. unfold in_width. lia. }
  rewrite sign_bit by (done || lia). rewrite Ex.
  destruct (Z.ltb_spec value 0) as [Hneg|Hnn].
  - rewrite (proj2 (Z.leb_le _ _)) by lia. do 2 f_equal.
    rewrite (wrap_small 64 (2 ^ (n - 1) - 1)) by (unfold in_width; lia).
    assert (2 ^ (n - 1) - 1 = Z.ones (n - 1)) as -> by (rewrite Z.ones_equiv; lia).
    rewrite Z.land_ones by lia.
    assert (u64 (Z.lnot (value + 2 ^ n)) mod 2 ^ (n - 1) = - value - 1) as ->.
    { unfold wrap. rewrite mod_pow_mod by lia.
      unfold Z.lnot. symmetry. apply (Z.mod_unique_pos _ _ (-2)); lia. }
    transitivity (s64 value); [|by apply s64_small]. apply s64_mod.
    replace (- value - 1 + 1) with (- value) by lia.
    rewrite (wrap_small 64 (- value)) by (unfold in_width; lia).
    unfold s64. set (q := (- value + 2 ^ 63) / 2 ^ 64).
    pose proof (Z.div_mod (- value + 2 ^ 63) (2 ^ 64)) as Hdm. fold q in Hdm.
    replace (((- value + 2 ^ 63) mod 2 ^ 64 - 2 ^ 63) * -1 - value) with (q * 2 ^ 64) by lia.
    apply Z.mod_mul. lia.
  - rewrite (proj2 (Z.leb_gt _ _)) by lia. rewrite (s64_small value), Z.add_0_r, s64_small by lia. done.
Qed.
End Octets.

#[local] Opaque octet_count range_bytes least_width getBitsValue putBitsValue.

Lemma next_byte_at bytes b pre suf :
  bytes_ok bytes → sized bytes → in_width 8 b → (length pre mod 8 = 0)%nat →
  bits_of bytes = pre ++ byte_bits b ++ suf →
  next_byte (at_pos bytes (length pre)) = Ret (b, at_pos bytes (length pre + 8)).
Proof.
  intros Hb Hs Hbb Hp E.
  destruct (take_bytes_at bytes [b] pre suf) as [Ht Hl];
    [done|done|by apply Forall_singleton|done|by rewrite bits_of_single|].
  cbn [length] in Hl. destruct (pos_split (length pre)) as [Hd _].
  unfold next_byte. cbn [at_pos r_bytes r_byteOffset r_bitsOffset].
  unfold sized, blen in *. rewrite Z.geb_leb, (proj2 (Z.leb_gt _ _)) by lia.
  unfold take_bytes, slice in Ht. cbn [at_pos r_bytes r_byteOffset] in Ht.
  destruct (_ >? _); [done|]. destruct (_ || _); [done|].
  match type of Ht with Ret ?x = Ret ?y => assert (x = y) as Ht' by congruence end. clear Ht. rename Ht' into Ht.
  unfold rd. rewrite (proj2 (Z.ltb_ge _ 0)) by lia.
  rewrite <-(Nat.add_0_r (Z.to_nat _)), <-lookup_drop.
  destruct (drop (Z.to_nat (Z.of_nat (length pre / 8))) bytes) as [|c l]; [by rewrite take_nil in Ht|].
  match type of Ht with take ?n _ = _ => replace n with 1%nat in Ht by (cbn [length]; lia) end.
  cbn [take] in Ht. injection Ht as ->. cbn [lookup list_lookup mbind outcome_mbind]. do 2 f_equal.
  pose proof (at_pos_bytes bytes (length pre) 1 Hp) as Ha. exact Ha.
Qed.

(** Values and constraints both sides agree on. *)
Definition integer_ok (value : Z) (ext : bool) (lo hi : option Z) : Prop :=
  - 2 ^ 63 ≤ value < 2 ^ 63 ∧
  match lo, hi with
  | None, _ => ext = false
  | Some lb, None => ext = false ∧ 0 ≤ lb ≤ value
  | Some lb, Some ub => - 2 ^ 62 ≤ lb ≤ value ∧ lb ≤ ub < 2 ^ 62 ∧
      ((value ≤ ub ∧ (ub - lb < 65536 ∨
          lb = 0 ∧ least_width 8 1 (range_bytes 127 0 1 ub) = least_width 8 1 (range_bytes 127 1 1 ub))) ∨
       (ext = true ∧ ub < value))
  end.

(** The octets with the length octet before them, as both sides handle an
    unconstrained or semi-constrained value. *)
Lemma counted_octets vr lb plb value : vr ≤ 0 → - 2 ^ 63 ≤ value < 2 ^ 63 →
  (vr < 0 ∧ plb = 0 ∨ vr = 0 ∧ plb = lb ∧ 0 ≤ lb ≤ value) →
  roundtrip (λ pd,
      let unsignedValue := if value <? 0 then u64 (u64 (- value) - 1) else u64 value in
      let rawLength := octet_count 127 1 (unsignedValue ≫ 7) in
      let pd := appendAlignBits pd in
      let pd := PerRaw (w_bytes pd ++ [u8 rawLength]) (w_bitsOffset pd) in
      appendInteger_octets vr lb value rawLength pd)
    (λ pd, pd ← parseAlignBits pd; '(rawLength, pd) ← next_byte pd; parseInteger_octets vr plb rawLength pd)
    value.
Proof.
  intros Hvr Hv Hor. set (u := if value <? 0 then u64 (u64 (- value) - 1) else u64 value).
  assert (u = if value <? 0 then - value - 1 else value) as Eu.
  { unfold u. destruct (Z.ltb_spec value 0).
    - rewrite (wrap_small 64 (- value)) by (unfold in_width; lia). apply wrap_small. unfold in_width. lia.
    - apply wrap_small. unfold in_width. lia. }
  assert (0 ≤ u < 2 ^ 63) as Hu by (rewrite Eu; destruct (Z.ltb_spec value 0); lia).
  clearbody u.
  destruct (octets_of 7 u) as (k&Ek&Hk&Hup&_); [by left|exact Hu|].
  eapply roundtrip_ext; [| |
    apply (aligned (λ w, appendInteger_octets vr lb value (Z.of_nat k)
        (PerRaw (w_bytes w ++ [Z.of_nat k]) (w_bitsOffset w)))
      (λ r, '(n, r) ← next_byte r; parseInteger_octets vr plb n r) value)].
  { intros w. cbv zeta. rewrite Ek. rewrite (wrap_small 8) by (unfold in_width; lia). reflexivity. }
  { reflexivity. }
  intros pre Hp.
  assert (in_width 8 (Z.of_nat k)) as Hkw by (unfold in_width; lia).
  assert (length (pre ++ byte_bits (Z.of_nat k)) mod 8 = 0)%nat as Hp'.
  { rewrite length_app. cbn [byte_bits length fmap list_fmap]. 
    replace (length pre + 8)%nat with (length pre + 1 * 8)%nat by lia. by rewrite Nat.Div0.mod_add. }
  assert (∃ e, puts (appendInteger_octets vr lb value (Z.of_nat k)) (pre ++ byte_bits (Z.of_nat k)) e ∧
    decodes (parseInteger_octets vr plb (Z.of_nat k)) (pre ++ byte_bits (Z.of_nat k)) e value) as (e&P&D).
  { replace (8 * (Z.of_nat k - 1) + 7) with (8 * Z.of_nat k - 1) in Hup by lia.
    destruct Hor as [[Hneg ->]|(->&->&Hlb)].
    - apply signed_octets; try done. rewrite Eu in Hup. destruct (Z.ltb_spec value 0); lia.
    - apply unsigned_octets; try done; [|lia]. rewrite Eu in Hup.
      rewrite (proj2 (Z.ltb_ge value 0)) in Hup by lia.
      assert (2 ^ (8 * Z.of_nat k - 1) ≤ 2 ^ (8 * Z.of_nat k)) by (apply Z.pow_le_mono_r; lia). lia. }
  exists (byte_bits (Z.of_nat k) ++ e). split.
  - intros w Hw.
    destruct (put_bytes_puts [Z.of_nat k] pre (proj2 (Forall_singleton _ _) Hkw) Hp w Hw) as (w1&E1&Hw1).
    injection E1 as <-. rewrite bits_of_single in Hw1. destruct (P _ Hw1) as (w2&E2&Hw2).
    exists w2. split; [exact E2|]. by rewrite app_assoc.
  - intros bytes suf Hb Hs E. rewrite <-app_assoc in E.
    rewrite (next_byte_at bytes (Z.of_nat k) pre (e ++ suf)) by done. ret_bind.
    specialize (D bytes suf Hb Hs). rewrite length_app, byte_bits_length in D.
    rewrite D by (by rewrite E, <-app_assoc). by rewrite app_assoc.
Qed.

(** The length and octets of a value of a large range that starts at 0. *)
Lemma ranged_octets value ub w : 0 ≤ value ≤ ub → 65535 < ub < 2 ^ 62 →
  w = least_width 8 1 (range_bytes 127 0 1 ub) →
  roundtrip (λ pd,
      let rawLength := octet_count 127 1 (value ≫ 8) in
      pd ← putBitsValue (rawLength - 1) w pd;
      appendInteger_octets (ub + 1) 0 value rawLength pd)
    (λ pd, '(tempLength, pd) ← getBitsValue w pd;
      let rawLength := u64 (tempLength + 1) in
      pd ← parseAlignBits pd;
      parseInteger_octets (ub + 1) 0 rawLength pd) value.
Proof.
  intros Hv Hub ->.
  destruct (octets_of 8 value) as (k&Ek&Hk&Hup&Hlow); [by right|lia|].
  destruct (octets_of 8 ub) as (k'&Ek'&Hk'&Hup'&_); [by right|lia|].
  replace (8 * (Z.of_nat k - 1) + 8) with (8 * Z.of_nat k) in Hup by lia.
  assert (k ≤ k')%nat as Hkk.
  { destruct Hlow as [->|Hlow]; [lia|]. destruct (Nat.le_gt_cases k k') as [|Hgt]; [done|].
    assert (2 ^ (8 * (Z.of_nat k' - 1) + 8) ≤ 2 ^ (8 * (Z.of_nat k - 2) + 8)) by (apply Z.pow_le_mono_r; lia). lia. }
  rewrite range_bytes_count by lia. rewrite Ek'.
  destruct (least_width_spec (Z.of_nat k')) as (n&->&Hn&Hpow); [lia|]. cbv zeta. rewrite Ek.
  apply (roundtrip_bind (putBitsValue (Z.of_nat k - 1) (Z.of_nat n)) _ (getBitsValue (Z.of_nat n)) (λ tempLength pd,
      pd ← parseAlignBits pd;
      parseInteger_octets (ub + 1) 0 (u64 (tempLength + 1)) pd) (Z.of_nat k - 1)).
  { apply bits_roundtrip; [lia|]. unfold in_width. lia. }
  rewrite Z.sub_add, (wrap_small 64) by (unfold in_width; lia).
  intros pre.
  destruct (aligned (λ w, appendInteger_octets (ub + 1) 0 value (Z.of_nat k) w)
    (parseInteger_octets (ub + 1) 0 (Z.of_nat k)) value) with (pre := pre) as (e&P&D).
  { intros pre' Hp. apply unsigned_octets; try done; lia. }
  exists e. split; [|exact D]. intros w0 Hw0. destruct (P w0 Hw0) as (w1&E1&Hw1). exists w1. split; [|done].
  rewrite <-E1. unfold appendInteger_octets. cbv zeta.
  reflexivity.
Qed.

Lemma roundtrip_extension {A} p (ext x : bool) (g : bool → perBitData → outcome (A * perBitData)) v :
  (ext = false → x = false) → roundtrip p (g x) v →
  roundtrip (λ w, w ← (if ext then putBitsValue (Z.b2z x) 1 w else Ret w); p w) (with_extension ext g) v.
Proof.
  intros Hx H pre. set (e0 := if ext then num_bits 1 (Z.b2z x) else []).
  destruct (H (pre ++ e0)) as (e&P&D). exists (e0 ++ e). split.
  - intros w Hw.
    assert (∃ w', (if ext then putBitsValue (Z.b2z x) 1 w else Ret w) = Ret w' ∧ holds w' (pre ++ e0))
      as (w'&->&Hw').
    { unfold e0. destruct ext; [by apply bit_puts|]. exists w. by rewrite app_nil_r. }
    ret_bind. destruct (P w' Hw') as (w2&E2&Hw2). exists w2. by rewrite app_assoc.
  - by apply extension_decodes.
Qed.

(** The part of [appendInteger] after the extension bit. *)
Definition integer_body (value lb valueRange : Z) (pd : perRawBitData) : outcome perRawBitData :=
  if valueRange =? 1 then Ret pd else
  let unsignedValue := if value <? 0 then u64 (u64 (- value) - 1) else u64 value in
  if valueRange <=? 0 then
    let rawLength := octet_count 127 1 (unsignedValue ≫ 7) in
    let pd := appendAlignBits pd in
    let pd := PerRaw (w_bytes pd ++ [u8 rawLength]) (w_bitsOffset pd) in
    appendInteger_octets valueRange lb value rawLength pd
  else if valueRange <=? 65536 then appendConstraintValue valueRange (u64 (value - lb)) pd
  else
    let rawLength := octet_count 127 1 (unsignedValue ≫ 8) in
    let byteLen := range_bytes 127 1 1 (valueRange - 1) in
    pd ← putBitsValue (rawLength - 1) (least_width 8 1 byteLen) pd;
    appendInteger_octets valueRange lb value rawLength pd.

Lemma bounded_integer value lb ub : - 2 ^ 62 ≤ lb ≤ value → lb ≤ ub < 2 ^ 62 → value ≤ ub →
  (ub - lb < 65536 ∨
   lb = 0 ∧ least_width 8 1 (range_bytes 127 0 1 ub) = least_width 8 1 (range_bytes 127 1 1 ub)) →
  roundtrip (integer_body value lb (ub - lb + 1)) (parseInteger false (Some lb) (Some ub)) value.
Proof.
  intros Hlb Hub Hv Hor. unfold integer_body, parseInteger. rewrite s64_small by lia.
  destruct (Z.eqb_spec (ub - lb + 1) 1).
  { assert (value = ub) as -> by lia. intros pre. exists []. split; [apply puts_ret|apply decodes_ret]. }
  rewrite (proj2 (Z.leb_gt _ 0)) by lia.
  destruct (Z.leb_spec (ub - lb + 1) 65536).
  - rewrite (wrap_small 64 (value - lb)) by (unfold in_width; lia). intros pre.
    destruct (constraint_roundtrip (ub - lb + 1) (value - lb)) with (pre := pre) as (e&P&D); [lia| |].
    { pose proof (range_capacity (ub - lb + 1)). lia. }
    exists e. split; [exact P|]. apply (decodes_map (λ c, s64 (c + lb)) _ _ _ (value - lb)); [exact D|].
    rewrite s64_small; lia.
  - destruct Hor as [|[-> Ew]]; [lia|]. rewrite Z.sub_0_r, Z.add_simpl_r in *.
    rewrite (proj2 (Z.ltb_ge value 0)), (wrap_small 64 value) by (unfold in_width; lia).
    cbv zeta. rewrite <-Ew.
    pose proof (ranged_octets value ub _ ltac:(lia) ltac:(lia) eq_refl) as R. cbv zeta in R. exact R.
Qed.

Lemma roundtrip_puts {A} p p' (g : perBitData → outcome (A * perBitData)) v :
  (∀ w pre, holds w pre → p w = p' w) → roundtrip p' g v → roundtrip p g v.
Proof.
  intros Hp H pre. destruct (H pre) as (e&P&D). exists e. split; [|done].
  intros w Hw. rewrite (Hp w pre Hw). by apply P.
Qed.

(** An extension bit the code writes with its error only logged. *)
Lemma logged_bit {B} (x : bool) (v : B) w pre : holds w pre →
  match putBitsValue (Z.b2z x) 1 w with Ret w => Ret (v, w) | Fail _ => Ret (v, w) | Panic => Panic end
  = (w ← putBitsValue (Z.b2z x) 1 w; Ret (v, w)).
Proof. intros Hw. by destruct (bit_puts x w pre Hw) as (w'&->&_). Qed.

Lemma integer_roundtrip value ext lo hi : integer_ok value ext lo hi →
  roundtrip (appendInteger value ext lo hi) (with_extension ext (λ x, parseInteger x lo hi)) value.
Proof.
  intros [Hv H]. destruct lo as [lb|]; [destruct hi as [ub|]|].
  - destruct H as (Hlb&Hub&[(Hle&Hor)|(->&Hgt)]).
    + eapply (roundtrip_puts _ _ _ _ _ (roundtrip_extension (integer_body value lb (ub - lb + 1)) ext false
        (λ x, parseInteger x (Some lb) (Some ub)) value ltac:(done) (bounded_integer value lb ub Hlb Hub Hle Hor))).
      Unshelve.
      intros w pre Hw. unfold appendInteger.
      rewrite (proj2 (Z.ltb_ge value lb)), (proj2 (Z.leb_le value ub)) by lia.
      rewrite s64_small by lia. cbn [negb andb]. rewrite (proj2 (Z.eqb_neq (ub - lb + 1) 0)) by lia.
      destruct ext; [|reflexivity].
      destruct (bit_puts false w pre Hw) as (w'&E&_). rewrite E. change (Z.b2z false) with 0 in E. rewrite E.
      reflexivity.
    + eapply (roundtrip_puts _ _ _ _ _ (roundtrip_extension (integer_body value lb (-1)) true true
        (λ x, parseInteger x (Some lb) (Some ub)) value ltac:(done) _)).
      Unshelve.
      2: by apply (counted_octets (-1) lb 0 value); [lia|lia|left].
      intros w pre Hw. unfold appendInteger.
      rewrite (proj2 (Z.ltb_ge value lb)), (proj2 (Z.leb_gt value ub)) by lia. cbn [negb andb].
      destruct (bit_puts true w pre Hw) as (w'&E&_). rewrite E. change (Z.b2z true) with 1 in E.
      change (0 =? 0) with true. cbn iota. rewrite E. reflexivity.
  - destruct H as (->&Hlb).
    apply (roundtrip_puts _ (integer_body value lb 0)).
    { intros w pre Hw. unfold appendInteger. rewrite (proj2 (Z.ltb_ge value lb)) by lia. reflexivity. }
    apply (counted_octets 0 lb lb value); [lia|lia|right]. done.
  - rewrite H. apply (roundtrip_puts _ (integer_body value 0 (-1))); [reflexivity|].
    apply (counted_octets (-1) 0 0 value); [lia|lia|by left].
Qed.

(** ** The number of elements of a SEQUENCE OF *)

Definition count_ok (n : Z) (ext : bool) (lo hi : option Z) : Prop :=
  let lb := default 0 lo in
  0 ≤ lb ≤ n ∧ lb < 65536 ∧
  match hi with
  | Some ub => (lb ≤ ub < 65536 ∧ (n ≤ ub ∨ ext = true ∧ n < 256)) ∨ (65536 ≤ ub ∧ ext = false ∧ n < 256)
  | None => ext = false ∧ n < 256
  end.

(** The number as one octet behind an alignment. *)
Lemma count_octet n : 0 ≤ n < 256 →
  roundtrip (λ pd, let pd := appendAlignBits pd in
      Ret (PerRaw (w_bytes pd ++ [u8 (n & 0xff)]) (w_bitsOffset pd)))
    (λ pd, pd ← parseAlignBits pd; next_byte pd) n.
Proof.
  intros Hn. change 0xff with (Z.ones 8). rewrite land_ones_id by done.
  rewrite (wrap_small 8) by done.
  apply (aligned (λ w, Ret (PerRaw (w_bytes w ++ [n]) (w_bitsOffset w))) next_byte n).
  intros pre Hp. exists (byte_bits n). split.
  - rewrite <-bits_of_single. apply put_bytes_puts; [by apply Forall_singleton|done].
  - intros bytes suf Hb Hs E. rewrite (next_byte_at bytes n pre suf) by done.
    by rewrite length_app, byte_bits_length.
Qed.

(** The part of the count behind the extension bit. *)
Definition count_body (n lb ub sizeRange : Z) (pd : perRawBitData) : outcome perRawBitData :=
  if n <? lb then Fail "SEQUENCE OF Size is lower than lowerbound"
  else if sizeRange =? 1 then
    if negb (n =? ub) then Fail "Encoding Length != fix-size" else Ret pd
  else if sizeRange >? 0 then appendConstraintValue sizeRange (u64 (n - lb)) pd
  else
    let pd := appendAlignBits pd in
    Ret (PerRaw (w_bytes pd ++ [u8 (n & 0xff)]) (w_bitsOffset pd)).

Lemma bounded_count n lb ub lo : lb = default 0 lo → 0 ≤ lb ≤ n → n ≤ ub < 65536 →
  roundtrip (count_body n lb ub (ub - lb + 1)) (parse_count false lo (Some ub)) n.
Proof.
  intros Elb Hlb Hub. unfold count_body, parse_count.
  assert (match lo with Some l => if l <? 65536 then l else 0 | None => 0 end = lb) as ->.
  { destruct lo as [l|]; simpl in Elb; [|done]. rewrite (proj2 (Z.ltb_lt l 65536)) by lia. done. }
  rewrite (proj2 (Z.ltb_lt ub 65536)) by lia. cbn [negb andb]. cbv zeta. rewrite (s64_small (ub - lb + 1)) by lia.
  rewrite (proj2 (Z.ltb_ge n lb)), !Z.gtb_ltb by lia.
  rewrite (wrap_small 64 (n - lb)) by (unfold in_width; lia).
  destruct (Z.eqb_spec (ub - lb + 1) 1).
  - assert (n = ub ∧ ub = lb) as [-> ->] by lia. rewrite Z.eqb_refl. cbn [negb].
    rewrite (proj2 (Z.ltb_ge 1 _)) by lia. intros pre. exists []. split; [apply puts_ret|].
    rewrite (wrap_small 64 lb) by (unfold in_width; lia). apply decodes_ret.
  - rewrite !(proj2 (Z.ltb_lt _ _)) by lia. intros pre.
    destruct (constraint_roundtrip (ub - lb + 1) (n - lb)) with (pre := pre) as (e&P&D); [lia| |].
    { pose proof (range_capacity (ub - lb + 1)). lia. }
    exists e. split; [exact P|]. apply (decodes_map (λ c, u64 (c + u64 lb)) _ _ _ (n - lb)); [exact D|].
    rewrite (wrap_small 64 lb) by (unfold in_width; lia). rewrite wrap_small; [lia|unfold in_width; lia].
Qed.

Lemma unbounded_count n x lo hi lb ub : lb ≤ n → 0 ≤ n < 256 →
  x = true ∨ hi = None ∨ (∃ u, hi = Some u ∧ 65536 ≤ u) →
  roundtrip (count_body n lb ub (-1)) (parse_count x lo hi) n.
Proof.
  intros Hlb Hn Hx. unfold count_body, parse_count.
  rewrite (proj2 (Z.ltb_ge n lb)) by lia. change (-1 =? 1) with false. change (-1 >? 0) with false. cbn iota.
  assert (match hi with Some ub => if negb x && (ub <? 65536)
      then s64 (ub - match lo with Some l => if l <? 65536 then l else 0 | None => 0 end + 1) else -1
    | None => -1 end = -1) as ->.
  { destruct hi as [u|]; [|done]. destruct Hx as [->|[|(u'&[= ->]&?)]]; [done|done|].
    rewrite (proj2 (Z.ltb_ge u' 65536)) by lia. by rewrite andb_false_r. }
  apply count_octet. done.
Qed.

Lemma count_roundtrip n ext lo hi : count_ok n ext lo hi →
  roundtrip (append_count n ext lo hi) (with_extension ext (λ x, parse_count x lo hi)) n.
Proof.
  unfold count_ok. set (lb := default 0 lo). intros (Hlb&Hlb'&H).
  assert (match lo with Some l => if l <? 65536 then l else 0 | None => 0 end = lb) as Elb.
  { unfold lb in *. destruct lo as [l|]; simpl in *; [|done]. rewrite (proj2 (Z.ltb_lt l 65536)) by lia. done. }
  destruct hi as [ub|].
  - destruct H as [(Hub&Hor)|(Hub&->&Hn)].
    + destruct (Z.leb_spec n ub) as [Hle|Hgt].
      * eapply (roundtrip_puts _ _ _ _ _ (roundtrip_extension (count_body n lb ub (ub - lb + 1)) ext false
          (λ x, parse_count x lo (Some ub)) n ltac:(done) (bounded_count n lb ub lo eq_refl ltac:(lia) ltac:(lia)))).
        Unshelve. intros w pre Hw. unfold append_count. rewrite Elb, (proj2 (Z.ltb_lt ub 65536)) by lia.
        rewrite Z.gtb_ltb, (proj2 (Z.ltb_ge ub n)), s64_small by lia. destruct ext; [|reflexivity].
        change (Z.b2z false) with 0. by destruct (putBitsValue 0 1 w).
      * destruct Hor as [|[-> Hn]]; [lia|].
        eapply (roundtrip_puts _ _ _ _ _ (roundtrip_extension (count_body n lb ub (-1)) true true
          (λ x, parse_count x lo (Some ub)) n ltac:(done)
          (unbounded_count n true lo (Some ub) lb ub ltac:(lia) ltac:(lia) ltac:(by left)))).
        Unshelve. intros w pre Hw. unfold append_count. rewrite Elb, (proj2 (Z.ltb_lt ub 65536)) by lia.
        rewrite Z.gtb_ltb, (proj2 (Z.ltb_lt ub n)) by lia.
        change (Z.b2z true) with 1. by destruct (putBitsValue 1 1 w).
    + apply (roundtrip_puts _ (count_body n lb (-1) (-1))).
      { intros w pre Hw. unfold append_count. rewrite Elb, (proj2 (Z.ltb_ge ub 65536)) by lia. reflexivity. }
      apply unbounded_count; [lia|lia|]. right. right. by exists ub.
  - destruct H as (->&Hn). apply (roundtrip_puts _ (count_body n lb (-1) (-1))).
    { intros w pre Hw. unfold append_count. rewrite Elb. reflexivity. }
    apply unbounded_count; [lia|lia|]. by right; left.
Qed.

(** ** Open types *)

Lemma open_loop_roundtrip bs fuel pre : bytes_ok bs → blen bs < 16384 →
  ∃ e, puts (appendOpenType_loop (S fuel) (blen bs) 0 bs) pre e ∧
    ∀ fuel', decodes (parseOpenType_loop (S fuel') []) pre e bs.
Proof.
  intros Hb Hlen. assert (0 ≤ blen bs) as H0' by (unfold blen; lia).
  destruct (length_plan _ _ _ pre (length_ok_unbounded (blen bs) ltac:(lia))) as (e1&P1&D1).
  set (z := replicate (pad (length (pre ++ e1))) false).
  assert (length (pre ++ e1 ++ z) mod 8 = 0)%nat as Hal.
  { rewrite app_assoc, length_app. unfold z. rewrite length_replicate. apply pad_spec. }
  destruct (aligned_bytes bs (pre ++ e1 ++ z) (λ c, c) Hb Hal) as [P3 _].
  destruct (Z.eqb_spec (blen bs) 0) as [H0|H0].
  - assert (bs = []) as -> by (destruct bs; [done|unfold blen in H0; simpl in H0; lia]).
    exists e1. split.
    + intros w Hw. cbn [appendOpenType_loop]. rewrite part_length_small by lia.
      destruct (P1 w Hw) as (w1&->&Hw1). ret_bind. exists w1. by split.
    + intros fuel' bytes suf Hbb Hs E. cbn [parseOpenType_loop]. rewrite (D1 bytes suf Hbb Hs E). reflexivity.
  - exists (e1 ++ z ++ bits_of bs). split.
    + intros w Hw. cbn [appendOpenType_loop]. rewrite part_length_small by lia.
      destruct (P1 w Hw) as (w1&->&Hw1). ret_bind. rewrite (proj2 (Z.eqb_neq _ 0)) by done.
      rewrite slice_all by done. ret_bind. rewrite Z.sub_diag. change (u64 0 >? 0) with false. cbn iota.
      destruct (P3 (appendAlignBits w1)) as (w3&Ew3&Hw3).
      { rewrite app_assoc. unfold z. by apply appendAlignBits_spec. }
      injection Ew3 as <-. eexists. split; [reflexivity|]. rewrite <-!app_assoc in *.
      exact Hw3.
    + intros fuel' bytes suf Hbb Hs E. cbn [parseOpenType_loop]. rewrite <-!app_assoc in E.
      rewrite (D1 bytes (z ++ bits_of bs ++ suf) Hbb Hs E). ret_bind. rewrite (proj2 (Z.eqb_neq _ 0)) by done.
      rewrite (align_at (pre ++ e1) bytes (bits_of bs ++ suf)) by (done || by rewrite <-!app_assoc). ret_bind.
      fold z. rewrite <-!app_assoc.
      assert (bits_of bytes = (pre ++ e1 ++ z) ++ bits_of bs ++ suf) as E' by (by rewrite <-!app_assoc).
      destruct (take_bytes_at bytes bs (pre ++ e1 ++ z) suf) as [-> _]; [done..|]. ret_bind.
      cbn [r_bytes r_byteOffset r_bitsOffset at_pos app]. unfold blen. rewrite at_pos_bytes by done.
      set (p := (length (pre ++ e1 ++ z) + 8 * length bs)%nat).
      assert (p = length (pre ++ e1 ++ z ++ bits_of bs)) as Hp.
      { unfold p. rewrite !length_app, bits_of_length. lia. }
      pose proof (align_at (pre ++ e1 ++ z ++ bits_of bs) bytes suf Hbb Hs) as Ha.
      assert (pad (length (pre ++ e1 ++ z ++ bits_of bs)) = 0%nat) as Hpad.
      { apply pad_0. rewrite <-Hp. unfold p. by rewrite Nat.mul_comm, Nat.Div0.mod_add. }
      rewrite Hpad in Ha. rewrite Hp, Ha by (by rewrite E', <-!app_assoc). ret_bind. by rewrite app_nil_r.
Qed.

Lemma open_type_roundtrip {A} makeField (parseField : perBitData → outcome (A * perBitData)) v :
  roundtrip makeField parseField v →
  (∀ o, makeField (PerRaw [] 0) = Ret o → blen (w_bytes o) < 16384) →
  roundtrip (appendOpenType makeField) (parseOpenType parseField) v.
Proof.
  intros H Hsmall pre. destruct (H []) as (ec&Pc&Dc).
  destruct (Pc (PerRaw [] 0) holds_empty) as (o&Eo&Hbo&Hbits&_). cbn [app] in Hbits.
  specialize (Hsmall o Eo). set (bs := w_bytes o) in *.
  destruct (open_loop_roundtrip bs (length bs) pre Hbo Hsmall) as (e&P&D).
  exists e. split.
  - intros w Hw. unfold appendOpenType. rewrite Eo. ret_bind. by apply P.
  - intros bytes suf Hb Hs E. unfold parseOpenType. rewrite (D _ bytes suf Hb Hs E). ret_bind.
    change (PerBitData bs 0 0) with (at_pos bs (length (@nil bool))).
    rewrite (Dc bs (replicate (pad (length ec)) false)); [reflexivity|done| |done].
    unfold sized. lia.
Qed.

(** ** Termination of the fragment loops

    A reader only moves forward, and a fragment that asks for another turn
    takes at least one byte. *)

#[local] Transparent getBitsValue.

Definition reader (r : perBitData) : Prop := sized (r_bytes r) ∧ in_width 3 (r_bitsOffset r).

Definition moves (r r' : perBitData) : Prop :=
  r_bytes r' = r_bytes r ∧ r_byteOffset r ≤ r_byteOffset r' ∧ in_width 3 (r_bitsOffset r').

Lemma moves_reader r r' : reader r → moves r r' → reader r'.
Proof. intros [Hs _] (E&_&Hb). unfold reader. by rewrite E. Qed.

Lemma moves_trans r1 r2 r3 : moves r1 r2 → moves r2 r3 → moves r1 r3.
Proof. intros (?&?&?) (?&?&?). split; [congruence|]. split; [lia|done]. Qed.

Lemma getBitsValue_moves n r v r' : reader r → getBitsValue n r = Ret (v, r') → moves r r'.
Proof.
  intros [Hs _]. unfold getBitsValue. destruct (slice _ _ _) as [tl| |] eqn:E; [|done..]. ret_bind.
  destruct (GetBitsValue _ _ _) as [x| |]; [|done..]. ret_bind. intros [= <- <-].
  unfold slice in E. split; [done|]. unfold bitCarry, sized in *. cbn [r_bytes r_byteOffset r_bitsOffset].
  split; [|change 0x07 with (Z.ones 3); rewrite Z.land_ones by lia; by apply Z.mod_pos_bound].
  destruct (Z.ltb_spec (r_byteOffset r) 0); [done|].
  destruct (Z.ltb_spec (blen (r_bytes r)) (r_byteOffset r)); [done|].
  set (o := u64 (r_bitsOffset r + n)).
  pose proof (wrap_in_width 64 (r_bitsOffset r + n) ltac:(lia)) as Ho. fold o in Ho. unfold in_width in Ho.
  rewrite shiftr3. assert (0 ≤ o / 8 < 2 ^ 61).
  { split; [apply Z.div_pos; lia|]. apply Z.div_lt_upper_bound; lia. }
  rewrite (wrap_small 64) by (unfold in_width; lia). lia.
Qed.

Lemma parseAlignBits_moves r r' : reader r → parseAlignBits r = Ret r' → moves r r'.
Proof.
  intros Hr. unfold parseAlignBits. destruct (_ >? 0) eqn:E.
  - destruct (getBitsValue _ r) as [[v r1]| |] eqn:Eg; [|done..]. ret_bind. destruct (negb _); [done|].
    intros [= <-]. by eapply getBitsValue_moves.
  - destruct Hr as [_ Hb]. change 0x7 with (Z.ones 3) in E. rewrite land_ones_id in E by done.
    rewrite Z.gtb_ltb in E. apply Z.ltb_ge in E. unfold in_width in Hb.
    rewrite (proj2 (Z.eqb_eq _ 0)) by lia. cbn [negb]. intros [= <-]. split; [done|]. by split.
Qed.

Lemma parseConstraintValue_moves sr r v r' : reader r → parseConstraintValue sr r = Ret (v, r') → moves r r'.
Proof.
  intros Hr. unfold parseConstraintValue. destruct (sr <=? 255).
  { destruct (sr <? 0); [done|]. by apply getBitsValue_moves. }
  assert (∀ n, (pd ← parseAlignBits r; getBitsValue n pd) = Ret (v, r') → moves r r') as H.
  { intros n. destruct (parseAlignBits r) as [r1| |] eqn:Ea; [|done..]. ret_bind. intros Eg.
    apply parseAlignBits_moves in Ea as Hm; [|done]. apply (moves_trans _ r1); [done|].
    eapply getBitsValue_moves; [|exact Eg]. by eapply moves_reader. }
  destruct (sr =? 256); [apply H|]. destruct (sr <=? 65536); [apply H|done].
Qed.

Lemma parseLength_moves sr r v rep r' : reader r → parseLength sr r = Ret (v, rep, r') →
  moves r r' ∧ (rep = true → ∃ k, 1 ≤ k ≤ 4 ∧ v = 16384 * k).
Proof.
  intros Hr. unfold parseLength. destruct (_ && _).
  { destruct (parseConstraintValue sr r) as [[x r1]| |] eqn:E; [|done..]. ret_bind. intros [= <- <- <-].
    split; [by eapply parseConstraintValue_moves|done]. }
  destruct (parseAlignBits r) as [r1| |] eqn:Ea; [|done..]. ret_bind.
  apply parseAlignBits_moves in Ea as H1; [|done]. pose proof (moves_reader _ _ Hr H1) as Hr1.
  destruct (getBitsValue 8 r1) as [[b r2]| |] eqn:Eg; [|done..]. ret_bind.
  apply getBitsValue_moves in Eg as H2; [|done]. pose proof (moves_reader _ _ Hr1 H2) as Hr2.
  pose proof (moves_trans _ _ _ H1 H2) as H12.
  destruct (b & 128 =? 0); [intros [= <- <- <-]; by split|].
  destruct (b & 64 =? 0).
  - destruct (getBitsValue 8 r2) as [[b2 r3]| |] eqn:Eg3; [|done..]. ret_bind. intros [= <- <- <-].
    apply getBitsValue_moves in Eg3 as H3; [|done]. split; [by eapply moves_trans|done].
  - cbv zeta. set (k := b & 63). destruct (Z.ltb_spec k 1); [done|]. rewrite Z.gtb_ltb.
    destruct (Z.ltb_spec 4 k); [done|]. intros [= <- <- <-]. split; [done|]. intros _. exists k.
    split; [lia|]. apply wrap_small. unfold in_width. lia.
Qed.

(** A chunk lies inside the data. *)
Lemma take_bytes_inside n r c : take_bytes n r = Ret c → 0 ≤ r_byteOffset r ∧ 0 ≤ n ∧ r_byteOffset r + n ≤ blen (r_bytes r).
Proof.
  unfold take_bytes, slice. destruct (_ >? _); [done|].
  destruct (Z.ltb_spec (r_byteOffset r) 0), (Z.ltb_spec (r_byteOffset r + n) (r_byteOffset r)),
    (Z.ltb_spec (blen (r_bytes r)) (r_byteOffset r + n)); try done. lia.
Qed.

(** The turns left: the data behind the reader. *)
Definition turns (r : perBitData) : nat := Z.to_nat (blen (r_bytes r) - r_byteOffset r).

Lemma octet_loop_fuel lb sr fuel fuel' os r : reader r → 0 ≤ lb < 2 ^ 62 →
  (turns r < fuel)%nat → (turns r < fuel')%nat →
  parseOctetString_loop fuel lb sr os r = parseOctetString_loop fuel' lb sr os r.
Proof.
  revert fuel' os r. induction fuel as [|fuel IH]; intros [|fuel'] os r Hr Hlb Hf Hf'; try lia.
  cbn [parseOctetString_loop].
  destruct (parseLength sr r) as [[[v rep] r1]| |] eqn:El; [|done..]. ret_bind.
  apply parseLength_moves in El as [H1 Hrep]; [|done]. pose proof (moves_reader _ _ Hr H1) as Hr1.
  destruct (_ =? 0); [done|].
  destruct (parseAlignBits r1) as [r2| |] eqn:Ea; [|done..]. ret_bind.
  apply parseAlignBits_moves in Ea as H2; [|done]. pose proof (moves_reader _ _ Hr1 H2) as Hr2.
  pose proof (moves_trans _ _ _ H1 H2) as (E12&Ho&_).
  destruct (take_bytes _ r2) as [c| |] eqn:Et; [|done..]. ret_bind. apply take_bytes_inside in Et.
  destruct rep; [|done]. destruct (Hrep eq_refl) as (k&Hk&->).
  rewrite (wrap_small 64 lb) in * by (unfold in_width; lia).
  rewrite (wrap_small 64 (16384 * k + lb)) in * by (unfold in_width; lia).
  assert (turns (PerBitData (r_bytes r2) (r_byteOffset r2 + (16384 * k + lb)) (r_bitsOffset r2)) < turns r)%nat.
  { unfold turns. cbn [r_bytes r_byteOffset]. rewrite <-E12. lia. }
  apply IH; [exact Hr2|done|lia|lia].
Qed.

Lemma bit_loop_fuel lb sr fuel fuel' bs len r : reader r → 0 ≤ lb < 2 ^ 62 →
  (turns r < fuel)%nat → (turns r < fuel')%nat →
  parseBitString_loop fuel lb sr bs len r = parseBitString_loop fuel' lb sr bs len r.
Proof.
  revert fuel' bs len r. induction fuel as [|fuel IH]; intros [|fuel'] bs len r Hr Hlb Hf Hf'; try lia.
  cbn [parseBitString_loop].
  destruct (parseLength sr r) as [[[v rep] r1]| |] eqn:El; [|done..]. ret_bind.
  apply parseLength_moves in El as [H1 Hrep]; [|done]. pose proof (moves_reader _ _ Hr H1) as Hr1.
  destruct (_ =? 0); [done|].
  destruct (parseAlignBits r1) as [r2| |] eqn:Ea; [|done..]. ret_bind.
  apply parseAlignBits_moves in Ea as H2; [|done]. pose proof (moves_reader _ _ Hr1 H2) as Hr2.
  pose proof (moves_trans _ _ _ H1 H2) as (E12&Ho&_).
  destruct (take_bytes _ r2) as [c| |] eqn:Et; [|done..]. ret_bind. apply take_bytes_inside in Et.
  destruct rep; [|done]. destruct (Hrep eq_refl) as (k&Hk&->).
  rewrite (wrap_small 64 lb) in * by (unfold in_width; lia).
  rewrite (wrap_small 64 (16384 * k + lb)) in * by (unfold in_width; lia).
  set (n := 16384 * k + lb) in *. rewrite (wrap_small 64 (n + 7)) in * by (unfold in_width; lia).
  rewrite shiftr3 in *. assert (2 ≤ (n + 7) / 8) as Hn by (apply Z.div_le_lower_bound; lia).
  set (r3 := skip_bits ((n + 7) / 8) n r2).
  assert (reader r3) as Hr3.
  { destruct Hr2 as [Hs _]. split; [exact Hs|]. unfold r3, skip_bits. cbn [r_bitsOffset].
    change 0x7 with (Z.ones 3). rewrite Z.land_ones by lia. by apply Z.mod_pos_bound. }
  assert (turns r3 < turns r)%nat.
  { unfold turns, r3, skip_bits. cbn [r_bytes r_byteOffset]. rewrite <-E12. destruct (_ >? 0); lia. }
  apply IH; [done|done|lia|lia].
Qed.

Lemma open_loop_fuel fuel fuel' acc r : reader r → (turns r < fuel)%nat → (turns r < fuel')%nat →
  parseOpenType_loop fuel acc r = parseOpenType_loop fuel' acc r.
Proof.
  revert fuel' acc r. induction fuel as [|fuel IH]; intros [|fuel'] acc r Hr Hf Hf'; try lia.
  cbn [parseOpenType_loop].
  destruct (parseLength (-1) r) as [[[v rep] r1]| |] eqn:El; [|done..]. ret_bind.
  apply parseLength_moves in El as [H1 Hrep]; [|done]. pose proof (moves_reader _ _ Hr H1) as Hr1.
  destruct (v =? 0); [done|].
  destruct (parseAlignBits r1) as [r2| |] eqn:Ea; [|done..]. ret_bind.
  apply parseAlignBits_moves in Ea as H2; [|done]. pose proof (moves_reader _ _ Hr1 H2) as Hr2.
  pose proof (moves_trans _ _ _ H1 H2) as (E12&Ho&_).
  destruct (take_bytes _ r2) as [c| |] eqn:Et; [|done..]. ret_bind. apply take_bytes_inside in Et.
  destruct rep; [|done]. destruct (Hrep eq_refl) as (k&Hk&->).
  assert (turns (PerBitData (r_bytes r2) (r_byteOffset r2 + 16384 * k) (r_bitsOffset r2)) < turns r)%nat.
  { unfold turns. cbn [r_bytes r_byteOffset]. rewrite <-E12. lia. }
  apply IH; [exact Hr2|lia|lia].
Qed.
