(* ===== verification/AperProps.v ===== *)
(** * lib/aper: what the codec guarantees

    The end-to-end statements on the primitive types of the codec: what every
    writer puts at any position, the reader with the same constraint gets
    back; and the inputs on which writer and reader disagree. *)

From S2P Require Import Prelude AperBits AperPrim AperCodec.

#[local] Open Scope Z_scope.
#[local] Open Scope go_scope.

(** An INTEGER written by appendInteger at any position of a message is
    read back by parseField's extension bit and parseInteger, which stop
    right behind it: unconstrained, semi-constrained, of a small or a large
    range, and beyond the upper bound of an extensible type. *)
Theorem aper_integer_roundtrip value ext lo hi : integer_ok value ext lo hi →
  roundtrip (appendInteger value ext lo hi) (with_extension ext (λ x, parseInteger x lo hi)) value.
Proof. apply integer_roundtrip. Qed.

Lemma aper_integer_roundtrip_witness :
  integer_ok (-3) false None None ∧ integer_ok 300 true (Some 0) (Some 255) ∧
  integer_ok 1099511627775 false (Some 0) (Some 1099511627775) ∧
  roundtrip (appendInteger 1099511627775 false (Some 0) (Some 1099511627775))
    (with_extension false (λ x, parseInteger x (Some 0) (Some 1099511627775))) 1099511627775.
Proof.
  assert (integer_ok 1099511627775 false (Some 0) (Some 1099511627775)) as H.
  { split; [lia|]. split; [lia|]. split; [lia|]. left. split; [lia|]. right. split; [reflexivity|]. vm_compute. reflexivity. }
  split; [by split|]. split; [split; [lia|]; split; [lia|]; split; [lia|]; right; split; [done|lia]|].
  split; [exact H|]. exact (aper_integer_roundtrip 1099511627775 false (Some 0) (Some 1099511627775) H).
Defined.

(** An OCTET STRING of fewer than 16384 octets written by
    appendOctetString at any position is read back whole by parseOctetString,
    for every size constraint: none, a lower bound, a range, a fixed size, and
    a length beyond an extensible range. *)
Theorem aper_octet_string_roundtrip bs ext lo hi : valid_octets bs ext lo hi →
  roundtrip (appendOctetString bs ext lo hi) (with_extension ext (λ x, parseOctetString x lo hi)) bs.
Proof. apply octets_roundtrip. Qed.

Lemma aper_octet_string_roundtrip_witness :
  valid_octets [1; 2; 3; 4] false (Some 4) (Some 4) ∧
  roundtrip (appendOctetString [1; 2; 3; 4] false (Some 4) (Some 4))
    (with_extension false (λ x, parseOctetString x (Some 4) (Some 4))) [1; 2; 3; 4].
Proof.
  assert (valid_octets [1; 2; 3; 4] false (Some 4) (Some 4)) as H.
  { split; [repeat (constructor; [by split|]); constructor|]. split; [lia|]. split; [lia|]. left.
    split; [by split|]. by split. }
  split; [exact H|]. exact (aper_octet_string_roundtrip [1; 2; 3; 4] false (Some 4) (Some 4) H).
Defined.

(** A BIT STRING of fewer than 16384 bits written by appendBitString at
    any position is read back by parseBitString: the same number of bits and
    bytes, and every bit equal (the unused bits of the last byte may differ). *)
Theorem aper_bit_string_roundtrip bs n ext lo hi pre : valid_bits bs n ext lo hi →
  ∃ e, (∀ w, holds w pre → ∃ w' bs',
      appendBitString bs (Z.of_nat n) ext lo hi w = Ret (w', bs') ∧ holds w' (pre ++ e)) ∧
    ∀ bytes suf, bytes_ok bytes → sized bytes → bits_of bytes = pre ++ e ++ suf → ∃ v,
      with_extension ext (λ x, parseBitString x lo hi) (at_pos bytes (length pre))
      = Ret (v, at_pos bytes (length (pre ++ e))) ∧ bits_read bs n v.
Proof. apply bit_string_roundtrip. Qed.

Lemma aper_bit_string_roundtrip_witness :
  valid_bits [0xab; 0xc0] 10 true (Some 1) (Some 160) ∧
  ∃ e, (∀ w, holds w [true] → ∃ w' bs',
      appendBitString [0xab; 0xc0] (Z.of_nat 10) true (Some 1) (Some 160) w = Ret (w', bs') ∧ holds w' ([true] ++ e)) ∧
    ∀ bytes suf, bytes_ok bytes → sized bytes → bits_of bytes = [true] ++ e ++ suf → ∃ v,
      with_extension true (λ x, parseBitString x (Some 1) (Some 160)) (at_pos bytes (length [true]))
      = Ret (v, at_pos bytes (length ([true] ++ e))) ∧ bits_read [0xab; 0xc0] 10 v.
Proof.
  assert (valid_bits [0xab; 0xc0] 10 true (Some 1) (Some 160)) as H.
  { split; [repeat (constructor; [by split|]); constructor|]. split; [reflexivity|]. split; [lia|]. split; [lia|].
    left. split; [lia|]. split; [lia|done]. }
  split; [exact H|]. exact (aper_bit_string_roundtrip [0xab; 0xc0] 10 true (Some 1) (Some 160) [true] H).
Defined.

(** An open type (the information elements of every NGAP message) whose
    content is shorter than 16384 bytes is read back by parseOpenType when its
    content is read back by the parser of the content. *)
Theorem aper_open_type_roundtrip {A} makeField (parseField : perBitData → outcome (A * perBitData)) v :
  roundtrip makeField parseField v →
  (∀ o, makeField (PerRaw [] 0) = Ret o → blen (w_bytes o) < 16384) →
  roundtrip (appendOpenType makeField) (parseOpenType parseField) v.
Proof. apply open_type_roundtrip. Qed.

Lemma aper_open_type_roundtrip_witness :
  roundtrip (appendBool true) parseBool true ∧
  roundtrip (appendOpenType (appendBool true)) (parseOpenType parseBool) true.
Proof.
  split; [exact (bool_roundtrip true)|].
  apply (aper_open_type_roundtrip (appendBool true) parseBool true (bool_roundtrip true)).
  intros o Ho. vm_compute in Ho. injection Ho as <-. reflexivity.
Defined.

(** The number of elements of a SEQUENCE OF is read back for every size
    constraint; without an upper bound only below 256, the one octet the code
    writes. *)
Theorem aper_sequence_count_roundtrip n ext lo hi : count_ok n ext lo hi →
  roundtrip (append_count n ext lo hi) (with_extension ext (λ x, parse_count x lo hi)) n.
Proof. apply count_roundtrip. Qed.

Lemma aper_sequence_count_roundtrip_witness :
  count_ok 17 true (Some 1) (Some 16) ∧
  roundtrip (append_count 17 true (Some 1) (Some 16))
    (with_extension true (λ x, parse_count x (Some 1) (Some 16))) 17.
Proof.
  assert (count_ok 17 true (Some 1) (Some 16)) as H.
  { split; [simpl; lia|]. split; [simpl; lia|]. left. split; [simpl; lia|]. right. split; [done|lia]. }
  split; [exact H|]. exact (aper_sequence_count_roundtrip 17 true (Some 1) (Some 16) H).
Defined.

(** BOOLEAN, ENUMERATED (without extension) and the index of a CHOICE are
    read back at any position. *)
Theorem aper_whole_numbers_roundtrip b v present ub : 0 ≤ v ≤ ub → 1 ≤ present ≤ ub + 1 → ub < 65536 →
  roundtrip (appendBool b) parseBool b ∧
  roundtrip (appendEnumerated v false (Some 0) (Some ub)) (parseEnumerated false (Some 0) (Some ub)) v ∧
  roundtrip (appendChoiceIndex present false (Some ub)) (getChoiceIndex false (Some ub)) present.
Proof.
  intros Hv Hp Hub. split; [apply bool_roundtrip|]. split; [by apply enumerated_roundtrip|by apply choice_roundtrip].
Qed.

Lemma aper_whole_numbers_roundtrip_witness :
  (0 ≤ 1 ≤ 3 ∧ 1 ≤ 4 ≤ 3 + 1 ∧ 3 < 65536) ∧
  roundtrip (appendBool false) parseBool false ∧
  roundtrip (appendEnumerated 1 false (Some 0) (Some 3)) (parseEnumerated false (Some 0) (Some 3)) 1 ∧
  roundtrip (appendChoiceIndex 4 false (Some 3)) (getChoiceIndex false (Some 3)) 4.
Proof. split; [lia|]. apply (aper_whole_numbers_roundtrip false 1 4 3); [split; discriminate|split; discriminate|reflexivity]. Defined.

(** C38. getBitsValue returns the next [n] bits as a number and moves by [n];
    asking for more bits than the data has is an error, not a read out of
    range. *)
Theorem aper_read_bounds bytes pos n : bytes_ok bytes → sized bytes →
  (pos ≤ 8 * length bytes)%nat → (0 < n)%nat → Z.of_nat n < 2 ^ 63 →
  getBitsValue (Z.of_nat n) (at_pos bytes pos) =
    if decide (pos + n ≤ 8 * length bytes)%nat
    then Ret (u64 (bits_val (take n (drop pos (bits_of bytes)))), at_pos bytes (pos + n))
    else Fail "Get bits overflow".
Proof.
  intros Hb Hs Hp Hn Hlt. destruct (decide (pos + n ≤ 8 * length bytes)%nat) as [Hle|Hgt].
  - by apply getBitsValue_at.
  - apply Nat.nle_gt in Hgt. by apply getBitsValue_overflow.
Qed.

Lemma aper_read_bounds_witness :
  (bytes_ok [0xa5] ∧ sized [0xa5]) ∧
  getBitsValue (Z.of_nat 3) (at_pos [0xa5] 2) = Ret (4, at_pos [0xa5] 5) ∧
  getBitsValue (Z.of_nat 7) (at_pos [0xa5] 2) = Fail "Get bits overflow".
Proof.
  assert (bytes_ok [0xa5]) as Hb by (by constructor).
  assert (sized [0xa5]) as Hs by done.
  split; [done|]. split.
  - rewrite (aper_read_bounds [0xa5] 2 3 Hb Hs ltac:(simpl; lia) ltac:(lia) ltac:(lia)). vm_compute. reflexivity.
  - rewrite (aper_read_bounds [0xa5] 2 7 Hb Hs ltac:(simpl; lia) ltac:(lia) ltac:(lia)). vm_compute. reflexivity.
Defined.

(** The three loops over length fragments end on any input, however it
    was made up: every turn that asks for another one has consumed data, so
    the fuel the readers use is enough and more of it changes nothing. *)
Theorem aper_fragments_terminate bytes pos lb sizeRange fuel : sized bytes → 0 ≤ lb < 2 ^ 62 →
  (length bytes < fuel)%nat →
  (∀ os, parseOctetString_loop fuel lb sizeRange os (at_pos bytes pos)
    = parseOctetString_loop (S (length bytes)) lb sizeRange os (at_pos bytes pos)) ∧
  (∀ bs len, parseBitString_loop fuel lb sizeRange bs len (at_pos bytes pos)
    = parseBitString_loop (S (length bytes)) lb sizeRange bs len (at_pos bytes pos)) ∧
  (∀ acc, parseOpenType_loop fuel acc (at_pos bytes pos)
    = parseOpenType_loop (S (length bytes)) acc (at_pos bytes pos)).
Proof.
  intros Hs Hlb Hf.
  assert (reader (at_pos bytes pos)) as Hr.
  { split; [exact Hs|]. cbn [at_pos r_bitsOffset]. destruct (pos_split pos). unfold in_width. lia. }
  assert (turns (at_pos bytes pos) ≤ length bytes)%nat as Ht
    by (unfold turns, blen; cbn [at_pos r_bytes r_byteOffset]; lia).
  split; [intros os; apply octet_loop_fuel; try done; lia|].
  split; [intros bs len; apply bit_loop_fuel; try done; lia|intros acc; apply open_loop_fuel; try done; lia].
Qed.

Lemma aper_fragments_terminate_witness :
  (sized [0xc1; 0xc4] ∧ 0 ≤ 0 < 2 ^ 62 ∧ (length [0xc1; 0xc4] < 100)%nat) ∧
  ∀ acc, parseOpenType_loop 100 acc (at_pos [0xc1; 0xc4] 0)
    = parseOpenType_loop (S (length [0xc1; 0xc4])) acc (at_pos [0xc1; 0xc4] 0).
Proof.
  assert (sized [0xc1; 0xc4]) as Hs by reflexivity.
  split; [split; [exact Hs|split; [lia|simpl; lia]]|].
  apply (aper_fragments_terminate [0xc1; 0xc4] 0 0 (-1) 100 Hs ltac:(lia) ltac:(simpl; lia)).
Defined.

(** Strings of exactly 65536 octets: the first fragment's length is
    computed as [65536 & 0xc000], which is 0, so the writer emits the
    encoding of the empty string and drops the content. *)
Theorem aper_fragment_65536_dropped bs w : blen bs = 65536 →
  appendOctetString bs false None None w = appendOctetString [] false None None w.
Proof.
  intros Hl. unfold appendOctetString, string_bounds. rewrite Hl. change (blen (@nil Z)) with 0. ret_bind.
  change (-1 =? 1) with false. cbn iota. change (u64 (65536 - u64 0)) with 65536. change (u64 (0 - u64 0)) with 0.
  cbn [appendOctetString_loop]. change (part_length 65536) with 0. change (part_length 0) with 0.
  destruct (appendLength (-1) 0 w); reflexivity.
Qed.

Lemma aper_fragment_65536_dropped_witness :
  blen (replicate (256 * 256) 7) = 65536 ∧
  appendOctetString (replicate (256 * 256) 7) false None None (PerRaw [] 0) = Ret (PerRaw [0] 0).
Proof.
  assert (blen (replicate (256 * 256) 7) = 65536) as H.
  { unfold blen. rewrite length_replicate. by rewrite Nat2Z.inj_mul. }
  split; [exact H|]. rewrite (aper_fragment_65536_dropped (replicate (256 * 256) 7) (PerRaw [] 0) H).
  vm_compute. reflexivity.
Defined.

(** Writer and reader disagree on three kinds of input: an INTEGER of a
    large range whose top octet is 1 (appendInteger stops counting octets one
    early), a fixed-size OCTET STRING of at most two octets with fewer octets
    than its size (written without an error), and a string of exactly 16384
    octets (written without the closing length octet). *)
Theorem aper_writer_reader_mismatch :
  (∃ w, appendInteger 300 false (Some 0) (Some 100000) (PerRaw [] 0) = Ret w ∧
     parseInteger false (Some 0) (Some 100000) (PerBitData (w_bytes w) 0 0) = Fail "Get bits overflow") ∧
  (∃ w, appendOctetString [1] false (Some 2) (Some 2) (PerRaw [] 0) = Ret w ∧
     parseOctetString false (Some 2) (Some 2) (PerBitData (w_bytes w) 0 0) = Fail "Get bits overflow") ∧
  (∃ w, appendOctetString (replicate (128 * 128) 7) false None None (PerRaw [] 0) = Ret w ∧
     parseOctetString false None None (PerBitData (w_bytes w) 0 0) = Fail "Get bits overflow").
Proof.
  split; [|split]; eexists; (split; [vm_compute; reflexivity|vm_compute; reflexivity]).
Qed.
