(* ===== verification/Chaos.v ===== *)
(** * internal/chaos: dropping, delaying and fuzzing of messages

    The manager's rules and counters are a record, the random numbers a state
    [G] of class [Rand] that every draw advances.  Probabilities and rolls are
    rationals (every finite float64 is one), durations nanoseconds.  The locks
    are left out: each function is one atomic step here. *)

From S2P Require Import Prelude.
From Stdlib Require Export QArith.QArith_base.

#[local] Open Scope Z_scope.
#[local] Open Scope go_scope.

(** math/rand as the code uses it. *)
Class Rand (G : Type) := {
  Float64 : G → Q * G;
  Intn : Z → G → Z * G;
  Read : nat → G → list Z * G;
  Float64_range g : (0 <= fst (Float64 g) /\ fst (Float64 g) < 1)%Q;
  Intn_range n g : 0 < n → 0 ≤ fst (Intn n g) < n;
  Read_length n g : length (fst (Read n g)) = n;
}.

(** [rand.Intn(n)] panics for [n <= 0]. *)
Definition intn {G} `{Rand G} (n : Z) (g : G) : outcome (Z * G) :=
  if n <=? 0 then Panic else Ret (Intn n g).

Definition Qltb (a b : Q) : bool := negb (Qle_bool b a).

Record ChaosConfig := {
  DropProbability : Q;
  DelayDuration : Z;
  TargetMsgType : string;
  Enabled : bool;
}.

Record FuzzConfig := {
  TargetMsg : string;
  FuzzType : string;
  Probability : Q;
  FuzzEnabled : bool;
}.

Record ChaosManager := {
  NasRules : gmap Z ChaosConfig;
  NgapRules : gmap string ChaosConfig;
  DroppedNas : Z;
  DelayedNas : Z;
  DroppedNgap : Z;
  DelayedNgap : Z;
  FuzzRule : FuzzConfig;
  FuzzedMsgs : Z;
}.

Definition NoFuzz : FuzzConfig := {| TargetMsg := ""; FuzzType := ""; Probability := 0; FuzzEnabled := false |}.

Definition GlobalChaosManager : ChaosManager :=
  {| NasRules := ∅; NgapRules := ∅; DroppedNas := 0; DelayedNas := 0; DroppedNgap := 0; DelayedNgap := 0;
     FuzzRule := NoFuzz; FuzzedMsgs := 0 |}.

Definition ConfigureNas (ueId : Z) (config : ChaosConfig) (m : ChaosManager) : ChaosManager :=
  {| NasRules := <[ueId := config]> (NasRules m); NgapRules := NgapRules m;
     DroppedNas := DroppedNas m; DelayedNas := DelayedNas m;
     DroppedNgap := DroppedNgap m; DelayedNgap := DelayedNgap m;
     FuzzRule := FuzzRule m; FuzzedMsgs := FuzzedMsgs m |}.

Definition ConfigureNgap (gnbId : string) (config : ChaosConfig) (m : ChaosManager) : ChaosManager :=
  {| NasRules := NasRules m; NgapRules := <[gnbId := config]> (NgapRules m);
     DroppedNas := DroppedNas m; DelayedNas := DelayedNas m;
     DroppedNgap := DroppedNgap m; DelayedNgap := DelayedNgap m;
     FuzzRule := FuzzRule m; FuzzedMsgs := FuzzedMsgs m |}.

Definition Reset_ (m : ChaosManager) : ChaosManager :=
  {| NasRules := ∅; NgapRules := ∅; DroppedNas := 0; DelayedNas := 0; DroppedNgap := 0; DelayedNgap := 0;
     FuzzRule := FuzzRule m; FuzzedMsgs := FuzzedMsgs m |}.

Definition GetStats (m : ChaosManager) : gmap string Z :=
  list_to_map [("droppedNas"%string, DroppedNas m); ("delayedNas"%string, DelayedNas m);
    ("droppedNgap"%string, DroppedNgap m); ("delayedNgap"%string, DelayedNgap m)].

(** [++] on an int64 counter. *)
Definition incr (z : Z) : Z := s64 (z + 1).

Definition add_nas (dropped delayed : bool) (m : ChaosManager) : ChaosManager :=
  {| NasRules := NasRules m; NgapRules := NgapRules m;
     DroppedNas := if dropped then incr (DroppedNas m) else DroppedNas m;
     DelayedNas := if delayed then incr (DelayedNas m) else DelayedNas m;
     DroppedNgap := DroppedNgap m; DelayedNgap := DelayedNgap m;
     FuzzRule := FuzzRule m; FuzzedMsgs := FuzzedMsgs m |}.

Definition add_ngap (dropped delayed : bool) (m : ChaosManager) : ChaosManager :=
  {| NasRules := NasRules m; NgapRules := NgapRules m;
     DroppedNas := DroppedNas m; DelayedNas := DelayedNas m;
     DroppedNgap := if dropped then incr (DroppedNgap m) else DroppedNgap m;
     DelayedNgap := if delayed then incr (DelayedNgap m) else DelayedNgap m;
     FuzzRule := FuzzRule m; FuzzedMsgs := FuzzedMsgs m |}.

Definition add_fuzzed (m : ChaosManager) : ChaosManager :=
  {| NasRules := NasRules m; NgapRules := NgapRules m;
     DroppedNas := DroppedNas m; DelayedNas := DelayedNas m;
     DroppedNgap := DroppedNgap m; DelayedNgap := DelayedNgap m;
     FuzzRule := FuzzRule m; FuzzedMsgs := incr (FuzzedMsgs m) |}.

Definition ConfigureFuzz (config : FuzzConfig) (m : ChaosManager) : ChaosManager :=
  {| NasRules := NasRules m; NgapRules := NgapRules m;
     DroppedNas := DroppedNas m; DelayedNas := DelayedNas m;
     DroppedNgap := DroppedNgap m; DelayedNgap := DelayedNgap m;
     FuzzRule := config; FuzzedMsgs := FuzzedMsgs m |}.

(** ** Names of NAS messages *)

Definition SetLastNasMsgType (ueId : Z) (msgType : string) (last : gmap Z string) : gmap Z string :=
  <[ueId := msgType]> last.

Definition GetLastNasMsgType (ueId : Z) (last : gmap Z string) : string :=
  default "CipheredNAS"%string (last !! ueId).

(** The cases of a [switch] on a code. *)
Fixpoint switch (cases : list (Z * string)) (code : Z) : option string :=
  match cases with
  | [] => None
  | (c, s) :: cases => if code =? c then Some s else switch cases code
  end.

Definition gmm_cases : list (Z * string) := (
  [(0x41, "RegistrationRequest"); (0x42, "RegistrationAccept"); (0x43, "RegistrationComplete");
   (0x44, "RegistrationReject"); (0x45, "DeregistrationRequest"); (0x46, "DeregistrationAccept");
   (0x54, "ServiceRequest"); (0x56, "ServiceReject"); (0x57, "ServiceAccept");
   (0x64, "AuthenticationRequest"); (0x65, "AuthenticationResponse"); (0x67, "AuthenticationFailure");
   (0x68, "SecurityModeCommand"); (0x69, "SecurityModeComplete"); (0x6a, "SecurityModeReject");
   (0x6e, "IdentityRequest"); (0x6f, "IdentityResponse")])%string.

Definition gsm_cases : list (Z * string) := (
  [(0xc1, "PduSessionEstablishmentRequest"); (0xc2, "PduSessionEstablishmentAccept");
   (0xc3, "PduSessionEstablishmentReject"); (0xc5, "PduSessionModificationRequest");
   (0xc6, "PduSessionModificationCommand"); (0xc7, "PduSessionModificationComplete");
   (0xca, "PduSessionReleaseRequest"); (0xcb, "PduSessionReleaseCommand");
   (0xcc, "PduSessionReleaseComplete")])%string.

Definition GetNasMsgNameFromBytes (msg : list Z) (ueId : Z) (last : gmap Z string) : string :=
  match msg with
  | m0 :: m1 :: m2 :: rest =>
    let plain := if (m0 =? 0x7e) && (m1 =? 0x00) then switch gmm_cases m2 else None in
    let gsm := match rest with
      | m3 :: _ => if m0 =? 0x2e then switch gsm_cases m3 else None
      | [] => None end in
    match plain, gsm with
    | Some name, _ => name
    | None, Some name => name
    | None, None =>
      if (m0 =? 0x7e) && negb (m1 =? 0x00) then GetLastNasMsgType ueId last else "NAS-Message"%string
    end
  | _ => "Unknown"%string
  end.

(** ** Verdicts *)

Section Eval.
Context {G : Type} `{Rand G}.

(** The drop and delay decision of a matching rule. *)
Definition verdict (config : ChaosConfig) (g : G) : bool * Z * G :=
  let '(drop, g) :=
    if Qltb 0 (DropProbability config)
    then let '(roll, g) := Float64 g in (Qltb roll (DropProbability config), g)
    else (false, g) in
  (drop, if negb drop && (DelayDuration config >? 0) then DelayDuration config else 0, g).

(** A rule applies when it is enabled and names no or this message type. *)
Definition applies (target messageType : string) (enabled : bool) : bool :=
  enabled && ((target =? "")%string || (target =? messageType)%string).

(** [(shouldDrop, delay)], the manager and the random state. *)
Definition EvalNas (ueId : Z) (messageType : string) (m : ChaosManager) (g : G) : bool * Z * ChaosManager * G :=
  match NasRules m !! ueId with
  | None => (false, 0, m, g)
  | Some config =>
    if applies (TargetMsgType config) messageType (Enabled config) then
      let '(drop, delay, g) := verdict config g in
      (drop, delay, add_nas drop (negb drop && (DelayDuration config >? 0)) m, g)
    else (false, 0, m, g)
  end.

Definition EvalNgap (gnbId : string) (messageType : string) (m : ChaosManager) (g : G)
  : bool * Z * ChaosManager * G :=
  match NgapRules m !! gnbId with
  | None => (false, 0, m, g)
  | Some config =>
    if applies (TargetMsgType config) messageType (Enabled config) then
      let '(drop, delay, g) := verdict config g in
      (drop, delay, add_ngap drop (negb drop && (DelayDuration config >? 0)) m, g)
    else (false, 0, m, g)
  end.

(** [flips] times: flip a random bit. *)
Fixpoint bit_flips (flips : nat) (fuzzed : list Z) (g : G) : outcome (list Z * G) :=
  match flips with
  | O => Ret (fuzzed, g)
  | S flips =>
    '(byteIdx, g) ← intn (blen fuzzed) g;
    '(bitIdx, g) ← intn 8 g;
    x ← rd fuzzed byteIdx;
    fuzzed ← wr fuzzed byteIdx (x ⊕ shl 8 1 bitIdx);
    bit_flips flips fuzzed g
  end.

Definition mutate (fuzzType : string) (fuzzed : list Z) (g : G) : outcome (list Z * G) :=
  if (fuzzType =? "bit_flip")%string then
    if blen fuzzed >? 0 then '(f, g) ← intn 3 g; bit_flips (Z.to_nat (f + 1)) fuzzed g
    else Ret (fuzzed, g)
  else if (fuzzType =? "truncate")%string then
    if blen fuzzed >? 4 then
      '(n, g) ← intn (blen fuzzed - 4) g; fuzzed ← slice fuzzed 0 (n + 4); Ret (fuzzed, g)
    else Ret (fuzzed, g)
  else if (fuzzType =? "overflow")%string then
    let '(junk, g) := Read 256 g in Ret (fuzzed ++ junk, g)
  else if (fuzzType =? "zero_out")%string then
    if blen fuzzed >? 4 then
      '(start, g) ← intn (blen fuzzed - 2) g;
      '(l, g) ← intn (blen fuzzed - start) g;
      let length := l + 1 in
      let length := if start + length >? blen fuzzed then blen fuzzed - start else length in
      fuzzed ← forM (seqZ start length) (λ i fuzzed, wr fuzzed i 0) fuzzed;
      Ret (fuzzed, g)
    else Ret (fuzzed, g)
  else Ret (fuzzed, g).

Definition EvalFuzz (messageType : string) (msg : list Z) (m : ChaosManager) (g : G)
  : outcome (bool * list Z * ChaosManager * G) :=
  let rule := FuzzRule m in
  if negb (applies (TargetMsg rule) messageType (FuzzEnabled rule)) then Ret (false, msg, m, g) else
  let '(roll, g) := Float64 g in
  if Qle_bool (Probability rule) roll then Ret (false, msg, m, g) else
  '(fuzzed, g) ← mutate (FuzzType rule) msg g;
  Ret (true, fuzzed, add_fuzzed m, g).

(** The path of an outgoing NAS message in [sender.SendToGnb]: what is
    written to the connection, if anything. *)
Definition outgoing (ueId : Z) (message : list Z) (last : gmap Z string) (m : ChaosManager) (g : G)
  : outcome (option (list Z) * ChaosManager * G) :=
  let msgType := GetNasMsgNameFromBytes message ueId last in
  '(_, message, m, g) ← EvalFuzz msgType message m g;
  let '(shouldDrop, _, m, g) := EvalNas ueId msgType m g in
  Ret (if shouldDrop : bool then None else Some message, m, g).
End Eval.

(** ** Properties *)

Lemma Qltb_spec a b : Qltb a b = true ↔ (a < b)%Q.
Proof.
  unfold Qltb. rewrite negb_true_iff, <-not_true_iff_false, Qle_bool_iff. split.
  - intros Hn. by apply Qnot_le_lt.
  - intros Hlt Hle. by apply (Qle_not_lt _ _ Hle).
Qed.

Lemma Qltb_false a b : Qltb a b = false ↔ (b <= a)%Q.
Proof. unfold Qltb. rewrite negb_false_iff. apply Qle_bool_iff. Qed.

Section Spec.
Context {G : Type} `{Rand G}.

Lemma verdict_spec config (g : G) : let '(drop, delay, g') := verdict config g in
  drop = Qltb 0 (DropProbability config) && Qltb (fst (Float64 g)) (DropProbability config) ∧
  delay = (if negb drop && (DelayDuration config >? 0) then DelayDuration config else 0) ∧
  g' = if Qltb 0 (DropProbability config) then snd (Float64 g) else g.
Proof.
  unfold verdict. destruct (Qltb 0 (DropProbability config)); [|done].
  by destruct (Float64 g) as [roll g'].
Qed.

Lemma never_drop config (g : G) : (DropProbability config <= 0)%Q → fst (fst (verdict config g)) = false.
Proof.
  intros Hp. pose proof (verdict_spec config g) as Hv. destruct (verdict config g) as [[drop delay] g'].
  destruct Hv as (-> & _). simpl. by rewrite (proj2 (Qltb_false _ _) Hp).
Qed.

Lemma always_drop config (g : G) : (1 <= DropProbability config)%Q → fst (fst (verdict config g)) = true.
Proof.
  intros Hp. pose proof (verdict_spec config g) as Hv. destruct (verdict config g) as [[drop delay] g'].
  destruct Hv as (-> & _). simpl. destruct (Float64_range g) as [H0 H1]. apply andb_true_iff.
  split; apply Qltb_spec.
  - by apply (Qlt_le_trans _ 1).
  - by apply (Qlt_le_trans _ 1).
Qed.

Lemma bit_flips_spec k (msg : list Z) (g : G) : bytes_ok msg → 0 < blen msg → ∃ out g',
  bit_flips k msg g = Ret (out, g') ∧ bytes_ok out ∧ length out = length msg ∧
  ∃ idxs : list nat, (length idxs ≤ k)%nat ∧ ∀ i, i ∉ idxs → out !! i = msg !! i.
Proof.
  revert msg g. induction k as [|k IH]; intros msg g Hb Hl.
  { exists msg, g. split; [done|]. split; [done|]. split; [done|]. exists []. by split. }
  cbn [bit_flips]. unfold intn. rewrite (proj2 (Z.leb_gt (blen msg) 0)) by lia.
  pose proof (Intn_range (blen msg) g Hl) as Hi. destruct (Intn (blen msg) g) as [i g1]. simpl in Hi. ret_bind.
  change (8 <=? 0) with false. cbn iota.
  pose proof (Intn_range 8 g1 ltac:(lia)) as Hj. destruct (Intn 8 g1) as [j g2]. simpl in Hj. ret_bind.
  destruct (rd_in_range msg i Hi) as (x&->&Hx). ret_bind.
  set (y := x ⊕ shl 8 1 j).
  assert (in_width 8 y) as Hy.
  { apply in_width_lxor; [lia| |apply wrap_in_width; lia]. by apply (Forall_lookup_1 _ _ _ _ Hb Hx). }
  assert (wr msg i y = Ret (<[Z.to_nat i := y]> msg)) as ->.
  { unfold wr. rewrite (proj2 (Z.ltb_ge i 0)), (proj2 (Z.leb_gt (blen msg) i)) by lia. done. }
  ret_bind. destruct (IH (<[Z.to_nat i := y]> msg) g2) as (out&g'&->&Ho&Hlo&idxs&Hn&Hid).
  { by apply Forall_insert. } { unfold blen in *. by rewrite length_insert. }
  exists out, g'. split; [done|]. split; [done|]. rewrite length_insert in Hlo. split; [done|].
  exists (Z.to_nat i :: idxs). split; [simpl; lia|]. intros q Hq.
  rewrite not_elem_of_cons in Hq. destruct Hq as [Hq1 Hq2]. rewrite (Hid q Hq2). by apply list_lookup_insert_ne.
Qed.

Lemma zero_loop (pre mid suf : list Z) :
  forM (seqZ (blen pre) (blen mid)) (λ i l, wr l i 0) (pre ++ mid ++ suf)
  = Ret (pre ++ replicate (length mid) 0 ++ suf).
Proof.
  revert pre. induction mid as [|x mid IH]; intros pre; [done|].
  replace (blen (x :: mid)) with (Z.succ (blen mid)) by (unfold blen; simpl; lia).
  rewrite seqZ_cons by (unfold blen; lia). cbn [forM].
  replace (Z.pred (Z.succ (blen mid))) with (blen mid) by lia.
  change (pre ++ (x :: mid) ++ suf) with (pre ++ x :: mid ++ suf). rewrite wr_app by done. ret_bind.
  replace (Z.succ (blen pre)) with (blen (pre ++ [0])) by (unfold blen; rewrite length_app; simpl; lia).
  change (pre ++ 0 :: mid ++ suf) with (pre ++ [0] ++ mid ++ suf). rewrite (app_assoc pre). rewrite IH.
  cbn [length replicate]. by rewrite <-app_assoc.
Qed.

(** What each mutation does to the bytes. *)
Definition mutation (fuzzType : string) (msg out : list Z) : Prop :=
  if decide (fuzzType = "bit_flip") then
    length out = length msg ∧ ∃ idxs : list nat, (length idxs ≤ 3)%nat ∧ ∀ i, i ∉ idxs → out !! i = msg !! i
  else if decide (fuzzType = "truncate") then
    if decide (length msg ≤ 4)%nat then out = msg else ∃ n, (4 ≤ n < length msg)%nat ∧ out = take n msg
  else if decide (fuzzType = "overflow") then ∃ junk, length junk = 256%nat ∧ out = msg ++ junk
  else if decide (fuzzType = "zero_out") then
    if decide (length msg ≤ 4)%nat then out = msg else
    ∃ s n, (1 ≤ n)%nat ∧ (s + n ≤ length msg)%nat ∧ out = take s msg ++ replicate n 0 ++ drop (s + n) msg
  else out = msg.

Lemma string_decide (a b : string) : (a =? b)%string = bool_decide (a = b).
Proof. case_bool_decide; [by apply String.eqb_eq|by apply String.eqb_neq]. Qed.

Lemma mutate_spec ft msg (g : G) : bytes_ok msg →
  ∃ out g', mutate ft msg g = Ret (out, g') ∧ mutation ft msg out.
Proof.
  intros Hb. unfold mutate, mutation. rewrite !string_decide, !bool_decide_decide.
  destruct (decide (ft = "bit_flip")) as [_|_].
  { rewrite Z.gtb_ltb. destruct (Z.ltb_spec 0 (blen msg)) as [Hl|].
    2: { exists msg, g. split; [done|]. split; [done|]. exists []. split; [simpl; lia|done]. }
    unfold intn at 1. change (3 <=? 0) with false. cbn iota.
    pose proof (Intn_range 3 g ltac:(lia)) as Hf. destruct (Intn 3 g) as [f g1]. simpl in Hf. ret_bind.
    destruct (bit_flips_spec (Z.to_nat (f + 1)) msg g1 Hb Hl) as (out&g'&->&_&Hlo&idxs&Hn&Hid).
    exists out, g'. split; [done|]. split; [done|]. exists idxs. split; [lia|done]. }
  destruct (decide (ft = "truncate")) as [_|_].
  { rewrite Z.gtb_ltb. destruct (Z.ltb_spec 4 (blen msg)) as [Hl|Hl].
    2: { exists msg, g. split; [done|]. by destruct (decide (length msg ≤ 4)%nat) as [|Hn]; [|unfold blen in Hl; lia]. }
    destruct (decide (length msg ≤ 4)%nat) as [Hn|_]; [unfold blen in Hl; lia|].
    unfold intn. rewrite (proj2 (Z.leb_gt (blen msg - 4) 0)) by lia.
    pose proof (Intn_range (blen msg - 4) g ltac:(lia)) as Hn. destruct (Intn (blen msg - 4) g) as [n g1].
    simpl in Hn. ret_bind. unfold slice. rewrite (proj2 (Z.ltb_ge 0 0)), (proj2 (Z.ltb_ge (n + 4) 0)),
      (proj2 (Z.ltb_ge (blen msg) (n + 4))) by lia. cbn [orb]. ret_bind.
    eexists _, g1. split; [reflexivity|]. exists (Z.to_nat (n + 4)). unfold blen in *. split; [lia|].
    change (Z.to_nat 0) with 0%nat. by rewrite drop_0, Z.sub_0_r. }
  destruct (decide (ft = "overflow")) as [_|_].
  { pose proof (Read_length 256 g) as Hr. destruct (Read 256 g) as [junk g1]. eexists _, g1.
    split; [reflexivity|]. by exists junk. }
  destruct (decide (ft = "zero_out")) as [_|_]; [|by exists msg, g].
  rewrite Z.gtb_ltb. destruct (Z.ltb_spec 4 (blen msg)) as [Hl|Hl].
  2: { exists msg, g. split; [done|]. by destruct (decide (length msg ≤ 4)%nat) as [|Hn]; [|unfold blen in Hl; lia]. }
  destruct (decide (length msg ≤ 4)%nat) as [Hn|_]; [unfold blen in Hl; lia|].
  unfold intn. rewrite (proj2 (Z.leb_gt (blen msg - 2) 0)) by lia.
  pose proof (Intn_range (blen msg - 2) g ltac:(lia)) as Hs. destruct (Intn (blen msg - 2) g) as [s g1].
  simpl in Hs. ret_bind. rewrite (proj2 (Z.leb_gt (blen msg - s) 0)) by lia.
  pose proof (Intn_range (blen msg - s) g1 ltac:(lia)) as Hn. destruct (Intn (blen msg - s) g1) as [n g2].
  simpl in Hn. ret_bind. rewrite Z.gtb_ltb, (proj2 (Z.ltb_ge (blen msg) (s + (n + 1)))) by lia.
  set (k := Z.to_nat (n + 1)). set (p := Z.to_nat s). unfold blen in *.
  pose proof (zero_loop (take p msg) (take k (drop p msg)) (drop (p + k) msg)) as Hz.
  rewrite <-drop_drop, take_drop, take_drop in Hz. unfold blen in Hz.
  rewrite !length_take, length_drop in Hz.
  replace (Z.of_nat (p `min` length msg)) with s in Hz by lia.
  replace (Z.of_nat (k `min` (length msg - p))) with (n + 1) in Hz by lia.
  rewrite Hz. ret_bind. eexists _, g2. split; [reflexivity|]. exists p, k. split; [lia|]. split; [lia|].
  do 2 f_equal; [f_equal; lia|]. by rewrite drop_drop.
Qed.
End Spec.

(** The codes of lib/nas/nas.go for the messages the manager names. *)
Definition nas_MsgTypes : list (Z * string) := (
  [(65, "RegistrationRequest"); (66, "RegistrationAccept"); (67, "RegistrationComplete");
   (68, "RegistrationReject"); (69, "DeregistrationRequest"); (70, "DeregistrationAccept");
   (76, "ServiceRequest"); (77, "ServiceReject"); (78, "ServiceAccept");
   (86, "AuthenticationRequest"); (87, "AuthenticationResponse"); (89, "AuthenticationFailure");
   (91, "IdentityRequest"); (92, "IdentityResponse");
   (93, "SecurityModeCommand"); (94, "SecurityModeComplete"); (95, "SecurityModeReject")])%string.

(** Without an enabled fuzz rule and an enabled rule for the UE, an
    outgoing message is written unchanged, and neither the counters nor the
    random state move. *)
Theorem chaos_off {G} `{Rand G} ueId message last m (g : G) :
  FuzzEnabled (FuzzRule m) = false →
  (∀ config, NasRules m !! ueId = Some config → Enabled config = false) →
  outgoing ueId message last m g = Ret (Some message, m, g).
Proof.
  intros Hf Hn. unfold outgoing, EvalFuzz, applies. rewrite Hf. cbn [andb negb]. ret_bind.
  unfold EvalNas. destruct (NasRules m !! ueId) as [config|] eqn:E; [|done].
  unfold applies. by rewrite (Hn config eq_refl).
Qed.

(** A rule that applies drops a message exactly when the roll is below
    its probability: never at 0, always at 1; a dropped message counts once
    and is not delayed, one that passes a rule with a delay counts as
    delayed, and nothing else of the manager changes. *)
Theorem chaos_nas_verdict {G} `{Rand G} ueId messageType m (g : G) config :
  NasRules m !! ueId = Some config → applies (TargetMsgType config) messageType (Enabled config) = true →
  ∃ drop delay g', EvalNas ueId messageType m g
      = (drop, delay, add_nas drop (negb drop && (DelayDuration config >? 0)) m, g') ∧
    (drop = true ↔ (0 < DropProbability config ∧ fst (Float64 g) < DropProbability config)%Q) ∧
    ((DropProbability config <= 0)%Q → drop = false) ∧ ((1 <= DropProbability config)%Q → drop = true) ∧
    (drop = true → delay = 0) ∧ (drop = false → delay = Z.max 0 (DelayDuration config)).
Proof.
  intros E Ha. unfold EvalNas. rewrite E, Ha.
  pose proof (verdict_spec config g) as Hv. pose proof (never_drop config g) as H0.
  pose proof (always_drop config g) as H1. destruct (verdict config g) as [[drop delay] g'].
  destruct Hv as (Hd&Hdel&_). exists drop, delay, g'. split; [done|].
  split; [by rewrite Hd, andb_true_iff, !Qltb_spec|]. split; [exact H0|]. split; [exact H1|].
  rewrite Z.gtb_ltb in Hdel. split; intros ->; cbn [negb andb] in Hdel; [done|].
  destruct (Z.ltb_spec 0 (DelayDuration config)); lia.
Qed.

(** Fuzzing never panics; it leaves the message alone or, when an enabled
    rule applies and the roll is below its probability, applies the rule's
    mutation: at most three bytes changed, cut to a proper prefix of at least
    four bytes, 256 bytes of junk appended, or a range zeroed. *)
Theorem chaos_fuzz_mutations {G} `{Rand G} messageType msg m (g : G) : bytes_ok msg →
  ∃ fuzzed out m' g', EvalFuzz messageType msg m g = Ret (fuzzed, out, m', g') ∧
    if fuzzed : bool then
      applies (TargetMsg (FuzzRule m)) messageType (FuzzEnabled (FuzzRule m)) = true ∧
      (fst (Float64 g) < Probability (FuzzRule m))%Q ∧
      mutation (FuzzType (FuzzRule m)) msg out ∧ m' = add_fuzzed m
    else out = msg ∧ m' = m.
Proof.
  intros Hb. unfold EvalFuzz. destruct (applies _ _ _); cbn [negb]; [|by exists false, msg, m, g].
  destruct (Float64 g) as [roll g1]. cbn [fst].
  destruct (Qle_bool (Probability (FuzzRule m)) roll) eqn:Ep; [by exists false, msg, m, g1|].
  destruct (mutate_spec (FuzzType (FuzzRule m)) msg g1 Hb) as (out&g2&->&Hm). ret_bind.
  exists true, out, (add_fuzzed m), g2. split; [done|]. split; [done|]. split; [|by split].
  apply Qnot_le_lt. intros Hle. apply Qle_bool_iff in Hle. congruence.
Qed.

(** The names of plain 5GMM messages agree with the message types of
    lib/nas/nas.go only for the registration and deregistration messages
    (65 to 70).  For every other named message the manager uses another code:
    an Authentication Response (87) is called "ServiceAccept", so a rule for
    "AuthenticationResponse" matches no such message. *)
Theorem chaos_nas_names ueId last code name : (code, name) ∈ nas_MsgTypes →
  (GetNasMsgNameFromBytes [0x7e; 0; code] ueId last = name ↔ code ≤ 70).
Proof.
  intros Hin.
  assert (∀ c, GetNasMsgNameFromBytes [0x7e; 0; c] ueId last
    = match switch gmm_cases c with Some s => s | None => "NAS-Message"%string end) as E.
  { intros c. unfold GetNasMsgNameFromBytes. cbn [Z.eqb Pos.eqb andb negb].
    by destruct (switch gmm_cases c). }
  rewrite E. clear E.
  assert (forallb (λ '(c, n), Bool.eqb (match switch gmm_cases c with Some s => s | None => "NAS-Message"%string end =? n)%string
    (c <=? 70)) nas_MsgTypes = true) as Hall by (vm_compute; reflexivity).
  rewrite forallb_forall in Hall. specialize (Hall (code, name) (proj1 (list_elem_of_In _ _) Hin)). cbv beta iota in Hall.
  apply Bool.eqb_prop in Hall. rewrite <-String.eqb_eq, Hall. apply Z.leb_le.
Qed.

(** Reset clears the rules and counters of dropping and delaying, but the
    fuzz rule stays in force and its counter keeps its value. *)
Theorem chaos_reset {G} `{Rand G} m ueId gnbId messageType msg (g : G) :
  NasRules (Reset_ m) = ∅ ∧ NgapRules (Reset_ m) = ∅ ∧
  EvalNas ueId messageType (Reset_ m) g = (false, 0, Reset_ m, g) ∧
  EvalNgap gnbId messageType (Reset_ m) g = (false, 0, Reset_ m, g) ∧
  FuzzRule (Reset_ m) = FuzzRule m ∧ FuzzedMsgs (Reset_ m) = FuzzedMsgs m ∧
  (∀ out g', EvalFuzz messageType msg m g = Ret (true, out, add_fuzzed m, g') →
     EvalFuzz messageType msg (Reset_ m) g = Ret (true, out, add_fuzzed (Reset_ m), g')).
Proof.
  split; [done|]. split; [done|]. split; [unfold EvalNas; simpl; by rewrite lookup_empty|].
  split; [unfold EvalNgap; simpl; by rewrite lookup_empty|]. split; [done|]. split; [done|].
  intros out g' E. unfold EvalFuzz in *. cbn [Reset_ FuzzRule].
  destruct (negb _); [done|]. destruct (Float64 g) as [roll g1]. destruct (Qle_bool _ _); [done|].
  destruct (mutate _ _ _) as [[o g2]| |]; [|done..]. cbn [mbind outcome_mbind] in *. by injection E as -> ->.
Qed.

(** ** Witnesses: a linear congruential generator *)

Definition lcg (g : Z) : Z := (g * 6364136223846793005 + 1442695040888963407) mod 2 ^ 64.

#[refine] Instance lcg_rand : Rand Z :=
  {| Float64 g := (Qmake (g mod 2 ^ 53) (2 ^ 53), lcg g); Intn n g := (g mod n, lcg g);
     Read n g := (replicate n 0, g) |}.
Proof.
  - intros g. pose proof (Z.mod_pos_bound g (2 ^ 53) ltac:(lia)) as Hm. unfold Qle, Qlt. cbn [fst Qnum Qden]. lia.
  - intros n g Hn. by apply Z.mod_pos_bound.
  - intros n g. apply length_replicate.
Defined.

Definition always : ChaosConfig :=
  {| DropProbability := 1; DelayDuration := 5; TargetMsgType := "RegistrationRequest"; Enabled := true |}.

Lemma chaos_off_witness :
  outgoing 1 [0x7e; 0; 65] ∅ GlobalChaosManager 7 = Ret (Some [0x7e; 0; 65], GlobalChaosManager, 7).
Proof. apply (chaos_off 1 [0x7e; 0; 65] ∅ GlobalChaosManager 7); [reflexivity|discriminate]. Defined.

Lemma chaos_nas_verdict_witness :
  NasRules (ConfigureNas 1 always GlobalChaosManager) !! 1 = Some always ∧
  ∃ drop delay g', EvalNas 1 "RegistrationRequest" (ConfigureNas 1 always GlobalChaosManager) 7
      = (drop, delay, add_nas drop (negb drop && (DelayDuration always >? 0)) (ConfigureNas 1 always GlobalChaosManager), g')
    ∧ drop = true ∧ delay = 0.
Proof.
  split; [reflexivity|].
  destruct (chaos_nas_verdict 1 "RegistrationRequest" (ConfigureNas 1 always GlobalChaosManager) 7 always
    eq_refl eq_refl) as (drop&delay&g'&E&_&_&H1&Hd&_).
  exists drop, delay, g'. split; [exact E|]. assert (drop = true) as Ht by (apply H1; discriminate).
  split; [exact Ht|exact (Hd Ht)].
Defined.

Lemma chaos_fuzz_mutations_witness :
  bytes_ok [0x7e; 0; 65; 1; 2; 3] ∧
  ∃ fuzzed out m' g', EvalFuzz "RegistrationRequest" [0x7e; 0; 65; 1; 2; 3]
    (ConfigureFuzz {| TargetMsg := ""; FuzzType := "truncate"; Probability := 1; FuzzEnabled := true |} GlobalChaosManager) 7
    = Ret (fuzzed, out, m', g') ∧ fuzzed = true.
Proof.
  assert (bytes_ok [0x7e; 0; 65; 1; 2; 3]) as Hb by (repeat (constructor; [by split|]); constructor).
  split; [exact Hb|].
  destruct (chaos_fuzz_mutations "RegistrationRequest" [0x7e; 0; 65; 1; 2; 3]
    (ConfigureFuzz {| TargetMsg := ""; FuzzType := "truncate"; Probability := 1; FuzzEnabled := true |} GlobalChaosManager) 7 Hb)
    as (fuzzed&out&m'&g'&E&_).
  exists fuzzed, out, m', g'. split; [exact E|]. vm_compute in E. injection E as <- _ _ _. reflexivity.
Defined.

Lemma chaos_nas_names_witness : (87, "AuthenticationResponse"%string) ∈ nas_MsgTypes ∧
  (GetNasMsgNameFromBytes [0x7e; 0; 87] 1 ∅ = "AuthenticationResponse"%string ↔ 87 ≤ 70) ∧
  GetNasMsgNameFromBytes [0x7e; 0; 87] 1 ∅ = "ServiceAccept"%string.
Proof.
  assert ((87, "AuthenticationResponse"%string) ∈ nas_MsgTypes) as Hin.
  { apply (list_elem_of_lookup_2 _ 10). reflexivity. }
  split; [exact Hin|]. split; [exact (chaos_nas_names 1 ∅ 87 "AuthenticationResponse" Hin)|reflexivity].
Defined.
