(* ===== verification/Kdf.v ===== *)
(** * lib/UeauCommon: the key derivation function

    [GetKDFValue] is HMAC-SHA-256 (crypto/hmac, crypto/sha256, FIPS 198 and
    180-4) over FC and the parameters. *)

From S2P Require Import Prelude.

#[local] Open Scope Z_scope.
#[local] Open Scope go_scope.

(** ** SHA-256 *)

Module Sha256.

(** The first [n] primes from [p] on, by trial division. *)
Definition is_prime (p : Z) : bool := forallb (λ d, negb (p mod d =? 0)) (seqZ 2 (p - 2)).
Fixpoint primes (fuel n : nat) (p : Z) : list Z :=
  match fuel, n with
  | S fuel, S n' => if is_prime p then p :: primes fuel n' (p + 1) else primes fuel n (p + 1)
  | _, _ => []
  end.

(** The integer cube root, bit by bit. *)
Fixpoint cbrt (bits : nat) (x r : Z) : Z :=
  match bits with
  | O => r
  | S b => let r' := r + 2 ^ Z.of_nat b in cbrt b x (if r' * r' * r' <=? x then r' else r)
  end.

(** The round constants and the initial value: 32 bits of the fractional parts
    of the cube roots and the square roots of the first primes. *)
Definition K : list Z := Eval vm_compute in (λ p, u32 (cbrt 36 (p * 2 ^ 96) 0)) <$> primes 400 64 2.
Definition H0 : list Z := Eval vm_compute in (λ p, u32 (Z.sqrt (p * 2 ^ 64))) <$> primes 30 8 2.

Definition rotr (n x : Z) : Z := (x ≫ n) ∣∣ shl 32 x (32 - n).

(** The message followed by a 1 bit, zeros and its length in bits. *)
Definition pad (m : list Z) : list Z :=
  m ++ [0x80] ++ replicate ((119 - length m mod 64) mod 64)%nat 0 ++ be_bytes 8 (8 * blen m).

Fixpoint words (n : nat) (l : list Z) : list Z :=
  match n, l with
  | S n, a :: b :: c :: d :: l => word4 a b c d :: words n l
  | _, _ => []
  end.

(** Extends the schedule, kept newest first, by one word. *)
Definition extend (ws : list Z) : list Z :=
  let x2 := ws !!! 1%nat in let x15 := ws !!! 14%nat in
  let s0 := rotr 7 x15 ⊕ rotr 18 x15 ⊕ (x15 ≫ 3) in
  let s1 := rotr 17 x2 ⊕ rotr 19 x2 ⊕ (x2 ≫ 10) in
  u32 (s1 + ws !!! 6%nat + s0 + ws !!! 15%nat) :: ws.

Definition schedule (block : list Z) : list Z := rev (Nat.iter 48 extend (rev (words 16 block))).

Definition round (s : list Z) (kw : Z * Z) : list Z :=
  match s with
  | [a; b; c; d; e; f; g; h] =>
    let t1 := h + (rotr 6 e ⊕ rotr 11 e ⊕ rotr 25 e) + ((e & f) ⊕ (Z.lnot e & g)) + fst kw + snd kw in
    let t2 := (rotr 2 a ⊕ rotr 13 a ⊕ rotr 22 a) + ((a & b) ⊕ (a & c) ⊕ (b & c)) in
    [u32 (t1 + t2); a; b; c; u32 (d + t1); e; f; g]
  | _ => s
  end.

Definition compress (h block : list Z) : list Z :=
  zip_with (λ x y, u32 (x + y)) h (foldl round h (zip K (schedule block))).

Fixpoint blocks (n : nat) (h l : list Z) : list Z :=
  match n with O => h | S n => blocks n (compress h (take 64 l)) (drop 64 l) end.

Definition sum (m : list Z) : list Z :=
  let p := pad m in mjoin (bytes4 <$> blocks (length p / 64) H0 p).

End Sha256.

(** ** HMAC *)

Definition hmac_key (key : list Z) : list Z :=
  let k := if blen key >? 64 then Sha256.sum key else key in k ++ replicate (64 - length k)%nat 0.

Definition hmac_sha256 (key m : list Z) : list Z :=
  let k := hmac_key key in
  Sha256.sum ((Z.lxor 0x5c <$> k) ++ Sha256.sum ((Z.lxor 0x36 <$> k) ++ m)).

(** ** UeauCommon.go *)

Definition FC_FOR_KSEAF_DERIVATION : Z := 0x6C.
Definition FC_FOR_RES_STAR_XRES_STAR_DERIVATION : Z := 0x6B.
Definition FC_FOR_KAUSF_DERIVATION : Z := 0x6A.
Definition FC_FOR_KAMF_DERIVATION : Z := 0x6D.
Definition FC_FOR_ALGORITHM_KEY_DERIVATION : Z := 0x69.

Definition KDFLen (input : list Z) : list Z := be_bytes 2 (u16 (blen input)).

(** FC is the decoded hexadecimal digit pair. *)
Definition GetKDFValue (key : list Z) (FC : Z) (param : list (list Z)) : list Z :=
  hmac_sha256 key (foldl app [FC] param).

(** ** Lengths *)

Lemma round_length s kw : length (Sha256.round s kw) = length s.
Proof. do 9 (destruct s as [|? s]; [reflexivity|]). reflexivity. Qed.

Lemma schedule_length block : length block = 64%nat → length (Sha256.schedule block) = 64%nat.
Proof.
  intros Hl. unfold Sha256.schedule. rewrite length_rev.
  assert (∀ n ws, length (Nat.iter n Sha256.extend ws) = (n + length ws)%nat) as ->.
  { intros n ws. induction n as [|n IH]; [done|]. cbn [Nat.iter nat_rect]. unfold Sha256.extend at 1.
    cbn [length]. unfold Nat.iter in IH. by rewrite IH. }
  rewrite length_rev. do 64 (destruct block as [|? block]; [done|]). by destruct block.
Qed.

Lemma compress_length h block : length h = 8%nat → length (Sha256.compress h block) = 8%nat.
Proof.
  intros Hh. unfold Sha256.compress. rewrite length_zip_with.
  assert (∀ l s, length (foldl Sha256.round s l) = length s) as ->.
  { induction l as [|x l IH]; intros s; [done|]. simpl. by rewrite IH, round_length. }
  lia.
Qed.

Lemma sum_length m : length (Sha256.sum m) = 32%nat.
Proof.
  unfold Sha256.sum. set (p := Sha256.pad m).
  assert (∀ n h l, length h = 8%nat → length (Sha256.blocks n h l) = 8%nat) as Hb.
  { induction n as [|n IH]; intros h l Hh; [done|]. simpl. apply IH. by apply compress_length. }
  specialize (Hb (length p / 64)%nat Sha256.H0 p eq_refl).
  destruct (Sha256.blocks _ _ _) as [|a0 [|a1 [|a2 [|a3 [|a4 [|a5 [|a6 [|a7 [|]]]]]]]]]; try done.
Qed.

Lemma word_octets_ok w : bytes_ok (bytes4 w).
Proof. unfold bytes4. repeat (constructor; [apply wrap_in_width; lia|]). constructor. Qed.

Lemma sum_ok m : bytes_ok (Sha256.sum m).
Proof.
  unfold Sha256.sum. generalize (Sha256.blocks (length (Sha256.pad m) / 64) Sha256.H0 (Sha256.pad m)).
  intros l. induction l as [|w l IH]; [constructor|]. cbn [fmap list_fmap mjoin list_join].
  apply Forall_app. split; [apply word_octets_ok|exact IH].
Qed.

Lemma GetKDFValue_length key FC param : length (GetKDFValue key FC param) = 32%nat.
Proof. apply sum_length. Qed.

Lemma GetKDFValue_ok key FC param : bytes_ok (GetKDFValue key FC param).
Proof. apply sum_ok. Qed.

(** FIPS 180-4 example "abc"; RFC 4231 test case 1. *)
Example sum_abc : Sha256.sum [0x61; 0x62; 0x63] = be_bytes 32
  0xba7816bf8f01cfea414140de5dae2223b00361a396177a9cb410ff61f20015ad.
Proof. vm_compute. reflexivity. Qed.

Example hmac_rfc4231 : hmac_sha256 (replicate 20 0x0b) [0x48; 0x69; 0x20; 0x54; 0x68; 0x65; 0x72; 0x65] =
  be_bytes 32 0xb0344c61d8db38535ca8afceaf0bf12b881dc200c9833da726e9376c2e32cff7.
Proof. vm_compute. reflexivity. Qed.
