(* ===== verification/GoStrings.v ===== *)
(** * Strings, and the octets of a PLMN

    What the code uses of Go's strings, encoding/hex and fmt, on ASCII
    characters, and the PLMN octets of the UE and gNB contexts. *)

From S2P Require Import Prelude.
From stdpp Require Import pretty.

#[local] Open Scope Z_scope.
#[local] Open Scope go_scope.

(** ** Strings *)

Definition string_bytes (s : string) : list Z := (λ c, Z.of_N (Ascii.N_of_ascii c)) <$> String.list_ascii_of_string s.
Definition slen (s : string) : Z := Z.of_nat (String.length s).

Definition reverse (s : string) : string := String.string_of_list_ascii (rev (String.list_ascii_of_string s)).

(** [strings.TrimSpace] *)
Definition is_space (c : Ascii.ascii) : bool :=
  let n := Ascii.N_of_ascii c in ((n =? 32) || ((9 <=? n) && (n <=? 13)))%N.
Fixpoint trim_left (l : list Ascii.ascii) : list Ascii.ascii :=
  match l with c :: l' => if is_space c then trim_left l' else l | [] => [] end.
Definition TrimSpace (s : string) : string :=
  String.string_of_list_ascii (rev (trim_left (rev (trim_left (String.list_ascii_of_string s))))).

(** A hexadecimal digit. *)
Definition hex_val (c : Ascii.ascii) : option Z :=
  let n := Z.of_N (Ascii.N_of_ascii c) in
  if (48 <=? n) && (n <=? 57) then Some (n - 48)
  else if (97 <=? n) && (n <=? 102) then Some (n - 87)
  else if (65 <=? n) && (n <=? 70) then Some (n - 55) else None.

(** [hex.DecodeString]: the bytes before the first error, and whether there is one. *)
Fixpoint hex_decode (s : string) : list Z * bool :=
  match s with
  | EmptyString => ([], false)
  | String a EmptyString => ([], true)
  | String a (String b s) =>
    match hex_val a, hex_val b with
    | Some x, Some y => let '(l, e) := hex_decode s in (x * 16 + y :: l, e)
    | _, _ => ([], true)
    end
  end.
Definition DecodeString (s : string) : list Z := fst (hex_decode s).

Definition hex_digit (n : Z) : string :=
  match String.get (Z.to_nat n) "0123456789abcdef" with Some c => String c EmptyString | None => EmptyString end.
(** [%02x], and [%x] of a byte slice. *)
Definition hex2 (b : Z) : string := hex_digit (b ≫ 4) +:+ hex_digit (b & 15).
Definition hex_bytes (l : list Z) : string := foldr String.append EmptyString (hex2 <$> l).

Definition dec (z : Z) : string := pretty z.

(** [strings.Split] at one character *)
Fixpoint split_on (c : Ascii.ascii) (s : string) : list string :=
  match s with
  | EmptyString => [EmptyString]
  | String a s =>
    if Ascii.eqb a c then EmptyString :: split_on c s
    else match split_on c s with [] => [String a EmptyString] | w :: ws => String a w :: ws end
  end.

(** The number of a string of decimal digits. *)
Fixpoint decimal_digits (acc : Z) (s : string) : option Z :=
  match s with
  | EmptyString => Some acc
  | String c s =>
    let n := Z.of_N (Ascii.N_of_ascii c) - 48 in
    if (0 <=? n) && (n <=? 9) then decimal_digits (acc * 10 + n) s else None
  end.

(** [net.IP.To4]; nil is the empty slice. *)
Definition To4 (ip : list Z) : list Z :=
  if (length ip =? 4)%nat then ip
  else if (length ip =? 16)%nat && bool_decide (take 12 ip = replicate 10 0 ++ [0xff; 0xff]) then drop 12 ip else [].

(** ** The octets of a PLMN *)

(** [s[a:b]] within the string. *)
Definition sub (a b : nat) (s : string) : string := String.substring a (b - a) s.

(** The padding loop [for len(mccStr) < 3 { mccStr = "0" + mccStr }]. *)
Fixpoint pad_left (fuel : nat) (s : string) : string :=
  match fuel with O => s | S fuel => if slen s <? 3 then pad_left fuel ("0" +:+ s) else s end.

Definition GetMccAndMncInOctets (mcc mnc : string) : list Z :=
  let mccStr := TrimSpace mcc in
  let mncStr := TrimSpace mnc in
  let mccStr := if slen mccStr =? 0 then "001" else mccStr in
  let mccStr := pad_left 3 mccStr in
  let mccStr := if slen mccStr >? 3 then sub 0 3 mccStr else mccStr in
  let mncStr := if slen mncStr =? 0 then "01" else mncStr in
  let mncStr := if slen mncStr =? 1 then "0" +:+ mncStr else mncStr in
  let mncStr := if slen mncStr >? 3 then sub 0 3 mncStr else mncStr in
  let mcc := reverse mccStr in
  let mnc := reverse mncStr in
  let oct5 := sub 1 3 mcc in
  let '(oct6, oct7) :=
    if slen mncStr =? 2 then ("f" +:+ sub 0 1 mcc, mnc)
    else (sub 0 1 mnc +:+ sub 0 1 mcc, sub 1 3 mnc) in
  match hex_decode (oct5 +:+ oct6 +:+ oct7) with
  | (resu, false) => resu
  | (_, true) => [0x00; 0xf1; 0x10]
  end.

(** ** Digits *)

#[local] Arguments String.append : simpl nomatch.

Definition digit (d : Z) : Ascii.ascii := Ascii.ascii_of_N (Z.to_N (48 + d)).
Fixpoint digit_string (ds : list Z) : string :=
  match ds with [] => EmptyString | d :: ds => String (digit d) (digit_string ds) end.
Definition decimal (d : Z) : Prop := 0 ≤ d < 10.

Ltac each_digit d Hd :=
  let H := fresh in
  assert (d = 0 ∨ d = 1 ∨ d = 2 ∨ d = 3 ∨ d = 4 ∨ d = 5 ∨ d = 6 ∨ d = 7 ∨ d = 8 ∨ d = 9) as H
    by (unfold decimal in Hd; lia);
  destruct H as [-> | [-> | [-> | [-> | [-> | [-> | [-> | [-> | [-> | ->]]]]]]]]].

Lemma hex_digit_val d : decimal d → hex_val (digit d) = Some d.
Proof. intros Hd. each_digit d Hd; reflexivity. Qed.

Lemma digit_not_space d : decimal d → is_space (digit d) = false.
Proof. intros Hd. each_digit d Hd; reflexivity. Qed.

Lemma hex_decode_pair a b s : decimal a → decimal b →
  hex_decode (String (digit a) (String (digit b) s)) = (a * 16 + b :: fst (hex_decode s), snd (hex_decode s)).
Proof.
  intros Ha Hb. cbn [hex_decode]. rewrite !hex_digit_val by done. by destruct (hex_decode s).
Qed.

Lemma hex_decode_filler b s : decimal b →
  hex_decode ("f" +:+ String (digit b) s) = (15 * 16 + b :: fst (hex_decode s), snd (hex_decode s)).
Proof.
  intros Hb. cbn [String.append hex_decode]. rewrite hex_digit_val by done. by destruct (hex_decode s).
Qed.

#[local] Opaque digit.

Lemma TrimSpace_digits d ds e : decimal d → decimal e →
  TrimSpace (digit_string (d :: ds ++ [e])) = digit_string (d :: ds ++ [e]).
Proof.
  intros Hd He. unfold TrimSpace.
  assert (∀ l, String.list_ascii_of_string (digit_string l) = digit <$> l) as El.
  { induction l as [|x l IH]; [done|]. simpl. f_equal. exact IH. }
  assert (∀ x l, is_space x = false → trim_left (x :: l) = x :: l) as Ht by (intros x l E; simpl; by rewrite E).
  assert (∀ l, String.string_of_list_ascii (digit <$> l) = digit_string l) as Es.
  { induction l as [|x l IH]; [done|]. simpl. f_equal. exact IH. }
  assert (rev (digit <$> (d :: ds ++ [e])) = digit e :: rev (digit <$> (d :: ds))) as Er.
  { change (d :: ds ++ [e]) with ((d :: ds) ++ [e]). by rewrite fmap_app, rev_app_distr. }
  rewrite El, fmap_cons, Ht by by apply digit_not_space. rewrite <-fmap_cons, Er, Ht by by apply digit_not_space.
  by rewrite <-Er, rev_involutive, Es.
Qed.

Lemma slen_digits ds : slen (digit_string ds) = blen ds.
Proof. unfold slen, blen. f_equal. induction ds as [|d ds IH]; [done|]. simpl. by rewrite IH. Qed.

Lemma reverse_digits ds : reverse (digit_string ds) = digit_string (rev ds).
Proof.
  unfold reverse.
  assert (∀ l, String.list_ascii_of_string (digit_string l) = digit <$> l) as ->.
  { induction l as [|x l IH]; [done|]. simpl. f_equal. exact IH. }
  assert (∀ l, rev (digit <$> l) = digit <$> rev l) as ->.
  { induction l as [|x l IH]; [done|]. rewrite fmap_cons. cbn [rev]. by rewrite IH, fmap_app. }
  induction (rev ds) as [|x l IH]; [done|]. simpl. f_equal. exact IH.
Qed.

(** The digits after trimming and padding. *)
Lemma plmn_digits mccs mncs : length mccs = 3%nat → length mncs = 2%nat ∨ length mncs = 3%nat →
  Forall decimal mccs → Forall decimal mncs →
  GetMccAndMncInOctets (digit_string mccs) (digit_string mncs) =
  let mcc := digit_string (rev mccs) in let mnc := digit_string (rev mncs) in
  let '(oct6, oct7) := if blen mncs =? 2 then ("f" +:+ sub 0 1 mcc, mnc)
    else (sub 0 1 mnc +:+ sub 0 1 mcc, sub 1 3 mnc) in
  match hex_decode (sub 1 3 mcc +:+ oct6 +:+ oct7) with
  | (resu, false) => resu
  | (_, true) => [0x00; 0xf1; 0x10]
  end.
Proof.
  intros H3 H23 Hc Hn.
  assert (∀ ds, (2 ≤ length ds)%nat → Forall decimal ds → TrimSpace (digit_string ds) = digit_string ds) as Htrim.
  { intros [|d ds] Hl Hd; [simpl in Hl; lia|]. destruct ds as [|e ds _] using rev_ind; [simpl in Hl; lia|].
    apply Forall_cons in Hd as [Hd He]. apply Forall_app in He as [_ He]. apply Forall_cons in He as [He _].
    by apply TrimSpace_digits. }
  unfold GetMccAndMncInOctets. rewrite !Htrim by (done || lia). cbv zeta.
  assert (slen (digit_string mccs) = 3) as L3 by (rewrite slen_digits; unfold blen; lia).
  rewrite L3. change (3 =? 0) with false. cbn iota.
  assert (pad_left 3 (digit_string mccs) = digit_string mccs) as -> by (cbn [pad_left]; by rewrite L3).
  rewrite L3. change (3 >? 3) with false. cbn iota.
  assert ((slen (digit_string mncs) =? 0) = false ∧ (slen (digit_string mncs) =? 1) = false ∧
    (slen (digit_string mncs) >? 3) = false) as (->&E1&E3).
  { rewrite slen_digits. unfold blen. by destruct H23 as [-> | ->]. }
  cbn iota. rewrite E1. cbn iota. rewrite E3. cbn iota. by rewrite slen_digits, !reverse_digits.
Qed.

Lemma plmn_octets_2 a b c d e : Forall decimal [a; b; c; d; e] →
  GetMccAndMncInOctets (digit_string [a; b; c]) (digit_string [d; e]) = [b * 16 + a; 15 * 16 + c; e * 16 + d].
Proof.
  intros H. assert (Forall decimal [a; b; c] ∧ Forall decimal [d; e]) as [H1 H2] by (rewrite !Forall_cons in *; intuition auto).
  rewrite plmn_digits by (done || by left). rewrite !Forall_cons in H. destruct H as (Ha&Hb&Hc&Hd&He&_).
  change (blen [d; e] =? 2) with true. cbv zeta iota. cbn [rev app].
  change (sub 1 3 (digit_string [c; b; a]) +:+ ("f" +:+ sub 0 1 (digit_string [c; b; a])) +:+ digit_string [e; d])
    with (String (digit b) (String (digit a) ("f" +:+ String (digit c) (String (digit e) (String (digit d) EmptyString))))).
  by rewrite hex_decode_pair, hex_decode_filler, hex_decode_pair.
Qed.

Lemma plmn_octets_3 a b c d e f : Forall decimal [a; b; c; d; e; f] →
  GetMccAndMncInOctets (digit_string [a; b; c]) (digit_string [d; e; f]) = [b * 16 + a; f * 16 + c; e * 16 + d].
Proof.
  intros H. assert (Forall decimal [a; b; c] ∧ Forall decimal [d; e; f]) as [H1 H2] by (rewrite !Forall_cons in *; intuition auto).
  rewrite plmn_digits by (done || by right). rewrite !Forall_cons in H. destruct H as (Ha&Hb&Hc&Hd&He&Hf&_).
  change (blen [d; e; f] =? 2) with false. cbv zeta iota. cbn [rev app].
  change (sub 1 3 (digit_string [c; b; a]) +:+ (sub 0 1 (digit_string [f; e; d]) +:+ sub 0 1 (digit_string [c; b; a]))
    +:+ sub 1 3 (digit_string [f; e; d]))
    with (String (digit b) (String (digit a) (String (digit f) (String (digit c) (String (digit e) (String (digit d) EmptyString)))))).
  by rewrite !hex_decode_pair.
Qed.

(** The PLMN octets of TS 24.501 9.11.3.4: digits in swapped pairs, a filler
    in place of a third MNC digit. *)
Definition plmn_coding (mccs mncs : list Z) : list Z :=
  match mccs, mncs with
  | [a; b; c], [d; e] => [b * 16 + a; 15 * 16 + c; e * 16 + d]
  | [a; b; c], [d; e; f] => [b * 16 + a; f * 16 + c; e * 16 + d]
  | _, _ => []
  end.

Lemma plmn_octets mccs mncs : length mccs = 3%nat → length mncs = 2%nat ∨ length mncs = 3%nat →
  Forall decimal mccs → Forall decimal mncs →
  GetMccAndMncInOctets (digit_string mccs) (digit_string mncs) = plmn_coding mccs mncs.
Proof.
  intros H3 H23 Hc Hn. destruct mccs as [|a [|b [|c [|]]]]; try done.
  destruct mncs as [|d [|e [|f [|]]]]; try (destruct H23; done).
  - apply plmn_octets_2. by apply (Forall_app_2 _ [a; b; c]).
  - apply plmn_octets_3. by apply (Forall_app_2 _ [a; b; c]).
Qed.
