(* ===== verification/AperField.v ===== *)
(** * lib/aper: encoding and decoding of any value by its type

    [makeField] and [parseField] run through a value by reflection, guided by
    its Go type and the tags of struct fields.  A type is a [gotype], a value a
    [value] of such a type; where Go's type system rules a case out the
    functions panic.  Decoding begins with the zero value, as in every call;
    what was decoded before an error stays in the value.  Interfaces and the
    writer's masking of the caller's bit strings are left out. *)

From Stdlib Require Import Ascii.
From S2P Require Import Prelude GoStrings AperBits AperPrim.

#[local] Open Scope Z_scope.
#[local] Open Scope go_scope.

(** ** Types and values *)

#[local] Unset Elimination Schemes.

(** [TInt w] is int, int32 or int64 by its width; a struct has its fields with
    name, type and aper tag. *)
Inductive gotype :=
| TBool
| TInt (w : Z)
| TString
| TBitString
| TOctetString
| TObjectIdentifier
| TEnumerated
| TPtr (t : gotype)
| TSlice (t : gotype)
| TStruct (name : string) (fs : list (string * gotype * string))
| TOther.

(** [VNil] is a nil pointer or slice; strings are their octets. *)
Inductive value :=
| VBool (b : bool)
| VInt (z : Z)
| VEnum (z : Z)
| VString (s : list Z)
| VOctets (s : list Z)
| VBits (bytes : list Z) (bitLength : Z)
| VNil
| VPtr (v : value)
| VSlice (vs : list value)
| VStruct (vs : list value).

#[local] Set Elimination Schemes.

Fixpoint zero (t : gotype) : value :=
  match t with
  | TBool => VBool false
  | TInt _ => VInt 0
  | TString => VString []
  | TBitString => VBits [] 0
  | TEnumerated => VEnum 0
  | TStruct _ fs => VStruct (List.map (λ f, zero f.1.2) fs)
  | TOctetString | TObjectIdentifier | TPtr _ | TSlice _ | TOther => VNil
  end.

(** ** common.go *)

Record fieldParameters := MkParams {
  optional : bool; sizeExtensible : bool; valueExtensible : bool;
  sizeLowerBound : option Z; sizeUpperBound : option Z; valueLowerBound : option Z; valueUpperBound : option Z;
  defaultValue : option Z; openType : bool; referenceFieldName : string; referenceFieldValue : option Z }.

Definition no_params : fieldParameters := MkParams false false false None None None None None false "" None.

(** [strconv.ParseInt(s, 10, 64)], [None] with an error. *)
Definition ParseInt64 (s : string) : option Z :=
  let '(sign, digits) := match s with
    | String "+" s => (1, s) | String "-" s => (-1, s) | _ => (1, s) end%char in
  match digits with
  | EmptyString => None
  | _ => v ← decimal_digits 0 digits;
         if (- 2 ^ 63 <=? sign * v) && (sign * v <? 2 ^ 63) then Some (sign * v) else None
  end.

(** [strings.HasPrefix(part, pre)], and what is behind the prefix. *)
Definition after (pre part : string) : option string :=
  if String.prefix pre part then Some (String.substring (String.length pre) (String.length part - String.length pre) part)
  else None.
Definition bound (old : option Z) (s : string) : option Z := match ParseInt64 s with Some i => Some i | None => old end.

Definition parse_part (p : fieldParameters) (part : string) : fieldParameters :=
  let '(MkParams o se ve sl su vl vu d ot rn rv) := p in
  if (part =? "optional")%string then MkParams true se ve sl su vl vu d ot rn rv
  else if (part =? "sizeExt")%string then MkParams o true ve sl su vl vu d ot rn rv
  else if (part =? "valueExt")%string then MkParams o se true sl su vl vu d ot rn rv
  else match after "sizeLB:" part with Some s => MkParams o se ve (bound sl s) su vl vu d ot rn rv | None =>
  match after "sizeUB:" part with Some s => MkParams o se ve sl (bound su s) vl vu d ot rn rv | None =>
  match after "valueLB:" part with Some s => MkParams o se ve sl su (bound vl s) vu d ot rn rv | None =>
  match after "valueUB:" part with Some s => MkParams o se ve sl su vl (bound vu s) d ot rn rv | None =>
  match after "default:" part with Some s => MkParams o se ve sl su vl vu (bound d s) ot rn rv | None =>
  if (part =? "openType")%string then MkParams o se ve sl su vl vu d true rn rv
  else match after "referenceFieldName:" part with Some s => MkParams o se ve sl su vl vu d ot s rv | None =>
  match after "referenceFieldValue:" part with Some s => MkParams o se ve sl su vl vu d ot rn (bound rv s) | None => p
  end end end end end end end.
Definition parseFieldParameters (str : string) : fieldParameters := foldl parse_part no_params (split_on ","%char str).

(** The parameters with the reference of an open type, and those of the
    elements of a SEQUENCE OF. *)
Definition with_reference (r : Z) (p : fieldParameters) : fieldParameters :=
  let '(MkParams o se ve sl su vl vu d ot rn _) := p in MkParams o se ve sl su vl vu d ot rn (Some r).
Definition element_params (p : fieldParameters) : fieldParameters :=
  let '(MkParams o _ ve _ _ vl vu d ot rn rv) := p in MkParams o false ve None None vl vu d ot rn rv.

(** ** Reflection *)

(** [StructField.PkgPath == ""] *)
Definition exported (name : string) : bool :=
  match name with String c _ => let n := Z.of_N (Ascii.N_of_ascii c) in (65 <=? n) && (n <=? 90) | EmptyString => false end.
Definition is_choice (fs : list (string * gotype * string)) : bool :=
  match fs with (name, _, _) :: _ => (name =? "Present")%string | [] => false end.

(** [v.IsNil()] *)
Definition nilable (t : gotype) : bool :=
  match t with TPtr _ | TSlice _ | TOctetString | TObjectIdentifier => true | _ => false end.
Definition is_nil (v : value) : bool := match v with VNil => true | _ => false end.
Definition IsNil (t : gotype) (v : value) : outcome bool := if nilable t then Ret (is_nil v) else Panic.

(** [v.Int()] of a struct's field 0 *)
Definition present_of (vs : list value) : outcome Z := match vs with VInt z :: _ => Ret z | _ => Panic end.

(** [getReferenceFieldValue] *)
Fixpoint getReferenceFieldValue (v : value) (t : gotype) : outcome Z :=
  match t, v with
  | TInt _, VInt z => Ret z
  | TStruct _ fs, VStruct vs =>
    let refs := List.map getReferenceFieldValue vs in
    let field i := f ← rd fs i; r ← rd refs i; r f.1.2 in
    if is_choice fs then
      present ← present_of vs;
      if present =? 0 then Fail "ReferenceField Value present is 0(present's field number)"
      else if present >=? blen fs then Fail "Present is bigger than number of struct field"
      else field present
    else field 0
  | TInt _, _ | TStruct _ _, _ => Panic
  | _, _ => Fail "OpenType reference only support INTEGER"
  end.

(** The fields before the current one, with their values; the first of that
    name is the reference. *)
Fixpoint find_field (name : string) (before : list (string * gotype * value)) : option (gotype * value) :=
  match before with
  | [] => None
  | (n, t, v) :: before => if (n =? name)%string then Some (t, v) else find_field name before
  end.
Definition resolve (before : list (string * gotype * value)) (p : fieldParameters) : outcome fieldParameters :=
  if openType p then
    match find_field (referenceFieldName p) before with
    | None => Fail "Open type is not reference to the other field in the struct"
    | Some (t, v) => r ← getReferenceFieldValue v t; Ret (with_reference r p)
    end
  else Ret p.

(** ** marshal.go *)

(** The first loop over the fields: their parameters, the number of optional
    ones and the bits that say which are present. *)
Fixpoint scan_fields (sequenceType : bool) (fs : list (string * gotype * string)) (vs : list value) (count presents : Z)
  : outcome (list fieldParameters * Z * Z) :=
  match fs, vs with
  | [], [] => Ret ([], count, presents)
  | (name, t, tag) :: fs, v :: vs =>
    if negb (exported name) then Fail "struct contains unexported fields : " else
    let p := parseFieldParameters tag in
    '(count, presents) ← (if sequenceType && optional p
      then nil ← IsNil t v; Ret (count + 1, u64 (presents ≪ 1) + Z.b2z (negb nil)) else Ret (count, presents));
    '(ps, count, presents) ← scan_fields sequenceType fs vs count presents;
    Ret (p :: ps, count, presents)
  | _, _ => Panic
  end.

(** The writer of a value, whose type and parameters are still to come. *)
Definition encoder : Type := gotype → fieldParameters → perRawBitData → outcome perRawBitData.

Fixpoint make_fields (before : list (string * gotype * value)) (fs : list (string * gotype * string)) (ps : list fieldParameters)
    (vs : list value) (encs : list encoder) (count presents : Z) (pd : perRawBitData) : outcome perRawBitData :=
  match fs, ps, vs, encs with
  | (name, t, _) :: fs, p :: ps, v :: vs, enc :: encs =>
    let rest := make_fields (before ++ [(name, t, v)]) fs ps vs encs in
    let field count := p ← resolve before p; pd ← enc t p pd; rest count presents pd in
    if optional p && (0 <? count) then
      if presents & shl 64 1 (count - 1) =? 0 then rest (count - 1) presents pd else field (count - 1)
    else field count
  | _, _, _, _ => Ret pd
  end.

Definition make_choice (fs : list (string * gotype * string)) (ps : list fieldParameters) (vs : list value) (encs : list encoder)
    (params : fieldParameters) (pd : perRawBitData) : outcome perRawBitData :=
  present ← present_of vs;
  if present =? 0 then Fail "CHOICE or OpenType present is 0(present's field number)"
  else if present >=? blen fs then Fail "Present is bigger than number of struct field"
  else if openType params then
    match referenceFieldValue params with
    | None => Fail "OpenType reference value is empty"
    | Some refValue =>
      p ← rd ps present;
      if bool_decide (referenceFieldValue p = Some refValue) then
        f ← rd fs present; enc ← rd encs present; appendOpenType (enc f.1.2 p) pd
      else Fail "reference value and present reference value is not match"
    end
  else
    pd ← appendChoiceIndex present (valueExtensible params) (valueUpperBound params) pd;
    p ← rd ps present; f ← rd fs present; enc ← rd encs present; enc f.1.2 p pd.

Definition make_struct (fs : list (string * gotype * string)) (vs : list value) (encs : list encoder)
    (params : fieldParameters) (pd : perRawBitData) : outcome perRawBitData :=
  pd ← (if valueExtensible params then putBitsValue 0 1 pd else Ret pd);
  '(ps, count, presents) ← scan_fields (negb (is_choice fs)) fs vs 0 0;
  pd ← (if 0 <? count then putBitsValue presents count pd else Ret pd);
  if is_choice fs then make_choice fs ps vs encs params pd else make_fields [] fs ps vs encs count presents pd.

Fixpoint make_elements (t : gotype) (params : fieldParameters) (encs : list encoder) (pd : perRawBitData) : outcome perRawBitData :=
  match encs with [] => Ret pd | enc :: encs => pd ← enc t params pd; make_elements t params encs pd end.

(** The writer's [parseSequenceOf] *)
Definition appendSequenceOf (t : gotype) (encs : list encoder) (params : fieldParameters) (pd : perRawBitData) : outcome perRawBitData :=
  pd ← append_count (blen encs) (sizeExtensible params) (sizeLowerBound params) (sizeUpperBound params) pd;
  make_elements t (element_params params) encs pd.

Fixpoint makeField (v : value) (t : gotype) (params : fieldParameters) (pd : perRawBitData) : outcome perRawBitData :=
  match t with
  | TPtr t =>
    match v with VPtr v => makeField v t params pd | VNil => Fail "aper: cannot marshal nil value" | _ => Panic end
  | TBitString =>
    match v with
    | VBits bytes n =>
      '(pd, _) ← appendBitString bytes n (sizeExtensible params) (sizeLowerBound params) (sizeUpperBound params) pd; Ret pd
    | _ => Panic
    end
  | TObjectIdentifier => Fail "Unsupport ObjectIdenfier type"
  | TOctetString =>
    match v with
    | VOctets s => appendOctetString s (sizeExtensible params) (sizeLowerBound params) (sizeUpperBound params) pd
    | VNil => appendOctetString [] (sizeExtensible params) (sizeLowerBound params) (sizeUpperBound params) pd
    | _ => Panic
    end
  | TEnumerated =>
    match v with
    | VEnum z => appendEnumerated z (valueExtensible params) (valueLowerBound params) (valueUpperBound params) pd
    | _ => Panic
    end
  | TBool => match v with VBool b => appendBool b pd | _ => Panic end
  | TInt _ =>
    match v with
    | VInt z => appendInteger z (valueExtensible params) (valueLowerBound params) (valueUpperBound params) pd
    | _ => Panic
    end
  | TStruct _ fs => match v with VStruct vs => make_struct fs vs (List.map makeField vs) params pd | _ => Panic end
  | TSlice t =>
    match v with
    | VSlice vs => appendSequenceOf t (List.map makeField vs) params pd
    | VNil => appendSequenceOf t [] params pd
    | _ => Panic
    end
  | TString =>
    match v with
    | VString s => appendOctetString s (sizeExtensible params) (sizeLowerBound params) (sizeUpperBound params) pd
    | _ => Panic
    end
  | TOther => Fail "unsupported: "
  end.

(** The octets of a value. *)
Definition MarshalWithParams (v : value) (t : gotype) (params : string) : outcome (list Z) :=
  pd ← makeField v t (parseFieldParameters params) (PerRaw [] 0);
  Ret (if blen (w_bytes pd) =? 0 then [0] else w_bytes pd).
Definition Marshal (v : value) (t : gotype) : outcome (list Z) := MarshalWithParams v t "".

(** ** aper.go *)

(** What was decoded, and the reader or the error. *)
Definition parsed (A : Type) : Type := outcome (A * (perBitData + string)).

(** A primitive: without an error the result is stored. *)
Definition store {A} (z : value) (f : A → value) (r : outcome (A * perBitData)) : parsed value :=
  match r with Ret (a, pd) => Ret (f a, inl pd) | Fail e => Ret (z, inr e) | Panic => Panic end.

Definition decoder : Type := fieldParameters → perBitData → parsed value.

(** The parameters of the fields and the number of optional ones. *)
Fixpoint scan_types (fs : list (string * gotype * string)) : outcome (list fieldParameters * Z) :=
  match fs with
  | [] => Ret ([], 0)
  | (name, _, tag) :: fs =>
    if negb (exported name) then Fail "struct contains unexported fields : " else
    let p := parseFieldParameters tag in
    '(ps, count) ← scan_types fs; Ret (p :: ps, if optional p then count + 1 else count)
  end.

(** The values of the remaining fields. *)
Fixpoint parse_fields (before : list (string * gotype * value)) (fs : list (string * gotype * string)) (ps : list fieldParameters)
    (decs : list decoder) (count presents : Z) (pd : perBitData) : parsed (list value) :=
  match fs, ps, decs with
  | (name, t, _) :: fs, p :: ps, dec :: decs =>
    let rest v count pd :=
      '(vs, r) ← parse_fields (before ++ [(name, t, v)]) fs ps decs count presents pd; Ret (v :: vs, r) in
    let untouched := List.map (λ f, zero f.1.2) fs in
    let field count :=
      match resolve before p with
      | Ret p => '(v, r) ← dec p pd; match r with inl pd => rest v count pd | inr e => Ret (v :: untouched, inr e) end
      | Fail e => Ret (zero t :: untouched, inr e)
      | Panic => Panic
      end in
    if optional p && (0 <? count) then
      if presents & shl 64 1 (count - 1) =? 0 then rest (zero t) (count - 1) pd else field (count - 1)
    else field count
  | _, _, _ => Ret ([], inl pd)
  end.

(** [parseOpenType] *)
Definition parse_open (z : value) (dec : perBitData → parsed value) (pd : perBitData) : parsed value :=
  match parseOpenType_loop (S (length (r_bytes pd))) [] pd with
  | Ret (bs, pd) => '(v, r) ← dec (PerBitData bs 0 0); Ret (v, match r with inl _ => inl pd | inr e => inr e end)
  | Fail e => Ret (z, inr e)
  | Panic => Panic
  end.

(** The alternative of an open type with the reference value. *)
Fixpoint find_reference (r : Z) (ps : list fieldParameters) (j : Z) : Z :=
  match ps with
  | [] => 0
  | p :: ps => if bool_decide (referenceFieldValue p = Some r) then j else find_reference r ps (j + 1)
  end.

Definition parse_choice (fs : list (string * gotype * string)) (ps : list fieldParameters) (decs : list decoder)
    (valueExtensed : bool) (params : fieldParameters) (pd : perBitData) : parsed value :=
  let zeros := List.map (λ f, zero f.1.2) fs in
  let chosen present v := VStruct (<[Z.to_nat present := v]> (<[0%nat := VInt present]> zeros)) in
  let alternative present (go : gotype → fieldParameters → decoder → parsed value) :=
    f ← rd fs present; p ← rd ps present; dec ← rd decs present;
    '(v, r) ← go f.1.2 p dec; Ret (chosen present v, r) in
  if openType params then
    match referenceFieldValue params with
    | None => Ret (VStruct zeros, inr "OpenType reference value is empty"%string)
    | Some refValue =>
      let present := find_reference refValue (drop 1 ps) 1 in
      if present =? 0 then Ret (VStruct zeros, inr "OpenType reference value does not match any field"%string)
      else alternative present (λ t p dec, parse_open (zero t) (dec p) pd)
    end
  else
    let head present := VStruct (<[0%nat := VInt present]> zeros) in
    match getChoiceIndex valueExtensed (valueUpperBound params) pd with
    | Panic => Panic
    | Fail _ => Ret (head 0, inr "CHOICE present is 0(present's field number)"%string)
    | Ret (present, pd) =>
      if present =? 0 then Ret (head present, inr "CHOICE present is 0(present's field number)"%string)
      else if present >=? blen fs then Ret (head present, inr "CHOICE Present is bigger than number of struct field"%string)
      else alternative present (λ _ p dec, dec p pd)
    end.

Definition parse_struct (fs : list (string * gotype * string)) (decs : list decoder) (valueExtensed : bool)
    (params : fieldParameters) (pd : perBitData) : parsed value :=
  let zeros := VStruct (List.map (λ f, zero f.1.2) fs) in
  match scan_types fs with
  | Panic => Panic
  | Fail e => Ret (zeros, inr e)
  | Ret (ps, count) =>
    match (if 0 <? count then getBitsValue count pd else Ret (0, pd)) with
    | Panic => Panic
    | Fail e => Ret (zeros, inr e)
    | Ret (presents, pd) =>
      if is_choice fs then parse_choice fs ps decs valueExtensed params pd
      else '(vs, r) ← parse_fields [] fs ps decs count presents pd; Ret (VStruct vs, r)
    end
  end.

(** The elements of a SEQUENCE OF; they are stored when all of them are read. *)
Fixpoint parse_elements (n : nat) (dec : perBitData → parsed value) (pd : perBitData) : outcome (list value * perBitData) :=
  match n with
  | O => Ret ([], pd)
  | S n =>
    '(v, r) ← dec pd;
    match r with inl pd => '(vs, pd) ← parse_elements n dec pd; Ret (v :: vs, pd) | inr e => Fail e end
  end.
(** Where the reader is when [parseConstraintValue] fails. *)
Definition failed_constraint (valueRange : Z) (pd : perBitData) : perBitData :=
  if (valueRange <=? 255) || (65536 <? valueRange) || (r_bitsOffset pd =? 0) then pd
  else PerBitData (r_bytes pd) (r_byteOffset pd + 1) 0.

(** An error in the number of elements, within bounds, is overwritten by what
    the first of the least number of elements returns. *)
Definition count_error (sizeExtensed : bool) (sizeLB sizeUB : option Z) (pd : perBitData) : option (Z * perBitData) :=
  let lb := match sizeLB with Some l => if l <? 65536 then l else 0 | None => 0 end in
  let sizeRange := match sizeUB with
    | Some ub => if negb sizeExtensed && (ub <? 65536) then s64 (ub - lb + 1) else -1
    | None => -1 end in
  if (sizeRange >? 1) && negb (lb =? 0) then Some (u64 lb, failed_constraint sizeRange pd) else None.

Definition parseSequenceOf (sizeExtensed : bool) (dec : decoder) (params : fieldParameters) (pd : perBitData)
  : outcome (list value * perBitData) :=
  let elements numElements pd :=
    if s64 numElements <? 0 then Panic else parse_elements (Z.to_nat (s64 numElements)) (dec (element_params params)) pd in
  match parse_count sizeExtensed (sizeLowerBound params) (sizeUpperBound params) pd with
  | Ret (numElements, pd) => elements numElements pd
  | Fail e =>
    match count_error sizeExtensed (sizeLowerBound params) (sizeUpperBound params) pd with
    | Some (numElements, pd) => elements numElements pd
    | None => Fail e
    end
  | Panic => Panic
  end.

(** The extension bits in front of a value. *)
Definition extension (present : bool) (pd : perBitData) : outcome (bool * perBitData) :=
  if present then '(bitsValue, pd) ← getBitsValue 1 pd; Ret (negb (bitsValue =? 0), pd) else Ret (false, pd).

Definition is_slice (t : gotype) : bool := match t with TSlice _ | TOctetString | TObjectIdentifier => true | _ => false end.

(** [v.SetInt] of a value of width [w] *)
Definition signed (w z : Z) : Z := (z + 2 ^ (w - 1)) mod 2 ^ w - 2 ^ (w - 1).

Fixpoint parseField (t : gotype) (params : fieldParameters) (pd : perBitData) : parsed value :=
  if r_byteOffset pd =? blen (r_bytes pd) then Ret (zero t, inr "sequence truncated"%string) else
  match t with
  | TPtr t => '(v, r) ← parseField t params pd; Ret (VPtr v, r)
  | _ =>
    match extension (sizeExtensible params) pd with
    | Panic => Panic
    | Fail e => Ret (zero t, inr e)
    | Ret (sizeExtensed, pd) =>
    match extension (valueExtensible params && negb (is_slice t)) pd with
    | Panic => Panic
    | Fail e => Ret (zero t, inr e)
    | Ret (valueExtensed, pd) =>
      match t with
      | TBitString =>
        store (zero t) (λ r, VBits r.1 r.2)
          ('(bs, n, pd) ← parseBitString sizeExtensed (sizeLowerBound params) (sizeUpperBound params) pd; Ret ((bs, n), pd))
      | TObjectIdentifier => Ret (zero t, inr "Unsupport ObjectIdenfier type"%string)
      | TOctetString => store (zero t) VOctets (parseOctetString sizeExtensed (sizeLowerBound params) (sizeUpperBound params) pd)
      | TEnumerated => store (zero t) VEnum (parseEnumerated valueExtensed (valueLowerBound params) (valueUpperBound params) pd)
      | TBool => store (zero t) VBool (parseBool pd)
      | TInt w =>
        store (zero t) (λ z, VInt (signed w z)) (parseInteger valueExtensed (valueLowerBound params) (valueUpperBound params) pd)
      | TStruct _ fs => parse_struct fs (List.map (λ f, parseField f.1.2) fs) valueExtensed params pd
      | TSlice t' => store (zero t) VSlice (parseSequenceOf sizeExtensed (parseField t') params pd)
      | TString => store (zero t) VString (parseOctetString sizeExtensed (sizeLowerBound params) (sizeUpperBound params) pd)
      | TPtr _ | TOther => Ret (zero t, inr "unsupported: "%string)
      end
    end
    end
  end.

(** The value and, with an error, its text. *)
Definition UnmarshalWithParams (b : list Z) (t : gotype) (params : string) : outcome (value * option string) :=
  '(v, r) ← parseField t (parseFieldParameters params) (PerBitData b 0 0);
  Ret (v, match r with inl _ => None | inr e => Some e end).
Definition Unmarshal (b : list Z) (t : gotype) : outcome (value * option string) := UnmarshalWithParams b t "".
