(* ===== verification/AperFieldProps.v ===== *)
(** * lib/aper: what is encoded by its type is decoded

    [fits v t p]: the value [v] of type [t] is within the constraints that the
    tags [p] put on it and that writer and reader agree on.  Whatever fits is
    encoded, and decoded to the [same] value: equal but for the unused bits of
    bit strings, in which the reader leaves what follows in the message. *)

From S2P Require Import Prelude GoStrings AperBits AperPrim AperCodec AperField.

#[local] Open Scope Z_scope.
#[local] Open Scope go_scope.

(** ** Values that fit *)

#[export] Instance bytes_ok_dec l : Decision (bytes_ok l).
Proof. refine (Forall_dec (in_width 8) l). Defined.
#[export] Instance size_ok_dec len ext lo hi : Decision (size_ok len ext lo hi).
Proof. unfold size_ok. destruct lo, hi; apply _. Defined.
#[export] Instance valid_octets_dec bs ext lo hi : Decision (valid_octets bs ext lo hi).
Proof. unfold valid_octets. apply _. Defined.
#[export] Instance valid_bits_dec bs n ext lo hi : Decision (valid_bits bs n ext lo hi).
Proof. unfold valid_bits. apply _. Defined.
#[export] Instance integer_ok_dec v ext lo hi : Decision (integer_ok v ext lo hi).
Proof. unfold integer_ok. destruct lo, hi; apply _. Defined.
#[export] Instance count_ok_dec n ext lo hi : Decision (count_ok n ext lo hi).
Proof. unfold count_ok. destruct hi; apply _. Defined.

#[local] Abbreviation fields := (list (string * gotype * string)).
Definition tags (fs : fields) : list fieldParameters := List.map (λ f, parseFieldParameters f.2) fs.

(** Whether a value fits, its type and parameters still to come. *)
Definition checker : Type := gotype → fieldParameters → bool.

Fixpoint fits_fields (before : list (string * gotype * value)) (fs : fields) (vs : list value) (fts : list checker) : bool :=
  match fs, vs, fts with
  | [], [], [] => true
  | (name, t, tag) :: fs, v :: vs, ft :: fts =>
    let p := parseFieldParameters tag in
    exported name && (negb (optional p) || nilable t) &&
    (if optional p && is_nil v then true else match resolve before p with Ret p => ft t p | _ => false end) &&
    fits_fields (before ++ [(name, t, v)]) fs vs fts
  | _, _, _ => false
  end.

(** All alternatives but one are nil. *)
Fixpoint others_nil (j : nat) (fs : fields) (vs : list value) : bool :=
  match fs, vs with
  | [], [] => true
  | f :: fs, v :: vs =>
    exported f.1.1 && negb (optional (parseFieldParameters f.2)) &&
    match j with
    | O => others_nil (length fs) fs vs
    | S j => is_nil v && nilable f.1.2 && others_nil j fs vs
    end
  | _, _ => false
  end.

(** The alternative of a CHOICE, or of an open type with a content of fewer
    than 16384 octets. *)
Definition fits_choice (fs : fields) (vs : list value) (fts : list checker) (encs : list encoder) (params : fieldParameters) : bool :=
  match fs, vs with
  | f0 :: fs', VInt (Zpos j) :: vs' =>
    let j := Pos.to_nat j in
    exported f0.1.1 && negb (optional (parseFieldParameters f0.2)) && others_nil (j - 1) fs' vs' &&
    match fs !! j, tags fs !! j, fts !! j, encs !! j with
    | Some f, Some p, Some ft, Some enc =>
      ft f.1.2 p &&
      if openType params then
        match referenceFieldValue params with
        | Some r => (find_reference r (drop 1 (tags fs)) 1 =? Z.of_nat j) &&
                    match enc f.1.2 p (PerRaw [] 0) with Ret o => blen (w_bytes o) <? 16384 | _ => false end
        | None => false
        end
      else match valueUpperBound params with Some ub => (Z.of_nat j <=? ub + 1) && (ub <? 65536) | None => false end
    | _, _, _, _ => false
    end
  | _, _ => false
  end.

Definition not_one (lo hi : option Z) : bool := negb (bool_decide (is_Some lo) && bool_decide (lo = hi)).

Fixpoint fits (v : value) (t : gotype) (params : fieldParameters) : bool :=
  let se := sizeExtensible params in let ve := valueExtensible params in
  let slo := sizeLowerBound params in let shi := sizeUpperBound params in
  let vlo := valueLowerBound params in let vhi := valueUpperBound params in
  match t, v with
  | TPtr t, VPtr v => fits v t params
  | TBool, VBool _ => negb se && negb ve
  | TInt w, VInt z => negb se && bool_decide (integer_ok z ve vlo vhi) && bool_decide (signed w z = z) && (ve || not_one vlo vhi)
  | TEnumerated, VEnum z =>
    negb se && bool_decide (vlo = Some 0) &&
    match vhi with Some ub => (0 <=? z) && (z <=? ub) && (ub <? 65536) && (ve || (0 <? ub)) | None => false end
  | TString, VString s => negb ve && bool_decide (valid_octets s se slo shi)
  | TOctetString, VOctets s => bool_decide (valid_octets s se slo shi)
  | TBitString, VBits bs n => negb ve && (0 <=? n) && bool_decide (valid_bits bs (Z.to_nat n) se slo shi)
  | TSlice t, VSlice vs =>
    bool_decide (count_ok (blen vs) se slo shi) && ((0 <? blen vs) || negb (bool_decide (shi = Some (default 0 slo)))) &&
    forallb (λ ft, ft t (element_params params)) (List.map fits vs)
  | TStruct _ fs, VStruct vs =>
    negb se && (if is_choice fs then fits_choice fs vs (List.map fits vs) (List.map makeField vs) params
                else (0 <? blen fs) && (length (List.filter optional (tags fs)) <=? 64)%nat && fits_fields [] fs vs (List.map fits vs))
  | _, _ => false
  end.

(** ** Values that are the same but for unused bits *)

#[local] Unset Elimination Schemes.
Inductive same : value → value → Prop :=
| same_value v : same v v
| same_bits bs bs' n : bits_read bs n (bs', Z.of_nat n) → same (VBits bs (Z.of_nat n)) (VBits bs' (Z.of_nat n))
| same_ptr v v' : same v v' → same (VPtr v) (VPtr v')
| same_slice vs vs' : Forall2 same vs vs' → same (VSlice vs) (VSlice vs')
| same_struct vs vs' : Forall2 same vs vs' → same (VStruct vs) (VStruct vs').
#[local] Set Elimination Schemes.

Section value_ind.
Context (P : value → Prop) (H0 : ∀ b, P (VBool b)) (H1 : ∀ z, P (VInt z)) (H2 : ∀ z, P (VEnum z)) (H3 : ∀ s, P (VString s))
  (H4 : ∀ s, P (VOctets s)) (H5 : ∀ bs n, P (VBits bs n)) (H6 : P VNil) (H7 : ∀ v, P v → P (VPtr v))
  (H8 : ∀ vs, Forall P vs → P (VSlice vs)) (H9 : ∀ vs, Forall P vs → P (VStruct vs)).

Fixpoint value_ind' (v : value) : P v :=
  let all := fix all vs : Forall P vs :=
    match vs with [] => Forall_nil_2 P | v :: vs => Forall_cons_2 P v vs (value_ind' v) (all vs) end in
  match v with
  | VBool b => H0 b | VInt z => H1 z | VEnum z => H2 z | VString s => H3 s | VOctets s => H4 s | VBits bs n => H5 bs n
  | VNil => H6 | VPtr v => H7 v (value_ind' v) | VSlice vs => H8 vs (all vs) | VStruct vs => H9 vs (all vs)
  end.
End value_ind.

(** ** The end of the data *)

Definition reads {A} (R : A → A → Prop) (g : perBitData → parsed A) (pre e : list bool) (v : A) : Prop :=
  ∀ bytes suf, bytes_ok bytes → sized bytes → bits_of bytes = pre ++ e ++ suf →
  ∃ v', R v v' ∧ g (at_pos bytes (length pre)) = Ret (v', inl (at_pos bytes (length (pre ++ e)))).

(** A reader that fails at the end of the data. *)
Definition stuck {A} (g : perBitData → outcome (A * perBitData)) : Prop :=
  ∀ bytes, bytes_ok bytes → sized bytes → ∃ e, g (at_pos bytes (8 * length bytes)) = Fail e.

Lemma end_bits n bytes : bytes_ok bytes → sized bytes → 0 < n < 2 ^ 63 →
  getBitsValue n (at_pos bytes (8 * length bytes)) = Fail "Get bits overflow".
Proof.
  intros Hb Hs Hn. rewrite <-(Z2Nat.id n) by lia. apply getBitsValue_overflow; [done|done|lia|lia|lia].
Qed.
Lemma at_end bytes : at_pos bytes (8 * length bytes) = PerBitData bytes (blen bytes) 0.
Proof. unfold at_pos. rewrite (Nat.mul_comm 8), Nat.div_mul, Nat.Div0.mod_mul by lia. done. Qed.
Lemma end_align bytes : parseAlignBits (at_pos bytes (8 * length bytes)) = Ret (at_pos bytes (8 * length bytes)).
Proof. rewrite at_end. reflexivity. Qed.
Lemma end_byte bytes : next_byte (at_pos bytes (8 * length bytes)) = Fail "per data out of range".
Proof. rewrite at_end. unfold next_byte. cbn [r_byteOffset r_bytes]. by rewrite Z.geb_leb, Z.leb_refl. Qed.
Lemma end_take n bytes : sized bytes → 0 < n < 2 ^ 62 →
  take_bytes n (at_pos bytes (8 * length bytes)) = Fail "PER data out of range".
Proof.
  intros Hs Hn. rewrite at_end. unfold take_bytes. cbn [r_byteOffset r_bytes]. unfold sized, blen in *.
  rewrite wrap_small by (unfold in_width; lia). rewrite Z.gtb_ltb, (proj2 (Z.ltb_lt _ _)) by lia. done.
Qed.
Lemma end_string n bytes : sized bytes → 0 < n → getBitString n (at_pos bytes (8 * length bytes)) = Fail "Get bits overflow".
Proof.
  intros Hs Hn. rewrite at_end. unfold getBitString. cbn [r_byteOffset r_bytes r_bitsOffset]. unfold sized, blen in *.
  assert (slice bytes (Z.of_nat (length bytes)) (Z.of_nat (length bytes)) = Ret []) as ->.
  { unfold slice, blen. rewrite (proj2 (Z.ltb_ge _ 0)), !Z.ltb_irrefl by lia. by rewrite Z.sub_diag. }
  ret_bind. unfold GetBitString. change (u64 (blen [] * 8 - 0)) with 0. rewrite Z.gtb_ltb, (proj2 (Z.ltb_lt _ _)) by done. done.
Qed.

Lemma stuck_constraint r : stuck (parseConstraintValue r).
Proof.
  intros bytes Hb Hs. unfold parseConstraintValue. destruct (Z.leb_spec r 255).
  - destruct (r <? 0); [by eexists|]. destruct (least_width_spec r) as (k&->&Hk&_); [lia|].
    rewrite end_bits by (done || lia). by eexists.
  - rewrite end_align. ret_bind. rewrite !end_bits by (done || lia). repeat case_match; by eexists.
Qed.
Lemma stuck_length r bytes : bytes_ok bytes → sized bytes → ∃ e, parseLength r (at_pos bytes (8 * length bytes)) = Fail e.
Proof.
  intros Hb Hs. unfold parseLength. destruct (_ && _).
  - destruct (stuck_constraint r bytes Hb Hs) as [e ->]. by exists e.
  - rewrite end_align. ret_bind. rewrite end_bits by (done || lia). by eexists.
Qed.
Lemma stuck_bool : stuck parseBool.
Proof. intros bytes Hb Hs. unfold parseBool. rewrite end_bits by (done || lia). by eexists. Qed.
(** Whatever follows an extension bit; without one, the reader itself. *)
Lemma stuck_extension {A} ext (g : bool → perBitData → outcome (A * perBitData)) :
  (ext = false → stuck (g false)) → stuck (with_extension ext g).
Proof.
  intros Hg bytes Hb Hs. unfold with_extension. destruct ext; [|by apply Hg].
  rewrite end_bits by (done || lia). by eexists.
Qed.

(** A string of a fixed size is not empty. *)
Lemma fixed_size len lo hi lb ub : size_ok len false lo hi → size_bounds false lo hi = (lb, ub, 1) → 0 < ub < 2 ^ 60.
Proof.
  intros Hs. unfold size_bounds. destruct hi as [u|]; [|intros [= <- <- ?]; done]. destruct lo as [l|]; [|done].
  destruct Hs as (Hl&Hu&Hor). intros [= <- <- Er]. rewrite s64_small in Er by lia.
  destruct (u >? 65535); [lia|]. simpl in Er. destruct Hor as [(?&?&Hf)|[? _]]; [|done].
  assert (l = u) as El by lia. specialize (Hf El). lia.
Qed.
Lemma stuck_octets s se lo hi : valid_octets s se lo hi → stuck (with_extension se (λ x, parseOctetString x lo hi)).
Proof.
  intros [_ Hs]. apply stuck_extension. intros -> bytes Hb Hsz. unfold parseOctetString.
  destruct (size_bounds false lo hi) as [[lb ub] sr] eqn:Eb. destruct (Z.eqb_spec sr 1) as [->|].
  - pose proof (fixed_size _ _ _ _ _ Hs Eb) as Hub. destruct (ub >? 2) eqn:E2.
    + rewrite end_align. ret_bind. rewrite end_take by (done || lia). by eexists.
    + rewrite Z.gtb_ltb, Z.ltb_ge in E2. rewrite wrap_small by (unfold in_width; lia).
      rewrite end_string by (done || lia). by eexists.
  - cbn [parseOctetString_loop]. destruct (stuck_length sr bytes Hb Hsz) as [e ->]. by exists e.
Qed.
Lemma stuck_bits_string s n se lo hi : valid_bits s n se lo hi → stuck (with_extension se (λ x, parseBitString x lo hi)).
Proof.
  intros (_&_&Hs). apply stuck_extension. intros -> bytes Hb Hsz. unfold parseBitString.
  destruct (size_bounds false lo hi) as [[lb ub] sr] eqn:Eb. destruct (Z.eqb_spec sr 1) as [->|].
  - pose proof (fixed_size _ _ _ _ _ Hs Eb) as Hub. rewrite (wrap_small 64 (ub + 7)), shiftr3 by (unfold in_width; lia).
    assert (0 < (ub + 7) / 8 < 2 ^ 60) as Hd by (split; [apply Z.div_str_pos; lia|apply Z.div_lt_upper_bound; lia]).
    destruct (_ >? 2) eqn:E2.
    + rewrite end_align. ret_bind. rewrite end_take by (done || lia). by eexists.
    + rewrite wrap_small by (unfold in_width; lia).
      rewrite end_string by (done || lia). by eexists.
  - cbn [parseBitString_loop]. destruct (stuck_length sr bytes Hb Hsz) as [e ->]. by exists e.
Qed.
Lemma stuck_integer v ext lo hi : integer_ok v ext lo hi → ext || not_one lo hi = true →
  stuck (with_extension ext (λ x, parseInteger x lo hi)).
Proof.
  intros [_ Hv] Hn. apply stuck_extension. intros -> bytes Hb Hsz. unfold parseInteger.
  assert (∀ vr lb, ∃ e, (pd ← parseAlignBits (at_pos bytes (8 * length bytes)); '(rawLength, pd) ← next_byte pd;
    parseInteger_octets vr lb rawLength pd) = Fail e) as Hcount.
  { intros. rewrite end_align. ret_bind. rewrite end_byte. by eexists. }
  destruct lo as [lb|]; [|apply (Hcount (-1) 0)]. destruct hi as [ub|]; [|apply (Hcount 0 lb)].
  destruct Hv as (Hlb&Hub&[(_&Hr)|[? _]]); [|done]. rewrite s64_small by lia.
  assert (lb ≠ ub) as Hne.
  { intros ->. unfold not_one in Hn. rewrite !bool_decide_eq_true_2 in Hn by eauto. done. }
  rewrite (proj2 (Z.eqb_neq _ 1)) by lia. destruct (Z.leb_spec (ub - lb + 1) 0); [apply Hcount|].
  destruct (Z.leb_spec (ub - lb + 1) 65536).
  - destruct (stuck_constraint (ub - lb + 1) bytes Hb Hsz) as [e ->]. by eexists.
  - rewrite range_bytes_count by lia. destruct (octets_of 8 (ub - lb + 1 - 1)) as (n&->&Hk8&_); [by right|lia|].
    destruct (least_width_spec (Z.of_nat n)) as (k&->&Hk&_); [lia|]. rewrite end_bits by (done || lia). by eexists.
Qed.
Lemma stuck_enumerated ext ub : ub < 65536 → ext || (0 <? ub) = true →
  stuck (with_extension ext (λ x, parseEnumerated x (Some 0) (Some ub))).
Proof.
  intros Hub Hn. apply stuck_extension. intros -> bytes Hb Hsz. cbn [orb] in Hn. apply Z.ltb_lt in Hn.
  unfold parseEnumerated. rewrite s64_small, Z.gtb_ltb, (proj2 (Z.ltb_lt _ _)) by lia. by apply stuck_constraint.
Qed.
Lemma stuck_count n ext lo hi : count_ok n ext lo hi → hi ≠ Some (default 0 lo) →
  stuck (with_extension ext (λ x, parse_count x lo hi)).
Proof.
  intros (Hlb&Hlb'&H) Hne. apply stuck_extension. intros -> bytes Hb Hsz. unfold parse_count. set (lb := default 0 lo) in *.
  assert (match lo with Some l => if l <? 65536 then l else 0 | None => 0 end = lb) as ->.
  { unfold lb in *. destruct lo as [l|]; simpl in *; [|done]. by rewrite (proj2 (Z.ltb_lt l 65536)) by lia. }
  set (sr := match hi with Some _ => _ | None => _ end).
  assert (sr ≠ 1) as Hsr.
  { unfold sr. destruct hi as [ub|]; [|done]. cbn [negb andb]. destruct (Z.ltb_spec ub 65536); [|done].
    destruct H as [[? _]|[? _]]; [|lia]. rewrite s64_small by lia. intros Er. apply Hne. f_equal. lia. }
  rewrite (proj2 (Z.eqb_neq sr 1)) by done. destruct (sr >? 1).
  - destruct (stuck_constraint sr bytes Hb Hsz) as [e ->]. by eexists.
  - rewrite end_align. ret_bind. rewrite end_byte. by eexists.
Qed.

(** ** The values of basic types *)

Definition truncated (t : gotype) : parsed value := Ret (zero t, inr "sequence truncated"%string).

(** What a value is written as is read back. *)
Definition field_rt (v : value) (t : gotype) (p : fieldParameters) : Prop :=
  ∀ pre, ∃ e, puts (makeField v t p) pre e ∧ reads same (parseField t p) pre e v.

Lemma position pre l bytes : bits_of bytes = pre ++ l → (length pre ≤ 8 * length bytes)%nat.
Proof. intros E. rewrite <-bits_of_length, E, length_app. lia. Qed.
Lemma offset_inside bytes pos : (pos < 8 * length bytes)%nat →
  (r_byteOffset (at_pos bytes pos) =? blen (r_bytes (at_pos bytes pos))) = false.
Proof.
  intros H. apply Z.eqb_neq. unfold at_pos, blen. cbn [r_byteOffset r_bytes]. intros E%Nat2Z.inj.
  pose proof (Nat.Div0.div_lt_upper_bound pos 8 (length bytes) H). lia.
Qed.
Lemma offset_end bytes : (r_byteOffset (at_pos bytes (8 * length bytes)) =? blen (r_bytes (at_pos bytes (8 * length bytes)))) = true.
Proof. rewrite at_end. apply Z.eqb_refl. Qed.

(** Reading succeeds only inside the data. *)
Lemma decodes_inside {A} (g : perBitData → outcome (A * perBitData)) pre e v bytes suf :
  decodes g pre e v → stuck g → bytes_ok bytes → sized bytes → bits_of bytes = pre ++ e ++ suf →
  (length pre < 8 * length bytes)%nat.
Proof.
  intros D St Hb Hs E. pose proof (position _ _ _ E). destruct (decide (length pre = 8 * length bytes)%nat) as [El|]; [|lia].
  specialize (D bytes suf Hb Hs E). destruct (St bytes Hb Hs) as [x Ex]. rewrite El, Ex in D. discriminate D.
Qed.
Lemma reads_inside t p pre e v bytes suf :
  reads same (parseField t p) pre e v → bytes_ok bytes → sized bytes → bits_of bytes = pre ++ e ++ suf →
  (length pre < 8 * length bytes)%nat.
Proof.
  intros D Hb Hs E. pose proof (position _ _ _ E). destruct (decide (length pre = 8 * length bytes)%nat) as [El|]; [|lia].
  destruct (D bytes suf Hb Hs E) as (v'&_&Ev). rewrite El in Ev.
  destruct t; cbn [parseField] in Ev; rewrite offset_end in Ev; discriminate Ev.
Qed.

(** A basic type: the truncation check, the extension bits, the reader. *)
Lemma leaf_reads {A} t p (z : value) (f : A → value) (g : perBitData → outcome (A * perBitData)) pre e a :
  decodes g pre e a → stuck g →
  (∀ pd, parseField t p pd = if r_byteOffset pd =? blen (r_bytes pd) then truncated t else store z f (g pd)) →
  reads same (parseField t p) pre e (f a).
Proof.
  intros D St Hp bytes suf Hb Hs E. pose proof (decodes_inside _ _ _ _ _ _ D St Hb Hs E) as Hin.
  exists (f a). split; [constructor|]. rewrite Hp, offset_inside by done. by rewrite (D bytes suf Hb Hs E).
Qed.

Lemma store_extension {A} (z : value) (f : A → value) ext (g : bool → perBitData → outcome (A * perBitData)) pd :
  store z f (with_extension ext g pd) =
  match extension ext pd with Ret (x, pd) => store z f (g x pd) | Fail e => Ret (z, inr e) | Panic => Panic end.
Proof. unfold with_extension, extension. destruct ext; [|done]. by destruct (getBitsValue 1 pd) as [[b pd']|e|]. Qed.

Lemma rt_bool b p : negb (sizeExtensible p) && negb (valueExtensible p) = true → field_rt (VBool b) TBool p.
Proof.
  intros [Hs%negb_true_iff Hv%negb_true_iff]%andb_true_iff pre. destruct (bool_roundtrip b pre) as (e&P&D).
  exists e. split; [exact P|]. apply (leaf_reads _ _ (VBool false) VBool parseBool); [done|apply stuck_bool|].
  intros pd. cbn [parseField]. by rewrite Hs, Hv.
Qed.

Lemma rt_int z w p : sizeExtensible p = false →
  integer_ok z (valueExtensible p) (valueLowerBound p) (valueUpperBound p) → signed w z = z →
  valueExtensible p || not_one (valueLowerBound p) (valueUpperBound p) = true → field_rt (VInt z) (TInt w) p.
Proof.
  intros Hs Hi Hw Hn pre. destruct (integer_roundtrip _ _ _ _ Hi pre) as (e&P&D). exists e. split; [exact P|].
  rewrite <-Hw at 1. apply (leaf_reads _ _ (VInt 0) (λ z, VInt (signed w z)) _ _ _ _ D); [by apply (stuck_integer z)|].
  intros pd. cbn [parseField]. rewrite Hs, store_extension. cbn [extension is_slice negb]. rewrite andb_true_r.
  by destruct (extension _ pd) as [[x pd']|er|].
Qed.

Lemma enumerated_rt z p ub : sizeExtensible p = false → valueLowerBound p = Some 0 → valueUpperBound p = Some ub →
  0 ≤ z ≤ ub → ub < 65536 → valueExtensible p || (0 <? ub) = true → field_rt (VEnum z) TEnumerated p.
Proof.
  intros Hs Hl Hu Hz Hub Hn pre.
  destruct (roundtrip_extension (appendEnumerated z false (Some 0) (Some ub)) (valueExtensible p) false
    (λ x, parseEnumerated x (Some 0) (Some ub)) z ltac:(done) (enumerated_roundtrip z ub Hz Hub) pre) as (e&P&D).
  exists e. split.
  - intros w Hw. destruct (P w Hw) as (w'&E&Hw'). exists w'. split; [|done]. rewrite <-E.
    cbn [makeField]. rewrite Hl, Hu. unfold appendEnumerated. rewrite s64_small, !Z.gtb_ltb, (proj2 (Z.ltb_ge _ _)) by lia.
    rewrite (proj2 (Z.ltb_ge z 0)) by lia. destruct (valueExtensible p); [|done].
    change (Z.b2z false) with 0. by destruct (putBitsValue 0 1 w).
  - apply (leaf_reads _ _ (VEnum 0) VEnum _ _ _ _ D); [by apply stuck_enumerated|].
    intros pd. cbn [parseField]. rewrite Hs, Hl, Hu, store_extension. cbn [extension is_slice negb]. rewrite andb_true_r.
    by destruct (extension _ pd) as [[x pd']|er|].
Qed.

Lemma rt_octets s p : valid_octets s (sizeExtensible p) (sizeLowerBound p) (sizeUpperBound p) → field_rt (VOctets s) TOctetString p.
Proof.
  intros Hv pre. destruct (octets_roundtrip _ _ _ _ Hv pre) as (e&P&D). exists e. split; [exact P|].
  apply (leaf_reads _ _ VNil VOctets _ _ _ _ D); [by apply (stuck_octets s)|].
  intros pd. cbn [parseField]. rewrite store_extension. cbn [is_slice negb]. rewrite andb_false_r.
  by destruct (extension _ pd) as [[x pd']|er|].
Qed.
Lemma rt_string s p : valueExtensible p = false →
  valid_octets s (sizeExtensible p) (sizeLowerBound p) (sizeUpperBound p) → field_rt (VString s) TString p.
Proof.
  intros Hve Hv pre. destruct (octets_roundtrip _ _ _ _ Hv pre) as (e&P&D). exists e. split; [exact P|].
  apply (leaf_reads _ _ (VString []) VString _ _ _ _ D); [by apply (stuck_octets s)|].
  intros pd. cbn [parseField]. rewrite Hve, store_extension. cbn [andb].
  by destruct (extension _ pd) as [[x pd']|er|].
Qed.
Lemma rt_bits bs n p : valueExtensible p = false → 0 ≤ n →
  valid_bits bs (Z.to_nat n) (sizeExtensible p) (sizeLowerBound p) (sizeUpperBound p) → field_rt (VBits bs n) TBitString p.
Proof.
  intros Hve Hn Hv pre. destruct (bit_string_roundtrip _ _ _ _ _ pre Hv) as (e&P&D).
  pose proof (stuck_bits_string _ _ _ _ _ Hv) as St. rewrite Z2Nat.id in P by done. exists e. split.
  - intros w Hw. destruct (P w Hw) as (w'&bs'&E&Hw'). exists w'. split; [|done]. cbn [makeField]. by rewrite E.
  - intros bytes suf Hb Hs E. destruct (D bytes suf Hb Hs E) as ([bs' n']&Ev&Hr). pose proof (position _ _ _ E) as Hp.
    destruct Hr as (Hn'&Hr). cbn [snd fst] in Hn', Hr. subst n'.
    exists (VBits bs' n). rewrite <-(Z2Nat.id n) at 1 2 by done. split; [by apply same_bits|].
    assert (length pre < 8 * length bytes)%nat as Hin.
    { destruct (decide (length pre = 8 * length bytes)%nat) as [El|]; [|lia]. destruct (St bytes Hb Hs) as [x Ex].
      rewrite El, Ex in Ev. discriminate Ev. }
    cbn [parseField]. rewrite offset_inside by done. rewrite Hve. cbn [andb].
    unfold with_extension, extension in *. destruct (sizeExtensible p).
    + destruct (getBitsValue 1 (at_pos bytes (length pre))) as [[b pd]|er|]; [|discriminate Ev..]. cbn in Ev |- *.
      rewrite Ev. ret_bind. cbn. by rewrite Z2Nat.id.
    + rewrite Ev. cbn. by rewrite Z2Nat.id.
Qed.

(** ** References *)

Lemma same_present vs vs' : Forall2 same vs vs' → present_of vs = present_of vs'.
Proof. intros H. destruct H as [|v v' vs vs' Hv _]; [done|]. by inversion Hv. Qed.

(** The reference of an open type does not depend on unused bits. *)
Lemma same_reference v v' t : same v v' → getReferenceFieldValue v t = getReferenceFieldValue v' t.
Proof.
  revert v' t. induction v as [| | | | | | |v IH|vs IH|vs IH] using value_ind'; intros v' t Hs; inversion Hs; subst; try done; try by destruct t.
  match goal with H : Forall2 same vs _ |- _ => rename H into Hvs end.
  destruct t as [| | | | | | | | |name fs|]; try done. cbn [getReferenceFieldValue].
  rewrite (same_present vs vs') by done.
  assert (∀ i f, (r ← rd (List.map getReferenceFieldValue vs) i; r f) = (r ← rd (List.map getReferenceFieldValue vs') i; r f)) as E.
  { clear -IH Hvs. intros i f. revert i. induction Hvs as [|v v' vs vs' Hv _ IHl]; intros i; [done|].
    apply Forall_cons in IH as [IHv IH]. cbn [List.map]. destruct (decide (i = 0)) as [->|Hi].
    - cbn. by apply IHv.
    - rewrite !rd_cons, (proj2 (Z.eqb_neq i 0)) by lia. by apply IHl. }
  destruct (is_choice fs).
  - destruct (present_of vs') as [j|e|]; [|done..]. ret_bind. destruct (j =? 0); [done|]. destruct (_ >=? _); [done|].
    destruct (rd fs j) as [f|e|]; [|done..]. ret_bind. apply E.
  - destruct (rd fs 0) as [f|e|]; [|done..]. ret_bind. apply E.
Qed.

(** The fields before, as written and as read. *)
Definition same_before (b b' : list (string * gotype * value)) : Prop :=
  Forall2 (λ x y, x.1 = y.1 ∧ same x.2 y.2) b b'.

Lemma same_resolve b b' p : same_before b b' → resolve b p = resolve b' p.
Proof.
  intros H. unfold resolve. destruct (openType p); [|done]. induction H as [|[[n t] v] [[n' t'] v'] b b' [En Hv] _ IH]; [done|].
  cbn in En, Hv. injection En as <- <-. cbn [find_field]. destruct (n =? _)%string; [|done]. by rewrite (same_reference v v').
Qed.
Lemma same_before_snoc b b' n t v v' : same_before b b' → same v v' → same_before (b ++ [(n, t, v)]) (b' ++ [(n, t, v')]).
Proof. intros Hb Hv. apply Forall2_app; [done|]. by repeat constructor. Qed.

(** ** Optional fields *)

(** Which of the optional fields are present. *)
Fixpoint presence (ps : list fieldParameters) (vs : list value) : list bool :=
  match ps, vs with
  | p :: ps, v :: vs => (if optional p then [negb (is_nil v)] else []) ++ presence ps vs
  | _, _ => []
  end.

Lemma presence_length ps vs : length vs = length ps → length (presence ps vs) = length (List.filter optional ps).
Proof.
  revert vs. induction ps as [|p ps IH]; intros [|v vs] H; try done. cbn [presence List.filter]. injection H as H.
  rewrite length_app, IH by done. by destruct (optional p).
Qed.

Lemma presence_step b x l : in_width (Z.of_nat (length l)) b → (length l < 64)%nat → b = bits_val l →
  u64 (b ≪ 1) + Z.b2z x = bits_val (l ++ [x]).
Proof.
  intros Hb Hl ->. rewrite bits_val_app. cbn [length bits_val foldl]. rewrite Z.shiftl_mul_pow2 by lia.
  rewrite wrap_small; [change (Z.of_nat 1) with 1; lia|].
  unfold in_width in *. assert (2 ^ Z.of_nat (length l) ≤ 2 ^ 63) by (apply Z.pow_le_mono_r; lia). lia.
Qed.

Lemma scan_spec fs vs l : forallb (λ f, exported f.1.1 && (negb (optional (parseFieldParameters f.2)) || nilable f.1.2)) fs = true →
  length vs = length fs → (length l + length (presence (tags fs) vs) ≤ 64)%nat →
  scan_fields true fs vs (Z.of_nat (length l)) (bits_val l) =
  Ret (tags fs, Z.of_nat (length (l ++ presence (tags fs) vs)), bits_val (l ++ presence (tags fs) vs)).
Proof.
  revert vs l. induction fs as [|[[n t] tag] fs IH]; intros [|v vs] l Hf Hl Hc; try done.
  - cbn [scan_fields tags presence List.map]. by rewrite app_nil_r.
  - cbn [forallb fst snd] in Hf. apply andb_true_iff in Hf as [[He Ho]%andb_true_iff Hf]. injection Hl as Hl.
    cbn [scan_fields tags presence List.map snd] in *. rewrite He. cbn [negb andb]. fold (tags fs) in *.
    destruct (optional (parseFieldParameters tag)) eqn:Eo; cbn [andb negb orb app] in *.
    + unfold IsNil. rewrite Ho. ret_bind. rewrite (presence_step _ _ l) by (reflexivity || apply bits_val_width || (cbn in Hc; lia)).
      replace (Z.of_nat (length l) + 1) with (Z.of_nat (length (l ++ [negb (is_nil v)]))) by (rewrite length_app; cbn; lia).
      rewrite IH by (try done; rewrite length_app; cbn in *; lia). ret_bind. by rewrite <-!app_assoc.
    + ret_bind. rewrite IH by (try done; cbn in *; lia). ret_bind. done.
Qed.

Lemma scan_types_spec fs : forallb (λ f, exported f.1.1) fs = true →
  scan_types fs = Ret (tags fs, Z.of_nat (length (List.filter optional (tags fs)))).
Proof.
  induction fs as [|[[n t] tag] fs IH]; intros Hf; [done|]. cbn [forallb fst] in Hf. apply andb_true_iff in Hf as [He Hf].
  cbn [scan_types tags List.map snd List.filter]. rewrite He. cbn [negb]. rewrite IH by done. ret_bind. fold (tags fs).
  destruct (optional _); [|done]. cbn [length]. do 2 f_equal. lia.
Qed.

(** The bit that says whether the next optional field is present. *)
Lemma presence_bit l x l' : (length (l ++ x :: l') ≤ 64)%nat →
  (bits_val (l ++ x :: l') & shl 64 1 (Z.of_nat (length (x :: l')) - 1) =? 0) = negb x.
Proof.
  intros Hl. rewrite length_app in Hl. cbn [length] in *. replace (Z.of_nat (S (length l')) - 1) with (Z.of_nat (length l')) by lia.
  set (k := Z.of_nat (length l')). assert (shl 64 1 k = 2 ^ k) as ->.
  { unfold shl. rewrite Z.shiftl_1_l. apply wrap_small. unfold in_width. split; [lia|]. apply Z.pow_lt_mono_r; lia. }
  assert (Z.testbit (bits_val (l ++ x :: l')) k = x) as E.
  { change (x :: l') with ([x] ++ l'). rewrite app_assoc, bits_val_app. fold k.
    pose proof (bits_val_width l') as Hw. fold k in Hw. unfold in_width in Hw.
    rewrite bits_val_app. cbn [length bits_val foldl]. change (2 ^ Z.of_nat 1) with 2.
    rewrite Z.add_comm, Z.testbit_eqb by lia. rewrite Z.div_add by lia. rewrite Z.div_small by lia.
    replace (0 + (bits_val l * 2 + (2 * 0 + Z.b2z x))) with (Z.b2z x + bits_val l * 2) by lia. rewrite Z.mod_add by lia. by destruct x. }
  destruct x; cbn [negb].
  - apply Z.eqb_neq. intros E0. assert (Z.testbit (bits_val (l ++ true :: l') & 2 ^ k) k = false) as E1 by (rewrite E0; apply Z.bits_0).
    rewrite Z.land_spec, E, Z.pow2_bits_true in E1 by lia. done.
  - apply Z.eqb_eq. apply Z.bits_inj'. intros i Hi. rewrite Z.land_spec, Z.bits_0.
    destruct (decide (i = k)) as [->|Hne]; [by rewrite E|]. by rewrite Z.pow2_bits_false, andb_false_r by lia.
Qed.

(** ** SEQUENCE *)

Definition decoders (fs : fields) : list decoder := List.map (λ f, parseField f.1.2) fs.

(** One field and those behind it. *)
Lemma one_field name t (p p' : fieldParameters) v vs before (put_rest : perRawBitData → outcome perRawBitData)
    (get_rest : list (string * gotype * value) → perBitData → parsed (list value)) untouched pre e1 e2 :
  resolve before p = Ret p' →
  puts (makeField v t p') pre e1 → reads same (parseField t p') pre e1 v →
  puts put_rest (pre ++ e1) e2 →
  (∀ b', same_before (before ++ [(name, t, v)]) b' → reads (Forall2 same) (get_rest b') (pre ++ e1) e2 vs) →
  puts (λ pd, p ← resolve before p; pd ← makeField v t p pd; put_rest pd) pre (e1 ++ e2) ∧
  ∀ b', same_before before b' → reads (Forall2 same) (λ pd,
    match resolve b' p with
    | Ret p => '(v, r) ← parseField t p pd;
               match r with
               | inl pd => '(vs, r) ← get_rest (b' ++ [(name, t, v)]) pd; Ret (v :: vs, r)
               | inr e => Ret (v :: untouched, inr e)
               end
    | Fail e => Ret (zero t :: untouched, inr e)
    | Panic => Panic
    end) pre (e1 ++ e2) (v :: vs).
Proof.
  intros Hr P1 D1 P2 D2. split.
  - rewrite Hr. by apply (puts_bind (makeField v t p') put_rest).
  - intros b' Hb' bytes suf Hb Hs E. rewrite <-(same_resolve before b' p Hb'), Hr. rewrite <-app_assoc in E.
    destruct (D1 bytes (e2 ++ suf) Hb Hs E) as (v'&Hv'&->). ret_bind. rewrite app_assoc in E.
    destruct (D2 _ (same_before_snoc _ _ name t _ _ Hb' Hv') bytes suf Hb Hs E) as (vs'&Hvs&->). ret_bind.
    exists (v' :: vs'). split; [by constructor|]. by rewrite app_assoc.
Qed.

Lemma reads_ext {A} R (g g' : perBitData → parsed A) pre e v : (∀ pd, g pd = g' pd) → reads R g' pre e v → reads R g pre e v.
Proof. intros H D bytes suf Hb Hs E. rewrite H. exact (D bytes suf Hb Hs E). Qed.
Lemma puts_ext put put' pre e : (∀ pd, put pd = put' pd) → puts put' pre e → puts put pre e.
Proof. intros H P w Hw. rewrite H. exact (P w Hw). Qed.

(** Nothing is read at the end of the data. *)
Definition inside (pre e : list bool) : Prop :=
  ∀ bytes suf, bytes_ok bytes → sized bytes → bits_of bytes = pre ++ e ++ suf → (length pre < 8 * length bytes)%nat.

(** What the presence bit of a field decides. *)
Lemma present_step {A} p x l rest (skip field : Z → A) :
  let own := if optional p then [x] else [] in let n := Z.of_nat (length (own ++ rest)) in
  (length (l ++ own ++ rest) ≤ 64)%nat →
  (if optional p && (0 <? n) then
     if bits_val (l ++ own ++ rest) & shl 64 1 (n - 1) =? 0 then skip (n - 1) else field (n - 1)
   else field n) =
  if optional p && negb x then skip (Z.of_nat (length rest)) else field (Z.of_nat (length rest)).
Proof.
  cbv zeta. destruct (optional p); [|done]. cbn [app andb]. intros Hl. rewrite (proj2 (Z.ltb_lt 0 _)) by (cbn; lia).
  rewrite presence_bit by done. replace (Z.of_nat (length (x :: rest)) - 1) with (Z.of_nat (length rest)) by (cbn; lia). done.
Qed.

(** The loops at one field. *)
Lemma make_fields_step before name t tag fs v vs l pd :
  let p := parseFieldParameters tag in let own := if optional p then [negb (is_nil v)] else [] in
  let rest := presence (tags fs) vs in let b := bits_val (l ++ own ++ rest) in
  let next := make_fields (before ++ [(name, t, v)]) fs (tags fs) vs (List.map makeField vs) (Z.of_nat (length rest)) b in
  (length (l ++ own ++ rest) ≤ 64)%nat →
  make_fields before ((name, t, tag) :: fs) (p :: tags fs) (v :: vs) (List.map makeField (v :: vs)) (Z.of_nat (length (own ++ rest))) b pd =
  if optional p && is_nil v then next pd else p ← resolve before p; pd ← makeField v t p pd; next pd.
Proof.
  cbv zeta. intros Hl. rewrite <-(negb_involutive (is_nil v)) at 3. cbn [make_fields List.map].
  by apply (present_step (parseFieldParameters tag) (negb (is_nil v)) l (presence (tags fs) vs)
    (λ c, make_fields (before ++ [(name, t, v)]) fs (tags fs) vs (List.map makeField vs) c _ pd)
    (λ c, p ← resolve before (parseFieldParameters tag); pd ← makeField v t p pd;
          make_fields (before ++ [(name, t, v)]) fs (tags fs) vs (List.map makeField vs) c _ pd)).
Qed.
Lemma parse_fields_step before name t tag fs v vs l pd :
  let p := parseFieldParameters tag in let own := if optional p then [negb (is_nil v)] else [] in
  let rest := presence (tags fs) vs in let b := bits_val (l ++ own ++ rest) in
  let next v := parse_fields (before ++ [(name, t, v)]) fs (tags fs) (decoders fs) (Z.of_nat (length rest)) b in
  (length (l ++ own ++ rest) ≤ 64)%nat →
  parse_fields before ((name, t, tag) :: fs) (p :: tags fs) (decoders ((name, t, tag) :: fs)) (Z.of_nat (length (own ++ rest))) b pd =
  if optional p && is_nil v then '(vs, r) ← next (zero t) pd; Ret (zero t :: vs, r)
  else match resolve before p with
    | Ret p => '(v, r) ← parseField t p pd;
               match r with
               | inl pd => '(vs, r) ← next v pd; Ret (v :: vs, r)
               | inr e => Ret (v :: List.map (λ f, zero f.1.2) fs, inr e)
               end
    | Fail e => Ret (zero t :: List.map (λ f, zero f.1.2) fs, inr e)
    | Panic => Panic
    end.
Proof.
  cbv zeta. intros Hl. rewrite <-(negb_involutive (is_nil v)) at 3. cbn [parse_fields decoders List.map fst snd]. fold (decoders fs).
  by apply (present_step (parseFieldParameters tag) (negb (is_nil v)) l (presence (tags fs) vs)
    (λ c, '(vs, r) ← parse_fields (before ++ [(name, t, zero t)]) fs (tags fs) (decoders fs) c _ pd; Ret (zero t :: vs, r))
    (λ c, match resolve before (parseFieldParameters tag) with
      | Ret p => '(v, r) ← parseField t p pd;
                 match r with
                 | inl pd => '(vs, r) ← parse_fields (before ++ [(name, t, v)]) fs (tags fs) (decoders fs) c _ pd; Ret (v :: vs, r)
                 | inr e => Ret (v :: List.map (λ f, zero f.1.2) fs, inr e)
                 end
      | Fail e => Ret (zero t :: List.map (λ f, zero f.1.2) fs, inr e)
      | Panic => Panic
      end)).
Qed.

Lemma fields_rt fs vs before l :
  Forall (λ v, ∀ t p, fits v t p = true → field_rt v t p) vs →
  fits_fields before fs vs (List.map fits vs) = true →
  let pl := presence (tags fs) vs in let n := Z.of_nat (length pl) in let b := bits_val (l ++ pl) in
  (length (l ++ pl) ≤ 64)%nat →
  ∀ pre, ∃ e, puts (make_fields before fs (tags fs) vs (List.map makeField vs) n b) pre e ∧
    (∀ b', same_before before b' → reads (Forall2 same) (parse_fields b' fs (tags fs) (decoders fs) n b) pre e vs) ∧
    (pl = [] → fs ≠ [] → inside pre e).
Proof.
  revert vs before l. induction fs as [|[[name t] tag] fs IH]; intros [|v vs] before l Hvs Hf pl n b Hl pre; try done.
  - exists []. split; [apply puts_ret|]. split; [|done]. intros b' _ bytes suf _ _ _. exists []. split; [done|]. cbn. by rewrite app_nil_r.
  - apply Forall_cons in Hvs as [Hv Hvs]. cbn [fits_fields List.map] in Hf.
    apply andb_true_iff in Hf as [[[He Ho]%andb_true_iff Hp]%andb_true_iff Hf]. unfold b, n, pl in *. clear b n pl.
    change (tags ((name, t, tag) :: fs)) with (parseFieldParameters tag :: tags fs) in *. cbn [presence] in *.
    pose proof (λ pd, make_fields_step before name t tag fs v vs l pd Hl) as Hm.
    pose proof (λ b' pd, parse_fields_step b' name t tag fs v vs l pd Hl) as Hd. cbv zeta in Hm, Hd.
    set (p := parseFieldParameters tag) in *. set (own := if optional p then [negb (is_nil v)] else []) in *. rewrite app_assoc in Hl.
    destruct (optional p && is_nil v) eqn:En.
    + apply andb_true_iff in En as [Eo Enil]. rewrite Eo in Ho. cbn [negb orb] in Ho.
      assert (v = VNil) as -> by by destruct v. assert (zero t = VNil) as Ez by by destruct t.
      destruct (IH vs (before ++ [(name, t, VNil)]) (l ++ own) Hvs Hf Hl pre) as (e&P&D&_). rewrite <-app_assoc in P, D.
      exists e. split; [eapply puts_ext; [exact Hm|exact P]|]. split; [|intros E; unfold own in E; by rewrite Eo in E].
      intros b' Hb'. eapply reads_ext; [apply Hd|]. rewrite Ez. intros bytes suf Hb Hs E.
      destruct (D _ (same_before_snoc _ _ name t _ _ Hb' (same_value VNil)) bytes suf Hb Hs E) as (vs'&Hvs'&->).
      exists (VNil :: vs'). split; [by constructor; [constructor|]|done].
    + destruct (resolve before p) as [p'|er|] eqn:Er in Hp; [|done..]. destruct (Hv t p' Hp pre) as (e1&P1&D1).
      destruct (IH vs (before ++ [(name, t, v)]) (l ++ own) Hvs Hf Hl (pre ++ e1)) as (e2&P2&D2&_). rewrite <-app_assoc in P2, D2.
      destruct (one_field name t p p' v vs before _ (λ b', parse_fields b' fs (tags fs) (decoders fs) _ _)
        (List.map (λ f, zero f.1.2) fs) pre e1 e2 Er P1 D1 P2 D2) as [P D].
      exists (e1 ++ e2). split; [eapply puts_ext; [exact Hm|exact P]|]. split.
      * intros b' Hb'. eapply reads_ext; [apply Hd|exact (D b' Hb')].
      * intros _ _ bytes suf Hb Hs E. rewrite <-app_assoc in E. by apply (reads_inside t p' pre e1 v bytes (e2 ++ suf)).
Qed.

(** ** CHOICE and open types *)

Lemma others_all j fs vs : (length fs ≤ j)%nat → others_nil j fs vs = true →
  vs = List.map (λ f, zero f.1.2) fs ∧
  forallb (λ f, exported f.1.1 && negb (optional (parseFieldParameters f.2))) fs = true.
Proof.
  revert j vs. induction fs as [|f fs IH]; intros j [|v vs] Hj Ho; try done. destruct j as [|j]; [cbn in Hj; lia|].
  cbn [others_nil] in Ho. apply andb_true_iff in Ho as [Hf [[Hv Hn]%andb_true_iff Ho]%andb_true_iff].
  destruct (IH j vs ltac:(cbn in Hj; lia) Ho) as [-> Hb]. cbn [List.map forallb]. rewrite Hf, Hb. split; [|done]. f_equal.
  destruct v; try done. by destruct (f.1.2).
Qed.
Lemma others_but j fs vs v : others_nil j fs vs = true → vs !! j = Some v →
  vs = <[j := v]> (List.map (λ f, zero f.1.2) fs) ∧
  forallb (λ f, exported f.1.1 && negb (optional (parseFieldParameters f.2))) fs = true.
Proof.
  revert j vs. induction fs as [|f fs IH]; intros j [|v' vs] Ho Hv; try done. cbn [others_nil] in Ho.
  apply andb_true_iff in Ho as [Hf Ho]. cbn [List.map forallb]. rewrite Hf. destruct j as [|j].
  - injection Hv as ->. destruct (others_all _ _ _ (Nat.le_refl _) Ho) as [-> Hb]. by rewrite Hb.
  - apply andb_true_iff in Ho as [[Hn Hni]%andb_true_iff Ho]. destruct (IH j vs Ho Hv) as [-> Hb]. rewrite Hb. split; [|done].
    cbn. f_equal. destruct v'; try done. by destruct (f.1.2).
Qed.

Lemma open_rt v t p pre : field_rt v t p →
  (∀ o, makeField v t p (PerRaw [] 0) = Ret o → blen (w_bytes o) < 16384) →
  ∃ e, puts (appendOpenType (makeField v t p)) pre e ∧ reads same (parse_open (zero t) (parseField t p)) pre e v ∧ inside pre e.
Proof.
  intros H Hsmall. destruct (H []) as (ec&Pc&Dc). destruct (Pc (PerRaw [] 0) holds_empty) as (o&Eo&Hbo&Hbits&_).
  cbn [app] in Hbits. specialize (Hsmall o Eo). set (bs := w_bytes o) in *.
  destruct (open_loop_roundtrip bs (length bs) pre Hbo Hsmall) as (e&P&D). exists e. split; [|split].
  - intros w Hw. unfold appendOpenType. rewrite Eo. ret_bind. by apply P.
  - intros bytes suf Hb Hs E. unfold parse_open. rewrite (D _ bytes suf Hb Hs E).
    change (PerBitData bs 0 0) with (at_pos bs (length (@nil bool))).
    destruct (Dc bs (replicate (pad (length ec)) false)) as (v'&Hv'&->); [done| |done|by exists v'].
    unfold sized. lia.
  - intros bytes suf Hb Hs E. apply (decodes_inside _ pre e bs bytes suf (D 0%nat)); try done.
    intros bytes' Hb' Hs'. cbn [parseOpenType_loop]. destruct (stuck_length (-1) bytes' Hb' Hs') as [x ->]. by exists x.
Qed.

Lemma scan_choice fs vs : length vs = length fs →
  forallb (λ f, exported f.1.1 && negb (optional (parseFieldParameters f.2))) fs = true →
  scan_fields false fs vs 0 0 = Ret (tags fs, 0, 0) ∧ scan_types fs = Ret (tags fs, 0).
Proof.
  revert vs. induction fs as [|[[n t] tag] fs IH]; intros [|v vs] Hl Hf; try done. injection Hl as Hl.
  cbn [forallb fst snd] in Hf. apply andb_true_iff in Hf as [[He Ho%negb_true_iff]%andb_true_iff Hf].
  destruct (IH vs Hl Hf) as [E1 E2]. cbn [scan_fields scan_types tags List.map snd]. fold (tags fs). rewrite He. cbn [negb andb].
  ret_bind. rewrite E1, E2. ret_bind. by rewrite Ho.
Qed.

(** The value that is read has the alternative in its place. *)
Lemma chosen_same f0 fs j v v' : same v v' →
  same (VStruct (VInt (Zpos j) :: <[(Pos.to_nat j - 1)%nat := v]> (List.map (λ f : string * gotype * string, zero f.1.2) fs)))
    (VStruct (<[Z.to_nat (Zpos j) := v']> (<[0%nat := VInt (Zpos j)]> (zero f0 :: List.map (λ f, zero f.1.2) fs)))).
Proof.
  intros Hv. constructor. replace (Z.to_nat (Z.pos j)) with (S (Pos.to_nat j - 1)) by lia. cbn. constructor; [constructor|].
  apply Forall2_insert; [|done]. apply Forall_Forall2_diag, Forall_forall. constructor.
Qed.

Lemma lookup_rd {A} (l : list A) j x : l !! j = Some x → rd l (Z.of_nat j) = Ret x.
Proof. intros H. apply rd_lookup; [lia|by rewrite Nat2Z.id]. Qed.
Lemma lookup_bound {A} (l : list A) j x : l !! j = Some x → (Z.of_nat j >=? blen l) = false.
Proof. intros H%lookup_lt_Some. rewrite Z.geb_leb. apply Z.leb_gt. unfold blen. lia. Qed.
Lemma lookup_map {A B} (f : A → B) l i : List.map f l !! i = f <$> l !! i.
Proof. revert i. induction l as [|a l IH]; intros [|i]; try done. apply IH. Qed.
Lemma nonempty_inside pre e : e ≠ [] → inside pre e.
Proof.
  intros He bytes suf _ _ E. rewrite <-bits_of_length, E, !length_app. destruct e; [done|]. cbn. lia.
Qed.
Lemma inside_app pre e1 e2 : inside pre e1 → inside pre (e1 ++ e2).
Proof. intros H bytes suf Hb Hs E. rewrite <-app_assoc in E. by apply (H bytes (e2 ++ suf)). Qed.

(** What [fits_choice] looks up. *)
Lemma fits_choice_inv fs vs p : fits_choice fs vs (List.map fits vs) (List.map makeField vs) p = true →
  ∃ f0 fs' j f v, fs = f0 :: fs' ∧ let n := Pos.to_nat j in
    vs = VInt (Zpos j) :: <[(n - 1)%nat := v]> (List.map (λ f : string * gotype * string, zero f.1.2) fs') ∧
    fs !! n = Some f ∧ vs !! n = Some v ∧ fits v f.1.2 (parseFieldParameters f.2) = true ∧
    forallb (λ f, exported f.1.1 && negb (optional (parseFieldParameters f.2))) fs = true ∧
    if openType p then
      ∃ r, referenceFieldValue p = Some r ∧ find_reference r (drop 1 (tags fs)) 1 = Z.of_nat n ∧
        ∀ o, makeField v f.1.2 (parseFieldParameters f.2) (PerRaw [] 0) = Ret o → blen (w_bytes o) < 16384
    else ∃ ub, valueUpperBound p = Some ub ∧ Z.of_nat n ≤ ub + 1 ∧ ub < 65536.
Proof.
  unfold fits_choice. cbv zeta. destruct fs as [|f0 fs']; [done|]. destruct vs as [|[|[|j|]| | | | | | | |] vs']; try done.
  set (n := Pos.to_nat j). intros [[[He Ho]%andb_true_iff Hn]%andb_true_iff H]%andb_true_iff.
  unfold tags in H. rewrite !lookup_map in H. destruct ((f0 :: fs') !! n) as [f|] eqn:Ef; [|done]. cbn [fmap option_fmap option_map] in H.
  destruct ((VInt (Z.pos j) :: vs') !! n) as [v|] eqn:Ev; [|done]. cbn [fmap option_fmap option_map] in H.
  apply andb_true_iff in H as [Hf H]. exists f0, fs', j, f, v. split; [done|]. cbv zeta. fold n.
  assert (vs' !! (n - 1)%nat = Some v) as Ev'.
  { rewrite lookup_cons_ne_0 in Ev by (unfold n; lia). by rewrite Nat.sub_1_r. }
  destruct (others_but _ _ _ _ Hn Ev') as [Evs Hall]. split; [by rewrite <-Evs|]. split; [done|]. split; [done|]. split; [done|].
  split; [cbn [forallb]; by rewrite He, Ho, Hall|]. destruct (openType p).
  - destruct (referenceFieldValue p) as [r|]; [|done]. apply andb_true_iff in H as [Hr%Z.eqb_eq Hm]. exists r. split; [done|]. split; [done|].
    intros o Eo. rewrite Eo in Hm. by apply Z.ltb_lt.
  - destruct (valueUpperBound p) as [ub|]; [|done]. exists ub. split; [done|]. lia.
Qed.

Lemma find_reference_found r ps k n : 0 < k → find_reference r ps k = Z.of_nat n → n ≠ 0%nat →
  ∃ p, ps !! (n - Z.to_nat k)%nat = Some p ∧ referenceFieldValue p = Some r ∧ k ≤ Z.of_nat n.
Proof.
  revert k. induction ps as [|p ps IH]; intros k Hk E Hn; cbn [find_reference] in E; [lia|].
  destruct (bool_decide_reflect (referenceFieldValue p = Some r)) as [Hp|_].
  - exists p. replace (n - Z.to_nat k)%nat with 0%nat by lia. split; [done|]. split; [done|lia].
  - destruct (IH (k + 1)) as (p'&Ep&Hp&Hle); [lia|done..|]. exists p'.
    replace (n - Z.to_nat k)%nat with (S (n - Z.to_nat (k + 1))) by lia. split; [done|]. split; [done|lia].
Qed.

(** The writer at the alternative that is present. *)
Lemma make_choice_at fs vs j f v p pd : let n := Pos.to_nat j in
  present_of vs = Ret (Zpos j) → fs !! n = Some f → vs !! n = Some v →
  make_choice fs (tags fs) vs (List.map makeField vs) p pd =
  if openType p then
    match referenceFieldValue p with
    | None => Fail "OpenType reference value is empty"
    | Some r => if bool_decide (referenceFieldValue (parseFieldParameters f.2) = Some r)
                then appendOpenType (makeField v f.1.2 (parseFieldParameters f.2)) pd
                else Fail "reference value and present reference value is not match"
    end
  else pd ← appendChoiceIndex (Zpos j) (valueExtensible p) (valueUpperBound p) pd; makeField v f.1.2 (parseFieldParameters f.2) pd.
Proof.
  intros n Hp Ef Ev. assert (Z.pos j = Z.of_nat n) as Ej by (unfold n; lia).
  assert (rd fs (Z.pos j) = Ret f) as Rf by (rewrite Ej; by apply lookup_rd).
  assert (rd (tags fs) (Z.pos j) = Ret (parseFieldParameters f.2)) as Rp.
  { rewrite Ej. apply lookup_rd. unfold tags. by rewrite lookup_map, Ef. }
  assert (rd (A:=encoder) (List.map makeField vs) (Z.pos j) = Ret (makeField v)) as Re by (rewrite Ej; apply lookup_rd; by rewrite lookup_map, Ev).
  unfold make_choice. rewrite Hp. ret_bind. change (Z.pos j =? 0) with false.
  rewrite Ej, (lookup_bound _ _ _ Ef), <-Ej, Rp, Rf, Re. by destruct (openType p).
Qed.

Lemma choice_rt fs vs p pre :
  Forall (λ v, ∀ t p, fits v t p = true → field_rt v t p) vs →
  fits_choice fs vs (List.map fits vs) (List.map makeField vs) p = true →
  ∃ e, puts (make_choice fs (tags fs) vs (List.map makeField vs) p) pre e ∧
    reads same (parse_choice fs (tags fs) (decoders fs) false p) pre e (VStruct vs) ∧ inside pre e.
Proof.
  intros Hvs (f0&fs'&j&f&v&->&Evs&Ef&Ev&Hf&_&H)%fits_choice_inv. cbv zeta in *. set (n := Pos.to_nat j) in *.
  assert (field_rt v f.1.2 (parseFieldParameters f.2)) as Hv.
  { eapply Forall_lookup in Hvs; [|exact Ev]. by apply Hvs. }
  assert (present_of vs = Ret (Zpos j)) as Hp by by rewrite Evs.
  assert (Z.pos j = Z.of_nat n) as Ej by (unfold n; lia).
  assert ((Z.pos j >=? blen (f0 :: fs')) = false) as Hb by (rewrite Ej; by apply (lookup_bound _ _ _ Ef)).
  assert (rd (f0 :: fs') (Z.pos j) = Ret f) as Rf by (rewrite Ej; by apply lookup_rd).
  assert (rd (tags (f0 :: fs')) (Z.pos j) = Ret (parseFieldParameters f.2)) as Rp.
  { rewrite Ej. apply lookup_rd. unfold tags. by rewrite lookup_map, Ef. }
  assert (rd (decoders (f0 :: fs')) (Z.pos j) = Ret (parseField f.1.2)) as Rd.
  { rewrite Ej. apply lookup_rd. unfold decoders. by rewrite lookup_map, Ef. }
  pose proof (λ pd, make_choice_at (f0 :: fs') vs j f v p pd Hp Ef Ev) as Hw.
  unfold parse_choice. destruct (openType p).
  - destruct H as (r&Er&Ereff&Hsmall). rewrite Er in *.
    destruct (find_reference_found r (drop 1 (tags (f0 :: fs'))) 1 n) as (q&Eq&Hq&_); [done|done|lia|].
    assert (q = parseFieldParameters f.2) as ->.
    { rewrite lookup_drop in Eq. replace (1 + (n - Z.to_nat 1))%nat with n in Eq by lia. unfold tags in Eq.
      rewrite lookup_map, Ef in Eq. by injection Eq as <-. }
    destruct (open_rt v f.1.2 (parseFieldParameters f.2) pre Hv Hsmall) as (e&P&D&I). exists e.
    split; [eapply puts_ext; [exact Hw|]; by rewrite bool_decide_eq_true_2|]. split; [|exact I]. intros bytes suf Hbb Hs E. destruct (D bytes suf Hbb Hs E) as (v'&Hv'&Ed).
    rewrite Ereff, <-Ej. cbn [Z.eqb]. rewrite Rf, Rp, Rd. cbn [mbind outcome_mbind]. rewrite Ed. ret_bind.
    eexists. split; [|reflexivity]. rewrite Evs. by apply chosen_same.
  - destruct H as (ub&Eub&Hle&Hub). rewrite Eub in *.
    destruct (choice_roundtrip (Z.pos j) ub ltac:(lia) Hub pre) as (e1&P1&D1). destruct (Hv (pre ++ e1)) as (e2&P2&D2).
    exists (e1 ++ e2). split; [|split].
    + eapply puts_ext; [exact Hw|]. apply (puts_bind (appendChoiceIndex (Z.pos j) (valueExtensible p) (Some ub)) (makeField v f.1.2 (parseFieldParameters f.2))); [|exact P2].
      intros w Hh. destruct (P1 w Hh) as (w'&E&Hw'). exists w'. split; [|done]. rewrite <-E. unfold appendChoiceIndex.
      destruct (ub <? 0); [done|]. rewrite (Z.gtb_ltb _ ub), (proj2 (Z.ltb_ge _ _)) by lia. by rewrite andb_false_r.
    + intros bytes suf Hbb Hs E. rewrite <-app_assoc in E. rewrite (D1 bytes (e2 ++ suf) Hbb Hs E). cbn [Z.eqb].
      rewrite Hb. rewrite Rf, Rp, Rd. cbn [mbind outcome_mbind]. rewrite app_assoc in E.
      destruct (D2 bytes suf Hbb Hs E) as (v'&Hv'&->). ret_bind. rewrite app_assoc.
      eexists. split; [|reflexivity]. rewrite Evs. by apply chosen_same.
    + apply inside_app. intros bytes suf Hbb Hs E. apply (decodes_inside _ _ _ _ bytes suf D1); try done.
      intros bytes' Hb' Hs'. unfold getChoiceIndex. destruct (ub <? 0); [by eexists|].
      destruct (stuck_constraint (s64 (ub + 1)) bytes' Hb' Hs') as [x ->]. by exists x.
Qed.

(** ** Structs, lists and the whole *)

(** The extension bit of a struct is always 0. *)
Lemma struct_rt name fs vs p (body : perRawBitData → outcome perRawBitData) : sizeExtensible p = false →
  (∀ pd, make_struct fs vs (List.map makeField vs) p pd = (pd ← (if valueExtensible p then putBitsValue 0 1 pd else Ret pd); body pd)) →
  (∀ pre, ∃ e, puts body pre e ∧ reads same (parse_struct fs (decoders fs) false p) pre e (VStruct vs) ∧ inside pre e) →
  field_rt (VStruct vs) (TStruct name fs) p.
Proof.
  intros Hse Hm H pre. set (e0 := if valueExtensible p then num_bits 1 0 else []).
  destruct (H (pre ++ e0)) as (e&P&D&I). exists (e0 ++ e). split.
  - cbn [makeField]. eapply puts_ext; [exact Hm|].
    apply (puts_bind (λ pd, if valueExtensible p then putBitsValue 0 1 pd else Ret pd) body); [|exact P].
    unfold e0. destruct (valueExtensible p); [|apply puts_ret]. intros w Hw. by apply (bit_puts false).
  - intros bytes suf Hb Hs E. rewrite <-app_assoc in E.
    assert (length pre < 8 * length bytes)%nat as Hin.
    { unfold e0 in *. destruct (valueExtensible p).
      - by apply (nonempty_inside pre (num_bits 1 0) ltac:(done) bytes (e ++ suf)).
      - rewrite app_nil_r in I. by apply (I bytes suf Hb Hs). }
    cbn [parseField]. rewrite offset_inside by done. rewrite Hse. cbn [extension is_slice negb]. rewrite andb_true_r.
    assert (extension (valueExtensible p) (at_pos bytes (length pre)) = Ret (false, at_pos bytes (length (pre ++ e0)))) as ->.
    { unfold extension, e0 in *. destruct (valueExtensible p); [|by rewrite app_nil_r].
      pose proof (bits_decodes 0 1 pre ltac:(lia) ltac:(done) bytes (e ++ suf) Hb Hs E) as Ex. change (Z.of_nat 1) with 1 in Ex. by rewrite Ex. }
    rewrite app_assoc in E. destruct (D bytes suf Hb Hs E) as (v'&Hv'&Ev). exists v'. split; [done|]. by rewrite app_assoc.
Qed.

Lemma fits_fields_wf before fs vs fts : fits_fields before fs vs fts = true →
  length vs = length fs ∧
  forallb (λ f, exported f.1.1 && (negb (optional (parseFieldParameters f.2)) || nilable f.1.2)) fs = true ∧
  forallb (λ f, exported f.1.1) fs = true.
Proof.
  revert before vs fts. induction fs as [|[[n t] tag] fs IH]; intros before [|v vs] [|ft fts] H; try done. cbn [fits_fields] in H.
  apply andb_true_iff in H as [[[He Ho]%andb_true_iff _]%andb_true_iff H]. destruct (IH _ _ _ H) as (El&H1&H2).
  cbn [length forallb fst snd]. by rewrite El, He, Ho, H1, H2.
Qed.

Lemma sequence_rt fs vs p pre : is_choice fs = false →
  Forall (λ v, ∀ t p, fits v t p = true → field_rt v t p) vs →
  fits_fields [] fs vs (List.map fits vs) = true → fs ≠ [] → (length (List.filter optional (tags fs)) ≤ 64)%nat →
  let pl := presence (tags fs) vs in
  let put_fields pd := pd ← (if 0 <? Z.of_nat (length pl) then putBitsValue (bits_val pl) (Z.of_nat (length pl)) pd else Ret pd);
                       make_fields [] fs (tags fs) vs (List.map makeField vs) (Z.of_nat (length pl)) (bits_val pl) pd in
  (∀ pd, make_struct fs vs (List.map makeField vs) p pd = (pd ← (if valueExtensible p then putBitsValue 0 1 pd else Ret pd); put_fields pd)) ∧
  ∃ e, puts put_fields pre e ∧ reads same (parse_struct fs (decoders fs) false p) pre e (VStruct vs) ∧ inside pre e.
Proof.
  intros Hc Hvs Hf Hne H64 pl put_fields. destruct (fits_fields_wf _ _ _ _ Hf) as (Hl&Hwf&Hex).
  assert (length pl = length (List.filter optional (tags fs))) as Hpl.
  { apply presence_length. unfold tags. by rewrite length_map. }
  assert (length pl ≤ 64)%nat as H64' by lia. split.
  { intros pd. unfold make_struct. rewrite Hc. cbn [negb]. change 0 with (Z.of_nat (length (@nil bool))) at 2. change 0 with (bits_val []) at 2.
    rewrite scan_spec by done. reflexivity. }
  set (e0 := if 0 <? Z.of_nat (length pl) then num_bits (length pl) (bits_val pl) else []).
  destruct (fields_rt fs vs [] [] Hvs Hf H64' (pre ++ e0)) as (e&P&D&I). cbn [app] in *. fold pl in P, D, I.
  pose proof (bits_val_width pl) as Hw. exists (e0 ++ e). split; [|split].
  - apply (puts_bind (λ pd, if 0 <? Z.of_nat (length pl) then putBitsValue (bits_val pl) (Z.of_nat (length pl)) pd else Ret pd)); [|exact P].
    unfold e0. destruct (Z.ltb_spec 0 (Z.of_nat (length pl))); [|apply puts_ret]. intros w Hh. apply putBitsValue_spec; [lia|done|done].
  - intros bytes suf Hb Hs E. rewrite <-app_assoc in E. unfold parse_struct. rewrite scan_types_spec, <-Hpl, Hc by done.
    assert ((if 0 <? Z.of_nat (length pl) then getBitsValue (Z.of_nat (length pl)) (at_pos bytes (length pre)) else Ret (0, at_pos bytes (length pre)))
      = Ret (bits_val pl, at_pos bytes (length (pre ++ e0)))) as ->.
    { unfold e0 in *. destruct (Z.ltb_spec 0 (Z.of_nat (length pl))).
      - apply (bits_decodes (bits_val pl) (length pl) pre ltac:(lia) Hw bytes (e ++ suf) Hb Hs E).
      - assert (pl = []) as -> by (destruct pl; [done|cbn in *; lia]). by rewrite app_nil_r. }
    rewrite app_assoc in E. destruct (D [] ltac:(constructor) bytes suf Hb Hs E) as (vs'&Hvs'&->). ret_bind.
    exists (VStruct vs'). split; [by constructor|]. by rewrite app_assoc.
  - unfold e0 in *. destruct (Z.ltb_spec 0 (Z.of_nat (length pl))) as [Hp|Hp].
    + apply inside_app, nonempty_inside. intros En. apply (f_equal length) in En. rewrite num_bits_length in En. cbn in En. lia.
    + rewrite app_nil_r in I. apply I; [|done]. destruct pl; [done|cbn in Hp; lia].
Qed.


(** ** SEQUENCE OF *)

Lemma elements_rt vs t p : Forall (λ v, field_rt v t p) vs → ∀ pre, ∃ e,
  puts (make_elements t p (List.map makeField vs)) pre e ∧
  (∀ bytes suf, bytes_ok bytes → sized bytes → bits_of bytes = pre ++ e ++ suf →
     ∃ vs', Forall2 same vs vs' ∧
       parse_elements (length vs) (parseField t p) (at_pos bytes (length pre)) = Ret (vs', at_pos bytes (length (pre ++ e)))) ∧
  (vs ≠ [] → inside pre e).
Proof.
  induction 1 as [|v vs Hv _ IH]; intros pre.
  - exists []. split; [apply puts_ret|]. split; [|done]. intros bytes suf _ _ _. exists []. split; [done|]. cbn. by rewrite app_nil_r.
  - destruct (Hv pre) as (e1&P1&D1). destruct (IH (pre ++ e1)) as (e2&P2&D2&_). exists (e1 ++ e2). split; [|split].
    + cbn [make_elements List.map]. by apply (puts_bind (makeField v t p) (make_elements t p (List.map makeField vs))).
    + intros bytes suf Hb Hs E. rewrite <-app_assoc in E. cbn [parse_elements length].
      destruct (D1 bytes (e2 ++ suf) Hb Hs E) as (v'&Hv'&->). ret_bind. rewrite app_assoc in E.
      destruct (D2 bytes suf Hb Hs E) as (vs'&Hvs'&->). ret_bind. exists (v' :: vs'). split; [by constructor|]. by rewrite app_assoc.
    + intros _ bytes suf Hb Hs E. rewrite <-app_assoc in E. by apply (reads_inside t p pre e1 v bytes (e2 ++ suf)).
Qed.

(** Behind the extension bit [h] goes on where [g] has read. *)
Lemma with_extension_then {A B} ext (g : bool → perBitData → outcome (A * perBitData)) (h : bool → perBitData → outcome (B * perBitData)) pd a b :
  (∀ x pd, g x pd = Ret a → h x pd = Ret b) → with_extension ext g pd = Ret a → with_extension ext h pd = Ret b.
Proof. intros H. unfold with_extension. destruct ext; [|apply H]. destruct (getBitsValue 1 pd) as [[v pd']|e|]; [apply H|done..]. Qed.

Lemma slice_rt vs t p : Forall (λ v, field_rt v t (element_params p)) vs →
  count_ok (blen vs) (sizeExtensible p) (sizeLowerBound p) (sizeUpperBound p) →
  0 < blen vs ∨ sizeUpperBound p ≠ Some (default 0 (sizeLowerBound p)) → field_rt (VSlice vs) (TSlice t) p.
Proof.
  intros Hvs Hc Hne pre. destruct (count_roundtrip _ _ _ _ Hc pre) as (e1&P1&D1).
  destruct (elements_rt vs t (element_params p) Hvs (pre ++ e1)) as (e2&P2&D2&I2). exists (e1 ++ e2). split.
  - eapply puts_ext; [|exact (puts_bind _ _ _ _ _ P1 P2)]. intros pd. cbn [makeField]. unfold appendSequenceOf.
    unfold blen. by rewrite length_map.
  - intros bytes suf Hb Hs E. rewrite <-app_assoc in E. assert (length pre < 8 * length bytes)%nat as Hin.
    { destruct Hne as [Hpos|Hne].
      - rewrite app_assoc in E.
        pose proof (I2 ltac:(intros ->; done) bytes suf Hb Hs E) as Hi. rewrite length_app in Hi. lia.
      - apply (decodes_inside _ _ _ _ _ _ D1 (stuck_count _ _ _ _ Hc Hne) Hb Hs E). }
    specialize (D1 bytes (e2 ++ suf) Hb Hs E). rewrite app_assoc in E. destruct (D2 bytes suf Hb Hs E) as (vs'&Hvs'&Ev).
    exists (VSlice vs'). split; [by constructor|]. cbn [parseField]. rewrite offset_inside by done. cbn [is_slice negb].
    rewrite andb_false_r.
    assert (with_extension (sizeExtensible p) (λ x, parseSequenceOf x (parseField t) p) (at_pos bytes (length pre))
      = Ret (vs', at_pos bytes (length (pre ++ e1 ++ e2)))) as Ex.
    { eapply with_extension_then; [|exact D1]. intros x pd Ec. unfold parseSequenceOf. rewrite Ec.
      rewrite s64_small, (proj2 (Z.ltb_ge _ 0)) by (destruct Hc as (?&?&?); unfold blen in *; case_match; lia).
      unfold blen. rewrite Nat2Z.id, Ev. by rewrite app_assoc. }
    pose proof (store_extension VNil VSlice (sizeExtensible p) (λ x, parseSequenceOf x (parseField t) p) (at_pos bytes (length pre))) as Es.
    rewrite Ex in Es. cbn [store] in Es. rewrite Es. by destruct (extension _ _) as [[x pd]|er|].
Qed.

(** ** Every value that fits *)

Lemma ptr_rt v t p : field_rt v t p → field_rt (VPtr v) (TPtr t) p.
Proof.
  intros H pre. destruct (H pre) as (e&P&D). exists e. split; [exact P|]. intros bytes suf Hb Hs E.
  pose proof (reads_inside t p pre e v bytes suf D Hb Hs E) as Hin. destruct (D bytes suf Hb Hs E) as (v'&Hv'&Ev).
  exists (VPtr v'). split; [by constructor|]. cbn [parseField]. by rewrite offset_inside, Ev.
Qed.

Lemma struct_fits_rt name fs vs p : Forall (λ v, ∀ t p, fits v t p = true → field_rt v t p) vs →
  fits (VStruct vs) (TStruct name fs) p = true → field_rt (VStruct vs) (TStruct name fs) p.
Proof.
  intros Hvs. cbn [fits]. intros [Hse%negb_true_iff H]%andb_true_iff. destruct (is_choice fs) eqn:Hc.
  - destruct (fits_choice_inv _ _ _ H) as (f0&fs'&j&f&v&Efs&Evs&_&_&_&Hall&_). cbv zeta in Evs.
    destruct (scan_choice fs vs) as [Ew Er]; [|done|].
    { rewrite Evs, Efs. cbn [length]. by rewrite length_insert, length_map. }
    apply (struct_rt name fs vs p (make_choice fs (tags fs) vs (List.map makeField vs) p)); [done| |].
    + intros pd. unfold make_struct. rewrite Hc. cbn [negb]. rewrite Ew. by destruct (if valueExtensible p then _ else _).
    + intros pre. destruct (choice_rt fs vs p pre Hvs H) as (e&P&D&I). exists e. split; [done|]. split; [|done].
      eapply reads_ext; [|exact D]. intros pd. unfold parse_struct. rewrite Er. cbn [Z.ltb Z.compare]. by rewrite Hc.
  - apply andb_true_iff in H as [[Hne%Z.ltb_lt H64%Nat.leb_le]%andb_true_iff H].
    assert (fs ≠ []) as Hfs by by intros ->.
    eapply struct_rt; [done|intros pd; by apply (sequence_rt fs vs p [])|].
    intros pre. by apply (sequence_rt fs vs p pre).
Qed.

Lemma value_rt v : ∀ t p, fits v t p = true → field_rt v t p.
Proof.
  induction v as [b|z|z|s|s|bs n| |v IH|vs IH|vs IH] using value_ind'; intros t p H; destruct t; try done; cbn [fits] in H.
  - by apply rt_bool.
  - apply andb_true_iff in H as [[[Hs%negb_true_iff Hi%bool_decide_eq_true]%andb_true_iff Hw%bool_decide_eq_true]%andb_true_iff Hn].
    by apply rt_int.
  - destruct (valueUpperBound p) as [ub|] eqn:Eu; [|by rewrite andb_false_r in H].
    apply andb_true_iff in H as [[Hs%negb_true_iff Hl%bool_decide_eq_true]%andb_true_iff H].
    apply andb_true_iff in H as [[[H1%Z.leb_le H2%Z.leb_le]%andb_true_iff H3%Z.ltb_lt]%andb_true_iff H4].
    by apply (enumerated_rt z p ub).
  - apply andb_true_iff in H as [Hv%negb_true_iff Ho%bool_decide_eq_true]. by apply rt_string.
  - apply bool_decide_eq_true in H. by apply rt_octets.
  - apply andb_true_iff in H as [[Hv%negb_true_iff Hn%Z.leb_le]%andb_true_iff Hb%bool_decide_eq_true]. by apply rt_bits.
  - apply ptr_rt. by apply IH.
  - apply andb_true_iff in H as [[Hc%bool_decide_eq_true Hne]%andb_true_iff Hf]. apply slice_rt; [|done|].
    + clear Hc Hne. induction IH as [|v vs Hv _ IHl]; [constructor|]. cbn [List.map forallb] in Hf.
      apply andb_true_iff in Hf as [Hf1 Hf]. constructor; [by apply Hv|by apply IHl].
    + apply orb_true_iff in Hne as [Hne%Z.ltb_lt|Hne%negb_true_iff%bool_decide_eq_false]; auto.
  - by apply struct_fits_rt.
Qed.

(** ** Unused bits are not written *)

Definition written (v : value) : Prop :=
  ∀ v' t p pd, same v v' → fits v t p = true → makeField v' t p pd = makeField v t p pd.

Lemma written_bits bs bs' n ext lo hi pd : valid_bits bs n ext lo hi → Z.of_nat n < 2 ^ 62 → bits_read bs n (bs', Z.of_nat n) →
  appendBitString bs' (Z.of_nat n) ext lo hi pd = appendBitString bs (Z.of_nat n) ext lo hi pd.
Proof.
  intros (Hb&Hl&_) Hn (_&Hb'&Hl'&Hbits). cbn [fst] in *. unfold appendBitString.
  destruct (mask_last_spec bs n Hb Hl Hn) as (m&Em&Hm&Hlm&Ebits).
  destruct (mask_last_spec bs' n Hb' (eq_trans Hl' Hl) Hn) as (m'&Em'&Hm'&Hlm'&Ebits').
  assert (m' = m) as ->; [|by rewrite Em, Em']. apply bits_of_inj; [done..|]. by rewrite Ebits, Ebits', Hbits.
Qed.

Lemma valid_bits_small bs n ext lo hi : valid_bits bs n ext lo hi → Z.of_nat n < 2 ^ 62.
Proof. intros (_&_&Hs). unfold size_ok in Hs. destruct lo, hi; lia. Qed.

Lemma same_nil v v' : same v v' → is_nil v = true → v' = v.
Proof. destruct v; try done. by inversion 1. Qed.
Lemma same_is_nil v v' : same v v' → is_nil v' = is_nil v.
Proof. by inversion 1. Qed.

Lemma written_scan b fs vs vs' c n : Forall2 same vs vs' → scan_fields b fs vs' c n = scan_fields b fs vs c n.
Proof.
  intros H. revert fs c n. induction H as [|v v' vs vs' Hv _ IH]; intros [|[[name t] tag] fs] c n; try done. cbn [scan_fields].
  destruct (negb (exported name)); [done|]. unfold IsNil. rewrite (same_is_nil v v') by done.
  destruct (_ && _); [|ret_bind; by rewrite IH]. destruct (nilable t); [ret_bind; by rewrite IH|done].
Qed.

Lemma written_fields fs vs vs' before before' c b pd : Forall written vs → Forall2 same vs vs' → same_before before before' →
  fits_fields before fs vs (List.map fits vs) = true →
  make_fields before' fs (tags fs) vs' (List.map makeField vs') c b pd = make_fields before fs (tags fs) vs (List.map makeField vs) c b pd.
Proof.
  intros Hw H. revert fs before before' c b pd Hw.
  induction H as [|v v' vs vs' Hv _ IH]; intros [|[[name t] tag] fs] before before' c b pd Hw Hb Hf; try done.
  apply Forall_cons in Hw as [Hwv Hw]. cbn [fits_fields List.map] in Hf.
  apply andb_true_iff in Hf as [[[_ _]%andb_true_iff Hp]%andb_true_iff Hf].
  cbn [make_fields tags List.map snd]. fold (tags fs).
  assert (∀ c pd, make_fields (before' ++ [(name, t, v')]) fs (tags fs) vs' (List.map makeField vs') c b pd =
    make_fields (before ++ [(name, t, v)]) fs (tags fs) vs (List.map makeField vs) c b pd) as Hrest.
  { intros. apply IH; [done| |done]. by apply same_before_snoc. }
  rewrite <-(same_resolve before before') by done.
  assert (∀ c, (p ← resolve before (parseFieldParameters tag); pd ← makeField v' t p pd;
      make_fields (before' ++ [(name, t, v')]) fs (tags fs) vs' (List.map makeField vs') c b pd) =
    (p ← resolve before (parseFieldParameters tag); pd ← makeField v t p pd;
      make_fields (before ++ [(name, t, v)]) fs (tags fs) vs (List.map makeField vs) c b pd)) as Hfield.
  { intros c'. destruct (resolve before (parseFieldParameters tag)) as [p|e|]; [|done..]. ret_bind.
    assert (makeField v' t p pd = makeField v t p pd) as ->; [|by destruct (makeField v t p pd); [apply Hrest|..]].
    destruct (is_nil v) eqn:En; [by rewrite (same_nil v v' Hv En)|]. rewrite andb_false_r in Hp. by apply Hwv. }
  destruct (optional (parseFieldParameters tag) && (0 <? c)); [|apply Hfield].
  destruct (b & shl 64 1 (c - 1) =? 0); [apply Hrest|apply Hfield].
Qed.

Lemma written_choice fs vs vs' p pd : Forall written vs → Forall2 same vs vs' →
  fits_choice fs vs (List.map fits vs) (List.map makeField vs) p = true →
  make_choice fs (tags fs) vs' (List.map makeField vs') p pd = make_choice fs (tags fs) vs (List.map makeField vs) p pd.
Proof.
  intros Hw H (f0&fs'&j&f&v&_&Evs&Ef&Ev&Hf&_&_)%fits_choice_inv. cbv zeta in *.
  assert (present_of vs = Ret (Zpos j)) as Hp by by rewrite Evs.
  destruct (Forall2_lookup_l _ _ _ _ _ H Ev) as (v'&Ev'&Hv).
  rewrite (make_choice_at fs vs j f v), (make_choice_at fs vs' j f v') by (try done; by rewrite <-(same_present vs vs')).
  assert (∀ pd, makeField v' f.1.2 (parseFieldParameters f.2) pd = makeField v f.1.2 (parseFieldParameters f.2) pd) as Hm.
  { intros pd'. eapply Forall_lookup in Hw; [|exact Ev]. by apply Hw. }
  unfold appendOpenType. rewrite Hm. destruct (openType p); [done|]. by destruct (appendChoiceIndex _ _ _ pd); [apply Hm|..].
Qed.

Lemma written_elements t p vs vs' pd : Forall written vs → Forall2 same vs vs' → forallb (λ ft, ft t p) (List.map fits vs) = true →
  make_elements t p (List.map makeField vs') pd = make_elements t p (List.map makeField vs) pd.
Proof.
  intros Hw H. revert pd Hw. induction H as [|v v' vs vs' Hv _ IH]; intros pd Hw Hf; [done|].
  apply Forall_cons in Hw as [Hwv Hw]. cbn [List.map forallb] in Hf. apply andb_true_iff in Hf as [Hf1 Hf].
  cbn [make_elements List.map]. rewrite (Hwv v') by done. destruct (makeField v t p pd); [by apply IH|done..].
Qed.

Lemma all_written v : written v.
Proof.
  induction v as [b|z|z|s|s|bs n| |v IH|vs IH|vs IH] using value_ind'; intros v' t p pd Hs Hf; inversion Hs; subst; try done.
  - destruct t; try done. cbn [fits] in Hf. apply andb_true_iff in Hf as [_ Hv%bool_decide_eq_true].
    rewrite Nat2Z.id in Hv. cbn [makeField]. rewrite (written_bits bs) by (try done; by apply (valid_bits_small _ _ _ _ _ Hv)). done.
  - destruct t; try done. cbn [makeField]. by apply IH.
  - destruct t; try done. cbn [fits] in Hf. apply andb_true_iff in Hf as [_ Hf]. cbn [makeField]. unfold appendSequenceOf, blen.
    rewrite !length_map.
    match goal with H : Forall2 same vs _ |- _ => rewrite <-(Forall2_length _ _ _ H) end. destruct (append_count _ _ _ _ pd); [|done..]. by apply written_elements.
  - destruct t as [| | | | | | | | |name fs|]; try done. cbn [fits] in Hf. apply andb_true_iff in Hf as [_ Hf]. cbn [makeField]. unfold make_struct.
    destruct (if valueExtensible p then _ else _) as [pd1|e|]; [|done..]. ret_bind. erewrite written_scan by done.
    destruct (is_choice fs) eqn:Hc.
    + destruct (fits_choice_inv _ _ _ Hf) as (f0&fs'&j&f&v&Efs&Evs&_&_&_&Hall&_). cbv zeta in Evs.
      cbn [negb]. destruct (scan_choice fs vs) as [-> _]; [|done|].
      { rewrite Evs, Efs. cbn [length]. by rewrite length_insert, length_map. }
      ret_bind. by apply written_choice.
    + apply andb_true_iff in Hf as [[_ H64%Nat.leb_le]%andb_true_iff Hf]. destruct (fits_fields_wf _ _ _ _ Hf) as (Hl&Hwf&_).
      pose proof (scan_spec fs vs [] Hwf Hl) as Hsc. change (Z.of_nat (length (@nil bool))) with 0 in Hsc. change (bits_val []) with 0 in Hsc.
      cbn [negb]. rewrite Hsc by (rewrite presence_length by (unfold tags; by rewrite length_map); done). ret_bind.
      destruct (if 0 <? _ then _ else _) as [pd2|e|]; [|done..]. ret_bind. by apply written_fields; [|done|constructor|].
Qed.

Lemma marshalled_back v t params : fits v t (parseFieldParameters params) = true →
  ∃ bytes, MarshalWithParams v t params = Ret bytes ∧ bytes_ok bytes ∧
    (sized bytes → ∃ v', same v v' ∧ UnmarshalWithParams bytes t params = Ret (v', None)).
Proof.
  intros H. destruct (value_rt v t _ H []) as (e&P&D). destruct (P (PerRaw [] 0) holds_empty) as (w&Ew&Hb&Hbits&_).
  cbn [app] in Hbits. exists (w_bytes w). unfold MarshalWithParams. rewrite Ew. ret_bind.
  destruct (Z.eqb_spec (blen (w_bytes w)) 0) as [E0|_].
  { assert (w_bytes w = []) as En by (destruct (w_bytes w); [done|unfold blen in E0; cbn in E0; lia]). exfalso.
    assert (sized []) as Hs by done. rewrite En in *.
    pose proof (reads_inside t _ [] e v [] _ D Hb Hs Hbits) as Hi. cbn in Hi. lia. }
  split; [done|]. split; [done|]. intros Hs. destruct (D (w_bytes w) _ Hb Hs Hbits) as (v'&Hv'&Ev).
  exists v'. split; [done|]. unfold UnmarshalWithParams. change (PerBitData (w_bytes w) 0 0) with (at_pos (w_bytes w) (length (@nil bool))).
  by rewrite Ev.
Qed.

(** C6. What fits its type and tags is encoded without an error, and the
    octets are decoded to the same value, without an error; what was decoded is
    encoded to the same octets again. *)
Theorem aper_value_roundtrip v t params : fits v t (parseFieldParameters params) = true →
  ∃ bytes, MarshalWithParams v t params = Ret bytes ∧ bytes_ok bytes ∧
    (sized bytes → ∃ v', same v v' ∧ UnmarshalWithParams bytes t params = Ret (v', None) ∧
      MarshalWithParams v' t params = Ret bytes).
Proof.
  intros H. destruct (marshalled_back v t params H) as (bytes&E&Hb&D). exists bytes. split; [done|]. split; [done|]. intros Hs.
  destruct (D Hs) as (v'&Hv&Ed). exists v'. split; [done|]. split; [done|]. unfold MarshalWithParams in *.
  by rewrite (all_written v v').
Qed.

(** A GUAMI as in ngapType, with unused bits set in the set identifier. *)
Lemma aper_value_roundtrip_witness :
  let field t tag := TStruct "F" [("Value", t, tag)]%string in
  let t := TStruct "GUAMI" [("PLMNIdentity", field TOctetString "sizeLB:3,sizeUB:3", ""); ("AMFRegionID", field TBitString "sizeLB:8,sizeUB:8", "");
    ("AMFSetID", field TBitString "sizeLB:10,sizeUB:10", ""); ("AMFPointer", field TBitString "sizeLB:6,sizeUB:6", "");
    ("IEExtensions", TPtr (TSlice (TInt 64)), "optional,sizeLB:1,sizeUB:8,valueLB:0,valueUB:65535")]%string in
  let v := VStruct [VStruct [VOctets [0x02; 0xf8; 0x39]]; VStruct [VBits [0xca] 8]; VStruct [VBits [0xfe; 0x7f] 10]; VStruct [VBits [0x04] 6];
    VPtr (VSlice [VInt 7; VInt 65535])] in
  MarshalWithParams v t "valueExt" = Ret [0x40; 0x02; 0xf8; 0x39; 0xca; 0xfe; 0x41; 0x20; 0x00; 0x07; 0xff; 0xff] ∧
  ∃ v', same v v' ∧ v' ≠ v ∧
    UnmarshalWithParams [0x40; 0x02; 0xf8; 0x39; 0xca; 0xfe; 0x41; 0x20; 0x00; 0x07; 0xff; 0xff] t "valueExt" = Ret (v', None).
Proof.
  intros field t v. destruct (aper_value_roundtrip v t "valueExt" ltac:(vm_compute; reflexivity)) as (bytes&E&_&D).
  assert (bytes = [0x40; 0x02; 0xf8; 0x39; 0xca; 0xfe; 0x41; 0x20; 0x00; 0x07; 0xff; 0xff]) as -> by (vm_compute in E; by injection E).
  split; [exact E|]. destruct (D ltac:(vm_compute; reflexivity)) as (v'&Hs&Ev&_). exists v'. split; [exact Hs|]. split; [|exact Ev].
  intros ->. vm_compute in Ev. discriminate Ev.
Defined.

(** ** Where the code differs from its comments *)

(** An error in the number of elements is overwritten by what the first
    element returns: one octet, of the two that the number takes, is decoded as
    a list with one element. *)
Theorem count_error_overwritten :
  (∃ e, parse_count false (Some 1) (Some 65535) (PerBitData [0x80] 0 0) = Fail e) ∧
  UnmarshalWithParams [0x80] (TSlice TBool) "sizeLB:1,sizeUB:65535" = Ret (VSlice [VBool true], None).
Proof. split; [eexists|]; vm_compute; reflexivity. Qed.

(** An integer that does not fit in the Go type is stored modulo its width
    and no error is returned. *)
Theorem integer_truncated : UnmarshalWithParams [5; 0; 0x80; 0; 0; 1] (TInt 32) "" = Ret (VInt (- 2 ^ 31 + 1), None).
Proof. vm_compute. reflexivity. Qed.
