(* ===== verification/AperSize.v ===== *)
(** * lib/aper: how long an encoding is

    Every writer appends a bounded number of octets.  The [weight] of a value
    bounds its encoding, so that the content of an open type is known to fit
    in one fragment without being encoded. *)

From S2P Require Import Prelude GoStrings AperBits AperPrim AperCodec AperField AperFieldProps.

#[local] Open Scope Z_scope.
#[local] Open Scope go_scope.

(** At most [k] octets more. *)
Definition within (pd : perRawBitData) (k : Z) (pd' : perRawBitData) : Prop :=
  0 ≤ w_bitsOffset pd' < 8 ∧ blen (w_bytes pd') ≤ blen (w_bytes pd) + k.
Definition grows (f : perRawBitData → outcome perRawBitData) (k : Z) : Prop :=
  ∀ pd pd', 0 ≤ w_bitsOffset pd < 8 → f pd = Ret pd' → within pd k pd'.

Lemma within_trans pd pd1 pd2 k1 k2 : within pd k1 pd1 → within pd1 k2 pd2 → within pd (k1 + k2) pd2.
Proof. unfold within. lia. Qed.
Lemma within_le pd pd' k k' : within pd k pd' → k ≤ k' → within pd k' pd'.
Proof. unfold within. lia. Qed.
Lemma grows_bind f g k1 k2 : grows f k1 → grows g k2 → grows (λ pd, pd ← f pd; g pd) (k1 + k2).
Proof.
  intros Hf Hg pd pd' Ho. destruct (f pd) as [pd1|e|] eqn:E; [|done..]. ret_bind. intros E2.
  pose proof (Hf _ _ Ho E) as H1. eapply within_trans; [exact H1|]. by apply Hg; [apply H1|].
Qed.
Lemma grows_le f k k' : grows f k → k ≤ k' → grows f k'.
Proof. intros H Hk pd pd' Ho E. eapply within_le; [by apply H|done]. Qed.
Lemma grows_ret : grows Ret 0.
Proof. intros pd pd' Ho [= <-]. unfold within. lia. Qed.
Lemma within_align pd k pd' : within (appendAlignBits pd) k pd' → within pd k pd'.
Proof. done. Qed.
Lemma grows_align f k : grows f k → grows (λ pd, f (appendAlignBits pd)) k.
Proof. intros H pd pd' Ho E. apply within_align, H; [simpl; lia|done]. Qed.

(** ** The lengths of slices *)

Lemma slice_length {A} (l r : list A) a b : slice l a b = Ret r → blen r = b - a ∧ 0 ≤ a ≤ b ∧ b ≤ blen l.
Proof.
  unfold slice. destruct (_ || _) eqn:E; [done|]. intros [= <-].
  apply orb_false_iff in E as [[Ha%Z.ltb_ge Hb%Z.ltb_ge]%orb_false_iff Hc%Z.ltb_ge]. unfold blen in *.
  rewrite length_take, length_drop. lia.
Qed.

Lemma app_octets {A} (a b : list A) : blen (a ++ b) = blen a + blen b.
Proof. unfold blen. rewrite length_app. lia. Qed.
Lemma wr_length {A} (l r : list A) i x : wr l i x = Ret r → blen r = blen l.
Proof. unfold wr. destruct (_ || _); [done|]. intros [= <-]. unfold blen. by rewrite length_insert. Qed.
Lemma forM_length {A} (xs : list A) (f : A → list Z → outcome (list Z)) s r :
  (∀ x s r, f x s = Ret r → blen r = blen s) → forM xs f s = Ret r → blen r = blen s.
Proof.
  intros Hf. revert s. induction xs as [|x xs IH]; intros s; cbn [forM]; [by intros [= <-]|].
  intros (s'&E&Er)%bind_inv. rewrite (IH _ Er). by apply (Hf x).
Qed.
Lemma octets_nat n : 0 ≤ n < 2 ^ 62 → u64 (n + 7) ≫ 3 = (n + 7) / 8.
Proof. intros Hn. rewrite wrap_small by (unfold in_width; lia). apply shiftr3. Qed.

Lemma GetBitString_length src o n r : 0 ≤ n < 2 ^ 62 → GetBitString src o n = Ret r → blen r = (n + 7) / 8.
Proof.
  intros Hn. unfold GetBitString. destruct (_ >? _); [done|]. rewrite octets_nat by done.
  intros (d1&E1&(d2&E2&(x&_&E3)%bind_inv)%bind_inv)%bind_inv. rewrite (wr_length _ _ _ _ E3).
  assert (blen d2 = blen d1) as ->.
  { destruct (_ =? _) in E2; [|by injection E2 as <-]. apply bind_inv in E2 as (a&_&E2). by apply wr_length in E2. }
  apply forM_length in E1.
  - rewrite E1. unfold blen. rewrite length_replicate. pose proof (Z.div_pos (n + 7) 8). lia.
  - intros i s s' (a&_&(b&_&E)%bind_inv)%bind_inv. by apply wr_length in E.
Qed.

(** ** Writers *)

Lemma grows_putBitString bytes n : 0 ≤ n < 2 ^ 60 → grows (putBitString bytes n) ((n + 7) / 8).
Proof.
  intros Hn pd pd' Ho. unfold putBitString. intros (bs&Es&E)%bind_inv. apply slice_length in Es as [Hl _].
  rewrite octets_nat in Hl by lia. destruct (Z.eqb_spec (w_bitsOffset pd) 0) as [H0|H0].
  - injection E as <-. unfold within. cbn [w_bytes w_bitsOffset]. rewrite land7 by lia. rewrite app_octets. pose proof (Z.mod_pos_bound n 8). lia.
  - apply bind_inv in E as (pd1&E&[= <-]). unfold within, rawBitCarry. cbn [w_bytes w_bitsOffset].
    split; [rewrite land7 by (apply wrap_in_width; lia); apply Z.mod_pos_bound; lia|].
    destruct (n <=? _).
    + apply bind_inv in E as (b0&_&(c&_&(bs'&Ew&[= <-])%bind_inv)%bind_inv). cbn [w_bytes]. apply wr_length in Ew.
      pose proof (Z.div_pos (n + 7) 8). lia.
    + apply bind_inv in E as (sh&Eg&(s0&Er&(c&_&(bs'&Ew&[= <-])%bind_inv)%bind_inv)%bind_inv). cbn [w_bytes]. apply wr_length in Ew.
      rewrite wrap_small in Eg by (unfold in_width; lia). apply GetBitString_length in Eg; [|lia].
      rewrite app_octets, Ew. unfold blen in *. rewrite length_drop.
      assert ((w_bitsOffset pd + n + 7) / 8 ≤ (n + 7) / 8 + 1); [|lia].
      replace ((n + 7) / 8 + 1) with ((n + 7 + 1 * 8) / 8) by (rewrite Z.div_add by lia; done). apply Z.div_le_mono; lia.
Qed.

Lemma grows_putBitsValue v n : 0 ≤ n < 2 ^ 60 → grows (putBitsValue v n) ((n + 7) / 8).
Proof.
  intros Hn pd pd' Ho. unfold putBitsValue. destruct (n =? 0).
  - intros [= <-]. eapply within_le; [by apply grows_ret|]. apply Z.div_pos; lia.
  - intros (t&_&(t'&_&E)%bind_inv)%bind_inv. by apply (grows_putBitString t' n).
Qed.
Lemma grows_bits v n k : 0 ≤ n ≤ 8 * k → k < 2 ^ 50 → grows (putBitsValue v n) k.
Proof.
  intros Hn Hk. eapply grows_le; [apply grows_putBitsValue; lia|].
  rewrite <-(Z.div_mul k 8) by lia. replace (k * 8 / 8) with ((k * 8 + 7) / 8); [apply Z.div_le_mono; lia|].
  by rewrite Z.add_comm, Z.div_add, Z.div_mul by lia.
Qed.
Lemma grows_bit (b : bool) v : grows (λ pd, if b then putBitsValue v 1 pd else Ret pd) 1.
Proof. destruct b; [by apply grows_bits|]. by eapply grows_le; [apply grows_ret|]. Qed.

Lemma grows_constraint r v : grows (appendConstraintValue r v) 2.
Proof.
  unfold appendConstraintValue. destruct (Z.leb_spec r 255).
  - destruct (r <? 0) eqn:En; [intros pd pd' _; done|]. destruct (least_width_spec r) as (k&->&Hk&_); [lia|].
    apply grows_bits; lia.
  - destruct (r =? 256); [apply (grows_align (putBitsValue v 8)), grows_bits; lia|].
    destruct (r <=? 65536); [apply (grows_align (putBitsValue v 16)), grows_bits; lia|by intros pd pd' _].
Qed.
Lemma grows_length r v : grows (appendLength r v) 2.
Proof.
  unfold appendLength. destruct (_ && _); [apply grows_constraint|].
  destruct (v <=? 127); [apply (grows_align (putBitsValue v 8)), grows_bits; lia|].
  destruct (v <=? 16383); [apply (grows_align (putBitsValue (v ∣∣ 0x8000) 16)), grows_bits; lia|].
  apply (grows_align (putBitsValue ((v ≫ 14) ∣∣ 0xc0) 8)), grows_bits; lia.
Qed.

(** What is appended behind an alignment. *)
Lemma within_append pd bs o : 0 ≤ o < 8 → within pd (blen bs) (PerRaw (w_bytes pd ++ bs) o).
Proof. intros Ho. unfold within. cbn [w_bytes w_bitsOffset]. rewrite app_octets. lia. Qed.

(** An error of the extension bit is not looked at. *)
Lemma within_ignored {A} v (f : perRawBitData → A) pd a : 0 ≤ w_bitsOffset pd < 8 →
  match putBitsValue v 1 pd with Ret pd => Ret (f pd) | Fail _ => Ret (f pd) | Panic => Panic end = Ret a →
  ∃ pd', within pd 1 pd' ∧ a = f pd'.
Proof.
  intros Ho. destruct (putBitsValue v 1 pd) as [pd1|e|] eqn:E; [| |done]; intros [= <-]; eexists; (split; [|done]).
  - by apply (grows_bits v 1 1).
  - eapply within_le; [by apply grows_ret|lia].
Qed.
Lemma within_bounds len ext lo hi over pd lb ub sr pd' : 0 ≤ w_bitsOffset pd < 8 →
  string_bounds len ext lo hi over pd = Ret (lb, ub, sr, pd') → within pd 1 pd'.
Proof.
  intros Ho. assert (within pd 1 pd) as Hr by (eapply within_le; [by apply grows_ret|lia]).
  unfold string_bounds. destruct lo as [l|]; [|by intros [= <- <- <- <-]]. destruct hi as [u|]; [|by intros [= <- <- <- <-]].
  destruct (len <=? u64 u), ext; [| by intros [= <- <- <- <-]| |done]; intros E;
    apply (within_ignored _ (λ pd, (_, _, _, pd))) in E as (pd1&Hw&[= _ _ _ ->]); done.
Qed.

(** The lower bound a string of a valid size is written with. *)
Lemma bounds_lb len ext lo hi over pd lb ub sr pd' : 0 ≤ len → size_ok len ext lo hi →
  string_bounds len ext lo hi over pd = Ret (lb, ub, sr, pd') → 0 ≤ lb ≤ len ∧ len - lb < 16384 ∧ len < 2 ^ 60.
Proof.
  intros Hlen. unfold size_ok, string_bounds. destruct lo as [l|], hi as [u|]; try done; [|intros H; intros [= <- _ _ _]; lia..].
  intros (Hlu&Hu&H). rewrite wrap_small by (unfold in_width; lia). rewrite s64_small by lia.
  destruct (Z.leb_spec len u).
  - destruct H as [H|H]; [|lia]. rewrite (proj2 (Z.eqb_neq (u - l + 1) (-1))) by lia.
    destruct ext; [destruct (putBitsValue 0 1 pd); [| |done]|]; intros [= <- _ _ _]; lia.
  - destruct H as [H|[-> H]]; [lia|]. destruct (putBitsValue 1 1 pd); [| |done]; intros [= <- _ _ _]; lia.
Qed.
Lemma part_length_short n : n < 16384 → part_length n = n.
Proof. intros H. unfold part_length. rewrite !Z.gtb_ltb, Z.geb_leb, (proj2 (Z.ltb_ge _ _)), (proj2 (Z.leb_gt _ _)) by lia. done. Qed.

Lemma grows_octets bs ext lo hi : valid_octets bs ext lo hi → grows (appendOctetString bs ext lo hi) (blen bs + 4).
Proof.
  intros [_ Hs] pd pd' Ho. unfold appendOctetString. intros ([[[lb ub] sr] pd1]&Eb&E)%bind_inv. set (len := blen bs) in *.
  destruct (bounds_lb len _ _ _ _ _ _ _ _ _ ltac:(unfold len, blen; lia) Hs Eb) as (Hlb&Hsmall&Hlen).
  apply within_bounds in Eb; [|done]. replace (len + 4) with (1 + (len + 3)) by lia. eapply within_trans; [exact Eb|].
  pose proof (proj1 Eb) as Ho1. destruct (sr =? 1).
  - destruct (Z.gtb_spec len 2).
    + destruct (negb _); [done|]. injection E as <-. eapply within_le; [apply (within_append (appendAlignBits pd1)); simpl; lia|fold len; lia].
    + eapply within_le; [apply (grows_putBitString bs (len * 8)); [lia|done|done]|]. rewrite Z.add_comm, Z.div_add by lia. change (7 / 8) with 0. lia.
  - cbn [appendOctetString_loop] in E. assert (u64 lb = lb) as El by (apply wrap_small; unfold in_width; lia).
    rewrite El, (wrap_small 64 (len - lb)), part_length_short in E by (unfold in_width; lia).
    apply bind_inv in E as (pd2&E2&E). apply grows_length in E2; [|done]. pose proof (proj1 E2) as Ho2.
    replace (len + 3) with (2 + (len + 1)) by lia. eapply within_trans; [exact E2|].
    rewrite (wrap_small 64 (len - lb + lb)) in E by (unfold in_width; lia). destruct (_ =? 0); [injection E as <-; eapply within_le; [by apply grows_ret|lia]|].
    rewrite slice_all in E by (unfold len; lia). cbn [mbind outcome_mbind] in E. 
    replace (u64 (len - lb - u64 (len - lb + lb - lb))) with 0 in E by (rewrite (wrap_small 64 (len - lb + lb - lb)) by (unfold in_width; lia); by replace (len - lb - (len - lb + lb - lb)) with 0 by lia).
    change (0 >? 0) with false in E. injection E as <-. eapply within_le; [apply (within_append (appendAlignBits pd2)); simpl; lia|fold len; lia].
Qed.

Lemma grows_bit_string bs n ext lo hi : valid_bits bs n ext lo hi →
  grows (λ pd, '(pd, _) ← appendBitString bs (Z.of_nat n) ext lo hi pd; Ret pd) (blen bs + 4).
Proof.
  intros (Hb&Hl&Hs) pd pd' Ho. intros ([pd0 bs0]&E0&[= <-])%bind_inv. revert E0. unfold appendBitString. set (len := Z.of_nat n) in *.
  intros ([[[lb ub] sr] pd1]&Eb&(bs1&Em&E)%bind_inv)%bind_inv.
  destruct (bounds_lb len _ _ _ _ _ _ _ _ _ ltac:(lia) Hs Eb) as (Hlb&Hsmall&Hlen).
  destruct (mask_last_spec bs n Hb Hl) as (bs'&Em'&_&Hl'&_); [fold len; lia|]. fold len in Em'. rewrite Em' in Em. injection Em as <-.
  assert (blen bs = (len + 7) / 8) as Hbl.
  { unfold blen. rewrite Hl, Nat2Z.inj_div. unfold len. f_equal. lia. }
  assert (blen bs' = blen bs) as Hl1 by (unfold blen; by rewrite Hl').
  apply within_bounds in Eb; [|done]. replace (blen bs + 4) with (1 + (blen bs + 3)) by lia. eapply within_trans; [exact Eb|].
  pose proof (proj1 Eb) as Ho1. destruct (sr =? 1).
  - destruct (_ >? 2).
    + destruct (negb _) eqn:En; [done|]. apply negb_false_iff, Z.eqb_eq in En. injection E as <- _.
      eapply within_le; [apply (within_append (appendAlignBits pd1))|lia]. change 7 with (Z.ones 3). rewrite Z.land_ones by lia. apply Z.mod_pos_bound. lia.
    + apply bind_inv in E as (pd2&E2&[= <- _]). eapply within_le; [apply (grows_putBitString bs' len); [lia|done|done]|lia].
  - apply bind_inv in E as (pd2&E2&[= <- _]). cbn [appendBitString_loop] in E2. assert (u64 lb = lb) as El by (apply wrap_small; unfold in_width; lia).
    rewrite El, (wrap_small 64 (len - lb)), part_length_short in E2 by (unfold in_width; lia).
    apply bind_inv in E2 as (pd3&E3&E). apply grows_length in E3; [|done]. pose proof (proj1 E3) as Ho3.
    replace (blen bs + 3) with (2 + (blen bs + 1)) by lia. eapply within_trans; [exact E3|].
    rewrite (wrap_small 64 (len - lb + lb)) in E by (unfold in_width; lia).
    destruct (_ =? 0); [injection E as <-; eapply within_le; [by apply grows_ret|unfold blen; lia]|].
    rewrite octets_nat in E by lia. rewrite slice_all in E by (rewrite Hl1, Hbl; f_equal; lia). cbn [mbind outcome_mbind] in E.
    replace (u64 (len - lb - u64 (len - lb + lb - lb))) with 0 in E by (rewrite (wrap_small 64 (len - lb + lb - lb)) by (unfold in_width; lia); by replace (len - lb - (len - lb + lb - lb)) with 0 by lia).
    change (0 >? 0) with false in E. injection E as <-. cbn [w_bytes w_bitsOffset appendAlignBits].
    eapply within_le; [apply (within_append pd3)|rewrite Hl1; lia]. change 7 with (Z.ones 3). rewrite Z.land_ones by lia.
    pose proof (Z.mod_pos_bound (len - lb + lb) (2 ^ 3)). lia.
Qed.

Lemma octet_count_le v : 0 ≤ v < 2 ^ 64 → 1 ≤ octet_count 127 1 v ≤ 9.
Proof.
  intros Hv. destruct (octet_count_spec 127 1 v) as (k&->&_&Hk); [split; [lia|]; assert (2 ^ 64 < 2 ^ (8 * Z.of_nat 127)) by done; lia|].
  destruct Hk as [->|Hk]; [lia|]. destruct (decide (k ≤ 8)%nat); [lia|].
  assert (2 ^ 64 ≤ 2 ^ (8 * (Z.of_nat k - 1))) by (apply Z.pow_le_mono_r; lia). lia.
Qed.
Lemma range_bytes_le fuel stop n v : n ≤ range_bytes fuel stop n v ≤ n + Z.of_nat fuel.
Proof.
  revert n v. induction fuel as [|fuel IH]; intros n v; cbn [range_bytes]; [lia|]. destruct (_ <=? stop); [lia|].
  pose proof (IH (n + 1) (v ≫ 8)). lia.
Qed.

Lemma grows_integer_octets r lb v n : 0 ≤ n ≤ 9 → grows (appendInteger_octets r lb v n) n.
Proof.
  intros Hn. unfold appendInteger_octets. destruct (r <? 0).
  - apply (grows_align (putBitsValue (u64 v & u64 (s64 (shl 64 1 (n * 8) - 1))) (n * 8))), grows_bits; lia.
  - apply (grows_align (putBitsValue (u64 (v - lb)) (n * 8))), grows_bits; lia.
Qed.

Lemma grows_integer v ext lo hi : grows (appendInteger v ext lo hi) 12.
Proof.
  intros pd pd' Ho. unfold appendInteger. intros ([[lb r] pd1]&Eb&E)%bind_inv.
  assert (within pd 1 pd1) as Hw.
  { assert (within pd 1 pd) as Hr by (eapply within_le; [by apply grows_ret|lia]).
    destruct lo as [l|]; [|by injection Eb as _ _ <-]. destruct (v <? l); [done|]. destruct hi as [u|]; [|by injection Eb as _ _ <-].
    destruct (_ && _); [done|]. destruct ext; [|by injection Eb as _ _ <-].
    apply (within_ignored _ (λ pd, (_, _, pd))) in Eb as (pd2&Hw&[= _ _ ->]); done. }
  change 12 with (1 + 11). eapply within_trans; [exact Hw|]. pose proof (proj1 Hw) as Ho1.
  assert (in_width 64 (if v <? 0 then u64 (u64 (- v) - 1) else u64 v)) as Hv by (destruct (v <? 0); apply wrap_in_width; lia).
  set (uv := if v <? 0 then _ else _) in *. assert (∀ k, 0 ≤ k → 0 ≤ uv ≫ k < 2 ^ 64) as Hk.
  { intros k Hk. rewrite Z.shiftr_div_pow2 by lia. unfold in_width in Hv. assert (0 < 2 ^ k) by lia. split; [apply Z.div_pos; lia|].
    apply Z.div_lt_upper_bound; nia. }
  destruct (r =? 1); [injection E as <-; eapply within_le; [by apply grows_ret|lia]|]. destruct (r <=? 0).
  - pose proof (octet_count_le (uv ≫ 7) (Hk 7 ltac:(lia))) as Hn.
    change 11 with (1 + 10). eapply within_trans; [apply (within_append (appendAlignBits pd1) [u8 (octet_count 127 1 (uv ≫ 7))] 0); lia|].
    eapply within_le; [apply (grows_integer_octets r lb v (octet_count 127 1 (uv ≫ 7))) in E; [exact E|lia|simpl; lia]|lia].
  - destruct (r <=? 65536); [eapply within_le; [by apply (grows_constraint r (u64 (v - lb)))|lia]|].
    apply bind_inv in E as (pd2&E2&E). pose proof (octet_count_le (uv ≫ 8) (Hk 8 ltac:(lia))) as Hn.
    pose proof (range_bytes_le 127 1 1 (r - 1)) as Hr. destruct (least_width_spec (range_bytes 127 1 1 (r - 1))) as (k&Ek&Hkk&_); [lia|].
    rewrite Ek in E2. apply (grows_bits _ _ 1) in E2; [|lia|lia|done]. pose proof (proj1 E2) as Ho2.
    change 11 with (1 + 10). eapply within_trans; [exact E2|].
    eapply within_le; [apply (grows_integer_octets r lb v (octet_count 127 1 (uv ≫ 8))) in E; [exact E|lia|done]|lia].
Qed.

Lemma grows_enumerated v ext lo hi : grows (appendEnumerated v ext lo hi) 3.
Proof.
  unfold appendEnumerated. destruct lo as [lb|], hi as [ub|]; try by intros pd pd' _.
  destruct (_ >? ub); [by destruct ext; intros pd pd' _|]. destruct (_ <? lb); [by intros pd pd' _|].
  apply (grows_bind (λ pd, if ext then putBitsValue 0 1 pd else Ret pd) (λ pd, if s64 (ub - lb + 1) >? 1 then _ else Ret pd) 1 2); [apply grows_bit|].
  destruct (_ >? 1); [apply grows_constraint|by eapply grows_le; [apply grows_ret|]].
Qed.
Lemma grows_choice present ext hi : grows (appendChoiceIndex present ext hi) 2.
Proof.
  unfold appendChoiceIndex. destruct hi as [ub|]; [|by intros pd pd' _]. destruct (ub <? 0); [by intros pd pd' _|].
  destruct (_ && _); [by intros pd pd' _|]. apply grows_constraint.
Qed.
Lemma grows_count n ext lo hi : grows (append_count n ext lo hi) 3.
Proof.
  intros pd pd' Ho. unfold append_count. intros ([[ub sr] pd1]&Eb&E)%bind_inv. assert (within pd 1 pd1) as Hw.
  { assert (within pd 1 pd) as Hr by (eapply within_le; [by apply grows_ret|lia]).
    destruct hi as [u|]; [|by injection Eb as _ _ <-]. destruct (u <? 65536); [|by injection Eb as _ _ <-].
    destruct ext, (n >? u); try done; try (by injection Eb as _ _ <-);
      apply bind_inv in Eb as (pd2&E2&[= _ _ ->]); by apply (grows_bits _ 1 1) in E2. }
  change 3 with (1 + 2). eapply within_trans; [exact Hw|]. pose proof (proj1 Hw) as Ho1.
  destruct (n <? _); [done|]. destruct (sr =? 1).
  { destruct (negb _); [done|]. injection E as <-. eapply within_le; [by apply grows_ret|lia]. }
  destruct (sr >? 0); [by apply grows_constraint in E|]. injection E as <-.
  eapply within_le; [apply (within_append (appendAlignBits pd1)); simpl; lia|done].
Qed.
Lemma grows_open f k : (∀ o, f (PerRaw [] 0) = Ret o → blen (w_bytes o) ≤ k ∧ blen (w_bytes o) < 16384) → grows (appendOpenType f) (k + 2).
Proof.
  intros Hf pd pd' Ho. unfold appendOpenType. intros (o&Eo&E)%bind_inv. apply Hf in Eo as [Hl Hs]. set (len := blen (w_bytes o)) in *. assert (0 ≤ len) by (unfold len, blen; lia).
  cbn [appendOpenType_loop] in E. rewrite part_length_short in E by lia. apply bind_inv in E as (pd1&E1&E).
  apply grows_length in E1; [|done]. rewrite (Z.add_comm k). eapply within_trans; [exact E1|]. pose proof (proj1 E1) as Ho1.
  destruct (len =? 0); [injection E as <-; eapply within_le; [by apply grows_ret|lia]|].
  rewrite slice_all in E by done. cbn [mbind outcome_mbind] in E. rewrite Z.sub_diag in E. change (u64 0 >? 0) with false in E. injection E as <-.
  unfold within. cbn [w_bytes w_bitsOffset appendAlignBits]. rewrite app_octets. fold len. lia.
Qed.

(** ** Values *)

Fixpoint weight (v : value) : Z :=
  match v with
  | VBool _ => 1
  | VInt _ => 12
  | VEnum _ => 3
  | VString s | VOctets s => blen s + 4
  | VBits bs _ => blen bs + 4
  | VNil => 0
  | VPtr v => weight v
  | VSlice vs => 3 + foldr Z.add 0 (List.map weight vs)
  | VStruct vs => 16 + foldr Z.add 0 (List.map weight vs)
  end.
Definition weights (vs : list value) : Z := foldr Z.add 0 (List.map weight vs).

Lemma weights_nonneg vs : Forall (λ v, 0 ≤ weight v) vs → 0 ≤ weights vs.
Proof. unfold weights. induction 1 as [|v vs Hv _ IH]; cbn [List.map foldr]; lia. Qed.
Lemma weight_nonneg v : 0 ≤ weight v.
Proof.
  induction v as [| | |s|s|bs n| |v IH|vs IH|vs IH] using value_ind'; cbn [weight]; try (unfold blen; lia);
    apply weights_nonneg in IH; unfold weights in IH; lia.
Qed.
Lemma weights_pos vs : 0 ≤ weights vs.
Proof. apply weights_nonneg, Forall_forall. intros v _. apply weight_nonneg. Qed.
Lemma weight_in vs j v : vs !! j = Some v → weight v ≤ weights vs.
Proof.
  revert j. induction vs as [|v0 vs IH]; intros [|j] H; try done; unfold weights; cbn [List.map foldr].
  - injection H as ->. pose proof (weights_pos vs). unfold weights in *. lia.
  - apply IH in H. pose proof (weight_nonneg v0). unfold weights in *. lia.
Qed.

Definition bounded (v : value) : Prop := ∀ t p, fits v t p = true → grows (makeField v t p) (weight v).

Lemma grows_ext f g k : (∀ pd, f pd = g pd) → grows g k → grows f k.
Proof. intros E H pd pd' Ho. rewrite E. by apply H. Qed.

Lemma grows_fields fs vs before l : Forall bounded vs → fits_fields before fs vs (List.map fits vs) = true →
  let pl := presence (tags fs) vs in (length (l ++ pl) ≤ 64)%nat →
  grows (make_fields before fs (tags fs) vs (List.map makeField vs) (Z.of_nat (length pl)) (bits_val (l ++ pl))) (weights vs).
Proof.
  revert vs before l. induction fs as [|[[name t] tag] fs IH]; intros [|v vs] before l Hvs Hf pl Hl; try done; [apply grows_ret|].
  apply Forall_cons in Hvs as [Hv Hvs]. cbn [fits_fields List.map] in Hf. apply andb_true_iff in Hf as [[_ Hp]%andb_true_iff Hf].
  unfold pl in *. change (tags ((name, t, tag) :: fs)) with (parseFieldParameters tag :: tags fs) in *. cbn [presence] in *.
  eapply grows_ext; [intros pd; apply (make_fields_step before name t tag fs v vs l pd Hl)|]. cbv zeta.
  rewrite app_assoc in Hl |- *. specialize (IH vs (before ++ [(name, t, v)]) _ Hvs Hf Hl). cbv zeta in IH.
  change (weights (v :: vs)) with (weight v + weights vs). destruct (_ && is_nil v).
  - eapply grows_le; [exact IH|]. pose proof (weight_nonneg v). lia.
  - destruct (resolve before _) as [p'|e|]; [|done..]. by apply (grows_bind (makeField v t p')); [apply Hv|].
Qed.

Lemma grows_elements t p vs : Forall (λ v, grows (makeField v t p) (weight v)) vs →
  grows (make_elements t p (List.map makeField vs)) (weights vs).
Proof.
  induction 1 as [|v vs Hv _ IH]; [apply grows_ret|]. change (weights (v :: vs)) with (weight v + weights vs).
  by apply (grows_bind (makeField v t p) (make_elements t p (List.map makeField vs))).
Qed.

Lemma grows_choice_value fs vs p : Forall bounded vs → fits_choice fs vs (List.map fits vs) (List.map makeField vs) p = true →
  grows (make_choice fs (tags fs) vs (List.map makeField vs) p) (weights vs + 4).
Proof.
  intros Hvs (f0&fs'&j&f&v&_&Evs&Ef&Ev&Hf&_&H)%fits_choice_inv. cbv zeta in *.
  assert (present_of vs = Ret (Zpos j)) as Hp by by rewrite Evs.
  assert (bounded v) as Hb by (eapply Forall_lookup in Hvs; [exact Hvs|exact Ev]).
  pose proof (weight_in _ _ _ Ev) as Hw. specialize (Hb _ _ Hf).
  eapply grows_ext; [intros pd; by apply (make_choice_at fs vs j f v p pd)|]. destruct (openType p).
  - destruct H as (r&->&_&Hsmall). destruct (bool_decide _); [|by intros pd pd' _].
    eapply grows_le; [apply (grows_open _ (weight v))|lia]. intros o Eo. split; [|by apply Hsmall].
    apply Hb in Eo as [_ Hl]; [done|simpl; lia].
  - destruct H as (ub&->&_&_). eapply grows_le; [|rewrite (Z.add_comm (weights vs)); apply (Z.add_le_mono 2 4 _ _ ltac:(lia) Hw)].
    apply (grows_bind (appendChoiceIndex (Z.pos j) (valueExtensible p) (Some ub))); [apply grows_choice|done].
Qed.

Lemma grows_struct vs : Forall bounded vs → bounded (VStruct vs).
Proof.
  intros Hvs t p Hf. destruct t as [| | | | | | | | |name fs|]; try done. cbn [fits] in Hf. apply andb_true_iff in Hf as [_ Hf].
  change (weight (VStruct vs)) with (16 + weights vs). cbn [makeField]. unfold make_struct.
  eapply grows_le; [apply (grows_bind (λ pd, if valueExtensible p then putBitsValue 0 1 pd else Ret pd) _ 1 (weights vs + 12)); [apply grows_bit|]|lia].
  destruct (is_choice fs) eqn:Hc.
  - destruct (fits_choice_inv _ _ _ Hf) as (f0&fs'&j&f&v&Efs&Evs&_&_&_&Hall&_). cbv zeta in Evs. cbn [negb].
    destruct (scan_choice fs vs) as [-> _]; [|done|].
    { rewrite Evs, Efs. cbn [length]. by rewrite length_insert, length_map. }
    intros pd pd' Ho. ret_bind. intros E. eapply within_le; [by apply (grows_choice_value fs vs p Hvs Hf)|lia].
  - apply andb_true_iff in Hf as [[_ H64%Nat.leb_le]%andb_true_iff Hf]. destruct (fits_fields_wf _ _ _ _ Hf) as (Hl&Hwf&_).
    assert (length (presence (tags fs) vs) ≤ 64)%nat as Hpl by (rewrite presence_length by (unfold tags; by rewrite length_map); done).
    pose proof (scan_spec fs vs [] Hwf Hl Hpl) as Hsc. change (Z.of_nat (length (@nil bool))) with 0 in Hsc. change (bits_val []) with 0 in Hsc.
    cbn [negb]. intros pd pd' Ho. rewrite Hsc. ret_bind. revert pd pd' Ho. cbn [app].
    eapply grows_le; [apply (grows_bind (λ pd, if 0 <? Z.of_nat (length (presence (tags fs) vs)) then putBitsValue _ _ pd else Ret pd) _ 8 (weights vs))|lia].
    + destruct (0 <? _); [apply grows_bits; lia|by eapply grows_le; [apply grows_ret|]].
    + by apply (grows_fields fs vs [] []).
Qed.

(** What fits is encoded on no more octets than it weighs. *)
Lemma all_bounded v : bounded v.
Proof.
  induction v as [b|z|z|s|s|bs n| |v IH|vs IH|vs IH] using value_ind'; intros t p Hf; destruct t; try done; cbn [fits] in Hf; cbn [makeField weight].
  - unfold appendBool. destruct b; by apply grows_bits.
  - apply grows_integer.
  - apply grows_enumerated.
  - apply andb_true_iff in Hf as [_ Hv%bool_decide_eq_true]. by apply grows_octets.
  - apply bool_decide_eq_true in Hf. by apply grows_octets.
  - apply andb_true_iff in Hf as [[_ Hn%Z.leb_le]%andb_true_iff Hv%bool_decide_eq_true].
    pose proof (grows_bit_string _ _ _ _ _ Hv) as H. by rewrite Z2Nat.id in H.
  - by apply IH.
  - apply andb_true_iff in Hf as [_ Hf]. unfold appendSequenceOf.
    apply (grows_bind (append_count _ _ _ _) (make_elements t (element_params p) (List.map makeField vs)) 3); [apply grows_count|].
    apply grows_elements. induction IH as [|v vs Hv _ IHl]; [constructor|]. cbn [List.map forallb] in Hf.
    apply andb_true_iff in Hf as [Hf1 Hf]. constructor; [by apply Hv|by apply IHl].
  - by apply (grows_struct vs IH (TStruct name fs)).
Qed.

(** The content of an open type that is light enough. *)
Lemma light_content v t p : fits v t p = true → weight v < 16384 →
  match makeField v t p (PerRaw [] 0) with Ret o => blen (w_bytes o) <? 16384 | _ => false end = true.
Proof.
  intros Hf Hw. destruct (value_rt v t p Hf []) as (e&P&_). destruct (P (PerRaw [] 0) holds_empty) as (o&E&_). rewrite E.
  apply (all_bounded v t p Hf) in E as [_ Hl]; [|simpl; lia]. apply Z.ltb_lt. change (blen (w_bytes (PerRaw [] 0))) with 0 in Hl. lia.
Qed.

(** What fits and is light is encoded, decoded and encoded again. *)
Lemma marshalled_light v t params : fits v t (parseFieldParameters params) = true → weight v < 16384 →
  ∃ bytes, MarshalWithParams v t params = Ret bytes ∧ bytes_ok bytes ∧ blen bytes ≤ Z.max 1 (weight v) ∧
    ∃ v', same v v' ∧ UnmarshalWithParams bytes t params = Ret (v', None) ∧ MarshalWithParams v' t params = Ret bytes.
Proof.
  intros Hf Hw. destruct (marshalled_back v t params Hf) as (bytes&E&Hb&D). exists bytes. split; [done|]. split; [done|].
  assert (blen bytes ≤ Z.max 1 (weight v)) as Hl.
  { unfold MarshalWithParams in E. apply bind_inv in E as (o&Eo&E). apply (all_bounded _ _ _ Hf) in Eo as [_ Hl]; [|done].
    change (blen (w_bytes (PerRaw [] 0))) with 0 in Hl. destruct (_ =? 0); injection E as <-; [|lia]. change (blen [0]) with 1. lia. }
  split; [done|]. destruct D as (v'&Hs&Ed); [unfold sized; lia|].
  exists v'. split; [done|]. split; [done|]. unfold MarshalWithParams in *. by rewrite (all_written v v').
Qed.
