(* ===== verification/NgapTypes.v ===== *)
(** * lib/ngap/ngapType: the types of NGAP messages

    Every struct of ngapType with its fields, their types and aper tags, each
    after the types it uses; and all of them in one list. *)

From S2P Require Import Prelude AperField.

#[local] Open Scope Z_scope.
#[local] Open Scope string_scope.

Definition ProtocolIEID : gotype := TStruct "ProtocolIEID" [("Value", TInt 64, "valueLB:0,valueUB:65535")].
Definition Criticality : gotype := TStruct "Criticality" [("Value", TEnumerated, "valueLB:0,valueUB:2")].
Definition AMFName : gotype := TStruct "AMFName" [("Value", TString, "sizeExt,sizeLB:1,sizeUB:150")].
Definition PLMNIdentity : gotype := TStruct "PLMNIdentity" [("Value", TOctetString, "sizeLB:3,sizeUB:3")].
Definition AMFRegionID : gotype := TStruct "AMFRegionID" [("Value", TBitString, "sizeLB:8,sizeUB:8")].
Definition AMFSetID : gotype := TStruct "AMFSetID" [("Value", TBitString, "sizeLB:10,sizeUB:10")].
Definition AMFPointer : gotype := TStruct "AMFPointer" [("Value", TBitString, "sizeLB:6,sizeUB:6")].
Definition ProtocolExtensionID : gotype := TStruct "ProtocolExtensionID" [
  ("Value", TInt 64, "valueLB:0,valueUB:65535")].
Definition GUAMIExtIEsExtensionValue : gotype := TStruct "GUAMIExtIEsExtensionValue" [("Present", TInt 64, "")].
Definition GUAMIExtIEs : gotype := TStruct "GUAMIExtIEs" [
  ("Id", ProtocolExtensionID, ""); ("Criticality", Criticality, "");
  ("ExtensionValue", GUAMIExtIEsExtensionValue, "openType,referenceFieldName:Id")].
Definition ProtocolExtensionContainerGUAMIExtIEs : gotype := TStruct "ProtocolExtensionContainerGUAMIExtIEs" [
  ("List", TSlice GUAMIExtIEs, "sizeLB:1,sizeUB:65535")].
Definition GUAMI : gotype := TStruct "GUAMI" [
  ("PLMNIdentity", PLMNIdentity, ""); ("AMFRegionID", AMFRegionID, ""); ("AMFSetID", AMFSetID, "");
  ("AMFPointer", AMFPointer, ""); ("IEExtensions", TPtr ProtocolExtensionContainerGUAMIExtIEs, "optional")].
Definition ServedGUAMIItemExtIEsExtensionValue : gotype := TStruct "ServedGUAMIItemExtIEsExtensionValue" [
  ("Present", TInt 64, "")].
Definition ServedGUAMIItemExtIEs : gotype := TStruct "ServedGUAMIItemExtIEs" [
  ("Id", ProtocolExtensionID, ""); ("Criticality", Criticality, "");
  ("ExtensionValue", ServedGUAMIItemExtIEsExtensionValue, "openType,referenceFieldName:Id")].
Definition ProtocolExtensionContainerServedGUAMIItemExtIEs : gotype := TStruct "ProtocolExtensionContainerServedGUAMIItemExtIEs" [
  ("List", TSlice ServedGUAMIItemExtIEs, "sizeLB:1,sizeUB:65535")].
Definition ServedGUAMIItem : gotype := TStruct "ServedGUAMIItem" [
  ("GUAMI", GUAMI, "valueExt"); ("BackupAMFName", TPtr AMFName, "sizeExt,sizeLB:1,sizeUB:150,optional");
  ("IEExtensions", TPtr ProtocolExtensionContainerServedGUAMIItemExtIEs, "optional")].
Definition ServedGUAMIList : gotype := TStruct "ServedGUAMIList" [
  ("List", TSlice ServedGUAMIItem, "valueExt,sizeLB:1,sizeUB:256")].
Definition RelativeAMFCapacity : gotype := TStruct "RelativeAMFCapacity" [("Value", TInt 64, "valueLB:0,valueUB:255")].
Definition SST : gotype := TStruct "SST" [("Value", TOctetString, "sizeLB:1,sizeUB:1")].
Definition SD : gotype := TStruct "SD" [("Value", TOctetString, "sizeLB:3,sizeUB:3")].
Definition SNSSAIExtIEsExtensionValue : gotype := TStruct "SNSSAIExtIEsExtensionValue" [("Present", TInt 64, "")].
Definition SNSSAIExtIEs : gotype := TStruct "SNSSAIExtIEs" [
  ("Id", ProtocolExtensionID, ""); ("Criticality", Criticality, "");
  ("ExtensionValue", SNSSAIExtIEsExtensionValue, "openType,referenceFieldName:Id")].
Definition ProtocolExtensionContainerSNSSAIExtIEs : gotype := TStruct "ProtocolExtensionContainerSNSSAIExtIEs" [
  ("List", TSlice SNSSAIExtIEs, "sizeLB:1,sizeUB:65535")].
Definition SNSSAI : gotype := TStruct "SNSSAI" [
  ("SST", SST, ""); ("SD", TPtr SD, "optional");
  ("IEExtensions", TPtr ProtocolExtensionContainerSNSSAIExtIEs, "optional")].
Definition SliceSupportItemExtIEsExtensionValue : gotype := TStruct "SliceSupportItemExtIEsExtensionValue" [
  ("Present", TInt 64, "")].
Definition SliceSupportItemExtIEs : gotype := TStruct "SliceSupportItemExtIEs" [
  ("Id", ProtocolExtensionID, ""); ("Criticality", Criticality, "");
  ("ExtensionValue", SliceSupportItemExtIEsExtensionValue, "openType,referenceFieldName:Id")].
Definition ProtocolExtensionContainerSliceSupportItemExtIEs : gotype := TStruct "ProtocolExtensionContainerSliceSupportItemExtIEs" [
  ("List", TSlice SliceSupportItemExtIEs, "sizeLB:1,sizeUB:65535")].
Definition SliceSupportItem : gotype := TStruct "SliceSupportItem" [
  ("SNSSAI", SNSSAI, "valueExt"); ("IEExtensions", TPtr ProtocolExtensionContainerSliceSupportItemExtIEs, "optional")].
Definition SliceSupportList : gotype := TStruct "SliceSupportList" [
  ("List", TSlice SliceSupportItem, "valueExt,sizeLB:1,sizeUB:1024")].
Definition PLMNSupportItemExtIEsExtensionValue : gotype := TStruct "PLMNSupportItemExtIEsExtensionValue" [
  ("Present", TInt 64, "")].
Definition PLMNSupportItemExtIEs : gotype := TStruct "PLMNSupportItemExtIEs" [
  ("Id", ProtocolExtensionID, ""); ("Criticality", Criticality, "");
  ("ExtensionValue", PLMNSupportItemExtIEsExtensionValue, "openType,referenceFieldName:Id")].
Definition ProtocolExtensionContainerPLMNSupportItemExtIEs : gotype := TStruct "ProtocolExtensionContainerPLMNSupportItemExtIEs" [
  ("List", TSlice PLMNSupportItemExtIEs, "sizeLB:1,sizeUB:65535")].
Definition PLMNSupportItem : gotype := TStruct "PLMNSupportItem" [
  ("PLMNIdentity", PLMNIdentity, ""); ("SliceSupportList", SliceSupportList, "");
  ("IEExtensions", TPtr ProtocolExtensionContainerPLMNSupportItemExtIEs, "optional")].
Definition PLMNSupportList : gotype := TStruct "PLMNSupportList" [
  ("List", TSlice PLMNSupportItem, "valueExt,sizeLB:1,sizeUB:12")].
Definition TransportLayerAddress : gotype := TStruct "TransportLayerAddress" [
  ("Value", TBitString, "sizeExt,sizeLB:1,sizeUB:160")].
Definition ProtocolIESingleContainerCPTransportLayerInformationExtIEs : gotype := TStruct "ProtocolIESingleContainerCPTransportLayerInformationExtIEs" [].
Definition CPTransportLayerInformation : gotype := TStruct "CPTransportLayerInformation" [
  ("Present", TInt 64, ""); ("EndpointIPAddress", TPtr TransportLayerAddress, "");
  ("ChoiceExtensions", TPtr ProtocolIESingleContainerCPTransportLayerInformationExtIEs, "")].
Definition TNLAssociationUsage : gotype := TStruct "TNLAssociationUsage" [
  ("Value", TEnumerated, "valueExt,valueLB:0,valueUB:2")].
Definition TNLAddressWeightFactor : gotype := TStruct "TNLAddressWeightFactor" [
  ("Value", TInt 64, "valueLB:0,valueUB:255")].
Definition AMFTNLAssociationToAddItemExtIEsExtensionValue : gotype := TStruct "AMFTNLAssociationToAddItemExtIEsExtensionValue" [
  ("Present", TInt 64, "")].
Definition AMFTNLAssociationToAddItemExtIEs : gotype := TStruct "AMFTNLAssociationToAddItemExtIEs" [
  ("Id", ProtocolExtensionID, ""); ("Criticality", Criticality, "");
  ("ExtensionValue", AMFTNLAssociationToAddItemExtIEsExtensionValue, "openType,referenceFieldName:Id")].
Definition ProtocolExtensionContainerAMFTNLAssociationToAddItemExtIEs : gotype := TStruct "ProtocolExtensionContainerAMFTNLAssociationToAddItemExtIEs" [
  ("List", TSlice AMFTNLAssociationToAddItemExtIEs, "sizeLB:1,sizeUB:65535")].
Definition AMFTNLAssociationToAddItem : gotype := TStruct "AMFTNLAssociationToAddItem" [
  ("AMFTNLAssociationAddress", CPTransportLayerInformation, "valueLB:0,valueUB:1");
  ("TNLAssociationUsage", TPtr TNLAssociationUsage, "optional");
  ("TNLAddressWeightFactor", TNLAddressWeightFactor, "");
  ("IEExtensions", TPtr ProtocolExtensionContainerAMFTNLAssociationToAddItemExtIEs, "optional")].
Definition AMFTNLAssociationToAddList : gotype := TStruct "AMFTNLAssociationToAddList" [
  ("List", TSlice AMFTNLAssociationToAddItem, "valueExt,sizeLB:1,sizeUB:32")].
Definition AMFTNLAssociationToRemoveItemExtIEsExtensionValue : gotype := TStruct "AMFTNLAssociationToRemoveItemExtIEsExtensionValue" [
  ("Present", TInt 64, "")].
Definition AMFTNLAssociationToRemoveItemExtIEs : gotype := TStruct "AMFTNLAssociationToRemoveItemExtIEs" [
  ("Id", ProtocolExtensionID, ""); ("Criticality", Criticality, "");
  ("ExtensionValue", AMFTNLAssociationToRemoveItemExtIEsExtensionValue, "openType,referenceFieldName:Id")].
Definition ProtocolExtensionContainerAMFTNLAssociationToRemoveItemExtIEs : gotype := TStruct "ProtocolExtensionContainerAMFTNLAssociationToRemoveItemExtIEs" [
  ("List", TSlice AMFTNLAssociationToRemoveItemExtIEs, "sizeLB:1,sizeUB:65535")].
Definition AMFTNLAssociationToRemoveItem : gotype := TStruct "AMFTNLAssociationToRemoveItem" [
  ("AMFTNLAssociationAddress", CPTransportLayerInformation, "valueLB:0,valueUB:1");
  ("IEExtensions", TPtr ProtocolExtensionContainerAMFTNLAssociationToRemoveItemExtIEs, "optional")].
Definition AMFTNLAssociationToRemoveList : gotype := TStruct "AMFTNLAssociationToRemoveList" [
  ("List", TSlice AMFTNLAssociationToRemoveItem, "valueExt,sizeLB:1,sizeUB:32")].
Definition AMFTNLAssociationToUpdateItemExtIEsExtensionValue : gotype := TStruct "AMFTNLAssociationToUpdateItemExtIEsExtensionValue" [
  ("Present", TInt 64, "")].
Definition AMFTNLAssociationToUpdateItemExtIEs : gotype := TStruct "AMFTNLAssociationToUpdateItemExtIEs" [
  ("Id", ProtocolExtensionID, ""); ("Criticality", Criticality, "");
  ("ExtensionValue", AMFTNLAssociationToUpdateItemExtIEsExtensionValue, "openType,referenceFieldName:Id")].
Definition ProtocolExtensionContainerAMFTNLAssociationToUpdateItemExtIEs : gotype := TStruct "ProtocolExtensionContainerAMFTNLAssociationToUpdateItemExtIEs" [
  ("List", TSlice AMFTNLAssociationToUpdateItemExtIEs, "sizeLB:1,sizeUB:65535")].
Definition AMFTNLAssociationToUpdateItem : gotype := TStruct "AMFTNLAssociationToUpdateItem" [
  ("AMFTNLAssociationAddress", CPTransportLayerInformation, "valueLB:0,valueUB:1");
  ("TNLAssociationUsage", TPtr TNLAssociationUsage, "optional");
  ("TNLAddressWeightFactor", TPtr TNLAddressWeightFactor, "optional");
  ("IEExtensions", TPtr ProtocolExtensionContainerAMFTNLAssociationToUpdateItemExtIEs, "optional")].
Definition AMFTNLAssociationToUpdateList : gotype := TStruct "AMFTNLAssociationToUpdateList" [
  ("List", TSlice AMFTNLAssociationToUpdateItem, "valueExt,sizeLB:1,sizeUB:32")].
Definition AMFConfigurationUpdateIEsValue : gotype := TStruct "AMFConfigurationUpdateIEsValue" [
  ("Present", TInt 64, ""); ("AMFName", TPtr AMFName, "referenceFieldValue:1");
  ("ServedGUAMIList", TPtr ServedGUAMIList, "referenceFieldValue:96");
  ("RelativeAMFCapacity", TPtr RelativeAMFCapacity, "referenceFieldValue:86");
  ("PLMNSupportList", TPtr PLMNSupportList, "referenceFieldValue:80");
  ("AMFTNLAssociationToAddList", TPtr AMFTNLAssociationToAddList, "referenceFieldValue:6");
  ("AMFTNLAssociationToRemoveList", TPtr AMFTNLAssociationToRemoveList, "referenceFieldValue:7");
  ("AMFTNLAssociationToUpdateList", TPtr AMFTNLAssociationToUpdateList, "referenceFieldValue:8")].
Definition AMFConfigurationUpdateIEs : gotype := TStruct "AMFConfigurationUpdateIEs" [
  ("Id", ProtocolIEID, ""); ("Criticality", Criticality, "");
  ("Value", AMFConfigurationUpdateIEsValue, "openType,referenceFieldName:Id")].
Definition ProtocolIEContainerAMFConfigurationUpdateIEs : gotype := TStruct "ProtocolIEContainerAMFConfigurationUpdateIEs" [
  ("List", TSlice AMFConfigurationUpdateIEs, "sizeLB:0,sizeUB:65535")].
Definition AMFConfigurationUpdate : gotype := TStruct "AMFConfigurationUpdate" [
  ("ProtocolIEs", ProtocolIEContainerAMFConfigurationUpdateIEs, "")].
Definition AMFTNLAssociationSetupItemExtIEsExtensionValue : gotype := TStruct "AMFTNLAssociationSetupItemExtIEsExtensionValue" [
  ("Present", TInt 64, "")].
Definition AMFTNLAssociationSetupItemExtIEs : gotype := TStruct "AMFTNLAssociationSetupItemExtIEs" [
  ("Id", ProtocolExtensionID, ""); ("Criticality", Criticality, "");
  ("ExtensionValue", AMFTNLAssociationSetupItemExtIEsExtensionValue, "openType,referenceFieldName:Id")].
Definition ProtocolExtensionContainerAMFTNLAssociationSetupItemExtIEs : gotype := TStruct "ProtocolExtensionContainerAMFTNLAssociationSetupItemExtIEs" [
  ("List", TSlice AMFTNLAssociationSetupItemExtIEs, "sizeLB:1,sizeUB:65535")].
Definition AMFTNLAssociationSetupItem : gotype := TStruct "AMFTNLAssociationSetupItem" [
  ("AMFTNLAssociationAddress", CPTransportLayerInformation, "valueLB:0,valueUB:1");
  ("IEExtensions", TPtr ProtocolExtensionContainerAMFTNLAssociationSetupItemExtIEs, "optional")].
Definition AMFTNLAssociationSetupList : gotype := TStruct "AMFTNLAssociationSetupList" [
  ("List", TSlice AMFTNLAssociationSetupItem, "valueExt,sizeLB:1,sizeUB:32")].
Definition CauseRadioNetwork : gotype := TStruct "CauseRadioNetwork" [
  ("Value", TEnumerated, "valueExt,valueLB:0,valueUB:44")].
Definition CauseTransport : gotype := TStruct "CauseTransport" [("Value", TEnumerated, "valueExt,valueLB:0,valueUB:1")].
Definition CauseNas : gotype := TStruct "CauseNas" [("Value", TEnumerated, "valueExt,valueLB:0,valueUB:3")].
Definition CauseProtocol : gotype := TStruct "CauseProtocol" [("Value", TEnumerated, "valueExt,valueLB:0,valueUB:6")].
Definition CauseMisc : gotype := TStruct "CauseMisc" [("Value", TEnumerated, "valueExt,valueLB:0,valueUB:5")].
Definition ProtocolIESingleContainerCauseExtIEs : gotype := TStruct "ProtocolIESingleContainerCauseExtIEs" [].
Definition Cause : gotype := TStruct "Cause" [
  ("Present", TInt 64, ""); ("RadioNetwork", TPtr CauseRadioNetwork, ""); ("Transport", TPtr CauseTransport, "");
  ("Nas", TPtr CauseNas, ""); ("Protocol", TPtr CauseProtocol, ""); ("Misc", TPtr CauseMisc, "");
  ("ChoiceExtensions", TPtr ProtocolIESingleContainerCauseExtIEs, "")].
Definition TNLAssociationItemExtIEsExtensionValue : gotype := TStruct "TNLAssociationItemExtIEsExtensionValue" [
  ("Present", TInt 64, "")].
Definition TNLAssociationItemExtIEs : gotype := TStruct "TNLAssociationItemExtIEs" [
  ("Id", ProtocolExtensionID, ""); ("Criticality", Criticality, "");
  ("ExtensionValue", TNLAssociationItemExtIEsExtensionValue, "openType,referenceFieldName:Id")].
Definition ProtocolExtensionContainerTNLAssociationItemExtIEs : gotype := TStruct "ProtocolExtensionContainerTNLAssociationItemExtIEs" [
  ("List", TSlice TNLAssociationItemExtIEs, "sizeLB:1,sizeUB:65535")].
Definition TNLAssociationItem : gotype := TStruct "TNLAssociationItem" [
  ("TNLAssociationAddress", CPTransportLayerInformation, "valueLB:0,valueUB:1");
  ("Cause", Cause, "valueLB:0,valueUB:5");
  ("IEExtensions", TPtr ProtocolExtensionContainerTNLAssociationItemExtIEs, "optional")].
Definition TNLAssociationList : gotype := TStruct "TNLAssociationList" [
  ("List", TSlice TNLAssociationItem, "valueExt,sizeLB:1,sizeUB:32")].
Definition ProcedureCode : gotype := TStruct "ProcedureCode" [("Value", TInt 64, "valueLB:0,valueUB:255")].
Definition TriggeringMessage : gotype := TStruct "TriggeringMessage" [("Value", TEnumerated, "valueLB:0,valueUB:2")].
Definition TypeOfError : gotype := TStruct "TypeOfError" [("Value", TEnumerated, "valueExt,valueLB:0,valueUB:1")].
Definition CriticalityDiagnosticsIEItemExtIEsExtensionValue : gotype := TStruct "CriticalityDiagnosticsIEItemExtIEsExtensionValue" [
  ("Present", TInt 64, "")].
Definition CriticalityDiagnosticsIEItemExtIEs : gotype := TStruct "CriticalityDiagnosticsIEItemExtIEs" [
  ("Id", ProtocolExtensionID, ""); ("Criticality", Criticality, "");
  ("ExtensionValue", CriticalityDiagnosticsIEItemExtIEsExtensionValue, "openType,referenceFieldName:Id")].
Definition ProtocolExtensionContainerCriticalityDiagnosticsIEItemExtIEs : gotype := TStruct "ProtocolExtensionContainerCriticalityDiagnosticsIEItemExtIEs" [
  ("List", TSlice CriticalityDiagnosticsIEItemExtIEs, "sizeLB:1,sizeUB:65535")].
Definition CriticalityDiagnosticsIEItem : gotype := TStruct "CriticalityDiagnosticsIEItem" [
  ("IECriticality", Criticality, ""); ("IEID", ProtocolIEID, ""); ("TypeOfError", TypeOfError, "");
  ("IEExtensions", TPtr ProtocolExtensionContainerCriticalityDiagnosticsIEItemExtIEs, "optional")].
Definition CriticalityDiagnosticsIEList : gotype := TStruct "CriticalityDiagnosticsIEList" [
  ("List", TSlice CriticalityDiagnosticsIEItem, "valueExt,sizeLB:1,sizeUB:256")].
Definition CriticalityDiagnosticsExtIEsExtensionValue : gotype := TStruct "CriticalityDiagnosticsExtIEsExtensionValue" [
  ("Present", TInt 64, "")].
Definition CriticalityDiagnosticsExtIEs : gotype := TStruct "CriticalityDiagnosticsExtIEs" [
  ("Id", ProtocolExtensionID, ""); ("Criticality", Criticality, "");
  ("ExtensionValue", CriticalityDiagnosticsExtIEsExtensionValue, "openType,referenceFieldName:Id")].
Definition ProtocolExtensionContainerCriticalityDiagnosticsExtIEs : gotype := TStruct "ProtocolExtensionContainerCriticalityDiagnosticsExtIEs" [
  ("List", TSlice CriticalityDiagnosticsExtIEs, "sizeLB:1,sizeUB:65535")].
Definition CriticalityDiagnostics : gotype := TStruct "CriticalityDiagnostics" [
  ("ProcedureCode", TPtr ProcedureCode, "optional"); ("TriggeringMessage", TPtr TriggeringMessage, "optional");
  ("ProcedureCriticality", TPtr Criticality, "optional");
  ("IEsCriticalityDiagnostics", TPtr CriticalityDiagnosticsIEList, "optional");
  ("IEExtensions", TPtr ProtocolExtensionContainerCriticalityDiagnosticsExtIEs, "optional")].
Definition AMFConfigurationUpdateAcknowledgeIEsValue : gotype := TStruct "AMFConfigurationUpdateAcknowledgeIEsValue" [
  ("Present", TInt 64, ""); ("AMFTNLAssociationSetupList", TPtr AMFTNLAssociationSetupList, "referenceFieldValue:5");
  ("AMFTNLAssociationFailedToSetupList", TPtr TNLAssociationList, "referenceFieldValue:4");
  ("CriticalityDiagnostics", TPtr CriticalityDiagnostics, "valueExt,referenceFieldValue:19")].
Definition AMFConfigurationUpdateAcknowledgeIEs : gotype := TStruct "AMFConfigurationUpdateAcknowledgeIEs" [
  ("Id", ProtocolIEID, ""); ("Criticality", Criticality, "");
  ("Value", AMFConfigurationUpdateAcknowledgeIEsValue, "openType,referenceFieldName:Id")].
Definition ProtocolIEContainerAMFConfigurationUpdateAcknowledgeIEs : gotype := TStruct "ProtocolIEContainerAMFConfigurationUpdateAcknowledgeIEs" [
  ("List", TSlice AMFConfigurationUpdateAcknowledgeIEs, "sizeLB:0,sizeUB:65535")].
Definition AMFConfigurationUpdateAcknowledge : gotype := TStruct "AMFConfigurationUpdateAcknowledge" [
  ("ProtocolIEs", ProtocolIEContainerAMFConfigurationUpdateAcknowledgeIEs, "")].
Definition TimeToWait : gotype := TStruct "TimeToWait" [("Value", TEnumerated, "valueExt,valueLB:0,valueUB:5")].
Definition AMFConfigurationUpdateFailureIEsValue : gotype := TStruct "AMFConfigurationUpdateFailureIEsValue" [
  ("Present", TInt 64, ""); ("Cause", TPtr Cause, "referenceFieldValue:15,valueLB:0,valueUB:5");
  ("TimeToWait", TPtr TimeToWait, "referenceFieldValue:107");
  ("CriticalityDiagnostics", TPtr CriticalityDiagnostics, "valueExt,referenceFieldValue:19")].
Definition AMFConfigurationUpdateFailureIEs : gotype := TStruct "AMFConfigurationUpdateFailureIEs" [
  ("Id", ProtocolIEID, ""); ("Criticality", Criticality, "");
  ("Value", AMFConfigurationUpdateFailureIEsValue, "openType,referenceFieldName:Id")].
Definition ProtocolIEContainerAMFConfigurationUpdateFailureIEs : gotype := TStruct "ProtocolIEContainerAMFConfigurationUpdateFailureIEs" [
  ("List", TSlice AMFConfigurationUpdateFailureIEs, "sizeLB:0,sizeUB:65535")].
Definition AMFConfigurationUpdateFailure : gotype := TStruct "AMFConfigurationUpdateFailure" [
  ("ProtocolIEs", ProtocolIEContainerAMFConfigurationUpdateFailureIEs, "")].
Definition ProtocolIESingleContainerGNBIDExtIEs : gotype := TStruct "ProtocolIESingleContainerGNBIDExtIEs" [].
Definition GNBID : gotype := TStruct "GNBID" [
  ("Present", TInt 64, ""); ("GNBID", TPtr TBitString, "sizeLB:22,sizeUB:32");
  ("ChoiceExtensions", TPtr ProtocolIESingleContainerGNBIDExtIEs, "")].
Definition GlobalGNBIDExtIEsExtensionValue : gotype := TStruct "GlobalGNBIDExtIEsExtensionValue" [
  ("Present", TInt 64, "")].
Definition GlobalGNBIDExtIEs : gotype := TStruct "GlobalGNBIDExtIEs" [
  ("Id", ProtocolExtensionID, ""); ("Criticality", Criticality, "");
  ("ExtensionValue", GlobalGNBIDExtIEsExtensionValue, "openType,referenceFieldName:Id")].
Definition ProtocolExtensionContainerGlobalGNBIDExtIEs : gotype := TStruct "ProtocolExtensionContainerGlobalGNBIDExtIEs" [
  ("List", TSlice GlobalGNBIDExtIEs, "sizeLB:1,sizeUB:65535")].
Definition GlobalGNBID : gotype := TStruct "GlobalGNBID" [
  ("PLMNIdentity", PLMNIdentity, ""); ("GNBID", GNBID, "valueLB:0,valueUB:1");
  ("IEExtensions", TPtr ProtocolExtensionContainerGlobalGNBIDExtIEs, "optional")].
Definition ProtocolIESingleContainerNgENBIDExtIEs : gotype := TStruct "ProtocolIESingleContainerNgENBIDExtIEs" [].
Definition NgENBID : gotype := TStruct "NgENBID" [
  ("Present", TInt 64, ""); ("MacroNgENBID", TPtr TBitString, "sizeLB:20,sizeUB:20");
  ("ShortMacroNgENBID", TPtr TBitString, "sizeLB:18,sizeUB:18");
  ("LongMacroNgENBID", TPtr TBitString, "sizeLB:21,sizeUB:21");
  ("ChoiceExtensions", TPtr ProtocolIESingleContainerNgENBIDExtIEs, "")].
Definition GlobalNgENBIDExtIEsExtensionValue : gotype := TStruct "GlobalNgENBIDExtIEsExtensionValue" [
  ("Present", TInt 64, "")].
Definition GlobalNgENBIDExtIEs : gotype := TStruct "GlobalNgENBIDExtIEs" [
  ("Id", ProtocolExtensionID, ""); ("Criticality", Criticality, "");
  ("ExtensionValue", GlobalNgENBIDExtIEsExtensionValue, "openType,referenceFieldName:Id")].
Definition ProtocolExtensionContainerGlobalNgENBIDExtIEs : gotype := TStruct "ProtocolExtensionContainerGlobalNgENBIDExtIEs" [
  ("List", TSlice GlobalNgENBIDExtIEs, "sizeLB:1,sizeUB:65535")].
Definition GlobalNgENBID : gotype := TStruct "GlobalNgENBID" [
  ("PLMNIdentity", PLMNIdentity, ""); ("NgENBID", NgENBID, "valueLB:0,valueUB:3");
  ("IEExtensions", TPtr ProtocolExtensionContainerGlobalNgENBIDExtIEs, "optional")].
Definition ProtocolIESingleContainerN3IWFIDExtIEs : gotype := TStruct "ProtocolIESingleContainerN3IWFIDExtIEs" [].
Definition N3IWFID : gotype := TStruct "N3IWFID" [
  ("Present", TInt 64, ""); ("N3IWFID", TPtr TBitString, "sizeLB:16,sizeUB:16");
  ("ChoiceExtensions", TPtr ProtocolIESingleContainerN3IWFIDExtIEs, "")].
Definition GlobalN3IWFIDExtIEsExtensionValue : gotype := TStruct "GlobalN3IWFIDExtIEsExtensionValue" [
  ("Present", TInt 64, "")].
Definition GlobalN3IWFIDExtIEs : gotype := TStruct "GlobalN3IWFIDExtIEs" [
  ("Id", ProtocolExtensionID, ""); ("Criticality", Criticality, "");
  ("ExtensionValue", GlobalN3IWFIDExtIEsExtensionValue, "openType,referenceFieldName:Id")].
Definition ProtocolExtensionContainerGlobalN3IWFIDExtIEs : gotype := TStruct "ProtocolExtensionContainerGlobalN3IWFIDExtIEs" [
  ("List", TSlice GlobalN3IWFIDExtIEs, "sizeLB:1,sizeUB:65535")].
Definition GlobalN3IWFID : gotype := TStruct "GlobalN3IWFID" [
  ("PLMNIdentity", PLMNIdentity, ""); ("N3IWFID", N3IWFID, "valueLB:0,valueUB:1");
  ("IEExtensions", TPtr ProtocolExtensionContainerGlobalN3IWFIDExtIEs, "optional")].
Definition ProtocolIESingleContainerGlobalRANNodeIDExtIEs : gotype := TStruct "ProtocolIESingleContainerGlobalRANNodeIDExtIEs" [].
Definition GlobalRANNodeID : gotype := TStruct "GlobalRANNodeID" [
  ("Present", TInt 64, ""); ("GlobalGNBID", TPtr GlobalGNBID, "valueExt");
  ("GlobalNgENBID", TPtr GlobalNgENBID, "valueExt"); ("GlobalN3IWFID", TPtr GlobalN3IWFID, "valueExt");
  ("ChoiceExtensions", TPtr ProtocolIESingleContainerGlobalRANNodeIDExtIEs, "")].
Definition TAC : gotype := TStruct "TAC" [("Value", TOctetString, "sizeLB:3,sizeUB:3")].
Definition TAIExtIEsExtensionValue : gotype := TStruct "TAIExtIEsExtensionValue" [("Present", TInt 64, "")].
Definition TAIExtIEs : gotype := TStruct "TAIExtIEs" [
  ("Id", ProtocolExtensionID, ""); ("Criticality", Criticality, "");
  ("ExtensionValue", TAIExtIEsExtensionValue, "openType,referenceFieldName:Id")].
Definition ProtocolExtensionContainerTAIExtIEs : gotype := TStruct "ProtocolExtensionContainerTAIExtIEs" [
  ("List", TSlice TAIExtIEs, "sizeLB:1,sizeUB:65535")].
Definition TAI : gotype := TStruct "TAI" [
  ("PLMNIdentity", PLMNIdentity, ""); ("TAC", TAC, "");
  ("IEExtensions", TPtr ProtocolExtensionContainerTAIExtIEs, "optional")].
Definition ProtocolIESingleContainerAMFPagingTargetExtIEs : gotype := TStruct "ProtocolIESingleContainerAMFPagingTargetExtIEs" [].
Definition AMFPagingTarget : gotype := TStruct "AMFPagingTarget" [
  ("Present", TInt 64, ""); ("GlobalRANNodeID", TPtr GlobalRANNodeID, "valueLB:0,valueUB:3");
  ("TAI", TPtr TAI, "valueExt"); ("ChoiceExtensions", TPtr ProtocolIESingleContainerAMFPagingTargetExtIEs, "")].
Definition TimerApproachForGUAMIRemoval : gotype := TStruct "TimerApproachForGUAMIRemoval" [
  ("Value", TEnumerated, "valueExt,valueLB:0,valueUB:0")].
Definition UnavailableGUAMIItemExtIEsExtensionValue : gotype := TStruct "UnavailableGUAMIItemExtIEsExtensionValue" [
  ("Present", TInt 64, "")].
Definition UnavailableGUAMIItemExtIEs : gotype := TStruct "UnavailableGUAMIItemExtIEs" [
  ("Id", ProtocolExtensionID, ""); ("Criticality", Criticality, "");
  ("ExtensionValue", UnavailableGUAMIItemExtIEsExtensionValue, "openType,referenceFieldName:Id")].
Definition ProtocolExtensionContainerUnavailableGUAMIItemExtIEs : gotype := TStruct "ProtocolExtensionContainerUnavailableGUAMIItemExtIEs" [
  ("List", TSlice UnavailableGUAMIItemExtIEs, "sizeLB:1,sizeUB:65535")].
Definition UnavailableGUAMIItem : gotype := TStruct "UnavailableGUAMIItem" [
  ("GUAMI", GUAMI, "valueExt"); ("TimerApproachForGUAMIRemoval", TPtr TimerApproachForGUAMIRemoval, "optional");
  ("BackupAMFName", TPtr AMFName, "sizeExt,sizeLB:1,sizeUB:150,optional");
  ("IEExtensions", TPtr ProtocolExtensionContainerUnavailableGUAMIItemExtIEs, "optional")].
Definition UnavailableGUAMIList : gotype := TStruct "UnavailableGUAMIList" [
  ("List", TSlice UnavailableGUAMIItem, "valueExt,sizeLB:1,sizeUB:256")].
Definition AMFStatusIndicationIEsValue : gotype := TStruct "AMFStatusIndicationIEsValue" [
  ("Present", TInt 64, ""); ("UnavailableGUAMIList", TPtr UnavailableGUAMIList, "referenceFieldValue:120")].
Definition AMFStatusIndicationIEs : gotype := TStruct "AMFStatusIndicationIEs" [
  ("Id", ProtocolIEID, ""); ("Criticality", Criticality, "");
  ("Value", AMFStatusIndicationIEsValue, "openType,referenceFieldName:Id")].
Definition ProtocolIEContainerAMFStatusIndicationIEs : gotype := TStruct "ProtocolIEContainerAMFStatusIndicationIEs" [
  ("List", TSlice AMFStatusIndicationIEs, "sizeLB:0,sizeUB:65535")].
Definition AMFStatusIndication : gotype := TStruct "AMFStatusIndication" [
  ("ProtocolIEs", ProtocolIEContainerAMFStatusIndicationIEs, "")].
Definition AMFUENGAPID : gotype := TStruct "AMFUENGAPID" [("Value", TInt 64, "valueLB:0,valueUB:1099511627775")].
Definition AdditionalQosFlowInformation : gotype := TStruct "AdditionalQosFlowInformation" [
  ("Value", TEnumerated, "valueExt,valueLB:0,valueUB:0")].
Definition PriorityLevelARP : gotype := TStruct "PriorityLevelARP" [("Value", TInt 64, "valueLB:1,valueUB:15")].
Definition PreEmptionCapability : gotype := TStruct "PreEmptionCapability" [
  ("Value", TEnumerated, "valueExt,valueLB:0,valueUB:1")].
Definition PreEmptionVulnerability : gotype := TStruct "PreEmptionVulnerability" [
  ("Value", TEnumerated, "valueExt,valueLB:0,valueUB:1")].
Definition AllocationAndRetentionPriorityExtIEsExtensionValue : gotype := TStruct "AllocationAndRetentionPriorityExtIEsExtensionValue" [
  ("Present", TInt 64, "")].
Definition AllocationAndRetentionPriorityExtIEs : gotype := TStruct "AllocationAndRetentionPriorityExtIEs" [
  ("Id", ProtocolExtensionID, ""); ("Criticality", Criticality, "");
  ("ExtensionValue", AllocationAndRetentionPriorityExtIEsExtensionValue, "openType,referenceFieldName:Id")].
Definition ProtocolExtensionContainerAllocationAndRetentionPriorityExtIEs : gotype := TStruct "ProtocolExtensionContainerAllocationAndRetentionPriorityExtIEs" [
  ("List", TSlice AllocationAndRetentionPriorityExtIEs, "sizeLB:1,sizeUB:65535")].
Definition AllocationAndRetentionPriority : gotype := TStruct "AllocationAndRetentionPriority" [
  ("PriorityLevelARP", PriorityLevelARP, ""); ("PreEmptionCapability", PreEmptionCapability, "");
  ("PreEmptionVulnerability", PreEmptionVulnerability, "");
  ("IEExtensions", TPtr ProtocolExtensionContainerAllocationAndRetentionPriorityExtIEs, "optional")].
Definition AllowedNSSAIItemExtIEsExtensionValue : gotype := TStruct "AllowedNSSAIItemExtIEsExtensionValue" [
  ("Present", TInt 64, "")].
Definition AllowedNSSAIItemExtIEs : gotype := TStruct "AllowedNSSAIItemExtIEs" [
  ("Id", ProtocolExtensionID, ""); ("Criticality", Criticality, "");
  ("ExtensionValue", AllowedNSSAIItemExtIEsExtensionValue, "openType,referenceFieldName:Id")].
Definition ProtocolExtensionContainerAllowedNSSAIItemExtIEs : gotype := TStruct "ProtocolExtensionContainerAllowedNSSAIItemExtIEs" [
  ("List", TSlice AllowedNSSAIItemExtIEs, "sizeLB:1,sizeUB:65535")].
Definition AllowedNSSAIItem : gotype := TStruct "AllowedNSSAIItem" [
  ("SNSSAI", SNSSAI, "valueExt"); ("IEExtensions", TPtr ProtocolExtensionContainerAllowedNSSAIItemExtIEs, "optional")].
Definition AllowedNSSAI : gotype := TStruct "AllowedNSSAI" [
  ("List", TSlice AllowedNSSAIItem, "valueExt,sizeLB:1,sizeUB:8")].
Definition AllowedTACs : gotype := TStruct "AllowedTACs" [("List", TSlice TAC, "sizeLB:1,sizeUB:16")].
Definition AreaOfInterestTAIItemExtIEsExtensionValue : gotype := TStruct "AreaOfInterestTAIItemExtIEsExtensionValue" [
  ("Present", TInt 64, "")].
Definition AreaOfInterestTAIItemExtIEs : gotype := TStruct "AreaOfInterestTAIItemExtIEs" [
  ("Id", ProtocolExtensionID, ""); ("Criticality", Criticality, "");
  ("ExtensionValue", AreaOfInterestTAIItemExtIEsExtensionValue, "openType,referenceFieldName:Id")].
Definition ProtocolExtensionContainerAreaOfInterestTAIItemExtIEs : gotype := TStruct "ProtocolExtensionContainerAreaOfInterestTAIItemExtIEs" [
  ("List", TSlice AreaOfInterestTAIItemExtIEs, "sizeLB:1,sizeUB:65535")].
Definition AreaOfInterestTAIItem : gotype := TStruct "AreaOfInterestTAIItem" [
  ("TAI", TAI, "valueExt"); ("IEExtensions", TPtr ProtocolExtensionContainerAreaOfInterestTAIItemExtIEs, "optional")].
Definition AreaOfInterestTAIList : gotype := TStruct "AreaOfInterestTAIList" [
  ("List", TSlice AreaOfInterestTAIItem, "valueExt,sizeLB:1,sizeUB:16")].
Definition NRCellIdentity : gotype := TStruct "NRCellIdentity" [("Value", TBitString, "sizeLB:36,sizeUB:36")].
Definition NRCGIExtIEsExtensionValue : gotype := TStruct "NRCGIExtIEsExtensionValue" [("Present", TInt 64, "")].
Definition NRCGIExtIEs : gotype := TStruct "NRCGIExtIEs" [
  ("Id", ProtocolExtensionID, ""); ("Criticality", Criticality, "");
  ("ExtensionValue", NRCGIExtIEsExtensionValue, "openType,referenceFieldName:Id")].
Definition ProtocolExtensionContainerNRCGIExtIEs : gotype := TStruct "ProtocolExtensionContainerNRCGIExtIEs" [
  ("List", TSlice NRCGIExtIEs, "sizeLB:1,sizeUB:65535")].
Definition NRCGI : gotype := TStruct "NRCGI" [
  ("PLMNIdentity", PLMNIdentity, ""); ("NRCellIdentity", NRCellIdentity, "");
  ("IEExtensions", TPtr ProtocolExtensionContainerNRCGIExtIEs, "optional")].
Definition EUTRACellIdentity : gotype := TStruct "EUTRACellIdentity" [("Value", TBitString, "sizeLB:28,sizeUB:28")].
Definition EUTRACGIExtIEsExtensionValue : gotype := TStruct "EUTRACGIExtIEsExtensionValue" [("Present", TInt 64, "")].
Definition EUTRACGIExtIEs : gotype := TStruct "EUTRACGIExtIEs" [
  ("Id", ProtocolExtensionID, ""); ("Criticality", Criticality, "");
  ("ExtensionValue", EUTRACGIExtIEsExtensionValue, "openType,referenceFieldName:Id")].
Definition ProtocolExtensionContainerEUTRACGIExtIEs : gotype := TStruct "ProtocolExtensionContainerEUTRACGIExtIEs" [
  ("List", TSlice EUTRACGIExtIEs, "sizeLB:1,sizeUB:65535")].
Definition EUTRACGI : gotype := TStruct "EUTRACGI" [
  ("PLMNIdentity", PLMNIdentity, ""); ("EUTRACellIdentity", EUTRACellIdentity, "");
  ("IEExtensions", TPtr ProtocolExtensionContainerEUTRACGIExtIEs, "optional")].
Definition ProtocolIESingleContainerNGRANCGIExtIEs : gotype := TStruct "ProtocolIESingleContainerNGRANCGIExtIEs" [].
Definition NGRANCGI : gotype := TStruct "NGRANCGI" [
  ("Present", TInt 64, ""); ("NRCGI", TPtr NRCGI, "valueExt"); ("EUTRACGI", TPtr EUTRACGI, "valueExt");
  ("ChoiceExtensions", TPtr ProtocolIESingleContainerNGRANCGIExtIEs, "")].
Definition AreaOfInterestCellItemExtIEsExtensionValue : gotype := TStruct "AreaOfInterestCellItemExtIEsExtensionValue" [
  ("Present", TInt 64, "")].
Definition AreaOfInterestCellItemExtIEs : gotype := TStruct "AreaOfInterestCellItemExtIEs" [
  ("Id", ProtocolExtensionID, ""); ("Criticality", Criticality, "");
  ("ExtensionValue", AreaOfInterestCellItemExtIEsExtensionValue, "openType,referenceFieldName:Id")].
Definition ProtocolExtensionContainerAreaOfInterestCellItemExtIEs : gotype := TStruct "ProtocolExtensionContainerAreaOfInterestCellItemExtIEs" [
  ("List", TSlice AreaOfInterestCellItemExtIEs, "sizeLB:1,sizeUB:65535")].
Definition AreaOfInterestCellItem : gotype := TStruct "AreaOfInterestCellItem" [
  ("NGRANCGI", NGRANCGI, "valueLB:0,valueUB:2");
  ("IEExtensions", TPtr ProtocolExtensionContainerAreaOfInterestCellItemExtIEs, "optional")].
Definition AreaOfInterestCellList : gotype := TStruct "AreaOfInterestCellList" [
  ("List", TSlice AreaOfInterestCellItem, "valueExt,sizeLB:1,sizeUB:256")].
Definition AreaOfInterestRANNodeItemExtIEsExtensionValue : gotype := TStruct "AreaOfInterestRANNodeItemExtIEsExtensionValue" [
  ("Present", TInt 64, "")].
Definition AreaOfInterestRANNodeItemExtIEs : gotype := TStruct "AreaOfInterestRANNodeItemExtIEs" [
  ("Id", ProtocolExtensionID, ""); ("Criticality", Criticality, "");
  ("ExtensionValue", AreaOfInterestRANNodeItemExtIEsExtensionValue, "openType,referenceFieldName:Id")].
Definition ProtocolExtensionContainerAreaOfInterestRANNodeItemExtIEs : gotype := TStruct "ProtocolExtensionContainerAreaOfInterestRANNodeItemExtIEs" [
  ("List", TSlice AreaOfInterestRANNodeItemExtIEs, "sizeLB:1,sizeUB:65535")].
Definition AreaOfInterestRANNodeItem : gotype := TStruct "AreaOfInterestRANNodeItem" [
  ("GlobalRANNodeID", GlobalRANNodeID, "valueLB:0,valueUB:3");
  ("IEExtensions", TPtr ProtocolExtensionContainerAreaOfInterestRANNodeItemExtIEs, "optional")].
Definition AreaOfInterestRANNodeList : gotype := TStruct "AreaOfInterestRANNodeList" [
  ("List", TSlice AreaOfInterestRANNodeItem, "valueExt,sizeLB:1,sizeUB:64")].
Definition AreaOfInterestExtIEsExtensionValue : gotype := TStruct "AreaOfInterestExtIEsExtensionValue" [
  ("Present", TInt 64, "")].
Definition AreaOfInterestExtIEs : gotype := TStruct "AreaOfInterestExtIEs" [
  ("Id", ProtocolExtensionID, ""); ("Criticality", Criticality, "");
  ("ExtensionValue", AreaOfInterestExtIEsExtensionValue, "openType,referenceFieldName:Id")].
Definition ProtocolExtensionContainerAreaOfInterestExtIEs : gotype := TStruct "ProtocolExtensionContainerAreaOfInterestExtIEs" [
  ("List", TSlice AreaOfInterestExtIEs, "sizeLB:1,sizeUB:65535")].
Definition AreaOfInterest : gotype := TStruct "AreaOfInterest" [
  ("AreaOfInterestTAIList", TPtr AreaOfInterestTAIList, "optional");
  ("AreaOfInterestCellList", TPtr AreaOfInterestCellList, "optional");
  ("AreaOfInterestRANNodeList", TPtr AreaOfInterestRANNodeList, "optional");
  ("IEExtensions", TPtr ProtocolExtensionContainerAreaOfInterestExtIEs, "optional")].
Definition LocationReportingReferenceID : gotype := TStruct "LocationReportingReferenceID" [
  ("Value", TInt 64, "valueExt,valueLB:1,valueUB:64")].
Definition AreaOfInterestItemExtIEsExtensionValue : gotype := TStruct "AreaOfInterestItemExtIEsExtensionValue" [
  ("Present", TInt 64, "")].
Definition AreaOfInterestItemExtIEs : gotype := TStruct "AreaOfInterestItemExtIEs" [
  ("Id", ProtocolExtensionID, ""); ("Criticality", Criticality, "");
  ("ExtensionValue", AreaOfInterestItemExtIEsExtensionValue, "openType,referenceFieldName:Id")].
Definition ProtocolExtensionContainerAreaOfInterestItemExtIEs : gotype := TStruct "ProtocolExtensionContainerAreaOfInterestItemExtIEs" [
  ("List", TSlice AreaOfInterestItemExtIEs, "sizeLB:1,sizeUB:65535")].
Definition AreaOfInterestItem : gotype := TStruct "AreaOfInterestItem" [
  ("AreaOfInterest", AreaOfInterest, "valueExt"); ("LocationReportingReferenceID", LocationReportingReferenceID, "");
  ("IEExtensions", TPtr ProtocolExtensionContainerAreaOfInterestItemExtIEs, "optional")].
Definition AreaOfInterestList : gotype := TStruct "AreaOfInterestList" [
  ("List", TSlice AreaOfInterestItem, "valueExt,sizeLB:1,sizeUB:64")].
Definition RecommendedCellItemExtIEsExtensionValue : gotype := TStruct "RecommendedCellItemExtIEsExtensionValue" [
  ("Present", TInt 64, "")].
Definition RecommendedCellItemExtIEs : gotype := TStruct "RecommendedCellItemExtIEs" [
  ("Id", ProtocolExtensionID, ""); ("Criticality", Criticality, "");
  ("ExtensionValue", RecommendedCellItemExtIEsExtensionValue, "openType,referenceFieldName:Id")].
Definition ProtocolExtensionContainerRecommendedCellItemExtIEs : gotype := TStruct "ProtocolExtensionContainerRecommendedCellItemExtIEs" [
  ("List", TSlice RecommendedCellItemExtIEs, "sizeLB:1,sizeUB:65535")].
Definition RecommendedCellItem : gotype := TStruct "RecommendedCellItem" [
  ("NGRANCGI", NGRANCGI, "valueLB:0,valueUB:2");
  ("TimeStayedInCell", TPtr (TInt 64), "valueLB:0,valueUB:4095,optional");
  ("IEExtensions", TPtr ProtocolExtensionContainerRecommendedCellItemExtIEs, "optional")].
Definition RecommendedCellList : gotype := TStruct "RecommendedCellList" [
  ("List", TSlice RecommendedCellItem, "valueExt,sizeLB:1,sizeUB:16")].
Definition RecommendedCellsForPagingExtIEsExtensionValue : gotype := TStruct "RecommendedCellsForPagingExtIEsExtensionValue" [
  ("Present", TInt 64, "")].
Definition RecommendedCellsForPagingExtIEs : gotype := TStruct "RecommendedCellsForPagingExtIEs" [
  ("Id", ProtocolExtensionID, ""); ("Criticality", Criticality, "");
  ("ExtensionValue", RecommendedCellsForPagingExtIEsExtensionValue, "openType,referenceFieldName:Id")].
Definition ProtocolExtensionContainerRecommendedCellsForPagingExtIEs : gotype := TStruct "ProtocolExtensionContainerRecommendedCellsForPagingExtIEs" [
  ("List", TSlice RecommendedCellsForPagingExtIEs, "sizeLB:1,sizeUB:65535")].
Definition RecommendedCellsForPaging : gotype := TStruct "RecommendedCellsForPaging" [
  ("RecommendedCellList", RecommendedCellList, "");
  ("IEExtensions", TPtr ProtocolExtensionContainerRecommendedCellsForPagingExtIEs, "optional")].
Definition AssistanceDataForRecommendedCellsExtIEsExtensionValue : gotype := TStruct "AssistanceDataForRecommendedCellsExtIEsExtensionValue" [
  ("Present", TInt 64, "")].
Definition AssistanceDataForRecommendedCellsExtIEs : gotype := TStruct "AssistanceDataForRecommendedCellsExtIEs" [
  ("Id", ProtocolExtensionID, ""); ("Criticality", Criticality, "");
  ("ExtensionValue", AssistanceDataForRecommendedCellsExtIEsExtensionValue, "openType,referenceFieldName:Id")].
Definition ProtocolExtensionContainerAssistanceDataForRecommendedCellsExtIEs : gotype := TStruct "ProtocolExtensionContainerAssistanceDataForRecommendedCellsExtIEs" [
  ("List", TSlice AssistanceDataForRecommendedCellsExtIEs, "sizeLB:1,sizeUB:65535")].
Definition AssistanceDataForRecommendedCells : gotype := TStruct "AssistanceDataForRecommendedCells" [
  ("RecommendedCellsForPaging", RecommendedCellsForPaging, "valueExt");
  ("IEExtensions", TPtr ProtocolExtensionContainerAssistanceDataForRecommendedCellsExtIEs, "optional")].
Definition PagingAttemptCount : gotype := TStruct "PagingAttemptCount" [
  ("Value", TInt 64, "valueExt,valueLB:1,valueUB:16")].
Definition IntendedNumberOfPagingAttempts : gotype := TStruct "IntendedNumberOfPagingAttempts" [
  ("Value", TInt 64, "valueExt,valueLB:1,valueUB:16")].
Definition NextPagingAreaScope : gotype := TStruct "NextPagingAreaScope" [
  ("Value", TEnumerated, "valueExt,valueLB:0,valueUB:1")].
Definition PagingAttemptInformationExtIEsExtensionValue : gotype := TStruct "PagingAttemptInformationExtIEsExtensionValue" [
  ("Present", TInt 64, "")].
Definition PagingAttemptInformationExtIEs : gotype := TStruct "PagingAttemptInformationExtIEs" [
  ("Id", ProtocolExtensionID, ""); ("Criticality", Criticality, "");
  ("ExtensionValue", PagingAttemptInformationExtIEsExtensionValue, "openType,referenceFieldName:Id")].
Definition ProtocolExtensionContainerPagingAttemptInformationExtIEs : gotype := TStruct "ProtocolExtensionContainerPagingAttemptInformationExtIEs" [
  ("List", TSlice PagingAttemptInformationExtIEs, "sizeLB:1,sizeUB:65535")].
Definition PagingAttemptInformation : gotype := TStruct "PagingAttemptInformation" [
  ("PagingAttemptCount", PagingAttemptCount, "");
  ("IntendedNumberOfPagingAttempts", IntendedNumberOfPagingAttempts, "");
  ("NextPagingAreaScope", TPtr NextPagingAreaScope, "optional");
  ("IEExtensions", TPtr ProtocolExtensionContainerPagingAttemptInformationExtIEs, "optional")].
Definition AssistanceDataForPagingExtIEsExtensionValue : gotype := TStruct "AssistanceDataForPagingExtIEsExtensionValue" [
  ("Present", TInt 64, "")].
Definition AssistanceDataForPagingExtIEs : gotype := TStruct "AssistanceDataForPagingExtIEs" [
  ("Id", ProtocolExtensionID, ""); ("Criticality", Criticality, "");
  ("ExtensionValue", AssistanceDataForPagingExtIEsExtensionValue, "openType,referenceFieldName:Id")].
Definition ProtocolExtensionContainerAssistanceDataForPagingExtIEs : gotype := TStruct "ProtocolExtensionContainerAssistanceDataForPagingExtIEs" [
  ("List", TSlice AssistanceDataForPagingExtIEs, "sizeLB:1,sizeUB:65535")].
Definition AssistanceDataForPaging : gotype := TStruct "AssistanceDataForPaging" [
  ("AssistanceDataForRecommendedCells", TPtr AssistanceDataForRecommendedCells, "valueExt,optional");
  ("PagingAttemptInformation", TPtr PagingAttemptInformation, "valueExt,optional");
  ("IEExtensions", TPtr ProtocolExtensionContainerAssistanceDataForPagingExtIEs, "optional")].
Definition QosFlowIdentifier : gotype := TStruct "QosFlowIdentifier" [
  ("Value", TInt 64, "valueExt,valueLB:0,valueUB:63")].
Definition AssociatedQosFlowItemExtIEsExtensionValue : gotype := TStruct "AssociatedQosFlowItemExtIEsExtensionValue" [
  ("Present", TInt 64, "")].
Definition AssociatedQosFlowItemExtIEs : gotype := TStruct "AssociatedQosFlowItemExtIEs" [
  ("Id", ProtocolExtensionID, ""); ("Criticality", Criticality, "");
  ("ExtensionValue", AssociatedQosFlowItemExtIEsExtensionValue, "openType,referenceFieldName:Id")].
Definition ProtocolExtensionContainerAssociatedQosFlowItemExtIEs : gotype := TStruct "ProtocolExtensionContainerAssociatedQosFlowItemExtIEs" [
  ("List", TSlice AssociatedQosFlowItemExtIEs, "sizeLB:1,sizeUB:65535")].
Definition AssociatedQosFlowItem : gotype := TStruct "AssociatedQosFlowItem" [
  ("QosFlowIdentifier", QosFlowIdentifier, ""); ("QosFlowMappingIndication", TPtr TEnumerated, "optional");
  ("IEExtensions", TPtr ProtocolExtensionContainerAssociatedQosFlowItemExtIEs, "optional")].
Definition AssociatedQosFlowList : gotype := TStruct "AssociatedQosFlowList" [
  ("List", TSlice AssociatedQosFlowItem, "valueExt,sizeLB:1,sizeUB:64")].
Definition AveragingWindow : gotype := TStruct "AveragingWindow" [
  ("Value", TInt 64, "valueExt,valueLB:0,valueUB:4095")].
Definition BitRate : gotype := TStruct "BitRate" [("Value", TInt 64, "valueExt,valueLB:0,valueUB:4000000000000")].
Definition NumberOfBroadcasts : gotype := TStruct "NumberOfBroadcasts" [("Value", TInt 64, "valueLB:0,valueUB:65535")].
Definition CellIDCancelledEUTRAItemExtIEsExtensionValue : gotype := TStruct "CellIDCancelledEUTRAItemExtIEsExtensionValue" [
  ("Present", TInt 64, "")].
Definition CellIDCancelledEUTRAItemExtIEs : gotype := TStruct "CellIDCancelledEUTRAItemExtIEs" [
  ("Id", ProtocolExtensionID, ""); ("Criticality", Criticality, "");
  ("ExtensionValue", CellIDCancelledEUTRAItemExtIEsExtensionValue, "openType,referenceFieldName:Id")].
Definition ProtocolExtensionContainerCellIDCancelledEUTRAItemExtIEs : gotype := TStruct "ProtocolExtensionContainerCellIDCancelledEUTRAItemExtIEs" [
  ("List", TSlice CellIDCancelledEUTRAItemExtIEs, "sizeLB:1,sizeUB:65535")].
Definition CellIDCancelledEUTRAItem : gotype := TStruct "CellIDCancelledEUTRAItem" [
  ("EUTRACGI", EUTRACGI, "valueExt"); ("NumberOfBroadcasts", NumberOfBroadcasts, "");
  ("IEExtensions", TPtr ProtocolExtensionContainerCellIDCancelledEUTRAItemExtIEs, "optional")].
Definition CellIDCancelledEUTRA : gotype := TStruct "CellIDCancelledEUTRA" [
  ("List", TSlice CellIDCancelledEUTRAItem, "valueExt,sizeLB:1,sizeUB:65535")].
Definition CancelledCellsInTAIEUTRAItemExtIEsExtensionValue : gotype := TStruct "CancelledCellsInTAIEUTRAItemExtIEsExtensionValue" [
  ("Present", TInt 64, "")].
Definition CancelledCellsInTAIEUTRAItemExtIEs : gotype := TStruct "CancelledCellsInTAIEUTRAItemExtIEs" [
  ("Id", ProtocolExtensionID, ""); ("Criticality", Criticality, "");
  ("ExtensionValue", CancelledCellsInTAIEUTRAItemExtIEsExtensionValue, "openType,referenceFieldName:Id")].
Definition ProtocolExtensionContainerCancelledCellsInTAIEUTRAItemExtIEs : gotype := TStruct "ProtocolExtensionContainerCancelledCellsInTAIEUTRAItemExtIEs" [
  ("List", TSlice CancelledCellsInTAIEUTRAItemExtIEs, "sizeLB:1,sizeUB:65535")].
Definition CancelledCellsInTAIEUTRAItem : gotype := TStruct "CancelledCellsInTAIEUTRAItem" [
  ("EUTRACGI", EUTRACGI, "valueExt"); ("NumberOfBroadcasts", NumberOfBroadcasts, "");
  ("IEExtensions", TPtr ProtocolExtensionContainerCancelledCellsInTAIEUTRAItemExtIEs, "optional")].
Definition CancelledCellsInTAIEUTRA : gotype := TStruct "CancelledCellsInTAIEUTRA" [
  ("List", TSlice CancelledCellsInTAIEUTRAItem, "valueExt,sizeLB:1,sizeUB:65535")].
Definition TAICancelledEUTRAItemExtIEsExtensionValue : gotype := TStruct "TAICancelledEUTRAItemExtIEsExtensionValue" [
  ("Present", TInt 64, "")].
Definition TAICancelledEUTRAItemExtIEs : gotype := TStruct "TAICancelledEUTRAItemExtIEs" [
  ("Id", ProtocolExtensionID, ""); ("Criticality", Criticality, "");
  ("ExtensionValue", TAICancelledEUTRAItemExtIEsExtensionValue, "openType,referenceFieldName:Id")].
Definition ProtocolExtensionContainerTAICancelledEUTRAItemExtIEs : gotype := TStruct "ProtocolExtensionContainerTAICancelledEUTRAItemExtIEs" [
  ("List", TSlice TAICancelledEUTRAItemExtIEs, "sizeLB:1,sizeUB:65535")].
Definition TAICancelledEUTRAItem : gotype := TStruct "TAICancelledEUTRAItem" [
  ("TAI", TAI, "valueExt"); ("CancelledCellsInTAIEUTRA", CancelledCellsInTAIEUTRA, "");
  ("IEExtensions", TPtr ProtocolExtensionContainerTAICancelledEUTRAItemExtIEs, "optional")].
Definition TAICancelledEUTRA : gotype := TStruct "TAICancelledEUTRA" [
  ("List", TSlice TAICancelledEUTRAItem, "valueExt,sizeLB:1,sizeUB:65535")].
Definition EmergencyAreaID : gotype := TStruct "EmergencyAreaID" [("Value", TOctetString, "sizeLB:3,sizeUB:3")].
Definition CancelledCellsInEAIEUTRAItemExtIEsExtensionValue : gotype := TStruct "CancelledCellsInEAIEUTRAItemExtIEsExtensionValue" [
  ("Present", TInt 64, "")].
Definition CancelledCellsInEAIEUTRAItemExtIEs : gotype := TStruct "CancelledCellsInEAIEUTRAItemExtIEs" [
  ("Id", ProtocolExtensionID, ""); ("Criticality", Criticality, "");
  ("ExtensionValue", CancelledCellsInEAIEUTRAItemExtIEsExtensionValue, "openType,referenceFieldName:Id")].
Definition ProtocolExtensionContainerCancelledCellsInEAIEUTRAItemExtIEs : gotype := TStruct "ProtocolExtensionContainerCancelledCellsInEAIEUTRAItemExtIEs" [
  ("List", TSlice CancelledCellsInEAIEUTRAItemExtIEs, "sizeLB:1,sizeUB:65535")].
Definition CancelledCellsInEAIEUTRAItem : gotype := TStruct "CancelledCellsInEAIEUTRAItem" [
  ("EUTRACGI", EUTRACGI, "valueExt"); ("NumberOfBroadcasts", NumberOfBroadcasts, "");
  ("IEExtensions", TPtr ProtocolExtensionContainerCancelledCellsInEAIEUTRAItemExtIEs, "optional")].
Definition CancelledCellsInEAIEUTRA : gotype := TStruct "CancelledCellsInEAIEUTRA" [
  ("List", TSlice CancelledCellsInEAIEUTRAItem, "valueExt,sizeLB:1,sizeUB:65535")].
Definition EmergencyAreaIDCancelledEUTRAItemExtIEsExtensionValue : gotype := TStruct "EmergencyAreaIDCancelledEUTRAItemExtIEsExtensionValue" [
  ("Present", TInt 64, "")].
Definition EmergencyAreaIDCancelledEUTRAItemExtIEs : gotype := TStruct "EmergencyAreaIDCancelledEUTRAItemExtIEs" [
  ("Id", ProtocolExtensionID, ""); ("Criticality", Criticality, "");
  ("ExtensionValue", EmergencyAreaIDCancelledEUTRAItemExtIEsExtensionValue, "openType,referenceFieldName:Id")].
Definition ProtocolExtensionContainerEmergencyAreaIDCancelledEUTRAItemExtIEs : gotype := TStruct "ProtocolExtensionContainerEmergencyAreaIDCancelledEUTRAItemExtIEs" [
  ("List", TSlice EmergencyAreaIDCancelledEUTRAItemExtIEs, "sizeLB:1,sizeUB:65535")].
Definition EmergencyAreaIDCancelledEUTRAItem : gotype := TStruct "EmergencyAreaIDCancelledEUTRAItem" [
  ("EmergencyAreaID", EmergencyAreaID, ""); ("CancelledCellsInEAIEUTRA", CancelledCellsInEAIEUTRA, "");
  ("IEExtensions", TPtr ProtocolExtensionContainerEmergencyAreaIDCancelledEUTRAItemExtIEs, "optional")].
Definition EmergencyAreaIDCancelledEUTRA : gotype := TStruct "EmergencyAreaIDCancelledEUTRA" [
  ("List", TSlice EmergencyAreaIDCancelledEUTRAItem, "valueExt,sizeLB:1,sizeUB:65535")].
Definition CellIDCancelledNRItemExtIEsExtensionValue : gotype := TStruct "CellIDCancelledNRItemExtIEsExtensionValue" [
  ("Present", TInt 64, "")].
Definition CellIDCancelledNRItemExtIEs : gotype := TStruct "CellIDCancelledNRItemExtIEs" [
  ("Id", ProtocolExtensionID, ""); ("Criticality", Criticality, "");
  ("ExtensionValue", CellIDCancelledNRItemExtIEsExtensionValue, "openType,referenceFieldName:Id")].
Definition ProtocolExtensionContainerCellIDCancelledNRItemExtIEs : gotype := TStruct "ProtocolExtensionContainerCellIDCancelledNRItemExtIEs" [
  ("List", TSlice CellIDCancelledNRItemExtIEs, "sizeLB:1,sizeUB:65535")].
Definition CellIDCancelledNRItem : gotype := TStruct "CellIDCancelledNRItem" [
  ("NRCGI", NRCGI, "valueExt"); ("NumberOfBroadcasts", NumberOfBroadcasts, "");
  ("IEExtensions", TPtr ProtocolExtensionContainerCellIDCancelledNRItemExtIEs, "optional")].
Definition CellIDCancelledNR : gotype := TStruct "CellIDCancelledNR" [
  ("List", TSlice CellIDCancelledNRItem, "valueExt,sizeLB:1,sizeUB:65535")].
Definition CancelledCellsInTAINRItemExtIEsExtensionValue : gotype := TStruct "CancelledCellsInTAINRItemExtIEsExtensionValue" [
  ("Present", TInt 64, "")].
Definition CancelledCellsInTAINRItemExtIEs : gotype := TStruct "CancelledCellsInTAINRItemExtIEs" [
  ("Id", ProtocolExtensionID, ""); ("Criticality", Criticality, "");
  ("ExtensionValue", CancelledCellsInTAINRItemExtIEsExtensionValue, "openType,referenceFieldName:Id")].
Definition ProtocolExtensionContainerCancelledCellsInTAINRItemExtIEs : gotype := TStruct "ProtocolExtensionContainerCancelledCellsInTAINRItemExtIEs" [
  ("List", TSlice CancelledCellsInTAINRItemExtIEs, "sizeLB:1,sizeUB:65535")].
Definition CancelledCellsInTAINRItem : gotype := TStruct "CancelledCellsInTAINRItem" [
  ("NRCGI", NRCGI, "valueExt"); ("NumberOfBroadcasts", NumberOfBroadcasts, "");
  ("IEExtensions", TPtr ProtocolExtensionContainerCancelledCellsInTAINRItemExtIEs, "optional")].
Definition CancelledCellsInTAINR : gotype := TStruct "CancelledCellsInTAINR" [
  ("List", TSlice CancelledCellsInTAINRItem, "valueExt,sizeLB:1,sizeUB:65535")].
Definition TAICancelledNRItemExtIEsExtensionValue : gotype := TStruct "TAICancelledNRItemExtIEsExtensionValue" [
  ("Present", TInt 64, "")].
Definition TAICancelledNRItemExtIEs : gotype := TStruct "TAICancelledNRItemExtIEs" [
  ("Id", ProtocolExtensionID, ""); ("Criticality", Criticality, "");
  ("ExtensionValue", TAICancelledNRItemExtIEsExtensionValue, "openType,referenceFieldName:Id")].
Definition ProtocolExtensionContainerTAICancelledNRItemExtIEs : gotype := TStruct "ProtocolExtensionContainerTAICancelledNRItemExtIEs" [
  ("List", TSlice TAICancelledNRItemExtIEs, "sizeLB:1,sizeUB:65535")].
Definition TAICancelledNRItem : gotype := TStruct "TAICancelledNRItem" [
  ("TAI", TAI, "valueExt"); ("CancelledCellsInTAINR", CancelledCellsInTAINR, "");
  ("IEExtensions", TPtr ProtocolExtensionContainerTAICancelledNRItemExtIEs, "optional")].
Definition TAICancelledNR : gotype := TStruct "TAICancelledNR" [
  ("List", TSlice TAICancelledNRItem, "valueExt,sizeLB:1,sizeUB:65535")].
Definition CancelledCellsInEAINRItemExtIEsExtensionValue : gotype := TStruct "CancelledCellsInEAINRItemExtIEsExtensionValue" [
  ("Present", TInt 64, "")].
Definition CancelledCellsInEAINRItemExtIEs : gotype := TStruct "CancelledCellsInEAINRItemExtIEs" [
  ("Id", ProtocolExtensionID, ""); ("Criticality", Criticality, "");
  ("ExtensionValue", CancelledCellsInEAINRItemExtIEsExtensionValue, "openType,referenceFieldName:Id")].
Definition ProtocolExtensionContainerCancelledCellsInEAINRItemExtIEs : gotype := TStruct "ProtocolExtensionContainerCancelledCellsInEAINRItemExtIEs" [
  ("List", TSlice CancelledCellsInEAINRItemExtIEs, "sizeLB:1,sizeUB:65535")].
Definition CancelledCellsInEAINRItem : gotype := TStruct "CancelledCellsInEAINRItem" [
  ("NRCGI", NRCGI, "valueExt"); ("NumberOfBroadcasts", NumberOfBroadcasts, "");
  ("IEExtensions", TPtr ProtocolExtensionContainerCancelledCellsInEAINRItemExtIEs, "optional")].
Definition CancelledCellsInEAINR : gotype := TStruct "CancelledCellsInEAINR" [
  ("List", TSlice CancelledCellsInEAINRItem, "valueExt,sizeLB:1,sizeUB:65535")].
Definition EmergencyAreaIDCancelledNRItemExtIEsExtensionValue : gotype := TStruct "EmergencyAreaIDCancelledNRItemExtIEsExtensionValue" [
  ("Present", TInt 64, "")].
Definition EmergencyAreaIDCancelledNRItemExtIEs : gotype := TStruct "EmergencyAreaIDCancelledNRItemExtIEs" [
  ("Id", ProtocolExtensionID, ""); ("Criticality", Criticality, "");
  ("ExtensionValue", EmergencyAreaIDCancelledNRItemExtIEsExtensionValue, "openType,referenceFieldName:Id")].
Definition ProtocolExtensionContainerEmergencyAreaIDCancelledNRItemExtIEs : gotype := TStruct "ProtocolExtensionContainerEmergencyAreaIDCancelledNRItemExtIEs" [
  ("List", TSlice EmergencyAreaIDCancelledNRItemExtIEs, "sizeLB:1,sizeUB:65535")].
Definition EmergencyAreaIDCancelledNRItem : gotype := TStruct "EmergencyAreaIDCancelledNRItem" [
  ("EmergencyAreaID", EmergencyAreaID, ""); ("CancelledCellsInEAINR", CancelledCellsInEAINR, "");
  ("IEExtensions", TPtr ProtocolExtensionContainerEmergencyAreaIDCancelledNRItemExtIEs, "optional")].
Definition EmergencyAreaIDCancelledNR : gotype := TStruct "EmergencyAreaIDCancelledNR" [
  ("List", TSlice EmergencyAreaIDCancelledNRItem, "valueExt,sizeLB:1,sizeUB:65535")].
Definition ProtocolIESingleContainerBroadcastCancelledAreaListExtIEs : gotype := TStruct "ProtocolIESingleContainerBroadcastCancelledAreaListExtIEs" [].
Definition BroadcastCancelledAreaList : gotype := TStruct "BroadcastCancelledAreaList" [
  ("Present", TInt 64, ""); ("CellIDCancelledEUTRA", TPtr CellIDCancelledEUTRA, "");
  ("TAICancelledEUTRA", TPtr TAICancelledEUTRA, "");
  ("EmergencyAreaIDCancelledEUTRA", TPtr EmergencyAreaIDCancelledEUTRA, "");
  ("CellIDCancelledNR", TPtr CellIDCancelledNR, ""); ("TAICancelledNR", TPtr TAICancelledNR, "");
  ("EmergencyAreaIDCancelledNR", TPtr EmergencyAreaIDCancelledNR, "");
  ("ChoiceExtensions", TPtr ProtocolIESingleContainerBroadcastCancelledAreaListExtIEs, "")].
Definition CellIDBroadcastEUTRAItemExtIEsExtensionValue : gotype := TStruct "CellIDBroadcastEUTRAItemExtIEsExtensionValue" [
  ("Present", TInt 64, "")].
Definition CellIDBroadcastEUTRAItemExtIEs : gotype := TStruct "CellIDBroadcastEUTRAItemExtIEs" [
  ("Id", ProtocolExtensionID, ""); ("Criticality", Criticality, "");
  ("ExtensionValue", CellIDBroadcastEUTRAItemExtIEsExtensionValue, "openType,referenceFieldName:Id")].
Definition ProtocolExtensionContainerCellIDBroadcastEUTRAItemExtIEs : gotype := TStruct "ProtocolExtensionContainerCellIDBroadcastEUTRAItemExtIEs" [
  ("List", TSlice CellIDBroadcastEUTRAItemExtIEs, "sizeLB:1,sizeUB:65535")].
Definition CellIDBroadcastEUTRAItem : gotype := TStruct "CellIDBroadcastEUTRAItem" [
  ("EUTRACGI", EUTRACGI, "valueExt");
  ("IEExtensions", TPtr ProtocolExtensionContainerCellIDBroadcastEUTRAItemExtIEs, "optional")].
Definition CellIDBroadcastEUTRA : gotype := TStruct "CellIDBroadcastEUTRA" [
  ("List", TSlice CellIDBroadcastEUTRAItem, "valueExt,sizeLB:1,sizeUB:65535")].
Definition CompletedCellsInTAIEUTRAItemExtIEsExtensionValue : gotype := TStruct "CompletedCellsInTAIEUTRAItemExtIEsExtensionValue" [
  ("Present", TInt 64, "")].
Definition CompletedCellsInTAIEUTRAItemExtIEs : gotype := TStruct "CompletedCellsInTAIEUTRAItemExtIEs" [
  ("Id", ProtocolExtensionID, ""); ("Criticality", Criticality, "");
  ("ExtensionValue", CompletedCellsInTAIEUTRAItemExtIEsExtensionValue, "openType,referenceFieldName:Id")].
Definition ProtocolExtensionContainerCompletedCellsInTAIEUTRAItemExtIEs : gotype := TStruct "ProtocolExtensionContainerCompletedCellsInTAIEUTRAItemExtIEs" [
  ("List", TSlice CompletedCellsInTAIEUTRAItemExtIEs, "sizeLB:1,sizeUB:65535")].
Definition CompletedCellsInTAIEUTRAItem : gotype := TStruct "CompletedCellsInTAIEUTRAItem" [
  ("EUTRACGI", EUTRACGI, "valueExt");
  ("IEExtensions", TPtr ProtocolExtensionContainerCompletedCellsInTAIEUTRAItemExtIEs, "optional")].
Definition CompletedCellsInTAIEUTRA : gotype := TStruct "CompletedCellsInTAIEUTRA" [
  ("List", TSlice CompletedCellsInTAIEUTRAItem, "valueExt,sizeLB:1,sizeUB:65535")].
Definition TAIBroadcastEUTRAItemExtIEsExtensionValue : gotype := TStruct "TAIBroadcastEUTRAItemExtIEsExtensionValue" [
  ("Present", TInt 64, "")].
Definition TAIBroadcastEUTRAItemExtIEs : gotype := TStruct "TAIBroadcastEUTRAItemExtIEs" [
  ("Id", ProtocolExtensionID, ""); ("Criticality", Criticality, "");
  ("ExtensionValue", TAIBroadcastEUTRAItemExtIEsExtensionValue, "openType,referenceFieldName:Id")].
Definition ProtocolExtensionContainerTAIBroadcastEUTRAItemExtIEs : gotype := TStruct "ProtocolExtensionContainerTAIBroadcastEUTRAItemExtIEs" [
  ("List", TSlice TAIBroadcastEUTRAItemExtIEs, "sizeLB:1,sizeUB:65535")].
Definition TAIBroadcastEUTRAItem : gotype := TStruct "TAIBroadcastEUTRAItem" [
  ("TAI", TAI, "valueExt"); ("CompletedCellsInTAIEUTRA", CompletedCellsInTAIEUTRA, "");
  ("IEExtensions", TPtr ProtocolExtensionContainerTAIBroadcastEUTRAItemExtIEs, "optional")].
Definition TAIBroadcastEUTRA : gotype := TStruct "TAIBroadcastEUTRA" [
  ("List", TSlice TAIBroadcastEUTRAItem, "valueExt,sizeLB:1,sizeUB:65535")].
Definition CompletedCellsInEAIEUTRAItemExtIEsExtensionValue : gotype := TStruct "CompletedCellsInEAIEUTRAItemExtIEsExtensionValue" [
  ("Present", TInt 64, "")].
Definition CompletedCellsInEAIEUTRAItemExtIEs : gotype := TStruct "CompletedCellsInEAIEUTRAItemExtIEs" [
  ("Id", ProtocolExtensionID, ""); ("Criticality", Criticality, "");
  ("ExtensionValue", CompletedCellsInEAIEUTRAItemExtIEsExtensionValue, "openType,referenceFieldName:Id")].
Definition ProtocolExtensionContainerCompletedCellsInEAIEUTRAItemExtIEs : gotype := TStruct "ProtocolExtensionContainerCompletedCellsInEAIEUTRAItemExtIEs" [
  ("List", TSlice CompletedCellsInEAIEUTRAItemExtIEs, "sizeLB:1,sizeUB:65535")].
Definition CompletedCellsInEAIEUTRAItem : gotype := TStruct "CompletedCellsInEAIEUTRAItem" [
  ("EUTRACGI", EUTRACGI, "valueExt");
  ("IEExtensions", TPtr ProtocolExtensionContainerCompletedCellsInEAIEUTRAItemExtIEs, "optional")].
Definition CompletedCellsInEAIEUTRA : gotype := TStruct "CompletedCellsInEAIEUTRA" [
  ("List", TSlice CompletedCellsInEAIEUTRAItem, "valueExt,sizeLB:1,sizeUB:65535")].
Definition EmergencyAreaIDBroadcastEUTRAItemExtIEsExtensionValue : gotype := TStruct "EmergencyAreaIDBroadcastEUTRAItemExtIEsExtensionValue" [
  ("Present", TInt 64, "")].
Definition EmergencyAreaIDBroadcastEUTRAItemExtIEs : gotype := TStruct "EmergencyAreaIDBroadcastEUTRAItemExtIEs" [
  ("Id", ProtocolExtensionID, ""); ("Criticality", Criticality, "");
  ("ExtensionValue", EmergencyAreaIDBroadcastEUTRAItemExtIEsExtensionValue, "openType,referenceFieldName:Id")].
Definition ProtocolExtensionContainerEmergencyAreaIDBroadcastEUTRAItemExtIEs : gotype := TStruct "ProtocolExtensionContainerEmergencyAreaIDBroadcastEUTRAItemExtIEs" [
  ("List", TSlice EmergencyAreaIDBroadcastEUTRAItemExtIEs, "sizeLB:1,sizeUB:65535")].
Definition EmergencyAreaIDBroadcastEUTRAItem : gotype := TStruct "EmergencyAreaIDBroadcastEUTRAItem" [
  ("EmergencyAreaID", EmergencyAreaID, ""); ("CompletedCellsInEAIEUTRA", CompletedCellsInEAIEUTRA, "");
  ("IEExtensions", TPtr ProtocolExtensionContainerEmergencyAreaIDBroadcastEUTRAItemExtIEs, "optional")].
Definition EmergencyAreaIDBroadcastEUTRA : gotype := TStruct "EmergencyAreaIDBroadcastEUTRA" [
  ("List", TSlice EmergencyAreaIDBroadcastEUTRAItem, "valueExt,sizeLB:1,sizeUB:65535")].
Definition CellIDBroadcastNRItemExtIEsExtensionValue : gotype := TStruct "CellIDBroadcastNRItemExtIEsExtensionValue" [
  ("Present", TInt 64, "")].
Definition CellIDBroadcastNRItemExtIEs : gotype := TStruct "CellIDBroadcastNRItemExtIEs" [
  ("Id", ProtocolExtensionID, ""); ("Criticality", Criticality, "");
  ("ExtensionValue", CellIDBroadcastNRItemExtIEsExtensionValue, "openType,referenceFieldName:Id")].
Definition ProtocolExtensionContainerCellIDBroadcastNRItemExtIEs : gotype := TStruct "ProtocolExtensionContainerCellIDBroadcastNRItemExtIEs" [
  ("List", TSlice CellIDBroadcastNRItemExtIEs, "sizeLB:1,sizeUB:65535")].
Definition CellIDBroadcastNRItem : gotype := TStruct "CellIDBroadcastNRItem" [
  ("NRCGI", NRCGI, "valueExt");
  ("IEExtensions", TPtr ProtocolExtensionContainerCellIDBroadcastNRItemExtIEs, "optional")].
Definition CellIDBroadcastNR : gotype := TStruct "CellIDBroadcastNR" [
  ("List", TSlice CellIDBroadcastNRItem, "valueExt,sizeLB:1,sizeUB:65535")].
Definition CompletedCellsInTAINRItemExtIEsExtensionValue : gotype := TStruct "CompletedCellsInTAINRItemExtIEsExtensionValue" [
  ("Present", TInt 64, "")].
Definition CompletedCellsInTAINRItemExtIEs : gotype := TStruct "CompletedCellsInTAINRItemExtIEs" [
  ("Id", ProtocolExtensionID, ""); ("Criticality", Criticality, "");
  ("ExtensionValue", CompletedCellsInTAINRItemExtIEsExtensionValue, "openType,referenceFieldName:Id")].
Definition ProtocolExtensionContainerCompletedCellsInTAINRItemExtIEs : gotype := TStruct "ProtocolExtensionContainerCompletedCellsInTAINRItemExtIEs" [
  ("List", TSlice CompletedCellsInTAINRItemExtIEs, "sizeLB:1,sizeUB:65535")].
Definition CompletedCellsInTAINRItem : gotype := TStruct "CompletedCellsInTAINRItem" [
  ("NRCGI", NRCGI, "valueExt");
  ("IEExtensions", TPtr ProtocolExtensionContainerCompletedCellsInTAINRItemExtIEs, "optional")].
Definition CompletedCellsInTAINR : gotype := TStruct "CompletedCellsInTAINR" [
  ("List", TSlice CompletedCellsInTAINRItem, "valueExt,sizeLB:1,sizeUB:65535")].
Definition TAIBroadcastNRItemExtIEsExtensionValue : gotype := TStruct "TAIBroadcastNRItemExtIEsExtensionValue" [
  ("Present", TInt 64, "")].
Definition TAIBroadcastNRItemExtIEs : gotype := TStruct "TAIBroadcastNRItemExtIEs" [
  ("Id", ProtocolExtensionID, ""); ("Criticality", Criticality, "");
  ("ExtensionValue", TAIBroadcastNRItemExtIEsExtensionValue, "openType,referenceFieldName:Id")].
Definition ProtocolExtensionContainerTAIBroadcastNRItemExtIEs : gotype := TStruct "ProtocolExtensionContainerTAIBroadcastNRItemExtIEs" [
  ("List", TSlice TAIBroadcastNRItemExtIEs, "sizeLB:1,sizeUB:65535")].
Definition TAIBroadcastNRItem : gotype := TStruct "TAIBroadcastNRItem" [
  ("TAI", TAI, "valueExt"); ("CompletedCellsInTAINR", CompletedCellsInTAINR, "");
  ("IEExtensions", TPtr ProtocolExtensionContainerTAIBroadcastNRItemExtIEs, "optional")].
Definition TAIBroadcastNR : gotype := TStruct "TAIBroadcastNR" [
  ("List", TSlice TAIBroadcastNRItem, "valueExt,sizeLB:1,sizeUB:65535")].
Definition CompletedCellsInEAINRItemExtIEsExtensionValue : gotype := TStruct "CompletedCellsInEAINRItemExtIEsExtensionValue" [
  ("Present", TInt 64, "")].
Definition CompletedCellsInEAINRItemExtIEs : gotype := TStruct "CompletedCellsInEAINRItemExtIEs" [
  ("Id", ProtocolExtensionID, ""); ("Criticality", Criticality, "");
  ("ExtensionValue", CompletedCellsInEAINRItemExtIEsExtensionValue, "openType,referenceFieldName:Id")].
Definition ProtocolExtensionContainerCompletedCellsInEAINRItemExtIEs : gotype := TStruct "ProtocolExtensionContainerCompletedCellsInEAINRItemExtIEs" [
  ("List", TSlice CompletedCellsInEAINRItemExtIEs, "sizeLB:1,sizeUB:65535")].
Definition CompletedCellsInEAINRItem : gotype := TStruct "CompletedCellsInEAINRItem" [
  ("NRCGI", NRCGI, "valueExt");
  ("IEExtensions", TPtr ProtocolExtensionContainerCompletedCellsInEAINRItemExtIEs, "optional")].
Definition CompletedCellsInEAINR : gotype := TStruct "CompletedCellsInEAINR" [
  ("List", TSlice CompletedCellsInEAINRItem, "valueExt,sizeLB:1,sizeUB:65535")].
Definition EmergencyAreaIDBroadcastNRItemExtIEsExtensionValue : gotype := TStruct "EmergencyAreaIDBroadcastNRItemExtIEsExtensionValue" [
  ("Present", TInt 64, "")].
Definition EmergencyAreaIDBroadcastNRItemExtIEs : gotype := TStruct "EmergencyAreaIDBroadcastNRItemExtIEs" [
  ("Id", ProtocolExtensionID, ""); ("Criticality", Criticality, "");
  ("ExtensionValue", EmergencyAreaIDBroadcastNRItemExtIEsExtensionValue, "openType,referenceFieldName:Id")].
Definition ProtocolExtensionContainerEmergencyAreaIDBroadcastNRItemExtIEs : gotype := TStruct "ProtocolExtensionContainerEmergencyAreaIDBroadcastNRItemExtIEs" [
  ("List", TSlice EmergencyAreaIDBroadcastNRItemExtIEs, "sizeLB:1,sizeUB:65535")].
Definition EmergencyAreaIDBroadcastNRItem : gotype := TStruct "EmergencyAreaIDBroadcastNRItem" [
  ("EmergencyAreaID", EmergencyAreaID, ""); ("CompletedCellsInEAINR", CompletedCellsInEAINR, "");
  ("IEExtensions", TPtr ProtocolExtensionContainerEmergencyAreaIDBroadcastNRItemExtIEs, "optional")].
Definition EmergencyAreaIDBroadcastNR : gotype := TStruct "EmergencyAreaIDBroadcastNR" [
  ("List", TSlice EmergencyAreaIDBroadcastNRItem, "valueExt,sizeLB:1,sizeUB:65535")].
Definition ProtocolIESingleContainerBroadcastCompletedAreaListExtIEs : gotype := TStruct "ProtocolIESingleContainerBroadcastCompletedAreaListExtIEs" [].
Definition BroadcastCompletedAreaList : gotype := TStruct "BroadcastCompletedAreaList" [
  ("Present", TInt 64, ""); ("CellIDBroadcastEUTRA", TPtr CellIDBroadcastEUTRA, "");
  ("TAIBroadcastEUTRA", TPtr TAIBroadcastEUTRA, "");
  ("EmergencyAreaIDBroadcastEUTRA", TPtr EmergencyAreaIDBroadcastEUTRA, "");
  ("CellIDBroadcastNR", TPtr CellIDBroadcastNR, ""); ("TAIBroadcastNR", TPtr TAIBroadcastNR, "");
  ("EmergencyAreaIDBroadcastNR", TPtr EmergencyAreaIDBroadcastNR, "");
  ("ChoiceExtensions", TPtr ProtocolIESingleContainerBroadcastCompletedAreaListExtIEs, "")].
Definition BroadcastPLMNItemExtIEsExtensionValue : gotype := TStruct "BroadcastPLMNItemExtIEsExtensionValue" [
  ("Present", TInt 64, "")].
Definition BroadcastPLMNItemExtIEs : gotype := TStruct "BroadcastPLMNItemExtIEs" [
  ("Id", ProtocolExtensionID, ""); ("Criticality", Criticality, "");
  ("ExtensionValue", BroadcastPLMNItemExtIEsExtensionValue, "openType,referenceFieldName:Id")].
Definition ProtocolExtensionContainerBroadcastPLMNItemExtIEs : gotype := TStruct "ProtocolExtensionContainerBroadcastPLMNItemExtIEs" [
  ("List", TSlice BroadcastPLMNItemExtIEs, "sizeLB:1,sizeUB:65535")].
Definition BroadcastPLMNItem : gotype := TStruct "BroadcastPLMNItem" [
  ("PLMNIdentity", PLMNIdentity, ""); ("TAISliceSupportList", SliceSupportList, "");
  ("IEExtensions", TPtr ProtocolExtensionContainerBroadcastPLMNItemExtIEs, "optional")].
Definition BroadcastPLMNList : gotype := TStruct "BroadcastPLMNList" [
  ("List", TSlice BroadcastPLMNItem, "valueExt,sizeLB:1,sizeUB:12")].
Definition COUNTValueForPDCPSN12ExtIEsExtensionValue : gotype := TStruct "COUNTValueForPDCPSN12ExtIEsExtensionValue" [
  ("Present", TInt 64, "")].
Definition COUNTValueForPDCPSN12ExtIEs : gotype := TStruct "COUNTValueForPDCPSN12ExtIEs" [
  ("Id", ProtocolExtensionID, ""); ("Criticality", Criticality, "");
  ("ExtensionValue", COUNTValueForPDCPSN12ExtIEsExtensionValue, "openType,referenceFieldName:Id")].
Definition ProtocolExtensionContainerCOUNTValueForPDCPSN12ExtIEs : gotype := TStruct "ProtocolExtensionContainerCOUNTValueForPDCPSN12ExtIEs" [
  ("List", TSlice COUNTValueForPDCPSN12ExtIEs, "sizeLB:1,sizeUB:65535")].
Definition COUNTValueForPDCPSN12 : gotype := TStruct "COUNTValueForPDCPSN12" [
  ("PDCPSN12", TInt 64, "valueLB:0,valueUB:4095"); ("HFNPDCPSN12", TInt 64, "valueLB:0,valueUB:1048575");
  ("IEExtensions", TPtr ProtocolExtensionContainerCOUNTValueForPDCPSN12ExtIEs, "optional")].
Definition COUNTValueForPDCPSN18ExtIEsExtensionValue : gotype := TStruct "COUNTValueForPDCPSN18ExtIEsExtensionValue" [
  ("Present", TInt 64, "")].
Definition COUNTValueForPDCPSN18ExtIEs : gotype := TStruct "COUNTValueForPDCPSN18ExtIEs" [
  ("Id", ProtocolExtensionID, ""); ("Criticality", Criticality, "");
  ("ExtensionValue", COUNTValueForPDCPSN18ExtIEsExtensionValue, "openType,referenceFieldName:Id")].
Definition ProtocolExtensionContainerCOUNTValueForPDCPSN18ExtIEs : gotype := TStruct "ProtocolExtensionContainerCOUNTValueForPDCPSN18ExtIEs" [
  ("List", TSlice COUNTValueForPDCPSN18ExtIEs, "sizeLB:1,sizeUB:65535")].
Definition COUNTValueForPDCPSN18 : gotype := TStruct "COUNTValueForPDCPSN18" [
  ("PDCPSN18", TInt 64, "valueLB:0,valueUB:262143"); ("HFNPDCPSN18", TInt 64, "valueLB:0,valueUB:16383");
  ("IEExtensions", TPtr ProtocolExtensionContainerCOUNTValueForPDCPSN18ExtIEs, "optional")].
Definition CancelAllWarningMessages : gotype := TStruct "CancelAllWarningMessages" [
  ("Value", TEnumerated, "valueExt,valueLB:0,valueUB:0")].
Definition EUTRACGIList : gotype := TStruct "EUTRACGIList" [("List", TSlice EUTRACGI, "valueExt,sizeLB:1,sizeUB:256")].
Definition NRCGIList : gotype := TStruct "NRCGIList" [("List", TSlice NRCGI, "valueExt,sizeLB:1,sizeUB:16384")].
Definition ProtocolIESingleContainerCellIDListForRestartExtIEs : gotype := TStruct "ProtocolIESingleContainerCellIDListForRestartExtIEs" [].
Definition CellIDListForRestart : gotype := TStruct "CellIDListForRestart" [
  ("Present", TInt 64, ""); ("EUTRACGIListforRestart", TPtr EUTRACGIList, "");
  ("NRCGIListforRestart", TPtr NRCGIList, "");
  ("ChoiceExtensions", TPtr ProtocolIESingleContainerCellIDListForRestartExtIEs, "")].
Definition CellSize : gotype := TStruct "CellSize" [("Value", TEnumerated, "valueExt,valueLB:0,valueUB:3")].
Definition RANUENGAPID : gotype := TStruct "RANUENGAPID" [("Value", TInt 64, "valueLB:0,valueUB:4294967295")].
Definition NGRANTraceID : gotype := TStruct "NGRANTraceID" [("Value", TOctetString, "sizeLB:8,sizeUB:8")].
Definition CellTrafficTraceIEsValue : gotype := TStruct "CellTrafficTraceIEsValue" [
  ("Present", TInt 64, ""); ("AMFUENGAPID", TPtr AMFUENGAPID, "referenceFieldValue:10");
  ("RANUENGAPID", TPtr RANUENGAPID, "referenceFieldValue:85");
  ("NGRANTraceID", TPtr NGRANTraceID, "referenceFieldValue:44");
  ("NGRANCGI", TPtr NGRANCGI, "referenceFieldValue:43,valueLB:0,valueUB:2");
  ("TraceCollectionEntityIPAddress", TPtr TransportLayerAddress, "referenceFieldValue:109")].
Definition CellTrafficTraceIEs : gotype := TStruct "CellTrafficTraceIEs" [
  ("Id", ProtocolIEID, ""); ("Criticality", Criticality, "");
  ("Value", CellTrafficTraceIEsValue, "openType,referenceFieldName:Id")].
Definition ProtocolIEContainerCellTrafficTraceIEs : gotype := TStruct "ProtocolIEContainerCellTrafficTraceIEs" [
  ("List", TSlice CellTrafficTraceIEs, "sizeLB:0,sizeUB:65535")].
Definition CellTrafficTrace : gotype := TStruct "CellTrafficTrace" [
  ("ProtocolIEs", ProtocolIEContainerCellTrafficTraceIEs, "")].
Definition CellTypeExtIEsExtensionValue : gotype := TStruct "CellTypeExtIEsExtensionValue" [("Present", TInt 64, "")].
Definition CellTypeExtIEs : gotype := TStruct "CellTypeExtIEs" [
  ("Id", ProtocolExtensionID, ""); ("Criticality", Criticality, "");
  ("ExtensionValue", CellTypeExtIEsExtensionValue, "openType,referenceFieldName:Id")].
Definition ProtocolExtensionContainerCellTypeExtIEs : gotype := TStruct "ProtocolExtensionContainerCellTypeExtIEs" [
  ("List", TSlice CellTypeExtIEs, "sizeLB:1,sizeUB:65535")].
Definition CellType : gotype := TStruct "CellType" [
  ("CellSize", CellSize, ""); ("IEExtensions", TPtr ProtocolExtensionContainerCellTypeExtIEs, "optional")].
Definition ConcurrentWarningMessageInd : gotype := TStruct "ConcurrentWarningMessageInd" [
  ("Value", TEnumerated, "valueExt,valueLB:0,valueUB:0")].
Definition ConfidentialityProtectionIndication : gotype := TStruct "ConfidentialityProtectionIndication" [
  ("Value", TEnumerated, "valueExt,valueLB:0,valueUB:2")].
Definition ConfidentialityProtectionResult : gotype := TStruct "ConfidentialityProtectionResult" [
  ("Value", TEnumerated, "valueExt,valueLB:0,valueUB:1")].
Definition ProtocolIESingleContainerUEIdentityIndexValueExtIEs : gotype := TStruct "ProtocolIESingleContainerUEIdentityIndexValueExtIEs" [].
Definition UEIdentityIndexValue : gotype := TStruct "UEIdentityIndexValue" [
  ("Present", TInt 64, ""); ("IndexLength10", TPtr TBitString, "sizeLB:10,sizeUB:10");
  ("ChoiceExtensions", TPtr ProtocolIESingleContainerUEIdentityIndexValueExtIEs, "")].
Definition PagingDRX : gotype := TStruct "PagingDRX" [("Value", TEnumerated, "valueExt,valueLB:0,valueUB:3")].
Definition PeriodicRegistrationUpdateTimer : gotype := TStruct "PeriodicRegistrationUpdateTimer" [
  ("Value", TBitString, "sizeLB:8,sizeUB:8")].
Definition MICOModeIndication : gotype := TStruct "MICOModeIndication" [
  ("Value", TEnumerated, "valueExt,valueLB:0,valueUB:0")].
Definition TAIListForInactiveItemExtIEsExtensionValue : gotype := TStruct "TAIListForInactiveItemExtIEsExtensionValue" [
  ("Present", TInt 64, "")].
Definition TAIListForInactiveItemExtIEs : gotype := TStruct "TAIListForInactiveItemExtIEs" [
  ("Id", ProtocolExtensionID, ""); ("Criticality", Criticality, "");
  ("ExtensionValue", TAIListForInactiveItemExtIEsExtensionValue, "openType,referenceFieldName:Id")].
Definition ProtocolExtensionContainerTAIListForInactiveItemExtIEs : gotype := TStruct "ProtocolExtensionContainerTAIListForInactiveItemExtIEs" [
  ("List", TSlice TAIListForInactiveItemExtIEs, "sizeLB:1,sizeUB:65535")].
Definition TAIListForInactiveItem : gotype := TStruct "TAIListForInactiveItem" [
  ("TAI", TAI, "valueExt"); ("IEExtensions", TPtr ProtocolExtensionContainerTAIListForInactiveItemExtIEs, "optional")].
Definition TAIListForInactive : gotype := TStruct "TAIListForInactive" [
  ("List", TSlice TAIListForInactiveItem, "valueExt,sizeLB:1,sizeUB:16")].
Definition ExpectedActivityPeriod : gotype := TStruct "ExpectedActivityPeriod" [("Value", TInt 64, "")].
Definition ExpectedIdlePeriod : gotype := TStruct "ExpectedIdlePeriod" [("Value", TInt 64, "")].
Definition SourceOfUEActivityBehaviourInformation : gotype := TStruct "SourceOfUEActivityBehaviourInformation" [
  ("Value", TEnumerated, "valueExt,valueLB:0,valueUB:1")].
Definition ExpectedUEActivityBehaviourExtIEsExtensionValue : gotype := TStruct "ExpectedUEActivityBehaviourExtIEsExtensionValue" [
  ("Present", TInt 64, "")].
Definition ExpectedUEActivityBehaviourExtIEs : gotype := TStruct "ExpectedUEActivityBehaviourExtIEs" [
  ("Id", ProtocolExtensionID, ""); ("Criticality", Criticality, "");
  ("ExtensionValue", ExpectedUEActivityBehaviourExtIEsExtensionValue, "openType,referenceFieldName:Id")].
Definition ProtocolExtensionContainerExpectedUEActivityBehaviourExtIEs : gotype := TStruct "ProtocolExtensionContainerExpectedUEActivityBehaviourExtIEs" [
  ("List", TSlice ExpectedUEActivityBehaviourExtIEs, "sizeLB:1,sizeUB:65535")].
Definition ExpectedUEActivityBehaviour : gotype := TStruct "ExpectedUEActivityBehaviour" [
  ("ExpectedActivityPeriod", TPtr ExpectedActivityPeriod, "optional");
  ("ExpectedIdlePeriod", TPtr ExpectedIdlePeriod, "optional");
  ("SourceOfUEActivityBehaviourInformation", TPtr SourceOfUEActivityBehaviourInformation, "optional");
  ("IEExtensions", TPtr ProtocolExtensionContainerExpectedUEActivityBehaviourExtIEs, "optional")].
Definition ExpectedHOInterval : gotype := TStruct "ExpectedHOInterval" [
  ("Value", TEnumerated, "valueExt,valueLB:0,valueUB:6")].
Definition ExpectedUEMobility : gotype := TStruct "ExpectedUEMobility" [
  ("Value", TEnumerated, "valueExt,valueLB:0,valueUB:1")].
Definition ExpectedUEMovingTrajectoryItemExtIEsExtensionValue : gotype := TStruct "ExpectedUEMovingTrajectoryItemExtIEsExtensionValue" [
  ("Present", TInt 64, "")].
Definition ExpectedUEMovingTrajectoryItemExtIEs : gotype := TStruct "ExpectedUEMovingTrajectoryItemExtIEs" [
  ("Id", ProtocolExtensionID, ""); ("Criticality", Criticality, "");
  ("ExtensionValue", ExpectedUEMovingTrajectoryItemExtIEsExtensionValue, "openType,referenceFieldName:Id")].
Definition ProtocolExtensionContainerExpectedUEMovingTrajectoryItemExtIEs : gotype := TStruct "ProtocolExtensionContainerExpectedUEMovingTrajectoryItemExtIEs" [
  ("List", TSlice ExpectedUEMovingTrajectoryItemExtIEs, "sizeLB:1,sizeUB:65535")].
Definition ExpectedUEMovingTrajectoryItem : gotype := TStruct "ExpectedUEMovingTrajectoryItem" [
  ("NGRANCGI", NGRANCGI, "valueLB:0,valueUB:2");
  ("TimeStayedInCell", TPtr (TInt 64), "valueLB:0,valueUB:4095,optional");
  ("IEExtensions", TPtr ProtocolExtensionContainerExpectedUEMovingTrajectoryItemExtIEs, "optional")].
Definition ExpectedUEMovingTrajectory : gotype := TStruct "ExpectedUEMovingTrajectory" [
  ("List", TSlice ExpectedUEMovingTrajectoryItem, "valueExt,sizeLB:1,sizeUB:16")].
Definition ExpectedUEBehaviourExtIEsExtensionValue : gotype := TStruct "ExpectedUEBehaviourExtIEsExtensionValue" [
  ("Present", TInt 64, "")].
Definition ExpectedUEBehaviourExtIEs : gotype := TStruct "ExpectedUEBehaviourExtIEs" [
  ("Id", ProtocolExtensionID, ""); ("Criticality", Criticality, "");
  ("ExtensionValue", ExpectedUEBehaviourExtIEsExtensionValue, "openType,referenceFieldName:Id")].
Definition ProtocolExtensionContainerExpectedUEBehaviourExtIEs : gotype := TStruct "ProtocolExtensionContainerExpectedUEBehaviourExtIEs" [
  ("List", TSlice ExpectedUEBehaviourExtIEs, "sizeLB:1,sizeUB:65535")].
Definition ExpectedUEBehaviour : gotype := TStruct "ExpectedUEBehaviour" [
  ("ExpectedUEActivityBehaviour", TPtr ExpectedUEActivityBehaviour, "valueExt,optional");
  ("ExpectedHOInterval", TPtr ExpectedHOInterval, "optional");
  ("ExpectedUEMobility", TPtr ExpectedUEMobility, "optional");
  ("ExpectedUEMovingTrajectory", TPtr ExpectedUEMovingTrajectory, "optional");
  ("IEExtensions", TPtr ProtocolExtensionContainerExpectedUEBehaviourExtIEs, "optional")].
Definition CoreNetworkAssistanceInformationExtIEsExtensionValue : gotype := TStruct "CoreNetworkAssistanceInformationExtIEsExtensionValue" [
  ("Present", TInt 64, "")].
Definition CoreNetworkAssistanceInformationExtIEs : gotype := TStruct "CoreNetworkAssistanceInformationExtIEs" [
  ("Id", ProtocolExtensionID, ""); ("Criticality", Criticality, "");
  ("ExtensionValue", CoreNetworkAssistanceInformationExtIEsExtensionValue, "openType,referenceFieldName:Id")].
Definition ProtocolExtensionContainerCoreNetworkAssistanceInformationExtIEs : gotype := TStruct "ProtocolExtensionContainerCoreNetworkAssistanceInformationExtIEs" [
  ("List", TSlice CoreNetworkAssistanceInformationExtIEs, "sizeLB:1,sizeUB:65535")].
Definition CoreNetworkAssistanceInformation : gotype := TStruct "CoreNetworkAssistanceInformation" [
  ("UEIdentityIndexValue", UEIdentityIndexValue, "valueLB:0,valueUB:1"); ("UESpecificDRX", TPtr PagingDRX, "optional");
  ("PeriodicRegistrationUpdateTimer", PeriodicRegistrationUpdateTimer, "");
  ("MICOModeIndication", TPtr MICOModeIndication, "optional"); ("TAIListForInactive", TAIListForInactive, "");
  ("ExpectedUEBehaviour", TPtr ExpectedUEBehaviour, "valueExt,optional");
  ("IEExtensions", TPtr ProtocolExtensionContainerCoreNetworkAssistanceInformationExtIEs, "optional")].
Definition DLForwarding : gotype := TStruct "DLForwarding" [("Value", TEnumerated, "valueExt,valueLB:0,valueUB:0")].
Definition DLNGUTNLInformationReused : gotype := TStruct "DLNGUTNLInformationReused" [
  ("Value", TEnumerated, "valueExt,valueLB:0,valueUB:0")].
Definition DRBID : gotype := TStruct "DRBID" [("Value", TInt 64, "valueExt,valueLB:1,valueUB:32")].
Definition DRBStatusDL12ExtIEsExtensionValue : gotype := TStruct "DRBStatusDL12ExtIEsExtensionValue" [
  ("Present", TInt 64, "")].
Definition DRBStatusDL12ExtIEs : gotype := TStruct "DRBStatusDL12ExtIEs" [
  ("Id", ProtocolExtensionID, ""); ("Criticality", Criticality, "");
  ("ExtensionValue", DRBStatusDL12ExtIEsExtensionValue, "openType,referenceFieldName:Id")].
Definition ProtocolExtensionContainerDRBStatusDL12ExtIEs : gotype := TStruct "ProtocolExtensionContainerDRBStatusDL12ExtIEs" [
  ("List", TSlice DRBStatusDL12ExtIEs, "sizeLB:1,sizeUB:65535")].
Definition DRBStatusDL12 : gotype := TStruct "DRBStatusDL12" [
  ("DLCOUNTValue", COUNTValueForPDCPSN12, "valueExt");
  ("IEExtension", TPtr ProtocolExtensionContainerDRBStatusDL12ExtIEs, "optional")].
Definition DRBStatusDL18ExtIEsExtensionValue : gotype := TStruct "DRBStatusDL18ExtIEsExtensionValue" [
  ("Present", TInt 64, "")].
Definition DRBStatusDL18ExtIEs : gotype := TStruct "DRBStatusDL18ExtIEs" [
  ("Id", ProtocolExtensionID, ""); ("Criticality", Criticality, "");
  ("ExtensionValue", DRBStatusDL18ExtIEsExtensionValue, "openType,referenceFieldName:Id")].
Definition ProtocolExtensionContainerDRBStatusDL18ExtIEs : gotype := TStruct "ProtocolExtensionContainerDRBStatusDL18ExtIEs" [
  ("List", TSlice DRBStatusDL18ExtIEs, "sizeLB:1,sizeUB:65535")].
Definition DRBStatusDL18 : gotype := TStruct "DRBStatusDL18" [
  ("DLCOUNTValue", COUNTValueForPDCPSN18, "valueExt");
  ("IEExtension", TPtr ProtocolExtensionContainerDRBStatusDL18ExtIEs, "optional")].
Definition ProtocolIESingleContainerDRBStatusDLExtIEs : gotype := TStruct "ProtocolIESingleContainerDRBStatusDLExtIEs" [].
Definition DRBStatusDL : gotype := TStruct "DRBStatusDL" [
  ("Present", TInt 64, ""); ("DRBStatusDL12", TPtr DRBStatusDL12, "valueExt");
  ("DRBStatusDL18", TPtr DRBStatusDL18, "valueExt");
  ("ChoiceExtensions", TPtr ProtocolIESingleContainerDRBStatusDLExtIEs, "")].
Definition DRBStatusUL12ExtIEsExtensionValue : gotype := TStruct "DRBStatusUL12ExtIEsExtensionValue" [
  ("Present", TInt 64, "")].
Definition DRBStatusUL12ExtIEs : gotype := TStruct "DRBStatusUL12ExtIEs" [
  ("Id", ProtocolExtensionID, ""); ("Criticality", Criticality, "");
  ("ExtensionValue", DRBStatusUL12ExtIEsExtensionValue, "openType,referenceFieldName:Id")].
Definition ProtocolExtensionContainerDRBStatusUL12ExtIEs : gotype := TStruct "ProtocolExtensionContainerDRBStatusUL12ExtIEs" [
  ("List", TSlice DRBStatusUL12ExtIEs, "sizeLB:1,sizeUB:65535")].
Definition DRBStatusUL12 : gotype := TStruct "DRBStatusUL12" [
  ("ULCOUNTValue", COUNTValueForPDCPSN12, "valueExt");
  ("ReceiveStatusOfULPDCPSDUs", TPtr TBitString, "sizeLB:1,sizeUB:2048,optional");
  ("IEExtension", TPtr ProtocolExtensionContainerDRBStatusUL12ExtIEs, "optional")].
Definition DRBStatusUL18ExtIEsExtensionValue : gotype := TStruct "DRBStatusUL18ExtIEsExtensionValue" [
  ("Present", TInt 64, "")].
Definition DRBStatusUL18ExtIEs : gotype := TStruct "DRBStatusUL18ExtIEs" [
  ("Id", ProtocolExtensionID, ""); ("Criticality", Criticality, "");
  ("ExtensionValue", DRBStatusUL18ExtIEsExtensionValue, "openType,referenceFieldName:Id")].
Definition ProtocolExtensionContainerDRBStatusUL18ExtIEs : gotype := TStruct "ProtocolExtensionContainerDRBStatusUL18ExtIEs" [
  ("List", TSlice DRBStatusUL18ExtIEs, "sizeLB:1,sizeUB:65535")].
Definition DRBStatusUL18 : gotype := TStruct "DRBStatusUL18" [
  ("ULCOUNTValue", COUNTValueForPDCPSN18, "valueExt");
  ("ReceiveStatusOfULPDCPSDUs", TPtr TBitString, "sizeLB:1,sizeUB:131072,optional");
  ("IEExtension", TPtr ProtocolExtensionContainerDRBStatusUL18ExtIEs, "optional")].
Definition ProtocolIESingleContainerDRBStatusULExtIEs : gotype := TStruct "ProtocolIESingleContainerDRBStatusULExtIEs" [].
Definition DRBStatusUL : gotype := TStruct "DRBStatusUL" [
  ("Present", TInt 64, ""); ("DRBStatusUL12", TPtr DRBStatusUL12, "valueExt");
  ("DRBStatusUL18", TPtr DRBStatusUL18, "valueExt");
  ("ChoiceExtensions", TPtr ProtocolIESingleContainerDRBStatusULExtIEs, "")].
Definition DRBsSubjectToStatusTransferItemExtIEsExtensionValue : gotype := TStruct "DRBsSubjectToStatusTransferItemExtIEsExtensionValue" [
  ("Present", TInt 64, "")].
Definition DRBsSubjectToStatusTransferItemExtIEs : gotype := TStruct "DRBsSubjectToStatusTransferItemExtIEs" [
  ("Id", ProtocolExtensionID, ""); ("Criticality", Criticality, "");
  ("ExtensionValue", DRBsSubjectToStatusTransferItemExtIEsExtensionValue, "openType,referenceFieldName:Id")].
Definition ProtocolExtensionContainerDRBsSubjectToStatusTransferItemExtIEs : gotype := TStruct "ProtocolExtensionContainerDRBsSubjectToStatusTransferItemExtIEs" [
  ("List", TSlice DRBsSubjectToStatusTransferItemExtIEs, "sizeLB:1,sizeUB:65535")].
Definition DRBsSubjectToStatusTransferItem : gotype := TStruct "DRBsSubjectToStatusTransferItem" [
  ("DRBID", DRBID, ""); ("DRBStatusUL", DRBStatusUL, "valueLB:0,valueUB:2");
  ("DRBStatusDL", DRBStatusDL, "valueLB:0,valueUB:2");
  ("IEExtension", TPtr ProtocolExtensionContainerDRBsSubjectToStatusTransferItemExtIEs, "optional")].
Definition DRBsSubjectToStatusTransferList : gotype := TStruct "DRBsSubjectToStatusTransferList" [
  ("List", TSlice DRBsSubjectToStatusTransferItem, "valueExt,sizeLB:1,sizeUB:32")].
Definition DRBsToQosFlowsMappingItemExtIEsExtensionValue : gotype := TStruct "DRBsToQosFlowsMappingItemExtIEsExtensionValue" [
  ("Present", TInt 64, "")].
Definition DRBsToQosFlowsMappingItemExtIEs : gotype := TStruct "DRBsToQosFlowsMappingItemExtIEs" [
  ("Id", ProtocolExtensionID, ""); ("Criticality", Criticality, "");
  ("ExtensionValue", DRBsToQosFlowsMappingItemExtIEsExtensionValue, "openType,referenceFieldName:Id")].
Definition ProtocolExtensionContainerDRBsToQosFlowsMappingItemExtIEs : gotype := TStruct "ProtocolExtensionContainerDRBsToQosFlowsMappingItemExtIEs" [
  ("List", TSlice DRBsToQosFlowsMappingItemExtIEs, "sizeLB:1,sizeUB:65535")].
Definition DRBsToQosFlowsMappingItem : gotype := TStruct "DRBsToQosFlowsMappingItem" [
  ("DRBID", DRBID, ""); ("AssociatedQosFlowList", AssociatedQosFlowList, "");
  ("IEExtensions", TPtr ProtocolExtensionContainerDRBsToQosFlowsMappingItemExtIEs, "optional")].
Definition DRBsToQosFlowsMappingList : gotype := TStruct "DRBsToQosFlowsMappingList" [
  ("List", TSlice DRBsToQosFlowsMappingItem, "valueExt,sizeLB:1,sizeUB:32")].
Definition DataCodingScheme : gotype := TStruct "DataCodingScheme" [("Value", TBitString, "sizeLB:8,sizeUB:8")].
Definition DataForwardingAccepted : gotype := TStruct "DataForwardingAccepted" [
  ("Value", TEnumerated, "valueExt,valueLB:0,valueUB:0")].
Definition DataForwardingNotPossible : gotype := TStruct "DataForwardingNotPossible" [
  ("Value", TEnumerated, "valueExt,valueLB:0,valueUB:0")].
Definition GTPTEID : gotype := TStruct "GTPTEID" [("Value", TOctetString, "sizeLB:4,sizeUB:4")].
Definition GTPTunnelExtIEsExtensionValue : gotype := TStruct "GTPTunnelExtIEsExtensionValue" [("Present", TInt 64, "")].
Definition GTPTunnelExtIEs : gotype := TStruct "GTPTunnelExtIEs" [
  ("Id", ProtocolExtensionID, ""); ("Criticality", Criticality, "");
  ("ExtensionValue", GTPTunnelExtIEsExtensionValue, "openType,referenceFieldName:Id")].
Definition ProtocolExtensionContainerGTPTunnelExtIEs : gotype := TStruct "ProtocolExtensionContainerGTPTunnelExtIEs" [
  ("List", TSlice GTPTunnelExtIEs, "sizeLB:1,sizeUB:65535")].
Definition GTPTunnel : gotype := TStruct "GTPTunnel" [
  ("TransportLayerAddress", TransportLayerAddress, ""); ("GTPTEID", GTPTEID, "");
  ("IEExtensions", TPtr ProtocolExtensionContainerGTPTunnelExtIEs, "optional")].
Definition ProtocolIESingleContainerUPTransportLayerInformationExtIEs : gotype := TStruct "ProtocolIESingleContainerUPTransportLayerInformationExtIEs" [].
Definition UPTransportLayerInformation : gotype := TStruct "UPTransportLayerInformation" [
  ("Present", TInt 64, ""); ("GTPTunnel", TPtr GTPTunnel, "valueExt");
  ("ChoiceExtensions", TPtr ProtocolIESingleContainerUPTransportLayerInformationExtIEs, "")].
Definition DataForwardingResponseDRBItemExtIEsExtensionValue : gotype := TStruct "DataForwardingResponseDRBItemExtIEsExtensionValue" [
  ("Present", TInt 64, "")].
Definition DataForwardingResponseDRBItemExtIEs : gotype := TStruct "DataForwardingResponseDRBItemExtIEs" [
  ("Id", ProtocolExtensionID, ""); ("Criticality", Criticality, "");
  ("ExtensionValue", DataForwardingResponseDRBItemExtIEsExtensionValue, "openType,referenceFieldName:Id")].
Definition ProtocolExtensionContainerDataForwardingResponseDRBItemExtIEs : gotype := TStruct "ProtocolExtensionContainerDataForwardingResponseDRBItemExtIEs" [
  ("List", TSlice DataForwardingResponseDRBItemExtIEs, "sizeLB:1,sizeUB:65535")].
Definition DataForwardingResponseDRBItem : gotype := TStruct "DataForwardingResponseDRBItem" [
  ("DRBID", DRBID, "");
  ("DLForwardingUPTNLInformation", TPtr UPTransportLayerInformation, "valueLB:0,valueUB:1,optional");
  ("ULForwardingUPTNLInformation", TPtr UPTransportLayerInformation, "valueLB:0,valueUB:1,optional");
  ("IEExtensions", TPtr ProtocolExtensionContainerDataForwardingResponseDRBItemExtIEs, "optional")].
Definition DataForwardingResponseDRBList : gotype := TStruct "DataForwardingResponseDRBList" [
  ("List", TSlice DataForwardingResponseDRBItem, "valueExt,sizeLB:1,sizeUB:32")].
Definition DeactivateTraceIEsValue : gotype := TStruct "DeactivateTraceIEsValue" [
  ("Present", TInt 64, ""); ("AMFUENGAPID", TPtr AMFUENGAPID, "referenceFieldValue:10");
  ("RANUENGAPID", TPtr RANUENGAPID, "referenceFieldValue:85");
  ("NGRANTraceID", TPtr NGRANTraceID, "referenceFieldValue:44")].
Definition DeactivateTraceIEs : gotype := TStruct "DeactivateTraceIEs" [
  ("Id", ProtocolIEID, ""); ("Criticality", Criticality, "");
  ("Value", DeactivateTraceIEsValue, "openType,referenceFieldName:Id")].
Definition ProtocolIEContainerDeactivateTraceIEs : gotype := TStruct "ProtocolIEContainerDeactivateTraceIEs" [
  ("List", TSlice DeactivateTraceIEs, "sizeLB:0,sizeUB:65535")].
Definition DeactivateTrace : gotype := TStruct "DeactivateTrace" [
  ("ProtocolIEs", ProtocolIEContainerDeactivateTraceIEs, "")].
Definition DelayCritical : gotype := TStruct "DelayCritical" [("Value", TEnumerated, "valueExt,valueLB:0,valueUB:1")].
Definition DirectForwardingPathAvailability : gotype := TStruct "DirectForwardingPathAvailability" [
  ("Value", TEnumerated, "valueExt,valueLB:0,valueUB:0")].
Definition RANPagingPriority : gotype := TStruct "RANPagingPriority" [("Value", TInt 64, "valueLB:1,valueUB:256")].
Definition NASPDU : gotype := TStruct "NASPDU" [("Value", TOctetString, "")].
Definition EquivalentPLMNs : gotype := TStruct "EquivalentPLMNs" [("List", TSlice PLMNIdentity, "sizeLB:1,sizeUB:15")].
Definition RATRestrictionInformation : gotype := TStruct "RATRestrictionInformation" [
  ("Value", TBitString, "sizeExt,sizeLB:8,sizeUB:8")].
Definition RATRestrictionsItemExtIEsExtensionValue : gotype := TStruct "RATRestrictionsItemExtIEsExtensionValue" [
  ("Present", TInt 64, "")].
Definition RATRestrictionsItemExtIEs : gotype := TStruct "RATRestrictionsItemExtIEs" [
  ("Id", ProtocolExtensionID, ""); ("Criticality", Criticality, "");
  ("ExtensionValue", RATRestrictionsItemExtIEsExtensionValue, "openType,referenceFieldName:Id")].
Definition ProtocolExtensionContainerRATRestrictionsItemExtIEs : gotype := TStruct "ProtocolExtensionContainerRATRestrictionsItemExtIEs" [
  ("List", TSlice RATRestrictionsItemExtIEs, "sizeLB:1,sizeUB:65535")].
Definition RATRestrictionsItem : gotype := TStruct "RATRestrictionsItem" [
  ("PLMNIdentity", PLMNIdentity, ""); ("RATRestrictionInformation", RATRestrictionInformation, "");
  ("IEExtensions", TPtr ProtocolExtensionContainerRATRestrictionsItemExtIEs, "optional")].
Definition RATRestrictions : gotype := TStruct "RATRestrictions" [
  ("List", TSlice RATRestrictionsItem, "valueExt,sizeLB:0,sizeUB:16")].
Definition ForbiddenTACs : gotype := TStruct "ForbiddenTACs" [("List", TSlice TAC, "sizeLB:1,sizeUB:4096")].
Definition ForbiddenAreaInformationItemExtIEsExtensionValue : gotype := TStruct "ForbiddenAreaInformationItemExtIEsExtensionValue" [
  ("Present", TInt 64, "")].
Definition ForbiddenAreaInformationItemExtIEs : gotype := TStruct "ForbiddenAreaInformationItemExtIEs" [
  ("Id", ProtocolExtensionID, ""); ("Criticality", Criticality, "");
  ("ExtensionValue", ForbiddenAreaInformationItemExtIEsExtensionValue, "openType,referenceFieldName:Id")].
Definition ProtocolExtensionContainerForbiddenAreaInformationItemExtIEs : gotype := TStruct "ProtocolExtensionContainerForbiddenAreaInformationItemExtIEs" [
  ("List", TSlice ForbiddenAreaInformationItemExtIEs, "sizeLB:1,sizeUB:65535")].
Definition ForbiddenAreaInformationItem : gotype := TStruct "ForbiddenAreaInformationItem" [
  ("PLMNIdentity", PLMNIdentity, ""); ("ForbiddenTACs", ForbiddenTACs, "");
  ("IEExtensions", TPtr ProtocolExtensionContainerForbiddenAreaInformationItemExtIEs, "optional")].
Definition ForbiddenAreaInformation : gotype := TStruct "ForbiddenAreaInformation" [
  ("List", TSlice ForbiddenAreaInformationItem, "valueExt,sizeLB:1,sizeUB:16")].
Definition NotAllowedTACs : gotype := TStruct "NotAllowedTACs" [("List", TSlice TAC, "sizeLB:1,sizeUB:16")].
Definition ServiceAreaInformationItemExtIEsExtensionValue : gotype := TStruct "ServiceAreaInformationItemExtIEsExtensionValue" [
  ("Present", TInt 64, "")].
Definition ServiceAreaInformationItemExtIEs : gotype := TStruct "ServiceAreaInformationItemExtIEs" [
  ("Id", ProtocolExtensionID, ""); ("Criticality", Criticality, "");
  ("ExtensionValue", ServiceAreaInformationItemExtIEsExtensionValue, "openType,referenceFieldName:Id")].
Definition ProtocolExtensionContainerServiceAreaInformationItemExtIEs : gotype := TStruct "ProtocolExtensionContainerServiceAreaInformationItemExtIEs" [
  ("List", TSlice ServiceAreaInformationItemExtIEs, "sizeLB:1,sizeUB:65535")].
Definition ServiceAreaInformationItem : gotype := TStruct "ServiceAreaInformationItem" [
  ("PLMNIdentity", PLMNIdentity, ""); ("AllowedTACs", TPtr AllowedTACs, "optional");
  ("NotAllowedTACs", TPtr NotAllowedTACs, "optional");
  ("IEExtensions", TPtr ProtocolExtensionContainerServiceAreaInformationItemExtIEs, "optional")].
Definition ServiceAreaInformation : gotype := TStruct "ServiceAreaInformation" [
  ("List", TSlice ServiceAreaInformationItem, "valueExt,sizeLB:1,sizeUB:16")].
Definition MobilityRestrictionListExtIEsExtensionValue : gotype := TStruct "MobilityRestrictionListExtIEsExtensionValue" [
  ("Present", TInt 64, "")].
Definition MobilityRestrictionListExtIEs : gotype := TStruct "MobilityRestrictionListExtIEs" [
  ("Id", ProtocolExtensionID, ""); ("Criticality", Criticality, "");
  ("ExtensionValue", MobilityRestrictionListExtIEsExtensionValue, "openType,referenceFieldName:Id")].
Definition ProtocolExtensionContainerMobilityRestrictionListExtIEs : gotype := TStruct "ProtocolExtensionContainerMobilityRestrictionListExtIEs" [
  ("List", TSlice MobilityRestrictionListExtIEs, "sizeLB:1,sizeUB:65535")].
Definition MobilityRestrictionList : gotype := TStruct "MobilityRestrictionList" [
  ("ServingPLMN", PLMNIdentity, ""); ("EquivalentPLMNs", TPtr EquivalentPLMNs, "optional");
  ("RATRestrictions", TPtr RATRestrictions, "optional");
  ("ForbiddenAreaInformation", TPtr ForbiddenAreaInformation, "optional");
  ("ServiceAreaInformation", TPtr ServiceAreaInformation, "optional");
  ("IEExtensions", TPtr ProtocolExtensionContainerMobilityRestrictionListExtIEs, "optional")].
Definition IndexToRFSP : gotype := TStruct "IndexToRFSP" [("Value", TInt 64, "valueExt,valueLB:1,valueUB:256")].
Definition UEAggregateMaximumBitRateExtIEsExtensionValue : gotype := TStruct "UEAggregateMaximumBitRateExtIEsExtensionValue" [
  ("Present", TInt 64, "")].
Definition UEAggregateMaximumBitRateExtIEs : gotype := TStruct "UEAggregateMaximumBitRateExtIEs" [
  ("Id", ProtocolExtensionID, ""); ("Criticality", Criticality, "");
  ("ExtensionValue", UEAggregateMaximumBitRateExtIEsExtensionValue, "openType,referenceFieldName:Id")].
Definition ProtocolExtensionContainerUEAggregateMaximumBitRateExtIEs : gotype := TStruct "ProtocolExtensionContainerUEAggregateMaximumBitRateExtIEs" [
  ("List", TSlice UEAggregateMaximumBitRateExtIEs, "sizeLB:1,sizeUB:65535")].
Definition UEAggregateMaximumBitRate : gotype := TStruct "UEAggregateMaximumBitRate" [
  ("UEAggregateMaximumBitRateDL", BitRate, ""); ("UEAggregateMaximumBitRateUL", BitRate, "");
  ("IEExtensions", TPtr ProtocolExtensionContainerUEAggregateMaximumBitRateExtIEs, "optional")].
Definition DownlinkNASTransportIEsValue : gotype := TStruct "DownlinkNASTransportIEsValue" [
  ("Present", TInt 64, ""); ("AMFUENGAPID", TPtr AMFUENGAPID, "referenceFieldValue:10");
  ("RANUENGAPID", TPtr RANUENGAPID, "referenceFieldValue:85"); ("OldAMF", TPtr AMFName, "referenceFieldValue:48");
  ("RANPagingPriority", TPtr RANPagingPriority, "referenceFieldValue:83");
  ("NASPDU", TPtr NASPDU, "referenceFieldValue:38");
  ("MobilityRestrictionList", TPtr MobilityRestrictionList, "valueExt,referenceFieldValue:36");
  ("IndexToRFSP", TPtr IndexToRFSP, "referenceFieldValue:31");
  ("UEAggregateMaximumBitRate", TPtr UEAggregateMaximumBitRate, "valueExt,referenceFieldValue:110");
  ("AllowedNSSAI", TPtr AllowedNSSAI, "referenceFieldValue:0")].
Definition DownlinkNASTransportIEs : gotype := TStruct "DownlinkNASTransportIEs" [
  ("Id", ProtocolIEID, ""); ("Criticality", Criticality, "");
  ("Value", DownlinkNASTransportIEsValue, "openType,referenceFieldName:Id")].
Definition ProtocolIEContainerDownlinkNASTransportIEs : gotype := TStruct "ProtocolIEContainerDownlinkNASTransportIEs" [
  ("List", TSlice DownlinkNASTransportIEs, "sizeLB:0,sizeUB:65535")].
Definition DownlinkNASTransport : gotype := TStruct "DownlinkNASTransport" [
  ("ProtocolIEs", ProtocolIEContainerDownlinkNASTransportIEs, "")].
Definition RoutingID : gotype := TStruct "RoutingID" [("Value", TOctetString, "")].
Definition NRPPaPDU : gotype := TStruct "NRPPaPDU" [("Value", TOctetString, "")].
Definition DownlinkNonUEAssociatedNRPPaTransportIEsValue : gotype := TStruct "DownlinkNonUEAssociatedNRPPaTransportIEsValue" [
  ("Present", TInt 64, ""); ("RoutingID", TPtr RoutingID, "referenceFieldValue:89");
  ("NRPPaPDU", TPtr NRPPaPDU, "referenceFieldValue:46")].
Definition DownlinkNonUEAssociatedNRPPaTransportIEs : gotype := TStruct "DownlinkNonUEAssociatedNRPPaTransportIEs" [
  ("Id", ProtocolIEID, ""); ("Criticality", Criticality, "");
  ("Value", DownlinkNonUEAssociatedNRPPaTransportIEsValue, "openType,referenceFieldName:Id")].
Definition ProtocolIEContainerDownlinkNonUEAssociatedNRPPaTransportIEs : gotype := TStruct "ProtocolIEContainerDownlinkNonUEAssociatedNRPPaTransportIEs" [
  ("List", TSlice DownlinkNonUEAssociatedNRPPaTransportIEs, "sizeLB:0,sizeUB:65535")].
Definition DownlinkNonUEAssociatedNRPPaTransport : gotype := TStruct "DownlinkNonUEAssociatedNRPPaTransport" [
  ("ProtocolIEs", ProtocolIEContainerDownlinkNonUEAssociatedNRPPaTransportIEs, "")].
Definition TargetRANNodeIDExtIEsExtensionValue : gotype := TStruct "TargetRANNodeIDExtIEsExtensionValue" [
  ("Present", TInt 64, "")].
Definition TargetRANNodeIDExtIEs : gotype := TStruct "TargetRANNodeIDExtIEs" [
  ("Id", ProtocolExtensionID, ""); ("Criticality", Criticality, "");
  ("ExtensionValue", TargetRANNodeIDExtIEsExtensionValue, "openType,referenceFieldName:Id")].
Definition ProtocolExtensionContainerTargetRANNodeIDExtIEs : gotype := TStruct "ProtocolExtensionContainerTargetRANNodeIDExtIEs" [
  ("List", TSlice TargetRANNodeIDExtIEs, "sizeLB:1,sizeUB:65535")].
Definition TargetRANNodeID : gotype := TStruct "TargetRANNodeID" [
  ("GlobalRANNodeID", GlobalRANNodeID, "valueLB:0,valueUB:3"); ("SelectedTAI", TAI, "valueExt");
  ("IEExtensions", TPtr ProtocolExtensionContainerTargetRANNodeIDExtIEs, "optional")].
Definition SourceRANNodeIDExtIEsExtensionValue : gotype := TStruct "SourceRANNodeIDExtIEsExtensionValue" [
  ("Present", TInt 64, "")].
Definition SourceRANNodeIDExtIEs : gotype := TStruct "SourceRANNodeIDExtIEs" [
  ("Id", ProtocolExtensionID, ""); ("Criticality", Criticality, "");
  ("ExtensionValue", SourceRANNodeIDExtIEsExtensionValue, "openType,referenceFieldName:Id")].
Definition ProtocolExtensionContainerSourceRANNodeIDExtIEs : gotype := TStruct "ProtocolExtensionContainerSourceRANNodeIDExtIEs" [
  ("List", TSlice SourceRANNodeIDExtIEs, "sizeLB:1,sizeUB:65535")].
Definition SourceRANNodeID : gotype := TStruct "SourceRANNodeID" [
  ("GlobalRANNodeID", GlobalRANNodeID, "valueLB:0,valueUB:3"); ("SelectedTAI", TAI, "valueExt");
  ("IEExtensions", TPtr ProtocolExtensionContainerSourceRANNodeIDExtIEs, "optional")].
Definition SONInformationRequest : gotype := TStruct "SONInformationRequest" [
  ("Value", TEnumerated, "valueExt,valueLB:0,valueUB:0")].
Definition XnTLAs : gotype := TStruct "XnTLAs" [("List", TSlice TransportLayerAddress, "sizeLB:1,sizeUB:16")].
Definition XnGTPTLAs : gotype := TStruct "XnGTPTLAs" [("List", TSlice TransportLayerAddress, "sizeLB:1,sizeUB:16")].
Definition XnExtTLAItemExtIEsExtensionValue : gotype := TStruct "XnExtTLAItemExtIEsExtensionValue" [
  ("Present", TInt 64, "")].
Definition XnExtTLAItemExtIEs : gotype := TStruct "XnExtTLAItemExtIEs" [
  ("Id", ProtocolExtensionID, ""); ("Criticality", Criticality, "");
  ("ExtensionValue", XnExtTLAItemExtIEsExtensionValue, "openType,referenceFieldName:Id")].
Definition ProtocolExtensionContainerXnExtTLAItemExtIEs : gotype := TStruct "ProtocolExtensionContainerXnExtTLAItemExtIEs" [
  ("List", TSlice XnExtTLAItemExtIEs, "sizeLB:1,sizeUB:65535")].
Definition XnExtTLAItem : gotype := TStruct "XnExtTLAItem" [
  ("IPsecTLA", TPtr TransportLayerAddress, "optional"); ("GTPTLAs", TPtr XnGTPTLAs, "optional");
  ("IEExtensions", TPtr ProtocolExtensionContainerXnExtTLAItemExtIEs, "optional")].
Definition XnExtTLAs : gotype := TStruct "XnExtTLAs" [("List", TSlice XnExtTLAItem, "valueExt,sizeLB:1,sizeUB:2")].
Definition XnTNLConfigurationInfoExtIEsExtensionValue : gotype := TStruct "XnTNLConfigurationInfoExtIEsExtensionValue" [
  ("Present", TInt 64, "")].
Definition XnTNLConfigurationInfoExtIEs : gotype := TStruct "XnTNLConfigurationInfoExtIEs" [
  ("Id", ProtocolExtensionID, ""); ("Criticality", Criticality, "");
  ("ExtensionValue", XnTNLConfigurationInfoExtIEsExtensionValue, "openType,referenceFieldName:Id")].
Definition ProtocolExtensionContainerXnTNLConfigurationInfoExtIEs : gotype := TStruct "ProtocolExtensionContainerXnTNLConfigurationInfoExtIEs" [
  ("List", TSlice XnTNLConfigurationInfoExtIEs, "sizeLB:1,sizeUB:65535")].
Definition XnTNLConfigurationInfo : gotype := TStruct "XnTNLConfigurationInfo" [
  ("XnTransportLayerAddresses", XnTLAs, ""); ("XnExtendedTransportLayerAddresses", TPtr XnExtTLAs, "optional");
  ("IEExtensions", TPtr ProtocolExtensionContainerXnTNLConfigurationInfoExtIEs, "optional")].
Definition SONInformationReplyExtIEsExtensionValue : gotype := TStruct "SONInformationReplyExtIEsExtensionValue" [
  ("Present", TInt 64, "")].
Definition SONInformationReplyExtIEs : gotype := TStruct "SONInformationReplyExtIEs" [
  ("Id", ProtocolExtensionID, ""); ("Criticality", Criticality, "");
  ("ExtensionValue", SONInformationReplyExtIEsExtensionValue, "openType,referenceFieldName:Id")].
Definition ProtocolExtensionContainerSONInformationReplyExtIEs : gotype := TStruct "ProtocolExtensionContainerSONInformationReplyExtIEs" [
  ("List", TSlice SONInformationReplyExtIEs, "sizeLB:1,sizeUB:65535")].
Definition SONInformationReply : gotype := TStruct "SONInformationReply" [
  ("XnTNLConfigurationInfo", TPtr XnTNLConfigurationInfo, "valueExt,optional");
  ("IEExtensions", TPtr ProtocolExtensionContainerSONInformationReplyExtIEs, "optional")].
Definition ProtocolIESingleContainerSONInformationExtIEs : gotype := TStruct "ProtocolIESingleContainerSONInformationExtIEs" [].
Definition SONInformation : gotype := TStruct "SONInformation" [
  ("Present", TInt 64, ""); ("SONInformationRequest", TPtr SONInformationRequest, "");
  ("SONInformationReply", TPtr SONInformationReply, "valueExt");
  ("ChoiceExtensions", TPtr ProtocolIESingleContainerSONInformationExtIEs, "")].
Definition SONConfigurationTransferExtIEsExtensionValue : gotype := TStruct "SONConfigurationTransferExtIEsExtensionValue" [
  ("Present", TInt 64, "")].
Definition SONConfigurationTransferExtIEs : gotype := TStruct "SONConfigurationTransferExtIEs" [
  ("Id", ProtocolExtensionID, ""); ("Criticality", Criticality, "");
  ("ExtensionValue", SONConfigurationTransferExtIEsExtensionValue, "openType,referenceFieldName:Id")].
Definition ProtocolExtensionContainerSONConfigurationTransferExtIEs : gotype := TStruct "ProtocolExtensionContainerSONConfigurationTransferExtIEs" [
  ("List", TSlice SONConfigurationTransferExtIEs, "sizeLB:1,sizeUB:65535")].
Definition SONConfigurationTransfer : gotype := TStruct "SONConfigurationTransfer" [
  ("TargetRANNodeID", TargetRANNodeID, "valueExt"); ("SourceRANNodeID", SourceRANNodeID, "valueExt");
  ("SONInformation", SONInformation, "valueLB:0,valueUB:2");
  ("XnTNLConfigurationInfo", XnTNLConfigurationInfo, "valueExt");
  ("IEExtensions", TPtr ProtocolExtensionContainerSONConfigurationTransferExtIEs, "optional")].
Definition DownlinkRANConfigurationTransferIEsValue : gotype := TStruct "DownlinkRANConfigurationTransferIEsValue" [
  ("Present", TInt 64, "");
  ("SONConfigurationTransferDL", TPtr SONConfigurationTransfer, "valueExt,referenceFieldValue:98")].
Definition DownlinkRANConfigurationTransferIEs : gotype := TStruct "DownlinkRANConfigurationTransferIEs" [
  ("Id", ProtocolIEID, ""); ("Criticality", Criticality, "");
  ("Value", DownlinkRANConfigurationTransferIEsValue, "openType,referenceFieldName:Id")].
Definition ProtocolIEContainerDownlinkRANConfigurationTransferIEs : gotype := TStruct "ProtocolIEContainerDownlinkRANConfigurationTransferIEs" [
  ("List", TSlice DownlinkRANConfigurationTransferIEs, "sizeLB:0,sizeUB:65535")].
Definition DownlinkRANConfigurationTransfer : gotype := TStruct "DownlinkRANConfigurationTransfer" [
  ("ProtocolIEs", ProtocolIEContainerDownlinkRANConfigurationTransferIEs, "")].
Definition RANStatusTransferTransparentContainerExtIEsExtensionValue : gotype := TStruct "RANStatusTransferTransparentContainerExtIEsExtensionValue" [
  ("Present", TInt 64, "")].
Definition RANStatusTransferTransparentContainerExtIEs : gotype := TStruct "RANStatusTransferTransparentContainerExtIEs" [
  ("Id", ProtocolExtensionID, ""); ("Criticality", Criticality, "");
  ("ExtensionValue", RANStatusTransferTransparentContainerExtIEsExtensionValue, "openType,referenceFieldName:Id")].
Definition ProtocolExtensionContainerRANStatusTransferTransparentContainerExtIEs : gotype := TStruct "ProtocolExtensionContainerRANStatusTransferTransparentContainerExtIEs" [
  ("List", TSlice RANStatusTransferTransparentContainerExtIEs, "sizeLB:1,sizeUB:65535")].
Definition RANStatusTransferTransparentContainer : gotype := TStruct "RANStatusTransferTransparentContainer" [
  ("DRBsSubjectToStatusTransferList", DRBsSubjectToStatusTransferList, "");
  ("IEExtensions", TPtr ProtocolExtensionContainerRANStatusTransferTransparentContainerExtIEs, "optional")].
Definition DownlinkRANStatusTransferIEsValue : gotype := TStruct "DownlinkRANStatusTransferIEsValue" [
  ("Present", TInt 64, ""); ("AMFUENGAPID", TPtr AMFUENGAPID, "referenceFieldValue:10");
  ("RANUENGAPID", TPtr RANUENGAPID, "referenceFieldValue:85");
  ("RANStatusTransferTransparentContainer", TPtr RANStatusTransferTransparentContainer, "valueExt,referenceFieldValue:84")].
Definition DownlinkRANStatusTransferIEs : gotype := TStruct "DownlinkRANStatusTransferIEs" [
  ("Id", ProtocolIEID, ""); ("Criticality", Criticality, "");
  ("Value", DownlinkRANStatusTransferIEsValue, "openType,referenceFieldName:Id")].
Definition ProtocolIEContainerDownlinkRANStatusTransferIEs : gotype := TStruct "ProtocolIEContainerDownlinkRANStatusTransferIEs" [
  ("List", TSlice DownlinkRANStatusTransferIEs, "sizeLB:0,sizeUB:65535")].
Definition DownlinkRANStatusTransfer : gotype := TStruct "DownlinkRANStatusTransfer" [
  ("ProtocolIEs", ProtocolIEContainerDownlinkRANStatusTransferIEs, "")].
Definition DownlinkUEAssociatedNRPPaTransportIEsValue : gotype := TStruct "DownlinkUEAssociatedNRPPaTransportIEsValue" [
  ("Present", TInt 64, ""); ("AMFUENGAPID", TPtr AMFUENGAPID, "referenceFieldValue:10");
  ("RANUENGAPID", TPtr RANUENGAPID, "referenceFieldValue:85"); ("RoutingID", TPtr RoutingID, "referenceFieldValue:89");
  ("NRPPaPDU", TPtr NRPPaPDU, "referenceFieldValue:46")].
Definition DownlinkUEAssociatedNRPPaTransportIEs : gotype := TStruct "DownlinkUEAssociatedNRPPaTransportIEs" [
  ("Id", ProtocolIEID, ""); ("Criticality", Criticality, "");
  ("Value", DownlinkUEAssociatedNRPPaTransportIEsValue, "openType,referenceFieldName:Id")].
Definition ProtocolIEContainerDownlinkUEAssociatedNRPPaTransportIEs : gotype := TStruct "ProtocolIEContainerDownlinkUEAssociatedNRPPaTransportIEs" [
  ("List", TSlice DownlinkUEAssociatedNRPPaTransportIEs, "sizeLB:0,sizeUB:65535")].
Definition DownlinkUEAssociatedNRPPaTransport : gotype := TStruct "DownlinkUEAssociatedNRPPaTransport" [
  ("ProtocolIEs", ProtocolIEContainerDownlinkUEAssociatedNRPPaTransportIEs, "")].
Definition PriorityLevelQos : gotype := TStruct "PriorityLevelQos" [
  ("Value", TInt 64, "valueExt,valueLB:1,valueUB:127")].
Definition PacketDelayBudget : gotype := TStruct "PacketDelayBudget" [
  ("Value", TInt 64, "valueExt,valueLB:0,valueUB:1023")].
Definition PacketErrorRateExtIEsExtensionValue : gotype := TStruct "PacketErrorRateExtIEsExtensionValue" [
  ("Present", TInt 64, "")].
Definition PacketErrorRateExtIEs : gotype := TStruct "PacketErrorRateExtIEs" [
  ("Id", ProtocolExtensionID, ""); ("Criticality", Criticality, "");
  ("ExtensionValue", PacketErrorRateExtIEsExtensionValue, "openType,referenceFieldName:Id")].
Definition ProtocolExtensionContainerPacketErrorRateExtIEs : gotype := TStruct "ProtocolExtensionContainerPacketErrorRateExtIEs" [
  ("List", TSlice PacketErrorRateExtIEs, "sizeLB:1,sizeUB:65535")].
Definition PacketErrorRate : gotype := TStruct "PacketErrorRate" [
  ("PERScalar", TInt 64, "valueExt,valueLB:0,valueUB:9"); ("PERExponent", TInt 64, "valueExt,valueLB:0,valueUB:9");
  ("IEExtensions", TPtr ProtocolExtensionContainerPacketErrorRateExtIEs, "optional")].
Definition FiveQI : gotype := TStruct "FiveQI" [("Value", TInt 64, "valueExt,valueLB:0,valueUB:255")].
Definition MaximumDataBurstVolume : gotype := TStruct "MaximumDataBurstVolume" [
  ("Value", TInt 64, "valueExt,valueLB:0,valueUB:4095")].
Definition Dynamic5QIDescriptorExtIEsExtensionValue : gotype := TStruct "Dynamic5QIDescriptorExtIEsExtensionValue" [
  ("Present", TInt 64, "")].
Definition Dynamic5QIDescriptorExtIEs : gotype := TStruct "Dynamic5QIDescriptorExtIEs" [
  ("Id", ProtocolExtensionID, ""); ("Criticality", Criticality, "");
  ("ExtensionValue", Dynamic5QIDescriptorExtIEsExtensionValue, "openType,referenceFieldName:Id")].
Definition ProtocolExtensionContainerDynamic5QIDescriptorExtIEs : gotype := TStruct "ProtocolExtensionContainerDynamic5QIDescriptorExtIEs" [
  ("List", TSlice Dynamic5QIDescriptorExtIEs, "sizeLB:1,sizeUB:65535")].
Definition Dynamic5QIDescriptor : gotype := TStruct "Dynamic5QIDescriptor" [
  ("PriorityLevelQos", PriorityLevelQos, ""); ("PacketDelayBudget", PacketDelayBudget, "");
  ("PacketErrorRate", PacketErrorRate, "valueExt"); ("FiveQI", TPtr FiveQI, "optional");
  ("DelayCritical", TPtr DelayCritical, "optional"); ("AveragingWindow", TPtr AveragingWindow, "optional");
  ("MaximumDataBurstVolume", TPtr MaximumDataBurstVolume, "optional");
  ("IEExtensions", TPtr ProtocolExtensionContainerDynamic5QIDescriptorExtIEs, "optional")].
Definition EPSTAC : gotype := TStruct "EPSTAC" [("Value", TOctetString, "sizeLB:2,sizeUB:2")].
Definition EPSTAIExtIEsExtensionValue : gotype := TStruct "EPSTAIExtIEsExtensionValue" [("Present", TInt 64, "")].
Definition EPSTAIExtIEs : gotype := TStruct "EPSTAIExtIEs" [
  ("Id", ProtocolExtensionID, ""); ("Criticality", Criticality, "");
  ("ExtensionValue", EPSTAIExtIEsExtensionValue, "openType,referenceFieldName:Id")].
Definition ProtocolExtensionContainerEPSTAIExtIEs : gotype := TStruct "ProtocolExtensionContainerEPSTAIExtIEs" [
  ("List", TSlice EPSTAIExtIEs, "sizeLB:1,sizeUB:65535")].
Definition EPSTAI : gotype := TStruct "EPSTAI" [
  ("PLMNIdentity", PLMNIdentity, ""); ("EPSTAC", EPSTAC, "");
  ("IEExtensions", TPtr ProtocolExtensionContainerEPSTAIExtIEs, "optional")].
Definition ERABID : gotype := TStruct "ERABID" [("Value", TInt 64, "valueExt,valueLB:0,valueUB:15")].
Definition ERABInformationItemExtIEsExtensionValue : gotype := TStruct "ERABInformationItemExtIEsExtensionValue" [
  ("Present", TInt 64, "")].
Definition ERABInformationItemExtIEs : gotype := TStruct "ERABInformationItemExtIEs" [
  ("Id", ProtocolExtensionID, ""); ("Criticality", Criticality, "");
  ("ExtensionValue", ERABInformationItemExtIEsExtensionValue, "openType,referenceFieldName:Id")].
Definition ProtocolExtensionContainerERABInformationItemExtIEs : gotype := TStruct "ProtocolExtensionContainerERABInformationItemExtIEs" [
  ("List", TSlice ERABInformationItemExtIEs, "sizeLB:1,sizeUB:65535")].
Definition ERABInformationItem : gotype := TStruct "ERABInformationItem" [
  ("ERABID", ERABID, ""); ("DLForwarding", TPtr DLForwarding, "optional");
  ("IEExtensions", TPtr ProtocolExtensionContainerERABInformationItemExtIEs, "optional")].
Definition ERABInformationList : gotype := TStruct "ERABInformationList" [
  ("List", TSlice ERABInformationItem, "valueExt,sizeLB:1,sizeUB:256")].
Definition EUTRACGIListForWarning : gotype := TStruct "EUTRACGIListForWarning" [
  ("List", TSlice EUTRACGI, "valueExt,sizeLB:1,sizeUB:65535")].
Definition EUTRAencryptionAlgorithms : gotype := TStruct "EUTRAencryptionAlgorithms" [
  ("Value", TBitString, "sizeExt,sizeLB:16,sizeUB:16")].
Definition EUTRAintegrityProtectionAlgorithms : gotype := TStruct "EUTRAintegrityProtectionAlgorithms" [
  ("Value", TBitString, "sizeExt,sizeLB:16,sizeUB:16")].
Definition EmergencyAreaIDList : gotype := TStruct "EmergencyAreaIDList" [
  ("List", TSlice EmergencyAreaID, "sizeLB:1,sizeUB:65535")].
Definition EmergencyAreaIDListForRestart : gotype := TStruct "EmergencyAreaIDListForRestart" [
  ("List", TSlice EmergencyAreaID, "sizeLB:1,sizeUB:256")].
Definition EmergencyFallbackRequestIndicator : gotype := TStruct "EmergencyFallbackRequestIndicator" [
  ("Value", TEnumerated, "valueExt,valueLB:0,valueUB:0")].
Definition EmergencyServiceTargetCN : gotype := TStruct "EmergencyServiceTargetCN" [
  ("Value", TEnumerated, "valueExt,valueLB:0,valueUB:1")].
Definition EmergencyFallbackIndicatorExtIEsExtensionValue : gotype := TStruct "EmergencyFallbackIndicatorExtIEsExtensionValue" [
  ("Present", TInt 64, "")].
Definition EmergencyFallbackIndicatorExtIEs : gotype := TStruct "EmergencyFallbackIndicatorExtIEs" [
  ("Id", ProtocolExtensionID, ""); ("Criticality", Criticality, "");
  ("ExtensionValue", EmergencyFallbackIndicatorExtIEsExtensionValue, "openType,referenceFieldName:Id")].
Definition ProtocolExtensionContainerEmergencyFallbackIndicatorExtIEs : gotype := TStruct "ProtocolExtensionContainerEmergencyFallbackIndicatorExtIEs" [
  ("List", TSlice EmergencyFallbackIndicatorExtIEs, "sizeLB:1,sizeUB:65535")].
Definition EmergencyFallbackIndicator : gotype := TStruct "EmergencyFallbackIndicator" [
  ("EmergencyFallbackRequestIndicator", EmergencyFallbackRequestIndicator, "");
  ("EmergencyServiceTargetCN", TPtr EmergencyServiceTargetCN, "optional");
  ("IEExtensions", TPtr ProtocolExtensionContainerEmergencyFallbackIndicatorExtIEs, "optional")].
Definition ErrorIndicationIEsValue : gotype := TStruct "ErrorIndicationIEsValue" [
  ("Present", TInt 64, ""); ("AMFUENGAPID", TPtr AMFUENGAPID, "referenceFieldValue:10");
  ("RANUENGAPID", TPtr RANUENGAPID, "referenceFieldValue:85");
  ("Cause", TPtr Cause, "referenceFieldValue:15,valueLB:0,valueUB:5");
  ("CriticalityDiagnostics", TPtr CriticalityDiagnostics, "valueExt,referenceFieldValue:19")].
Definition ErrorIndicationIEs : gotype := TStruct "ErrorIndicationIEs" [
  ("Id", ProtocolIEID, ""); ("Criticality", Criticality, "");
  ("Value", ErrorIndicationIEsValue, "openType,referenceFieldName:Id")].
Definition ProtocolIEContainerErrorIndicationIEs : gotype := TStruct "ProtocolIEContainerErrorIndicationIEs" [
  ("List", TSlice ErrorIndicationIEs, "sizeLB:0,sizeUB:65535")].
Definition ErrorIndication : gotype := TStruct "ErrorIndication" [
  ("ProtocolIEs", ProtocolIEContainerErrorIndicationIEs, "")].
Definition EventType : gotype := TStruct "EventType" [("Value", TEnumerated, "valueExt,valueLB:0,valueUB:5")].
Definition FiveGTMSI : gotype := TStruct "FiveGTMSI" [("Value", TOctetString, "sizeLB:4,sizeUB:4")].
Definition FiveGSTMSIExtIEsExtensionValue : gotype := TStruct "FiveGSTMSIExtIEsExtensionValue" [
  ("Present", TInt 64, "")].
Definition FiveGSTMSIExtIEs : gotype := TStruct "FiveGSTMSIExtIEs" [
  ("Id", ProtocolExtensionID, ""); ("Criticality", Criticality, "");
  ("ExtensionValue", FiveGSTMSIExtIEsExtensionValue, "openType,referenceFieldName:Id")].
Definition ProtocolExtensionContainerFiveGSTMSIExtIEs : gotype := TStruct "ProtocolExtensionContainerFiveGSTMSIExtIEs" [
  ("List", TSlice FiveGSTMSIExtIEs, "sizeLB:1,sizeUB:65535")].
Definition FiveGSTMSI : gotype := TStruct "FiveGSTMSI" [
  ("AMFSetID", AMFSetID, ""); ("AMFPointer", AMFPointer, ""); ("FiveGTMSI", FiveGTMSI, "");
  ("IEExtensions", TPtr ProtocolExtensionContainerFiveGSTMSIExtIEs, "optional")].
Definition NotificationControl : gotype := TStruct "NotificationControl" [
  ("Value", TEnumerated, "valueExt,valueLB:0,valueUB:0")].
Definition PacketLossRate : gotype := TStruct "PacketLossRate" [("Value", TInt 64, "valueExt,valueLB:0,valueUB:1000")].
Definition GBRQosInformationExtIEsExtensionValue : gotype := TStruct "GBRQosInformationExtIEsExtensionValue" [
  ("Present", TInt 64, "")].
Definition GBRQosInformationExtIEs : gotype := TStruct "GBRQosInformationExtIEs" [
  ("Id", ProtocolExtensionID, ""); ("Criticality", Criticality, "");
  ("ExtensionValue", GBRQosInformationExtIEsExtensionValue, "openType,referenceFieldName:Id")].
Definition ProtocolExtensionContainerGBRQosInformationExtIEs : gotype := TStruct "ProtocolExtensionContainerGBRQosInformationExtIEs" [
  ("List", TSlice GBRQosInformationExtIEs, "sizeLB:1,sizeUB:65535")].
Definition GBRQosInformation : gotype := TStruct "GBRQosInformation" [
  ("MaximumFlowBitRateDL", BitRate, ""); ("MaximumFlowBitRateUL", BitRate, "");
  ("GuaranteedFlowBitRateDL", BitRate, ""); ("GuaranteedFlowBitRateUL", BitRate, "");
  ("NotificationControl", TPtr NotificationControl, "optional");
  ("MaximumPacketLossRateDL", TPtr PacketLossRate, "optional");
  ("MaximumPacketLossRateUL", TPtr PacketLossRate, "optional");
  ("IEExtensions", TPtr ProtocolExtensionContainerGBRQosInformationExtIEs, "optional")].
Definition HandoverCancelIEsValue : gotype := TStruct "HandoverCancelIEsValue" [
  ("Present", TInt 64, ""); ("AMFUENGAPID", TPtr AMFUENGAPID, "referenceFieldValue:10");
  ("RANUENGAPID", TPtr RANUENGAPID, "referenceFieldValue:85");
  ("Cause", TPtr Cause, "referenceFieldValue:15,valueLB:0,valueUB:5")].
Definition HandoverCancelIEs : gotype := TStruct "HandoverCancelIEs" [
  ("Id", ProtocolIEID, ""); ("Criticality", Criticality, "");
  ("Value", HandoverCancelIEsValue, "openType,referenceFieldName:Id")].
Definition ProtocolIEContainerHandoverCancelIEs : gotype := TStruct "ProtocolIEContainerHandoverCancelIEs" [
  ("List", TSlice HandoverCancelIEs, "sizeLB:0,sizeUB:65535")].
Definition HandoverCancel : gotype := TStruct "HandoverCancel" [
  ("ProtocolIEs", ProtocolIEContainerHandoverCancelIEs, "")].
Definition HandoverCancelAcknowledgeIEsValue : gotype := TStruct "HandoverCancelAcknowledgeIEsValue" [
  ("Present", TInt 64, ""); ("AMFUENGAPID", TPtr AMFUENGAPID, "referenceFieldValue:10");
  ("RANUENGAPID", TPtr RANUENGAPID, "referenceFieldValue:85");
  ("CriticalityDiagnostics", TPtr CriticalityDiagnostics, "valueExt,referenceFieldValue:19")].
Definition HandoverCancelAcknowledgeIEs : gotype := TStruct "HandoverCancelAcknowledgeIEs" [
  ("Id", ProtocolIEID, ""); ("Criticality", Criticality, "");
  ("Value", HandoverCancelAcknowledgeIEsValue, "openType,referenceFieldName:Id")].
Definition ProtocolIEContainerHandoverCancelAcknowledgeIEs : gotype := TStruct "ProtocolIEContainerHandoverCancelAcknowledgeIEs" [
  ("List", TSlice HandoverCancelAcknowledgeIEs, "sizeLB:0,sizeUB:65535")].
Definition HandoverCancelAcknowledge : gotype := TStruct "HandoverCancelAcknowledge" [
  ("ProtocolIEs", ProtocolIEContainerHandoverCancelAcknowledgeIEs, "")].
Definition HandoverType : gotype := TStruct "HandoverType" [("Value", TEnumerated, "valueExt,valueLB:0,valueUB:2")].
Definition NASSecurityParametersFromNGRAN : gotype := TStruct "NASSecurityParametersFromNGRAN" [
  ("Value", TOctetString, "")].
Definition PDUSessionID : gotype := TStruct "PDUSessionID" [("Value", TInt 64, "valueLB:0,valueUB:255")].
Definition PDUSessionResourceHandoverItemExtIEsExtensionValue : gotype := TStruct "PDUSessionResourceHandoverItemExtIEsExtensionValue" [
  ("Present", TInt 64, "")].
Definition PDUSessionResourceHandoverItemExtIEs : gotype := TStruct "PDUSessionResourceHandoverItemExtIEs" [
  ("Id", ProtocolExtensionID, ""); ("Criticality", Criticality, "");
  ("ExtensionValue", PDUSessionResourceHandoverItemExtIEsExtensionValue, "openType,referenceFieldName:Id")].
Definition ProtocolExtensionContainerPDUSessionResourceHandoverItemExtIEs : gotype := TStruct "ProtocolExtensionContainerPDUSessionResourceHandoverItemExtIEs" [
  ("List", TSlice PDUSessionResourceHandoverItemExtIEs, "sizeLB:1,sizeUB:65535")].
Definition PDUSessionResourceHandoverItem : gotype := TStruct "PDUSessionResourceHandoverItem" [
  ("PDUSessionID", PDUSessionID, ""); ("HandoverCommandTransfer", TOctetString, "");
  ("IEExtensions", TPtr ProtocolExtensionContainerPDUSessionResourceHandoverItemExtIEs, "optional")].
Definition PDUSessionResourceHandoverList : gotype := TStruct "PDUSessionResourceHandoverList" [
  ("List", TSlice PDUSessionResourceHandoverItem, "valueExt,sizeLB:1,sizeUB:256")].
Definition PDUSessionResourceToReleaseItemHOCmdExtIEsExtensionValue : gotype := TStruct "PDUSessionResourceToReleaseItemHOCmdExtIEsExtensionValue" [
  ("Present", TInt 64, "")].
Definition PDUSessionResourceToReleaseItemHOCmdExtIEs : gotype := TStruct "PDUSessionResourceToReleaseItemHOCmdExtIEs" [
  ("Id", ProtocolExtensionID, ""); ("Criticality", Criticality, "");
  ("ExtensionValue", PDUSessionResourceToReleaseItemHOCmdExtIEsExtensionValue, "openType,referenceFieldName:Id")].
Definition ProtocolExtensionContainerPDUSessionResourceToReleaseItemHOCmdExtIEs : gotype := TStruct "ProtocolExtensionContainerPDUSessionResourceToReleaseItemHOCmdExtIEs" [
  ("List", TSlice PDUSessionResourceToReleaseItemHOCmdExtIEs, "sizeLB:1,sizeUB:65535")].
Definition PDUSessionResourceToReleaseItemHOCmd : gotype := TStruct "PDUSessionResourceToReleaseItemHOCmd" [
  ("PDUSessionID", PDUSessionID, ""); ("HandoverPreparationUnsuccessfulTransfer", TOctetString, "");
  ("IEExtensions", TPtr ProtocolExtensionContainerPDUSessionResourceToReleaseItemHOCmdExtIEs, "optional")].
Definition PDUSessionResourceToReleaseListHOCmd : gotype := TStruct "PDUSessionResourceToReleaseListHOCmd" [
  ("List", TSlice PDUSessionResourceToReleaseItemHOCmd, "valueExt,sizeLB:1,sizeUB:256")].
Definition TargetToSourceTransparentContainer : gotype := TStruct "TargetToSourceTransparentContainer" [
  ("Value", TOctetString, "")].
Definition HandoverCommandIEsValue : gotype := TStruct "HandoverCommandIEsValue" [
  ("Present", TInt 64, ""); ("AMFUENGAPID", TPtr AMFUENGAPID, "referenceFieldValue:10");
  ("RANUENGAPID", TPtr RANUENGAPID, "referenceFieldValue:85");
  ("HandoverType", TPtr HandoverType, "referenceFieldValue:29");
  ("NASSecurityParametersFromNGRAN", TPtr NASSecurityParametersFromNGRAN, "referenceFieldValue:39");
  ("PDUSessionResourceHandoverList", TPtr PDUSessionResourceHandoverList, "referenceFieldValue:59");
  ("PDUSessionResourceToReleaseListHOCmd", TPtr PDUSessionResourceToReleaseListHOCmd, "referenceFieldValue:78");
  ("TargetToSourceTransparentContainer", TPtr TargetToSourceTransparentContainer, "referenceFieldValue:106");
  ("CriticalityDiagnostics", TPtr CriticalityDiagnostics, "valueExt,referenceFieldValue:19")].
Definition HandoverCommandIEs : gotype := TStruct "HandoverCommandIEs" [
  ("Id", ProtocolIEID, ""); ("Criticality", Criticality, "");
  ("Value", HandoverCommandIEsValue, "openType,referenceFieldName:Id")].
Definition ProtocolIEContainerHandoverCommandIEs : gotype := TStruct "ProtocolIEContainerHandoverCommandIEs" [
  ("List", TSlice HandoverCommandIEs, "sizeLB:0,sizeUB:65535")].
Definition HandoverCommand : gotype := TStruct "HandoverCommand" [
  ("ProtocolIEs", ProtocolIEContainerHandoverCommandIEs, "")].
Definition QosFlowToBeForwardedItemExtIEsExtensionValue : gotype := TStruct "QosFlowToBeForwardedItemExtIEsExtensionValue" [
  ("Present", TInt 64, "")].
Definition QosFlowToBeForwardedItemExtIEs : gotype := TStruct "QosFlowToBeForwardedItemExtIEs" [
  ("Id", ProtocolExtensionID, ""); ("Criticality", Criticality, "");
  ("ExtensionValue", QosFlowToBeForwardedItemExtIEsExtensionValue, "openType,referenceFieldName:Id")].
Definition ProtocolExtensionContainerQosFlowToBeForwardedItemExtIEs : gotype := TStruct "ProtocolExtensionContainerQosFlowToBeForwardedItemExtIEs" [
  ("List", TSlice QosFlowToBeForwardedItemExtIEs, "sizeLB:1,sizeUB:65535")].
Definition QosFlowToBeForwardedItem : gotype := TStruct "QosFlowToBeForwardedItem" [
  ("QosFlowIdentifier", QosFlowIdentifier, "");
  ("IEExtensions", TPtr ProtocolExtensionContainerQosFlowToBeForwardedItemExtIEs, "optional")].
Definition QosFlowToBeForwardedList : gotype := TStruct "QosFlowToBeForwardedList" [
  ("List", TSlice QosFlowToBeForwardedItem, "valueExt,sizeLB:1,sizeUB:64")].
Definition HandoverCommandTransferExtIEsExtensionValue : gotype := TStruct "HandoverCommandTransferExtIEsExtensionValue" [
  ("Present", TInt 64, "")].
Definition HandoverCommandTransferExtIEs : gotype := TStruct "HandoverCommandTransferExtIEs" [
  ("Id", ProtocolExtensionID, ""); ("Criticality", Criticality, "");
  ("ExtensionValue", HandoverCommandTransferExtIEsExtensionValue, "openType,referenceFieldName:Id")].
Definition ProtocolExtensionContainerHandoverCommandTransferExtIEs : gotype := TStruct "ProtocolExtensionContainerHandoverCommandTransferExtIEs" [
  ("List", TSlice HandoverCommandTransferExtIEs, "sizeLB:1,sizeUB:65535")].
Definition HandoverCommandTransfer : gotype := TStruct "HandoverCommandTransfer" [
  ("DLForwardingUPTNLInformation", TPtr UPTransportLayerInformation, "valueLB:0,valueUB:1,optional");
  ("QosFlowToBeForwardedList", TPtr QosFlowToBeForwardedList, "optional");
  ("DataForwardingResponseDRBList", TPtr DataForwardingResponseDRBList, "optional");
  ("IEExtensions", TPtr ProtocolExtensionContainerHandoverCommandTransferExtIEs, "optional")].
Definition HandoverFailureIEsValue : gotype := TStruct "HandoverFailureIEsValue" [
  ("Present", TInt 64, ""); ("AMFUENGAPID", TPtr AMFUENGAPID, "referenceFieldValue:10");
  ("Cause", TPtr Cause, "referenceFieldValue:15,valueLB:0,valueUB:5");
  ("CriticalityDiagnostics", TPtr CriticalityDiagnostics, "valueExt,referenceFieldValue:19")].
Definition HandoverFailureIEs : gotype := TStruct "HandoverFailureIEs" [
  ("Id", ProtocolIEID, ""); ("Criticality", Criticality, "");
  ("Value", HandoverFailureIEsValue, "openType,referenceFieldName:Id")].
Definition ProtocolIEContainerHandoverFailureIEs : gotype := TStruct "ProtocolIEContainerHandoverFailureIEs" [
  ("List", TSlice HandoverFailureIEs, "sizeLB:0,sizeUB:65535")].
Definition HandoverFailure : gotype := TStruct "HandoverFailure" [
  ("ProtocolIEs", ProtocolIEContainerHandoverFailureIEs, "")].
Definition TimeStamp : gotype := TStruct "TimeStamp" [("Value", TOctetString, "sizeLB:4,sizeUB:4")].
Definition UserLocationInformationEUTRAExtIEsExtensionValue : gotype := TStruct "UserLocationInformationEUTRAExtIEsExtensionValue" [
  ("Present", TInt 64, "")].
Definition UserLocationInformationEUTRAExtIEs : gotype := TStruct "UserLocationInformationEUTRAExtIEs" [
  ("Id", ProtocolExtensionID, ""); ("Criticality", Criticality, "");
  ("ExtensionValue", UserLocationInformationEUTRAExtIEsExtensionValue, "openType,referenceFieldName:Id")].
Definition ProtocolExtensionContainerUserLocationInformationEUTRAExtIEs : gotype := TStruct "ProtocolExtensionContainerUserLocationInformationEUTRAExtIEs" [
  ("List", TSlice UserLocationInformationEUTRAExtIEs, "sizeLB:1,sizeUB:65535")].
Definition UserLocationInformationEUTRA : gotype := TStruct "UserLocationInformationEUTRA" [
  ("EUTRACGI", EUTRACGI, "valueExt"); ("TAI", TAI, "valueExt"); ("TimeStamp", TPtr TimeStamp, "optional");
  ("IEExtensions", TPtr ProtocolExtensionContainerUserLocationInformationEUTRAExtIEs, "optional")].
Definition UserLocationInformationNRExtIEsExtensionValue : gotype := TStruct "UserLocationInformationNRExtIEsExtensionValue" [
  ("Present", TInt 64, "")].
Definition UserLocationInformationNRExtIEs : gotype := TStruct "UserLocationInformationNRExtIEs" [
  ("Id", ProtocolExtensionID, ""); ("Criticality", Criticality, "");
  ("ExtensionValue", UserLocationInformationNRExtIEsExtensionValue, "openType,referenceFieldName:Id")].
Definition ProtocolExtensionContainerUserLocationInformationNRExtIEs : gotype := TStruct "ProtocolExtensionContainerUserLocationInformationNRExtIEs" [
  ("List", TSlice UserLocationInformationNRExtIEs, "sizeLB:1,sizeUB:65535")].
Definition UserLocationInformationNR : gotype := TStruct "UserLocationInformationNR" [
  ("NRCGI", NRCGI, "valueExt"); ("TAI", TAI, "valueExt"); ("TimeStamp", TPtr TimeStamp, "optional");
  ("IEExtensions", TPtr ProtocolExtensionContainerUserLocationInformationNRExtIEs, "optional")].
Definition PortNumber : gotype := TStruct "PortNumber" [("Value", TOctetString, "sizeLB:2,sizeUB:2")].
Definition UserLocationInformationN3IWFExtIEsExtensionValue : gotype := TStruct "UserLocationInformationN3IWFExtIEsExtensionValue" [
  ("Present", TInt 64, "")].
Definition UserLocationInformationN3IWFExtIEs : gotype := TStruct "UserLocationInformationN3IWFExtIEs" [
  ("Id", ProtocolExtensionID, ""); ("Criticality", Criticality, "");
  ("ExtensionValue", UserLocationInformationN3IWFExtIEsExtensionValue, "openType,referenceFieldName:Id")].
Definition ProtocolExtensionContainerUserLocationInformationN3IWFExtIEs : gotype := TStruct "ProtocolExtensionContainerUserLocationInformationN3IWFExtIEs" [
  ("List", TSlice UserLocationInformationN3IWFExtIEs, "sizeLB:1,sizeUB:65535")].
Definition UserLocationInformationN3IWF : gotype := TStruct "UserLocationInformationN3IWF" [
  ("IPAddress", TransportLayerAddress, ""); ("PortNumber", PortNumber, "");
  ("IEExtensions", TPtr ProtocolExtensionContainerUserLocationInformationN3IWFExtIEs, "optional")].
Definition ProtocolIESingleContainerUserLocationInformationExtIEs : gotype := TStruct "ProtocolIESingleContainerUserLocationInformationExtIEs" [].
Definition UserLocationInformation : gotype := TStruct "UserLocationInformation" [
  ("Present", TInt 64, ""); ("UserLocationInformationEUTRA", TPtr UserLocationInformationEUTRA, "valueExt");
  ("UserLocationInformationNR", TPtr UserLocationInformationNR, "valueExt");
  ("UserLocationInformationN3IWF", TPtr UserLocationInformationN3IWF, "valueExt");
  ("ChoiceExtensions", TPtr ProtocolIESingleContainerUserLocationInformationExtIEs, "")].
Definition HandoverNotifyIEsValue : gotype := TStruct "HandoverNotifyIEsValue" [
  ("Present", TInt 64, ""); ("AMFUENGAPID", TPtr AMFUENGAPID, "referenceFieldValue:10");
  ("RANUENGAPID", TPtr RANUENGAPID, "referenceFieldValue:85");
  ("UserLocationInformation", TPtr UserLocationInformation, "referenceFieldValue:121,valueLB:0,valueUB:3")].
Definition HandoverNotifyIEs : gotype := TStruct "HandoverNotifyIEs" [
  ("Id", ProtocolIEID, ""); ("Criticality", Criticality, "");
  ("Value", HandoverNotifyIEsValue, "openType,referenceFieldName:Id")].
Definition ProtocolIEContainerHandoverNotifyIEs : gotype := TStruct "ProtocolIEContainerHandoverNotifyIEs" [
  ("List", TSlice HandoverNotifyIEs, "sizeLB:0,sizeUB:65535")].
Definition HandoverNotify : gotype := TStruct "HandoverNotify" [
  ("ProtocolIEs", ProtocolIEContainerHandoverNotifyIEs, "")].
Definition HandoverPreparationFailureIEsValue : gotype := TStruct "HandoverPreparationFailureIEsValue" [
  ("Present", TInt 64, ""); ("AMFUENGAPID", TPtr AMFUENGAPID, "referenceFieldValue:10");
  ("RANUENGAPID", TPtr RANUENGAPID, "referenceFieldValue:85");
  ("Cause", TPtr Cause, "referenceFieldValue:15,valueLB:0,valueUB:5");
  ("CriticalityDiagnostics", TPtr CriticalityDiagnostics, "valueExt,referenceFieldValue:19")].
Definition HandoverPreparationFailureIEs : gotype := TStruct "HandoverPreparationFailureIEs" [
  ("Id", ProtocolIEID, ""); ("Criticality", Criticality, "");
  ("Value", HandoverPreparationFailureIEsValue, "openType,referenceFieldName:Id")].
Definition ProtocolIEContainerHandoverPreparationFailureIEs : gotype := TStruct "ProtocolIEContainerHandoverPreparationFailureIEs" [
  ("List", TSlice HandoverPreparationFailureIEs, "sizeLB:0,sizeUB:65535")].
Definition HandoverPreparationFailure : gotype := TStruct "HandoverPreparationFailure" [
  ("ProtocolIEs", ProtocolIEContainerHandoverPreparationFailureIEs, "")].
Definition HandoverPreparationUnsuccessfulTransferExtIEsExtensionValue : gotype := TStruct "HandoverPreparationUnsuccessfulTransferExtIEsExtensionValue" [
  ("Present", TInt 64, "")].
Definition HandoverPreparationUnsuccessfulTransferExtIEs : gotype := TStruct "HandoverPreparationUnsuccessfulTransferExtIEs" [
  ("Id", ProtocolExtensionID, ""); ("Criticality", Criticality, "");
  ("ExtensionValue", HandoverPreparationUnsuccessfulTransferExtIEsExtensionValue, "openType,referenceFieldName:Id")].
Definition ProtocolExtensionContainerHandoverPreparationUnsuccessfulTransferExtIEs : gotype := TStruct "ProtocolExtensionContainerHandoverPreparationUnsuccessfulTransferExtIEs" [
  ("List", TSlice HandoverPreparationUnsuccessfulTransferExtIEs, "sizeLB:1,sizeUB:65535")].
Definition HandoverPreparationUnsuccessfulTransfer : gotype := TStruct "HandoverPreparationUnsuccessfulTransfer" [
  ("Cause", Cause, "valueLB:0,valueUB:5");
  ("IEExtensions", TPtr ProtocolExtensionContainerHandoverPreparationUnsuccessfulTransferExtIEs, "optional")].
Definition NRencryptionAlgorithms : gotype := TStruct "NRencryptionAlgorithms" [
  ("Value", TBitString, "sizeExt,sizeLB:16,sizeUB:16")].
Definition NRintegrityProtectionAlgorithms : gotype := TStruct "NRintegrityProtectionAlgorithms" [
  ("Value", TBitString, "sizeExt,sizeLB:16,sizeUB:16")].
Definition UESecurityCapabilitiesExtIEsExtensionValue : gotype := TStruct "UESecurityCapabilitiesExtIEsExtensionValue" [
  ("Present", TInt 64, "")].
Definition UESecurityCapabilitiesExtIEs : gotype := TStruct "UESecurityCapabilitiesExtIEs" [
  ("Id", ProtocolExtensionID, ""); ("Criticality", Criticality, "");
  ("ExtensionValue", UESecurityCapabilitiesExtIEsExtensionValue, "openType,referenceFieldName:Id")].
Definition ProtocolExtensionContainerUESecurityCapabilitiesExtIEs : gotype := TStruct "ProtocolExtensionContainerUESecurityCapabilitiesExtIEs" [
  ("List", TSlice UESecurityCapabilitiesExtIEs, "sizeLB:1,sizeUB:65535")].
Definition UESecurityCapabilities : gotype := TStruct "UESecurityCapabilities" [
  ("NRencryptionAlgorithms", NRencryptionAlgorithms, "");
  ("NRintegrityProtectionAlgorithms", NRintegrityProtectionAlgorithms, "");
  ("EUTRAencryptionAlgorithms", EUTRAencryptionAlgorithms, "");
  ("EUTRAintegrityProtectionAlgorithms", EUTRAintegrityProtectionAlgorithms, "");
  ("IEExtensions", TPtr ProtocolExtensionContainerUESecurityCapabilitiesExtIEs, "optional")].
Definition NextHopChainingCount : gotype := TStruct "NextHopChainingCount" [("Value", TInt 64, "valueLB:0,valueUB:7")].
Definition SecurityKey : gotype := TStruct "SecurityKey" [("Value", TBitString, "sizeLB:256,sizeUB:256")].
Definition SecurityContextExtIEsExtensionValue : gotype := TStruct "SecurityContextExtIEsExtensionValue" [
  ("Present", TInt 64, "")].
Definition SecurityContextExtIEs : gotype := TStruct "SecurityContextExtIEs" [
  ("Id", ProtocolExtensionID, ""); ("Criticality", Criticality, "");
  ("ExtensionValue", SecurityContextExtIEsExtensionValue, "openType,referenceFieldName:Id")].
Definition ProtocolExtensionContainerSecurityContextExtIEs : gotype := TStruct "ProtocolExtensionContainerSecurityContextExtIEs" [
  ("List", TSlice SecurityContextExtIEs, "sizeLB:1,sizeUB:65535")].
Definition SecurityContext : gotype := TStruct "SecurityContext" [
  ("NextHopChainingCount", NextHopChainingCount, ""); ("NextHopNH", SecurityKey, "");
  ("IEExtensions", TPtr ProtocolExtensionContainerSecurityContextExtIEs, "optional")].
Definition NewSecurityContextInd : gotype := TStruct "NewSecurityContextInd" [
  ("Value", TEnumerated, "valueExt,valueLB:0,valueUB:0")].
Definition PDUSessionResourceSetupItemHOReqExtIEsExtensionValue : gotype := TStruct "PDUSessionResourceSetupItemHOReqExtIEsExtensionValue" [
  ("Present", TInt 64, "")].
Definition PDUSessionResourceSetupItemHOReqExtIEs : gotype := TStruct "PDUSessionResourceSetupItemHOReqExtIEs" [
  ("Id", ProtocolExtensionID, ""); ("Criticality", Criticality, "");
  ("ExtensionValue", PDUSessionResourceSetupItemHOReqExtIEsExtensionValue, "openType,referenceFieldName:Id")].
Definition ProtocolExtensionContainerPDUSessionResourceSetupItemHOReqExtIEs : gotype := TStruct "ProtocolExtensionContainerPDUSessionResourceSetupItemHOReqExtIEs" [
  ("List", TSlice PDUSessionResourceSetupItemHOReqExtIEs, "sizeLB:1,sizeUB:65535")].
Definition PDUSessionResourceSetupItemHOReq : gotype := TStruct "PDUSessionResourceSetupItemHOReq" [
  ("PDUSessionID", PDUSessionID, ""); ("SNSSAI", SNSSAI, "valueExt"); ("HandoverRequestTransfer", TOctetString, "");
  ("IEExtensions", TPtr ProtocolExtensionContainerPDUSessionResourceSetupItemHOReqExtIEs, "optional")].
Definition PDUSessionResourceSetupListHOReq : gotype := TStruct "PDUSessionResourceSetupListHOReq" [
  ("List", TSlice PDUSessionResourceSetupItemHOReq, "valueExt,sizeLB:1,sizeUB:256")].
Definition InterfacesToTrace : gotype := TStruct "InterfacesToTrace" [("Value", TBitString, "sizeLB:8,sizeUB:8")].
Definition TraceDepth : gotype := TStruct "TraceDepth" [("Value", TEnumerated, "valueExt,valueLB:0,valueUB:5")].
Definition TraceActivationExtIEsExtensionValue : gotype := TStruct "TraceActivationExtIEsExtensionValue" [
  ("Present", TInt 64, "")].
Definition TraceActivationExtIEs : gotype := TStruct "TraceActivationExtIEs" [
  ("Id", ProtocolExtensionID, ""); ("Criticality", Criticality, "");
  ("ExtensionValue", TraceActivationExtIEsExtensionValue, "openType,referenceFieldName:Id")].
Definition ProtocolExtensionContainerTraceActivationExtIEs : gotype := TStruct "ProtocolExtensionContainerTraceActivationExtIEs" [
  ("List", TSlice TraceActivationExtIEs, "sizeLB:1,sizeUB:65535")].
Definition TraceActivation : gotype := TStruct "TraceActivation" [
  ("NGRANTraceID", NGRANTraceID, ""); ("InterfacesToTrace", InterfacesToTrace, ""); ("TraceDepth", TraceDepth, "");
  ("TraceCollectionEntityIPAddress", TransportLayerAddress, "");
  ("IEExtensions", TPtr ProtocolExtensionContainerTraceActivationExtIEs, "optional")].
Definition MaskedIMEISV : gotype := TStruct "MaskedIMEISV" [("Value", TBitString, "sizeLB:64,sizeUB:64")].
Definition SourceToTargetTransparentContainer : gotype := TStruct "SourceToTargetTransparentContainer" [
  ("Value", TOctetString, "")].
Definition ReportArea : gotype := TStruct "ReportArea" [("Value", TEnumerated, "valueExt,valueLB:0,valueUB:0")].
Definition LocationReportingRequestTypeExtIEsExtensionValue : gotype := TStruct "LocationReportingRequestTypeExtIEsExtensionValue" [
  ("Present", TInt 64, "")].
Definition LocationReportingRequestTypeExtIEs : gotype := TStruct "LocationReportingRequestTypeExtIEs" [
  ("Id", ProtocolExtensionID, ""); ("Criticality", Criticality, "");
  ("ExtensionValue", LocationReportingRequestTypeExtIEsExtensionValue, "openType,referenceFieldName:Id")].
Definition ProtocolExtensionContainerLocationReportingRequestTypeExtIEs : gotype := TStruct "ProtocolExtensionContainerLocationReportingRequestTypeExtIEs" [
  ("List", TSlice LocationReportingRequestTypeExtIEs, "sizeLB:1,sizeUB:65535")].
Definition LocationReportingRequestType : gotype := TStruct "LocationReportingRequestType" [
  ("EventType", EventType, ""); ("ReportArea", ReportArea, "");
  ("AreaOfInterestList", TPtr AreaOfInterestList, "optional");
  ("LocationReportingReferenceIDToBeCancelled", TPtr LocationReportingReferenceID, "optional");
  ("IEExtensions", TPtr ProtocolExtensionContainerLocationReportingRequestTypeExtIEs, "optional")].
Definition RRCInactiveTransitionReportRequest : gotype := TStruct "RRCInactiveTransitionReportRequest" [
  ("Value", TEnumerated, "valueExt,valueLB:0,valueUB:2")].
Definition HandoverRequestIEsValue : gotype := TStruct "HandoverRequestIEsValue" [
  ("Present", TInt 64, ""); ("AMFUENGAPID", TPtr AMFUENGAPID, "referenceFieldValue:10");
  ("HandoverType", TPtr HandoverType, "referenceFieldValue:29");
  ("Cause", TPtr Cause, "referenceFieldValue:15,valueLB:0,valueUB:5");
  ("UEAggregateMaximumBitRate", TPtr UEAggregateMaximumBitRate, "valueExt,referenceFieldValue:110");
  ("CoreNetworkAssistanceInformation", TPtr CoreNetworkAssistanceInformation, "valueExt,referenceFieldValue:18");
  ("UESecurityCapabilities", TPtr UESecurityCapabilities, "valueExt,referenceFieldValue:119");
  ("SecurityContext", TPtr SecurityContext, "valueExt,referenceFieldValue:93");
  ("NewSecurityContextInd", TPtr NewSecurityContextInd, "referenceFieldValue:41");
  ("NASC", TPtr NASPDU, "referenceFieldValue:37");
  ("PDUSessionResourceSetupListHOReq", TPtr PDUSessionResourceSetupListHOReq, "referenceFieldValue:73");
  ("AllowedNSSAI", TPtr AllowedNSSAI, "referenceFieldValue:0");
  ("TraceActivation", TPtr TraceActivation, "valueExt,referenceFieldValue:108");
  ("MaskedIMEISV", TPtr MaskedIMEISV, "referenceFieldValue:34");
  ("SourceToTargetTransparentContainer", TPtr SourceToTargetTransparentContainer, "referenceFieldValue:101");
  ("MobilityRestrictionList", TPtr MobilityRestrictionList, "valueExt,referenceFieldValue:36");
  ("LocationReportingRequestType", TPtr LocationReportingRequestType, "valueExt,referenceFieldValue:33");
  ("RRCInactiveTransitionReportRequest", TPtr RRCInactiveTransitionReportRequest, "referenceFieldValue:91");
  ("GUAMI", TPtr GUAMI, "valueExt,referenceFieldValue:28")].
Definition HandoverRequestIEs : gotype := TStruct "HandoverRequestIEs" [
  ("Id", ProtocolIEID, ""); ("Criticality", Criticality, "");
  ("Value", HandoverRequestIEsValue, "openType,referenceFieldName:Id")].
Definition ProtocolIEContainerHandoverRequestIEs : gotype := TStruct "ProtocolIEContainerHandoverRequestIEs" [
  ("List", TSlice HandoverRequestIEs, "sizeLB:0,sizeUB:65535")].
Definition HandoverRequest : gotype := TStruct "HandoverRequest" [
  ("ProtocolIEs", ProtocolIEContainerHandoverRequestIEs, "")].
Definition PDUSessionResourceAdmittedItemExtIEsExtensionValue : gotype := TStruct "PDUSessionResourceAdmittedItemExtIEsExtensionValue" [
  ("Present", TInt 64, "")].
Definition PDUSessionResourceAdmittedItemExtIEs : gotype := TStruct "PDUSessionResourceAdmittedItemExtIEs" [
  ("Id", ProtocolExtensionID, ""); ("Criticality", Criticality, "");
  ("ExtensionValue", PDUSessionResourceAdmittedItemExtIEsExtensionValue, "openType,referenceFieldName:Id")].
Definition ProtocolExtensionContainerPDUSessionResourceAdmittedItemExtIEs : gotype := TStruct "ProtocolExtensionContainerPDUSessionResourceAdmittedItemExtIEs" [
  ("List", TSlice PDUSessionResourceAdmittedItemExtIEs, "sizeLB:1,sizeUB:65535")].
Definition PDUSessionResourceAdmittedItem : gotype := TStruct "PDUSessionResourceAdmittedItem" [
  ("PDUSessionID", PDUSessionID, ""); ("HandoverRequestAcknowledgeTransfer", TOctetString, "");
  ("IEExtensions", TPtr ProtocolExtensionContainerPDUSessionResourceAdmittedItemExtIEs, "optional")].
Definition PDUSessionResourceAdmittedList : gotype := TStruct "PDUSessionResourceAdmittedList" [
  ("List", TSlice PDUSessionResourceAdmittedItem, "valueExt,sizeLB:1,sizeUB:256")].
Definition PDUSessionResourceFailedToSetupItemHOAckExtIEsExtensionValue : gotype := TStruct "PDUSessionResourceFailedToSetupItemHOAckExtIEsExtensionValue" [
  ("Present", TInt 64, "")].
Definition PDUSessionResourceFailedToSetupItemHOAckExtIEs : gotype := TStruct "PDUSessionResourceFailedToSetupItemHOAckExtIEs" [
  ("Id", ProtocolExtensionID, ""); ("Criticality", Criticality, "");
  ("ExtensionValue", PDUSessionResourceFailedToSetupItemHOAckExtIEsExtensionValue, "openType,referenceFieldName:Id")].
Definition ProtocolExtensionContainerPDUSessionResourceFailedToSetupItemHOAckExtIEs : gotype := TStruct "ProtocolExtensionContainerPDUSessionResourceFailedToSetupItemHOAckExtIEs" [
  ("List", TSlice PDUSessionResourceFailedToSetupItemHOAckExtIEs, "sizeLB:1,sizeUB:65535")].
Definition PDUSessionResourceFailedToSetupItemHOAck : gotype := TStruct "PDUSessionResourceFailedToSetupItemHOAck" [
  ("PDUSessionID", PDUSessionID, ""); ("HandoverResourceAllocationUnsuccessfulTransfer", TOctetString, "");
  ("IEExtensions", TPtr ProtocolExtensionContainerPDUSessionResourceFailedToSetupItemHOAckExtIEs, "optional")].
Definition PDUSessionResourceFailedToSetupListHOAck : gotype := TStruct "PDUSessionResourceFailedToSetupListHOAck" [
  ("List", TSlice PDUSessionResourceFailedToSetupItemHOAck, "valueExt,sizeLB:1,sizeUB:256")].
Definition HandoverRequestAcknowledgeIEsValue : gotype := TStruct "HandoverRequestAcknowledgeIEsValue" [
  ("Present", TInt 64, ""); ("AMFUENGAPID", TPtr AMFUENGAPID, "referenceFieldValue:10");
  ("RANUENGAPID", TPtr RANUENGAPID, "referenceFieldValue:85");
  ("PDUSessionResourceAdmittedList", TPtr PDUSessionResourceAdmittedList, "referenceFieldValue:53");
  ("PDUSessionResourceFailedToSetupListHOAck", TPtr PDUSessionResourceFailedToSetupListHOAck, "referenceFieldValue:56");
  ("TargetToSourceTransparentContainer", TPtr TargetToSourceTransparentContainer, "referenceFieldValue:106");
  ("CriticalityDiagnostics", TPtr CriticalityDiagnostics, "valueExt,referenceFieldValue:19")].
Definition HandoverRequestAcknowledgeIEs : gotype := TStruct "HandoverRequestAcknowledgeIEs" [
  ("Id", ProtocolIEID, ""); ("Criticality", Criticality, "");
  ("Value", HandoverRequestAcknowledgeIEsValue, "openType,referenceFieldName:Id")].
Definition ProtocolIEContainerHandoverRequestAcknowledgeIEs : gotype := TStruct "ProtocolIEContainerHandoverRequestAcknowledgeIEs" [
  ("List", TSlice HandoverRequestAcknowledgeIEs, "sizeLB:0,sizeUB:65535")].
Definition HandoverRequestAcknowledge : gotype := TStruct "HandoverRequestAcknowledge" [
  ("ProtocolIEs", ProtocolIEContainerHandoverRequestAcknowledgeIEs, "")].
Definition IntegrityProtectionResult : gotype := TStruct "IntegrityProtectionResult" [
  ("Value", TEnumerated, "valueExt,valueLB:0,valueUB:1")].
Definition SecurityResultExtIEsExtensionValue : gotype := TStruct "SecurityResultExtIEsExtensionValue" [
  ("Present", TInt 64, "")].
Definition SecurityResultExtIEs : gotype := TStruct "SecurityResultExtIEs" [
  ("Id", ProtocolExtensionID, ""); ("Criticality", Criticality, "");
  ("ExtensionValue", SecurityResultExtIEsExtensionValue, "openType,referenceFieldName:Id")].
Definition ProtocolExtensionContainerSecurityResultExtIEs : gotype := TStruct "ProtocolExtensionContainerSecurityResultExtIEs" [
  ("List", TSlice SecurityResultExtIEs, "sizeLB:1,sizeUB:65535")].
Definition SecurityResult : gotype := TStruct "SecurityResult" [
  ("IntegrityProtectionResult", IntegrityProtectionResult, "");
  ("ConfidentialityProtectionResult", ConfidentialityProtectionResult, "");
  ("IEExtensions", TPtr ProtocolExtensionContainerSecurityResultExtIEs, "optional")].
Definition QosFlowSetupResponseItemHOReqAckExtIEsExtensionValue : gotype := TStruct "QosFlowSetupResponseItemHOReqAckExtIEsExtensionValue" [
  ("Present", TInt 64, "")].
Definition QosFlowSetupResponseItemHOReqAckExtIEs : gotype := TStruct "QosFlowSetupResponseItemHOReqAckExtIEs" [
  ("Id", ProtocolExtensionID, ""); ("Criticality", Criticality, "");
  ("ExtensionValue", QosFlowSetupResponseItemHOReqAckExtIEsExtensionValue, "openType,referenceFieldName:Id")].
Definition ProtocolExtensionContainerQosFlowSetupResponseItemHOReqAckExtIEs : gotype := TStruct "ProtocolExtensionContainerQosFlowSetupResponseItemHOReqAckExtIEs" [
  ("List", TSlice QosFlowSetupResponseItemHOReqAckExtIEs, "sizeLB:1,sizeUB:65535")].
Definition QosFlowSetupResponseItemHOReqAck : gotype := TStruct "QosFlowSetupResponseItemHOReqAck" [
  ("QosFlowIdentifier", QosFlowIdentifier, ""); ("DataForwardingAccepted", TPtr DataForwardingAccepted, "optional");
  ("IEExtensions", TPtr ProtocolExtensionContainerQosFlowSetupResponseItemHOReqAckExtIEs, "optional")].
Definition QosFlowSetupResponseListHOReqAck : gotype := TStruct "QosFlowSetupResponseListHOReqAck" [
  ("List", TSlice QosFlowSetupResponseItemHOReqAck, "valueExt,sizeLB:1,sizeUB:64")].
Definition QosFlowItemExtIEsExtensionValue : gotype := TStruct "QosFlowItemExtIEsExtensionValue" [
  ("Present", TInt 64, "")].
Definition QosFlowItemExtIEs : gotype := TStruct "QosFlowItemExtIEs" [
  ("Id", ProtocolExtensionID, ""); ("Criticality", Criticality, "");
  ("ExtensionValue", QosFlowItemExtIEsExtensionValue, "openType,referenceFieldName:Id")].
Definition ProtocolExtensionContainerQosFlowItemExtIEs : gotype := TStruct "ProtocolExtensionContainerQosFlowItemExtIEs" [
  ("List", TSlice QosFlowItemExtIEs, "sizeLB:1,sizeUB:65535")].
Definition QosFlowItem : gotype := TStruct "QosFlowItem" [
  ("QosFlowIdentifier", QosFlowIdentifier, ""); ("Cause", Cause, "valueLB:0,valueUB:5");
  ("IEExtensions", TPtr ProtocolExtensionContainerQosFlowItemExtIEs, "optional")].
Definition QosFlowList : gotype := TStruct "QosFlowList" [("List", TSlice QosFlowItem, "valueExt,sizeLB:1,sizeUB:64")].
Definition HandoverRequestAcknowledgeTransferExtIEsExtensionValue : gotype := TStruct "HandoverRequestAcknowledgeTransferExtIEsExtensionValue" [
  ("Present", TInt 64, "")].
Definition HandoverRequestAcknowledgeTransferExtIEs : gotype := TStruct "HandoverRequestAcknowledgeTransferExtIEs" [
  ("Id", ProtocolExtensionID, ""); ("Criticality", Criticality, "");
  ("ExtensionValue", HandoverRequestAcknowledgeTransferExtIEsExtensionValue, "openType,referenceFieldName:Id")].
Definition ProtocolExtensionContainerHandoverRequestAcknowledgeTransferExtIEs : gotype := TStruct "ProtocolExtensionContainerHandoverRequestAcknowledgeTransferExtIEs" [
  ("List", TSlice HandoverRequestAcknowledgeTransferExtIEs, "sizeLB:1,sizeUB:65535")].
Definition HandoverRequestAcknowledgeTransfer : gotype := TStruct "HandoverRequestAcknowledgeTransfer" [
  ("DLNGUUPTNLInformation", UPTransportLayerInformation, "valueLB:0,valueUB:1");
  ("DLForwardingUPTNLInformation", TPtr UPTransportLayerInformation, "valueLB:0,valueUB:1,optional");
  ("SecurityResult", TPtr SecurityResult, "valueExt,optional");
  ("QosFlowSetupResponseList", QosFlowSetupResponseListHOReqAck, "");
  ("QosFlowFailedToSetupList", TPtr QosFlowList, "optional");
  ("DataForwardingResponseDRBList", TPtr DataForwardingResponseDRBList, "optional");
  ("IEExtensions", TPtr ProtocolExtensionContainerHandoverRequestAcknowledgeTransferExtIEs, "optional")].
Definition TargeteNBIDExtIEsExtensionValue : gotype := TStruct "TargeteNBIDExtIEsExtensionValue" [
  ("Present", TInt 64, "")].
Definition TargeteNBIDExtIEs : gotype := TStruct "TargeteNBIDExtIEs" [
  ("Id", ProtocolExtensionID, ""); ("Criticality", Criticality, "");
  ("ExtensionValue", TargeteNBIDExtIEsExtensionValue, "openType,referenceFieldName:Id")].
Definition ProtocolExtensionContainerTargeteNBIDExtIEs : gotype := TStruct "ProtocolExtensionContainerTargeteNBIDExtIEs" [
  ("List", TSlice TargeteNBIDExtIEs, "sizeLB:1,sizeUB:65535")].
Definition TargeteNBID : gotype := TStruct "TargeteNBID" [
  ("GlobalENBID", GlobalNgENBID, "valueExt"); ("SelectedEPSTAI", EPSTAI, "valueExt");
  ("IEExtensions", TPtr ProtocolExtensionContainerTargeteNBIDExtIEs, "optional")].
Definition ProtocolIESingleContainerTargetIDExtIEs : gotype := TStruct "ProtocolIESingleContainerTargetIDExtIEs" [].
Definition TargetID : gotype := TStruct "TargetID" [
  ("Present", TInt 64, ""); ("TargetRANNodeID", TPtr TargetRANNodeID, "valueExt");
  ("TargeteNBID", TPtr TargeteNBID, "valueExt");
  ("ChoiceExtensions", TPtr ProtocolIESingleContainerTargetIDExtIEs, "")].
Definition PDUSessionResourceItemHORqdExtIEsExtensionValue : gotype := TStruct "PDUSessionResourceItemHORqdExtIEsExtensionValue" [
  ("Present", TInt 64, "")].
Definition PDUSessionResourceItemHORqdExtIEs : gotype := TStruct "PDUSessionResourceItemHORqdExtIEs" [
  ("Id", ProtocolExtensionID, ""); ("Criticality", Criticality, "");
  ("ExtensionValue", PDUSessionResourceItemHORqdExtIEsExtensionValue, "openType,referenceFieldName:Id")].
Definition ProtocolExtensionContainerPDUSessionResourceItemHORqdExtIEs : gotype := TStruct "ProtocolExtensionContainerPDUSessionResourceItemHORqdExtIEs" [
  ("List", TSlice PDUSessionResourceItemHORqdExtIEs, "sizeLB:1,sizeUB:65535")].
Definition PDUSessionResourceItemHORqd : gotype := TStruct "PDUSessionResourceItemHORqd" [
  ("PDUSessionID", PDUSessionID, ""); ("HandoverRequiredTransfer", TOctetString, "");
  ("IEExtensions", TPtr ProtocolExtensionContainerPDUSessionResourceItemHORqdExtIEs, "optional")].
Definition PDUSessionResourceListHORqd : gotype := TStruct "PDUSessionResourceListHORqd" [
  ("List", TSlice PDUSessionResourceItemHORqd, "valueExt,sizeLB:1,sizeUB:256")].
Definition HandoverRequiredIEsValue : gotype := TStruct "HandoverRequiredIEsValue" [
  ("Present", TInt 64, ""); ("AMFUENGAPID", TPtr AMFUENGAPID, "referenceFieldValue:10");
  ("RANUENGAPID", TPtr RANUENGAPID, "referenceFieldValue:85");
  ("HandoverType", TPtr HandoverType, "referenceFieldValue:29");
  ("Cause", TPtr Cause, "referenceFieldValue:15,valueLB:0,valueUB:5");
  ("TargetID", TPtr TargetID, "referenceFieldValue:105,valueLB:0,valueUB:2");
  ("DirectForwardingPathAvailability", TPtr DirectForwardingPathAvailability, "referenceFieldValue:22");
  ("PDUSessionResourceListHORqd", TPtr PDUSessionResourceListHORqd, "referenceFieldValue:61");
  ("SourceToTargetTransparentContainer", TPtr SourceToTargetTransparentContainer, "referenceFieldValue:101")].
Definition HandoverRequiredIEs : gotype := TStruct "HandoverRequiredIEs" [
  ("Id", ProtocolIEID, ""); ("Criticality", Criticality, "");
  ("Value", HandoverRequiredIEsValue, "openType,referenceFieldName:Id")].
Definition ProtocolIEContainerHandoverRequiredIEs : gotype := TStruct "ProtocolIEContainerHandoverRequiredIEs" [
  ("List", TSlice HandoverRequiredIEs, "sizeLB:0,sizeUB:65535")].
Definition HandoverRequired : gotype := TStruct "HandoverRequired" [
  ("ProtocolIEs", ProtocolIEContainerHandoverRequiredIEs, "")].
Definition HandoverRequiredTransferExtIEsExtensionValue : gotype := TStruct "HandoverRequiredTransferExtIEsExtensionValue" [
  ("Present", TInt 64, "")].
Definition HandoverRequiredTransferExtIEs : gotype := TStruct "HandoverRequiredTransferExtIEs" [
  ("Id", ProtocolExtensionID, ""); ("Criticality", Criticality, "");
  ("ExtensionValue", HandoverRequiredTransferExtIEsExtensionValue, "openType,referenceFieldName:Id")].
Definition ProtocolExtensionContainerHandoverRequiredTransferExtIEs : gotype := TStruct "ProtocolExtensionContainerHandoverRequiredTransferExtIEs" [
  ("List", TSlice HandoverRequiredTransferExtIEs, "sizeLB:1,sizeUB:65535")].
Definition HandoverRequiredTransfer : gotype := TStruct "HandoverRequiredTransfer" [
  ("DirectForwardingPathAvailability", TPtr DirectForwardingPathAvailability, "optional");
  ("IEExtensions", TPtr ProtocolExtensionContainerHandoverRequiredTransferExtIEs, "optional")].
Definition HandoverResourceAllocationUnsuccessfulTransferExtIEsExtensionValue : gotype := TStruct "HandoverResourceAllocationUnsuccessfulTransferExtIEsExtensionValue" [
  ("Present", TInt 64, "")].
Definition HandoverResourceAllocationUnsuccessfulTransferExtIEs : gotype := TStruct "HandoverResourceAllocationUnsuccessfulTransferExtIEs" [
  ("Id", ProtocolExtensionID, ""); ("Criticality", Criticality, "");
  ("ExtensionValue", HandoverResourceAllocationUnsuccessfulTransferExtIEsExtensionValue, "openType,referenceFieldName:Id")].
Definition ProtocolExtensionContainerHandoverResourceAllocationUnsuccessfulTransferExtIEs : gotype := TStruct "ProtocolExtensionContainerHandoverResourceAllocationUnsuccessfulTransferExtIEs" [
  ("List", TSlice HandoverResourceAllocationUnsuccessfulTransferExtIEs, "sizeLB:1,sizeUB:65535")].
Definition HandoverResourceAllocationUnsuccessfulTransfer : gotype := TStruct "HandoverResourceAllocationUnsuccessfulTransfer" [
  ("Cause", Cause, "valueLB:0,valueUB:5");
  ("CriticalityDiagnostics", TPtr CriticalityDiagnostics, "valueExt,optional");
  ("IEExtensions", TPtr ProtocolExtensionContainerHandoverResourceAllocationUnsuccessfulTransferExtIEs, "optional")].
Definition IMSVoiceSupportIndicator : gotype := TStruct "IMSVoiceSupportIndicator" [
  ("Value", TEnumerated, "valueExt,valueLB:0,valueUB:1")].
Definition RecommendedRANNodeItemExtIEsExtensionValue : gotype := TStruct "RecommendedRANNodeItemExtIEsExtensionValue" [
  ("Present", TInt 64, "")].
Definition RecommendedRANNodeItemExtIEs : gotype := TStruct "RecommendedRANNodeItemExtIEs" [
  ("Id", ProtocolExtensionID, ""); ("Criticality", Criticality, "");
  ("ExtensionValue", RecommendedRANNodeItemExtIEsExtensionValue, "openType,referenceFieldName:Id")].
Definition ProtocolExtensionContainerRecommendedRANNodeItemExtIEs : gotype := TStruct "ProtocolExtensionContainerRecommendedRANNodeItemExtIEs" [
  ("List", TSlice RecommendedRANNodeItemExtIEs, "sizeLB:1,sizeUB:65535")].
Definition RecommendedRANNodeItem : gotype := TStruct "RecommendedRANNodeItem" [
  ("AMFPagingTarget", AMFPagingTarget, "valueLB:0,valueUB:2");
  ("IEExtensions", TPtr ProtocolExtensionContainerRecommendedRANNodeItemExtIEs, "optional")].
Definition RecommendedRANNodeList : gotype := TStruct "RecommendedRANNodeList" [
  ("List", TSlice RecommendedRANNodeItem, "valueExt,sizeLB:1,sizeUB:16")].
Definition RecommendedRANNodesForPagingExtIEsExtensionValue : gotype := TStruct "RecommendedRANNodesForPagingExtIEsExtensionValue" [
  ("Present", TInt 64, "")].
Definition RecommendedRANNodesForPagingExtIEs : gotype := TStruct "RecommendedRANNodesForPagingExtIEs" [
  ("Id", ProtocolExtensionID, ""); ("Criticality", Criticality, "");
  ("ExtensionValue", RecommendedRANNodesForPagingExtIEsExtensionValue, "openType,referenceFieldName:Id")].
Definition ProtocolExtensionContainerRecommendedRANNodesForPagingExtIEs : gotype := TStruct "ProtocolExtensionContainerRecommendedRANNodesForPagingExtIEs" [
  ("List", TSlice RecommendedRANNodesForPagingExtIEs, "sizeLB:1,sizeUB:65535")].
Definition RecommendedRANNodesForPaging : gotype := TStruct "RecommendedRANNodesForPaging" [
  ("RecommendedRANNodeList", RecommendedRANNodeList, "");
  ("IEExtensions", TPtr ProtocolExtensionContainerRecommendedRANNodesForPagingExtIEs, "optional")].
Definition InfoOnRecommendedCellsAndRANNodesForPagingExtIEsExtensionValue : gotype := TStruct "InfoOnRecommendedCellsAndRANNodesForPagingExtIEsExtensionValue" [
  ("Present", TInt 64, "")].
Definition InfoOnRecommendedCellsAndRANNodesForPagingExtIEs : gotype := TStruct "InfoOnRecommendedCellsAndRANNodesForPagingExtIEs" [
  ("Id", ProtocolExtensionID, ""); ("Criticality", Criticality, "");
  ("ExtensionValue", InfoOnRecommendedCellsAndRANNodesForPagingExtIEsExtensionValue, "openType,referenceFieldName:Id")].
Definition ProtocolExtensionContainerInfoOnRecommendedCellsAndRANNodesForPagingExtIEs : gotype := TStruct "ProtocolExtensionContainerInfoOnRecommendedCellsAndRANNodesForPagingExtIEs" [
  ("List", TSlice InfoOnRecommendedCellsAndRANNodesForPagingExtIEs, "sizeLB:1,sizeUB:65535")].
Definition InfoOnRecommendedCellsAndRANNodesForPaging : gotype := TStruct "InfoOnRecommendedCellsAndRANNodesForPaging" [
  ("RecommendedCellsForPaging", RecommendedCellsForPaging, "valueExt");
  ("RecommendRANNodesForPaging", RecommendedRANNodesForPaging, "valueExt");
  ("IEExtensions", TPtr ProtocolExtensionContainerInfoOnRecommendedCellsAndRANNodesForPagingExtIEs, "optional")].
Definition PDUSessionResourceFailedToSetupItemCxtFailExtIEsExtensionValue : gotype := TStruct "PDUSessionResourceFailedToSetupItemCxtFailExtIEsExtensionValue" [
  ("Present", TInt 64, "")].
Definition PDUSessionResourceFailedToSetupItemCxtFailExtIEs : gotype := TStruct "PDUSessionResourceFailedToSetupItemCxtFailExtIEs" [
  ("Id", ProtocolExtensionID, ""); ("Criticality", Criticality, "");
  ("ExtensionValue", PDUSessionResourceFailedToSetupItemCxtFailExtIEsExtensionValue, "openType,referenceFieldName:Id")].
Definition ProtocolExtensionContainerPDUSessionResourceFailedToSetupItemCxtFailExtIEs : gotype := TStruct "ProtocolExtensionContainerPDUSessionResourceFailedToSetupItemCxtFailExtIEs" [
  ("List", TSlice PDUSessionResourceFailedToSetupItemCxtFailExtIEs, "sizeLB:1,sizeUB:65535")].
Definition PDUSessionResourceFailedToSetupItemCxtFail : gotype := TStruct "PDUSessionResourceFailedToSetupItemCxtFail" [
  ("PDUSessionID", PDUSessionID, ""); ("PDUSessionResourceSetupUnsuccessfulTransfer", TOctetString, "");
  ("IEExtensions", TPtr ProtocolExtensionContainerPDUSessionResourceFailedToSetupItemCxtFailExtIEs, "optional")].
Definition PDUSessionResourceFailedToSetupListCxtFail : gotype := TStruct "PDUSessionResourceFailedToSetupListCxtFail" [
  ("List", TSlice PDUSessionResourceFailedToSetupItemCxtFail, "valueExt,sizeLB:1,sizeUB:256")].
Definition InitialContextSetupFailureIEsValue : gotype := TStruct "InitialContextSetupFailureIEsValue" [
  ("Present", TInt 64, ""); ("AMFUENGAPID", TPtr AMFUENGAPID, "referenceFieldValue:10");
  ("RANUENGAPID", TPtr RANUENGAPID, "referenceFieldValue:85");
  ("PDUSessionResourceFailedToSetupListCxtFail", TPtr PDUSessionResourceFailedToSetupListCxtFail, "referenceFieldValue:132");
  ("Cause", TPtr Cause, "referenceFieldValue:15,valueLB:0,valueUB:5");
  ("CriticalityDiagnostics", TPtr CriticalityDiagnostics, "valueExt,referenceFieldValue:19")].
Definition InitialContextSetupFailureIEs : gotype := TStruct "InitialContextSetupFailureIEs" [
  ("Id", ProtocolIEID, ""); ("Criticality", Criticality, "");
  ("Value", InitialContextSetupFailureIEsValue, "openType,referenceFieldName:Id")].
Definition ProtocolIEContainerInitialContextSetupFailureIEs : gotype := TStruct "ProtocolIEContainerInitialContextSetupFailureIEs" [
  ("List", TSlice InitialContextSetupFailureIEs, "sizeLB:0,sizeUB:65535")].
Definition InitialContextSetupFailure : gotype := TStruct "InitialContextSetupFailure" [
  ("ProtocolIEs", ProtocolIEContainerInitialContextSetupFailureIEs, "")].
Definition PDUSessionResourceSetupItemCxtReqExtIEsExtensionValue : gotype := TStruct "PDUSessionResourceSetupItemCxtReqExtIEsExtensionValue" [
  ("Present", TInt 64, "")].
Definition PDUSessionResourceSetupItemCxtReqExtIEs : gotype := TStruct "PDUSessionResourceSetupItemCxtReqExtIEs" [
  ("Id", ProtocolExtensionID, ""); ("Criticality", Criticality, "");
  ("ExtensionValue", PDUSessionResourceSetupItemCxtReqExtIEsExtensionValue, "openType,referenceFieldName:Id")].
Definition ProtocolExtensionContainerPDUSessionResourceSetupItemCxtReqExtIEs : gotype := TStruct "ProtocolExtensionContainerPDUSessionResourceSetupItemCxtReqExtIEs" [
  ("List", TSlice PDUSessionResourceSetupItemCxtReqExtIEs, "sizeLB:1,sizeUB:65535")].
Definition PDUSessionResourceSetupItemCxtReq : gotype := TStruct "PDUSessionResourceSetupItemCxtReq" [
  ("PDUSessionID", PDUSessionID, ""); ("NASPDU", TPtr NASPDU, "optional"); ("SNSSAI", SNSSAI, "valueExt");
  ("PDUSessionResourceSetupRequestTransfer", TOctetString, "");
  ("IEExtensions", TPtr ProtocolExtensionContainerPDUSessionResourceSetupItemCxtReqExtIEs, "optional")].
Definition PDUSessionResourceSetupListCxtReq : gotype := TStruct "PDUSessionResourceSetupListCxtReq" [
  ("List", TSlice PDUSessionResourceSetupItemCxtReq, "valueExt,sizeLB:1,sizeUB:256")].
Definition UERadioCapability : gotype := TStruct "UERadioCapability" [("Value", TOctetString, "")].
Definition UERadioCapabilityForPagingOfNR : gotype := TStruct "UERadioCapabilityForPagingOfNR" [
  ("Value", TOctetString, "")].
Definition UERadioCapabilityForPagingOfEUTRA : gotype := TStruct "UERadioCapabilityForPagingOfEUTRA" [
  ("Value", TOctetString, "")].
Definition UERadioCapabilityForPagingExtIEsExtensionValue : gotype := TStruct "UERadioCapabilityForPagingExtIEsExtensionValue" [
  ("Present", TInt 64, "")].
Definition UERadioCapabilityForPagingExtIEs : gotype := TStruct "UERadioCapabilityForPagingExtIEs" [
  ("Id", ProtocolExtensionID, ""); ("Criticality", Criticality, "");
  ("ExtensionValue", UERadioCapabilityForPagingExtIEsExtensionValue, "openType,referenceFieldName:Id")].
Definition ProtocolExtensionContainerUERadioCapabilityForPagingExtIEs : gotype := TStruct "ProtocolExtensionContainerUERadioCapabilityForPagingExtIEs" [
  ("List", TSlice UERadioCapabilityForPagingExtIEs, "sizeLB:1,sizeUB:65535")].
Definition UERadioCapabilityForPaging : gotype := TStruct "UERadioCapabilityForPaging" [
  ("UERadioCapabilityForPagingOfNR", TPtr UERadioCapabilityForPagingOfNR, "optional");
  ("UERadioCapabilityForPagingOfEUTRA", TPtr UERadioCapabilityForPagingOfEUTRA, "optional");
  ("IEExtensions", TPtr ProtocolExtensionContainerUERadioCapabilityForPagingExtIEs, "optional")].
Definition InitialContextSetupRequestIEsValue : gotype := TStruct "InitialContextSetupRequestIEsValue" [
  ("Present", TInt 64, ""); ("AMFUENGAPID", TPtr AMFUENGAPID, "referenceFieldValue:10");
  ("RANUENGAPID", TPtr RANUENGAPID, "referenceFieldValue:85"); ("OldAMF", TPtr AMFName, "referenceFieldValue:48");
  ("UEAggregateMaximumBitRate", TPtr UEAggregateMaximumBitRate, "valueExt,referenceFieldValue:110");
  ("CoreNetworkAssistanceInformation", TPtr CoreNetworkAssistanceInformation, "valueExt,referenceFieldValue:18");
  ("GUAMI", TPtr GUAMI, "valueExt,referenceFieldValue:28");
  ("PDUSessionResourceSetupListCxtReq", TPtr PDUSessionResourceSetupListCxtReq, "referenceFieldValue:71");
  ("AllowedNSSAI", TPtr AllowedNSSAI, "referenceFieldValue:0");
  ("UESecurityCapabilities", TPtr UESecurityCapabilities, "valueExt,referenceFieldValue:119");
  ("SecurityKey", TPtr SecurityKey, "referenceFieldValue:94");
  ("TraceActivation", TPtr TraceActivation, "valueExt,referenceFieldValue:108");
  ("MobilityRestrictionList", TPtr MobilityRestrictionList, "valueExt,referenceFieldValue:36");
  ("UERadioCapability", TPtr UERadioCapability, "referenceFieldValue:117");
  ("IndexToRFSP", TPtr IndexToRFSP, "referenceFieldValue:31");
  ("MaskedIMEISV", TPtr MaskedIMEISV, "referenceFieldValue:34"); ("NASPDU", TPtr NASPDU, "referenceFieldValue:38");
  ("EmergencyFallbackIndicator", TPtr EmergencyFallbackIndicator, "valueExt,referenceFieldValue:24");
  ("RRCInactiveTransitionReportRequest", TPtr RRCInactiveTransitionReportRequest, "referenceFieldValue:91");
  ("UERadioCapabilityForPaging", TPtr UERadioCapabilityForPaging, "valueExt,referenceFieldValue:118")].
Definition InitialContextSetupRequestIEs : gotype := TStruct "InitialContextSetupRequestIEs" [
  ("Id", ProtocolIEID, ""); ("Criticality", Criticality, "");
  ("Value", InitialContextSetupRequestIEsValue, "openType,referenceFieldName:Id")].
Definition ProtocolIEContainerInitialContextSetupRequestIEs : gotype := TStruct "ProtocolIEContainerInitialContextSetupRequestIEs" [
  ("List", TSlice InitialContextSetupRequestIEs, "sizeLB:0,sizeUB:65535")].
Definition InitialContextSetupRequest : gotype := TStruct "InitialContextSetupRequest" [
  ("ProtocolIEs", ProtocolIEContainerInitialContextSetupRequestIEs, "")].
Definition PDUSessionResourceSetupItemCxtResExtIEsExtensionValue : gotype := TStruct "PDUSessionResourceSetupItemCxtResExtIEsExtensionValue" [
  ("Present", TInt 64, "")].
Definition PDUSessionResourceSetupItemCxtResExtIEs : gotype := TStruct "PDUSessionResourceSetupItemCxtResExtIEs" [
  ("Id", ProtocolExtensionID, ""); ("Criticality", Criticality, "");
  ("ExtensionValue", PDUSessionResourceSetupItemCxtResExtIEsExtensionValue, "openType,referenceFieldName:Id")].
Definition ProtocolExtensionContainerPDUSessionResourceSetupItemCxtResExtIEs : gotype := TStruct "ProtocolExtensionContainerPDUSessionResourceSetupItemCxtResExtIEs" [
  ("List", TSlice PDUSessionResourceSetupItemCxtResExtIEs, "sizeLB:1,sizeUB:65535")].
Definition PDUSessionResourceSetupItemCxtRes : gotype := TStruct "PDUSessionResourceSetupItemCxtRes" [
  ("PDUSessionID", PDUSessionID, ""); ("PDUSessionResourceSetupResponseTransfer", TOctetString, "");
  ("IEExtensions", TPtr ProtocolExtensionContainerPDUSessionResourceSetupItemCxtResExtIEs, "optional")].
Definition PDUSessionResourceSetupListCxtRes : gotype := TStruct "PDUSessionResourceSetupListCxtRes" [
  ("List", TSlice PDUSessionResourceSetupItemCxtRes, "valueExt,sizeLB:1,sizeUB:256")].
Definition PDUSessionResourceFailedToSetupItemCxtResExtIEsExtensionValue : gotype := TStruct "PDUSessionResourceFailedToSetupItemCxtResExtIEsExtensionValue" [
  ("Present", TInt 64, "")].
Definition PDUSessionResourceFailedToSetupItemCxtResExtIEs : gotype := TStruct "PDUSessionResourceFailedToSetupItemCxtResExtIEs" [
  ("Id", ProtocolExtensionID, ""); ("Criticality", Criticality, "");
  ("ExtensionValue", PDUSessionResourceFailedToSetupItemCxtResExtIEsExtensionValue, "openType,referenceFieldName:Id")].
Definition ProtocolExtensionContainerPDUSessionResourceFailedToSetupItemCxtResExtIEs : gotype := TStruct "ProtocolExtensionContainerPDUSessionResourceFailedToSetupItemCxtResExtIEs" [
  ("List", TSlice PDUSessionResourceFailedToSetupItemCxtResExtIEs, "sizeLB:1,sizeUB:65535")].
Definition PDUSessionResourceFailedToSetupItemCxtRes : gotype := TStruct "PDUSessionResourceFailedToSetupItemCxtRes" [
  ("PDUSessionID", PDUSessionID, ""); ("PDUSessionResourceSetupUnsuccessfulTransfer", TOctetString, "");
  ("IEExtensions", TPtr ProtocolExtensionContainerPDUSessionResourceFailedToSetupItemCxtResExtIEs, "optional")].
Definition PDUSessionResourceFailedToSetupListCxtRes : gotype := TStruct "PDUSessionResourceFailedToSetupListCxtRes" [
  ("List", TSlice PDUSessionResourceFailedToSetupItemCxtRes, "valueExt,sizeLB:1,sizeUB:256")].
Definition InitialContextSetupResponseIEsValue : gotype := TStruct "InitialContextSetupResponseIEsValue" [
  ("Present", TInt 64, ""); ("AMFUENGAPID", TPtr AMFUENGAPID, "referenceFieldValue:10");
  ("RANUENGAPID", TPtr RANUENGAPID, "referenceFieldValue:85");
  ("PDUSessionResourceSetupListCxtRes", TPtr PDUSessionResourceSetupListCxtRes, "referenceFieldValue:72");
  ("PDUSessionResourceFailedToSetupListCxtRes", TPtr PDUSessionResourceFailedToSetupListCxtRes, "referenceFieldValue:55");
  ("CriticalityDiagnostics", TPtr CriticalityDiagnostics, "valueExt,referenceFieldValue:19")].
Definition InitialContextSetupResponseIEs : gotype := TStruct "InitialContextSetupResponseIEs" [
  ("Id", ProtocolIEID, ""); ("Criticality", Criticality, "");
  ("Value", InitialContextSetupResponseIEsValue, "openType,referenceFieldName:Id")].
Definition ProtocolIEContainerInitialContextSetupResponseIEs : gotype := TStruct "ProtocolIEContainerInitialContextSetupResponseIEs" [
  ("List", TSlice InitialContextSetupResponseIEs, "sizeLB:0,sizeUB:65535")].
Definition InitialContextSetupResponse : gotype := TStruct "InitialContextSetupResponse" [
  ("ProtocolIEs", ProtocolIEContainerInitialContextSetupResponseIEs, "")].
Definition RRCEstablishmentCause : gotype := TStruct "RRCEstablishmentCause" [
  ("Value", TEnumerated, "valueExt,valueLB:0,valueUB:9")].
Definition UEContextRequest : gotype := TStruct "UEContextRequest" [
  ("Value", TEnumerated, "valueExt,valueLB:0,valueUB:0")].
Definition InitialUEMessageIEsValue : gotype := TStruct "InitialUEMessageIEsValue" [
  ("Present", TInt 64, ""); ("RANUENGAPID", TPtr RANUENGAPID, "referenceFieldValue:85");
  ("NASPDU", TPtr NASPDU, "referenceFieldValue:38");
  ("UserLocationInformation", TPtr UserLocationInformation, "referenceFieldValue:121,valueLB:0,valueUB:3");
  ("RRCEstablishmentCause", TPtr RRCEstablishmentCause, "referenceFieldValue:90");
  ("FiveGSTMSI", TPtr FiveGSTMSI, "valueExt,referenceFieldValue:26");
  ("AMFSetID", TPtr AMFSetID, "referenceFieldValue:3");
  ("UEContextRequest", TPtr UEContextRequest, "referenceFieldValue:112");
  ("AllowedNSSAI", TPtr AllowedNSSAI, "referenceFieldValue:0")].
Definition InitialUEMessageIEs : gotype := TStruct "InitialUEMessageIEs" [
  ("Id", ProtocolIEID, ""); ("Criticality", Criticality, "");
  ("Value", InitialUEMessageIEsValue, "openType,referenceFieldName:Id")].
Definition ProtocolIEContainerInitialUEMessageIEs : gotype := TStruct "ProtocolIEContainerInitialUEMessageIEs" [
  ("List", TSlice InitialUEMessageIEs, "sizeLB:0,sizeUB:65535")].
Definition InitialUEMessage : gotype := TStruct "InitialUEMessage" [
  ("ProtocolIEs", ProtocolIEContainerInitialUEMessageIEs, "")].
Definition ResetAll : gotype := TStruct "ResetAll" [("Value", TEnumerated, "valueExt,valueLB:0,valueUB:0")].
Definition UEAssociatedLogicalNGConnectionItemExtIEsExtensionValue : gotype := TStruct "UEAssociatedLogicalNGConnectionItemExtIEsExtensionValue" [
  ("Present", TInt 64, "")].
Definition UEAssociatedLogicalNGConnectionItemExtIEs : gotype := TStruct "UEAssociatedLogicalNGConnectionItemExtIEs" [
  ("Id", ProtocolExtensionID, ""); ("Criticality", Criticality, "");
  ("ExtensionValue", UEAssociatedLogicalNGConnectionItemExtIEsExtensionValue, "openType,referenceFieldName:Id")].
Definition ProtocolExtensionContainerUEAssociatedLogicalNGConnectionItemExtIEs : gotype := TStruct "ProtocolExtensionContainerUEAssociatedLogicalNGConnectionItemExtIEs" [
  ("List", TSlice UEAssociatedLogicalNGConnectionItemExtIEs, "sizeLB:1,sizeUB:65535")].
Definition UEAssociatedLogicalNGConnectionItem : gotype := TStruct "UEAssociatedLogicalNGConnectionItem" [
  ("AMFUENGAPID", TPtr AMFUENGAPID, "optional"); ("RANUENGAPID", TPtr RANUENGAPID, "optional");
  ("IEExtensions", TPtr ProtocolExtensionContainerUEAssociatedLogicalNGConnectionItemExtIEs, "optional")].
Definition UEAssociatedLogicalNGConnectionList : gotype := TStruct "UEAssociatedLogicalNGConnectionList" [
  ("List", TSlice UEAssociatedLogicalNGConnectionItem, "valueExt,sizeLB:1,sizeUB:65536")].
Definition ProtocolIESingleContainerResetTypeExtIEs : gotype := TStruct "ProtocolIESingleContainerResetTypeExtIEs" [].
Definition ResetType : gotype := TStruct "ResetType" [
  ("Present", TInt 64, ""); ("NGInterface", TPtr ResetAll, "");
  ("PartOfNGInterface", TPtr UEAssociatedLogicalNGConnectionList, "");
  ("ChoiceExtensions", TPtr ProtocolIESingleContainerResetTypeExtIEs, "")].
Definition NGResetIEsValue : gotype := TStruct "NGResetIEsValue" [
  ("Present", TInt 64, ""); ("Cause", TPtr Cause, "referenceFieldValue:15,valueLB:0,valueUB:5");
  ("ResetType", TPtr ResetType, "referenceFieldValue:88,valueLB:0,valueUB:2")].
Definition NGResetIEs : gotype := TStruct "NGResetIEs" [
  ("Id", ProtocolIEID, ""); ("Criticality", Criticality, "");
  ("Value", NGResetIEsValue, "openType,referenceFieldName:Id")].
Definition ProtocolIEContainerNGResetIEs : gotype := TStruct "ProtocolIEContainerNGResetIEs" [
  ("List", TSlice NGResetIEs, "sizeLB:0,sizeUB:65535")].
Definition NGReset : gotype := TStruct "NGReset" [("ProtocolIEs", ProtocolIEContainerNGResetIEs, "")].
Definition RANNodeName : gotype := TStruct "RANNodeName" [("Value", TString, "sizeExt,sizeLB:1,sizeUB:150")].
Definition SupportedTAItemExtIEsExtensionValue : gotype := TStruct "SupportedTAItemExtIEsExtensionValue" [
  ("Present", TInt 64, "")].
Definition SupportedTAItemExtIEs : gotype := TStruct "SupportedTAItemExtIEs" [
  ("Id", ProtocolExtensionID, ""); ("Criticality", Criticality, "");
  ("ExtensionValue", SupportedTAItemExtIEsExtensionValue, "openType,referenceFieldName:Id")].
Definition ProtocolExtensionContainerSupportedTAItemExtIEs : gotype := TStruct "ProtocolExtensionContainerSupportedTAItemExtIEs" [
  ("List", TSlice SupportedTAItemExtIEs, "sizeLB:1,sizeUB:65535")].
Definition SupportedTAItem : gotype := TStruct "SupportedTAItem" [
  ("TAC", TAC, ""); ("BroadcastPLMNList", BroadcastPLMNList, "");
  ("IEExtensions", TPtr ProtocolExtensionContainerSupportedTAItemExtIEs, "optional")].
Definition SupportedTAList : gotype := TStruct "SupportedTAList" [
  ("List", TSlice SupportedTAItem, "valueExt,sizeLB:1,sizeUB:256")].
Definition NGSetupRequestIEsValue : gotype := TStruct "NGSetupRequestIEsValue" [
  ("Present", TInt 64, ""); ("GlobalRANNodeID", TPtr GlobalRANNodeID, "referenceFieldValue:27,valueLB:0,valueUB:3");
  ("RANNodeName", TPtr RANNodeName, "referenceFieldValue:82");
  ("SupportedTAList", TPtr SupportedTAList, "referenceFieldValue:102");
  ("DefaultPagingDRX", TPtr PagingDRX, "referenceFieldValue:21")].
Definition NGSetupRequestIEs : gotype := TStruct "NGSetupRequestIEs" [
  ("Id", ProtocolIEID, ""); ("Criticality", Criticality, "");
  ("Value", NGSetupRequestIEsValue, "openType,referenceFieldName:Id")].
Definition ProtocolIEContainerNGSetupRequestIEs : gotype := TStruct "ProtocolIEContainerNGSetupRequestIEs" [
  ("List", TSlice NGSetupRequestIEs, "sizeLB:0,sizeUB:65535")].
Definition NGSetupRequest : gotype := TStruct "NGSetupRequest" [
  ("ProtocolIEs", ProtocolIEContainerNGSetupRequestIEs, "")].
Definition PDUSessionResourceToBeSwitchedDLItemExtIEsExtensionValue : gotype := TStruct "PDUSessionResourceToBeSwitchedDLItemExtIEsExtensionValue" [
  ("Present", TInt 64, "")].
Definition PDUSessionResourceToBeSwitchedDLItemExtIEs : gotype := TStruct "PDUSessionResourceToBeSwitchedDLItemExtIEs" [
  ("Id", ProtocolExtensionID, ""); ("Criticality", Criticality, "");
  ("ExtensionValue", PDUSessionResourceToBeSwitchedDLItemExtIEsExtensionValue, "openType,referenceFieldName:Id")].
Definition ProtocolExtensionContainerPDUSessionResourceToBeSwitchedDLItemExtIEs : gotype := TStruct "ProtocolExtensionContainerPDUSessionResourceToBeSwitchedDLItemExtIEs" [
  ("List", TSlice PDUSessionResourceToBeSwitchedDLItemExtIEs, "sizeLB:1,sizeUB:65535")].
Definition PDUSessionResourceToBeSwitchedDLItem : gotype := TStruct "PDUSessionResourceToBeSwitchedDLItem" [
  ("PDUSessionID", PDUSessionID, ""); ("PathSwitchRequestTransfer", TOctetString, "");
  ("IEExtensions", TPtr ProtocolExtensionContainerPDUSessionResourceToBeSwitchedDLItemExtIEs, "optional")].
Definition PDUSessionResourceToBeSwitchedDLList : gotype := TStruct "PDUSessionResourceToBeSwitchedDLList" [
  ("List", TSlice PDUSessionResourceToBeSwitchedDLItem, "valueExt,sizeLB:1,sizeUB:256")].
Definition PDUSessionResourceFailedToSetupItemPSReqExtIEsExtensionValue : gotype := TStruct "PDUSessionResourceFailedToSetupItemPSReqExtIEsExtensionValue" [
  ("Present", TInt 64, "")].
Definition PDUSessionResourceFailedToSetupItemPSReqExtIEs : gotype := TStruct "PDUSessionResourceFailedToSetupItemPSReqExtIEs" [
  ("Id", ProtocolExtensionID, ""); ("Criticality", Criticality, "");
  ("ExtensionValue", PDUSessionResourceFailedToSetupItemPSReqExtIEsExtensionValue, "openType,referenceFieldName:Id")].
Definition ProtocolExtensionContainerPDUSessionResourceFailedToSetupItemPSReqExtIEs : gotype := TStruct "ProtocolExtensionContainerPDUSessionResourceFailedToSetupItemPSReqExtIEs" [
  ("List", TSlice PDUSessionResourceFailedToSetupItemPSReqExtIEs, "sizeLB:1,sizeUB:65535")].
Definition PDUSessionResourceFailedToSetupItemPSReq : gotype := TStruct "PDUSessionResourceFailedToSetupItemPSReq" [
  ("PDUSessionID", PDUSessionID, ""); ("PathSwitchRequestSetupFailedTransfer", TOctetString, "");
  ("IEExtensions", TPtr ProtocolExtensionContainerPDUSessionResourceFailedToSetupItemPSReqExtIEs, "optional")].
Definition PDUSessionResourceFailedToSetupListPSReq : gotype := TStruct "PDUSessionResourceFailedToSetupListPSReq" [
  ("List", TSlice PDUSessionResourceFailedToSetupItemPSReq, "valueExt,sizeLB:1,sizeUB:256")].
Definition PathSwitchRequestIEsValue : gotype := TStruct "PathSwitchRequestIEsValue" [
  ("Present", TInt 64, ""); ("RANUENGAPID", TPtr RANUENGAPID, "referenceFieldValue:85");
  ("SourceAMFUENGAPID", TPtr AMFUENGAPID, "referenceFieldValue:100");
  ("UserLocationInformation", TPtr UserLocationInformation, "referenceFieldValue:121,valueLB:0,valueUB:3");
  ("UESecurityCapabilities", TPtr UESecurityCapabilities, "valueExt,referenceFieldValue:119");
  ("PDUSessionResourceToBeSwitchedDLList", TPtr PDUSessionResourceToBeSwitchedDLList, "referenceFieldValue:76");
  ("PDUSessionResourceFailedToSetupListPSReq", TPtr PDUSessionResourceFailedToSetupListPSReq, "referenceFieldValue:57")].
Definition PathSwitchRequestIEs : gotype := TStruct "PathSwitchRequestIEs" [
  ("Id", ProtocolIEID, ""); ("Criticality", Criticality, "");
  ("Value", PathSwitchRequestIEsValue, "openType,referenceFieldName:Id")].
Definition ProtocolIEContainerPathSwitchRequestIEs : gotype := TStruct "ProtocolIEContainerPathSwitchRequestIEs" [
  ("List", TSlice PathSwitchRequestIEs, "sizeLB:0,sizeUB:65535")].
Definition PathSwitchRequest : gotype := TStruct "PathSwitchRequest" [
  ("ProtocolIEs", ProtocolIEContainerPathSwitchRequestIEs, "")].
Definition PDUSessionResourceModifyItemModReqExtIEsExtensionValue : gotype := TStruct "PDUSessionResourceModifyItemModReqExtIEsExtensionValue" [
  ("Present", TInt 64, "")].
Definition PDUSessionResourceModifyItemModReqExtIEs : gotype := TStruct "PDUSessionResourceModifyItemModReqExtIEs" [
  ("Id", ProtocolExtensionID, ""); ("Criticality", Criticality, "");
  ("ExtensionValue", PDUSessionResourceModifyItemModReqExtIEsExtensionValue, "openType,referenceFieldName:Id")].
Definition ProtocolExtensionContainerPDUSessionResourceModifyItemModReqExtIEs : gotype := TStruct "ProtocolExtensionContainerPDUSessionResourceModifyItemModReqExtIEs" [
  ("List", TSlice PDUSessionResourceModifyItemModReqExtIEs, "sizeLB:1,sizeUB:65535")].
Definition PDUSessionResourceModifyItemModReq : gotype := TStruct "PDUSessionResourceModifyItemModReq" [
  ("PDUSessionID", PDUSessionID, ""); ("NASPDU", TPtr NASPDU, "optional");
  ("PDUSessionResourceModifyRequestTransfer", TOctetString, "");
  ("IEExtensions", TPtr ProtocolExtensionContainerPDUSessionResourceModifyItemModReqExtIEs, "optional")].
Definition PDUSessionResourceModifyListModReq : gotype := TStruct "PDUSessionResourceModifyListModReq" [
  ("List", TSlice PDUSessionResourceModifyItemModReq, "valueExt,sizeLB:1,sizeUB:256")].
Definition PDUSessionResourceModifyRequestIEsValue : gotype := TStruct "PDUSessionResourceModifyRequestIEsValue" [
  ("Present", TInt 64, ""); ("AMFUENGAPID", TPtr AMFUENGAPID, "referenceFieldValue:10");
  ("RANUENGAPID", TPtr RANUENGAPID, "referenceFieldValue:85");
  ("RANPagingPriority", TPtr RANPagingPriority, "referenceFieldValue:83");
  ("PDUSessionResourceModifyListModReq", TPtr PDUSessionResourceModifyListModReq, "referenceFieldValue:64")].
Definition PDUSessionResourceModifyRequestIEs : gotype := TStruct "PDUSessionResourceModifyRequestIEs" [
  ("Id", ProtocolIEID, ""); ("Criticality", Criticality, "");
  ("Value", PDUSessionResourceModifyRequestIEsValue, "openType,referenceFieldName:Id")].
Definition ProtocolIEContainerPDUSessionResourceModifyRequestIEs : gotype := TStruct "ProtocolIEContainerPDUSessionResourceModifyRequestIEs" [
  ("List", TSlice PDUSessionResourceModifyRequestIEs, "sizeLB:0,sizeUB:65535")].
Definition PDUSessionResourceModifyRequest : gotype := TStruct "PDUSessionResourceModifyRequest" [
  ("ProtocolIEs", ProtocolIEContainerPDUSessionResourceModifyRequestIEs, "")].
Definition PDUSessionResourceModifyItemModIndExtIEsExtensionValue : gotype := TStruct "PDUSessionResourceModifyItemModIndExtIEsExtensionValue" [
  ("Present", TInt 64, "")].
Definition PDUSessionResourceModifyItemModIndExtIEs : gotype := TStruct "PDUSessionResourceModifyItemModIndExtIEs" [
  ("Id", ProtocolExtensionID, ""); ("Criticality", Criticality, "");
  ("ExtensionValue", PDUSessionResourceModifyItemModIndExtIEsExtensionValue, "openType,referenceFieldName:Id")].
Definition ProtocolExtensionContainerPDUSessionResourceModifyItemModIndExtIEs : gotype := TStruct "ProtocolExtensionContainerPDUSessionResourceModifyItemModIndExtIEs" [
  ("List", TSlice PDUSessionResourceModifyItemModIndExtIEs, "sizeLB:1,sizeUB:65535")].
Definition PDUSessionResourceModifyItemModInd : gotype := TStruct "PDUSessionResourceModifyItemModInd" [
  ("PDUSessionID", PDUSessionID, ""); ("PDUSessionResourceModifyIndicationTransfer", TOctetString, "");
  ("IEExtensions", TPtr ProtocolExtensionContainerPDUSessionResourceModifyItemModIndExtIEs, "optional")].
Definition PDUSessionResourceModifyListModInd : gotype := TStruct "PDUSessionResourceModifyListModInd" [
  ("List", TSlice PDUSessionResourceModifyItemModInd, "valueExt,sizeLB:1,sizeUB:256")].
Definition PDUSessionResourceModifyIndicationIEsValue : gotype := TStruct "PDUSessionResourceModifyIndicationIEsValue" [
  ("Present", TInt 64, ""); ("AMFUENGAPID", TPtr AMFUENGAPID, "referenceFieldValue:10");
  ("RANUENGAPID", TPtr RANUENGAPID, "referenceFieldValue:85");
  ("PDUSessionResourceModifyListModInd", TPtr PDUSessionResourceModifyListModInd, "referenceFieldValue:63")].
Definition PDUSessionResourceModifyIndicationIEs : gotype := TStruct "PDUSessionResourceModifyIndicationIEs" [
  ("Id", ProtocolIEID, ""); ("Criticality", Criticality, "");
  ("Value", PDUSessionResourceModifyIndicationIEsValue, "openType,referenceFieldName:Id")].
Definition ProtocolIEContainerPDUSessionResourceModifyIndicationIEs : gotype := TStruct "ProtocolIEContainerPDUSessionResourceModifyIndicationIEs" [
  ("List", TSlice PDUSessionResourceModifyIndicationIEs, "sizeLB:0,sizeUB:65535")].
Definition PDUSessionResourceModifyIndication : gotype := TStruct "PDUSessionResourceModifyIndication" [
  ("ProtocolIEs", ProtocolIEContainerPDUSessionResourceModifyIndicationIEs, "")].
Definition PDUSessionResourceToReleaseItemRelCmdExtIEsExtensionValue : gotype := TStruct "PDUSessionResourceToReleaseItemRelCmdExtIEsExtensionValue" [
  ("Present", TInt 64, "")].
Definition PDUSessionResourceToReleaseItemRelCmdExtIEs : gotype := TStruct "PDUSessionResourceToReleaseItemRelCmdExtIEs" [
  ("Id", ProtocolExtensionID, ""); ("Criticality", Criticality, "");
  ("ExtensionValue", PDUSessionResourceToReleaseItemRelCmdExtIEsExtensionValue, "openType,referenceFieldName:Id")].
Definition ProtocolExtensionContainerPDUSessionResourceToReleaseItemRelCmdExtIEs : gotype := TStruct "ProtocolExtensionContainerPDUSessionResourceToReleaseItemRelCmdExtIEs" [
  ("List", TSlice PDUSessionResourceToReleaseItemRelCmdExtIEs, "sizeLB:1,sizeUB:65535")].
Definition PDUSessionResourceToReleaseItemRelCmd : gotype := TStruct "PDUSessionResourceToReleaseItemRelCmd" [
  ("PDUSessionID", PDUSessionID, ""); ("PDUSessionResourceReleaseCommandTransfer", TOctetString, "");
  ("IEExtensions", TPtr ProtocolExtensionContainerPDUSessionResourceToReleaseItemRelCmdExtIEs, "optional")].
Definition PDUSessionResourceToReleaseListRelCmd : gotype := TStruct "PDUSessionResourceToReleaseListRelCmd" [
  ("List", TSlice PDUSessionResourceToReleaseItemRelCmd, "valueExt,sizeLB:1,sizeUB:256")].
Definition PDUSessionResourceReleaseCommandIEsValue : gotype := TStruct "PDUSessionResourceReleaseCommandIEsValue" [
  ("Present", TInt 64, ""); ("AMFUENGAPID", TPtr AMFUENGAPID, "referenceFieldValue:10");
  ("RANUENGAPID", TPtr RANUENGAPID, "referenceFieldValue:85");
  ("RANPagingPriority", TPtr RANPagingPriority, "referenceFieldValue:83");
  ("NASPDU", TPtr NASPDU, "referenceFieldValue:38");
  ("PDUSessionResourceToReleaseListRelCmd", TPtr PDUSessionResourceToReleaseListRelCmd, "referenceFieldValue:79")].
Definition PDUSessionResourceReleaseCommandIEs : gotype := TStruct "PDUSessionResourceReleaseCommandIEs" [
  ("Id", ProtocolIEID, ""); ("Criticality", Criticality, "");
  ("Value", PDUSessionResourceReleaseCommandIEsValue, "openType,referenceFieldName:Id")].
Definition ProtocolIEContainerPDUSessionResourceReleaseCommandIEs : gotype := TStruct "ProtocolIEContainerPDUSessionResourceReleaseCommandIEs" [
  ("List", TSlice PDUSessionResourceReleaseCommandIEs, "sizeLB:0,sizeUB:65535")].
Definition PDUSessionResourceReleaseCommand : gotype := TStruct "PDUSessionResourceReleaseCommand" [
  ("ProtocolIEs", ProtocolIEContainerPDUSessionResourceReleaseCommandIEs, "")].
Definition PDUSessionResourceSetupItemSUReqExtIEsExtensionValue : gotype := TStruct "PDUSessionResourceSetupItemSUReqExtIEsExtensionValue" [
  ("Present", TInt 64, "")].
Definition PDUSessionResourceSetupItemSUReqExtIEs : gotype := TStruct "PDUSessionResourceSetupItemSUReqExtIEs" [
  ("Id", ProtocolExtensionID, ""); ("Criticality", Criticality, "");
  ("ExtensionValue", PDUSessionResourceSetupItemSUReqExtIEsExtensionValue, "openType,referenceFieldName:Id")].
Definition ProtocolExtensionContainerPDUSessionResourceSetupItemSUReqExtIEs : gotype := TStruct "ProtocolExtensionContainerPDUSessionResourceSetupItemSUReqExtIEs" [
  ("List", TSlice PDUSessionResourceSetupItemSUReqExtIEs, "sizeLB:1,sizeUB:65535")].
Definition PDUSessionResourceSetupItemSUReq : gotype := TStruct "PDUSessionResourceSetupItemSUReq" [
  ("PDUSessionID", PDUSessionID, ""); ("PDUSessionNASPDU", TPtr NASPDU, "optional"); ("SNSSAI", SNSSAI, "valueExt");
  ("PDUSessionResourceSetupRequestTransfer", TOctetString, "");
  ("IEExtensions", TPtr ProtocolExtensionContainerPDUSessionResourceSetupItemSUReqExtIEs, "optional")].
Definition PDUSessionResourceSetupListSUReq : gotype := TStruct "PDUSessionResourceSetupListSUReq" [
  ("List", TSlice PDUSessionResourceSetupItemSUReq, "valueExt,sizeLB:1,sizeUB:256")].
Definition PDUSessionResourceSetupRequestIEsValue : gotype := TStruct "PDUSessionResourceSetupRequestIEsValue" [
  ("Present", TInt 64, ""); ("AMFUENGAPID", TPtr AMFUENGAPID, "referenceFieldValue:10");
  ("RANUENGAPID", TPtr RANUENGAPID, "referenceFieldValue:85");
  ("RANPagingPriority", TPtr RANPagingPriority, "referenceFieldValue:83");
  ("NASPDU", TPtr NASPDU, "referenceFieldValue:38");
  ("PDUSessionResourceSetupListSUReq", TPtr PDUSessionResourceSetupListSUReq, "referenceFieldValue:74");
  ("UEAggregateMaximumBitRate", TPtr UEAggregateMaximumBitRate, "valueExt,referenceFieldValue:110")].
Definition PDUSessionResourceSetupRequestIEs : gotype := TStruct "PDUSessionResourceSetupRequestIEs" [
  ("Id", ProtocolIEID, ""); ("Criticality", Criticality, "");
  ("Value", PDUSessionResourceSetupRequestIEsValue, "openType,referenceFieldName:Id")].
Definition ProtocolIEContainerPDUSessionResourceSetupRequestIEs : gotype := TStruct "ProtocolIEContainerPDUSessionResourceSetupRequestIEs" [
  ("List", TSlice PDUSessionResourceSetupRequestIEs, "sizeLB:0,sizeUB:65535")].
Definition PDUSessionResourceSetupRequest : gotype := TStruct "PDUSessionResourceSetupRequest" [
  ("ProtocolIEs", ProtocolIEContainerPDUSessionResourceSetupRequestIEs, "")].
Definition MessageIdentifier : gotype := TStruct "MessageIdentifier" [("Value", TBitString, "sizeLB:16,sizeUB:16")].
Definition SerialNumber : gotype := TStruct "SerialNumber" [("Value", TBitString, "sizeLB:16,sizeUB:16")].
Definition NRCGIListForWarning : gotype := TStruct "NRCGIListForWarning" [
  ("List", TSlice NRCGI, "valueExt,sizeLB:1,sizeUB:65535")].
Definition TAIListForWarning : gotype := TStruct "TAIListForWarning" [
  ("List", TSlice TAI, "valueExt,sizeLB:1,sizeUB:65535")].
Definition ProtocolIESingleContainerWarningAreaListExtIEs : gotype := TStruct "ProtocolIESingleContainerWarningAreaListExtIEs" [].
Definition WarningAreaList : gotype := TStruct "WarningAreaList" [
  ("Present", TInt 64, ""); ("EUTRACGIListForWarning", TPtr EUTRACGIListForWarning, "");
  ("NRCGIListForWarning", TPtr NRCGIListForWarning, ""); ("TAIListForWarning", TPtr TAIListForWarning, "");
  ("EmergencyAreaIDList", TPtr EmergencyAreaIDList, "");
  ("ChoiceExtensions", TPtr ProtocolIESingleContainerWarningAreaListExtIEs, "")].
Definition PWSCancelRequestIEsValue : gotype := TStruct "PWSCancelRequestIEsValue" [
  ("Present", TInt 64, ""); ("MessageIdentifier", TPtr MessageIdentifier, "referenceFieldValue:35");
  ("SerialNumber", TPtr SerialNumber, "referenceFieldValue:95");
  ("WarningAreaList", TPtr WarningAreaList, "referenceFieldValue:122,valueLB:0,valueUB:4");
  ("CancelAllWarningMessages", TPtr CancelAllWarningMessages, "referenceFieldValue:14")].
Definition PWSCancelRequestIEs : gotype := TStruct "PWSCancelRequestIEs" [
  ("Id", ProtocolIEID, ""); ("Criticality", Criticality, "");
  ("Value", PWSCancelRequestIEsValue, "openType,referenceFieldName:Id")].
Definition ProtocolIEContainerPWSCancelRequestIEs : gotype := TStruct "ProtocolIEContainerPWSCancelRequestIEs" [
  ("List", TSlice PWSCancelRequestIEs, "sizeLB:0,sizeUB:65535")].
Definition PWSCancelRequest : gotype := TStruct "PWSCancelRequest" [
  ("ProtocolIEs", ProtocolIEContainerPWSCancelRequestIEs, "")].
Definition RANConfigurationUpdateIEsValue : gotype := TStruct "RANConfigurationUpdateIEsValue" [
  ("Present", TInt 64, ""); ("RANNodeName", TPtr RANNodeName, "referenceFieldValue:82");
  ("SupportedTAList", TPtr SupportedTAList, "referenceFieldValue:102");
  ("DefaultPagingDRX", TPtr PagingDRX, "referenceFieldValue:21")].
Definition RANConfigurationUpdateIEs : gotype := TStruct "RANConfigurationUpdateIEs" [
  ("Id", ProtocolIEID, ""); ("Criticality", Criticality, "");
  ("Value", RANConfigurationUpdateIEsValue, "openType,referenceFieldName:Id")].
Definition ProtocolIEContainerRANConfigurationUpdateIEs : gotype := TStruct "ProtocolIEContainerRANConfigurationUpdateIEs" [
  ("List", TSlice RANConfigurationUpdateIEs, "sizeLB:0,sizeUB:65535")].
Definition RANConfigurationUpdate : gotype := TStruct "RANConfigurationUpdate" [
  ("ProtocolIEs", ProtocolIEContainerRANConfigurationUpdateIEs, "")].
Definition UEContextModificationRequestIEsValue : gotype := TStruct "UEContextModificationRequestIEsValue" [
  ("Present", TInt 64, ""); ("AMFUENGAPID", TPtr AMFUENGAPID, "referenceFieldValue:10");
  ("RANUENGAPID", TPtr RANUENGAPID, "referenceFieldValue:85");
  ("RANPagingPriority", TPtr RANPagingPriority, "referenceFieldValue:83");
  ("SecurityKey", TPtr SecurityKey, "referenceFieldValue:94");
  ("IndexToRFSP", TPtr IndexToRFSP, "referenceFieldValue:31");
  ("UEAggregateMaximumBitRate", TPtr UEAggregateMaximumBitRate, "valueExt,referenceFieldValue:110");
  ("UESecurityCapabilities", TPtr UESecurityCapabilities, "valueExt,referenceFieldValue:119");
  ("CoreNetworkAssistanceInformation", TPtr CoreNetworkAssistanceInformation, "valueExt,referenceFieldValue:18");
  ("EmergencyFallbackIndicator", TPtr EmergencyFallbackIndicator, "valueExt,referenceFieldValue:24");
  ("NewAMFUENGAPID", TPtr AMFUENGAPID, "referenceFieldValue:40");
  ("RRCInactiveTransitionReportRequest", TPtr RRCInactiveTransitionReportRequest, "referenceFieldValue:91")].
Definition UEContextModificationRequestIEs : gotype := TStruct "UEContextModificationRequestIEs" [
  ("Id", ProtocolIEID, ""); ("Criticality", Criticality, "");
  ("Value", UEContextModificationRequestIEsValue, "openType,referenceFieldName:Id")].
Definition ProtocolIEContainerUEContextModificationRequestIEs : gotype := TStruct "ProtocolIEContainerUEContextModificationRequestIEs" [
  ("List", TSlice UEContextModificationRequestIEs, "sizeLB:0,sizeUB:65535")].
Definition UEContextModificationRequest : gotype := TStruct "UEContextModificationRequest" [
  ("ProtocolIEs", ProtocolIEContainerUEContextModificationRequestIEs, "")].
Definition UENGAPIDPairExtIEsExtensionValue : gotype := TStruct "UENGAPIDPairExtIEsExtensionValue" [
  ("Present", TInt 64, "")].
Definition UENGAPIDPairExtIEs : gotype := TStruct "UENGAPIDPairExtIEs" [
  ("Id", ProtocolExtensionID, ""); ("Criticality", Criticality, "");
  ("ExtensionValue", UENGAPIDPairExtIEsExtensionValue, "openType,referenceFieldName:Id")].
Definition ProtocolExtensionContainerUENGAPIDPairExtIEs : gotype := TStruct "ProtocolExtensionContainerUENGAPIDPairExtIEs" [
  ("List", TSlice UENGAPIDPairExtIEs, "sizeLB:1,sizeUB:65535")].
Definition UENGAPIDPair : gotype := TStruct "UENGAPIDPair" [
  ("AMFUENGAPID", AMFUENGAPID, ""); ("RANUENGAPID", RANUENGAPID, "");
  ("IEExtensions", TPtr ProtocolExtensionContainerUENGAPIDPairExtIEs, "optional")].
Definition ProtocolIESingleContainerUENGAPIDsExtIEs : gotype := TStruct "ProtocolIESingleContainerUENGAPIDsExtIEs" [].
Definition UENGAPIDs : gotype := TStruct "UENGAPIDs" [
  ("Present", TInt 64, ""); ("UENGAPIDPair", TPtr UENGAPIDPair, "valueExt"); ("AMFUENGAPID", TPtr AMFUENGAPID, "");
  ("ChoiceExtensions", TPtr ProtocolIESingleContainerUENGAPIDsExtIEs, "")].
Definition UEContextReleaseCommandIEsValue : gotype := TStruct "UEContextReleaseCommandIEsValue" [
  ("Present", TInt 64, ""); ("UENGAPIDs", TPtr UENGAPIDs, "referenceFieldValue:114,valueLB:0,valueUB:2");
  ("Cause", TPtr Cause, "referenceFieldValue:15,valueLB:0,valueUB:5")].
Definition UEContextReleaseCommandIEs : gotype := TStruct "UEContextReleaseCommandIEs" [
  ("Id", ProtocolIEID, ""); ("Criticality", Criticality, "");
  ("Value", UEContextReleaseCommandIEsValue, "openType,referenceFieldName:Id")].
Definition ProtocolIEContainerUEContextReleaseCommandIEs : gotype := TStruct "ProtocolIEContainerUEContextReleaseCommandIEs" [
  ("List", TSlice UEContextReleaseCommandIEs, "sizeLB:0,sizeUB:65535")].
Definition UEContextReleaseCommand : gotype := TStruct "UEContextReleaseCommand" [
  ("ProtocolIEs", ProtocolIEContainerUEContextReleaseCommandIEs, "")].
Definition UERadioCapabilityCheckRequestIEsValue : gotype := TStruct "UERadioCapabilityCheckRequestIEsValue" [
  ("Present", TInt 64, ""); ("AMFUENGAPID", TPtr AMFUENGAPID, "referenceFieldValue:10");
  ("RANUENGAPID", TPtr RANUENGAPID, "referenceFieldValue:85");
  ("UERadioCapability", TPtr UERadioCapability, "referenceFieldValue:117")].
Definition UERadioCapabilityCheckRequestIEs : gotype := TStruct "UERadioCapabilityCheckRequestIEs" [
  ("Id", ProtocolIEID, ""); ("Criticality", Criticality, "");
  ("Value", UERadioCapabilityCheckRequestIEsValue, "openType,referenceFieldName:Id")].
Definition ProtocolIEContainerUERadioCapabilityCheckRequestIEs : gotype := TStruct "ProtocolIEContainerUERadioCapabilityCheckRequestIEs" [
  ("List", TSlice UERadioCapabilityCheckRequestIEs, "sizeLB:0,sizeUB:65535")].
Definition UERadioCapabilityCheckRequest : gotype := TStruct "UERadioCapabilityCheckRequest" [
  ("ProtocolIEs", ProtocolIEContainerUERadioCapabilityCheckRequestIEs, "")].
Definition RepetitionPeriod : gotype := TStruct "RepetitionPeriod" [("Value", TInt 64, "valueLB:0,valueUB:131071")].
Definition NumberOfBroadcastsRequested : gotype := TStruct "NumberOfBroadcastsRequested" [
  ("Value", TInt 64, "valueLB:0,valueUB:65535")].
Definition WarningType : gotype := TStruct "WarningType" [("Value", TOctetString, "sizeLB:2,sizeUB:2")].
Definition WarningSecurityInfo : gotype := TStruct "WarningSecurityInfo" [
  ("Value", TOctetString, "sizeLB:50,sizeUB:50")].
Definition WarningMessageContents : gotype := TStruct "WarningMessageContents" [
  ("Value", TOctetString, "sizeLB:1,sizeUB:9600")].
Definition WarningAreaCoordinates : gotype := TStruct "WarningAreaCoordinates" [
  ("Value", TOctetString, "sizeLB:1,sizeUB:1024")].
Definition WriteReplaceWarningRequestIEsValue : gotype := TStruct "WriteReplaceWarningRequestIEsValue" [
  ("Present", TInt 64, ""); ("MessageIdentifier", TPtr MessageIdentifier, "referenceFieldValue:35");
  ("SerialNumber", TPtr SerialNumber, "referenceFieldValue:95");
  ("WarningAreaList", TPtr WarningAreaList, "referenceFieldValue:122,valueLB:0,valueUB:4");
  ("RepetitionPeriod", TPtr RepetitionPeriod, "referenceFieldValue:87");
  ("NumberOfBroadcastsRequested", TPtr NumberOfBroadcastsRequested, "referenceFieldValue:47");
  ("WarningType", TPtr WarningType, "referenceFieldValue:125");
  ("WarningSecurityInfo", TPtr WarningSecurityInfo, "referenceFieldValue:124");
  ("DataCodingScheme", TPtr DataCodingScheme, "referenceFieldValue:20");
  ("WarningMessageContents", TPtr WarningMessageContents, "referenceFieldValue:123");
  ("ConcurrentWarningMessageInd", TPtr ConcurrentWarningMessageInd, "referenceFieldValue:17");
  ("WarningAreaCoordinates", TPtr WarningAreaCoordinates, "referenceFieldValue:141")].
Definition WriteReplaceWarningRequestIEs : gotype := TStruct "WriteReplaceWarningRequestIEs" [
  ("Id", ProtocolIEID, ""); ("Criticality", Criticality, "");
  ("Value", WriteReplaceWarningRequestIEsValue, "openType,referenceFieldName:Id")].
Definition ProtocolIEContainerWriteReplaceWarningRequestIEs : gotype := TStruct "ProtocolIEContainerWriteReplaceWarningRequestIEs" [
  ("List", TSlice WriteReplaceWarningRequestIEs, "sizeLB:0,sizeUB:65535")].
Definition WriteReplaceWarningRequest : gotype := TStruct "WriteReplaceWarningRequest" [
  ("ProtocolIEs", ProtocolIEContainerWriteReplaceWarningRequestIEs, "")].
Definition UEPresence : gotype := TStruct "UEPresence" [("Value", TEnumerated, "valueExt,valueLB:0,valueUB:2")].
Definition UEPresenceInAreaOfInterestItemExtIEsExtensionValue : gotype := TStruct "UEPresenceInAreaOfInterestItemExtIEsExtensionValue" [
  ("Present", TInt 64, "")].
Definition UEPresenceInAreaOfInterestItemExtIEs : gotype := TStruct "UEPresenceInAreaOfInterestItemExtIEs" [
  ("Id", ProtocolExtensionID, ""); ("Criticality", Criticality, "");
  ("ExtensionValue", UEPresenceInAreaOfInterestItemExtIEsExtensionValue, "openType,referenceFieldName:Id")].
Definition ProtocolExtensionContainerUEPresenceInAreaOfInterestItemExtIEs : gotype := TStruct "ProtocolExtensionContainerUEPresenceInAreaOfInterestItemExtIEs" [
  ("List", TSlice UEPresenceInAreaOfInterestItemExtIEs, "sizeLB:1,sizeUB:65535")].
Definition UEPresenceInAreaOfInterestItem : gotype := TStruct "UEPresenceInAreaOfInterestItem" [
  ("LocationReportingReferenceID", LocationReportingReferenceID, ""); ("UEPresence", UEPresence, "");
  ("IEExtensions", TPtr ProtocolExtensionContainerUEPresenceInAreaOfInterestItemExtIEs, "optional")].
Definition UEPresenceInAreaOfInterestList : gotype := TStruct "UEPresenceInAreaOfInterestList" [
  ("List", TSlice UEPresenceInAreaOfInterestItem, "valueExt,sizeLB:1,sizeUB:64")].
Definition LocationReportIEsValue : gotype := TStruct "LocationReportIEsValue" [
  ("Present", TInt 64, ""); ("AMFUENGAPID", TPtr AMFUENGAPID, "referenceFieldValue:10");
  ("RANUENGAPID", TPtr RANUENGAPID, "referenceFieldValue:85");
  ("UserLocationInformation", TPtr UserLocationInformation, "referenceFieldValue:121,valueLB:0,valueUB:3");
  ("UEPresenceInAreaOfInterestList", TPtr UEPresenceInAreaOfInterestList, "referenceFieldValue:116");
  ("LocationReportingRequestType", TPtr LocationReportingRequestType, "valueExt,referenceFieldValue:33")].
Definition LocationReportIEs : gotype := TStruct "LocationReportIEs" [
  ("Id", ProtocolIEID, ""); ("Criticality", Criticality, "");
  ("Value", LocationReportIEsValue, "openType,referenceFieldName:Id")].
Definition ProtocolIEContainerLocationReportIEs : gotype := TStruct "ProtocolIEContainerLocationReportIEs" [
  ("List", TSlice LocationReportIEs, "sizeLB:0,sizeUB:65535")].
Definition LocationReport : gotype := TStruct "LocationReport" [
  ("ProtocolIEs", ProtocolIEContainerLocationReportIEs, "")].
Definition LocationReportingControlIEsValue : gotype := TStruct "LocationReportingControlIEsValue" [
  ("Present", TInt 64, ""); ("AMFUENGAPID", TPtr AMFUENGAPID, "referenceFieldValue:10");
  ("RANUENGAPID", TPtr RANUENGAPID, "referenceFieldValue:85");
  ("LocationReportingRequestType", TPtr LocationReportingRequestType, "valueExt,referenceFieldValue:33")].
Definition LocationReportingControlIEs : gotype := TStruct "LocationReportingControlIEs" [
  ("Id", ProtocolIEID, ""); ("Criticality", Criticality, "");
  ("Value", LocationReportingControlIEsValue, "openType,referenceFieldName:Id")].
Definition ProtocolIEContainerLocationReportingControlIEs : gotype := TStruct "ProtocolIEContainerLocationReportingControlIEs" [
  ("List", TSlice LocationReportingControlIEs, "sizeLB:0,sizeUB:65535")].
Definition LocationReportingControl : gotype := TStruct "LocationReportingControl" [
  ("ProtocolIEs", ProtocolIEContainerLocationReportingControlIEs, "")].
Definition LocationReportingFailureIndicationIEsValue : gotype := TStruct "LocationReportingFailureIndicationIEsValue" [
  ("Present", TInt 64, ""); ("AMFUENGAPID", TPtr AMFUENGAPID, "referenceFieldValue:10");
  ("RANUENGAPID", TPtr RANUENGAPID, "referenceFieldValue:85");
  ("Cause", TPtr Cause, "referenceFieldValue:15,valueLB:0,valueUB:5")].
Definition LocationReportingFailureIndicationIEs : gotype := TStruct "LocationReportingFailureIndicationIEs" [
  ("Id", ProtocolIEID, ""); ("Criticality", Criticality, "");
  ("Value", LocationReportingFailureIndicationIEsValue, "openType,referenceFieldName:Id")].
Definition ProtocolIEContainerLocationReportingFailureIndicationIEs : gotype := TStruct "ProtocolIEContainerLocationReportingFailureIndicationIEs" [
  ("List", TSlice LocationReportingFailureIndicationIEs, "sizeLB:0,sizeUB:65535")].
Definition LocationReportingFailureIndication : gotype := TStruct "LocationReportingFailureIndication" [
  ("ProtocolIEs", ProtocolIEContainerLocationReportingFailureIndicationIEs, "")].
Definition NASNonDeliveryIndicationIEsValue : gotype := TStruct "NASNonDeliveryIndicationIEsValue" [
  ("Present", TInt 64, ""); ("AMFUENGAPID", TPtr AMFUENGAPID, "referenceFieldValue:10");
  ("RANUENGAPID", TPtr RANUENGAPID, "referenceFieldValue:85"); ("NASPDU", TPtr NASPDU, "referenceFieldValue:38");
  ("Cause", TPtr Cause, "referenceFieldValue:15,valueLB:0,valueUB:5")].
Definition NASNonDeliveryIndicationIEs : gotype := TStruct "NASNonDeliveryIndicationIEs" [
  ("Id", ProtocolIEID, ""); ("Criticality", Criticality, "");
  ("Value", NASNonDeliveryIndicationIEsValue, "openType,referenceFieldName:Id")].
Definition ProtocolIEContainerNASNonDeliveryIndicationIEs : gotype := TStruct "ProtocolIEContainerNASNonDeliveryIndicationIEs" [
  ("List", TSlice NASNonDeliveryIndicationIEs, "sizeLB:0,sizeUB:65535")].
Definition NASNonDeliveryIndication : gotype := TStruct "NASNonDeliveryIndication" [
  ("ProtocolIEs", ProtocolIEContainerNASNonDeliveryIndicationIEs, "")].
Definition OverloadAction : gotype := TStruct "OverloadAction" [("Value", TEnumerated, "valueExt,valueLB:0,valueUB:3")].
Definition ProtocolIESingleContainerOverloadResponseExtIEs : gotype := TStruct "ProtocolIESingleContainerOverloadResponseExtIEs" [].
Definition OverloadResponse : gotype := TStruct "OverloadResponse" [
  ("Present", TInt 64, ""); ("OverloadAction", TPtr OverloadAction, "");
  ("ChoiceExtensions", TPtr ProtocolIESingleContainerOverloadResponseExtIEs, "")].
Definition TrafficLoadReductionIndication : gotype := TStruct "TrafficLoadReductionIndication" [
  ("Value", TInt 64, "valueLB:1,valueUB:99")].
Definition SliceOverloadItemExtIEsExtensionValue : gotype := TStruct "SliceOverloadItemExtIEsExtensionValue" [
  ("Present", TInt 64, "")].
Definition SliceOverloadItemExtIEs : gotype := TStruct "SliceOverloadItemExtIEs" [
  ("Id", ProtocolExtensionID, ""); ("Criticality", Criticality, "");
  ("ExtensionValue", SliceOverloadItemExtIEsExtensionValue, "openType,referenceFieldName:Id")].
Definition ProtocolExtensionContainerSliceOverloadItemExtIEs : gotype := TStruct "ProtocolExtensionContainerSliceOverloadItemExtIEs" [
  ("List", TSlice SliceOverloadItemExtIEs, "sizeLB:1,sizeUB:65535")].
Definition SliceOverloadItem : gotype := TStruct "SliceOverloadItem" [
  ("SNSSAI", SNSSAI, "valueExt");
  ("IEExtensions", TPtr ProtocolExtensionContainerSliceOverloadItemExtIEs, "optional")].
Definition SliceOverloadList : gotype := TStruct "SliceOverloadList" [
  ("List", TSlice SliceOverloadItem, "valueExt,sizeLB:1,sizeUB:1024")].
Definition OverloadStartNSSAIItemExtIEsExtensionValue : gotype := TStruct "OverloadStartNSSAIItemExtIEsExtensionValue" [
  ("Present", TInt 64, "")].
Definition OverloadStartNSSAIItemExtIEs : gotype := TStruct "OverloadStartNSSAIItemExtIEs" [
  ("Id", ProtocolExtensionID, ""); ("Criticality", Criticality, "");
  ("ExtensionValue", OverloadStartNSSAIItemExtIEsExtensionValue, "openType,referenceFieldName:Id")].
Definition ProtocolExtensionContainerOverloadStartNSSAIItemExtIEs : gotype := TStruct "ProtocolExtensionContainerOverloadStartNSSAIItemExtIEs" [
  ("List", TSlice OverloadStartNSSAIItemExtIEs, "sizeLB:1,sizeUB:65535")].
Definition OverloadStartNSSAIItem : gotype := TStruct "OverloadStartNSSAIItem" [
  ("SliceOverloadList", SliceOverloadList, "");
  ("SliceOverloadResponse", TPtr OverloadResponse, "valueLB:0,valueUB:1,optional");
  ("SliceTrafficLoadReductionIndication", TPtr TrafficLoadReductionIndication, "optional");
  ("IEExtensions", TPtr ProtocolExtensionContainerOverloadStartNSSAIItemExtIEs, "optional")].
Definition OverloadStartNSSAIList : gotype := TStruct "OverloadStartNSSAIList" [
  ("List", TSlice OverloadStartNSSAIItem, "valueExt,sizeLB:1,sizeUB:1024")].
Definition OverloadStartIEsValue : gotype := TStruct "OverloadStartIEsValue" [
  ("Present", TInt 64, "");
  ("AMFOverloadResponse", TPtr OverloadResponse, "referenceFieldValue:2,valueLB:0,valueUB:1");
  ("AMFTrafficLoadReductionIndication", TPtr TrafficLoadReductionIndication, "referenceFieldValue:9");
  ("OverloadStartNSSAIList", TPtr OverloadStartNSSAIList, "referenceFieldValue:49")].
Definition OverloadStartIEs : gotype := TStruct "OverloadStartIEs" [
  ("Id", ProtocolIEID, ""); ("Criticality", Criticality, "");
  ("Value", OverloadStartIEsValue, "openType,referenceFieldName:Id")].
Definition ProtocolIEContainerOverloadStartIEs : gotype := TStruct "ProtocolIEContainerOverloadStartIEs" [
  ("List", TSlice OverloadStartIEs, "sizeLB:0,sizeUB:65535")].
Definition OverloadStart : gotype := TStruct "OverloadStart" [("ProtocolIEs", ProtocolIEContainerOverloadStartIEs, "")].
Definition OverloadStopIEsValue : gotype := TStruct "OverloadStopIEsValue" [("Present", TInt 64, "")].
Definition OverloadStopIEs : gotype := TStruct "OverloadStopIEs" [
  ("Id", ProtocolIEID, ""); ("Criticality", Criticality, "");
  ("Value", OverloadStopIEsValue, "openType,referenceFieldName:Id")].
Definition ProtocolIEContainerOverloadStopIEs : gotype := TStruct "ProtocolIEContainerOverloadStopIEs" [
  ("List", TSlice OverloadStopIEs, "sizeLB:0,sizeUB:65535")].
Definition OverloadStop : gotype := TStruct "OverloadStop" [("ProtocolIEs", ProtocolIEContainerOverloadStopIEs, "")].
Definition ProtocolIESingleContainerUEPagingIdentityExtIEs : gotype := TStruct "ProtocolIESingleContainerUEPagingIdentityExtIEs" [].
Definition UEPagingIdentity : gotype := TStruct "UEPagingIdentity" [
  ("Present", TInt 64, ""); ("FiveGSTMSI", TPtr FiveGSTMSI, "valueExt");
  ("ChoiceExtensions", TPtr ProtocolIESingleContainerUEPagingIdentityExtIEs, "")].
Definition TAIListForPagingItemExtIEsExtensionValue : gotype := TStruct "TAIListForPagingItemExtIEsExtensionValue" [
  ("Present", TInt 64, "")].
Definition TAIListForPagingItemExtIEs : gotype := TStruct "TAIListForPagingItemExtIEs" [
  ("Id", ProtocolExtensionID, ""); ("Criticality", Criticality, "");
  ("ExtensionValue", TAIListForPagingItemExtIEsExtensionValue, "openType,referenceFieldName:Id")].
Definition ProtocolExtensionContainerTAIListForPagingItemExtIEs : gotype := TStruct "ProtocolExtensionContainerTAIListForPagingItemExtIEs" [
  ("List", TSlice TAIListForPagingItemExtIEs, "sizeLB:1,sizeUB:65535")].
Definition TAIListForPagingItem : gotype := TStruct "TAIListForPagingItem" [
  ("TAI", TAI, "valueExt"); ("IEExtensions", TPtr ProtocolExtensionContainerTAIListForPagingItemExtIEs, "optional")].
Definition TAIListForPaging : gotype := TStruct "TAIListForPaging" [
  ("List", TSlice TAIListForPagingItem, "valueExt,sizeLB:1,sizeUB:16")].
Definition PagingPriority : gotype := TStruct "PagingPriority" [("Value", TEnumerated, "valueExt,valueLB:0,valueUB:7")].
Definition PagingOrigin : gotype := TStruct "PagingOrigin" [("Value", TEnumerated, "valueExt,valueLB:0,valueUB:0")].
Definition PagingIEsValue : gotype := TStruct "PagingIEsValue" [
  ("Present", TInt 64, ""); ("UEPagingIdentity", TPtr UEPagingIdentity, "referenceFieldValue:115,valueLB:0,valueUB:1");
  ("PagingDRX", TPtr PagingDRX, "referenceFieldValue:50");
  ("TAIListForPaging", TPtr TAIListForPaging, "referenceFieldValue:103");
  ("PagingPriority", TPtr PagingPriority, "referenceFieldValue:52");
  ("UERadioCapabilityForPaging", TPtr UERadioCapabilityForPaging, "valueExt,referenceFieldValue:118");
  ("PagingOrigin", TPtr PagingOrigin, "referenceFieldValue:51");
  ("AssistanceDataForPaging", TPtr AssistanceDataForPaging, "valueExt,referenceFieldValue:11")].
Definition PagingIEs : gotype := TStruct "PagingIEs" [
  ("Id", ProtocolIEID, ""); ("Criticality", Criticality, "");
  ("Value", PagingIEsValue, "openType,referenceFieldName:Id")].
Definition ProtocolIEContainerPagingIEs : gotype := TStruct "ProtocolIEContainerPagingIEs" [
  ("List", TSlice PagingIEs, "sizeLB:0,sizeUB:65535")].
Definition Paging : gotype := TStruct "Paging" [("ProtocolIEs", ProtocolIEContainerPagingIEs, "")].
Definition PDUSessionResourceNotifyItemExtIEsExtensionValue : gotype := TStruct "PDUSessionResourceNotifyItemExtIEsExtensionValue" [
  ("Present", TInt 64, "")].
Definition PDUSessionResourceNotifyItemExtIEs : gotype := TStruct "PDUSessionResourceNotifyItemExtIEs" [
  ("Id", ProtocolExtensionID, ""); ("Criticality", Criticality, "");
  ("ExtensionValue", PDUSessionResourceNotifyItemExtIEsExtensionValue, "openType,referenceFieldName:Id")].
Definition ProtocolExtensionContainerPDUSessionResourceNotifyItemExtIEs : gotype := TStruct "ProtocolExtensionContainerPDUSessionResourceNotifyItemExtIEs" [
  ("List", TSlice PDUSessionResourceNotifyItemExtIEs, "sizeLB:1,sizeUB:65535")].
Definition PDUSessionResourceNotifyItem : gotype := TStruct "PDUSessionResourceNotifyItem" [
  ("PDUSessionID", PDUSessionID, ""); ("PDUSessionResourceNotifyTransfer", TOctetString, "");
  ("IEExtensions", TPtr ProtocolExtensionContainerPDUSessionResourceNotifyItemExtIEs, "optional")].
Definition PDUSessionResourceNotifyList : gotype := TStruct "PDUSessionResourceNotifyList" [
  ("List", TSlice PDUSessionResourceNotifyItem, "valueExt,sizeLB:1,sizeUB:256")].
Definition PDUSessionResourceReleasedItemNotExtIEsExtensionValue : gotype := TStruct "PDUSessionResourceReleasedItemNotExtIEsExtensionValue" [
  ("Present", TInt 64, "")].
Definition PDUSessionResourceReleasedItemNotExtIEs : gotype := TStruct "PDUSessionResourceReleasedItemNotExtIEs" [
  ("Id", ProtocolExtensionID, ""); ("Criticality", Criticality, "");
  ("ExtensionValue", PDUSessionResourceReleasedItemNotExtIEsExtensionValue, "openType,referenceFieldName:Id")].
Definition ProtocolExtensionContainerPDUSessionResourceReleasedItemNotExtIEs : gotype := TStruct "ProtocolExtensionContainerPDUSessionResourceReleasedItemNotExtIEs" [
  ("List", TSlice PDUSessionResourceReleasedItemNotExtIEs, "sizeLB:1,sizeUB:65535")].
Definition PDUSessionResourceReleasedItemNot : gotype := TStruct "PDUSessionResourceReleasedItemNot" [
  ("PDUSessionID", PDUSessionID, ""); ("PDUSessionResourceNotifyReleasedTransfer", TOctetString, "");
  ("IEExtensions", TPtr ProtocolExtensionContainerPDUSessionResourceReleasedItemNotExtIEs, "optional")].
Definition PDUSessionResourceReleasedListNot : gotype := TStruct "PDUSessionResourceReleasedListNot" [
  ("List", TSlice PDUSessionResourceReleasedItemNot, "valueExt,sizeLB:1,sizeUB:256")].
Definition PDUSessionResourceNotifyIEsValue : gotype := TStruct "PDUSessionResourceNotifyIEsValue" [
  ("Present", TInt 64, ""); ("AMFUENGAPID", TPtr AMFUENGAPID, "referenceFieldValue:10");
  ("RANUENGAPID", TPtr RANUENGAPID, "referenceFieldValue:85");
  ("PDUSessionResourceNotifyList", TPtr PDUSessionResourceNotifyList, "referenceFieldValue:66");
  ("PDUSessionResourceReleasedListNot", TPtr PDUSessionResourceReleasedListNot, "referenceFieldValue:67");
  ("UserLocationInformation", TPtr UserLocationInformation, "referenceFieldValue:121,valueLB:0,valueUB:3")].
Definition PDUSessionResourceNotifyIEs : gotype := TStruct "PDUSessionResourceNotifyIEs" [
  ("Id", ProtocolIEID, ""); ("Criticality", Criticality, "");
  ("Value", PDUSessionResourceNotifyIEsValue, "openType,referenceFieldName:Id")].
Definition ProtocolIEContainerPDUSessionResourceNotifyIEs : gotype := TStruct "ProtocolIEContainerPDUSessionResourceNotifyIEs" [
  ("List", TSlice PDUSessionResourceNotifyIEs, "sizeLB:0,sizeUB:65535")].
Definition PDUSessionResourceNotify : gotype := TStruct "PDUSessionResourceNotify" [
  ("ProtocolIEs", ProtocolIEContainerPDUSessionResourceNotifyIEs, "")].
Definition PrivateIEID : gotype := TStruct "PrivateIEID" [
  ("Present", TInt 64, ""); ("Local", TPtr (TInt 64), "valueLB:0,valueUB:65535");
  ("Global", TPtr TObjectIdentifier, "")].
Definition PrivateMessageIEsValue : gotype := TStruct "PrivateMessageIEsValue" [("Present", TInt 64, "")].
Definition PrivateMessageIEs : gotype := TStruct "PrivateMessageIEs" [
  ("Id", PrivateIEID, ""); ("Criticality", Criticality, "");
  ("Value", PrivateMessageIEsValue, "openType,referenceFieldName:Id")].
Definition PrivateIEContainerPrivateMessageIEs : gotype := TStruct "PrivateIEContainerPrivateMessageIEs" [
  ("List", TSlice PrivateMessageIEs, "sizeLB:1,sizeUB:65535")].
Definition PrivateMessage : gotype := TStruct "PrivateMessage" [
  ("PrivateIEs", PrivateIEContainerPrivateMessageIEs, "")].
Definition ProtocolIESingleContainerPWSFailedCellIDListExtIEs : gotype := TStruct "ProtocolIESingleContainerPWSFailedCellIDListExtIEs" [].
Definition PWSFailedCellIDList : gotype := TStruct "PWSFailedCellIDList" [
  ("Present", TInt 64, ""); ("EUTRACGIPWSFailedList", TPtr EUTRACGIList, "");
  ("NRCGIPWSFailedList", TPtr NRCGIList, "");
  ("ChoiceExtensions", TPtr ProtocolIESingleContainerPWSFailedCellIDListExtIEs, "")].
Definition PWSFailureIndicationIEsValue : gotype := TStruct "PWSFailureIndicationIEsValue" [
  ("Present", TInt 64, "");
  ("PWSFailedCellIDList", TPtr PWSFailedCellIDList, "referenceFieldValue:81,valueLB:0,valueUB:2");
  ("GlobalRANNodeID", TPtr GlobalRANNodeID, "referenceFieldValue:27,valueLB:0,valueUB:3")].
Definition PWSFailureIndicationIEs : gotype := TStruct "PWSFailureIndicationIEs" [
  ("Id", ProtocolIEID, ""); ("Criticality", Criticality, "");
  ("Value", PWSFailureIndicationIEsValue, "openType,referenceFieldName:Id")].
Definition ProtocolIEContainerPWSFailureIndicationIEs : gotype := TStruct "ProtocolIEContainerPWSFailureIndicationIEs" [
  ("List", TSlice PWSFailureIndicationIEs, "sizeLB:0,sizeUB:65535")].
Definition PWSFailureIndication : gotype := TStruct "PWSFailureIndication" [
  ("ProtocolIEs", ProtocolIEContainerPWSFailureIndicationIEs, "")].
Definition TAIListForRestart : gotype := TStruct "TAIListForRestart" [
  ("List", TSlice TAI, "valueExt,sizeLB:1,sizeUB:2048")].
Definition PWSRestartIndicationIEsValue : gotype := TStruct "PWSRestartIndicationIEsValue" [
  ("Present", TInt 64, "");
  ("CellIDListForRestart", TPtr CellIDListForRestart, "referenceFieldValue:16,valueLB:0,valueUB:2");
  ("GlobalRANNodeID", TPtr GlobalRANNodeID, "referenceFieldValue:27,valueLB:0,valueUB:3");
  ("TAIListForRestart", TPtr TAIListForRestart, "referenceFieldValue:104");
  ("EmergencyAreaIDListForRestart", TPtr EmergencyAreaIDListForRestart, "referenceFieldValue:23")].
Definition PWSRestartIndicationIEs : gotype := TStruct "PWSRestartIndicationIEs" [
  ("Id", ProtocolIEID, ""); ("Criticality", Criticality, "");
  ("Value", PWSRestartIndicationIEsValue, "openType,referenceFieldName:Id")].
Definition ProtocolIEContainerPWSRestartIndicationIEs : gotype := TStruct "ProtocolIEContainerPWSRestartIndicationIEs" [
  ("List", TSlice PWSRestartIndicationIEs, "sizeLB:0,sizeUB:65535")].
Definition PWSRestartIndication : gotype := TStruct "PWSRestartIndication" [
  ("ProtocolIEs", ProtocolIEContainerPWSRestartIndicationIEs, "")].
Definition RerouteNASRequestIEsValue : gotype := TStruct "RerouteNASRequestIEsValue" [
  ("Present", TInt 64, ""); ("RANUENGAPID", TPtr RANUENGAPID, "referenceFieldValue:85");
  ("AMFUENGAPID", TPtr AMFUENGAPID, "referenceFieldValue:10");
  ("NGAPMessage", TPtr TOctetString, "referenceFieldValue:42"); ("AMFSetID", TPtr AMFSetID, "referenceFieldValue:3");
  ("AllowedNSSAI", TPtr AllowedNSSAI, "referenceFieldValue:0")].
Definition RerouteNASRequestIEs : gotype := TStruct "RerouteNASRequestIEs" [
  ("Id", ProtocolIEID, ""); ("Criticality", Criticality, "");
  ("Value", RerouteNASRequestIEsValue, "openType,referenceFieldName:Id")].
Definition ProtocolIEContainerRerouteNASRequestIEs : gotype := TStruct "ProtocolIEContainerRerouteNASRequestIEs" [
  ("List", TSlice RerouteNASRequestIEs, "sizeLB:0,sizeUB:65535")].
Definition RerouteNASRequest : gotype := TStruct "RerouteNASRequest" [
  ("ProtocolIEs", ProtocolIEContainerRerouteNASRequestIEs, "")].
Definition RRCState : gotype := TStruct "RRCState" [("Value", TEnumerated, "valueExt,valueLB:0,valueUB:1")].
Definition RRCInactiveTransitionReportIEsValue : gotype := TStruct "RRCInactiveTransitionReportIEsValue" [
  ("Present", TInt 64, ""); ("AMFUENGAPID", TPtr AMFUENGAPID, "referenceFieldValue:10");
  ("RANUENGAPID", TPtr RANUENGAPID, "referenceFieldValue:85"); ("RRCState", TPtr RRCState, "referenceFieldValue:92");
  ("UserLocationInformation", TPtr UserLocationInformation, "referenceFieldValue:121,valueLB:0,valueUB:3")].
Definition RRCInactiveTransitionReportIEs : gotype := TStruct "RRCInactiveTransitionReportIEs" [
  ("Id", ProtocolIEID, ""); ("Criticality", Criticality, "");
  ("Value", RRCInactiveTransitionReportIEsValue, "openType,referenceFieldName:Id")].
Definition ProtocolIEContainerRRCInactiveTransitionReportIEs : gotype := TStruct "ProtocolIEContainerRRCInactiveTransitionReportIEs" [
  ("List", TSlice RRCInactiveTransitionReportIEs, "sizeLB:0,sizeUB:65535")].
Definition RRCInactiveTransitionReport : gotype := TStruct "RRCInactiveTransitionReport" [
  ("ProtocolIEs", ProtocolIEContainerRRCInactiveTransitionReportIEs, "")].
Definition TraceFailureIndicationIEsValue : gotype := TStruct "TraceFailureIndicationIEsValue" [
  ("Present", TInt 64, ""); ("AMFUENGAPID", TPtr AMFUENGAPID, "referenceFieldValue:10");
  ("RANUENGAPID", TPtr RANUENGAPID, "referenceFieldValue:85");
  ("NGRANTraceID", TPtr NGRANTraceID, "referenceFieldValue:44");
  ("Cause", TPtr Cause, "referenceFieldValue:15,valueLB:0,valueUB:5")].
Definition TraceFailureIndicationIEs : gotype := TStruct "TraceFailureIndicationIEs" [
  ("Id", ProtocolIEID, ""); ("Criticality", Criticality, "");
  ("Value", TraceFailureIndicationIEsValue, "openType,referenceFieldName:Id")].
Definition ProtocolIEContainerTraceFailureIndicationIEs : gotype := TStruct "ProtocolIEContainerTraceFailureIndicationIEs" [
  ("List", TSlice TraceFailureIndicationIEs, "sizeLB:0,sizeUB:65535")].
Definition TraceFailureIndication : gotype := TStruct "TraceFailureIndication" [
  ("ProtocolIEs", ProtocolIEContainerTraceFailureIndicationIEs, "")].
Definition TraceStartIEsValue : gotype := TStruct "TraceStartIEsValue" [
  ("Present", TInt 64, ""); ("AMFUENGAPID", TPtr AMFUENGAPID, "referenceFieldValue:10");
  ("RANUENGAPID", TPtr RANUENGAPID, "referenceFieldValue:85");
  ("TraceActivation", TPtr TraceActivation, "valueExt,referenceFieldValue:108")].
Definition TraceStartIEs : gotype := TStruct "TraceStartIEs" [
  ("Id", ProtocolIEID, ""); ("Criticality", Criticality, "");
  ("Value", TraceStartIEsValue, "openType,referenceFieldName:Id")].
Definition ProtocolIEContainerTraceStartIEs : gotype := TStruct "ProtocolIEContainerTraceStartIEs" [
  ("List", TSlice TraceStartIEs, "sizeLB:0,sizeUB:65535")].
Definition TraceStart : gotype := TStruct "TraceStart" [("ProtocolIEs", ProtocolIEContainerTraceStartIEs, "")].
Definition PDUSessionResourceItemCxtRelReqExtIEsExtensionValue : gotype := TStruct "PDUSessionResourceItemCxtRelReqExtIEsExtensionValue" [
  ("Present", TInt 64, "")].
Definition PDUSessionResourceItemCxtRelReqExtIEs : gotype := TStruct "PDUSessionResourceItemCxtRelReqExtIEs" [
  ("Id", ProtocolExtensionID, ""); ("Criticality", Criticality, "");
  ("ExtensionValue", PDUSessionResourceItemCxtRelReqExtIEsExtensionValue, "openType,referenceFieldName:Id")].
Definition ProtocolExtensionContainerPDUSessionResourceItemCxtRelReqExtIEs : gotype := TStruct "ProtocolExtensionContainerPDUSessionResourceItemCxtRelReqExtIEs" [
  ("List", TSlice PDUSessionResourceItemCxtRelReqExtIEs, "sizeLB:1,sizeUB:65535")].
Definition PDUSessionResourceItemCxtRelReq : gotype := TStruct "PDUSessionResourceItemCxtRelReq" [
  ("PDUSessionID", PDUSessionID, "");
  ("IEExtensions", TPtr ProtocolExtensionContainerPDUSessionResourceItemCxtRelReqExtIEs, "optional")].
Definition PDUSessionResourceListCxtRelReq : gotype := TStruct "PDUSessionResourceListCxtRelReq" [
  ("List", TSlice PDUSessionResourceItemCxtRelReq, "valueExt,sizeLB:1,sizeUB:256")].
Definition UEContextReleaseRequestIEsValue : gotype := TStruct "UEContextReleaseRequestIEsValue" [
  ("Present", TInt 64, ""); ("AMFUENGAPID", TPtr AMFUENGAPID, "referenceFieldValue:10");
  ("RANUENGAPID", TPtr RANUENGAPID, "referenceFieldValue:85");
  ("PDUSessionResourceListCxtRelReq", TPtr PDUSessionResourceListCxtRelReq, "referenceFieldValue:133");
  ("Cause", TPtr Cause, "referenceFieldValue:15,valueLB:0,valueUB:5")].
Definition UEContextReleaseRequestIEs : gotype := TStruct "UEContextReleaseRequestIEs" [
  ("Id", ProtocolIEID, ""); ("Criticality", Criticality, "");
  ("Value", UEContextReleaseRequestIEsValue, "openType,referenceFieldName:Id")].
Definition ProtocolIEContainerUEContextReleaseRequestIEs : gotype := TStruct "ProtocolIEContainerUEContextReleaseRequestIEs" [
  ("List", TSlice UEContextReleaseRequestIEs, "sizeLB:0,sizeUB:65535")].
Definition UEContextReleaseRequest : gotype := TStruct "UEContextReleaseRequest" [
  ("ProtocolIEs", ProtocolIEContainerUEContextReleaseRequestIEs, "")].
Definition UERadioCapabilityInfoIndicationIEsValue : gotype := TStruct "UERadioCapabilityInfoIndicationIEsValue" [
  ("Present", TInt 64, ""); ("AMFUENGAPID", TPtr AMFUENGAPID, "referenceFieldValue:10");
  ("RANUENGAPID", TPtr RANUENGAPID, "referenceFieldValue:85");
  ("UERadioCapability", TPtr UERadioCapability, "referenceFieldValue:117");
  ("UERadioCapabilityForPaging", TPtr UERadioCapabilityForPaging, "valueExt,referenceFieldValue:118")].
Definition UERadioCapabilityInfoIndicationIEs : gotype := TStruct "UERadioCapabilityInfoIndicationIEs" [
  ("Id", ProtocolIEID, ""); ("Criticality", Criticality, "");
  ("Value", UERadioCapabilityInfoIndicationIEsValue, "openType,referenceFieldName:Id")].
Definition ProtocolIEContainerUERadioCapabilityInfoIndicationIEs : gotype := TStruct "ProtocolIEContainerUERadioCapabilityInfoIndicationIEs" [
  ("List", TSlice UERadioCapabilityInfoIndicationIEs, "sizeLB:0,sizeUB:65535")].
Definition UERadioCapabilityInfoIndication : gotype := TStruct "UERadioCapabilityInfoIndication" [
  ("ProtocolIEs", ProtocolIEContainerUERadioCapabilityInfoIndicationIEs, "")].
Definition UETNLABindingReleaseRequestIEsValue : gotype := TStruct "UETNLABindingReleaseRequestIEsValue" [
  ("Present", TInt 64, ""); ("AMFUENGAPID", TPtr AMFUENGAPID, "referenceFieldValue:10");
  ("RANUENGAPID", TPtr RANUENGAPID, "referenceFieldValue:85")].
Definition UETNLABindingReleaseRequestIEs : gotype := TStruct "UETNLABindingReleaseRequestIEs" [
  ("Id", ProtocolIEID, ""); ("Criticality", Criticality, "");
  ("Value", UETNLABindingReleaseRequestIEsValue, "openType,referenceFieldName:Id")].
Definition ProtocolIEContainerUETNLABindingReleaseRequestIEs : gotype := TStruct "ProtocolIEContainerUETNLABindingReleaseRequestIEs" [
  ("List", TSlice UETNLABindingReleaseRequestIEs, "sizeLB:0,sizeUB:65535")].
Definition UETNLABindingReleaseRequest : gotype := TStruct "UETNLABindingReleaseRequest" [
  ("ProtocolIEs", ProtocolIEContainerUETNLABindingReleaseRequestIEs, "")].
Definition UplinkNASTransportIEsValue : gotype := TStruct "UplinkNASTransportIEsValue" [
  ("Present", TInt 64, ""); ("AMFUENGAPID", TPtr AMFUENGAPID, "referenceFieldValue:10");
  ("RANUENGAPID", TPtr RANUENGAPID, "referenceFieldValue:85"); ("NASPDU", TPtr NASPDU, "referenceFieldValue:38");
  ("UserLocationInformation", TPtr UserLocationInformation, "referenceFieldValue:121,valueLB:0,valueUB:3")].
Definition UplinkNASTransportIEs : gotype := TStruct "UplinkNASTransportIEs" [
  ("Id", ProtocolIEID, ""); ("Criticality", Criticality, "");
  ("Value", UplinkNASTransportIEsValue, "openType,referenceFieldName:Id")].
Definition ProtocolIEContainerUplinkNASTransportIEs : gotype := TStruct "ProtocolIEContainerUplinkNASTransportIEs" [
  ("List", TSlice UplinkNASTransportIEs, "sizeLB:0,sizeUB:65535")].
Definition UplinkNASTransport : gotype := TStruct "UplinkNASTransport" [
  ("ProtocolIEs", ProtocolIEContainerUplinkNASTransportIEs, "")].
Definition UplinkNonUEAssociatedNRPPaTransportIEsValue : gotype := TStruct "UplinkNonUEAssociatedNRPPaTransportIEsValue" [
  ("Present", TInt 64, ""); ("RoutingID", TPtr RoutingID, "referenceFieldValue:89");
  ("NRPPaPDU", TPtr NRPPaPDU, "referenceFieldValue:46")].
Definition UplinkNonUEAssociatedNRPPaTransportIEs : gotype := TStruct "UplinkNonUEAssociatedNRPPaTransportIEs" [
  ("Id", ProtocolIEID, ""); ("Criticality", Criticality, "");
  ("Value", UplinkNonUEAssociatedNRPPaTransportIEsValue, "openType,referenceFieldName:Id")].
Definition ProtocolIEContainerUplinkNonUEAssociatedNRPPaTransportIEs : gotype := TStruct "ProtocolIEContainerUplinkNonUEAssociatedNRPPaTransportIEs" [
  ("List", TSlice UplinkNonUEAssociatedNRPPaTransportIEs, "sizeLB:0,sizeUB:65535")].
Definition UplinkNonUEAssociatedNRPPaTransport : gotype := TStruct "UplinkNonUEAssociatedNRPPaTransport" [
  ("ProtocolIEs", ProtocolIEContainerUplinkNonUEAssociatedNRPPaTransportIEs, "")].
Definition UplinkRANConfigurationTransferIEsValue : gotype := TStruct "UplinkRANConfigurationTransferIEsValue" [
  ("Present", TInt 64, "");
  ("SONConfigurationTransferUL", TPtr SONConfigurationTransfer, "valueExt,referenceFieldValue:99")].
Definition UplinkRANConfigurationTransferIEs : gotype := TStruct "UplinkRANConfigurationTransferIEs" [
  ("Id", ProtocolIEID, ""); ("Criticality", Criticality, "");
  ("Value", UplinkRANConfigurationTransferIEsValue, "openType,referenceFieldName:Id")].
Definition ProtocolIEContainerUplinkRANConfigurationTransferIEs : gotype := TStruct "ProtocolIEContainerUplinkRANConfigurationTransferIEs" [
  ("List", TSlice UplinkRANConfigurationTransferIEs, "sizeLB:0,sizeUB:65535")].
Definition UplinkRANConfigurationTransfer : gotype := TStruct "UplinkRANConfigurationTransfer" [
  ("ProtocolIEs", ProtocolIEContainerUplinkRANConfigurationTransferIEs, "")].
Definition UplinkRANStatusTransferIEsValue : gotype := TStruct "UplinkRANStatusTransferIEsValue" [
  ("Present", TInt 64, ""); ("AMFUENGAPID", TPtr AMFUENGAPID, "referenceFieldValue:10");
  ("RANUENGAPID", TPtr RANUENGAPID, "referenceFieldValue:85");
  ("RANStatusTransferTransparentContainer", TPtr RANStatusTransferTransparentContainer, "valueExt,referenceFieldValue:84")].
Definition UplinkRANStatusTransferIEs : gotype := TStruct "UplinkRANStatusTransferIEs" [
  ("Id", ProtocolIEID, ""); ("Criticality", Criticality, "");
  ("Value", UplinkRANStatusTransferIEsValue, "openType,referenceFieldName:Id")].
Definition ProtocolIEContainerUplinkRANStatusTransferIEs : gotype := TStruct "ProtocolIEContainerUplinkRANStatusTransferIEs" [
  ("List", TSlice UplinkRANStatusTransferIEs, "sizeLB:0,sizeUB:65535")].
Definition UplinkRANStatusTransfer : gotype := TStruct "UplinkRANStatusTransfer" [
  ("ProtocolIEs", ProtocolIEContainerUplinkRANStatusTransferIEs, "")].
Definition UplinkUEAssociatedNRPPaTransportIEsValue : gotype := TStruct "UplinkUEAssociatedNRPPaTransportIEsValue" [
  ("Present", TInt 64, ""); ("AMFUENGAPID", TPtr AMFUENGAPID, "referenceFieldValue:10");
  ("RANUENGAPID", TPtr RANUENGAPID, "referenceFieldValue:85"); ("RoutingID", TPtr RoutingID, "referenceFieldValue:89");
  ("NRPPaPDU", TPtr NRPPaPDU, "referenceFieldValue:46")].
Definition UplinkUEAssociatedNRPPaTransportIEs : gotype := TStruct "UplinkUEAssociatedNRPPaTransportIEs" [
  ("Id", ProtocolIEID, ""); ("Criticality", Criticality, "");
  ("Value", UplinkUEAssociatedNRPPaTransportIEsValue, "openType,referenceFieldName:Id")].
Definition ProtocolIEContainerUplinkUEAssociatedNRPPaTransportIEs : gotype := TStruct "ProtocolIEContainerUplinkUEAssociatedNRPPaTransportIEs" [
  ("List", TSlice UplinkUEAssociatedNRPPaTransportIEs, "sizeLB:0,sizeUB:65535")].
Definition UplinkUEAssociatedNRPPaTransport : gotype := TStruct "UplinkUEAssociatedNRPPaTransport" [
  ("ProtocolIEs", ProtocolIEContainerUplinkUEAssociatedNRPPaTransportIEs, "")].
Definition InitiatingMessageValue : gotype := TStruct "InitiatingMessageValue" [
  ("Present", TInt 64, ""); ("AMFConfigurationUpdate", TPtr AMFConfigurationUpdate, "valueExt,referenceFieldValue:0");
  ("HandoverCancel", TPtr HandoverCancel, "valueExt,referenceFieldValue:10");
  ("HandoverRequired", TPtr HandoverRequired, "valueExt,referenceFieldValue:12");
  ("HandoverRequest", TPtr HandoverRequest, "valueExt,referenceFieldValue:13");
  ("InitialContextSetupRequest", TPtr InitialContextSetupRequest, "valueExt,referenceFieldValue:14");
  ("NGReset", TPtr NGReset, "valueExt,referenceFieldValue:20");
  ("NGSetupRequest", TPtr NGSetupRequest, "valueExt,referenceFieldValue:21");
  ("PathSwitchRequest", TPtr PathSwitchRequest, "valueExt,referenceFieldValue:25");
  ("PDUSessionResourceModifyRequest", TPtr PDUSessionResourceModifyRequest, "valueExt,referenceFieldValue:26");
  ("PDUSessionResourceModifyIndication", TPtr PDUSessionResourceModifyIndication, "valueExt,referenceFieldValue:27");
  ("PDUSessionResourceReleaseCommand", TPtr PDUSessionResourceReleaseCommand, "valueExt,referenceFieldValue:28");
  ("PDUSessionResourceSetupRequest", TPtr PDUSessionResourceSetupRequest, "valueExt,referenceFieldValue:29");
  ("PWSCancelRequest", TPtr PWSCancelRequest, "valueExt,referenceFieldValue:32");
  ("RANConfigurationUpdate", TPtr RANConfigurationUpdate, "valueExt,referenceFieldValue:35");
  ("UEContextModificationRequest", TPtr UEContextModificationRequest, "valueExt,referenceFieldValue:40");
  ("UEContextReleaseCommand", TPtr UEContextReleaseCommand, "valueExt,referenceFieldValue:41");
  ("UERadioCapabilityCheckRequest", TPtr UERadioCapabilityCheckRequest, "valueExt,referenceFieldValue:43");
  ("WriteReplaceWarningRequest", TPtr WriteReplaceWarningRequest, "valueExt,referenceFieldValue:51");
  ("AMFStatusIndication", TPtr AMFStatusIndication, "valueExt,referenceFieldValue:1");
  ("CellTrafficTrace", TPtr CellTrafficTrace, "valueExt,referenceFieldValue:2");
  ("DeactivateTrace", TPtr DeactivateTrace, "valueExt,referenceFieldValue:3");
  ("DownlinkNASTransport", TPtr DownlinkNASTransport, "valueExt,referenceFieldValue:4");
  ("DownlinkNonUEAssociatedNRPPaTransport", TPtr DownlinkNonUEAssociatedNRPPaTransport, "valueExt,referenceFieldValue:5");
  ("DownlinkRANConfigurationTransfer", TPtr DownlinkRANConfigurationTransfer, "valueExt,referenceFieldValue:6");
  ("DownlinkRANStatusTransfer", TPtr DownlinkRANStatusTransfer, "valueExt,referenceFieldValue:7");
  ("DownlinkUEAssociatedNRPPaTransport", TPtr DownlinkUEAssociatedNRPPaTransport, "valueExt,referenceFieldValue:8");
  ("ErrorIndication", TPtr ErrorIndication, "valueExt,referenceFieldValue:9");
  ("HandoverNotify", TPtr HandoverNotify, "valueExt,referenceFieldValue:11");
  ("InitialUEMessage", TPtr InitialUEMessage, "valueExt,referenceFieldValue:15");
  ("LocationReport", TPtr LocationReport, "valueExt,referenceFieldValue:18");
  ("LocationReportingControl", TPtr LocationReportingControl, "valueExt,referenceFieldValue:16");
  ("LocationReportingFailureIndication", TPtr LocationReportingFailureIndication, "valueExt,referenceFieldValue:17");
  ("NASNonDeliveryIndication", TPtr NASNonDeliveryIndication, "valueExt,referenceFieldValue:19");
  ("OverloadStart", TPtr OverloadStart, "valueExt,referenceFieldValue:22");
  ("OverloadStop", TPtr OverloadStop, "valueExt,referenceFieldValue:23");
  ("Paging", TPtr Paging, "valueExt,referenceFieldValue:24");
  ("PDUSessionResourceNotify", TPtr PDUSessionResourceNotify, "valueExt,referenceFieldValue:30");
  ("PrivateMessage", TPtr PrivateMessage, "valueExt,referenceFieldValue:31");
  ("PWSFailureIndication", TPtr PWSFailureIndication, "valueExt,referenceFieldValue:33");
  ("PWSRestartIndication", TPtr PWSRestartIndication, "valueExt,referenceFieldValue:34");
  ("RerouteNASRequest", TPtr RerouteNASRequest, "valueExt,referenceFieldValue:36");
  ("RRCInactiveTransitionReport", TPtr RRCInactiveTransitionReport, "valueExt,referenceFieldValue:37");
  ("TraceFailureIndication", TPtr TraceFailureIndication, "valueExt,referenceFieldValue:38");
  ("TraceStart", TPtr TraceStart, "valueExt,referenceFieldValue:39");
  ("UEContextReleaseRequest", TPtr UEContextReleaseRequest, "valueExt,referenceFieldValue:42");
  ("UERadioCapabilityInfoIndication", TPtr UERadioCapabilityInfoIndication, "valueExt,referenceFieldValue:44");
  ("UETNLABindingReleaseRequest", TPtr UETNLABindingReleaseRequest, "valueExt,referenceFieldValue:45");
  ("UplinkNASTransport", TPtr UplinkNASTransport, "valueExt,referenceFieldValue:46");
  ("UplinkNonUEAssociatedNRPPaTransport", TPtr UplinkNonUEAssociatedNRPPaTransport, "valueExt,referenceFieldValue:47");
  ("UplinkRANConfigurationTransfer", TPtr UplinkRANConfigurationTransfer, "valueExt,referenceFieldValue:48");
  ("UplinkRANStatusTransfer", TPtr UplinkRANStatusTransfer, "valueExt,referenceFieldValue:49");
  ("UplinkUEAssociatedNRPPaTransport", TPtr UplinkUEAssociatedNRPPaTransport, "valueExt,referenceFieldValue:50")].
Definition InitiatingMessage : gotype := TStruct "InitiatingMessage" [
  ("ProcedureCode", ProcedureCode, ""); ("Criticality", Criticality, "");
  ("Value", InitiatingMessageValue, "openType,referenceFieldName:ProcedureCode")].
Definition IntegrityProtectionIndication : gotype := TStruct "IntegrityProtectionIndication" [
  ("Value", TEnumerated, "valueExt,valueLB:0,valueUB:2")].
Definition TimeUEStayedInCell : gotype := TStruct "TimeUEStayedInCell" [("Value", TInt 64, "valueLB:0,valueUB:4095")].
Definition TimeUEStayedInCellEnhancedGranularity : gotype := TStruct "TimeUEStayedInCellEnhancedGranularity" [
  ("Value", TInt 64, "valueLB:0,valueUB:40950")].
Definition LastVisitedNGRANCellInformationExtIEsExtensionValue : gotype := TStruct "LastVisitedNGRANCellInformationExtIEsExtensionValue" [
  ("Present", TInt 64, "")].
Definition LastVisitedNGRANCellInformationExtIEs : gotype := TStruct "LastVisitedNGRANCellInformationExtIEs" [
  ("Id", ProtocolExtensionID, ""); ("Criticality", Criticality, "");
  ("ExtensionValue", LastVisitedNGRANCellInformationExtIEsExtensionValue, "openType,referenceFieldName:Id")].
Definition ProtocolExtensionContainerLastVisitedNGRANCellInformationExtIEs : gotype := TStruct "ProtocolExtensionContainerLastVisitedNGRANCellInformationExtIEs" [
  ("List", TSlice LastVisitedNGRANCellInformationExtIEs, "sizeLB:1,sizeUB:65535")].
Definition LastVisitedNGRANCellInformation : gotype := TStruct "LastVisitedNGRANCellInformation" [
  ("GlobalCellID", NGRANCGI, "valueLB:0,valueUB:2"); ("CellType", CellType, "valueExt");
  ("TimeUEStayedInCell", TimeUEStayedInCell, "");
  ("TimeUEStayedInCellEnhancedGranularity", TPtr TimeUEStayedInCellEnhancedGranularity, "optional");
  ("HOCauseValue", TPtr Cause, "valueLB:0,valueUB:5,optional");
  ("IEExtensions", TPtr ProtocolExtensionContainerLastVisitedNGRANCellInformationExtIEs, "optional")].
Definition LastVisitedEUTRANCellInformation : gotype := TStruct "LastVisitedEUTRANCellInformation" [
  ("Value", TOctetString, "")].
Definition LastVisitedUTRANCellInformation : gotype := TStruct "LastVisitedUTRANCellInformation" [
  ("Value", TOctetString, "")].
Definition LastVisitedGERANCellInformation : gotype := TStruct "LastVisitedGERANCellInformation" [
  ("Value", TOctetString, "")].
Definition ProtocolIESingleContainerLastVisitedCellInformationExtIEs : gotype := TStruct "ProtocolIESingleContainerLastVisitedCellInformationExtIEs" [].
Definition LastVisitedCellInformation : gotype := TStruct "LastVisitedCellInformation" [
  ("Present", TInt 64, ""); ("NGRANCell", TPtr LastVisitedNGRANCellInformation, "valueExt");
  ("EUTRANCell", TPtr LastVisitedEUTRANCellInformation, ""); ("UTRANCell", TPtr LastVisitedUTRANCellInformation, "");
  ("GERANCell", TPtr LastVisitedGERANCellInformation, "");
  ("ChoiceExtensions", TPtr ProtocolIESingleContainerLastVisitedCellInformationExtIEs, "")].
Definition LastVisitedCellItemExtIEsExtensionValue : gotype := TStruct "LastVisitedCellItemExtIEsExtensionValue" [
  ("Present", TInt 64, "")].
Definition LastVisitedCellItemExtIEs : gotype := TStruct "LastVisitedCellItemExtIEs" [
  ("Id", ProtocolExtensionID, ""); ("Criticality", Criticality, "");
  ("ExtensionValue", LastVisitedCellItemExtIEsExtensionValue, "openType,referenceFieldName:Id")].
Definition ProtocolExtensionContainerLastVisitedCellItemExtIEs : gotype := TStruct "ProtocolExtensionContainerLastVisitedCellItemExtIEs" [
  ("List", TSlice LastVisitedCellItemExtIEs, "sizeLB:1,sizeUB:65535")].
Definition LastVisitedCellItem : gotype := TStruct "LastVisitedCellItem" [
  ("LastVisitedCellInformation", LastVisitedCellInformation, "valueLB:0,valueUB:4");
  ("IEExtensions", TPtr ProtocolExtensionContainerLastVisitedCellItemExtIEs, "optional")].
Definition MaximumIntegrityProtectedDataRate : gotype := TStruct "MaximumIntegrityProtectedDataRate" [
  ("Value", TEnumerated, "valueExt,valueLB:0,valueUB:1")].
Definition QosFlowPerTNLInformationExtIEsExtensionValue : gotype := TStruct "QosFlowPerTNLInformationExtIEsExtensionValue" [
  ("Present", TInt 64, "")].
Definition QosFlowPerTNLInformationExtIEs : gotype := TStruct "QosFlowPerTNLInformationExtIEs" [
  ("Id", ProtocolExtensionID, ""); ("Criticality", Criticality, "");
  ("ExtensionValue", QosFlowPerTNLInformationExtIEsExtensionValue, "openType,referenceFieldName:Id")].
Definition ProtocolExtensionContainerQosFlowPerTNLInformationExtIEs : gotype := TStruct "ProtocolExtensionContainerQosFlowPerTNLInformationExtIEs" [
  ("List", TSlice QosFlowPerTNLInformationExtIEs, "sizeLB:1,sizeUB:65535")].
Definition QosFlowPerTNLInformation : gotype := TStruct "QosFlowPerTNLInformation" [
  ("UPTransportLayerInformation", UPTransportLayerInformation, "valueLB:0,valueUB:1");
  ("AssociatedQosFlowList", AssociatedQosFlowList, "");
  ("IEExtensions", TPtr ProtocolExtensionContainerQosFlowPerTNLInformationExtIEs, "optional")].
Definition TNLInformationItemExtIEsExtensionValue : gotype := TStruct "TNLInformationItemExtIEsExtensionValue" [
  ("Present", TInt 64, "")].
Definition TNLInformationItemExtIEs : gotype := TStruct "TNLInformationItemExtIEs" [
  ("Id", ProtocolExtensionID, ""); ("Criticality", Criticality, "");
  ("ExtensionValue", TNLInformationItemExtIEsExtensionValue, "openType,referenceFieldName:Id")].
Definition ProtocolExtensionContainerTNLInformationItemExtIEs : gotype := TStruct "ProtocolExtensionContainerTNLInformationItemExtIEs" [
  ("List", TSlice TNLInformationItemExtIEs, "sizeLB:1,sizeUB:65535")].
Definition TNLInformationItem : gotype := TStruct "TNLInformationItem" [
  ("QosFlowPerTNLInformation", QosFlowPerTNLInformation, "valueExt");
  ("IEExtensions", TPtr ProtocolExtensionContainerTNLInformationItemExtIEs, "optional")].
Definition TNLInformationList : gotype := TStruct "TNLInformationList" [
  ("List", TSlice TNLInformationItem, "valueExt,sizeLB:1,sizeUB:4")].
Definition MultipleTNLInformationExtIEsExtensionValue : gotype := TStruct "MultipleTNLInformationExtIEsExtensionValue" [
  ("Present", TInt 64, "")].
Definition MultipleTNLInformationExtIEs : gotype := TStruct "MultipleTNLInformationExtIEs" [
  ("Id", ProtocolExtensionID, ""); ("Criticality", Criticality, "");
  ("ExtensionValue", MultipleTNLInformationExtIEsExtensionValue, "openType,referenceFieldName:Id")].
Definition ProtocolExtensionContainerMultipleTNLInformationExtIEs : gotype := TStruct "ProtocolExtensionContainerMultipleTNLInformationExtIEs" [
  ("List", TSlice MultipleTNLInformationExtIEs, "sizeLB:1,sizeUB:65535")].
Definition MultipleTNLInformation : gotype := TStruct "MultipleTNLInformation" [
  ("TNLInformationList", TNLInformationList, "");
  ("IEExtensions", TPtr ProtocolExtensionContainerMultipleTNLInformationExtIEs, "optional")].
Definition NGResetAcknowledgeIEsValue : gotype := TStruct "NGResetAcknowledgeIEsValue" [
  ("Present", TInt 64, "");
  ("UEAssociatedLogicalNGConnectionList", TPtr UEAssociatedLogicalNGConnectionList, "referenceFieldValue:111");
  ("CriticalityDiagnostics", TPtr CriticalityDiagnostics, "valueExt,referenceFieldValue:19")].
Definition NGResetAcknowledgeIEs : gotype := TStruct "NGResetAcknowledgeIEs" [
  ("Id", ProtocolIEID, ""); ("Criticality", Criticality, "");
  ("Value", NGResetAcknowledgeIEsValue, "openType,referenceFieldName:Id")].
Definition ProtocolIEContainerNGResetAcknowledgeIEs : gotype := TStruct "ProtocolIEContainerNGResetAcknowledgeIEs" [
  ("List", TSlice NGResetAcknowledgeIEs, "sizeLB:0,sizeUB:65535")].
Definition NGResetAcknowledge : gotype := TStruct "NGResetAcknowledge" [
  ("ProtocolIEs", ProtocolIEContainerNGResetAcknowledgeIEs, "")].
Definition NGSetupResponseIEsValue : gotype := TStruct "NGSetupResponseIEsValue" [
  ("Present", TInt 64, ""); ("AMFName", TPtr AMFName, "referenceFieldValue:1");
  ("ServedGUAMIList", TPtr ServedGUAMIList, "referenceFieldValue:96");
  ("RelativeAMFCapacity", TPtr RelativeAMFCapacity, "referenceFieldValue:86");
  ("PLMNSupportList", TPtr PLMNSupportList, "referenceFieldValue:80");
  ("CriticalityDiagnostics", TPtr CriticalityDiagnostics, "valueExt,referenceFieldValue:19")].
Definition NGSetupResponseIEs : gotype := TStruct "NGSetupResponseIEs" [
  ("Id", ProtocolIEID, ""); ("Criticality", Criticality, "");
  ("Value", NGSetupResponseIEsValue, "openType,referenceFieldName:Id")].
Definition ProtocolIEContainerNGSetupResponseIEs : gotype := TStruct "ProtocolIEContainerNGSetupResponseIEs" [
  ("List", TSlice NGSetupResponseIEs, "sizeLB:0,sizeUB:65535")].
Definition NGSetupResponse : gotype := TStruct "NGSetupResponse" [
  ("ProtocolIEs", ProtocolIEContainerNGSetupResponseIEs, "")].
Definition PDUSessionResourceSwitchedItemExtIEsExtensionValue : gotype := TStruct "PDUSessionResourceSwitchedItemExtIEsExtensionValue" [
  ("Present", TInt 64, "")].
Definition PDUSessionResourceSwitchedItemExtIEs : gotype := TStruct "PDUSessionResourceSwitchedItemExtIEs" [
  ("Id", ProtocolExtensionID, ""); ("Criticality", Criticality, "");
  ("ExtensionValue", PDUSessionResourceSwitchedItemExtIEsExtensionValue, "openType,referenceFieldName:Id")].
Definition ProtocolExtensionContainerPDUSessionResourceSwitchedItemExtIEs : gotype := TStruct "ProtocolExtensionContainerPDUSessionResourceSwitchedItemExtIEs" [
  ("List", TSlice PDUSessionResourceSwitchedItemExtIEs, "sizeLB:1,sizeUB:65535")].
Definition PDUSessionResourceSwitchedItem : gotype := TStruct "PDUSessionResourceSwitchedItem" [
  ("PDUSessionID", PDUSessionID, ""); ("PathSwitchRequestAcknowledgeTransfer", TOctetString, "");
  ("IEExtensions", TPtr ProtocolExtensionContainerPDUSessionResourceSwitchedItemExtIEs, "optional")].
Definition PDUSessionResourceSwitchedList : gotype := TStruct "PDUSessionResourceSwitchedList" [
  ("List", TSlice PDUSessionResourceSwitchedItem, "valueExt,sizeLB:1,sizeUB:256")].
Definition PDUSessionResourceReleasedItemPSAckExtIEsExtensionValue : gotype := TStruct "PDUSessionResourceReleasedItemPSAckExtIEsExtensionValue" [
  ("Present", TInt 64, "")].
Definition PDUSessionResourceReleasedItemPSAckExtIEs : gotype := TStruct "PDUSessionResourceReleasedItemPSAckExtIEs" [
  ("Id", ProtocolExtensionID, ""); ("Criticality", Criticality, "");
  ("ExtensionValue", PDUSessionResourceReleasedItemPSAckExtIEsExtensionValue, "openType,referenceFieldName:Id")].
Definition ProtocolExtensionContainerPDUSessionResourceReleasedItemPSAckExtIEs : gotype := TStruct "ProtocolExtensionContainerPDUSessionResourceReleasedItemPSAckExtIEs" [
  ("List", TSlice PDUSessionResourceReleasedItemPSAckExtIEs, "sizeLB:1,sizeUB:65535")].
Definition PDUSessionResourceReleasedItemPSAck : gotype := TStruct "PDUSessionResourceReleasedItemPSAck" [
  ("PDUSessionID", PDUSessionID, ""); ("PathSwitchRequestUnsuccessfulTransfer", TOctetString, "");
  ("IEExtensions", TPtr ProtocolExtensionContainerPDUSessionResourceReleasedItemPSAckExtIEs, "optional")].
Definition PDUSessionResourceReleasedListPSAck : gotype := TStruct "PDUSessionResourceReleasedListPSAck" [
  ("List", TSlice PDUSessionResourceReleasedItemPSAck, "valueExt,sizeLB:1,sizeUB:256")].
Definition PathSwitchRequestAcknowledgeIEsValue : gotype := TStruct "PathSwitchRequestAcknowledgeIEsValue" [
  ("Present", TInt 64, ""); ("AMFUENGAPID", TPtr AMFUENGAPID, "referenceFieldValue:10");
  ("RANUENGAPID", TPtr RANUENGAPID, "referenceFieldValue:85");
  ("UESecurityCapabilities", TPtr UESecurityCapabilities, "valueExt,referenceFieldValue:119");
  ("SecurityContext", TPtr SecurityContext, "valueExt,referenceFieldValue:93");
  ("NewSecurityContextInd", TPtr NewSecurityContextInd, "referenceFieldValue:41");
  ("PDUSessionResourceSwitchedList", TPtr PDUSessionResourceSwitchedList, "referenceFieldValue:77");
  ("PDUSessionResourceReleasedListPSAck", TPtr PDUSessionResourceReleasedListPSAck, "referenceFieldValue:68");
  ("AllowedNSSAI", TPtr AllowedNSSAI, "referenceFieldValue:0");
  ("CoreNetworkAssistanceInformation", TPtr CoreNetworkAssistanceInformation, "valueExt,referenceFieldValue:18");
  ("RRCInactiveTransitionReportRequest", TPtr RRCInactiveTransitionReportRequest, "referenceFieldValue:91");
  ("CriticalityDiagnostics", TPtr CriticalityDiagnostics, "valueExt,referenceFieldValue:19")].
Definition PathSwitchRequestAcknowledgeIEs : gotype := TStruct "PathSwitchRequestAcknowledgeIEs" [
  ("Id", ProtocolIEID, ""); ("Criticality", Criticality, "");
  ("Value", PathSwitchRequestAcknowledgeIEsValue, "openType,referenceFieldName:Id")].
Definition ProtocolIEContainerPathSwitchRequestAcknowledgeIEs : gotype := TStruct "ProtocolIEContainerPathSwitchRequestAcknowledgeIEs" [
  ("List", TSlice PathSwitchRequestAcknowledgeIEs, "sizeLB:0,sizeUB:65535")].
Definition PathSwitchRequestAcknowledge : gotype := TStruct "PathSwitchRequestAcknowledge" [
  ("ProtocolIEs", ProtocolIEContainerPathSwitchRequestAcknowledgeIEs, "")].
Definition PDUSessionResourceModifyItemModResExtIEsExtensionValue : gotype := TStruct "PDUSessionResourceModifyItemModResExtIEsExtensionValue" [
  ("Present", TInt 64, "")].
Definition PDUSessionResourceModifyItemModResExtIEs : gotype := TStruct "PDUSessionResourceModifyItemModResExtIEs" [
  ("Id", ProtocolExtensionID, ""); ("Criticality", Criticality, "");
  ("ExtensionValue", PDUSessionResourceModifyItemModResExtIEsExtensionValue, "openType,referenceFieldName:Id")].
Definition ProtocolExtensionContainerPDUSessionResourceModifyItemModResExtIEs : gotype := TStruct "ProtocolExtensionContainerPDUSessionResourceModifyItemModResExtIEs" [
  ("List", TSlice PDUSessionResourceModifyItemModResExtIEs, "sizeLB:1,sizeUB:65535")].
Definition PDUSessionResourceModifyItemModRes : gotype := TStruct "PDUSessionResourceModifyItemModRes" [
  ("PDUSessionID", PDUSessionID, ""); ("PDUSessionResourceModifyResponseTransfer", TPtr TOctetString, "optional");
  ("IEExtensions", TPtr ProtocolExtensionContainerPDUSessionResourceModifyItemModResExtIEs, "optional")].
Definition PDUSessionResourceModifyListModRes : gotype := TStruct "PDUSessionResourceModifyListModRes" [
  ("List", TSlice PDUSessionResourceModifyItemModRes, "valueExt,sizeLB:1,sizeUB:256")].
Definition PDUSessionResourceFailedToModifyItemModResExtIEsExtensionValue : gotype := TStruct "PDUSessionResourceFailedToModifyItemModResExtIEsExtensionValue" [
  ("Present", TInt 64, "")].
Definition PDUSessionResourceFailedToModifyItemModResExtIEs : gotype := TStruct "PDUSessionResourceFailedToModifyItemModResExtIEs" [
  ("Id", ProtocolExtensionID, ""); ("Criticality", Criticality, "");
  ("ExtensionValue", PDUSessionResourceFailedToModifyItemModResExtIEsExtensionValue, "openType,referenceFieldName:Id")].
Definition ProtocolExtensionContainerPDUSessionResourceFailedToModifyItemModResExtIEs : gotype := TStruct "ProtocolExtensionContainerPDUSessionResourceFailedToModifyItemModResExtIEs" [
  ("List", TSlice PDUSessionResourceFailedToModifyItemModResExtIEs, "sizeLB:1,sizeUB:65535")].
Definition PDUSessionResourceFailedToModifyItemModRes : gotype := TStruct "PDUSessionResourceFailedToModifyItemModRes" [
  ("PDUSessionID", PDUSessionID, ""); ("PDUSessionResourceModifyUnsuccessfulTransfer", TOctetString, "");
  ("IEExtensions", TPtr ProtocolExtensionContainerPDUSessionResourceFailedToModifyItemModResExtIEs, "optional")].
Definition PDUSessionResourceFailedToModifyListModRes : gotype := TStruct "PDUSessionResourceFailedToModifyListModRes" [
  ("List", TSlice PDUSessionResourceFailedToModifyItemModRes, "valueExt,sizeLB:1,sizeUB:256")].
Definition PDUSessionResourceModifyResponseIEsValue : gotype := TStruct "PDUSessionResourceModifyResponseIEsValue" [
  ("Present", TInt 64, ""); ("AMFUENGAPID", TPtr AMFUENGAPID, "referenceFieldValue:10");
  ("RANUENGAPID", TPtr RANUENGAPID, "referenceFieldValue:85");
  ("PDUSessionResourceModifyListModRes", TPtr PDUSessionResourceModifyListModRes, "referenceFieldValue:65");
  ("PDUSessionResourceFailedToModifyListModRes", TPtr PDUSessionResourceFailedToModifyListModRes, "referenceFieldValue:54");
  ("UserLocationInformation", TPtr UserLocationInformation, "referenceFieldValue:121,valueLB:0,valueUB:3");
  ("CriticalityDiagnostics", TPtr CriticalityDiagnostics, "valueExt,referenceFieldValue:19")].
Definition PDUSessionResourceModifyResponseIEs : gotype := TStruct "PDUSessionResourceModifyResponseIEs" [
  ("Id", ProtocolIEID, ""); ("Criticality", Criticality, "");
  ("Value", PDUSessionResourceModifyResponseIEsValue, "openType,referenceFieldName:Id")].
Definition ProtocolIEContainerPDUSessionResourceModifyResponseIEs : gotype := TStruct "ProtocolIEContainerPDUSessionResourceModifyResponseIEs" [
  ("List", TSlice PDUSessionResourceModifyResponseIEs, "sizeLB:0,sizeUB:65535")].
Definition PDUSessionResourceModifyResponse : gotype := TStruct "PDUSessionResourceModifyResponse" [
  ("ProtocolIEs", ProtocolIEContainerPDUSessionResourceModifyResponseIEs, "")].
Definition PDUSessionResourceModifyItemModCfmExtIEsExtensionValue : gotype := TStruct "PDUSessionResourceModifyItemModCfmExtIEsExtensionValue" [
  ("Present", TInt 64, "")].
Definition PDUSessionResourceModifyItemModCfmExtIEs : gotype := TStruct "PDUSessionResourceModifyItemModCfmExtIEs" [
  ("Id", ProtocolExtensionID, ""); ("Criticality", Criticality, "");
  ("ExtensionValue", PDUSessionResourceModifyItemModCfmExtIEsExtensionValue, "openType,referenceFieldName:Id")].
Definition ProtocolExtensionContainerPDUSessionResourceModifyItemModCfmExtIEs : gotype := TStruct "ProtocolExtensionContainerPDUSessionResourceModifyItemModCfmExtIEs" [
  ("List", TSlice PDUSessionResourceModifyItemModCfmExtIEs, "sizeLB:1,sizeUB:65535")].
Definition PDUSessionResourceModifyItemModCfm : gotype := TStruct "PDUSessionResourceModifyItemModCfm" [
  ("PDUSessionID", PDUSessionID, ""); ("PDUSessionResourceModifyConfirmTransfer", TOctetString, "");
  ("IEExtensions", TPtr ProtocolExtensionContainerPDUSessionResourceModifyItemModCfmExtIEs, "optional")].
Definition PDUSessionResourceModifyListModCfm : gotype := TStruct "PDUSessionResourceModifyListModCfm" [
  ("List", TSlice PDUSessionResourceModifyItemModCfm, "valueExt,sizeLB:1,sizeUB:256")].
Definition PDUSessionResourceFailedToModifyItemModCfmExtIEsExtensionValue : gotype := TStruct "PDUSessionResourceFailedToModifyItemModCfmExtIEsExtensionValue" [
  ("Present", TInt 64, "")].
Definition PDUSessionResourceFailedToModifyItemModCfmExtIEs : gotype := TStruct "PDUSessionResourceFailedToModifyItemModCfmExtIEs" [
  ("Id", ProtocolExtensionID, ""); ("Criticality", Criticality, "");
  ("ExtensionValue", PDUSessionResourceFailedToModifyItemModCfmExtIEsExtensionValue, "openType,referenceFieldName:Id")].
Definition ProtocolExtensionContainerPDUSessionResourceFailedToModifyItemModCfmExtIEs : gotype := TStruct "ProtocolExtensionContainerPDUSessionResourceFailedToModifyItemModCfmExtIEs" [
  ("List", TSlice PDUSessionResourceFailedToModifyItemModCfmExtIEs, "sizeLB:1,sizeUB:65535")].
Definition PDUSessionResourceFailedToModifyItemModCfm : gotype := TStruct "PDUSessionResourceFailedToModifyItemModCfm" [
  ("PDUSessionID", PDUSessionID, ""); ("PDUSessionResourceModifyIndicationUnsuccessfulTransfer", TOctetString, "");
  ("IEExtensions", TPtr ProtocolExtensionContainerPDUSessionResourceFailedToModifyItemModCfmExtIEs, "optional")].
Definition PDUSessionResourceFailedToModifyListModCfm : gotype := TStruct "PDUSessionResourceFailedToModifyListModCfm" [
  ("List", TSlice PDUSessionResourceFailedToModifyItemModCfm, "valueExt,sizeLB:1,sizeUB:256")].
Definition PDUSessionResourceModifyConfirmIEsValue : gotype := TStruct "PDUSessionResourceModifyConfirmIEsValue" [
  ("Present", TInt 64, ""); ("AMFUENGAPID", TPtr AMFUENGAPID, "referenceFieldValue:10");
  ("RANUENGAPID", TPtr RANUENGAPID, "referenceFieldValue:85");
  ("PDUSessionResourceModifyListModCfm", TPtr PDUSessionResourceModifyListModCfm, "referenceFieldValue:62");
  ("PDUSessionResourceFailedToModifyListModCfm", TPtr PDUSessionResourceFailedToModifyListModCfm, "referenceFieldValue:131");
  ("CriticalityDiagnostics", TPtr CriticalityDiagnostics, "valueExt,referenceFieldValue:19")].
Definition PDUSessionResourceModifyConfirmIEs : gotype := TStruct "PDUSessionResourceModifyConfirmIEs" [
  ("Id", ProtocolIEID, ""); ("Criticality", Criticality, "");
  ("Value", PDUSessionResourceModifyConfirmIEsValue, "openType,referenceFieldName:Id")].
Definition ProtocolIEContainerPDUSessionResourceModifyConfirmIEs : gotype := TStruct "ProtocolIEContainerPDUSessionResourceModifyConfirmIEs" [
  ("List", TSlice PDUSessionResourceModifyConfirmIEs, "sizeLB:0,sizeUB:65535")].
Definition PDUSessionResourceModifyConfirm : gotype := TStruct "PDUSessionResourceModifyConfirm" [
  ("ProtocolIEs", ProtocolIEContainerPDUSessionResourceModifyConfirmIEs, "")].
Definition PDUSessionResourceReleasedItemRelResExtIEsExtensionValue : gotype := TStruct "PDUSessionResourceReleasedItemRelResExtIEsExtensionValue" [
  ("Present", TInt 64, "")].
Definition PDUSessionResourceReleasedItemRelResExtIEs : gotype := TStruct "PDUSessionResourceReleasedItemRelResExtIEs" [
  ("Id", ProtocolExtensionID, ""); ("Criticality", Criticality, "");
  ("ExtensionValue", PDUSessionResourceReleasedItemRelResExtIEsExtensionValue, "openType,referenceFieldName:Id")].
Definition ProtocolExtensionContainerPDUSessionResourceReleasedItemRelResExtIEs : gotype := TStruct "ProtocolExtensionContainerPDUSessionResourceReleasedItemRelResExtIEs" [
  ("List", TSlice PDUSessionResourceReleasedItemRelResExtIEs, "sizeLB:1,sizeUB:65535")].
Definition PDUSessionResourceReleasedItemRelRes : gotype := TStruct "PDUSessionResourceReleasedItemRelRes" [
  ("PDUSessionID", PDUSessionID, ""); ("PDUSessionResourceReleaseResponseTransfer", TOctetString, "");
  ("IEExtensions", TPtr ProtocolExtensionContainerPDUSessionResourceReleasedItemRelResExtIEs, "optional")].
Definition PDUSessionResourceReleasedListRelRes : gotype := TStruct "PDUSessionResourceReleasedListRelRes" [
  ("List", TSlice PDUSessionResourceReleasedItemRelRes, "valueExt,sizeLB:1,sizeUB:256")].
Definition PDUSessionResourceReleaseResponseIEsValue : gotype := TStruct "PDUSessionResourceReleaseResponseIEsValue" [
  ("Present", TInt 64, ""); ("AMFUENGAPID", TPtr AMFUENGAPID, "referenceFieldValue:10");
  ("RANUENGAPID", TPtr RANUENGAPID, "referenceFieldValue:85");
  ("PDUSessionResourceReleasedListRelRes", TPtr PDUSessionResourceReleasedListRelRes, "referenceFieldValue:70");
  ("UserLocationInformation", TPtr UserLocationInformation, "referenceFieldValue:121,valueLB:0,valueUB:3");
  ("CriticalityDiagnostics", TPtr CriticalityDiagnostics, "valueExt,referenceFieldValue:19")].
Definition PDUSessionResourceReleaseResponseIEs : gotype := TStruct "PDUSessionResourceReleaseResponseIEs" [
  ("Id", ProtocolIEID, ""); ("Criticality", Criticality, "");
  ("Value", PDUSessionResourceReleaseResponseIEsValue, "openType,referenceFieldName:Id")].
Definition ProtocolIEContainerPDUSessionResourceReleaseResponseIEs : gotype := TStruct "ProtocolIEContainerPDUSessionResourceReleaseResponseIEs" [
  ("List", TSlice PDUSessionResourceReleaseResponseIEs, "sizeLB:0,sizeUB:65535")].
Definition PDUSessionResourceReleaseResponse : gotype := TStruct "PDUSessionResourceReleaseResponse" [
  ("ProtocolIEs", ProtocolIEContainerPDUSessionResourceReleaseResponseIEs, "")].
Definition PDUSessionResourceSetupItemSUResExtIEsExtensionValue : gotype := TStruct "PDUSessionResourceSetupItemSUResExtIEsExtensionValue" [
  ("Present", TInt 64, "")].
Definition PDUSessionResourceSetupItemSUResExtIEs : gotype := TStruct "PDUSessionResourceSetupItemSUResExtIEs" [
  ("Id", ProtocolExtensionID, ""); ("Criticality", Criticality, "");
  ("ExtensionValue", PDUSessionResourceSetupItemSUResExtIEsExtensionValue, "openType,referenceFieldName:Id")].
Definition ProtocolExtensionContainerPDUSessionResourceSetupItemSUResExtIEs : gotype := TStruct "ProtocolExtensionContainerPDUSessionResourceSetupItemSUResExtIEs" [
  ("List", TSlice PDUSessionResourceSetupItemSUResExtIEs, "sizeLB:1,sizeUB:65535")].
Definition PDUSessionResourceSetupItemSURes : gotype := TStruct "PDUSessionResourceSetupItemSURes" [
  ("PDUSessionID", PDUSessionID, ""); ("PDUSessionResourceSetupResponseTransfer", TOctetString, "");
  ("IEExtensions", TPtr ProtocolExtensionContainerPDUSessionResourceSetupItemSUResExtIEs, "optional")].
Definition PDUSessionResourceSetupListSURes : gotype := TStruct "PDUSessionResourceSetupListSURes" [
  ("List", TSlice PDUSessionResourceSetupItemSURes, "valueExt,sizeLB:1,sizeUB:256")].
Definition PDUSessionResourceFailedToSetupItemSUResExtIEsExtensionValue : gotype := TStruct "PDUSessionResourceFailedToSetupItemSUResExtIEsExtensionValue" [
  ("Present", TInt 64, "")].
Definition PDUSessionResourceFailedToSetupItemSUResExtIEs : gotype := TStruct "PDUSessionResourceFailedToSetupItemSUResExtIEs" [
  ("Id", ProtocolExtensionID, ""); ("Criticality", Criticality, "");
  ("ExtensionValue", PDUSessionResourceFailedToSetupItemSUResExtIEsExtensionValue, "openType,referenceFieldName:Id")].
Definition ProtocolExtensionContainerPDUSessionResourceFailedToSetupItemSUResExtIEs : gotype := TStruct "ProtocolExtensionContainerPDUSessionResourceFailedToSetupItemSUResExtIEs" [
  ("List", TSlice PDUSessionResourceFailedToSetupItemSUResExtIEs, "sizeLB:1,sizeUB:65535")].
Definition PDUSessionResourceFailedToSetupItemSURes : gotype := TStruct "PDUSessionResourceFailedToSetupItemSURes" [
  ("PDUSessionID", PDUSessionID, ""); ("PDUSessionResourceSetupUnsuccessfulTransfer", TOctetString, "");
  ("IEExtensions", TPtr ProtocolExtensionContainerPDUSessionResourceFailedToSetupItemSUResExtIEs, "optional")].
Definition PDUSessionResourceFailedToSetupListSURes : gotype := TStruct "PDUSessionResourceFailedToSetupListSURes" [
  ("List", TSlice PDUSessionResourceFailedToSetupItemSURes, "valueExt,sizeLB:1,sizeUB:256")].
Definition PDUSessionResourceSetupResponseIEsValue : gotype := TStruct "PDUSessionResourceSetupResponseIEsValue" [
  ("Present", TInt 64, ""); ("AMFUENGAPID", TPtr AMFUENGAPID, "referenceFieldValue:10");
  ("RANUENGAPID", TPtr RANUENGAPID, "referenceFieldValue:85");
  ("PDUSessionResourceSetupListSURes", TPtr PDUSessionResourceSetupListSURes, "referenceFieldValue:75");
  ("PDUSessionResourceFailedToSetupListSURes", TPtr PDUSessionResourceFailedToSetupListSURes, "referenceFieldValue:58");
  ("CriticalityDiagnostics", TPtr CriticalityDiagnostics, "valueExt,referenceFieldValue:19")].
Definition PDUSessionResourceSetupResponseIEs : gotype := TStruct "PDUSessionResourceSetupResponseIEs" [
  ("Id", ProtocolIEID, ""); ("Criticality", Criticality, "");
  ("Value", PDUSessionResourceSetupResponseIEsValue, "openType,referenceFieldName:Id")].
Definition ProtocolIEContainerPDUSessionResourceSetupResponseIEs : gotype := TStruct "ProtocolIEContainerPDUSessionResourceSetupResponseIEs" [
  ("List", TSlice PDUSessionResourceSetupResponseIEs, "sizeLB:0,sizeUB:65535")].
Definition PDUSessionResourceSetupResponse : gotype := TStruct "PDUSessionResourceSetupResponse" [
  ("ProtocolIEs", ProtocolIEContainerPDUSessionResourceSetupResponseIEs, "")].
Definition PWSCancelResponseIEsValue : gotype := TStruct "PWSCancelResponseIEsValue" [
  ("Present", TInt 64, ""); ("MessageIdentifier", TPtr MessageIdentifier, "referenceFieldValue:35");
  ("SerialNumber", TPtr SerialNumber, "referenceFieldValue:95");
  ("BroadcastCancelledAreaList", TPtr BroadcastCancelledAreaList, "referenceFieldValue:12,valueLB:0,valueUB:6");
  ("CriticalityDiagnostics", TPtr CriticalityDiagnostics, "valueExt,referenceFieldValue:19")].
Definition PWSCancelResponseIEs : gotype := TStruct "PWSCancelResponseIEs" [
  ("Id", ProtocolIEID, ""); ("Criticality", Criticality, "");
  ("Value", PWSCancelResponseIEsValue, "openType,referenceFieldName:Id")].
Definition ProtocolIEContainerPWSCancelResponseIEs : gotype := TStruct "ProtocolIEContainerPWSCancelResponseIEs" [
  ("List", TSlice PWSCancelResponseIEs, "sizeLB:0,sizeUB:65535")].
Definition PWSCancelResponse : gotype := TStruct "PWSCancelResponse" [
  ("ProtocolIEs", ProtocolIEContainerPWSCancelResponseIEs, "")].
Definition RANConfigurationUpdateAcknowledgeIEsValue : gotype := TStruct "RANConfigurationUpdateAcknowledgeIEsValue" [
  ("Present", TInt 64, "");
  ("CriticalityDiagnostics", TPtr CriticalityDiagnostics, "valueExt,referenceFieldValue:19")].
Definition RANConfigurationUpdateAcknowledgeIEs : gotype := TStruct "RANConfigurationUpdateAcknowledgeIEs" [
  ("Id", ProtocolIEID, ""); ("Criticality", Criticality, "");
  ("Value", RANConfigurationUpdateAcknowledgeIEsValue, "openType,referenceFieldName:Id")].
Definition ProtocolIEContainerRANConfigurationUpdateAcknowledgeIEs : gotype := TStruct "ProtocolIEContainerRANConfigurationUpdateAcknowledgeIEs" [
  ("List", TSlice RANConfigurationUpdateAcknowledgeIEs, "sizeLB:0,sizeUB:65535")].
Definition RANConfigurationUpdateAcknowledge : gotype := TStruct "RANConfigurationUpdateAcknowledge" [
  ("ProtocolIEs", ProtocolIEContainerRANConfigurationUpdateAcknowledgeIEs, "")].
Definition UEContextModificationResponseIEsValue : gotype := TStruct "UEContextModificationResponseIEsValue" [
  ("Present", TInt 64, ""); ("AMFUENGAPID", TPtr AMFUENGAPID, "referenceFieldValue:10");
  ("RANUENGAPID", TPtr RANUENGAPID, "referenceFieldValue:85"); ("RRCState", TPtr RRCState, "referenceFieldValue:92");
  ("UserLocationInformation", TPtr UserLocationInformation, "referenceFieldValue:121,valueLB:0,valueUB:3");
  ("CriticalityDiagnostics", TPtr CriticalityDiagnostics, "valueExt,referenceFieldValue:19")].
Definition UEContextModificationResponseIEs : gotype := TStruct "UEContextModificationResponseIEs" [
  ("Id", ProtocolIEID, ""); ("Criticality", Criticality, "");
  ("Value", UEContextModificationResponseIEsValue, "openType,referenceFieldName:Id")].
Definition ProtocolIEContainerUEContextModificationResponseIEs : gotype := TStruct "ProtocolIEContainerUEContextModificationResponseIEs" [
  ("List", TSlice UEContextModificationResponseIEs, "sizeLB:0,sizeUB:65535")].
Definition UEContextModificationResponse : gotype := TStruct "UEContextModificationResponse" [
  ("ProtocolIEs", ProtocolIEContainerUEContextModificationResponseIEs, "")].
Definition PDUSessionResourceItemCxtRelCplExtIEsExtensionValue : gotype := TStruct "PDUSessionResourceItemCxtRelCplExtIEsExtensionValue" [
  ("Present", TInt 64, "")].
Definition PDUSessionResourceItemCxtRelCplExtIEs : gotype := TStruct "PDUSessionResourceItemCxtRelCplExtIEs" [
  ("Id", ProtocolExtensionID, ""); ("Criticality", Criticality, "");
  ("ExtensionValue", PDUSessionResourceItemCxtRelCplExtIEsExtensionValue, "openType,referenceFieldName:Id")].
Definition ProtocolExtensionContainerPDUSessionResourceItemCxtRelCplExtIEs : gotype := TStruct "ProtocolExtensionContainerPDUSessionResourceItemCxtRelCplExtIEs" [
  ("List", TSlice PDUSessionResourceItemCxtRelCplExtIEs, "sizeLB:1,sizeUB:65535")].
Definition PDUSessionResourceItemCxtRelCpl : gotype := TStruct "PDUSessionResourceItemCxtRelCpl" [
  ("PDUSessionID", PDUSessionID, "");
  ("IEExtensions", TPtr ProtocolExtensionContainerPDUSessionResourceItemCxtRelCplExtIEs, "optional")].
Definition PDUSessionResourceListCxtRelCpl : gotype := TStruct "PDUSessionResourceListCxtRelCpl" [
  ("List", TSlice PDUSessionResourceItemCxtRelCpl, "valueExt,sizeLB:1,sizeUB:256")].
Definition UEContextReleaseCompleteIEsValue : gotype := TStruct "UEContextReleaseCompleteIEsValue" [
  ("Present", TInt 64, ""); ("AMFUENGAPID", TPtr AMFUENGAPID, "referenceFieldValue:10");
  ("RANUENGAPID", TPtr RANUENGAPID, "referenceFieldValue:85");
  ("UserLocationInformation", TPtr UserLocationInformation, "referenceFieldValue:121,valueLB:0,valueUB:3");
  ("InfoOnRecommendedCellsAndRANNodesForPaging", TPtr InfoOnRecommendedCellsAndRANNodesForPaging, "valueExt,referenceFieldValue:32");
  ("PDUSessionResourceListCxtRelCpl", TPtr PDUSessionResourceListCxtRelCpl, "referenceFieldValue:60");
  ("CriticalityDiagnostics", TPtr CriticalityDiagnostics, "valueExt,referenceFieldValue:19")].
Definition UEContextReleaseCompleteIEs : gotype := TStruct "UEContextReleaseCompleteIEs" [
  ("Id", ProtocolIEID, ""); ("Criticality", Criticality, "");
  ("Value", UEContextReleaseCompleteIEsValue, "openType,referenceFieldName:Id")].
Definition ProtocolIEContainerUEContextReleaseCompleteIEs : gotype := TStruct "ProtocolIEContainerUEContextReleaseCompleteIEs" [
  ("List", TSlice UEContextReleaseCompleteIEs, "sizeLB:0,sizeUB:65535")].
Definition UEContextReleaseComplete : gotype := TStruct "UEContextReleaseComplete" [
  ("ProtocolIEs", ProtocolIEContainerUEContextReleaseCompleteIEs, "")].
Definition UERadioCapabilityCheckResponseIEsValue : gotype := TStruct "UERadioCapabilityCheckResponseIEsValue" [
  ("Present", TInt 64, ""); ("AMFUENGAPID", TPtr AMFUENGAPID, "referenceFieldValue:10");
  ("RANUENGAPID", TPtr RANUENGAPID, "referenceFieldValue:85");
  ("IMSVoiceSupportIndicator", TPtr IMSVoiceSupportIndicator, "referenceFieldValue:30");
  ("CriticalityDiagnostics", TPtr CriticalityDiagnostics, "valueExt,referenceFieldValue:19")].
Definition UERadioCapabilityCheckResponseIEs : gotype := TStruct "UERadioCapabilityCheckResponseIEs" [
  ("Id", ProtocolIEID, ""); ("Criticality", Criticality, "");
  ("Value", UERadioCapabilityCheckResponseIEsValue, "openType,referenceFieldName:Id")].
Definition ProtocolIEContainerUERadioCapabilityCheckResponseIEs : gotype := TStruct "ProtocolIEContainerUERadioCapabilityCheckResponseIEs" [
  ("List", TSlice UERadioCapabilityCheckResponseIEs, "sizeLB:0,sizeUB:65535")].
Definition UERadioCapabilityCheckResponse : gotype := TStruct "UERadioCapabilityCheckResponse" [
  ("ProtocolIEs", ProtocolIEContainerUERadioCapabilityCheckResponseIEs, "")].
Definition WriteReplaceWarningResponseIEsValue : gotype := TStruct "WriteReplaceWarningResponseIEsValue" [
  ("Present", TInt 64, ""); ("MessageIdentifier", TPtr MessageIdentifier, "referenceFieldValue:35");
  ("SerialNumber", TPtr SerialNumber, "referenceFieldValue:95");
  ("BroadcastCompletedAreaList", TPtr BroadcastCompletedAreaList, "referenceFieldValue:13,valueLB:0,valueUB:6");
  ("CriticalityDiagnostics", TPtr CriticalityDiagnostics, "valueExt,referenceFieldValue:19")].
Definition WriteReplaceWarningResponseIEs : gotype := TStruct "WriteReplaceWarningResponseIEs" [
  ("Id", ProtocolIEID, ""); ("Criticality", Criticality, "");
  ("Value", WriteReplaceWarningResponseIEsValue, "openType,referenceFieldName:Id")].
Definition ProtocolIEContainerWriteReplaceWarningResponseIEs : gotype := TStruct "ProtocolIEContainerWriteReplaceWarningResponseIEs" [
  ("List", TSlice WriteReplaceWarningResponseIEs, "sizeLB:0,sizeUB:65535")].
Definition WriteReplaceWarningResponse : gotype := TStruct "WriteReplaceWarningResponse" [
  ("ProtocolIEs", ProtocolIEContainerWriteReplaceWarningResponseIEs, "")].
Definition SuccessfulOutcomeValue : gotype := TStruct "SuccessfulOutcomeValue" [
  ("Present", TInt 64, "");
  ("AMFConfigurationUpdateAcknowledge", TPtr AMFConfigurationUpdateAcknowledge, "valueExt,referenceFieldValue:0");
  ("HandoverCancelAcknowledge", TPtr HandoverCancelAcknowledge, "valueExt,referenceFieldValue:10");
  ("HandoverCommand", TPtr HandoverCommand, "valueExt,referenceFieldValue:12");
  ("HandoverRequestAcknowledge", TPtr HandoverRequestAcknowledge, "valueExt,referenceFieldValue:13");
  ("InitialContextSetupResponse", TPtr InitialContextSetupResponse, "valueExt,referenceFieldValue:14");
  ("NGResetAcknowledge", TPtr NGResetAcknowledge, "valueExt,referenceFieldValue:20");
  ("NGSetupResponse", TPtr NGSetupResponse, "valueExt,referenceFieldValue:21");
  ("PathSwitchRequestAcknowledge", TPtr PathSwitchRequestAcknowledge, "valueExt,referenceFieldValue:25");
  ("PDUSessionResourceModifyResponse", TPtr PDUSessionResourceModifyResponse, "valueExt,referenceFieldValue:26");
  ("PDUSessionResourceModifyConfirm", TPtr PDUSessionResourceModifyConfirm, "valueExt,referenceFieldValue:27");
  ("PDUSessionResourceReleaseResponse", TPtr PDUSessionResourceReleaseResponse, "valueExt,referenceFieldValue:28");
  ("PDUSessionResourceSetupResponse", TPtr PDUSessionResourceSetupResponse, "valueExt,referenceFieldValue:29");
  ("PWSCancelResponse", TPtr PWSCancelResponse, "valueExt,referenceFieldValue:32");
  ("RANConfigurationUpdateAcknowledge", TPtr RANConfigurationUpdateAcknowledge, "valueExt,referenceFieldValue:35");
  ("UEContextModificationResponse", TPtr UEContextModificationResponse, "valueExt,referenceFieldValue:40");
  ("UEContextReleaseComplete", TPtr UEContextReleaseComplete, "valueExt,referenceFieldValue:41");
  ("UERadioCapabilityCheckResponse", TPtr UERadioCapabilityCheckResponse, "valueExt,referenceFieldValue:43");
  ("WriteReplaceWarningResponse", TPtr WriteReplaceWarningResponse, "valueExt,referenceFieldValue:51")].
Definition SuccessfulOutcome : gotype := TStruct "SuccessfulOutcome" [
  ("ProcedureCode", ProcedureCode, ""); ("Criticality", Criticality, "");
  ("Value", SuccessfulOutcomeValue, "openType,referenceFieldName:ProcedureCode")].
Definition NGSetupFailureIEsValue : gotype := TStruct "NGSetupFailureIEsValue" [
  ("Present", TInt 64, ""); ("Cause", TPtr Cause, "referenceFieldValue:15,valueLB:0,valueUB:5");
  ("TimeToWait", TPtr TimeToWait, "referenceFieldValue:107");
  ("CriticalityDiagnostics", TPtr CriticalityDiagnostics, "valueExt,referenceFieldValue:19")].
Definition NGSetupFailureIEs : gotype := TStruct "NGSetupFailureIEs" [
  ("Id", ProtocolIEID, ""); ("Criticality", Criticality, "");
  ("Value", NGSetupFailureIEsValue, "openType,referenceFieldName:Id")].
Definition ProtocolIEContainerNGSetupFailureIEs : gotype := TStruct "ProtocolIEContainerNGSetupFailureIEs" [
  ("List", TSlice NGSetupFailureIEs, "sizeLB:0,sizeUB:65535")].
Definition NGSetupFailure : gotype := TStruct "NGSetupFailure" [
  ("ProtocolIEs", ProtocolIEContainerNGSetupFailureIEs, "")].
Definition PDUSessionResourceReleasedItemPSFailExtIEsExtensionValue : gotype := TStruct "PDUSessionResourceReleasedItemPSFailExtIEsExtensionValue" [
  ("Present", TInt 64, "")].
Definition PDUSessionResourceReleasedItemPSFailExtIEs : gotype := TStruct "PDUSessionResourceReleasedItemPSFailExtIEs" [
  ("Id", ProtocolExtensionID, ""); ("Criticality", Criticality, "");
  ("ExtensionValue", PDUSessionResourceReleasedItemPSFailExtIEsExtensionValue, "openType,referenceFieldName:Id")].
Definition ProtocolExtensionContainerPDUSessionResourceReleasedItemPSFailExtIEs : gotype := TStruct "ProtocolExtensionContainerPDUSessionResourceReleasedItemPSFailExtIEs" [
  ("List", TSlice PDUSessionResourceReleasedItemPSFailExtIEs, "sizeLB:1,sizeUB:65535")].
Definition PDUSessionResourceReleasedItemPSFail : gotype := TStruct "PDUSessionResourceReleasedItemPSFail" [
  ("PDUSessionID", PDUSessionID, ""); ("PathSwitchRequestUnsuccessfulTransfer", TOctetString, "");
  ("IEExtensions", TPtr ProtocolExtensionContainerPDUSessionResourceReleasedItemPSFailExtIEs, "optional")].
Definition PDUSessionResourceReleasedListPSFail : gotype := TStruct "PDUSessionResourceReleasedListPSFail" [
  ("List", TSlice PDUSessionResourceReleasedItemPSFail, "valueExt,sizeLB:1,sizeUB:256")].
Definition PathSwitchRequestFailureIEsValue : gotype := TStruct "PathSwitchRequestFailureIEsValue" [
  ("Present", TInt 64, ""); ("AMFUENGAPID", TPtr AMFUENGAPID, "referenceFieldValue:10");
  ("RANUENGAPID", TPtr RANUENGAPID, "referenceFieldValue:85");
  ("PDUSessionResourceReleasedListPSFail", TPtr PDUSessionResourceReleasedListPSFail, "referenceFieldValue:69");
  ("CriticalityDiagnostics", TPtr CriticalityDiagnostics, "valueExt,referenceFieldValue:19")].
Definition PathSwitchRequestFailureIEs : gotype := TStruct "PathSwitchRequestFailureIEs" [
  ("Id", ProtocolIEID, ""); ("Criticality", Criticality, "");
  ("Value", PathSwitchRequestFailureIEsValue, "openType,referenceFieldName:Id")].
Definition ProtocolIEContainerPathSwitchRequestFailureIEs : gotype := TStruct "ProtocolIEContainerPathSwitchRequestFailureIEs" [
  ("List", TSlice PathSwitchRequestFailureIEs, "sizeLB:0,sizeUB:65535")].
Definition PathSwitchRequestFailure : gotype := TStruct "PathSwitchRequestFailure" [
  ("ProtocolIEs", ProtocolIEContainerPathSwitchRequestFailureIEs, "")].
Definition RANConfigurationUpdateFailureIEsValue : gotype := TStruct "RANConfigurationUpdateFailureIEsValue" [
  ("Present", TInt 64, ""); ("Cause", TPtr Cause, "referenceFieldValue:15,valueLB:0,valueUB:5");
  ("TimeToWait", TPtr TimeToWait, "referenceFieldValue:107");
  ("CriticalityDiagnostics", TPtr CriticalityDiagnostics, "valueExt,referenceFieldValue:19")].
Definition RANConfigurationUpdateFailureIEs : gotype := TStruct "RANConfigurationUpdateFailureIEs" [
  ("Id", ProtocolIEID, ""); ("Criticality", Criticality, "");
  ("Value", RANConfigurationUpdateFailureIEsValue, "openType,referenceFieldName:Id")].
Definition ProtocolIEContainerRANConfigurationUpdateFailureIEs : gotype := TStruct "ProtocolIEContainerRANConfigurationUpdateFailureIEs" [
  ("List", TSlice RANConfigurationUpdateFailureIEs, "sizeLB:0,sizeUB:65535")].
Definition RANConfigurationUpdateFailure : gotype := TStruct "RANConfigurationUpdateFailure" [
  ("ProtocolIEs", ProtocolIEContainerRANConfigurationUpdateFailureIEs, "")].
Definition UEContextModificationFailureIEsValue : gotype := TStruct "UEContextModificationFailureIEsValue" [
  ("Present", TInt 64, ""); ("AMFUENGAPID", TPtr AMFUENGAPID, "referenceFieldValue:10");
  ("RANUENGAPID", TPtr RANUENGAPID, "referenceFieldValue:85");
  ("Cause", TPtr Cause, "referenceFieldValue:15,valueLB:0,valueUB:5");
  ("CriticalityDiagnostics", TPtr CriticalityDiagnostics, "valueExt,referenceFieldValue:19")].
Definition UEContextModificationFailureIEs : gotype := TStruct "UEContextModificationFailureIEs" [
  ("Id", ProtocolIEID, ""); ("Criticality", Criticality, "");
  ("Value", UEContextModificationFailureIEsValue, "openType,referenceFieldName:Id")].
Definition ProtocolIEContainerUEContextModificationFailureIEs : gotype := TStruct "ProtocolIEContainerUEContextModificationFailureIEs" [
  ("List", TSlice UEContextModificationFailureIEs, "sizeLB:0,sizeUB:65535")].
Definition UEContextModificationFailure : gotype := TStruct "UEContextModificationFailure" [
  ("ProtocolIEs", ProtocolIEContainerUEContextModificationFailureIEs, "")].
Definition UnsuccessfulOutcomeValue : gotype := TStruct "UnsuccessfulOutcomeValue" [
  ("Present", TInt 64, "");
  ("AMFConfigurationUpdateFailure", TPtr AMFConfigurationUpdateFailure, "valueExt,referenceFieldValue:0");
  ("HandoverPreparationFailure", TPtr HandoverPreparationFailure, "valueExt,referenceFieldValue:12");
  ("HandoverFailure", TPtr HandoverFailure, "valueExt,referenceFieldValue:13");
  ("InitialContextSetupFailure", TPtr InitialContextSetupFailure, "valueExt,referenceFieldValue:14");
  ("NGSetupFailure", TPtr NGSetupFailure, "valueExt,referenceFieldValue:21");
  ("PathSwitchRequestFailure", TPtr PathSwitchRequestFailure, "valueExt,referenceFieldValue:25");
  ("RANConfigurationUpdateFailure", TPtr RANConfigurationUpdateFailure, "valueExt,referenceFieldValue:35");
  ("UEContextModificationFailure", TPtr UEContextModificationFailure, "valueExt,referenceFieldValue:40")].
Definition UnsuccessfulOutcome : gotype := TStruct "UnsuccessfulOutcome" [
  ("ProcedureCode", ProcedureCode, ""); ("Criticality", Criticality, "");
  ("Value", UnsuccessfulOutcomeValue, "openType,referenceFieldName:ProcedureCode")].
Definition NGAPPDU : gotype := TStruct "NGAPPDU" [
  ("Present", TInt 64, ""); ("InitiatingMessage", TPtr InitiatingMessage, "");
  ("SuccessfulOutcome", TPtr SuccessfulOutcome, ""); ("UnsuccessfulOutcome", TPtr UnsuccessfulOutcome, "")].
Definition NetworkInstance : gotype := TStruct "NetworkInstance" [("Value", TInt 64, "valueExt,valueLB:1,valueUB:256")].
Definition NonDynamic5QIDescriptorExtIEsExtensionValue : gotype := TStruct "NonDynamic5QIDescriptorExtIEsExtensionValue" [
  ("Present", TInt 64, "")].
Definition NonDynamic5QIDescriptorExtIEs : gotype := TStruct "NonDynamic5QIDescriptorExtIEs" [
  ("Id", ProtocolExtensionID, ""); ("Criticality", Criticality, "");
  ("ExtensionValue", NonDynamic5QIDescriptorExtIEsExtensionValue, "openType,referenceFieldName:Id")].
Definition ProtocolExtensionContainerNonDynamic5QIDescriptorExtIEs : gotype := TStruct "ProtocolExtensionContainerNonDynamic5QIDescriptorExtIEs" [
  ("List", TSlice NonDynamic5QIDescriptorExtIEs, "sizeLB:1,sizeUB:65535")].
Definition NonDynamic5QIDescriptor : gotype := TStruct "NonDynamic5QIDescriptor" [
  ("FiveQI", FiveQI, ""); ("PriorityLevelQos", TPtr PriorityLevelQos, "optional");
  ("AveragingWindow", TPtr AveragingWindow, "optional");
  ("MaximumDataBurstVolume", TPtr MaximumDataBurstVolume, "optional");
  ("IEExtensions", TPtr ProtocolExtensionContainerNonDynamic5QIDescriptorExtIEs, "optional")].
Definition NotificationCause : gotype := TStruct "NotificationCause" [
  ("Value", TEnumerated, "valueExt,valueLB:0,valueUB:1")].
Definition PDUSessionAggregateMaximumBitRateExtIEsExtensionValue : gotype := TStruct "PDUSessionAggregateMaximumBitRateExtIEsExtensionValue" [
  ("Present", TInt 64, "")].
Definition PDUSessionAggregateMaximumBitRateExtIEs : gotype := TStruct "PDUSessionAggregateMaximumBitRateExtIEs" [
  ("Id", ProtocolExtensionID, ""); ("Criticality", Criticality, "");
  ("ExtensionValue", PDUSessionAggregateMaximumBitRateExtIEsExtensionValue, "openType,referenceFieldName:Id")].
Definition ProtocolExtensionContainerPDUSessionAggregateMaximumBitRateExtIEs : gotype := TStruct "ProtocolExtensionContainerPDUSessionAggregateMaximumBitRateExtIEs" [
  ("List", TSlice PDUSessionAggregateMaximumBitRateExtIEs, "sizeLB:1,sizeUB:65535")].
Definition PDUSessionAggregateMaximumBitRate : gotype := TStruct "PDUSessionAggregateMaximumBitRate" [
  ("PDUSessionAggregateMaximumBitRateDL", BitRate, ""); ("PDUSessionAggregateMaximumBitRateUL", BitRate, "");
  ("IEExtensions", TPtr ProtocolExtensionContainerPDUSessionAggregateMaximumBitRateExtIEs, "optional")].
Definition QosFlowInformationItemExtIEsExtensionValue : gotype := TStruct "QosFlowInformationItemExtIEsExtensionValue" [
  ("Present", TInt 64, "")].
Definition QosFlowInformationItemExtIEs : gotype := TStruct "QosFlowInformationItemExtIEs" [
  ("Id", ProtocolExtensionID, ""); ("Criticality", Criticality, "");
  ("ExtensionValue", QosFlowInformationItemExtIEsExtensionValue, "openType,referenceFieldName:Id")].
Definition ProtocolExtensionContainerQosFlowInformationItemExtIEs : gotype := TStruct "ProtocolExtensionContainerQosFlowInformationItemExtIEs" [
  ("List", TSlice QosFlowInformationItemExtIEs, "sizeLB:1,sizeUB:65535")].
Definition QosFlowInformationItem : gotype := TStruct "QosFlowInformationItem" [
  ("QosFlowIdentifier", QosFlowIdentifier, ""); ("DLForwarding", TPtr DLForwarding, "optional");
  ("IEExtensions", TPtr ProtocolExtensionContainerQosFlowInformationItemExtIEs, "optional")].
Definition QosFlowInformationList : gotype := TStruct "QosFlowInformationList" [
  ("List", TSlice QosFlowInformationItem, "valueExt,sizeLB:1,sizeUB:64")].
Definition PDUSessionResourceInformationItemExtIEsExtensionValue : gotype := TStruct "PDUSessionResourceInformationItemExtIEsExtensionValue" [
  ("Present", TInt 64, "")].
Definition PDUSessionResourceInformationItemExtIEs : gotype := TStruct "PDUSessionResourceInformationItemExtIEs" [
  ("Id", ProtocolExtensionID, ""); ("Criticality", Criticality, "");
  ("ExtensionValue", PDUSessionResourceInformationItemExtIEsExtensionValue, "openType,referenceFieldName:Id")].
Definition ProtocolExtensionContainerPDUSessionResourceInformationItemExtIEs : gotype := TStruct "ProtocolExtensionContainerPDUSessionResourceInformationItemExtIEs" [
  ("List", TSlice PDUSessionResourceInformationItemExtIEs, "sizeLB:1,sizeUB:65535")].
Definition PDUSessionResourceInformationItem : gotype := TStruct "PDUSessionResourceInformationItem" [
  ("PDUSessionID", PDUSessionID, ""); ("QosFlowInformationList", QosFlowInformationList, "");
  ("DRBsToQosFlowsMappingList", TPtr DRBsToQosFlowsMappingList, "optional");
  ("IEExtensions", TPtr ProtocolExtensionContainerPDUSessionResourceInformationItemExtIEs, "optional")].
Definition PDUSessionResourceInformationList : gotype := TStruct "PDUSessionResourceInformationList" [
  ("List", TSlice PDUSessionResourceInformationItem, "valueExt,sizeLB:1,sizeUB:256")].
Definition QosFlowModifyConfirmItemExtIEsExtensionValue : gotype := TStruct "QosFlowModifyConfirmItemExtIEsExtensionValue" [
  ("Present", TInt 64, "")].
Definition QosFlowModifyConfirmItemExtIEs : gotype := TStruct "QosFlowModifyConfirmItemExtIEs" [
  ("Id", ProtocolExtensionID, ""); ("Criticality", Criticality, "");
  ("ExtensionValue", QosFlowModifyConfirmItemExtIEsExtensionValue, "openType,referenceFieldName:Id")].
Definition ProtocolExtensionContainerQosFlowModifyConfirmItemExtIEs : gotype := TStruct "ProtocolExtensionContainerQosFlowModifyConfirmItemExtIEs" [
  ("List", TSlice QosFlowModifyConfirmItemExtIEs, "sizeLB:1,sizeUB:65535")].
Definition QosFlowModifyConfirmItem : gotype := TStruct "QosFlowModifyConfirmItem" [
  ("QosFlowIdentifier", QosFlowIdentifier, "");
  ("IEExtensions", TPtr ProtocolExtensionContainerQosFlowModifyConfirmItemExtIEs, "optional")].
Definition QosFlowModifyConfirmList : gotype := TStruct "QosFlowModifyConfirmList" [
  ("List", TSlice QosFlowModifyConfirmItem, "valueExt,sizeLB:1,sizeUB:64")].
Definition TNLMappingItemExtIEsExtensionValue : gotype := TStruct "TNLMappingItemExtIEsExtensionValue" [
  ("Present", TInt 64, "")].
Definition TNLMappingItemExtIEs : gotype := TStruct "TNLMappingItemExtIEs" [
  ("Id", ProtocolExtensionID, ""); ("Criticality", Criticality, "");
  ("ExtensionValue", TNLMappingItemExtIEsExtensionValue, "openType,referenceFieldName:Id")].
Definition ProtocolExtensionContainerTNLMappingItemExtIEs : gotype := TStruct "ProtocolExtensionContainerTNLMappingItemExtIEs" [
  ("List", TSlice TNLMappingItemExtIEs, "sizeLB:1,sizeUB:65535")].
Definition TNLMappingItem : gotype := TStruct "TNLMappingItem" [
  ("DLNGUUPTNLInformation", UPTransportLayerInformation, "valueLB:0,valueUB:1");
  ("ULNGUUPTNLInformation", UPTransportLayerInformation, "valueLB:0,valueUB:1");
  ("IEExtensions", TPtr ProtocolExtensionContainerTNLMappingItemExtIEs, "optional")].
Definition TNLMappingList : gotype := TStruct "TNLMappingList" [
  ("List", TSlice TNLMappingItem, "valueExt,sizeLB:1,sizeUB:4")].
Definition PDUSessionResourceModifyConfirmTransferExtIEsExtensionValue : gotype := TStruct "PDUSessionResourceModifyConfirmTransferExtIEsExtensionValue" [
  ("Present", TInt 64, "")].
Definition PDUSessionResourceModifyConfirmTransferExtIEs : gotype := TStruct "PDUSessionResourceModifyConfirmTransferExtIEs" [
  ("Id", ProtocolExtensionID, ""); ("Criticality", Criticality, "");
  ("ExtensionValue", PDUSessionResourceModifyConfirmTransferExtIEsExtensionValue, "openType,referenceFieldName:Id")].
Definition ProtocolExtensionContainerPDUSessionResourceModifyConfirmTransferExtIEs : gotype := TStruct "ProtocolExtensionContainerPDUSessionResourceModifyConfirmTransferExtIEs" [
  ("List", TSlice PDUSessionResourceModifyConfirmTransferExtIEs, "sizeLB:1,sizeUB:65535")].
Definition PDUSessionResourceModifyConfirmTransfer : gotype := TStruct "PDUSessionResourceModifyConfirmTransfer" [
  ("QosFlowModifyConfirmList", QosFlowModifyConfirmList, ""); ("TNLMappingList", TPtr TNLMappingList, "optional");
  ("QosFlowFailedToModifyList", TPtr QosFlowList, "optional");
  ("IEExtensions", TPtr ProtocolExtensionContainerPDUSessionResourceModifyConfirmTransferExtIEs, "optional")].
Definition SingleTNLInformationExtIEsExtensionValue : gotype := TStruct "SingleTNLInformationExtIEsExtensionValue" [
  ("Present", TInt 64, "")].
Definition SingleTNLInformationExtIEs : gotype := TStruct "SingleTNLInformationExtIEs" [
  ("Id", ProtocolExtensionID, ""); ("Criticality", Criticality, "");
  ("ExtensionValue", SingleTNLInformationExtIEsExtensionValue, "openType,referenceFieldName:Id")].
Definition ProtocolExtensionContainerSingleTNLInformationExtIEs : gotype := TStruct "ProtocolExtensionContainerSingleTNLInformationExtIEs" [
  ("List", TSlice SingleTNLInformationExtIEs, "sizeLB:1,sizeUB:65535")].
Definition SingleTNLInformation : gotype := TStruct "SingleTNLInformation" [
  ("UPTransportLayerInformation", UPTransportLayerInformation, "valueLB:0,valueUB:1");
  ("IEExtensions", TPtr ProtocolExtensionContainerSingleTNLInformationExtIEs, "optional")].
Definition ProtocolIESingleContainerUPTNLInformationExtIEs : gotype := TStruct "ProtocolIESingleContainerUPTNLInformationExtIEs" [].
Definition UPTNLInformation : gotype := TStruct "UPTNLInformation" [
  ("Present", TInt 64, ""); ("SingleTNLInformation", TPtr SingleTNLInformation, "valueExt");
  ("MultipleTNLInformation", TPtr MultipleTNLInformation, "valueExt");
  ("ChoiceExtensions", TPtr ProtocolIESingleContainerUPTNLInformationExtIEs, "")].
Definition PDUSessionResourceModifyIndicationTransferExtIEsExtensionValue : gotype := TStruct "PDUSessionResourceModifyIndicationTransferExtIEsExtensionValue" [
  ("Present", TInt 64, "")].
Definition PDUSessionResourceModifyIndicationTransferExtIEs : gotype := TStruct "PDUSessionResourceModifyIndicationTransferExtIEs" [
  ("Id", ProtocolExtensionID, ""); ("Criticality", Criticality, "");
  ("ExtensionValue", PDUSessionResourceModifyIndicationTransferExtIEsExtensionValue, "openType,referenceFieldName:Id")].
Definition ProtocolExtensionContainerPDUSessionResourceModifyIndicationTransferExtIEs : gotype := TStruct "ProtocolExtensionContainerPDUSessionResourceModifyIndicationTransferExtIEs" [
  ("List", TSlice PDUSessionResourceModifyIndicationTransferExtIEs, "sizeLB:1,sizeUB:65535")].
Definition PDUSessionResourceModifyIndicationTransfer : gotype := TStruct "PDUSessionResourceModifyIndicationTransfer" [
  ("DLUPTNLInformation", TPtr UPTNLInformation, "valueLB:0,valueUB:2,optional");
  ("IEExtensions", TPtr ProtocolExtensionContainerPDUSessionResourceModifyIndicationTransferExtIEs, "optional")].
Definition PDUSessionResourceModifyIndicationUnsuccessfulTransferExtIEsExtensionValue : gotype := TStruct "PDUSessionResourceModifyIndicationUnsuccessfulTransferExtIEsExtensionValue" [
  ("Present", TInt 64, "")].
Definition PDUSessionResourceModifyIndicationUnsuccessfulTransferExtIEs : gotype := TStruct "PDUSessionResourceModifyIndicationUnsuccessfulTransferExtIEs" [
  ("Id", ProtocolExtensionID, ""); ("Criticality", Criticality, "");
  ("ExtensionValue", PDUSessionResourceModifyIndicationUnsuccessfulTransferExtIEsExtensionValue, "openType,referenceFieldName:Id")].
Definition ProtocolExtensionContainerPDUSessionResourceModifyIndicationUnsuccessfulTransferExtIEs : gotype := TStruct "ProtocolExtensionContainerPDUSessionResourceModifyIndicationUnsuccessfulTransferExtIEs" [
  ("List", TSlice PDUSessionResourceModifyIndicationUnsuccessfulTransferExtIEs, "sizeLB:1,sizeUB:65535")].
Definition PDUSessionResourceModifyIndicationUnsuccessfulTransfer : gotype := TStruct "PDUSessionResourceModifyIndicationUnsuccessfulTransfer" [
  ("Cause", Cause, "valueLB:0,valueUB:5");
  ("IEExtensions", TPtr ProtocolExtensionContainerPDUSessionResourceModifyIndicationUnsuccessfulTransferExtIEs, "optional")].
Definition ULNGUUPTNLModifyItemExtIEsExtensionValue : gotype := TStruct "ULNGUUPTNLModifyItemExtIEsExtensionValue" [
  ("Present", TInt 64, "")].
Definition ULNGUUPTNLModifyItemExtIEs : gotype := TStruct "ULNGUUPTNLModifyItemExtIEs" [
  ("Id", ProtocolExtensionID, ""); ("Criticality", Criticality, "");
  ("ExtensionValue", ULNGUUPTNLModifyItemExtIEsExtensionValue, "openType,referenceFieldName:Id")].
Definition ProtocolExtensionContainerULNGUUPTNLModifyItemExtIEs : gotype := TStruct "ProtocolExtensionContainerULNGUUPTNLModifyItemExtIEs" [
  ("List", TSlice ULNGUUPTNLModifyItemExtIEs, "sizeLB:1,sizeUB:65535")].
Definition ULNGUUPTNLModifyItem : gotype := TStruct "ULNGUUPTNLModifyItem" [
  ("ULNGUUPTNLInformation", UPTransportLayerInformation, "valueLB:0,valueUB:1");
  ("DLNGUUPTNLInformation", UPTransportLayerInformation, "valueLB:0,valueUB:1");
  ("IEExtensions", TPtr ProtocolExtensionContainerULNGUUPTNLModifyItemExtIEs, "optional")].
Definition ULNGUUPTNLModifyList : gotype := TStruct "ULNGUUPTNLModifyList" [
  ("List", TSlice ULNGUUPTNLModifyItem, "valueExt,sizeLB:0,sizeUB:4")].
Definition ProtocolIESingleContainerQosCharacteristicsExtIEs : gotype := TStruct "ProtocolIESingleContainerQosCharacteristicsExtIEs" [].
Definition QosCharacteristics : gotype := TStruct "QosCharacteristics" [
  ("Present", TInt 64, ""); ("NonDynamic5QI", TPtr NonDynamic5QIDescriptor, "valueExt");
  ("Dynamic5QI", TPtr Dynamic5QIDescriptor, "valueExt");
  ("ChoiceExtensions", TPtr ProtocolIESingleContainerQosCharacteristicsExtIEs, "")].
Definition ReflectiveQosAttribute : gotype := TStruct "ReflectiveQosAttribute" [
  ("Value", TEnumerated, "valueExt,valueLB:0,valueUB:0")].
Definition QosFlowLevelQosParametersExtIEsExtensionValue : gotype := TStruct "QosFlowLevelQosParametersExtIEsExtensionValue" [
  ("Present", TInt 64, "")].
Definition QosFlowLevelQosParametersExtIEs : gotype := TStruct "QosFlowLevelQosParametersExtIEs" [
  ("Id", ProtocolExtensionID, ""); ("Criticality", Criticality, "");
  ("ExtensionValue", QosFlowLevelQosParametersExtIEsExtensionValue, "openType,referenceFieldName:Id")].
Definition ProtocolExtensionContainerQosFlowLevelQosParametersExtIEs : gotype := TStruct "ProtocolExtensionContainerQosFlowLevelQosParametersExtIEs" [
  ("List", TSlice QosFlowLevelQosParametersExtIEs, "sizeLB:1,sizeUB:65535")].
Definition QosFlowLevelQosParameters : gotype := TStruct "QosFlowLevelQosParameters" [
  ("QosCharacteristics", QosCharacteristics, "valueLB:0,valueUB:2");
  ("AllocationAndRetentionPriority", AllocationAndRetentionPriority, "valueExt");
  ("GBRQosInformation", TPtr GBRQosInformation, "valueExt,optional");
  ("ReflectiveQosAttribute", TPtr ReflectiveQosAttribute, "optional");
  ("AdditionalQosFlowInformation", TPtr AdditionalQosFlowInformation, "optional");
  ("IEExtensions", TPtr ProtocolExtensionContainerQosFlowLevelQosParametersExtIEs, "optional")].
Definition QosFlowAddOrModifyRequestItemExtIEsExtensionValue : gotype := TStruct "QosFlowAddOrModifyRequestItemExtIEsExtensionValue" [
  ("Present", TInt 64, "")].
Definition QosFlowAddOrModifyRequestItemExtIEs : gotype := TStruct "QosFlowAddOrModifyRequestItemExtIEs" [
  ("Id", ProtocolExtensionID, ""); ("Criticality", Criticality, "");
  ("ExtensionValue", QosFlowAddOrModifyRequestItemExtIEsExtensionValue, "openType,referenceFieldName:Id")].
Definition ProtocolExtensionContainerQosFlowAddOrModifyRequestItemExtIEs : gotype := TStruct "ProtocolExtensionContainerQosFlowAddOrModifyRequestItemExtIEs" [
  ("List", TSlice QosFlowAddOrModifyRequestItemExtIEs, "sizeLB:1,sizeUB:65535")].
Definition QosFlowAddOrModifyRequestItem : gotype := TStruct "QosFlowAddOrModifyRequestItem" [
  ("QosFlowIdentifier", QosFlowIdentifier, "");
  ("QosFlowLevelQosParameters", TPtr QosFlowLevelQosParameters, "valueExt,optional");
  ("ERABID", TPtr ERABID, "optional");
  ("IEExtensions", TPtr ProtocolExtensionContainerQosFlowAddOrModifyRequestItemExtIEs, "optional")].
Definition QosFlowAddOrModifyRequestList : gotype := TStruct "QosFlowAddOrModifyRequestList" [
  ("List", TSlice QosFlowAddOrModifyRequestItem, "valueExt,sizeLB:1,sizeUB:64")].
Definition PDUSessionResourceModifyRequestTransferIEsValue : gotype := TStruct "PDUSessionResourceModifyRequestTransferIEsValue" [
  ("Present", TInt 64, "");
  ("PDUSessionAggregateMaximumBitRate", TPtr PDUSessionAggregateMaximumBitRate, "valueExt,referenceFieldValue:130");
  ("ULNGUUPTNLModifyList", TPtr ULNGUUPTNLModifyList, "referenceFieldValue:140");
  ("NetworkInstance", TPtr NetworkInstance, "referenceFieldValue:129");
  ("QosFlowAddOrModifyRequestList", TPtr QosFlowAddOrModifyRequestList, "referenceFieldValue:135");
  ("QosFlowToReleaseList", TPtr QosFlowList, "referenceFieldValue:137");
  ("AdditionalULNGUUPTNLInformation", TPtr UPTransportLayerInformation, "referenceFieldValue:126,valueLB:0,valueUB:1")].
Definition PDUSessionResourceModifyRequestTransferIEs : gotype := TStruct "PDUSessionResourceModifyRequestTransferIEs" [
  ("Id", ProtocolIEID, ""); ("Criticality", Criticality, "");
  ("Value", PDUSessionResourceModifyRequestTransferIEsValue, "openType,referenceFieldName:Id")].
Definition ProtocolIEContainerPDUSessionResourceModifyRequestTransferIEs : gotype := TStruct "ProtocolIEContainerPDUSessionResourceModifyRequestTransferIEs" [
  ("List", TSlice PDUSessionResourceModifyRequestTransferIEs, "sizeLB:0,sizeUB:65535")].
Definition PDUSessionResourceModifyRequestTransfer : gotype := TStruct "PDUSessionResourceModifyRequestTransfer" [
  ("ProtocolIEs", ProtocolIEContainerPDUSessionResourceModifyRequestTransferIEs, "")].
Definition QosFlowAddOrModifyResponseItemExtIEsExtensionValue : gotype := TStruct "QosFlowAddOrModifyResponseItemExtIEsExtensionValue" [
  ("Present", TInt 64, "")].
Definition QosFlowAddOrModifyResponseItemExtIEs : gotype := TStruct "QosFlowAddOrModifyResponseItemExtIEs" [
  ("Id", ProtocolExtensionID, ""); ("Criticality", Criticality, "");
  ("ExtensionValue", QosFlowAddOrModifyResponseItemExtIEsExtensionValue, "openType,referenceFieldName:Id")].
Definition ProtocolExtensionContainerQosFlowAddOrModifyResponseItemExtIEs : gotype := TStruct "ProtocolExtensionContainerQosFlowAddOrModifyResponseItemExtIEs" [
  ("List", TSlice QosFlowAddOrModifyResponseItemExtIEs, "sizeLB:1,sizeUB:65535")].
Definition QosFlowAddOrModifyResponseItem : gotype := TStruct "QosFlowAddOrModifyResponseItem" [
  ("QosFlowIdentifier", QosFlowIdentifier, "");
  ("IEExtensions", TPtr ProtocolExtensionContainerQosFlowAddOrModifyResponseItemExtIEs, "optional")].
Definition QosFlowAddOrModifyResponseList : gotype := TStruct "QosFlowAddOrModifyResponseList" [
  ("List", TSlice QosFlowAddOrModifyResponseItem, "valueExt,sizeLB:1,sizeUB:64")].
Definition PDUSessionResourceModifyResponseTransferExtIEsExtensionValue : gotype := TStruct "PDUSessionResourceModifyResponseTransferExtIEsExtensionValue" [
  ("Present", TInt 64, "")].
Definition PDUSessionResourceModifyResponseTransferExtIEs : gotype := TStruct "PDUSessionResourceModifyResponseTransferExtIEs" [
  ("Id", ProtocolExtensionID, ""); ("Criticality", Criticality, "");
  ("ExtensionValue", PDUSessionResourceModifyResponseTransferExtIEsExtensionValue, "openType,referenceFieldName:Id")].
Definition ProtocolExtensionContainerPDUSessionResourceModifyResponseTransferExtIEs : gotype := TStruct "ProtocolExtensionContainerPDUSessionResourceModifyResponseTransferExtIEs" [
  ("List", TSlice PDUSessionResourceModifyResponseTransferExtIEs, "sizeLB:1,sizeUB:65535")].
Definition PDUSessionResourceModifyResponseTransfer : gotype := TStruct "PDUSessionResourceModifyResponseTransfer" [
  ("DLNGUUPTNLInformation", TPtr UPTransportLayerInformation, "valueLB:0,valueUB:1,optional");
  ("ULNGUUPTNLInformation", TPtr UPTransportLayerInformation, "valueLB:0,valueUB:1,optional");
  ("QosFlowAddOrModifyResponseList", TPtr QosFlowAddOrModifyResponseList, "optional");
  ("AdditionalQosFlowPerTNLInformation", TPtr QosFlowPerTNLInformation, "valueExt,optional");
  ("QosFlowFailedToAddOrModifyList", TPtr QosFlowList, "optional");
  ("IEExtensions", TPtr ProtocolExtensionContainerPDUSessionResourceModifyResponseTransferExtIEs, "optional")].
Definition PDUSessionResourceModifyUnsuccessfulTransferExtIEsExtensionValue : gotype := TStruct "PDUSessionResourceModifyUnsuccessfulTransferExtIEsExtensionValue" [
  ("Present", TInt 64, "")].
Definition PDUSessionResourceModifyUnsuccessfulTransferExtIEs : gotype := TStruct "PDUSessionResourceModifyUnsuccessfulTransferExtIEs" [
  ("Id", ProtocolExtensionID, ""); ("Criticality", Criticality, "");
  ("ExtensionValue", PDUSessionResourceModifyUnsuccessfulTransferExtIEsExtensionValue, "openType,referenceFieldName:Id")].
Definition ProtocolExtensionContainerPDUSessionResourceModifyUnsuccessfulTransferExtIEs : gotype := TStruct "ProtocolExtensionContainerPDUSessionResourceModifyUnsuccessfulTransferExtIEs" [
  ("List", TSlice PDUSessionResourceModifyUnsuccessfulTransferExtIEs, "sizeLB:1,sizeUB:65535")].
Definition PDUSessionResourceModifyUnsuccessfulTransfer : gotype := TStruct "PDUSessionResourceModifyUnsuccessfulTransfer" [
  ("Cause", Cause, "valueLB:0,valueUB:5");
  ("CriticalityDiagnostics", TPtr CriticalityDiagnostics, "valueExt,optional");
  ("IEExtensions", TPtr ProtocolExtensionContainerPDUSessionResourceModifyUnsuccessfulTransferExtIEs, "optional")].
Definition PDUSessionResourceNotifyReleasedTransferExtIEsExtensionValue : gotype := TStruct "PDUSessionResourceNotifyReleasedTransferExtIEsExtensionValue" [
  ("Present", TInt 64, "")].
Definition PDUSessionResourceNotifyReleasedTransferExtIEs : gotype := TStruct "PDUSessionResourceNotifyReleasedTransferExtIEs" [
  ("Id", ProtocolExtensionID, ""); ("Criticality", Criticality, "");
  ("ExtensionValue", PDUSessionResourceNotifyReleasedTransferExtIEsExtensionValue, "openType,referenceFieldName:Id")].
Definition ProtocolExtensionContainerPDUSessionResourceNotifyReleasedTransferExtIEs : gotype := TStruct "ProtocolExtensionContainerPDUSessionResourceNotifyReleasedTransferExtIEs" [
  ("List", TSlice PDUSessionResourceNotifyReleasedTransferExtIEs, "sizeLB:1,sizeUB:65535")].
Definition PDUSessionResourceNotifyReleasedTransfer : gotype := TStruct "PDUSessionResourceNotifyReleasedTransfer" [
  ("Cause", Cause, "valueLB:0,valueUB:5");
  ("IEExtensions", TPtr ProtocolExtensionContainerPDUSessionResourceNotifyReleasedTransferExtIEs, "optional")].
Definition QosFlowNotifyItemExtIEsExtensionValue : gotype := TStruct "QosFlowNotifyItemExtIEsExtensionValue" [
  ("Present", TInt 64, "")].
Definition QosFlowNotifyItemExtIEs : gotype := TStruct "QosFlowNotifyItemExtIEs" [
  ("Id", ProtocolExtensionID, ""); ("Criticality", Criticality, "");
  ("ExtensionValue", QosFlowNotifyItemExtIEsExtensionValue, "openType,referenceFieldName:Id")].
Definition ProtocolExtensionContainerQosFlowNotifyItemExtIEs : gotype := TStruct "ProtocolExtensionContainerQosFlowNotifyItemExtIEs" [
  ("List", TSlice QosFlowNotifyItemExtIEs, "sizeLB:1,sizeUB:65535")].
Definition QosFlowNotifyItem : gotype := TStruct "QosFlowNotifyItem" [
  ("QosFlowIdentifier", QosFlowIdentifier, ""); ("NotificationCause", NotificationCause, "");
  ("IEExtensions", TPtr ProtocolExtensionContainerQosFlowNotifyItemExtIEs, "optional")].
Definition QosFlowNotifyList : gotype := TStruct "QosFlowNotifyList" [
  ("List", TSlice QosFlowNotifyItem, "valueExt,sizeLB:1,sizeUB:64")].
Definition PDUSessionResourceNotifyTransferExtIEsExtensionValue : gotype := TStruct "PDUSessionResourceNotifyTransferExtIEsExtensionValue" [
  ("Present", TInt 64, "")].
Definition PDUSessionResourceNotifyTransferExtIEs : gotype := TStruct "PDUSessionResourceNotifyTransferExtIEs" [
  ("Id", ProtocolExtensionID, ""); ("Criticality", Criticality, "");
  ("ExtensionValue", PDUSessionResourceNotifyTransferExtIEsExtensionValue, "openType,referenceFieldName:Id")].
Definition ProtocolExtensionContainerPDUSessionResourceNotifyTransferExtIEs : gotype := TStruct "ProtocolExtensionContainerPDUSessionResourceNotifyTransferExtIEs" [
  ("List", TSlice PDUSessionResourceNotifyTransferExtIEs, "sizeLB:1,sizeUB:65535")].
Definition PDUSessionResourceNotifyTransfer : gotype := TStruct "PDUSessionResourceNotifyTransfer" [
  ("QosFlowNotifyList", TPtr QosFlowNotifyList, "optional"); ("QosFlowReleasedList", TPtr QosFlowList, "optional");
  ("IEExtensions", TPtr ProtocolExtensionContainerPDUSessionResourceNotifyTransferExtIEs, "optional")].
Definition PDUSessionResourceReleaseCommandTransferExtIEsExtensionValue : gotype := TStruct "PDUSessionResourceReleaseCommandTransferExtIEsExtensionValue" [
  ("Present", TInt 64, "")].
Definition PDUSessionResourceReleaseCommandTransferExtIEs : gotype := TStruct "PDUSessionResourceReleaseCommandTransferExtIEs" [
  ("Id", ProtocolExtensionID, ""); ("Criticality", Criticality, "");
  ("ExtensionValue", PDUSessionResourceReleaseCommandTransferExtIEsExtensionValue, "openType,referenceFieldName:Id")].
Definition ProtocolExtensionContainerPDUSessionResourceReleaseCommandTransferExtIEs : gotype := TStruct "ProtocolExtensionContainerPDUSessionResourceReleaseCommandTransferExtIEs" [
  ("List", TSlice PDUSessionResourceReleaseCommandTransferExtIEs, "sizeLB:1,sizeUB:65535")].
Definition PDUSessionResourceReleaseCommandTransfer : gotype := TStruct "PDUSessionResourceReleaseCommandTransfer" [
  ("Cause", Cause, "valueLB:0,valueUB:5");
  ("IEExtensions", TPtr ProtocolExtensionContainerPDUSessionResourceReleaseCommandTransferExtIEs, "optional")].
Definition PDUSessionResourceReleaseResponseTransferExtIEsExtensionValue : gotype := TStruct "PDUSessionResourceReleaseResponseTransferExtIEsExtensionValue" [
  ("Present", TInt 64, "")].
Definition PDUSessionResourceReleaseResponseTransferExtIEs : gotype := TStruct "PDUSessionResourceReleaseResponseTransferExtIEs" [
  ("Id", ProtocolExtensionID, ""); ("Criticality", Criticality, "");
  ("ExtensionValue", PDUSessionResourceReleaseResponseTransferExtIEsExtensionValue, "openType,referenceFieldName:Id")].
Definition ProtocolExtensionContainerPDUSessionResourceReleaseResponseTransferExtIEs : gotype := TStruct "ProtocolExtensionContainerPDUSessionResourceReleaseResponseTransferExtIEs" [
  ("List", TSlice PDUSessionResourceReleaseResponseTransferExtIEs, "sizeLB:1,sizeUB:65535")].
Definition PDUSessionResourceReleaseResponseTransfer : gotype := TStruct "PDUSessionResourceReleaseResponseTransfer" [
  ("IEExtensions", TPtr ProtocolExtensionContainerPDUSessionResourceReleaseResponseTransferExtIEs, "optional")].
Definition UPTransportLayerInformationItemExtIEs : gotype := TStruct "UPTransportLayerInformationItemExtIEs" [].
Definition ProtocolExtensionContainerUPTransportLayerInformationItemExtIEs : gotype := TStruct "ProtocolExtensionContainerUPTransportLayerInformationItemExtIEs" [
  ("List", TSlice UPTransportLayerInformationItemExtIEs, "sizeLB:1,sizeUB:65535")].
Definition UPTransportLayerInformationItem : gotype := TStruct "UPTransportLayerInformationItem" [
  ("NGUUPTNLInformation", UPTransportLayerInformation, "");
  ("IEExtensions", TPtr ProtocolExtensionContainerUPTransportLayerInformationItemExtIEs, "optional")].
Definition UPTransportLayerInformationList : gotype := TStruct "UPTransportLayerInformationList" [
  ("List", TSlice UPTransportLayerInformationItem, "valueExt,sizeLB:1,sizeUB:3")].
Definition PDUSessionType : gotype := TStruct "PDUSessionType" [("Value", TEnumerated, "valueExt,valueLB:0,valueUB:4")].
Definition SecurityIndicationExtIEsExtensionValue : gotype := TStruct "SecurityIndicationExtIEsExtensionValue" [
  ("Present", TInt 64, "")].
Definition SecurityIndicationExtIEs : gotype := TStruct "SecurityIndicationExtIEs" [
  ("Id", ProtocolExtensionID, ""); ("Criticality", Criticality, "");
  ("ExtensionValue", SecurityIndicationExtIEsExtensionValue, "openType,referenceFieldName:Id")].
Definition ProtocolExtensionContainerSecurityIndicationExtIEs : gotype := TStruct "ProtocolExtensionContainerSecurityIndicationExtIEs" [
  ("List", TSlice SecurityIndicationExtIEs, "sizeLB:1,sizeUB:65535")].
Definition SecurityIndication : gotype := TStruct "SecurityIndication" [
  ("IntegrityProtectionIndication", IntegrityProtectionIndication, "");
  ("ConfidentialityProtectionIndication", ConfidentialityProtectionIndication, "");
  ("MaximumIntegrityProtectedDataRate", TPtr MaximumIntegrityProtectedDataRate, "optional");
  ("IEExtensions", TPtr ProtocolExtensionContainerSecurityIndicationExtIEs, "optional")].
Definition QosFlowSetupRequestItemExtIEsExtensionValue : gotype := TStruct "QosFlowSetupRequestItemExtIEsExtensionValue" [
  ("Present", TInt 64, "")].
Definition QosFlowSetupRequestItemExtIEs : gotype := TStruct "QosFlowSetupRequestItemExtIEs" [
  ("Id", ProtocolExtensionID, ""); ("Criticality", Criticality, "");
  ("ExtensionValue", QosFlowSetupRequestItemExtIEsExtensionValue, "openType,referenceFieldName:Id")].
Definition ProtocolExtensionContainerQosFlowSetupRequestItemExtIEs : gotype := TStruct "ProtocolExtensionContainerQosFlowSetupRequestItemExtIEs" [
  ("List", TSlice QosFlowSetupRequestItemExtIEs, "sizeLB:1,sizeUB:65535")].
Definition QosFlowSetupRequestItem : gotype := TStruct "QosFlowSetupRequestItem" [
  ("QosFlowIdentifier", QosFlowIdentifier, ""); ("QosFlowLevelQosParameters", QosFlowLevelQosParameters, "valueExt");
  ("ERABID", TPtr ERABID, "optional");
  ("IEExtensions", TPtr ProtocolExtensionContainerQosFlowSetupRequestItemExtIEs, "optional")].
Definition QosFlowSetupRequestList : gotype := TStruct "QosFlowSetupRequestList" [
  ("List", TSlice QosFlowSetupRequestItem, "valueExt,sizeLB:1,sizeUB:64")].
Definition PDUSessionResourceSetupRequestTransferIEsValue : gotype := TStruct "PDUSessionResourceSetupRequestTransferIEsValue" [
  ("Present", TInt 64, "");
  ("PDUSessionAggregateMaximumBitRate", TPtr PDUSessionAggregateMaximumBitRate, "valueExt,referenceFieldValue:130");
  ("ULNGUUPTNLInformation", TPtr UPTransportLayerInformation, "referenceFieldValue:139,valueLB:0,valueUB:1");
  ("AdditionalULNGUUPTNLInformation", TPtr UPTransportLayerInformationList, "referenceFieldValue:126");
  ("DataForwardingNotPossible", TPtr DataForwardingNotPossible, "referenceFieldValue:127");
  ("PDUSessionType", TPtr PDUSessionType, "referenceFieldValue:134");
  ("SecurityIndication", TPtr SecurityIndication, "valueExt,referenceFieldValue:138");
  ("NetworkInstance", TPtr NetworkInstance, "referenceFieldValue:129");
  ("QosFlowSetupRequestList", TPtr QosFlowSetupRequestList, "referenceFieldValue:136")].
Definition PDUSessionResourceSetupRequestTransferIEs : gotype := TStruct "PDUSessionResourceSetupRequestTransferIEs" [
  ("Id", ProtocolIEID, ""); ("Criticality", Criticality, "");
  ("Value", PDUSessionResourceSetupRequestTransferIEsValue, "openType,referenceFieldName:Id")].
Definition ProtocolIEContainerPDUSessionResourceSetupRequestTransferIEs : gotype := TStruct "ProtocolIEContainerPDUSessionResourceSetupRequestTransferIEs" [
  ("List", TSlice PDUSessionResourceSetupRequestTransferIEs, "sizeLB:0,sizeUB:65535")].
Definition PDUSessionResourceSetupRequestTransfer : gotype := TStruct "PDUSessionResourceSetupRequestTransfer" [
  ("ProtocolIEs", ProtocolIEContainerPDUSessionResourceSetupRequestTransferIEs, "")].
Definition PDUSessionResourceSetupResponseTransferExtIEsExtensionValue : gotype := TStruct "PDUSessionResourceSetupResponseTransferExtIEsExtensionValue" [
  ("Present", TInt 64, "")].
Definition PDUSessionResourceSetupResponseTransferExtIEs : gotype := TStruct "PDUSessionResourceSetupResponseTransferExtIEs" [
  ("Id", ProtocolExtensionID, ""); ("Criticality", Criticality, "");
  ("ExtensionValue", PDUSessionResourceSetupResponseTransferExtIEsExtensionValue, "openType,referenceFieldName:Id")].
Definition ProtocolExtensionContainerPDUSessionResourceSetupResponseTransferExtIEs : gotype := TStruct "ProtocolExtensionContainerPDUSessionResourceSetupResponseTransferExtIEs" [
  ("List", TSlice PDUSessionResourceSetupResponseTransferExtIEs, "sizeLB:1,sizeUB:65535")].
Definition PDUSessionResourceSetupResponseTransfer : gotype := TStruct "PDUSessionResourceSetupResponseTransfer" [
  ("QosFlowPerTNLInformation", QosFlowPerTNLInformation, "valueExt");
  ("AdditionalQosFlowPerTNLInformation", TPtr QosFlowPerTNLInformation, "valueExt,optional");
  ("SecurityResult", TPtr SecurityResult, "valueExt,optional");
  ("QosFlowFailedToSetupList", TPtr QosFlowList, "optional");
  ("IEExtensions", TPtr ProtocolExtensionContainerPDUSessionResourceSetupResponseTransferExtIEs, "optional")].
Definition PDUSessionResourceSetupUnsuccessfulTransferExtIEsExtensionValue : gotype := TStruct "PDUSessionResourceSetupUnsuccessfulTransferExtIEsExtensionValue" [
  ("Present", TInt 64, "")].
Definition PDUSessionResourceSetupUnsuccessfulTransferExtIEs : gotype := TStruct "PDUSessionResourceSetupUnsuccessfulTransferExtIEs" [
  ("Id", ProtocolExtensionID, ""); ("Criticality", Criticality, "");
  ("ExtensionValue", PDUSessionResourceSetupUnsuccessfulTransferExtIEsExtensionValue, "openType,referenceFieldName:Id")].
Definition ProtocolExtensionContainerPDUSessionResourceSetupUnsuccessfulTransferExtIEs : gotype := TStruct "ProtocolExtensionContainerPDUSessionResourceSetupUnsuccessfulTransferExtIEs" [
  ("List", TSlice PDUSessionResourceSetupUnsuccessfulTransferExtIEs, "sizeLB:1,sizeUB:65535")].
Definition PDUSessionResourceSetupUnsuccessfulTransfer : gotype := TStruct "PDUSessionResourceSetupUnsuccessfulTransfer" [
  ("Cause", Cause, "valueLB:0,valueUB:5");
  ("CriticalityDiagnostics", TPtr CriticalityDiagnostics, "valueExt,optional");
  ("IEExtensions", TPtr ProtocolExtensionContainerPDUSessionResourceSetupUnsuccessfulTransferExtIEs, "optional")].
Definition PathSwitchRequestAcknowledgeTransferExtIEsExtensionValue : gotype := TStruct "PathSwitchRequestAcknowledgeTransferExtIEsExtensionValue" [
  ("Present", TInt 64, "")].
Definition PathSwitchRequestAcknowledgeTransferExtIEs : gotype := TStruct "PathSwitchRequestAcknowledgeTransferExtIEs" [
  ("Id", ProtocolExtensionID, ""); ("Criticality", Criticality, "");
  ("ExtensionValue", PathSwitchRequestAcknowledgeTransferExtIEsExtensionValue, "openType,referenceFieldName:Id")].
Definition ProtocolExtensionContainerPathSwitchRequestAcknowledgeTransferExtIEs : gotype := TStruct "ProtocolExtensionContainerPathSwitchRequestAcknowledgeTransferExtIEs" [
  ("List", TSlice PathSwitchRequestAcknowledgeTransferExtIEs, "sizeLB:1,sizeUB:65535")].
Definition PathSwitchRequestAcknowledgeTransfer : gotype := TStruct "PathSwitchRequestAcknowledgeTransfer" [
  ("ULNGUUPTNLInformation", TPtr UPTransportLayerInformation, "valueLB:0,valueUB:1,optional");
  ("SecurityIndication", TPtr SecurityIndication, "valueExt,optional");
  ("IEExtensions", TPtr ProtocolExtensionContainerPathSwitchRequestAcknowledgeTransferExtIEs, "optional")].
Definition PathSwitchRequestSetupFailedTransferExtIEsExtensionValue : gotype := TStruct "PathSwitchRequestSetupFailedTransferExtIEsExtensionValue" [
  ("Present", TInt 64, "")].
Definition PathSwitchRequestSetupFailedTransferExtIEs : gotype := TStruct "PathSwitchRequestSetupFailedTransferExtIEs" [
  ("Id", ProtocolExtensionID, ""); ("Criticality", Criticality, "");
  ("ExtensionValue", PathSwitchRequestSetupFailedTransferExtIEsExtensionValue, "openType,referenceFieldName:Id")].
Definition ProtocolExtensionContainerPathSwitchRequestSetupFailedTransferExtIEs : gotype := TStruct "ProtocolExtensionContainerPathSwitchRequestSetupFailedTransferExtIEs" [
  ("List", TSlice PathSwitchRequestSetupFailedTransferExtIEs, "sizeLB:1,sizeUB:65535")].
Definition PathSwitchRequestSetupFailedTransfer : gotype := TStruct "PathSwitchRequestSetupFailedTransfer" [
  ("Cause", Cause, "valueLB:0,valueUB:5");
  ("IEExtensions", TPtr ProtocolExtensionContainerPathSwitchRequestSetupFailedTransferExtIEs, "optional")].
Definition UserPlaneSecurityInformationExtIEsExtensionValue : gotype := TStruct "UserPlaneSecurityInformationExtIEsExtensionValue" [
  ("Present", TInt 64, "")].
Definition UserPlaneSecurityInformationExtIEs : gotype := TStruct "UserPlaneSecurityInformationExtIEs" [
  ("Id", ProtocolExtensionID, ""); ("Criticality", Criticality, "");
  ("ExtensionValue", UserPlaneSecurityInformationExtIEsExtensionValue, "openType,referenceFieldName:Id")].
Definition ProtocolExtensionContainerUserPlaneSecurityInformationExtIEs : gotype := TStruct "ProtocolExtensionContainerUserPlaneSecurityInformationExtIEs" [
  ("List", TSlice UserPlaneSecurityInformationExtIEs, "sizeLB:1,sizeUB:65535")].
Definition UserPlaneSecurityInformation : gotype := TStruct "UserPlaneSecurityInformation" [
  ("SecurityResult", SecurityResult, "valueExt"); ("SecurityIndication", SecurityIndication, "valueExt");
  ("IEExtensions", TPtr ProtocolExtensionContainerUserPlaneSecurityInformationExtIEs, "optional")].
Definition QosFlowAcceptedItemExtIEsExtensionValue : gotype := TStruct "QosFlowAcceptedItemExtIEsExtensionValue" [
  ("Present", TInt 64, "")].
Definition QosFlowAcceptedItemExtIEs : gotype := TStruct "QosFlowAcceptedItemExtIEs" [
  ("Id", ProtocolExtensionID, ""); ("Criticality", Criticality, "");
  ("ExtensionValue", QosFlowAcceptedItemExtIEsExtensionValue, "openType,referenceFieldName:Id")].
Definition ProtocolExtensionContainerQosFlowAcceptedItemExtIEs : gotype := TStruct "ProtocolExtensionContainerQosFlowAcceptedItemExtIEs" [
  ("List", TSlice QosFlowAcceptedItemExtIEs, "sizeLB:1,sizeUB:65535")].
Definition QosFlowAcceptedItem : gotype := TStruct "QosFlowAcceptedItem" [
  ("QosFlowIdentifier", QosFlowIdentifier, "");
  ("IEExtensions", TPtr ProtocolExtensionContainerQosFlowAcceptedItemExtIEs, "optional")].
Definition QosFlowAcceptedList : gotype := TStruct "QosFlowAcceptedList" [
  ("List", TSlice QosFlowAcceptedItem, "valueExt,sizeLB:1,sizeUB:64")].
Definition PathSwitchRequestTransferExtIEsExtensionValue : gotype := TStruct "PathSwitchRequestTransferExtIEsExtensionValue" [
  ("Present", TInt 64, "")].
Definition PathSwitchRequestTransferExtIEs : gotype := TStruct "PathSwitchRequestTransferExtIEs" [
  ("Id", ProtocolExtensionID, ""); ("Criticality", Criticality, "");
  ("ExtensionValue", PathSwitchRequestTransferExtIEsExtensionValue, "openType,referenceFieldName:Id")].
Definition ProtocolExtensionContainerPathSwitchRequestTransferExtIEs : gotype := TStruct "ProtocolExtensionContainerPathSwitchRequestTransferExtIEs" [
  ("List", TSlice PathSwitchRequestTransferExtIEs, "sizeLB:1,sizeUB:65535")].
Definition PathSwitchRequestTransfer : gotype := TStruct "PathSwitchRequestTransfer" [
  ("DLNGUUPTNLInformation", UPTransportLayerInformation, "valueLB:0,valueUB:1");
  ("DLNGUTNLInformationReused", TPtr DLNGUTNLInformationReused, "optional");
  ("UserPlaneSecurityInformation", TPtr UserPlaneSecurityInformation, "valueExt,optional");
  ("QosFlowAcceptedList", QosFlowAcceptedList, "");
  ("IEExtensions", TPtr ProtocolExtensionContainerPathSwitchRequestTransferExtIEs, "optional")].
Definition PathSwitchRequestUnsuccessfulTransferExtIEsExtensionValue : gotype := TStruct "PathSwitchRequestUnsuccessfulTransferExtIEsExtensionValue" [
  ("Present", TInt 64, "")].
Definition PathSwitchRequestUnsuccessfulTransferExtIEs : gotype := TStruct "PathSwitchRequestUnsuccessfulTransferExtIEs" [
  ("Id", ProtocolExtensionID, ""); ("Criticality", Criticality, "");
  ("ExtensionValue", PathSwitchRequestUnsuccessfulTransferExtIEsExtensionValue, "openType,referenceFieldName:Id")].
Definition ProtocolExtensionContainerPathSwitchRequestUnsuccessfulTransferExtIEs : gotype := TStruct "ProtocolExtensionContainerPathSwitchRequestUnsuccessfulTransferExtIEs" [
  ("List", TSlice PathSwitchRequestUnsuccessfulTransferExtIEs, "sizeLB:1,sizeUB:65535")].
Definition PathSwitchRequestUnsuccessfulTransfer : gotype := TStruct "PathSwitchRequestUnsuccessfulTransfer" [
  ("Cause", Cause, "valueLB:0,valueUB:5");
  ("IEExtensions", TPtr ProtocolExtensionContainerPathSwitchRequestUnsuccessfulTransferExtIEs, "optional")].
Definition Presence : gotype := TStruct "Presence" [("Value", TEnumerated, "valueLB:0,valueUB:2")].
Definition QosFlowSetupResponseItemSUResExtIEsExtensionValue : gotype := TStruct "QosFlowSetupResponseItemSUResExtIEsExtensionValue" [
  ("Present", TInt 64, "")].
Definition QosFlowSetupResponseItemSUResExtIEs : gotype := TStruct "QosFlowSetupResponseItemSUResExtIEs" [
  ("Id", ProtocolExtensionID, ""); ("Criticality", Criticality, "");
  ("ExtensionValue", QosFlowSetupResponseItemSUResExtIEsExtensionValue, "openType,referenceFieldName:Id")].
Definition ProtocolExtensionContainerQosFlowSetupResponseItemSUResExtIEs : gotype := TStruct "ProtocolExtensionContainerQosFlowSetupResponseItemSUResExtIEs" [
  ("List", TSlice QosFlowSetupResponseItemSUResExtIEs, "sizeLB:1,sizeUB:65535")].
Definition SourceNGRANNodeToTargetNGRANNodeTransparentContainerExtIEsExtensionValue : gotype := TStruct "SourceNGRANNodeToTargetNGRANNodeTransparentContainerExtIEsExtensionValue" [
  ("Present", TInt 64, "")].
Definition SourceNGRANNodeToTargetNGRANNodeTransparentContainerExtIEs : gotype := TStruct "SourceNGRANNodeToTargetNGRANNodeTransparentContainerExtIEs" [
  ("Id", ProtocolExtensionID, ""); ("Criticality", Criticality, "");
  ("ExtensionValue", SourceNGRANNodeToTargetNGRANNodeTransparentContainerExtIEsExtensionValue, "openType,referenceFieldName:Id")].
Definition ProtocolExtensionContainerSourceNGRANNodeToTargetNGRANNodeTransparentContainerExtIEs : gotype := TStruct "ProtocolExtensionContainerSourceNGRANNodeToTargetNGRANNodeTransparentContainerExtIEs" [
  ("List", TSlice SourceNGRANNodeToTargetNGRANNodeTransparentContainerExtIEs, "sizeLB:1,sizeUB:65535")].
Definition TargetNGRANNodeToSourceNGRANNodeTransparentContainerExtIEsExtensionValue : gotype := TStruct "TargetNGRANNodeToSourceNGRANNodeTransparentContainerExtIEsExtensionValue" [
  ("Present", TInt 64, "")].
Definition TargetNGRANNodeToSourceNGRANNodeTransparentContainerExtIEs : gotype := TStruct "TargetNGRANNodeToSourceNGRANNodeTransparentContainerExtIEs" [
  ("Id", ProtocolExtensionID, ""); ("Criticality", Criticality, "");
  ("ExtensionValue", TargetNGRANNodeToSourceNGRANNodeTransparentContainerExtIEsExtensionValue, "openType,referenceFieldName:Id")].
Definition ProtocolExtensionContainerTargetNGRANNodeToSourceNGRANNodeTransparentContainerExtIEs : gotype := TStruct "ProtocolExtensionContainerTargetNGRANNodeToSourceNGRANNodeTransparentContainerExtIEs" [
  ("List", TSlice TargetNGRANNodeToSourceNGRANNodeTransparentContainerExtIEs, "sizeLB:1,sizeUB:65535")].
Definition AMFPagingTargetExtIEsValue : gotype := TStruct "AMFPagingTargetExtIEsValue" [("Present", TInt 64, "")].
Definition AMFPagingTargetExtIEs : gotype := TStruct "AMFPagingTargetExtIEs" [
  ("Id", ProtocolIEID, ""); ("Criticality", Criticality, "");
  ("Value", AMFPagingTargetExtIEsValue, "openType,referenceFieldName:Id")].
Definition BroadcastCancelledAreaListExtIEsValue : gotype := TStruct "BroadcastCancelledAreaListExtIEsValue" [
  ("Present", TInt 64, "")].
Definition BroadcastCancelledAreaListExtIEs : gotype := TStruct "BroadcastCancelledAreaListExtIEs" [
  ("Id", ProtocolIEID, ""); ("Criticality", Criticality, "");
  ("Value", BroadcastCancelledAreaListExtIEsValue, "openType,referenceFieldName:Id")].
Definition BroadcastCompletedAreaListExtIEsValue : gotype := TStruct "BroadcastCompletedAreaListExtIEsValue" [
  ("Present", TInt 64, "")].
Definition BroadcastCompletedAreaListExtIEs : gotype := TStruct "BroadcastCompletedAreaListExtIEs" [
  ("Id", ProtocolIEID, ""); ("Criticality", Criticality, "");
  ("Value", BroadcastCompletedAreaListExtIEsValue, "openType,referenceFieldName:Id")].
Definition CauseExtIEsValue : gotype := TStruct "CauseExtIEsValue" [("Present", TInt 64, "")].
Definition CauseExtIEs : gotype := TStruct "CauseExtIEs" [
  ("Id", ProtocolIEID, ""); ("Criticality", Criticality, "");
  ("Value", CauseExtIEsValue, "openType,referenceFieldName:Id")].
Definition CellIDListForRestartExtIEsValue : gotype := TStruct "CellIDListForRestartExtIEsValue" [
  ("Present", TInt 64, "")].
Definition CellIDListForRestartExtIEs : gotype := TStruct "CellIDListForRestartExtIEs" [
  ("Id", ProtocolIEID, ""); ("Criticality", Criticality, "");
  ("Value", CellIDListForRestartExtIEsValue, "openType,referenceFieldName:Id")].
Definition CPTransportLayerInformationExtIEsValue : gotype := TStruct "CPTransportLayerInformationExtIEsValue" [
  ("Present", TInt 64, "")].
Definition CPTransportLayerInformationExtIEs : gotype := TStruct "CPTransportLayerInformationExtIEs" [
  ("Id", ProtocolIEID, ""); ("Criticality", Criticality, "");
  ("Value", CPTransportLayerInformationExtIEsValue, "openType,referenceFieldName:Id")].
Definition DRBStatusDLExtIEsValue : gotype := TStruct "DRBStatusDLExtIEsValue" [("Present", TInt 64, "")].
Definition DRBStatusDLExtIEs : gotype := TStruct "DRBStatusDLExtIEs" [
  ("Id", ProtocolIEID, ""); ("Criticality", Criticality, "");
  ("Value", DRBStatusDLExtIEsValue, "openType,referenceFieldName:Id")].
Definition DRBStatusULExtIEsValue : gotype := TStruct "DRBStatusULExtIEsValue" [("Present", TInt 64, "")].
Definition DRBStatusULExtIEs : gotype := TStruct "DRBStatusULExtIEs" [
  ("Id", ProtocolIEID, ""); ("Criticality", Criticality, "");
  ("Value", DRBStatusULExtIEsValue, "openType,referenceFieldName:Id")].
Definition GlobalRANNodeIDExtIEsValue : gotype := TStruct "GlobalRANNodeIDExtIEsValue" [("Present", TInt 64, "")].
Definition GlobalRANNodeIDExtIEs : gotype := TStruct "GlobalRANNodeIDExtIEs" [
  ("Id", ProtocolIEID, ""); ("Criticality", Criticality, "");
  ("Value", GlobalRANNodeIDExtIEsValue, "openType,referenceFieldName:Id")].
Definition GNBIDExtIEsValue : gotype := TStruct "GNBIDExtIEsValue" [("Present", TInt 64, "")].
Definition GNBIDExtIEs : gotype := TStruct "GNBIDExtIEs" [
  ("Id", ProtocolIEID, ""); ("Criticality", Criticality, "");
  ("Value", GNBIDExtIEsValue, "openType,referenceFieldName:Id")].
Definition LastVisitedCellInformationExtIEsValue : gotype := TStruct "LastVisitedCellInformationExtIEsValue" [
  ("Present", TInt 64, "")].
Definition LastVisitedCellInformationExtIEs : gotype := TStruct "LastVisitedCellInformationExtIEs" [
  ("Id", ProtocolIEID, ""); ("Criticality", Criticality, "");
  ("Value", LastVisitedCellInformationExtIEsValue, "openType,referenceFieldName:Id")].
Definition N3IWFIDExtIEsValue : gotype := TStruct "N3IWFIDExtIEsValue" [("Present", TInt 64, "")].
Definition N3IWFIDExtIEs : gotype := TStruct "N3IWFIDExtIEs" [
  ("Id", ProtocolIEID, ""); ("Criticality", Criticality, "");
  ("Value", N3IWFIDExtIEsValue, "openType,referenceFieldName:Id")].
Definition NgENBIDExtIEsValue : gotype := TStruct "NgENBIDExtIEsValue" [("Present", TInt 64, "")].
Definition NgENBIDExtIEs : gotype := TStruct "NgENBIDExtIEs" [
  ("Id", ProtocolIEID, ""); ("Criticality", Criticality, "");
  ("Value", NgENBIDExtIEsValue, "openType,referenceFieldName:Id")].
Definition NGRANCGIExtIEsValue : gotype := TStruct "NGRANCGIExtIEsValue" [("Present", TInt 64, "")].
Definition NGRANCGIExtIEs : gotype := TStruct "NGRANCGIExtIEs" [
  ("Id", ProtocolIEID, ""); ("Criticality", Criticality, "");
  ("Value", NGRANCGIExtIEsValue, "openType,referenceFieldName:Id")].
Definition OverloadResponseExtIEsValue : gotype := TStruct "OverloadResponseExtIEsValue" [("Present", TInt 64, "")].
Definition OverloadResponseExtIEs : gotype := TStruct "OverloadResponseExtIEs" [
  ("Id", ProtocolIEID, ""); ("Criticality", Criticality, "");
  ("Value", OverloadResponseExtIEsValue, "openType,referenceFieldName:Id")].
Definition PWSFailedCellIDListExtIEsValue : gotype := TStruct "PWSFailedCellIDListExtIEsValue" [
  ("Present", TInt 64, "")].
Definition PWSFailedCellIDListExtIEs : gotype := TStruct "PWSFailedCellIDListExtIEs" [
  ("Id", ProtocolIEID, ""); ("Criticality", Criticality, "");
  ("Value", PWSFailedCellIDListExtIEsValue, "openType,referenceFieldName:Id")].
Definition QosCharacteristicsExtIEsValue : gotype := TStruct "QosCharacteristicsExtIEsValue" [("Present", TInt 64, "")].
Definition QosCharacteristicsExtIEs : gotype := TStruct "QosCharacteristicsExtIEs" [
  ("Id", ProtocolIEID, ""); ("Criticality", Criticality, "");
  ("Value", QosCharacteristicsExtIEsValue, "openType,referenceFieldName:Id")].
Definition ResetTypeExtIEsValue : gotype := TStruct "ResetTypeExtIEsValue" [("Present", TInt 64, "")].
Definition ResetTypeExtIEs : gotype := TStruct "ResetTypeExtIEs" [
  ("Id", ProtocolIEID, ""); ("Criticality", Criticality, "");
  ("Value", ResetTypeExtIEsValue, "openType,referenceFieldName:Id")].
Definition SONInformationExtIEsValue : gotype := TStruct "SONInformationExtIEsValue" [("Present", TInt 64, "")].
Definition SONInformationExtIEs : gotype := TStruct "SONInformationExtIEs" [
  ("Id", ProtocolIEID, ""); ("Criticality", Criticality, "");
  ("Value", SONInformationExtIEsValue, "openType,referenceFieldName:Id")].
Definition TargetIDExtIEsValue : gotype := TStruct "TargetIDExtIEsValue" [("Present", TInt 64, "")].
Definition TargetIDExtIEs : gotype := TStruct "TargetIDExtIEs" [
  ("Id", ProtocolIEID, ""); ("Criticality", Criticality, "");
  ("Value", TargetIDExtIEsValue, "openType,referenceFieldName:Id")].
Definition UEIdentityIndexValueExtIEsValue : gotype := TStruct "UEIdentityIndexValueExtIEsValue" [
  ("Present", TInt 64, "")].
Definition UEIdentityIndexValueExtIEs : gotype := TStruct "UEIdentityIndexValueExtIEs" [
  ("Id", ProtocolIEID, ""); ("Criticality", Criticality, "");
  ("Value", UEIdentityIndexValueExtIEsValue, "openType,referenceFieldName:Id")].
Definition UENGAPIDsExtIEsValue : gotype := TStruct "UENGAPIDsExtIEsValue" [("Present", TInt 64, "")].
Definition UENGAPIDsExtIEs : gotype := TStruct "UENGAPIDsExtIEs" [
  ("Id", ProtocolIEID, ""); ("Criticality", Criticality, "");
  ("Value", UENGAPIDsExtIEsValue, "openType,referenceFieldName:Id")].
Definition UEPagingIdentityExtIEsValue : gotype := TStruct "UEPagingIdentityExtIEsValue" [("Present", TInt 64, "")].
Definition UEPagingIdentityExtIEs : gotype := TStruct "UEPagingIdentityExtIEs" [
  ("Id", ProtocolIEID, ""); ("Criticality", Criticality, "");
  ("Value", UEPagingIdentityExtIEsValue, "openType,referenceFieldName:Id")].
Definition UPTNLInformationExtIEsValue : gotype := TStruct "UPTNLInformationExtIEsValue" [("Present", TInt 64, "")].
Definition UPTNLInformationExtIEs : gotype := TStruct "UPTNLInformationExtIEs" [
  ("Id", ProtocolIEID, ""); ("Criticality", Criticality, "");
  ("Value", UPTNLInformationExtIEsValue, "openType,referenceFieldName:Id")].
Definition UPTransportLayerInformationExtIEsValue : gotype := TStruct "UPTransportLayerInformationExtIEsValue" [
  ("Present", TInt 64, "")].
Definition UPTransportLayerInformationExtIEs : gotype := TStruct "UPTransportLayerInformationExtIEs" [
  ("Id", ProtocolIEID, ""); ("Criticality", Criticality, "");
  ("Value", UPTransportLayerInformationExtIEsValue, "openType,referenceFieldName:Id")].
Definition UserLocationInformationExtIEsValue : gotype := TStruct "UserLocationInformationExtIEsValue" [
  ("Present", TInt 64, "")].
Definition UserLocationInformationExtIEs : gotype := TStruct "UserLocationInformationExtIEs" [
  ("Id", ProtocolIEID, ""); ("Criticality", Criticality, "");
  ("Value", UserLocationInformationExtIEsValue, "openType,referenceFieldName:Id")].
Definition WarningAreaListExtIEsValue : gotype := TStruct "WarningAreaListExtIEsValue" [("Present", TInt 64, "")].
Definition WarningAreaListExtIEs : gotype := TStruct "WarningAreaListExtIEs" [
  ("Id", ProtocolIEID, ""); ("Criticality", Criticality, "");
  ("Value", WarningAreaListExtIEsValue, "openType,referenceFieldName:Id")].
Definition QosFlowSetupResponseItemSURes : gotype := TStruct "QosFlowSetupResponseItemSURes" [
  ("QosFlowIdentifier", QosFlowIdentifier, "");
  ("IEExtensions", TPtr ProtocolExtensionContainerQosFlowSetupResponseItemSUResExtIEs, "optional")].
Definition QosFlowSetupResponseListSURes : gotype := TStruct "QosFlowSetupResponseListSURes" [
  ("List", TSlice QosFlowSetupResponseItemSURes, "valueExt,sizeLB:1,sizeUB:64")].
Definition RRCContainer : gotype := TStruct "RRCContainer" [("Value", TOctetString, "")].
Definition ReferenceID : gotype := TStruct "ReferenceID" [("Value", TInt 64, "valueExt,valueLB:1,valueUB:64")].
Definition UEHistoryInformation : gotype := TStruct "UEHistoryInformation" [
  ("List", TSlice LastVisitedCellItem, "valueExt,sizeLB:1,sizeUB:16")].
Definition SourceNGRANNodeToTargetNGRANNodeTransparentContainer : gotype := TStruct "SourceNGRANNodeToTargetNGRANNodeTransparentContainer" [
  ("RRCContainer", RRCContainer, "");
  ("PDUSessionResourceInformationList", TPtr PDUSessionResourceInformationList, "optional");
  ("ERABInformationList", TPtr ERABInformationList, "optional"); ("TargetCellID", NGRANCGI, "valueLB:0,valueUB:2");
  ("IndexToRFSP", TPtr IndexToRFSP, "optional"); ("UEHistoryInformation", UEHistoryInformation, "");
  ("IEExtensions", TPtr ProtocolExtensionContainerSourceNGRANNodeToTargetNGRANNodeTransparentContainerExtIEs, "optional")].
Definition TargetNGRANNodeToSourceNGRANNodeTransparentContainer : gotype := TStruct "TargetNGRANNodeToSourceNGRANNodeTransparentContainer" [
  ("RRCContainer", RRCContainer, "");
  ("IEExtensions", TPtr ProtocolExtensionContainerTargetNGRANNodeToSourceNGRANNodeTransparentContainerExtIEs, "optional")].

(** Every struct, by its name. *)
Definition ngap_types : list gotype := [
  ProtocolIEID; Criticality; AMFName; PLMNIdentity; AMFRegionID; AMFSetID; AMFPointer; ProtocolExtensionID;
  GUAMIExtIEsExtensionValue; GUAMIExtIEs; ProtocolExtensionContainerGUAMIExtIEs; GUAMI;
  ServedGUAMIItemExtIEsExtensionValue; ServedGUAMIItemExtIEs; ProtocolExtensionContainerServedGUAMIItemExtIEs;
  ServedGUAMIItem; ServedGUAMIList; RelativeAMFCapacity; SST; SD; SNSSAIExtIEsExtensionValue; SNSSAIExtIEs;
  ProtocolExtensionContainerSNSSAIExtIEs; SNSSAI; SliceSupportItemExtIEsExtensionValue; SliceSupportItemExtIEs;
  ProtocolExtensionContainerSliceSupportItemExtIEs; SliceSupportItem; SliceSupportList;
  PLMNSupportItemExtIEsExtensionValue; PLMNSupportItemExtIEs; ProtocolExtensionContainerPLMNSupportItemExtIEs;
  PLMNSupportItem; PLMNSupportList; TransportLayerAddress; ProtocolIESingleContainerCPTransportLayerInformationExtIEs;
  CPTransportLayerInformation; TNLAssociationUsage; TNLAddressWeightFactor;
  AMFTNLAssociationToAddItemExtIEsExtensionValue; AMFTNLAssociationToAddItemExtIEs;
  ProtocolExtensionContainerAMFTNLAssociationToAddItemExtIEs; AMFTNLAssociationToAddItem; AMFTNLAssociationToAddList;
  AMFTNLAssociationToRemoveItemExtIEsExtensionValue; AMFTNLAssociationToRemoveItemExtIEs;
  ProtocolExtensionContainerAMFTNLAssociationToRemoveItemExtIEs; AMFTNLAssociationToRemoveItem;
  AMFTNLAssociationToRemoveList; AMFTNLAssociationToUpdateItemExtIEsExtensionValue;
  AMFTNLAssociationToUpdateItemExtIEs; ProtocolExtensionContainerAMFTNLAssociationToUpdateItemExtIEs;
  AMFTNLAssociationToUpdateItem; AMFTNLAssociationToUpdateList; AMFConfigurationUpdateIEsValue;
  AMFConfigurationUpdateIEs; ProtocolIEContainerAMFConfigurationUpdateIEs; AMFConfigurationUpdate;
  AMFTNLAssociationSetupItemExtIEsExtensionValue; AMFTNLAssociationSetupItemExtIEs;
  ProtocolExtensionContainerAMFTNLAssociationSetupItemExtIEs; AMFTNLAssociationSetupItem; AMFTNLAssociationSetupList;
  CauseRadioNetwork; CauseTransport; CauseNas; CauseProtocol; CauseMisc; ProtocolIESingleContainerCauseExtIEs; Cause;
  TNLAssociationItemExtIEsExtensionValue; TNLAssociationItemExtIEs;
  ProtocolExtensionContainerTNLAssociationItemExtIEs; TNLAssociationItem; TNLAssociationList; ProcedureCode;
  TriggeringMessage; TypeOfError; CriticalityDiagnosticsIEItemExtIEsExtensionValue;
  CriticalityDiagnosticsIEItemExtIEs; ProtocolExtensionContainerCriticalityDiagnosticsIEItemExtIEs;
  CriticalityDiagnosticsIEItem; CriticalityDiagnosticsIEList; CriticalityDiagnosticsExtIEsExtensionValue;
  CriticalityDiagnosticsExtIEs; ProtocolExtensionContainerCriticalityDiagnosticsExtIEs; CriticalityDiagnostics;
  AMFConfigurationUpdateAcknowledgeIEsValue; AMFConfigurationUpdateAcknowledgeIEs;
  ProtocolIEContainerAMFConfigurationUpdateAcknowledgeIEs; AMFConfigurationUpdateAcknowledge; TimeToWait;
  AMFConfigurationUpdateFailureIEsValue; AMFConfigurationUpdateFailureIEs;
  ProtocolIEContainerAMFConfigurationUpdateFailureIEs; AMFConfigurationUpdateFailure;
  ProtocolIESingleContainerGNBIDExtIEs; GNBID; GlobalGNBIDExtIEsExtensionValue; GlobalGNBIDExtIEs;
  ProtocolExtensionContainerGlobalGNBIDExtIEs; GlobalGNBID; ProtocolIESingleContainerNgENBIDExtIEs; NgENBID;
  GlobalNgENBIDExtIEsExtensionValue; GlobalNgENBIDExtIEs; ProtocolExtensionContainerGlobalNgENBIDExtIEs;
  GlobalNgENBID; ProtocolIESingleContainerN3IWFIDExtIEs; N3IWFID; GlobalN3IWFIDExtIEsExtensionValue;
  GlobalN3IWFIDExtIEs; ProtocolExtensionContainerGlobalN3IWFIDExtIEs; GlobalN3IWFID;
  ProtocolIESingleContainerGlobalRANNodeIDExtIEs; GlobalRANNodeID; TAC; TAIExtIEsExtensionValue; TAIExtIEs;
  ProtocolExtensionContainerTAIExtIEs; TAI; ProtocolIESingleContainerAMFPagingTargetExtIEs; AMFPagingTarget;
  TimerApproachForGUAMIRemoval; UnavailableGUAMIItemExtIEsExtensionValue; UnavailableGUAMIItemExtIEs;
  ProtocolExtensionContainerUnavailableGUAMIItemExtIEs; UnavailableGUAMIItem; UnavailableGUAMIList;
  AMFStatusIndicationIEsValue; AMFStatusIndicationIEs; ProtocolIEContainerAMFStatusIndicationIEs; AMFStatusIndication;
  AMFUENGAPID; AdditionalQosFlowInformation; PriorityLevelARP; PreEmptionCapability; PreEmptionVulnerability;
  AllocationAndRetentionPriorityExtIEsExtensionValue; AllocationAndRetentionPriorityExtIEs;
  ProtocolExtensionContainerAllocationAndRetentionPriorityExtIEs; AllocationAndRetentionPriority;
  AllowedNSSAIItemExtIEsExtensionValue; AllowedNSSAIItemExtIEs; ProtocolExtensionContainerAllowedNSSAIItemExtIEs;
  AllowedNSSAIItem; AllowedNSSAI; AllowedTACs; AreaOfInterestTAIItemExtIEsExtensionValue; AreaOfInterestTAIItemExtIEs;
  ProtocolExtensionContainerAreaOfInterestTAIItemExtIEs; AreaOfInterestTAIItem; AreaOfInterestTAIList; NRCellIdentity;
  NRCGIExtIEsExtensionValue; NRCGIExtIEs; ProtocolExtensionContainerNRCGIExtIEs; NRCGI; EUTRACellIdentity;
  EUTRACGIExtIEsExtensionValue; EUTRACGIExtIEs; ProtocolExtensionContainerEUTRACGIExtIEs; EUTRACGI;
  ProtocolIESingleContainerNGRANCGIExtIEs; NGRANCGI; AreaOfInterestCellItemExtIEsExtensionValue;
  AreaOfInterestCellItemExtIEs; ProtocolExtensionContainerAreaOfInterestCellItemExtIEs; AreaOfInterestCellItem;
  AreaOfInterestCellList; AreaOfInterestRANNodeItemExtIEsExtensionValue; AreaOfInterestRANNodeItemExtIEs;
  ProtocolExtensionContainerAreaOfInterestRANNodeItemExtIEs; AreaOfInterestRANNodeItem; AreaOfInterestRANNodeList;
  AreaOfInterestExtIEsExtensionValue; AreaOfInterestExtIEs; ProtocolExtensionContainerAreaOfInterestExtIEs;
  AreaOfInterest; LocationReportingReferenceID; AreaOfInterestItemExtIEsExtensionValue; AreaOfInterestItemExtIEs;
  ProtocolExtensionContainerAreaOfInterestItemExtIEs; AreaOfInterestItem; AreaOfInterestList;
  RecommendedCellItemExtIEsExtensionValue; RecommendedCellItemExtIEs;
  ProtocolExtensionContainerRecommendedCellItemExtIEs; RecommendedCellItem; RecommendedCellList;
  RecommendedCellsForPagingExtIEsExtensionValue; RecommendedCellsForPagingExtIEs;
  ProtocolExtensionContainerRecommendedCellsForPagingExtIEs; RecommendedCellsForPaging;
  AssistanceDataForRecommendedCellsExtIEsExtensionValue; AssistanceDataForRecommendedCellsExtIEs;
  ProtocolExtensionContainerAssistanceDataForRecommendedCellsExtIEs; AssistanceDataForRecommendedCells;
  PagingAttemptCount; IntendedNumberOfPagingAttempts; NextPagingAreaScope;
  PagingAttemptInformationExtIEsExtensionValue; PagingAttemptInformationExtIEs;
  ProtocolExtensionContainerPagingAttemptInformationExtIEs; PagingAttemptInformation;
  AssistanceDataForPagingExtIEsExtensionValue; AssistanceDataForPagingExtIEs;
  ProtocolExtensionContainerAssistanceDataForPagingExtIEs; AssistanceDataForPaging; QosFlowIdentifier;
  AssociatedQosFlowItemExtIEsExtensionValue; AssociatedQosFlowItemExtIEs;
  ProtocolExtensionContainerAssociatedQosFlowItemExtIEs; AssociatedQosFlowItem; AssociatedQosFlowList;
  AveragingWindow; BitRate; NumberOfBroadcasts; CellIDCancelledEUTRAItemExtIEsExtensionValue;
  CellIDCancelledEUTRAItemExtIEs; ProtocolExtensionContainerCellIDCancelledEUTRAItemExtIEs; CellIDCancelledEUTRAItem;
  CellIDCancelledEUTRA; CancelledCellsInTAIEUTRAItemExtIEsExtensionValue; CancelledCellsInTAIEUTRAItemExtIEs;
  ProtocolExtensionContainerCancelledCellsInTAIEUTRAItemExtIEs; CancelledCellsInTAIEUTRAItem;
  CancelledCellsInTAIEUTRA; TAICancelledEUTRAItemExtIEsExtensionValue; TAICancelledEUTRAItemExtIEs;
  ProtocolExtensionContainerTAICancelledEUTRAItemExtIEs; TAICancelledEUTRAItem; TAICancelledEUTRA; EmergencyAreaID;
  CancelledCellsInEAIEUTRAItemExtIEsExtensionValue; CancelledCellsInEAIEUTRAItemExtIEs;
  ProtocolExtensionContainerCancelledCellsInEAIEUTRAItemExtIEs; CancelledCellsInEAIEUTRAItem;
  CancelledCellsInEAIEUTRA; EmergencyAreaIDCancelledEUTRAItemExtIEsExtensionValue;
  EmergencyAreaIDCancelledEUTRAItemExtIEs; ProtocolExtensionContainerEmergencyAreaIDCancelledEUTRAItemExtIEs;
  EmergencyAreaIDCancelledEUTRAItem; EmergencyAreaIDCancelledEUTRA; CellIDCancelledNRItemExtIEsExtensionValue;
  CellIDCancelledNRItemExtIEs; ProtocolExtensionContainerCellIDCancelledNRItemExtIEs; CellIDCancelledNRItem;
  CellIDCancelledNR; CancelledCellsInTAINRItemExtIEsExtensionValue; CancelledCellsInTAINRItemExtIEs;
  ProtocolExtensionContainerCancelledCellsInTAINRItemExtIEs; CancelledCellsInTAINRItem; CancelledCellsInTAINR;
  TAICancelledNRItemExtIEsExtensionValue; TAICancelledNRItemExtIEs;
  ProtocolExtensionContainerTAICancelledNRItemExtIEs; TAICancelledNRItem; TAICancelledNR;
  CancelledCellsInEAINRItemExtIEsExtensionValue; CancelledCellsInEAINRItemExtIEs;
  ProtocolExtensionContainerCancelledCellsInEAINRItemExtIEs; CancelledCellsInEAINRItem; CancelledCellsInEAINR;
  EmergencyAreaIDCancelledNRItemExtIEsExtensionValue; EmergencyAreaIDCancelledNRItemExtIEs;
  ProtocolExtensionContainerEmergencyAreaIDCancelledNRItemExtIEs; EmergencyAreaIDCancelledNRItem;
  EmergencyAreaIDCancelledNR; ProtocolIESingleContainerBroadcastCancelledAreaListExtIEs; BroadcastCancelledAreaList;
  CellIDBroadcastEUTRAItemExtIEsExtensionValue; CellIDBroadcastEUTRAItemExtIEs;
  ProtocolExtensionContainerCellIDBroadcastEUTRAItemExtIEs; CellIDBroadcastEUTRAItem; CellIDBroadcastEUTRA;
  CompletedCellsInTAIEUTRAItemExtIEsExtensionValue; CompletedCellsInTAIEUTRAItemExtIEs;
  ProtocolExtensionContainerCompletedCellsInTAIEUTRAItemExtIEs; CompletedCellsInTAIEUTRAItem;
  CompletedCellsInTAIEUTRA; TAIBroadcastEUTRAItemExtIEsExtensionValue; TAIBroadcastEUTRAItemExtIEs;
  ProtocolExtensionContainerTAIBroadcastEUTRAItemExtIEs; TAIBroadcastEUTRAItem; TAIBroadcastEUTRA;
  CompletedCellsInEAIEUTRAItemExtIEsExtensionValue; CompletedCellsInEAIEUTRAItemExtIEs;
  ProtocolExtensionContainerCompletedCellsInEAIEUTRAItemExtIEs; CompletedCellsInEAIEUTRAItem;
  CompletedCellsInEAIEUTRA; EmergencyAreaIDBroadcastEUTRAItemExtIEsExtensionValue;
  EmergencyAreaIDBroadcastEUTRAItemExtIEs; ProtocolExtensionContainerEmergencyAreaIDBroadcastEUTRAItemExtIEs;
  EmergencyAreaIDBroadcastEUTRAItem; EmergencyAreaIDBroadcastEUTRA; CellIDBroadcastNRItemExtIEsExtensionValue;
  CellIDBroadcastNRItemExtIEs; ProtocolExtensionContainerCellIDBroadcastNRItemExtIEs; CellIDBroadcastNRItem;
  CellIDBroadcastNR; CompletedCellsInTAINRItemExtIEsExtensionValue; CompletedCellsInTAINRItemExtIEs;
  ProtocolExtensionContainerCompletedCellsInTAINRItemExtIEs; CompletedCellsInTAINRItem; CompletedCellsInTAINR;
  TAIBroadcastNRItemExtIEsExtensionValue; TAIBroadcastNRItemExtIEs;
  ProtocolExtensionContainerTAIBroadcastNRItemExtIEs; TAIBroadcastNRItem; TAIBroadcastNR;
  CompletedCellsInEAINRItemExtIEsExtensionValue; CompletedCellsInEAINRItemExtIEs;
  ProtocolExtensionContainerCompletedCellsInEAINRItemExtIEs; CompletedCellsInEAINRItem; CompletedCellsInEAINR;
  EmergencyAreaIDBroadcastNRItemExtIEsExtensionValue; EmergencyAreaIDBroadcastNRItemExtIEs;
  ProtocolExtensionContainerEmergencyAreaIDBroadcastNRItemExtIEs; EmergencyAreaIDBroadcastNRItem;
  EmergencyAreaIDBroadcastNR; ProtocolIESingleContainerBroadcastCompletedAreaListExtIEs; BroadcastCompletedAreaList;
  BroadcastPLMNItemExtIEsExtensionValue; BroadcastPLMNItemExtIEs; ProtocolExtensionContainerBroadcastPLMNItemExtIEs;
  BroadcastPLMNItem; BroadcastPLMNList; COUNTValueForPDCPSN12ExtIEsExtensionValue; COUNTValueForPDCPSN12ExtIEs;
  ProtocolExtensionContainerCOUNTValueForPDCPSN12ExtIEs; COUNTValueForPDCPSN12;
  COUNTValueForPDCPSN18ExtIEsExtensionValue; COUNTValueForPDCPSN18ExtIEs;
  ProtocolExtensionContainerCOUNTValueForPDCPSN18ExtIEs; COUNTValueForPDCPSN18; CancelAllWarningMessages;
  EUTRACGIList; NRCGIList; ProtocolIESingleContainerCellIDListForRestartExtIEs; CellIDListForRestart; CellSize;
  RANUENGAPID; NGRANTraceID; CellTrafficTraceIEsValue; CellTrafficTraceIEs; ProtocolIEContainerCellTrafficTraceIEs;
  CellTrafficTrace; CellTypeExtIEsExtensionValue; CellTypeExtIEs; ProtocolExtensionContainerCellTypeExtIEs; CellType;
  ConcurrentWarningMessageInd; ConfidentialityProtectionIndication; ConfidentialityProtectionResult;
  ProtocolIESingleContainerUEIdentityIndexValueExtIEs; UEIdentityIndexValue; PagingDRX;
  PeriodicRegistrationUpdateTimer; MICOModeIndication; TAIListForInactiveItemExtIEsExtensionValue;
  TAIListForInactiveItemExtIEs; ProtocolExtensionContainerTAIListForInactiveItemExtIEs; TAIListForInactiveItem;
  TAIListForInactive; ExpectedActivityPeriod; ExpectedIdlePeriod; SourceOfUEActivityBehaviourInformation;
  ExpectedUEActivityBehaviourExtIEsExtensionValue; ExpectedUEActivityBehaviourExtIEs;
  ProtocolExtensionContainerExpectedUEActivityBehaviourExtIEs; ExpectedUEActivityBehaviour; ExpectedHOInterval;
  ExpectedUEMobility; ExpectedUEMovingTrajectoryItemExtIEsExtensionValue; ExpectedUEMovingTrajectoryItemExtIEs;
  ProtocolExtensionContainerExpectedUEMovingTrajectoryItemExtIEs; ExpectedUEMovingTrajectoryItem;
  ExpectedUEMovingTrajectory; ExpectedUEBehaviourExtIEsExtensionValue; ExpectedUEBehaviourExtIEs;
  ProtocolExtensionContainerExpectedUEBehaviourExtIEs; ExpectedUEBehaviour;
  CoreNetworkAssistanceInformationExtIEsExtensionValue; CoreNetworkAssistanceInformationExtIEs;
  ProtocolExtensionContainerCoreNetworkAssistanceInformationExtIEs; CoreNetworkAssistanceInformation; DLForwarding;
  DLNGUTNLInformationReused; DRBID; DRBStatusDL12ExtIEsExtensionValue; DRBStatusDL12ExtIEs;
  ProtocolExtensionContainerDRBStatusDL12ExtIEs; DRBStatusDL12; DRBStatusDL18ExtIEsExtensionValue;
  DRBStatusDL18ExtIEs; ProtocolExtensionContainerDRBStatusDL18ExtIEs; DRBStatusDL18;
  ProtocolIESingleContainerDRBStatusDLExtIEs; DRBStatusDL; DRBStatusUL12ExtIEsExtensionValue; DRBStatusUL12ExtIEs;
  ProtocolExtensionContainerDRBStatusUL12ExtIEs; DRBStatusUL12; DRBStatusUL18ExtIEsExtensionValue;
  DRBStatusUL18ExtIEs; ProtocolExtensionContainerDRBStatusUL18ExtIEs; DRBStatusUL18;
  ProtocolIESingleContainerDRBStatusULExtIEs; DRBStatusUL; DRBsSubjectToStatusTransferItemExtIEsExtensionValue;
  DRBsSubjectToStatusTransferItemExtIEs; ProtocolExtensionContainerDRBsSubjectToStatusTransferItemExtIEs;
  DRBsSubjectToStatusTransferItem; DRBsSubjectToStatusTransferList; DRBsToQosFlowsMappingItemExtIEsExtensionValue;
  DRBsToQosFlowsMappingItemExtIEs; ProtocolExtensionContainerDRBsToQosFlowsMappingItemExtIEs;
  DRBsToQosFlowsMappingItem; DRBsToQosFlowsMappingList; DataCodingScheme; DataForwardingAccepted;
  DataForwardingNotPossible; GTPTEID; GTPTunnelExtIEsExtensionValue; GTPTunnelExtIEs;
  ProtocolExtensionContainerGTPTunnelExtIEs; GTPTunnel; ProtocolIESingleContainerUPTransportLayerInformationExtIEs;
  UPTransportLayerInformation; DataForwardingResponseDRBItemExtIEsExtensionValue; DataForwardingResponseDRBItemExtIEs;
  ProtocolExtensionContainerDataForwardingResponseDRBItemExtIEs; DataForwardingResponseDRBItem;
  DataForwardingResponseDRBList; DeactivateTraceIEsValue; DeactivateTraceIEs; ProtocolIEContainerDeactivateTraceIEs;
  DeactivateTrace; DelayCritical; DirectForwardingPathAvailability; RANPagingPriority; NASPDU; EquivalentPLMNs;
  RATRestrictionInformation; RATRestrictionsItemExtIEsExtensionValue; RATRestrictionsItemExtIEs;
  ProtocolExtensionContainerRATRestrictionsItemExtIEs; RATRestrictionsItem; RATRestrictions; ForbiddenTACs;
  ForbiddenAreaInformationItemExtIEsExtensionValue; ForbiddenAreaInformationItemExtIEs;
  ProtocolExtensionContainerForbiddenAreaInformationItemExtIEs; ForbiddenAreaInformationItem;
  ForbiddenAreaInformation; NotAllowedTACs; ServiceAreaInformationItemExtIEsExtensionValue;
  ServiceAreaInformationItemExtIEs; ProtocolExtensionContainerServiceAreaInformationItemExtIEs;
  ServiceAreaInformationItem; ServiceAreaInformation; MobilityRestrictionListExtIEsExtensionValue;
  MobilityRestrictionListExtIEs; ProtocolExtensionContainerMobilityRestrictionListExtIEs; MobilityRestrictionList;
  IndexToRFSP; UEAggregateMaximumBitRateExtIEsExtensionValue; UEAggregateMaximumBitRateExtIEs;
  ProtocolExtensionContainerUEAggregateMaximumBitRateExtIEs; UEAggregateMaximumBitRate; DownlinkNASTransportIEsValue;
  DownlinkNASTransportIEs; ProtocolIEContainerDownlinkNASTransportIEs; DownlinkNASTransport; RoutingID; NRPPaPDU;
  DownlinkNonUEAssociatedNRPPaTransportIEsValue; DownlinkNonUEAssociatedNRPPaTransportIEs;
  ProtocolIEContainerDownlinkNonUEAssociatedNRPPaTransportIEs; DownlinkNonUEAssociatedNRPPaTransport;
  TargetRANNodeIDExtIEsExtensionValue; TargetRANNodeIDExtIEs; ProtocolExtensionContainerTargetRANNodeIDExtIEs;
  TargetRANNodeID; SourceRANNodeIDExtIEsExtensionValue; SourceRANNodeIDExtIEs;
  ProtocolExtensionContainerSourceRANNodeIDExtIEs; SourceRANNodeID; SONInformationRequest; XnTLAs; XnGTPTLAs;
  XnExtTLAItemExtIEsExtensionValue; XnExtTLAItemExtIEs; ProtocolExtensionContainerXnExtTLAItemExtIEs; XnExtTLAItem;
  XnExtTLAs; XnTNLConfigurationInfoExtIEsExtensionValue; XnTNLConfigurationInfoExtIEs;
  ProtocolExtensionContainerXnTNLConfigurationInfoExtIEs; XnTNLConfigurationInfo;
  SONInformationReplyExtIEsExtensionValue; SONInformationReplyExtIEs;
  ProtocolExtensionContainerSONInformationReplyExtIEs; SONInformationReply;
  ProtocolIESingleContainerSONInformationExtIEs; SONInformation; SONConfigurationTransferExtIEsExtensionValue;
  SONConfigurationTransferExtIEs; ProtocolExtensionContainerSONConfigurationTransferExtIEs; SONConfigurationTransfer;
  DownlinkRANConfigurationTransferIEsValue; DownlinkRANConfigurationTransferIEs;
  ProtocolIEContainerDownlinkRANConfigurationTransferIEs; DownlinkRANConfigurationTransfer;
  RANStatusTransferTransparentContainerExtIEsExtensionValue; RANStatusTransferTransparentContainerExtIEs;
  ProtocolExtensionContainerRANStatusTransferTransparentContainerExtIEs; RANStatusTransferTransparentContainer;
  DownlinkRANStatusTransferIEsValue; DownlinkRANStatusTransferIEs; ProtocolIEContainerDownlinkRANStatusTransferIEs;
  DownlinkRANStatusTransfer; DownlinkUEAssociatedNRPPaTransportIEsValue; DownlinkUEAssociatedNRPPaTransportIEs;
  ProtocolIEContainerDownlinkUEAssociatedNRPPaTransportIEs; DownlinkUEAssociatedNRPPaTransport; PriorityLevelQos;
  PacketDelayBudget; PacketErrorRateExtIEsExtensionValue; PacketErrorRateExtIEs;
  ProtocolExtensionContainerPacketErrorRateExtIEs; PacketErrorRate; FiveQI; MaximumDataBurstVolume;
  Dynamic5QIDescriptorExtIEsExtensionValue; Dynamic5QIDescriptorExtIEs;
  ProtocolExtensionContainerDynamic5QIDescriptorExtIEs; Dynamic5QIDescriptor; EPSTAC; EPSTAIExtIEsExtensionValue;
  EPSTAIExtIEs; ProtocolExtensionContainerEPSTAIExtIEs; EPSTAI; ERABID; ERABInformationItemExtIEsExtensionValue;
  ERABInformationItemExtIEs; ProtocolExtensionContainerERABInformationItemExtIEs; ERABInformationItem;
  ERABInformationList; EUTRACGIListForWarning; EUTRAencryptionAlgorithms; EUTRAintegrityProtectionAlgorithms;
  EmergencyAreaIDList; EmergencyAreaIDListForRestart; EmergencyFallbackRequestIndicator; EmergencyServiceTargetCN;
  EmergencyFallbackIndicatorExtIEsExtensionValue; EmergencyFallbackIndicatorExtIEs;
  ProtocolExtensionContainerEmergencyFallbackIndicatorExtIEs; EmergencyFallbackIndicator; ErrorIndicationIEsValue;
  ErrorIndicationIEs; ProtocolIEContainerErrorIndicationIEs; ErrorIndication; EventType; FiveGTMSI;
  FiveGSTMSIExtIEsExtensionValue; FiveGSTMSIExtIEs; ProtocolExtensionContainerFiveGSTMSIExtIEs; FiveGSTMSI;
  NotificationControl; PacketLossRate; GBRQosInformationExtIEsExtensionValue; GBRQosInformationExtIEs;
  ProtocolExtensionContainerGBRQosInformationExtIEs; GBRQosInformation; HandoverCancelIEsValue; HandoverCancelIEs;
  ProtocolIEContainerHandoverCancelIEs; HandoverCancel; HandoverCancelAcknowledgeIEsValue;
  HandoverCancelAcknowledgeIEs; ProtocolIEContainerHandoverCancelAcknowledgeIEs; HandoverCancelAcknowledge;
  HandoverType; NASSecurityParametersFromNGRAN; PDUSessionID; PDUSessionResourceHandoverItemExtIEsExtensionValue;
  PDUSessionResourceHandoverItemExtIEs; ProtocolExtensionContainerPDUSessionResourceHandoverItemExtIEs;
  PDUSessionResourceHandoverItem; PDUSessionResourceHandoverList;
  PDUSessionResourceToReleaseItemHOCmdExtIEsExtensionValue; PDUSessionResourceToReleaseItemHOCmdExtIEs;
  ProtocolExtensionContainerPDUSessionResourceToReleaseItemHOCmdExtIEs; PDUSessionResourceToReleaseItemHOCmd;
  PDUSessionResourceToReleaseListHOCmd; TargetToSourceTransparentContainer; HandoverCommandIEsValue;
  HandoverCommandIEs; ProtocolIEContainerHandoverCommandIEs; HandoverCommand;
  QosFlowToBeForwardedItemExtIEsExtensionValue; QosFlowToBeForwardedItemExtIEs;
  ProtocolExtensionContainerQosFlowToBeForwardedItemExtIEs; QosFlowToBeForwardedItem; QosFlowToBeForwardedList;
  HandoverCommandTransferExtIEsExtensionValue; HandoverCommandTransferExtIEs;
  ProtocolExtensionContainerHandoverCommandTransferExtIEs; HandoverCommandTransfer; HandoverFailureIEsValue;
  HandoverFailureIEs; ProtocolIEContainerHandoverFailureIEs; HandoverFailure; TimeStamp;
  UserLocationInformationEUTRAExtIEsExtensionValue; UserLocationInformationEUTRAExtIEs;
  ProtocolExtensionContainerUserLocationInformationEUTRAExtIEs; UserLocationInformationEUTRA;
  UserLocationInformationNRExtIEsExtensionValue; UserLocationInformationNRExtIEs;
  ProtocolExtensionContainerUserLocationInformationNRExtIEs; UserLocationInformationNR; PortNumber;
  UserLocationInformationN3IWFExtIEsExtensionValue; UserLocationInformationN3IWFExtIEs;
  ProtocolExtensionContainerUserLocationInformationN3IWFExtIEs; UserLocationInformationN3IWF;
  ProtocolIESingleContainerUserLocationInformationExtIEs; UserLocationInformation; HandoverNotifyIEsValue;
  HandoverNotifyIEs; ProtocolIEContainerHandoverNotifyIEs; HandoverNotify; HandoverPreparationFailureIEsValue;
  HandoverPreparationFailureIEs; ProtocolIEContainerHandoverPreparationFailureIEs; HandoverPreparationFailure;
  HandoverPreparationUnsuccessfulTransferExtIEsExtensionValue; HandoverPreparationUnsuccessfulTransferExtIEs;
  ProtocolExtensionContainerHandoverPreparationUnsuccessfulTransferExtIEs; HandoverPreparationUnsuccessfulTransfer;
  NRencryptionAlgorithms; NRintegrityProtectionAlgorithms; UESecurityCapabilitiesExtIEsExtensionValue;
  UESecurityCapabilitiesExtIEs; ProtocolExtensionContainerUESecurityCapabilitiesExtIEs; UESecurityCapabilities;
  NextHopChainingCount; SecurityKey; SecurityContextExtIEsExtensionValue; SecurityContextExtIEs;
  ProtocolExtensionContainerSecurityContextExtIEs; SecurityContext; NewSecurityContextInd;
  PDUSessionResourceSetupItemHOReqExtIEsExtensionValue; PDUSessionResourceSetupItemHOReqExtIEs;
  ProtocolExtensionContainerPDUSessionResourceSetupItemHOReqExtIEs; PDUSessionResourceSetupItemHOReq;
  PDUSessionResourceSetupListHOReq; InterfacesToTrace; TraceDepth; TraceActivationExtIEsExtensionValue;
  TraceActivationExtIEs; ProtocolExtensionContainerTraceActivationExtIEs; TraceActivation; MaskedIMEISV;
  SourceToTargetTransparentContainer; ReportArea; LocationReportingRequestTypeExtIEsExtensionValue;
  LocationReportingRequestTypeExtIEs; ProtocolExtensionContainerLocationReportingRequestTypeExtIEs;
  LocationReportingRequestType; RRCInactiveTransitionReportRequest; HandoverRequestIEsValue; HandoverRequestIEs;
  ProtocolIEContainerHandoverRequestIEs; HandoverRequest; PDUSessionResourceAdmittedItemExtIEsExtensionValue;
  PDUSessionResourceAdmittedItemExtIEs; ProtocolExtensionContainerPDUSessionResourceAdmittedItemExtIEs;
  PDUSessionResourceAdmittedItem; PDUSessionResourceAdmittedList;
  PDUSessionResourceFailedToSetupItemHOAckExtIEsExtensionValue; PDUSessionResourceFailedToSetupItemHOAckExtIEs;
  ProtocolExtensionContainerPDUSessionResourceFailedToSetupItemHOAckExtIEs; PDUSessionResourceFailedToSetupItemHOAck;
  PDUSessionResourceFailedToSetupListHOAck; HandoverRequestAcknowledgeIEsValue; HandoverRequestAcknowledgeIEs;
  ProtocolIEContainerHandoverRequestAcknowledgeIEs; HandoverRequestAcknowledge; IntegrityProtectionResult;
  SecurityResultExtIEsExtensionValue; SecurityResultExtIEs; ProtocolExtensionContainerSecurityResultExtIEs;
  SecurityResult; QosFlowSetupResponseItemHOReqAckExtIEsExtensionValue; QosFlowSetupResponseItemHOReqAckExtIEs;
  ProtocolExtensionContainerQosFlowSetupResponseItemHOReqAckExtIEs; QosFlowSetupResponseItemHOReqAck;
  QosFlowSetupResponseListHOReqAck; QosFlowItemExtIEsExtensionValue; QosFlowItemExtIEs;
  ProtocolExtensionContainerQosFlowItemExtIEs; QosFlowItem; QosFlowList;
  HandoverRequestAcknowledgeTransferExtIEsExtensionValue; HandoverRequestAcknowledgeTransferExtIEs;
  ProtocolExtensionContainerHandoverRequestAcknowledgeTransferExtIEs; HandoverRequestAcknowledgeTransfer;
  TargeteNBIDExtIEsExtensionValue; TargeteNBIDExtIEs; ProtocolExtensionContainerTargeteNBIDExtIEs; TargeteNBID;
  ProtocolIESingleContainerTargetIDExtIEs; TargetID; PDUSessionResourceItemHORqdExtIEsExtensionValue;
  PDUSessionResourceItemHORqdExtIEs; ProtocolExtensionContainerPDUSessionResourceItemHORqdExtIEs;
  PDUSessionResourceItemHORqd; PDUSessionResourceListHORqd; HandoverRequiredIEsValue; HandoverRequiredIEs;
  ProtocolIEContainerHandoverRequiredIEs; HandoverRequired; HandoverRequiredTransferExtIEsExtensionValue;
  HandoverRequiredTransferExtIEs; ProtocolExtensionContainerHandoverRequiredTransferExtIEs; HandoverRequiredTransfer;
  HandoverResourceAllocationUnsuccessfulTransferExtIEsExtensionValue;
  HandoverResourceAllocationUnsuccessfulTransferExtIEs;
  ProtocolExtensionContainerHandoverResourceAllocationUnsuccessfulTransferExtIEs;
  HandoverResourceAllocationUnsuccessfulTransfer; IMSVoiceSupportIndicator;
  RecommendedRANNodeItemExtIEsExtensionValue; RecommendedRANNodeItemExtIEs;
  ProtocolExtensionContainerRecommendedRANNodeItemExtIEs; RecommendedRANNodeItem; RecommendedRANNodeList;
  RecommendedRANNodesForPagingExtIEsExtensionValue; RecommendedRANNodesForPagingExtIEs;
  ProtocolExtensionContainerRecommendedRANNodesForPagingExtIEs; RecommendedRANNodesForPaging;
  InfoOnRecommendedCellsAndRANNodesForPagingExtIEsExtensionValue; InfoOnRecommendedCellsAndRANNodesForPagingExtIEs;
  ProtocolExtensionContainerInfoOnRecommendedCellsAndRANNodesForPagingExtIEs;
  InfoOnRecommendedCellsAndRANNodesForPaging; PDUSessionResourceFailedToSetupItemCxtFailExtIEsExtensionValue;
  PDUSessionResourceFailedToSetupItemCxtFailExtIEs;
  ProtocolExtensionContainerPDUSessionResourceFailedToSetupItemCxtFailExtIEs;
  PDUSessionResourceFailedToSetupItemCxtFail; PDUSessionResourceFailedToSetupListCxtFail;
  InitialContextSetupFailureIEsValue; InitialContextSetupFailureIEs; ProtocolIEContainerInitialContextSetupFailureIEs;
  InitialContextSetupFailure; PDUSessionResourceSetupItemCxtReqExtIEsExtensionValue;
  PDUSessionResourceSetupItemCxtReqExtIEs; ProtocolExtensionContainerPDUSessionResourceSetupItemCxtReqExtIEs;
  PDUSessionResourceSetupItemCxtReq; PDUSessionResourceSetupListCxtReq; UERadioCapability;
  UERadioCapabilityForPagingOfNR; UERadioCapabilityForPagingOfEUTRA; UERadioCapabilityForPagingExtIEsExtensionValue;
  UERadioCapabilityForPagingExtIEs; ProtocolExtensionContainerUERadioCapabilityForPagingExtIEs;
  UERadioCapabilityForPaging; InitialContextSetupRequestIEsValue; InitialContextSetupRequestIEs;
  ProtocolIEContainerInitialContextSetupRequestIEs; InitialContextSetupRequest;
  PDUSessionResourceSetupItemCxtResExtIEsExtensionValue; PDUSessionResourceSetupItemCxtResExtIEs;
  ProtocolExtensionContainerPDUSessionResourceSetupItemCxtResExtIEs; PDUSessionResourceSetupItemCxtRes;
  PDUSessionResourceSetupListCxtRes; PDUSessionResourceFailedToSetupItemCxtResExtIEsExtensionValue;
  PDUSessionResourceFailedToSetupItemCxtResExtIEs;
  ProtocolExtensionContainerPDUSessionResourceFailedToSetupItemCxtResExtIEs;
  PDUSessionResourceFailedToSetupItemCxtRes; PDUSessionResourceFailedToSetupListCxtRes;
  InitialContextSetupResponseIEsValue; InitialContextSetupResponseIEs;
  ProtocolIEContainerInitialContextSetupResponseIEs; InitialContextSetupResponse; RRCEstablishmentCause;
  UEContextRequest; InitialUEMessageIEsValue; InitialUEMessageIEs; ProtocolIEContainerInitialUEMessageIEs;
  InitialUEMessage; ResetAll; UEAssociatedLogicalNGConnectionItemExtIEsExtensionValue;
  UEAssociatedLogicalNGConnectionItemExtIEs; ProtocolExtensionContainerUEAssociatedLogicalNGConnectionItemExtIEs;
  UEAssociatedLogicalNGConnectionItem; UEAssociatedLogicalNGConnectionList; ProtocolIESingleContainerResetTypeExtIEs;
  ResetType; NGResetIEsValue; NGResetIEs; ProtocolIEContainerNGResetIEs; NGReset; RANNodeName;
  SupportedTAItemExtIEsExtensionValue; SupportedTAItemExtIEs; ProtocolExtensionContainerSupportedTAItemExtIEs;
  SupportedTAItem; SupportedTAList; NGSetupRequestIEsValue; NGSetupRequestIEs; ProtocolIEContainerNGSetupRequestIEs;
  NGSetupRequest; PDUSessionResourceToBeSwitchedDLItemExtIEsExtensionValue;
  PDUSessionResourceToBeSwitchedDLItemExtIEs; ProtocolExtensionContainerPDUSessionResourceToBeSwitchedDLItemExtIEs;
  PDUSessionResourceToBeSwitchedDLItem; PDUSessionResourceToBeSwitchedDLList;
  PDUSessionResourceFailedToSetupItemPSReqExtIEsExtensionValue; PDUSessionResourceFailedToSetupItemPSReqExtIEs;
  ProtocolExtensionContainerPDUSessionResourceFailedToSetupItemPSReqExtIEs; PDUSessionResourceFailedToSetupItemPSReq;
  PDUSessionResourceFailedToSetupListPSReq; PathSwitchRequestIEsValue; PathSwitchRequestIEs;
  ProtocolIEContainerPathSwitchRequestIEs; PathSwitchRequest; PDUSessionResourceModifyItemModReqExtIEsExtensionValue;
  PDUSessionResourceModifyItemModReqExtIEs; ProtocolExtensionContainerPDUSessionResourceModifyItemModReqExtIEs;
  PDUSessionResourceModifyItemModReq; PDUSessionResourceModifyListModReq; PDUSessionResourceModifyRequestIEsValue;
  PDUSessionResourceModifyRequestIEs; ProtocolIEContainerPDUSessionResourceModifyRequestIEs;
  PDUSessionResourceModifyRequest; PDUSessionResourceModifyItemModIndExtIEsExtensionValue;
  PDUSessionResourceModifyItemModIndExtIEs; ProtocolExtensionContainerPDUSessionResourceModifyItemModIndExtIEs;
  PDUSessionResourceModifyItemModInd; PDUSessionResourceModifyListModInd; PDUSessionResourceModifyIndicationIEsValue;
  PDUSessionResourceModifyIndicationIEs; ProtocolIEContainerPDUSessionResourceModifyIndicationIEs;
  PDUSessionResourceModifyIndication; PDUSessionResourceToReleaseItemRelCmdExtIEsExtensionValue;
  PDUSessionResourceToReleaseItemRelCmdExtIEs; ProtocolExtensionContainerPDUSessionResourceToReleaseItemRelCmdExtIEs;
  PDUSessionResourceToReleaseItemRelCmd; PDUSessionResourceToReleaseListRelCmd;
  PDUSessionResourceReleaseCommandIEsValue; PDUSessionResourceReleaseCommandIEs;
  ProtocolIEContainerPDUSessionResourceReleaseCommandIEs; PDUSessionResourceReleaseCommand;
  PDUSessionResourceSetupItemSUReqExtIEsExtensionValue; PDUSessionResourceSetupItemSUReqExtIEs;
  ProtocolExtensionContainerPDUSessionResourceSetupItemSUReqExtIEs; PDUSessionResourceSetupItemSUReq;
  PDUSessionResourceSetupListSUReq; PDUSessionResourceSetupRequestIEsValue; PDUSessionResourceSetupRequestIEs;
  ProtocolIEContainerPDUSessionResourceSetupRequestIEs; PDUSessionResourceSetupRequest; MessageIdentifier;
  SerialNumber; NRCGIListForWarning; TAIListForWarning; ProtocolIESingleContainerWarningAreaListExtIEs;
  WarningAreaList; PWSCancelRequestIEsValue; PWSCancelRequestIEs; ProtocolIEContainerPWSCancelRequestIEs;
  PWSCancelRequest; RANConfigurationUpdateIEsValue; RANConfigurationUpdateIEs;
  ProtocolIEContainerRANConfigurationUpdateIEs; RANConfigurationUpdate; UEContextModificationRequestIEsValue;
  UEContextModificationRequestIEs; ProtocolIEContainerUEContextModificationRequestIEs; UEContextModificationRequest;
  UENGAPIDPairExtIEsExtensionValue; UENGAPIDPairExtIEs; ProtocolExtensionContainerUENGAPIDPairExtIEs; UENGAPIDPair;
  ProtocolIESingleContainerUENGAPIDsExtIEs; UENGAPIDs; UEContextReleaseCommandIEsValue; UEContextReleaseCommandIEs;
  ProtocolIEContainerUEContextReleaseCommandIEs; UEContextReleaseCommand; UERadioCapabilityCheckRequestIEsValue;
  UERadioCapabilityCheckRequestIEs; ProtocolIEContainerUERadioCapabilityCheckRequestIEs;
  UERadioCapabilityCheckRequest; RepetitionPeriod; NumberOfBroadcastsRequested; WarningType; WarningSecurityInfo;
  WarningMessageContents; WarningAreaCoordinates; WriteReplaceWarningRequestIEsValue; WriteReplaceWarningRequestIEs;
  ProtocolIEContainerWriteReplaceWarningRequestIEs; WriteReplaceWarningRequest; UEPresence;
  UEPresenceInAreaOfInterestItemExtIEsExtensionValue; UEPresenceInAreaOfInterestItemExtIEs;
  ProtocolExtensionContainerUEPresenceInAreaOfInterestItemExtIEs; UEPresenceInAreaOfInterestItem;
  UEPresenceInAreaOfInterestList; LocationReportIEsValue; LocationReportIEs; ProtocolIEContainerLocationReportIEs;
  LocationReport; LocationReportingControlIEsValue; LocationReportingControlIEs;
  ProtocolIEContainerLocationReportingControlIEs; LocationReportingControl;
  LocationReportingFailureIndicationIEsValue; LocationReportingFailureIndicationIEs;
  ProtocolIEContainerLocationReportingFailureIndicationIEs; LocationReportingFailureIndication;
  NASNonDeliveryIndicationIEsValue; NASNonDeliveryIndicationIEs; ProtocolIEContainerNASNonDeliveryIndicationIEs;
  NASNonDeliveryIndication; OverloadAction; ProtocolIESingleContainerOverloadResponseExtIEs; OverloadResponse;
  TrafficLoadReductionIndication; SliceOverloadItemExtIEsExtensionValue; SliceOverloadItemExtIEs;
  ProtocolExtensionContainerSliceOverloadItemExtIEs; SliceOverloadItem; SliceOverloadList;
  OverloadStartNSSAIItemExtIEsExtensionValue; OverloadStartNSSAIItemExtIEs;
  ProtocolExtensionContainerOverloadStartNSSAIItemExtIEs; OverloadStartNSSAIItem; OverloadStartNSSAIList;
  OverloadStartIEsValue; OverloadStartIEs; ProtocolIEContainerOverloadStartIEs; OverloadStart; OverloadStopIEsValue;
  OverloadStopIEs; ProtocolIEContainerOverloadStopIEs; OverloadStop; ProtocolIESingleContainerUEPagingIdentityExtIEs;
  UEPagingIdentity; TAIListForPagingItemExtIEsExtensionValue; TAIListForPagingItemExtIEs;
  ProtocolExtensionContainerTAIListForPagingItemExtIEs; TAIListForPagingItem; TAIListForPaging; PagingPriority;
  PagingOrigin; PagingIEsValue; PagingIEs; ProtocolIEContainerPagingIEs; Paging;
  PDUSessionResourceNotifyItemExtIEsExtensionValue; PDUSessionResourceNotifyItemExtIEs;
  ProtocolExtensionContainerPDUSessionResourceNotifyItemExtIEs; PDUSessionResourceNotifyItem;
  PDUSessionResourceNotifyList; PDUSessionResourceReleasedItemNotExtIEsExtensionValue;
  PDUSessionResourceReleasedItemNotExtIEs; ProtocolExtensionContainerPDUSessionResourceReleasedItemNotExtIEs;
  PDUSessionResourceReleasedItemNot; PDUSessionResourceReleasedListNot; PDUSessionResourceNotifyIEsValue;
  PDUSessionResourceNotifyIEs; ProtocolIEContainerPDUSessionResourceNotifyIEs; PDUSessionResourceNotify; PrivateIEID;
  PrivateMessageIEsValue; PrivateMessageIEs; PrivateIEContainerPrivateMessageIEs; PrivateMessage;
  ProtocolIESingleContainerPWSFailedCellIDListExtIEs; PWSFailedCellIDList; PWSFailureIndicationIEsValue;
  PWSFailureIndicationIEs; ProtocolIEContainerPWSFailureIndicationIEs; PWSFailureIndication; TAIListForRestart;
  PWSRestartIndicationIEsValue; PWSRestartIndicationIEs; ProtocolIEContainerPWSRestartIndicationIEs;
  PWSRestartIndication; RerouteNASRequestIEsValue; RerouteNASRequestIEs; ProtocolIEContainerRerouteNASRequestIEs;
  RerouteNASRequest; RRCState; RRCInactiveTransitionReportIEsValue; RRCInactiveTransitionReportIEs;
  ProtocolIEContainerRRCInactiveTransitionReportIEs; RRCInactiveTransitionReport; TraceFailureIndicationIEsValue;
  TraceFailureIndicationIEs; ProtocolIEContainerTraceFailureIndicationIEs; TraceFailureIndication; TraceStartIEsValue;
  TraceStartIEs; ProtocolIEContainerTraceStartIEs; TraceStart; PDUSessionResourceItemCxtRelReqExtIEsExtensionValue;
  PDUSessionResourceItemCxtRelReqExtIEs; ProtocolExtensionContainerPDUSessionResourceItemCxtRelReqExtIEs;
  PDUSessionResourceItemCxtRelReq; PDUSessionResourceListCxtRelReq; UEContextReleaseRequestIEsValue;
  UEContextReleaseRequestIEs; ProtocolIEContainerUEContextReleaseRequestIEs; UEContextReleaseRequest;
  UERadioCapabilityInfoIndicationIEsValue; UERadioCapabilityInfoIndicationIEs;
  ProtocolIEContainerUERadioCapabilityInfoIndicationIEs; UERadioCapabilityInfoIndication;
  UETNLABindingReleaseRequestIEsValue; UETNLABindingReleaseRequestIEs;
  ProtocolIEContainerUETNLABindingReleaseRequestIEs; UETNLABindingReleaseRequest; UplinkNASTransportIEsValue;
  UplinkNASTransportIEs; ProtocolIEContainerUplinkNASTransportIEs; UplinkNASTransport;
  UplinkNonUEAssociatedNRPPaTransportIEsValue; UplinkNonUEAssociatedNRPPaTransportIEs;
  ProtocolIEContainerUplinkNonUEAssociatedNRPPaTransportIEs; UplinkNonUEAssociatedNRPPaTransport;
  UplinkRANConfigurationTransferIEsValue; UplinkRANConfigurationTransferIEs;
  ProtocolIEContainerUplinkRANConfigurationTransferIEs; UplinkRANConfigurationTransfer;
  UplinkRANStatusTransferIEsValue; UplinkRANStatusTransferIEs; ProtocolIEContainerUplinkRANStatusTransferIEs;
  UplinkRANStatusTransfer; UplinkUEAssociatedNRPPaTransportIEsValue; UplinkUEAssociatedNRPPaTransportIEs;
  ProtocolIEContainerUplinkUEAssociatedNRPPaTransportIEs; UplinkUEAssociatedNRPPaTransport; InitiatingMessageValue;
  InitiatingMessage; IntegrityProtectionIndication; TimeUEStayedInCell; TimeUEStayedInCellEnhancedGranularity;
  LastVisitedNGRANCellInformationExtIEsExtensionValue; LastVisitedNGRANCellInformationExtIEs;
  ProtocolExtensionContainerLastVisitedNGRANCellInformationExtIEs; LastVisitedNGRANCellInformation;
  LastVisitedEUTRANCellInformation; LastVisitedUTRANCellInformation; LastVisitedGERANCellInformation;
  ProtocolIESingleContainerLastVisitedCellInformationExtIEs; LastVisitedCellInformation;
  LastVisitedCellItemExtIEsExtensionValue; LastVisitedCellItemExtIEs;
  ProtocolExtensionContainerLastVisitedCellItemExtIEs; LastVisitedCellItem; MaximumIntegrityProtectedDataRate;
  QosFlowPerTNLInformationExtIEsExtensionValue; QosFlowPerTNLInformationExtIEs;
  ProtocolExtensionContainerQosFlowPerTNLInformationExtIEs; QosFlowPerTNLInformation;
  TNLInformationItemExtIEsExtensionValue; TNLInformationItemExtIEs;
  ProtocolExtensionContainerTNLInformationItemExtIEs; TNLInformationItem; TNLInformationList;
  MultipleTNLInformationExtIEsExtensionValue; MultipleTNLInformationExtIEs;
  ProtocolExtensionContainerMultipleTNLInformationExtIEs; MultipleTNLInformation; NGResetAcknowledgeIEsValue;
  NGResetAcknowledgeIEs; ProtocolIEContainerNGResetAcknowledgeIEs; NGResetAcknowledge; NGSetupResponseIEsValue;
  NGSetupResponseIEs; ProtocolIEContainerNGSetupResponseIEs; NGSetupResponse;
  PDUSessionResourceSwitchedItemExtIEsExtensionValue; PDUSessionResourceSwitchedItemExtIEs;
  ProtocolExtensionContainerPDUSessionResourceSwitchedItemExtIEs; PDUSessionResourceSwitchedItem;
  PDUSessionResourceSwitchedList; PDUSessionResourceReleasedItemPSAckExtIEsExtensionValue;
  PDUSessionResourceReleasedItemPSAckExtIEs; ProtocolExtensionContainerPDUSessionResourceReleasedItemPSAckExtIEs;
  PDUSessionResourceReleasedItemPSAck; PDUSessionResourceReleasedListPSAck; PathSwitchRequestAcknowledgeIEsValue;
  PathSwitchRequestAcknowledgeIEs; ProtocolIEContainerPathSwitchRequestAcknowledgeIEs; PathSwitchRequestAcknowledge;
  PDUSessionResourceModifyItemModResExtIEsExtensionValue; PDUSessionResourceModifyItemModResExtIEs;
  ProtocolExtensionContainerPDUSessionResourceModifyItemModResExtIEs; PDUSessionResourceModifyItemModRes;
  PDUSessionResourceModifyListModRes; PDUSessionResourceFailedToModifyItemModResExtIEsExtensionValue;
  PDUSessionResourceFailedToModifyItemModResExtIEs;
  ProtocolExtensionContainerPDUSessionResourceFailedToModifyItemModResExtIEs;
  PDUSessionResourceFailedToModifyItemModRes; PDUSessionResourceFailedToModifyListModRes;
  PDUSessionResourceModifyResponseIEsValue; PDUSessionResourceModifyResponseIEs;
  ProtocolIEContainerPDUSessionResourceModifyResponseIEs; PDUSessionResourceModifyResponse;
  PDUSessionResourceModifyItemModCfmExtIEsExtensionValue; PDUSessionResourceModifyItemModCfmExtIEs;
  ProtocolExtensionContainerPDUSessionResourceModifyItemModCfmExtIEs; PDUSessionResourceModifyItemModCfm;
  PDUSessionResourceModifyListModCfm; PDUSessionResourceFailedToModifyItemModCfmExtIEsExtensionValue;
  PDUSessionResourceFailedToModifyItemModCfmExtIEs;
  ProtocolExtensionContainerPDUSessionResourceFailedToModifyItemModCfmExtIEs;
  PDUSessionResourceFailedToModifyItemModCfm; PDUSessionResourceFailedToModifyListModCfm;
  PDUSessionResourceModifyConfirmIEsValue; PDUSessionResourceModifyConfirmIEs;
  ProtocolIEContainerPDUSessionResourceModifyConfirmIEs; PDUSessionResourceModifyConfirm;
  PDUSessionResourceReleasedItemRelResExtIEsExtensionValue; PDUSessionResourceReleasedItemRelResExtIEs;
  ProtocolExtensionContainerPDUSessionResourceReleasedItemRelResExtIEs; PDUSessionResourceReleasedItemRelRes;
  PDUSessionResourceReleasedListRelRes; PDUSessionResourceReleaseResponseIEsValue;
  PDUSessionResourceReleaseResponseIEs; ProtocolIEContainerPDUSessionResourceReleaseResponseIEs;
  PDUSessionResourceReleaseResponse; PDUSessionResourceSetupItemSUResExtIEsExtensionValue;
  PDUSessionResourceSetupItemSUResExtIEs; ProtocolExtensionContainerPDUSessionResourceSetupItemSUResExtIEs;
  PDUSessionResourceSetupItemSURes; PDUSessionResourceSetupListSURes;
  PDUSessionResourceFailedToSetupItemSUResExtIEsExtensionValue; PDUSessionResourceFailedToSetupItemSUResExtIEs;
  ProtocolExtensionContainerPDUSessionResourceFailedToSetupItemSUResExtIEs; PDUSessionResourceFailedToSetupItemSURes;
  PDUSessionResourceFailedToSetupListSURes; PDUSessionResourceSetupResponseIEsValue;
  PDUSessionResourceSetupResponseIEs; ProtocolIEContainerPDUSessionResourceSetupResponseIEs;
  PDUSessionResourceSetupResponse; PWSCancelResponseIEsValue; PWSCancelResponseIEs;
  ProtocolIEContainerPWSCancelResponseIEs; PWSCancelResponse; RANConfigurationUpdateAcknowledgeIEsValue;
  RANConfigurationUpdateAcknowledgeIEs; ProtocolIEContainerRANConfigurationUpdateAcknowledgeIEs;
  RANConfigurationUpdateAcknowledge; UEContextModificationResponseIEsValue; UEContextModificationResponseIEs;
  ProtocolIEContainerUEContextModificationResponseIEs; UEContextModificationResponse;
  PDUSessionResourceItemCxtRelCplExtIEsExtensionValue; PDUSessionResourceItemCxtRelCplExtIEs;
  ProtocolExtensionContainerPDUSessionResourceItemCxtRelCplExtIEs; PDUSessionResourceItemCxtRelCpl;
  PDUSessionResourceListCxtRelCpl; UEContextReleaseCompleteIEsValue; UEContextReleaseCompleteIEs;
  ProtocolIEContainerUEContextReleaseCompleteIEs; UEContextReleaseComplete; UERadioCapabilityCheckResponseIEsValue;
  UERadioCapabilityCheckResponseIEs; ProtocolIEContainerUERadioCapabilityCheckResponseIEs;
  UERadioCapabilityCheckResponse; WriteReplaceWarningResponseIEsValue; WriteReplaceWarningResponseIEs;
  ProtocolIEContainerWriteReplaceWarningResponseIEs; WriteReplaceWarningResponse; SuccessfulOutcomeValue;
  SuccessfulOutcome; NGSetupFailureIEsValue; NGSetupFailureIEs; ProtocolIEContainerNGSetupFailureIEs; NGSetupFailure;
  PDUSessionResourceReleasedItemPSFailExtIEsExtensionValue; PDUSessionResourceReleasedItemPSFailExtIEs;
  ProtocolExtensionContainerPDUSessionResourceReleasedItemPSFailExtIEs; PDUSessionResourceReleasedItemPSFail;
  PDUSessionResourceReleasedListPSFail; PathSwitchRequestFailureIEsValue; PathSwitchRequestFailureIEs;
  ProtocolIEContainerPathSwitchRequestFailureIEs; PathSwitchRequestFailure; RANConfigurationUpdateFailureIEsValue;
  RANConfigurationUpdateFailureIEs; ProtocolIEContainerRANConfigurationUpdateFailureIEs;
  RANConfigurationUpdateFailure; UEContextModificationFailureIEsValue; UEContextModificationFailureIEs;
  ProtocolIEContainerUEContextModificationFailureIEs; UEContextModificationFailure; UnsuccessfulOutcomeValue;
  UnsuccessfulOutcome; NGAPPDU; NetworkInstance; NonDynamic5QIDescriptorExtIEsExtensionValue;
  NonDynamic5QIDescriptorExtIEs; ProtocolExtensionContainerNonDynamic5QIDescriptorExtIEs; NonDynamic5QIDescriptor;
  NotificationCause; PDUSessionAggregateMaximumBitRateExtIEsExtensionValue; PDUSessionAggregateMaximumBitRateExtIEs;
  ProtocolExtensionContainerPDUSessionAggregateMaximumBitRateExtIEs; PDUSessionAggregateMaximumBitRate;
  QosFlowInformationItemExtIEsExtensionValue; QosFlowInformationItemExtIEs;
  ProtocolExtensionContainerQosFlowInformationItemExtIEs; QosFlowInformationItem; QosFlowInformationList;
  PDUSessionResourceInformationItemExtIEsExtensionValue; PDUSessionResourceInformationItemExtIEs;
  ProtocolExtensionContainerPDUSessionResourceInformationItemExtIEs; PDUSessionResourceInformationItem;
  PDUSessionResourceInformationList; QosFlowModifyConfirmItemExtIEsExtensionValue; QosFlowModifyConfirmItemExtIEs;
  ProtocolExtensionContainerQosFlowModifyConfirmItemExtIEs; QosFlowModifyConfirmItem; QosFlowModifyConfirmList;
  TNLMappingItemExtIEsExtensionValue; TNLMappingItemExtIEs; ProtocolExtensionContainerTNLMappingItemExtIEs;
  TNLMappingItem; TNLMappingList; PDUSessionResourceModifyConfirmTransferExtIEsExtensionValue;
  PDUSessionResourceModifyConfirmTransferExtIEs;
  ProtocolExtensionContainerPDUSessionResourceModifyConfirmTransferExtIEs; PDUSessionResourceModifyConfirmTransfer;
  SingleTNLInformationExtIEsExtensionValue; SingleTNLInformationExtIEs;
  ProtocolExtensionContainerSingleTNLInformationExtIEs; SingleTNLInformation;
  ProtocolIESingleContainerUPTNLInformationExtIEs; UPTNLInformation;
  PDUSessionResourceModifyIndicationTransferExtIEsExtensionValue; PDUSessionResourceModifyIndicationTransferExtIEs;
  ProtocolExtensionContainerPDUSessionResourceModifyIndicationTransferExtIEs;
  PDUSessionResourceModifyIndicationTransfer;
  PDUSessionResourceModifyIndicationUnsuccessfulTransferExtIEsExtensionValue;
  PDUSessionResourceModifyIndicationUnsuccessfulTransferExtIEs;
  ProtocolExtensionContainerPDUSessionResourceModifyIndicationUnsuccessfulTransferExtIEs;
  PDUSessionResourceModifyIndicationUnsuccessfulTransfer; ULNGUUPTNLModifyItemExtIEsExtensionValue;
  ULNGUUPTNLModifyItemExtIEs; ProtocolExtensionContainerULNGUUPTNLModifyItemExtIEs; ULNGUUPTNLModifyItem;
  ULNGUUPTNLModifyList; ProtocolIESingleContainerQosCharacteristicsExtIEs; QosCharacteristics; ReflectiveQosAttribute;
  QosFlowLevelQosParametersExtIEsExtensionValue; QosFlowLevelQosParametersExtIEs;
  ProtocolExtensionContainerQosFlowLevelQosParametersExtIEs; QosFlowLevelQosParameters;
  QosFlowAddOrModifyRequestItemExtIEsExtensionValue; QosFlowAddOrModifyRequestItemExtIEs;
  ProtocolExtensionContainerQosFlowAddOrModifyRequestItemExtIEs; QosFlowAddOrModifyRequestItem;
  QosFlowAddOrModifyRequestList; PDUSessionResourceModifyRequestTransferIEsValue;
  PDUSessionResourceModifyRequestTransferIEs; ProtocolIEContainerPDUSessionResourceModifyRequestTransferIEs;
  PDUSessionResourceModifyRequestTransfer; QosFlowAddOrModifyResponseItemExtIEsExtensionValue;
  QosFlowAddOrModifyResponseItemExtIEs; ProtocolExtensionContainerQosFlowAddOrModifyResponseItemExtIEs;
  QosFlowAddOrModifyResponseItem; QosFlowAddOrModifyResponseList;
  PDUSessionResourceModifyResponseTransferExtIEsExtensionValue; PDUSessionResourceModifyResponseTransferExtIEs;
  ProtocolExtensionContainerPDUSessionResourceModifyResponseTransferExtIEs; PDUSessionResourceModifyResponseTransfer;
  PDUSessionResourceModifyUnsuccessfulTransferExtIEsExtensionValue;
  PDUSessionResourceModifyUnsuccessfulTransferExtIEs;
  ProtocolExtensionContainerPDUSessionResourceModifyUnsuccessfulTransferExtIEs;
  PDUSessionResourceModifyUnsuccessfulTransfer; PDUSessionResourceNotifyReleasedTransferExtIEsExtensionValue;
  PDUSessionResourceNotifyReleasedTransferExtIEs;
  ProtocolExtensionContainerPDUSessionResourceNotifyReleasedTransferExtIEs; PDUSessionResourceNotifyReleasedTransfer;
  QosFlowNotifyItemExtIEsExtensionValue; QosFlowNotifyItemExtIEs; ProtocolExtensionContainerQosFlowNotifyItemExtIEs;
  QosFlowNotifyItem; QosFlowNotifyList; PDUSessionResourceNotifyTransferExtIEsExtensionValue;
  PDUSessionResourceNotifyTransferExtIEs; ProtocolExtensionContainerPDUSessionResourceNotifyTransferExtIEs;
  PDUSessionResourceNotifyTransfer; PDUSessionResourceReleaseCommandTransferExtIEsExtensionValue;
  PDUSessionResourceReleaseCommandTransferExtIEs;
  ProtocolExtensionContainerPDUSessionResourceReleaseCommandTransferExtIEs; PDUSessionResourceReleaseCommandTransfer;
  PDUSessionResourceReleaseResponseTransferExtIEsExtensionValue; PDUSessionResourceReleaseResponseTransferExtIEs;
  ProtocolExtensionContainerPDUSessionResourceReleaseResponseTransferExtIEs;
  PDUSessionResourceReleaseResponseTransfer; UPTransportLayerInformationItemExtIEs;
  ProtocolExtensionContainerUPTransportLayerInformationItemExtIEs; UPTransportLayerInformationItem;
  UPTransportLayerInformationList; PDUSessionType; SecurityIndicationExtIEsExtensionValue; SecurityIndicationExtIEs;
  ProtocolExtensionContainerSecurityIndicationExtIEs; SecurityIndication; QosFlowSetupRequestItemExtIEsExtensionValue;
  QosFlowSetupRequestItemExtIEs; ProtocolExtensionContainerQosFlowSetupRequestItemExtIEs; QosFlowSetupRequestItem;
  QosFlowSetupRequestList; PDUSessionResourceSetupRequestTransferIEsValue; PDUSessionResourceSetupRequestTransferIEs;
  ProtocolIEContainerPDUSessionResourceSetupRequestTransferIEs; PDUSessionResourceSetupRequestTransfer;
  PDUSessionResourceSetupResponseTransferExtIEsExtensionValue; PDUSessionResourceSetupResponseTransferExtIEs;
  ProtocolExtensionContainerPDUSessionResourceSetupResponseTransferExtIEs; PDUSessionResourceSetupResponseTransfer;
  PDUSessionResourceSetupUnsuccessfulTransferExtIEsExtensionValue; PDUSessionResourceSetupUnsuccessfulTransferExtIEs;
  ProtocolExtensionContainerPDUSessionResourceSetupUnsuccessfulTransferExtIEs;
  PDUSessionResourceSetupUnsuccessfulTransfer; PathSwitchRequestAcknowledgeTransferExtIEsExtensionValue;
  PathSwitchRequestAcknowledgeTransferExtIEs; ProtocolExtensionContainerPathSwitchRequestAcknowledgeTransferExtIEs;
  PathSwitchRequestAcknowledgeTransfer; PathSwitchRequestSetupFailedTransferExtIEsExtensionValue;
  PathSwitchRequestSetupFailedTransferExtIEs; ProtocolExtensionContainerPathSwitchRequestSetupFailedTransferExtIEs;
  PathSwitchRequestSetupFailedTransfer; UserPlaneSecurityInformationExtIEsExtensionValue;
  UserPlaneSecurityInformationExtIEs; ProtocolExtensionContainerUserPlaneSecurityInformationExtIEs;
  UserPlaneSecurityInformation; QosFlowAcceptedItemExtIEsExtensionValue; QosFlowAcceptedItemExtIEs;
  ProtocolExtensionContainerQosFlowAcceptedItemExtIEs; QosFlowAcceptedItem; QosFlowAcceptedList;
  PathSwitchRequestTransferExtIEsExtensionValue; PathSwitchRequestTransferExtIEs;
  ProtocolExtensionContainerPathSwitchRequestTransferExtIEs; PathSwitchRequestTransfer;
  PathSwitchRequestUnsuccessfulTransferExtIEsExtensionValue; PathSwitchRequestUnsuccessfulTransferExtIEs;
  ProtocolExtensionContainerPathSwitchRequestUnsuccessfulTransferExtIEs; PathSwitchRequestUnsuccessfulTransfer;
  Presence; QosFlowSetupResponseItemSUResExtIEsExtensionValue; QosFlowSetupResponseItemSUResExtIEs;
  ProtocolExtensionContainerQosFlowSetupResponseItemSUResExtIEs;
  SourceNGRANNodeToTargetNGRANNodeTransparentContainerExtIEsExtensionValue;
  SourceNGRANNodeToTargetNGRANNodeTransparentContainerExtIEs;
  ProtocolExtensionContainerSourceNGRANNodeToTargetNGRANNodeTransparentContainerExtIEs;
  TargetNGRANNodeToSourceNGRANNodeTransparentContainerExtIEsExtensionValue;
  TargetNGRANNodeToSourceNGRANNodeTransparentContainerExtIEs;
  ProtocolExtensionContainerTargetNGRANNodeToSourceNGRANNodeTransparentContainerExtIEs; AMFPagingTargetExtIEsValue;
  AMFPagingTargetExtIEs; BroadcastCancelledAreaListExtIEsValue; BroadcastCancelledAreaListExtIEs;
  BroadcastCompletedAreaListExtIEsValue; BroadcastCompletedAreaListExtIEs; CauseExtIEsValue; CauseExtIEs;
  CellIDListForRestartExtIEsValue; CellIDListForRestartExtIEs; CPTransportLayerInformationExtIEsValue;
  CPTransportLayerInformationExtIEs; DRBStatusDLExtIEsValue; DRBStatusDLExtIEs; DRBStatusULExtIEsValue;
  DRBStatusULExtIEs; GlobalRANNodeIDExtIEsValue; GlobalRANNodeIDExtIEs; GNBIDExtIEsValue; GNBIDExtIEs;
  LastVisitedCellInformationExtIEsValue; LastVisitedCellInformationExtIEs; N3IWFIDExtIEsValue; N3IWFIDExtIEs;
  NgENBIDExtIEsValue; NgENBIDExtIEs; NGRANCGIExtIEsValue; NGRANCGIExtIEs; OverloadResponseExtIEsValue;
  OverloadResponseExtIEs; PWSFailedCellIDListExtIEsValue; PWSFailedCellIDListExtIEs; QosCharacteristicsExtIEsValue;
  QosCharacteristicsExtIEs; ResetTypeExtIEsValue; ResetTypeExtIEs; SONInformationExtIEsValue; SONInformationExtIEs;
  TargetIDExtIEsValue; TargetIDExtIEs; UEIdentityIndexValueExtIEsValue; UEIdentityIndexValueExtIEs;
  UENGAPIDsExtIEsValue; UENGAPIDsExtIEs; UEPagingIdentityExtIEsValue; UEPagingIdentityExtIEs;
  UPTNLInformationExtIEsValue; UPTNLInformationExtIEs; UPTransportLayerInformationExtIEsValue;
  UPTransportLayerInformationExtIEs; UserLocationInformationExtIEsValue; UserLocationInformationExtIEs;
  WarningAreaListExtIEsValue; WarningAreaListExtIEs; QosFlowSetupResponseItemSURes; QosFlowSetupResponseListSURes;
  RRCContainer; ReferenceID; UEHistoryInformation; SourceNGRANNodeToTargetNGRANNodeTransparentContainer;
  TargetNGRANNodeToSourceNGRANNodeTransparentContainer].
