(* ===== verification/NgapOctets.v ===== *)
(** * lib/ngap: the octets of NGAP messages

    [Encoder] and [Decoder] are lib/aper's traversal at the type [NGAPPDU].
    Which fields of the types no value fits is found by looking at every tag.
    What every encoded value and its parts must be is shown by following the
    writer into them; what happens to a name with a wrong tag, and what an
    ill-formed integer does to the reader, on values of these types. *)

From S2P Require Import Prelude GoStrings AperBits AperPrim AperCodec AperField AperFieldProps NgapTypes.

#[local] Open Scope Z_scope.
#[local] Open Scope go_scope.

(** ** ngap.go *)

Definition pdu_params : string := "valueExt,valueLB:0,valueUB:2".
Definition Encoder (pdu : value) : outcome (list Z) := MarshalWithParams pdu NGAPPDU pdu_params.
Definition Decoder (b : list Z) : outcome (value * option string) := UnmarshalWithParams b NGAPPDU pdu_params.

(** What Go calls a message: a value of type [NGAPPDU] within its constraints. *)
Definition pdu_ok (pdu : value) : bool := fits pdu NGAPPDU (parseFieldParameters pdu_params).

(** Every bit string is of whole octets, so that no bit is unused. *)
Fixpoint whole (v : value) : bool :=
  match v with
  | VBits bs n => (n =? 8 * blen bs) && bool_decide (bytes_ok bs)
  | VPtr v => whole v
  | VSlice vs | VStruct vs => forallb whole vs
  | _ => true
  end.
Lemma same_whole v v' : same v v' → whole v = true → v' = v.
Proof.
  assert (∀ vs vs', Forall (λ v, ∀ v', same v v' → whole v = true → v' = v) vs → Forall2 same vs vs' → forallb whole vs = true → vs' = vs) as Hall.
  { intros vs vs' IH H. induction H as [|v0 v1 vs vs' Hv _ IHl]; [done|]. apply Forall_cons in IH as [IH0 IH].
    cbn [forallb]. intros [H1 H2]%andb_true_iff. by rewrite (IH0 _ Hv H1), (IHl IH H2). }
  revert v'. induction v as [| | | | |bs n| |v IH|vs IH|vs IH] using value_ind'; intros v' Hs Hn; inversion Hs; subst; try done;
    cbn [whole] in Hn; f_equal; eauto.
  apply andb_true_iff in Hn as [Hn%Z.eqb_eq Hb%bool_decide_eq_true]. match goal with H : bits_read _ _ _ |- _ => destruct H as (_&Hb'&Hl&Hbits) end.
  cbn [fst] in *. rewrite !take_ge in Hbits by (rewrite bits_of_length; unfold blen in Hn; lia). by apply bits_of_inj.
Qed.

(** A message within the constraints of its type is encoded without an
    error, and the octets are decoded to the same message, without an error (to
    the very message when its bit strings fill their octets), which is encoded
    to the same octets again. *)
Theorem ngap_roundtrip pdu : pdu_ok pdu = true →
  ∃ bytes, Encoder pdu = Ret bytes ∧ bytes_ok bytes ∧
    (sized bytes → ∃ pdu', same pdu pdu' ∧ (whole pdu = true → pdu' = pdu) ∧
      Decoder bytes = Ret (pdu', None) ∧ Encoder pdu' = Ret bytes).
Proof.
  intros H. destruct (marshalled_back pdu NGAPPDU pdu_params H) as (bytes&E&Hb&D). exists bytes. split; [done|]. split; [done|].
  intros Hs. destruct (D Hs) as (v'&Hv'&Ed). exists v'. split; [done|]. split; [by apply same_whole|]. split; [done|].
  unfold Encoder, MarshalWithParams in *. by rewrite (all_written pdu v').
Qed.

(** The octets of an NG Setup Request. *)
Definition setup_octets : list Z :=
  [0x00; 0x15; 0x00; 0x35; 0x00; 0x00; 0x04; 0x00; 0x1b; 0x00; 0x08; 0x00; 0x02; 0xf8; 0x39; 0x10; 0x00; 0x00; 0x01; 0x00; 0x52; 0x40;
   0x09; 0x03; 0x00; 0x66; 0x72; 0x65; 0x65; 0x35; 0x67; 0x63; 0x00; 0x66; 0x00; 0x10; 0x00; 0x00; 0x00; 0x00; 0x01; 0x00; 0x02; 0xf8;
   0x39; 0x00; 0x00; 0x10; 0x08; 0x01; 0x02; 0x03; 0x00; 0x15; 0x40; 0x01; 0x40].
Lemma ngap_roundtrip_witness :
  let pdu := match Decoder setup_octets with Ret (v, None) => v | _ => VNil end in
  pdu_ok pdu = true ∧ Encoder pdu = Ret setup_octets ∧ ∃ pdu', same pdu pdu' ∧ Decoder setup_octets = Ret (pdu', None).
Proof.
  set (pdu := match Decoder setup_octets with Ret (v, None) => v | _ => VNil end). cbv zeta.
  assert (pdu_ok pdu = true) as H by (vm_compute; reflexivity). split; [exact H|].
  destruct (ngap_roundtrip pdu H) as (bytes&E&_&D). assert (bytes = setup_octets) as ->.
  { assert (Encoder pdu = Ret setup_octets) as E' by (vm_compute; reflexivity). rewrite E' in E. by injection E as <-. }
  split; [exact E|]. destruct (D ltac:(vm_compute; reflexivity)) as (pdu'&Hs&_&Ed&_).
  exists pdu'. split; [exact Hs|exact Ed].
Defined.

(** ** The tags of ngapType *)

(** What every value of a type and tag that fits tells of them. *)
Fixpoint tag_ok (t : gotype) (p : fieldParameters) : bool :=
  let se := sizeExtensible p in let ve := valueExtensible p in
  match t with
  | TPtr t => tag_ok t p
  | TBool => negb se && negb ve
  | TInt _ => negb se && (ve || not_one (valueLowerBound p) (valueUpperBound p))
  | TEnumerated =>
    negb se && bool_decide (valueLowerBound p = Some 0) &&
    match valueUpperBound p with Some ub => (ub <? 65536) && (ve || (0 <? ub)) | None => false end
  | TString | TBitString => negb ve
  | TOctetString => true
  | TSlice _ => match sizeUpperBound p with Some ub => default 0 (sizeLowerBound p) <=? ub | None => negb se end
  | TStruct _ fs =>
    negb se && if is_choice fs then openType p || match valueUpperBound p with Some ub => ub <? 65536 | None => false end
               else (0 <? blen fs) && (length (List.filter optional (tags fs)) <=? 64)%nat
  | TObjectIdentifier | TOther => false
  end.

Lemma fits_tag_ok v t p : fits v t p = true → tag_ok t p = true.
Proof.
  revert t p. induction v as [b|z|z|s|s|bs n| |v IH|vs _|vs _] using value_ind'; intros t p H; destruct t; try done; cbn [fits tag_ok] in *.
  - apply andb_true_iff in H as [[[Hs _]%andb_true_iff _]%andb_true_iff Hn]. by rewrite Hs, Hn.
  - destruct (valueUpperBound p); [|by rewrite andb_false_r in H]. apply andb_true_iff in H as [Hs H].
    apply andb_true_iff in H as [[_ H1]%andb_true_iff H2]. by rewrite Hs, H1, H2.
  - by apply andb_true_iff in H as [Hv _].
  - by apply andb_true_iff in H as [[Hv _]%andb_true_iff _].
  - by apply IH.
  - apply andb_true_iff in H as [[Hc%bool_decide_eq_true _]%andb_true_iff _]. destruct Hc as (Hlb&Hlb'&Hc).
    destruct (sizeUpperBound p); [apply Z.leb_le; lia|by destruct Hc as [-> _]].
  - apply andb_true_iff in H as [Hs H]. rewrite Hs. destruct (is_choice fs) eqn:Ec; [|by apply andb_true_iff in H as [H _]].
    destruct (fits_choice_inv _ _ _ H) as (f0&fs'&j&f&v&_&_&_&_&_&_&Hp). destruct (openType p); [done|].
    destruct Hp as (ub&->&_&Hub). by apply Z.ltb_lt.
Qed.


(** The fields of a struct that are encoded. *)
Definition payload (fs : list (string * gotype * string)) := if is_choice fs then drop 1 fs else fs.

(** Struct and field: extension alternatives, which are empty structs; an
    extensible size of a struct; a CHOICE or ENUMERATED without bounds; an
    object identifier. *)
Definition unusable (struct field : string) : bool :=
  (field =? "ChoiceExtensions")%string ||
  existsb (λ sf, (sf.1 =? struct)%string && (sf.2 =? field)%string)
    [("ServedGUAMIItem", "BackupAMFName"); ("UnavailableGUAMIItem", "BackupAMFName");
     ("AssociatedQosFlowItem", "QosFlowMappingIndication"); ("PrivateIEID", "Global"); ("PrivateMessageIEs", "Id");
     ("UPTransportLayerInformationItem", "NGUUPTNLInformation")]%string.

Definition struct_ok (t : gotype) : bool :=
  match t with
  | TStruct name fs =>
    forallb (λ f, exported f.1.1 && Bool.eqb (tag_ok f.1.2 (parseFieldParameters f.2)) (negb (unusable name f.1.1))) (payload fs)
  | _ => false
  end.
Lemma ngap_structs_ok : forallb struct_ok ngap_types = true.
Proof. vm_compute. reflexivity. Qed.

(** Of all the fields of all the message types, exactly the unusable ones
    have tags that their types do not go with, and no value fits these. *)
Lemma ngap_tags name fs field t tag : In (TStruct name fs) ngap_types → In (field, t, tag) (payload fs) →
  tag_ok t (parseFieldParameters tag) = negb (unusable name field) ∧
  (unusable name field = true → ∀ v, fits v t (parseFieldParameters tag) = false).
Proof.
  intros Ht Hf. pose proof (proj1 (forallb_forall _ _) ngap_structs_ok _ Ht) as Hs. cbn [struct_ok] in Hs.
  pose proof (proj1 (forallb_forall _ _) Hs _ Hf) as [_ E%Bool.eqb_prop]%andb_true_iff. cbn [fst snd] in E. split; [done|].
  intros Hu v. rewrite Hu in E. destruct (fits v t _) eqn:Ef; [|done]. apply fits_tag_ok in Ef. by rewrite E in Ef.
Qed.

(** ** What an encoded value consists of *)

(** The fields before the one with this index. *)
Definition fields_before (i : nat) (fs : list (string * gotype * string)) (vs : list value) : list (string * gotype * value) :=
  zip_with (λ f v, (f.1, v)) (take i fs) (take i vs).

(** The values that a value of these types comprises, each with its type and
    parameters: what pointers point at, the elements of slices, the fields of a
    SEQUENCE but for optional ones that are nil, the alternative of a CHOICE. *)
Inductive comprises (types : list gotype) : value → gotype → fieldParameters → value → gotype → fieldParameters → Prop :=
  | part_self v t p : comprises types v t p v t p
  | part_pointer v t p v' t' p' : comprises types v t p v' t' p' → comprises types (VPtr v) (TPtr t) p v' t' p'
  | part_element vs v t p v' t' p' : In v vs → comprises types v t (element_params p) v' t' p' → comprises types (VSlice vs) (TSlice t) p v' t' p'
  | part_field name fs vs p i n t tag v p1 v' t' p' : In (TStruct name fs) types → is_choice fs = false →
      fs !! i = Some (n, t, tag) → vs !! i = Some v → optional (parseFieldParameters tag) && is_nil v = false →
      resolve (fields_before i fs vs) (parseFieldParameters tag) = Ret p1 → comprises types v t p1 v' t' p' →
      comprises types (VStruct vs) (TStruct name fs) p v' t' p'
  | part_alternative name fs vs p z n t tag v v' t' p' : In (TStruct name fs) types → is_choice fs = true →
      vs !! 0%nat = Some (VInt z) → fs !! Z.to_nat z = Some (n, t, tag) → vs !! Z.to_nat z = Some v →
      comprises types v t (parseFieldParameters tag) v' t' p' → comprises types (VStruct vs) (TStruct name fs) p v' t' p'.

(** What the encoder cannot do without. *)
Definition bounded (v : value) (t : gotype) (p : fieldParameters) : Prop :=
  match t with
  | TPtr _ => v ≠ VNil
  | TEnumerated => ∃ z lb ub, v = VEnum z ∧ valueLowerBound p = Some lb ∧ valueUpperBound p = Some ub ∧ lb ≤ s64 z ≤ ub
  | TStruct _ fs => is_choice fs = true → openType p = false → ∃ ub, valueUpperBound p = Some ub ∧ 0 ≤ ub
  | TObjectIdentifier | TOther => False
  | _ => True
  end.

Definition struct_fields_ok (t : gotype) : bool :=
  match t with
  | TStruct _ fs => if is_choice fs then forallb (λ f, exported f.1.1 && negb (optional (parseFieldParameters f.2))) fs
      else forallb (λ f, exported f.1.1 && (negb (optional (parseFieldParameters f.2)) || nilable f.1.2)) fs &&
        (length (List.filter optional (tags fs)) <=? 64)%nat
  | _ => false
  end.
Lemma ngap_fields_ok : forallb struct_fields_ok ngap_types = true.
Proof. vm_compute. reflexivity. Qed.

Lemma scan_length b fs vs c n r : scan_fields b fs vs c n = Ret r → length vs = length fs.
Proof.
  revert vs c n r. induction fs as [|[[name t] tag] fs IH]; intros [|v vs] c n r E; try done. cbn [scan_fields] in E.
  destruct (negb (exported name)); [done|]. apply bind_inv in E as ([c' n']&_&E). apply bind_inv in E as ([[ps c''] n'']&E&_).
  cbn [length]. f_equal. by eapply IH.
Qed.

Lemma make_fields_each fs vs before l pd pd' : length vs = length fs →
  let pl := presence (tags fs) vs in (length (l ++ pl) ≤ 64)%nat →
  make_fields before fs (tags fs) vs (List.map makeField vs) (Z.of_nat (length pl)) (bits_val (l ++ pl)) pd = Ret pd' →
  ∀ i n t tag v p1, fs !! i = Some (n, t, tag) → vs !! i = Some v → optional (parseFieldParameters tag) && is_nil v = false →
    resolve (before ++ fields_before i fs vs) (parseFieldParameters tag) = Ret p1 → ∃ pd1 pd2, makeField v t p1 pd1 = Ret pd2.
Proof.
  revert vs before l pd. induction fs as [|[[name ty] tg] fs IH]; intros [|v0 vs] before l pd Hlen pl Hl E i n t tag v p1 Ef Ev Ho Er; try done.
  injection Hlen as Hlen. unfold pl in *. change (tags ((name, ty, tg) :: fs)) with (parseFieldParameters tg :: tags fs) in *.
  cbn [presence] in *. rewrite (make_fields_step before name ty tg fs v0 vs l pd Hl) in E. cbv zeta in E. rewrite app_assoc in Hl, E.
  destruct i as [|i].
  - cbn in Ef, Ev. injection Ef as -> -> ->. injection Ev as ->. rewrite Ho in E. cbn in Er. rewrite app_nil_r in Er.
    rewrite Er in E. cbn [mbind outcome_mbind] in E. apply bind_inv in E as (pd2&E&_). by exists pd, pd2.
  - assert (∃ pd0, make_fields (before ++ [(name, ty, v0)]) fs (tags fs) vs (List.map makeField vs) (Z.of_nat (length (presence (tags fs) vs)))
      (bits_val ((l ++ (if optional (parseFieldParameters tg) then [negb (is_nil v0)] else [])) ++ presence (tags fs) vs)) pd0 = Ret pd') as [pd0 E0].
    { destruct (optional _ && is_nil v0); [by exists pd|]. apply bind_inv in E as (p0&_&E). apply bind_inv in E as (pd0&_&E). by exists pd0. }
    eapply (IH vs (before ++ [(name, ty, v0)]) _ pd0 Hlen Hl E0 i n t tag v p1 Ef Ev Ho). by rewrite <- app_assoc.
Qed.

Lemma make_elements_each vs t p pd pd' : make_elements t p (List.map makeField vs) pd = Ret pd' →
  ∀ v, In v vs → ∃ pd1 pd2, makeField v t p pd1 = Ret pd2.
Proof.
  revert pd. induction vs as [|v0 vs IH]; intros pd E v Hv; [done|]. cbn [List.map make_elements] in E.
  apply bind_inv in E as (pd1&E1&E). destruct Hv as [->|Hv]; [by exists pd, pd1|]. by eapply IH.
Qed.

Lemma struct_encoded name fs vs p pd pd' : In (TStruct name fs) ngap_types → makeField (VStruct vs) (TStruct name fs) p pd = Ret pd' →
  (is_choice fs = false → ∀ i n t tag v p1, fs !! i = Some (n, t, tag) → vs !! i = Some v →
    optional (parseFieldParameters tag) && is_nil v = false → resolve (fields_before i fs vs) (parseFieldParameters tag) = Ret p1 →
    ∃ pd1 pd2, makeField v t p1 pd1 = Ret pd2) ∧
  (is_choice fs = true → ∀ z n t tag v, vs !! 0%nat = Some (VInt z) → fs !! Z.to_nat z = Some (n, t, tag) → vs !! Z.to_nat z = Some v →
    ∃ pd1 pd2, makeField v t (parseFieldParameters tag) pd1 = Ret pd2).
Proof.
  intros Ht E. pose proof (proj1 (forallb_forall _ _) ngap_fields_ok _ Ht) as Hok. cbn [struct_fields_ok makeField] in Hok, E.
  unfold make_struct in E. apply bind_inv in E as (pd1&_&E). apply bind_inv in E as ([[ps c] b]&Es&E). apply bind_inv in E as (pd2&_&E).
  pose proof (scan_length _ _ _ _ _ _ Es) as Hlen. split; intros Hc; rewrite Hc in Hok, E, Es; cbn [negb] in Es.
  - apply andb_true_iff in Hok as [Hok Hn%Nat.leb_le].
    assert (length (presence (tags fs) vs) ≤ 64)%nat as Hp by (rewrite presence_length; [done|by unfold tags; rewrite List.length_map]).
    change (scan_fields true fs vs (Z.of_nat (length (@nil bool))) (bits_val []) = Ret (ps, c, b)) in Es.
    rewrite (scan_spec fs vs [] Hok Hlen Hp) in Es. injection Es as <- <- <-.
    exact (make_fields_each fs vs [] [] pd2 pd' Hlen Hp E).
  - destruct (scan_choice fs vs Hlen Hok) as [Es' _]. rewrite Es' in Es. injection Es as <- <- <-.
    intros z n t tag v Ez Ef Ev. destruct vs as [|v0 vs]; [done|]. cbn in Ez. injection Ez as ->. unfold make_choice in E. cbn [present_of mbind outcome_mbind] in E.
    destruct (Z.eqb_spec z 0) as [|Hz]; [done|]. destruct (z >=? blen fs); [done|].
    assert (0 ≤ z ∨ z < 0) as [Hz0|Hz0] by lia; [|exfalso].
    2: { unfold rd in E. rewrite (proj2 (Z.ltb_lt z 0)) in E by done. destruct (openType p).
         - destruct (referenceFieldValue p); done.
         - by apply bind_inv in E as (?&_&?). }
    assert (rd (tags fs) z = Ret (parseFieldParameters tag)) as Rp.
    { unfold rd, tags. rewrite (proj2 (Z.ltb_ge z 0)) by done. change (List.map ?f fs) with (f <$> fs). by rewrite list_lookup_fmap, Ef. }
    assert (rd fs z = Ret (n, t, tag)) as Rf by (unfold rd; rewrite (proj2 (Z.ltb_ge z 0)) by done; by rewrite Ef).
    assert (rd (A:=encoder) (List.map makeField (VInt z :: vs)) z = Ret (makeField v)) as Re.
    { unfold rd. rewrite (proj2 (Z.ltb_ge z 0)) by done. change (List.map ?f (VInt z :: vs)) with (f <$> (VInt z :: vs)). by rewrite list_lookup_fmap, Ev. }
    cbn [List.map] in Re, E. rewrite Rp, Rf in E. cbn [mbind outcome_mbind fst snd] in E. rewrite Re in E. destruct (openType p).
    + destruct (referenceFieldValue p); [|done]. cbn [mbind outcome_mbind] in E. destruct (bool_decide _); [|done]. cbn [mbind outcome_mbind fst snd] in E. unfold appendOpenType in E.
      apply bind_inv in E as (o&E&_). by exists (PerRaw [] 0), o.
    + apply bind_inv in E as (pd3&_&E). by exists pd3, pd'.
Qed.

(** What is encoded has all its parts encoded. *)
Lemma part_encoded v t p v' t' p' : comprises ngap_types v t p v' t' p' →
  ∀ pd pd', makeField v t p pd = Ret pd' → ∃ pd1 pd2, makeField v' t' p' pd1 = Ret pd2.
Proof.
  induction 1 as [v t p|v t p v' t' p' _ IH|vs v t p v' t' p' Hv _ IH|name fs vs p i n t tag v p1 v' t' p' Ht Hc Ef Ev Ho Er _ IH
    |name fs vs p z n t tag v v' t' p' Ht Hc Ez Ef Ev _ IH]; intros pd pd' E.
  - by exists pd, pd'.
  - by eapply IH.
  - cbn [makeField] in E. unfold appendSequenceOf in E. apply bind_inv in E as (pd1&_&E).
    destruct (make_elements_each _ _ _ _ _ E v Hv) as (pd2&pd3&E2). by eapply IH.
  - destruct (struct_encoded _ _ _ _ _ _ Ht E) as [Hf _]. destruct (Hf Hc i n t tag v p1 Ef Ev Ho Er) as (pd1&pd2&E1). by eapply IH.
  - destruct (struct_encoded _ _ _ _ _ _ Ht E) as [_ Ha]. destruct (Ha Hc z n t tag v Ez Ef Ev) as (pd1&pd2&E1). by eapply IH.
Qed.

Lemma encoded_bounded v t p pd pd' : makeField v t p pd = Ret pd' → bounded v t p.
Proof.
  destruct t; cbn [bounded]; try done.
  - by destruct v.
  - destruct v as [| |z| | | | | | |]; cbn [makeField]; intros E; try done. unfold appendEnumerated in E.
    destruct (valueLowerBound p) as [lb|]; [|done]. destruct (valueUpperBound p) as [ub|]; [|done].
    destruct (Z.gtb_spec (s64 z) ub); [by destruct (valueExtensible p)|]. destruct (Z.ltb_spec (s64 z) lb); [done|]. by exists z, lb, ub.
  - by destruct v.
  - destruct v; try done. cbn [makeField]. intros E Hc Ho. unfold make_struct in E. apply bind_inv in E as (pd1&_&E).
    apply bind_inv in E as ([[ps c] b]&_&E). apply bind_inv in E as (pd2&_&E). rewrite Hc in E. unfold make_choice in E. rewrite Ho in E.
    apply bind_inv in E as (z&_&E). destruct (z =? 0); [done|]. destruct (_ >=? _); [done|]. apply bind_inv in E as (pd3&E&_).
    unfold appendChoiceIndex in E. destruct (valueUpperBound p) as [ub|]; [|done]. destruct (Z.ltb_spec ub 0); [done|]. by exists ub.
  - by destruct v.
Qed.

Lemma mapping_never_encoded v p pd pd' : makeField v AssociatedQosFlowItem p pd = Ret pd' → ∃ flow ext, v = VStruct [flow; VNil; ext].
Proof.
  intros E. assert (In AssociatedQosFlowItem ngap_types) as Ht by (apply list_elem_of_In, (list_elem_of_lookup_2 _ 213); reflexivity).
  destruct v as [| | | | | | | | |vs]; try done. destruct (struct_encoded _ _ _ _ _ _ Ht E) as [Hf _].
  cbn [makeField AssociatedQosFlowItem] in E. unfold make_struct in E. apply bind_inv in E as (pd1&_&E). apply bind_inv in E as (r&E&_).
  apply scan_length in E. destruct vs as [|flow [|v [|ext [|]]]]; try done. exists flow, ext. do 3 f_equal.
  destruct (is_nil v) eqn:En; [by destruct v|].
  destruct (Hf eq_refl 1%nat "QosFlowMappingIndication"%string (TPtr TEnumerated) "optional"%string v (parseFieldParameters "optional"))
    as (pd2&pd3&E2); [done..|by rewrite En, andb_false_r|reflexivity|].
  destruct v as [| | | | | | |x| |]; try done. by destruct (encoded_bounded x TEnumerated _ _ _ E2) as (z&lb&ub&_&E3&_).
Qed.
Lemma tunnel_never_encoded v p pd pd' : makeField v UPTransportLayerInformationItem p pd ≠ Ret pd'.
Proof.
  intros E. assert (In UPTransportLayerInformationItem ngap_types) as Ht by (apply list_elem_of_In, (list_elem_of_lookup_2 _ 1315); reflexivity).
  destruct v as [| | | | | | | | |vs]; try done. destruct (struct_encoded _ _ _ _ _ _ Ht E) as [Hf _].
  cbn [makeField UPTransportLayerInformationItem] in E. unfold make_struct in E. apply bind_inv in E as (pd1&_&E). apply bind_inv in E as (r&E&_).
  apply scan_length in E. destruct vs as [|v [|ext [|]]]; try done.
  destruct (Hf eq_refl 0%nat "NGUUPTNLInformation"%string UPTransportLayerInformation ""%string v (parseFieldParameters ""))
    as (pd2&pd3&E2); [done..|reflexivity|].
  by destruct (encoded_bounded _ _ _ _ _ E2 eq_refl eq_refl) as (ub&E3&_).
Qed.

(** C27. What a successful encoder call tells of the value, with all that it
    comprises: each ENUMERATED has bounds and is within them, each CHOICE has
    a bound or is in an open type, no object identifier and no nil pointer
    outside an optional field is there.  Hence two parts of NGAP are never
    sent, because their tags have no bounds: the mapping of an associated QoS
    flow, and an item of a list of further tunnels. *)
Theorem ngap_encoded v t s bytes : MarshalWithParams v t s = Ret bytes →
  ∀ v' t' p', comprises ngap_types v t (parseFieldParameters s) v' t' p' → bounded v' t' p' ∧
    (t' = AssociatedQosFlowItem → ∃ flow ext, v' = VStruct [flow; VNil; ext]) ∧ t' ≠ UPTransportLayerInformationItem.
Proof.
  intros E v' t' p' Hp. apply bind_inv in E as (pd&E&_). destruct (part_encoded _ _ _ _ _ _ Hp _ _ E) as (pd1&pd2&E').
  split; [by eapply encoded_bounded|]. split; [intros ->; by eapply mapping_never_encoded|intros ->; by eapply tunnel_never_encoded].
Qed.

(** A list of one associated flow: without a mapping it is encoded, and with
    one it never is. *)
Definition associated (mapping : value) : value := VStruct [VSlice [VStruct [VStruct [VInt 9]; mapping; VNil]]].
Lemma ngap_encoded_witness :
  (∃ bytes, MarshalWithParams (associated VNil) AssociatedQosFlowList "" = Ret bytes) ∧
  ∀ z bytes, MarshalWithParams (associated (VPtr (VEnum z))) AssociatedQosFlowList "" ≠ Ret bytes.
Proof.
  split; [eexists; vm_compute; reflexivity|]. intros z bytes E.
  assert (In AssociatedQosFlowList ngap_types) as Ht by (apply list_elem_of_In, (list_elem_of_lookup_2 _ 214); reflexivity).
  destruct (ngap_encoded _ _ _ _ E (VStruct [VStruct [VInt 9]; VPtr (VEnum z); VNil]) AssociatedQosFlowItem
    (element_params (parseFieldParameters "valueExt,sizeLB:1,sizeUB:64"))) as (_&Hm&_).
  - eapply (part_field _ _ _ _ _ 0%nat); [exact Ht|reflexivity..|]. eapply part_element; [left; reflexivity|apply part_self].
  - by destruct (Hm eq_refl) as (?&?&?).
Defined.

(** ** What happens to such fields *)

(** A served GUAMI with the name of its backup AMF. *)
Definition served_guami (backup : value) : value :=
  VStruct [VStruct [VStruct [VOctets [0x02; 0xf8; 0x39]]; VStruct [VBits [0xca] 8]; VStruct [VBits [0xfe; 0x00] 10]; VStruct [VBits [0x04] 6]; VNil];
    backup; VNil].
Definition backup_name : value := VPtr (VStruct [VString [65; 77; 70]]).

(** The tag of the backup AMF's name makes the reader take an extension bit
    that the writer does not write: what is encoded is not decoded, while
    without the name it is. *)
Theorem backup_amf_name_lost :
  (∃ bytes, MarshalWithParams (served_guami backup_name) ServedGUAMIItem "valueExt" = Ret bytes ∧
     UnmarshalWithParams bytes ServedGUAMIItem "valueExt" =
       Ret (served_guami (VPtr (VStruct [VString []])), Some "PER data out of range"%string)) ∧
  (∃ bytes, MarshalWithParams (served_guami VNil) ServedGUAMIItem "valueExt" = Ret bytes ∧
     UnmarshalWithParams bytes ServedGUAMIItem "valueExt" = Ret (served_guami VNil, None)).
Proof. split; eexists; (split; [vm_compute; reflexivity|vm_compute; reflexivity]). Qed.

(** ** An integer without octets *)

Definition int (z : Z) : value := VStruct [VInt z].
Definition enum (z : Z) : value := VStruct [VEnum z].

(** The transfer of a PDU Session Resource Setup Request with one dynamic QoS
    flow, averaged over a window of 5000 ms. *)
Definition window_transfer (window : value) : value :=
  let dynamic := VStruct [int 1; int 10; VStruct [VInt 1; VInt 2; VNil]; VNil; VNil; VPtr window; VNil; VNil] in
  let qos := VStruct [VStruct [VInt 2; VNil; VPtr dynamic; VNil]; VStruct [int 1; enum 0; enum 0; VNil]; VNil; VNil; VNil; VNil] in
  VStruct [VStruct [VSlice [VStruct [int 136; enum 0;
    VStruct [VInt 8; VNil; VNil; VNil; VNil; VNil; VNil; VNil; VPtr (VStruct [VSlice [VStruct [int 1; qos; VNil; VNil]]])]]]]].
Definition transfer_octets (window : list Z) : list Z :=
  [0; 0; 1; 0; 136; 0; 14; 0; 1; 2; 32; 0; 0; 10; 2; 40] ++ window ++ [0; 0].

(** The octet count of a window above 4095 ms is believed: with two octets
    the transfer is decoded to what was encoded; with none, the reader indexes
    an empty slice and panics. *)
Theorem empty_integer_panics :
  MarshalWithParams (window_transfer (int 5000)) PDUSessionResourceSetupRequestTransfer "valueExt" =
    Ret (transfer_octets [2; 0x13; 0x88]) ∧
  UnmarshalWithParams (transfer_octets [2; 0x13; 0x88]) PDUSessionResourceSetupRequestTransfer "valueExt" =
    Ret (window_transfer (int 5000), None) ∧
  UnmarshalWithParams ([0; 0; 1; 0; 136; 0; 12; 0; 1; 2; 32; 0; 0; 10; 2; 40; 0; 0; 0]) PDUSessionResourceSetupRequestTransfer "valueExt" =
    Panic.
Proof. split; [|split]; vm_compute; reflexivity. Qed.
