(* ===== verification/UeContext.v ===== *)
(** * internal/control_test_engine/ue/context: the UE

    The UE's state as records with the fields of context.go (an interface or
    socket is a number that names it; the callback OnRedirection is left out),
    its setters and getters, the subscriber's identity, the NAS keys and 5G
    AKA.  Strings hold ASCII characters.  [range m] is the order in which Go
    happens to visit a map. *)

From S2P Require Import Prelude GoStrings Aes Milenage NasSecurity Kdf.

#[local] Open Scope Z_scope.
#[local] Open Scope go_scope.

Definition MM5G_NULL : Z := 0x00.
Definition MM5G_DEREGISTERED : Z := 0x01.
Definition MM5G_REGISTERED_INITIATED : Z := 0x02.
Definition MM5G_REGISTERED : Z := 0x03.
Definition MM5G_SERVICE_REQ_INIT : Z := 0x04.
Definition MM5G_DEREGISTERED_INIT : Z := 0x05.

Definition SM5G_PDU_SESSION_INACTIVE : Z := 0x06.
Definition SM5G_PDU_SESSION_ACTIVE_PENDING : Z := 0x07.
Definition SM5G_PDU_SESSION_ACTIVE : Z := 0x08.

(** ** The UE's data *)

Record PDUSession := MkSess {
  Id : Z;
  ueIP : string;
  ueGnbIP : list Z;
  Dnn : string;
  PduSessionType : string;
  Sst : Z;
  Sd : string;
  gatewayIP : list Z;
  tun : option Z;
  routeTun : list Z;
  ruleTun : list Z;
  State : Z;
  Error : string;
  RequestedAt : Z;
}.

Definition with_ueIP (v : string) (r : PDUSession) : PDUSession :=
  MkSess (Id r) v (ueGnbIP r) (Dnn r) (PduSessionType r) (Sst r) (Sd r) (gatewayIP r) (tun r)
    (routeTun r) (ruleTun r) (State r) (Error r) (RequestedAt r).
Definition with_ueGnbIP (v : list Z) (r : PDUSession) : PDUSession :=
  MkSess (Id r) (ueIP r) v (Dnn r) (PduSessionType r) (Sst r) (Sd r) (gatewayIP r) (tun r) (routeTun
    r) (ruleTun r) (State r) (Error r) (RequestedAt r).
Definition with_Dnn (v : string) (r : PDUSession) : PDUSession :=
  MkSess (Id r) (ueIP r) (ueGnbIP r) v (PduSessionType r) (Sst r) (Sd r) (gatewayIP r) (tun r)
    (routeTun r) (ruleTun r) (State r) (Error r) (RequestedAt r).
Definition with_PduSessionType (v : string) (r : PDUSession) : PDUSession :=
  MkSess (Id r) (ueIP r) (ueGnbIP r) (Dnn r) v (Sst r) (Sd r) (gatewayIP r) (tun r) (routeTun r)
    (ruleTun r) (State r) (Error r) (RequestedAt r).
Definition with_Sst (v : Z) (r : PDUSession) : PDUSession :=
  MkSess (Id r) (ueIP r) (ueGnbIP r) (Dnn r) (PduSessionType r) v (Sd r) (gatewayIP r) (tun r)
    (routeTun r) (ruleTun r) (State r) (Error r) (RequestedAt r).
Definition with_Sd (v : string) (r : PDUSession) : PDUSession :=
  MkSess (Id r) (ueIP r) (ueGnbIP r) (Dnn r) (PduSessionType r) (Sst r) v (gatewayIP r) (tun r)
    (routeTun r) (ruleTun r) (State r) (Error r) (RequestedAt r).
Definition with_tun (v : option Z) (r : PDUSession) : PDUSession :=
  MkSess (Id r) (ueIP r) (ueGnbIP r) (Dnn r) (PduSessionType r) (Sst r) (Sd r) (gatewayIP r) v
    (routeTun r) (ruleTun r) (State r) (Error r) (RequestedAt r).
Definition with_routeTun (v : list Z) (r : PDUSession) : PDUSession :=
  MkSess (Id r) (ueIP r) (ueGnbIP r) (Dnn r) (PduSessionType r) (Sst r) (Sd r) (gatewayIP r) (tun r)
    v (ruleTun r) (State r) (Error r) (RequestedAt r).
Definition with_ruleTun (v : list Z) (r : PDUSession) : PDUSession :=
  MkSess (Id r) (ueIP r) (ueGnbIP r) (Dnn r) (PduSessionType r) (Sst r) (Sd r) (gatewayIP r) (tun r)
    (routeTun r) v (State r) (Error r) (RequestedAt r).
Definition with_State (v : Z) (r : PDUSession) : PDUSession :=
  MkSess (Id r) (ueIP r) (ueGnbIP r) (Dnn r) (PduSessionType r) (Sst r) (Sd r) (gatewayIP r) (tun r)
    (routeTun r) (ruleTun r) v (Error r) (RequestedAt r).
Definition with_Error (v : string) (r : PDUSession) : PDUSession :=
  MkSess (Id r) (ueIP r) (ueGnbIP r) (Dnn r) (PduSessionType r) (Sst r) (Sd r) (gatewayIP r) (tun r)
    (routeTun r) (ruleTun r) (State r) v (RequestedAt r).
Definition with_RequestedAt (v : Z) (r : PDUSession) : PDUSession :=
  MkSess (Id r) (ueIP r) (ueGnbIP r) (Dnn r) (PduSessionType r) (Sst r) (Sd r) (gatewayIP r) (tun r)
    (routeTun r) (ruleTun r) (State r) (Error r) v.

Record AuthenticationSubscription := MkAuth {
  PermanentKeyValue : string;
  OpcValue : string;
  OpValue : string;
  AuthenticationManagementField : string;
  SequenceNumber : string;
}.

Record SECURITY := MkSec {
  Supi : string;
  Msin : string;
  mcc : string;
  mnc : string;
  ULCount : Z;
  DLCount : Z;
  CipheringAlg : Z;
  IntegrityAlg : Z;
  Snn : string;
  KnasEnc : list Z;
  KnasInt : list Z;
  Kamf : list Z;
  AuthenticationSubs : AuthenticationSubscription;
  Suci : Z * list Z;
  Guti : list Z;
  NgKsi : Z;
}.

Definition with_ULCount (v : Z) (r : SECURITY) : SECURITY :=
  MkSec (Supi r) (Msin r) (mcc r) (mnc r) v (DLCount r) (CipheringAlg r) (IntegrityAlg r) (Snn r)
    (KnasEnc r) (KnasInt r) (Kamf r) (AuthenticationSubs r) (Suci r) (Guti r) (NgKsi r).
Definition with_DLCount (v : Z) (r : SECURITY) : SECURITY :=
  MkSec (Supi r) (Msin r) (mcc r) (mnc r) (ULCount r) v (CipheringAlg r) (IntegrityAlg r) (Snn r)
    (KnasEnc r) (KnasInt r) (Kamf r) (AuthenticationSubs r) (Suci r) (Guti r) (NgKsi r).
Definition with_KnasEnc (v : list Z) (r : SECURITY) : SECURITY :=
  MkSec (Supi r) (Msin r) (mcc r) (mnc r) (ULCount r) (DLCount r) (CipheringAlg r) (IntegrityAlg r)
    (Snn r) v (KnasInt r) (Kamf r) (AuthenticationSubs r) (Suci r) (Guti r) (NgKsi r).
Definition with_KnasInt (v : list Z) (r : SECURITY) : SECURITY :=
  MkSec (Supi r) (Msin r) (mcc r) (mnc r) (ULCount r) (DLCount r) (CipheringAlg r) (IntegrityAlg r)
    (Snn r) (KnasEnc r) v (Kamf r) (AuthenticationSubs r) (Suci r) (Guti r) (NgKsi r).
Definition with_Kamf (v : list Z) (r : SECURITY) : SECURITY :=
  MkSec (Supi r) (Msin r) (mcc r) (mnc r) (ULCount r) (DLCount r) (CipheringAlg r) (IntegrityAlg r)
    (Snn r) (KnasEnc r) (KnasInt r) v (AuthenticationSubs r) (Suci r) (Guti r) (NgKsi r).
Definition with_AuthenticationSubs (v : AuthenticationSubscription) (r : SECURITY) : SECURITY :=
  MkSec (Supi r) (Msin r) (mcc r) (mnc r) (ULCount r) (DLCount r) (CipheringAlg r) (IntegrityAlg r)
    (Snn r) (KnasEnc r) (KnasInt r) (Kamf r) v (Suci r) (Guti r) (NgKsi r).
Definition with_Guti (v : list Z) (r : SECURITY) : SECURITY :=
  MkSec (Supi r) (Msin r) (mcc r) (mnc r) (ULCount r) (DLCount r) (CipheringAlg r) (IntegrityAlg r)
    (Snn r) (KnasEnc r) (KnasInt r) (Kamf r) (AuthenticationSubs r) (Suci r) v (NgKsi r).
Definition with_NgKsi (v : Z) (r : SECURITY) : SECURITY :=
  MkSec (Supi r) (Msin r) (mcc r) (mnc r) (ULCount r) (DLCount r) (CipheringAlg r) (IntegrityAlg r)
    (Snn r) (KnasEnc r) (KnasInt r) (Kamf r) (AuthenticationSubs r) (Suci r) (Guti r) v.

Record UEContext := MkUe {
  id : Z;
  UeSecurity : SECURITY;
  StateMM : Z;
  StateSM : Z;
  RegistrationType : Z;
  AmfUeNgapId : Z;
  UnixConn : option Z;
  PduSession : PDUSession;
  PduSessions : gmap Z PDUSession;
  amfRegionId : Z;
  amfSetId : Z;
  amfPointer : Z;
  gnbLinkType : string;
  gnbLinkPort : Z;
  gnbControlIp : string;
  gnbSocketPath : string;
  gnbId : string;
  gnbProfileName : string;
  mmErr : string;
  smErr : string;
}.

Definition with_UeSecurity (v : SECURITY) (r : UEContext) : UEContext :=
  MkUe (id r) v (StateMM r) (StateSM r) (RegistrationType r) (AmfUeNgapId r) (UnixConn r)
    (PduSession r) (PduSessions r) (amfRegionId r) (amfSetId r) (amfPointer r) (gnbLinkType r)
    (gnbLinkPort r) (gnbControlIp r) (gnbSocketPath r) (gnbId r) (gnbProfileName r) (mmErr r) (smErr
    r).
Definition with_StateMM (v : Z) (r : UEContext) : UEContext :=
  MkUe (id r) (UeSecurity r) v (StateSM r) (RegistrationType r) (AmfUeNgapId r) (UnixConn r)
    (PduSession r) (PduSessions r) (amfRegionId r) (amfSetId r) (amfPointer r) (gnbLinkType r)
    (gnbLinkPort r) (gnbControlIp r) (gnbSocketPath r) (gnbId r) (gnbProfileName r) (mmErr r) (smErr
    r).
Definition with_StateSM (v : Z) (r : UEContext) : UEContext :=
  MkUe (id r) (UeSecurity r) (StateMM r) v (RegistrationType r) (AmfUeNgapId r) (UnixConn r)
    (PduSession r) (PduSessions r) (amfRegionId r) (amfSetId r) (amfPointer r) (gnbLinkType r)
    (gnbLinkPort r) (gnbControlIp r) (gnbSocketPath r) (gnbId r) (gnbProfileName r) (mmErr r) (smErr
    r).
Definition with_RegistrationType (v : Z) (r : UEContext) : UEContext :=
  MkUe (id r) (UeSecurity r) (StateMM r) (StateSM r) v (AmfUeNgapId r) (UnixConn r) (PduSession r)
    (PduSessions r) (amfRegionId r) (amfSetId r) (amfPointer r) (gnbLinkType r) (gnbLinkPort r)
    (gnbControlIp r) (gnbSocketPath r) (gnbId r) (gnbProfileName r) (mmErr r) (smErr r).
Definition with_AmfUeNgapId (v : Z) (r : UEContext) : UEContext :=
  MkUe (id r) (UeSecurity r) (StateMM r) (StateSM r) (RegistrationType r) v (UnixConn r) (PduSession
    r) (PduSessions r) (amfRegionId r) (amfSetId r) (amfPointer r) (gnbLinkType r) (gnbLinkPort r)
    (gnbControlIp r) (gnbSocketPath r) (gnbId r) (gnbProfileName r) (mmErr r) (smErr r).
Definition with_UnixConn (v : option Z) (r : UEContext) : UEContext :=
  MkUe (id r) (UeSecurity r) (StateMM r) (StateSM r) (RegistrationType r) (AmfUeNgapId r) v
    (PduSession r) (PduSessions r) (amfRegionId r) (amfSetId r) (amfPointer r) (gnbLinkType r)
    (gnbLinkPort r) (gnbControlIp r) (gnbSocketPath r) (gnbId r) (gnbProfileName r) (mmErr r) (smErr
    r).
Definition with_PduSession (v : PDUSession) (r : UEContext) : UEContext :=
  MkUe (id r) (UeSecurity r) (StateMM r) (StateSM r) (RegistrationType r) (AmfUeNgapId r) (UnixConn
    r) v (PduSessions r) (amfRegionId r) (amfSetId r) (amfPointer r) (gnbLinkType r) (gnbLinkPort r)
    (gnbControlIp r) (gnbSocketPath r) (gnbId r) (gnbProfileName r) (mmErr r) (smErr r).
Definition with_PduSessions (v : gmap Z PDUSession) (r : UEContext) : UEContext :=
  MkUe (id r) (UeSecurity r) (StateMM r) (StateSM r) (RegistrationType r) (AmfUeNgapId r) (UnixConn
    r) (PduSession r) v (amfRegionId r) (amfSetId r) (amfPointer r) (gnbLinkType r) (gnbLinkPort r)
    (gnbControlIp r) (gnbSocketPath r) (gnbId r) (gnbProfileName r) (mmErr r) (smErr r).
Definition with_amfRegionId (v : Z) (r : UEContext) : UEContext :=
  MkUe (id r) (UeSecurity r) (StateMM r) (StateSM r) (RegistrationType r) (AmfUeNgapId r) (UnixConn
    r) (PduSession r) (PduSessions r) v (amfSetId r) (amfPointer r) (gnbLinkType r) (gnbLinkPort r)
    (gnbControlIp r) (gnbSocketPath r) (gnbId r) (gnbProfileName r) (mmErr r) (smErr r).
Definition with_amfSetId (v : Z) (r : UEContext) : UEContext :=
  MkUe (id r) (UeSecurity r) (StateMM r) (StateSM r) (RegistrationType r) (AmfUeNgapId r) (UnixConn
    r) (PduSession r) (PduSessions r) (amfRegionId r) v (amfPointer r) (gnbLinkType r) (gnbLinkPort
    r) (gnbControlIp r) (gnbSocketPath r) (gnbId r) (gnbProfileName r) (mmErr r) (smErr r).
Definition with_amfPointer (v : Z) (r : UEContext) : UEContext :=
  MkUe (id r) (UeSecurity r) (StateMM r) (StateSM r) (RegistrationType r) (AmfUeNgapId r) (UnixConn
    r) (PduSession r) (PduSessions r) (amfRegionId r) (amfSetId r) v (gnbLinkType r) (gnbLinkPort r)
    (gnbControlIp r) (gnbSocketPath r) (gnbId r) (gnbProfileName r) (mmErr r) (smErr r).
Definition with_gnbLinkType (v : string) (r : UEContext) : UEContext :=
  MkUe (id r) (UeSecurity r) (StateMM r) (StateSM r) (RegistrationType r) (AmfUeNgapId r) (UnixConn
    r) (PduSession r) (PduSessions r) (amfRegionId r) (amfSetId r) (amfPointer r) v (gnbLinkPort r)
    (gnbControlIp r) (gnbSocketPath r) (gnbId r) (gnbProfileName r) (mmErr r) (smErr r).
Definition with_gnbLinkPort (v : Z) (r : UEContext) : UEContext :=
  MkUe (id r) (UeSecurity r) (StateMM r) (StateSM r) (RegistrationType r) (AmfUeNgapId r) (UnixConn
    r) (PduSession r) (PduSessions r) (amfRegionId r) (amfSetId r) (amfPointer r) (gnbLinkType r) v
    (gnbControlIp r) (gnbSocketPath r) (gnbId r) (gnbProfileName r) (mmErr r) (smErr r).
Definition with_gnbControlIp (v : string) (r : UEContext) : UEContext :=
  MkUe (id r) (UeSecurity r) (StateMM r) (StateSM r) (RegistrationType r) (AmfUeNgapId r) (UnixConn
    r) (PduSession r) (PduSessions r) (amfRegionId r) (amfSetId r) (amfPointer r) (gnbLinkType r)
    (gnbLinkPort r) v (gnbSocketPath r) (gnbId r) (gnbProfileName r) (mmErr r) (smErr r).
Definition with_gnbSocketPath (v : string) (r : UEContext) : UEContext :=
  MkUe (id r) (UeSecurity r) (StateMM r) (StateSM r) (RegistrationType r) (AmfUeNgapId r) (UnixConn
    r) (PduSession r) (PduSessions r) (amfRegionId r) (amfSetId r) (amfPointer r) (gnbLinkType r)
    (gnbLinkPort r) (gnbControlIp r) v (gnbId r) (gnbProfileName r) (mmErr r) (smErr r).
Definition with_gnbId (v : string) (r : UEContext) : UEContext :=
  MkUe (id r) (UeSecurity r) (StateMM r) (StateSM r) (RegistrationType r) (AmfUeNgapId r) (UnixConn
    r) (PduSession r) (PduSessions r) (amfRegionId r) (amfSetId r) (amfPointer r) (gnbLinkType r)
    (gnbLinkPort r) (gnbControlIp r) (gnbSocketPath r) v (gnbProfileName r) (mmErr r) (smErr r).
Definition with_gnbProfileName (v : string) (r : UEContext) : UEContext :=
  MkUe (id r) (UeSecurity r) (StateMM r) (StateSM r) (RegistrationType r) (AmfUeNgapId r) (UnixConn
    r) (PduSession r) (PduSessions r) (amfRegionId r) (amfSetId r) (amfPointer r) (gnbLinkType r)
    (gnbLinkPort r) (gnbControlIp r) (gnbSocketPath r) (gnbId r) v (mmErr r) (smErr r).
Definition with_mmErr (v : string) (r : UEContext) : UEContext :=
  MkUe (id r) (UeSecurity r) (StateMM r) (StateSM r) (RegistrationType r) (AmfUeNgapId r) (UnixConn
    r) (PduSession r) (PduSessions r) (amfRegionId r) (amfSetId r) (amfPointer r) (gnbLinkType r)
    (gnbLinkPort r) (gnbControlIp r) (gnbSocketPath r) (gnbId r) (gnbProfileName r) v (smErr r).
Definition with_smErr (v : string) (r : UEContext) : UEContext :=
  MkUe (id r) (UeSecurity r) (StateMM r) (StateSM r) (RegistrationType r) (AmfUeNgapId r) (UnixConn
    r) (PduSession r) (PduSessions r) (amfRegionId r) (amfSetId r) (amfPointer r) (gnbLinkType r)
    (gnbLinkPort r) (gnbControlIp r) (gnbSocketPath r) (gnbId r) (gnbProfileName r) (mmErr r) v.

(** ** Setters and getters *)

Definition SetMMError (err : string) (ue : UEContext) : UEContext := with_mmErr err ue.
Definition SetSMError (err : string) (ue : UEContext) : UEContext := with_smErr err ue.
Definition SetNgKsi (k : Z) (ue : UEContext) : UEContext := with_UeSecurity (with_NgKsi k (UeSecurity ue)) ue.
Definition SetStateSM_PDU_SESSION_INACTIVE (ue : UEContext) : UEContext := with_StateSM SM5G_PDU_SESSION_INACTIVE ue.
Definition SetStateSM_PDU_SESSION_ACTIVE (ue : UEContext) : UEContext := with_StateSM SM5G_PDU_SESSION_ACTIVE ue.
Definition SetStateSM_PDU_SESSION_PENDING (ue : UEContext) : UEContext := with_StateSM SM5G_PDU_SESSION_ACTIVE_PENDING ue.
Definition SetStateMM_DEREGISTERED_INITIATED (ue : UEContext) : UEContext := with_StateMM MM5G_DEREGISTERED_INIT ue.
Definition SetStateMM_MM5G_SERVICE_REQ_INIT (ue : UEContext) : UEContext := with_StateMM MM5G_SERVICE_REQ_INIT ue.
Definition SetStateMM_REGISTERED_INITIATED (ue : UEContext) : UEContext := with_StateMM MM5G_REGISTERED_INITIATED ue.
Definition SetStateMM_REGISTERED (ue : UEContext) : UEContext := with_StateMM MM5G_REGISTERED ue.
Definition SetStateMM_NULL (ue : UEContext) : UEContext := with_StateMM MM5G_NULL ue.
Definition SetStateMM_DEREGISTERED (ue : UEContext) : UEContext := with_StateMM MM5G_DEREGISTERED ue.
Definition SetUnixConn (conn : option Z) (ue : UEContext) : UEContext := with_UnixConn conn ue.
Definition SetAmfRegionId (v : Z) (ue : UEContext) : UEContext := with_amfRegionId v ue.
Definition SetAmfPointer (v : Z) (ue : UEContext) : UEContext := with_amfPointer v ue.
Definition SetAmfSetId (v : Z) (ue : UEContext) : UEContext := with_amfSetId v ue.
Definition Set5gGuti (guti : list Z) (ue : UEContext) : UEContext := with_UeSecurity (with_Guti guti (UeSecurity ue)) ue.
Definition SetAmfUeId (v : Z) (ue : UEContext) : UEContext := with_AmfUeNgapId v ue.
Definition SetGnbLinkType (v : string) (ue : UEContext) : UEContext := with_gnbLinkType v ue.
Definition SetGnbLinkPort (v : Z) (ue : UEContext) : UEContext := with_gnbLinkPort v ue.
Definition SetGnbControlIp (v : string) (ue : UEContext) : UEContext := with_gnbControlIp v ue.
Definition SetGnbSocketPath (v : string) (ue : UEContext) : UEContext := with_gnbSocketPath v ue.
Definition SetGnbId (v : string) (ue : UEContext) : UEContext := with_gnbId v ue.
Definition SetGnbProfileName (v : string) (ue : UEContext) : UEContext := with_gnbProfileName v ue.
Definition SetRegistrationType (v : Z) (ue : UEContext) : UEContext := with_RegistrationType v ue.
Definition GetRegistrationType (ue : UEContext) : Z :=
  if RegistrationType ue =? 0 then 1 else RegistrationType ue.
Definition GetGnbLinkType (ue : UEContext) : string :=
  if (gnbLinkType ue =? "")%string then "unix" else gnbLinkType ue.
Definition GetGnbLinkPort (ue : UEContext) : Z := if gnbLinkPort ue =? 0 then 9488 else gnbLinkPort ue.
Definition GetGnbControlIp (ue : UEContext) : string :=
  if (gnbControlIp ue =? "")%string then "127.0.0.1" else gnbControlIp ue.
Definition GetGnbSocketPath (ue : UEContext) : string :=
  if (gnbSocketPath ue =? "")%string then "/tmp/gnb.sock" else gnbSocketPath ue.
Definition GetGnbId (ue : UEContext) : string := if (gnbId ue =? "")%string then "000001" else gnbId ue.
Definition GetGnbProfileName (ue : UEContext) : string :=
  if (gnbProfileName ue =? "")%string then "gNB-Default" else gnbProfileName ue.

Definition GetStateMMDesc (state : Z) : string :=
  if state =? MM5G_NULL then "5GMM-NULL"
  else if state =? MM5G_DEREGISTERED then "5GMM-DEREGISTERED"
  else if state =? MM5G_REGISTERED_INITIATED then "5GMM-REGISTERED-INITIATED"
  else if state =? MM5G_REGISTERED then "5GMM-REGISTERED"
  else if state =? MM5G_SERVICE_REQ_INIT then "5GMM-SERVICE-REQ-INIT"
  else if state =? MM5G_DEREGISTERED_INIT then "5GMM-DEREGISTERED-INIT"
  else "UNKNOWN".

Definition GetStateSMDesc (state : Z) : string :=
  if state =? SM5G_PDU_SESSION_INACTIVE then "5GSM-INACTIVE"
  else if state =? SM5G_PDU_SESSION_ACTIVE_PENDING then "5GSM-ACTIVE-PENDING"
  else if state =? SM5G_PDU_SESSION_ACTIVE then "5GSM-ACTIVE"
  else "UNKNOWN".

(** ** PDU sessions *)

Definition gateway : list Z := [127; 0; 0; 2].

(** [var sess PDUSession] *)
Definition zero_session : PDUSession :=
  MkSess 0 "" [] "" "" 0 "" [] None [] [] 0 "" 0.

Section Sessions.
Context (range : gmap Z PDUSession → list (Z * PDUSession)).

(** The session a missing id gets: the first one visited lends its network
    name, type and slice. *)
Definition new_session (pid : Z) (m : gmap Z PDUSession) : PDUSession :=
  let sess := MkSess pid "" [] "" "" 0 "" gateway None [] [] SM5G_PDU_SESSION_INACTIVE "" 0 in
  match range m with
  | (_, defSess) :: _ =>
    with_Sd (Sd defSess) (with_Sst (Sst defSess)
      (with_PduSessionType (PduSessionType defSess) (with_Dnn (Dnn defSess) sess)))
  | [] => sess
  end.

(** The session, which is added to the map when it is missing. *)
Definition GetPduSession (pid : Z) (ue : UEContext) : PDUSession * UEContext :=
  match PduSessions ue !! pid with
  | Some sess => (sess, ue)
  | None => let sess := new_session pid (PduSessions ue) in
            (sess, with_PduSessions (<[pid := sess]> (PduSessions ue)) ue)
  end.

(** An assignment through the pointer GetPduSession returns. *)
Definition update_session (pid : Z) (f : PDUSession → PDUSession) (ue : UEContext) : UEContext :=
  let '(sess, ue) := GetPduSession pid ue in with_PduSessions (<[pid := f sess]> (PduSessions ue)) ue.

Definition SetPduSessionPending (now pid : Z) (ue : UEContext) : UEContext :=
  update_session pid (λ sess, with_Error "" (with_RequestedAt now (with_State SM5G_PDU_SESSION_ACTIVE_PENDING sess)))
    (with_StateSM SM5G_PDU_SESSION_ACTIVE_PENDING ue).

Definition SetIp (pid : Z) (ip : list Z) (ue : UEContext) : UEContext :=
  let b i := default 0 (ip !! i) in
  let v4 := (dec (b 0) +:+ "." +:+ dec (b 1) +:+ "." +:+ dec (b 2) +:+ "." +:+ dec (b 3))%nat in
  let v6 o := ("2001:db8:1::" +:+ hex2 (b (o + 0)) +:+ hex2 (b (o + 1)) +:+ ":" +:+ hex2 (b (o + 2)) +:+ hex2 (b (o + 3))
    +:+ ":" +:+ hex2 (b (o + 4)) +:+ hex2 (b (o + 5)) +:+ ":" +:+ hex2 (b (o + 6)) +:+ hex2 (b (o + 7)))%nat in
  update_session pid (λ sess,
    if (PduSessionType sess =? "IPv6")%string then with_ueIP (v6 0%nat) sess
    else if (PduSessionType sess =? "IPv4v6")%string then with_ueIP (v4 +:+ "," +:+ v6 4%nat) sess
    else with_ueIP v4 sess) ue.

Definition SetGnbIp (pid : Z) (ip : list Z) (ue : UEContext) : UEContext := update_session pid (with_ueGnbIP ip) ue.
Definition SetTunInterface (pid tun : Z) (ue : UEContext) : UEContext := update_session pid (with_tun (Some tun)) ue.
Definition SetTunRoute (pid route : Z) (ue : UEContext) : UEContext :=
  update_session pid (λ sess, with_routeTun (routeTun sess ++ [route]) sess) ue.
Definition SetTunRule (pid rule : Z) (ue : UEContext) : UEContext :=
  update_session pid (λ sess, with_ruleTun (ruleTun sess ++ [rule]) sess) ue.

(** The getters of one session add it as well when it is missing. *)
Definition read_session {A} (pid : Z) (f : PDUSession → A) (ue : UEContext) : A * UEContext :=
  let '(sess, ue) := GetPduSession pid ue in (f sess, ue).
Definition GetIp (pid : Z) (ue : UEContext) : string * UEContext := read_session pid ueIP ue.
Definition GetGatewayIp (pid : Z) (ue : UEContext) : list Z * UEContext := read_session pid gatewayIP ue.
Definition GetGnbIp (pid : Z) (ue : UEContext) : list Z * UEContext := read_session pid ueGnbIP ue.
Definition GetTunInterface (pid : Z) (ue : UEContext) : option Z * UEContext := read_session pid tun ue.
Definition GetTunRoute (pid : Z) (ue : UEContext) : list Z * UEContext := read_session pid routeTun ue.
Definition GetTunRule (pid : Z) (ue : UEContext) : list Z * UEContext := read_session pid ruleTun ue.

Definition GetFirstActiveIP (ue : UEContext) : string :=
  match List.find (λ '(_, sess), negb (ueIP sess =? "")%string) (range (PduSessions ue)) with
  | Some (_, sess) => ueIP sess
  | None => ""
  end.

Definition SetupPduSession (pid : Z) (dnn pduSessionType : string) (sst : Z) (sd : string) (ue : UEContext)
  : UEContext :=
  update_session pid (λ sess,
    let sess := if (dnn =? "")%string then sess else with_Dnn dnn sess in
    let sess := if (pduSessionType =? "")%string then sess else with_PduSessionType pduSessionType sess in
    let sess := if sst =? 0 then sess else with_Sst sst sess in
    if (sd =? "")%string then sess else with_Sd sd sess) ue.

(** What is undone for one session when a connection ends. *)
Inductive undo :=
  LinkDel (tun : Z) | RouteDel (route : Z) | RuleDel (rule : Z) | CloseConn (conn : Z) | Unregister (uid : Z).

Definition session_undo (sess : PDUSession) : list undo :=
  match tun sess with Some t => [LinkDel t] | None => [] end
  ++ (RouteDel <$> routeTun sess) ++ (RuleDel <$> ruleTun sess).
Definition session_cleared (sess : PDUSession) : PDUSession :=
  with_ruleTun [] (with_routeTun [] (with_tun None sess)).

(** The UE and what is undone in the system. *)
Definition Terminate (ue : UEContext) : UEContext * list undo :=
  let acts := Unregister (id ue) :: mjoin ((λ '(_, sess), session_undo sess) <$> range (PduSessions ue)) in
  let ue := with_PduSessions (session_cleared <$> PduSessions ue) ue in
  match UnixConn ue with
  | Some conn => (SetUnixConn None ue, acts ++ [CloseConn conn])
  | None => (ue, acts)
  end.

Definition ReleaseConnection (ue : UEContext) : UEContext * list undo :=
  let acts := mjoin ((λ '(_, sess), session_undo sess) <$> range (PduSessions ue)) in
  (with_PduSessions ((λ sess, with_State SM5G_PDU_SESSION_INACTIVE (session_cleared sess)) <$> PduSessions ue) ue, acts).
End Sessions.

(** The registry of active UEs; the values name the contexts. *)
Definition RegisterUE (uid ue : Z) (active : gmap Z Z) : gmap Z Z := <[uid := ue]> active.
Definition UnregisterUE (uid : Z) (active : gmap Z Z) : gmap Z Z := delete uid active.
Definition GetActiveUE (uid : Z) (active : gmap Z Z) : option Z := active !! uid.

(** ** The subscriber *)

Definition SetAuthSubscription (k opc op amf sqn : string) (ue : UEContext) : UEContext :=
  with_UeSecurity (with_AuthenticationSubs (MkAuth k opc op amf sqn) (UeSecurity ue)) ue.

Definition deriveSNN (mcc mnc : string) : string :=
  if slen mnc =? 2 then "5G:mnc0" +:+ mnc +:+ ".mcc" +:+ mcc +:+ ".3gppnetwork.org"
  else "5G:mnc" +:+ mnc +:+ ".mcc" +:+ mcc +:+ ".3gppnetwork.org".

Definition EncodeUeSuci (msin : string) : outcome (Z * Z * Z * Z * Z) :=
  match hex_decode (reverse msin) with
  | (_, true) => Ret (0, 0, 0, 0, 0)
  | (suci, false) =>
    s0 ← rd suci 0; s1 ← rd suci 1; s2 ← rd suci 2; s3 ← rd suci 3;
    if slen msin =? 8 then Ret (s0, s1, s2, s3, 0) else s4 ← rd suci 4; Ret (s0, s1, s2, s3, s4)
  end.

(** [config.PDUSessionConfig] *)
Record PDUSessionConfig := MkConf { c_Id : Z; c_Dnn : string; c_Type : string; c_Sst : Z; c_Sd : string }.

Definition session_of (pid : Z) (dnn type : string) (sst : Z) (sd : string) : PDUSession :=
  MkSess pid "" [] dnn (if (type =? "")%string then "IPv4" else type) sst sd gateway None [] []
    SM5G_PDU_SESSION_INACTIVE "" 0.

(** Returns the context; the caller registers it.  [ue] is the receiver. *)
Definition NewRanUeContext (msin : string) (cipheringAlg integrityAlg : Z)
    (k opc op amf sqn mcc mnc dnn pduSessionType : string) (sst : Z) (sd : string) (uid : Z)
    (extraSessions : list PDUSessionConfig) (ue : UEContext) : outcome UEContext :=
  '(suciV1, suciV2, suciV3, suciV4, suciV5) ← EncodeUeSuci msin;
  let def := session_of 1 dnn pduSessionType sst sd in
  let sessions := foldl (λ m c,
      if (c_Id c =? 0) || (c_Id c =? 1) then m
      else <[c_Id c := session_of (c_Id c) (c_Dnn c) (c_Type c) (s32 (c_Sst c)) (c_Sd c)]> m)
    {[ 1 := def ]} extraSessions in
  let resu := GetMccAndMncInOctets mcc mnc in
  let sec := UeSecurity ue in
  let suci := if slen msin =? 8
      then (12, [0x01; resu !!! 0%nat; resu !!! 1%nat; resu !!! 2%nat; 0xf0; 0xff; 0x00; 0x00; suciV4; suciV3; suciV2; suciV1])
    else if slen msin =? 10
      then (13, [0x01; resu !!! 0%nat; resu !!! 1%nat; resu !!! 2%nat; 0xf0; 0xff; 0x00; 0x00; suciV5; suciV4; suciV3; suciV2; suciV1])
    else Suci sec in
  let sec := MkSec ("imsi-" +:+ mcc +:+ mnc +:+ msin) msin mcc mnc (ULCount sec) (DLCount sec)
    cipheringAlg integrityAlg (deriveSNN mcc mnc) (KnasEnc sec) (KnasInt sec) (Kamf sec)
    (MkAuth k opc op amf sqn) suci (Guti sec) 7 in
  let p := PduSession ue in
  Ret (MkUe uid sec MM5G_NULL SM5G_PDU_SESSION_INACTIVE 1 (AmfUeNgapId ue) (UnixConn ue)
    (MkSess 1 (ueIP p) (ueGnbIP p) dnn (if (pduSessionType =? "")%string then "IPv4" else pduSessionType) sst sd
      gateway (tun p) (routeTun p) (ruleTun p) SM5G_PDU_SESSION_INACTIVE (Error p) (RequestedAt p))
    sessions (amfRegionId ue) (amfSetId ue) (amfPointer ue) (gnbLinkType ue) (gnbLinkPort ue)
    (gnbControlIp ue) (gnbSocketPath ue) (gnbId ue) (gnbProfileName ue) (mmErr ue) (smErr ue)).

(** The five-octet capability flags of the two algorithms. *)
Definition SetUESecurityCapability (ue : UEContext) : list Z :=
  let bit alg := if (0 <=? alg) && (alg <=? 3) then Z.shiftl 1 (7 - alg) else 0 in
  [bit (CipheringAlg (UeSecurity ue)); bit (IntegrityAlg (UeSecurity ue)); 0; 0; 0; 0; 0; 0].

(** ** Authentication *)

(** [a[i] ^ b[i]] for [i < n], into a buffer of 6 bytes. *)
Definition xor6 (n : Z) (a b : list Z) : outcome (list Z) :=
  forM (seqZ 0 n) (λ i dst, x ← rd a i; y ← rd b i; wr dst i (x ⊕ y)) (replicate 6 0).

(** SQN, AMF and MAC-A of an AUTN. *)
Definition deriveAUTN (autn ak : list Z) : outcome (list Z * list Z * list Z) :=
  SQNxorAK ← slice autn 0 6;
  amf ← slice autn 6 8;
  mac_a ← slice autn 8 (blen autn);
  sqn ← xor6 6 SQNxorAK ak;
  Ret (sqn, amf, mac_a).

(** [bytes.Compare] *)
Fixpoint Compare (a b : list Z) : Z :=
  match a, b with
  | [], [] => 0
  | [], _ => -1
  | _, [] => 1
  | x :: a, y :: b => if x <? y then -1 else if y <? x then 1 else Compare a b
  end.

(** The digits of ["(?:imsi|supi)-([0-9]{5,15})"] in a SUPI. *)
Definition is_digit (c : Ascii.ascii) : bool :=
  let n := Ascii.N_of_ascii c in ((48 <=? n) && (n <=? 57))%N.
Fixpoint digits (n : nat) (s : string) : string :=
  match n, s with
  | S n, String c s => if is_digit c then String c (digits n s) else EmptyString
  | _, _ => EmptyString
  end.
Fixpoint find_supi (s : string) : option string :=
  match s with
  | EmptyString => None
  | String _ s' =>
    let d := digits 15 (sub 5 (String.length s) s) in
    if (String.prefix "imsi-" s || String.prefix "supi-" s) && (5 <=? slen d) then Some d else find_supi s'
  end.

Definition DerivateKamf (key : list Z) (snName : string) (SQN AK : list Z) (ue : UEContext) : outcome UEContext :=
  let P0 := string_bytes snName in
  SQNxorAK ← xor6 (blen SQN) SQN AK;
  let Kausf := GetKDFValue key FC_FOR_KAUSF_DERIVATION [P0; KDFLen P0; SQNxorAK; KDFLen SQNxorAK] in
  let Kseaf := GetKDFValue Kausf FC_FOR_KSEAF_DERIVATION [P0; KDFLen P0] in
  match find_supi (Supi (UeSecurity ue)) with
  | None => Panic
  | Some group =>
    let P0 := string_bytes group in
    let P1 := [0x00; 0x00] in
    Ret (with_UeSecurity (with_Kamf
      (GetKDFValue Kseaf FC_FOR_KAMF_DERIVATION [P0; KDFLen P0; P1; KDFLen P1]) (UeSecurity ue)) ue)
  end.

(** The low half of an algorithm key; [N] is the algorithm type distinguisher. *)
Definition alg_key (kamf : list Z) (N alg : Z) : list Z :=
  drop 16 (GetKDFValue kamf FC_FOR_ALGORITHM_KEY_DERIVATION [[N]; KDFLen [N]; [alg]; KDFLen [alg]]).

Definition DerivateAlgKey (ue : UEContext) : UEContext :=
  let sec := UeSecurity ue in
  with_UeSecurity (with_KnasInt (alg_key (Kamf sec) 2 (IntegrityAlg sec))
    (with_KnasEnc (alg_key (Kamf sec) 1 (CipheringAlg sec)) sec)) ue.

(** Result, verdict and the UE; the updated SQN goes to the callee's copy of
    [authSubs], which ends with it. *)
Definition DeriveRESstarAndSetKey (authSubs : AuthenticationSubscription) (RAND : list Z) (snName : string)
    (AUTN : list Z) (ue : UEContext) : outcome (option (list Z) * string * UEContext) :=
  let OPC := DecodeString (OpcValue authSubs) in
  let K := DecodeString (PermanentKeyValue authSubs) in
  let sqnUe := DecodeString (SequenceNumber authSubs) in
  let AMF := DecodeString (AuthenticationManagementField authSubs) in
  '(_, b) ← F2345_Test OPC K RAND
    (KBufs (Some (zeros 8)) (Some (zeros 16)) (Some (zeros 16)) (Some (zeros 6)) (Some (zeros 6)));
  let RES := default [] (b_res b) in let CK := default [] (b_ck b) in let IK := default [] (b_ik b) in
  let AK := default [] (b_ak b) in
  '(sqnHn, _, mac_aHn) ← deriveAUTN AUTN AK;
  '(_, (mac_a, mac_s)) ← F1_Test OPC K RAND sqnHn AMF (Some (zeros 8)) (Some (zeros 8));
  if negb (bool_decide (mac_a = Some mac_aHn)) then Ret (None, "MAC failure"%string, ue)
  else if Compare sqnUe sqnHn >? 0 then
    '(_, b) ← F2345_Test OPC K RAND b;
    let AKstar := default [] (b_akstar b) in
    '(_, (_, mac_s)) ← F1_Test OPC K RAND sqnUe [0x00; 0x00] mac_a mac_s;
    sqnUeXorAK ← xor6 (blen sqnUe) sqnUe AKstar;
    Ret (Some (sqnUeXorAK ++ default [] mac_s), "SQN failure"%string, ue)
  else
    let key := CK ++ IK in
    let P0 := string_bytes snName in
    ue ← DerivateKamf key snName sqnHn AK ue;
    let ue := DerivateAlgKey ue in
    let kdfVal_for_resStar := GetKDFValue key FC_FOR_RES_STAR_XRES_STAR_DERIVATION
      [P0; KDFLen P0; RAND; KDFLen RAND; RES; KDFLen RES] in
    Ret (Some (drop 16 kdfVal_for_resStar), "successful"%string, ue).

(** [UEContext{}] *)
Definition blank_ue : UEContext :=
  MkUe 0 (MkSec "" "" "" "" 0 0 0 0 "" (replicate 16 0) (replicate 16 0) [] (MkAuth "" "" "" "" "") (0, []) (replicate 4 0) 0)
    0 0 0 0 None zero_session ∅ 0 0 0 "" 0 "" "" "" "" "" "".

(** ** Digits *)

#[local] Arguments String.append : simpl nomatch.
Lemma digit_is_digit d : decimal d → is_digit (digit d) = true.
Proof. intros Hd. each_digit d Hd; reflexivity. Qed.

#[local] Opaque digit.

(** The digits of an MSIN, swapped in pairs. *)
Fixpoint bcd_swapped (ds : list Z) : list Z :=
  match ds with a :: b :: ds => b * 16 + a :: bcd_swapped ds | _ => [] end.

Lemma suci_10 ds : length ds = 10%nat → Forall decimal ds → ∃ v1 v2 v3 v4 v5,
  EncodeUeSuci (digit_string ds) = Ret (v1, v2, v3, v4, v5) ∧ [v5; v4; v3; v2; v1] = bcd_swapped ds.
Proof.
  intros Hl H. do 10 (destruct ds as [|? ds]; [done|]). destruct ds; [|done].
  rewrite !Forall_cons in H. destruct_and! H. unfold EncodeUeSuci. rewrite reverse_digits. cbn [rev app].
  cbn [digit_string]. rewrite !hex_decode_pair by done. cbn [hex_decode fst snd].
  do 5 eexists. split; reflexivity.
Qed.

Lemma suci_8 ds : length ds = 8%nat → Forall decimal ds → ∃ v1 v2 v3 v4 v5,
  EncodeUeSuci (digit_string ds) = Ret (v1, v2, v3, v4, v5) ∧ [v4; v3; v2; v1] = bcd_swapped ds.
Proof.
  intros Hl H. do 8 (destruct ds as [|? ds]; [done|]). destruct ds; [|done].
  rewrite !Forall_cons in H. destruct_and! H. unfold EncodeUeSuci. rewrite reverse_digits. cbn [rev app].
  cbn [digit_string]. rewrite !hex_decode_pair by done. cbn [hex_decode fst snd]. do 5 eexists. split; reflexivity.
Qed.
