(* ===== verification/UeProps.v ===== *)
(** * Properties of the UE context: identity and 5G AKA

    The SUCI and PLMN octets of TS 24.501, the three outcomes of an
    authentication challenge in terms of the Milenage functions of TS 35.206
    and of the key hierarchy of TS 33.501, and what the UE remembers of it. *)

From S2P Require Import Prelude GoStrings Aes Milenage NasSecurity Kdf UeContext.

#[local] Open Scope Z_scope.
#[local] Open Scope go_scope.

(** ** The subscriber's identity *)

Lemma suci_digits ms : length ms = 8%nat ∨ length ms = 10%nat → Forall decimal ms → ∃ v1 v2 v3 v4 v5,
  EncodeUeSuci (digit_string ms) = Ret (v1, v2, v3, v4, v5) ∧
  bcd_swapped ms = if blen ms =? 8 then [v4; v3; v2; v1] else [v5; v4; v3; v2; v1].
Proof.
  intros [Hl|Hl] H.
  - destruct (suci_8 ms Hl H) as (v1&v2&v3&v4&v5&He&<-). exists v1, v2, v3, v4, v5. split; [exact He|].
    unfold blen. by rewrite Hl.
  - destruct (suci_10 ms Hl H) as (v1&v2&v3&v4&v5&He&<-). exists v1, v2, v3, v4, v5. split; [exact He|].
    unfold blen. by rewrite Hl.
Qed.

Lemma new_ue_suci mccs mncs ms ca ia k opc op amf sqn dnn type sst sd uid extra ue :
  length mccs = 3%nat → length mncs = 2%nat ∨ length mncs = 3%nat →
  length ms = 8%nat ∨ length ms = 10%nat →
  Forall decimal mccs → Forall decimal mncs → Forall decimal ms →
  ∃ ue', NewRanUeContext (digit_string ms) ca ia k opc op amf sqn (digit_string mccs) (digit_string mncs)
      dnn type sst sd uid extra ue = Ret ue' ∧
    Suci (UeSecurity ue') =
      (blen (snd (Suci (UeSecurity ue'))),
       [0x01] ++ plmn_coding mccs mncs ++ [0xf0; 0xff; 0x00; 0x00] ++ bcd_swapped ms).
Proof.
  intros H3 H23 Hl Hc Hn Hm. destruct (suci_digits ms Hl Hm) as (v1&v2&v3&v4&v5&He&Hb).
  unfold NewRanUeContext. rewrite He. cbn [mbind outcome_mbind]. cbv beta iota zeta.
  eexists. split; [reflexivity|]. cbn [UeSecurity Suci].
  rewrite plmn_octets, slen_digits by done. rewrite Hb. clear He Hb.
  assert (∃ x y z, plmn_coding mccs mncs = [x; y; z]) as (x&y&z&->).
  { destruct mccs as [|a [|b [|c [|]]]]; try done. destruct mncs as [|d [|e [|f [|]]]]; try (destruct H23; done); eauto. }
  assert (blen ms = 8 ∨ blen ms = 10) as [-> | ->] by (unfold blen; lia); reflexivity.
Qed.

(** A new UE with an MSIN of eight or ten digits identifies itself with a
    null-scheme SUCI: type 1, the PLMN octets of its MCC and MNC, routing
    indicator 0xf0 0xff, scheme 0, key 0 and the BCD-coded MSIN. *)
Theorem ue_suci mccs mncs ms ca ia k opc op amf sqn dnn type sst sd uid extra ue :
  length mccs = 3%nat → length mncs = 2%nat ∨ length mncs = 3%nat →
  length ms = 8%nat ∨ length ms = 10%nat →
  Forall decimal mccs → Forall decimal mncs → Forall decimal ms →
  ∃ ue', NewRanUeContext (digit_string ms) ca ia k opc op amf sqn (digit_string mccs) (digit_string mncs)
      dnn type sst sd uid extra ue = Ret ue' ∧
    Suci (UeSecurity ue') =
      (blen (snd (Suci (UeSecurity ue'))),
       [0x01] ++ plmn_coding mccs mncs ++ [0xf0; 0xff; 0x00; 0x00] ++ bcd_swapped ms).
Proof. apply new_ue_suci. Qed.

Lemma ue_suci_witness :
  ∃ ue', NewRanUeContext (digit_string [0; 0; 0; 0; 0; 0; 7; 4; 8; 7]) 0 2 "" "" "" "" ""
      (digit_string [2; 0; 8]) (digit_string [9; 3]) "internet" "" 1 "" 1 []
      blank_ue = Ret ue' ∧
    Suci (UeSecurity ue') = (blen (snd (Suci (UeSecurity ue'))),
      [0x01] ++ plmn_coding [2; 0; 8] [9; 3] ++ [0xf0; 0xff; 0x00; 0x00] ++ bcd_swapped [0; 0; 0; 0; 0; 0; 7; 4; 8; 7]).
Proof. apply ue_suci; try (vm_compute; auto; fail); repeat constructor; unfold decimal; lia. Defined.

(** ** 5G AKA *)

Section Aka.
Import Ts35206.
Context (opc k sqn_ue amf : list Z) (Ho : block opc) (Hk : block k)
  (Hs : length sqn_ue = 6%nat) (Hsb : bytes_ok sqn_ue) (Ha : length amf = 2%nat) (Hab : bytes_ok amf).

(** The subscription the UE is provisioned with. *)
Definition subscribed (subs : AuthenticationSubscription) : Prop :=
  DecodeString (OpcValue subs) = opc ∧ DecodeString (PermanentKeyValue subs) = k ∧
  DecodeString (SequenceNumber subs) = sqn_ue ∧ DecodeString (AuthenticationManagementField subs) = amf.

(** The key hierarchy of TS 33.501 Annex A. *)
Definition kdf_param (p : list Z) : list (list Z) := [p; KDFLen p].
Definition kausf (rand : list Z) (sn : string) (sqn_ak : list Z) : list Z :=
  GetKDFValue (f3 opc k rand ++ f4 opc k rand) FC_FOR_KAUSF_DERIVATION (kdf_param (string_bytes sn) ++ kdf_param sqn_ak).
Definition kamf (rand : list Z) (sn : string) (sqn_ak : list Z) (supi : string) : list Z :=
  GetKDFValue (GetKDFValue (kausf rand sn sqn_ak) FC_FOR_KSEAF_DERIVATION (kdf_param (string_bytes sn)))
    FC_FOR_KAMF_DERIVATION (kdf_param (string_bytes supi) ++ kdf_param [0; 0]).
Definition res_star (rand : list Z) (sn : string) : list Z :=
  drop 16 (GetKDFValue (f3 opc k rand ++ f4 opc k rand) FC_FOR_RES_STAR_XRES_STAR_DERIVATION
    (kdf_param (string_bytes sn) ++ kdf_param rand ++ kdf_param (f2 opc k rand))).

(** The UE with the keys of a successful run. *)
Definition with_keys (ka : list Z) (ue : UEContext) : UEContext :=
  let sec := UeSecurity ue in
  with_UeSecurity (with_KnasInt (alg_key ka 2 (IntegrityAlg sec))
    (with_KnasEnc (alg_key ka 1 (CipheringAlg sec)) (with_Kamf ka sec))) ue.

(** The three outcomes of a challenge. *)
Definition aka_result (rand : list Z) (sn : string) (autn : list Z) (supi : string) (ue : UEContext) :=
  let sqn := xor (take 6 autn) (f5 opc k rand) in
  if negb (bool_decide (f1 opc k rand sqn amf = drop 8 autn)) then (None, "MAC failure"%string, ue)
  else if Compare sqn_ue sqn >? 0 then (Some (auts_of opc k rand sqn_ue), "SQN failure"%string, ue)
  else (Some (res_star rand sn), "successful"%string, with_keys (kamf rand sn (take 6 autn) supi) ue).

Lemma xor6_spec a b : length a = 6%nat → length b = 6%nat → xor6 6 a b = Ret (xor a b).
Proof.
  intros Hl Hm. do 6 (destruct a as [|? a]; [done|]). do 6 (destruct b as [|? b]; [done|]).
  destruct a, b; done.
Qed.

Lemma f2_length rand : block rand → length (f2 opc k rand) = 8%nat.
Proof.
  intros Hr. destruct (OUT_block 0 1 opc k rand ltac:(unfold in_width; lia) Ho Hk Hr) as [Hl _].
  unfold f2. rewrite length_drop. lia.
Qed.

Lemma f34_length rand : block rand → length (f3 opc k rand) = 16%nat ∧ length (f4 opc k rand) = 16%nat.
Proof. intros Hr. split; apply OUT_block; (assumption || (unfold in_width; lia)). Qed.

Lemma f2345_all rand res ck ik ak akstar : block rand → length res = 8%nat → length ck = 16%nat →
  length ik = 16%nat → length ak = 6%nat → length akstar = 6%nat →
  F2345_Test opc k rand (KBufs (Some res) (Some ck) (Some ik) (Some ak) (Some akstar)) =
  Ret (0, KBufs (Some (f2 opc k rand)) (Some (f3 opc k rand)) (Some (f4 opc k rand)) (Some (f5 opc k rand))
    (Some (f5star opc k rand))).
Proof.
  intros Hr H1 H2 H3 H4 H5. unfold F2345_Test.
  rewrite f2345_spec by (assumption || by apply kbufs_ok_intro; intros ? [= <-]).
  unfold kbufs_spec. cbn [b_res b_ck b_ik b_ak b_akstar fmap option_fmap option_map].
  rewrite !copy_opt_full; [done|by rewrite (proj1 (f5_ok opc k rand Ho Hk Hr))|by rewrite f2_length].
Qed.

Lemma f1_all rand sqn a ma ms : block rand → length sqn = 6%nat → bytes_ok sqn → length a = 2%nat → bytes_ok a →
  length ma = 8%nat → length ms = 8%nat →
  F1_Test opc k rand sqn a (Some ma) (Some ms) =
  Ret (0, (Some (f1 opc k rand sqn a), Some (f1star opc k rand sqn a))).
Proof.
  intros Hr Hq Hqb Hl Hb H1 H2. unfold F1_Test. rewrite f1_spec by (assumption || lia).
  rewrite (take_ge a) by lia.
  destruct (f1_ok opc k rand Ho Hk Hr sqn a) as [E1 E2]; [by apply IN1_block|].
  rewrite !copy_opt_full; congruence.
Qed.

Lemma deriveAUTN_spec autn ak : length autn = 16%nat → length ak = 6%nat →
  deriveAUTN autn ak = Ret (xor (take 6 autn) ak, take 2 (drop 6 autn), drop 8 autn).
Proof.
  intros Hl Hk'. unfold deriveAUTN.
  assert (blen autn = 16) as Hb by (unfold blen; lia).
  rewrite slice_prefix by lia. rewrite slice_from by lia.
  unfold slice at 1. rewrite Hb. cbn [mbind outcome_mbind].
  change ((6 <? 0) || (8 <? 6) || (16 <? 8)) with false. cbn iota.
  rewrite xor6_spec by (rewrite ?length_take; lia). reflexivity.
Qed.

Lemma derive_keys key sn sqn ak supi ue : length sqn = 6%nat → length ak = 6%nat →
  find_supi (Supi (UeSecurity ue)) = Some supi →
  ∃ ue1, DerivateKamf key sn sqn ak ue = Ret ue1 ∧
  DerivateAlgKey ue1 = with_keys (GetKDFValue
    (GetKDFValue (GetKDFValue key FC_FOR_KAUSF_DERIVATION (kdf_param (string_bytes sn) ++ kdf_param (xor sqn ak)))
      FC_FOR_KSEAF_DERIVATION (kdf_param (string_bytes sn)))
    FC_FOR_KAMF_DERIVATION (kdf_param (string_bytes supi) ++ kdf_param [0; 0])) ue.
Proof.
  intros H1 H2 H3. unfold DerivateKamf. assert (blen sqn = 6) as -> by (unfold blen; lia).
  rewrite xor6_spec by assumption. cbn [mbind outcome_mbind]. cbv zeta. rewrite H3. eexists. split; reflexivity.
Qed.

#[local] Opaque GetKDFValue alg_key f1 f1star f2 f3 f4 f5 f5star.

Lemma aka_outcomes subs rand sn autn supi ue : subscribed subs → block rand → block autn →
  find_supi (Supi (UeSecurity ue)) = Some supi →
  DeriveRESstarAndSetKey subs rand sn autn ue = Ret (aka_result rand sn autn supi ue).
Proof.
  intros (E1&E2&E3&E4) Hr [Hn Hnb] Hf. unfold DeriveRESstarAndSetKey. rewrite E1, E2, E3, E4. cbv zeta.
  destruct (f5_ok opc k rand Ho Hk Hr) as [Hf5 Hf5b], (f5star_ok opc k rand Ho Hk Hr) as [Hf5s _].
  rewrite (f2345_all rand (zeros 8) (zeros 16) (zeros 16) (zeros 6) (zeros 6) Hr eq_refl eq_refl eq_refl eq_refl eq_refl). cbn [mbind outcome_mbind].
  cbv beta iota. cbn [b_res b_ck b_ik b_ak b_akstar default from_option Datatypes.id].
  rewrite (deriveAUTN_spec autn _ Hn Hf5). cbn [mbind outcome_mbind]. cbv beta iota.
  set (sqn := xor (take 6 autn) (f5 opc k rand)).
  assert (length sqn = 6%nat) as Hq by (unfold sqn, xor; rewrite length_zip_with, length_take; lia).
  assert (bytes_ok sqn) as Hqb by (apply xor_bytes; [by apply Forall_take|done]).
  rewrite (f1_all rand sqn amf (zeros 8) (zeros 8) Hr Hq Hqb Ha Hab eq_refl eq_refl). cbn [mbind outcome_mbind]. cbv beta iota.
  unfold aka_result. fold sqn.
  rewrite (bool_decide_ext (Some (f1 opc k rand sqn amf) = Some (drop 8 autn)) (f1 opc k rand sqn amf = drop 8 autn))
    by (split; congruence).
  destruct (f1_ok opc k rand Ho Hk Hr sqn amf) as [E5 E6]; [by apply IN1_block|].
  destruct (negb _); [reflexivity|]. destruct (Compare sqn_ue sqn >? 0).
  - destruct (f34_length rand Hr) as [Hf3 Hf4].
    rewrite (f2345_all rand _ _ _ _ _ Hr (f2_length rand Hr) Hf3 Hf4 Hf5 Hf5s).
    cbn [mbind outcome_mbind]. cbv beta iota. cbn [b_akstar default from_option Datatypes.id].
    rewrite (f1_all rand sqn_ue [0; 0] _ _ Hr Hs Hsb eq_refl zero_amf_ok E5 E6). cbn [mbind outcome_mbind]. cbv beta iota.
    assert (blen sqn_ue = 6) as -> by (unfold blen; lia).
    rewrite xor6_spec by assumption. reflexivity.
  - destruct (derive_keys (f3 opc k rand ++ f4 opc k rand) sn sqn (f5 opc k rand) supi ue Hq Hf5 Hf) as (ue1&->&E).
    cbn [mbind outcome_mbind]. rewrite E. unfold sqn, kamf, kausf.
    rewrite xor_cancel by (rewrite length_take; lia). reflexivity.
Qed.
End Aka.

Section Claims.
Import Ts35206.
Context (opc k sqn_ue amf rand : list Z) (Ho : block opc) (Hk : block k) (Hr : block rand)
  (Hs : length sqn_ue = 6%nat) (Hsb : bytes_ok sqn_ue) (Ha : length amf = 2%nat) (Hab : bytes_ok amf).
Context (subs : AuthenticationSubscription) (Hsubs : subscribed opc k sqn_ue amf subs).
Context (sn supi : string) (ue : UEContext) (Hsupi : find_supi (Supi (UeSecurity ue)) = Some supi).

(** C34. A challenge has one of three outcomes: "MAC failure" when the MAC of
    the AUTN is not f1 of the SQN it conceals; "SQN failure" with the AUTS of
    the UE's SQN when that is ahead of the network's; otherwise RES* and the
    keys of the hierarchy of TS 33.501, whose KAUSF is bound to the concealed
    SQN of the AUTN and whose KAMF to the digits of the SUPI. *)
Theorem ue_authentication autn : block autn →
  DeriveRESstarAndSetKey subs rand sn autn ue = Ret (aka_result opc k sqn_ue amf rand sn autn supi ue).
Proof. intros Hau. by apply aka_outcomes. Qed.

(** C18. The UE and a network that holds the same subscription agree: for an
    AUTN made with [sqn], the UE answers the network's XRES* and holds its KAMF
    when its own SQN is not ahead; otherwise its AUTS tells the network the
    UE's SQN. *)
Theorem ue_aka_agreement sqn buf : length sqn = 6%nat → bytes_ok sqn → length buf = 6%nat →
  ∃ r, DeriveRESstarAndSetKey subs rand sn (autn_of opc k rand sqn amf) ue = Ret r ∧
    if Compare sqn_ue sqn >? 0
    then ∃ auts, r = (Some auts, "SQN failure"%string, ue) ∧ Milenage_auts opc k rand auts buf = Ret (0, sqn_ue)
    else r = (Some (res_star opc k rand sn), "successful"%string,
              with_keys (kamf opc k rand sn (xor sqn (f5 opc k rand)) supi) ue).
Proof.
  intros Hq Hqb Hb. destruct (autn_of_ok opc k rand Ho Hk Hr sqn amf Hq Hqb Ha Hab) as (Hau&H6&_&H8).
  exists (aka_result opc k sqn_ue amf rand sn (autn_of opc k rand sqn amf) supi ue).
  split; [by apply aka_outcomes|]. unfold aka_result. rewrite H6, H8.
  rewrite xor_cancel by (rewrite (proj1 (f5_ok opc k rand Ho Hk Hr)); lia).
  rewrite bool_decide_true by done. cbn [negb]. destruct (Compare sqn_ue sqn >? 0); [|done].
  eexists. split; [reflexivity|]. by apply auts_spec.
Qed.
End Claims.

#[local] Opaque GetKDFValue alg_key.

(** [DerivateKamf] depends on the UE through its SUPI alone. *)
Lemma kamf_set key sn sqn ak ue ue1 : DerivateKamf key sn sqn ak ue = Ret ue1 →
  ∃ g ka, find_supi (Supi (UeSecurity ue)) = Some g ∧
    ∀ ue', find_supi (Supi (UeSecurity ue')) = Some g →
      DerivateKamf key sn sqn ak ue' = Ret (with_UeSecurity (with_Kamf ka (UeSecurity ue')) ue').
Proof.
  unfold DerivateKamf. intros H. apply bind_inv in H as (y&->&H). cbn [mbind outcome_mbind].
  destruct (find_supi (Supi (UeSecurity ue))) as [g|]; [|discriminate H].
  exists g. eexists. split; [reflexivity|]. intros ue' ->. reflexivity.
Qed.

Section SetKeys.
Context (ka : list Z) (ue : UEContext).
#[local] Abbreviation set_keys ue := (DerivateAlgKey (with_UeSecurity (with_Kamf ka (UeSecurity ue)) ue)).
Lemma set_keys_supi g : find_supi (Supi (UeSecurity ue)) = Some g →
  find_supi (Supi (UeSecurity (set_keys ue))) = Some g.
Proof. intros H. exact H. Qed.
Lemma set_keys_subs : AuthenticationSubs (UeSecurity (set_keys ue)) = AuthenticationSubs (UeSecurity ue).
Proof. reflexivity. Qed.
Lemma set_keys_twice : set_keys (set_keys ue) = set_keys ue.
Proof. unfold DerivateAlgKey. generalize alg_key. intros f. reflexivity. Qed.
End SetKeys.

(** The SQN of an accepted challenge is not kept: the subscription stays as
    it was, and the same RAND and AUTN are accepted again, with the same RES*
    and the same keys. *)
Theorem ue_accepts_replay subs rand sn autn ue res ue' :
  DeriveRESstarAndSetKey subs rand sn autn ue = Ret (res, "successful"%string, ue') →
  AuthenticationSubs (UeSecurity ue') = AuthenticationSubs (UeSecurity ue) ∧
  DeriveRESstarAndSetKey subs rand sn autn ue' = Ret (res, "successful"%string, ue').
Proof.
  unfold DeriveRESstarAndSetKey. cbv zeta. intros H.
  apply bind_inv in H as ([x b]&->&H). cbn [mbind outcome_mbind] in *.
  apply bind_inv in H as ([[sqn x2] mac]&->&H). cbn [mbind outcome_mbind] in *.
  apply bind_inv in H as ([x3 [ma ms]]&->&H). cbn [mbind outcome_mbind] in *.
  destruct (negb _); [done|]. destruct (Compare _ _ >? 0).
  { apply bind_inv in H as ([? ?]&_&H). apply bind_inv in H as ([? [? ?]]&_&H).
    by apply bind_inv in H as (?&_&?). }
  apply bind_inv in H as (ue1&Hk&H). pose proof Hk as E. apply result_inj in H as [<- <-].
  apply kamf_set in Hk as (g & ka & Hg & Hall). rewrite (Hall ue Hg) in E. apply Ret_inj in E as <-.
  rewrite (Hall _ (set_keys_supi ka ue g Hg)). cbn [mbind outcome_mbind].
  split; [apply set_keys_subs|]. rewrite set_keys_twice. reflexivity.
Qed.

(** ** A provisioned UE: the keys of test set 1 of 3GPP TS 35.207 *)

Definition demo_subs (sqn : list Z) : AuthenticationSubscription :=
  MkAuth (hex_bytes ts_k) (hex_bytes ts_opc) "" (hex_bytes ts_amf) (hex_bytes sqn).
Definition demo_sn : string := "5G:mnc093.mcc208.3gppnetwork.org".
Definition demo_ue : UEContext :=
  with_UeSecurity (MkSec "imsi-208930000007487" "0000007487" "208" "93" 0 0 0 2 demo_sn
    (zeros 16) (zeros 16) [] (demo_subs ts_sqn) (0, []) (zeros 4) 7) blank_ue.
Definition old_sqn : list Z := [0; 0; 0; 0; 0; 0x20].

#[local] Ltac vec :=
  first [ apply block_dec; vm_compute; reflexivity
        | apply bytes_dec; vm_compute; reflexivity
        | vm_compute; reflexivity
        | repeat split; vm_compute; reflexivity ].

Lemma ue_authentication_witness :
  let autn := autn_of ts_opc ts_k ts_rand old_sqn ts_amf in
  DeriveRESstarAndSetKey (demo_subs ts_sqn) ts_rand demo_sn autn demo_ue =
  Ret (aka_result ts_opc ts_k ts_sqn ts_amf ts_rand demo_sn autn "208930000007487" demo_ue).
Proof. intros autn. apply ue_authentication; vec. Defined.

Lemma ue_aka_agreement_witness :
  ∃ r, DeriveRESstarAndSetKey (demo_subs old_sqn) ts_rand demo_sn (autn_of ts_opc ts_k ts_rand ts_sqn ts_amf) demo_ue
      = Ret r ∧
    if Compare old_sqn ts_sqn >? 0
    then ∃ auts, r = (Some auts, "SQN failure"%string, demo_ue) ∧
      Milenage_auts ts_opc ts_k ts_rand auts (zeros 6) = Ret (0, old_sqn)
    else r = (Some (res_star ts_opc ts_k ts_rand demo_sn), "successful"%string,
      with_keys (kamf ts_opc ts_k ts_rand demo_sn
        (Ts35206.xor ts_sqn (Ts35206.f5 ts_opc ts_k ts_rand)) "208930000007487") demo_ue).
Proof. apply ue_aka_agreement; vec. Defined.

(** The answer to a fresh challenge. *)
Definition demo_run := DeriveRESstarAndSetKey (demo_subs old_sqn) ts_rand demo_sn
  (autn_of ts_opc ts_k ts_rand ts_sqn ts_amf) demo_ue.

Lemma ue_accepts_replay_witness :
  match demo_run with
  | Ret (res, v, ue') => v = "successful"%string ∧
    AuthenticationSubs (UeSecurity ue') = AuthenticationSubs (UeSecurity demo_ue) ∧
    DeriveRESstarAndSetKey (demo_subs old_sqn) ts_rand demo_sn (autn_of ts_opc ts_k ts_rand ts_sqn ts_amf) ue' =
      Ret (res, "successful"%string, ue')
  | _ => False
  end.
Proof.
  assert (match demo_run with Ret (_, v, _) => v = "successful"%string | _ => False end) as H by (vm_compute; reflexivity).
  destruct demo_run as [[[res v] ue']| |] eqn:E; [|done..]. rewrite H in E |- *.
  split; [reflexivity|]. exact (ue_accepts_replay _ _ _ _ _ _ _ E).
Defined.
