(* ===== verification/NasMessage.v ===== *)
(** * lib/nas/nasMessage: the codec of NAS messages, generically

    The Encode and Decode functions of lib/nas/nasMessage are straight lines of
    [binary.Write] and [binary.Read] over information elements.  A [layout]
    lists the elements of one message in the order of these functions
    (NasLayouts.v has one per message); [encode] and [decode] run it the way
    the functions do: no error of binary.Read is looked at, a length beyond an
    array panics, an unknown element identifier is skipped alone. *)

From S2P Require Import Prelude Milenage.

#[local] Open Scope Z_scope.
#[local] Open Scope go_scope.

(** ** Elements and layouts *)

(** An element of nasType; [Octet] is the field Octet or Buffer. *)
Record IE := MkIE { Iei : Z; Len : Z; Octet : list Z }.

Inductive part :=
| Array (n : nat)      (* Octet, an array of n octets, whatever Len says *)
| Prefix (n : nat)     (* Octet[:Len] of an array of n octets *)
| Buffer.              (* Buffer, made with Len octets by SetLen *)

Inductive shape :=
| Half                 (* one octet with the identifier in its upper half *)
| Value (n : nat)      (* n octets *)
| Sized (w : nat) (p : part). (* Len in w octets, then the contents *)

#[export] Instance part_eq_dec : EqDecision part.
Proof. solve_decision. Defined.
#[export] Instance shape_eq_dec : EqDecision shape.
Proof. solve_decision. Defined.

Record layout := MkLayout {
  mandatory : list (string * shape);
  optional : list (string * Z * shape); (* name, identifier, shape *)
}.

(** The elements that are present, by name; a mandatory element that is not
    set is its zero value. *)
Abbreviation message := (gmap string IE).

Definition zero_part (p : part) : list Z :=
  match p with Array n => zeros n | Prefix n => zeros n | Buffer => [] end.
Definition zero_ie (s : shape) : IE :=
  MkIE 0 0 match s with Half => zeros 1 | Value n => zeros n | Sized _ p => zero_part p end.

(** ** Decoding *)

(** [binary.Read] of [n] octets: on a short buffer it takes what there is and
    leaves its argument alone. *)
Definition read (n : nat) (b : list Z) : option (list Z) * list Z :=
  if (length b <? n)%nat then (None, []) else (Some (take n b), drop n b).

(** A big-endian number. *)
Definition be_nat (l : list Z) : Z := foldl (λ v x, v * 256 + x) 0 l.

Definition read_part (p : part) (len : Z) (b : list Z) : outcome (list Z * list Z) :=
  let l := Z.to_nat len in
  match p with
  | Array n => let '(r, b) := read n b in Ret (default (zeros n) r, b)
  | Prefix n => if (n <? l)%nat then Panic
                else let '(r, b) := read l b in Ret (default (zeros l) r ++ zeros (n - l), b)
  | Buffer => let '(r, b) := read l b in Ret (default (zeros l) r, b)
  end.

Definition read_ie (s : shape) (iei : Z) (b : list Z) : outcome (IE * list Z) :=
  match s with
  | Half => Ret (MkIE 0 0 [iei], b)
  | Value n => let '(r, b) := read n b in Ret (MkIE iei 0 (default (zeros n) r), b)
  | Sized w p =>
    let '(r, b) := read w b in
    let len := be_nat (default (zeros w) r) in
    '(o, b) ← read_part p len b; Ret (MkIE iei len o, b)
  end.

Fixpoint decode_mandatory (es : list (string * shape)) (m : message) (b : list Z) : outcome (message * list Z) :=
  match es with
  | [] => Ret (m, b)
  | (name, s) :: es => '(ie, b) ← read_ie s 0 b; decode_mandatory es (<[name := ie]> m) b
  end.

(** The case label an identifier octet is compared with. *)
Definition case_of (iei : Z) : Z := if iei >=? 0x80 then (iei & 0xf0) ≫ 4 else iei.

Definition find_ie (es : list (string * Z * shape)) (k : Z) : option (string * Z * shape) :=
  List.find (λ '(_, k', _), k' =? k) es.

(** [for buffer.Len() > 0]; each turn takes at least the identifier. *)
Fixpoint decode_optional (fuel : nat) (es : list (string * Z * shape)) (m : message) (b : list Z) : outcome message :=
  match b, fuel with
  | [], _ => Ret m
  | _, O => Fail "fuel"
  | iei :: b, S fuel =>
    match find_ie es (case_of iei) with
    | Some (name, _, s) => '(ie, b) ← read_ie s iei b; decode_optional fuel es (<[name := ie]> m) b
    | None => decode_optional fuel es m b
    end
  end.

Definition decode (L : layout) (b : list Z) : outcome message :=
  '(m, b) ← decode_mandatory (mandatory L) ∅ b;
  if optional L is [] then Ret m else decode_optional (length b) (optional L) m b.

(** ** Encoding *)

Definition write_ie (s : shape) (ie : IE) : outcome (list Z) :=
  match s with
  | Half | Value _ => Ret (Octet ie)
  | Sized w (Prefix _) => o ← slice (Octet ie) 0 (Len ie); Ret (be_bytes w (Len ie) ++ o)
  | Sized w _ => Ret (be_bytes w (Len ie) ++ Octet ie)
  end.

Fixpoint encode_mandatory (es : list (string * shape)) (m : message) : outcome (list Z) :=
  match es with
  | [] => Ret []
  | (name, s) :: es => o ← write_ie s (default (zero_ie s) (m !! name)); os ← encode_mandatory es m; Ret (o ++ os)
  end.

Fixpoint encode_optional (es : list (string * Z * shape)) (m : message) : outcome (list Z) :=
  match es with
  | [] => Ret []
  | (name, _, s) :: es =>
    match m !! name with
    | None => encode_optional es m
    | Some ie =>
      o ← write_ie s ie; os ← encode_optional es m;
      Ret (match s with Half => o | _ => Iei ie :: o end ++ os)
    end
  end.

Definition encode (L : layout) (m : message) : outcome (list Z) :=
  o ← encode_mandatory (mandatory L) m; os ← encode_optional (optional L) m; Ret (o ++ os).

(** ** Well-formed layouts and messages *)

Definition names (L : layout) : list string := (mandatory L).*1 ++ (optional L).*1.*1.

Definition key_ok (e : string * Z * shape) : bool :=
  let '(_, k, s) := e in
  match s with Half => (8 <=? k) && (k <? 16) | _ => (16 <=? k) && (k <? 128) end.

(** Names and identifiers are unique, and identifiers are distinguishable. *)
Definition layout_ok (L : layout) : bool :=
  bool_decide (NoDup (names L)) && bool_decide (NoDup ((optional L).*1.*2)) && forallb key_ok (optional L)
  && forallb (λ '(_, s), match s with Half => false | _ => true end) (mandatory L).

Definition part_ok (p : part) (len : Z) (o : list Z) : Prop :=
  match p with
  | Array n => length o = n
  | Prefix n => length o = n ∧ len ≤ Z.of_nat n ∧ drop (Z.to_nat len) o = zeros (n - Z.to_nat len)
  | Buffer => length o = Z.to_nat len
  end.

(** An element with the identifier [k]. *)
Definition ie_ok (s : shape) (k : Z) (ie : IE) : Prop :=
  match s with
  | Half => ∃ x, ie = MkIE 0 0 [x] ∧ case_of x = k
  | Value n => Iei ie = k ∧ Len ie = 0 ∧ length (Octet ie) = n
  | Sized w p => Iei ie = k ∧ 0 ≤ Len ie < 256 ^ Z.of_nat w ∧ part_ok p (Len ie) (Octet ie)
  end.

Definition message_ok (L : layout) (m : message) : Prop :=
  (∀ name s, (name, s) ∈ mandatory L → ∃ ie, m !! name = Some ie ∧ ie_ok s 0 ie) ∧
  (∀ name k s ie, (name, k, s) ∈ optional L → m !! name = Some ie → ie_ok s k ie) ∧
  ∀ name, is_Some (m !! name) → name ∈ names L.

(** ** Round trip *)

Lemma be_nat_app l x : be_nat (l ++ [x]) = be_nat l * 256 + x.
Proof. unfold be_nat. by rewrite foldl_app. Qed.

Lemma be_nat_bytes w z : 0 ≤ z < 256 ^ Z.of_nat w → be_nat (be_bytes w z) = z.
Proof.
  revert z. induction w as [|w IH]; intros z Hz; cbn [be_bytes].
  { change (256 ^ Z.of_nat 0) with 1 in Hz. unfold be_nat. simpl. lia. }
  rewrite be_nat_app, IH; [symmetry; rewrite Z.mul_comm; apply Z.div_mod; lia|].
  rewrite Nat2Z.inj_succ, Z.pow_succ_r in Hz by lia.
  split; [apply Z.div_pos; lia|]. apply Z.div_lt_upper_bound; lia.
Qed.

Lemma read_app a b : read (length a) (a ++ b) = (Some a, b).
Proof.
  unfold read. rewrite length_app. destruct (Nat.ltb_spec (length a + length b) (length a)); [lia|].
  by rewrite take_app_length, drop_app_length.
Qed.

Lemma read_app' n a b : length a = n → read n (a ++ b) = (Some a, b).
Proof. intros <-. apply read_app. Qed.

Lemma read_part_app p len o b : 0 ≤ len → part_ok p len o →
  read_part p len (match p with Prefix _ => take (Z.to_nat len) o | _ => o end ++ b) = Ret (o, b).
Proof.
  intros Hlen Hp. destruct p as [n|n|]; simpl in Hp |- *.
  - by rewrite read_app'.
  - destruct Hp as (Hl&Hn&Hz). destruct (Nat.ltb_spec n (Z.to_nat len)); [lia|].
    rewrite read_app' by (rewrite length_take; lia). cbn [default from_option Datatypes.id].
    by rewrite <-Hz, take_drop.
  - by rewrite read_app'.
Qed.

Lemma write_sized w p k ie : ie_ok (Sized w p) k ie →
  write_ie (Sized w p) ie = Ret (be_bytes w (Len ie) ++ match p with Prefix _ => take (Z.to_nat (Len ie)) (Octet ie) | _ => Octet ie end).
Proof.
  intros (_&Hl&Hp). destruct p as [n|n|]; [done| |done]. cbn [write_ie]. destruct Hp as (Ho&Hn&_).
  rewrite slice_prefix by (unfold blen; lia). reflexivity.
Qed.

(** What is written is read back, whatever follows. *)
Lemma read_write_ie s k ie b : ie_ok s k ie → s ≠ Half →
  ∃ o, write_ie s ie = Ret o ∧ read_ie s k (o ++ b) = Ret (ie, b).
Proof.
  intros Hok Hs. destruct s as [|n|w p]; [done| |].
  - destruct Hok as (<-&Hl&Hn). eexists. split; [reflexivity|]. simpl. rewrite read_app' by done.
    destruct ie. simpl in *. by subst.
  - rewrite (write_sized _ _ _ _ Hok). eexists. split; [reflexivity|]. destruct Hok as (<-&Hl&Hp).
    rewrite <-app_assoc. cbn [read_ie]. rewrite read_app' by apply be_bytes_length.
    cbn [default from_option Datatypes.id]. rewrite be_nat_bytes by done. cbv zeta.
    rewrite read_part_app by (done || lia). by destruct ie.
Qed.

(** [acc] with the elements [ns] of [m]. *)
Definition taken (m acc acc' : message) (ns : list string) : Prop :=
  ∀ name, acc' !! name = if decide (name ∈ ns ∧ is_Some (m !! name)) then m !! name else acc !! name.

Lemma taken_insert m acc acc' name ie ns :
  m !! name = Some ie → taken m (<[name := ie]> acc) acc' ns → taken m acc acc' (name :: ns).
Proof.
  intros Hm H x. rewrite H. destruct (decide (x = name)) as [->|Hx].
  - rewrite lookup_insert_eq, Hm. repeat case_decide; try done; set_solver.
  - rewrite lookup_insert_ne by done. destruct (decide (x ∈ ns ∧ is_Some (m !! x))), (decide (x ∈ name :: ns ∧ is_Some (m !! x))); try done; set_solver.
Qed.

Lemma taken_skip m acc acc' name ns : m !! name = None → taken m acc acc' ns → taken m acc acc' (name :: ns).
Proof.
  intros Hm H x. rewrite H. destruct (decide (x ∈ ns ∧ is_Some (m !! x))) as [Hd|Hd], (decide (x ∈ name :: ns ∧ is_Some (m !! x))) as [He|He]; try done.
  - set_solver.
  - destruct He as [[->|He]%elem_of_cons [ie Hs]]; [congruence|]. destruct Hd. by split; [|eexists].
Qed.

Lemma mandatory_roundtrip es m acc b :
  forallb (λ '(_, s), match s with Half => false | _ => true end) es = true →
  (∀ name s, (name, s) ∈ es → ∃ ie, m !! name = Some ie ∧ ie_ok s 0 ie) →
  ∃ o acc', encode_mandatory es m = Ret o ∧ decode_mandatory es acc (o ++ b) = Ret (acc', b) ∧ taken m acc acc' es.*1.
Proof.
  revert acc. induction es as [|[name s] es IH]; intros acc Hs Hm.
  { exists [], acc. split; [done|]. split; [done|]. intros x. by case_decide as Hd; [destruct Hd as [Hd%elem_of_nil _]|]. }
  cbn [forallb] in Hs. apply andb_prop in Hs as [Hs Hss].
  destruct (Hm name s) as (ie&He&Hok); [set_solver|].
  destruct (IH (<[name := ie]> acc) Hss) as (os&acc'&Ho&Hd&Ht); [set_solver|].
  destruct (read_write_ie s 0 ie (os ++ b) Hok) as (o&Hw&Hr); [by destruct s|].
  exists (o ++ os), acc'. cbn [encode_mandatory decode_mandatory]. rewrite He. cbn [default from_option Datatypes.id].
  rewrite Hw, Ho. split; [done|]. rewrite <-app_assoc, Hr. cbn [mbind outcome_mbind]. rewrite Hd.
  split; [done|]. by apply (taken_insert m acc acc' name ie).
Qed.

Lemma find_ie_spec es name k s : NoDup (es.*1.*2) → (name, k, s) ∈ es → find_ie es k = Some (name, k, s).
Proof.
  induction es as [|[[n k'] s'] es IH]; intros Hn Hin; [by apply elem_of_nil in Hin|].
  cbn [find_ie List.find]. rewrite !fmap_cons in Hn. cbn [fst snd] in Hn. apply NoDup_cons in Hn as [Hk Hn].
  apply elem_of_cons in Hin as [[= -> -> ->]|Hin]; [by rewrite Z.eqb_refl|].
  destruct (Z.eqb_spec k' k) as [->|_]; [|by apply IH]. destruct Hk.
  apply list_elem_of_fmap. exists (name, k). split; [done|]. apply list_elem_of_fmap. by exists (name, k, s).
Qed.

(** The identifier octet and contents of one optional element. *)
Lemma optional_one es name k s ie b :
  NoDup (es.*1.*2) → (name, k, s) ∈ es → key_ok (name, k, s) = true → ie_ok s k ie →
  ∃ x o, (o' ← write_ie s ie; Ret (match s with Half => o' | _ => Iei ie :: o' end)) = Ret (x :: o) ∧
    find_ie es (case_of x) = Some (name, k, s) ∧ read_ie s x (o ++ b) = Ret (ie, b).
Proof.
  intros Hn Hin Hk Hok. destruct (decide (s = Half)) as [->|Hs].
  - destruct Hok as (x&->&Hc). exists x, []. split; [done|]. split; [|done].
    rewrite Hc. by apply find_ie_spec.
  - destruct (read_write_ie s k ie b Hok Hs) as (o&->&Hr). exists k, o.
    assert (Iei ie = k) as Hi by (destruct s; [done|apply Hok|apply Hok]).
    assert (16 ≤ k < 128) as Hb.
    { destruct s; [done| |]; cbn [key_ok] in Hk; apply andb_prop in Hk as [H1 H2]; lia. }
    split; [by destruct s; [|rewrite Hi..]|]. split; [|done].
    unfold case_of. destruct (Z.geb_spec k 128); [lia|]. by apply find_ie_spec.
Qed.

Lemma decode_nil fuel es acc : decode_optional fuel es acc [] = Ret acc.
Proof. by destruct fuel. Qed.

Lemma optional_roundtrip all es m acc :
  NoDup (all.*1.*2) → es ⊆ all → forallb key_ok es = true →
  (∀ name k s ie, (name, k, s) ∈ es → m !! name = Some ie → ie_ok s k ie) →
  ∃ o, encode_optional es m = Ret o ∧ ∀ fuel, (length o ≤ fuel)%nat →
    ∃ acc', decode_optional fuel all acc o = Ret acc' ∧ taken m acc acc' es.*1.*1.
Proof.
  intros Hn. revert acc. induction es as [|[[name k] s] es IH]; intros acc Hsub Hks Hm.
  { exists []. split; [done|]. intros fuel _. exists acc. rewrite decode_nil. split; [done|].
    intros x. by case_decide as Hd; [destruct Hd as [Hd%elem_of_nil _]|]. }
  cbn [forallb] in Hks. apply andb_prop in Hks as [Hk Hks]. cbn [encode_optional].
  destruct (m !! name) as [ie|] eqn:He.
  - destruct (IH (<[name := ie]> acc)) as (os&Hos&Hd); [set_solver|done|set_solver|].
    assert (ie_ok s k ie) as Hok by (apply (Hm name k s ie); [set_solver|done]).
    destruct (optional_one all name k s ie os Hn) as (x&o&Hw&Hf&Hr); [set_solver|done..|].
    rewrite Hos. apply bind_inv in Hw as (o'&->&Hw). apply (f_equal (λ r, match r with Ret l => l | _ => [] end)) in Hw.
    cbn [mbind outcome_mbind]. rewrite Hw. exists ((x :: o) ++ os). split; [done|].
    intros fuel Hl. cbn [app length] in *. rewrite length_app in Hl. destruct fuel as [|fuel]; [lia|].
    destruct (Hd fuel) as (acc'&Hdec&Ht); [lia|]. exists acc'. cbn [decode_optional]. rewrite Hf, Hr.
    cbn [mbind outcome_mbind]. split; [done|]. by apply (taken_insert m acc acc' name ie).
  - destruct (IH acc) as (os&Hos&Hd); [set_solver|done|set_solver|]. exists os. split; [done|].
    intros fuel Hl. destruct (Hd fuel Hl) as (acc'&Hdec&Ht). exists acc'. split; [done|].
    by apply taken_skip.
Qed.

Lemma layout_okE L : layout_ok L = true → NoDup ((optional L).*1.*2) ∧ forallb key_ok (optional L) = true ∧
  forallb (λ '(_, s), match s with Half => false | _ => true end) (mandatory L) = true.
Proof.
  unfold layout_ok. intros H. apply andb_prop in H as [H H4]. apply andb_prop in H as [H H3].
  apply andb_prop in H as [_ H2]. by apply bool_decide_eq_true in H2.
Qed.

Lemma decode_encode L m : layout_ok L = true → message_ok L m → ∃ b, encode L m = Ret b ∧ decode L b = Ret m.
Proof.
  intros (Hn&Hk&Hh)%layout_okE (Hmand&Hopt&Hdom).
  destruct (mandatory_roundtrip (mandatory L) m ∅ [] Hh Hmand) as (o&_&Ho&_&_).
  assert (∀ b, ∃ acc', decode_mandatory (mandatory L) ∅ (o ++ b) = Ret (acc', b) ∧ taken m ∅ acc' (mandatory L).*1) as Hd.
  { intros b. destruct (mandatory_roundtrip (mandatory L) m ∅ b Hh Hmand) as (o2&acc'&Ho2&Hd&Ht).
    assert (o2 = o) as -> by congruence. by exists acc'. }
  destruct (Hd []) as (acc0&_&Ht0).
  destruct (optional_roundtrip (optional L) (optional L) m acc0 Hn) as (os&Hos&_); [done..|].
  exists (o ++ os). unfold encode, decode. rewrite Ho, Hos. split; [done|].
  destruct (Hd os) as (acc'&->&Ht). cbn [mbind outcome_mbind].
  destruct (optional_roundtrip (optional L) (optional L) m acc' Hn) as (os2&Hos2&Hdec); [done..|].
  assert (os2 = os) as -> by congruence. destruct (Hdec (length os)) as (m'&Hm'&Ht'); [done|].
  assert (m' = m) as Hm.
  { apply map_eq. intros x. rewrite Ht', Ht, lookup_empty.
    destruct (m !! x) as [ie|] eqn:Hx; [|by repeat case_decide].
    assert (x ∈ names L) as Hin by (apply Hdom; by eexists). unfold names in Hin. apply elem_of_app in Hin as [Hin|Hin].
    - case_decide; [done|]. rewrite decide_True; [done|]. split; [done|by eexists].
    - rewrite decide_True; [done|]. split; [done|by eexists]. }
  destruct (optional L); [|by rewrite Hm', Hm]. destruct os; [|done]. cbn in Hm'. congruence.
Qed.

(** ** Termination and panics *)

Lemma read_shrinks n b r b' : read n b = (r, b') → (length b' ≤ length b)%nat.
Proof. unfold read. destruct (Nat.ltb_spec (length b) n); intros [= <- <-]; simpl; rewrite ?length_drop; lia. Qed.

Lemma read_ie_total s iei b : match read_ie s iei b with
  | Ret (_, b') => (length b' ≤ length b)%nat
  | Fail _ => False
  | Panic => ∃ w n, s = Sized w (Prefix n)
  end.
Proof.
  destruct s as [|n|w p]; simpl; [done| |].
  - destruct (read n b) as [r b'] eqn:E. by apply read_shrinks in E.
  - destruct (read w b) as [r b1] eqn:E. apply read_shrinks in E.
    destruct p as [n|n|]; simpl.
    + destruct (read n b1) as [r2 b2] eqn:E2. apply read_shrinks in E2. simpl. lia.
    + destruct (_ <? _)%nat; [by eexists _, _|]. destruct (read _ b1) as [r2 b2] eqn:E2.
      apply read_shrinks in E2. simpl. lia.
    + destruct (read _ b1) as [r2 b2] eqn:E2. apply read_shrinks in E2. simpl. lia.
Qed.

(** No element is an array prefix of its length. *)
Definition no_prefix (s : shape) : bool := match s with Sized _ (Prefix _) => false | _ => true end.
Definition never_panics (L : layout) : bool :=
  forallb (λ e, no_prefix e.2) (mandatory L) && forallb (λ e, no_prefix e.2) (optional L).

Definition total (safe : bool) {A} (r : outcome A) : Prop :=
  match r with Ret _ => True | Fail _ => False | Panic => safe = false end.

Lemma mandatory_total es m b :
  total (forallb (λ e, no_prefix e.2) es) (decode_mandatory es m b).
Proof.
  revert m b. induction es as [|[name s] es IH]; intros m b; [done|]. cbn [decode_mandatory].
  pose proof (read_ie_total s 0 b) as H. destruct (read_ie s 0 b) as [[ie b']| |]; [|done|].
  - cbn [mbind outcome_mbind]. specialize (IH (<[name := ie]> m) b').
    destruct (decode_mandatory es _ b'); [done|done|]. cbn [total forallb] in *. by rewrite IH, andb_false_r.
  - destruct H as (w&n&->). done.
Qed.

Lemma find_ie_in es k e : find_ie es k = Some e → e ∈ es.
Proof. intros H. apply find_some in H as [H _]. by apply list_elem_of_In. Qed.

Lemma optional_total fuel es m b : (length b ≤ fuel)%nat →
  total (forallb (λ e, no_prefix e.2) es) (decode_optional fuel es m b).
Proof.
  revert m b. induction fuel as [|fuel IH]; intros m b Hl; [by destruct b; [|simpl in Hl; lia]|].
  destruct b as [|iei b]; [done|]. cbn [decode_optional length] in *.
  destruct (find_ie es (case_of iei)) as [[[name k] s]|] eqn:Hf; [|apply IH; lia].
  pose proof (read_ie_total s iei b) as H. destruct (read_ie s iei b) as [[ie b']| |]; [|done|].
  - apply IH. lia.
  - destruct H as (w&n&->). cbn [mbind outcome_mbind total]. apply find_ie_in in Hf.
    destruct (forallb (λ e, no_prefix e.2) es) eqn:E; [|done].
    apply list_elem_of_In, (proj1 (forallb_forall _ _) E) in Hf. done.
Qed.

Lemma decode_total L b : total (never_panics L) (decode L b).
Proof.
  unfold decode, never_panics. pose proof (mandatory_total (mandatory L) ∅ b) as H.
  destruct (decode_mandatory _ _ _) as [[m b']| |]; [|done|by rewrite H].
  cbn [mbind outcome_mbind]. pose proof (optional_total (length b') (optional L) m b' (le_n _)) as H2.
  destruct (optional L); [done|]. destruct (decode_optional _ _ _ _); try done.
  cbn [total] in *. by rewrite H2, andb_false_r.
Qed.

(** ** What decoding returns *)

Definition typed (s : shape) (k : Z) (ie : IE) : Prop := ie_ok s k ie ∧ bytes_ok (Octet ie).

Lemma read_ok n b r b' : bytes_ok b → read n b = (r, b') →
  length (default (zeros n) r) = n ∧ bytes_ok (default (zeros n) r) ∧ bytes_ok b'.
Proof.
  intros Hb. unfold read. destruct (Nat.ltb_spec (length b) n); intros [= <- <-]; cbn [default from_option Datatypes.id].
  - split; [apply length_replicate|]. split; [|constructor]. apply Forall_replicate, in_width_0. lia.
  - rewrite length_take. split; [lia|]. split; [by apply Forall_take|by apply Forall_drop].
Qed.

Lemma be_nat_bound l : bytes_ok l → 0 ≤ be_nat l < 256 ^ blen l.
Proof.
  unfold blen. induction l as [|x l IH] using rev_ind; intros Hl; [done|].
  apply Forall_app in Hl as [Hl Hx]. apply Forall_cons in Hx as [Hx _]. specialize (IH Hl).
  rewrite be_nat_app, length_app. cbn [length]. rewrite Nat.add_1_r, Nat2Z.inj_succ, Z.pow_succ_r by lia.
  unfold in_width in Hx. change (2 ^ 8) with 256 in Hx. lia.
Qed.

Lemma read_part_ok p len b o b' : bytes_ok b → 0 ≤ len → read_part p len b = Ret (o, b') →
  part_ok p len o ∧ bytes_ok o ∧ bytes_ok b'.
Proof.
  intros Hb Hlen. destruct p as [n|n|]; cbn [read_part part_ok].
  - destruct (read n b) as [r b1] eqn:E. intros [= <- <-]. by destruct (read_ok _ _ _ _ Hb E) as (?&?&?).
  - destruct (Nat.ltb_spec n (Z.to_nat len)); [done|]. destruct (read _ b) as [r b1] eqn:E. intros [= <- <-].
    destruct (read_ok _ _ _ _ Hb E) as (H1&H2&H3). rewrite length_app, H1. unfold zeros. rewrite length_replicate.
    split; [|split; [|done]]; [|by apply Forall_app; split; [|apply Forall_replicate, in_width_0; lia]].
    split; [lia|]. split; [lia|]. by rewrite drop_app_length'.
  - destruct (read _ b) as [r b1] eqn:E. intros [= <- <-]. by destruct (read_ok _ _ _ _ Hb E) as (?&?&?).
Qed.

Lemma read_ie_ok s iei k b ie b' : bytes_ok b → in_width 8 iei → match s with Half => case_of iei | _ => iei end = k →
  read_ie s iei b = Ret (ie, b') → typed s k ie ∧ bytes_ok b'.
Proof.
  intros Hb Hi Hk. destruct s as [|n|w p]; cbn [read_ie].
  - intros [= <- <-]. split; [|done]. split; [by exists iei|]. by apply Forall_singleton.
  - destruct (read n b) as [r b1] eqn:E. intros [= <- <-]. by destruct (read_ok _ _ _ _ Hb E) as (?&?&?).
  - destruct (read w b) as [r b1] eqn:E. destruct (read_ok _ _ _ _ Hb E) as (H1&H2&H3).
    pose proof (be_nat_bound _ H2) as Hbound. unfold blen in Hbound. rewrite H1 in Hbound.
    intros ([o b2]&Hp&[= <- <-])%bind_inv. destruct (read_part_ok _ _ _ _ _ H3 (proj1 Hbound) Hp) as (?&?&?). by split.
Qed.

Lemma mandatory_typed es m b m' b' : NoDup es.*1 → bytes_ok b → decode_mandatory es m b = Ret (m', b') →
  bytes_ok b' ∧ (∀ name s, (name, s) ∈ es → ∃ ie, m' !! name = Some ie ∧ typed s 0 ie) ∧
  ∀ name, name ∉ es.*1 → m' !! name = m !! name.
Proof.
  revert m b. induction es as [|[n s] es IH]; intros m b Hn Hb.
  { intros [= <- <-]. split; [done|]. split; [|done]. intros ? ? H. by apply elem_of_nil in H. }
  rewrite fmap_cons in Hn. apply NoDup_cons in Hn as [Hni Hn]. cbn [decode_mandatory fst] in *.
  intros ([ie b1]&E1&E)%bind_inv.
  destruct (read_ie_ok s 0 0 b ie b1 Hb) as [Ht Hb1]; [apply in_width_0; lia|by destruct s|done|].
  destruct (IH _ _ Hn Hb1 E) as (H1&H2&H3). split; [done|]. split.
  - intros name s' [[= -> ->]|Hin]%elem_of_cons; [|by apply H2].
    exists ie. split; [|done]. by rewrite H3, lookup_insert_eq.
  - intros name Hname. rewrite fmap_cons in Hname. cbn [fst] in Hname. apply not_elem_of_cons in Hname as [Hne Hname].
    by rewrite H3, lookup_insert_ne.
Qed.

Lemma case_of_low x : in_width 8 x → 0x80 ≤ x → case_of x < 16.
Proof.
  intros Hx Hl. pose proof (forallb_byte (λ x, (x <? 0x80) || (case_of x <? 16)) eq_refl x Hx) as H.
  cbv beta in H. lia.
Qed.

Lemma find_ie_key es x n k s : in_width 8 x → forallb key_ok es = true → find_ie es (case_of x) = Some (n, k, s) →
  (n, k, s) ∈ es ∧ match s with Half => case_of x | _ => x end = k.
Proof.
  intros Hx Hk H. pose proof (find_ie_in _ _ _ H) as Hin. apply find_some in H as [_ E].
  apply Z.eqb_eq in E. split; [done|]. apply list_elem_of_In, (proj1 (forallb_forall _ _) Hk) in Hin.
  destruct (Z.leb_spec 0x80 x) as [Hl|Hl].
  - pose proof (case_of_low x Hx Hl). destruct s; [done|exfalso..]; cbn [key_ok] in Hin; lia.
  - assert (case_of x = x) as Ex by (unfold case_of; destruct (Z.geb_spec x 128); [lia|done]).
    rewrite Ex in *. by destruct s.
Qed.

Lemma optional_typed fuel es m b m' : forallb key_ok es = true → bytes_ok b → decode_optional fuel es m b = Ret m' →
  ∀ name, m' !! name = m !! name ∨ ∃ k s ie, (name, k, s) ∈ es ∧ m' !! name = Some ie ∧ typed s k ie.
Proof.
  intros Hk. revert m b. induction fuel as [|fuel IH]; intros m b Hb E name.
  { destruct b; [|done]. apply Ret_inj in E as <-. by left. }
  destruct b as [|x b]; [apply Ret_inj in E as <-; by left|]. apply Forall_cons in Hb as [Hx Hb].
  cbn [decode_optional] in E. destruct (find_ie es (case_of x)) as [[[n k] s]|] eqn:Hf; [|by apply (IH m b)].
  destruct (find_ie_key es x n k s Hx Hk Hf) as [Hin Hkey]. apply bind_inv in E as ([ie b1]&E1&E).
  destruct (read_ie_ok s x k b ie b1 Hb Hx Hkey E1) as [Ht Hb1].
  destruct (IH _ _ Hb1 E name) as [-> | H]; [|by right].
  destruct (decide (name = n)) as [->|Hne]; [right|left; by rewrite lookup_insert_ne].
  exists k, s, ie. split; [done|]. split; [by rewrite lookup_insert_eq|done].
Qed.

Lemma names_unique L name k s k' s' : layout_ok L = true →
  (name, k, s) ∈ optional L → (name, k', s') ∈ optional L → k = k' ∧ s = s'.
Proof.
  unfold layout_ok. intros HL. do 3 (apply andb_prop in HL as [HL _]). apply bool_decide_eq_true in HL.
  unfold names in HL. apply NoDup_app in HL as (_&_&H). induction (optional L) as [|[[n k0] s0] es IH].
  { intros Hin. by apply elem_of_nil in Hin. }
  rewrite !fmap_cons in H. cbn [fst] in H. apply NoDup_cons in H as [Hn H].
  assert (∀ k s, (name, k, s) ∈ es → name ∈ es.*1.*1) as Hin.
  { intros k1 s1 H1. apply list_elem_of_fmap. exists (name, k1). split; [done|]. apply list_elem_of_fmap. by exists (name, k1, s1). }
  intros [[= -> -> ->]|H1]%elem_of_cons [H2|H2]%elem_of_cons.
  - by injection H2 as -> ->.
  - by apply Hin in H2.
  - injection H2 as -> -> ->. by apply Hin in H1.
  - by apply IH.
Qed.

(** A decoded message is well formed and made of octets. *)
Lemma decode_typed L b m : layout_ok L = true → bytes_ok b → decode L b = Ret m →
  message_ok L m ∧ ∀ name ie, m !! name = Some ie → bytes_ok (Octet ie).
Proof.
  intros HL Hb E. destruct (layout_okE L HL) as (_&Hk&_).
  assert (NoDup (names L)) as Hn.
  { unfold layout_ok in HL. do 3 (apply andb_prop in HL as [HL _]). by apply bool_decide_eq_true in HL. }
  unfold names in Hn. apply NoDup_app in Hn as (H1&H12&_).
  unfold decode in E. apply bind_inv in E as ([m0 b0]&E0&E).
  destruct (mandatory_typed _ _ _ _ _ H1 Hb E0) as (Hb0&Hm&Hrest).
  assert (∀ name, m !! name = m0 !! name ∨ ∃ k s ie, (name, k, s) ∈ optional L ∧ m !! name = Some ie ∧ typed s k ie) as Ho.
  { destruct (optional L) as [|e es]; [apply Ret_inj in E as <-; by left|]. by apply (optional_typed _ _ _ _ _ Hk Hb0 E). }
  assert (∀ name k s, (name, k, s) ∈ optional L → name ∉ (mandatory L).*1) as Hdis.
  { intros name k s Hin Hx. apply (H12 name Hx). apply list_elem_of_fmap. exists (name, k). split; [done|].
    apply list_elem_of_fmap. by exists (name, k, s). }
  assert (∀ name s, (name, s) ∈ mandatory L → ∃ ie, m !! name = Some ie ∧ typed s 0 ie) as Hmand.
  { intros name s Hin. destruct (Ho name) as [-> | (k&s'&ie&Hin'&_)]; [by apply Hm|].
    destruct (Hdis _ _ _ Hin'). apply list_elem_of_fmap. by exists (name, s). }
  assert (∀ name ie, m !! name = Some ie → (∃ s, (name, s) ∈ mandatory L ∧ typed s 0 ie) ∨
    ∃ k s, (name, k, s) ∈ optional L ∧ typed s k ie) as Hall.
  { intros name ie Hl. destruct (Ho name) as [H0 | (k&s&ie'&Hin&Hl'&Ht)].
    - left. destruct (decide (name ∈ (mandatory L).*1)) as [Hin|Hin].
      + apply list_elem_of_fmap in Hin as ([n s]&->&Hin). exists s. destruct (Hmand n s Hin) as (ie'&Hl'&Ht).
        cbn [fst] in Hl. rewrite Hl in Hl'. injection Hl' as <-. by split.
      + rewrite H0, (Hrest _ Hin), lookup_empty in Hl. done.
    - right. rewrite Hl in Hl'. injection Hl' as <-. by exists k, s. }
  split; [split; [|split]|].
  - intros name s Hin. destruct (Hmand name s Hin) as (ie&?&[? _]). by exists ie.
  - intros name k s ie Hin Hl. destruct (Hall name ie Hl) as [(s'&Hin'&_)|(k'&s'&Hin'&[Ht _])].
    + destruct (Hdis _ _ _ Hin). apply list_elem_of_fmap. by exists (name, s').
    + by destruct (names_unique L name k s k' s' HL Hin Hin') as [-> ->].
  - intros name [ie Hl]. unfold names. apply elem_of_app. destruct (Hall name ie Hl) as [(s'&Hin'&_)|(k'&s'&Hin'&_)].
    + left. apply list_elem_of_fmap. by exists (name, s').
    + right. apply list_elem_of_fmap. exists (name, k'). split; [done|]. apply list_elem_of_fmap. by exists (name, k', s').
  - intros name ie Hl. by destruct (Hall name ie Hl) as [(s'&_&_&?)|(k'&s'&_&_&?)].
Qed.

(** ** Messages given by the list of their elements *)

Definition elements (l : list (string * IE)) : message := list_to_map l.

Definition assoc {A} (name : string) (l : list (string * A)) : option A :=
  snd <$> List.find (λ p, (p.1 =? name)%string) l.

(** The element fits its place in the layout. *)
Definition field_ok (L : layout) (p : string * IE) : Prop :=
  match assoc p.1 (mandatory L) with
  | Some s => ie_ok s 0 p.2
  | None =>
    match assoc p.1 ((λ '(n, k, s), (n, (k, s))) <$> optional L) with
    | Some (k, s) => ie_ok s k p.2
    | None => False
    end
  end.

Lemma assoc_in {A} name (l : list (string * A)) a : assoc name l = Some a → (name, a) ∈ l.
Proof.
  unfold assoc. intros H. apply fmap_Some in H as ([n x]&H&->). apply find_some in H as [H E].
  apply String.eqb_eq in E. simpl in *. subst. by apply list_elem_of_In.
Qed.

Lemma assoc_unique {A} name (l : list (string * A)) a : NoDup l.*1 → (name, a) ∈ l → assoc name l = Some a.
Proof.
  unfold assoc. induction l as [|[n x] l IH]; intros Hn Hin; [by apply elem_of_nil in Hin|].
  rewrite fmap_cons in Hn. cbn [fst] in Hn. apply NoDup_cons in Hn as [Hk Hn]. cbn [List.find fst].
  apply elem_of_cons in Hin as [[= -> ->]|Hin]; [by rewrite String.eqb_refl|].
  destruct (String.eqb_spec n name) as [->|_]; [|by apply IH].
  destruct Hk. apply list_elem_of_fmap. by exists (name, a).
Qed.

Lemma assoc_None {A} name (l : list (string * A)) : name ∉ l.*1 → assoc name l = None.
Proof.
  intros H. destruct (assoc name l) as [a|] eqn:E; [|done]. apply assoc_in in E. destruct H.
  apply list_elem_of_fmap. by exists (name, a).
Qed.

Lemma keyed_names (l : list (string * Z * shape)) : ((λ '(n, k, s), (n, (k, s))) <$> l).*1 = l.*1.*1.
Proof. induction l as [|[[n k] s] l IH]; [done|]. cbn. by f_equal. Qed.

Lemma elements_ok L l : layout_ok L = true → bool_decide (NoDup l.*1) = true →
  forallb (λ e, bool_decide (e.1 ∈ l.*1)) (mandatory L) = true → Forall (field_ok L) l → message_ok L (elements l).
Proof.
  unfold layout_ok. intros HL Hn%bool_decide_eq_true Hm Hf. do 3 (apply andb_prop in HL as [HL _]).
  apply bool_decide_eq_true in HL. unfold names in HL. apply NoDup_app in HL as (H1&H12&H2).
  assert (∀ name ie, elements l !! name = Some ie → (name, ie) ∈ l) as Hin by (intros ? ? H; by apply elem_of_list_to_map_2 in H).
  assert (∀ name ie, elements l !! name = Some ie → field_ok L (name, ie)) as Hfield.
  { intros name ie H. by apply (proj1 (List.Forall_forall _ _) Hf), list_elem_of_In, Hin. }
  split; [|split].
  - intros name s Hs. assert (name ∈ l.*1) as Hl.
    { apply list_elem_of_In in Hs. by apply (proj1 (forallb_forall _ _) Hm), bool_decide_eq_true in Hs. } destruct (elements l !! name) as [ie|] eqn:E.
    + exists ie. split; [done|]. specialize (Hfield _ _ E). unfold field_ok in Hfield. cbn [fst snd] in Hfield.
      by rewrite (assoc_unique name _ s H1 Hs) in Hfield.
    + by apply not_elem_of_list_to_map in E.
  - intros name k s ie Hs E. specialize (Hfield _ _ E). unfold field_ok in Hfield. cbn [fst snd] in Hfield.
    rewrite assoc_None in Hfield.
    + rewrite (assoc_unique name _ (k, s)) in Hfield; [done| |].
      * by rewrite keyed_names.
      * apply list_elem_of_fmap. by exists (name, k, s).
    + intros Hx. apply (H12 name Hx). apply list_elem_of_fmap. exists (name, k). split; [done|].
      apply list_elem_of_fmap. by exists (name, k, s).
  - intros name [ie E]. specialize (Hfield _ _ E). unfold field_ok in Hfield. cbn [fst snd] in Hfield. unfold names.
    apply elem_of_app. destruct (assoc name (mandatory L)) as [s|] eqn:Es.
    + left. apply assoc_in in Es. apply list_elem_of_fmap. by exists (name, s).
    + right. destruct (assoc name _) as [[k s]|] eqn:Eo in Hfield; [|done].
      apply assoc_in in Eo. apply list_elem_of_fmap in Eo as ([[n k'] s']&[= <- <- <-]&Eo).
      apply list_elem_of_fmap. exists (name, k). split; [done|]. apply list_elem_of_fmap. by exists (name, k, s).
Qed.

Lemma field_mandatory L name ie s : assoc name (mandatory L) = Some s → ie_ok s 0 ie → field_ok L (name, ie).
Proof. unfold field_ok. cbn [fst snd]. by intros ->. Qed.
Lemma field_optional L name ie k s : assoc name (mandatory L) = None →
  assoc name ((λ '(n, k, s), (n, (k, s))) <$> optional L) = Some (k, s) → ie_ok s k ie → field_ok L (name, ie).
Proof. unfold field_ok. cbn [fst snd]. by intros -> ->. Qed.

(** Checks a concrete list of elements. *)
Ltac message_elements :=
  apply elements_ok; [vm_compute; reflexivity..|
    repeat (apply Forall_cons; split; [vm_compute; repeat split; done|]); apply List.Forall_nil].
