(* ===== verification/NasLayouts.v ===== *)
(** * lib/nas/nasMessage and lib/nas/nasType: the layouts of the NAS messages

    One [layout] per message of lib/nas/nasMessage, with the elements in the
    order of its Encode and Decode functions (which agree), the identifiers of
    its constants and the widths of the fields of lib/nas/nasType. *)

From S2P Require Import Prelude NasMessage.

#[local] Open Scope Z_scope.
#[local] Open Scope string_scope.

Definition AuthenticationFailure : layout := MkLayout
  [ ("ExtendedProtocolDiscriminator", Value 1);
    ("SpareHalfOctetAndSecurityHeaderType", Value 1);
    ("AuthenticationFailureMessageIdentity", Value 1);
    ("Cause5GMM", Value 1) ]
  [ ("AuthenticationFailureParameter", 0x30, Sized 1 (Prefix 14)) ].

Definition AuthenticationReject : layout := MkLayout
  [ ("ExtendedProtocolDiscriminator", Value 1);
    ("SpareHalfOctetAndSecurityHeaderType", Value 1);
    ("AuthenticationRejectMessageIdentity", Value 1) ]
  [ ("EAPMessage", 0x78, Sized 2 Buffer) ].

Definition AuthenticationRequest : layout := MkLayout
  [ ("ExtendedProtocolDiscriminator", Value 1);
    ("SpareHalfOctetAndSecurityHeaderType", Value 1);
    ("AuthenticationRequestMessageIdentity", Value 1);
    ("SpareHalfOctetAndNgksi", Value 1);
    ("ABBA", Sized 1 Buffer) ]
  [ ("AuthenticationParameterRAND", 0x21, Value 16);
    ("AuthenticationParameterAUTN", 0x20, Sized 1 (Prefix 16));
    ("EAPMessage", 0x78, Sized 2 Buffer) ].

Definition AuthenticationResponse : layout := MkLayout
  [ ("ExtendedProtocolDiscriminator", Value 1);
    ("SpareHalfOctetAndSecurityHeaderType", Value 1);
    ("AuthenticationResponseMessageIdentity", Value 1) ]
  [ ("AuthenticationResponseParameter", 0x2d, Sized 1 (Prefix 16));
    ("EAPMessage", 0x78, Sized 2 Buffer) ].

Definition AuthenticationResult : layout := MkLayout
  [ ("ExtendedProtocolDiscriminator", Value 1);
    ("SpareHalfOctetAndSecurityHeaderType", Value 1);
    ("AuthenticationResultMessageIdentity", Value 1);
    ("SpareHalfOctetAndNgksi", Value 1);
    ("EAPMessage", Sized 2 Buffer) ]
  [ ("ABBA", 0x38, Sized 1 Buffer) ].

Definition ConfigurationUpdateCommand : layout := MkLayout
  [ ("ExtendedProtocolDiscriminator", Value 1);
    ("SpareHalfOctetAndSecurityHeaderType", Value 1);
    ("ConfigurationUpdateCommandMessageIdentity", Value 1) ]
  [ ("ConfigurationUpdateIndication", 0x0d, Half);
    ("GUTI5G", 0x77, Sized 2 (Prefix 11));
    ("TAIList", 0x54, Sized 1 Buffer);
    ("AllowedNSSAI", 0x15, Sized 1 Buffer);
    ("ServiceAreaList", 0x27, Sized 1 Buffer);
    ("FullNameForNetwork", 0x43, Sized 1 Buffer);
    ("ShortNameForNetwork", 0x45, Sized 1 Buffer);
    ("LocalTimeZone", 0x46, Value 1);
    ("UniversalTimeAndLocalTimeZone", 0x47, Value 7);
    ("NetworkDaylightSavingTime", 0x49, Sized 1 (Array 1));
    ("LADNInformation", 0x79, Sized 2 Buffer);
    ("MICOIndication", 0x0b, Half);
    ("NetworkSlicingIndication", 0x09, Half);
    ("ConfiguredNSSAI", 0x31, Sized 1 Buffer);
    ("RejectedNSSAI", 0x11, Sized 1 Buffer);
    ("OperatordefinedAccessCategoryDefinitions", 0x76, Sized 2 Buffer);
    ("SMSIndication", 0x0f, Half) ].

Definition ConfigurationUpdateComplete : layout := MkLayout
  [ ("ExtendedProtocolDiscriminator", Value 1);
    ("SpareHalfOctetAndSecurityHeaderType", Value 1);
    ("ConfigurationUpdateCompleteMessageIdentity", Value 1) ]
  [].

Definition DLNASTransport : layout := MkLayout
  [ ("ExtendedProtocolDiscriminator", Value 1);
    ("SpareHalfOctetAndSecurityHeaderType", Value 1);
    ("DLNASTRANSPORTMessageIdentity", Value 1);
    ("SpareHalfOctetAndPayloadContainerType", Value 1);
    ("PayloadContainer", Sized 2 Buffer) ]
  [ ("PduSessionID2Value", 0x12, Value 1);
    ("AdditionalInformation", 0x24, Sized 1 Buffer);
    ("Cause5GMM", 0x58, Value 1);
    ("BackoffTimerValue", 0x37, Sized 1 (Array 1)) ].

Definition DeregistrationAcceptUEOriginatingDeregistration : layout := MkLayout
  [ ("ExtendedProtocolDiscriminator", Value 1);
    ("SpareHalfOctetAndSecurityHeaderType", Value 1);
    ("DeregistrationAcceptMessageIdentity", Value 1) ]
  [].

Definition DeregistrationAcceptUETerminatedDeregistration : layout := MkLayout
  [ ("ExtendedProtocolDiscriminator", Value 1);
    ("SpareHalfOctetAndSecurityHeaderType", Value 1);
    ("DeregistrationAcceptMessageIdentity", Value 1) ]
  [].

Definition DeregistrationRequestUEOriginatingDeregistration : layout := MkLayout
  [ ("ExtendedProtocolDiscriminator", Value 1);
    ("SpareHalfOctetAndSecurityHeaderType", Value 1);
    ("DeregistrationRequestMessageIdentity", Value 1);
    ("NgksiAndDeregistrationType", Value 1);
    ("MobileIdentity5GS", Sized 2 Buffer) ]
  [].

Definition DeregistrationRequestUETerminatedDeregistration : layout := MkLayout
  [ ("ExtendedProtocolDiscriminator", Value 1);
    ("SpareHalfOctetAndSecurityHeaderType", Value 1);
    ("DeregistrationRequestMessageIdentity", Value 1);
    ("SpareHalfOctetAndDeregistrationType", Value 1) ]
  [ ("Cause5GMM", 0x58, Value 1);
    ("T3346Value", 0x5f, Sized 1 (Array 1)) ].

Definition IdentityRequest : layout := MkLayout
  [ ("ExtendedProtocolDiscriminator", Value 1);
    ("SpareHalfOctetAndSecurityHeaderType", Value 1);
    ("IdentityRequestMessageIdentity", Value 1);
    ("SpareHalfOctetAndIdentityType", Value 1) ]
  [].

Definition IdentityResponse : layout := MkLayout
  [ ("ExtendedProtocolDiscriminator", Value 1);
    ("SpareHalfOctetAndSecurityHeaderType", Value 1);
    ("IdentityResponseMessageIdentity", Value 1);
    ("MobileIdentity", Sized 2 Buffer) ]
  [].

Definition Notification : layout := MkLayout
  [ ("ExtendedProtocolDiscriminator", Value 1);
    ("SpareHalfOctetAndSecurityHeaderType", Value 1);
    ("NotificationMessageIdentity", Value 1);
    ("SpareHalfOctetAndAccessType", Value 1) ]
  [].

Definition NotificationResponse : layout := MkLayout
  [ ("ExtendedProtocolDiscriminator", Value 1);
    ("SpareHalfOctetAndSecurityHeaderType", Value 1);
    ("NotificationResponseMessageIdentity", Value 1) ]
  [ ("PDUSessionStatus", 0x50, Sized 1 Buffer) ].

Definition PDUSessionAuthenticationCommand : layout := MkLayout
  [ ("ExtendedProtocolDiscriminator", Value 1);
    ("PDUSessionID", Value 1);
    ("PTI", Value 1);
    ("PDUSESSIONAUTHENTICATIONCOMMANDMessageIdentity", Value 1);
    ("EAPMessage", Sized 2 Buffer) ]
  [ ("ExtendedProtocolConfigurationOptions", 0x7b, Sized 2 Buffer) ].

Definition PDUSessionAuthenticationComplete : layout := MkLayout
  [ ("ExtendedProtocolDiscriminator", Value 1);
    ("PDUSessionID", Value 1);
    ("PTI", Value 1);
    ("PDUSESSIONAUTHENTICATIONCOMPLETEMessageIdentity", Value 1);
    ("EAPMessage", Sized 2 Buffer) ]
  [ ("ExtendedProtocolConfigurationOptions", 0x7b, Sized 2 Buffer) ].

Definition PDUSessionAuthenticationResult : layout := MkLayout
  [ ("ExtendedProtocolDiscriminator", Value 1);
    ("PDUSessionID", Value 1);
    ("PTI", Value 1);
    ("PDUSESSIONAUTHENTICATIONRESULTMessageIdentity", Value 1) ]
  [ ("EAPMessage", 0x78, Sized 2 Buffer);
    ("ExtendedProtocolConfigurationOptions", 0x7b, Sized 2 Buffer) ].

Definition PDUSessionEstablishmentAccept : layout := MkLayout
  [ ("ExtendedProtocolDiscriminator", Value 1);
    ("PDUSessionID", Value 1);
    ("PTI", Value 1);
    ("PDUSESSIONESTABLISHMENTACCEPTMessageIdentity", Value 1);
    ("SelectedSSCModeAndSelectedPDUSessionType", Value 1);
    ("AuthorizedQosRules", Sized 2 Buffer);
    ("SessionAMBR", Sized 1 (Array 6)) ]
  [ ("Cause5GSM", 0x59, Value 1);
    ("PDUAddress", 0x29, Sized 1 (Prefix 13));
    ("RQTimerValue", 0x56, Value 1);
    ("SNSSAI", 0x22, Sized 1 (Prefix 8));
    ("AlwaysonPDUSessionIndication", 0x08, Half);
    ("MappedEPSBearerContexts", 0x75, Sized 2 Buffer);
    ("EAPMessage", 0x78, Sized 2 Buffer);
    ("AuthorizedQosFlowDescriptions", 0x79, Sized 2 Buffer);
    ("ExtendedProtocolConfigurationOptions", 0x7b, Sized 2 Buffer);
    ("DNN", 0x25, Sized 1 Buffer) ].

Definition PDUSessionEstablishmentReject : layout := MkLayout
  [ ("ExtendedProtocolDiscriminator", Value 1);
    ("PDUSessionID", Value 1);
    ("PTI", Value 1);
    ("PDUSESSIONESTABLISHMENTREJECTMessageIdentity", Value 1);
    ("Cause5GSM", Value 1) ]
  [ ("BackoffTimerValue", 0x37, Sized 1 (Array 1));
    ("AllowedSSCMode", 0x0f, Half);
    ("EAPMessage", 0x78, Sized 2 Buffer);
    ("ExtendedProtocolConfigurationOptions", 0x7b, Sized 2 Buffer) ].

Definition PDUSessionEstablishmentRequest : layout := MkLayout
  [ ("ExtendedProtocolDiscriminator", Value 1);
    ("PDUSessionID", Value 1);
    ("PTI", Value 1);
    ("PDUSESSIONESTABLISHMENTREQUESTMessageIdentity", Value 1);
    ("IntegrityProtectionMaximumDataRate", Value 2) ]
  [ ("PDUSessionType", 0x09, Half);
    ("SSCMode", 0x0a, Half);
    ("Capability5GSM", 0x28, Sized 1 (Prefix 13));
    ("MaximumNumberOfSupportedPacketFilters", 0x55, Value 2);
    ("AlwaysonPDUSessionRequested", 0x0b, Half);
    ("SMPDUDNRequestContainer", 0x39, Sized 1 Buffer);
    ("ExtendedProtocolConfigurationOptions", 0x7b, Sized 2 Buffer) ].

Definition PDUSessionModificationCommand : layout := MkLayout
  [ ("ExtendedProtocolDiscriminator", Value 1);
    ("PDUSessionID", Value 1);
    ("PTI", Value 1);
    ("PDUSESSIONMODIFICATIONCOMMANDMessageIdentity", Value 1) ]
  [ ("Cause5GSM", 0x59, Value 1);
    ("SessionAMBR", 0x2a, Sized 1 (Prefix 6));
    ("RQTimerValue", 0x56, Value 1);
    ("AlwaysonPDUSessionIndication", 0x08, Half);
    ("AuthorizedQosRules", 0x7a, Sized 2 Buffer);
    ("MappedEPSBearerContexts", 0x7f, Sized 2 Buffer);
    ("AuthorizedQosFlowDescriptions", 0x79, Sized 2 Buffer);
    ("ExtendedProtocolConfigurationOptions", 0x7b, Sized 2 Buffer) ].

Definition PDUSessionModificationCommandReject : layout := MkLayout
  [ ("ExtendedProtocolDiscriminator", Value 1);
    ("PDUSessionID", Value 1);
    ("PTI", Value 1);
    ("PDUSESSIONMODIFICATIONCOMMANDREJECTMessageIdentity", Value 1);
    ("Cause5GSM", Value 1) ]
  [ ("ExtendedProtocolConfigurationOptions", 0x7b, Sized 2 Buffer) ].

Definition PDUSessionModificationComplete : layout := MkLayout
  [ ("ExtendedProtocolDiscriminator", Value 1);
    ("PDUSessionID", Value 1);
    ("PTI", Value 1);
    ("PDUSESSIONMODIFICATIONCOMPLETEMessageIdentity", Value 1) ]
  [ ("ExtendedProtocolConfigurationOptions", 0x7b, Sized 2 Buffer) ].

Definition PDUSessionModificationReject : layout := MkLayout
  [ ("ExtendedProtocolDiscriminator", Value 1);
    ("PDUSessionID", Value 1);
    ("PTI", Value 1);
    ("PDUSESSIONMODIFICATIONREJECTMessageIdentity", Value 1);
    ("Cause5GSM", Value 1) ]
  [ ("BackoffTimerValue", 0x37, Sized 1 (Array 1));
    ("ExtendedProtocolConfigurationOptions", 0x7b, Sized 2 Buffer) ].

Definition PDUSessionModificationRequest : layout := MkLayout
  [ ("ExtendedProtocolDiscriminator", Value 1);
    ("PDUSessionID", Value 1);
    ("PTI", Value 1);
    ("PDUSESSIONMODIFICATIONREQUESTMessageIdentity", Value 1) ]
  [ ("Capability5GSM", 0x28, Sized 1 (Prefix 13));
    ("Cause5GSM", 0x59, Value 1);
    ("MaximumNumberOfSupportedPacketFilters", 0x55, Value 2);
    ("AlwaysonPDUSessionRequested", 0x0b, Half);
    ("IntegrityProtectionMaximumDataRate", 0x13, Value 2);
    ("RequestedQosRules", 0x7a, Sized 1 Buffer);
    ("RequestedQosFlowDescriptions", 0x79, Sized 2 Buffer);
    ("MappedEPSBearerContexts", 0x7f, Sized 2 Buffer);
    ("ExtendedProtocolConfigurationOptions", 0x7b, Sized 2 Buffer) ].

Definition PDUSessionReleaseCommand : layout := MkLayout
  [ ("ExtendedProtocolDiscriminator", Value 1);
    ("PDUSessionID", Value 1);
    ("PTI", Value 1);
    ("PDUSESSIONRELEASECOMMANDMessageIdentity", Value 1);
    ("Cause5GSM", Value 1) ]
  [ ("BackoffTimerValue", 0x37, Sized 1 (Array 1));
    ("EAPMessage", 0x78, Sized 2 Buffer);
    ("ExtendedProtocolConfigurationOptions", 0x7b, Sized 2 Buffer) ].

Definition PDUSessionReleaseComplete : layout := MkLayout
  [ ("ExtendedProtocolDiscriminator", Value 1);
    ("PDUSessionID", Value 1);
    ("PTI", Value 1);
    ("PDUSESSIONRELEASECOMPLETEMessageIdentity", Value 1) ]
  [ ("Cause5GSM", 0x59, Value 1);
    ("ExtendedProtocolConfigurationOptions", 0x7b, Sized 2 Buffer) ].

Definition PDUSessionReleaseReject : layout := MkLayout
  [ ("ExtendedProtocolDiscriminator", Value 1);
    ("PDUSessionID", Value 1);
    ("PTI", Value 1);
    ("PDUSESSIONRELEASEREJECTMessageIdentity", Value 1);
    ("Cause5GSM", Value 1) ]
  [ ("ExtendedProtocolConfigurationOptions", 0x7b, Sized 2 Buffer) ].

Definition PDUSessionReleaseRequest : layout := MkLayout
  [ ("ExtendedProtocolDiscriminator", Value 1);
    ("PDUSessionID", Value 1);
    ("PTI", Value 1);
    ("PDUSESSIONRELEASEREQUESTMessageIdentity", Value 1) ]
  [ ("Cause5GSM", 0x59, Value 1);
    ("ExtendedProtocolConfigurationOptions", 0x7b, Sized 2 Buffer) ].

Definition RegistrationAccept : layout := MkLayout
  [ ("ExtendedProtocolDiscriminator", Value 1);
    ("SpareHalfOctetAndSecurityHeaderType", Value 1);
    ("RegistrationAcceptMessageIdentity", Value 1);
    ("RegistrationResult5GS", Sized 1 (Array 1)) ]
  [ ("GUTI5G", 0x77, Sized 2 (Prefix 11));
    ("EquivalentPlmns", 0x4a, Sized 1 (Prefix 45));
    ("TAIList", 0x54, Sized 1 Buffer);
    ("AllowedNSSAI", 0x15, Sized 1 Buffer);
    ("RejectedNSSAI", 0x11, Sized 1 Buffer);
    ("ConfiguredNSSAI", 0x31, Sized 1 Buffer);
    ("NetworkFeatureSupport5GS", 0x21, Sized 1 (Prefix 3));
    ("PDUSessionStatus", 0x50, Sized 1 Buffer);
    ("PDUSessionReactivationResult", 0x26, Sized 1 Buffer);
    ("PDUSessionReactivationResultErrorCause", 0x72, Sized 2 Buffer);
    ("LADNInformation", 0x79, Sized 2 Buffer);
    ("MICOIndication", 0x0b, Half);
    ("NetworkSlicingIndication", 0x09, Half);
    ("ServiceAreaList", 0x27, Sized 1 Buffer);
    ("T3512Value", 0x5e, Sized 1 (Array 1));
    ("Non3GppDeregistrationTimerValue", 0x5d, Sized 1 (Array 1));
    ("T3502Value", 0x16, Sized 1 (Array 1));
    ("EmergencyNumberList", 0x34, Sized 1 Buffer);
    ("ExtendedEmergencyNumberList", 0x7a, Sized 2 Buffer);
    ("SORTransparentContainer", 0x73, Sized 2 Buffer);
    ("EAPMessage", 0x78, Sized 2 Buffer);
    ("NSSAIInclusionMode", 0x0a, Half);
    ("OperatordefinedAccessCategoryDefinitions", 0x76, Sized 2 Buffer);
    ("NegotiatedDRXParameters", 0x51, Sized 1 (Array 1)) ].

Definition RegistrationComplete : layout := MkLayout
  [ ("ExtendedProtocolDiscriminator", Value 1);
    ("SpareHalfOctetAndSecurityHeaderType", Value 1);
    ("RegistrationCompleteMessageIdentity", Value 1) ]
  [ ("SORTransparentContainer", 0x73, Sized 2 Buffer) ].

Definition RegistrationReject : layout := MkLayout
  [ ("ExtendedProtocolDiscriminator", Value 1);
    ("SpareHalfOctetAndSecurityHeaderType", Value 1);
    ("RegistrationRejectMessageIdentity", Value 1);
    ("Cause5GMM", Value 1) ]
  [ ("T3346Value", 0x5f, Sized 1 (Array 1));
    ("T3502Value", 0x16, Sized 1 (Array 1));
    ("EAPMessage", 0x78, Sized 2 Buffer) ].

Definition RegistrationRequest : layout := MkLayout
  [ ("ExtendedProtocolDiscriminator", Value 1);
    ("SpareHalfOctetAndSecurityHeaderType", Value 1);
    ("RegistrationRequestMessageIdentity", Value 1);
    ("NgksiAndRegistrationType5GS", Value 1);
    ("MobileIdentity5GS", Sized 2 Buffer) ]
  [ ("NoncurrentNativeNASKeySetIdentifier", 0x0c, Half);
    ("Capability5GMM", 0x10, Sized 1 (Prefix 13));
    ("UESecurityCapability", 0x2e, Sized 1 Buffer);
    ("RequestedNSSAI", 0x2f, Sized 1 Buffer);
    ("LastVisitedRegisteredTAI", 0x52, Value 7);
    ("S1UENetworkCapability", 0x17, Sized 1 Buffer);
    ("UplinkDataStatus", 0x40, Sized 1 Buffer);
    ("PDUSessionStatus", 0x50, Sized 1 Buffer);
    ("MICOIndication", 0x0b, Half);
    ("UEStatus", 0x2b, Sized 1 (Array 1));
    ("AdditionalGUTI", 0x77, Sized 2 (Prefix 11));
    ("AllowedPDUSessionStatus", 0x25, Sized 1 Buffer);
    ("UesUsageSetting", 0x18, Sized 1 (Array 1));
    ("RequestedDRXParameters", 0x51, Sized 1 (Array 1));
    ("EPSNASMessageContainer", 0x70, Sized 2 Buffer);
    ("LADNIndication", 0x74, Sized 2 Buffer);
    ("PayloadContainer", 0x7b, Sized 2 Buffer);
    ("NetworkSlicingIndication", 0x09, Half);
    ("UpdateType5GS", 0x53, Sized 1 (Array 1));
    ("NASMessageContainer", 0x71, Sized 2 Buffer) ].

Definition SecurityModeCommand : layout := MkLayout
  [ ("ExtendedProtocolDiscriminator", Value 1);
    ("SpareHalfOctetAndSecurityHeaderType", Value 1);
    ("SecurityModeCommandMessageIdentity", Value 1);
    ("SelectedNASSecurityAlgorithms", Value 1);
    ("SpareHalfOctetAndNgksi", Value 1);
    ("ReplayedUESecurityCapabilities", Sized 1 Buffer) ]
  [ ("IMEISVRequest", 0x0e, Half);
    ("SelectedEPSNASSecurityAlgorithms", 0x57, Value 1);
    ("Additional5GSecurityInformation", 0x36, Sized 1 (Array 1));
    ("EAPMessage", 0x78, Sized 2 Buffer);
    ("ABBA", 0x38, Sized 1 Buffer);
    ("ReplayedS1UESecurityCapabilities", 0x19, Sized 1 Buffer) ].

Definition SecurityModeComplete : layout := MkLayout
  [ ("ExtendedProtocolDiscriminator", Value 1);
    ("SpareHalfOctetAndSecurityHeaderType", Value 1);
    ("SecurityModeCompleteMessageIdentity", Value 1) ]
  [ ("IMEISV", 0x77, Sized 2 (Prefix 9));
    ("NASMessageContainer", 0x71, Sized 2 Buffer) ].

Definition SecurityModeReject : layout := MkLayout
  [ ("ExtendedProtocolDiscriminator", Value 1);
    ("SpareHalfOctetAndSecurityHeaderType", Value 1);
    ("SecurityModeRejectMessageIdentity", Value 1);
    ("Cause5GMM", Value 1) ]
  [].

Definition SecurityProtected5GSNASMessage : layout := MkLayout
  [ ("ExtendedProtocolDiscriminator", Value 1);
    ("SpareHalfOctetAndSecurityHeaderType", Value 1);
    ("MessageAuthenticationCode", Value 4);
    ("SequenceNumber", Value 1);
    ("Plain5GSNASMessage", Value 0) ]
  [].

Definition ServiceAccept : layout := MkLayout
  [ ("ExtendedProtocolDiscriminator", Value 1);
    ("SpareHalfOctetAndSecurityHeaderType", Value 1);
    ("ServiceAcceptMessageIdentity", Value 1) ]
  [ ("PDUSessionStatus", 0x50, Sized 1 Buffer);
    ("PDUSessionReactivationResult", 0x26, Sized 1 Buffer);
    ("PDUSessionReactivationResultErrorCause", 0x72, Sized 2 Buffer);
    ("EAPMessage", 0x78, Sized 2 Buffer) ].

Definition ServiceReject : layout := MkLayout
  [ ("ExtendedProtocolDiscriminator", Value 1);
    ("SpareHalfOctetAndSecurityHeaderType", Value 1);
    ("ServiceRejectMessageIdentity", Value 1);
    ("Cause5GMM", Value 1) ]
  [ ("PDUSessionStatus", 0x50, Sized 1 Buffer);
    ("T3346Value", 0x5f, Sized 1 (Array 1));
    ("EAPMessage", 0x78, Sized 2 Buffer) ].

Definition ServiceRequest : layout := MkLayout
  [ ("ExtendedProtocolDiscriminator", Value 1);
    ("SpareHalfOctetAndSecurityHeaderType", Value 1);
    ("ServiceRequestMessageIdentity", Value 1);
    ("ServiceTypeAndNgksi", Value 1);
    ("TMSI5GS", Sized 2 (Array 7)) ]
  [ ("UplinkDataStatus", 0x40, Sized 1 Buffer);
    ("PDUSessionStatus", 0x50, Sized 1 Buffer);
    ("AllowedPDUSessionStatus", 0x25, Sized 1 Buffer);
    ("NASMessageContainer", 0x71, Sized 2 Buffer) ].

Definition Status5GMM : layout := MkLayout
  [ ("ExtendedProtocolDiscriminator", Value 1);
    ("SpareHalfOctetAndSecurityHeaderType", Value 1);
    ("STATUSMessageIdentity5GMM", Value 1);
    ("Cause5GMM", Value 1) ]
  [].

Definition Status5GSM : layout := MkLayout
  [ ("ExtendedProtocolDiscriminator", Value 1);
    ("PDUSessionID", Value 1);
    ("PTI", Value 1);
    ("STATUSMessageIdentity5GSM", Value 1);
    ("Cause5GSM", Value 1) ]
  [].

Definition ULNASTransport : layout := MkLayout
  [ ("ExtendedProtocolDiscriminator", Value 1);
    ("SpareHalfOctetAndSecurityHeaderType", Value 1);
    ("ULNASTRANSPORTMessageIdentity", Value 1);
    ("SpareHalfOctetAndPayloadContainerType", Value 1);
    ("PayloadContainer", Sized 2 Buffer) ]
  [ ("PduSessionID2Value", 0x12, Value 1);
    ("OldPDUSessionID", 0x59, Value 1);
    ("RequestType", 0x08, Half);
    ("SNSSAI", 0x22, Sized 1 (Prefix 8));
    ("DNN", 0x25, Sized 1 Buffer);
    ("AdditionalInformation", 0x24, Sized 1 Buffer) ].

(** ** All messages *)

Definition nas_messages : list layout :=
  [AuthenticationFailure; AuthenticationReject; AuthenticationRequest; AuthenticationResponse;
   AuthenticationResult; ConfigurationUpdateCommand; ConfigurationUpdateComplete;
   DLNASTransport; DeregistrationAcceptUEOriginatingDeregistration;
   DeregistrationAcceptUETerminatedDeregistration;
   DeregistrationRequestUEOriginatingDeregistration;
   DeregistrationRequestUETerminatedDeregistration; IdentityRequest; IdentityResponse;
   Notification; NotificationResponse; PDUSessionAuthenticationCommand;
   PDUSessionAuthenticationComplete; PDUSessionAuthenticationResult;
   PDUSessionEstablishmentAccept; PDUSessionEstablishmentReject; PDUSessionEstablishmentRequest;
   PDUSessionModificationCommand; PDUSessionModificationCommandReject;
   PDUSessionModificationComplete; PDUSessionModificationReject; PDUSessionModificationRequest;
   PDUSessionReleaseCommand; PDUSessionReleaseComplete; PDUSessionReleaseReject;
   PDUSessionReleaseRequest; RegistrationAccept; RegistrationComplete; RegistrationReject;
   RegistrationRequest; SecurityModeCommand; SecurityModeComplete; SecurityModeReject;
   SecurityProtected5GSNASMessage; ServiceAccept; ServiceReject; ServiceRequest; Status5GMM;
   Status5GSM; ULNASTransport].

#[local] Open Scope Z_scope.

Lemma nas_messages_ok : forallb layout_ok nas_messages = true.
Proof. vm_compute. reflexivity. Qed.

Lemma nas_layout_ok L : L ∈ nas_messages → layout_ok L = true.
Proof. intros H. apply (proj1 (forallb_forall _ _) nas_messages_ok). by apply list_elem_of_In. Qed.

(** ** Properties *)

(** C8. Each of the 45 NAS messages is read back as it was written, when its
    elements have the lengths they claim and optional ones their identifiers. *)
Theorem nas_message_roundtrip L m : L ∈ nas_messages → message_ok L m →
  ∃ b, encode L m = Ret b ∧ decode L b = Ret m.
Proof. intros HL Hm. by apply decode_encode; [apply nas_layout_ok|]. Qed.

(** C37. Decoding ends on every input and reports no error; it can only panic,
    and only for messages in which the length of an element slices an array. *)
Theorem nas_decode_total L b : L ∈ nas_messages →
  match decode L b with Ret _ => True | Fail _ => False | Panic => never_panics L = false end.
Proof. intros _. exact (decode_total L b). Qed.

(** Of an unknown optional element the identifier alone is skipped: its
    length and contents are read as further elements. *)
Theorem nas_unknown_element L m o iei b : L ∈ nas_messages → message_ok L m →
  encode_mandatory (mandatory L) m = Ret o → optional L ≠ [] →
  find_ie (optional L) (case_of iei) = None → decode L (o ++ iei :: b) = decode L (o ++ b).
Proof.
  intros HL (Hm&_&_) Ho Hne Hf. destruct (layout_okE L (nas_layout_ok L HL)) as (_&_&Hh). unfold decode.
  destruct (mandatory_roundtrip (mandatory L) m ∅ (iei :: b) Hh Hm) as (o1&a1&Ho1&Hd1&H1).
  destruct (mandatory_roundtrip (mandatory L) m ∅ b Hh Hm) as (o2&a2&Ho2&Hd2&H2).
  assert (o1 = o) as -> by congruence. assert (o2 = o) as -> by congruence.
  rewrite Hd1, Hd2. cbn [mbind outcome_mbind].
  assert (a1 = a2) as -> by (apply map_eq; intros x; by rewrite H1, H2).
  destruct (optional L) as [|e es]; [done|]. cbn [length decode_optional]. by rewrite Hf.
Qed.

(** C21. Whatever octets are decoded as one of the 45 messages, the result is
    well formed: every mandatory element is there, every element has the
    contents its length and its layout say, made of octets, and the message can
    be encoded and is decoded to the same elements again. *)
Theorem nas_decode_typed L b m : L ∈ nas_messages → bytes_ok b → decode L b = Ret m →
  message_ok L m ∧ (∀ name ie, m !! name = Some ie → bytes_ok (Octet ie)) ∧
  ∃ b', encode L m = Ret b' ∧ decode L b' = Ret m.
Proof.
  intros HL Hb Hm. pose proof (nas_layout_ok L HL) as Hok. destruct (decode_typed L b m Hok Hb Hm) as [H1 H2].
  split; [done|]. split; [done|]. by apply decode_encode.
Qed.

(** A 5G-GUTI of twelve octets in a Registration Accept ends the program. *)
Example guti_overflow : decode RegistrationAccept [0x7e; 0; 66; 1; 0; 0x77; 0; 12] = Panic.
Proof. vm_compute. reflexivity. Qed.

Definition demo_dl_nas : message := elements
  [("ExtendedProtocolDiscriminator", MkIE 0 0 [0x7e]); ("SpareHalfOctetAndSecurityHeaderType", MkIE 0 0 [0]);
   ("DLNASTRANSPORTMessageIdentity", MkIE 0 0 [104]); ("SpareHalfOctetAndPayloadContainerType", MkIE 0 0 [1]);
   ("PayloadContainer", MkIE 0 2 [0x2e; 5]); ("PduSessionID2Value", MkIE 0x12 0 [5])]%string.

Lemma demo_dl_nas_ok : message_ok DLNASTransport demo_dl_nas.
Proof. message_elements. Qed.

Lemma nas_message_roundtrip_witness : ∃ b, encode DLNASTransport demo_dl_nas = Ret b ∧ decode DLNASTransport b = Ret demo_dl_nas.
Proof. apply nas_message_roundtrip; [apply list_elem_of_In; vm_compute; tauto|exact demo_dl_nas_ok]. Defined.

Lemma nas_decode_total_witness :
  match decode ServiceAccept [0x7e; 0; 78; 0x50; 200] with
  | Ret _ => True | Fail _ => False | Panic => never_panics ServiceAccept = false end.
Proof. apply nas_decode_total. apply list_elem_of_In. vm_compute. tauto. Defined.

Lemma nas_unknown_element_witness :
  decode DLNASTransport ([0x7e; 0; 104; 1; 0; 2; 0x2e; 5] ++ 0x7c :: [2; 0x12; 9]) =
  decode DLNASTransport ([0x7e; 0; 104; 1; 0; 2; 0x2e; 5] ++ [2; 0x12; 9]).
Proof.
  apply (nas_unknown_element DLNASTransport demo_dl_nas);
    [apply list_elem_of_In; vm_compute; tauto|exact demo_dl_nas_ok|reflexivity|discriminate|reflexivity].
Defined.

(** A Service Accept whose PDU session status claims 200 octets and has one. *)
Lemma nas_decode_typed_witness : ∃ m, decode ServiceAccept [0x7e; 0; 78; 0x50; 200; 7] = Ret m ∧ message_ok ServiceAccept m.
Proof.
  eexists. split; [vm_compute; reflexivity|].
  eapply (nas_decode_typed ServiceAccept [0x7e; 0; 78; 0x50; 200; 7]);
    [apply list_elem_of_In; vm_compute; tauto|apply bytes_dec; vm_compute; reflexivity|vm_compute; reflexivity].
Defined.
