(* ===== verification/NasCodec.v ===== *)
(** * lib/nas/nas.go and the messages the UE builds

    The NAS message with its two headers, decoding and encoding by message
    type, and the builders of ue/nas/message/nas_control/mm_5gs and sm_5gs
    (Modules [Mm5gs] and [Sm5gs]).  A pointer per message type is a map from
    types to contents; a message that is not set panics when it is encoded. *)

From S2P Require Import Prelude GoStrings Milenage NasSecurity UeContext NasMessage NasLayouts.

#[local] Open Scope Z_scope.
#[local] Open Scope go_scope.

Definition Epd5GSSessionManagementMessage : Z := 0x2E.
Definition Epd5GSMobilityManagementMessage : Z := 0x7E.

Definition gmm_layouts : list (Z * layout) :=
  [(65, RegistrationRequest); (66, RegistrationAccept); (67, RegistrationComplete); (68, RegistrationReject);
   (69, DeregistrationRequestUEOriginatingDeregistration); (70, DeregistrationAcceptUEOriginatingDeregistration);
   (71, DeregistrationRequestUETerminatedDeregistration); (72, DeregistrationAcceptUETerminatedDeregistration);
   (76, ServiceRequest); (77, ServiceReject); (78, ServiceAccept); (84, ConfigurationUpdateCommand);
   (85, ConfigurationUpdateComplete); (86, AuthenticationRequest); (87, AuthenticationResponse);
   (88, AuthenticationReject); (89, AuthenticationFailure); (90, AuthenticationResult); (91, IdentityRequest);
   (92, IdentityResponse); (93, SecurityModeCommand); (94, SecurityModeComplete); (95, SecurityModeReject);
   (100, Status5GMM); (101, Notification); (102, NotificationResponse); (103, ULNASTransport); (104, DLNASTransport)].

Definition gsm_layouts : list (Z * layout) :=
  [(193, PDUSessionEstablishmentRequest); (194, PDUSessionEstablishmentAccept); (195, PDUSessionEstablishmentReject);
   (197, PDUSessionAuthenticationCommand); (198, PDUSessionAuthenticationComplete); (199, PDUSessionAuthenticationResult);
   (201, PDUSessionModificationRequest); (202, PDUSessionModificationReject); (203, PDUSessionModificationCommand);
   (204, PDUSessionModificationComplete); (205, PDUSessionModificationCommandReject); (209, PDUSessionReleaseRequest);
   (210, PDUSessionReleaseReject); (211, PDUSessionReleaseCommand); (212, PDUSessionReleaseComplete); (214, Status5GSM)].

(** [GmmMessage] or [GsmMessage]: three or four header octets and the contents by type. *)
Record Contents := MkContents { Header : list Z; Body : gmap Z message }.

Record Message := MkMessage {
  ProtocolDiscriminator : Z;
  SecurityHeaderType : Z;
  GmmMessage : option Contents;
  GsmMessage : option Contents;
}.

Definition NewMessage : Message := MkMessage 0 0 None None.

(** [GetMessageType] of a header of [n] octets: its last one. *)
Definition GetMessageType (c : Contents) : Z := default 0 (last (Header c)).

Definition layout_of (ls : list (Z * layout)) (t : Z) : option layout :=
  snd <$> List.find (λ p, p.1 =? t) ls.

(** Decoding by type: the contents, and the error text if the type is unknown. *)
Definition decode_contents (n : nat) (ls : list (Z * layout)) (err : string) (b : list Z)
  : outcome (Contents * option string) :=
  let header := default (zeros n) (read n b).1 in
  let t := default 0 (last header) in
  match layout_of ls t with
  | Some L => m ← decode L b; Ret (MkContents header {[ t := m ]}, None)
  | None => Ret (MkContents header ∅, Some err)
  end.

Definition GmmMessageDecode (a : Message) (b : list Z) : outcome (Message * option string) :=
  '(c, e) ← decode_contents 3 gmm_layouts "NAS decode Fail: MsgType doesn't exist in GMM message" b;
  Ret (MkMessage (ProtocolDiscriminator a) (SecurityHeaderType a) (Some c) (GsmMessage a), e).

Definition GsmMessageDecode (a : Message) (b : list Z) : outcome (Message * option string) :=
  '(c, e) ← decode_contents 4 gsm_layouts "NAS Decode Fail: MsgType doesn't exist in GSM message" b;
  Ret (MkMessage (ProtocolDiscriminator a) (SecurityHeaderType a) (GmmMessage a) (Some c), e).

Definition GetEPD (b : list Z) : outcome Z := rd b 0.
Definition GetSecurityHeaderType (b : list Z) : outcome Z := rd b 1.

Definition PlainNasDecode (a : Message) (b : list Z) : outcome (Message * option string) :=
  epd ← GetEPD b;
  if epd =? Epd5GSMobilityManagementMessage then GmmMessageDecode a b
  else if epd =? Epd5GSSessionManagementMessage then GsmMessageDecode a b
  else Ret (a, Some "Extended Protocol Discriminator is not allowed in Nas message Deocde"%string).

(** The octets, and the error text if the type is unknown. *)
Definition encode_contents (ls : list (Z * layout)) (err : string) (c : Contents) : outcome (list Z * option string) :=
  match layout_of ls (GetMessageType c) with
  | Some L =>
    match Body c !! GetMessageType c with
    | Some m => b ← encode L m; Ret (b, None)
    | None => Panic
    end
  | None => Ret ([], Some err)
  end.

Definition GmmMessageEncode := encode_contents gmm_layouts "NAS Encode Fail: MsgType doesn't exist in GMM message".
Definition GsmMessageEncode := encode_contents gsm_layouts "NAS Encode Fail: MsgType doesn't exist in GSM message".

Definition PlainNasEncode (a : Message) : outcome (list Z * option string) :=
  match GmmMessage a, GsmMessage a with
  | Some c, _ => GmmMessageEncode c
  | None, Some c => GsmMessageEncode c
  | None, None => Ret ([], Some "Gmm/Gsm message are both empty in Nas message Encode"%string)
  end.

(** ** Building messages *)

(** An octet, an element with a length, one with an identifier. *)
Definition oct (x : Z) : IE := MkIE 0 0 [x].
Definition lv (l : list Z) : IE := MkIE 0 (blen l) l.
Definition tlv (iei : Z) (l : list Z) : IE := MkIE iei (blen l) l.
(** [SetLen] at width [w] and [copy] into an array of [n] octets. *)
Definition tlv_array (iei w : Z) (n : nat) (l : list Z) : IE := MkIE iei (wrap w (blen l)) (gocopy (zeros n) l).

(** The octets [GmmMessageEncode] leaves in the buffer; its error is only printed. *)
Definition gmm_pdu (t : Z) (l : list (string * IE)) : outcome (list Z) :=
  fst <$> GmmMessageEncode (MkContents [Epd5GSMobilityManagementMessage; 0; t] {[ t := elements l ]}).
Definition gsm_pdu (t : Z) (l : list (string * IE)) : outcome (list Z) :=
  fst <$> GsmMessageEncode (MkContents [Epd5GSSessionManagementMessage; 0; 0; t] {[ t := elements l ]}).

#[local] Notation "k |-> v" := (pair k%string v) (at level 80).

(** The three mandatory octets of a 5GMM message, and the four of a 5GSM one. *)
Definition gmm_head (identity : string) (t : Z) : list (string * IE) :=
  ["ExtendedProtocolDiscriminator" |-> oct Epd5GSMobilityManagementMessage;
   "SpareHalfOctetAndSecurityHeaderType" |-> oct 0; identity |-> oct t].
Definition gsm_head (identity : string) (pduSessionId t : Z) : list (string * IE) :=
  ["ExtendedProtocolDiscriminator" |-> oct Epd5GSSessionManagementMessage; "PDUSessionID" |-> oct pduSessionId;
   "PTI" |-> oct 1; identity |-> oct t].

Module Sm5gs.
(** The protocol configuration options: extension bit, then three empty containers. *)
Definition protocolConfigurationOptions : list Z :=
  0x80 :: mjoin ((λ i, be_bytes 2 i ++ [0]) <$> [0x000a; 0x000d; 0x0003]).

Definition GetPduSessionEstablishmentRequest (pduSessionId : Z) (pduSessionType : string) : outcome (list Z) :=
  let typeVal := if (pduSessionType =? "IPv6")%string then 2 else if (pduSessionType =? "IPv4v6")%string then 3 else 1 in
  gsm_pdu 193 (gsm_head "PDUSESSIONESTABLISHMENTREQUESTMessageIdentity" pduSessionId 193 ++
    ["IntegrityProtectionMaximumDataRate" |-> MkIE 0 0 [0xff; 0xff];
     "PDUSessionType" |-> oct (9 * 16 + typeVal); "SSCMode" |-> oct (10 * 16 + 1);
     "ExtendedProtocolConfigurationOptions" |-> tlv 0x7b protocolConfigurationOptions]).

Definition GetPduSessionReleaseRequest (pduSessionId : Z) : outcome (list Z) :=
  gsm_pdu 209 (gsm_head "PDUSESSIONRELEASEREQUESTMessageIdentity" pduSessionId 209 ++
    ["Cause5GSM" |-> MkIE 0x59 0 [0x24]]).
Definition GetPduSessionReleaseComplete (pduSessionId : Z) : outcome (list Z) :=
  gsm_pdu 212 (gsm_head "PDUSESSIONRELEASECOMPLETEMessageIdentity" pduSessionId 212).
Definition GetPduSessionModificationRequest (pduSessionId : Z) : outcome (list Z) :=
  gsm_pdu 201 (gsm_head "PDUSESSIONMODIFICATIONREQUESTMessageIdentity" pduSessionId 201).
Definition GetPduSessionModificationComplete (pduSessionId : Z) : outcome (list Z) :=
  gsm_pdu 204 (gsm_head "PDUSESSIONMODIFICATIONCOMPLETEMessageIdentity" pduSessionId 204).
End Sm5gs.

Module Mm5gs.
(** [eapMsg] is not used. *)
Definition AuthenticationFailure (cause : string) (paramAutn : list Z) : outcome (list Z) :=
  gmm_pdu 89 (gmm_head "AuthenticationFailureMessageIdentity" 89 ++
    if (cause =? "MAC failure")%string then ["Cause5GMM" |-> oct 0x14]
    else if (cause =? "SQN failure")%string then
      ["Cause5GMM" |-> oct 0x15; "AuthenticationFailureParameter" |-> tlv_array 0x30 8 14 paramAutn]
    else []).

(** Called with an empty EAP message. *)
Definition AuthenticationResponse (authenticationResponseParam : list Z) : outcome (list Z) :=
  gmm_pdu 87 (gmm_head "AuthenticationResponseMessageIdentity" 87 ++
    if blen authenticationResponseParam >? 0
    then ["AuthenticationResponseParameter" |-> tlv_array 0x2d 8 16 authenticationResponseParam] else []).

Definition getConfigurationUpdateComplete : outcome (list Z) :=
  gmm_pdu 85 (gmm_head "ConfigurationUpdateCompleteMessageIdentity" 85).

Definition getDeregistrationAcceptUETerminated : outcome (list Z) :=
  gmm_pdu 72 (gmm_head "DeregistrationAcceptMessageIdentity" 72).

(** [GetSuci]: a structure with its Len and Buffer. *)
Definition identity (suci : Z * list Z) : IE := MkIE 0 suci.1 suci.2.

(** The plain message of [DeregistrationRequest]. *)
Definition getDeregistrationRequest (ue : UEContext) (switchOff : bool) : outcome (list Z) :=
  gmm_pdu 69 (gmm_head "DeregistrationRequestMessageIdentity" 69 ++
    ["NgksiAndDeregistrationType" |-> oct (shl 8 (NgKsi (UeSecurity ue) & 7) 4 + (if switchOff then 8 else 0) + 1);
     "MobileIdentity5GS" |-> identity (Suci (UeSecurity ue))]).

(** Every identity type is answered with the SUCI.  The message type of the
    structure is never set. *)
Definition IdentityResponse (ue : UEContext) (identityType : Z) : outcome (list Z) :=
  gmm_pdu 92 (gmm_head "IdentityResponseMessageIdentity" 0 ++ ["MobileIdentity" |-> identity (Suci (UeSecurity ue))]).

(** Called without a SOR container. *)
Definition getRegistrationComplete : outcome (list Z) :=
  gmm_pdu 67 (gmm_head "RegistrationCompleteMessageIdentity" 67).

(** Called without requested NSSAI and uplink data status. *)
Definition GetRegistrationRequest (registrationType : Z) (capability : bool) (ue : UEContext) : outcome (list Z) :=
  let ksi := if registrationType =? 1 then 7 else NgKsi (UeSecurity ue) in
  gmm_pdu 65 (gmm_head "RegistrationRequestMessageIdentity" 65 ++
    ["NgksiAndRegistrationType5GS" |-> oct (shl 8 (ksi & 7) 4 + 8 + (registrationType & 7));
     "MobileIdentity5GS" |-> identity (Suci (UeSecurity ue))] ++
    (if capability then ["Capability5GMM" |-> MkIE 0x10 1 (7 :: zeros 12)] else []) ++
    ["UESecurityCapability" |-> MkIE 0x2e 8 (SetUESecurityCapability ue)]).

(** Called with a container. *)
Definition getSecurityModeComplete (nasMessageContainer : list Z) : outcome (list Z) :=
  gmm_pdu 94 (gmm_head "SecurityModeCompleteMessageIdentity" 94 ++
    ["IMEISV" |-> MkIE 0x77 9 (0x15 :: 0x11 :: zeros 7);
     "NASMessageContainer" |-> MkIE 0x71 (u16 (blen nasMessageContainer))
       (gocopy (zeros (Z.to_nat (u16 (blen nasMessageContainer)))) nasMessageContainer)]).

Definition getServiceRequest (ue : UEContext) (serviceType : Z) : outcome (list Z) :=
  let set := amfSetId ue in
  gmm_pdu 76 (gmm_head "ServiceRequestMessageIdentity" 76 ++
    ["ServiceTypeAndNgksi" |-> oct (shl 8 (serviceType & 15) 4 + (NgKsi (UeSecurity ue) & 7));
     "TMSI5GS" |-> MkIE 0 7 ([4; u8 (set ≫ 2); (shl 8 (set & 3) 6 & 192) + (amfPointer ue & 63)] ++
       gocopy (zeros 4) (Guti (UeSecurity ue)))]).

(** The DNN in its element, behind its length. *)
Definition dnn_ie (dnn : list Z) : IE := MkIE 0x25 (u8 (blen (u8 (blen dnn) :: dnn))) (u8 (blen dnn) :: dnn).

Definition snssai_ie (sst : Z) (sd : string) : IE :=
  if (sd =? "")%string then MkIE 0x22 1 (u8 sst :: zeros 7)
  else MkIE 0x22 4 (u8 sst :: gocopy (zeros 3) (DecodeString sd) ++ zeros 4).

(** An uplink NAS transport for one session; [extra] are its further elements. *)
Definition getUlNasTransport (pduSessionId : Z) (extra : list (string * IE)) (container : list Z) : outcome (list Z) :=
  let len := u16 (blen container) in
  gmm_pdu 103 (gmm_head "ULNASTRANSPORTMessageIdentity" 103 ++
    ["SpareHalfOctetAndPayloadContainerType" |-> oct 1;
     "PayloadContainer" |-> MkIE 0 len (gocopy (zeros (Z.to_nat len)) container);
     "PduSessionID2Value" |-> MkIE 0x12 0 [pduSessionId]] ++ extra).

Definition getUlNasTransport_PduSessionEstablishmentRequest (pduSessionId requestType : Z) (dnnString : string)
    (sst : Z) (sd : string) (pduSessionType : string) : outcome (list Z) :=
  pdu ← Sm5gs.GetPduSessionEstablishmentRequest pduSessionId pduSessionType;
  getUlNasTransport pduSessionId
    (["RequestType" |-> oct (0x80 + (requestType & 7))] ++
     (if (dnnString =? "")%string then [] else ["DNN" |-> dnn_ie (string_bytes dnnString)]) ++
     ["SNSSAI" |-> snssai_ie sst sd]) pdu.

Definition getUlNasTransport_PduSessionReleaseRequest (pduSessionId : Z) : outcome (list Z) :=
  pdu ← Sm5gs.GetPduSessionReleaseRequest pduSessionId; getUlNasTransport pduSessionId [] pdu.
Definition getUlNasTransport_PduSessionReleaseComplete (pduSessionId : Z) : outcome (list Z) :=
  pdu ← Sm5gs.GetPduSessionReleaseComplete pduSessionId; getUlNasTransport pduSessionId [] pdu.
Definition getUlNasTransport_PduSessionModificationRequest (pduSessionId : Z) : outcome (list Z) :=
  pdu ← Sm5gs.GetPduSessionModificationRequest pduSessionId; getUlNasTransport pduSessionId [] pdu.
Definition getUlNasTransport_PduSessionModificationComplete (pduSessionId : Z) : outcome (list Z) :=
  pdu ← Sm5gs.GetPduSessionModificationComplete pduSessionId; getUlNasTransport pduSessionId [] pdu.
End Mm5gs.

(** ** Messages that are built, decoded and encoded again *)

Lemma elements_lookup l name : elements l !! name = assoc name l.
Proof.
  unfold elements, assoc. induction l as [|[n ie] l IH]; [apply lookup_empty|]. cbn [list_to_map foldr List.find fst snd].
  destruct (String.eqb_spec n name) as [->|Hn]; [apply lookup_insert_eq|]. by rewrite lookup_insert_ne.
Qed.

Definition gmm_message (t : Z) (l : list (string * IE)) : Message :=
  MkMessage 0 0 (Some (MkContents [Epd5GSMobilityManagementMessage; 0; t] {[ t := elements l ]})) None.

Lemma gmm_pdu_run t L l b : layout_of gmm_layouts t = Some L → layout_ok L = true → message_ok L (elements l) →
  encode L (elements l) = Ret b → take 3 b = [Epd5GSMobilityManagementMessage; 0; t] →
  gmm_pdu t l = Ret b ∧ PlainNasDecode NewMessage b = Ret (gmm_message t l, None) ∧
  PlainNasEncode (gmm_message t l) = Ret (b, None).
Proof.
  intros HL Hok Hm Hb Ht. destruct (decode_encode L _ Hok Hm) as (b'&Hb'&Hd).
  assert (b' = b) as -> by congruence.
  assert (∀ h, GetMessageType (MkContents [Epd5GSMobilityManagementMessage; 0; t] h) = t) as Hty by done.
  assert (GmmMessageEncode (MkContents [Epd5GSMobilityManagementMessage; 0; t] {[ t := elements l ]}) = Ret (b, None)) as He.
  { unfold GmmMessageEncode, encode_contents. rewrite Hty, HL. cbn [Body]. rewrite lookup_singleton_eq. by rewrite Hb. }
  split; [unfold gmm_pdu; by rewrite He|]. split; [|exact He].
  destruct b as [|b0 [|b1 [|b2 b]]]; try discriminate Ht. injection Ht as -> -> ->.
  unfold PlainNasDecode, GetEPD.
  change (rd (Epd5GSMobilityManagementMessage :: 0 :: t :: b) 0) with (Ret Epd5GSMobilityManagementMessage).
  cbn [mbind outcome_mbind]. rewrite Z.eqb_refl. unfold GmmMessageDecode, decode_contents.
  change (default (zeros 3) (read 3 (Epd5GSMobilityManagementMessage :: 0 :: t :: b)).1)
    with [Epd5GSMobilityManagementMessage; 0; t].
  change (default 0 (last [Epd5GSMobilityManagementMessage; 0; t])) with t. rewrite HL, Hd. reflexivity.
Qed.

(** The Identity Response has no message type: its receiver cannot decode it. *)
Lemma identity_response_type ue identityType b : Mm5gs.IdentityResponse ue identityType = Ret b →
  take 3 b = [Epd5GSMobilityManagementMessage; 0; 0] ∧
  ∃ m, PlainNasDecode NewMessage b = Ret (m, Some "NAS decode Fail: MsgType doesn't exist in GMM message"%string).
Proof.
  intros E. assert (∃ rest, b = Epd5GSMobilityManagementMessage :: 0 :: 0 :: rest) as [rest ->].
  { unfold Mm5gs.IdentityResponse, gmm_pdu in E. cbn in E.
    rewrite lookup_singleton_eq, lookup_insert_eq, lookup_insert_ne, lookup_insert_eq, !lookup_insert_ne, lookup_insert_eq in E by done.
    injection E as <-. by eexists. }
  split; [done|]. eexists. reflexivity.
Qed.
