(* ===== verification/NasAccess.v ===== *)
(** * lib/nas/nasType: how fields of information elements are read and written

    The accessors of nasType come in a few forms; each form is one definition
    here, with the constants the accessor writes down as its parameters.
    NasTypes.v has the accessors.  An element whose Octet is a single uint8 has
    a list of one octet. *)

From S2P Require Import Prelude Milenage NasMessage.

#[local] Open Scope Z_scope.
#[local] Open Scope go_scope.

(** ** Forms *)

(** comm_util.go *)
Definition GetBitMask (ub lb : Z) : Z := u8 (u8 (u8 (1 ≪ u8 (ub - lb)) - 1) ≪ lb).

Definition with_Iei (v : Z) (a : IE) : IE := MkIE v (Len a) (Octet a).
Definition with_Len (v : Z) (a : IE) : IE := MkIE (Iei a) v (Octet a).
Definition with_Octet (v : list Z) (a : IE) : IE := MkIE (Iei a) (Len a) v.

(** [&T{}]: an Octet of [n] octets, or a nil Buffer *)
Definition zero_type (n : nat) : IE := MkIE 0 0 (zeros n).

(** [a.Len = len; a.Buffer = make([]uint8, a.Len)] *)
Definition make_buffer (len : Z) (a : IE) : IE := MkIE (Iei a) len (zeros (Z.to_nat len)).

(** [a.Octet] *)
Definition octet (a : IE) : Z := hd 0 (Octet a).
Definition set_octet (v : Z) : IE → IE := with_Octet [v].

(** [x & GetBitMask(ub, lb) >> (sh)] and [(x & keep) + ((v & mask) << sh)] *)
Definition bits (ub lb sh x : Z) : Z := (x & GetBitMask ub lb) ≫ sh.
Definition put_bits (keep mask sh v x : Z) : Z := u8 ((x & keep) + u8 ((v & mask) ≪ sh)).

Definition get_bits (ub lb sh : Z) (a : IE) : Z := bits ub lb sh (octet a).
Definition set_bits (keep mask sh v : Z) (a : IE) : IE := set_octet (put_bits keep mask sh v (octet a)) a.

(** The same in [a.Octet[i]] or [a.Buffer[i]] *)
Definition get_at (i : Z) (a : IE) : outcome Z := rd (Octet a) i.
Definition set_at (i v : Z) (a : IE) : outcome IE := l ← wr (Octet a) i v; Ret (with_Octet l a).
Definition get_bits_at (i ub lb sh : Z) (a : IE) : outcome Z := x ← rd (Octet a) i; Ret (bits ub lb sh x).
Definition set_bits_at (i keep mask sh v : Z) (a : IE) : outcome IE :=
  x ← rd (Octet a) i; set_at i (put_bits keep mask sh v x) a.

(** [uint16(a.Octet[i])<<2 + uint16((a.Octet[i+1])&GetBitMask(8, 2))>>6] and
    its setter *)
Definition get_ten_bits (i j : Z) (a : IE) : outcome Z :=
  x ← rd (Octet a) i; y ← rd (Octet a) j;
  Ret (u16 (u16 (x ≪ 2) + ((y & GetBitMask 8 2) ≫ 6))).
Definition set_ten_bits (i j v : Z) (a : IE) : outcome IE :=
  a ← set_at i (u8 (v ≫ 2) & 255) a;
  y ← rd (Octet a) j;
  set_at j (u8 ((y & GetBitMask 6 6) + u8 (u8 (v & 3) ≪ 6))) a.

(** [copy(dst[:], a.Octet[lo:hi])] to an array of that size, and
    [copy(a.Octet[lo:hi], v[:])] *)
Definition get_range (lo hi : Z) (a : IE) : outcome (list Z) := slice (Octet a) lo hi.
Definition set_range (lo hi : Z) (v : list Z) (a : IE) : outcome IE :=
  old ← slice (Octet a) lo hi;
  Ret (with_Octet (take (Z.to_nat lo) (Octet a) ++ gocopy old v ++ drop (Z.to_nat hi) (Octet a)) a).

(** [make([]uint8, len(a.Buffer)-lo); copy(dst, a.Buffer[lo:])] and
    [copy(a.Buffer[lo:], v)] *)
Definition get_rest (lo : Z) (a : IE) : outcome (list Z) := slice (Octet a) lo (blen (Octet a)).
Definition set_rest (lo : Z) (v : list Z) (a : IE) : outcome IE := set_range lo (blen (Octet a)) v a.

(** The whole Buffer *)
Definition get_contents (a : IE) : list Z := Octet a.
Definition set_contents (v : list Z) (a : IE) : IE := with_Octet (gocopy (Octet a) v) a.

(** ** What they do *)

(** The bits [lo] to [lo + len] of an octet. *)
Definition field_of (lo len x : Z) : Z := (x ≫ lo) mod 2 ^ len.
Definition field_put (lo len v x x' : Z) : Prop :=
  0 ≤ x' < 256 ∧ ∀ i, 0 ≤ i → Z.testbit x' i = if (lo <=? i) && (i <? lo + len) then Z.testbit v (i - lo) else Z.testbit x i.

(** The constants of an accessor for the bits [lo] to [lo + len]. *)
Definition reads_bits (lo len ub lb sh : Z) : bool :=
  (GetBitMask ub lb =? Z.ones len ≪ lo) && (sh =? lo) && (0 <=? lo) && (0 <? len) && (lo + len <=? 8).
Definition writes_bits (lo len keep mask sh : Z) : bool :=
  (keep =? Z.ldiff 255 (Z.ones len ≪ lo)) && (mask =? Z.ones len) && (sh =? lo) && (0 <=? lo) && (0 <? len) && (lo + len <=? 8).

Lemma bits_field lo len ub lb sh x : reads_bits lo len ub lb sh = true → 0 ≤ x → bits ub lb sh x = field_of lo len x.
Proof.
  unfold reads_bits. rewrite !andb_true_iff, !Z.eqb_eq, !Z.leb_le, Z.ltb_lt. intros ((((Em&->)&?)&?)&?) Hx.
  unfold bits, field_of. rewrite Em. rewrite <- Z.land_ones by lia.
  rewrite Z.shiftr_land, Z.shiftr_shiftl_l by lia. by rewrite Z.sub_diag, Z.shiftl_0_r.
Qed.

Lemma testbit_255 i : 0 ≤ i → Z.testbit 255 i = (i <? 8).
Proof. intros Hi. change 255 with (Z.ones 8). by rewrite Z.testbit_ones_nonneg by lia. Qed.
Lemma testbit_window lo len i : 0 ≤ lo → 0 < len → 0 ≤ i → Z.testbit (Z.ones len ≪ lo) i = (lo <=? i) && (i <? lo + len).
Proof.
  intros Hlo Hlen Hi. rewrite Z.shiftl_spec by lia. destruct (Z.leb_spec lo i); cbn [andb].
  - rewrite Z.testbit_ones_nonneg by lia. apply eq_bool_prop_intro. rewrite !Is_true_true, !Z.ltb_lt. lia.
  - by apply Z.testbit_neg_r; lia.
Qed.

(** The two summands share no bit. *)
Lemma put_bits_lor lo len v x : 0 ≤ lo → 0 < len → lo + len ≤ 8 → in_width 8 x → 0 ≤ v →
  let s := Z.lor (x & Z.ldiff 255 (Z.ones len ≪ lo)) ((v & Z.ones len) ≪ lo) in
  in_width 8 s ∧ u8 ((x & Z.ldiff 255 (Z.ones len ≪ lo)) + u8 ((v & Z.ones len) ≪ lo)) = s.
Proof.
  intros Hlo Hlen H8 Hx Hv s.
  assert (in_width 8 ((v & Z.ones len) ≪ lo)) as Hw.
  { unfold in_width. rewrite Z.land_ones, Z.shiftl_mul_pow2 by lia. pose proof (Z.mod_pos_bound v (2 ^ len)).
    assert (2 ^ len * 2 ^ lo ≤ 2 ^ 8) by (rewrite <- Z.pow_add_r by lia; apply Z.pow_le_mono_r; lia). nia. }
  assert (in_width 8 (x & Z.ldiff 255 (Z.ones len ≪ lo))) as Hk by (apply in_width_land; [lia|done|apply Z.ldiff_nonneg; lia]).
  assert (in_width 8 s) as Hs by (apply in_width_lor; [lia|done..]). split; [done|].
  rewrite (wrap_small 8 ((v & Z.ones len) ≪ lo)) by done.
  assert ((x & Z.ldiff 255 (Z.ones len ≪ lo)) & ((v & Z.ones len) ≪ lo) = 0) as Hd.
  { apply Z.bits_inj'. intros i Hi. rewrite Z.bits_0, !Z.land_spec, Z.ldiff_spec, testbit_window by lia.
    rewrite Z.shiftl_spec by lia. destruct (Z.leb_spec lo i).
    - rewrite Z.land_spec, Z.testbit_ones_nonneg by lia. destruct (Z.ltb_spec i (lo + len)); cbn [andb negb].
      + by rewrite !andb_false_r.
      + rewrite (proj2 (Z.ltb_ge (i - lo) len)) by lia. by rewrite !andb_false_r.
    - rewrite (Z.testbit_neg_r _ (i - lo)) by lia. by rewrite andb_false_r. }
  rewrite Z.add_nocarry_lxor, Z.lxor_lor by done. by apply wrap_small.
Qed.

Lemma put_bits_field lo len keep mask sh v x : writes_bits lo len keep mask sh = true → in_width 8 x → 0 ≤ v →
  field_put lo len v x (put_bits keep mask sh v x).
Proof.
  unfold writes_bits. rewrite !andb_true_iff, !Z.eqb_eq, !Z.leb_le, Z.ltb_lt. intros (((((->&->)&->)&?)&?)&?) Hx Hv.
  unfold put_bits. destruct (put_bits_lor lo len v x) as [Hs E]; [lia..|done|done|]. rewrite E. split; [exact Hs|].
  intros i Hi. rewrite Z.lor_spec, Z.land_spec, Z.ldiff_spec, testbit_255, testbit_window, Z.shiftl_spec by lia.
  destruct (Z.leb_spec lo i); cbn [andb].
  - rewrite Z.land_spec, Z.testbit_ones_nonneg by lia. destruct (Z.ltb_spec i (lo + len)).
    + rewrite (proj2 (Z.ltb_lt (i - lo) len)) by lia. cbn. by rewrite !andb_false_r, andb_true_r.
    + rewrite (proj2 (Z.ltb_ge (i - lo) len)) by lia. cbn. rewrite !andb_true_r, andb_false_r, orb_false_r.
      destruct (Z.ltb_spec i 8); [by rewrite andb_true_r|]. by rewrite (testbit_above 8 x i).
  - rewrite (Z.testbit_neg_r _ (i - lo)) by lia. cbn. rewrite andb_true_r, orb_false_r, (proj2 (Z.ltb_lt i 8)) by lia. by rewrite andb_true_r.
Qed.

(** What was put is read back. *)
Lemma field_put_of lo len v x x' : 0 ≤ lo → 0 < len → 0 ≤ v → field_put lo len v x x' → field_of lo len x' = v mod 2 ^ len.
Proof.
  intros Hlo Hlen Hv [_ Hb]. unfold field_of. rewrite <- !Z.land_ones by lia. apply Z.bits_inj'. intros i Hi.
  rewrite !Z.land_spec, Z.shiftr_spec, Hb, !Z.testbit_ones_nonneg by lia.
  destruct (Z.ltb_spec i len); [|by rewrite !andb_false_r].
  rewrite (proj2 (Z.leb_le lo (i + lo))), (proj2 (Z.ltb_lt (i + lo) (lo + len))) by lia. cbn. by rewrite Z.add_simpl_r.
Qed.

(** The other bits keep their value. *)
Lemma field_put_other lo len v x x' lo' len' : 0 ≤ lo → 0 < len → 0 ≤ lo' → 0 < len' → lo + len ≤ lo' ∨ lo' + len' ≤ lo →
  field_put lo len v x x' → field_of lo' len' x' = field_of lo' len' x.
Proof.
  intros ? ? ? ? Hd [_ Hb]. unfold field_of. rewrite <- !Z.land_ones by lia. apply Z.bits_inj'. intros i Hi.
  rewrite !Z.land_spec, !Z.shiftr_spec, Hb, !Z.testbit_ones_nonneg by lia.
  destruct (Z.ltb_spec i len'); [|by rewrite !andb_false_r]. f_equal.
  destruct Hd; [rewrite (proj2 (Z.ltb_ge (i + lo') (lo + len))) by lia; by rewrite andb_false_r|].
  by rewrite (proj2 (Z.leb_gt lo (i + lo'))) by lia.
Qed.
