(* ===== verification/NasTypes.v ===== *)
(** * lib/nas/nasType: the accessors

    One Module per type of nasType, with its constructor and the accessors of
    its fields, each with the constants the source has. *)

From S2P Require Import Prelude NasMessage NasAccess.

#[local] Open Scope Z_scope.

Module ABBA.
Definition GetIei : IE → Z := Iei.
Definition SetIei : Z → IE → IE := with_Iei.
Definition GetLen : IE → Z := Len.
Definition SetLen : Z → IE → IE := make_buffer.
Definition GetABBAContents : IE → list Z := get_contents.
Definition SetABBAContents : list Z → IE → IE := set_contents.
Definition NewABBA (iei : Z) : IE := SetIei iei (zero_type 0).
End ABBA.

Module Additional5GSecurityInformation.
Definition GetIei : IE → Z := Iei.
Definition SetIei : Z → IE → IE := with_Iei.
Definition GetLen : IE → Z := Len.
Definition SetLen : Z → IE → IE := with_Len.
Definition GetRINMR : IE → Z := get_bits 2 1 1.
Definition SetRINMR : Z → IE → IE := set_bits 253 1 1.
Definition GetHDP : IE → Z := get_bits 1 0 0.
Definition SetHDP : Z → IE → IE := set_bits 254 1 0.
Definition NewAdditional5GSecurityInformation (iei : Z) : IE := SetIei iei (zero_type 1).
End Additional5GSecurityInformation.

Module AdditionalGUTI.
Definition GetIei : IE → Z := Iei.
Definition SetIei : Z → IE → IE := with_Iei.
Definition GetLen : IE → Z := Len.
Definition SetLen : Z → IE → IE := with_Len.
Definition GetSpare : IE → outcome Z := get_bits_at 0 4 3 3.
Definition SetSpare : Z → IE → outcome IE := set_bits_at 0 247 1 3.
Definition GetTypeOfIdentity : IE → outcome Z := get_bits_at 0 3 0 0.
Definition SetTypeOfIdentity : Z → IE → outcome IE := set_bits_at 0 248 7 0.
Definition GetMCCDigit2 : IE → outcome Z := get_bits_at 1 8 4 4.
Definition SetMCCDigit2 : Z → IE → outcome IE := set_bits_at 1 15 15 4.
Definition GetMCCDigit1 : IE → outcome Z := get_bits_at 1 4 0 0.
Definition SetMCCDigit1 : Z → IE → outcome IE := set_bits_at 1 240 15 0.
Definition GetMNCDigit3 : IE → outcome Z := get_bits_at 2 8 4 4.
Definition SetMNCDigit3 : Z → IE → outcome IE := set_bits_at 2 15 15 4.
Definition GetMCCDigit3 : IE → outcome Z := get_bits_at 2 4 0 0.
Definition SetMCCDigit3 : Z → IE → outcome IE := set_bits_at 2 240 15 0.
Definition GetMNCDigit2 : IE → outcome Z := get_bits_at 3 8 4 4.
Definition SetMNCDigit2 : Z → IE → outcome IE := set_bits_at 3 15 15 4.
Definition GetMNCDigit1 : IE → outcome Z := get_bits_at 3 4 0 0.
Definition SetMNCDigit1 : Z → IE → outcome IE := set_bits_at 3 240 15 0.
Definition GetAMFRegionID : IE → outcome Z := get_at 4.
Definition SetAMFRegionID : Z → IE → outcome IE := set_at 4.
Definition GetAMFSetID : IE → outcome Z := get_ten_bits 5 6.
Definition SetAMFSetID : Z → IE → outcome IE := set_ten_bits 5 6.
Definition GetAMFPointer : IE → outcome Z := get_bits_at 6 6 0 0.
Definition SetAMFPointer : Z → IE → outcome IE := set_bits_at 6 192 63 0.
Definition GetTMSI5G : IE → outcome (list Z) := get_range 7 11.
Definition SetTMSI5G : list Z → IE → outcome IE := set_range 7 11.
Definition NewAdditionalGUTI (iei : Z) : IE := SetIei iei (zero_type 11).
End AdditionalGUTI.

Module AdditionalInformation.
Definition GetIei : IE → Z := Iei.
Definition SetIei : Z → IE → IE := with_Iei.
Definition GetLen : IE → Z := Len.
Definition SetLen : Z → IE → IE := make_buffer.
Definition GetAdditionalInformationValue : IE → list Z := get_contents.
Definition SetAdditionalInformationValue : list Z → IE → IE := set_contents.
Definition NewAdditionalInformation (iei : Z) : IE := SetIei iei (zero_type 0).
End AdditionalInformation.

Module AllowedNSSAI.
Definition GetIei : IE → Z := Iei.
Definition SetIei : Z → IE → IE := with_Iei.
Definition GetLen : IE → Z := Len.
Definition SetLen : Z → IE → IE := make_buffer.
Definition GetSNSSAIValue : IE → list Z := get_contents.
Definition SetSNSSAIValue : list Z → IE → IE := set_contents.
Definition NewAllowedNSSAI (iei : Z) : IE := SetIei iei (zero_type 0).
End AllowedNSSAI.

Module AllowedPDUSessionStatus.
Definition GetIei : IE → Z := Iei.
Definition SetIei : Z → IE → IE := with_Iei.
Definition GetLen : IE → Z := Len.
Definition SetLen : Z → IE → IE := make_buffer.
Definition GetPSI7 : IE → outcome Z := get_bits_at 0 8 7 7.
Definition SetPSI7 : Z → IE → outcome IE := set_bits_at 0 127 1 7.
Definition GetPSI6 : IE → outcome Z := get_bits_at 0 7 6 6.
Definition SetPSI6 : Z → IE → outcome IE := set_bits_at 0 191 1 6.
Definition GetPSI5 : IE → outcome Z := get_bits_at 0 6 5 5.
Definition SetPSI5 : Z → IE → outcome IE := set_bits_at 0 223 1 5.
Definition GetPSI4 : IE → outcome Z := get_bits_at 0 5 4 4.
Definition SetPSI4 : Z → IE → outcome IE := set_bits_at 0 239 1 4.
Definition GetPSI3 : IE → outcome Z := get_bits_at 0 4 3 3.
Definition SetPSI3 : Z → IE → outcome IE := set_bits_at 0 247 1 3.
Definition GetPSI2 : IE → outcome Z := get_bits_at 0 3 2 2.
Definition SetPSI2 : Z → IE → outcome IE := set_bits_at 0 251 1 2.
Definition GetPSI1 : IE → outcome Z := get_bits_at 0 2 1 1.
Definition SetPSI1 : Z → IE → outcome IE := set_bits_at 0 253 1 1.
Definition GetPSI0 : IE → outcome Z := get_bits_at 0 1 0 0.
Definition SetPSI0 : Z → IE → outcome IE := set_bits_at 0 254 1 0.
Definition GetPSI15 : IE → outcome Z := get_bits_at 1 8 7 7.
Definition SetPSI15 : Z → IE → outcome IE := set_bits_at 1 127 1 7.
Definition GetPSI14 : IE → outcome Z := get_bits_at 1 7 6 6.
Definition SetPSI14 : Z → IE → outcome IE := set_bits_at 1 191 1 6.
Definition GetPSI13 : IE → outcome Z := get_bits_at 1 6 5 5.
Definition SetPSI13 : Z → IE → outcome IE := set_bits_at 1 223 1 5.
Definition GetPSI12 : IE → outcome Z := get_bits_at 1 5 4 4.
Definition SetPSI12 : Z → IE → outcome IE := set_bits_at 1 239 1 4.
Definition GetPSI11 : IE → outcome Z := get_bits_at 1 4 3 3.
Definition SetPSI11 : Z → IE → outcome IE := set_bits_at 1 247 1 3.
Definition GetPSI10 : IE → outcome Z := get_bits_at 1 3 2 2.
Definition SetPSI10 : Z → IE → outcome IE := set_bits_at 1 251 1 2.
Definition GetPSI9 : IE → outcome Z := get_bits_at 1 2 1 1.
Definition SetPSI9 : Z → IE → outcome IE := set_bits_at 1 253 1 1.
Definition GetPSI8 : IE → outcome Z := get_bits_at 1 1 0 0.
Definition SetPSI8 : Z → IE → outcome IE := set_bits_at 1 254 1 0.
Definition GetSpare : IE → outcome (list Z) := get_rest 2.
Definition SetSpare : list Z → IE → outcome IE := set_rest 2.
Definition NewAllowedPDUSessionStatus (iei : Z) : IE := SetIei iei (zero_type 0).
End AllowedPDUSessionStatus.

Module AllowedSSCMode.
Definition GetIei : IE → Z := get_bits 8 4 4.
Definition SetIei : Z → IE → IE := set_bits 15 15 4.
Definition GetSSC3 : IE → Z := get_bits 3 2 2.
Definition SetSSC3 : Z → IE → IE := set_bits 251 1 2.
Definition GetSSC2 : IE → Z := get_bits 2 1 1.
Definition SetSSC2 : Z → IE → IE := set_bits 253 1 1.
Definition GetSSC1 : IE → Z := get_bits 1 0 0.
Definition SetSSC1 : Z → IE → IE := set_bits 254 1 0.
Definition NewAllowedSSCMode (iei : Z) : IE := SetIei iei (zero_type 1).
End AllowedSSCMode.

Module AlwaysonPDUSessionIndication.
Definition GetIei : IE → Z := get_bits 8 4 4.
Definition SetIei : Z → IE → IE := set_bits 15 15 4.
Definition GetAPSI : IE → Z := get_bits 1 0 0.
Definition SetAPSI : Z → IE → IE := set_bits 254 1 0.
Definition NewAlwaysonPDUSessionIndication (iei : Z) : IE := SetIei iei (zero_type 1).
End AlwaysonPDUSessionIndication.

Module AlwaysonPDUSessionRequested.
Definition GetIei : IE → Z := get_bits 8 4 4.
Definition SetIei : Z → IE → IE := set_bits 15 15 4.
Definition GetAPSR : IE → Z := get_bits 1 0 0.
Definition SetAPSR : Z → IE → IE := set_bits 254 1 0.
Definition NewAlwaysonPDUSessionRequested (iei : Z) : IE := SetIei iei (zero_type 1).
End AlwaysonPDUSessionRequested.

Module AuthenticationFailureMessageIdentity.
Definition GetMessageType : IE → Z := octet.
Definition SetMessageType : Z → IE → IE := set_octet.
Definition NewAuthenticationFailureMessageIdentity : IE := zero_type 1.
End AuthenticationFailureMessageIdentity.

Module AuthenticationFailureParameter.
Definition GetIei : IE → Z := Iei.
Definition SetIei : Z → IE → IE := with_Iei.
Definition GetLen : IE → Z := Len.
Definition SetLen : Z → IE → IE := with_Len.
Definition GetAuthenticationFailureParameter : IE → outcome (list Z) := get_range 0 14.
Definition SetAuthenticationFailureParameter : list Z → IE → outcome IE := set_range 0 14.
Definition NewAuthenticationFailureParameter (iei : Z) : IE := SetIei iei (zero_type 14).
End AuthenticationFailureParameter.

Module AuthenticationParameterAUTN.
Definition GetIei : IE → Z := Iei.
Definition SetIei : Z → IE → IE := with_Iei.
Definition GetLen : IE → Z := Len.
Definition SetLen : Z → IE → IE := with_Len.
Definition GetAUTN : IE → outcome (list Z) := get_range 0 16.
Definition SetAUTN : list Z → IE → outcome IE := set_range 0 16.
Definition NewAuthenticationParameterAUTN (iei : Z) : IE := SetIei iei (zero_type 16).
End AuthenticationParameterAUTN.

Module AuthenticationParameterRAND.
Definition GetIei : IE → Z := Iei.
Definition SetIei : Z → IE → IE := with_Iei.
Definition GetRANDValue : IE → outcome (list Z) := get_range 0 16.
Definition SetRANDValue : list Z → IE → outcome IE := set_range 0 16.
Definition NewAuthenticationParameterRAND (iei : Z) : IE := SetIei iei (zero_type 16).
End AuthenticationParameterRAND.

Module AuthenticationRejectMessageIdentity.
Definition GetMessageType : IE → Z := octet.
Definition SetMessageType : Z → IE → IE := set_octet.
Definition NewAuthenticationRejectMessageIdentity : IE := zero_type 1.
End AuthenticationRejectMessageIdentity.

Module AuthenticationRequestMessageIdentity.
Definition GetMessageType : IE → Z := octet.
Definition SetMessageType : Z → IE → IE := set_octet.
Definition NewAuthenticationRequestMessageIdentity : IE := zero_type 1.
End AuthenticationRequestMessageIdentity.

Module AuthenticationResponseMessageIdentity.
Definition GetMessageType : IE → Z := octet.
Definition SetMessageType : Z → IE → IE := set_octet.
Definition NewAuthenticationResponseMessageIdentity : IE := zero_type 1.
End AuthenticationResponseMessageIdentity.

Module AuthenticationResponseParameter.
Definition GetIei : IE → Z := Iei.
Definition SetIei : Z → IE → IE := with_Iei.
Definition GetLen : IE → Z := Len.
Definition SetLen : Z → IE → IE := with_Len.
Definition GetRES : IE → outcome (list Z) := get_range 0 16.
Definition SetRES : list Z → IE → outcome IE := set_range 0 16.
Definition NewAuthenticationResponseParameter (iei : Z) : IE := SetIei iei (zero_type 16).
End AuthenticationResponseParameter.

Module AuthenticationResultMessageIdentity.
Definition GetMessageType : IE → Z := octet.
Definition SetMessageType : Z → IE → IE := set_octet.
Definition NewAuthenticationResultMessageIdentity : IE := zero_type 1.
End AuthenticationResultMessageIdentity.

Module AuthorizedQosFlowDescriptions.
Definition GetIei : IE → Z := Iei.
Definition SetIei : Z → IE → IE := with_Iei.
Definition GetLen : IE → Z := Len.
Definition SetLen : Z → IE → IE := make_buffer.
Definition GetQoSFlowDescriptions : IE → list Z := get_contents.
Definition SetQoSFlowDescriptions : list Z → IE → IE := set_contents.
Definition NewAuthorizedQosFlowDescriptions (iei : Z) : IE := SetIei iei (zero_type 0).
End AuthorizedQosFlowDescriptions.

Module AuthorizedQosRules.
Definition GetIei : IE → Z := Iei.
Definition SetIei : Z → IE → IE := with_Iei.
Definition GetLen : IE → Z := Len.
Definition SetLen : Z → IE → IE := make_buffer.
Definition GetQosRule : IE → list Z := get_contents.
Definition SetQosRule : list Z → IE → IE := set_contents.
Definition NewAuthorizedQosRules (iei : Z) : IE := SetIei iei (zero_type 0).
End AuthorizedQosRules.

Module BackoffTimerValue.
Definition GetIei : IE → Z := Iei.
Definition SetIei : Z → IE → IE := with_Iei.
Definition GetLen : IE → Z := Len.
Definition SetLen : Z → IE → IE := with_Len.
Definition GetUnitTimerValue : IE → Z := get_bits 8 5 5.
Definition SetUnitTimerValue : Z → IE → IE := set_bits 31 7 5.
Definition GetTimerValue : IE → Z := get_bits 5 0 0.
Definition SetTimerValue : Z → IE → IE := set_bits 224 31 0.
Definition NewBackoffTimerValue (iei : Z) : IE := SetIei iei (zero_type 1).
End BackoffTimerValue.

Module Capability5GMM.
Definition GetIei : IE → Z := Iei.
Definition SetIei : Z → IE → IE := with_Iei.
Definition GetLen : IE → Z := Len.
Definition SetLen : Z → IE → IE := with_Len.
Definition GetLPP : IE → outcome Z := get_bits_at 0 3 2 2.
Definition SetLPP : Z → IE → outcome IE := set_bits_at 0 251 1 2.
Definition GetHOAttach : IE → outcome Z := get_bits_at 0 2 1 1.
Definition SetHOAttach : Z → IE → outcome IE := set_bits_at 0 253 1 1.
Definition GetS1Mode : IE → outcome Z := get_bits_at 0 1 0 0.
Definition SetS1Mode : Z → IE → outcome IE := set_bits_at 0 254 1 0.
Definition GetSpare : IE → outcome (list Z) := get_range 1 13.
Definition SetSpare : list Z → IE → outcome IE := set_range 1 13.
Definition NewCapability5GMM (iei : Z) : IE := SetIei iei (zero_type 13).
End Capability5GMM.

Module Capability5GSM.
Definition GetIei : IE → Z := Iei.
Definition SetIei : Z → IE → IE := with_Iei.
Definition GetLen : IE → Z := Len.
Definition SetLen : Z → IE → IE := with_Len.
Definition GetMH6PDU : IE → outcome Z := get_bits_at 0 2 1 1.
Definition SetMH6PDU : Z → IE → outcome IE := set_bits_at 0 253 1 1.
Definition GetRqoS : IE → outcome Z := get_bits_at 0 1 0 0.
Definition SetRqoS : Z → IE → outcome IE := set_bits_at 0 254 1 0.
Definition GetSpare : IE → outcome (list Z) := get_range 1 13.
Definition SetSpare : list Z → IE → outcome IE := set_range 1 13.
Definition NewCapability5GSM (iei : Z) : IE := SetIei iei (zero_type 13).
End Capability5GSM.

Module Cause5GMM.
Definition GetIei : IE → Z := Iei.
Definition SetIei : Z → IE → IE := with_Iei.
Definition GetCauseValue : IE → Z := octet.
Definition SetCauseValue : Z → IE → IE := set_octet.
Definition NewCause5GMM (iei : Z) : IE := SetIei iei (zero_type 1).
End Cause5GMM.

Module Cause5GSM.
Definition GetIei : IE → Z := Iei.
Definition SetIei : Z → IE → IE := with_Iei.
Definition GetCauseValue : IE → Z := octet.
Definition SetCauseValue : Z → IE → IE := set_octet.
Definition NewCause5GSM (iei : Z) : IE := SetIei iei (zero_type 1).
End Cause5GSM.

Module ConfigurationUpdateCommandMessageIdentity.
Definition GetMessageType : IE → Z := octet.
Definition SetMessageType : Z → IE → IE := set_octet.
Definition NewConfigurationUpdateCommandMessageIdentity : IE := zero_type 1.
End ConfigurationUpdateCommandMessageIdentity.

Module ConfigurationUpdateCompleteMessageIdentity.
Definition GetMessageType : IE → Z := octet.
Definition SetMessageType : Z → IE → IE := set_octet.
Definition NewConfigurationUpdateCompleteMessageIdentity : IE := zero_type 1.
End ConfigurationUpdateCompleteMessageIdentity.

Module ConfigurationUpdateIndication.
Definition GetIei : IE → Z := get_bits 8 4 4.
Definition SetIei : Z → IE → IE := set_bits 15 15 4.
Definition GetRED : IE → Z := get_bits 2 1 1.
Definition SetRED : Z → IE → IE := set_bits 253 1 1.
Definition GetACK : IE → Z := get_bits 1 0 0.
Definition SetACK : Z → IE → IE := set_bits 254 1 0.
Definition NewConfigurationUpdateIndication (iei : Z) : IE := SetIei iei (zero_type 1).
End ConfigurationUpdateIndication.

Module ConfiguredNSSAI.
Definition GetIei : IE → Z := Iei.
Definition SetIei : Z → IE → IE := with_Iei.
Definition GetLen : IE → Z := Len.
Definition SetLen : Z → IE → IE := make_buffer.
Definition GetSNSSAIValue : IE → list Z := get_contents.
Definition SetSNSSAIValue : list Z → IE → IE := set_contents.
Definition NewConfiguredNSSAI (iei : Z) : IE := SetIei iei (zero_type 0).
End ConfiguredNSSAI.

Module DLNASTRANSPORTMessageIdentity.
Definition GetMessageType : IE → Z := octet.
Definition SetMessageType : Z → IE → IE := set_octet.
Definition NewDLNASTRANSPORTMessageIdentity : IE := zero_type 1.
End DLNASTRANSPORTMessageIdentity.

Module DNN.
Definition GetIei : IE → Z := Iei.
Definition SetIei : Z → IE → IE := with_Iei.
Definition GetLen : IE → Z := Len.
Definition SetLen : Z → IE → IE := make_buffer.
Definition GetDNN : IE → outcome (list Z) := get_rest 1.
Definition SetDNN (dNN : list Z) (a : IE) : IE :=
  let dnn := u8 (blen dNN) :: dNN in MkIE (Iei a) (u8 (blen dnn)) dnn.
Definition NewDNN (iei : Z) : IE := SetIei iei (zero_type 0).
End DNN.

Module DeregistrationAcceptMessageIdentity.
Definition GetMessageType : IE → Z := octet.
Definition SetMessageType : Z → IE → IE := set_octet.
Definition NewDeregistrationAcceptMessageIdentity : IE := zero_type 1.
End DeregistrationAcceptMessageIdentity.

Module DeregistrationRequestMessageIdentity.
Definition GetMessageType : IE → Z := octet.
Definition SetMessageType : Z → IE → IE := set_octet.
Definition NewDeregistrationRequestMessageIdentity : IE := zero_type 1.
End DeregistrationRequestMessageIdentity.

Module EAPMessage.
Definition GetIei : IE → Z := Iei.
Definition SetIei : Z → IE → IE := with_Iei.
Definition GetLen : IE → Z := Len.
Definition SetLen : Z → IE → IE := make_buffer.
Definition GetEAPMessage : IE → list Z := get_contents.
Definition SetEAPMessage : list Z → IE → IE := set_contents.
Definition NewEAPMessage (iei : Z) : IE := SetIei iei (zero_type 0).
End EAPMessage.

Module EPSNASMessageContainer.
Definition GetIei : IE → Z := Iei.
Definition SetIei : Z → IE → IE := with_Iei.
Definition GetLen : IE → Z := Len.
Definition SetLen : Z → IE → IE := make_buffer.
Definition GetEPANASMessageContainer : IE → list Z := get_contents.
Definition SetEPANASMessageContainer : list Z → IE → IE := set_contents.
Definition NewEPSNASMessageContainer (iei : Z) : IE := SetIei iei (zero_type 0).
End EPSNASMessageContainer.

Module EmergencyNumberList.
Definition GetIei : IE → Z := Iei.
Definition SetIei : Z → IE → IE := with_Iei.
Definition GetLen : IE → Z := Len.
Definition SetLen : Z → IE → IE := make_buffer.
Definition GetLengthof1EmergencyNumberInformation : IE → outcome Z := get_at 0.
Definition SetLengthof1EmergencyNumberInformation : Z → IE → outcome IE := set_at 0.
Definition GetEmergencyServiceCategoryValue : IE → outcome Z := get_bits_at 1 5 0 0.
Definition SetEmergencyServiceCategoryValue : Z → IE → outcome IE := set_bits_at 1 224 31 0.
Definition GetEmergencyInformation : IE → list Z := get_contents.
Definition SetEmergencyInformation : list Z → IE → IE := set_contents.
Definition NewEmergencyNumberList (iei : Z) : IE := SetIei iei (zero_type 0).
End EmergencyNumberList.

Module EquivalentPlmns.
Definition GetIei : IE → Z := Iei.
Definition SetIei : Z → IE → IE := with_Iei.
Definition GetLen : IE → Z := Len.
Definition SetLen : Z → IE → IE := with_Len.
Definition GetMCCDigit2PLMN1 : IE → outcome Z := get_bits_at 0 8 4 4.
Definition SetMCCDigit2PLMN1 : Z → IE → outcome IE := set_bits_at 0 15 15 4.
Definition GetMCCDigit1PLMN1 : IE → outcome Z := get_bits_at 0 4 0 0.
Definition SetMCCDigit1PLMN1 : Z → IE → outcome IE := set_bits_at 0 240 15 0.
Definition GetMNCDigit3PLMN1 : IE → outcome Z := get_bits_at 1 8 4 4.
Definition SetMNCDigit3PLMN1 : Z → IE → outcome IE := set_bits_at 1 15 15 4.
Definition GetMCCDigit3PLMN1 : IE → outcome Z := get_bits_at 1 4 0 0.
Definition SetMCCDigit3PLMN1 : Z → IE → outcome IE := set_bits_at 1 240 15 0.
Definition GetMNCDigit2PLMN1 : IE → outcome Z := get_bits_at 2 8 4 4.
Definition SetMNCDigit2PLMN1 : Z → IE → outcome IE := set_bits_at 2 15 15 4.
Definition GetMNCDigit1PLMN1 : IE → outcome Z := get_bits_at 2 4 0 0.
Definition SetMNCDigit1PLMN1 : Z → IE → outcome IE := set_bits_at 2 240 15 0.
Definition GetMCCDigit2PLMN2 : IE → outcome Z := get_bits_at 3 8 4 4.
Definition SetMCCDigit2PLMN2 : Z → IE → outcome IE := set_bits_at 3 15 15 4.
Definition GetMCCDigit1PLMN2 : IE → outcome Z := get_bits_at 3 4 0 0.
Definition SetMCCDigit1PLMN2 : Z → IE → outcome IE := set_bits_at 3 240 15 0.
Definition GetMNCDigit3PLMN2 : IE → outcome Z := get_bits_at 4 8 4 4.
Definition SetMNCDigit3PLMN2 : Z → IE → outcome IE := set_bits_at 4 15 15 4.
Definition GetMCCDigit3PLMN2 : IE → outcome Z := get_bits_at 4 4 0 0.
Definition SetMCCDigit3PLMN2 : Z → IE → outcome IE := set_bits_at 4 240 15 0.
Definition GetMNCDigit2PLMN2 : IE → outcome Z := get_bits_at 5 8 4 4.
Definition SetMNCDigit2PLMN2 : Z → IE → outcome IE := set_bits_at 5 15 15 4.
Definition GetMNCDigit1PLMN2 : IE → outcome Z := get_bits_at 5 4 0 0.
Definition SetMNCDigit1PLMN2 : Z → IE → outcome IE := set_bits_at 5 240 15 0.
Definition GetMCCDigit2PLMN3 : IE → outcome Z := get_bits_at 6 8 4 4.
Definition SetMCCDigit2PLMN3 : Z → IE → outcome IE := set_bits_at 6 15 15 4.
Definition GetMCCDigit1PLMN3 : IE → outcome Z := get_bits_at 6 4 0 0.
Definition SetMCCDigit1PLMN3 : Z → IE → outcome IE := set_bits_at 6 240 15 0.
Definition GetMNCDigit3PLMN3 : IE → outcome Z := get_bits_at 7 8 4 4.
Definition SetMNCDigit3PLMN3 : Z → IE → outcome IE := set_bits_at 7 15 15 4.
Definition GetMCCDigit3PLMN3 : IE → outcome Z := get_bits_at 7 4 0 0.
Definition SetMCCDigit3PLMN3 : Z → IE → outcome IE := set_bits_at 7 240 15 0.
Definition GetMNCDigit2PLMN3 : IE → outcome Z := get_bits_at 8 8 4 4.
Definition SetMNCDigit2PLMN3 : Z → IE → outcome IE := set_bits_at 8 15 15 4.
Definition GetMNCDigit1PLMN3 : IE → outcome Z := get_bits_at 8 4 0 0.
Definition SetMNCDigit1PLMN3 : Z → IE → outcome IE := set_bits_at 8 240 15 0.
Definition GetMCCDigit2PLMN4 : IE → outcome Z := get_bits_at 9 8 4 4.
Definition SetMCCDigit2PLMN4 : Z → IE → outcome IE := set_bits_at 9 15 15 4.
Definition GetMCCDigit1PLMN4 : IE → outcome Z := get_bits_at 9 4 0 0.
Definition SetMCCDigit1PLMN4 : Z → IE → outcome IE := set_bits_at 9 240 15 0.
Definition GetMNCDigit3PLMN4 : IE → outcome Z := get_bits_at 10 8 4 4.
Definition SetMNCDigit3PLMN4 : Z → IE → outcome IE := set_bits_at 10 15 15 4.
Definition GetMCCDigit3PLMN4 : IE → outcome Z := get_bits_at 10 4 0 0.
Definition SetMCCDigit3PLMN4 : Z → IE → outcome IE := set_bits_at 10 240 15 0.
Definition GetMNCDigit2PLMN4 : IE → outcome Z := get_bits_at 11 8 4 4.
Definition SetMNCDigit2PLMN4 : Z → IE → outcome IE := set_bits_at 11 15 15 4.
Definition GetMNCDigit1PLMN4 : IE → outcome Z := get_bits_at 11 4 0 0.
Definition SetMNCDigit1PLMN4 : Z → IE → outcome IE := set_bits_at 11 240 15 0.
Definition GetMCCDigit2PLMN5 : IE → outcome Z := get_bits_at 12 8 4 4.
Definition SetMCCDigit2PLMN5 : Z → IE → outcome IE := set_bits_at 12 15 15 4.
Definition GetMCCDigit1PLMN5 : IE → outcome Z := get_bits_at 12 4 0 0.
Definition SetMCCDigit1PLMN5 : Z → IE → outcome IE := set_bits_at 12 240 15 0.
Definition GetMNCDigit3PLMN5 : IE → outcome Z := get_bits_at 13 8 4 4.
Definition SetMNCDigit3PLMN5 : Z → IE → outcome IE := set_bits_at 13 15 15 4.
Definition GetMCCDigit3PLMN5 : IE → outcome Z := get_bits_at 13 4 0 0.
Definition SetMCCDigit3PLMN5 : Z → IE → outcome IE := set_bits_at 13 240 15 0.
Definition GetMNCDigit2PLMN5 : IE → outcome Z := get_bits_at 14 8 4 4.
Definition SetMNCDigit2PLMN5 : Z → IE → outcome IE := set_bits_at 14 15 15 4.
Definition GetMNCDigit1PLMN5 : IE → outcome Z := get_bits_at 14 4 0 0.
Definition SetMNCDigit1PLMN5 : Z → IE → outcome IE := set_bits_at 14 240 15 0.
Definition GetMCCDigit2PLMN6 : IE → outcome Z := get_bits_at 15 8 4 4.
Definition SetMCCDigit2PLMN6 : Z → IE → outcome IE := set_bits_at 15 15 15 4.
Definition GetMCCDigit1PLMN6 : IE → outcome Z := get_bits_at 15 4 0 0.
Definition SetMCCDigit1PLMN6 : Z → IE → outcome IE := set_bits_at 15 240 15 0.
Definition GetMNCDigit3PLMN6 : IE → outcome Z := get_bits_at 16 8 4 4.
Definition SetMNCDigit3PLMN6 : Z → IE → outcome IE := set_bits_at 16 15 15 4.
Definition GetMCCDigit3PLMN6 : IE → outcome Z := get_bits_at 16 4 0 0.
Definition SetMCCDigit3PLMN6 : Z → IE → outcome IE := set_bits_at 16 240 15 0.
Definition GetMNCDigit2PLMN6 : IE → outcome Z := get_bits_at 17 8 4 4.
Definition SetMNCDigit2PLMN6 : Z → IE → outcome IE := set_bits_at 17 15 15 4.
Definition GetMNCDigit1PLMN6 : IE → outcome Z := get_bits_at 17 4 0 0.
Definition SetMNCDigit1PLMN6 : Z → IE → outcome IE := set_bits_at 17 240 15 0.
Definition GetMCCDigit2PLMN7 : IE → outcome Z := get_bits_at 18 8 4 4.
Definition SetMCCDigit2PLMN7 : Z → IE → outcome IE := set_bits_at 18 15 15 4.
Definition GetMCCDigit1PLMN7 : IE → outcome Z := get_bits_at 18 4 0 0.
Definition SetMCCDigit1PLMN7 : Z → IE → outcome IE := set_bits_at 18 240 15 0.
Definition GetMNCDigit3PLMN7 : IE → outcome Z := get_bits_at 19 8 4 4.
Definition SetMNCDigit3PLMN7 : Z → IE → outcome IE := set_bits_at 19 15 15 4.
Definition GetMCCDigit3PLMN7 : IE → outcome Z := get_bits_at 19 4 0 0.
Definition SetMCCDigit3PLMN7 : Z → IE → outcome IE := set_bits_at 19 240 15 0.
Definition GetMNCDigit2PLMN7 : IE → outcome Z := get_bits_at 20 8 4 4.
Definition SetMNCDigit2PLMN7 : Z → IE → outcome IE := set_bits_at 20 15 15 4.
Definition GetMNCDigit1PLMN7 : IE → outcome Z := get_bits_at 20 4 0 0.
Definition SetMNCDigit1PLMN7 : Z → IE → outcome IE := set_bits_at 20 240 15 0.
Definition GetMCCDigit2PLMN8 : IE → outcome Z := get_bits_at 21 8 4 4.
Definition SetMCCDigit2PLMN8 : Z → IE → outcome IE := set_bits_at 21 15 15 4.
Definition GetMCCDigit1PLMN8 : IE → outcome Z := get_bits_at 21 4 0 0.
Definition SetMCCDigit1PLMN8 : Z → IE → outcome IE := set_bits_at 21 240 15 0.
Definition GetMNCDigit3PLMN8 : IE → outcome Z := get_bits_at 22 8 4 4.
Definition SetMNCDigit3PLMN8 : Z → IE → outcome IE := set_bits_at 22 15 15 4.
Definition GetMCCDigit3PLMN8 : IE → outcome Z := get_bits_at 22 4 0 0.
Definition SetMCCDigit3PLMN8 : Z → IE → outcome IE := set_bits_at 22 240 15 0.
Definition GetMNCDigit2PLMN8 : IE → outcome Z := get_bits_at 23 8 4 4.
Definition SetMNCDigit2PLMN8 : Z → IE → outcome IE := set_bits_at 23 15 15 4.
Definition GetMNCDigit1PLMN8 : IE → outcome Z := get_bits_at 23 4 0 0.
Definition SetMNCDigit1PLMN8 : Z → IE → outcome IE := set_bits_at 23 240 15 0.
Definition GetMCCDigit2PLMN9 : IE → outcome Z := get_bits_at 24 8 4 4.
Definition SetMCCDigit2PLMN9 : Z → IE → outcome IE := set_bits_at 24 15 15 4.
Definition GetMCCDigit1PLMN9 : IE → outcome Z := get_bits_at 24 4 0 0.
Definition SetMCCDigit1PLMN9 : Z → IE → outcome IE := set_bits_at 24 240 15 0.
Definition GetMNCDigit3PLMN9 : IE → outcome Z := get_bits_at 25 8 4 4.
Definition SetMNCDigit3PLMN9 : Z → IE → outcome IE := set_bits_at 25 15 15 4.
Definition GetMCCDigit3PLMN9 : IE → outcome Z := get_bits_at 25 4 0 0.
Definition SetMCCDigit3PLMN9 : Z → IE → outcome IE := set_bits_at 25 240 15 0.
Definition GetMNCDigit2PLMN9 : IE → outcome Z := get_bits_at 26 8 4 4.
Definition SetMNCDigit2PLMN9 : Z → IE → outcome IE := set_bits_at 26 15 15 4.
Definition GetMNCDigit1PLMN9 : IE → outcome Z := get_bits_at 26 4 0 0.
Definition SetMNCDigit1PLMN9 : Z → IE → outcome IE := set_bits_at 26 240 15 0.
Definition GetMCCDigit2PLMN10 : IE → outcome Z := get_bits_at 27 8 4 4.
Definition SetMCCDigit2PLMN10 : Z → IE → outcome IE := set_bits_at 27 15 15 4.
Definition GetMCCDigit1PLMN10 : IE → outcome Z := get_bits_at 27 4 0 0.
Definition SetMCCDigit1PLMN10 : Z → IE → outcome IE := set_bits_at 27 240 15 0.
Definition GetMNCDigit3PLMN10 : IE → outcome Z := get_bits_at 28 8 4 4.
Definition SetMNCDigit3PLMN10 : Z → IE → outcome IE := set_bits_at 28 15 15 4.
Definition GetMCCDigit3PLMN10 : IE → outcome Z := get_bits_at 28 4 0 0.
Definition SetMCCDigit3PLMN10 : Z → IE → outcome IE := set_bits_at 28 240 15 0.
Definition GetMNCDigit2PLMN10 : IE → outcome Z := get_bits_at 29 8 4 4.
Definition SetMNCDigit2PLMN10 : Z → IE → outcome IE := set_bits_at 29 15 15 4.
Definition GetMNCDigit1PLMN10 : IE → outcome Z := get_bits_at 29 4 0 0.
Definition SetMNCDigit1PLMN10 : Z → IE → outcome IE := set_bits_at 29 240 15 0.
Definition GetMCCDigit2PLMN11 : IE → outcome Z := get_bits_at 30 8 4 4.
Definition SetMCCDigit2PLMN11 : Z → IE → outcome IE := set_bits_at 30 15 15 4.
Definition GetMCCDigit1PLMN11 : IE → outcome Z := get_bits_at 30 4 0 0.
Definition SetMCCDigit1PLMN11 : Z → IE → outcome IE := set_bits_at 30 240 15 0.
Definition GetMNCDigit3PLMN11 : IE → outcome Z := get_bits_at 31 8 4 4.
Definition SetMNCDigit3PLMN11 : Z → IE → outcome IE := set_bits_at 31 15 15 4.
Definition GetMCCDigit3PLMN11 : IE → outcome Z := get_bits_at 31 4 0 0.
Definition SetMCCDigit3PLMN11 : Z → IE → outcome IE := set_bits_at 31 240 15 0.
Definition GetMNCDigit2PLMN11 : IE → outcome Z := get_bits_at 32 8 4 4.
Definition SetMNCDigit2PLMN11 : Z → IE → outcome IE := set_bits_at 32 15 15 4.
Definition GetMNCDigit1PLMN11 : IE → outcome Z := get_bits_at 32 4 0 0.
Definition SetMNCDigit1PLMN11 : Z → IE → outcome IE := set_bits_at 32 240 15 0.
Definition GetMCCDigit2PLMN12 : IE → outcome Z := get_bits_at 33 8 4 4.
Definition SetMCCDigit2PLMN12 : Z → IE → outcome IE := set_bits_at 33 15 15 4.
Definition GetMCCDigit1PLMN12 : IE → outcome Z := get_bits_at 33 4 0 0.
Definition SetMCCDigit1PLMN12 : Z → IE → outcome IE := set_bits_at 33 240 15 0.
Definition GetMNCDigit3PLMN12 : IE → outcome Z := get_bits_at 34 8 4 4.
Definition SetMNCDigit3PLMN12 : Z → IE → outcome IE := set_bits_at 34 15 15 4.
Definition GetMCCDigit3PLMN12 : IE → outcome Z := get_bits_at 34 4 0 0.
Definition SetMCCDigit3PLMN12 : Z → IE → outcome IE := set_bits_at 34 240 15 0.
Definition GetMNCDigit2PLMN12 : IE → outcome Z := get_bits_at 35 8 4 4.
Definition SetMNCDigit2PLMN12 : Z → IE → outcome IE := set_bits_at 35 15 15 4.
Definition GetMNCDigit1PLMN12 : IE → outcome Z := get_bits_at 35 4 0 0.
Definition SetMNCDigit1PLMN12 : Z → IE → outcome IE := set_bits_at 35 240 15 0.
Definition GetMCCDigit2PLMN13 : IE → outcome Z := get_bits_at 36 8 4 4.
Definition SetMCCDigit2PLMN13 : Z → IE → outcome IE := set_bits_at 36 15 15 4.
Definition GetMCCDigit1PLMN13 : IE → outcome Z := get_bits_at 36 4 0 0.
Definition SetMCCDigit1PLMN13 : Z → IE → outcome IE := set_bits_at 36 240 15 0.
Definition GetMNCDigit3PLMN13 : IE → outcome Z := get_bits_at 37 8 4 4.
Definition SetMNCDigit3PLMN13 : Z → IE → outcome IE := set_bits_at 37 15 15 4.
Definition GetMCCDigit3PLMN13 : IE → outcome Z := get_bits_at 37 4 0 0.
Definition SetMCCDigit3PLMN13 : Z → IE → outcome IE := set_bits_at 37 240 15 0.
Definition GetMNCDigit2PLMN13 : IE → outcome Z := get_bits_at 38 8 4 4.
Definition SetMNCDigit2PLMN13 : Z → IE → outcome IE := set_bits_at 38 15 15 4.
Definition GetMNCDigit1PLMN13 : IE → outcome Z := get_bits_at 38 4 0 0.
Definition SetMNCDigit1PLMN13 : Z → IE → outcome IE := set_bits_at 38 240 15 0.
Definition GetMCCDigit2PLMN14 : IE → outcome Z := get_bits_at 39 8 4 4.
Definition SetMCCDigit2PLMN14 : Z → IE → outcome IE := set_bits_at 39 15 15 4.
Definition GetMCCDigit1PLMN14 : IE → outcome Z := get_bits_at 39 4 0 0.
Definition SetMCCDigit1PLMN14 : Z → IE → outcome IE := set_bits_at 39 240 15 0.
Definition GetMNCDigit3PLMN14 : IE → outcome Z := get_bits_at 40 8 4 4.
Definition SetMNCDigit3PLMN14 : Z → IE → outcome IE := set_bits_at 40 15 15 4.
Definition GetMCCDigit3PLMN14 : IE → outcome Z := get_bits_at 40 4 0 0.
Definition SetMCCDigit3PLMN14 : Z → IE → outcome IE := set_bits_at 40 240 15 0.
Definition GetMNCDigit2PLMN14 : IE → outcome Z := get_bits_at 41 8 4 4.
Definition SetMNCDigit2PLMN14 : Z → IE → outcome IE := set_bits_at 41 15 15 4.
Definition GetMNCDigit1PLMN14 : IE → outcome Z := get_bits_at 41 4 0 0.
Definition SetMNCDigit1PLMN14 : Z → IE → outcome IE := set_bits_at 41 240 15 0.
Definition GetMCCDigit2PLMN15 : IE → outcome Z := get_bits_at 42 8 4 4.
Definition SetMCCDigit2PLMN15 : Z → IE → outcome IE := set_bits_at 42 15 15 4.
Definition GetMCCDigit1PLMN15 : IE → outcome Z := get_bits_at 42 4 0 0.
Definition SetMCCDigit1PLMN15 : Z → IE → outcome IE := set_bits_at 42 240 15 0.
Definition GetMNCDigit3PLMN15 : IE → outcome Z := get_bits_at 43 8 4 4.
Definition SetMNCDigit3PLMN15 : Z → IE → outcome IE := set_bits_at 43 15 15 4.
Definition GetMCCDigit3PLMN15 : IE → outcome Z := get_bits_at 43 4 0 0.
Definition SetMCCDigit3PLMN15 : Z → IE → outcome IE := set_bits_at 43 240 15 0.
Definition GetMNCDigit2PLMN15 : IE → outcome Z := get_bits_at 44 8 4 4.
Definition SetMNCDigit2PLMN15 : Z → IE → outcome IE := set_bits_at 44 15 15 4.
Definition GetMNCDigit1PLMN15 : IE → outcome Z := get_bits_at 44 4 0 0.
Definition SetMNCDigit1PLMN15 : Z → IE → outcome IE := set_bits_at 44 240 15 0.
Definition NewEquivalentPlmns (iei : Z) : IE := SetIei iei (zero_type 45).
End EquivalentPlmns.

Module ExtendedEmergencyNumberList.
Definition GetIei : IE → Z := Iei.
Definition SetIei : Z → IE → IE := with_Iei.
Definition GetLen : IE → Z := Len.
Definition SetLen : Z → IE → IE := make_buffer.
Definition GetEENL : IE → outcome Z := get_bits_at 0 1 0 0.
Definition SetEENL : Z → IE → outcome IE := set_bits_at 0 254 1 0.
Definition GetEmergencyInformation : IE → list Z := get_contents.
Definition SetEmergencyInformation : list Z → IE → IE := set_contents.
Definition NewExtendedEmergencyNumberList (iei : Z) : IE := SetIei iei (zero_type 0).
End ExtendedEmergencyNumberList.

Module ExtendedProtocolConfigurationOptions.
Definition GetIei : IE → Z := Iei.
Definition SetIei : Z → IE → IE := with_Iei.
Definition GetLen : IE → Z := Len.
Definition SetLen : Z → IE → IE := make_buffer.
Definition GetExtendedProtocolConfigurationOptionsContents : IE → list Z := get_contents.
Definition SetExtendedProtocolConfigurationOptionsContents : list Z → IE → IE := set_contents.
Definition NewExtendedProtocolConfigurationOptions (iei : Z) : IE := SetIei iei (zero_type 0).
End ExtendedProtocolConfigurationOptions.

Module ExtendedProtocolDiscriminator.
Definition GetExtendedProtocolDiscriminator : IE → Z := octet.
Definition SetExtendedProtocolDiscriminator : Z → IE → IE := set_octet.
Definition NewExtendedProtocolDiscriminator : IE := zero_type 1.
End ExtendedProtocolDiscriminator.

Module FullNameForNetwork.
Definition GetIei : IE → Z := Iei.
Definition SetIei : Z → IE → IE := with_Iei.
Definition GetLen : IE → Z := Len.
Definition SetLen : Z → IE → IE := make_buffer.
Definition GetExt : IE → outcome Z := get_bits_at 0 8 7 7.
Definition SetExt : Z → IE → outcome IE := set_bits_at 0 127 1 7.
Definition GetCodingScheme : IE → outcome Z := get_bits_at 0 7 4 4.
Definition SetCodingScheme : Z → IE → outcome IE := set_bits_at 0 143 7 4.
Definition GetAddCI : IE → outcome Z := get_bits_at 0 4 3 3.
Definition SetAddCI : Z → IE → outcome IE := set_bits_at 0 247 1 3.
Definition GetNumberOfSpareBitsInLastOctet : IE → outcome Z := get_bits_at 0 3 0 0.
Definition SetNumberOfSpareBitsInLastOctet : Z → IE → outcome IE := set_bits_at 0 248 7 0.
Definition GetTextString : IE → outcome (list Z) := get_rest 1.
Definition SetTextString : list Z → IE → outcome IE := set_rest 1.
Definition NewFullNameForNetwork (iei : Z) : IE := SetIei iei (zero_type 0).
End FullNameForNetwork.

Module GUTI5G.
Definition GetIei : IE → Z := Iei.
Definition SetIei : Z → IE → IE := with_Iei.
Definition GetLen : IE → Z := Len.
Definition SetLen : Z → IE → IE := with_Len.
Definition GetSpare : IE → outcome Z := get_bits_at 0 4 3 3.
Definition SetSpare : Z → IE → outcome IE := set_bits_at 0 247 1 3.
Definition GetTypeOfIdentity : IE → outcome Z := get_bits_at 0 3 0 0.
Definition SetTypeOfIdentity : Z → IE → outcome IE := set_bits_at 0 248 7 0.
Definition GetMCCDigit2 : IE → outcome Z := get_bits_at 1 8 4 4.
Definition SetMCCDigit2 : Z → IE → outcome IE := set_bits_at 1 15 15 4.
Definition GetMCCDigit1 : IE → outcome Z := get_bits_at 1 4 0 0.
Definition SetMCCDigit1 : Z → IE → outcome IE := set_bits_at 1 240 15 0.
Definition GetMNCDigit3 : IE → outcome Z := get_bits_at 2 8 4 4.
Definition SetMNCDigit3 : Z → IE → outcome IE := set_bits_at 2 15 15 4.
Definition GetMCCDigit3 : IE → outcome Z := get_bits_at 2 4 0 0.
Definition SetMCCDigit3 : Z → IE → outcome IE := set_bits_at 2 240 15 0.
Definition GetMNCDigit2 : IE → outcome Z := get_bits_at 3 8 4 4.
Definition SetMNCDigit2 : Z → IE → outcome IE := set_bits_at 3 15 15 4.
Definition GetMNCDigit1 : IE → outcome Z := get_bits_at 3 4 0 0.
Definition SetMNCDigit1 : Z → IE → outcome IE := set_bits_at 3 240 15 0.
Definition GetAMFRegionID : IE → outcome Z := get_at 4.
Definition SetAMFRegionID : Z → IE → outcome IE := set_at 4.
Definition GetAMFSetID : IE → outcome Z := get_ten_bits 5 6.
Definition SetAMFSetID : Z → IE → outcome IE := set_ten_bits 5 6.
Definition GetAMFPointer : IE → outcome Z := get_bits_at 6 6 0 0.
Definition SetAMFPointer : Z → IE → outcome IE := set_bits_at 6 192 63 0.
Definition GetTMSI5G : IE → outcome (list Z) := get_range 7 11.
Definition SetTMSI5G : list Z → IE → outcome IE := set_range 7 11.
Definition NewGUTI5G (iei : Z) : IE := SetIei iei (zero_type 11).
End GUTI5G.

Module IMEISV.
Definition GetIei : IE → Z := Iei.
Definition SetIei : Z → IE → IE := with_Iei.
Definition GetLen : IE → Z := Len.
Definition SetLen : Z → IE → IE := with_Len.
Definition GetIdentityDigit1 : IE → outcome Z := get_bits_at 0 8 4 4.
Definition SetIdentityDigit1 : Z → IE → outcome IE := set_bits_at 0 15 15 4.
Definition GetOddEvenIdic : IE → outcome Z := get_bits_at 0 4 3 3.
Definition SetOddEvenIdic : Z → IE → outcome IE := set_bits_at 0 247 1 3.
Definition GetTypeOfIdentity : IE → outcome Z := get_bits_at 0 3 0 0.
Definition SetTypeOfIdentity : Z → IE → outcome IE := set_bits_at 0 248 7 0.
Definition GetIdentityDigitP_1 : IE → outcome Z := get_bits_at 1 8 4 4.
Definition SetIdentityDigitP_1 : Z → IE → outcome IE := set_bits_at 1 15 15 4.
Definition GetIdentityDigitP : IE → outcome Z := get_bits_at 1 4 0 0.
Definition SetIdentityDigitP : Z → IE → outcome IE := set_bits_at 1 240 15 0.
Definition GetIdentityDigitP_3 : IE → outcome Z := get_bits_at 2 8 4 4.
Definition SetIdentityDigitP_3 : Z → IE → outcome IE := set_bits_at 2 15 15 4.
Definition GetIdentityDigitP_2 : IE → outcome Z := get_bits_at 2 4 0 0.
Definition SetIdentityDigitP_2 : Z → IE → outcome IE := set_bits_at 2 240 15 0.
Definition GetIdentityDigitP_5 : IE → outcome Z := get_bits_at 3 8 4 4.
Definition SetIdentityDigitP_5 : Z → IE → outcome IE := set_bits_at 3 15 15 4.
Definition GetIdentityDigitP_4 : IE → outcome Z := get_bits_at 3 4 0 0.
Definition SetIdentityDigitP_4 : Z → IE → outcome IE := set_bits_at 3 240 15 0.
Definition GetIdentityDigitP_7 : IE → outcome Z := get_bits_at 4 8 4 4.
Definition SetIdentityDigitP_7 : Z → IE → outcome IE := set_bits_at 4 15 15 4.
Definition GetIdentityDigitP_6 : IE → outcome Z := get_bits_at 4 4 0 0.
Definition SetIdentityDigitP_6 : Z → IE → outcome IE := set_bits_at 4 240 15 0.
Definition GetIdentityDigitP_9 : IE → outcome Z := get_bits_at 5 8 4 4.
Definition SetIdentityDigitP_9 : Z → IE → outcome IE := set_bits_at 5 15 15 4.
Definition GetIdentityDigitP_8 : IE → outcome Z := get_bits_at 5 4 0 0.
Definition SetIdentityDigitP_8 : Z → IE → outcome IE := set_bits_at 5 240 15 0.
Definition GetIdentityDigitP_11 : IE → outcome Z := get_bits_at 6 8 4 4.
Definition SetIdentityDigitP_11 : Z → IE → outcome IE := set_bits_at 6 15 15 4.
Definition GetIdentityDigitP_10 : IE → outcome Z := get_bits_at 6 4 0 0.
Definition SetIdentityDigitP_10 : Z → IE → outcome IE := set_bits_at 6 240 15 0.
Definition GetIdentityDigitP_13 : IE → outcome Z := get_bits_at 7 8 4 4.
Definition SetIdentityDigitP_13 : Z → IE → outcome IE := set_bits_at 7 15 15 4.
Definition GetIdentityDigitP_12 : IE → outcome Z := get_bits_at 7 4 0 0.
Definition SetIdentityDigitP_12 : Z → IE → outcome IE := set_bits_at 7 240 15 0.
Definition GetIdentityDigitP_15 : IE → outcome Z := get_bits_at 8 8 4 4.
Definition SetIdentityDigitP_15 : Z → IE → outcome IE := set_bits_at 8 15 15 4.
Definition GetIdentityDigitP_14 : IE → outcome Z := get_bits_at 8 4 0 0.
Definition SetIdentityDigitP_14 : Z → IE → outcome IE := set_bits_at 8 240 15 0.
Definition NewIMEISV (iei : Z) : IE := SetIei iei (zero_type 9).
End IMEISV.

Module IMEISVRequest.
Definition GetIei : IE → Z := get_bits 8 4 4.
Definition SetIei : Z → IE → IE := set_bits 15 15 4.
Definition GetIMEISVRequestValue : IE → Z := get_bits 3 0 0.
Definition SetIMEISVRequestValue : Z → IE → IE := set_bits 248 7 0.
Definition NewIMEISVRequest (iei : Z) : IE := SetIei iei (zero_type 1).
End IMEISVRequest.

Module IdentityRequestMessageIdentity.
Definition GetMessageType : IE → Z := octet.
Definition SetMessageType : Z → IE → IE := set_octet.
Definition NewIdentityRequestMessageIdentity : IE := zero_type 1.
End IdentityRequestMessageIdentity.

Module IdentityResponseMessageIdentity.
Definition GetMessageType : IE → Z := octet.
Definition SetMessageType : Z → IE → IE := set_octet.
Definition NewIdentityResponseMessageIdentity : IE := zero_type 1.
End IdentityResponseMessageIdentity.

Module IntegrityProtectionMaximumDataRate.
Definition GetIei : IE → Z := Iei.
Definition SetIei : Z → IE → IE := with_Iei.
Definition GetMaximumDataRatePerUEForUserPlaneIntegrityProtectionForUpLink : IE → outcome Z := get_at 0.
Definition SetMaximumDataRatePerUEForUserPlaneIntegrityProtectionForUpLink : Z → IE → outcome IE := set_at 0.
Definition GetMaximumDataRatePerUEForUserPlaneIntegrityProtectionForDownLink : IE → outcome Z := get_at 1.
Definition SetMaximumDataRatePerUEForUserPlaneIntegrityProtectionForDownLink : Z → IE → outcome IE := set_at 1.
Definition NewIntegrityProtectionMaximumDataRate (iei : Z) : IE := SetIei iei (zero_type 2).
End IntegrityProtectionMaximumDataRate.

Module LADNIndication.
Definition GetIei : IE → Z := Iei.
Definition SetIei : Z → IE → IE := with_Iei.
Definition GetLen : IE → Z := Len.
Definition SetLen : Z → IE → IE := make_buffer.
Definition GetLADNDNNValue : IE → list Z := get_contents.
Definition SetLADNDNNValue : list Z → IE → IE := set_contents.
Definition NewLADNIndication (iei : Z) : IE := SetIei iei (zero_type 0).
End LADNIndication.

Module LADNInformation.
Definition GetIei : IE → Z := Iei.
Definition SetIei : Z → IE → IE := with_Iei.
Definition GetLen : IE → Z := Len.
Definition SetLen : Z → IE → IE := make_buffer.
Definition GetLADND : IE → list Z := get_contents.
Definition SetLADND : list Z → IE → IE := set_contents.
Definition NewLADNInformation (iei : Z) : IE := SetIei iei (zero_type 0).
End LADNInformation.

Module LastVisitedRegisteredTAI.
Definition GetIei : IE → Z := Iei.
Definition SetIei : Z → IE → IE := with_Iei.
Definition GetMCCDigit2 : IE → outcome Z := get_bits_at 0 8 4 4.
Definition SetMCCDigit2 : Z → IE → outcome IE := set_bits_at 0 15 15 4.
Definition GetMCCDigit1 : IE → outcome Z := get_bits_at 0 4 0 0.
Definition SetMCCDigit1 : Z → IE → outcome IE := set_bits_at 0 240 15 0.
Definition GetMNCDigit3 : IE → outcome Z := get_bits_at 1 8 4 4.
Definition SetMNCDigit3 : Z → IE → outcome IE := set_bits_at 1 15 15 4.
Definition GetMCCDigit3 : IE → outcome Z := get_bits_at 1 4 0 0.
Definition SetMCCDigit3 : Z → IE → outcome IE := set_bits_at 1 240 15 0.
Definition GetMNCDigit2 : IE → outcome Z := get_bits_at 2 8 4 4.
Definition SetMNCDigit2 : Z → IE → outcome IE := set_bits_at 2 15 15 4.
Definition GetMNCDigit1 : IE → outcome Z := get_bits_at 2 4 0 0.
Definition SetMNCDigit1 : Z → IE → outcome IE := set_bits_at 2 240 15 0.
Definition GetTAC : IE → outcome (list Z) := get_range 3 6.
Definition SetTAC : list Z → IE → outcome IE := set_range 3 6.
Definition NewLastVisitedRegisteredTAI (iei : Z) : IE := SetIei iei (zero_type 7).
End LastVisitedRegisteredTAI.

Module LocalTimeZone.
Definition GetIei : IE → Z := Iei.
Definition SetIei : Z → IE → IE := with_Iei.
Definition GetTimeZone : IE → Z := octet.
Definition SetTimeZone : Z → IE → IE := set_octet.
Definition NewLocalTimeZone (iei : Z) : IE := SetIei iei (zero_type 1).
End LocalTimeZone.

Module MICOIndication.
Definition GetIei : IE → Z := get_bits 8 4 4.
Definition SetIei : Z → IE → IE := set_bits 15 15 4.
Definition GetRAAI : IE → Z := get_bits 1 0 0.
Definition SetRAAI : Z → IE → IE := set_bits 254 1 0.
Definition NewMICOIndication (iei : Z) : IE := SetIei iei (zero_type 1).
End MICOIndication.

Module MappedEPSBearerContexts.
Definition GetIei : IE → Z := Iei.
Definition SetIei : Z → IE → IE := with_Iei.
Definition GetLen : IE → Z := Len.
Definition SetLen : Z → IE → IE := make_buffer.
Definition GetMappedEPSBearerContext : IE → list Z := get_contents.
Definition SetMappedEPSBearerContext : list Z → IE → IE := set_contents.
Definition NewMappedEPSBearerContexts (iei : Z) : IE := SetIei iei (zero_type 0).
End MappedEPSBearerContexts.

Module MaximumNumberOfSupportedPacketFilters.
Definition GetIei : IE → Z := Iei.
Definition SetIei : Z → IE → IE := with_Iei.
Definition GetMaximumNumberOfSupportedPacketFilters : IE → outcome Z := get_ten_bits 0 1.
Definition SetMaximumNumberOfSupportedPacketFilters : Z → IE → outcome IE := set_ten_bits 0 1.
Definition NewMaximumNumberOfSupportedPacketFilters (iei : Z) : IE := SetIei iei (zero_type 2).
End MaximumNumberOfSupportedPacketFilters.

Module MessageAuthenticationCode.
Definition GetMAC : IE → outcome (list Z) := get_range 0 4.
Definition SetMAC : list Z → IE → outcome IE := set_range 0 4.
Definition NewMessageAuthenticationCode : IE := zero_type 4.
End MessageAuthenticationCode.

Module MobileIdentity.
Definition GetIei : IE → Z := Iei.
Definition SetIei : Z → IE → IE := with_Iei.
Definition GetLen : IE → Z := Len.
Definition SetLen : Z → IE → IE := make_buffer.
Definition GetMobileIdentityContents : IE → list Z := get_contents.
Definition SetMobileIdentityContents : list Z → IE → IE := set_contents.
Definition NewMobileIdentity (iei : Z) : IE := SetIei iei (zero_type 0).
End MobileIdentity.

Module MobileIdentity5GS.
Definition GetIei : IE → Z := Iei.
Definition SetIei : Z → IE → IE := with_Iei.
Definition GetLen : IE → Z := Len.
Definition SetLen : Z → IE → IE := make_buffer.
Definition GetMobileIdentity5GSContents : IE → list Z := get_contents.
Definition SetMobileIdentity5GSContents : list Z → IE → IE := set_contents.
Definition NewMobileIdentity5GS (iei : Z) : IE := SetIei iei (zero_type 0).
End MobileIdentity5GS.

Module NASMessageContainer.
Definition GetIei : IE → Z := Iei.
Definition SetIei : Z → IE → IE := with_Iei.
Definition GetLen : IE → Z := Len.
Definition SetLen : Z → IE → IE := make_buffer.
Definition GetNASMessageContainerContents : IE → list Z := get_contents.
Definition SetNASMessageContainerContents : list Z → IE → IE := set_contents.
Definition NewNASMessageContainer (iei : Z) : IE := SetIei iei (zero_type 0).
End NASMessageContainer.

Module NSSAIInclusionMode.
Definition GetIei : IE → Z := get_bits 8 4 4.
Definition SetIei : Z → IE → IE := set_bits 15 15 4.
Definition GetNSSAIInclusionMode : IE → Z := get_bits 2 0 0.
Definition SetNSSAIInclusionMode : Z → IE → IE := set_bits 252 3 0.
Definition NewNSSAIInclusionMode (iei : Z) : IE := SetIei iei (zero_type 1).
End NSSAIInclusionMode.

Module NegotiatedDRXParameters.
Definition GetIei : IE → Z := Iei.
Definition SetIei : Z → IE → IE := with_Iei.
Definition GetLen : IE → Z := Len.
Definition SetLen : Z → IE → IE := with_Len.
Definition GetDRXValue : IE → Z := get_bits 4 0 0.
Definition SetDRXValue : Z → IE → IE := set_bits 240 15 0.
Definition NewNegotiatedDRXParameters (iei : Z) : IE := SetIei iei (zero_type 1).
End NegotiatedDRXParameters.

Module NetworkDaylightSavingTime.
Definition GetIei : IE → Z := Iei.
Definition SetIei : Z → IE → IE := with_Iei.
Definition GetLen : IE → Z := Len.
Definition SetLen : Z → IE → IE := with_Len.
Definition Getvalue : IE → Z := get_bits 2 0 0.
Definition Setvalue : Z → IE → IE := set_bits 252 3 0.
Definition NewNetworkDaylightSavingTime (iei : Z) : IE := SetIei iei (zero_type 1).
End NetworkDaylightSavingTime.

Module NetworkFeatureSupport5GS.
Definition GetIei : IE → Z := Iei.
Definition SetIei : Z → IE → IE := with_Iei.
Definition GetLen : IE → Z := Len.
Definition SetLen : Z → IE → IE := with_Len.
Definition GetMPSI : IE → outcome Z := get_bits_at 0 8 7 7.
Definition SetMPSI : Z → IE → outcome IE := set_bits_at 0 127 1 7.
Definition GetIWKN26 : IE → outcome Z := get_bits_at 0 7 6 6.
Definition SetIWKN26 : Z → IE → outcome IE := set_bits_at 0 191 1 6.
Definition GetEMF : IE → outcome Z := get_bits_at 0 6 4 4.
Definition SetEMF : Z → IE → outcome IE := set_bits_at 0 207 3 4.
Definition GetEMC : IE → outcome Z := get_bits_at 0 4 2 2.
Definition SetEMC : Z → IE → outcome IE := set_bits_at 0 243 3 2.
Definition GetIMSVoPSN3GPP : IE → outcome Z := get_bits_at 0 2 1 1.
Definition SetIMSVoPSN3GPP : Z → IE → outcome IE := set_bits_at 0 253 1 1.
Definition GetIMSVoPS3GPP : IE → outcome Z := get_bits_at 0 1 0 0.
Definition SetIMSVoPS3GPP : Z → IE → outcome IE := set_bits_at 0 254 1 0.
Definition GetMCSI : IE → outcome Z := get_bits_at 1 2 1 1.
Definition SetMCSI : Z → IE → outcome IE := set_bits_at 1 253 1 1.
Definition GetEMCN : IE → outcome Z := get_bits_at 1 1 0 0.
Definition SetEMCN : Z → IE → outcome IE := set_bits_at 1 254 1 0.
Definition GetSpare : IE → outcome Z := get_at 2.
Definition SetSpare : Z → IE → outcome IE := set_at 2.
Definition NewNetworkFeatureSupport5GS (iei : Z) : IE := SetIei iei (zero_type 3).
End NetworkFeatureSupport5GS.

Module NetworkSlicingIndication.
Definition GetIei : IE → Z := get_bits 8 4 4.
Definition SetIei : Z → IE → IE := set_bits 15 15 4.
Definition GetDCNI : IE → Z := get_bits 2 1 1.
Definition SetDCNI : Z → IE → IE := set_bits 253 1 1.
Definition GetNSSCI : IE → Z := get_bits 1 0 0.
Definition SetNSSCI : Z → IE → IE := set_bits 254 1 0.
Definition NewNetworkSlicingIndication (iei : Z) : IE := SetIei iei (zero_type 1).
End NetworkSlicingIndication.

Module NgksiAndDeregistrationType.
Definition GetTSC : IE → Z := get_bits 8 7 7.
Definition SetTSC : Z → IE → IE := set_bits 127 1 7.
Definition GetNasKeySetIdentifiler : IE → Z := get_bits 7 4 4.
Definition SetNasKeySetIdentifiler : Z → IE → IE := set_bits 143 7 4.
Definition GetSwitchOff : IE → Z := get_bits 4 3 3.
Definition SetSwitchOff : Z → IE → IE := set_bits 247 1 3.
Definition GetReRegistrationRequired : IE → Z := get_bits 3 2 2.
Definition SetReRegistrationRequired : Z → IE → IE := set_bits 251 1 2.
Definition GetAccessType : IE → Z := get_bits 2 0 0.
Definition SetAccessType : Z → IE → IE := set_bits 252 3 0.
Definition NewNgksiAndDeregistrationType : IE := zero_type 1.
End NgksiAndDeregistrationType.

Module NgksiAndRegistrationType5GS.
Definition GetTSC : IE → Z := get_bits 8 7 7.
Definition SetTSC : Z → IE → IE := set_bits 127 1 7.
Definition GetNasKeySetIdentifiler : IE → Z := get_bits 7 4 4.
Definition SetNasKeySetIdentifiler : Z → IE → IE := set_bits 143 7 4.
Definition GetFOR : IE → Z := get_bits 4 3 3.
Definition SetFOR : Z → IE → IE := set_bits 247 1 3.
Definition GetRegistrationType5GS : IE → Z := get_bits 3 0 0.
Definition SetRegistrationType5GS : Z → IE → IE := set_bits 248 7 0.
Definition NewNgksiAndRegistrationType5GS : IE := zero_type 1.
End NgksiAndRegistrationType5GS.

Module Non3GppDeregistrationTimerValue.
Definition GetIei : IE → Z := Iei.
Definition SetIei : Z → IE → IE := with_Iei.
Definition GetLen : IE → Z := Len.
Definition SetLen : Z → IE → IE := with_Len.
Definition GetGPRSTimer2Value : IE → Z := octet.
Definition SetGPRSTimer2Value : Z → IE → IE := set_octet.
Definition NewNon3GppDeregistrationTimerValue (iei : Z) : IE := SetIei iei (zero_type 1).
End Non3GppDeregistrationTimerValue.

Module NoncurrentNativeNASKeySetIdentifier.
Definition GetIei : IE → Z := get_bits 8 4 4.
Definition SetIei : Z → IE → IE := set_bits 15 15 4.
Definition GetTsc : IE → Z := get_bits 4 3 3.
Definition SetTsc : Z → IE → IE := set_bits 247 1 3.
Definition GetNasKeySetIdentifiler : IE → Z := get_bits 3 0 0.
Definition SetNasKeySetIdentifiler : Z → IE → IE := set_bits 248 7 0.
Definition NewNoncurrentNativeNASKeySetIdentifier (iei : Z) : IE := SetIei iei (zero_type 1).
End NoncurrentNativeNASKeySetIdentifier.

Module NotificationMessageIdentity.
Definition GetMessageType : IE → Z := octet.
Definition SetMessageType : Z → IE → IE := set_octet.
Definition NewNotificationMessageIdentity : IE := zero_type 1.
End NotificationMessageIdentity.

Module NotificationResponseMessageIdentity.
Definition GetMessageType : IE → Z := octet.
Definition SetMessageType : Z → IE → IE := set_octet.
Definition NewNotificationResponseMessageIdentity : IE := zero_type 1.
End NotificationResponseMessageIdentity.

Module OldPDUSessionID.
Definition GetIei : IE → Z := Iei.
Definition SetIei : Z → IE → IE := with_Iei.
Definition GetOldPDUSessionID : IE → Z := octet.
Definition SetOldPDUSessionID : Z → IE → IE := set_octet.
Definition NewOldPDUSessionID (iei : Z) : IE := SetIei iei (zero_type 1).
End OldPDUSessionID.

Module OperatordefinedAccessCategoryDefinitions.
Definition GetIei : IE → Z := Iei.
Definition SetIei : Z → IE → IE := with_Iei.
Definition GetLen : IE → Z := Len.
Definition SetLen : Z → IE → IE := make_buffer.
Definition GetOperatorDefinedAccessCategoryDefintiion : IE → list Z := get_contents.
Definition SetOperatorDefinedAccessCategoryDefintiion : list Z → IE → IE := set_contents.
Definition NewOperatordefinedAccessCategoryDefinitions (iei : Z) : IE := SetIei iei (zero_type 0).
End OperatordefinedAccessCategoryDefinitions.

Module PDUAddress.
Definition GetIei : IE → Z := Iei.
Definition SetIei : Z → IE → IE := with_Iei.
Definition GetLen : IE → Z := Len.
Definition SetLen : Z → IE → IE := with_Len.
Definition GetPDUSessionTypeValue : IE → outcome Z := get_bits_at 0 3 0 0.
Definition SetPDUSessionTypeValue : Z → IE → outcome IE := set_bits_at 0 248 7 0.
Definition GetPDUAddressInformation : IE → outcome (list Z) := get_range 1 13.
Definition SetPDUAddressInformation : list Z → IE → outcome IE := set_range 1 13.
Definition NewPDUAddress (iei : Z) : IE := SetIei iei (zero_type 13).
End PDUAddress.

Module PDUSESSIONAUTHENTICATIONCOMMANDMessageIdentity.
Definition GetMessageType : IE → Z := octet.
Definition SetMessageType : Z → IE → IE := set_octet.
Definition NewPDUSESSIONAUTHENTICATIONCOMMANDMessageIdentity : IE := zero_type 1.
End PDUSESSIONAUTHENTICATIONCOMMANDMessageIdentity.

Module PDUSESSIONAUTHENTICATIONCOMPLETEMessageIdentity.
Definition GetMessageType : IE → Z := octet.
Definition SetMessageType : Z → IE → IE := set_octet.
Definition NewPDUSESSIONAUTHENTICATIONCOMPLETEMessageIdentity : IE := zero_type 1.
End PDUSESSIONAUTHENTICATIONCOMPLETEMessageIdentity.

Module PDUSESSIONAUTHENTICATIONRESULTMessageIdentity.
Definition GetMessageType : IE → Z := octet.
Definition SetMessageType : Z → IE → IE := set_octet.
Definition NewPDUSESSIONAUTHENTICATIONRESULTMessageIdentity : IE := zero_type 1.
End PDUSESSIONAUTHENTICATIONRESULTMessageIdentity.

Module PDUSESSIONESTABLISHMENTACCEPTMessageIdentity.
Definition GetMessageType : IE → Z := octet.
Definition SetMessageType : Z → IE → IE := set_octet.
Definition NewPDUSESSIONESTABLISHMENTACCEPTMessageIdentity : IE := zero_type 1.
End PDUSESSIONESTABLISHMENTACCEPTMessageIdentity.

Module PDUSESSIONESTABLISHMENTREJECTMessageIdentity.
Definition GetMessageType : IE → Z := octet.
Definition SetMessageType : Z → IE → IE := set_octet.
Definition NewPDUSESSIONESTABLISHMENTREJECTMessageIdentity : IE := zero_type 1.
End PDUSESSIONESTABLISHMENTREJECTMessageIdentity.

Module PDUSESSIONESTABLISHMENTREQUESTMessageIdentity.
Definition GetMessageType : IE → Z := octet.
Definition SetMessageType : Z → IE → IE := set_octet.
Definition NewPDUSESSIONESTABLISHMENTREQUESTMessageIdentity : IE := zero_type 1.
End PDUSESSIONESTABLISHMENTREQUESTMessageIdentity.

Module PDUSESSIONMODIFICATIONCOMMANDMessageIdentity.
Definition GetMessageType : IE → Z := octet.
Definition SetMessageType : Z → IE → IE := set_octet.
Definition NewPDUSESSIONMODIFICATIONCOMMANDMessageIdentity : IE := zero_type 1.
End PDUSESSIONMODIFICATIONCOMMANDMessageIdentity.

Module PDUSESSIONMODIFICATIONCOMMANDREJECTMessageIdentity.
Definition GetMessageType : IE → Z := octet.
Definition SetMessageType : Z → IE → IE := set_octet.
Definition NewPDUSESSIONMODIFICATIONCOMMANDREJECTMessageIdentity : IE := zero_type 1.
End PDUSESSIONMODIFICATIONCOMMANDREJECTMessageIdentity.

Module PDUSESSIONMODIFICATIONCOMPLETEMessageIdentity.
Definition GetMessageType : IE → Z := octet.
Definition SetMessageType : Z → IE → IE := set_octet.
Definition NewPDUSESSIONMODIFICATIONCOMPLETEMessageIdentity : IE := zero_type 1.
End PDUSESSIONMODIFICATIONCOMPLETEMessageIdentity.

Module PDUSESSIONMODIFICATIONREJECTMessageIdentity.
Definition GetMessageType : IE → Z := octet.
Definition SetMessageType : Z → IE → IE := set_octet.
Definition NewPDUSESSIONMODIFICATIONREJECTMessageIdentity : IE := zero_type 1.
End PDUSESSIONMODIFICATIONREJECTMessageIdentity.

Module PDUSESSIONMODIFICATIONREQUESTMessageIdentity.
Definition GetMessageType : IE → Z := octet.
Definition SetMessageType : Z → IE → IE := set_octet.
Definition NewPDUSESSIONMODIFICATIONREQUESTMessageIdentity : IE := zero_type 1.
End PDUSESSIONMODIFICATIONREQUESTMessageIdentity.

Module PDUSESSIONRELEASECOMMANDMessageIdentity.
Definition GetMessageType : IE → Z := octet.
Definition SetMessageType : Z → IE → IE := set_octet.
Definition NewPDUSESSIONRELEASECOMMANDMessageIdentity : IE := zero_type 1.
End PDUSESSIONRELEASECOMMANDMessageIdentity.

Module PDUSESSIONRELEASECOMPLETEMessageIdentity.
Definition GetMessageType : IE → Z := octet.
Definition SetMessageType : Z → IE → IE := set_octet.
Definition NewPDUSESSIONRELEASECOMPLETEMessageIdentity : IE := zero_type 1.
End PDUSESSIONRELEASECOMPLETEMessageIdentity.

Module PDUSESSIONRELEASEREJECTMessageIdentity.
Definition GetMessageType : IE → Z := octet.
Definition SetMessageType : Z → IE → IE := set_octet.
Definition NewPDUSESSIONRELEASEREJECTMessageIdentity : IE := zero_type 1.
End PDUSESSIONRELEASEREJECTMessageIdentity.

Module PDUSESSIONRELEASEREQUESTMessageIdentity.
Definition GetMessageType : IE → Z := octet.
Definition SetMessageType : Z → IE → IE := set_octet.
Definition NewPDUSESSIONRELEASEREQUESTMessageIdentity : IE := zero_type 1.
End PDUSESSIONRELEASEREQUESTMessageIdentity.

Module PDUSessionID.
Definition GetPDUSessionID : IE → Z := octet.
Definition SetPDUSessionID : Z → IE → IE := set_octet.
Definition NewPDUSessionID : IE := zero_type 1.
End PDUSessionID.

Module PDUSessionReactivationResult.
Definition GetIei : IE → Z := Iei.
Definition SetIei : Z → IE → IE := with_Iei.
Definition GetLen : IE → Z := Len.
Definition SetLen : Z → IE → IE := make_buffer.
Definition GetPSI7 : IE → outcome Z := get_bits_at 0 8 7 7.
Definition SetPSI7 : Z → IE → outcome IE := set_bits_at 0 127 1 7.
Definition GetPSI6 : IE → outcome Z := get_bits_at 0 7 6 6.
Definition SetPSI6 : Z → IE → outcome IE := set_bits_at 0 191 1 6.
Definition GetPSI5 : IE → outcome Z := get_bits_at 0 6 5 5.
Definition SetPSI5 : Z → IE → outcome IE := set_bits_at 0 223 1 5.
Definition GetPSI4 : IE → outcome Z := get_bits_at 0 5 4 4.
Definition SetPSI4 : Z → IE → outcome IE := set_bits_at 0 239 1 4.
Definition GetPSI3 : IE → outcome Z := get_bits_at 0 4 3 3.
Definition SetPSI3 : Z → IE → outcome IE := set_bits_at 0 247 1 3.
Definition GetPSI2 : IE → outcome Z := get_bits_at 0 3 2 2.
Definition SetPSI2 : Z → IE → outcome IE := set_bits_at 0 251 1 2.
Definition GetPSI1 : IE → outcome Z := get_bits_at 0 2 1 1.
Definition SetPSI1 : Z → IE → outcome IE := set_bits_at 0 253 1 1.
Definition GetPSI0 : IE → outcome Z := get_bits_at 0 1 0 0.
Definition SetPSI0 : Z → IE → outcome IE := set_bits_at 0 254 1 0.
Definition GetPSI15 : IE → outcome Z := get_bits_at 1 8 7 7.
Definition SetPSI15 : Z → IE → outcome IE := set_bits_at 1 127 1 7.
Definition GetPSI14 : IE → outcome Z := get_bits_at 1 7 6 6.
Definition SetPSI14 : Z → IE → outcome IE := set_bits_at 1 191 1 6.
Definition GetPSI13 : IE → outcome Z := get_bits_at 1 6 5 5.
Definition SetPSI13 : Z → IE → outcome IE := set_bits_at 1 223 1 5.
Definition GetPSI12 : IE → outcome Z := get_bits_at 1 5 4 4.
Definition SetPSI12 : Z → IE → outcome IE := set_bits_at 1 239 1 4.
Definition GetPSI11 : IE → outcome Z := get_bits_at 1 4 3 3.
Definition SetPSI11 : Z → IE → outcome IE := set_bits_at 1 247 1 3.
Definition GetPSI10 : IE → outcome Z := get_bits_at 1 3 2 2.
Definition SetPSI10 : Z → IE → outcome IE := set_bits_at 1 251 1 2.
Definition GetPSI9 : IE → outcome Z := get_bits_at 1 2 1 1.
Definition SetPSI9 : Z → IE → outcome IE := set_bits_at 1 253 1 1.
Definition GetPSI8 : IE → outcome Z := get_bits_at 1 1 0 0.
Definition SetPSI8 : Z → IE → outcome IE := set_bits_at 1 254 1 0.
Definition GetSpare : IE → outcome (list Z) := get_rest 2.
Definition SetSpare : list Z → IE → outcome IE := set_rest 2.
Definition NewPDUSessionReactivationResult (iei : Z) : IE := SetIei iei (zero_type 0).
End PDUSessionReactivationResult.

Module PDUSessionReactivationResultErrorCause.
Definition GetIei : IE → Z := Iei.
Definition SetIei : Z → IE → IE := with_Iei.
Definition GetLen : IE → Z := Len.
Definition SetLen : Z → IE → IE := make_buffer.
Definition GetPDUSessionIDAndCauseValue : IE → list Z := get_contents.
Definition SetPDUSessionIDAndCauseValue : list Z → IE → IE := set_contents.
Definition NewPDUSessionReactivationResultErrorCause (iei : Z) : IE := SetIei iei (zero_type 0).
End PDUSessionReactivationResultErrorCause.

Module PDUSessionStatus.
Definition GetIei : IE → Z := Iei.
Definition SetIei : Z → IE → IE := with_Iei.
Definition GetLen : IE → Z := Len.
Definition SetLen : Z → IE → IE := make_buffer.
Definition GetPSI7 : IE → outcome Z := get_bits_at 0 8 7 7.
Definition SetPSI7 : Z → IE → outcome IE := set_bits_at 0 127 1 7.
Definition GetPSI6 : IE → outcome Z := get_bits_at 0 7 6 6.
Definition SetPSI6 : Z → IE → outcome IE := set_bits_at 0 191 1 6.
Definition GetPSI5 : IE → outcome Z := get_bits_at 0 6 5 5.
Definition SetPSI5 : Z → IE → outcome IE := set_bits_at 0 223 1 5.
Definition GetPSI4 : IE → outcome Z := get_bits_at 0 5 4 4.
Definition SetPSI4 : Z → IE → outcome IE := set_bits_at 0 239 1 4.
Definition GetPSI3 : IE → outcome Z := get_bits_at 0 4 3 3.
Definition SetPSI3 : Z → IE → outcome IE := set_bits_at 0 247 1 3.
Definition GetPSI2 : IE → outcome Z := get_bits_at 0 3 2 2.
Definition SetPSI2 : Z → IE → outcome IE := set_bits_at 0 251 1 2.
Definition GetPSI1 : IE → outcome Z := get_bits_at 0 2 1 1.
Definition SetPSI1 : Z → IE → outcome IE := set_bits_at 0 253 1 1.
Definition GetPSI0 : IE → outcome Z := get_bits_at 0 1 0 0.
Definition SetPSI0 : Z → IE → outcome IE := set_bits_at 0 254 1 0.
Definition GetPSI15 : IE → outcome Z := get_bits_at 1 8 7 7.
Definition SetPSI15 : Z → IE → outcome IE := set_bits_at 1 127 1 7.
Definition GetPSI14 : IE → outcome Z := get_bits_at 1 7 6 6.
Definition SetPSI14 : Z → IE → outcome IE := set_bits_at 1 191 1 6.
Definition GetPSI13 : IE → outcome Z := get_bits_at 1 6 5 5.
Definition SetPSI13 : Z → IE → outcome IE := set_bits_at 1 223 1 5.
Definition GetPSI12 : IE → outcome Z := get_bits_at 1 5 4 4.
Definition SetPSI12 : Z → IE → outcome IE := set_bits_at 1 239 1 4.
Definition GetPSI11 : IE → outcome Z := get_bits_at 1 4 3 3.
Definition SetPSI11 : Z → IE → outcome IE := set_bits_at 1 247 1 3.
Definition GetPSI10 : IE → outcome Z := get_bits_at 1 3 2 2.
Definition SetPSI10 : Z → IE → outcome IE := set_bits_at 1 251 1 2.
Definition GetPSI9 : IE → outcome Z := get_bits_at 1 2 1 1.
Definition SetPSI9 : Z → IE → outcome IE := set_bits_at 1 253 1 1.
Definition GetPSI8 : IE → outcome Z := get_bits_at 1 1 0 0.
Definition SetPSI8 : Z → IE → outcome IE := set_bits_at 1 254 1 0.
Definition GetSpare : IE → outcome (list Z) := get_rest 2.
Definition SetSpare : list Z → IE → outcome IE := set_rest 2.
Definition NewPDUSessionStatus (iei : Z) : IE := SetIei iei (zero_type 0).
End PDUSessionStatus.

Module PDUSessionType.
Definition GetIei : IE → Z := get_bits 8 4 4.
Definition SetIei : Z → IE → IE := set_bits 15 15 4.
Definition GetSpare : IE → Z := get_bits 4 3 3.
Definition SetSpare : Z → IE → IE := set_bits 247 1 3.
Definition GetPDUSessionTypeValue : IE → Z := get_bits 3 0 0.
Definition SetPDUSessionTypeValue : Z → IE → IE := set_bits 248 7 0.
Definition NewPDUSessionType (iei : Z) : IE := SetIei iei (zero_type 1).
End PDUSessionType.

Module PTI.
Definition GetPTI : IE → Z := octet.
Definition SetPTI : Z → IE → IE := set_octet.
Definition NewPTI : IE := zero_type 1.
End PTI.

Module PayloadContainer.
Definition GetIei : IE → Z := Iei.
Definition SetIei : Z → IE → IE := with_Iei.
Definition GetLen : IE → Z := Len.
Definition SetLen : Z → IE → IE := make_buffer.
Definition GetPayloadContainerContents : IE → list Z := get_contents.
Definition SetPayloadContainerContents : list Z → IE → IE := set_contents.
Definition NewPayloadContainer (iei : Z) : IE := SetIei iei (zero_type 0).
End PayloadContainer.

Module PduSessionID2Value.
Definition GetIei : IE → Z := Iei.
Definition SetIei : Z → IE → IE := with_Iei.
Definition GetPduSessionID2Value : IE → Z := octet.
Definition SetPduSessionID2Value : Z → IE → IE := set_octet.
Definition NewPduSessionID2Value (iei : Z) : IE := SetIei iei (zero_type 1).
End PduSessionID2Value.

Module Plain5GSNASMessage.
Definition NewPlain5GSNASMessage : IE := zero_type 0.
End Plain5GSNASMessage.

Module RQTimerValue.
Definition GetIei : IE → Z := Iei.
Definition SetIei : Z → IE → IE := with_Iei.
Definition GetUnit : IE → Z := get_bits 8 5 5.
Definition SetUnit : Z → IE → IE := set_bits 31 7 5.
Definition GetTimerValue : IE → Z := get_bits 5 0 0.
Definition SetTimerValue : Z → IE → IE := set_bits 224 31 0.
Definition NewRQTimerValue (iei : Z) : IE := SetIei iei (zero_type 1).
End RQTimerValue.

Module RegistrationAcceptMessageIdentity.
Definition GetMessageType : IE → Z := octet.
Definition SetMessageType : Z → IE → IE := set_octet.
Definition NewRegistrationAcceptMessageIdentity : IE := zero_type 1.
End RegistrationAcceptMessageIdentity.

Module RegistrationCompleteMessageIdentity.
Definition GetMessageType : IE → Z := octet.
Definition SetMessageType : Z → IE → IE := set_octet.
Definition NewRegistrationCompleteMessageIdentity : IE := zero_type 1.
End RegistrationCompleteMessageIdentity.

Module RegistrationRejectMessageIdentity.
Definition GetMessageType : IE → Z := octet.
Definition SetMessageType : Z → IE → IE := set_octet.
Definition NewRegistrationRejectMessageIdentity : IE := zero_type 1.
End RegistrationRejectMessageIdentity.

Module RegistrationRequestMessageIdentity.
Definition GetMessageType : IE → Z := octet.
Definition SetMessageType : Z → IE → IE := set_octet.
Definition NewRegistrationRequestMessageIdentity : IE := zero_type 1.
End RegistrationRequestMessageIdentity.

Module RegistrationResult5GS.
Definition GetIei : IE → Z := Iei.
Definition SetIei : Z → IE → IE := with_Iei.
Definition GetLen : IE → Z := Len.
Definition SetLen : Z → IE → IE := with_Len.
Definition GetSMSAllowed : IE → Z := get_bits 4 3 3.
Definition SetSMSAllowed : Z → IE → IE := set_bits 247 1 3.
Definition GetRegistrationResultValue5GS : IE → Z := get_bits 3 0 0.
Definition SetRegistrationResultValue5GS : Z → IE → IE := set_bits 248 7 0.
Definition NewRegistrationResult5GS (iei : Z) : IE := SetIei iei (zero_type 1).
End RegistrationResult5GS.

Module RejectedNSSAI.
Definition GetIei : IE → Z := Iei.
Definition SetIei : Z → IE → IE := with_Iei.
Definition GetLen : IE → Z := Len.
Definition SetLen : Z → IE → IE := make_buffer.
Definition GetRejectedNSSAIContents : IE → list Z := get_contents.
Definition SetRejectedNSSAIContents : list Z → IE → IE := set_contents.
Definition NewRejectedNSSAI (iei : Z) : IE := SetIei iei (zero_type 0).
End RejectedNSSAI.

Module ReplayedS1UESecurityCapabilities.
Definition GetIei : IE → Z := Iei.
Definition SetIei : Z → IE → IE := with_Iei.
Definition GetLen : IE → Z := Len.
Definition SetLen : Z → IE → IE := make_buffer.
Definition GetEEA0 : IE → outcome Z := get_bits_at 0 8 7 7.
Definition SetEEA0 : Z → IE → outcome IE := set_bits_at 0 127 1 7.
Definition GetEEA1_128 : IE → outcome Z := get_bits_at 0 7 6 6.
Definition SetEEA1_128 : Z → IE → outcome IE := set_bits_at 0 191 1 6.
Definition GetEEA2_128 : IE → outcome Z := get_bits_at 0 6 5 5.
Definition SetEEA2_128 : Z → IE → outcome IE := set_bits_at 0 223 1 5.
Definition GetEEA3_128 : IE → outcome Z := get_bits_at 0 5 4 4.
Definition SetEEA3_128 : Z → IE → outcome IE := set_bits_at 0 239 1 4.
Definition GetEEA4 : IE → outcome Z := get_bits_at 0 4 3 3.
Definition SetEEA4 : Z → IE → outcome IE := set_bits_at 0 247 1 3.
Definition GetEEA5 : IE → outcome Z := get_bits_at 0 3 2 2.
Definition SetEEA5 : Z → IE → outcome IE := set_bits_at 0 251 1 2.
Definition GetEEA6 : IE → outcome Z := get_bits_at 0 2 1 1.
Definition SetEEA6 : Z → IE → outcome IE := set_bits_at 0 253 1 1.
Definition GetEEA7 : IE → outcome Z := get_bits_at 0 1 0 0.
Definition SetEEA7 : Z → IE → outcome IE := set_bits_at 0 254 1 0.
Definition GetEIA0 : IE → outcome Z := get_bits_at 1 8 7 7.
Definition SetEIA0 : Z → IE → outcome IE := set_bits_at 1 127 1 7.
Definition GetEIA1_128 : IE → outcome Z := get_bits_at 1 7 6 6.
Definition SetEIA1_128 : Z → IE → outcome IE := set_bits_at 1 191 1 6.
Definition GetEIA2_128 : IE → outcome Z := get_bits_at 1 6 5 5.
Definition SetEIA2_128 : Z → IE → outcome IE := set_bits_at 1 223 1 5.
Definition GetEIA3_128 : IE → outcome Z := get_bits_at 1 5 4 4.
Definition SetEIA3_128 : Z → IE → outcome IE := set_bits_at 1 239 1 4.
Definition GetEIA4 : IE → outcome Z := get_bits_at 1 4 3 3.
Definition SetEIA4 : Z → IE → outcome IE := set_bits_at 1 247 1 3.
Definition GetEIA5 : IE → outcome Z := get_bits_at 1 3 2 2.
Definition SetEIA5 : Z → IE → outcome IE := set_bits_at 1 251 1 2.
Definition GetEIA6 : IE → outcome Z := get_bits_at 1 2 1 1.
Definition SetEIA6 : Z → IE → outcome IE := set_bits_at 1 253 1 1.
Definition GetEIA7 : IE → outcome Z := get_bits_at 1 1 0 0.
Definition SetEIA7 : Z → IE → outcome IE := set_bits_at 1 254 1 0.
Definition GetUEA0 : IE → outcome Z := get_bits_at 2 8 7 7.
Definition SetUEA0 : Z → IE → outcome IE := set_bits_at 2 127 1 7.
Definition GetUEA1 : IE → outcome Z := get_bits_at 2 7 6 6.
Definition SetUEA1 : Z → IE → outcome IE := set_bits_at 2 191 1 6.
Definition GetUEA2 : IE → outcome Z := get_bits_at 2 6 5 5.
Definition SetUEA2 : Z → IE → outcome IE := set_bits_at 2 223 1 5.
Definition GetUEA3 : IE → outcome Z := get_bits_at 2 5 4 4.
Definition SetUEA3 : Z → IE → outcome IE := set_bits_at 2 239 1 4.
Definition GetUEA4 : IE → outcome Z := get_bits_at 2 4 3 3.
Definition SetUEA4 : Z → IE → outcome IE := set_bits_at 2 247 1 3.
Definition GetUEA5 : IE → outcome Z := get_bits_at 2 3 2 2.
Definition SetUEA5 : Z → IE → outcome IE := set_bits_at 2 251 1 2.
Definition GetUEA6 : IE → outcome Z := get_bits_at 2 2 1 1.
Definition SetUEA6 : Z → IE → outcome IE := set_bits_at 2 253 1 1.
Definition GetUEA7 : IE → outcome Z := get_bits_at 2 1 0 0.
Definition SetUEA7 : Z → IE → outcome IE := set_bits_at 2 254 1 0.
Definition GetUIA1 : IE → outcome Z := get_bits_at 3 7 6 6.
Definition SetUIA1 : Z → IE → outcome IE := set_bits_at 3 191 1 6.
Definition GetUIA2 : IE → outcome Z := get_bits_at 3 6 5 5.
Definition SetUIA2 : Z → IE → outcome IE := set_bits_at 3 223 1 5.
Definition GetUIA3 : IE → outcome Z := get_bits_at 3 5 4 4.
Definition SetUIA3 : Z → IE → outcome IE := set_bits_at 3 239 1 4.
Definition GetUIA4 : IE → outcome Z := get_bits_at 3 4 3 3.
Definition SetUIA4 : Z → IE → outcome IE := set_bits_at 3 247 1 3.
Definition GetUIA5 : IE → outcome Z := get_bits_at 3 3 2 2.
Definition SetUIA5 : Z → IE → outcome IE := set_bits_at 3 251 1 2.
Definition GetUIA6 : IE → outcome Z := get_bits_at 3 2 1 1.
Definition SetUIA6 : Z → IE → outcome IE := set_bits_at 3 253 1 1.
Definition GetUIA7 : IE → outcome Z := get_bits_at 3 1 0 0.
Definition SetUIA7 : Z → IE → outcome IE := set_bits_at 3 254 1 0.
Definition GetGEA1 : IE → outcome Z := get_bits_at 4 7 6 6.
Definition SetGEA1 : Z → IE → outcome IE := set_bits_at 4 191 1 6.
Definition GetGEA2 : IE → outcome Z := get_bits_at 4 6 5 5.
Definition SetGEA2 : Z → IE → outcome IE := set_bits_at 4 223 1 5.
Definition GetGEA3 : IE → outcome Z := get_bits_at 4 5 4 4.
Definition SetGEA3 : Z → IE → outcome IE := set_bits_at 4 239 1 4.
Definition GetGEA4 : IE → outcome Z := get_bits_at 4 4 3 3.
Definition SetGEA4 : Z → IE → outcome IE := set_bits_at 4 247 1 3.
Definition GetGEA5 : IE → outcome Z := get_bits_at 4 3 2 2.
Definition SetGEA5 : Z → IE → outcome IE := set_bits_at 4 251 1 2.
Definition GetGEA6 : IE → outcome Z := get_bits_at 4 2 1 1.
Definition SetGEA6 : Z → IE → outcome IE := set_bits_at 4 253 1 1.
Definition GetGEA7 : IE → outcome Z := get_bits_at 4 1 0 0.
Definition SetGEA7 : Z → IE → outcome IE := set_bits_at 4 254 1 0.
Definition NewReplayedS1UESecurityCapabilities (iei : Z) : IE := SetIei iei (zero_type 0).
End ReplayedS1UESecurityCapabilities.

Module ReplayedUESecurityCapabilities.
Definition GetIei : IE → Z := Iei.
Definition SetIei : Z → IE → IE := with_Iei.
Definition GetLen : IE → Z := Len.
Definition SetLen : Z → IE → IE := make_buffer.
Definition GetEA0_5G : IE → outcome Z := get_bits_at 0 8 7 7.
Definition SetEA0_5G : Z → IE → outcome IE := set_bits_at 0 127 1 7.
Definition GetEA1_128_5G : IE → outcome Z := get_bits_at 0 7 6 6.
Definition SetEA1_128_5G : Z → IE → outcome IE := set_bits_at 0 191 1 6.
Definition GetEA2_128_5G : IE → outcome Z := get_bits_at 0 6 5 5.
Definition SetEA2_128_5G : Z → IE → outcome IE := set_bits_at 0 223 1 5.
Definition GetEA3_128_5G : IE → outcome Z := get_bits_at 0 5 4 4.
Definition SetEA3_128_5G : Z → IE → outcome IE := set_bits_at 0 239 1 4.
Definition GetEA4_5G : IE → outcome Z := get_bits_at 0 4 3 3.
Definition SetEA4_5G : Z → IE → outcome IE := set_bits_at 0 247 1 3.
Definition GetEA5_5G : IE → outcome Z := get_bits_at 0 3 2 2.
Definition SetEA5_5G : Z → IE → outcome IE := set_bits_at 0 251 1 2.
Definition GetEA6_5G : IE → outcome Z := get_bits_at 0 2 1 1.
Definition SetEA6_5G : Z → IE → outcome IE := set_bits_at 0 253 1 1.
Definition GetEA7_5G : IE → outcome Z := get_bits_at 0 1 0 0.
Definition SetEA7_5G : Z → IE → outcome IE := set_bits_at 0 254 1 0.
Definition GetIA0_5G : IE → outcome Z := get_bits_at 1 8 7 7.
Definition SetIA0_5G : Z → IE → outcome IE := set_bits_at 1 127 1 7.
Definition GetIA1_128_5G : IE → outcome Z := get_bits_at 1 7 6 6.
Definition SetIA1_128_5G : Z → IE → outcome IE := set_bits_at 1 191 1 6.
Definition GetIA2_128_5G : IE → outcome Z := get_bits_at 1 6 5 5.
Definition SetIA2_128_5G : Z → IE → outcome IE := set_bits_at 1 223 1 5.
Definition GetIA3_128_5G : IE → outcome Z := get_bits_at 1 5 4 4.
Definition SetIA3_128_5G : Z → IE → outcome IE := set_bits_at 1 239 1 4.
Definition GetIA4_5G : IE → outcome Z := get_bits_at 1 4 3 3.
Definition SetIA4_5G : Z → IE → outcome IE := set_bits_at 1 247 1 3.
Definition GetIA5_5G : IE → outcome Z := get_bits_at 1 3 2 2.
Definition SetIA5_5G : Z → IE → outcome IE := set_bits_at 1 251 1 2.
Definition GetIA6_5G : IE → outcome Z := get_bits_at 1 2 1 1.
Definition SetIA6_5G : Z → IE → outcome IE := set_bits_at 1 253 1 1.
Definition GetIA7_5G : IE → outcome Z := get_bits_at 1 1 0 0.
Definition SetIA7_5G : Z → IE → outcome IE := set_bits_at 1 254 1 0.
Definition GetEEA0 : IE → outcome Z := get_bits_at 2 8 7 7.
Definition SetEEA0 : Z → IE → outcome IE := set_bits_at 2 127 1 7.
Definition GetEEA1_128 : IE → outcome Z := get_bits_at 2 7 6 6.
Definition SetEEA1_128 : Z → IE → outcome IE := set_bits_at 2 191 1 6.
Definition GetEEA2_128 : IE → outcome Z := get_bits_at 2 6 5 5.
Definition SetEEA2_128 : Z → IE → outcome IE := set_bits_at 2 223 1 5.
Definition GetEEA3_128 : IE → outcome Z := get_bits_at 2 5 4 4.
Definition SetEEA3_128 : Z → IE → outcome IE := set_bits_at 2 239 1 4.
Definition GetEEA4 : IE → outcome Z := get_bits_at 2 4 3 3.
Definition SetEEA4 : Z → IE → outcome IE := set_bits_at 2 247 1 3.
Definition GetEEA5 : IE → outcome Z := get_bits_at 2 3 2 2.
Definition SetEEA5 : Z → IE → outcome IE := set_bits_at 2 251 1 2.
Definition GetEEA6 : IE → outcome Z := get_bits_at 2 2 1 1.
Definition SetEEA6 : Z → IE → outcome IE := set_bits_at 2 253 1 1.
Definition GetEEA7 : IE → outcome Z := get_bits_at 2 1 0 0.
Definition SetEEA7 : Z → IE → outcome IE := set_bits_at 2 254 1 0.
Definition GetEIA0 : IE → outcome Z := get_bits_at 3 8 7 7.
Definition SetEIA0 : Z → IE → outcome IE := set_bits_at 3 127 1 7.
Definition GetEIA1_128 : IE → outcome Z := get_bits_at 3 7 6 6.
Definition SetEIA1_128 : Z → IE → outcome IE := set_bits_at 3 191 1 6.
Definition GetEIA2_128 : IE → outcome Z := get_bits_at 3 6 5 5.
Definition SetEIA2_128 : Z → IE → outcome IE := set_bits_at 3 223 1 5.
Definition GetEIA3_128 : IE → outcome Z := get_bits_at 3 5 4 4.
Definition SetEIA3_128 : Z → IE → outcome IE := set_bits_at 3 239 1 4.
Definition GetEIA4 : IE → outcome Z := get_bits_at 3 4 3 3.
Definition SetEIA4 : Z → IE → outcome IE := set_bits_at 3 247 1 3.
Definition GetEIA5 : IE → outcome Z := get_bits_at 3 3 2 2.
Definition SetEIA5 : Z → IE → outcome IE := set_bits_at 3 251 1 2.
Definition GetEIA6 : IE → outcome Z := get_bits_at 3 2 1 1.
Definition SetEIA6 : Z → IE → outcome IE := set_bits_at 3 253 1 1.
Definition GetEIA7 : IE → outcome Z := get_bits_at 3 1 0 0.
Definition SetEIA7 : Z → IE → outcome IE := set_bits_at 3 254 1 0.
Definition GetSpare : IE → outcome (list Z) := get_range 4 8.
Definition SetSpare : list Z → IE → outcome IE := set_range 4 8.
Definition NewReplayedUESecurityCapabilities (iei : Z) : IE := SetIei iei (zero_type 0).
End ReplayedUESecurityCapabilities.

Module RequestType.
Definition GetIei : IE → Z := get_bits 8 4 4.
Definition SetIei : Z → IE → IE := set_bits 15 15 4.
Definition GetRequestTypeValue : IE → Z := get_bits 3 0 0.
Definition SetRequestTypeValue : Z → IE → IE := set_bits 248 7 0.
Definition NewRequestType (iei : Z) : IE := SetIei iei (zero_type 1).
End RequestType.

Module RequestedDRXParameters.
Definition GetIei : IE → Z := Iei.
Definition SetIei : Z → IE → IE := with_Iei.
Definition GetLen : IE → Z := Len.
Definition SetLen : Z → IE → IE := with_Len.
Definition GetDRXValue : IE → Z := get_bits 4 0 0.
Definition SetDRXValue : Z → IE → IE := set_bits 240 15 0.
Definition NewRequestedDRXParameters (iei : Z) : IE := SetIei iei (zero_type 1).
End RequestedDRXParameters.

Module RequestedNSSAI.
Definition GetIei : IE → Z := Iei.
Definition SetIei : Z → IE → IE := with_Iei.
Definition GetLen : IE → Z := Len.
Definition SetLen : Z → IE → IE := make_buffer.
Definition GetSNSSAIValue : IE → list Z := get_contents.
Definition SetSNSSAIValue : list Z → IE → IE := set_contents.
Definition NewRequestedNSSAI (iei : Z) : IE := SetIei iei (zero_type 0).
End RequestedNSSAI.

Module RequestedQosFlowDescriptions.
Definition GetIei : IE → Z := Iei.
Definition SetIei : Z → IE → IE := with_Iei.
Definition GetLen : IE → Z := Len.
Definition SetLen : Z → IE → IE := make_buffer.
Definition GetQoSFlowDescriptions : IE → list Z := get_contents.
Definition SetQoSFlowDescriptions : list Z → IE → IE := set_contents.
Definition NewRequestedQosFlowDescriptions (iei : Z) : IE := SetIei iei (zero_type 0).
End RequestedQosFlowDescriptions.

Module RequestedQosRules.
Definition GetIei : IE → Z := Iei.
Definition SetIei : Z → IE → IE := with_Iei.
Definition GetLen : IE → Z := Len.
Definition SetLen : Z → IE → IE := make_buffer.
Definition GetQoSRules : IE → list Z := get_contents.
Definition SetQoSRules : list Z → IE → IE := set_contents.
Definition NewRequestedQosRules (iei : Z) : IE := SetIei iei (zero_type 0).
End RequestedQosRules.

Module S1UENetworkCapability.
Definition GetIei : IE → Z := Iei.
Definition SetIei : Z → IE → IE := with_Iei.
Definition GetLen : IE → Z := Len.
Definition SetLen : Z → IE → IE := make_buffer.
Definition GetEEA0 : IE → outcome Z := get_bits_at 0 8 7 7.
Definition SetEEA0 : Z → IE → outcome IE := set_bits_at 0 127 1 7.
Definition GetEEA1_128 : IE → outcome Z := get_bits_at 0 7 6 6.
Definition SetEEA1_128 : Z → IE → outcome IE := set_bits_at 0 191 1 6.
Definition GetEEA2_128 : IE → outcome Z := get_bits_at 0 6 5 5.
Definition SetEEA2_128 : Z → IE → outcome IE := set_bits_at 0 223 1 5.
Definition GetEEA3_128 : IE → outcome Z := get_bits_at 0 5 4 4.
Definition SetEEA3_128 : Z → IE → outcome IE := set_bits_at 0 239 1 4.
Definition GetEEA4 : IE → outcome Z := get_bits_at 0 4 3 3.
Definition SetEEA4 : Z → IE → outcome IE := set_bits_at 0 247 1 3.
Definition GetEEA5 : IE → outcome Z := get_bits_at 0 3 2 2.
Definition SetEEA5 : Z → IE → outcome IE := set_bits_at 0 251 1 2.
Definition GetEEA6 : IE → outcome Z := get_bits_at 0 2 1 1.
Definition SetEEA6 : Z → IE → outcome IE := set_bits_at 0 253 1 1.
Definition GetEEA7 : IE → outcome Z := get_bits_at 0 1 0 0.
Definition SetEEA7 : Z → IE → outcome IE := set_bits_at 0 254 1 0.
Definition GetEIA0 : IE → outcome Z := get_bits_at 1 8 7 7.
Definition SetEIA0 : Z → IE → outcome IE := set_bits_at 1 127 1 7.
Definition GetEIA1_128 : IE → outcome Z := get_bits_at 1 7 6 6.
Definition SetEIA1_128 : Z → IE → outcome IE := set_bits_at 1 191 1 6.
Definition GetEIA2_128 : IE → outcome Z := get_bits_at 1 6 5 5.
Definition SetEIA2_128 : Z → IE → outcome IE := set_bits_at 1 223 1 5.
Definition GetEIA3_128 : IE → outcome Z := get_bits_at 1 5 4 4.
Definition SetEIA3_128 : Z → IE → outcome IE := set_bits_at 1 239 1 4.
Definition GetEIA4 : IE → outcome Z := get_bits_at 1 4 3 3.
Definition SetEIA4 : Z → IE → outcome IE := set_bits_at 1 247 1 3.
Definition GetEIA5 : IE → outcome Z := get_bits_at 1 3 2 2.
Definition SetEIA5 : Z → IE → outcome IE := set_bits_at 1 251 1 2.
Definition GetEIA6 : IE → outcome Z := get_bits_at 1 2 1 1.
Definition SetEIA6 : Z → IE → outcome IE := set_bits_at 1 253 1 1.
Definition GetEIA7 : IE → outcome Z := get_bits_at 1 1 0 0.
Definition SetEIA7 : Z → IE → outcome IE := set_bits_at 1 254 1 0.
Definition GetUEA0 : IE → outcome Z := get_bits_at 2 8 7 7.
Definition SetUEA0 : Z → IE → outcome IE := set_bits_at 2 127 1 7.
Definition GetUEA1 : IE → outcome Z := get_bits_at 2 7 6 6.
Definition SetUEA1 : Z → IE → outcome IE := set_bits_at 2 191 1 6.
Definition GetUEA2 : IE → outcome Z := get_bits_at 2 6 5 5.
Definition SetUEA2 : Z → IE → outcome IE := set_bits_at 2 223 1 5.
Definition GetUEA3 : IE → outcome Z := get_bits_at 2 5 4 4.
Definition SetUEA3 : Z → IE → outcome IE := set_bits_at 2 239 1 4.
Definition GetUEA4 : IE → outcome Z := get_bits_at 2 4 3 3.
Definition SetUEA4 : Z → IE → outcome IE := set_bits_at 2 247 1 3.
Definition GetUEA5 : IE → outcome Z := get_bits_at 2 3 2 2.
Definition SetUEA5 : Z → IE → outcome IE := set_bits_at 2 251 1 2.
Definition GetUEA6 : IE → outcome Z := get_bits_at 2 2 1 1.
Definition SetUEA6 : Z → IE → outcome IE := set_bits_at 2 253 1 1.
Definition GetUEA7 : IE → outcome Z := get_bits_at 2 1 0 0.
Definition SetUEA7 : Z → IE → outcome IE := set_bits_at 2 254 1 0.
Definition GetUCS2 : IE → outcome Z := get_bits_at 3 8 7 7.
Definition SetUCS2 : Z → IE → outcome IE := set_bits_at 3 127 1 7.
Definition GetUIA1 : IE → outcome Z := get_bits_at 3 7 6 6.
Definition SetUIA1 : Z → IE → outcome IE := set_bits_at 3 191 1 6.
Definition GetUIA2 : IE → outcome Z := get_bits_at 3 6 5 5.
Definition SetUIA2 : Z → IE → outcome IE := set_bits_at 3 223 1 5.
Definition GetUIA3 : IE → outcome Z := get_bits_at 3 5 4 4.
Definition SetUIA3 : Z → IE → outcome IE := set_bits_at 3 239 1 4.
Definition GetUIA4 : IE → outcome Z := get_bits_at 3 4 3 3.
Definition SetUIA4 : Z → IE → outcome IE := set_bits_at 3 247 1 3.
Definition GetUIA5 : IE → outcome Z := get_bits_at 3 3 2 2.
Definition SetUIA5 : Z → IE → outcome IE := set_bits_at 3 251 1 2.
Definition GetUIA6 : IE → outcome Z := get_bits_at 3 2 1 1.
Definition SetUIA6 : Z → IE → outcome IE := set_bits_at 3 253 1 1.
Definition GetUIA7 : IE → outcome Z := get_bits_at 3 1 0 0.
Definition SetUIA7 : Z → IE → outcome IE := set_bits_at 3 254 1 0.
Definition GetProSedd : IE → outcome Z := get_bits_at 4 8 7 7.
Definition SetProSedd : Z → IE → outcome IE := set_bits_at 4 127 1 7.
Definition GetProSe : IE → outcome Z := get_bits_at 4 7 6 6.
Definition SetProSe : Z → IE → outcome IE := set_bits_at 4 191 1 6.
Definition GetH245ASH : IE → outcome Z := get_bits_at 4 6 5 5.
Definition SetH245ASH : Z → IE → outcome IE := set_bits_at 4 223 1 5.
Definition GetACCCSFB : IE → outcome Z := get_bits_at 4 5 4 4.
Definition SetACCCSFB : Z → IE → outcome IE := set_bits_at 4 239 1 4.
Definition GetLPP : IE → outcome Z := get_bits_at 4 4 3 3.
Definition SetLPP : Z → IE → outcome IE := set_bits_at 4 247 1 3.
Definition GetLCS : IE → outcome Z := get_bits_at 4 3 2 2.
Definition SetLCS : Z → IE → outcome IE := set_bits_at 4 251 1 2.
Definition GetxSRVCC : IE → outcome Z := get_bits_at 4 2 1 1.
Definition SetxSRVCC : Z → IE → outcome IE := set_bits_at 4 253 1 1.
Definition GetNF : IE → outcome Z := get_bits_at 4 1 0 0.
Definition SetNF : Z → IE → outcome IE := set_bits_at 4 254 1 0.
Definition GetEPCO : IE → outcome Z := get_bits_at 5 8 7 7.
Definition SetEPCO : Z → IE → outcome IE := set_bits_at 5 127 1 7.
Definition GetHCCPCIOT : IE → outcome Z := get_bits_at 5 7 6 6.
Definition SetHCCPCIOT : Z → IE → outcome IE := set_bits_at 5 191 1 6.
Definition GetERwoPDN : IE → outcome Z := get_bits_at 5 6 5 5.
Definition SetERwoPDN : Z → IE → outcome IE := set_bits_at 5 223 1 5.
Definition GetS1UData : IE → outcome Z := get_bits_at 5 5 4 4.
Definition SetS1UData : Z → IE → outcome IE := set_bits_at 5 239 1 4.
Definition GetUPCIot : IE → outcome Z := get_bits_at 5 4 3 3.
Definition SetUPCIot : Z → IE → outcome IE := set_bits_at 5 247 1 3.
Definition GetCPCIot : IE → outcome Z := get_bits_at 5 3 2 2.
Definition SetCPCIot : Z → IE → outcome IE := set_bits_at 5 251 1 2.
Definition GetProserelay : IE → outcome Z := get_bits_at 5 2 1 1.
Definition SetProserelay : Z → IE → outcome IE := set_bits_at 5 253 1 1.
Definition GetProSedc : IE → outcome Z := get_bits_at 5 1 0 0.
Definition SetProSedc : Z → IE → outcome IE := set_bits_at 5 254 1 0.
Definition GetBearer15 : IE → outcome Z := get_bits_at 6 8 7 7.
Definition SetBearer15 : Z → IE → outcome IE := set_bits_at 6 127 1 7.
Definition GetSGC : IE → outcome Z := get_bits_at 6 7 6 6.
Definition SetSGC : Z → IE → outcome IE := set_bits_at 6 191 1 6.
Definition GetN1mode : IE → outcome Z := get_bits_at 6 6 5 5.
Definition SetN1mode : Z → IE → outcome IE := set_bits_at 6 223 1 5.
Definition GetDCNR : IE → outcome Z := get_bits_at 6 5 4 4.
Definition SetDCNR : Z → IE → outcome IE := set_bits_at 6 239 1 4.
Definition GetCPbackoff : IE → outcome Z := get_bits_at 6 4 3 3.
Definition SetCPbackoff : Z → IE → outcome IE := set_bits_at 6 247 1 3.
Definition GetRestrictEC : IE → outcome Z := get_bits_at 6 3 2 2.
Definition SetRestrictEC : Z → IE → outcome IE := set_bits_at 6 251 1 2.
Definition GetV2XPC5 : IE → outcome Z := get_bits_at 6 2 1 1.
Definition SetV2XPC5 : Z → IE → outcome IE := set_bits_at 6 253 1 1.
Definition GetMulitpeDRB : IE → outcome Z := get_bits_at 6 1 0 0.
Definition SetMulitpeDRB : Z → IE → outcome IE := set_bits_at 6 254 1 0.
Definition GetSpare : IE → outcome (list Z) := get_rest 7.
Definition SetSpare : list Z → IE → outcome IE := set_rest 7.
Definition NewS1UENetworkCapability (iei : Z) : IE := SetIei iei (zero_type 0).
End S1UENetworkCapability.

Module SMPDUDNRequestContainer.
Definition GetIei : IE → Z := Iei.
Definition SetIei : Z → IE → IE := with_Iei.
Definition GetLen : IE → Z := Len.
Definition SetLen : Z → IE → IE := make_buffer.
Definition GetDNSpecificIdentity : IE → list Z := get_contents.
Definition SetDNSpecificIdentity : list Z → IE → IE := set_contents.
Definition NewSMPDUDNRequestContainer (iei : Z) : IE := SetIei iei (zero_type 0).
End SMPDUDNRequestContainer.

Module SMSIndication.
Definition GetIei : IE → Z := get_bits 8 4 4.
Definition SetIei : Z → IE → IE := set_bits 15 15 4.
Definition GetSAI : IE → Z := get_bits 1 0 0.
Definition SetSAI : Z → IE → IE := set_bits 254 1 0.
Definition NewSMSIndication (iei : Z) : IE := SetIei iei (zero_type 1).
End SMSIndication.

Module SNSSAI.
Definition GetIei : IE → Z := Iei.
Definition SetIei : Z → IE → IE := with_Iei.
Definition GetLen : IE → Z := Len.
Definition SetLen : Z → IE → IE := with_Len.
Definition GetSST : IE → outcome Z := get_at 0.
Definition SetSST : Z → IE → outcome IE := set_at 0.
Definition GetSD : IE → outcome (list Z) := get_range 1 4.
Definition SetSD : list Z → IE → outcome IE := set_range 1 4.
Definition GetMappedHPLMNSST : IE → outcome Z := get_at 4.
Definition SetMappedHPLMNSST : Z → IE → outcome IE := set_at 4.
Definition GetMappedHPLMNSD : IE → outcome (list Z) := get_range 5 8.
Definition SetMappedHPLMNSD : list Z → IE → outcome IE := set_range 5 8.
Definition NewSNSSAI (iei : Z) : IE := SetIei iei (zero_type 8).
End SNSSAI.

Module SORTransparentContainer.
Definition GetIei : IE → Z := Iei.
Definition SetIei : Z → IE → IE := with_Iei.
Definition GetLen : IE → Z := Len.
Definition SetLen : Z → IE → IE := make_buffer.
Definition GetSORContent : IE → list Z := get_contents.
Definition SetSORContent : list Z → IE → IE := set_contents.
Definition NewSORTransparentContainer (iei : Z) : IE := SetIei iei (zero_type 0).
End SORTransparentContainer.

Module SSCMode.
Definition GetIei : IE → Z := get_bits 8 4 4.
Definition SetIei : Z → IE → IE := set_bits 15 15 4.
Definition GetSpare : IE → Z := get_bits 4 3 3.
Definition SetSpare : Z → IE → IE := set_bits 247 1 3.
Definition GetSSCMode : IE → Z := get_bits 3 0 0.
Definition SetSSCMode : Z → IE → IE := set_bits 248 7 0.
Definition NewSSCMode (iei : Z) : IE := SetIei iei (zero_type 1).
End SSCMode.

Module STATUSMessageIdentity5GMM.
Definition GetMessageType : IE → Z := octet.
Definition SetMessageType : Z → IE → IE := set_octet.
Definition NewSTATUSMessageIdentity5GMM : IE := zero_type 1.
End STATUSMessageIdentity5GMM.

Module STATUSMessageIdentity5GSM.
Definition GetMessageType : IE → Z := octet.
Definition SetMessageType : Z → IE → IE := set_octet.
Definition NewSTATUSMessageIdentity5GSM : IE := zero_type 1.
End STATUSMessageIdentity5GSM.

Module SecurityModeCommandMessageIdentity.
Definition GetMessageType : IE → Z := octet.
Definition SetMessageType : Z → IE → IE := set_octet.
Definition NewSecurityModeCommandMessageIdentity : IE := zero_type 1.
End SecurityModeCommandMessageIdentity.

Module SecurityModeCompleteMessageIdentity.
Definition GetMessageType : IE → Z := octet.
Definition SetMessageType : Z → IE → IE := set_octet.
Definition NewSecurityModeCompleteMessageIdentity : IE := zero_type 1.
End SecurityModeCompleteMessageIdentity.

Module SecurityModeRejectMessageIdentity.
Definition GetMessageType : IE → Z := octet.
Definition SetMessageType : Z → IE → IE := set_octet.
Definition NewSecurityModeRejectMessageIdentity : IE := zero_type 1.
End SecurityModeRejectMessageIdentity.

Module SelectedEPSNASSecurityAlgorithms.
Definition GetIei : IE → Z := Iei.
Definition SetIei : Z → IE → IE := with_Iei.
Definition GetTypeOfCipheringAlgorithm : IE → Z := get_bits 7 4 4.
Definition SetTypeOfCipheringAlgorithm : Z → IE → IE := set_bits 143 7 4.
Definition GetTypeOfIntegrityProtectionAlgorithm : IE → Z := get_bits 3 0 0.
Definition SetTypeOfIntegrityProtectionAlgorithm : Z → IE → IE := set_bits 248 7 0.
Definition NewSelectedEPSNASSecurityAlgorithms (iei : Z) : IE := SetIei iei (zero_type 1).
End SelectedEPSNASSecurityAlgorithms.

Module SelectedNASSecurityAlgorithms.
Definition GetIei : IE → Z := Iei.
Definition SetIei : Z → IE → IE := with_Iei.
Definition GetTypeOfCipheringAlgorithm : IE → Z := get_bits 8 4 4.
Definition SetTypeOfCipheringAlgorithm : Z → IE → IE := set_bits 15 15 4.
Definition GetTypeOfIntegrityProtectionAlgorithm : IE → Z := get_bits 4 0 0.
Definition SetTypeOfIntegrityProtectionAlgorithm : Z → IE → IE := set_bits 240 15 0.
Definition NewSelectedNASSecurityAlgorithms (iei : Z) : IE := SetIei iei (zero_type 1).
End SelectedNASSecurityAlgorithms.

Module SelectedSSCModeAndSelectedPDUSessionType.
Definition GetSSCMode : IE → Z := get_bits 7 4 4.
Definition SetSSCMode : Z → IE → IE := set_bits 143 7 4.
Definition GetPDUSessionType : IE → Z := get_bits 3 0 0.
Definition SetPDUSessionType : Z → IE → IE := set_bits 248 7 0.
Definition NewSelectedSSCModeAndSelectedPDUSessionType : IE := zero_type 1.
End SelectedSSCModeAndSelectedPDUSessionType.

Module SequenceNumber.
Definition GetSQN : IE → Z := octet.
Definition SetSQN : Z → IE → IE := set_octet.
Definition NewSequenceNumber : IE := zero_type 1.
End SequenceNumber.

Module ServiceAcceptMessageIdentity.
Definition GetMessageType : IE → Z := octet.
Definition SetMessageType : Z → IE → IE := set_octet.
Definition NewServiceAcceptMessageIdentity : IE := zero_type 1.
End ServiceAcceptMessageIdentity.

Module ServiceAreaList.
Definition GetIei : IE → Z := Iei.
Definition SetIei : Z → IE → IE := with_Iei.
Definition GetLen : IE → Z := Len.
Definition SetLen : Z → IE → IE := make_buffer.
Definition GetPartialServiceAreaList : IE → list Z := get_contents.
Definition SetPartialServiceAreaList : list Z → IE → IE := set_contents.
Definition NewServiceAreaList (iei : Z) : IE := SetIei iei (zero_type 0).
End ServiceAreaList.

Module ServiceRejectMessageIdentity.
Definition GetMessageType : IE → Z := octet.
Definition SetMessageType : Z → IE → IE := set_octet.
Definition NewServiceRejectMessageIdentity : IE := zero_type 1.
End ServiceRejectMessageIdentity.

Module ServiceRequestMessageIdentity.
Definition GetMessageType : IE → Z := octet.
Definition SetMessageType : Z → IE → IE := set_octet.
Definition NewServiceRequestMessageIdentity : IE := zero_type 1.
End ServiceRequestMessageIdentity.

Module ServiceTypeAndNgksi.
Definition GetServiceTypeValue : IE → Z := get_bits 8 4 4.
Definition SetServiceTypeValue : Z → IE → IE := set_bits 15 15 4.
Definition GetTSC : IE → Z := get_bits 4 3 3.
Definition SetTSC : Z → IE → IE := set_bits 247 1 3.
Definition GetNasKeySetIdentifiler : IE → Z := get_bits 3 0 0.
Definition SetNasKeySetIdentifiler : Z → IE → IE := set_bits 248 7 0.
Definition NewServiceTypeAndNgksi : IE := zero_type 1.
End ServiceTypeAndNgksi.

Module SessionAMBR.
Definition GetIei : IE → Z := Iei.
Definition SetIei : Z → IE → IE := with_Iei.
Definition GetLen : IE → Z := Len.
Definition SetLen : Z → IE → IE := with_Len.
Definition GetUnitForSessionAMBRForDownlink : IE → outcome Z := get_at 0.
Definition SetUnitForSessionAMBRForDownlink : Z → IE → outcome IE := set_at 0.
Definition GetSessionAMBRForDownlink : IE → outcome (list Z) := get_range 1 3.
Definition SetSessionAMBRForDownlink : list Z → IE → outcome IE := set_range 1 3.
Definition GetUnitForSessionAMBRForUplink : IE → outcome Z := get_at 3.
Definition SetUnitForSessionAMBRForUplink : Z → IE → outcome IE := set_at 3.
Definition GetSessionAMBRForUplink : IE → outcome (list Z) := get_range 4 6.
Definition SetSessionAMBRForUplink : list Z → IE → outcome IE := set_range 4 6.
Definition NewSessionAMBR (iei : Z) : IE := SetIei iei (zero_type 6).
End SessionAMBR.

Module ShortNameForNetwork.
Definition GetIei : IE → Z := Iei.
Definition SetIei : Z → IE → IE := with_Iei.
Definition GetLen : IE → Z := Len.
Definition SetLen : Z → IE → IE := make_buffer.
Definition GetExt : IE → outcome Z := get_bits_at 0 8 7 7.
Definition SetExt : Z → IE → outcome IE := set_bits_at 0 127 1 7.
Definition GetCodingScheme : IE → outcome Z := get_bits_at 0 7 4 4.
Definition SetCodingScheme : Z → IE → outcome IE := set_bits_at 0 143 7 4.
Definition GetAddCI : IE → outcome Z := get_bits_at 0 4 3 3.
Definition SetAddCI : Z → IE → outcome IE := set_bits_at 0 247 1 3.
Definition GetNumberOfSpareBitsInLastOctet : IE → outcome Z := get_bits_at 0 3 0 0.
Definition SetNumberOfSpareBitsInLastOctet : Z → IE → outcome IE := set_bits_at 0 248 7 0.
Definition GetTextString : IE → outcome (list Z) := get_rest 1.
Definition SetTextString : list Z → IE → outcome IE := set_rest 1.
Definition NewShortNameForNetwork (iei : Z) : IE := SetIei iei (zero_type 0).
End ShortNameForNetwork.

Module SpareHalfOctetAndAccessType.
Definition GetAccessType : IE → Z := get_bits 2 0 0.
Definition SetAccessType : Z → IE → IE := set_bits 252 3 0.
Definition NewSpareHalfOctetAndAccessType : IE := zero_type 1.
End SpareHalfOctetAndAccessType.

Module SpareHalfOctetAndDeregistrationType.
Definition GetSwitchOff : IE → Z := get_bits 4 3 3.
Definition SetSwitchOff : Z → IE → IE := set_bits 247 1 3.
Definition GetReRegistrationRequired : IE → Z := get_bits 3 2 2.
Definition SetReRegistrationRequired : Z → IE → IE := set_bits 251 1 2.
Definition GetAccessType : IE → Z := get_bits 2 0 0.
Definition SetAccessType : Z → IE → IE := set_bits 252 3 0.
Definition NewSpareHalfOctetAndDeregistrationType : IE := zero_type 1.
End SpareHalfOctetAndDeregistrationType.

Module SpareHalfOctetAndIdentityType.
Definition GetTypeOfIdentity : IE → Z := get_bits 3 0 0.
Definition SetTypeOfIdentity : Z → IE → IE := set_bits 248 7 0.
Definition NewSpareHalfOctetAndIdentityType : IE := zero_type 1.
End SpareHalfOctetAndIdentityType.

Module SpareHalfOctetAndNgksi.
Definition GetSpareHalfOctet : IE → Z := get_bits 8 4 4.
Definition SetSpareHalfOctet : Z → IE → IE := set_bits 15 15 4.
Definition GetTSC : IE → Z := get_bits 4 3 3.
Definition SetTSC : Z → IE → IE := set_bits 247 1 3.
Definition GetNasKeySetIdentifiler : IE → Z := get_bits 3 0 0.
Definition SetNasKeySetIdentifiler : Z → IE → IE := set_bits 248 7 0.
Definition NewSpareHalfOctetAndNgksi : IE := zero_type 1.
End SpareHalfOctetAndNgksi.

Module SpareHalfOctetAndPayloadContainerType.
Definition GetPayloadContainerType : IE → Z := get_bits 4 0 0.
Definition SetPayloadContainerType : Z → IE → IE := set_bits 240 15 0.
Definition NewSpareHalfOctetAndPayloadContainerType : IE := zero_type 1.
End SpareHalfOctetAndPayloadContainerType.

Module SpareHalfOctetAndSecurityHeaderType.
Definition GetSpareHalfOctet : IE → Z := get_bits 8 4 4.
Definition SetSpareHalfOctet : Z → IE → IE := set_bits 15 15 4.
Definition GetSecurityHeaderType : IE → Z := get_bits 4 0 0.
Definition SetSecurityHeaderType : Z → IE → IE := set_bits 240 15 0.
Definition NewSpareHalfOctetAndSecurityHeaderType : IE := zero_type 1.
End SpareHalfOctetAndSecurityHeaderType.

Module T3346Value.
Definition GetIei : IE → Z := Iei.
Definition SetIei : Z → IE → IE := with_Iei.
Definition GetLen : IE → Z := Len.
Definition SetLen : Z → IE → IE := with_Len.
Definition GetGPRSTimer2Value : IE → Z := octet.
Definition SetGPRSTimer2Value : Z → IE → IE := set_octet.
Definition NewT3346Value (iei : Z) : IE := SetIei iei (zero_type 1).
End T3346Value.

Module T3502Value.
Definition GetIei : IE → Z := Iei.
Definition SetIei : Z → IE → IE := with_Iei.
Definition GetLen : IE → Z := Len.
Definition SetLen : Z → IE → IE := with_Len.
Definition GetGPRSTimer2Value : IE → Z := octet.
Definition SetGPRSTimer2Value : Z → IE → IE := set_octet.
Definition NewT3502Value (iei : Z) : IE := SetIei iei (zero_type 1).
End T3502Value.

Module T3512Value.
Definition GetIei : IE → Z := Iei.
Definition SetIei : Z → IE → IE := with_Iei.
Definition GetLen : IE → Z := Len.
Definition SetLen : Z → IE → IE := with_Len.
Definition GetUnit : IE → Z := get_bits 8 5 5.
Definition SetUnit : Z → IE → IE := set_bits 31 7 5.
Definition GetTimerValue : IE → Z := get_bits 5 0 0.
Definition SetTimerValue : Z → IE → IE := set_bits 224 31 0.
Definition NewT3512Value (iei : Z) : IE := SetIei iei (zero_type 1).
End T3512Value.

Module TAIList.
Definition GetIei : IE → Z := Iei.
Definition SetIei : Z → IE → IE := with_Iei.
Definition GetLen : IE → Z := Len.
Definition SetLen : Z → IE → IE := make_buffer.
Definition GetPartialTrackingAreaIdentityList : IE → list Z := get_contents.
Definition SetPartialTrackingAreaIdentityList : list Z → IE → IE := set_contents.
Definition NewTAIList (iei : Z) : IE := SetIei iei (zero_type 0).
End TAIList.

Module TMSI5GS.
Definition GetIei : IE → Z := Iei.
Definition SetIei : Z → IE → IE := with_Iei.
Definition GetLen : IE → Z := Len.
Definition SetLen : Z → IE → IE := with_Len.
Definition GetSpare : IE → outcome Z := get_bits_at 0 4 3 3.
Definition SetSpare : Z → IE → outcome IE := set_bits_at 0 247 1 3.
Definition GetTypeOfIdentity : IE → outcome Z := get_bits_at 0 3 0 0.
Definition SetTypeOfIdentity : Z → IE → outcome IE := set_bits_at 0 248 7 0.
Definition GetAMFSetID : IE → outcome Z := get_ten_bits 1 2.
Definition SetAMFSetID : Z → IE → outcome IE := set_ten_bits 1 2.
Definition GetAMFPointer : IE → outcome Z := get_bits_at 2 6 0 0.
Definition SetAMFPointer : Z → IE → outcome IE := set_bits_at 2 192 63 0.
Definition GetTMSI5G : IE → outcome (list Z) := get_range 3 7.
Definition SetTMSI5G : list Z → IE → outcome IE := set_range 3 7.
Definition NewTMSI5GS (iei : Z) : IE := SetIei iei (zero_type 7).
End TMSI5GS.

Module UESecurityCapability.
Definition GetIei : IE → Z := Iei.
Definition SetIei : Z → IE → IE := with_Iei.
Definition GetLen : IE → Z := Len.
Definition SetLen : Z → IE → IE := make_buffer.
Definition GetEA0_5G : IE → outcome Z := get_bits_at 0 8 7 7.
Definition SetEA0_5G : Z → IE → outcome IE := set_bits_at 0 127 1 7.
Definition GetEA1_128_5G : IE → outcome Z := get_bits_at 0 7 6 6.
Definition SetEA1_128_5G : Z → IE → outcome IE := set_bits_at 0 191 1 6.
Definition GetEA2_128_5G : IE → outcome Z := get_bits_at 0 6 5 5.
Definition SetEA2_128_5G : Z → IE → outcome IE := set_bits_at 0 223 1 5.
Definition GetEA3_128_5G : IE → outcome Z := get_bits_at 0 5 4 4.
Definition SetEA3_128_5G : Z → IE → outcome IE := set_bits_at 0 239 1 4.
Definition GetEA4_5G : IE → outcome Z := get_bits_at 0 4 3 3.
Definition SetEA4_5G : Z → IE → outcome IE := set_bits_at 0 247 1 3.
Definition GetEA5_5G : IE → outcome Z := get_bits_at 0 3 2 2.
Definition SetEA5_5G : Z → IE → outcome IE := set_bits_at 0 251 1 2.
Definition GetEA6_5G : IE → outcome Z := get_bits_at 0 2 1 1.
Definition SetEA6_5G : Z → IE → outcome IE := set_bits_at 0 253 1 1.
Definition GetEA7_5G : IE → outcome Z := get_bits_at 0 1 0 0.
Definition SetEA7_5G : Z → IE → outcome IE := set_bits_at 0 254 1 0.
Definition GetIA0_5G : IE → outcome Z := get_bits_at 1 8 7 7.
Definition SetIA0_5G : Z → IE → outcome IE := set_bits_at 1 127 1 7.
Definition GetIA1_128_5G : IE → outcome Z := get_bits_at 1 7 6 6.
Definition SetIA1_128_5G : Z → IE → outcome IE := set_bits_at 1 191 1 6.
Definition GetIA2_128_5G : IE → outcome Z := get_bits_at 1 6 5 5.
Definition SetIA2_128_5G : Z → IE → outcome IE := set_bits_at 1 223 1 5.
Definition GetIA3_128_5G : IE → outcome Z := get_bits_at 1 5 4 4.
Definition SetIA3_128_5G : Z → IE → outcome IE := set_bits_at 1 239 1 4.
Definition GetIA4_5G : IE → outcome Z := get_bits_at 1 4 3 3.
Definition SetIA4_5G : Z → IE → outcome IE := set_bits_at 1 247 1 3.
Definition GetIA5_5G : IE → outcome Z := get_bits_at 1 3 2 2.
Definition SetIA5_5G : Z → IE → outcome IE := set_bits_at 1 251 1 2.
Definition GetIA6_5G : IE → outcome Z := get_bits_at 1 2 1 1.
Definition SetIA6_5G : Z → IE → outcome IE := set_bits_at 1 253 1 1.
Definition GetIA7_5G : IE → outcome Z := get_bits_at 1 1 0 0.
Definition SetIA7_5G : Z → IE → outcome IE := set_bits_at 1 254 1 0.
Definition GetEEA0 : IE → outcome Z := get_bits_at 2 8 7 7.
Definition SetEEA0 : Z → IE → outcome IE := set_bits_at 2 127 1 7.
Definition GetEEA1_128 : IE → outcome Z := get_bits_at 2 7 6 6.
Definition SetEEA1_128 : Z → IE → outcome IE := set_bits_at 2 191 1 6.
Definition GetEEA2_128 : IE → outcome Z := get_bits_at 2 6 5 5.
Definition SetEEA2_128 : Z → IE → outcome IE := set_bits_at 2 223 1 5.
Definition GetEEA3_128 : IE → outcome Z := get_bits_at 2 5 4 4.
Definition SetEEA3_128 : Z → IE → outcome IE := set_bits_at 2 239 1 4.
Definition GetEEA4 : IE → outcome Z := get_bits_at 2 4 3 3.
Definition SetEEA4 : Z → IE → outcome IE := set_bits_at 2 247 1 3.
Definition GetEEA5 : IE → outcome Z := get_bits_at 2 3 2 2.
Definition SetEEA5 : Z → IE → outcome IE := set_bits_at 2 251 1 2.
Definition GetEEA6 : IE → outcome Z := get_bits_at 2 2 1 1.
Definition SetEEA6 : Z → IE → outcome IE := set_bits_at 2 253 1 1.
Definition GetEEA7 : IE → outcome Z := get_bits_at 2 1 0 0.
Definition SetEEA7 : Z → IE → outcome IE := set_bits_at 2 254 1 0.
Definition GetEIA0 : IE → outcome Z := get_bits_at 3 8 7 7.
Definition SetEIA0 : Z → IE → outcome IE := set_bits_at 3 127 1 7.
Definition GetEIA1_128 : IE → outcome Z := get_bits_at 3 7 6 6.
Definition SetEIA1_128 : Z → IE → outcome IE := set_bits_at 3 191 1 6.
Definition GetEIA2_128 : IE → outcome Z := get_bits_at 3 6 5 5.
Definition SetEIA2_128 : Z → IE → outcome IE := set_bits_at 3 223 1 5.
Definition GetEIA3_128 : IE → outcome Z := get_bits_at 3 5 4 4.
Definition SetEIA3_128 : Z → IE → outcome IE := set_bits_at 3 239 1 4.
Definition GetEIA4 : IE → outcome Z := get_bits_at 3 4 3 3.
Definition SetEIA4 : Z → IE → outcome IE := set_bits_at 3 247 1 3.
Definition GetEIA5 : IE → outcome Z := get_bits_at 3 3 2 2.
Definition SetEIA5 : Z → IE → outcome IE := set_bits_at 3 251 1 2.
Definition GetEIA6 : IE → outcome Z := get_bits_at 3 2 1 1.
Definition SetEIA6 : Z → IE → outcome IE := set_bits_at 3 253 1 1.
Definition GetEIA7 : IE → outcome Z := get_bits_at 3 1 0 0.
Definition SetEIA7 : Z → IE → outcome IE := set_bits_at 3 254 1 0.
Definition GetSpare : IE → outcome (list Z) := get_range 4 8.
Definition SetSpare : list Z → IE → outcome IE := set_range 4 8.
Definition NewUESecurityCapability (iei : Z) : IE := SetIei iei (zero_type 0).
End UESecurityCapability.

Module UEStatus.
Definition GetIei : IE → Z := Iei.
Definition SetIei : Z → IE → IE := with_Iei.
Definition GetLen : IE → Z := Len.
Definition SetLen : Z → IE → IE := with_Len.
Definition GetN1ModeReg : IE → Z := get_bits 2 1 1.
Definition SetN1ModeReg : Z → IE → IE := set_bits 253 1 1.
Definition GetS1ModeReg : IE → Z := get_bits 1 0 0.
Definition SetS1ModeReg : Z → IE → IE := set_bits 254 1 0.
Definition NewUEStatus (iei : Z) : IE := SetIei iei (zero_type 1).
End UEStatus.

Module ULNASTRANSPORTMessageIdentity.
Definition GetMessageType : IE → Z := octet.
Definition SetMessageType : Z → IE → IE := set_octet.
Definition NewULNASTRANSPORTMessageIdentity : IE := zero_type 1.
End ULNASTRANSPORTMessageIdentity.

Module UesUsageSetting.
Definition GetIei : IE → Z := Iei.
Definition SetIei : Z → IE → IE := with_Iei.
Definition GetLen : IE → Z := Len.
Definition SetLen : Z → IE → IE := with_Len.
Definition GetUesUsageSetting : IE → Z := get_bits 1 0 0.
Definition SetUesUsageSetting : Z → IE → IE := set_bits 254 1 0.
Definition NewUesUsageSetting (iei : Z) : IE := SetIei iei (zero_type 1).
End UesUsageSetting.

Module UniversalTimeAndLocalTimeZone.
Definition GetIei : IE → Z := Iei.
Definition SetIei : Z → IE → IE := with_Iei.
Definition GetYear : IE → outcome Z := get_at 0.
Definition SetYear : Z → IE → outcome IE := set_at 0.
Definition GetMonth : IE → outcome Z := get_at 1.
Definition SetMonth : Z → IE → outcome IE := set_at 1.
Definition GetDay : IE → outcome Z := get_at 2.
Definition SetDay : Z → IE → outcome IE := set_at 2.
Definition GetHour : IE → outcome Z := get_at 3.
Definition SetHour : Z → IE → outcome IE := set_at 3.
Definition GetMinute : IE → outcome Z := get_at 4.
Definition SetMinute : Z → IE → outcome IE := set_at 4.
Definition GetSecond : IE → outcome Z := get_at 5.
Definition SetSecond : Z → IE → outcome IE := set_at 5.
Definition GetTimeZone : IE → outcome Z := get_at 6.
Definition SetTimeZone : Z → IE → outcome IE := set_at 6.
Definition NewUniversalTimeAndLocalTimeZone (iei : Z) : IE := SetIei iei (zero_type 7).
End UniversalTimeAndLocalTimeZone.

Module UpdateType5GS.
Definition GetIei : IE → Z := Iei.
Definition SetIei : Z → IE → IE := with_Iei.
Definition GetLen : IE → Z := Len.
Definition SetLen : Z → IE → IE := with_Len.
Definition GetNGRanRcu : IE → Z := get_bits 2 1 1.
Definition SetNGRanRcu : Z → IE → IE := set_bits 253 1 1.
Definition GetSMSRequested : IE → Z := get_bits 1 0 0.
Definition SetSMSRequested : Z → IE → IE := set_bits 254 1 0.
Definition NewUpdateType5GS (iei : Z) : IE := SetIei iei (zero_type 1).
End UpdateType5GS.

Module UplinkDataStatus.
Definition GetIei : IE → Z := Iei.
Definition SetIei : Z → IE → IE := with_Iei.
Definition GetLen : IE → Z := Len.
Definition SetLen : Z → IE → IE := make_buffer.
Definition GetPSI7 : IE → outcome Z := get_bits_at 0 8 7 7.
Definition SetPSI7 : Z → IE → outcome IE := set_bits_at 0 127 1 7.
Definition GetPSI6 : IE → outcome Z := get_bits_at 0 7 6 6.
Definition SetPSI6 : Z → IE → outcome IE := set_bits_at 0 191 1 6.
Definition GetPSI5 : IE → outcome Z := get_bits_at 0 6 5 5.
Definition SetPSI5 : Z → IE → outcome IE := set_bits_at 0 223 1 5.
Definition GetPSI4 : IE → outcome Z := get_bits_at 0 5 4 4.
Definition SetPSI4 : Z → IE → outcome IE := set_bits_at 0 239 1 4.
Definition GetPSI3 : IE → outcome Z := get_bits_at 0 4 3 3.
Definition SetPSI3 : Z → IE → outcome IE := set_bits_at 0 247 1 3.
Definition GetPSI2 : IE → outcome Z := get_bits_at 0 3 2 2.
Definition SetPSI2 : Z → IE → outcome IE := set_bits_at 0 251 1 2.
Definition GetPSI1 : IE → outcome Z := get_bits_at 0 2 1 1.
Definition SetPSI1 : Z → IE → outcome IE := set_bits_at 0 253 1 1.
Definition GetPSI0 : IE → outcome Z := get_bits_at 0 1 0 0.
Definition SetPSI0 : Z → IE → outcome IE := set_bits_at 0 254 1 0.
Definition GetPSI15 : IE → outcome Z := get_bits_at 1 8 7 7.
Definition SetPSI15 : Z → IE → outcome IE := set_bits_at 1 127 1 7.
Definition GetPSI14 : IE → outcome Z := get_bits_at 1 7 6 6.
Definition SetPSI14 : Z → IE → outcome IE := set_bits_at 1 191 1 6.
Definition GetPSI13 : IE → outcome Z := get_bits_at 1 6 5 5.
Definition SetPSI13 : Z → IE → outcome IE := set_bits_at 1 223 1 5.
Definition GetPSI12 : IE → outcome Z := get_bits_at 1 5 4 4.
Definition SetPSI12 : Z → IE → outcome IE := set_bits_at 1 239 1 4.
Definition GetPSI11 : IE → outcome Z := get_bits_at 1 4 3 3.
Definition SetPSI11 : Z → IE → outcome IE := set_bits_at 1 247 1 3.
Definition GetPSI10 : IE → outcome Z := get_bits_at 1 3 2 2.
Definition SetPSI10 : Z → IE → outcome IE := set_bits_at 1 251 1 2.
Definition GetPSI9 : IE → outcome Z := get_bits_at 1 2 1 1.
Definition SetPSI9 : Z → IE → outcome IE := set_bits_at 1 253 1 1.
Definition GetPSI8 : IE → outcome Z := get_bits_at 1 1 0 0.
Definition SetPSI8 : Z → IE → outcome IE := set_bits_at 1 254 1 0.
Definition GetSpare : IE → outcome (list Z) := get_rest 2.
Definition SetSpare : list Z → IE → outcome IE := set_rest 2.
Definition NewUplinkDataStatus (iei : Z) : IE := SetIei iei (zero_type 0).
End UplinkDataStatus.
