(* ===== verification/NasFields.v ===== *)
(** * lib/nas/nasType: the fields of information elements

    Every pair of accessors of nasType with the octets and bits its comment
    documents, and the proof that the accessors read and write just these. *)

From S2P Require Import Prelude Milenage NasMessage NasAccess NasTypes.

#[local] Open Scope Z_scope.
#[local] Open Scope go_scope.

(** ** Tables *)

(** A field within one octet: [f_array] tells an Octet or Buffer of several
    octets from a single one; "Row, sBit, len" are those of the comment. *)
Record field := MkField {
  f_type : string; f_name : string; f_array : bool;
  f_get : IE → outcome Z; f_set : Z → IE → outcome IE;
  f_row : nat; f_sBit : Z; f_len : Z }.
Definition single (type name : string) (get : IE → Z) (set : Z → IE → IE) (sBit len : Z) : field :=
  MkField type name false (λ a, Ret (get a)) (λ v a, Ret (set v a)) 0 sBit len.
Definition f_lo (f : field) : Z := f_sBit f - f_len f.

(** Octets [r_first] to [r_last]. *)
Record range_field := MkRange {
  r_type : string; r_name : string; r_get : IE → outcome (list Z); r_set : list Z → IE → outcome IE;
  r_first : Z; r_last : Z }.

(** The octets from [t_first] on. *)
Record rest_field := MkRest {
  t_type : string; t_name : string; t_get : IE → outcome (list Z); t_set : list Z → IE → outcome IE; t_first : Z }.

(** Ten bits over two octets. *)
Record ten_field := MkTen {
  w_type : string; w_name : string; w_get : IE → outcome Z; w_set : Z → IE → outcome IE; w_high : nat; w_low : nat }.

(** A whole Buffer, and the call that makes it. *)
Record buffer_field := MkBuffer {
  b_type : string; b_name : string; b_make : Z → IE → IE; b_get : IE → list Z; b_set : list Z → IE → IE }.

Definition fields : list field :=
  [single "Additional5GSecurityInformation" "RINMR" Additional5GSecurityInformation.GetRINMR Additional5GSecurityInformation.SetRINMR 2 1;
   single "Additional5GSecurityInformation" "HDP" Additional5GSecurityInformation.GetHDP Additional5GSecurityInformation.SetHDP 1 1;
   MkField "AdditionalGUTI" "Spare" true AdditionalGUTI.GetSpare AdditionalGUTI.SetSpare 0 4 1;
   MkField "AdditionalGUTI" "TypeOfIdentity" true AdditionalGUTI.GetTypeOfIdentity AdditionalGUTI.SetTypeOfIdentity 0 3 3;
   MkField "AdditionalGUTI" "MCCDigit2" true AdditionalGUTI.GetMCCDigit2 AdditionalGUTI.SetMCCDigit2 1 8 4;
   MkField "AdditionalGUTI" "MCCDigit1" true AdditionalGUTI.GetMCCDigit1 AdditionalGUTI.SetMCCDigit1 1 4 4;
   MkField "AdditionalGUTI" "MNCDigit3" true AdditionalGUTI.GetMNCDigit3 AdditionalGUTI.SetMNCDigit3 2 8 4;
   MkField "AdditionalGUTI" "MCCDigit3" true AdditionalGUTI.GetMCCDigit3 AdditionalGUTI.SetMCCDigit3 2 4 4;
   MkField "AdditionalGUTI" "MNCDigit2" true AdditionalGUTI.GetMNCDigit2 AdditionalGUTI.SetMNCDigit2 3 8 4;
   MkField "AdditionalGUTI" "MNCDigit1" true AdditionalGUTI.GetMNCDigit1 AdditionalGUTI.SetMNCDigit1 3 4 4;
   MkField "AdditionalGUTI" "AMFRegionID" true AdditionalGUTI.GetAMFRegionID AdditionalGUTI.SetAMFRegionID 4 8 8;
   MkField "AdditionalGUTI" "AMFPointer" true AdditionalGUTI.GetAMFPointer AdditionalGUTI.SetAMFPointer 6 6 6;
   MkField "AllowedPDUSessionStatus" "PSI7" true AllowedPDUSessionStatus.GetPSI7 AllowedPDUSessionStatus.SetPSI7 0 8 1;
   MkField "AllowedPDUSessionStatus" "PSI6" true AllowedPDUSessionStatus.GetPSI6 AllowedPDUSessionStatus.SetPSI6 0 7 1;
   MkField "AllowedPDUSessionStatus" "PSI5" true AllowedPDUSessionStatus.GetPSI5 AllowedPDUSessionStatus.SetPSI5 0 6 1;
   MkField "AllowedPDUSessionStatus" "PSI4" true AllowedPDUSessionStatus.GetPSI4 AllowedPDUSessionStatus.SetPSI4 0 5 1;
   MkField "AllowedPDUSessionStatus" "PSI3" true AllowedPDUSessionStatus.GetPSI3 AllowedPDUSessionStatus.SetPSI3 0 4 1;
   MkField "AllowedPDUSessionStatus" "PSI2" true AllowedPDUSessionStatus.GetPSI2 AllowedPDUSessionStatus.SetPSI2 0 3 1;
   MkField "AllowedPDUSessionStatus" "PSI1" true AllowedPDUSessionStatus.GetPSI1 AllowedPDUSessionStatus.SetPSI1 0 2 1;
   MkField "AllowedPDUSessionStatus" "PSI0" true AllowedPDUSessionStatus.GetPSI0 AllowedPDUSessionStatus.SetPSI0 0 1 1;
   MkField "AllowedPDUSessionStatus" "PSI15" true AllowedPDUSessionStatus.GetPSI15 AllowedPDUSessionStatus.SetPSI15 1 8 1;
   MkField "AllowedPDUSessionStatus" "PSI14" true AllowedPDUSessionStatus.GetPSI14 AllowedPDUSessionStatus.SetPSI14 1 7 1;
   MkField "AllowedPDUSessionStatus" "PSI13" true AllowedPDUSessionStatus.GetPSI13 AllowedPDUSessionStatus.SetPSI13 1 6 1;
   MkField "AllowedPDUSessionStatus" "PSI12" true AllowedPDUSessionStatus.GetPSI12 AllowedPDUSessionStatus.SetPSI12 1 5 1;
   MkField "AllowedPDUSessionStatus" "PSI11" true AllowedPDUSessionStatus.GetPSI11 AllowedPDUSessionStatus.SetPSI11 1 4 1;
   MkField "AllowedPDUSessionStatus" "PSI10" true AllowedPDUSessionStatus.GetPSI10 AllowedPDUSessionStatus.SetPSI10 1 3 1;
   MkField "AllowedPDUSessionStatus" "PSI9" true AllowedPDUSessionStatus.GetPSI9 AllowedPDUSessionStatus.SetPSI9 1 2 1;
   MkField "AllowedPDUSessionStatus" "PSI8" true AllowedPDUSessionStatus.GetPSI8 AllowedPDUSessionStatus.SetPSI8 1 1 1;
   single "AllowedSSCMode" "Iei" AllowedSSCMode.GetIei AllowedSSCMode.SetIei 8 4;
   single "AllowedSSCMode" "SSC3" AllowedSSCMode.GetSSC3 AllowedSSCMode.SetSSC3 3 1;
   single "AllowedSSCMode" "SSC2" AllowedSSCMode.GetSSC2 AllowedSSCMode.SetSSC2 2 1;
   single "AllowedSSCMode" "SSC1" AllowedSSCMode.GetSSC1 AllowedSSCMode.SetSSC1 1 1;
   single "AlwaysonPDUSessionIndication" "Iei" AlwaysonPDUSessionIndication.GetIei AlwaysonPDUSessionIndication.SetIei 8 4;
   single "AlwaysonPDUSessionIndication" "APSI" AlwaysonPDUSessionIndication.GetAPSI AlwaysonPDUSessionIndication.SetAPSI 1 1;
   single "AlwaysonPDUSessionRequested" "Iei" AlwaysonPDUSessionRequested.GetIei AlwaysonPDUSessionRequested.SetIei 8 4;
   single "AlwaysonPDUSessionRequested" "APSR" AlwaysonPDUSessionRequested.GetAPSR AlwaysonPDUSessionRequested.SetAPSR 1 1;
   single "AuthenticationFailureMessageIdentity" "MessageType" AuthenticationFailureMessageIdentity.GetMessageType AuthenticationFailureMessageIdentity.SetMessageType 8 8;
   single "AuthenticationRejectMessageIdentity" "MessageType" AuthenticationRejectMessageIdentity.GetMessageType AuthenticationRejectMessageIdentity.SetMessageType 8 8;
   single "AuthenticationRequestMessageIdentity" "MessageType" AuthenticationRequestMessageIdentity.GetMessageType AuthenticationRequestMessageIdentity.SetMessageType 8 8;
   single "AuthenticationResponseMessageIdentity" "MessageType" AuthenticationResponseMessageIdentity.GetMessageType AuthenticationResponseMessageIdentity.SetMessageType 8 8;
   single "AuthenticationResultMessageIdentity" "MessageType" AuthenticationResultMessageIdentity.GetMessageType AuthenticationResultMessageIdentity.SetMessageType 8 8;
   single "BackoffTimerValue" "UnitTimerValue" BackoffTimerValue.GetUnitTimerValue BackoffTimerValue.SetUnitTimerValue 8 3;
   single "BackoffTimerValue" "TimerValue" BackoffTimerValue.GetTimerValue BackoffTimerValue.SetTimerValue 5 5;
   MkField "Capability5GMM" "LPP" true Capability5GMM.GetLPP Capability5GMM.SetLPP 0 3 1;
   MkField "Capability5GMM" "HOAttach" true Capability5GMM.GetHOAttach Capability5GMM.SetHOAttach 0 2 1;
   MkField "Capability5GMM" "S1Mode" true Capability5GMM.GetS1Mode Capability5GMM.SetS1Mode 0 1 1;
   MkField "Capability5GSM" "MH6PDU" true Capability5GSM.GetMH6PDU Capability5GSM.SetMH6PDU 0 2 1;
   MkField "Capability5GSM" "RqoS" true Capability5GSM.GetRqoS Capability5GSM.SetRqoS 0 1 1;
   single "Cause5GMM" "CauseValue" Cause5GMM.GetCauseValue Cause5GMM.SetCauseValue 8 8;
   single "Cause5GSM" "CauseValue" Cause5GSM.GetCauseValue Cause5GSM.SetCauseValue 8 8;
   single "ConfigurationUpdateCommandMessageIdentity" "MessageType" ConfigurationUpdateCommandMessageIdentity.GetMessageType ConfigurationUpdateCommandMessageIdentity.SetMessageType 8 8;
   single "ConfigurationUpdateCompleteMessageIdentity" "MessageType" ConfigurationUpdateCompleteMessageIdentity.GetMessageType ConfigurationUpdateCompleteMessageIdentity.SetMessageType 8 8;
   single "ConfigurationUpdateIndication" "Iei" ConfigurationUpdateIndication.GetIei ConfigurationUpdateIndication.SetIei 8 4;
   single "ConfigurationUpdateIndication" "RED" ConfigurationUpdateIndication.GetRED ConfigurationUpdateIndication.SetRED 2 1;
   single "ConfigurationUpdateIndication" "ACK" ConfigurationUpdateIndication.GetACK ConfigurationUpdateIndication.SetACK 1 1;
   single "DLNASTRANSPORTMessageIdentity" "MessageType" DLNASTRANSPORTMessageIdentity.GetMessageType DLNASTRANSPORTMessageIdentity.SetMessageType 8 8;
   single "DeregistrationAcceptMessageIdentity" "MessageType" DeregistrationAcceptMessageIdentity.GetMessageType DeregistrationAcceptMessageIdentity.SetMessageType 8 8;
   single "DeregistrationRequestMessageIdentity" "MessageType" DeregistrationRequestMessageIdentity.GetMessageType DeregistrationRequestMessageIdentity.SetMessageType 8 8;
   MkField "EmergencyNumberList" "Lengthof1EmergencyNumberInformation" true EmergencyNumberList.GetLengthof1EmergencyNumberInformation EmergencyNumberList.SetLengthof1EmergencyNumberInformation 0 8 8;
   MkField "EmergencyNumberList" "EmergencyServiceCategoryValue" true EmergencyNumberList.GetEmergencyServiceCategoryValue EmergencyNumberList.SetEmergencyServiceCategoryValue 1 5 5;
   MkField "EquivalentPlmns" "MCCDigit2PLMN1" true EquivalentPlmns.GetMCCDigit2PLMN1 EquivalentPlmns.SetMCCDigit2PLMN1 0 8 4;
   MkField "EquivalentPlmns" "MCCDigit1PLMN1" true EquivalentPlmns.GetMCCDigit1PLMN1 EquivalentPlmns.SetMCCDigit1PLMN1 0 4 4;
   MkField "EquivalentPlmns" "MNCDigit3PLMN1" true EquivalentPlmns.GetMNCDigit3PLMN1 EquivalentPlmns.SetMNCDigit3PLMN1 1 8 4;
   MkField "EquivalentPlmns" "MCCDigit3PLMN1" true EquivalentPlmns.GetMCCDigit3PLMN1 EquivalentPlmns.SetMCCDigit3PLMN1 1 4 4;
   MkField "EquivalentPlmns" "MNCDigit2PLMN1" true EquivalentPlmns.GetMNCDigit2PLMN1 EquivalentPlmns.SetMNCDigit2PLMN1 2 8 4;
   MkField "EquivalentPlmns" "MNCDigit1PLMN1" true EquivalentPlmns.GetMNCDigit1PLMN1 EquivalentPlmns.SetMNCDigit1PLMN1 2 4 4;
   MkField "EquivalentPlmns" "MCCDigit2PLMN2" true EquivalentPlmns.GetMCCDigit2PLMN2 EquivalentPlmns.SetMCCDigit2PLMN2 3 8 4;
   MkField "EquivalentPlmns" "MCCDigit1PLMN2" true EquivalentPlmns.GetMCCDigit1PLMN2 EquivalentPlmns.SetMCCDigit1PLMN2 3 4 4;
   MkField "EquivalentPlmns" "MNCDigit3PLMN2" true EquivalentPlmns.GetMNCDigit3PLMN2 EquivalentPlmns.SetMNCDigit3PLMN2 4 8 4;
   MkField "EquivalentPlmns" "MCCDigit3PLMN2" true EquivalentPlmns.GetMCCDigit3PLMN2 EquivalentPlmns.SetMCCDigit3PLMN2 4 4 4;
   MkField "EquivalentPlmns" "MNCDigit2PLMN2" true EquivalentPlmns.GetMNCDigit2PLMN2 EquivalentPlmns.SetMNCDigit2PLMN2 5 8 4;
   MkField "EquivalentPlmns" "MNCDigit1PLMN2" true EquivalentPlmns.GetMNCDigit1PLMN2 EquivalentPlmns.SetMNCDigit1PLMN2 5 4 4;
   MkField "EquivalentPlmns" "MCCDigit2PLMN3" true EquivalentPlmns.GetMCCDigit2PLMN3 EquivalentPlmns.SetMCCDigit2PLMN3 6 8 4;
   MkField "EquivalentPlmns" "MCCDigit1PLMN3" true EquivalentPlmns.GetMCCDigit1PLMN3 EquivalentPlmns.SetMCCDigit1PLMN3 6 4 4;
   MkField "EquivalentPlmns" "MNCDigit3PLMN3" true EquivalentPlmns.GetMNCDigit3PLMN3 EquivalentPlmns.SetMNCDigit3PLMN3 7 8 4;
   MkField "EquivalentPlmns" "MCCDigit3PLMN3" true EquivalentPlmns.GetMCCDigit3PLMN3 EquivalentPlmns.SetMCCDigit3PLMN3 7 4 4;
   MkField "EquivalentPlmns" "MNCDigit2PLMN3" true EquivalentPlmns.GetMNCDigit2PLMN3 EquivalentPlmns.SetMNCDigit2PLMN3 8 8 4;
   MkField "EquivalentPlmns" "MNCDigit1PLMN3" true EquivalentPlmns.GetMNCDigit1PLMN3 EquivalentPlmns.SetMNCDigit1PLMN3 8 4 4;
   MkField "EquivalentPlmns" "MCCDigit2PLMN4" true EquivalentPlmns.GetMCCDigit2PLMN4 EquivalentPlmns.SetMCCDigit2PLMN4 9 8 4;
   MkField "EquivalentPlmns" "MCCDigit1PLMN4" true EquivalentPlmns.GetMCCDigit1PLMN4 EquivalentPlmns.SetMCCDigit1PLMN4 9 4 4;
   MkField "EquivalentPlmns" "MNCDigit3PLMN4" true EquivalentPlmns.GetMNCDigit3PLMN4 EquivalentPlmns.SetMNCDigit3PLMN4 10 8 4;
   MkField "EquivalentPlmns" "MCCDigit3PLMN4" true EquivalentPlmns.GetMCCDigit3PLMN4 EquivalentPlmns.SetMCCDigit3PLMN4 10 4 4;
   MkField "EquivalentPlmns" "MNCDigit2PLMN4" true EquivalentPlmns.GetMNCDigit2PLMN4 EquivalentPlmns.SetMNCDigit2PLMN4 11 8 4;
   MkField "EquivalentPlmns" "MNCDigit1PLMN4" true EquivalentPlmns.GetMNCDigit1PLMN4 EquivalentPlmns.SetMNCDigit1PLMN4 11 4 4;
   MkField "EquivalentPlmns" "MCCDigit2PLMN5" true EquivalentPlmns.GetMCCDigit2PLMN5 EquivalentPlmns.SetMCCDigit2PLMN5 12 8 4;
   MkField "EquivalentPlmns" "MCCDigit1PLMN5" true EquivalentPlmns.GetMCCDigit1PLMN5 EquivalentPlmns.SetMCCDigit1PLMN5 12 4 4;
   MkField "EquivalentPlmns" "MNCDigit3PLMN5" true EquivalentPlmns.GetMNCDigit3PLMN5 EquivalentPlmns.SetMNCDigit3PLMN5 13 8 4;
   MkField "EquivalentPlmns" "MCCDigit3PLMN5" true EquivalentPlmns.GetMCCDigit3PLMN5 EquivalentPlmns.SetMCCDigit3PLMN5 13 4 4;
   MkField "EquivalentPlmns" "MNCDigit2PLMN5" true EquivalentPlmns.GetMNCDigit2PLMN5 EquivalentPlmns.SetMNCDigit2PLMN5 14 8 4;
   MkField "EquivalentPlmns" "MNCDigit1PLMN5" true EquivalentPlmns.GetMNCDigit1PLMN5 EquivalentPlmns.SetMNCDigit1PLMN5 14 4 4;
   MkField "EquivalentPlmns" "MCCDigit2PLMN6" true EquivalentPlmns.GetMCCDigit2PLMN6 EquivalentPlmns.SetMCCDigit2PLMN6 15 8 4;
   MkField "EquivalentPlmns" "MCCDigit1PLMN6" true EquivalentPlmns.GetMCCDigit1PLMN6 EquivalentPlmns.SetMCCDigit1PLMN6 15 4 4;
   MkField "EquivalentPlmns" "MNCDigit3PLMN6" true EquivalentPlmns.GetMNCDigit3PLMN6 EquivalentPlmns.SetMNCDigit3PLMN6 16 8 4;
   MkField "EquivalentPlmns" "MCCDigit3PLMN6" true EquivalentPlmns.GetMCCDigit3PLMN6 EquivalentPlmns.SetMCCDigit3PLMN6 16 4 4;
   MkField "EquivalentPlmns" "MNCDigit2PLMN6" true EquivalentPlmns.GetMNCDigit2PLMN6 EquivalentPlmns.SetMNCDigit2PLMN6 17 8 4;
   MkField "EquivalentPlmns" "MNCDigit1PLMN6" true EquivalentPlmns.GetMNCDigit1PLMN6 EquivalentPlmns.SetMNCDigit1PLMN6 17 4 4;
   MkField "EquivalentPlmns" "MCCDigit2PLMN7" true EquivalentPlmns.GetMCCDigit2PLMN7 EquivalentPlmns.SetMCCDigit2PLMN7 18 8 4;
   MkField "EquivalentPlmns" "MCCDigit1PLMN7" true EquivalentPlmns.GetMCCDigit1PLMN7 EquivalentPlmns.SetMCCDigit1PLMN7 18 4 4;
   MkField "EquivalentPlmns" "MNCDigit3PLMN7" true EquivalentPlmns.GetMNCDigit3PLMN7 EquivalentPlmns.SetMNCDigit3PLMN7 19 8 4;
   MkField "EquivalentPlmns" "MCCDigit3PLMN7" true EquivalentPlmns.GetMCCDigit3PLMN7 EquivalentPlmns.SetMCCDigit3PLMN7 19 4 4;
   MkField "EquivalentPlmns" "MNCDigit2PLMN7" true EquivalentPlmns.GetMNCDigit2PLMN7 EquivalentPlmns.SetMNCDigit2PLMN7 20 8 4;
   MkField "EquivalentPlmns" "MNCDigit1PLMN7" true EquivalentPlmns.GetMNCDigit1PLMN7 EquivalentPlmns.SetMNCDigit1PLMN7 20 4 4;
   MkField "EquivalentPlmns" "MCCDigit2PLMN8" true EquivalentPlmns.GetMCCDigit2PLMN8 EquivalentPlmns.SetMCCDigit2PLMN8 21 8 4;
   MkField "EquivalentPlmns" "MCCDigit1PLMN8" true EquivalentPlmns.GetMCCDigit1PLMN8 EquivalentPlmns.SetMCCDigit1PLMN8 21 4 4;
   MkField "EquivalentPlmns" "MNCDigit3PLMN8" true EquivalentPlmns.GetMNCDigit3PLMN8 EquivalentPlmns.SetMNCDigit3PLMN8 22 8 4;
   MkField "EquivalentPlmns" "MCCDigit3PLMN8" true EquivalentPlmns.GetMCCDigit3PLMN8 EquivalentPlmns.SetMCCDigit3PLMN8 22 4 4;
   MkField "EquivalentPlmns" "MNCDigit2PLMN8" true EquivalentPlmns.GetMNCDigit2PLMN8 EquivalentPlmns.SetMNCDigit2PLMN8 23 8 4;
   MkField "EquivalentPlmns" "MNCDigit1PLMN8" true EquivalentPlmns.GetMNCDigit1PLMN8 EquivalentPlmns.SetMNCDigit1PLMN8 23 4 4;
   MkField "EquivalentPlmns" "MCCDigit2PLMN9" true EquivalentPlmns.GetMCCDigit2PLMN9 EquivalentPlmns.SetMCCDigit2PLMN9 24 8 4;
   MkField "EquivalentPlmns" "MCCDigit1PLMN9" true EquivalentPlmns.GetMCCDigit1PLMN9 EquivalentPlmns.SetMCCDigit1PLMN9 24 4 4;
   MkField "EquivalentPlmns" "MNCDigit3PLMN9" true EquivalentPlmns.GetMNCDigit3PLMN9 EquivalentPlmns.SetMNCDigit3PLMN9 25 8 4;
   MkField "EquivalentPlmns" "MCCDigit3PLMN9" true EquivalentPlmns.GetMCCDigit3PLMN9 EquivalentPlmns.SetMCCDigit3PLMN9 25 4 4;
   MkField "EquivalentPlmns" "MNCDigit2PLMN9" true EquivalentPlmns.GetMNCDigit2PLMN9 EquivalentPlmns.SetMNCDigit2PLMN9 26 8 4;
   MkField "EquivalentPlmns" "MNCDigit1PLMN9" true EquivalentPlmns.GetMNCDigit1PLMN9 EquivalentPlmns.SetMNCDigit1PLMN9 26 4 4;
   MkField "EquivalentPlmns" "MCCDigit2PLMN10" true EquivalentPlmns.GetMCCDigit2PLMN10 EquivalentPlmns.SetMCCDigit2PLMN10 27 8 4;
   MkField "EquivalentPlmns" "MCCDigit1PLMN10" true EquivalentPlmns.GetMCCDigit1PLMN10 EquivalentPlmns.SetMCCDigit1PLMN10 27 4 4;
   MkField "EquivalentPlmns" "MNCDigit3PLMN10" true EquivalentPlmns.GetMNCDigit3PLMN10 EquivalentPlmns.SetMNCDigit3PLMN10 28 8 4;
   MkField "EquivalentPlmns" "MCCDigit3PLMN10" true EquivalentPlmns.GetMCCDigit3PLMN10 EquivalentPlmns.SetMCCDigit3PLMN10 28 4 4;
   MkField "EquivalentPlmns" "MNCDigit2PLMN10" true EquivalentPlmns.GetMNCDigit2PLMN10 EquivalentPlmns.SetMNCDigit2PLMN10 29 8 4;
   MkField "EquivalentPlmns" "MNCDigit1PLMN10" true EquivalentPlmns.GetMNCDigit1PLMN10 EquivalentPlmns.SetMNCDigit1PLMN10 29 4 4;
   MkField "EquivalentPlmns" "MCCDigit2PLMN11" true EquivalentPlmns.GetMCCDigit2PLMN11 EquivalentPlmns.SetMCCDigit2PLMN11 30 8 4;
   MkField "EquivalentPlmns" "MCCDigit1PLMN11" true EquivalentPlmns.GetMCCDigit1PLMN11 EquivalentPlmns.SetMCCDigit1PLMN11 30 4 4;
   MkField "EquivalentPlmns" "MNCDigit3PLMN11" true EquivalentPlmns.GetMNCDigit3PLMN11 EquivalentPlmns.SetMNCDigit3PLMN11 31 8 4;
   MkField "EquivalentPlmns" "MCCDigit3PLMN11" true EquivalentPlmns.GetMCCDigit3PLMN11 EquivalentPlmns.SetMCCDigit3PLMN11 31 4 4;
   MkField "EquivalentPlmns" "MNCDigit2PLMN11" true EquivalentPlmns.GetMNCDigit2PLMN11 EquivalentPlmns.SetMNCDigit2PLMN11 32 8 4;
   MkField "EquivalentPlmns" "MNCDigit1PLMN11" true EquivalentPlmns.GetMNCDigit1PLMN11 EquivalentPlmns.SetMNCDigit1PLMN11 32 4 4;
   MkField "EquivalentPlmns" "MCCDigit2PLMN12" true EquivalentPlmns.GetMCCDigit2PLMN12 EquivalentPlmns.SetMCCDigit2PLMN12 33 8 4;
   MkField "EquivalentPlmns" "MCCDigit1PLMN12" true EquivalentPlmns.GetMCCDigit1PLMN12 EquivalentPlmns.SetMCCDigit1PLMN12 33 4 4;
   MkField "EquivalentPlmns" "MNCDigit3PLMN12" true EquivalentPlmns.GetMNCDigit3PLMN12 EquivalentPlmns.SetMNCDigit3PLMN12 34 8 4;
   MkField "EquivalentPlmns" "MCCDigit3PLMN12" true EquivalentPlmns.GetMCCDigit3PLMN12 EquivalentPlmns.SetMCCDigit3PLMN12 34 4 4;
   MkField "EquivalentPlmns" "MNCDigit2PLMN12" true EquivalentPlmns.GetMNCDigit2PLMN12 EquivalentPlmns.SetMNCDigit2PLMN12 35 8 4;
   MkField "EquivalentPlmns" "MNCDigit1PLMN12" true EquivalentPlmns.GetMNCDigit1PLMN12 EquivalentPlmns.SetMNCDigit1PLMN12 35 4 4;
   MkField "EquivalentPlmns" "MCCDigit2PLMN13" true EquivalentPlmns.GetMCCDigit2PLMN13 EquivalentPlmns.SetMCCDigit2PLMN13 36 8 4;
   MkField "EquivalentPlmns" "MCCDigit1PLMN13" true EquivalentPlmns.GetMCCDigit1PLMN13 EquivalentPlmns.SetMCCDigit1PLMN13 36 4 4;
   MkField "EquivalentPlmns" "MNCDigit3PLMN13" true EquivalentPlmns.GetMNCDigit3PLMN13 EquivalentPlmns.SetMNCDigit3PLMN13 37 8 4;
   MkField "EquivalentPlmns" "MCCDigit3PLMN13" true EquivalentPlmns.GetMCCDigit3PLMN13 EquivalentPlmns.SetMCCDigit3PLMN13 37 4 4;
   MkField "EquivalentPlmns" "MNCDigit2PLMN13" true EquivalentPlmns.GetMNCDigit2PLMN13 EquivalentPlmns.SetMNCDigit2PLMN13 38 8 4;
   MkField "EquivalentPlmns" "MNCDigit1PLMN13" true EquivalentPlmns.GetMNCDigit1PLMN13 EquivalentPlmns.SetMNCDigit1PLMN13 38 4 4;
   MkField "EquivalentPlmns" "MCCDigit2PLMN14" true EquivalentPlmns.GetMCCDigit2PLMN14 EquivalentPlmns.SetMCCDigit2PLMN14 39 8 4;
   MkField "EquivalentPlmns" "MCCDigit1PLMN14" true EquivalentPlmns.GetMCCDigit1PLMN14 EquivalentPlmns.SetMCCDigit1PLMN14 39 4 4;
   MkField "EquivalentPlmns" "MNCDigit3PLMN14" true EquivalentPlmns.GetMNCDigit3PLMN14 EquivalentPlmns.SetMNCDigit3PLMN14 40 8 4;
   MkField "EquivalentPlmns" "MCCDigit3PLMN14" true EquivalentPlmns.GetMCCDigit3PLMN14 EquivalentPlmns.SetMCCDigit3PLMN14 40 4 4;
   MkField "EquivalentPlmns" "MNCDigit2PLMN14" true EquivalentPlmns.GetMNCDigit2PLMN14 EquivalentPlmns.SetMNCDigit2PLMN14 41 8 4;
   MkField "EquivalentPlmns" "MNCDigit1PLMN14" true EquivalentPlmns.GetMNCDigit1PLMN14 EquivalentPlmns.SetMNCDigit1PLMN14 41 4 4;
   MkField "EquivalentPlmns" "MCCDigit2PLMN15" true EquivalentPlmns.GetMCCDigit2PLMN15 EquivalentPlmns.SetMCCDigit2PLMN15 42 8 4;
   MkField "EquivalentPlmns" "MCCDigit1PLMN15" true EquivalentPlmns.GetMCCDigit1PLMN15 EquivalentPlmns.SetMCCDigit1PLMN15 42 4 4;
   MkField "EquivalentPlmns" "MNCDigit3PLMN15" true EquivalentPlmns.GetMNCDigit3PLMN15 EquivalentPlmns.SetMNCDigit3PLMN15 43 8 4;
   MkField "EquivalentPlmns" "MCCDigit3PLMN15" true EquivalentPlmns.GetMCCDigit3PLMN15 EquivalentPlmns.SetMCCDigit3PLMN15 43 4 4;
   MkField "EquivalentPlmns" "MNCDigit2PLMN15" true EquivalentPlmns.GetMNCDigit2PLMN15 EquivalentPlmns.SetMNCDigit2PLMN15 44 8 4;
   MkField "EquivalentPlmns" "MNCDigit1PLMN15" true EquivalentPlmns.GetMNCDigit1PLMN15 EquivalentPlmns.SetMNCDigit1PLMN15 44 4 4;
   MkField "ExtendedEmergencyNumberList" "EENL" true ExtendedEmergencyNumberList.GetEENL ExtendedEmergencyNumberList.SetEENL 0 1 1;
   single "ExtendedProtocolDiscriminator" "ExtendedProtocolDiscriminator" ExtendedProtocolDiscriminator.GetExtendedProtocolDiscriminator ExtendedProtocolDiscriminator.SetExtendedProtocolDiscriminator 8 8;
   MkField "FullNameForNetwork" "Ext" true FullNameForNetwork.GetExt FullNameForNetwork.SetExt 0 8 1;
   MkField "FullNameForNetwork" "CodingScheme" true FullNameForNetwork.GetCodingScheme FullNameForNetwork.SetCodingScheme 0 7 3;
   MkField "FullNameForNetwork" "AddCI" true FullNameForNetwork.GetAddCI FullNameForNetwork.SetAddCI 0 4 1;
   MkField "FullNameForNetwork" "NumberOfSpareBitsInLastOctet" true FullNameForNetwork.GetNumberOfSpareBitsInLastOctet FullNameForNetwork.SetNumberOfSpareBitsInLastOctet 0 3 3;
   MkField "GUTI5G" "Spare" true GUTI5G.GetSpare GUTI5G.SetSpare 0 4 1;
   MkField "GUTI5G" "TypeOfIdentity" true GUTI5G.GetTypeOfIdentity GUTI5G.SetTypeOfIdentity 0 3 3;
   MkField "GUTI5G" "MCCDigit2" true GUTI5G.GetMCCDigit2 GUTI5G.SetMCCDigit2 1 8 4;
   MkField "GUTI5G" "MCCDigit1" true GUTI5G.GetMCCDigit1 GUTI5G.SetMCCDigit1 1 4 4;
   MkField "GUTI5G" "MNCDigit3" true GUTI5G.GetMNCDigit3 GUTI5G.SetMNCDigit3 2 8 4;
   MkField "GUTI5G" "MCCDigit3" true GUTI5G.GetMCCDigit3 GUTI5G.SetMCCDigit3 2 4 4;
   MkField "GUTI5G" "MNCDigit2" true GUTI5G.GetMNCDigit2 GUTI5G.SetMNCDigit2 3 8 4;
   MkField "GUTI5G" "MNCDigit1" true GUTI5G.GetMNCDigit1 GUTI5G.SetMNCDigit1 3 4 4;
   MkField "GUTI5G" "AMFRegionID" true GUTI5G.GetAMFRegionID GUTI5G.SetAMFRegionID 4 8 8;
   MkField "GUTI5G" "AMFPointer" true GUTI5G.GetAMFPointer GUTI5G.SetAMFPointer 6 6 6;
   MkField "IMEISV" "IdentityDigit1" true IMEISV.GetIdentityDigit1 IMEISV.SetIdentityDigit1 0 8 4;
   MkField "IMEISV" "OddEvenIdic" true IMEISV.GetOddEvenIdic IMEISV.SetOddEvenIdic 0 4 1;
   MkField "IMEISV" "TypeOfIdentity" true IMEISV.GetTypeOfIdentity IMEISV.SetTypeOfIdentity 0 3 3;
   MkField "IMEISV" "IdentityDigitP_1" true IMEISV.GetIdentityDigitP_1 IMEISV.SetIdentityDigitP_1 1 8 4;
   MkField "IMEISV" "IdentityDigitP" true IMEISV.GetIdentityDigitP IMEISV.SetIdentityDigitP 1 4 4;
   MkField "IMEISV" "IdentityDigitP_3" true IMEISV.GetIdentityDigitP_3 IMEISV.SetIdentityDigitP_3 2 8 4;
   MkField "IMEISV" "IdentityDigitP_2" true IMEISV.GetIdentityDigitP_2 IMEISV.SetIdentityDigitP_2 2 4 4;
   MkField "IMEISV" "IdentityDigitP_5" true IMEISV.GetIdentityDigitP_5 IMEISV.SetIdentityDigitP_5 3 8 4;
   MkField "IMEISV" "IdentityDigitP_4" true IMEISV.GetIdentityDigitP_4 IMEISV.SetIdentityDigitP_4 3 4 4;
   MkField "IMEISV" "IdentityDigitP_7" true IMEISV.GetIdentityDigitP_7 IMEISV.SetIdentityDigitP_7 4 8 4;
   MkField "IMEISV" "IdentityDigitP_6" true IMEISV.GetIdentityDigitP_6 IMEISV.SetIdentityDigitP_6 4 4 4;
   MkField "IMEISV" "IdentityDigitP_9" true IMEISV.GetIdentityDigitP_9 IMEISV.SetIdentityDigitP_9 5 8 4;
   MkField "IMEISV" "IdentityDigitP_8" true IMEISV.GetIdentityDigitP_8 IMEISV.SetIdentityDigitP_8 5 4 4;
   MkField "IMEISV" "IdentityDigitP_11" true IMEISV.GetIdentityDigitP_11 IMEISV.SetIdentityDigitP_11 6 8 4;
   MkField "IMEISV" "IdentityDigitP_10" true IMEISV.GetIdentityDigitP_10 IMEISV.SetIdentityDigitP_10 6 4 4;
   MkField "IMEISV" "IdentityDigitP_13" true IMEISV.GetIdentityDigitP_13 IMEISV.SetIdentityDigitP_13 7 8 4;
   MkField "IMEISV" "IdentityDigitP_12" true IMEISV.GetIdentityDigitP_12 IMEISV.SetIdentityDigitP_12 7 4 4;
   MkField "IMEISV" "IdentityDigitP_15" true IMEISV.GetIdentityDigitP_15 IMEISV.SetIdentityDigitP_15 8 8 4;
   MkField "IMEISV" "IdentityDigitP_14" true IMEISV.GetIdentityDigitP_14 IMEISV.SetIdentityDigitP_14 8 4 4;
   single "IMEISVRequest" "Iei" IMEISVRequest.GetIei IMEISVRequest.SetIei 8 4;
   single "IMEISVRequest" "IMEISVRequestValue" IMEISVRequest.GetIMEISVRequestValue IMEISVRequest.SetIMEISVRequestValue 3 3;
   single "IdentityRequestMessageIdentity" "MessageType" IdentityRequestMessageIdentity.GetMessageType IdentityRequestMessageIdentity.SetMessageType 8 8;
   single "IdentityResponseMessageIdentity" "MessageType" IdentityResponseMessageIdentity.GetMessageType IdentityResponseMessageIdentity.SetMessageType 8 8;
   MkField "IntegrityProtectionMaximumDataRate" "MaximumDataRatePerUEForUserPlaneIntegrityProtectionForUpLink" true IntegrityProtectionMaximumDataRate.GetMaximumDataRatePerUEForUserPlaneIntegrityProtectionForUpLink IntegrityProtectionMaximumDataRate.SetMaximumDataRatePerUEForUserPlaneIntegrityProtectionForUpLink 0 8 8;
   MkField "IntegrityProtectionMaximumDataRate" "MaximumDataRatePerUEForUserPlaneIntegrityProtectionForDownLink" true IntegrityProtectionMaximumDataRate.GetMaximumDataRatePerUEForUserPlaneIntegrityProtectionForDownLink IntegrityProtectionMaximumDataRate.SetMaximumDataRatePerUEForUserPlaneIntegrityProtectionForDownLink 1 8 8;
   MkField "LastVisitedRegisteredTAI" "MCCDigit2" true LastVisitedRegisteredTAI.GetMCCDigit2 LastVisitedRegisteredTAI.SetMCCDigit2 0 8 4;
   MkField "LastVisitedRegisteredTAI" "MCCDigit1" true LastVisitedRegisteredTAI.GetMCCDigit1 LastVisitedRegisteredTAI.SetMCCDigit1 0 4 4;
   MkField "LastVisitedRegisteredTAI" "MNCDigit3" true LastVisitedRegisteredTAI.GetMNCDigit3 LastVisitedRegisteredTAI.SetMNCDigit3 1 8 4;
   MkField "LastVisitedRegisteredTAI" "MCCDigit3" true LastVisitedRegisteredTAI.GetMCCDigit3 LastVisitedRegisteredTAI.SetMCCDigit3 1 4 4;
   MkField "LastVisitedRegisteredTAI" "MNCDigit2" true LastVisitedRegisteredTAI.GetMNCDigit2 LastVisitedRegisteredTAI.SetMNCDigit2 2 8 4;
   MkField "LastVisitedRegisteredTAI" "MNCDigit1" true LastVisitedRegisteredTAI.GetMNCDigit1 LastVisitedRegisteredTAI.SetMNCDigit1 2 4 4;
   single "LocalTimeZone" "TimeZone" LocalTimeZone.GetTimeZone LocalTimeZone.SetTimeZone 8 8;
   single "MICOIndication" "Iei" MICOIndication.GetIei MICOIndication.SetIei 8 4;
   single "MICOIndication" "RAAI" MICOIndication.GetRAAI MICOIndication.SetRAAI 1 1;
   single "NSSAIInclusionMode" "Iei" NSSAIInclusionMode.GetIei NSSAIInclusionMode.SetIei 8 4;
   single "NSSAIInclusionMode" "NSSAIInclusionMode" NSSAIInclusionMode.GetNSSAIInclusionMode NSSAIInclusionMode.SetNSSAIInclusionMode 2 2;
   single "NegotiatedDRXParameters" "DRXValue" NegotiatedDRXParameters.GetDRXValue NegotiatedDRXParameters.SetDRXValue 4 4;
   single "NetworkDaylightSavingTime" "value" NetworkDaylightSavingTime.Getvalue NetworkDaylightSavingTime.Setvalue 2 2;
   MkField "NetworkFeatureSupport5GS" "MPSI" true NetworkFeatureSupport5GS.GetMPSI NetworkFeatureSupport5GS.SetMPSI 0 8 1;
   MkField "NetworkFeatureSupport5GS" "IWKN26" true NetworkFeatureSupport5GS.GetIWKN26 NetworkFeatureSupport5GS.SetIWKN26 0 7 1;
   MkField "NetworkFeatureSupport5GS" "EMF" true NetworkFeatureSupport5GS.GetEMF NetworkFeatureSupport5GS.SetEMF 0 6 2;
   MkField "NetworkFeatureSupport5GS" "EMC" true NetworkFeatureSupport5GS.GetEMC NetworkFeatureSupport5GS.SetEMC 0 4 2;
   MkField "NetworkFeatureSupport5GS" "IMSVoPSN3GPP" true NetworkFeatureSupport5GS.GetIMSVoPSN3GPP NetworkFeatureSupport5GS.SetIMSVoPSN3GPP 0 2 1;
   MkField "NetworkFeatureSupport5GS" "IMSVoPS3GPP" true NetworkFeatureSupport5GS.GetIMSVoPS3GPP NetworkFeatureSupport5GS.SetIMSVoPS3GPP 0 1 1;
   MkField "NetworkFeatureSupport5GS" "MCSI" true NetworkFeatureSupport5GS.GetMCSI NetworkFeatureSupport5GS.SetMCSI 1 2 1;
   MkField "NetworkFeatureSupport5GS" "EMCN" true NetworkFeatureSupport5GS.GetEMCN NetworkFeatureSupport5GS.SetEMCN 1 1 1;
   MkField "NetworkFeatureSupport5GS" "Spare" true NetworkFeatureSupport5GS.GetSpare NetworkFeatureSupport5GS.SetSpare 2 8 8;
   single "NetworkSlicingIndication" "Iei" NetworkSlicingIndication.GetIei NetworkSlicingIndication.SetIei 8 4;
   single "NetworkSlicingIndication" "DCNI" NetworkSlicingIndication.GetDCNI NetworkSlicingIndication.SetDCNI 2 1;
   single "NetworkSlicingIndication" "NSSCI" NetworkSlicingIndication.GetNSSCI NetworkSlicingIndication.SetNSSCI 1 1;
   single "NgksiAndDeregistrationType" "TSC" NgksiAndDeregistrationType.GetTSC NgksiAndDeregistrationType.SetTSC 8 1;
   single "NgksiAndDeregistrationType" "NasKeySetIdentifiler" NgksiAndDeregistrationType.GetNasKeySetIdentifiler NgksiAndDeregistrationType.SetNasKeySetIdentifiler 7 3;
   single "NgksiAndDeregistrationType" "SwitchOff" NgksiAndDeregistrationType.GetSwitchOff NgksiAndDeregistrationType.SetSwitchOff 4 1;
   single "NgksiAndDeregistrationType" "ReRegistrationRequired" NgksiAndDeregistrationType.GetReRegistrationRequired NgksiAndDeregistrationType.SetReRegistrationRequired 3 1;
   single "NgksiAndDeregistrationType" "AccessType" NgksiAndDeregistrationType.GetAccessType NgksiAndDeregistrationType.SetAccessType 2 2;
   single "NgksiAndRegistrationType5GS" "TSC" NgksiAndRegistrationType5GS.GetTSC NgksiAndRegistrationType5GS.SetTSC 8 1;
   single "NgksiAndRegistrationType5GS" "NasKeySetIdentifiler" NgksiAndRegistrationType5GS.GetNasKeySetIdentifiler NgksiAndRegistrationType5GS.SetNasKeySetIdentifiler 7 3;
   single "NgksiAndRegistrationType5GS" "FOR" NgksiAndRegistrationType5GS.GetFOR NgksiAndRegistrationType5GS.SetFOR 4 1;
   single "NgksiAndRegistrationType5GS" "RegistrationType5GS" NgksiAndRegistrationType5GS.GetRegistrationType5GS NgksiAndRegistrationType5GS.SetRegistrationType5GS 3 3;
   single "Non3GppDeregistrationTimerValue" "GPRSTimer2Value" Non3GppDeregistrationTimerValue.GetGPRSTimer2Value Non3GppDeregistrationTimerValue.SetGPRSTimer2Value 8 8;
   single "NoncurrentNativeNASKeySetIdentifier" "Iei" NoncurrentNativeNASKeySetIdentifier.GetIei NoncurrentNativeNASKeySetIdentifier.SetIei 8 4;
   single "NoncurrentNativeNASKeySetIdentifier" "Tsc" NoncurrentNativeNASKeySetIdentifier.GetTsc NoncurrentNativeNASKeySetIdentifier.SetTsc 4 1;
   single "NoncurrentNativeNASKeySetIdentifier" "NasKeySetIdentifiler" NoncurrentNativeNASKeySetIdentifier.GetNasKeySetIdentifiler NoncurrentNativeNASKeySetIdentifier.SetNasKeySetIdentifiler 3 3;
   single "NotificationMessageIdentity" "MessageType" NotificationMessageIdentity.GetMessageType NotificationMessageIdentity.SetMessageType 8 8;
   single "NotificationResponseMessageIdentity" "MessageType" NotificationResponseMessageIdentity.GetMessageType NotificationResponseMessageIdentity.SetMessageType 8 8;
   single "OldPDUSessionID" "OldPDUSessionID" OldPDUSessionID.GetOldPDUSessionID OldPDUSessionID.SetOldPDUSessionID 8 8;
   MkField "PDUAddress" "PDUSessionTypeValue" true PDUAddress.GetPDUSessionTypeValue PDUAddress.SetPDUSessionTypeValue 0 3 3;
   single "PDUSESSIONAUTHENTICATIONCOMMANDMessageIdentity" "MessageType" PDUSESSIONAUTHENTICATIONCOMMANDMessageIdentity.GetMessageType PDUSESSIONAUTHENTICATIONCOMMANDMessageIdentity.SetMessageType 8 8;
   single "PDUSESSIONAUTHENTICATIONCOMPLETEMessageIdentity" "MessageType" PDUSESSIONAUTHENTICATIONCOMPLETEMessageIdentity.GetMessageType PDUSESSIONAUTHENTICATIONCOMPLETEMessageIdentity.SetMessageType 8 8;
   single "PDUSESSIONAUTHENTICATIONRESULTMessageIdentity" "MessageType" PDUSESSIONAUTHENTICATIONRESULTMessageIdentity.GetMessageType PDUSESSIONAUTHENTICATIONRESULTMessageIdentity.SetMessageType 8 8;
   single "PDUSESSIONESTABLISHMENTACCEPTMessageIdentity" "MessageType" PDUSESSIONESTABLISHMENTACCEPTMessageIdentity.GetMessageType PDUSESSIONESTABLISHMENTACCEPTMessageIdentity.SetMessageType 8 8;
   single "PDUSESSIONESTABLISHMENTREJECTMessageIdentity" "MessageType" PDUSESSIONESTABLISHMENTREJECTMessageIdentity.GetMessageType PDUSESSIONESTABLISHMENTREJECTMessageIdentity.SetMessageType 8 8;
   single "PDUSESSIONESTABLISHMENTREQUESTMessageIdentity" "MessageType" PDUSESSIONESTABLISHMENTREQUESTMessageIdentity.GetMessageType PDUSESSIONESTABLISHMENTREQUESTMessageIdentity.SetMessageType 8 8;
   single "PDUSESSIONMODIFICATIONCOMMANDMessageIdentity" "MessageType" PDUSESSIONMODIFICATIONCOMMANDMessageIdentity.GetMessageType PDUSESSIONMODIFICATIONCOMMANDMessageIdentity.SetMessageType 8 8;
   single "PDUSESSIONMODIFICATIONCOMMANDREJECTMessageIdentity" "MessageType" PDUSESSIONMODIFICATIONCOMMANDREJECTMessageIdentity.GetMessageType PDUSESSIONMODIFICATIONCOMMANDREJECTMessageIdentity.SetMessageType 8 8;
   single "PDUSESSIONMODIFICATIONCOMPLETEMessageIdentity" "MessageType" PDUSESSIONMODIFICATIONCOMPLETEMessageIdentity.GetMessageType PDUSESSIONMODIFICATIONCOMPLETEMessageIdentity.SetMessageType 8 8;
   single "PDUSESSIONMODIFICATIONREJECTMessageIdentity" "MessageType" PDUSESSIONMODIFICATIONREJECTMessageIdentity.GetMessageType PDUSESSIONMODIFICATIONREJECTMessageIdentity.SetMessageType 8 8;
   single "PDUSESSIONMODIFICATIONREQUESTMessageIdentity" "MessageType" PDUSESSIONMODIFICATIONREQUESTMessageIdentity.GetMessageType PDUSESSIONMODIFICATIONREQUESTMessageIdentity.SetMessageType 8 8;
   single "PDUSESSIONRELEASECOMMANDMessageIdentity" "MessageType" PDUSESSIONRELEASECOMMANDMessageIdentity.GetMessageType PDUSESSIONRELEASECOMMANDMessageIdentity.SetMessageType 8 8;
   single "PDUSESSIONRELEASECOMPLETEMessageIdentity" "MessageType" PDUSESSIONRELEASECOMPLETEMessageIdentity.GetMessageType PDUSESSIONRELEASECOMPLETEMessageIdentity.SetMessageType 8 8;
   single "PDUSESSIONRELEASEREJECTMessageIdentity" "MessageType" PDUSESSIONRELEASEREJECTMessageIdentity.GetMessageType PDUSESSIONRELEASEREJECTMessageIdentity.SetMessageType 8 8;
   single "PDUSESSIONRELEASEREQUESTMessageIdentity" "MessageType" PDUSESSIONRELEASEREQUESTMessageIdentity.GetMessageType PDUSESSIONRELEASEREQUESTMessageIdentity.SetMessageType 8 8;
   single "PDUSessionID" "PDUSessionID" PDUSessionID.GetPDUSessionID PDUSessionID.SetPDUSessionID 8 8;
   MkField "PDUSessionReactivationResult" "PSI7" true PDUSessionReactivationResult.GetPSI7 PDUSessionReactivationResult.SetPSI7 0 8 1;
   MkField "PDUSessionReactivationResult" "PSI6" true PDUSessionReactivationResult.GetPSI6 PDUSessionReactivationResult.SetPSI6 0 7 1;
   MkField "PDUSessionReactivationResult" "PSI5" true PDUSessionReactivationResult.GetPSI5 PDUSessionReactivationResult.SetPSI5 0 6 1;
   MkField "PDUSessionReactivationResult" "PSI4" true PDUSessionReactivationResult.GetPSI4 PDUSessionReactivationResult.SetPSI4 0 5 1;
   MkField "PDUSessionReactivationResult" "PSI3" true PDUSessionReactivationResult.GetPSI3 PDUSessionReactivationResult.SetPSI3 0 4 1;
   MkField "PDUSessionReactivationResult" "PSI2" true PDUSessionReactivationResult.GetPSI2 PDUSessionReactivationResult.SetPSI2 0 3 1;
   MkField "PDUSessionReactivationResult" "PSI1" true PDUSessionReactivationResult.GetPSI1 PDUSessionReactivationResult.SetPSI1 0 2 1;
   MkField "PDUSessionReactivationResult" "PSI0" true PDUSessionReactivationResult.GetPSI0 PDUSessionReactivationResult.SetPSI0 0 1 1;
   MkField "PDUSessionReactivationResult" "PSI15" true PDUSessionReactivationResult.GetPSI15 PDUSessionReactivationResult.SetPSI15 1 8 1;
   MkField "PDUSessionReactivationResult" "PSI14" true PDUSessionReactivationResult.GetPSI14 PDUSessionReactivationResult.SetPSI14 1 7 1;
   MkField "PDUSessionReactivationResult" "PSI13" true PDUSessionReactivationResult.GetPSI13 PDUSessionReactivationResult.SetPSI13 1 6 1;
   MkField "PDUSessionReactivationResult" "PSI12" true PDUSessionReactivationResult.GetPSI12 PDUSessionReactivationResult.SetPSI12 1 5 1;
   MkField "PDUSessionReactivationResult" "PSI11" true PDUSessionReactivationResult.GetPSI11 PDUSessionReactivationResult.SetPSI11 1 4 1;
   MkField "PDUSessionReactivationResult" "PSI10" true PDUSessionReactivationResult.GetPSI10 PDUSessionReactivationResult.SetPSI10 1 3 1;
   MkField "PDUSessionReactivationResult" "PSI9" true PDUSessionReactivationResult.GetPSI9 PDUSessionReactivationResult.SetPSI9 1 2 1;
   MkField "PDUSessionReactivationResult" "PSI8" true PDUSessionReactivationResult.GetPSI8 PDUSessionReactivationResult.SetPSI8 1 1 1;
   MkField "PDUSessionStatus" "PSI7" true PDUSessionStatus.GetPSI7 PDUSessionStatus.SetPSI7 0 8 1;
   MkField "PDUSessionStatus" "PSI6" true PDUSessionStatus.GetPSI6 PDUSessionStatus.SetPSI6 0 7 1;
   MkField "PDUSessionStatus" "PSI5" true PDUSessionStatus.GetPSI5 PDUSessionStatus.SetPSI5 0 6 1;
   MkField "PDUSessionStatus" "PSI4" true PDUSessionStatus.GetPSI4 PDUSessionStatus.SetPSI4 0 5 1;
   MkField "PDUSessionStatus" "PSI3" true PDUSessionStatus.GetPSI3 PDUSessionStatus.SetPSI3 0 4 1;
   MkField "PDUSessionStatus" "PSI2" true PDUSessionStatus.GetPSI2 PDUSessionStatus.SetPSI2 0 3 1;
   MkField "PDUSessionStatus" "PSI1" true PDUSessionStatus.GetPSI1 PDUSessionStatus.SetPSI1 0 2 1;
   MkField "PDUSessionStatus" "PSI0" true PDUSessionStatus.GetPSI0 PDUSessionStatus.SetPSI0 0 1 1;
   MkField "PDUSessionStatus" "PSI15" true PDUSessionStatus.GetPSI15 PDUSessionStatus.SetPSI15 1 8 1;
   MkField "PDUSessionStatus" "PSI14" true PDUSessionStatus.GetPSI14 PDUSessionStatus.SetPSI14 1 7 1;
   MkField "PDUSessionStatus" "PSI13" true PDUSessionStatus.GetPSI13 PDUSessionStatus.SetPSI13 1 6 1;
   MkField "PDUSessionStatus" "PSI12" true PDUSessionStatus.GetPSI12 PDUSessionStatus.SetPSI12 1 5 1;
   MkField "PDUSessionStatus" "PSI11" true PDUSessionStatus.GetPSI11 PDUSessionStatus.SetPSI11 1 4 1;
   MkField "PDUSessionStatus" "PSI10" true PDUSessionStatus.GetPSI10 PDUSessionStatus.SetPSI10 1 3 1;
   MkField "PDUSessionStatus" "PSI9" true PDUSessionStatus.GetPSI9 PDUSessionStatus.SetPSI9 1 2 1;
   MkField "PDUSessionStatus" "PSI8" true PDUSessionStatus.GetPSI8 PDUSessionStatus.SetPSI8 1 1 1;
   single "PDUSessionType" "Iei" PDUSessionType.GetIei PDUSessionType.SetIei 8 4;
   single "PDUSessionType" "Spare" PDUSessionType.GetSpare PDUSessionType.SetSpare 4 1;
   single "PDUSessionType" "PDUSessionTypeValue" PDUSessionType.GetPDUSessionTypeValue PDUSessionType.SetPDUSessionTypeValue 3 3;
   single "PTI" "PTI" PTI.GetPTI PTI.SetPTI 8 8;
   single "PduSessionID2Value" "PduSessionID2Value" PduSessionID2Value.GetPduSessionID2Value PduSessionID2Value.SetPduSessionID2Value 8 8;
   single "RQTimerValue" "Unit" RQTimerValue.GetUnit RQTimerValue.SetUnit 8 3;
   single "RQTimerValue" "TimerValue" RQTimerValue.GetTimerValue RQTimerValue.SetTimerValue 5 5;
   single "RegistrationAcceptMessageIdentity" "MessageType" RegistrationAcceptMessageIdentity.GetMessageType RegistrationAcceptMessageIdentity.SetMessageType 8 8;
   single "RegistrationCompleteMessageIdentity" "MessageType" RegistrationCompleteMessageIdentity.GetMessageType RegistrationCompleteMessageIdentity.SetMessageType 8 8;
   single "RegistrationRejectMessageIdentity" "MessageType" RegistrationRejectMessageIdentity.GetMessageType RegistrationRejectMessageIdentity.SetMessageType 8 8;
   single "RegistrationRequestMessageIdentity" "MessageType" RegistrationRequestMessageIdentity.GetMessageType RegistrationRequestMessageIdentity.SetMessageType 8 8;
   single "RegistrationResult5GS" "SMSAllowed" RegistrationResult5GS.GetSMSAllowed RegistrationResult5GS.SetSMSAllowed 4 1;
   single "RegistrationResult5GS" "RegistrationResultValue5GS" RegistrationResult5GS.GetRegistrationResultValue5GS RegistrationResult5GS.SetRegistrationResultValue5GS 3 3;
   MkField "ReplayedS1UESecurityCapabilities" "EEA0" true ReplayedS1UESecurityCapabilities.GetEEA0 ReplayedS1UESecurityCapabilities.SetEEA0 0 8 1;
   MkField "ReplayedS1UESecurityCapabilities" "EEA1_128" true ReplayedS1UESecurityCapabilities.GetEEA1_128 ReplayedS1UESecurityCapabilities.SetEEA1_128 0 7 1;
   MkField "ReplayedS1UESecurityCapabilities" "EEA2_128" true ReplayedS1UESecurityCapabilities.GetEEA2_128 ReplayedS1UESecurityCapabilities.SetEEA2_128 0 6 1;
   MkField "ReplayedS1UESecurityCapabilities" "EEA3_128" true ReplayedS1UESecurityCapabilities.GetEEA3_128 ReplayedS1UESecurityCapabilities.SetEEA3_128 0 5 1;
   MkField "ReplayedS1UESecurityCapabilities" "EEA4" true ReplayedS1UESecurityCapabilities.GetEEA4 ReplayedS1UESecurityCapabilities.SetEEA4 0 4 1;
   MkField "ReplayedS1UESecurityCapabilities" "EEA5" true ReplayedS1UESecurityCapabilities.GetEEA5 ReplayedS1UESecurityCapabilities.SetEEA5 0 3 1;
   MkField "ReplayedS1UESecurityCapabilities" "EEA6" true ReplayedS1UESecurityCapabilities.GetEEA6 ReplayedS1UESecurityCapabilities.SetEEA6 0 2 1;
   MkField "ReplayedS1UESecurityCapabilities" "EEA7" true ReplayedS1UESecurityCapabilities.GetEEA7 ReplayedS1UESecurityCapabilities.SetEEA7 0 1 1;
   MkField "ReplayedS1UESecurityCapabilities" "EIA0" true ReplayedS1UESecurityCapabilities.GetEIA0 ReplayedS1UESecurityCapabilities.SetEIA0 1 8 1;
   MkField "ReplayedS1UESecurityCapabilities" "EIA1_128" true ReplayedS1UESecurityCapabilities.GetEIA1_128 ReplayedS1UESecurityCapabilities.SetEIA1_128 1 7 1;
   MkField "ReplayedS1UESecurityCapabilities" "EIA2_128" true ReplayedS1UESecurityCapabilities.GetEIA2_128 ReplayedS1UESecurityCapabilities.SetEIA2_128 1 6 1;
   MkField "ReplayedS1UESecurityCapabilities" "EIA3_128" true ReplayedS1UESecurityCapabilities.GetEIA3_128 ReplayedS1UESecurityCapabilities.SetEIA3_128 1 5 1;
   MkField "ReplayedS1UESecurityCapabilities" "EIA4" true ReplayedS1UESecurityCapabilities.GetEIA4 ReplayedS1UESecurityCapabilities.SetEIA4 1 4 1;
   MkField "ReplayedS1UESecurityCapabilities" "EIA5" true ReplayedS1UESecurityCapabilities.GetEIA5 ReplayedS1UESecurityCapabilities.SetEIA5 1 3 1;
   MkField "ReplayedS1UESecurityCapabilities" "EIA6" true ReplayedS1UESecurityCapabilities.GetEIA6 ReplayedS1UESecurityCapabilities.SetEIA6 1 2 1;
   MkField "ReplayedS1UESecurityCapabilities" "EIA7" true ReplayedS1UESecurityCapabilities.GetEIA7 ReplayedS1UESecurityCapabilities.SetEIA7 1 1 1;
   MkField "ReplayedS1UESecurityCapabilities" "UEA0" true ReplayedS1UESecurityCapabilities.GetUEA0 ReplayedS1UESecurityCapabilities.SetUEA0 2 8 1;
   MkField "ReplayedS1UESecurityCapabilities" "UEA1" true ReplayedS1UESecurityCapabilities.GetUEA1 ReplayedS1UESecurityCapabilities.SetUEA1 2 7 1;
   MkField "ReplayedS1UESecurityCapabilities" "UEA2" true ReplayedS1UESecurityCapabilities.GetUEA2 ReplayedS1UESecurityCapabilities.SetUEA2 2 6 1;
   MkField "ReplayedS1UESecurityCapabilities" "UEA3" true ReplayedS1UESecurityCapabilities.GetUEA3 ReplayedS1UESecurityCapabilities.SetUEA3 2 5 1;
   MkField "ReplayedS1UESecurityCapabilities" "UEA4" true ReplayedS1UESecurityCapabilities.GetUEA4 ReplayedS1UESecurityCapabilities.SetUEA4 2 4 1;
   MkField "ReplayedS1UESecurityCapabilities" "UEA5" true ReplayedS1UESecurityCapabilities.GetUEA5 ReplayedS1UESecurityCapabilities.SetUEA5 2 3 1;
   MkField "ReplayedS1UESecurityCapabilities" "UEA6" true ReplayedS1UESecurityCapabilities.GetUEA6 ReplayedS1UESecurityCapabilities.SetUEA6 2 2 1;
   MkField "ReplayedS1UESecurityCapabilities" "UEA7" true ReplayedS1UESecurityCapabilities.GetUEA7 ReplayedS1UESecurityCapabilities.SetUEA7 2 1 1;
   MkField "ReplayedS1UESecurityCapabilities" "UIA1" true ReplayedS1UESecurityCapabilities.GetUIA1 ReplayedS1UESecurityCapabilities.SetUIA1 3 7 1;
   MkField "ReplayedS1UESecurityCapabilities" "UIA2" true ReplayedS1UESecurityCapabilities.GetUIA2 ReplayedS1UESecurityCapabilities.SetUIA2 3 6 1;
   MkField "ReplayedS1UESecurityCapabilities" "UIA3" true ReplayedS1UESecurityCapabilities.GetUIA3 ReplayedS1UESecurityCapabilities.SetUIA3 3 5 1;
   MkField "ReplayedS1UESecurityCapabilities" "UIA4" true ReplayedS1UESecurityCapabilities.GetUIA4 ReplayedS1UESecurityCapabilities.SetUIA4 3 4 1;
   MkField "ReplayedS1UESecurityCapabilities" "UIA5" true ReplayedS1UESecurityCapabilities.GetUIA5 ReplayedS1UESecurityCapabilities.SetUIA5 3 3 1;
   MkField "ReplayedS1UESecurityCapabilities" "UIA6" true ReplayedS1UESecurityCapabilities.GetUIA6 ReplayedS1UESecurityCapabilities.SetUIA6 3 2 1;
   MkField "ReplayedS1UESecurityCapabilities" "UIA7" true ReplayedS1UESecurityCapabilities.GetUIA7 ReplayedS1UESecurityCapabilities.SetUIA7 3 1 1;
   MkField "ReplayedS1UESecurityCapabilities" "GEA1" true ReplayedS1UESecurityCapabilities.GetGEA1 ReplayedS1UESecurityCapabilities.SetGEA1 4 7 1;
   MkField "ReplayedS1UESecurityCapabilities" "GEA2" true ReplayedS1UESecurityCapabilities.GetGEA2 ReplayedS1UESecurityCapabilities.SetGEA2 4 6 1;
   MkField "ReplayedS1UESecurityCapabilities" "GEA3" true ReplayedS1UESecurityCapabilities.GetGEA3 ReplayedS1UESecurityCapabilities.SetGEA3 4 5 1;
   MkField "ReplayedS1UESecurityCapabilities" "GEA4" true ReplayedS1UESecurityCapabilities.GetGEA4 ReplayedS1UESecurityCapabilities.SetGEA4 4 4 1;
   MkField "ReplayedS1UESecurityCapabilities" "GEA5" true ReplayedS1UESecurityCapabilities.GetGEA5 ReplayedS1UESecurityCapabilities.SetGEA5 4 3 1;
   MkField "ReplayedS1UESecurityCapabilities" "GEA6" true ReplayedS1UESecurityCapabilities.GetGEA6 ReplayedS1UESecurityCapabilities.SetGEA6 4 2 1;
   MkField "ReplayedS1UESecurityCapabilities" "GEA7" true ReplayedS1UESecurityCapabilities.GetGEA7 ReplayedS1UESecurityCapabilities.SetGEA7 4 1 1;
   MkField "ReplayedUESecurityCapabilities" "EA0_5G" true ReplayedUESecurityCapabilities.GetEA0_5G ReplayedUESecurityCapabilities.SetEA0_5G 0 8 1;
   MkField "ReplayedUESecurityCapabilities" "EA1_128_5G" true ReplayedUESecurityCapabilities.GetEA1_128_5G ReplayedUESecurityCapabilities.SetEA1_128_5G 0 7 1;
   MkField "ReplayedUESecurityCapabilities" "EA2_128_5G" true ReplayedUESecurityCapabilities.GetEA2_128_5G ReplayedUESecurityCapabilities.SetEA2_128_5G 0 6 1;
   MkField "ReplayedUESecurityCapabilities" "EA3_128_5G" true ReplayedUESecurityCapabilities.GetEA3_128_5G ReplayedUESecurityCapabilities.SetEA3_128_5G 0 5 1;
   MkField "ReplayedUESecurityCapabilities" "EA4_5G" true ReplayedUESecurityCapabilities.GetEA4_5G ReplayedUESecurityCapabilities.SetEA4_5G 0 4 1;
   MkField "ReplayedUESecurityCapabilities" "EA5_5G" true ReplayedUESecurityCapabilities.GetEA5_5G ReplayedUESecurityCapabilities.SetEA5_5G 0 3 1;
   MkField "ReplayedUESecurityCapabilities" "EA6_5G" true ReplayedUESecurityCapabilities.GetEA6_5G ReplayedUESecurityCapabilities.SetEA6_5G 0 2 1;
   MkField "ReplayedUESecurityCapabilities" "EA7_5G" true ReplayedUESecurityCapabilities.GetEA7_5G ReplayedUESecurityCapabilities.SetEA7_5G 0 1 1;
   MkField "ReplayedUESecurityCapabilities" "IA0_5G" true ReplayedUESecurityCapabilities.GetIA0_5G ReplayedUESecurityCapabilities.SetIA0_5G 1 8 1;
   MkField "ReplayedUESecurityCapabilities" "IA1_128_5G" true ReplayedUESecurityCapabilities.GetIA1_128_5G ReplayedUESecurityCapabilities.SetIA1_128_5G 1 7 1;
   MkField "ReplayedUESecurityCapabilities" "IA2_128_5G" true ReplayedUESecurityCapabilities.GetIA2_128_5G ReplayedUESecurityCapabilities.SetIA2_128_5G 1 6 1;
   MkField "ReplayedUESecurityCapabilities" "IA3_128_5G" true ReplayedUESecurityCapabilities.GetIA3_128_5G ReplayedUESecurityCapabilities.SetIA3_128_5G 1 5 1;
   MkField "ReplayedUESecurityCapabilities" "IA4_5G" true ReplayedUESecurityCapabilities.GetIA4_5G ReplayedUESecurityCapabilities.SetIA4_5G 1 4 1;
   MkField "ReplayedUESecurityCapabilities" "IA5_5G" true ReplayedUESecurityCapabilities.GetIA5_5G ReplayedUESecurityCapabilities.SetIA5_5G 1 3 1;
   MkField "ReplayedUESecurityCapabilities" "IA6_5G" true ReplayedUESecurityCapabilities.GetIA6_5G ReplayedUESecurityCapabilities.SetIA6_5G 1 2 1;
   MkField "ReplayedUESecurityCapabilities" "IA7_5G" true ReplayedUESecurityCapabilities.GetIA7_5G ReplayedUESecurityCapabilities.SetIA7_5G 1 1 1;
   MkField "ReplayedUESecurityCapabilities" "EEA0" true ReplayedUESecurityCapabilities.GetEEA0 ReplayedUESecurityCapabilities.SetEEA0 2 8 1;
   MkField "ReplayedUESecurityCapabilities" "EEA1_128" true ReplayedUESecurityCapabilities.GetEEA1_128 ReplayedUESecurityCapabilities.SetEEA1_128 2 7 1;
   MkField "ReplayedUESecurityCapabilities" "EEA2_128" true ReplayedUESecurityCapabilities.GetEEA2_128 ReplayedUESecurityCapabilities.SetEEA2_128 2 6 1;
   MkField "ReplayedUESecurityCapabilities" "EEA3_128" true ReplayedUESecurityCapabilities.GetEEA3_128 ReplayedUESecurityCapabilities.SetEEA3_128 2 5 1;
   MkField "ReplayedUESecurityCapabilities" "EEA4" true ReplayedUESecurityCapabilities.GetEEA4 ReplayedUESecurityCapabilities.SetEEA4 2 4 1;
   MkField "ReplayedUESecurityCapabilities" "EEA5" true ReplayedUESecurityCapabilities.GetEEA5 ReplayedUESecurityCapabilities.SetEEA5 2 3 1;
   MkField "ReplayedUESecurityCapabilities" "EEA6" true ReplayedUESecurityCapabilities.GetEEA6 ReplayedUESecurityCapabilities.SetEEA6 2 2 1;
   MkField "ReplayedUESecurityCapabilities" "EEA7" true ReplayedUESecurityCapabilities.GetEEA7 ReplayedUESecurityCapabilities.SetEEA7 2 1 1;
   MkField "ReplayedUESecurityCapabilities" "EIA0" true ReplayedUESecurityCapabilities.GetEIA0 ReplayedUESecurityCapabilities.SetEIA0 3 8 1;
   MkField "ReplayedUESecurityCapabilities" "EIA1_128" true ReplayedUESecurityCapabilities.GetEIA1_128 ReplayedUESecurityCapabilities.SetEIA1_128 3 7 1;
   MkField "ReplayedUESecurityCapabilities" "EIA2_128" true ReplayedUESecurityCapabilities.GetEIA2_128 ReplayedUESecurityCapabilities.SetEIA2_128 3 6 1;
   MkField "ReplayedUESecurityCapabilities" "EIA3_128" true ReplayedUESecurityCapabilities.GetEIA3_128 ReplayedUESecurityCapabilities.SetEIA3_128 3 5 1;
   MkField "ReplayedUESecurityCapabilities" "EIA4" true ReplayedUESecurityCapabilities.GetEIA4 ReplayedUESecurityCapabilities.SetEIA4 3 4 1;
   MkField "ReplayedUESecurityCapabilities" "EIA5" true ReplayedUESecurityCapabilities.GetEIA5 ReplayedUESecurityCapabilities.SetEIA5 3 3 1;
   MkField "ReplayedUESecurityCapabilities" "EIA6" true ReplayedUESecurityCapabilities.GetEIA6 ReplayedUESecurityCapabilities.SetEIA6 3 2 1;
   MkField "ReplayedUESecurityCapabilities" "EIA7" true ReplayedUESecurityCapabilities.GetEIA7 ReplayedUESecurityCapabilities.SetEIA7 3 1 1;
   single "RequestType" "Iei" RequestType.GetIei RequestType.SetIei 8 4;
   single "RequestType" "RequestTypeValue" RequestType.GetRequestTypeValue RequestType.SetRequestTypeValue 3 3;
   single "RequestedDRXParameters" "DRXValue" RequestedDRXParameters.GetDRXValue RequestedDRXParameters.SetDRXValue 4 4;
   MkField "S1UENetworkCapability" "EEA0" true S1UENetworkCapability.GetEEA0 S1UENetworkCapability.SetEEA0 0 8 1;
   MkField "S1UENetworkCapability" "EEA1_128" true S1UENetworkCapability.GetEEA1_128 S1UENetworkCapability.SetEEA1_128 0 7 1;
   MkField "S1UENetworkCapability" "EEA2_128" true S1UENetworkCapability.GetEEA2_128 S1UENetworkCapability.SetEEA2_128 0 6 1;
   MkField "S1UENetworkCapability" "EEA3_128" true S1UENetworkCapability.GetEEA3_128 S1UENetworkCapability.SetEEA3_128 0 5 1;
   MkField "S1UENetworkCapability" "EEA4" true S1UENetworkCapability.GetEEA4 S1UENetworkCapability.SetEEA4 0 4 1;
   MkField "S1UENetworkCapability" "EEA5" true S1UENetworkCapability.GetEEA5 S1UENetworkCapability.SetEEA5 0 3 1;
   MkField "S1UENetworkCapability" "EEA6" true S1UENetworkCapability.GetEEA6 S1UENetworkCapability.SetEEA6 0 2 1;
   MkField "S1UENetworkCapability" "EEA7" true S1UENetworkCapability.GetEEA7 S1UENetworkCapability.SetEEA7 0 1 1;
   MkField "S1UENetworkCapability" "EIA0" true S1UENetworkCapability.GetEIA0 S1UENetworkCapability.SetEIA0 1 8 1;
   MkField "S1UENetworkCapability" "EIA1_128" true S1UENetworkCapability.GetEIA1_128 S1UENetworkCapability.SetEIA1_128 1 7 1;
   MkField "S1UENetworkCapability" "EIA2_128" true S1UENetworkCapability.GetEIA2_128 S1UENetworkCapability.SetEIA2_128 1 6 1;
   MkField "S1UENetworkCapability" "EIA3_128" true S1UENetworkCapability.GetEIA3_128 S1UENetworkCapability.SetEIA3_128 1 5 1;
   MkField "S1UENetworkCapability" "EIA4" true S1UENetworkCapability.GetEIA4 S1UENetworkCapability.SetEIA4 1 4 1;
   MkField "S1UENetworkCapability" "EIA5" true S1UENetworkCapability.GetEIA5 S1UENetworkCapability.SetEIA5 1 3 1;
   MkField "S1UENetworkCapability" "EIA6" true S1UENetworkCapability.GetEIA6 S1UENetworkCapability.SetEIA6 1 2 1;
   MkField "S1UENetworkCapability" "EIA7" true S1UENetworkCapability.GetEIA7 S1UENetworkCapability.SetEIA7 1 1 1;
   MkField "S1UENetworkCapability" "UEA0" true S1UENetworkCapability.GetUEA0 S1UENetworkCapability.SetUEA0 2 8 1;
   MkField "S1UENetworkCapability" "UEA1" true S1UENetworkCapability.GetUEA1 S1UENetworkCapability.SetUEA1 2 7 1;
   MkField "S1UENetworkCapability" "UEA2" true S1UENetworkCapability.GetUEA2 S1UENetworkCapability.SetUEA2 2 6 1;
   MkField "S1UENetworkCapability" "UEA3" true S1UENetworkCapability.GetUEA3 S1UENetworkCapability.SetUEA3 2 5 1;
   MkField "S1UENetworkCapability" "UEA4" true S1UENetworkCapability.GetUEA4 S1UENetworkCapability.SetUEA4 2 4 1;
   MkField "S1UENetworkCapability" "UEA5" true S1UENetworkCapability.GetUEA5 S1UENetworkCapability.SetUEA5 2 3 1;
   MkField "S1UENetworkCapability" "UEA6" true S1UENetworkCapability.GetUEA6 S1UENetworkCapability.SetUEA6 2 2 1;
   MkField "S1UENetworkCapability" "UEA7" true S1UENetworkCapability.GetUEA7 S1UENetworkCapability.SetUEA7 2 1 1;
   MkField "S1UENetworkCapability" "UCS2" true S1UENetworkCapability.GetUCS2 S1UENetworkCapability.SetUCS2 3 8 1;
   MkField "S1UENetworkCapability" "UIA1" true S1UENetworkCapability.GetUIA1 S1UENetworkCapability.SetUIA1 3 7 1;
   MkField "S1UENetworkCapability" "UIA2" true S1UENetworkCapability.GetUIA2 S1UENetworkCapability.SetUIA2 3 6 1;
   MkField "S1UENetworkCapability" "UIA3" true S1UENetworkCapability.GetUIA3 S1UENetworkCapability.SetUIA3 3 5 1;
   MkField "S1UENetworkCapability" "UIA4" true S1UENetworkCapability.GetUIA4 S1UENetworkCapability.SetUIA4 3 4 1;
   MkField "S1UENetworkCapability" "UIA5" true S1UENetworkCapability.GetUIA5 S1UENetworkCapability.SetUIA5 3 3 1;
   MkField "S1UENetworkCapability" "UIA6" true S1UENetworkCapability.GetUIA6 S1UENetworkCapability.SetUIA6 3 2 1;
   MkField "S1UENetworkCapability" "UIA7" true S1UENetworkCapability.GetUIA7 S1UENetworkCapability.SetUIA7 3 1 1;
   MkField "S1UENetworkCapability" "ProSedd" true S1UENetworkCapability.GetProSedd S1UENetworkCapability.SetProSedd 4 8 1;
   MkField "S1UENetworkCapability" "ProSe" true S1UENetworkCapability.GetProSe S1UENetworkCapability.SetProSe 4 7 1;
   MkField "S1UENetworkCapability" "H245ASH" true S1UENetworkCapability.GetH245ASH S1UENetworkCapability.SetH245ASH 4 6 1;
   MkField "S1UENetworkCapability" "ACCCSFB" true S1UENetworkCapability.GetACCCSFB S1UENetworkCapability.SetACCCSFB 4 5 1;
   MkField "S1UENetworkCapability" "LPP" true S1UENetworkCapability.GetLPP S1UENetworkCapability.SetLPP 4 4 1;
   MkField "S1UENetworkCapability" "LCS" true S1UENetworkCapability.GetLCS S1UENetworkCapability.SetLCS 4 3 1;
   MkField "S1UENetworkCapability" "xSRVCC" true S1UENetworkCapability.GetxSRVCC S1UENetworkCapability.SetxSRVCC 4 2 1;
   MkField "S1UENetworkCapability" "NF" true S1UENetworkCapability.GetNF S1UENetworkCapability.SetNF 4 1 1;
   MkField "S1UENetworkCapability" "EPCO" true S1UENetworkCapability.GetEPCO S1UENetworkCapability.SetEPCO 5 8 1;
   MkField "S1UENetworkCapability" "HCCPCIOT" true S1UENetworkCapability.GetHCCPCIOT S1UENetworkCapability.SetHCCPCIOT 5 7 1;
   MkField "S1UENetworkCapability" "ERwoPDN" true S1UENetworkCapability.GetERwoPDN S1UENetworkCapability.SetERwoPDN 5 6 1;
   MkField "S1UENetworkCapability" "S1UData" true S1UENetworkCapability.GetS1UData S1UENetworkCapability.SetS1UData 5 5 1;
   MkField "S1UENetworkCapability" "UPCIot" true S1UENetworkCapability.GetUPCIot S1UENetworkCapability.SetUPCIot 5 4 1;
   MkField "S1UENetworkCapability" "CPCIot" true S1UENetworkCapability.GetCPCIot S1UENetworkCapability.SetCPCIot 5 3 1;
   MkField "S1UENetworkCapability" "Proserelay" true S1UENetworkCapability.GetProserelay S1UENetworkCapability.SetProserelay 5 2 1;
   MkField "S1UENetworkCapability" "ProSedc" true S1UENetworkCapability.GetProSedc S1UENetworkCapability.SetProSedc 5 1 1;
   MkField "S1UENetworkCapability" "Bearer15" true S1UENetworkCapability.GetBearer15 S1UENetworkCapability.SetBearer15 6 8 1;
   MkField "S1UENetworkCapability" "SGC" true S1UENetworkCapability.GetSGC S1UENetworkCapability.SetSGC 6 7 1;
   MkField "S1UENetworkCapability" "N1mode" true S1UENetworkCapability.GetN1mode S1UENetworkCapability.SetN1mode 6 6 1;
   MkField "S1UENetworkCapability" "DCNR" true S1UENetworkCapability.GetDCNR S1UENetworkCapability.SetDCNR 6 5 1;
   MkField "S1UENetworkCapability" "CPbackoff" true S1UENetworkCapability.GetCPbackoff S1UENetworkCapability.SetCPbackoff 6 4 1;
   MkField "S1UENetworkCapability" "RestrictEC" true S1UENetworkCapability.GetRestrictEC S1UENetworkCapability.SetRestrictEC 6 3 1;
   MkField "S1UENetworkCapability" "V2XPC5" true S1UENetworkCapability.GetV2XPC5 S1UENetworkCapability.SetV2XPC5 6 2 1;
   MkField "S1UENetworkCapability" "MulitpeDRB" true S1UENetworkCapability.GetMulitpeDRB S1UENetworkCapability.SetMulitpeDRB 6 1 1;
   single "SMSIndication" "Iei" SMSIndication.GetIei SMSIndication.SetIei 8 4;
   single "SMSIndication" "SAI" SMSIndication.GetSAI SMSIndication.SetSAI 1 1;
   MkField "SNSSAI" "SST" true SNSSAI.GetSST SNSSAI.SetSST 0 8 8;
   MkField "SNSSAI" "MappedHPLMNSST" true SNSSAI.GetMappedHPLMNSST SNSSAI.SetMappedHPLMNSST 4 8 8;
   single "SSCMode" "Iei" SSCMode.GetIei SSCMode.SetIei 8 4;
   single "SSCMode" "Spare" SSCMode.GetSpare SSCMode.SetSpare 4 1;
   single "SSCMode" "SSCMode" SSCMode.GetSSCMode SSCMode.SetSSCMode 3 3;
   single "STATUSMessageIdentity5GMM" "MessageType" STATUSMessageIdentity5GMM.GetMessageType STATUSMessageIdentity5GMM.SetMessageType 8 8;
   single "STATUSMessageIdentity5GSM" "MessageType" STATUSMessageIdentity5GSM.GetMessageType STATUSMessageIdentity5GSM.SetMessageType 8 8;
   single "SecurityModeCommandMessageIdentity" "MessageType" SecurityModeCommandMessageIdentity.GetMessageType SecurityModeCommandMessageIdentity.SetMessageType 8 8;
   single "SecurityModeCompleteMessageIdentity" "MessageType" SecurityModeCompleteMessageIdentity.GetMessageType SecurityModeCompleteMessageIdentity.SetMessageType 8 8;
   single "SecurityModeRejectMessageIdentity" "MessageType" SecurityModeRejectMessageIdentity.GetMessageType SecurityModeRejectMessageIdentity.SetMessageType 8 8;
   single "SelectedEPSNASSecurityAlgorithms" "TypeOfCipheringAlgorithm" SelectedEPSNASSecurityAlgorithms.GetTypeOfCipheringAlgorithm SelectedEPSNASSecurityAlgorithms.SetTypeOfCipheringAlgorithm 7 3;
   single "SelectedEPSNASSecurityAlgorithms" "TypeOfIntegrityProtectionAlgorithm" SelectedEPSNASSecurityAlgorithms.GetTypeOfIntegrityProtectionAlgorithm SelectedEPSNASSecurityAlgorithms.SetTypeOfIntegrityProtectionAlgorithm 3 3;
   single "SelectedNASSecurityAlgorithms" "TypeOfCipheringAlgorithm" SelectedNASSecurityAlgorithms.GetTypeOfCipheringAlgorithm SelectedNASSecurityAlgorithms.SetTypeOfCipheringAlgorithm 8 4;
   single "SelectedNASSecurityAlgorithms" "TypeOfIntegrityProtectionAlgorithm" SelectedNASSecurityAlgorithms.GetTypeOfIntegrityProtectionAlgorithm SelectedNASSecurityAlgorithms.SetTypeOfIntegrityProtectionAlgorithm 4 4;
   single "SelectedSSCModeAndSelectedPDUSessionType" "SSCMode" SelectedSSCModeAndSelectedPDUSessionType.GetSSCMode SelectedSSCModeAndSelectedPDUSessionType.SetSSCMode 7 3;
   single "SelectedSSCModeAndSelectedPDUSessionType" "PDUSessionType" SelectedSSCModeAndSelectedPDUSessionType.GetPDUSessionType SelectedSSCModeAndSelectedPDUSessionType.SetPDUSessionType 3 3;
   single "SequenceNumber" "SQN" SequenceNumber.GetSQN SequenceNumber.SetSQN 8 8;
   single "ServiceAcceptMessageIdentity" "MessageType" ServiceAcceptMessageIdentity.GetMessageType ServiceAcceptMessageIdentity.SetMessageType 8 8;
   single "ServiceRejectMessageIdentity" "MessageType" ServiceRejectMessageIdentity.GetMessageType ServiceRejectMessageIdentity.SetMessageType 8 8;
   single "ServiceRequestMessageIdentity" "MessageType" ServiceRequestMessageIdentity.GetMessageType ServiceRequestMessageIdentity.SetMessageType 8 8;
   single "ServiceTypeAndNgksi" "ServiceTypeValue" ServiceTypeAndNgksi.GetServiceTypeValue ServiceTypeAndNgksi.SetServiceTypeValue 8 4;
   single "ServiceTypeAndNgksi" "TSC" ServiceTypeAndNgksi.GetTSC ServiceTypeAndNgksi.SetTSC 4 1;
   single "ServiceTypeAndNgksi" "NasKeySetIdentifiler" ServiceTypeAndNgksi.GetNasKeySetIdentifiler ServiceTypeAndNgksi.SetNasKeySetIdentifiler 3 3;
   MkField "SessionAMBR" "UnitForSessionAMBRForDownlink" true SessionAMBR.GetUnitForSessionAMBRForDownlink SessionAMBR.SetUnitForSessionAMBRForDownlink 0 8 8;
   MkField "SessionAMBR" "UnitForSessionAMBRForUplink" true SessionAMBR.GetUnitForSessionAMBRForUplink SessionAMBR.SetUnitForSessionAMBRForUplink 3 8 8;
   MkField "ShortNameForNetwork" "Ext" true ShortNameForNetwork.GetExt ShortNameForNetwork.SetExt 0 8 1;
   MkField "ShortNameForNetwork" "CodingScheme" true ShortNameForNetwork.GetCodingScheme ShortNameForNetwork.SetCodingScheme 0 7 3;
   MkField "ShortNameForNetwork" "AddCI" true ShortNameForNetwork.GetAddCI ShortNameForNetwork.SetAddCI 0 4 1;
   MkField "ShortNameForNetwork" "NumberOfSpareBitsInLastOctet" true ShortNameForNetwork.GetNumberOfSpareBitsInLastOctet ShortNameForNetwork.SetNumberOfSpareBitsInLastOctet 0 3 3;
   single "SpareHalfOctetAndAccessType" "AccessType" SpareHalfOctetAndAccessType.GetAccessType SpareHalfOctetAndAccessType.SetAccessType 2 2;
   single "SpareHalfOctetAndDeregistrationType" "SwitchOff" SpareHalfOctetAndDeregistrationType.GetSwitchOff SpareHalfOctetAndDeregistrationType.SetSwitchOff 4 1;
   single "SpareHalfOctetAndDeregistrationType" "ReRegistrationRequired" SpareHalfOctetAndDeregistrationType.GetReRegistrationRequired SpareHalfOctetAndDeregistrationType.SetReRegistrationRequired 3 1;
   single "SpareHalfOctetAndDeregistrationType" "AccessType" SpareHalfOctetAndDeregistrationType.GetAccessType SpareHalfOctetAndDeregistrationType.SetAccessType 2 2;
   single "SpareHalfOctetAndIdentityType" "TypeOfIdentity" SpareHalfOctetAndIdentityType.GetTypeOfIdentity SpareHalfOctetAndIdentityType.SetTypeOfIdentity 3 3;
   single "SpareHalfOctetAndNgksi" "SpareHalfOctet" SpareHalfOctetAndNgksi.GetSpareHalfOctet SpareHalfOctetAndNgksi.SetSpareHalfOctet 8 4;
   single "SpareHalfOctetAndNgksi" "TSC" SpareHalfOctetAndNgksi.GetTSC SpareHalfOctetAndNgksi.SetTSC 4 1;
   single "SpareHalfOctetAndNgksi" "NasKeySetIdentifiler" SpareHalfOctetAndNgksi.GetNasKeySetIdentifiler SpareHalfOctetAndNgksi.SetNasKeySetIdentifiler 3 3;
   single "SpareHalfOctetAndPayloadContainerType" "PayloadContainerType" SpareHalfOctetAndPayloadContainerType.GetPayloadContainerType SpareHalfOctetAndPayloadContainerType.SetPayloadContainerType 4 4;
   single "SpareHalfOctetAndSecurityHeaderType" "SpareHalfOctet" SpareHalfOctetAndSecurityHeaderType.GetSpareHalfOctet SpareHalfOctetAndSecurityHeaderType.SetSpareHalfOctet 8 4;
   single "SpareHalfOctetAndSecurityHeaderType" "SecurityHeaderType" SpareHalfOctetAndSecurityHeaderType.GetSecurityHeaderType SpareHalfOctetAndSecurityHeaderType.SetSecurityHeaderType 4 4;
   single "T3346Value" "GPRSTimer2Value" T3346Value.GetGPRSTimer2Value T3346Value.SetGPRSTimer2Value 8 8;
   single "T3502Value" "GPRSTimer2Value" T3502Value.GetGPRSTimer2Value T3502Value.SetGPRSTimer2Value 8 8;
   single "T3512Value" "Unit" T3512Value.GetUnit T3512Value.SetUnit 8 3;
   single "T3512Value" "TimerValue" T3512Value.GetTimerValue T3512Value.SetTimerValue 5 5;
   MkField "TMSI5GS" "Spare" true TMSI5GS.GetSpare TMSI5GS.SetSpare 0 4 1;
   MkField "TMSI5GS" "TypeOfIdentity" true TMSI5GS.GetTypeOfIdentity TMSI5GS.SetTypeOfIdentity 0 3 3;
   MkField "TMSI5GS" "AMFPointer" true TMSI5GS.GetAMFPointer TMSI5GS.SetAMFPointer 2 6 6;
   MkField "UESecurityCapability" "EA0_5G" true UESecurityCapability.GetEA0_5G UESecurityCapability.SetEA0_5G 0 8 1;
   MkField "UESecurityCapability" "EA1_128_5G" true UESecurityCapability.GetEA1_128_5G UESecurityCapability.SetEA1_128_5G 0 7 1;
   MkField "UESecurityCapability" "EA2_128_5G" true UESecurityCapability.GetEA2_128_5G UESecurityCapability.SetEA2_128_5G 0 6 1;
   MkField "UESecurityCapability" "EA3_128_5G" true UESecurityCapability.GetEA3_128_5G UESecurityCapability.SetEA3_128_5G 0 5 1;
   MkField "UESecurityCapability" "EA4_5G" true UESecurityCapability.GetEA4_5G UESecurityCapability.SetEA4_5G 0 4 1;
   MkField "UESecurityCapability" "EA5_5G" true UESecurityCapability.GetEA5_5G UESecurityCapability.SetEA5_5G 0 3 1;
   MkField "UESecurityCapability" "EA6_5G" true UESecurityCapability.GetEA6_5G UESecurityCapability.SetEA6_5G 0 2 1;
   MkField "UESecurityCapability" "EA7_5G" true UESecurityCapability.GetEA7_5G UESecurityCapability.SetEA7_5G 0 1 1;
   MkField "UESecurityCapability" "IA0_5G" true UESecurityCapability.GetIA0_5G UESecurityCapability.SetIA0_5G 1 8 1;
   MkField "UESecurityCapability" "IA1_128_5G" true UESecurityCapability.GetIA1_128_5G UESecurityCapability.SetIA1_128_5G 1 7 1;
   MkField "UESecurityCapability" "IA2_128_5G" true UESecurityCapability.GetIA2_128_5G UESecurityCapability.SetIA2_128_5G 1 6 1;
   MkField "UESecurityCapability" "IA3_128_5G" true UESecurityCapability.GetIA3_128_5G UESecurityCapability.SetIA3_128_5G 1 5 1;
   MkField "UESecurityCapability" "IA4_5G" true UESecurityCapability.GetIA4_5G UESecurityCapability.SetIA4_5G 1 4 1;
   MkField "UESecurityCapability" "IA5_5G" true UESecurityCapability.GetIA5_5G UESecurityCapability.SetIA5_5G 1 3 1;
   MkField "UESecurityCapability" "IA6_5G" true UESecurityCapability.GetIA6_5G UESecurityCapability.SetIA6_5G 1 2 1;
   MkField "UESecurityCapability" "IA7_5G" true UESecurityCapability.GetIA7_5G UESecurityCapability.SetIA7_5G 1 1 1;
   MkField "UESecurityCapability" "EEA0" true UESecurityCapability.GetEEA0 UESecurityCapability.SetEEA0 2 8 1;
   MkField "UESecurityCapability" "EEA1_128" true UESecurityCapability.GetEEA1_128 UESecurityCapability.SetEEA1_128 2 7 1;
   MkField "UESecurityCapability" "EEA2_128" true UESecurityCapability.GetEEA2_128 UESecurityCapability.SetEEA2_128 2 6 1;
   MkField "UESecurityCapability" "EEA3_128" true UESecurityCapability.GetEEA3_128 UESecurityCapability.SetEEA3_128 2 5 1;
   MkField "UESecurityCapability" "EEA4" true UESecurityCapability.GetEEA4 UESecurityCapability.SetEEA4 2 4 1;
   MkField "UESecurityCapability" "EEA5" true UESecurityCapability.GetEEA5 UESecurityCapability.SetEEA5 2 3 1;
   MkField "UESecurityCapability" "EEA6" true UESecurityCapability.GetEEA6 UESecurityCapability.SetEEA6 2 2 1;
   MkField "UESecurityCapability" "EEA7" true UESecurityCapability.GetEEA7 UESecurityCapability.SetEEA7 2 1 1;
   MkField "UESecurityCapability" "EIA0" true UESecurityCapability.GetEIA0 UESecurityCapability.SetEIA0 3 8 1;
   MkField "UESecurityCapability" "EIA1_128" true UESecurityCapability.GetEIA1_128 UESecurityCapability.SetEIA1_128 3 7 1;
   MkField "UESecurityCapability" "EIA2_128" true UESecurityCapability.GetEIA2_128 UESecurityCapability.SetEIA2_128 3 6 1;
   MkField "UESecurityCapability" "EIA3_128" true UESecurityCapability.GetEIA3_128 UESecurityCapability.SetEIA3_128 3 5 1;
   MkField "UESecurityCapability" "EIA4" true UESecurityCapability.GetEIA4 UESecurityCapability.SetEIA4 3 4 1;
   MkField "UESecurityCapability" "EIA5" true UESecurityCapability.GetEIA5 UESecurityCapability.SetEIA5 3 3 1;
   MkField "UESecurityCapability" "EIA6" true UESecurityCapability.GetEIA6 UESecurityCapability.SetEIA6 3 2 1;
   MkField "UESecurityCapability" "EIA7" true UESecurityCapability.GetEIA7 UESecurityCapability.SetEIA7 3 1 1;
   single "UEStatus" "N1ModeReg" UEStatus.GetN1ModeReg UEStatus.SetN1ModeReg 2 1;
   single "UEStatus" "S1ModeReg" UEStatus.GetS1ModeReg UEStatus.SetS1ModeReg 1 1;
   single "ULNASTRANSPORTMessageIdentity" "MessageType" ULNASTRANSPORTMessageIdentity.GetMessageType ULNASTRANSPORTMessageIdentity.SetMessageType 8 8;
   single "UesUsageSetting" "UesUsageSetting" UesUsageSetting.GetUesUsageSetting UesUsageSetting.SetUesUsageSetting 1 1;
   MkField "UniversalTimeAndLocalTimeZone" "Year" true UniversalTimeAndLocalTimeZone.GetYear UniversalTimeAndLocalTimeZone.SetYear 0 8 8;
   MkField "UniversalTimeAndLocalTimeZone" "Month" true UniversalTimeAndLocalTimeZone.GetMonth UniversalTimeAndLocalTimeZone.SetMonth 1 8 8;
   MkField "UniversalTimeAndLocalTimeZone" "Day" true UniversalTimeAndLocalTimeZone.GetDay UniversalTimeAndLocalTimeZone.SetDay 2 8 8;
   MkField "UniversalTimeAndLocalTimeZone" "Hour" true UniversalTimeAndLocalTimeZone.GetHour UniversalTimeAndLocalTimeZone.SetHour 3 8 8;
   MkField "UniversalTimeAndLocalTimeZone" "Minute" true UniversalTimeAndLocalTimeZone.GetMinute UniversalTimeAndLocalTimeZone.SetMinute 4 8 8;
   MkField "UniversalTimeAndLocalTimeZone" "Second" true UniversalTimeAndLocalTimeZone.GetSecond UniversalTimeAndLocalTimeZone.SetSecond 5 8 8;
   MkField "UniversalTimeAndLocalTimeZone" "TimeZone" true UniversalTimeAndLocalTimeZone.GetTimeZone UniversalTimeAndLocalTimeZone.SetTimeZone 6 8 8;
   single "UpdateType5GS" "NGRanRcu" UpdateType5GS.GetNGRanRcu UpdateType5GS.SetNGRanRcu 2 1;
   single "UpdateType5GS" "SMSRequested" UpdateType5GS.GetSMSRequested UpdateType5GS.SetSMSRequested 1 1;
   MkField "UplinkDataStatus" "PSI7" true UplinkDataStatus.GetPSI7 UplinkDataStatus.SetPSI7 0 8 1;
   MkField "UplinkDataStatus" "PSI6" true UplinkDataStatus.GetPSI6 UplinkDataStatus.SetPSI6 0 7 1;
   MkField "UplinkDataStatus" "PSI5" true UplinkDataStatus.GetPSI5 UplinkDataStatus.SetPSI5 0 6 1;
   MkField "UplinkDataStatus" "PSI4" true UplinkDataStatus.GetPSI4 UplinkDataStatus.SetPSI4 0 5 1;
   MkField "UplinkDataStatus" "PSI3" true UplinkDataStatus.GetPSI3 UplinkDataStatus.SetPSI3 0 4 1;
   MkField "UplinkDataStatus" "PSI2" true UplinkDataStatus.GetPSI2 UplinkDataStatus.SetPSI2 0 3 1;
   MkField "UplinkDataStatus" "PSI1" true UplinkDataStatus.GetPSI1 UplinkDataStatus.SetPSI1 0 2 1;
   MkField "UplinkDataStatus" "PSI0" true UplinkDataStatus.GetPSI0 UplinkDataStatus.SetPSI0 0 1 1;
   MkField "UplinkDataStatus" "PSI15" true UplinkDataStatus.GetPSI15 UplinkDataStatus.SetPSI15 1 8 1;
   MkField "UplinkDataStatus" "PSI14" true UplinkDataStatus.GetPSI14 UplinkDataStatus.SetPSI14 1 7 1;
   MkField "UplinkDataStatus" "PSI13" true UplinkDataStatus.GetPSI13 UplinkDataStatus.SetPSI13 1 6 1;
   MkField "UplinkDataStatus" "PSI12" true UplinkDataStatus.GetPSI12 UplinkDataStatus.SetPSI12 1 5 1;
   MkField "UplinkDataStatus" "PSI11" true UplinkDataStatus.GetPSI11 UplinkDataStatus.SetPSI11 1 4 1;
   MkField "UplinkDataStatus" "PSI10" true UplinkDataStatus.GetPSI10 UplinkDataStatus.SetPSI10 1 3 1;
   MkField "UplinkDataStatus" "PSI9" true UplinkDataStatus.GetPSI9 UplinkDataStatus.SetPSI9 1 2 1;
   MkField "UplinkDataStatus" "PSI8" true UplinkDataStatus.GetPSI8 UplinkDataStatus.SetPSI8 1 1 1].





(** ** What an accessor should do *)

Definition with_row (f : field) (x : Z) (a : IE) : IE := with_Octet (<[f_row f := x]> (Octet a)) a.

Definition field_ok (f : field) : Prop := ∀ a v, (f_array f = false → length (Octet a) = 1%nat) →
  bytes_ok (Octet a) → in_width 8 v →
  match Octet a !! f_row f with
  | Some x => f_get f a = Ret (field_of (f_lo f) (f_len f) x) ∧
      ∃ x', f_set f v a = Ret (with_row f x' a) ∧ field_put (f_lo f) (f_len f) v x x'
  | None => f_get f a = Panic ∧ f_set f v a = Panic
  end.

Definition range_ok (r : range_field) : Prop := ∀ a v, blen v = r_last r + 1 - r_first r →
  if blen (Octet a) <=? r_last r then r_get r a = Panic ∧ r_set r v a = Panic
  else ∃ before old after, Octet a = before ++ old ++ after ∧ blen before = r_first r ∧ blen old = blen v ∧
    r_get r a = Ret old ∧ r_set r v a = Ret (with_Octet (before ++ v ++ after) a).
Definition rest_ok (t : rest_field) : Prop := ∀ a v,
  if blen (Octet a) <? t_first t then t_get t a = Panic ∧ t_set t v a = Panic
  else ∃ before old, Octet a = before ++ old ∧ blen before = t_first t ∧ t_get t a = Ret old ∧
    t_set t v a = Ret (with_Octet (before ++ gocopy old v) a).
(** As documented: the eight upper bits in one octet, the two lower ones in
    bits 8 and 7 of the next, and no other bit is changed. *)
Definition ten_ok (w : ten_field) : Prop := ∀ a v x y, bytes_ok (Octet a) → in_width 16 v →
  Octet a !! w_high w = Some x → Octet a !! w_low w = Some y →
  w_get w a = Ret (x * 4 + y / 64) ∧
  ∃ y', w_set w v a = Ret (with_Octet (<[w_low w := y']> (<[w_high w := v / 4 mod 256]> (Octet a))) a) ∧ field_put 6 2 v y y'.
(** As programmed: bits 6 to 1 of the second octet, which belong to another
    field or are spare, are cleared. *)
Definition ten_clears (w : ten_field) : Prop := ∀ a v, bytes_ok (Octet a) → in_width 16 v →
  match Octet a !! w_high w, Octet a !! w_low w with
  | Some x, Some y => w_get w a = Ret (x * 4 + y / 64) ∧
      w_set w v a = Ret (with_Octet (<[w_low w := v mod 4 * 64]> (<[w_high w := v / 4 mod 256]> (Octet a))) a)
  | _, _ => w_get w a = Panic ∧ w_set w v a = Panic
  end.
Definition buffer_ok (b : buffer_field) : Prop := ∀ a v,
  b_get b (b_set b v (b_make b (blen v) a)) = v ∧ Len (b_make b (blen v) a) = blen v ∧
  length (b_get b (b_set b v a)) = length (Octet a).

(** ** The accessors of each form *)

Lemma rd_nat {A} (l : list A) i : 0 ≤ i → rd l i = match l !! Z.to_nat i with Some x => Ret x | None => Panic end.
Proof. intros Hi. unfold rd. by rewrite (proj2 (Z.ltb_ge i 0)) by lia. Qed.

Lemma set_at_in a i v x : 0 ≤ i → Octet a !! Z.to_nat i = Some x → set_at i v a = Ret (with_Octet (<[Z.to_nat i := v]> (Octet a)) a).
Proof.
  intros Hi E. unfold set_at, wr. apply lookup_lt_Some in E. unfold blen.
  rewrite (proj2 (Z.ltb_ge i 0)), (proj2 (Z.leb_gt (Z.of_nat (length (Octet a))) i)) by lia. done.
Qed.
Lemma set_at_out a i v : 0 ≤ i → Octet a !! Z.to_nat i = None → set_at i v a = Panic.
Proof.
  intros Hi E. unfold set_at, wr. apply lookup_ge_None in E. unfold blen.
  rewrite (proj2 (Z.ltb_ge i 0)), (proj2 (Z.leb_le (Z.of_nat (length (Octet a))) i)) by lia. done.
Qed.

(** A whole octet is a field of eight bits. *)
Lemma field_of_octet x : in_width 8 x → field_of 0 8 x = x.
Proof. intros Hx. unfold field_of. rewrite Z.shiftr_0_r. by apply Z.mod_small. Qed.
Lemma field_put_octet v x : in_width 8 v → in_width 8 x → field_put 0 8 v x v.
Proof.
  intros Hv Hx. split; [exact Hv|]. intros i Hi. rewrite (proj2 (Z.leb_le 0 i)) by lia. cbn [andb]. rewrite Z.sub_0_r.
  destruct (Z.ltb_spec i (0 + 8)); [done|]. rewrite (testbit_above 8 v i), (testbit_above 8 x i) by (done || lia). done.
Qed.

Lemma single_bits_ok t n ub lb sh keep mask sh' sBit len :
  reads_bits (sBit - len) len ub lb sh = true → writes_bits (sBit - len) len keep mask sh' = true →
  field_ok (single t n (get_bits ub lb sh) (set_bits keep mask sh') sBit len).
Proof.
  intros Hr Hw a v Hs Hb Hv. destruct a as [i l [|x [|]]]; try by specialize (Hs eq_refl). cbn.
  assert (in_width 8 x) as Hx by (by inversion Hb). pose proof Hx as [Hx0 _]. pose proof Hv as [Hv0 _].
  split; [f_equal; exact (bits_field _ _ ub lb sh x Hr Hx0)|]. eexists. split; [reflexivity|]. by apply put_bits_field.
Qed.
Lemma single_octet_ok t n : field_ok (single t n octet set_octet 8 8).
Proof.
  intros a v Hs Hb Hv. destruct a as [i l [|x [|]]]; try by specialize (Hs eq_refl). cbn.
  assert (in_width 8 x) as Hx by (by inversion Hb). change (f_lo _) with 0.
  split; [by rewrite field_of_octet|]. exists v. split; [done|]. by apply field_put_octet.
Qed.
Lemma at_bits_ok t n i ub lb sh keep mask sh' row sBit len : 0 ≤ i → row = Z.to_nat i →
  reads_bits (sBit - len) len ub lb sh = true → writes_bits (sBit - len) len keep mask sh' = true →
  field_ok (MkField t n true (get_bits_at i ub lb sh) (set_bits_at i keep mask sh') row sBit len).
Proof.
  intros Hi -> Hr Hw a v _ Hb Hv. cbn [f_row f_get f_set f_len]. unfold get_bits_at, set_bits_at. rewrite rd_nat by done.
  destruct (Octet a !! Z.to_nat i) as [x|] eqn:E; [|done]. cbn [mbind outcome_mbind].
  assert (in_width 8 x) as Hx by (by eapply Forall_lookup_1). pose proof Hx as [Hx0 _]. pose proof Hv as [Hv0 _].
  split; [f_equal; exact (bits_field _ _ ub lb sh x Hr Hx0)|]. eexists. split; [by erewrite set_at_in|]. by apply put_bits_field.
Qed.
Lemma at_octet_ok t n i row : 0 ≤ i → row = Z.to_nat i → field_ok (MkField t n true (get_at i) (set_at i) row 8 8).
Proof.
  intros Hi -> a v _ Hb Hv. cbn [f_row f_get f_set f_len]. change (f_lo _) with 0. unfold get_at. rewrite rd_nat by done.
  destruct (Octet a !! Z.to_nat i) as [x|] eqn:E; [|split; [done|by apply set_at_out]].
  assert (in_width 8 x) as Hx by (by eapply Forall_lookup_1). split; [by rewrite field_of_octet|].
  exists v. split; [by erewrite set_at_in|]. by apply field_put_octet.
Qed.

(** *** Ranges *)

Lemma slice_parts (l : list Z) lo hi : 0 ≤ lo → lo ≤ hi → hi ≤ blen l →
  ∃ before old after, l = before ++ old ++ after ∧ blen before = lo ∧ blen old = hi - lo ∧ slice l lo hi = Ret old ∧
    take (Z.to_nat lo) l = before ∧ drop (Z.to_nat hi) l = after.
Proof.
  intros H0 H1 H2. exists (take (Z.to_nat lo) l), (take (Z.to_nat (hi - lo)) (drop (Z.to_nat lo) l)), (drop (Z.to_nat hi) l).
  unfold blen in *. unfold slice. unfold blen. rewrite (proj2 (Z.ltb_ge lo 0)), (proj2 (Z.ltb_ge hi lo)), (proj2 (Z.ltb_ge _ hi)) by lia.
  split_and!; try done.
  - rewrite <- (take_drop (Z.to_nat lo) l) at 1. f_equal. rewrite <- (take_drop (Z.to_nat (hi - lo)) (drop (Z.to_nat lo) l)) at 1.
    f_equal. rewrite drop_drop. f_equal. lia.
  - rewrite length_take. lia.
  - rewrite length_take, length_drop. lia.
Qed.
Lemma slice_out (l : list Z) lo hi : blen l < hi → slice l lo hi = Panic.
Proof. intros Hl. unfold slice. rewrite (proj2 (Z.ltb_lt (blen l) hi)) by done. by rewrite orb_true_r. Qed.
Lemma gocopy_full {A} (d s : list A) : length d = length s → gocopy d s = s.
Proof. intros E. unfold gocopy. rewrite take_ge, drop_ge by lia. apply app_nil_r. Qed.

Lemma range_accessors_ok t n lo hi first last : first = lo → last = hi - 1 → 0 ≤ lo → lo < hi →
  range_ok (MkRange t n (get_range lo hi) (set_range lo hi) first last).
Proof.
  intros -> -> H0 H1 a v Hv. cbn [r_first r_last r_get r_set] in *. unfold get_range, set_range. destruct (Z.leb_spec (blen (Octet a)) (hi - 1)).
  - by rewrite slice_out by lia.
  - destruct (slice_parts (Octet a) lo hi) as (b&o&c&E&Eb&Eo&->&->&->); [lia..|]. exists b, o, c.
    split_and!; [done|done|lia|done|]. cbn [mbind outcome_mbind]. rewrite gocopy_full; [done|]. unfold blen in *. lia.
Qed.
Lemma rest_accessors_ok t n lo first : first = lo → 0 ≤ lo → rest_ok (MkRest t n (get_rest lo) (set_rest lo) first).
Proof.
  intros -> H0 a v. cbn [t_first t_get t_set]. unfold get_rest, set_rest, set_range. destruct (Z.ltb_spec (blen (Octet a)) lo).
  - unfold slice. rewrite (proj2 (Z.ltb_lt (blen (Octet a)) lo)) by lia. rewrite orb_true_r. done.
  - destruct (slice_parts (Octet a) lo (blen (Octet a))) as (b&o&c&E&Eb&Eo&->&->&Ec); [lia..|]. exists b, o.
    assert (drop (Z.to_nat (blen (Octet a))) (Octet a) = []) as Ed by (apply drop_ge; unfold blen; lia).
    assert (c = []) as -> by congruence. rewrite app_nil_r in E. split_and!; [done..|]. cbn [mbind outcome_mbind].
    by rewrite Ed, app_nil_r.
Qed.

(** *** Ten bits and buffers *)

Lemma ten_value x y : in_width 8 x → in_width 8 y → u16 (u16 (x ≪ 2) + ((y & GetBitMask 8 2) ≫ 6)) = x * 4 + y / 64.
Proof.
  intros Hx Hy. unfold in_width in *. change (GetBitMask 8 2) with 252. rewrite Z.shiftr_land. change (252 ≫ 6) with (Z.ones 2).
  rewrite Z.land_ones, Z.shiftr_div_pow2, Z.shiftl_mul_pow2 by lia. change (2 ^ 6) with 64. change (2 ^ 2) with 4.
  assert (0 ≤ y / 64 < 4) by (split; [apply Z.div_pos; lia|apply Z.div_lt_upper_bound; lia]).
  rewrite (Z.mod_small (y / 64)) by lia. rewrite (wrap_small 16 (x * 4)) by (unfold in_width; lia). apply wrap_small. unfold in_width. lia.
Qed.
Lemma ten_low v y : in_width 16 v → u8 ((y & GetBitMask 6 6) + u8 (u8 (v & 3) ≪ 6)) = v mod 4 * 64.
Proof.
  intros Hv. change (GetBitMask 6 6) with 0. rewrite Z.land_0_r. change 3 with (Z.ones 2). rewrite Z.land_ones by lia.
  pose proof (Z.mod_pos_bound v (2 ^ 2)). rewrite (wrap_small 8 (v mod 2 ^ 2)) by (unfold in_width; lia). rewrite Z.shiftl_mul_pow2 by lia.
  change (2 ^ 6) with 64. change (2 ^ 2) with 4 in *. rewrite (wrap_small 8 (v mod 4 * 64)) by (unfold in_width; lia).
  apply wrap_small. unfold in_width. lia.
Qed.
Lemma ten_high v : in_width 16 v → u8 (v ≫ 2) & 255 = v / 4 mod 256.
Proof.
  intros Hv. change 255 with (Z.ones 8). rewrite Z.land_ones, Z.shiftr_div_pow2 by lia. unfold u8, wrap. by rewrite Z.mod_mod by lia.
Qed.

Lemma ten_accessors_clear t n i j hi lo : 0 ≤ i → i < j → hi = Z.to_nat i → lo = Z.to_nat j →
  ten_clears (MkTen t n (get_ten_bits i j) (set_ten_bits i j) hi lo).
Proof.
  intros Hi Hj -> -> a v Hb Hv. cbn [w_high w_low w_get w_set]. unfold get_ten_bits, set_ten_bits. rewrite !rd_nat by lia.
  destruct (Octet a !! Z.to_nat i) as [x|] eqn:Ex; [|split; [done|by rewrite set_at_out]].
  rewrite (set_at_in a i _ x) by done. cbn [mbind outcome_mbind Octet with_Octet]. rewrite rd_nat by lia.
  rewrite list_lookup_insert_ne by lia. destruct (Octet a !! Z.to_nat j) as [y|] eqn:Ey; [|done]. cbn [mbind outcome_mbind].
  split; [f_equal; apply ten_value; by eapply Forall_lookup_1|].
  rewrite (set_at_in _ j _ y); [|lia|cbn [Octet with_Octet]; by rewrite list_lookup_insert_ne by lia].
  by rewrite ten_low, ten_high.
Qed.

(** An octet of ones before and where the field lies shows the difference. *)
Lemma clears_not_ok w : w_high w ≠ w_low w → ten_clears w → ¬ ten_ok w.
Proof.
  intros Hne Hc Ho. set (n := S (w_high w + w_low w)). set (a := MkIE 0 0 (replicate n 1)).
  assert (∀ k, (k < n)%nat → Octet a !! k = Some 1) as Hl by (intros k Hk; by apply lookup_replicate_2).
  assert (bytes_ok (Octet a)) as Hb by (by apply Forall_replicate).
  destruct (Ho a 0 1 1 Hb ltac:(done) (Hl (w_high w) ltac:(unfold n; lia)) (Hl (w_low w) ltac:(unfold n; lia))) as (_&y'&E&_&Hp).
  specialize (Hc a 0 Hb ltac:(done)). rewrite !Hl in Hc by (unfold n; lia). destruct Hc as [_ E'].
  specialize (Hp 0 ltac:(lia)). assert (y' = 0) as ->; [|by vm_compute in Hp].
  rewrite E' in E. injection E as El. apply (f_equal (λ l, l !! w_low w)) in El.
  rewrite !list_lookup_insert_eq in El by (rewrite length_insert; unfold a, n; cbn; rewrite length_replicate; lia). by injection El.
Qed.
Lemma buffer_accessors_ok t n : buffer_ok (MkBuffer t n make_buffer get_contents set_contents).
Proof.
  intros a v. cbn. unfold get_contents. split; [|split; [done|]].
  - apply gocopy_full. unfold zeros, blen. rewrite length_replicate. lia.
  - unfold gocopy. rewrite length_app, length_take, length_drop. lia.
Qed.

(** ** All accessors *)

Ltac accessor :=
  lazymatch goal with
  | |- field_ok (single _ _ _ _ _ _) => first [apply single_octet_ok | apply single_bits_ok; reflexivity]
  | |- field_ok (MkField _ _ _ _ _ _ _ _) => first [apply at_octet_ok; [lia|reflexivity] | apply at_bits_ok; [lia|reflexivity..]]
  | |- range_ok _ => apply range_accessors_ok; (lia || reflexivity)
  | |- rest_ok _ => apply rest_accessors_ok; (lia || reflexivity)
  | |- _ ∧ ¬ _ => split; [|apply clears_not_ok; [cbn; lia|]]; (apply ten_accessors_clear; (lia || reflexivity))
  | |- buffer_ok _ => apply buffer_accessors_ok
  end.
Ltac accessors := repeat (apply Forall_cons_2; [accessor|]); apply Forall_nil_2.

Lemma fields_ok : Forall field_ok fields.
Proof. unfold fields. accessors. Qed.




Definition apart (f g : field) : bool :=
  negb (f_row f =? f_row g)%nat || (f_lo f + f_len f <=? f_lo g) || (f_lo g + f_len g <=? f_lo f).
Definition proper (f : field) : bool := (0 <=? f_lo f) && (0 <? f_len f).
Definition independent (f g : field) : bool :=
  negb (f_type f =? f_type g)%string || (f_name f =? f_name g)%string || apart f g.

Lemma all_independent : forallb (λ f, proper f && forallb (independent f) fields) fields = true.
Proof. vm_compute. reflexivity. Qed.

Lemma pair_independent f g : f ∈ fields → g ∈ fields → f_type f = f_type g → f_name f ≠ f_name g →
  0 ≤ f_lo f ∧ 0 < f_len f ∧ 0 ≤ f_lo g ∧ 0 < f_len g ∧
  (f_row f = f_row g → f_lo f + f_len f ≤ f_lo g ∨ f_lo g + f_len g ≤ f_lo f).
Proof.
  intros Hf Hg Ht Hn. pose proof all_independent as E. rewrite forallb_forall in E.
  pose proof (E f (proj1 (list_elem_of_In _ _) Hf)) as [Pf If]%andb_true_iff.
  pose proof (E g (proj1 (list_elem_of_In _ _) Hg)) as [Pg _]%andb_true_iff.
  rewrite forallb_forall in If. specialize (If g (proj1 (list_elem_of_In _ _) Hg)).
  unfold proper in Pf, Pg. rewrite andb_true_iff, Z.leb_le, Z.ltb_lt in Pf, Pg.
  unfold independent, apart in If. rewrite (proj2 (String.eqb_eq _ _) Ht), (proj2 (String.eqb_neq _ _) Hn) in If. cbn [negb orb] in If.
  rewrite !orb_true_iff, negb_true_iff, Nat.eqb_neq, !Z.leb_le in If. split_and!; lia.
Qed.

Lemma independent_fields f g a a' v : f ∈ fields → g ∈ fields → f_type f = f_type g → f_name f ≠ f_name g →
  (f_array f = false ∨ f_array g = false → length (Octet a) = 1%nat) → bytes_ok (Octet a) → in_width 8 v →
  f_set f v a = Ret a' → f_get g a' = f_get g a.
Proof.
  intros Hf Hg Ht Hn Hl Hb Hv E. destruct (pair_independent f g Hf Hg Ht Hn) as (Lf&Nf&Lg&Ng&Hd).
  pose proof (proj1 (Forall_forall _ _) fields_ok) as Hok.
  pose proof (Hok f Hf a v (λ H, Hl (or_introl H)) Hb Hv) as Of. pose proof (Hok g Hg a v (λ H, Hl (or_intror H)) Hb Hv) as Og.
  destruct (Octet a !! f_row f) as [x|] eqn:Ex; [|destruct Of; congruence].
  destruct Of as (_&x'&Es&Hp). assert (a' = with_row f x' a) as -> by congruence.
  pose proof (Hok g Hg (with_row f x' a) v) as Og'. unfold with_row in *. cbn [Octet with_Octet] in Og'.
  rewrite length_insert in Og'. specialize (Og' (λ H, Hl (or_intror H))).
  specialize (Og' (Forall_insert _ _ _ _ Hb (proj1 Hp)) Hv).
  destruct (decide (f_row f = f_row g)) as [Er|Er].
  - rewrite <- Er in Og, Og'. rewrite Ex in Og. rewrite list_lookup_insert_eq in Og' by (by eapply lookup_lt_Some).
    destruct Og as [-> _], Og' as [-> _]. f_equal. eapply field_put_other; [exact Lf|exact Nf|exact Lg|exact Ng|by apply Hd|exact Hp].
  - rewrite list_lookup_insert_ne in Og' by done. destruct (Octet a !! f_row g) as [y|]; destruct Og as [-> _], Og' as [-> _]; done.
Qed.

Lemma set_id_clears a v : bytes_ok (Octet a) → in_width 16 v → (7 ≤ length (Octet a))%nat →
  ∃ a', GUTI5G.SetAMFSetID v a = Ret a' ∧ GUTI5G.GetAMFSetID a' = Ret (v mod 2 ^ 10) ∧ GUTI5G.GetAMFPointer a' = Ret 0.
Proof.
  intros Hb Hv Hlen. destruct (lookup_lt_is_Some_2 (Octet a) 5) as [x Ex]; [lia|]. destruct (lookup_lt_is_Some_2 (Octet a) 6) as [y Ey]; [lia|].
  pose proof (ten_accessors_clear "GUTI5G" "AMFSetID" 5 6 5 6 ltac:(lia) ltac:(lia) eq_refl eq_refl) as Hc.
  pose proof (Hc a v Hb Hv) as Hs. cbn [w_high w_low w_get w_set] in Hs. rewrite Ex, Ey in Hs. destruct Hs as [_ Es].
  eexists. split; [exact Es|]. set (a' := with_Octet _ a).
  assert (Octet a' !! 5%nat = Some (v / 4 mod 256) ∧ Octet a' !! 6%nat = Some (v mod 4 * 64)) as [E5 E6].
  { unfold a'. cbn [Octet with_Octet]. rewrite list_lookup_insert_ne, !list_lookup_insert_eq by (rewrite ?length_insert; lia). done. }
  pose proof (Z.mod_pos_bound v 4). pose proof (Z.mod_pos_bound (v / 4) 256). split.
  - change (get_ten_bits 5 6 a' = Ret (v mod 2 ^ 10)). unfold get_ten_bits. rewrite !rd_nat by lia.
    change (Z.to_nat 5) with 5%nat. change (Z.to_nat 6) with 6%nat. rewrite E5, E6. cbn [mbind outcome_mbind].
    rewrite ten_value by (unfold in_width; lia). f_equal. rewrite Z.div_mul by lia. change (2 ^ 10) with (4 * 256).
    rewrite Z.rem_mul_r by lia. lia.
  - unfold GUTI5G.GetAMFPointer, get_bits_at. rewrite rd_nat by lia. change (Z.to_nat 6) with 6%nat. rewrite E6. cbn [mbind outcome_mbind]. f_equal.
    rewrite (bits_field 0 6) by (reflexivity || lia). unfold field_of.
    rewrite Z.shiftr_0_r. change (2 ^ 6) with 64. apply Z.mod_mul. lia.
Qed.

(** Fields of one element do not overlap: setting a field of at most eight
    bits leaves every other one.  The exception is the ten-bit AMF Set ID, whose
    setter clears the AMF Pointer in the octet they share. *)
Theorem nas_fields_independent :
  (∀ f g a a' v, f ∈ fields → g ∈ fields → f_type f = f_type g → f_name f ≠ f_name g →
    (f_array f = false ∨ f_array g = false → length (Octet a) = 1%nat) → bytes_ok (Octet a) → in_width 8 v →
    f_set f v a = Ret a' → f_get g a' = f_get g a) ∧
  (∀ a v, bytes_ok (Octet a) → in_width 16 v → (7 ≤ length (Octet a))%nat →
    ∃ a', GUTI5G.SetAMFSetID v a = Ret a' ∧ GUTI5G.GetAMFSetID a' = Ret (v mod 2 ^ 10) ∧ GUTI5G.GetAMFPointer a' = Ret 0).
Proof. split; [exact independent_fields|exact set_id_clears]. Qed.

Lemma nas_fields_independent_witness :
  UESecurityCapability.SetEA0_5G 1 (MkIE 0 2 [0; 0x80]) = Ret (MkIE 0 2 [0x80; 0x80]) ∧
  UESecurityCapability.GetIA0_5G (MkIE 0 2 [0x80; 0x80]) = UESecurityCapability.GetIA0_5G (MkIE 0 2 [0; 0x80]).
Proof.
  split; [reflexivity|]. destruct nas_fields_independent as [Hi _].
  apply (Hi (MkField "UESecurityCapability" "EA0_5G" true UESecurityCapability.GetEA0_5G UESecurityCapability.SetEA0_5G 0 8 1)
    (MkField "UESecurityCapability" "IA0_5G" true UESecurityCapability.GetIA0_5G UESecurityCapability.SetIA0_5G 1 8 1) _ _ 1).
  - by apply (list_elem_of_lookup_2 _ 472).
  - by apply (list_elem_of_lookup_2 _ 480).
  - reflexivity.
  - discriminate.
  - intros [E|E]; discriminate E.
  - repeat (constructor; [by vm_compute|]). constructor.
  - by vm_compute.
  - reflexivity.
Defined.
