(* ===== verification/NasConvert.v ===== *)
(** * lib/nas/nasConvert: between NAS octets and the models of the core network

    The conversions one by one: identities, PLMNs, slices, tracking areas,
    timers, network names, protocol configuration options.  The models are the
    records of lib/openapi/models with the fields the conversions use.  Loops
    that need not end have fuel; [None] is a loop that is still running. *)

From Stdlib Require Import Ascii.
From S2P Require Import Prelude GoStrings NasMessage NasAccess NasTypes.

#[local] Open Scope Z_scope.
#[local] Open Scope go_scope.

(** ** lib/openapi/models *)

Record PlmnId := MkPlmnId { Mcc : string; Mnc : string }.
Record Guami := MkGuami { g_PlmnId : PlmnId; g_AmfId : string }.
Record Snssai := MkSnssai { Sst : Z; Sd : string }.
Record Tai := MkTai { t_PlmnId : option PlmnId; Tac : string }.
Record NgKsi := MkNgKsi { Tsc : string; Ksi : Z }.
Record Ambr := MkAmbr { Uplink : string; Downlink : string }.
Record UpuData := MkUpuData { SecPacket : string; DefaultConfNssai : list Snssai }.
Record UpuInfo := MkUpuInfo {
  UpuDataList : list UpuData; UpuRegInd : bool; UpuAckInd : bool; UpuMacIausf : string; CounterUpu : string }.
(** The areas are lists of TACs. *)
Record ServiceAreaRestriction := MkRestriction { RestrictionType : string; Areas : list (list string) }.

#[export] Instance PlmnId_eq_dec : EqDecision PlmnId.
Proof. solve_decision. Defined.

(** ** Strings *)

(** [s[i]] and [s[a:b]] *)
Definition char_at (s : string) (i : nat) : outcome Ascii.ascii :=
  match String.get i s with Some c => Ret c | None => Panic end.
Definition substr (s : string) (a b : nat) : outcome string :=
  if (b <? a)%nat || (String.length s <? b)%nat then Panic else Ret (sub a b s).

(** [strconv.Atoi(string(s[i]))] without its error: a character that is no
    digit is 0. *)
Definition digit_val (c : Ascii.ascii) : Z :=
  let n := Z.of_N (Ascii.N_of_ascii c) - 48 in if (0 <=? n) && (n <=? 9) then n else 0.
Definition atoi_at (s : string) (i : nat) : outcome Z := c ← char_at s i; Ret (digit_val c).

(** [bits.RotateLeft8(b, 4)] *)
Definition swap_nibbles (b : Z) : Z := Z.lor (u8 (b ≪ 4)) (b ≫ 4).

(** ** PlmnId.go *)

Definition PlmnIDToNas (plmnID : PlmnId) : outcome (list Z) :=
  mccDigit1 ← atoi_at (Mcc plmnID) 0; mccDigit2 ← atoi_at (Mcc plmnID) 1; mccDigit3 ← atoi_at (Mcc plmnID) 2;
  mncDigit1 ← atoi_at (Mnc plmnID) 0; mncDigit2 ← atoi_at (Mnc plmnID) 1;
  mncDigit3 ← (if slen (Mnc plmnID) =? 3 then atoi_at (Mnc plmnID) 2 else Ret 0x0f);
  Ret [u8 (Z.lor (mccDigit2 ≪ 4) mccDigit1); u8 (Z.lor (mncDigit3 ≪ 4) mccDigit3); u8 (Z.lor (mncDigit2 ≪ 4) mncDigit1)].

Definition PlmnIDToString (nasBuf : list Z) : outcome string :=
  b0 ← rd nasBuf 0; b1 ← rd nasBuf 1; b2 ← rd nasBuf 2;
  let mccDigit1 := b0 & 0x0f in let mccDigit2 := (b0 & 0xf0) ≫ 4 in let mccDigit3 := b1 & 0x0f in
  let mncDigit1 := b2 & 0x0f in let mncDigit2 := (b2 & 0xf0) ≫ 4 in let mncDigit3 := (b1 & 0xf0) ≫ 4 in
  let plmnID := hex_bytes [Z.lor (u8 (mccDigit1 ≪ 4)) mccDigit2; Z.lor (u8 (mccDigit3 ≪ 4)) mncDigit1;
    Z.lor (u8 (mncDigit2 ≪ 4)) mncDigit3] in
  c ← char_at plmnID 5;
  if Ascii.eqb c "f"%char then substr plmnID 0 5 else Ret plmnID.

(** ** AmfId.go *)

Definition AmfIdToNas (amfId : string) : outcome (Z * Z * Z) :=
  let amfIdBytes := DecodeString amfId in
  b0 ← rd amfIdBytes 0; b1 ← rd amfIdBytes 1; b2 ← rd amfIdBytes 2;
  Ret (b0, u16 (u16 (b1 ≪ 2) + ((b2 & 0x00c0) ≫ 6)), b2 & 0x3f).

Definition AmfIdToModels (amfRegionId amfSetId amfPointer : Z) : string :=
  hex_bytes [amfRegionId; u8 (amfSetId ≫ 2) & 0xff; u8 (u8 (amfSetId & 0x03) + (amfPointer & 0x3f))].

(** ** MobileIdentity5GS.go *)

Definition GetTypeOfIdentity (buf : Z) : Z := buf & 0x07.

Definition NaiToString (buf : list Z) : outcome string :=
  naiBytes ← slice buf 1 (blen buf); Ret ("nai-1-" +:+ hex_bytes naiBytes).

(** [routingInd[0:strings.Index(routingInd, "f")]], all of it without an f *)
Fixpoint before_f (s : string) : string :=
  match s with
  | EmptyString => EmptyString
  | String c s => if Ascii.eqb c "f"%char then EmptyString else String c (before_f s)
  end.
(** [%x] of a byte *)
Definition hex1 (b : Z) : string := if b <? 16 then hex_digit b else hex2 b.
(** [s[len(s)-1]] and [s[:len(s)-1]] *)
Definition last_char (s : string) : outcome Ascii.ascii :=
  match String.length s with O => Panic | S n => char_at s n end.
Definition drop_last (s : string) : outcome string :=
  match String.length s with O => Panic | S n => substr s 0 n end.

Definition SuciToString (buf : list Z) : outcome (string * string) :=
  b0 ← rd buf 0;
  if (b0 & 0xf0) ≫ 4 =? 0x01 then nai ← NaiToString buf; Ret (nai, ""%string)
  else
    b2 ← rd buf 2; b1 ← rd buf 1;
    mcc ← substr (hex_bytes [swap_nibbles b1; u8 ((b2 & 0x0f) ≪ 4)]) 0 3;
    b3 ← rd buf 3;
    let mnc := hex_bytes [swap_nibbles b3; u8 (((b2 & 0xf0) ≫ 4) ≪ 4)] in
    c ← char_at mnc 2;
    mnc ← substr mnc 0 (if Ascii.eqb c "f"%char then 2 else 3);
    b4 ← rd buf 4; b5 ← rd buf 5;
    let routingInd := before_f (hex_bytes [swap_nibbles b4; swap_nibbles b5]) in
    b6 ← rd buf 6;
    let protectionScheme := hex1 b6 in
    b7 ← rd buf 7;
    let homeNetworkPublicKeyIdentifier := dec b7 in
    rest ← slice buf 8 (blen buf);
    schemeOutput ← (if (protectionScheme =? "0")%string
      then
        let out := hex_bytes (swap_nibbles <$> rest) in
        c ← last_char out;
        if Ascii.eqb c "f"%char then drop_last out else Ret out
      else Ret (hex_bytes rest));
    Ret ("suci-0-" +:+ mcc +:+ "-" +:+ mnc +:+ "-" +:+ routingInd +:+ "-" +:+ protectionScheme +:+ "-"
      +:+ homeNetworkPublicKeyIdentifier +:+ "-" +:+ schemeOutput, mcc +:+ mnc).

Definition GutiToString (buf : list Z) : outcome (Guami * string) :=
  p ← slice buf 1 4; plmnID ← PlmnIDToString p;
  a ← slice buf 4 7; let amfID := hex_bytes a in
  t ← slice buf 7 (blen buf); let tmsi5G := hex_bytes t in
  mcc ← substr plmnID 0 3; mnc ← substr plmnID 3 (String.length plmnID);
  Ret (MkGuami (MkPlmnId mcc mnc) amfID, plmnID +:+ amfID +:+ tmsi5G).

Definition GutiToNas (guti : string) : outcome IE :=
  a ← GUTI5G.SetSpare 0 (GUTI5G.SetLen 11 (zero_type 11));
  a ← GUTI5G.SetTypeOfIdentity 0x02 a;
  mcc1 ← atoi_at guti 0; mcc2 ← atoi_at guti 1; mcc3 ← atoi_at guti 2;
  mnc1 ← atoi_at guti 3; mnc2 ← atoi_at guti 4;
  '(mnc3, amfId, tmsi) ← (if slen guti =? 20
    then mnc3 ← atoi_at guti 5; amfId ← substr guti 6 12; tmsi ← substr guti 12 (String.length guti); Ret (mnc3, amfId, tmsi)
    else amfId ← substr guti 5 11; tmsi ← substr guti 11 (String.length guti); Ret (0x0f, amfId, tmsi));
  a ← GUTI5G.SetMCCDigit1 (u8 mcc1) a; a ← GUTI5G.SetMCCDigit2 (u8 mcc2) a; a ← GUTI5G.SetMCCDigit3 (u8 mcc3) a;
  a ← GUTI5G.SetMNCDigit1 (u8 mnc1) a; a ← GUTI5G.SetMNCDigit2 (u8 mnc2) a; a ← GUTI5G.SetMNCDigit3 (u8 mnc3) a;
  '(amfRegionId, amfSetId, amfPointer) ← AmfIdToNas amfId;
  a ← GUTI5G.SetAMFRegionID amfRegionId a; a ← GUTI5G.SetAMFSetID amfSetId a; a ← GUTI5G.SetAMFPointer amfPointer a;
  set_range 7 11 (DecodeString tmsi) a.

(** The high digit of each octet waits for the low digit of the next. *)
Fixpoint pei_digits (last : Z) (l : list Z) : list Z :=
  match l with
  | [] => [last]
  | octet :: l => u8 (last + (octet & 0x0f)) :: pei_digits (octet & 0xf0) l
  end.
Definition PeiToString (buf : list Z) : outcome string :=
  b0 ← rd buf 0;
  let prefix := if b0 & 0x07 =? 0x03 then "imei-"%string else "imeisv-"%string in
  let oddIndication := (b0 & 0x08) ≫ 3 in
  rest ← slice buf 1 (blen buf);
  digitStr ← drop_last (hex_bytes (pei_digits (b0 & 0xf0) rest));
  digitStr ← (if oddIndication =? 0 then drop_last digitStr else Ret digitStr);
  Ret (prefix +:+ digitStr).

(** ** Snssai.go, Nssai.go *)

Definition SnssaiToModels (nasSnssai : IE) : outcome Snssai :=
  sD ← SNSSAI.GetSD nasSnssai; sst ← SNSSAI.GetSST nasSnssai; Ret (MkSnssai sst (hex_bytes sD)).

Definition SnssaiToNas (snssai : Snssai) : list Z :=
  if (Sd snssai =? "")%string then [0x01; u8 (Sst snssai)] else [0x04; u8 (Sst snssai)] ++ DecodeString (Sd snssai).

Definition RejectedSnssaiToNas (snssai : Snssai) (rejectCause : Z) : list Z :=
  if (Sd snssai =? "")%string then [u8 (0x10 + rejectCause); u8 (Sst snssai)]
  else [u8 (0x40 + rejectCause); u8 (Sst snssai)] ++ DecodeString (Sd snssai).

(** The length read is 0 for a length octet that is not supported. *)
Definition requestedSnssaiToModels (buf : list Z) : outcome (Snssai * Z) :=
  lengthOfSnssaiContents ← rd buf 0;
  if lengthOfSnssaiContents =? 0x01 then sst ← rd buf 1; Ret (MkSnssai sst "", 2)
  else if lengthOfSnssaiContents =? 0x04 then
    sst ← rd buf 1; sd ← slice buf 2 5; Ret (MkSnssai sst (hex_bytes sd), 5)
  else Ret (MkSnssai 0 "", 0).

Fixpoint requested_loop (fuel : nat) (buf : list Z) (lengthOfBuf offset : Z) (nssai : list Snssai) : option (outcome (list Snssai)) :=
  match fuel with
  | O => None
  | S fuel =>
    if offset <? lengthOfBuf then
      match (snssaiValue ← slice buf offset (blen buf); requestedSnssaiToModels snssaiValue) with
      | Ret (snssai, readLength) => requested_loop fuel buf lengthOfBuf (offset + readLength) (nssai ++ [snssai])
      | Fail e => Some (Fail e)
      | Panic => Some Panic
      end
    else Some (Ret nssai)
  end.
Definition RequestedNssaiToModels (fuel : nat) (nasNssai : IE) : option (outcome (list Snssai)) :=
  requested_loop fuel (RequestedNSSAI.GetSNSSAIValue nasNssai) (RequestedNSSAI.GetLen nasNssai) 0 [].

Definition RejectedNssaiToNas (rejectedNssaiInPlmn rejectedNssaiInTa : list Snssai) : IE :=
  let byteArray := concat ((λ s, RejectedSnssaiToNas s 0x00) <$> rejectedNssaiInPlmn)
    ++ concat ((λ s, RejectedSnssaiToNas s 0x01) <$> rejectedNssaiInTa) in
  RejectedNSSAI.SetRejectedNSSAIContents byteArray (RejectedNSSAI.SetLen (u8 (blen byteArray)) (zero_type 0)).

(** ** TaiList.go, Ladn.go, ServiceAreaList.go *)

(** A nil PLMN pointer panics. *)
Definition plmn_of (p : option PlmnId) : outcome (list Z) := match p with Some p => PlmnIDToNas p | None => Panic end.

Fixpoint tais_to_nas (l : list Tai) : outcome (list Z) :=
  match l with
  | [] => Ret []
  | tai :: l => plmnNas ← plmn_of (t_PlmnId tai); rest ← tais_to_nas l; Ret (plmnNas ++ DecodeString (Tac tai) ++ rest)
  end.

Definition TaiListToNas (taiList : list Tai) : outcome (list Z) :=
  first ← rd taiList 0;
  let plmnId := t_PlmnId first in
  let typeOfList := if existsb (λ tai, negb (bool_decide (t_PlmnId tai = plmnId))) taiList then 0x02 else 0x00 in
  let header := u8 (u8 (typeOfList ≪ 5) + u8 (u8 (blen taiList) - 1)) in
  if typeOfList =? 0x00 then
    plmnNas ← plmn_of plmnId; Ret (header :: plmnNas ++ concat ((λ tai, DecodeString (Tac tai)) <$> taiList))
  else rest ← tais_to_nas taiList; Ret (header :: rest).

(** The names as octets. *)
Fixpoint ladn_loop (fuel : nat) (buf : list Z) (bufOffset : Z) (dnnValues : list (list Z)) : option (outcome (list (list Z))) :=
  match fuel with
  | O => None
  | S fuel =>
    if bufOffset <? blen buf then
      match (lenOfDnn ← rd buf bufOffset; dnn ← slice buf bufOffset (bufOffset + lenOfDnn); Ret (lenOfDnn, dnn)) with
      | Ret (lenOfDnn, dnn) => ladn_loop fuel buf (bufOffset + lenOfDnn) (dnnValues ++ [dnn])
      | Fail e => Some (Fail e)
      | Panic => Some Panic
      end
    else Some (Ret dnnValues)
  end.
Definition LadnToModels (fuel : nat) (buf : list Z) : option (outcome (list (list Z))) := ladn_loop fuel buf 1 [].

Definition LadnToNas (dnn : list Z) (taiLists : list Tai) : outcome (list Z) :=
  taiListNas ← TaiListToNas taiLists;
  Ret (u8 (blen dnn) :: dnn ++ u8 (blen taiListNas) :: taiListNas).

Definition PartialServiceAreaListToNas (plmnID : PlmnId) (r : ServiceAreaRestriction) : outcome (list Z) :=
  let allowedType := if (RestrictionType r =? "ALLOWED_AREAS")%string then 0x00 else 0x01 in
  let firstByte := u8 ((u8 (allowedType ≪ 7) & 0x80) + u8 (blen (Areas r))) in
  plmnIDNas ← PlmnIDToNas plmnID;
  Ret (firstByte :: plmnIDNas ++ concat (DecodeString <$> concat (Areas r))).

(** ** Timers *)

(** Go's [/] and [%] on int cut towards zero. *)
Definition GPRSTimer2ToNas (timerValue : Z) : Z :=
  if timerValue <=? 64 then
    if negb (Z.rem timerValue 2 =? 0) then 0 else u8 (Z.quot timerValue 2)
  else
    let t := u8 (Z.quot timerValue 60) in
    if t <=? 31 then u8 (0x20 + t)
    else if negb (t mod 6 =? 0) then 0
    else u8 (0x40 + t / 6).

Definition GPRSTimer3ToNas (timerValue : Z) : Z :=
  let unit u n := u8 (u8 (u ≪ 5) + u8 (Z.quot timerValue n)) in
  if timerValue <=? 2 * 31 then unit 0x03 2
  else if timerValue <=? 30 * 31 then unit 0x04 30
  else if timerValue <=? 60 * 31 then unit 0x05 60
  else if timerValue <=? 600 * 31 then unit 0x00 600
  else if timerValue <=? 3600 * 31 then unit 0x01 3600
  else unit 0x02 36000.

(** ** NetWorkName.go *)

(** The loop over the characters, after the first: the last octet of [buf] is
    completed and the rest of the character appended. *)
Fixpoint pack_chars (l : list Z) (last idx : Z) : list Z :=
  match l with
  | [] => [last]
  | char :: l =>
    u8 ((last & GetBitMask (u8 (idx + 1)) 0) + u8 (char ≪ idx))
      :: pack_chars l (char ≫ u8 (8 - idx)) (if u8 (idx - 1) =? 0xff then 7 else u8 (idx - 1))
  end.
Definition packed_name (name : list Z) : list Z := match name with [] => [] | char :: l => pack_chars l char 7 end.
Definition spare_bits (name : list Z) : Z := 8 - (7 * blen name) mod 8.

Definition FullNetworkNameToNas (name : list Z) : outcome IE :=
  let buf := packed_name name in
  a ← FullNameForNetwork.SetCodingScheme 0 (FullNameForNetwork.SetLen (u8 (1 + blen buf)) (zero_type 0));
  a ← FullNameForNetwork.SetAddCI 0 a;
  a ← FullNameForNetwork.SetExt 1 a;
  a ← FullNameForNetwork.SetNumberOfSpareBitsInLastOctet (u8 (spare_bits name)) a;
  FullNameForNetwork.SetTextString buf a.
Definition ShortNetworkNameToNas (name : list Z) : outcome IE :=
  let buf := packed_name name in
  a ← ShortNameForNetwork.SetCodingScheme 0 (ShortNameForNetwork.SetLen (u8 (1 + blen buf)) (zero_type 0));
  a ← ShortNameForNetwork.SetAddCI 0 a;
  a ← ShortNameForNetwork.SetExt 1 a;
  a ← ShortNameForNetwork.SetNumberOfSpareBitsInLastOctet (u8 (spare_bits name)) a;
  ShortNameForNetwork.SetTextString buf a.

(** ** PSI.go, PDUSessionReactivationResultErrorCause.go, PDUSessionType.go *)

(** Sixteen booleans. *)
Definition PSIToBooleanArray (buf : list Z) : list bool :=
  match buf with
  | b0 :: b1 :: _ => ((λ i, Z.testbit b0 (Z.of_nat i)) <$> seq 0 8) ++ ((λ i, Z.testbit b1 (Z.of_nat i)) <$> seq 0 8)
  | _ => replicate 16 false
  end.
Fixpoint set_bits_of (l : list bool) (i : Z) (b : Z) : Z :=
  match l with [] => b | x :: l => set_bits_of l (i + 1) (if x : bool then Z.lor b (1 ≪ i) else b) end.
Definition PSIToBuf (array : list bool) : list Z := [set_bits_of (take 8 array) 0 0; set_bits_of (take 8 (drop 8 array)) 0 0].

(** A nil slice is empty; the loop over an empty slice gives the same. *)
Definition PDUSessionReactivationResultErrorCauseToBuf (errPduSessionId errCause : list Z) : list Z :=
  if negb (length errPduSessionId =? length errCause)%nat then []
  else concat (zip_with (λ i c, [i; c]) errPduSessionId errCause).

Definition PDUSessionTypeToModels (nasPduSessType : Z) : string :=
  if nasPduSessType =? 0x01 then "IPV4" else if nasPduSessType =? 0x02 then "IPV6" else if nasPduSessType =? 0x03 then "IPV4V6"
  else if nasPduSessType =? 0x04 then "UNSTRUCTURED" else if nasPduSessType =? 0x05 then "ETHERNET" else "".
Definition ModelsToPDUSessionType (pduSessType : string) : Z :=
  if (pduSessType =? "IPV4")%string then 0x01 else if (pduSessType =? "IPV6")%string then 0x02
  else if (pduSessType =? "IPV4V6")%string then 0x03 else if (pduSessType =? "UNSTRUCTURED")%string then 0x04
  else if (pduSessType =? "ETHERNET")%string then 0x05 else 0.

(** ** SpareHalfOctetAndNgKsi.go, UESecurityCapability.go, Time.go *)

Definition SpareHalfOctetAndNgksiToModels (ngKsiNas : IE) : NgKsi :=
  let tsc := SpareHalfOctetAndNgksi.GetTSC ngKsiNas in
  MkNgKsi (if tsc =? 0 then "NATIVE" else if tsc =? 1 then "MAPPED" else "")
    (SpareHalfOctetAndNgksi.GetNasKeySetIdentifiler ngKsiNas).
Definition SpareHalfOctetAndNgksiToNas (ngKsiModels : NgKsi) : IE :=
  let a := zero_type 1 in
  let a := if (Tsc ngKsiModels =? "NATIVE")%string then SpareHalfOctetAndNgksi.SetTSC 0 a
    else if (Tsc ngKsiModels =? "MAPPED")%string then SpareHalfOctetAndNgksi.SetTSC 1 a else a in
  SpareHalfOctetAndNgksi.SetNasKeySetIdentifiler (u8 (Ksi ngKsiModels)) (SpareHalfOctetAndNgksi.SetSpareHalfOctet 0 a).

(** The first octets of [nea], [nia], [eea] and [eia]; the second ones are 0. *)
Definition UESecurityCapabilityToByteArray (buf : list Z) : outcome (Z * Z * Z * Z) :=
  if blen buf <? 2 then Ret (0, 0, 0, 0)
  else
    nea ← rd buf 0; nia ← rd buf 1;
    if 2 <? blen buf then
      eea ← rd buf 2; eia ← rd buf 3; Ret (u8 (nea ≪ 1), u8 (nia ≪ 1), u8 (eea ≪ 1), u8 (eia ≪ 1))
    else Ret (u8 (nea ≪ 1), u8 (nia ≪ 1), 0, 0).

Definition LocalTimeZoneToNas (timezone : string) : outcome IE :=
  c0 ← char_at timezone 0; c1 ← char_at timezone 1; c2 ← char_at timezone 2; c4 ← char_at timezone 4;
  let time := if Ascii.eqb c0 "-"%char then 64 else 0 in
  let time := if Ascii.eqb c1 "1"%char then time + 40 else time in
  let time := time + digit_val c2 * 4 in
  let d := digit_val c4 in
  let time := if (1 <=? d) && (d <=? 4) then time + d else time in
  Ret (LocalTimeZone.SetTimeZone (u8 time) (zero_type 1)).

Definition Contains (s part : string) : bool := bool_decide (String.index 0 part s ≠ None).
Definition DaylightSavingTimeToNas (timezone : string) : IE :=
  let value := if Contains timezone "+2h" then 2 else if Contains timezone "+1h" then 1 else 0 in
  NetworkDaylightSavingTime.Setvalue value (NetworkDaylightSavingTime.SetLen 1 (zero_type 1)).

(** ** SessionAMBR.go *)

(** [strconv.ParseInt(s, 10, 16)] without its error: 0 for what is no number,
    the nearest bound for one out of range. *)
Definition ParseInt16 (s : string) : Z :=
  let '(sign, digits) := match s with
    | String "+" s => (1, s) | String "-" s => (-1, s) | _ => (1, s) end%char in
  match digits with
  | EmptyString => 0
  | _ => match decimal_digits 0 digits with Some v => Z.max (-32768) (Z.min 32767 (sign * v)) | None => 0 end
  end.

Definition strToAMBRUnit (unit : string) : Z :=
  if (unit =? "bps")%string then 0x00 else if (unit =? "Kbps")%string then 0x01 else if (unit =? "Mbps")%string then 0x06
  else if (unit =? "Gbps")%string then 0x0b else if (unit =? "Tbps")%string then 0x10 else if (unit =? "Pbps")%string then 0x15
  else 0x00.

(** The rate in little-endian order, and the unit behind the first blank. *)
Definition ambr_of (s : string) : outcome (list Z * Z) :=
  let l := split_on " "%char s in
  let bitRate := u16 (ParseInt16 (default ""%string (l !! 0%nat))) in
  unit ← rd l 1;
  Ret ([u8 bitRate; u8 (bitRate ≫ 8)], strToAMBRUnit unit).

Definition ModelsToSessionAMBR (ambr : Ambr) : outcome IE :=
  '(rate, unit) ← ambr_of (Uplink ambr);
  a ← SessionAMBR.SetSessionAMBRForUplink rate (zero_type 6);
  a ← SessionAMBR.SetUnitForSessionAMBRForUplink unit a;
  '(rate, unit) ← ambr_of (Downlink ambr);
  a ← SessionAMBR.SetSessionAMBRForDownlink rate a;
  SessionAMBR.SetUnitForSessionAMBRForDownlink unit a.

(** ** UPUInfo.go *)

Definition upuInfoGetHeader (reg ack : bool) : Z := u8 (u8 (Z.b2z reg ≪ 2) + u8 (Z.b2z ack ≪ 1)).

Definition upu_data (data : UpuData) : list Z :=
  let '(kind, byteArray) := if negb (SecPacket data =? "")%string then (0x01, DecodeString (SecPacket data))
    else (0x02, concat (SnssaiToNas <$> DefaultConfNssai data)) in
  kind :: u8 (blen byteArray) :: byteArray.
Definition UpuInfoToNas (upuInfo : UpuInfo) : list Z :=
  upuInfoGetHeader (UpuRegInd upuInfo) (UpuAckInd upuInfo)
    :: DecodeString (UpuMacIausf upuInfo) ++ DecodeString (CounterUpu upuInfo) ++ concat (upu_data <$> UpuDataList upuInfo).

Definition UpuAckToModels (buf : list Z) : outcome string :=
  b0 ← rd buf 0;
  if negb (b0 =? 0x01) || negb (blen buf =? 17) then Fail "NAS UPU Ack is not valid"
  else rest ← slice buf 1 (blen buf); Ret (hex_bytes rest).

(** ** ProtocolConfigurationOptions.go *)

Record ProtocolOrContainerUnit := MkUnit {
  ProtocolOrContainerID : Z; LengthofContents : Z; Contents : list Z }.
Definition ProtocolConfigurationOptions : Type := list ProtocolOrContainerUnit.
Definition NewProtocolOrContainerUnit : ProtocolOrContainerUnit := MkUnit 0 0 [].
Definition NewProtocolConfigurationOptions : ProtocolConfigurationOptions := [].

Inductive PCOReadingState := ReadingID | ReadingLength | ReadingContent.

Definition unit_octets (u : ProtocolOrContainerUnit) : list Z :=
  be_bytes 2 (ProtocolOrContainerID u) ++ [LengthofContents u] ++ Contents u.
Definition Marshal (pco : ProtocolConfigurationOptions) : list Z :=
  let extension := 1 in let spare := 0 in let configurationProtocol := 0 in
  Z.lor (Z.lor (u8 (extension ≪ 7)) (u8 (spare ≪ 6))) configurationProtocol :: concat (unit_octets <$> pco).

(** The loop: [data] is what the reader has left, [cur] the current container,
    the result whether there was an error and the list. *)
Fixpoint pco_loop (fuel : nat) (readingState : PCOReadingState) (numOfBytes : Z) (data : list Z)
    (cur : ProtocolOrContainerUnit) (pco : ProtocolConfigurationOptions) : option (bool * ProtocolConfigurationOptions) :=
  match fuel with
  | O => None
  | S fuel =>
    if negb (0 <? numOfBytes) then Some (false, pco)
    else
      match readingState with
      | ReadingID =>
        match read 2 data with
        | (None, _) => Some (true, pco)
        | (Some v, data) => pco_loop fuel ReadingLength (numOfBytes - 2) data (MkUnit (be_nat v) 0 []) pco
        end
      | ReadingLength =>
        match read 1 data with
        | (None, _) => Some (true, pco)
        | (Some v, data) =>
          let cur := MkUnit (ProtocolOrContainerID cur) (be_nat v) (Contents cur) in
          pco_loop fuel ReadingContent (numOfBytes - 1) data cur (if LengthofContents cur =? 0 then pco ++ [cur] else pco)
        end
      | ReadingContent =>
        if 0 <? LengthofContents cur then
          match read (Z.to_nat (LengthofContents cur)) data with
          | (None, _) => Some (true, pco)
          | (Some v, data) =>
            let cur := MkUnit (ProtocolOrContainerID cur) (LengthofContents cur) v in
            pco_loop fuel ReadingID (numOfBytes - LengthofContents cur) data cur (pco ++ [cur])
          end
        else pco_loop fuel ReadingID (numOfBytes - LengthofContents cur) data cur pco
      end
  end.
Definition UnMarshal (fuel : nat) (data : list Z) (pco : ProtocolConfigurationOptions) : option (bool * ProtocolConfigurationOptions) :=
  match read 1 data with
  | (None, _) => Some (true, pco)
  | (Some _, rest) => pco_loop fuel ReadingID (blen data - 1) rest NewProtocolOrContainerUnit pco
  end.

Definition AddDNSServerIPv4AddressRequest (pco : ProtocolConfigurationOptions) := pco ++ [MkUnit 0x000d 0 []].
Definition AddDNSServerIPv6AddressRequest (pco : ProtocolConfigurationOptions) := pco ++ [MkUnit 0x0003 0 []].
Definition AddIPAddressAllocationViaNASSignallingUL (pco : ProtocolConfigurationOptions) := pco ++ [MkUnit 0x000a 0 []].
(** Whether there is an error, and the options. *)
Definition AddDNSServerIPv4Address (dnsIP : list Z) (pco : ProtocolConfigurationOptions) : bool * ProtocolConfigurationOptions :=
  match To4 dnsIP with
  | [] => (true, pco)
  | dnsIP => if negb (length dnsIP =? 4)%nat then (true, pco) else (false, pco ++ [MkUnit 0x000d 4 dnsIP])
  end.
Definition AddDNSServerIPv6Address (dnsIP : list Z) (pco : ProtocolConfigurationOptions) : bool * ProtocolConfigurationOptions :=
  if negb ((length dnsIP =? 4) || (length dnsIP =? 16))%nat then (true, pco)
  else if negb (length dnsIP =? 16)%nat then (true, pco)
  else (false, pco ++ [MkUnit 0x0003 16 dnsIP]).
