(* ===== verification/NasConvertProps.v ===== *)
(** * Properties of the NAS conversions

    What the network reads in the identities that UEs send, and which of the
    conversions undo each other. *)

From Stdlib Require Import Ascii.
From S2P Require Import Prelude GoStrings Milenage Kdf UeContext UeProps NasMessage NasAccess NasTypes NasFields NasConvert.

#[local] Open Scope Z_scope.
#[local] Open Scope go_scope.

(** ** Hexadecimal digits *)

Ltac bytes := unfold bytes_ok; repeat (apply Forall_cons_2; [unfold in_width in *; lia|]); apply Forall_nil_2.

Definition nibble (x : Z) : Prop := 0 ≤ x < 16.
Definition hex_char (x : Z) : ascii := default "0"%char (String.get (Z.to_nat x) "0123456789abcdef").

Ltac each_nibble x Hx :=
  let H := fresh in
  assert (x = 0 ∨ x = 1 ∨ x = 2 ∨ x = 3 ∨ x = 4 ∨ x = 5 ∨ x = 6 ∨ x = 7 ∨ x = 8 ∨ x = 9 ∨
    x = 10 ∨ x = 11 ∨ x = 12 ∨ x = 13 ∨ x = 14 ∨ x = 15) as H by (unfold nibble in Hx; lia);
  destruct H as [-> | [-> | [-> | [-> | [-> | [-> | [-> | [-> | [-> | [-> | [-> | [-> | [-> | [-> | [-> | ->]]]]]]]]]]]]]]].

Lemma hex_digit_char x : nibble x → hex_digit x = String (hex_char x) EmptyString.
Proof. intros Hx. each_nibble x Hx; reflexivity. Qed.
Lemma hex_char_val x : nibble x → hex_val (hex_char x) = Some x.
Proof. intros Hx. each_nibble x Hx; reflexivity. Qed.
Lemma hex_char_digit d : decimal d → hex_char d = digit d.
Proof. intros Hd. each_digit d Hd; reflexivity. Qed.
Lemma hex_char_f d : nibble d → Ascii.eqb (hex_char d) "f"%char = (d =? 15).
Proof. intros Hd. each_nibble d Hd; reflexivity. Qed.
Lemma digit_val_digit d : decimal d → digit_val (digit d) = d.
Proof. intros Hd. each_digit d Hd; reflexivity. Qed.
Lemma decimal_nibble d : decimal d → nibble d.
Proof. unfold decimal, nibble. lia. Qed.
#[local] Hint Resolve decimal_nibble : core.

Lemma two_nibbles a b : nibble a → nibble b → (a * 16 + b) ≫ 4 = a ∧ (a * 16 + b) & 15 = b ∧ in_width 8 (a * 16 + b).
Proof.
  unfold nibble, in_width. intros Ha Hb. change 15 with (Z.ones 4). rewrite Z.land_ones, Z.shiftr_div_pow2 by lia.
  change (2 ^ 4) with 16. split_and!; [|rewrite Z.add_comm, Z.mod_add by lia; apply Z.mod_small; lia|lia|lia].
  rewrite Z.div_add_l, (Z.div_small b) by lia. lia.
Qed.
Lemma hex2_nibbles a b s : nibble a → nibble b → hex2 (a * 16 + b) +:+ s = String (hex_char a) (String (hex_char b) s).
Proof. intros Ha Hb. destruct (two_nibbles a b) as (E1&E2&_); [done..|]. unfold hex2. by rewrite E1, E2, !hex_digit_char. Qed.
Lemma swap_two a b : nibble a → nibble b → swap_nibbles (a * 16 + b) = b * 16 + a.
Proof.
  intros Ha Hb. destruct (two_nibbles a b) as (E1&_&_); [done..|]. unfold swap_nibbles. rewrite E1.
  assert (u8 ((a * 16 + b) ≪ 4) = b * 16) as ->.
  { rewrite Z.shiftl_mul_pow2 by lia. unfold u8, wrap. change (2 ^ 4) with 16. change (2 ^ 8) with 256.
    unfold nibble in *. replace ((a * 16 + b) * 16) with (b * 16 + a * 256) by lia. rewrite Z.mod_add by lia. apply Z.mod_small. lia. }
  change 16 with (2 ^ 4). rewrite <- Z.shiftl_mul_pow2 by lia. rewrite <- pack_lor; [by rewrite Z.shiftl_mul_pow2 by lia|lia|].
  unfold in_width, nibble in *. lia.
Qed.

(** ** The identity a UE sends *)

Lemma slice_behind {A} (a b : list A) n : blen a = n → slice (a ++ b) n (blen (a ++ b)) = Ret b.
Proof.
  intros <-. unfold slice. assert (blen (a ++ b) = blen a + blen b) as E by (unfold blen; rewrite length_app; lia). rewrite E.
  rewrite (proj2 (Z.ltb_ge (blen a) 0)), (proj2 (Z.ltb_ge (blen a + blen b) (blen a))), Z.ltb_irrefl by (unfold blen; lia). cbn [orb].
  unfold blen. rewrite Nat2Z.id, drop_app_length, take_ge; [done|lia].
Qed.

Lemma hex_two a b l : nibble a → nibble b → hex_bytes (a * 16 + b :: l) = String (hex_char a) (String (hex_char b) (hex_bytes l)).
Proof. intros Ha Hb. exact (hex2_nibbles a b _ Ha Hb). Qed.

Lemma msin_digits ds : Nat.even (length ds) = true → Forall decimal ds → hex_bytes (swap_nibbles <$> bcd_swapped ds) = digit_string ds.
Proof.
  assert (∀ n ds, (length ds < n)%nat → Nat.even (length ds) = true → Forall decimal ds →
    hex_bytes (swap_nibbles <$> bcd_swapped ds) = digit_string ds) as Hall; [|intros; by apply (Hall (S (length ds))); [lia|..]].
  clear ds. induction n as [|n IH]; intros ds Hn He Hd; [lia|]. destruct ds as [|a [|b ds]]; [done|discriminate He|].
  rewrite !Forall_cons in Hd. destruct Hd as (Ha&Hb&Hd). cbn [bcd_swapped fmap list_fmap digit_string length] in *.
  rewrite swap_two, hex_two, !hex_char_digit by auto. do 2 f_equal. apply IH; [lia|exact He|exact Hd].
Qed.

Lemma last_char_digits ds d : Forall decimal ds → last_char (digit_string (ds ++ [d])) = Ret (digit d).
Proof.
  intros _. unfold last_char, char_at. assert (String.length (digit_string (ds ++ [d])) = S (length ds)) as ->.
  { induction ds as [|x ds IH]; [done|]. cbn. by rewrite IH. }
  induction ds as [|x ds IH]; [done|]. exact IH.
Qed.
Lemma digit_no_filler d : decimal d → Ascii.eqb (digit d) "f"%char = false.
Proof. intros Hd. each_digit d Hd; reflexivity. Qed.

(** The string of a subscriber. *)
Definition supi_string (mccs mncs ms : list Z) : string :=
  "suci-0-" +:+ digit_string mccs +:+ "-" +:+ digit_string mncs +:+ "-0-0-0-" +:+ digit_string ms.

Lemma low_part a b : nibble a → nibble b → u8 (((a * 16 + b) & 0x0f) ≪ 4) = b * 16 + 0.
Proof.
  intros Ha Hb. destruct (two_nibbles a b) as (_&->&_); [done..|]. rewrite Z.shiftl_mul_pow2 by lia. change (2 ^ 4) with 16.
  rewrite Z.add_0_r. apply wrap_small. unfold in_width, nibble in *. lia.
Qed.
Lemma high_part a b : nibble a → nibble b → ((a * 16 + b) & 0xf0) ≫ 4 = a.
Proof.
  intros Ha Hb. destruct (two_nibbles a b) as (E&_&_); [done..|]. rewrite Z.shiftr_land, E. change (0xf0 ≫ 4) with (Z.ones 4).
  rewrite Z.land_ones by lia. apply Z.mod_small. unfold nibble in *. change (2 ^ 4) with 16. lia.
Qed.
Lemma up_part a : nibble a → u8 (a ≪ 4) = a * 16 + 0.
Proof.
  intros Ha. rewrite Z.shiftl_mul_pow2 by lia. change (2 ^ 4) with 16. rewrite Z.add_0_r. apply wrap_small. unfold in_width, nibble in *. lia.
Qed.
Lemma nibble_0 : nibble 0.
Proof. unfold nibble. lia. Qed.
Lemma nibble_15 : nibble 15.
Proof. unfold nibble. lia. Qed.
#[local] Hint Resolve nibble_0 nibble_15 : core.

Lemma mcc_read a b c hi : decimal a → decimal b → decimal c → nibble hi →
  substr (hex_bytes [swap_nibbles (b * 16 + a); u8 (((hi * 16 + c) & 0x0f) ≪ 4)]) 0 3 = Ret (digit_string [a; b; c]).
Proof. intros Ha Hb Hc Hh. rewrite swap_two, low_part, !hex_two, !hex_char_digit by auto. reflexivity. Qed.

Lemma mnc_hex d e f c : decimal d → decimal e → nibble f → nibble c →
  hex_bytes [swap_nibbles (e * 16 + d); u8 ((((f * 16 + c) & 0xf0) ≫ 4) ≪ 4)] =
  String (digit d) (String (digit e) (String (hex_char f) "0")).
Proof. intros Hd He Hf Hc. rewrite swap_two, high_part, up_part, !hex_two, !(hex_char_digit d), !(hex_char_digit e) by auto. reflexivity. Qed.

(** The MNC as the octets have it: the filler or a third digit. *)
Definition third_digit (mncs : list Z) : Z := match mncs with [_; _; f] => f | _ => 15 end.

Lemma suci_octets_read mccs mncs ms :
  length mccs = 3%nat → length mncs = 2%nat ∨ length mncs = 3%nat →
  Forall decimal mccs → Forall decimal mncs → Nat.even (length ms) = true → ms ≠ [] → Forall decimal ms →
  SuciToString ([0x01] ++ plmn_coding mccs mncs ++ [0xf0; 0xff; 0x00; 0x00] ++ bcd_swapped ms) =
  Ret (supi_string mccs mncs ms, digit_string mccs +:+ digit_string mncs).
Proof.
  intros H3 H23 Hc Hn Hev Hne Hd. destruct mccs as [|a [|b [|c [|]]]]; try done. rewrite !Forall_cons in Hc. destruct Hc as (Ha&Hb&Hcc&_).
  destruct (exists_last Hne) as (ms'&m&Em). assert (Forall decimal ms' ∧ decimal m) as [Hm' Hm].
  { rewrite Em, Forall_app, Forall_singleton in Hd. exact Hd. }
  assert (∃ d e, (mncs = [d; e] ∨ ∃ f, decimal f ∧ mncs = [d; e; f]) ∧ decimal d ∧ decimal e ∧
    plmn_coding [a; b; c] mncs = [b * 16 + a; third_digit mncs * 16 + c; e * 16 + d]) as (d&e&Hm3&Hdd&Hde&->).
  { destruct mncs as [|d [|e [|f [|]]]]; try (destruct H23; done); rewrite !Forall_cons in Hn; destruct_and! Hn; exists d, e; eauto 7. }
  assert (nibble (third_digit mncs)) as Hf.
  { destruct Hm3 as [->|(f&Hf&->)]; cbn; auto. }
  set (mnc := hex_bytes [swap_nibbles (e * 16 + d); u8 ((((third_digit mncs * 16 + c) & 0xf0) ≫ 4) ≪ 4)]).
  transitivity (mcc ← substr (hex_bytes [swap_nibbles (b * 16 + a); u8 (((third_digit mncs * 16 + c) & 0x0f) ≪ 4)]) 0 3;
    f ← char_at mnc 2; mnc ← substr mnc 0 (if Ascii.eqb f "f"%char then 2 else 3);
    rest ← Ret (bcd_swapped ms);
    out ← (let out := hex_bytes (swap_nibbles <$> rest) in
      f ← last_char out; if Ascii.eqb f "f"%char then drop_last out else Ret out);
    Ret ("suci-0-" +:+ mcc +:+ "-" +:+ mnc +:+ "-0-0-0-" +:+ out, mcc +:+ mnc)).
  { assert (slice ([1; b * 16 + a; third_digit mncs * 16 + c; e * 16 + d; 240; 255; 0; 0] ++ bcd_swapped ms) 8
      (blen ([1; b * 16 + a; third_digit mncs * 16 + c; e * 16 + d; 240; 255; 0; 0] ++ bcd_swapped ms)) = Ret (bcd_swapped ms)) as <-.
    { apply slice_behind. reflexivity. }
    reflexivity. }
  rewrite mcc_read by auto. unfold mnc. rewrite mnc_hex by auto. cbn [mbind outcome_mbind].
  change (char_at _ 2) with (Ret (hex_char (third_digit mncs))). cbn [mbind outcome_mbind]. rewrite hex_char_f by done.
  rewrite msin_digits by done. cbv zeta. rewrite Em, last_char_digits, <- Em by done. cbn [mbind outcome_mbind]. rewrite digit_no_filler by done.
  unfold supi_string. destruct Hm3 as [->|(f&Hf'&->)]; cbn [third_digit].
  - reflexivity.
  - rewrite (proj2 (Z.eqb_neq f 15)) by (unfold decimal in Hf'; lia). rewrite hex_char_digit by done. reflexivity.
Qed.

(** What a new UE sends as its identity, the network reads as the
    configured subscriber: the SUCI of its MCC, its MNC of two or three digits
    and its MSIN of eight or ten digits, with routing indicator 0, the null
    scheme and key 0; and the PLMN beside it is MCC and MNC. *)
Theorem ue_identity_read mccs mncs ms ca ia k opc op amf sqn dnn type sst sd uid extra ue :
  length mccs = 3%nat → length mncs = 2%nat ∨ length mncs = 3%nat →
  length ms = 8%nat ∨ length ms = 10%nat →
  Forall decimal mccs → Forall decimal mncs → Forall decimal ms →
  ∃ ue', NewRanUeContext (digit_string ms) ca ia k opc op amf sqn (digit_string mccs) (digit_string mncs)
      dnn type sst sd uid extra ue = Ret ue' ∧
    SuciToString (snd (Suci (UeSecurity ue'))) = Ret (supi_string mccs mncs ms, digit_string mccs +:+ digit_string mncs).
Proof.
  intros H3 H23 Hl Hc Hn Hm.
  destruct (new_ue_suci mccs mncs ms ca ia k opc op amf sqn dnn type sst sd uid extra ue H3 H23 Hl Hc Hn Hm) as (ue'&E&Es).
  exists ue'. split; [exact E|]. rewrite Es. cbn [snd]. apply suci_octets_read; try done.
  - by destruct Hl as [-> | ->].
  - intros ->. destruct Hl; discriminate.
Qed.

Lemma ue_identity_read_witness :
  supi_string [2; 0; 8] [9; 3] [0; 0; 0; 0; 0; 0; 7; 4; 8; 7] = "suci-0-208-93-0-0-0-0000007487"%string ∧
  ∃ ue', NewRanUeContext (digit_string [0; 0; 0; 0; 0; 0; 7; 4; 8; 7]) 0 2 "" "" "" "" ""
      (digit_string [2; 0; 8]) (digit_string [9; 3]) "internet" "" 1 "" 1 [] blank_ue = Ret ue' ∧
    SuciToString (snd (Suci (UeSecurity ue'))) =
    Ret (supi_string [2; 0; 8] [9; 3] [0; 0; 0; 0; 0; 0; 7; 4; 8; 7], digit_string [2; 0; 8] +:+ digit_string [9; 3]).
Proof.
  split; [reflexivity|]. apply ue_identity_read; try (vm_compute; auto; fail); repeat constructor; unfold decimal; lia.
Defined.

(** ** 5G-GUTI *)

Lemma put_low v : nibble v → put_bits 240 15 0 v 0 = v.
Proof. intros Hv. each_nibble v Hv; reflexivity. Qed.
Lemma put_high v w : nibble v → nibble w → put_bits 15 15 4 w v = w * 16 + v.
Proof. intros Hv Hw. each_nibble v Hv; each_nibble w Hw; reflexivity. Qed.
Lemma decimal_u8 d : decimal d → u8 d = d.
Proof. intros Hd. apply wrap_small. unfold in_width, decimal in *. lia. Qed.

(** The octets of an AMF identifier, taken apart and set. *)
Lemma amf_id_octets b1 b2 : in_width 8 b1 → in_width 8 b2 →
  let setId := u16 (u16 (b1 ≪ 2) + ((b2 & 0x00c0) ≫ 6)) in
  u8 (setId ≫ 2) & 255 = b1 ∧ put_bits 192 63 0 (b2 & 0x3f) (u8 ((0 & GetBitMask 6 6) + u8 (u8 (setId & 3) ≪ 6))) = b2.
Proof.
  intros H1 H2 setId. unfold in_width in *. assert (0 ≤ b2 / 64 < 4) by (split; [apply Z.div_pos; lia|apply Z.div_lt_upper_bound; lia]).
  assert (setId = b1 * 4 + b2 / 64) as ->.
  { transitivity (u16 (u16 (b1 ≪ 2) + ((b2 & GetBitMask 8 2) ≫ 6))); [|by apply ten_value].
    unfold setId. change (GetBitMask 8 2) with 252. by rewrite !Z.shiftr_land. }
  rewrite ten_high, ten_low by (unfold in_width; lia). rewrite Z.div_add_l, (Z.div_small (b2 / 64)), Z.add_0_r, Z.mod_small by lia.
  split; [done|]. rewrite Z.add_comm, Z.mod_add, (Z.mod_small (b2 / 64)) by lia. unfold put_bits. change 0x3f with (Z.ones 6).
  rewrite <- Z.land_assoc, (Z.land_diag (Z.ones 6)), Z.land_ones, Z.shiftl_0_r by lia. change (2 ^ 6) with 64.
  pose proof (Z.mod_pos_bound b2 64). rewrite (wrap_small 8 (b2 mod 64)) by (unfold in_width; lia).
  assert (b2 / 64 * 64 & 192 = b2 / 64 * 64) as ->.
  { assert (b2 / 64 = 0 ∨ b2 / 64 = 1 ∨ b2 / 64 = 2 ∨ b2 / 64 = 3) as [-> | [-> | [-> | ->]]] by lia; reflexivity. }
  pose proof (Z.div_mod b2 64). rewrite wrap_small by (unfold in_width; lia). lia.
Qed.

Lemma string_cons (c : ascii) (s t : string) : String c s +:+ t = String c (s +:+ t).
Proof. done. Qed.
Lemma length_app_string (s t : string) : String.length (s +:+ t) = (String.length s + String.length t)%nat.
Proof. induction s as [|c s IH]; [done|]. rewrite string_cons. cbn [String.length]. by rewrite IH. Qed.
Lemma substring_all (s t : string) : String.substring 0 (String.length s) (s +:+ t) = s.
Proof. induction s as [|c s IH]; [by destruct t|]. rewrite string_cons. cbn [String.length String.substring]. by rewrite IH. Qed.
Lemma substring_skip (s t : string) n : String.substring (String.length s) n (s +:+ t) = String.substring 0 n t.
Proof. induction s as [|c s IH]; [done|]. exact IH. Qed.
Lemma substr_mid (p m q : string) a b : a = String.length p → b = (String.length p + String.length m)%nat →
  substr (p +:+ m +:+ q) a b = Ret m.
Proof.
  intros -> ->. unfold substr, sub. rewrite !length_app_string.
  rewrite (proj2 (Nat.ltb_ge _ (String.length p))), (proj2 (Nat.ltb_ge _ (String.length p + String.length m))) by lia. cbn [orb].
  rewrite substring_skip. replace (_ + _ - _)%nat with (String.length m) by lia. by rewrite substring_all.
Qed.
Lemma app_empty_string (s : string) : s +:+ EmptyString = s.
Proof. induction s as [|c s IH]; [done|]. rewrite !string_cons. f_equal. exact IH. Qed.
Lemma assoc_string (s t u : string) : (s +:+ t) +:+ u = s +:+ (t +:+ u).
Proof. induction s as [|c s IH]; [done|]. rewrite !string_cons. f_equal. exact IH. Qed.

Lemma byte_nibbles b : in_width 8 b → ∃ h l, nibble h ∧ nibble l ∧ b = h * 16 + l.
Proof.
  intros Hb. exists (b / 16), (b mod 16). unfold in_width, nibble in *. pose proof (Z.mod_pos_bound b 16). pose proof (Z.div_mod b 16).
  split_and!; lia.
Qed.
Lemma decode_hex_bytes l : bytes_ok l → DecodeString (hex_bytes l) = l.
Proof.
  unfold DecodeString. induction 1 as [|b l Hb _ IH]; [done|]. destruct (byte_nibbles b Hb) as (h&lo&Hh&Hl&->).
  rewrite hex_two by done. cbn [hex_decode]. rewrite !hex_char_val by done. destruct (hex_decode (hex_bytes l)) as [l' e]. cbn in *. by rewrite IH.
Qed.
Lemma hex_bytes_length l : bytes_ok l → String.length (hex_bytes l) = (2 * length l)%nat.
Proof.
  induction 1 as [|b l Hb _ IH]; [done|]. destruct (byte_nibbles b Hb) as (h&lo&Hh&Hl&->).
  rewrite hex_two by done. cbn [String.length]. rewrite IH. cbn. lia.
Qed.

Definition guti_string (mccs mncs amfId tmsi : list Z) : string :=
  (digit_string mccs +:+ digit_string mncs) +:+ hex_bytes amfId +:+ hex_bytes tmsi.

(** The octets from the digits and the parts of the identifier. *)
Lemma guti_octets guti amfId tmsi m1 m2 m3 n1 n2 n3 r b1 b2 t0 t1 t2 t3 :
  atoi_at guti 0 = Ret m1 → atoi_at guti 1 = Ret m2 → atoi_at guti 2 = Ret m3 → atoi_at guti 3 = Ret n1 → atoi_at guti 4 = Ret n2 →
  (if slen guti =? 20
    then mnc3 ← atoi_at guti 5; amfId ← substr guti 6 12; tmsi ← substr guti 12 (String.length guti); Ret (mnc3, amfId, tmsi)
    else amfId ← substr guti 5 11; tmsi ← substr guti 11 (String.length guti); Ret (0x0f, amfId, tmsi)) = Ret (n3, amfId, tmsi) →
  DecodeString amfId = [r; b1; b2] → DecodeString tmsi = [t0; t1; t2; t3] →
  let setId := u16 (u16 (b1 ≪ 2) + ((b2 & 0x00c0) ≫ 6)) in
  GutiToNas guti = Ret (MkIE 0 11 [0x02; put_bits 15 15 4 (u8 m2) (put_bits 240 15 0 (u8 m1) 0);
    put_bits 15 15 4 (u8 n3) (put_bits 240 15 0 (u8 m3) 0); put_bits 15 15 4 (u8 n2) (put_bits 240 15 0 (u8 n1) 0);
    r; u8 (setId ≫ 2) & 255; put_bits 192 63 0 (b2 & 0x3f) (u8 ((0 & GetBitMask 6 6) + u8 (u8 (setId & 3) ≪ 6))); t0; t1; t2; t3]).
Proof.
  intros E1 E2 E3 E4 E5 E6 E7 E8 setId. unfold GutiToNas. rewrite E1, E2, E3, E4, E5, E6.
  transitivity ('(amfRegionId, amfSetId, amfPointer) ← AmfIdToNas amfId;
    a ← GUTI5G.SetAMFRegionID amfRegionId (MkIE 0 11 [0x02; put_bits 15 15 4 (u8 m2) (put_bits 240 15 0 (u8 m1) 0);
      put_bits 15 15 4 (u8 n3) (put_bits 240 15 0 (u8 m3) 0); put_bits 15 15 4 (u8 n2) (put_bits 240 15 0 (u8 n1) 0);
      0; 0; 0; 0; 0; 0; 0]);
    a ← GUTI5G.SetAMFSetID amfSetId a; a ← GUTI5G.SetAMFPointer amfPointer a;
    set_range 7 11 (DecodeString tmsi) a); [reflexivity|].
  unfold AmfIdToNas. rewrite E7, E8. reflexivity.
Qed.

Lemma join_nibbles a b : nibble a → nibble b → Z.lor (u8 (a ≪ 4)) b = a * 16 + b.
Proof.
  intros Ha Hb. rewrite up_part, Z.add_0_r by done. symmetry. change 16 with (2 ^ 4). rewrite <- Z.shiftl_mul_pow2 by lia.
  rewrite <- pack_lor; [by rewrite Z.shiftl_mul_pow2 by lia|lia|]. unfold in_width, nibble in *. lia.
Qed.
Lemma low_nibble a b : nibble a → nibble b → (a * 16 + b) & 0x0f = b.
Proof. intros Ha Hb. by destruct (two_nibbles a b Ha Hb) as (_&E&_). Qed.

Lemma plmn_string mccs mncs : length mccs = 3%nat → length mncs = 2%nat ∨ length mncs = 3%nat →
  Forall decimal mccs → Forall decimal mncs → PlmnIDToString (plmn_coding mccs mncs) = Ret (digit_string mccs +:+ digit_string mncs).
Proof.
  intros H3 H23 Hc Hn. destruct mccs as [|a [|b [|c [|]]]]; try done. rewrite !Forall_cons in Hc. destruct Hc as (Ha&Hb&Hcc&_).
  destruct mncs as [|d [|e [|f [|]]]]; try (destruct H23; done); rewrite !Forall_cons in Hn; destruct_and! Hn;
    cbn [plmn_coding]; unfold PlmnIDToString.
  - change (15 * 16 + c) with (15 * 16 + c). rewrite (eq_refl : rd [b * 16 + a; 15 * 16 + c; e * 16 + d] 0 = Ret (b * 16 + a)).
    rewrite (eq_refl : rd [b * 16 + a; 15 * 16 + c; e * 16 + d] 1 = Ret (15 * 16 + c)).
    rewrite (eq_refl : rd [b * 16 + a; 15 * 16 + c; e * 16 + d] 2 = Ret (e * 16 + d)). cbn [mbind outcome_mbind].
    rewrite !low_nibble, !high_part, !join_nibbles, !hex_two by auto. rewrite !hex_char_digit by done. reflexivity.
  - rewrite (eq_refl : rd [b * 16 + a; f * 16 + c; e * 16 + d] 0 = Ret (b * 16 + a)).
    rewrite (eq_refl : rd [b * 16 + a; f * 16 + c; e * 16 + d] 1 = Ret (f * 16 + c)).
    rewrite (eq_refl : rd [b * 16 + a; f * 16 + c; e * 16 + d] 2 = Ret (e * 16 + d)). cbn [mbind outcome_mbind].
    rewrite !low_nibble, !high_part, !join_nibbles, !hex_two by auto. rewrite !hex_char_digit by done.
    change (char_at _ 5) with (Ret (digit f)). cbn [mbind outcome_mbind]. rewrite digit_no_filler by done. reflexivity.
Qed.

(** What [AmfIdToModels] makes of the parts of an AMF identifier: it adds the
    low bits of the set where they should be shifted. *)
Lemma amf_id_models r b1 b2 : in_width 8 b1 → in_width 8 b2 →
  AmfIdToModels r (u16 (u16 (b1 ≪ 2) + ((b2 & 0x00c0) ≫ 6))) (b2 & 0x3f) = hex_bytes [r; b1; b2 / 64 + b2 mod 64].
Proof.
  intros H1 H2. unfold in_width in *. assert (0 ≤ b2 / 64 < 4) by (split; [apply Z.div_pos; lia|apply Z.div_lt_upper_bound; lia]).
  assert (u16 (u16 (b1 ≪ 2) + ((b2 & 0x00c0) ≫ 6)) = b1 * 4 + b2 / 64) as ->.
  { transitivity (u16 (u16 (b1 ≪ 2) + ((b2 & GetBitMask 8 2) ≫ 6))); [|by apply ten_value].
    change (GetBitMask 8 2) with 252. by rewrite !Z.shiftr_land. }
  unfold AmfIdToModels. change 0xff with 255. rewrite ten_high by (unfold in_width; lia).
  rewrite Z.div_add_l, (Z.div_small (b2 / 64)), Z.add_0_r, (Z.mod_small b1) by lia. do 3 f_equal.
  change 0x03 with (Z.ones 2). change 0x3f with (Z.ones 6). rewrite <- Z.land_assoc, (Z.land_diag (Z.ones 6)), !Z.land_ones by lia.
  change (2 ^ 2) with 4. change (2 ^ 6) with 64. rewrite (Z.add_comm (b1 * 4)), Z.mod_add, (Z.mod_small (b2 / 64)) by lia.
  pose proof (Z.mod_pos_bound b2 64). rewrite (wrap_small 8 (b2 / 64)) by (unfold in_width; lia). f_equal. apply wrap_small. unfold in_width. lia.
Qed.

Lemma atoi_digits ds s i d : ds !! i = Some d → Forall decimal ds → atoi_at (digit_string ds +:+ s) i = Ret d.
Proof.
  intros Ei Hd. unfold atoi_at, char_at. assert (String.get i (digit_string ds +:+ s) = Some (digit d)) as ->.
  { clear Hd. revert i Ei. induction ds as [|x ds IH]; intros [|i] Ei; try done; [by injection Ei as ->|]. by apply IH. }
  cbn [mbind outcome_mbind]. rewrite digit_val_digit; [done|]. by eapply Forall_lookup_1.
Qed.
Lemma digits_app ds es : digit_string ds +:+ digit_string es = digit_string (ds ++ es).
Proof. induction ds as [|d ds IH]; [done|]. cbn [app digit_string]. rewrite string_cons. by f_equal. Qed.

(** The octets of a GUTI. *)
Definition guti_nas (mccs mncs amfId tmsi : list Z) : list Z := [0x02] ++ plmn_coding mccs mncs ++ amfId ++ tmsi.

Lemma guti_encoded mccs mncs r b1 b2 t0 t1 t2 t3 :
  length mccs = 3%nat → length mncs = 2%nat ∨ length mncs = 3%nat → Forall decimal mccs → Forall decimal mncs →
  bytes_ok [r; b1; b2] → bytes_ok [t0; t1; t2; t3] →
  GutiToNas (guti_string mccs mncs [r; b1; b2] [t0; t1; t2; t3]) =
  Ret (MkIE 0 11 (guti_nas mccs mncs [r; b1; b2] [t0; t1; t2; t3])).
Proof.
  intros H3 H23 Hc Hn Ha Ht. assert (Forall decimal (mccs ++ mncs)) as Hd by (by apply Forall_app_2).
  pose proof (hex_bytes_length _ Ha) as La. pose proof (hex_bytes_length _ Ht) as Lt. cbn [length Nat.mul Nat.add] in La, Lt.
  destruct mccs as [|a [|b [|c [|]]]]; try done. rewrite !Forall_cons in Hc. destruct Hc as (Hda&Hdb&Hdc&_).
  pose proof Ha as Hab. unfold bytes_ok in Hab. rewrite !Forall_cons in Hab. destruct Hab as (Hr&H1&H2&_). destruct (amf_id_octets b1 b2 H1 H2) as [E1 E2].
  unfold guti_string. rewrite digits_app.
  destruct mncs as [|d [|e [|f [|]]]]; try (destruct H23; done); rewrite !Forall_cons in Hn; destruct_and! Hn.
  - rewrite (guti_octets _ (hex_bytes [r; b1; b2]) (hex_bytes [t0; t1; t2; t3]) a b c d e 15 r b1 b2 t0 t1 t2 t3);
      [|by apply atoi_digits..| |by apply decode_hex_bytes|by apply decode_hex_bytes].
    + rewrite E1, E2. change (u8 15) with 15. rewrite !decimal_u8 by done. rewrite !put_low, !put_high by auto. reflexivity.
    + unfold slen. rewrite !length_app_string, La, Lt. change (Z.of_nat _ =? 20) with false. cbv iota.
      rewrite (substr_mid (digit_string [a; b; c; d; e]) _ _ 5 11) by (rewrite ?La; reflexivity). cbn [mbind outcome_mbind].
      rewrite <- (app_empty_string (hex_bytes [t0; t1; t2; t3])), <- assoc_string.
      rewrite (substr_mid (digit_string [a; b; c; d; e] +:+ hex_bytes [r; b1; b2]) _ EmptyString 11) by (rewrite !length_app_string, La, ?Lt; reflexivity).
      by rewrite app_empty_string.
  - rewrite (guti_octets _ (hex_bytes [r; b1; b2]) (hex_bytes [t0; t1; t2; t3]) a b c d e f r b1 b2 t0 t1 t2 t3);
      [|by apply atoi_digits..| |by apply decode_hex_bytes|by apply decode_hex_bytes].
    + rewrite E1, E2, !decimal_u8 by done. rewrite !put_low, !put_high by auto. reflexivity.
    + unfold slen. rewrite !length_app_string, La, Lt. change (Z.of_nat _ =? 20) with true. cbv iota.
      rewrite (atoi_digits _ _ 5 f) by done.
      rewrite (substr_mid (digit_string [a; b; c; d; e; f]) _ _ 6 12) by (rewrite ?La; reflexivity). cbn [mbind outcome_mbind].
      rewrite <- (app_empty_string (hex_bytes [t0; t1; t2; t3])), <- assoc_string.
      rewrite (substr_mid (digit_string [a; b; c; d; e; f] +:+ hex_bytes [r; b1; b2]) _ EmptyString 12) by (rewrite !length_app_string, La, ?Lt; reflexivity).
      by rewrite app_empty_string.
Qed.

(** C39. A 5G-GUTI of decimal PLMN digits and octets for AMF identifier and
    5G-TMSI is turned into its eleven octets, and these are read as the same
    GUTI and the AMF it names.  [AmfIdToModels] does not undo [AmfIdToNas]: it
    gives the identifier back only if the two low bits of the AMF Set ID are 0. *)
Theorem guti_roundtrip mccs mncs r b1 b2 t0 t1 t2 t3 :
  length mccs = 3%nat → length mncs = 2%nat ∨ length mncs = 3%nat → Forall decimal mccs → Forall decimal mncs →
  bytes_ok [r; b1; b2] → bytes_ok [t0; t1; t2; t3] →
  let guti := guti_string mccs mncs [r; b1; b2] [t0; t1; t2; t3] in
  (∃ a, GutiToNas guti = Ret a ∧ Octet a = [0x02] ++ plmn_coding mccs mncs ++ [r; b1; b2; t0; t1; t2; t3] ∧
    GutiToString (Octet a) =
    Ret (MkGuami (MkPlmnId (digit_string mccs) (digit_string mncs)) (hex_bytes [r; b1; b2]), guti)) ∧
  ∃ setId pointer, AmfIdToNas (hex_bytes [r; b1; b2]) = Ret (r, setId, pointer) ∧
    (AmfIdToModels r setId pointer = hex_bytes [r; b1; b2] ↔ b2 < 64).
Proof.
  intros H3 H23 Hc Hn Ha Ht guti. split.
  - exists (MkIE 0 11 (guti_nas mccs mncs [r; b1; b2] [t0; t1; t2; t3])). split; [by apply guti_encoded|]. split; [done|].
    cbn [Octet]. assert (∃ p0 p1 p2, plmn_coding mccs mncs = [p0; p1; p2]) as (p0&p1&p2&Ep).
    { destruct mccs as [|a [|b [|c [|]]]]; try done. destruct mncs as [|d [|e [|f [|]]]]; try (destruct H23; done); eauto. }
    unfold guti_nas. rewrite Ep. pose proof (plmn_string mccs mncs H3 H23 Hc Hn) as Hp. rewrite Ep in Hp.
    transitivity (plmnID ← PlmnIDToString [p0; p1; p2];
      mcc ← substr plmnID 0 3; mnc ← substr plmnID 3 (String.length plmnID);
      Ret (MkGuami (MkPlmnId mcc mnc) (hex_bytes [r; b1; b2]), plmnID +:+ hex_bytes [r; b1; b2] +:+ hex_bytes [t0; t1; t2; t3])); [reflexivity|].
    rewrite Hp. cbn [mbind outcome_mbind].
    destruct mccs as [|a [|b [|c [|]]]]; try done. destruct mncs as [|d [|e [|f [|]]]]; try (destruct H23; done); reflexivity.
  - eexists _, _. split; [unfold AmfIdToNas; rewrite decode_hex_bytes by done; reflexivity|].
    pose proof Ha as Hab. unfold bytes_ok in Hab. rewrite !Forall_cons in Hab. destruct Hab as (Hr&H1&H2&_).
    rewrite amf_id_models by done. unfold in_width in *. pose proof (Z.div_mod b2 64). pose proof (Z.mod_pos_bound b2 64).
    assert (0 ≤ b2 / 64 < 4) by (split; [apply Z.div_pos; lia|apply Z.div_lt_upper_bound; lia]). split.
    + intros E. apply (f_equal DecodeString) in E. rewrite !decode_hex_bytes in E by bytes.
      injection E as E. lia.
    + intros Hlt. assert (b2 / 64 = 0) as E0 by (apply Z.div_small; lia). by replace (b2 / 64 + b2 mod 64) with b2 by lia.
Qed.

Lemma guti_roundtrip_witness :
  let guti := guti_string [2; 0; 8] [9; 3] [0xca; 0xfe; 0x41] [0; 0; 0; 1] in
  guti = "20893cafe4100000001"%string ∧
  ∃ a, GutiToNas guti = Ret a ∧
    GutiToString (Octet a) = Ret (MkGuami (MkPlmnId (digit_string [2; 0; 8]) (digit_string [9; 3])) (hex_bytes [0xca; 0xfe; 0x41]), guti).
Proof.
  split; [reflexivity|].
  destruct (guti_roundtrip [2; 0; 8] [9; 3] 0xca 0xfe 0x41 0 0 0 1) as [(a&E&_&Er) _];
    [reflexivity|by left|repeat constructor; unfold decimal; lia..|bytes|bytes|].
  exists a. by split.
Defined.

(** ** Slices *)

(** A slice as the models have it: a slice type, and no differentiator or three
    octets. *)
Definition slice_ok (s : Snssai) : Prop :=
  in_width 8 (Sst s) ∧ (Sd s = ""%string ∨ ∃ a b c, bytes_ok [a; b; c] ∧ Sd s = hex_bytes [a; b; c]).

Lemma sd_not_empty a b c : bytes_ok [a; b; c] → (hex_bytes [a; b; c] =? "")%string = false.
Proof. intros Hb. apply String.eqb_neq. intros E. pose proof (hex_bytes_length _ Hb) as L. by rewrite E in L. Qed.

Lemma snssai_octets s : slice_ok s → ∃ l, SnssaiToNas s = l ∧ (1 < length l)%nat ∧
  ∀ rest, requestedSnssaiToModels (l ++ rest) = Ret (s, blen l).
Proof.
  intros [Hs Hd]. destruct s as [sst sd]. cbn [Sst Sd] in *. unfold SnssaiToNas. cbn [Sst Sd].
  destruct Hd as [->|(a&b&c&Hb&->)].
  - exists [0x01; sst]. cbn. rewrite wrap_small by done. split_and!; [done|lia|]. reflexivity.
  - rewrite sd_not_empty, decode_hex_bytes by done. exists [0x04; sst; a; b; c]. rewrite wrap_small by done. split_and!; [done|cbn; lia|].
    intros rest. transitivity (sd ← slice ([0x04; sst] ++ [a; b; c] ++ rest) 2 5; Ret (MkSnssai sst (hex_bytes sd), 5)); [reflexivity|].
    assert (slice ([4; sst] ++ [a; b; c] ++ rest) 2 5 = Ret [a; b; c]) as ->; [|reflexivity].
    unfold slice. rewrite (proj2 (Z.ltb_ge _ 5)); [reflexivity|]. unfold blen. cbn. lia.
Qed.

Lemma slice_rest {A} (a b : list A) : slice (a ++ b) (blen a) (blen (a ++ b)) = Ret b.
Proof. by apply slice_behind. Qed.
Lemma blen_app {A} (a b : list A) : blen (a ++ b) = blen a + blen b.
Proof. unfold blen. rewrite length_app. lia. Qed.

Lemma requested_one fuel a s rest acc len : slice_ok s → blen a < len →
  requested_loop (S fuel) (a ++ SnssaiToNas s ++ rest) len (blen a) acc =
  requested_loop fuel ((a ++ SnssaiToNas s) ++ rest) len (blen (a ++ SnssaiToNas s)) (acc ++ [s]).
Proof.
  intros Hs Hlt. destruct (snssai_octets s Hs) as (l&El&_&Hr). cbn [requested_loop]. rewrite (proj2 (Z.ltb_lt _ _)) by done.
  rewrite slice_rest. cbn [mbind outcome_mbind]. rewrite El, Hr. by rewrite <- app_assoc, blen_app.
Qed.

Lemma requested_all l a rest acc fuel len : Forall slice_ok l → blen (a ++ concat (SnssaiToNas <$> l)) ≤ len →
  requested_loop (length l + fuel) (a ++ concat (SnssaiToNas <$> l) ++ rest) len (blen a) acc =
  requested_loop fuel ((a ++ concat (SnssaiToNas <$> l)) ++ rest) len (blen (a ++ concat (SnssaiToNas <$> l))) (acc ++ l).
Proof.
  intros Hl. revert a acc. induction Hl as [|s l Hs _ IH]; intros a acc Hlen; cbn [length Nat.add fmap list_fmap concat] in *.
  - by rewrite !app_nil_r.
  - destruct (snssai_octets s Hs) as (ls&El&Hls&_). rewrite <- (app_assoc (SnssaiToNas s)), requested_one; [|done|].
    + rewrite app_assoc in Hlen. rewrite IH by done. by rewrite <- !app_assoc.
    + rewrite !blen_app, El in Hlen. unfold blen in *. lia.
Qed.

Lemma requested_stuck fuel a x rest acc : x ≠ 1 → x ≠ 4 →
  requested_loop fuel (a ++ x :: rest) (blen (a ++ x :: rest)) (blen a) acc = None.
Proof.
  intros H1 H4. revert acc. induction fuel as [|fuel IH]; intros acc; [done|]. cbn [requested_loop].
  rewrite (proj2 (Z.ltb_lt _ _)) by (rewrite blen_app; unfold blen; cbn; lia). rewrite slice_rest. cbn [mbind outcome_mbind].
  unfold requestedSnssaiToModels. rewrite (eq_refl : rd (x :: rest) 0 = Ret x). cbn [mbind outcome_mbind].
  rewrite (proj2 (Z.eqb_neq x 1)), (proj2 (Z.eqb_neq x 4)) by done. rewrite Z.add_0_r. apply IH.
Qed.
Lemma requested_more fuel k buf len off acc r :
  requested_loop fuel buf len off acc = Some r → requested_loop (k + fuel) buf len off acc = Some r.
Proof.
  intros E. rewrite Nat.add_comm. revert off acc E. induction fuel as [|fuel IH]; intros off acc E; [discriminate E|].
  cbn [requested_loop Nat.add] in *. destruct (off <? len); [|done]. destruct (slice _ _ _ ≫= _) as [[s n]| |]; [by apply IH|done|done].
Qed.

(** The slices of a Requested NSSAI are read back as they were written.  A
    slice with a length octet other than 1 and 4 is never passed: the loop goes
    on without end. *)
Theorem requested_nssai_roundtrip l iei : Forall slice_ok l →
  (∀ fuel, (length l < fuel)%nat →
    RequestedNssaiToModels fuel (MkIE iei (blen (concat (SnssaiToNas <$> l))) (concat (SnssaiToNas <$> l))) = Some (Ret l)) ∧
  (∀ fuel x rest, x ≠ 1 → x ≠ 4 →
    let buf := concat (SnssaiToNas <$> l) ++ x :: rest in RequestedNssaiToModels fuel (MkIE iei (blen buf) buf) = None).
Proof.
  intros Hl. unfold RequestedNssaiToModels, RequestedNSSAI.GetSNSSAIValue, RequestedNSSAI.GetLen, get_contents. cbn [Octet Len]. split.
  - intros fuel Hf. pose proof (requested_all l [] [] [] (fuel - length l) (blen (concat (SnssaiToNas <$> l))) Hl (Z.le_refl _)) as E.
    rewrite !app_nil_r in E. cbn [app] in E. replace (length l + (fuel - length l))%nat with fuel in E by lia. etransitivity; [exact E|].
    destruct (fuel - length l)%nat eqn:Ef; [lia|]. cbn [requested_loop]. by rewrite Z.ltb_irrefl.
  - intros fuel x rest H1 H4. destruct (requested_loop fuel _ _ _ _) as [r|] eqn:E; [|done].
    apply (requested_more _ (length l)) in E.
    rewrite (requested_all l [] (x :: rest) [] fuel _ Hl) in E by (cbn [app]; rewrite blen_app; unfold blen; lia).
    cbn [app] in E. by rewrite requested_stuck in E.
Qed.

Lemma requested_nssai_roundtrip_witness :
  let l := [MkSnssai 1 "010203"; MkSnssai 2 ""] in
  concat (SnssaiToNas <$> l) = [4; 1; 1; 2; 3; 1; 2] ∧
  RequestedNssaiToModels 3 (MkIE 0x2f 7 [4; 1; 1; 2; 3; 1; 2]) = Some (Ret l) ∧
  RequestedNssaiToModels 1000 (MkIE 0x2f 8 [4; 1; 1; 2; 3; 1; 2; 0]) = None.
Proof.
  intros l. destruct (requested_nssai_roundtrip l 0x2f) as [Ha Hb].
  - repeat apply Forall_cons_2; [| |apply Forall_nil_2]; (split; [unfold in_width; cbn; lia|]); [right; exists 1, 2, 3|by left].
    split; [bytes|reflexivity].
  - split; [reflexivity|]. split; [exact (Ha 3%nat ltac:(cbn; lia))|exact (Hb 1000%nat 0 [] ltac:(lia) ltac:(lia))].
Defined.

(** ** Protocol configuration options *)

Definition unit_ok (u : ProtocolOrContainerUnit) : Prop :=
  in_width 16 (ProtocolOrContainerID u) ∧ LengthofContents u = blen (Contents u) ∧ blen (Contents u) < 256.

Lemma read_front (a b : list Z) n : length a = n → read n (a ++ b) = (Some a, b).
Proof.
  intros <-. unfold read. rewrite (proj2 (Nat.ltb_ge _ _)) by (rewrite length_app; lia). by rewrite take_app_length, drop_app_length.
Qed.

Lemma unit_octets_pos u l : 0 < blen (unit_octets u ++ l).
Proof. unfold unit_octets. rewrite !blen_app. unfold blen. rewrite be_bytes_length. cbn. lia. Qed.

(** The loop over the octets of one container after another. *)
Lemma pco_read us fuel cur acc : Forall unit_ok us →
  pco_loop (3 * length us + S fuel) ReadingID (blen (concat (unit_octets <$> us))) (concat (unit_octets <$> us)) cur acc =
  Some (false, acc ++ us).
Proof.
  intros Hus. revert cur acc. induction Hus as [|u us (Hi&Hl&Hc) _ IH]; intros cur acc; [cbn; by rewrite app_nil_r|].
  cbn [fmap list_fmap concat]. set (d := concat (unit_octets <$> us)) in *. unfold unit_octets. rewrite <- !app_assoc.
  replace (3 * length (u :: us) + S fuel)%nat with (S (S (S (3 * length us + S fuel)))) by (cbn; lia).
  assert (blen (be_bytes 2 (ProtocolOrContainerID u)) = 2) as L2 by (unfold blen; by rewrite be_bytes_length).
  assert (0 ≤ blen d ∧ 0 ≤ blen (Contents u)) as [Hd0 Hc0] by (unfold blen; lia).
  rewrite !blen_app, L2. change (blen [LengthofContents u]) with 1. cbn [pco_loop].
  rewrite (proj2 (Z.ltb_lt 0 _)) by lia. cbn [negb]. rewrite read_front by by rewrite be_bytes_length.
  rewrite be_nat_bytes by exact Hi. rewrite (proj2 (Z.ltb_lt 0 _)) by lia. cbn [negb]. rewrite read_front by done.
  change (be_nat [LengthofContents u]) with (LengthofContents u). cbn [ProtocolOrContainerID LengthofContents Contents].
  destruct u as [i n c]. cbn [ProtocolOrContainerID LengthofContents Contents] in *. subst n. destruct c as [|x c].
  - change (blen []) with 0. cbn [Z.eqb]. replace (2 + (1 + (0 + blen d)) - 2 - 1) with (blen d) by lia.
    destruct us as [|u us].
    + cbn. done.
    + rewrite (proj2 (Z.ltb_lt 0 (blen d))) by (unfold d; cbn [fmap list_fmap concat]; by apply unit_octets_pos).
      cbn [negb app]. change (0 <? 0) with false. cbv iota. rewrite Z.sub_0_r, IH, <- app_assoc. done.
  - assert (0 < blen (x :: c)) as Hp by (unfold blen; cbn; lia).
    rewrite (proj2 (Z.eqb_neq _ 0)) by lia. rewrite (proj2 (Z.ltb_lt 0 _)) by lia. cbn [negb].
    rewrite (proj2 (Z.ltb_lt 0 (blen (x :: c)))) by done. rewrite read_front by (unfold blen; lia).
    replace (2 + (1 + (blen (x :: c) + blen d)) - 2 - 1 - blen (x :: c)) with (blen d) by lia. rewrite IH, <- app_assoc. done.
Qed.

Definition pco_measure (st : PCOReadingState) (n : Z) : nat :=
  (2 * Z.to_nat n + match st with ReadingContent => 1 | _ => 0 end)%nat.

Lemma read_bytes n (b : list Z) : bytes_ok b → match read n b with (Some v, b') => bytes_ok v ∧ bytes_ok b' | (None, _) => True end.
Proof. intros Hb. unfold read. destruct (length b <? n)%nat; [done|]. split; [by apply Forall_take|by apply Forall_drop]. Qed.

Lemma pco_ends fuel st n data cur acc : bytes_ok data → 0 ≤ LengthofContents cur →
  (pco_measure st n < fuel)%nat → pco_loop fuel st n data cur acc ≠ None.
Proof.
  revert st n data cur acc. induction fuel as [|fuel IH]; intros st n data cur acc Hb Hc Hf; [lia|]. cbn [pco_loop].
  destruct (Z.ltb_spec 0 n); cbn [negb]; [|done]. unfold pco_measure in *. destruct st.
  - pose proof (read_bytes 2 data Hb) as Hr. destruct (read 2 data) as [[v|] b]; [|done]. apply IH; [by destruct Hr|cbn; lia|cbn; lia].
  - pose proof (read_bytes 1 data Hb) as Hr. destruct (read 1 data) as [[v|] b]; [|done]. destruct Hr as [Hv Hb'].
    apply IH; [done|cbn; by apply be_nat_bound|cbn; lia].
  - destruct (Z.ltb_spec 0 (LengthofContents cur)).
    + pose proof (read_bytes (Z.to_nat (LengthofContents cur)) data Hb) as Hr. destruct (read _ data) as [[v|] b]; [|done].
      apply IH; [by destruct Hr|done|cbn; lia].
    + apply IH; [done|done|cbn; lia].
Qed.

(** C31. Protocol configuration options whose lengths are those of their
    contents are read back as they were written, behind those that were there;
    and the reader ends on every input, after at most twice as many rounds as
    there are octets. *)
Theorem pco_roundtrip pco old :
  (Forall unit_ok pco → ∀ fuel, (3 * length pco < fuel)%nat → UnMarshal fuel (Marshal pco) old = Some (false, old ++ pco)) ∧
  (∀ data, bytes_ok data → UnMarshal (2 * length data + 1) data old ≠ None).
Proof.
  split.
  - intros Hp fuel Hf. unfold UnMarshal, Marshal. change (read 1 (?x :: ?l)) with (Some [x], l). cbv beta iota.
    replace (blen _ - 1) with (blen (concat (unit_octets <$> pco))) by (unfold blen; cbn; lia).
    replace fuel with (3 * length pco + S (fuel - 3 * length pco - 1))%nat by lia. by apply pco_read.
  - intros data Hb. unfold UnMarshal. pose proof (read_bytes 1 data Hb) as Hr. destruct (read 1 data) as [[v|] b] eqn:E; [|done].
    apply pco_ends; [by destruct Hr|cbn; lia|]. unfold pco_measure, blen. lia.
Qed.

Lemma pco_roundtrip_witness :
  let pco := AddIPAddressAllocationViaNASSignallingUL [MkUnit 0x000d 4 [8; 8; 4; 4]] in
  Marshal pco = [0x80; 0; 0x0d; 4; 8; 8; 4; 4; 0; 0x0a; 0] ∧
  UnMarshal 7 [0x80; 0; 0x0d; 4; 8; 8; 4; 4; 0; 0x0a; 0] [] = Some (false, pco) ∧
  UnMarshal 9 [0x80; 0; 0x0d; 4] [] ≠ None.
Proof.
  intros pco. destruct (pco_roundtrip pco []) as [Ha Hb]. split; [reflexivity|]. split.
  - apply Ha; [|cbn; lia]. repeat apply Forall_cons_2; [..|apply Forall_nil_2]; unfold unit_ok, in_width, blen; cbn; lia.
  - apply (Hb [0x80; 0; 0x0d; 4]). bytes.
Defined.
