(* ===== verification/NasProtect.v ===== *)
(** * NAS message protection

    ue/nas/message/nas_control/integrity-ciphering-nas.go and the first half of
    ue/nas/dispatcher.go: what protects an uplink message and what checks,
    deciphers and decodes a downlink one, with the NAS counts. *)

From S2P Require Import Prelude GoStrings Aes Milenage Snow3g NasSecurity UeContext NasMessage NasLayouts NasCodec Chaos.

#[local] Open Scope Z_scope.
#[local] Open Scope go_scope.

(** ** integrity-ciphering-nas.go *)

Definition getNasMsgType_gmm : list (Z * string) := (
  [(0x41, "RegistrationRequest"); (0x42, "RegistrationAccept"); (0x43, "RegistrationComplete");
   (0x44, "RegistrationReject"); (0x45, "DeregistrationRequest"); (0x46, "DeregistrationAccept");
   (0x54, "ServiceRequest"); (0x56, "ServiceReject"); (0x57, "ServiceAccept");
   (0x64, "AuthenticationRequest"); (0x65, "AuthenticationResponse"); (0x67, "AuthenticationFailure");
   (0x68, "SecurityModeCommand"); (0x69, "SecurityModeComplete"); (0x6a, "SecurityModeReject");
   (0x6e, "IdentityRequest"); (0x6f, "IdentityResponse")])%string.

Definition getNasMsgType_gsm : list (Z * string) := (
  [(0xc1, "PduSessionEstablishmentRequest"); (0xc2, "PduSessionEstablishmentAccept");
   (0xc3, "PduSessionEstablishmentReject"); (0xc5, "PduSessionModificationRequest");
   (0xc6, "PduSessionModificationCommand"); (0xc7, "PduSessionModificationComplete");
   (0xca, "PduSessionReleaseRequest"); (0xcb, "PduSessionReleaseCommand");
   (0xcc, "PduSessionReleaseComplete")])%string.

Definition getNasMsgType (m : Message) : string :=
  let gsm := match c ← GsmMessage m; switch getNasMsgType_gsm (GetMessageType c) with
             | Some s => s | None => "NAS-Message"%string end in
  match c ← GmmMessage m; switch getNasMsgType_gmm (GetMessageType c) with Some s => s | None => gsm end.

Section Protect.
Context (cmac_sum : list Z → list Z → outcome (list Z)).
#[local] Abbreviation NASMacCalculate := (NASMacCalculate cmac_sum).

Definition with_counts (f : SECURITY → SECURITY) (ue : UEContext) : UEContext := with_UeSecurity (f (UeSecurity ue)) ue.

(** The octets or the error, the UE with its counts, and the SNOW 3G globals. *)
Definition NASEncode (ue : UEContext) (msg : Message) (securityContextAvailable newSecurityContext : bool) (g : snow)
  : outcome ((list Z + string) * UEContext * snow) :=
  if negb securityContextAvailable then
    '(b, e) ← PlainNasEncode msg; Ret (match e with None => inl b | Some e => inr e end, ue, g)
  else
    let ue := if newSecurityContext
      then with_counts (λ s, with_DLCount (Count.Set_ 0 0 (DLCount s)) (with_ULCount (Count.Set_ 0 0 (ULCount s)) s)) ue
      else ue in
    let sec := UeSecurity ue in
    let sequenceNumber := Count.SQN (ULCount sec) in
    '(payload, e) ← PlainNasEncode msg;
    match e with
    | Some e => Ret (inr e, ue, g)
    | None =>
      match NASEncrypt (CipheringAlg sec) (KnasEnc sec) (Count.Get (ULCount sec)) Bearer3GPP DirectionUplink (Some payload) g with
      | Panic => Panic
      | Fail e => Ret (inr e, ue, g)
      | Ret (g, payload) =>
        let payload := sequenceNumber :: payload in
        match NASMacCalculate (IntegrityAlg sec) (KnasInt sec) (Count.Get (ULCount sec)) Bearer3GPP DirectionUplink (Some payload) g with
        | Panic => Panic
        | Fail e => Ret (inr e, ue, g)
        | Ret (g, mac32) =>
          let payload := [ProtocolDiscriminator msg; SecurityHeaderType msg] ++ default [] mac32 ++ payload in
          Ret (inl payload, with_counts (λ s, with_ULCount (Count.AddOne (ULCount s)) s) ue, g)
        end
      end
    end.

(** Returns the map of last message types as well, which it records in. *)
Definition EncodeNasPduWithSecurity (ue : UEContext) (pdu : list Z) (securityHeaderType : Z)
    (securityContextAvailable newSecurityContext : bool) (last : gmap Z string) (g : snow)
  : outcome ((list Z + string) * UEContext * gmap Z string * snow) :=
  '(m, e) ← PlainNasDecode NewMessage pdu;
  match e with
  | Some e => Ret (inr e, ue, last, g)
  | None =>
    let last := SetLastNasMsgType (id ue) (getNasMsgType m) last in
    let m := MkMessage Epd5GSMobilityManagementMessage securityHeaderType (GmmMessage m) (GsmMessage m) in
    '(r, ue, g) ← NASEncode ue m securityContextAvailable newSecurityContext g; Ret (r, ue, last, g)
  end.

(** ** dispatcher.go *)

(** Whether a protected message is ciphered and starts a new context. *)
Definition header_ciphered (t : Z) : bool := (t =? 2) || (t =? 4).
Definition header_new_context (t : Z) : bool := (t =? 3) || (t =? 4).

(** The count expected for a downlink sequence number. *)
Definition downlink_count (t sequenceNumber count : Z) : Z :=
  let count := if header_new_context t then Count.Set_ 0 0 count else count in
  let count := if Count.SQN count >? sequenceNumber then Count.SetOverflow (u16 (Count.Overflow count + 1)) count else count in
  Count.SetSQN sequenceNumber count.

(** DispatchNas before its switch: the message to handle, if it gets that far. *)
Definition receive (ue : UEContext) (message : list Z) (g : snow) : outcome (option Message * UEContext * snow) :=
  t ← GetSecurityHeaderType message;
  let m := MkMessage 0 (t & 0x0f) None None in
  if negb (SecurityHeaderType m =? 0) then
    sequenceNumber ← rd message 6;
    macReceived ← slice message 2 6;
    payload ← slice message 6 (blen message);
    let ue := with_counts (λ s, with_DLCount (downlink_count (SecurityHeaderType m) sequenceNumber (DLCount s)) s) ue in
    let sec := UeSecurity ue in
    match NASMacCalculate (IntegrityAlg sec) (KnasInt sec) (Count.Get (DLCount sec)) Bearer3GPP DirectionDownlink (Some payload) g with
    | Panic => Panic
    | Fail _ => Ret (None, ue, g)
    | Ret (g, mac32) =>
      if negb (bool_decide (mac32 = Some macReceived)) then Ret (None, ue, g) else
      let deciphered := if header_ciphered (SecurityHeaderType m)
        then NASEncrypt (CipheringAlg sec) (KnasEnc sec) (Count.Get (DLCount sec)) Bearer3GPP DirectionDownlink
               (Some (drop 1 payload)) g
        else Ret (g, drop 1 payload) in
      match deciphered with
      | Panic => Panic
      | Fail _ => Ret (None, ue, g)
      | Ret (g, payload) => '(m, _) ← PlainNasDecode m payload; Ret (Some m, ue, g)
      end
    end
  else '(m, _) ← PlainNasDecode m message; Ret (Some m, ue, g).
End Protect.

(** ** Streams and MACs *)

Lemma bytes4_width w : bytes_ok (bytes4 w).
Proof. unfold bytes4. repeat (constructor; [apply wrap_in_width; lia|]). constructor. Qed.

Lemma join_ok (ls : list (list Z)) : Forall bytes_ok ls → bytes_ok (mjoin ls).
Proof. induction 1 as [|l ls Hl _ IH]; [constructor|]. cbn. by apply Forall_app. Qed.

Lemma nas_stream_ok alg key count bearer direction n : block key → bytes_ok (nas_stream alg key count bearer direction n).
Proof.
  intros Hk. unfold nas_stream. destruct (alg =? AlgCiphering128NEA1).
  - apply join_ok, Forall_fmap, Forall_true. intros w. apply bytes4_width.
  - destruct (alg =? AlgCiphering128NEA2).
    + unfold ctr_stream. apply Forall_take, join_ok, Forall_fmap, Forall_true. intros i.
      apply encrypt128_block; [done|]. split; [apply be_bytes_length|apply be_bytes_ok].
    + apply Forall_replicate, in_width_0. lia.
Qed.

Lemma zip_lxor_ok a b : bytes_ok a → bytes_ok b → bytes_ok (zip_with Z.lxor a b).
Proof. exact (xor_bytes a b). Qed.

Definition supported_int (alg : Z) : Prop := alg = AlgIntegrity128NIA1 ∨ alg = AlgIntegrity128NIA2.

(** Downlink counts with the overflow carried to the next wrap. *)
Lemma downlink_count_sync d c : in_width 24 d → in_width 24 c → d ≤ c < d + 256 →
  (let d' := if Count.SQN d >? c mod 256 then Count.SetOverflow (u16 (Count.Overflow d + 1)) d else d in
   Count.SetSQN (c mod 256) d') = c.
Proof.
  intros Hd Hc Hdc.
  destruct (parts_ex d (in_width_mono 24 32 d ltac:(lia) Hd)) as (t&o&s&->&Ht&Ho&Hs).
  assert (in_width 8 (c mod 256)) as Hm by (apply Z.mod_pos_bound; lia).
  assert (t = 0) as -> by (unfold parts, in_width in *; change (2 ^ 24) with 16777216 in *; lia).
  destruct (count_ops 0 o s) as (->&->&_&H1&H2); [done..|]. cbv zeta.
  pose proof (Z.div_mod c 256 ltac:(lia)) as E. unfold parts, in_width in *.
  change (2 ^ 24) with 16777216 in *. change (2 ^ 16) with 65536 in *. change (2 ^ 8) with 256 in *.
  destruct (Z.gtb_spec s (c mod 256)).
  - assert (u16 (o + 1) = o + 1) as E1 by (apply wrap_small; unfold in_width; change (2 ^ 16) with 65536; lia).
    rewrite E1, H2 by lia. destruct (count_ops 0 (o + 1) s) as (_&_&_&H3&_); [done|unfold in_width; change (2 ^ 16) with 65536; lia|done|].
    unfold parts in H3. change (2 ^ 8) with 256 in H3. change (2 ^ 24) with 16777216 in H3. unfold parts. rewrite H3 by done. lia.
  - rewrite H1 by done. lia.
Qed.

Section Theorems.
Context (cmac_sum : list Z → list Z → outcome (list Z)).
Context (Hcmac : ∀ k m, ∃ t, cmac_sum k m = Ret t ∧ length t = 16%nat).

(** The MAC of 33.501 D.3.1 with the algorithm of the code. *)
Definition nas_mac (alg : Z) (key : list Z) (count direction : Z) (msg : list Z) : list Z :=
  if alg =? AlgIntegrity128NIA1 then Eia1.mac key count Bearer3GPP direction msg
  else match cmac_sum key (nea2_iv_8 count Bearer3GPP direction ++ msg) with Ret t => take 4 t | _ => [] end.

Definition nas_cipher (alg : Z) (key : list Z) (count direction : Z) (p : list Z) : list Z :=
  zip_with Z.lxor p (nas_stream alg key count Bearer3GPP direction (length p)).

(** The NAS security context of a UE. *)
Record secured (sec : SECURITY) : Prop := {
  s_enc : supported_enc (CipheringAlg sec);
  s_int : supported_int (IntegrityAlg sec);
  s_kenc : block (KnasEnc sec);
  s_kint : block (KnasInt sec);
  s_ul : in_width 24 (ULCount sec);
  s_dl : in_width 24 (DLCount sec);
}.

(** A plain message the algorithms can take. *)
Definition plain_ok (p : list Z) : Prop := payload_ok p ∧ bytes_ok p.

Lemma mac_run alg key count direction msg g :
  supported_int alg → block key → in_width 32 count → direction ≤ 1 → globals_ok g →
  bytes_ok msg → (0 < length msg)%nat → 8 * blen msg + 63 < 2 ^ 64 →
  ∃ g', globals_ok g' ∧ length (nas_mac alg key count direction msg) = 4%nat ∧
    NASMacCalculate cmac_sum alg key count Bearer3GPP direction (Some msg) g =
    Ret (g', Some (nas_mac alg key count direction msg)).
Proof.
  intros Ha Hk Hc Hd Hg Hm Hn Hl. unfold NASMacCalculate. rewrite !Z.gtb_ltb.
  rewrite (proj2 (Z.ltb_ge _ Bearer3GPP)), (proj2 (Z.ltb_ge _ direction)) by (done || lia).
  destruct Ha as [-> | ->]; unfold nas_mac; cbn [Z.eqb Pos.eqb AlgIntegrity128NIA0 AlgIntegrity128NIA1 AlgIntegrity128NIA2].
  - rewrite (wrap_small 64) by (unfold in_width, blen in *; lia). rewrite (Z.mul_comm (blen msg)).
    destruct (NIA1_spec key count Bearer3GPP direction msg g) as (g'&Hg'&->); try done.
    exists g'. split; [done|]. split; [|done]. unfold Eia1.mac.
    destruct (eia1_iv_words count Bearer3GPP direction Hc) as [Hivw _]. destruct (key_words_rev_spec key Hk) as [_ Hkw].
    destruct (keystream_run (k4 key) (Eia1.iv count Bearer3GPP direction) 5 g (replicate 5 0) Hkw Hivw Hg)
      as (?&_&_&Hlk&_); [reflexivity|].
    by destruct (Uea2.keystream _ _ 5) as [|z1 [|z2 [|z3 [|z4 [|z5 [|? ?]]]]]].
  - destruct (Hcmac key (nea2_iv_8 count Bearer3GPP direction ++ msg)) as (t&Ht&Hlt). rewrite Ht.
    rewrite (NIA2_spec cmac_sum key count Bearer3GPP direction msg t Ht) by lia.
    exists g. split; [done|]. split; [rewrite length_take; lia|done].
Qed.

Lemma cipher_run alg key count direction p g :
  supported_enc alg → block key → in_width 32 count → direction ≤ 1 → globals_ok g → plain_ok p →
  ∃ g', globals_ok g' ∧ length (nas_cipher alg key count direction p) = length p ∧
    plain_ok (nas_cipher alg key count direction p) ∧
    NASEncrypt alg key count Bearer3GPP direction (Some p) g = Ret (g', nas_cipher alg key count direction p).
Proof.
  intros Ha Hk Hc Hd Hg [Hp Hb].
  destruct (NASEncrypt_stream alg key count Bearer3GPP direction p g) as (g'&Hg'&E); [done..|].
  pose proof (nas_stream_length alg key count Bearer3GPP direction _ g Hk Hc Hg (proj1 Hp)) as Hs.
  assert (length (nas_cipher alg key count direction p) = length p) as Hlen
    by (unfold nas_cipher; rewrite length_zip_with; lia).
  exists g'. split; [done|]. split; [done|]. split; [|done]. split.
  - unfold payload_ok, blen in *. by rewrite Hlen.
  - by apply zip_lxor_ok, nas_stream_ok.
Qed.

Lemma cipher_twice alg key count direction p g :
  block key → in_width 32 count → globals_ok g → (0 < length p)%nat →
  nas_cipher alg key count direction (nas_cipher alg key count direction p) = p.
Proof.
  intros Hk Hc Hg Hn. pose proof (nas_stream_length alg key count Bearer3GPP direction _ g Hk Hc Hg Hn) as Hs.
  unfold nas_cipher at 1. assert (length (nas_cipher alg key count direction p) = length p) as ->
    by (unfold nas_cipher; rewrite length_zip_with; lia).
  unfold nas_cipher. by rewrite zip_lxor_involutive.
Qed.

(** The protected message of the sender with count [count]. *)
Definition protected (epd t : Z) (sec : SECURITY) (count direction : Z) (contents : list Z) : list Z :=
  let body := count mod 256 :: contents in
  [epd; t] ++ nas_mac (IntegrityAlg sec) (KnasInt sec) count direction body ++ body.

Lemma sqn_mod c : in_width 24 c → Count.SQN c = c mod 256.
Proof.
  intros H. destruct (parts_ex c (in_width_mono 24 32 c ltac:(lia) H)) as (t&o&s&->&Ht&Ho&Hs).
  destruct (count_ops t o s) as (->&_); [done..|]. unfold parts, in_width in *.
  change (2 ^ 24) with (65536 * 256). change (2 ^ 8) with 256 in *.
  replace (t * (65536 * 256) + (o * 256 + s)) with (s + (t * 65536 + o) * 256) by lia.
  rewrite Z.mod_add by lia. by rewrite Z.mod_small.
Qed.

Lemma set_zero c : in_width 24 c → Count.Set_ 0 0 c = 0.
Proof.
  intros H. destruct (parts_ex c (in_width_mono 24 32 c ltac:(lia) H)) as (t&o&s&->&Ht&Ho&Hs).
  assert (t = 0) as -> by (unfold parts, in_width in *; change (2 ^ 24) with 16777216 in *; lia).
  rewrite count_set by (done || apply in_width_0; lia). reflexivity.
Qed.

Lemma body_ok count p : plain_ok p → bytes_ok (count mod 256 :: p) ∧ 8 * blen (count mod 256 :: p) + 63 < 2 ^ 64.
Proof.
  intros [[Hn Hl] Hb]. split; [apply Forall_cons; split; [apply Z.mod_pos_bound; lia|done]|].
  unfold blen in *. cbn [length]. change (2 ^ 32) with 4294967296 in Hl. change (2 ^ 64) with 18446744073709551616. lia.
Qed.

Lemma secured_counts sec ul (new : bool) : secured sec →
  secured (with_DLCount (if new then 0 else DLCount sec) (with_ULCount ((ul + 1) mod 2 ^ 24) sec)).
Proof.
  intros [H1 H2 H3 H4 H5 H6]. split; try done; cbn; [apply Z.mod_pos_bound; lia|].
  destruct new; [apply in_width_0; lia|done].
Qed.

(** A successful run of [NASEncode]: the message, and the UE with its counts. *)
Lemma NASEncode_run ue m p (new : bool) g :
  secured (UeSecurity ue) → globals_ok g → PlainNasEncode m = Ret (p, None) → plain_ok p →
  let sec := UeSecurity ue in
  let count := if new then 0 else ULCount sec in
  ∃ c g', NASEncode cmac_sum ue m true new g =
      Ret (inl (protected (ProtocolDiscriminator m) (SecurityHeaderType m) sec count DirectionUplink c),
        with_UeSecurity (with_DLCount (if new then 0 else DLCount sec) (with_ULCount ((count + 1) mod 2 ^ 24) sec)) ue, g') ∧
    nas_cipher (CipheringAlg sec) (KnasEnc sec) count DirectionUplink c = p ∧ globals_ok g'.
Proof.
  intros [H1 H2 H3 H4 H5 H6] Hg Hp Hpl sec count. fold sec in H1, H2, H3, H4, H5, H6.
  assert (in_width 24 count) as Hc by (unfold count; destruct new; [apply in_width_0; lia|done]).
  assert (in_width 32 count) as Hc32 by (apply (in_width_mono 24); [lia|done]).
  destruct (cipher_run (CipheringAlg sec) (KnasEnc sec) count DirectionUplink p g)
    as (g1&Hg1&Hl1&Hok1&E1); [done..|].
  set (c := nas_cipher (CipheringAlg sec) (KnasEnc sec) count DirectionUplink p) in *.
  destruct (body_ok count c Hok1) as [Hb1 Hb2].
  destruct (mac_run (IntegrityAlg sec) (KnasInt sec) count DirectionUplink (count mod 256 :: c) g1)
    as (g2&Hg2&_&E2); [done..|simpl; lia|done|].
  exists c, g2. split.
  - unfold NASEncode. cbn [negb]. set (ue1 := if new then _ else ue).
    assert (ue1 = with_UeSecurity (with_DLCount (if new then 0 else DLCount sec) (with_ULCount count sec)) ue) as ->.
    { unfold ue1, count, with_counts. destruct new.
      - fold sec. by rewrite (set_zero (ULCount sec)), (set_zero (DLCount sec)) by done.
      - unfold sec, with_DLCount, with_ULCount, with_UeSecurity. by destruct ue as [? []]. }
    rewrite Hp. cbn [mbind outcome_mbind UeSecurity with_UeSecurity ULCount with_DLCount with_ULCount CipheringAlg KnasEnc IntegrityAlg KnasInt].
    unfold Count.Get. rewrite E1, sqn_mod, E2 by done. rewrite <-(count_addone count) by done. reflexivity.
  - split; [apply (cipher_twice _ _ _ _ _ g); (done || apply Hpl)|done].
Qed.

(** C19. A protected uplink message: NASEncode adds the sequence number of the
    uplink count (0 in a new context), the MAC of TS 33.501 over it and the
    ciphered message, and the two header octets; deciphering under the same
    count gives the plain message, and the count advances by one modulo 2^24. *)
Theorem nas_uplink_protection ue m p new g :
  secured (UeSecurity ue) → globals_ok g → PlainNasEncode m = Ret (p, None) → plain_ok p →
  let sec := UeSecurity ue in
  let count := if new : bool then 0 else ULCount sec in
  ∃ c ue' g', NASEncode cmac_sum ue m true new g =
      Ret (inl (protected (ProtocolDiscriminator m) (SecurityHeaderType m) sec count DirectionUplink c), ue', g') ∧
    nas_cipher (CipheringAlg sec) (KnasEnc sec) count DirectionUplink c = p ∧
    globals_ok g' ∧ secured (UeSecurity ue') ∧ ULCount (UeSecurity ue') = (count + 1) mod 2 ^ 24 ∧
    DLCount (UeSecurity ue') = if new then 0 else DLCount sec.
Proof.
  intros Hs Hg Hp Hpl sec count. destruct (NASEncode_run ue m p new g Hs Hg Hp Hpl) as (c&g'&E&Hc&Hg').
  exists c. do 2 eexists. split; [exact E|]. split; [done|]. split; [done|].
  split; [|by cbn]. by apply secured_counts.
Qed.

(** The parts [receive] takes a protected message apart into. *)
Lemma receive_parts ue epd t mac x seq g : length mac = 4%nat → 1 ≤ t ≤ 4 →
  receive cmac_sum ue ([epd; t] ++ mac ++ seq :: x) g =
  let ue := with_counts (λ s, with_DLCount (downlink_count t seq (DLCount s)) s) ue in
  let sec := UeSecurity ue in
  match NASMacCalculate cmac_sum (IntegrityAlg sec) (KnasInt sec) (Count.Get (DLCount sec)) Bearer3GPP DirectionDownlink
    (Some (seq :: x)) g with
  | Panic => Panic
  | Fail _ => Ret (None, ue, g)
  | Ret (g, mac32) =>
    if negb (bool_decide (mac32 = Some mac)) then Ret (None, ue, g) else
    match (if header_ciphered t then NASEncrypt (CipheringAlg sec) (KnasEnc sec) (Count.Get (DLCount sec)) Bearer3GPP
             DirectionDownlink (Some (drop 1 (seq :: x))) g else Ret (g, drop 1 (seq :: x))) with
    | Panic => Panic
    | Fail _ => Ret (None, ue, g)
    | Ret (g, payload) => '(m, _) ← PlainNasDecode (MkMessage 0 t None None) payload; Ret (Some m, ue, g)
    end
  end.
Proof.
  intros Hl Ht. destruct mac as [|m0 [|m1 [|m2 [|m3 [|]]]]]; try discriminate Hl. clear Hl.
  assert (t & 0x0f = t) as Htl.
  { change 0x0f with (Z.ones 4). rewrite Z.land_ones by lia. apply Z.mod_small. lia. }
  set (msg := [epd; t] ++ [m0; m1; m2; m3] ++ seq :: x).
  assert (slice msg 2 6 = Ret [m0; m1; m2; m3] ∧ slice msg 6 (blen msg) = Ret (seq :: x)) as [Es1 Es2].
  { assert (blen msg = 7 + blen x) as Eb by (unfold msg, blen; cbn [app length]; lia).
    split; [|rewrite slice_from by (unfold blen in *; lia); reflexivity].
    unfold slice. rewrite Eb. change ((2 <? 0) || (6 <? 2)) with false.
    destruct (Z.ltb_spec (7 + blen x) 6); [unfold blen in *; lia|reflexivity]. }
  unfold receive. change (GetSecurityHeaderType msg) with (Ret t). cbn [mbind outcome_mbind SecurityHeaderType].
  rewrite Htl. destruct (Z.eqb_spec t 0); [lia|]. cbn [negb].
  change (rd msg 6) with (Ret seq). cbn [mbind outcome_mbind]. by rewrite Es1, Es2.
Qed.

(** A genuine downlink message under the count [c]. *)
Lemma receive_run ue t c p g m e :
  let sec := UeSecurity ue in
  secured sec → globals_ok g → 1 ≤ t ≤ 4 → plain_ok p → in_width 24 c →
  (let d := if header_new_context t then 0 else DLCount sec in d ≤ c < d + 256) →
  PlainNasDecode (MkMessage 0 t None None) p = Ret (m, e) →
  ∃ g', globals_ok g' ∧
    receive cmac_sum ue (protected Epd5GSMobilityManagementMessage t sec c DirectionDownlink
      (if header_ciphered t then nas_cipher (CipheringAlg sec) (KnasEnc sec) c DirectionDownlink p else p)) g =
    Ret (Some m, with_UeSecurity (with_DLCount c sec) ue, g').
Proof.
  intros sec [H1 H2 H3 H4 H5 H6] Hg Ht Hp Hc Hd Hm.
  assert (in_width 32 c) as Hc32 by (apply (in_width_mono 24); [lia|done]).
  set (x := if header_ciphered t then _ else p).
  assert (plain_ok x) as Hx.
  { unfold x. destruct (header_ciphered t); [|done].
    by destruct (cipher_run (CipheringAlg sec) (KnasEnc sec) c DirectionDownlink p g) as (?&_&_&?&_). }
  destruct (body_ok c x Hx) as [Hb1 Hb2].
  destruct (mac_run (IntegrityAlg sec) (KnasInt sec) c DirectionDownlink (c mod 256 :: x) g)
    as (g1&Hg1&Hl&E1); [done..|simpl; lia|done|].
  unfold protected. cbv zeta. set (mac := nas_mac _ _ _ _ _) in *.
  assert (downlink_count t (c mod 256) (DLCount sec) = c) as Hcount.
  { unfold downlink_count. destruct (header_new_context t).
    - rewrite set_zero by done. apply downlink_count_sync; [apply in_width_0; lia|done..].
    - by apply downlink_count_sync. }
  rewrite receive_parts by done. cbv zeta. cbn [UeSecurity with_counts with_UeSecurity DLCount with_DLCount IntegrityAlg KnasInt CipheringAlg KnasEnc].
  fold sec. rewrite Hcount. unfold Count.Get. rewrite E1. rewrite bool_decide_true by done. cbn [negb drop]. rewrite !drop_0.
  unfold x. destruct (header_ciphered t).
  - destruct (cipher_run (CipheringAlg sec) (KnasEnc sec) c DirectionDownlink x g1) as (g2&Hg2&_&_&E2); [done..|].
    unfold x in E2. rewrite E2. exists g2. split; [done|].
    rewrite (cipher_twice _ _ _ _ _ g) by (done || apply Hp). rewrite Hm.
    unfold with_counts. fold sec. rewrite Hcount. reflexivity.
  - exists g1. split; [done|]. rewrite Hm. unfold with_counts. fold sec. rewrite Hcount. reflexivity.
Qed.

(** C20. A downlink message the network protected with count [c] is handled as
    its plain text, and the UE's downlink count becomes [c], as long as fewer
    than 256 counts were lost since the last one (or since the start of a new
    context): the overflow is carried over the wrap of the sequence number. *)
Theorem nas_downlink_roundtrip ue t c p g m e :
  let sec := UeSecurity ue in
  secured sec → globals_ok g → 1 ≤ t ≤ 4 → plain_ok p → in_width 24 c →
  (let d := if header_new_context t then 0 else DLCount sec in d ≤ c < d + 256) →
  PlainNasDecode (MkMessage 0 t None None) p = Ret (m, e) →
  ∃ g', globals_ok g' ∧
    receive cmac_sum ue (protected Epd5GSMobilityManagementMessage t sec c DirectionDownlink
      (if header_ciphered t then nas_cipher (CipheringAlg sec) (KnasEnc sec) c DirectionDownlink p else p)) g =
    Ret (Some m, with_UeSecurity (with_DLCount c sec) ue, g').
Proof. exact (receive_run ue t c p g m e). Qed.

(** C40. The downlink count moves before the MAC is checked: a forged message is
    dropped, but its sequence number stays in the count, and after one with
    sequence number 255 the genuine next message is checked under a count that
    is 256 too high. *)
Theorem nas_forged_downlink ue epd t mac seq x g :
  let sec := UeSecurity ue in
  let c := downlink_count t seq (DLCount sec) in
  secured sec → globals_ok g → 1 ≤ t ≤ 2 → length mac = 4%nat → bytes_ok (seq :: x) → 8 * blen (seq :: x) + 63 < 2 ^ 64 →
  in_width 32 c → mac ≠ nas_mac (IntegrityAlg sec) (KnasInt sec) c DirectionDownlink (seq :: x) →
  (∃ g', receive cmac_sum ue ([epd; t] ++ mac ++ seq :: x) g = Ret (None, with_UeSecurity (with_DLCount c sec) ue, g')) ∧
  (seq = 255 → ∀ n, DLCount sec < n → n / 256 = DLCount sec / 256 → n mod 256 < 255 → n + 256 < 2 ^ 24 →
     downlink_count t (n mod 256) c = n + 256).
Proof.
  intros sec c [H1 H2 H3 H4 H5 H6] Hg Ht Hl Hb Hsm Hc Hmac.
  assert (header_new_context t = false) as Hnew by (unfold header_new_context; lia).
  split.
  - rewrite receive_parts by (done || lia). cbv zeta.
    cbn [UeSecurity with_counts with_UeSecurity DLCount with_DLCount IntegrityAlg KnasInt CipheringAlg KnasEnc].
    fold sec. fold c. unfold Count.Get.
    destruct (mac_run (IntegrityAlg sec) (KnasInt sec) c DirectionDownlink (seq :: x) g)
      as (g1&_&_&E1); [done..|simpl; lia|done|].
    rewrite E1, bool_decide_false by congruence. by exists g1.
  - intros -> n Hn Hdiv Hmod Hmax. unfold c, downlink_count. rewrite Hnew. fold sec in H6.
    assert (in_width 24 n) as Hnw by (unfold in_width in *; lia).
    pose proof (Z.mod_pos_bound (DLCount sec) 256 ltac:(lia)). pose proof (Z.mod_pos_bound n 256 ltac:(lia)).
    pose proof (Z.div_mod (DLCount sec) 256 ltac:(lia)). pose proof (Z.div_mod n 256 ltac:(lia)).
    set (w := DLCount sec / 256 * 256 + 255) in *.
    assert (in_width 24 w) as Hw by (unfold w, in_width in *; change (2 ^ 24) with 16777216 in *; lia).
    assert (w mod 256 = 255) as Ew by (unfold w; rewrite Z.add_comm, Z.mod_add by lia; done).
    pose proof (downlink_count_sync (DLCount sec) w H6 Hw) as E1. cbv zeta in E1. rewrite Ew in E1. rewrite E1 by (unfold w; lia).
    assert (in_width 24 (n + 256)) as Hnw' by (unfold in_width in *; lia).
    pose proof (downlink_count_sync w (n + 256) Hw Hnw') as E2. cbv zeta in E2.
    assert ((n + 256) mod 256 = n mod 256) as Em by (rewrite <-(Z.mod_add n 1 256) by lia; f_equal; lia).
    rewrite Em in E2. apply E2. unfold w. lia.
Qed.

(** Without an integrity algorithm (NIA0, NIA3) there is no MAC: uplink
    messages carry no MAC octets, and every protected downlink message is
    dropped, because no four octets equal the missing MAC. *)
Theorem nas_null_integrity ue alg m p g :
  let sec := UeSecurity ue in
  IntegrityAlg sec = alg → alg = AlgIntegrity128NIA0 ∨ alg = AlgIntegrity128NIA3 →
  supported_enc (CipheringAlg sec) → block (KnasEnc sec) → in_width 24 (ULCount sec) → globals_ok g →
  PlainNasEncode m = Ret (p, None) → plain_ok p →
  (∃ ue' g', NASEncode cmac_sum ue m true false g =
     Ret (inl ([ProtocolDiscriminator m; SecurityHeaderType m] ++
       ULCount sec mod 256 :: nas_cipher (CipheringAlg sec) (KnasEnc sec) (ULCount sec) DirectionUplink p), ue', g')) ∧
  ∀ epd t mac seq x, 1 ≤ t ≤ 4 → length mac = 4%nat →
    ∃ ue', receive cmac_sum ue ([epd; t] ++ mac ++ seq :: x) g = Ret (None, ue', g).
Proof.
  intros sec Halg Ha H1 H3 H5 Hg Hp Hpl. split.
  - destruct (cipher_run (CipheringAlg sec) (KnasEnc sec) (ULCount sec) DirectionUplink p g)
      as (g1&Hg1&Hl1&Hok1&E1); [done|done|by apply (in_width_mono 24); [lia|]|done..|].
    do 2 eexists. unfold NASEncode. cbn [negb]. fold sec. rewrite Hp. cbn [mbind outcome_mbind]. unfold Count.Get.
    rewrite E1, sqn_mod, Halg by done. destruct Ha as [-> | ->]; reflexivity.
  - intros epd t mac seq x Ht Hl. eexists. rewrite receive_parts by done. cbv zeta.
    cbn [UeSecurity with_counts with_UeSecurity IntegrityAlg with_DLCount]. fold sec. rewrite Halg.
    destruct Ha as [-> | ->]; reflexivity.
Qed.
End Theorems.

(** ** A UE with a security context *)

Definition demo_cmac (_ msg : list Z) : outcome (list Z) := Ret (replicate 16 (foldl Z.lxor 0x5a msg)).
Lemma demo_cmac_ok k m : ∃ t, demo_cmac k m = Ret t ∧ length t = 16%nat.
Proof. by eexists. Qed.

(** NEA2 with the given integrity algorithm; uplink count 255, downlink count 5. *)
Definition demo_secured (ia : Z) : UEContext :=
  with_UeSecurity (MkSec "" "" "" "" 255 5 2 ia "" (seqZ 0 16) (seqZ 16 16) [] (MkAuth "" "" "" "" "") (0, []) (zeros 4) 0) blank_ue.
Definition demo_complete : Message :=
  MkMessage Epd5GSMobilityManagementMessage 2 (Some (MkContents [0x7e; 0; 85] {[ 85 := elements (gmm_head "ConfigurationUpdateCompleteMessageIdentity" 85) ]})) None.

Lemma demo_secured_ok : secured (UeSecurity (demo_secured 2)).
Proof.
  split; [by right; right|by right|..]; try (apply block_dec; vm_compute; reflexivity); vm_compute; (split; [discriminate|reflexivity]).
Qed.

#[local] Ltac side :=
  first [ exact demo_cmac_ok | exact demo_secured_ok | vm_compute; split; [discriminate|reflexivity]
        | apply block_dec; vm_compute; reflexivity | vm_compute; reflexivity | vm_compute; auto; fail
        | split; [split; [simpl; lia|vm_compute; reflexivity]|apply bytes_dec; vm_compute; reflexivity] | apply bytes_dec; vm_compute; reflexivity
        | lia ].

Lemma nas_uplink_protection_witness :
  let sec := UeSecurity (demo_secured 2) in
  ∃ c ue' g', NASEncode demo_cmac (demo_secured 2) demo_complete true false globals0 =
      Ret (inl (protected demo_cmac 0x7e 2 sec 255 DirectionUplink c), ue', g') ∧
    nas_cipher 2 (seqZ 0 16) 255 DirectionUplink c = [0x7e; 0; 85] ∧
    globals_ok g' ∧ secured (UeSecurity ue') ∧ ULCount (UeSecurity ue') = 256 ∧ DLCount (UeSecurity ue') = 5.
Proof.
  exact (nas_uplink_protection demo_cmac demo_cmac_ok (demo_secured 2) demo_complete [0x7e; 0; 85] false globals0
    demo_secured_ok ltac:(side) ltac:(side) ltac:(side)).
Defined.

Lemma nas_downlink_roundtrip_witness :
  ∃ m g', globals_ok g' ∧
    receive demo_cmac (demo_secured 2) (protected demo_cmac 0x7e 2 (UeSecurity (demo_secured 2)) 258 DirectionDownlink
      (nas_cipher 2 (seqZ 0 16) 258 DirectionDownlink [0x7e; 0; 78])) globals0 =
    Ret (Some m, with_UeSecurity (with_DLCount 258 (UeSecurity (demo_secured 2))) (demo_secured 2), g').
Proof.
  eexists. eapply (nas_downlink_roundtrip demo_cmac demo_cmac_ok (demo_secured 2) 2 258 [0x7e; 0; 78] globals0);
    [side|side|side|side|side|vm_compute; split; [discriminate|reflexivity]|reflexivity].
Defined.

Lemma nas_forged_downlink_witness :
  (∃ g', receive demo_cmac (demo_secured 2) ([0x7e; 2] ++ [0; 0; 0; 0] ++ 255 :: [1; 2; 3]) globals0 =
    Ret (None, with_UeSecurity (with_DLCount 255 (UeSecurity (demo_secured 2))) (demo_secured 2), g')) ∧
  downlink_count 2 6 255 = 262.
Proof.
  destruct (nas_forged_downlink demo_cmac demo_cmac_ok (demo_secured 2) 0x7e 2 [0; 0; 0; 0] 255 [1; 2; 3] globals0)
    as [H1 H2]; [side..|vm_compute; discriminate|].
  split; [exact H1|]. apply (H2 eq_refl 6); vm_compute; reflexivity.
Defined.

Lemma nas_null_integrity_witness :
  ∃ ue' g', NASEncode demo_cmac (demo_secured 0) demo_complete true false globals0 =
    Ret (inl ([0x7e; 2] ++ 255 :: nas_cipher 2 (seqZ 0 16) 255 DirectionUplink [0x7e; 0; 85]), ue', g').
Proof.
  destruct (nas_null_integrity demo_cmac (demo_secured 0) 0 demo_complete [0x7e; 0; 85] globals0) as [H _];
    [side|by left|by right; right|side..|exact H].
Defined.
