(* ===== verification/UeNas.v ===== *)
(** * The UE's NAS handlers

    ue/nas/handler/handler.go, the message functions of mm_5gs that protect,
    ue/nas/dispatcher.go, ue/state/dispatch.go, ue/data/service and
    ue/nas/trigger.  A handler is a function on the [world]: the UE, the SNOW
    3G globals, the chaos manager with its random state, the time, and what was
    sent and undone.  Sleeping, logging and packet capture are left out. *)

From S2P Require Import Prelude GoStrings Milenage Snow3g NasSecurity UeContext NasMessage NasLayouts NasCodec NasProtect Chaos.

#[local] Open Scope Z_scope.
#[local] Open Scope go_scope.

(** What a UE does to its surroundings. *)
Inductive event := Sent (conn : Z) (message : list Z) | Undone (u : undo).

(** Requests to the kernel, and their success. *)
Inductive netop :=
  LinkAdd (pid : Z) (local remote : list Z) | LinkSetUp (pid : Z) | AddrAdd (pid : Z) (ip : string)
| RouteAdd (ip : string) (table : Z) | RuleAdd (ip : string) (table : Z).

Section Ue.
Context {G : Type} `{Rand G}.
Context (cmac_sum : list Z → list Z → outcome (list Z)).
Context (range : gmap Z PDUSession → list (Z * PDUSession)).
(** The kernel's answer, and the connection an address gives at an attempt. *)
Context (netlink : netop → bool) (dial : string → nat → option Z).

Record world := MkWorld {
  w_ue : UEContext;
  w_snow : snow;
  w_last : gmap Z string;
  w_chaos : ChaosManager;
  w_rng : G;
  w_now : Z;
  w_out : list event;
}.

Definition M (A : Type) : Type := world → outcome (A * world).
#[local] Instance M_ret : MRet M := λ A a w, Ret (a, w).
#[local] Instance M_bind : MBind M := λ A B f m w, match m w with Ret (a, w) => f a w | Fail e => Fail e | Panic => Panic end.

Definition panic {A} : M A := λ w, Panic.
Definition run {A} (r : outcome A) : M A := λ w, a ← r; Ret (a, w).
Definition get {A} (f : UEContext → A) : M A := λ w, Ret (f (w_ue w), w).
Definition with_ue (ue : UEContext) (w : world) : world :=
  MkWorld ue (w_snow w) (w_last w) (w_chaos w) (w_rng w) (w_now w) (w_out w).
Definition modify (f : UEContext → UEContext) : M unit := λ w, Ret (tt, with_ue (f (w_ue w)) w).
Definition emit (es : list event) : M unit := λ w,
  Ret (tt, MkWorld (w_ue w) (w_snow w) (w_last w) (w_chaos w) (w_rng w) (w_now w) (w_out w ++ es)).

(** ** sender *)

Definition SendToGnb (message : list Z) : M unit := λ w,
  match UnixConn (w_ue w) with
  | None => Ret (tt, w)
  | Some conn =>
    '(sent, m, g) ← outgoing (UeContext.id (w_ue w)) message (w_last w) (w_chaos w) (w_rng w);
    Ret (tt, MkWorld (w_ue w) (w_snow w) (w_last w) m g (w_now w)
      (w_out w ++ match sent with Some b => [Sent conn b] | None => [] end))
  end.

(** ** mm_5gs: protected messages *)

(** The message or the error. *)
Definition secure (pdu : outcome (list Z)) (securityHeaderType : Z) (newSecurityContext : bool) : M (list Z + string) := λ w,
  pdu ← pdu;
  '(r, ue, last, g) ← EncodeNasPduWithSecurity cmac_sum (w_ue w) pdu securityHeaderType true newSecurityContext (w_last w) (w_snow w);
  Ret (r, MkWorld ue g last (w_chaos w) (w_rng w) (w_now w) (w_out w)).

Definition ConfigurationUpdateComplete : M (list Z + string) := secure Mm5gs.getConfigurationUpdateComplete 2 false.
Definition DeregistrationAcceptUETerminated : M (list Z + string) := secure Mm5gs.getDeregistrationAcceptUETerminated 2 false.
Definition RegistrationComplete : M (list Z + string) := secure Mm5gs.getRegistrationComplete 2 false.

(** Registered UEs protect the request; when that fails it goes out plain. *)
Definition DeregistrationRequest (switchOff : bool) : M (list Z) :=
  ue ← get (λ ue, ue); pdu ← run (Mm5gs.getDeregistrationRequest ue switchOff);
  if (StateMM ue =? MM5G_REGISTERED) || (StateMM ue =? MM5G_SERVICE_REQ_INIT) then
    r ← secure (Ret pdu) 2 false; mret match r with inl b => b | inr _ => pdu end
  else mret pdu.

(** Either value of the RINMR bit gets the registration request. *)
Definition SecurityModeComplete (rinmr : Z) : M (list Z + string) :=
  ue ← get (λ ue, ue);
  registrationRequest ← run (Mm5gs.GetRegistrationRequest (GetRegistrationType ue) true ue);
  secure (Mm5gs.getSecurityModeComplete registrationRequest) 4 true.

Definition ServiceRequest (serviceType : Z) : M (list Z + string) :=
  ue ← get (λ ue, ue); secure (Mm5gs.getServiceRequest ue serviceType) 2 false.

(** [ue.GetPduSession(id)], which may add the session. *)
Definition session (pid : Z) : M PDUSession := λ w,
  let '(sess, ue) := GetPduSession range pid (w_ue w) in Ret (sess, with_ue ue w).

Definition UlNasTransport (pduSessionId requestType : Z) : M (list Z + string) :=
  sess ← session pduSessionId;
  secure (Mm5gs.getUlNasTransport_PduSessionEstablishmentRequest pduSessionId requestType (Dnn sess) (Sst sess) (Sd sess)
    (PduSessionType sess)) 2 false.

Definition UlNasTransportRelease (pid : Z) : M (list Z + string) :=
  secure (Mm5gs.getUlNasTransport_PduSessionReleaseRequest pid) 2 false.
Definition UlNasTransportReleaseComplete (pid : Z) : M (list Z + string) :=
  secure (Mm5gs.getUlNasTransport_PduSessionReleaseComplete pid) 2 false.
Definition UlNasTransportModification (pid : Z) : M (list Z + string) :=
  secure (Mm5gs.getUlNasTransport_PduSessionModificationRequest pid) 2 false.
Definition UlNasTransportModificationComplete (pid : Z) : M (list Z + string) :=
  secure (Mm5gs.getUlNasTransport_PduSessionModificationComplete pid) 2 false.

(** Sends a message, or returns early from a handler with its error. *)
Definition send_or_return (r : list Z + string) (k : M unit) : M unit :=
  match r with inl b => SendToGnb b;; k | inr _ => mret tt end.

(** ** Elements of a received message *)

(** The contents behind the pointer of type [t]. *)
Definition body (t : Z) (m : Message) : M message :=
  match c ← GmmMessage m; Body c !! t with Some b => mret b | None => panic end.
(** A mandatory octet, and an optional element, whose pointer may be nil. *)
Definition mand_octet (name : string) (b : message) : Z :=
  match b !! name with Some ie => hd 0 (Octet ie) | None => 0 end.
Definition opt_ie (name : string) (b : message) : M IE :=
  match b !! name with Some ie => mret ie | None => panic end.
Definition octet_at (ie : IE) (i : Z) : M Z := run (rd (Octet ie) i).

(** The loop over the sessions that fails those an answer was awaited for. *)
Definition fail_sessions (zero_too : bool) (err : string) (ue : UEContext) : UEContext :=
  with_PduSessions ((λ sess,
    if (State sess =? SM5G_PDU_SESSION_ACTIVE_PENDING) || (zero_too && (State sess =? 0))
    then with_Error err (with_State SM5G_PDU_SESSION_INACTIVE sess) else sess) <$> PduSessions ue) ue.

(** ** handler.go *)

(** A reject deregisters. *)
Definition rejected (errMsg : string) (ue : UEContext) : UEContext :=
  fail_sessions true errMsg (SetStateSM_PDU_SESSION_INACTIVE (SetStateMM_DEREGISTERED (SetSMError errMsg (SetMMError errMsg ue)))).

Definition HandlerAuthenticationReject : M unit :=
  let errMsg := "Authentication Rejected by AMF (Plain NAS 5GS Msg 0x58 - 3GPP TS 24.501 5GMM Cause #21: 5GS services not allowed)"%string in
  modify (rejected errMsg).

Definition HandlerAuthenticationRequest (m : Message) : M unit :=
  b ← body 86 m; rand ← opt_ie "AuthenticationParameterRAND" b; autn ← opt_ie "AuthenticationParameterAUTN" b;
  ue ← get (λ ue, ue);
  '(paramAutn, check, ue) ← run (DeriveRESstarAndSetKey (AuthenticationSubs (UeSecurity ue)) (Octet rand) (Snn (UeSecurity ue)) (Octet autn) ue);
  modify (λ _, ue);;
  let paramAutn := default [] paramAutn in
  authenticationResponse ←
    if (check =? "successful")%string then
      r ← run (Mm5gs.AuthenticationResponse paramAutn); modify SetStateMM_REGISTERED_INITIATED;; mret r
    else run (Mm5gs.AuthenticationFailure check paramAutn);
  SendToGnb authenticationResponse.

Definition HandlerSecurityModeCommand (m : Message) : M unit :=
  b ← body 93 m;
  modify (SetNgKsi (mand_octet "SpareHalfOctetAndNgksi" b & 7));;
  ie ← opt_ie "Additional5GSecurityInformation" b; o ← octet_at ie 0;
  r ← SecurityModeComplete ((o & 2) ≫ 1);
  send_or_return r (mret tt).

(** [%x] of a byte. *)
Definition hex1 (b : Z) : string := if b <? 16 then hex_digit b else hex2 b.

(** [ue.SetPduSessionPending(id)] now. *)
Definition set_pending (pid : Z) : M unit := λ w, Ret (tt, with_ue (SetPduSessionPending range (w_now w) pid (w_ue w)) w).

Definition HandlerRegistrationAccept (m : Message) : M unit :=
  modify SetStateMM_REGISTERED;;
  b ← body 66 m; guti ← opt_ie "GUTI5G" b;
  let o i := default 0 (Octet guti !! i) in
  modify (λ ue, Set5gGuti (take 4 (drop 7 (Octet guti))) (SetAmfSetId (o 5%nat * 4 + (o 6%nat & 0xfc) ≫ 6)
    (SetAmfPointer (o 6%nat & 0x3f) (SetAmfRegionId (o 4%nat) ue))));;
  ue ← get (λ ue, ue);
  (if Sst (PduSession ue) =? 0 then
     nssai ← opt_ie "AllowedNSSAI" b;
     s1 ← octet_at nssai 1; s2 ← octet_at nssai 2; s3 ← octet_at nssai 3; s4 ← octet_at nssai 4;
     modify (λ ue, with_PduSession (with_Sd ("0" +:+ hex1 s2 +:+ "0" +:+ hex1 s3 +:+ "0" +:+ hex1 s4) (with_Sst s1 (PduSession ue))) ue)
   else mret tt);;
  r ← RegistrationComplete;
  send_or_return r (
    defaultPduSessionId ← get (λ ue, Id (PduSession ue));
    r ← UlNasTransport defaultPduSessionId 1;
    match r with
    | inl b => set_pending defaultPduSessionId;; SendToGnb b
    | inr _ => mret tt
    end).

Definition Get5GSMCauseDesc (cause : Z) : string :=
  match switch ([(8, "Operator determined barring"); (26, "Insufficient resources"); (27, "Missing or unknown DNN");
    (28, "Unknown PDU session type"); (29, "User authentication failed");
    (31, "Request rejected by Serving GW or PDN GW / SMF"); (32, "Service option not supported");
    (33, "Requested service option not subscribed"); (35, "PTI already in use"); (38, "Network failure");
    (43, "Invalid PDU session identity"); (44, "Semantic error in the TFT operation");
    (45, "Syntactical error in the TFT operation"); (50, "PDU session type IPv4 only allowed");
    (51, "PDU session type IPv6 only allowed"); (54, "PDU session does not exist");
    (65, "Maximum number of PDU sessions reached"); (67, "Insufficient resources for specific slice and DNN");
    (68, "Not supported SST/SD"); (69, "Maximum number of PDU sessions reached for slice");
    (70, "Insufficient resources for specific slice"); (95, "Semantically incorrect message");
    (96, "Invalid mandatory information"); (97, "Message type non-existent or not implemented");
    (98, "Message type not compatible with protocol state");
    (99, "Information element non-existent or not implemented"); (100, "Conditional IE error");
    (101, "Message not compatible with protocol state"); (111, "Protocol error, unspecified")]%string) cause with
  | Some s => s | None => "5GSM Cause #" +:+ dec cause end.

(** decode-nas-pdu.go: the 5GSM message in the payload container, plain or
    behind a security header.  A 5GMM message there has no 5GSM part to ask for
    its type, which panics. *)
Definition gsm_type (m : Message) : outcome Z :=
  match GsmMessage m with Some c => Ret (GetMessageType c) | None => Panic end.
Definition plain_gsm (payload : list Z) : outcome (option Message) :=
  '(m, e) ← PlainNasDecode NewMessage payload;
  match e with
  | None => t ← gsm_type m; Ret (if t =? 0 then None else Some m)
  | Some _ => Ret None
  end.
Definition GetNasPduFromPduAccept (payload : option (list Z)) : outcome (option Message) :=
  match payload with
  | None | Some [] => Ret None
  | Some ((b0 :: _) as payload) =>
    r ← plain_gsm payload;
    match r with
    | Some m => Ret (Some m)
    | None => if (blen payload >? 7) && (b0 =? 0x7e) then plain_gsm (drop 7 payload) else Ret None
    end
  end.

(** Marks the session, then every pending one, and the UE. *)
Definition reject_session (pid : Z) (errMsg : string) (ue : UEContext) : UEContext :=
  SetSMError errMsg (fail_sessions false errMsg
    (update_session range pid (λ sess, with_Error errMsg (with_State SM5G_PDU_SESSION_INACTIVE sess)) ue)).

Definition rejected_text (how : string) (pid cause : Z) : string :=
  "PDU Session #" +:+ dec pid +:+ how +:+ dec cause +:+ " (" +:+ Get5GSMCauseDesc cause +:+ ")".
Definition by_core : string := " Rejected by 5G Core (SMF/AMF): 5GSM Cause #".
Definition by_status : string := " Rejected via 5GSM Status from 5G Core: 5GSM Cause #".

(** Session and cause of a reject or status, with their values for a nil message. *)
Definition reject_of (t : Z) (c : Contents) : Z * Z :=
  match Body c !! t with
  | Some b => (mand_octet "PDUSessionID" b, mand_octet "Cause5GSM" b)
  | None => (1, 31)
  end.
(** The session of a message whose pointer must not be nil. *)
Definition pointed (t : Z) (c : Contents) : M (Z * message) :=
  match Body c !! t with Some b => mret (mand_octet "PDUSessionID" b, b) | None => panic end.

(** Steps 2 and 3: the octets of the container, then giving up. *)
Definition raw_fallback (rawPayload : list Z) : M unit :=
  match rawPayload with
  | epd :: pduSessionId :: _ :: msgType :: cause :: _ =>
    if (epd =? 0x2e) && ((msgType =? 195) || (msgType =? 214) || (msgType =? 202) || (msgType =? 210))
    then modify (reject_session pduSessionId (rejected_text by_core pduSessionId cause))
    else modify (fail_sessions false
      "PDU Session Rejected by 5G Core: DL NAS Transport payload container (5GSM) unparseable or rejected by SMF/AMF.")
  | _ => modify (fail_sessions false
      "PDU Session Rejected by 5G Core: DL NAS Transport payload container (5GSM) unparseable or rejected by SMF/AMF.")
  end.

Definition HandlerDlNasTransportPduaccept (m : Message) : M unit :=
  match GmmMessage m with
  | None => panic
  | Some gmm =>
    let payload := match Body gmm !! 104 with
      | Some b => Some (match b !! "PayloadContainer"%string with Some ie => Octet ie | None => [] end) | None => None end in
    let rawPayload := default [] payload in
    payloadContainer ← run (GetNasPduFromPduAccept payload);
    match p ← payloadContainer; GsmMessage p with
    | None => raw_fallback rawPayload
    | Some c =>
      let msgType := GetMessageType c in
      if msgType =? 194 then
        '(pduSessionId, b) ← pointed 194 c;
        modify (update_session range pduSessionId (λ sess, with_Error "" (with_State SM5G_PDU_SESSION_ACTIVE sess)));;
        addr ← opt_ie "PDUAddress" b;
        modify (SetIp range pduSessionId (take 12 (drop 1 (Octet addr))))
      else if msgType =? 195 then
        let '(pduSessionId, cause) := reject_of 195 c in
        modify (reject_session pduSessionId (rejected_text by_core pduSessionId cause))
      else if msgType =? 214 then
        let '(pduSessionId, cause) := reject_of 214 c in
        modify (reject_session pduSessionId (rejected_text by_status pduSessionId cause))
      else if msgType =? 211 then
        '(pduSessionId, _) ← pointed 211 c;
        modify (update_session range pduSessionId (with_State SM5G_PDU_SESSION_INACTIVE));;
        r ← UlNasTransportReleaseComplete pduSessionId; send_or_return r (mret tt)
      else if msgType =? 203 then
        '(pduSessionId, _) ← pointed 203 c;
        r ← UlNasTransportModificationComplete pduSessionId;
        send_or_return r (raw_fallback rawPayload)
      else raw_fallback rawPayload
    end
  end.

(** [ue.Terminate()] *)
Definition terminate : M unit :=
  acts ← (λ w, let '(ue, acts) := Terminate range (w_ue w) in Ret (acts, with_ue ue w)); emit (Undone <$> acts).

Definition HandlerDeregistrationRequestUETerminatedDeregistration : M unit :=
  terminate;;
  r ← DeregistrationAcceptUETerminated;
  send_or_return r (modify (λ ue, SetStateSM_PDU_SESSION_INACTIVE (SetStateMM_DEREGISTERED ue))).

Definition HandlerIdentityRequest (m : Message) : M unit :=
  b ← body 91 m;
  ue ← get (λ ue, ue);
  r ← run (Mm5gs.IdentityResponse ue (mand_octet "SpareHalfOctetAndIdentityType" b & 7)); SendToGnb r.

Definition HandlerConfigurationUpdateCommand : M unit :=
  r ← ConfigurationUpdateComplete; send_or_return r (mret tt).

Definition Get5GMMCauseDesc (cause : Z) : string :=
  match switch ([(3, "Illegal UE"); (6, "Illegal ME"); (7, "5GS services not allowed");
    (9, "UE identity cannot be derived by network"); (10, "Implicitly deregistered"); (11, "PLMN not allowed");
    (12, "Tracking area not allowed"); (13, "Roaming not allowed in this tracking area");
    (15, "No suitable cells in tracking area"); (20, "MAC failure / Authentication failure"); (21, "Synch failure");
    (22, "Congestion / Core busy"); (27, "N1 mode not allowed"); (28, "Restricted service area");
    (31, "Redirection to EPC required"); (65, "Maximum number of PDU sessions reached");
    (73, "Serving network not authorized"); (95, "Semantically incorrect message");
    (96, "Invalid mandatory information"); (97, "Message type non-existent or not implemented");
    (98, "Message type not compatible with protocol state");
    (99, "Information element non-existent or not implemented"); (100, "Conditional IE error");
    (101, "Message not compatible with protocol state"); (111, "Protocol error, unspecified")]%string) cause with
  | Some s => s | None => "5GMM Cause #" +:+ dec cause end.

Definition cause_text (prefix : string) (cause : Z) : string :=
  prefix +:+ dec cause +:+ ": " +:+ Get5GMMCauseDesc cause +:+ ")".

Definition HandlerRegistrationReject (m : Message) : M unit :=
  b ← body 68 m;
  modify (rejected (cause_text "Registration Rejected by AMF (Plain NAS 5GS Msg 0x59 - 3GPP TS 24.501 5GMM Cause #" (mand_octet "Cause5GMM" b))).

Definition HandlerServiceAccept : M unit := modify SetStateMM_REGISTERED.

Definition HandlerServiceReject (m : Message) : M unit :=
  b ← body 77 m;
  modify (rejected (cause_text "Service Request Rejected by AMF (Plain NAS 5GS Msg 0x4D - 3GPP TS 24.501 5GMM Cause #" (mand_octet "Cause5GMM" b))).

Definition HandlerStatus5GMM (m : Message) : M unit :=
  b ← body 100 m;
  let errMsg := cause_text "5GMM Status Message from AMF (3GPP TS 24.501 5GMM Cause #" (mand_octet "Cause5GMM" b) in
  modify (λ ue, fail_sessions true errMsg (SetSMError errMsg (SetMMError errMsg ue))).

(** ** dispatcher.go *)

(** The switch on the message type. *)
Definition handle (m : Message) : M unit :=
  match GmmMessage m with
  | None => panic
  | Some c =>
    let t := GetMessageType c in
    if t =? 86 then HandlerAuthenticationRequest m
    else if t =? 88 then HandlerAuthenticationReject
    else if t =? 91 then HandlerIdentityRequest m
    else if t =? 93 then HandlerSecurityModeCommand m
    else if t =? 66 then HandlerRegistrationAccept m
    else if t =? 84 then HandlerConfigurationUpdateCommand
    else if t =? 104 then HandlerDlNasTransportPduaccept m
    else if t =? 68 then HandlerRegistrationReject m
    else if t =? 78 then HandlerServiceAccept
    else if t =? 77 then HandlerServiceReject m
    else if t =? 100 then HandlerStatus5GMM m
    else if t =? 71 then HandlerDeregistrationRequestUETerminatedDeregistration
    else mret tt
  end.

Definition DispatchNas (message : list Z) : M unit := λ w,
  '(m, ue, g) ← receive cmac_sum (w_ue w) message (w_snow w);
  let w := MkWorld ue g (w_last w) (w_chaos w) (w_rng w) (w_now w) (w_out w) in
  match m with None => Ret (tt, w) | Some m => handle m w end.

(** ** ue/data/service: the data plane of a session *)

(** [strings.Split(s, ",")] *)
Fixpoint split_comma (s : string) : list string :=
  match s with
  | EmptyString => [EmptyString]
  | String c s =>
    if Ascii.eqb c (Ascii.ascii_of_N 44) then EmptyString :: split_comma s
    else match split_comma s with x :: xs => String c x :: xs | [] => [String c EmptyString] end
  end.

(** The loop over the addresses: whether it ended without a kernel error.  An
    address is the empty string or one made by SetIp, which parses. *)
Fixpoint add_addresses (pid : Z) (ips : list string) : M bool :=
  match ips with
  | [] => mret true
  | ip :: ips =>
    if (ip =? "")%string then add_addresses pid ips
    else if negb (netlink (AddrAdd pid ip)) then mret false
    else if negb (netlink (RouteAdd ip pid)) then mret false
    else modify (SetTunRoute range pid pid);;
      if negb (netlink (RuleAdd ip pid)) then mret false
      else modify (SetTunRule range pid pid);; add_addresses pid ips
  end.

Definition InitDataPlane (pduSessionId : Z) (gnbIp : list Z) : M unit :=
  modify (SetGnbIp range pduSessionId gnbIp);;
  sess ← session pduSessionId;
  if negb (netlink (LinkAdd pduSessionId (ueGnbIP sess) (gatewayIP sess))) then mret tt
  else if negb (netlink (LinkSetUp pduSessionId)) then mret tt
  else
    ok ← add_addresses pduSessionId (split_comma (ueIP sess));
    if ok : bool then modify (SetTunInterface range pduSessionId pduSessionId) else mret tt.

(** ** ue/state/dispatch.go *)

(** The first inactive session the iteration meets; its id 0 means none. *)
Definition next_session (ue : UEContext) : Z :=
  match List.find (λ '(_, s), State s =? SM5G_PDU_SESSION_INACTIVE) (range (PduSessions ue)) with
  | Some (pid, _) => pid
  | None => 0
  end.

Definition triggerNextPduSession : M unit :=
  nextSessionId ← get next_session;
  if nextSessionId =? 0 then mret tt else
  r ← UlNasTransport nextSessionId 1;
  match r with
  | inl b => modify (update_session range nextSessionId (with_State SM5G_PDU_SESSION_ACTIVE_PENDING));; SendToGnb b
  | inr _ => mret tt
  end.

(** Dials the target cell: TCP once, a UNIX socket up to ten times. *)
Definition dial_target (ue : UEContext) : option Z :=
  if (GetGnbLinkType ue =? "tcp")%string
  then dial (GetGnbControlIp ue +:+ ":" +:+ dec (GetGnbLinkPort ue)) 0
  else foldr (λ i r, match dial (GetGnbSocketPath ue) i with Some c => Some c | None => r end) None (seq 0 10).

Definition handover : M unit :=
  ue ← get (λ ue, ue);
  emit (match UnixConn ue with Some c => [Undone (CloseConn c)] | None => [] end);;
  match dial_target ue with
  | None => mret tt
  | Some conn =>
    modify (SetUnixConn (Some conn));;
    emit [Sent conn ([0x00; 0x04] ++ be_bytes 8 (u64 (AmfUeNgapId ue)))]
  end.

(** [ue.ReleaseConnection()] *)
Definition release : M unit :=
  acts ← (λ w, let '(ue, acts) := ReleaseConnection range (w_ue w) in Ret (acts, with_ue ue w)); emit (Undone <$> acts).

Definition control_message (message : list Z) : M unit :=
  match message with
  | [_; 0x01] => r ← ServiceRequest 2; send_or_return r (mret tt)
  | _ :: 0x03 :: rest => if blen rest =? 8 then modify (SetAmfUeId (s64 (be_nat rest))) else mret tt
  | [_; 0x05] => handover
  | [_; 0x06] => release
  | _ => mret tt
  end.

Definition DispatchState (message : list Z) : M unit :=
  match message with
  | [] => mret tt
  | firstByte :: rest =>
    if (firstByte =? 0x7e) || (firstByte =? 0x2e) then DispatchNas message
    else if firstByte =? 0x00 then control_message message
    else match rest with [] => mret tt | _ => InitDataPlane firstByte rest;; triggerNextPduSession end
  end.

(** ** ue/nas/trigger *)

Definition InitRegistration : M unit :=
  ue ← get (λ ue, ue);
  registrationRequest ← run (Mm5gs.GetRegistrationRequest (GetRegistrationType ue) false ue);
  SendToGnb registrationRequest;; modify SetStateMM_DEREGISTERED.

(** ** ue/nas/service *)

(** Whether the dial succeeded. *)
Definition InitConn : M bool :=
  ue ← get (λ ue, ue);
  match (if (GetGnbLinkType ue =? "tcp")%string
         then dial (GetGnbControlIp ue +:+ ":" +:+ dec (GetGnbLinkPort ue)) 0
         else dial (GetGnbSocketPath ue) 0) with
  | None => mret false
  | Some conn => modify (SetUnixConn (Some conn));; mret true
  end.

(** ** The actions of webserver/server.go on a UE *)

Inductive action :=
| ServiceRequestAction
| DeregisterAction (switchOff : bool)
| PduEstablish (pid : Z) (dnn type : string) (sst : Z) (sd : string)
| PduModify (pid : Z)
| PduRelease (pid : Z).

Definition pid_refused (pid : Z) : bool := (pid =? 0) || (pid >? 15).

Definition ueAction (a : action) : M unit :=
  match a with
  | ServiceRequestAction => modify SetStateMM_MM5G_SERVICE_REQ_INIT;; r ← ServiceRequest 2; send_or_return r (mret tt)
  | DeregisterAction switchOff => b ← DeregistrationRequest switchOff; SendToGnb b;; terminate
  | PduEstablish pid dnn type sst sd =>
    if pid_refused pid then mret tt else
    modify (SetupPduSession range pid dnn type sst sd);;
    r ← UlNasTransport pid 1;
    match r with
    | inl b => modify (update_session range pid (with_State SM5G_PDU_SESSION_ACTIVE_PENDING));; SendToGnb b
    | inr _ => mret tt
    end
  | PduModify pid =>
    if pid_refused pid then mret tt else _ ← session pid; r ← UlNasTransportModification pid; send_or_return r (mret tt)
  | PduRelease pid =>
    if pid_refused pid then mret tt else _ ← session pid; r ← UlNasTransportRelease pid; send_or_return r (mret tt)
  end.

(** ** Runs of a UE

    What happens to one UE, a message or an action at a time: octets arrive on
    its connection, it is connected, registered, acted upon or terminated, and
    the rest of the program moves on. *)
Inductive step : world → world → Prop :=
| step_message message w w' : bytes_ok message → DispatchState message w = Ret (tt, w') → step w w'
| step_action a w w' : ueAction a w = Ret (tt, w') → step w w'
| step_connect b w w' : InitConn w = Ret (b, w') → step w w'
| step_register w w' : InitRegistration w = Ret (tt, w') → step w w'
| step_terminate w w' : terminate w = Ret (tt, w') → step w w'
| step_others w w' : w_ue w' = w_ue w → step w w'.

(** A UE that was just created. *)
Definition started (w : world) : Prop :=
  ∃ msin ea ia k opc op amf sqn mcc mnc dnn type sst sd uid extra,
    NewRanUeContext msin ea ia k opc op amf sqn mcc mnc dnn type sst sd uid extra blank_ue = Ret (w_ue w).
End Ue.
