(* ===== verification/UeNasProps.v ===== *)
(** * Properties of the UE's NAS handlers

    The invariant of the UE's state, what the handlers do in every state, and
    the way from registration to an active session. *)

From S2P Require Import Prelude GoStrings Aes Milenage Snow3g NasSecurity Kdf UeContext NasMessage NasLayouts NasCodec NasProtect Chaos UeNas.

#[local] Open Scope Z_scope.
#[local] Open Scope go_scope.

Section Ue.
Context {G : Type} `{Rand G}.
Context (cmac_sum : list Z → list Z → outcome (list Z)).
Context (range : gmap Z PDUSession → list (Z * PDUSession)).
Context (netlink : netop → bool) (dial : string → nat → option Z).
#[local] Existing Instance M_ret.
#[local] Existing Instance M_bind.
#[local] Abbreviation M := (@UeNas.M G).
#[local] Abbreviation world := (@UeNas.world G).

(** ** The state of a UE *)

(** The states of the code's constants, sessions filed under their id with the
    default session among them, keys of sixteen octets and counts of 24 bits. *)
Record ue_inv (ue : UEContext) : Prop := {
  inv_mm : StateMM ue ∈ [MM5G_NULL; MM5G_DEREGISTERED; MM5G_REGISTERED_INITIATED; MM5G_REGISTERED;
    MM5G_SERVICE_REQ_INIT];
  inv_sm : StateSM ue ∈ [SM5G_PDU_SESSION_INACTIVE; SM5G_PDU_SESSION_ACTIVE_PENDING];
  inv_sessions : ∀ pid sess, PduSessions ue !! pid = Some sess →
    Id sess = pid ∧ State sess ∈ [SM5G_PDU_SESSION_INACTIVE; SM5G_PDU_SESSION_ACTIVE_PENDING; SM5G_PDU_SESSION_ACTIVE];
  inv_default : is_Some (PduSessions ue !! 1);
  inv_enc : Aes.block (KnasEnc (UeSecurity ue));
  inv_int : Aes.block (KnasInt (UeSecurity ue));
  inv_ul : in_width 24 (ULCount (UeSecurity ue));
  inv_dl : in_width 24 (DLCount (UeSecurity ue));
}.

Definition keeps {A} (m : M A) : Prop := ∀ (w : world) a (w' : world), m w = Ret (a, w') → ue_inv (w_ue w) → ue_inv (w_ue w').

Lemma ue_keeps_ret {A} (a : A) : keeps (mret a).
Proof. by intros w ? ? [= <- <-]. Qed.
Lemma ue_keeps_panic {A} : keeps (panic (A:=A)).
Proof. by intros w ? ?. Qed.
Lemma ue_keeps_run {A} (r : outcome A) : keeps (run r).
Proof. intros w a w' Hr. unfold run in Hr. destruct r; [|done..]. by injection Hr as <- <-. Qed.
Lemma ue_keeps_get {A} (f : UEContext → A) : keeps (get f).
Proof. by intros w ? ? [= <- <-]. Qed.
Lemma ue_keeps_emit es : keeps (emit es).
Proof. by intros w ? ? [= <- <-]. Qed.
Lemma ue_keeps_bind {A B} (m : M A) (f : A → M B) : keeps m → (∀ a, keeps (f a)) → keeps (a ← m; f a).
Proof.
  intros Hm Hf w b w' E Hi. unfold mbind, M_bind in E. destruct (m w) as [[a w1]| |] eqn:E1; [|done..].
  by eapply Hf, Hm.
Qed.
Lemma ue_keeps_modify f : (∀ ue, ue_inv ue → ue_inv (f ue)) → keeps (modify f).
Proof. intros Hf w a w' [= <- <-] Hi. by apply Hf. Qed.

Lemma ue_keeps_send message : keeps (SendToGnb message).
Proof.
  intros w a w' E Hi. unfold SendToGnb in E. destruct (UnixConn (w_ue w)); [|by injection E as <- <-].
  unfold mbind, outcome_mbind in E. destruct (outgoing _ _ _ _ _) as [[[? ?] ?]| |]; [|done..]. by injection E as <- <-.
Qed.

(** Sessions that are added or changed. *)
Lemma inv_get pid ue : ue_inv ue → ue_inv (GetPduSession range pid ue).2 ∧
  PduSessions (GetPduSession range pid ue).2 !! pid = Some (GetPduSession range pid ue).1.
Proof.
  intros Hi. unfold GetPduSession. destruct (PduSessions ue !! pid) as [sess|] eqn:E; [done|].
  destruct Hi. cbn [fst snd PduSessions with_PduSessions]. split; [|apply lookup_insert_eq].
  split; try done; cbn [PduSessions with_PduSessions]; [|apply lookup_insert_is_Some'; by right].
  intros k s [[<- <-]|[_ Hk]]%lookup_insert_Some; [|by apply inv_sessions0].
  unfold new_session. destruct (range _) as [|[? ?] ?]; split; try done; by left.
Qed.

Lemma inv_update pid f ue : (∀ sess, Id (f sess) = Id sess ∧ (State (f sess) = State sess ∨
    State (f sess) ∈ [SM5G_PDU_SESSION_INACTIVE; SM5G_PDU_SESSION_ACTIVE_PENDING; SM5G_PDU_SESSION_ACTIVE])) →
  ue_inv ue → ue_inv (update_session range pid f ue).
Proof.
  intros Hf Hi. unfold update_session. pose proof (inv_get pid ue Hi) as [Hi' Hl].
  destruct (GetPduSession range pid ue) as [sess ue']. cbn [fst snd] in *. destruct Hi'.
  split; try done; cbn [PduSessions with_PduSessions]; [|apply lookup_insert_is_Some'; by right]. intros k s [[<- <-]|[_ Hk]]%lookup_insert_Some; [|by apply inv_sessions0].
  destruct (inv_sessions0 pid sess Hl) as [H1 H2]. destruct (Hf sess) as [-> [-> | H3]]; done.
Qed.

Lemma inv_map f ue : (∀ sess, Id (f sess) = Id sess ∧ (State (f sess) = State sess ∨
    State (f sess) ∈ [SM5G_PDU_SESSION_INACTIVE; SM5G_PDU_SESSION_ACTIVE_PENDING; SM5G_PDU_SESSION_ACTIVE])) →
  ue_inv ue → ue_inv (with_PduSessions (f <$> PduSessions ue) ue).
Proof.
  intros Hf []. split; try done; cbn [PduSessions with_PduSessions]; [|by rewrite lookup_fmap, fmap_is_Some].
  intros k s Hs.
  apply lookup_fmap_Some in Hs as (s0&<-&Hk). destruct (inv_sessions0 k s0 Hk) as [H1 H2].
  destruct (Hf s0) as [-> [-> | H3]]; done.
Qed.

Lemma inv_counts f ue : (∀ s, KnasEnc (f s) = KnasEnc s ∧ KnasInt (f s) = KnasInt s ∧
    (in_width 24 (ULCount s) → in_width 24 (ULCount (f s))) ∧ (in_width 24 (DLCount s) → in_width 24 (DLCount (f s)))) →
  ue_inv ue → ue_inv (with_counts f ue).
Proof.
  intros Hf []. destruct (Hf (UeSecurity ue)) as (E1&E2&H1&H2).
  split; try done; cbn [UeSecurity with_counts with_UeSecurity]; rewrite ?E1, ?E2; auto.
Qed.

Lemma addone_width c : in_width 24 (Count.AddOne c).
Proof.
  unfold Count.AddOne, Count.maskTo24Bits. change 0x00ffffff with (Z.ones 24). rewrite Z.land_ones by lia.
  apply Z.mod_pos_bound. lia.
Qed.

Lemma parts_width o s : in_width 16 o → in_width 8 s → in_width 24 (parts 0 o s).
Proof. intros Ho Hs. unfold parts. rewrite Z.mul_0_l, Z.add_0_l. by apply low_width. Qed.

Lemma parts24 c : in_width 24 c → ∃ o s, c = parts 0 o s ∧ in_width 16 o ∧ in_width 8 s.
Proof.
  intros Hc. destruct (parts_ex c (in_width_mono 24 32 c ltac:(lia) Hc)) as (t&o&s&->&Ht&Ho&Hs).
  assert (t = 0) as -> by (unfold parts, in_width in *; change (2 ^ 24) with 16777216 in *; lia). eauto.
Qed.

Lemma set_width o s c : in_width 24 c → in_width 16 o → in_width 8 s → in_width 24 (Count.Set_ o s c).
Proof.
  intros (o0&s0&->&Ho0&Hs0)%parts24 Ho Hs. rewrite count_set by (done || apply in_width_0; lia). by apply parts_width.
Qed.

Lemma downlink_width t s c : in_width 24 c → in_width 8 s → in_width 24 (downlink_count t s c).
Proof.
  intros Hc Hs. unfold downlink_count. set (c1 := if header_new_context t then _ else c).
  assert (in_width 24 c1) as (o&s1&->&Ho&Hs1)%parts24.
  { unfold c1. destruct (header_new_context t); [|done]. apply set_width; [done|apply in_width_0; lia..]. }
  destruct (count_ops 0 o s1) as (->&->&_&H1&H2); [by apply in_width_0; lia|done..|].
  assert (in_width 16 (u16 (o + 1))) as Hu by (apply wrap_in_width; lia).
  destruct (s1 >? s).
  - rewrite H2 by done. destruct (count_ops 0 (u16 (o + 1)) s1) as (_&_&_&H3&_); [by apply in_width_0; lia|done..|].
    rewrite H3 by done. by apply parts_width.
  - rewrite H1 by done. by apply parts_width.
Qed.

(** ** What keeps the state *)

Create HintDb keeps.
#[local] Hint Resolve ue_keeps_ret ue_keeps_panic ue_keeps_run ue_keeps_get ue_keeps_emit ue_keeps_send : keeps.

Lemma inv_same ue ue' : StateMM ue' = StateMM ue → StateSM ue' = StateSM ue → PduSessions ue' = PduSessions ue →
  KnasEnc (UeSecurity ue') = KnasEnc (UeSecurity ue) → KnasInt (UeSecurity ue') = KnasInt (UeSecurity ue) →
  ULCount (UeSecurity ue') = ULCount (UeSecurity ue) → DLCount (UeSecurity ue') = DLCount (UeSecurity ue) →
  ue_inv ue → ue_inv ue'.
Proof. intros H1 H2 H3 H4 H5 H6 H7 []. split; rewrite ?H1, ?H2, ?H3, ?H4, ?H5, ?H6, ?H7; done. Qed.

Lemma inv_mm_set s ue : s ∈ [MM5G_NULL; MM5G_DEREGISTERED; MM5G_REGISTERED_INITIATED; MM5G_REGISTERED; MM5G_SERVICE_REQ_INIT] →
  ue_inv ue → ue_inv (with_StateMM s ue).
Proof. intros Hs []. by split. Qed.

Lemma inv_sm_set s ue : s ∈ [SM5G_PDU_SESSION_INACTIVE; SM5G_PDU_SESSION_ACTIVE_PENDING] →
  ue_inv ue → ue_inv (with_StateSM s ue).
Proof. intros Hs []. by split. Qed.

Ltac in_states := rewrite !elem_of_cons; tauto.
(** Closes goals about states and sessions that operations set. *)
Ltac ue_state :=
  repeat first
    [ assumption
    | match goal with |- ue_inv (?f ?ue) => apply (inv_same ue); [reflexivity..|] end
    | apply inv_update; [let sess := fresh in intros sess; split; [reflexivity|(left; reflexivity) || (right; in_states)]|]
    | apply inv_map; [let sess := fresh in intros sess; split; [reflexivity|(left; reflexivity) || (right; in_states)]|]
    | apply inv_mm_set; [in_states|]
    | apply inv_sm_set; [in_states|] ].

Lemma inv_fail zero_too err ue : ue_inv ue → ue_inv (fail_sessions zero_too err ue).
Proof.
  intros Hi. unfold fail_sessions. apply inv_map; [|done]. intros sess. destruct (_ || _); [|by split; [|left]].
  split; [done|]. right. in_states.
Qed.

Lemma inv_rejected err ue : ue_inv ue → ue_inv (rejected err ue).
Proof. intros Hi. apply inv_fail. unfold SetStateSM_PDU_SESSION_INACTIVE, SetStateMM_DEREGISTERED. ue_state. Qed.

Lemma inv_reject_session pid err ue : ue_inv ue → ue_inv (reject_session range pid err ue).
Proof. intros Hi. unfold reject_session.
  match goal with |- ue_inv (_ ?ue) => apply (inv_same ue); [reflexivity..|] end. apply inv_fail. ue_state. Qed.

Lemma inv_pending now pid ue : ue_inv ue → ue_inv (SetPduSessionPending range now pid ue).
Proof. intros Hi. unfold SetPduSessionPending. ue_state. Qed.

Lemma inv_setup pid dnn type sst sd ue : ue_inv ue → ue_inv (SetupPduSession range pid dnn type sst sd ue).
Proof.
  apply inv_update. intros sess.
  destruct (dnn =? "")%string, (type =? "")%string, (sst =? 0), (sd =? "")%string; by split; [|left].
Qed.

Lemma inv_set_ip pid ip ue : ue_inv ue → ue_inv (SetIp range pid ip ue).
Proof.
  apply inv_update. intros sess.
  destruct (PduSessionType sess =? "IPv6")%string, (PduSessionType sess =? "IPv4v6")%string; by split; [|left].
Qed.

Lemma inv_terminate ue : ue_inv ue → ue_inv (Terminate range ue).1.
Proof. intros Hi. unfold Terminate. destruct (UnixConn _); cbn [fst]; ue_state. Qed.

Lemma inv_release ue : ue_inv ue → ue_inv (ReleaseConnection range ue).1.
Proof. intros Hi. unfold ReleaseConnection. cbn [fst]. ue_state. Qed.

Lemma NASEncode_inv ue m available new g r ue' g' :
  NASEncode cmac_sum ue m available new g = Ret (r, ue', g') → ue_inv ue → ue_inv ue'.
Proof.
  unfold NASEncode. destruct available; cbn [negb].
  - intros E Hi. set (ue1 := if new then _ else ue) in E.
    assert (ue_inv ue1) as Hi1.
    { unfold ue1. destruct new; [|done]. apply inv_counts; [|done]. intros s.
      split; [done|]. split; [done|]. split; intros Hw; (apply set_width; [done|apply in_width_0; lia..]). }
    clearbody ue1. apply bind_inv in E as ([p e]&_&E). destruct e; [by injection E as <- <- <-|].
    destruct (NASEncrypt _ _ _ _ _ _ _) as [[g1 c]| |]; [|by injection E as <- <- <-|done].
    destruct (NASMacCalculate _ _ _ _ _ _ _ _) as [[g2 mac]| |]; [|by injection E as <- <- <-|done].
    injection E as <- <- <-. apply inv_counts; [|done]. intros s.
    split; [done|]. split; [done|]. split; [|done]. intros _. apply addone_width.
  - intros E Hi. apply bind_inv in E as ([p e]&_&E). by injection E as <- <- <-.
Qed.

Lemma ue_keeps_secure pdu t new : keeps (secure cmac_sum pdu t new).
Proof.
  intros w r w' E Hi. unfold secure in E. apply bind_inv in E as (b&_&E). apply bind_inv in E as ([[[r1 ue] last] g]&E1&E).
  injection E as <- <-. cbn [w_ue]. unfold EncodeNasPduWithSecurity in E1. apply bind_inv in E1 as ([m e]&_&E1).
  destruct e; [by injection E1 as <- <- <- <-|]. cbv zeta in E1. apply bind_inv in E1 as ([[r2 ue2] g2]&E2&E1).
  injection E1 as <- <- <- <-. by eapply NASEncode_inv.
Qed.

Lemma ue_keeps_session pid : keeps (session range pid).
Proof.
  intros w a w' E Hi. unfold session in E. pose proof (inv_get pid (w_ue w) Hi) as [Hi' _].
  destruct (GetPduSession _ _ _) as [sess ue]. by injection E as <- <-.
Qed.

Lemma ue_keeps_body t m : keeps (body t m).
Proof. unfold body. destruct (_ ≫= _); auto with keeps. Qed.
Lemma ue_keeps_opt_ie name b : keeps (opt_ie name b).
Proof. unfold opt_ie. destruct (b !! name); auto with keeps. Qed.
Lemma ue_keeps_terminate : keeps (terminate range).
Proof.
  apply ue_keeps_bind; [|auto with keeps]. intros w a w' E Hi. pose proof (inv_terminate (w_ue w) Hi) as Hi'.
  destruct (Terminate _ _) as [ue acts]. by injection E as <- <-.
Qed.
#[local] Hint Resolve ue_keeps_secure ue_keeps_session ue_keeps_body ue_keeps_opt_ie ue_keeps_terminate : keeps.

(** Walks through a handler; the updates of the UE are left. *)
Ltac keep :=
  repeat first
    [ solve [auto with keeps]
    | progress intros
    | apply ue_keeps_bind
    | apply ue_keeps_modify
    | match goal with
      | |- keeps (let '(_, _) := ?x in _) => destruct x
      | |- keeps (match ?x with _ => _ end) => destruct x
      | |- keeps (send_or_return ?r _) => destruct r; cbn [send_or_return]
      end ].

#[local] Opaque GetKDFValue F2345_Test F1_Test.

Lemma alg_key_block ka n alg : block (alg_key ka n alg).
Proof.
  unfold alg_key. split; [by rewrite length_drop, GetKDFValue_length|]. apply Forall_drop, GetKDFValue_ok.
Qed.

Lemma inv_alg_key ue : ue_inv ue → ue_inv (DerivateAlgKey ue).
Proof. intros []. split; try done; apply alg_key_block. Qed.

Lemma kamf_inv key sn sqn ak ue ue' : DerivateKamf key sn sqn ak ue = Ret ue' → ue_inv ue → ue_inv ue'.
Proof.
  unfold DerivateKamf. intros (x&_&E)%bind_inv. cbv zeta in E. destruct (find_supi _); [|done].
  apply Ret_inj in E as <-. intros []. by split.
Qed.

Lemma authentication_inv subs rand snn autn ue r v ue' :
  DeriveRESstarAndSetKey subs rand snn autn ue = Ret (r, v, ue') → ue_inv ue → ue_inv ue'.
Proof.
  unfold DeriveRESstarAndSetKey. cbv zeta. intros ([? b]&_&E)%bind_inv Hi.
  apply bind_inv in E as ([[sqnHn ?] mac]&_&E). apply bind_inv in E as ([? [mac_a mac_s]]&_&E).
  destruct (negb _); [by apply result_inj in E as [_ <-]|]. destruct (_ >? 0).
  - apply bind_inv in E as ([? b2]&_&E). apply bind_inv in E as ([? [? mac_s2]]&_&E). apply bind_inv in E as (x&_&E).
    by apply result_inj in E as [_ <-].
  - apply bind_inv in E as (ue1&E1&E). apply result_inj in E as [_ <-]. apply inv_alg_key. by eapply kamf_inv.
Qed.

Lemma M_bind_inv {A B} (m : M A) (f : A → M B) w b w' : (a ← m; f a) w = Ret (b, w') →
  ∃ a w1, m w = Ret (a, w1) ∧ f a w1 = Ret (b, w').
Proof. unfold mbind, M_bind. destruct (m w) as [[a w1]| |]; [eauto|done..]. Qed.

Lemma ue_keeps_authentication m : keeps (HandlerAuthenticationRequest m).
Proof.
  unfold HandlerAuthenticationRequest. apply ue_keeps_bind; [auto with keeps|intros b].
  do 2 (apply ue_keeps_bind; [auto with keeps|intros ?]).
  intros w x w' (ue&w1&[= <- <-]&E)%M_bind_inv Hi. apply M_bind_inv in E as ([[r v] ue]&w1&E1&E).
  unfold run in E1. apply bind_inv in E1 as ([[r1 v1] ue1]&E1&[= -> -> -> <-]).
  apply M_bind_inv in E as ([]&w1&[= <-]&E). pose proof (authentication_inv _ _ _ _ _ _ _ _ E1 Hi) as Hi1.
  match type of E with ?k _ = _ => assert (keeps k) as Hk; [|exact (Hk _ _ _ E Hi1)] end.
  keep. unfold SetStateMM_REGISTERED_INITIATED. ue_state.
Qed.

#[local] Hint Resolve inv_fail inv_rejected inv_reject_session inv_pending inv_setup inv_set_ip : keeps.

(** A handler whose updates are closed by [ue_state] and the hints. *)
Ltac handler := keep; try (solve [auto with keeps]); unfold SetStateMM_REGISTERED, SetStateMM_DEREGISTERED,
  SetStateMM_REGISTERED_INITIATED, SetStateMM_MM5G_SERVICE_REQ_INIT, SetStateSM_PDU_SESSION_INACTIVE, SetTunRoute, SetTunRule, SetGnbIp, SetTunInterface;
  ue_state; auto with keeps; try (apply inv_fail; ue_state).

Lemma ue_keeps_smc m : keeps (HandlerSecurityModeCommand cmac_sum m).
Proof. unfold HandlerSecurityModeCommand, SecurityModeComplete, octet_at. handler. Qed.

Lemma ue_keeps_ul pid t : keeps (UlNasTransport cmac_sum range pid t).
Proof. unfold UlNasTransport. handler. Qed.
#[local] Hint Resolve ue_keeps_ul : keeps.

Lemma ue_keeps_pending pid : keeps (set_pending range pid).
Proof. intros w a w' [= <- <-] Hi. by apply inv_pending. Qed.
#[local] Hint Resolve ue_keeps_pending : keeps.

Lemma ue_keeps_accept m : keeps (HandlerRegistrationAccept cmac_sum range m).
Proof. unfold HandlerRegistrationAccept, RegistrationComplete, octet_at. handler. Qed.

Lemma ue_keeps_fallback raw : keeps (raw_fallback range raw).
Proof. unfold raw_fallback. handler. Qed.

Lemma ue_keeps_dl m : keeps (HandlerDlNasTransportPduaccept cmac_sum range m).
Proof.
  unfold HandlerDlNasTransportPduaccept, UlNasTransportReleaseComplete, UlNasTransportModificationComplete, pointed.
  pose proof ue_keeps_fallback. handler.
Qed.

Lemma ue_keeps_deregistration : keeps (HandlerDeregistrationRequestUETerminatedDeregistration cmac_sum range).
Proof. unfold HandlerDeregistrationRequestUETerminatedDeregistration, DeregistrationAcceptUETerminated. handler. Qed.
#[local] Hint Resolve ue_keeps_authentication ue_keeps_smc ue_keeps_accept ue_keeps_dl ue_keeps_deregistration : keeps.

Lemma ue_keeps_handle m : keeps (handle cmac_sum range m).
Proof.
  unfold handle, HandlerIdentityRequest, HandlerConfigurationUpdateCommand, HandlerServiceAccept, HandlerServiceReject,
    HandlerStatus5GMM, HandlerRegistrationReject, HandlerAuthenticationReject, ConfigurationUpdateComplete.
  handler.
Qed.

Lemma rd_byte (l : list Z) i x : bytes_ok l → rd l i = Ret x → in_width 8 x.
Proof.
  intros Hl. unfold rd. destruct (i <? 0); [done|]. destruct (l !! Z.to_nat i) eqn:E; [|done].
  intros <-%Ret_inj. by apply (Forall_lookup_1 _ _ _ _ Hl E).
Qed.

(** The only use of the octets being octets: the sequence number. *)
Lemma receive_inv ue message g m ue' g' : bytes_ok message → receive cmac_sum ue message g = Ret (m, ue', g') →
  ue_inv ue → ue_inv ue'.
Proof.
  intros Hb. unfold receive. intros (t&_&E)%bind_inv. cbv zeta in E. destruct (negb _).
  2:{ apply bind_inv in E as ([? ?]&_&E). injection E as <- <- <-. done. }
  apply bind_inv in E as (seq&Hseq&E). apply bind_inv in E as (mac&_&E). apply bind_inv in E as (payload&_&E).
  intros Hi. set (ue1 := with_counts _ ue) in E. assert (ue_inv ue1) as Hi1.
  { apply inv_counts; [|done]. intros s. split; [done|]. split; [done|]. split; [done|]. intros Hw.
    apply downlink_width; [done|]. by apply (rd_byte message 6). }
  clearbody ue1. destruct (NASMacCalculate _ _ _ _ _ _ _ _) as [[g1 mac32]| |]; [|by injection E as <- <- <-|done].
  destruct (negb _); [by injection E as <- <- <-|].
  destruct (if header_ciphered _ then _ else _) as [[g2 p]| |]; [|by injection E as <- <- <-|done].
  apply bind_inv in E as ([? ?]&_&E). by injection E as <- <- <-.
Qed.

Lemma ue_keeps_dispatch message : bytes_ok message → keeps (DispatchNas cmac_sum range message).
Proof.
  intros Hb w a w' E Hi. unfold DispatchNas in E. apply bind_inv in E as ([[m ue] g]&E1&E).
  pose proof (receive_inv _ _ _ _ _ _ Hb E1 Hi) as Hi1. cbv zeta in E. destruct m; [|by injection E as <- <-].
  by apply (ue_keeps_handle _ _ _ _ E).
Qed.

Lemma ue_keeps_release : keeps (release range).
Proof.
  apply ue_keeps_bind; [|auto with keeps]. intros w a w' E Hi. pose proof (inv_release (w_ue w) Hi) as Hi'.
  destruct (ReleaseConnection _ _) as [ue acts]. by injection E as <- <-.
Qed.
#[local] Hint Resolve ue_keeps_release : keeps.

Lemma ue_keeps_addresses pid ips : keeps (add_addresses range netlink pid ips).
Proof. induction ips as [|ip ips IH]; cbn [add_addresses]; handler. Qed.
#[local] Hint Resolve ue_keeps_addresses : keeps.

Lemma ue_keeps_data_plane pid ip : keeps (InitDataPlane range netlink pid ip).
Proof. unfold InitDataPlane. handler. Qed.

Lemma ue_keeps_control message : keeps (control_message cmac_sum range dial message).
Proof. unfold control_message, ServiceRequest, handover. handler. Qed.

Lemma ue_keeps_state message : bytes_ok message → keeps (DispatchState cmac_sum range netlink dial message).
Proof.
  intros Hb. pose proof (ue_keeps_dispatch message Hb). pose proof (ue_keeps_control message).
  pose proof ue_keeps_data_plane. unfold DispatchState, triggerNextPduSession. handler.
Qed.

Lemma ue_keeps_action a : keeps (ueAction cmac_sum range a).
Proof.
  unfold ueAction, DeregistrationRequest, ServiceRequest, UlNasTransportModification, UlNasTransportRelease. handler.
Qed.

Lemma ue_keeps_init : keeps InitRegistration.
Proof. unfold InitRegistration. handler. Qed.

Lemma ue_keeps_conn : keeps (InitConn dial).
Proof. unfold InitConn. handler. Qed.

(** A new context. *)
Lemma new_inv msin ea ia k opc op amf sqn mcc mnc dnn type sst sd uid extra ue :
  NewRanUeContext msin ea ia k opc op amf sqn mcc mnc dnn type sst sd uid extra blank_ue = Ret ue → ue_inv ue.
Proof.
  unfold NewRanUeContext. intros ([[[[? ?] ?] ?] ?]&_&E)%bind_inv. apply Ret_inj in E as <-.
  set (add := λ m c, _). set (def := session_of 1 dnn type sst sd).
  assert (∀ m, (∀ pid sess, m !! pid = Some sess → Id sess = pid ∧ State sess = SM5G_PDU_SESSION_INACTIVE) →
    is_Some (m !! 1) → (∀ pid sess, foldl add m extra !! pid = Some sess → Id sess = pid ∧ State sess = SM5G_PDU_SESSION_INACTIVE) ∧
    is_Some (foldl add m extra !! 1)) as Hfold.
  { induction extra as [|c cs IH]; intros m Hm H1; [done|]. cbn [foldl]. apply IH; unfold add; destruct (_ || _); try done.
    - intros pid sess [[<- <-]|[_ Hk]]%lookup_insert_Some; [done|by apply Hm].
    - apply lookup_insert_is_Some'. by right. }
  destruct (Hfold {[1 := def]}) as [Hs H1].
  { intros pid sess [<- <-]%lookup_singleton_Some. done. }
  { rewrite lookup_singleton_eq. by eexists. }
  split; cbn [StateMM StateSM PduSessions UeSecurity KnasEnc KnasInt ULCount DLCount blank_ue]; try in_states.
  - intros pid sess Hl. destruct (Hs pid sess Hl) as [-> ->]. split; [done|in_states].
  - exact H1.
  - by apply block_dec.
  - by apply block_dec.
  - apply in_width_0. lia.
  - apply in_width_0. lia.
Qed.

Lemma step_keeps w w' : step cmac_sum range netlink dial w w' → ue_inv (w_ue w) → ue_inv (w_ue w').
Proof.
  intros [message w1 w2 Hb E|a w1 w2 E|b w1 w2 E|w1 w2 E|w1 w2 E|w1 w2 E].
  - by apply (ue_keeps_state message Hb _ _ _ E).
  - by apply (ue_keeps_action a _ _ _ E).
  - by apply (ue_keeps_conn _ _ _ E).
  - by apply (ue_keeps_init _ _ _ E).
  - by apply (ue_keeps_terminate _ _ _ E).
  - by rewrite E.
Qed.

(** C2. In every state a UE can reach from its creation, by any octets from the
    network and any actions in any order, its mobility state is one of the
    five the handlers use (never 5GMM-DEREGISTERED-INIT), every session is
    filed under its own id in one of the three states, the default session is
    among them, the NAS keys have sixteen octets and the counts 24 bits. *)
Theorem ue_state_invariant (w0 w : world) : started w0 → rtc (step cmac_sum range netlink dial) w0 w → ue_inv (w_ue w).
Proof.
  intros (msin&ea&ia&k&opc&op&amf&sqn&mcc&mnc&dnn&type&sst&sd&uid&extra&E) Hr.
  assert (ue_inv (w_ue w0)) as Hi by by eapply new_inv. clear E.
  induction Hr as [w|w w1 w2 Hs _ IH]; [done|]. apply IH. by eapply step_keeps.
Qed.

(** ** Messages in the clear *)

(** The UE after one of the three rejects: deregistered, no session pending. *)
Definition deregistered (err : string) (ue ue' : UEContext) : Prop :=
  StateMM ue' = MM5G_DEREGISTERED ∧ StateSM ue' = SM5G_PDU_SESSION_INACTIVE ∧ mmErr ue' = err ∧ smErr ue' = err ∧
  UeSecurity ue' = UeSecurity ue ∧
  ∀ pid, PduSessions ue' !! pid = (λ sess, if (State sess =? SM5G_PDU_SESSION_ACTIVE_PENDING) || (State sess =? 0)
    then with_Error err (with_State SM5G_PDU_SESSION_INACTIVE sess) else sess) <$> PduSessions ue !! pid.

Lemma rejected_spec err ue : deregistered err ue (rejected err ue).
Proof. repeat (split; [done|]). intros pid. apply lookup_fmap. Qed.

Lemma plain_dispatch (message : list Z) m (w : world) e : rd message 1 = Ret 0 →
  PlainNasDecode (MkMessage 0 0 None None) message = Ret (m, e) →
  DispatchNas cmac_sum range message w = handle cmac_sum range m w.
Proof.
  intros H1 Hd. unfold DispatchNas, receive, GetSecurityHeaderType. rewrite H1. cbn [mbind outcome_mbind].
  change (0 & 0x0f) with 0. cbn [SecurityHeaderType]. change (negb (0 =? 0)) with false. cbn iota. rewrite Hd.
  cbn [mbind outcome_mbind]. by destruct w.
Qed.

Lemma mand_elements name l : mand_octet name (elements l) = match assoc name l with Some ie => hd 0 (Octet ie) | None => 0 end.
Proof. unfold mand_octet. by rewrite elements_lookup. Qed.

(** A plain 5GMM message of four octets. *)
Lemma handle_cause t identity cause (w : world) :
  (t = 68 ∧ identity = "RegistrationRejectMessageIdentity"%string) ∨ (t = 77 ∧ identity = "ServiceRejectMessageIdentity"%string) →
  DispatchNas cmac_sum range [0x7e; 0; t; cause] w =
  handle cmac_sum range (gmm_message t (gmm_head identity t ++ [("Cause5GMM"%string, oct cause)])) w.
Proof.
  intros Ht. apply (plain_dispatch _ _ _ None); [done|]. destruct Ht as [[-> ->]|[-> ->]]; vm_compute; reflexivity.
Qed.

(** C35. A reject is obeyed in every state and without any protection: four (or
    three) plain octets from anyone, also after the security context is
    active, leave the UE deregistered with every pending session failed and
    its security context unchanged, and are not answered. *)
Theorem ue_plain_reject cause (w : world) :
  (∃ w', DispatchNas cmac_sum range [0x7e; 0; 68; cause] w = Ret (tt, w') ∧ w_out w' = w_out w ∧
     deregistered (cause_text "Registration Rejected by AMF (Plain NAS 5GS Msg 0x59 - 3GPP TS 24.501 5GMM Cause #" cause) (w_ue w) (w_ue w')) ∧
  (∃ w', DispatchNas cmac_sum range [0x7e; 0; 77; cause] w = Ret (tt, w') ∧ w_out w' = w_out w ∧
     deregistered (cause_text "Service Request Rejected by AMF (Plain NAS 5GS Msg 0x4D - 3GPP TS 24.501 5GMM Cause #" cause) (w_ue w) (w_ue w')) ∧
  ∃ w' err, DispatchNas cmac_sum range [0x7e; 0; 88] w = Ret (tt, w') ∧ w_out w' = w_out w ∧ deregistered err (w_ue w) (w_ue w').
Proof.
  split; [|split].
  - eexists (with_ue (rejected _ (w_ue w)) w). rewrite (handle_cause 68 _ cause w (or_introl (conj eq_refl eq_refl))).
    split; [|split; [done|apply rejected_spec]].
    unfold handle. cbn [gmm_message GmmMessage]. unfold HandlerRegistrationReject, mbind, M_bind, body.
    cbn [gmm_message GmmMessage mbind option_bind Body]. rewrite lookup_singleton_eq. unfold mret, M_ret.
    rewrite mand_elements. reflexivity.
  - eexists (with_ue (rejected _ (w_ue w)) w). rewrite (handle_cause 77 _ cause w (or_intror (conj eq_refl eq_refl))).
    split; [|split; [done|apply rejected_spec]].
    unfold handle. cbn [gmm_message GmmMessage]. unfold HandlerServiceReject, mbind, M_bind, body.
    cbn [gmm_message GmmMessage mbind option_bind Body]. rewrite lookup_singleton_eq. unfold mret, M_ret.
    rewrite mand_elements. reflexivity.
  - eexists (with_ue (rejected _ (w_ue w)) w), _.
    rewrite (plain_dispatch _ (gmm_message 88 (gmm_head "AuthenticationRejectMessageIdentity" 88)) _ None);
      [|done|vm_compute; reflexivity].
    split; [|split; [done|apply rejected_spec]].
    unfold handle. cbn [gmm_message GmmMessage]. cbv zeta. change (GetMessageType _) with 88. cbn [Z.eqb Pos.eqb]. reflexivity.
Qed.
End Ue.

(** A new UE registers: its request is kept back, as there is no connection. *)
Lemma ue_state_invariant_witness : ∃ ue (w : @world Z),
  rtc (step demo_cmac map_to_list (λ _, true) (λ _ _, None)) (MkWorld ue globals0 ∅ GlobalChaosManager 1 0 []) w ∧
  StateMM (w_ue w) = MM5G_DEREGISTERED ∧ ue_inv (w_ue w).
Proof.
  destruct (NewRanUeContext "0000000120" 0 2 "465B" "E8ED" "" "8000" "16F3" "208" "93" "internet" "" 1 "010203" 7 [] blank_ue)
    as [ue| |] eqn:E; try (vm_compute in E; discriminate E).
  exists ue. destruct (InitRegistration (MkWorld ue globals0 ∅ GlobalChaosManager 1 0 [])) as [[[] w]| |] eqn:E2;
    try (apply Ret_inj in E as <-; vm_compute in E2; discriminate E2).
  exists w. assert (rtc (step demo_cmac map_to_list (λ _, true) (λ _ _, None)) (MkWorld ue globals0 ∅ GlobalChaosManager 1 0 []) w) as Hr.
  { eapply rtc_l; [by apply step_register|apply rtc_refl]. }
  split; [exact Hr|]. split.
  - apply Ret_inj in E as <-. apply Ret_inj in E2. apply (f_equal snd) in E2. cbn [snd] in E2. subst w. vm_compute. reflexivity.
  - eapply (ue_state_invariant demo_cmac map_to_list (λ _, true) (λ _ _, None)); [|exact Hr].
    unfold started. do 16 eexists. exact E.
Defined.
