(* ===== verification/UeNasLive.v ===== *)
(** * From registration to an active session

    The messages the UE builds can be decoded and encoded again, a protected
    message is sent, and the Registration Accept followed by the PDU Session
    Establishment Accept leave the UE registered with an active session. *)

From S2P Require Import Prelude GoStrings Aes Milenage Snow3g NasSecurity Kdf UeContext NasMessage NasLayouts NasCodec NasProtect Chaos UeNas.

#[local] Open Scope Z_scope.
#[local] Open Scope go_scope.

#[local] Notation "k |-> v" := (pair k%string v) (at level 80).

Lemma string_bytes_ok s : bytes_ok (string_bytes s).
Proof.
  unfold string_bytes. apply Forall_fmap, Forall_true. intros c. unfold in_width. cbn.
  pose proof (Ascii.N_ascii_bounded c). lia.
Qed.

Lemma hex_val_bound c x : hex_val c = Some x → 0 ≤ x < 16.
Proof. unfold hex_val. intros H. repeat case_match; simplify_eq; lia. Qed.

Lemma hex_decode_ok s : bytes_ok (hex_decode s).1.
Proof.
  assert (∀ n s, (String.length s ≤ n)%nat → bytes_ok (hex_decode s).1) as H; [|by eapply H].
  clear s. induction n as [|n IH]; intros [|a [|b s]] Hl; try constructor; [cbn in Hl; lia|]. cbn [hex_decode].
  destruct (hex_val a) as [x|] eqn:Ea; [|constructor]. destruct (hex_val b) as [y|] eqn:Eb; [|constructor].
  destruct (hex_decode s) as [l e] eqn:E. apply hex_val_bound in Ea, Eb. cbn [fst]. constructor.
  - unfold in_width. change (2 ^ 8) with 256. lia.
  - change l with (l, e).1. rewrite <-E. apply IH. cbn in Hl. lia.
Qed.

Lemma establishment_request pid type : ∃ y, in_width 8 y ∧
  Sm5gs.GetPduSessionEstablishmentRequest pid type =
  Ret [0x2e; pid; 1; 193; 0xff; 0xff; y; 0xa1; 0x7b; 0; 10; 0x80; 0; 10; 0; 0; 13; 0; 0; 3; 0].
Proof.
  unfold Sm5gs.GetPduSessionEstablishmentRequest.
  destruct (type =? "IPv6")%string; [|destruct (type =? "IPv4v6")%string];
    [exists 0x92|exists 0x93|exists 0x91]; (split; [vm_compute; split; [discriminate|done]|vm_compute; reflexivity]).
Qed.

(** The three octets of a slice differentiator. *)
Definition sd_octets (sd : string) : list Z := gocopy (zeros 3) (DecodeString sd).

Lemma sd_octets_ok sd : length (sd_octets sd) = 3%nat ∧ bytes_ok (sd_octets sd).
Proof.
  unfold sd_octets, gocopy. split; [rewrite length_app, length_take, length_drop; unfold zeros; rewrite length_replicate; lia|].
  apply Forall_app. split; [apply Forall_take, hex_decode_ok|apply Forall_drop, Forall_replicate, in_width_0; lia].
Qed.

(** The octets of the request to establish a session. *)
Definition ul_request (pid rt y sst : Z) (dnn sd : string) : list Z :=
  [0x7e; 0; 103; 1; 0; 21] ++ [0x2e; pid; 1; 193; 0xff; 0xff; y; 0xa1; 0x7b; 0; 10; 0x80; 0; 10; 0; 0; 13; 0; 0; 3; 0] ++
  [0x12; pid; 0x80 + (rt & 7)] ++
  (if (sd =? "")%string then [0x22; 1; u8 sst] else [0x22; 4; u8 sst] ++ sd_octets sd) ++
  (if (dnn =? "")%string then [] else [0x25; slen dnn + 1; slen dnn] ++ string_bytes dnn).

Lemma string_bytes_length s : blen (string_bytes s) = slen s.
Proof.
  unfold string_bytes, slen, blen. rewrite length_fmap. f_equal. induction s as [|c s IH]; [done|]. cbn. by rewrite IH.
Qed.

Lemma request_octet rt : 0x80 ≤ 0x80 + (rt & 7) < 0x88 ∧ case_of (0x80 + (rt & 7)) = 8.
Proof.
  change 7 with (Z.ones 3). rewrite Z.land_ones by lia. pose proof (Z.mod_pos_bound rt (2 ^ 3) ltac:(lia)).
  assert (in_width 8 (0x80 + rt mod 2 ^ 3)) as Hw by (unfold in_width; lia).
  split; [lia|]. pose proof (forallb_byte (λ x, (x <? 0x80) || (0x88 <=? x) || (case_of x =? 8)) eq_refl _ Hw) as Hb.
  cbv beta in Hb. lia.
Qed.

Lemma dnn_written dnn : slen dnn < 255 →
  ie_ok (Sized 1 Buffer) 0x25 (Mm5gs.dnn_ie (string_bytes dnn)) ∧
  write_ie (Sized 1 Buffer) (Mm5gs.dnn_ie (string_bytes dnn)) = Ret ([slen dnn + 1; slen dnn] ++ string_bytes dnn).
Proof.
  intros Hd. pose proof (string_bytes_length dnn) as Hl. unfold Mm5gs.dnn_ie. rewrite Hl.
  assert (in_width 8 (slen dnn + 1) ∧ in_width 8 (slen dnn)) as [Hw Hw1]
    by (unfold in_width, slen in *; change (2 ^ 8) with 256; lia).
  assert (blen (u8 (slen dnn) :: string_bytes dnn) = slen dnn + 1) as Hb by (unfold blen in *; cbn [length]; lia).
  rewrite Hb, !wrap_small by done. split.
  - split; [done|]. split; [exact Hw|]. cbn [part_ok Len Octet length]. unfold blen in Hl. lia.
  - cbn [write_ie Len Octet be_bytes app]. by rewrite Z.mod_small.
Qed.

Lemma snssai_written sst sd : let ie := Mm5gs.snssai_ie sst sd in
  ie_ok (Sized 1 (Prefix 8)) 0x22 ie ∧ Iei ie = 0x22 ∧
  write_ie (Sized 1 (Prefix 8)) ie = Ret (if (sd =? "")%string then [1; u8 sst] else [4; u8 sst] ++ sd_octets sd).
Proof.
  unfold Mm5gs.snssai_ie. destruct (sd =? "")%string; [by repeat split|].
  destruct (sd_octets_ok sd) as [H3 _]. fold (sd_octets sd).
  destruct (sd_octets sd) as [|a [|b [|c [|]]]]; try discriminate H3. by repeat split.
Qed.

Lemma ul_establishment pid rt dnn sst sd type : in_width 8 pid → slen dnn < 255 →
  ∃ y l, Mm5gs.getUlNasTransport_PduSessionEstablishmentRequest pid rt dnn sst sd type = Ret (ul_request pid rt y sst dnn sd) ∧
    in_width 8 y ∧
    PlainNasDecode NewMessage (ul_request pid rt y sst dnn sd) = Ret (gmm_message 103 l, None) ∧
    PlainNasEncode (gmm_message 103 l) = Ret (ul_request pid rt y sst dnn sd, None).
Proof.
  intros Hp Hd. destruct (establishment_request pid type) as (y&Hy&E). exists y.
  unfold Mm5gs.getUlNasTransport_PduSessionEstablishmentRequest. rewrite E. cbn [mbind outcome_mbind].
  unfold Mm5gs.getUlNasTransport. cbv zeta.
  set (c := [0x2e; pid; 1; 193; 0xff; 0xff; y; 0xa1; 0x7b; 0; 10; 0x80; 0; 10; 0; 0; 13; 0; 0; 3; 0]).
  change (u16 (blen c)) with 21. change (gocopy (zeros (Z.to_nat 21)) c) with c.
  match goal with |- ∃ l, gmm_pdu 103 ?l0 = _ ∧ _ => set (l := l0) end. exists l.
  destruct (dnn_written dnn Hd) as [Hdnn Wdnn]. destruct (snssai_written sst sd) as (Hsn&Isn&Wsn).
  destruct (gmm_pdu_run 103 ULNASTransport l (ul_request pid rt y sst dnn sd)) as (H1&H2&H3); try reflexivity.
  - destruct (request_octet rt) as [_ Hc].
    apply elements_ok; [reflexivity|unfold l; destruct (dnn =? "")%string; vm_compute; reflexivity..|].
    unfold l. subst c. repeat apply Forall_app_2; repeat (apply Forall_cons; split; [|try apply List.Forall_nil]).
    all: try (eapply field_mandatory; [reflexivity|by repeat split]).
    + eapply field_optional; [reflexivity..|]. by repeat split.
    + eapply field_optional; [reflexivity..|]. by eexists.
    + destruct (dnn =? "")%string; [constructor|]. apply Forall_singleton. by eapply field_optional.
    + by eapply field_optional.
  - unfold encode, ULNASTransport. cbn [mandatory optional encode_mandatory encode_optional]. rewrite !elements_lookup.
    pose proof (proj1 Hdnn) as Idn. revert Wdnn Wsn Isn Idn. unfold l, ul_request. generalize (Mm5gs.snssai_ie sst sd) (Mm5gs.dnn_ie (string_bytes dnn)).
    intros sn dn Wdnn Wsn Isn Idn.
    destruct (dnn =? "")%string; unfold gmm_head, assoc; cbn [app];
      cbn [List.find fst snd String.eqb Ascii.eqb Bool.eqb fmap option_fmap option_map];
      rewrite ?Wdnn, Wsn, Isn, ?Idn; destruct (sd =? "")%string;
      cbn [default from_option Datatypes.id write_ie Octet mbind outcome_mbind]; rewrite ?app_nil_r; reflexivity.
  - split; [exact H1|]. by split.
Qed.

Lemma ul_request_plain pid rt y sst dnn sd : in_width 8 pid → in_width 8 y → slen dnn < 255 →
  plain_ok (ul_request pid rt y sst dnn sd).
Proof.
  intros Hp Hy Hd. unfold ul_request.
  match goal with |- plain_ok (?h ++ ?c0 ++ ?b0 ++ ?c1 ++ ?d0) =>
    rewrite (app_assoc h c0); set (a := h ++ c0); set (b := b0); set (c := c1); set (d := d0) end.
  destruct (request_octet rt) as [Hr _]. destruct (sd_octets_ok sd) as [H3 Hs].
  assert (∀ x, in_width 8 (u8 x)) as Hu by (intros x; apply wrap_in_width; lia).
  assert (bytes_ok b ∧ (length b = 3)%nat) as [Hb Lb].
  { split; [|done]. repeat (apply Forall_cons; split; [first [assumption|unfold in_width; change (2 ^ 8) with 256; lia]|]). constructor. }
  assert (bytes_ok c ∧ (length c ≤ 6)%nat) as [Hc Lc].
  { unfold c. destruct (sd =? "")%string; [split; [repeat (apply Forall_cons; split; [first [apply Hu|done]|]); constructor|cbn; lia]|].
    split; [apply Forall_app; split; [repeat (apply Forall_cons; split; [first [apply Hu|done]|]); constructor|done]|].
    rewrite length_app, H3. cbn. lia. }
  assert (bytes_ok d ∧ blen d ≤ 300) as [Hdb Ld].
  { unfold d. destruct (dnn =? "")%string; [split; [apply List.Forall_nil|unfold blen; cbn [length]; lia]|].
    assert (0 ≤ slen dnn) by (unfold slen; lia). split.
    - apply Forall_app. split; [|apply string_bytes_ok].
      repeat (apply Forall_cons; split; [unfold in_width; change (2 ^ 8) with 256; lia|]). constructor.
    - pose proof (string_bytes_length dnn). unfold blen in *. rewrite length_app. cbn [length]. lia. }
  assert (bytes_ok a ∧ length a = 27%nat) as [Ha La].
  { split; [|done]. repeat (apply Forall_cons; split; [first [assumption|done]|]). constructor. }
  split; [split|].
  - rewrite !length_app. lia.
  - unfold blen in *. rewrite !length_app. change (2 ^ 32) with 4294967296. lia.
  - clearbody a b c d. unfold bytes_ok in *. rewrite !Forall_app. by split.
Qed.

Section Ue.
Context {G : Type} `{Rand G}.
Context (cmac_sum : list Z → list Z → outcome (list Z)).
Context (Hcmac : ∀ k m, ∃ t, cmac_sum k m = Ret t ∧ length t = 16%nat).
Context (range : gmap Z PDUSession → list (Z * PDUSession)).
#[local] Existing Instance M_ret.
#[local] Existing Instance M_bind.
#[local] Abbreviation world := (@UeNas.world G).

(** No chaos rule concerns the UE [uid]. *)
Definition quiet (uid : Z) (m : ChaosManager) : Prop :=
  FuzzEnabled (FuzzRule m) = false ∧ ∀ config, NasRules m !! uid = Some config → Enabled config = false.

#[local] Abbreviation M := (@UeNas.M G).

(** [m] returns, in a state and with a value that satisfy [Q]. *)
Definition wp {A} (m : M A) (Q : A → world → Prop) (w : world) : Prop :=
  match m w with Ret (a, w') => Q a w' | _ => False end.

Lemma ue_wp_run {A} (m : M A) Q w : wp m Q w → ∃ a w', m w = Ret (a, w') ∧ Q a w'.
Proof. unfold wp. destruct (m w) as [[a w']| |]; [eauto|done..]. Qed.
Lemma ue_wp_bind {A B} (m : M A) (f : A → M B) Q w : wp m (λ a, wp (f a) Q) w → wp (a ← m; f a) Q w.
Proof. unfold wp, mbind, M_bind. by destruct (m w) as [[a w']| |]. Qed.
Lemma wp_modify f Q (w : world) : Q tt (with_ue (f (w_ue w)) w) → wp (modify f) Q w.
Proof. done. Qed.
Lemma wp_get {A} (f : UEContext → A) (Q : A → world → Prop) (w : world) : Q (f (w_ue w)) w → wp (get f) Q w.
Proof. done. Qed.
Lemma ue_wp_ret {A} (a : A) (Q : A → world → Prop) (w : world) : Q a w → wp (mret a) Q w.
Proof. done. Qed.
Lemma wp_body t m c b Q w : GmmMessage m = Some c → Body c !! t = Some b → Q b w → wp (body t m) Q w.
Proof. intros E1 E2 HQ. unfold wp, body. rewrite E1. cbn [mbind option_bind]. by rewrite E2. Qed.
Lemma wp_opt_ie name b ie Q w : b !! name = Some ie → Q ie w → wp (opt_ie name b) Q w.
Proof. intros E HQ. unfold wp, opt_ie. by rewrite E. Qed.

(** A Registration Accept and its identity. *)
Definition registration_accept (m : Message) (guti : IE) : Prop := ∃ c b,
  GmmMessage m = Some c ∧ GetMessageType c = 66 ∧ Body c !! 66 = Some b ∧ b !! "GUTI5G"%string = Some guti.

(** The UE is connected and its context secured; no rule disturbs it. *)
Record ready (conn : Z) (w : world) : Prop := {
  r_secured : secured (UeSecurity (w_ue w));
  r_globals : globals_ok (w_snow w);
  r_quiet : quiet (UeContext.id (w_ue w)) (w_chaos w);
  r_conn : UnixConn (w_ue w) = Some conn;
}.

(** What protects downlink messages is unchanged. *)
Definition same_downlink (s s' : SECURITY) : Prop :=
  CipheringAlg s' = CipheringAlg s ∧ IntegrityAlg s' = IntegrityAlg s ∧ KnasEnc s' = KnasEnc s ∧
  KnasInt s' = KnasInt s ∧ DLCount s' = DLCount s.

Lemma registration_complete_run : ∃ m, Mm5gs.getRegistrationComplete = Ret [0x7e; 0; 67] ∧
  PlainNasDecode NewMessage [0x7e; 0; 67] = Ret (m, None) ∧ PlainNasEncode m = Ret ([0x7e; 0; 67], None) ∧
  plain_ok [0x7e; 0; 67].
Proof.
  eexists. split; [vm_compute; reflexivity|]. split; [vm_compute; reflexivity|]. split; [vm_compute; reflexivity|].
  split; [split; [cbn; lia|vm_compute; reflexivity]|apply bytes_dec; reflexivity].
Qed.

(** The UE after a protected uplink message in its context. *)
Definition uplinked (ue : UEContext) : UEContext :=
  let sec := UeSecurity ue in
  with_UeSecurity (with_DLCount (DLCount sec) (with_ULCount ((ULCount sec + 1) mod 2 ^ 24) sec)) ue.


Lemma wp_send conn b (Q : () → world → Prop) w : ready conn w →
  (∀ w', ready conn w' → w_ue w' = w_ue w → w_out w' = w_out w ++ [Sent conn b] → Q tt w') → wp (SendToGnb b) Q w.
Proof.
  intros [H1 H2 [Hf Hn] H4] HQ. unfold wp, SendToGnb. rewrite H4.
  pose proof (chaos_off (UeContext.id (w_ue w)) b (w_last w) (w_chaos w) (w_rng w) Hf Hn) as ->. by apply HQ.
Qed.

Lemma uplinked_secured ue : secured (UeSecurity ue) → secured (UeSecurity (uplinked ue)).
Proof. exact (secured_counts (UeSecurity ue) (ULCount (UeSecurity ue)) false). Qed.

Lemma wp_secured pdu m t (Q : list Z + string → world → Prop) w : secured (UeSecurity (w_ue w)) → globals_ok (w_snow w) →
  PlainNasDecode NewMessage pdu = Ret (m, None) → PlainNasEncode m = Ret (pdu, None) → plain_ok pdu →
  (∀ b g last, globals_ok g → Q (inl b) (MkWorld (uplinked (w_ue w)) g last (w_chaos w) (w_rng w) (w_now w) (w_out w))) →
  wp (secure cmac_sum (Ret pdu) t false) Q w.
Proof.
  intros H1 H2 Hd He Hp HQ. unfold wp, secure. cbn [mbind outcome_mbind]. unfold EncodeNasPduWithSecurity.
  rewrite Hd. cbn [mbind outcome_mbind].
  destruct (NASEncode_run cmac_sum Hcmac (w_ue w) (MkMessage Epd5GSMobilityManagementMessage t (GmmMessage m) (GsmMessage m)) pdu false
    (w_snow w) H1 H2 He Hp) as (c&g&E&_&Hg').
  rewrite E. cbn [mbind outcome_mbind]. by apply HQ.
Qed.

Lemma wp_secure conn pdu m t (Q : list Z + string → world → Prop) w : ready conn w →
  PlainNasDecode NewMessage pdu = Ret (m, None) → PlainNasEncode m = Ret (pdu, None) → plain_ok pdu →
  (∀ b w', ready conn w' → w_ue w' = uplinked (w_ue w) → w_out w' = w_out w → Q (inl b) w') →
  wp (secure cmac_sum (Ret pdu) t false) Q w.
Proof.
  intros [H1 H2 H3 H4] Hd He Hp HQ. apply (wp_secured pdu m); [done..|]. intros b g last Hg.
  apply HQ; [|done..]. split; try done. by apply uplinked_secured.
Qed.

Lemma update_lookup pid f ue sess : PduSessions ue !! pid = Some sess →
  update_session range pid f ue = with_PduSessions (<[pid := f sess]> (PduSessions ue)) ue.
Proof. intros E. unfold update_session, GetPduSession. by rewrite E. Qed.

Lemma wp_session pid sess (Q : PDUSession → world → Prop) w : PduSessions (w_ue w) !! pid = Some sess → Q sess w →
  wp (session range pid) Q w.
Proof. intros E HQ. unfold wp, session, GetPduSession. rewrite E. by destruct w. Qed.

Lemma ready_ue conn f (w : world) : (∀ ue, UeSecurity (f ue) = UeSecurity ue ∧ UeContext.id (f ue) = UeContext.id ue ∧ UnixConn (f ue) = UnixConn ue) →
  ready conn w → ready conn (with_ue (f (w_ue w)) w).
Proof. intros Hf [H1 H2 H3 H4]. destruct (Hf (w_ue w)) as (E1&E2&E3). split; cbn; by rewrite ?E1, ?E2, ?E3. Qed.

Lemma wp_registration_accept conn m guti sess w : ready conn w → registration_accept m guti →
  PduSessions (w_ue w) !! 1 = Some sess → slen (Dnn sess) < 255 → Id (PduSession (w_ue w)) = 1 → Sst (PduSession (w_ue w)) ≠ 0 →
  wp (HandlerRegistrationAccept cmac_sum range m) (λ _ w', ready conn w' ∧ StateMM (w_ue w') = MM5G_REGISTERED ∧
    (∃ sess', PduSessions (w_ue w') !! 1 = Some sess' ∧ State sess' = SM5G_PDU_SESSION_ACTIVE_PENDING) ∧
    same_downlink (UeSecurity (w_ue w)) (UeSecurity (w_ue w')) ∧
    ∃ b1 b2, w_out w' = w_out w ++ [Sent conn b1; Sent conn b2]) w.
Proof.
  intros Hr (c&b&Hc&Ht&Hb&Hg) Hs Hd Hid Hsst. unfold HandlerRegistrationAccept.
  apply ue_wp_bind. apply ue_wp_bind, (wp_body _ _ c b); [done..|]. apply ue_wp_bind, (wp_opt_ie _ _ guti); [done|].
  cbv zeta. apply ue_wp_bind, wp_modify. set (w1 := with_ue (Set5gGuti _ _) _).
  assert (ready conn w1) as Hr1.
  { destruct Hr as [[] ? ? ?]. by split; [split|..]. }
  assert (StateMM (w_ue w1) = MM5G_REGISTERED ∧ PduSessions (w_ue w1) = PduSessions (w_ue w) ∧
    PduSession (w_ue w1) = PduSession (w_ue w) ∧ same_downlink (UeSecurity (w_ue w)) (UeSecurity (w_ue w1)) ∧
    w_out w1 = w_out w) as (E1&E2&E3&E4&E5) by by repeat split.
  clearbody w1. apply ue_wp_bind, wp_get. rewrite E3. rewrite (proj2 (Z.eqb_neq _ _) Hsst). apply ue_wp_bind, ue_wp_ret.
  destruct registration_complete_run as (rc&Hrc&Hrc1&Hrc2&Hrc3). unfold RegistrationComplete. rewrite Hrc.
  apply ue_wp_bind, (wp_secure conn _ rc); [done..|]. intros b1 w2 Hr2 U2 O2. cbn [send_or_return].
  apply ue_wp_bind, (wp_send conn); [done|]. intros w3 Hr3 U3 O3. apply ue_wp_bind, wp_get. rewrite U3, U2.
  assert (Id (PduSession (uplinked (w_ue w1))) = 1) as -> by (cbn; by rewrite E3).
  unfold UlNasTransport. apply ue_wp_bind, ue_wp_bind, (wp_session 1 sess); [rewrite U3, U2; cbn; by rewrite E2|].
  destruct (ul_establishment 1 1 (Dnn sess) (Sst sess) (Sd sess) (PduSessionType sess)) as (y&l&->&Hy&Hl1&Hl2); [done..|].
  apply (wp_secure conn _ (gmm_message 103 l)); [done..|by apply ul_request_plain|].
  intros b2 w4 Hr4 U4 O4. apply ue_wp_bind. unfold wp at 1, set_pending, SetPduSessionPending.
  set (w5 := with_ue _ w4). assert (ready conn w5) as Hr5.
  { apply (ready_ue conn (SetPduSessionPending range (w_now w4) 1)); [|done]. intros ue. unfold SetPduSessionPending, update_session.
    destruct (GetPduSession range 1 _) as [s ue1] eqn:E. unfold GetPduSession in E. case_match; injection E as <- <-; by repeat split. }
  assert (PduSessions (with_StateSM SM5G_PDU_SESSION_ACTIVE_PENDING (w_ue w4)) !! 1 = Some sess) as Hs4
    by (cbn; rewrite U4, U3, U2; cbn; by rewrite E2).
  assert (w_ue w5 = with_PduSessions (<[1 := with_Error "" (with_RequestedAt (w_now w4) (with_State SM5G_PDU_SESSION_ACTIVE_PENDING sess))]>
    (PduSessions (w_ue w4))) (with_StateSM SM5G_PDU_SESSION_ACTIVE_PENDING (w_ue w4))) as U5.
  { unfold w5. cbn [with_ue w_ue]. by rewrite (update_lookup _ _ _ _ Hs4). }
  assert (w_out w5 = w_out w4) as O5 by done. clearbody w5.
  apply (wp_send conn); [done|]. intros w6 Hr6 U6 O6. split; [done|]. rewrite U6, U5. cbn [StateMM PduSessions UeSecurity with_PduSessions with_StateSM].
  rewrite U4, U3, U2. split; [exact E1|]. split; [eexists; split; [apply lookup_insert_eq|done]|]. split.
  - destruct E4 as (D1&D2&D3&D4&D5). by repeat split.
  - exists b1, b2. by rewrite O6, O5, O4, O3, O2, E5, <-app_assoc.
Qed.

(** A DL NAS Transport with a PDU Session Establishment Accept for [pid]. *)
Definition session_accept (m : Message) (pid : Z) : Prop := ∃ gmm b pc p c b2 addr,
  GmmMessage m = Some gmm ∧ GetMessageType gmm = 104 ∧ Body gmm !! 104 = Some b ∧ b !! "PayloadContainer"%string = Some pc ∧
  PlainNasDecode NewMessage (Octet pc) = Ret (p, None) ∧ GsmMessage p = Some c ∧ GetMessageType c = 194 ∧
  Body c !! 194 = Some b2 ∧ mand_octet "PDUSessionID" b2 = pid ∧ b2 !! "PDUAddress"%string = Some addr.

Lemma payload_decoded payload p c : PlainNasDecode NewMessage payload = Ret (p, None) → GsmMessage p = Some c →
  GetMessageType c ≠ 0 → GetNasPduFromPduAccept (Some payload) = Ret (Some p).
Proof.
  intros Hd Hc Ht. unfold GetNasPduFromPduAccept, plain_gsm. destruct payload as [|b0 l]; [done|].
  rewrite Hd. cbn [mbind outcome_mbind]. unfold gsm_type. rewrite Hc. cbn [mbind outcome_mbind].
  by rewrite (proj2 (Z.eqb_neq _ _) Ht).
Qed.

Lemma wp_session_accept conn m pid sess (w : world) : ready conn w → session_accept m pid →
  PduSessions (w_ue w) !! pid = Some sess →
  wp (HandlerDlNasTransportPduaccept cmac_sum range m) (λ _ w', ready conn w' ∧ StateMM (w_ue w') = StateMM (w_ue w) ∧
    (∃ sess', PduSessions (w_ue w') !! pid = Some sess' ∧ State sess' = SM5G_PDU_SESSION_ACTIVE ∧ Error sess' = ""%string) ∧
    w_out w' = w_out w) w.
Proof.
  intros Hr (gmm&b&pc&p&c&b2&addr&H1&H2&H3&H4&H5&H6&H7&H8&H9&H10) Hs. unfold HandlerDlNasTransportPduaccept.
  rewrite H1. cbv zeta. rewrite H3. apply ue_wp_bind. unfold wp at 1, run.
  rewrite H4, (payload_decoded _ p c) by (done || by rewrite H7). cbn [mbind outcome_mbind option_bind]. rewrite H6. change (194 =? 194) with true.
  rewrite H7. cbn iota. apply ue_wp_bind. unfold wp at 1, pointed. rewrite H8, H9. unfold mret, M_ret.
  apply ue_wp_bind, wp_modify. apply ue_wp_bind, (wp_opt_ie _ _ addr); [done|]. apply wp_modify.
  rewrite (update_lookup _ _ _ _ Hs). cbn [with_ue w_ue]. unfold SetIp.
  erewrite update_lookup by (cbn [PduSessions with_PduSessions]; apply lookup_insert_eq).
  cbn [StateMM PduSessions with_PduSessions with_ue w_ue w_out]. rewrite insert_insert_eq.
  split; [|split; [done|split; [|done]]].
  - destruct Hr as [R1 R2 R3 R4]. by split.
  - eexists. split; [apply lookup_insert_eq|]. by repeat case_match.
Qed.

(** A message ciphered and signed by the network under the count [c]. *)
Definition downlink (sec : SECURITY) (c : Z) (p : list Z) : list Z :=
  protected cmac_sum Epd5GSMobilityManagementMessage 2 sec c DirectionDownlink
    (nas_cipher (CipheringAlg sec) (KnasEnc sec) c DirectionDownlink p).

Lemma wp_dispatch conn (w : world) c p m e (Q : () → world → Prop) : ready conn w → plain_ok p → in_width 24 c →
  DLCount (UeSecurity (w_ue w)) ≤ c < DLCount (UeSecurity (w_ue w)) + 256 →
  PlainNasDecode (MkMessage 0 2 None None) p = Ret (m, e) →
  (∀ w', ready conn w' → w_ue w' = with_UeSecurity (with_DLCount c (UeSecurity (w_ue w))) (w_ue w) →
    w_out w' = w_out w → wp (handle cmac_sum range m) Q w') →
  wp (DispatchNas cmac_sum range (downlink (UeSecurity (w_ue w)) c p)) Q w.
Proof.
  intros [H1 H2 H3 H4] Hp Hc Hd Hm HQ. unfold wp, DispatchNas.
  destruct (receive_run cmac_sum Hcmac (w_ue w) 2 c p (w_snow w) m e H1 H2 ltac:(lia) Hp Hc Hd Hm) as (g&Hg&E).
  change (header_ciphered 2) with true in E. cbn iota in E. unfold downlink. rewrite E. cbn [mbind outcome_mbind].
  apply HQ; [|done..]. split; try done. destruct H1. by split.
Qed.

Lemma handle_type m c : GmmMessage m = Some c →
  (GetMessageType c = 66 → handle cmac_sum range m = HandlerRegistrationAccept cmac_sum range m) ∧
  (GetMessageType c = 104 → handle cmac_sum range m = HandlerDlNasTransportPduaccept cmac_sum range m) ∧
  (GetMessageType c = 71 → handle cmac_sum range m = HandlerDeregistrationRequestUETerminatedDeregistration cmac_sum range).
Proof. intros E. unfold handle. rewrite E. cbv zeta. by repeat split; intros ->. Qed.

(** Plain messages that are computed. *)
Lemma deregistration_accept_run : ∃ m, Mm5gs.getDeregistrationAcceptUETerminated = Ret [0x7e; 0; 72] ∧
  PlainNasDecode NewMessage [0x7e; 0; 72] = Ret (m, None) ∧ PlainNasEncode m = Ret ([0x7e; 0; 72], None) ∧ plain_ok [0x7e; 0; 72].
Proof.
  eexists. split; [vm_compute; reflexivity|]. split; [vm_compute; reflexivity|]. split; [vm_compute; reflexivity|].
  split; [split; [cbn; lia|vm_compute; reflexivity]|apply bytes_dec; reflexivity].
Qed.

Lemma modification_complete_run pid : in_width 8 pid → let p := [0x7e; 0; 103; 1; 0; 4; 0x2e; pid; 1; 204; 0x12; pid] in
  ∃ m, Mm5gs.getUlNasTransport_PduSessionModificationComplete pid = Ret p ∧
  PlainNasDecode NewMessage p = Ret (m, None) ∧ PlainNasEncode m = Ret (p, None) ∧ plain_ok p.
Proof.
  intros Hp p. unfold p. eexists. split; [vm_compute; reflexivity|]. split; [vm_compute; reflexivity|]. split; [vm_compute; reflexivity|].
  split; [split; [cbn; lia|vm_compute; reflexivity]|]. repeat (apply Forall_cons; split; [first [exact Hp|done]|]). constructor.
Qed.

(** C36. A network-initiated deregistration is obeyed and never answered: the
    handler closes and forgets the connection before it builds its answer, so
    that the Deregistration Accept, which is built and counted, is not sent. *)
Theorem ue_deregistration_unanswered conn m c (w : world) : ready conn w → GmmMessage m = Some c → GetMessageType c = 71 →
  ∃ w' acts, handle cmac_sum range m w = Ret (tt, w') ∧ StateMM (w_ue w') = MM5G_DEREGISTERED ∧ UnixConn (w_ue w') = None ∧
    ULCount (UeSecurity (w_ue w')) = (ULCount (UeSecurity (w_ue w)) + 1) mod 2 ^ 24 ∧
    w_out w' = w_out w ++ (Undone <$> (acts ++ [CloseConn conn])).
Proof.
  intros Hr Hc Ht. rewrite (proj2 (proj2 (handle_type m c Hc)) Ht).
  destruct (ue_wp_run (HandlerDeregistrationRequestUETerminatedDeregistration cmac_sum range)
    (λ _ w', StateMM (w_ue w') = MM5G_DEREGISTERED ∧ UnixConn (w_ue w') = None ∧
      ULCount (UeSecurity (w_ue w')) = (ULCount (UeSecurity (w_ue w)) + 1) mod 2 ^ 24 ∧
      ∃ acts, w_out w' = w_out w ++ (Undone <$> (acts ++ [CloseConn conn]))) w) as ([]&w'&E&H1&H2&H3&acts&H4); [|by exists w', acts].
  unfold HandlerDeregistrationRequestUETerminatedDeregistration. apply ue_wp_bind. unfold terminate. apply ue_wp_bind.
  unfold wp at 1, Terminate. cbn [UnixConn with_PduSessions]. rewrite (r_conn conn w Hr). cbv zeta.
  set (acts := UeContext.Unregister _ :: _). set (w1 := with_ue _ w). unfold wp at 1, emit. cbv iota beta.
  set (w2 := MkWorld (w_ue w1) _ _ _ _ _ _).
  destruct deregistration_accept_run as (dm&Hd&Hd1&Hd2&Hd3). unfold DeregistrationAcceptUETerminated. rewrite Hd.
  apply ue_wp_bind, (wp_secured _ dm); [apply Hr|apply Hr|done..|]. intros b g last Hg. cbn [send_or_return].
  apply ue_wp_bind. unfold wp at 1, SendToGnb. cbn [w_ue UnixConn uplinked with_UeSecurity].
  change (UnixConn (w_ue w2)) with (@None Z). cbn iota beta. apply wp_modify.
  split; [done|]. split; [done|]. split; [done|]. by exists acts.
Qed.

(** Every session that was pending has failed. *)
Definition pending_failed (ue ue' : UEContext) : Prop :=
  ∀ pid sess, PduSessions ue !! pid = Some sess → State sess = SM5G_PDU_SESSION_ACTIVE_PENDING →
    ∃ sess', PduSessions ue' !! pid = Some sess' ∧ State sess' = SM5G_PDU_SESSION_INACTIVE ∧ Error sess' ≠ ""%string.

Lemma fail_sessions_pending err ue : err ≠ ""%string → pending_failed ue (fail_sessions false err ue).
Proof.
  intros He pid sess Hs Hp. unfold fail_sessions. cbn [PduSessions with_PduSessions]. rewrite lookup_fmap, Hs.
  eexists. split; [reflexivity|]. by rewrite Hp.
Qed.

Lemma reject_session_pending pid err ue : err ≠ ""%string → pending_failed ue (reject_session range pid err ue).
Proof.
  intros He pid' sess Hs Hp. unfold reject_session.
  set (f := λ sess, with_Error err (with_State SM5G_PDU_SESSION_INACTIVE sess)).
  change (PduSessions (SetSMError err ?u)) with (PduSessions u).
  assert (∃ sess1, PduSessions (update_session range pid f ue) !! pid' = Some sess1 ∧ (sess1 = sess ∨ ∃ s, sess1 = f s)) as (sess1&Hs1&Hf).
  { unfold update_session. destruct (GetPduSession range pid ue) as [s ue1] eqn:E. cbn [PduSessions with_PduSessions].
    destruct (decide (pid' = pid)) as [->|Hne]; [eexists; split; [apply lookup_insert_eq|right; by exists s]|].
    exists sess. split; [|by left]. rewrite lookup_insert_ne by done. unfold GetPduSession in E.
    destruct (PduSessions ue !! pid); injection E as <- <-; [done|]. cbn [PduSessions with_PduSessions].
    by rewrite lookup_insert_ne. }
  destruct Hf as [-> | [s ->]]; [by apply (fail_sessions_pending err _ He pid' sess)|].
  unfold fail_sessions. cbn [PduSessions with_PduSessions]. rewrite lookup_fmap, Hs1. by eexists.
Qed.

Lemma fallback_fails raw (w : world) : ∃ ue', raw_fallback range raw w = Ret (tt, with_ue ue' w) ∧ pending_failed (w_ue w) ue'.
Proof.
  unfold raw_fallback. destruct raw as [|? [|? [|? [|? [|? ?]]]]]; try (eexists; split; [reflexivity|by apply fail_sessions_pending]).
  destruct (_ && _); (eexists; split; [reflexivity|]); [by apply reject_session_pending|by apply fail_sessions_pending].
Qed.

(** A DL NAS Transport with a PDU Session Modification Command for [pid]. *)
Definition modification_command (m : Message) (pid : Z) : Prop := ∃ gmm b pc p c b2,
  GmmMessage m = Some gmm ∧ GetMessageType gmm = 104 ∧ Body gmm !! 104 = Some b ∧ b !! "PayloadContainer"%string = Some pc ∧
  PlainNasDecode NewMessage (Octet pc) = Ret (p, None) ∧ GsmMessage p = Some c ∧ GetMessageType c = 203 ∧
  Body c !! 203 = Some b2 ∧ mand_octet "PDUSessionID" b2 = pid ∧ in_width 8 pid.

(** A PDU Session Modification Command is answered, and then mistaken for a
    reject: the handler falls through to the inspection of the raw container
    and fails every session that waits for its accept, also others than the
    modified one. *)
Theorem ue_modification_fails_pending conn m pid (w : world) : ready conn w → modification_command m pid →
  ∃ w' b, handle cmac_sum range m w = Ret (tt, w') ∧ w_out w' = w_out w ++ [Sent conn b] ∧ pending_failed (w_ue w) (w_ue w').
Proof.
  intros Hr (gmm&b&pc&p&c&b2&H1&H2&H3&H4&H5&H6&H7&H8&H9&H10).
  rewrite (proj1 (proj2 (handle_type m gmm H1)) H2).
  destruct (ue_wp_run (HandlerDlNasTransportPduaccept cmac_sum range m) (λ _ w', (∃ b, w_out w' = w_out w ++ [Sent conn b]) ∧
    pending_failed (w_ue w) (w_ue w')) w)
    as ([]&w'&E&(b'&HO)&HS); [|by exists w', b'].
  unfold HandlerDlNasTransportPduaccept. rewrite H1. cbv zeta. rewrite H3. apply ue_wp_bind. unfold wp at 1, run.
  rewrite H4, (payload_decoded _ p c) by (done || by rewrite H7). cbn [mbind outcome_mbind option_bind]. rewrite H6, H7.
  cbn [Z.eqb Pos.eqb]. apply ue_wp_bind. unfold wp at 1, pointed. rewrite H8, H9. unfold mret, M_ret.
  destruct (modification_complete_run pid H10) as (cm&Hd&Hd1&Hd2&Hd3). unfold UlNasTransportModificationComplete. rewrite Hd.
  apply ue_wp_bind, (wp_secure conn _ cm); [done..|]. intros b1 w1 Hr1 U1 O1. cbn [send_or_return].
  apply ue_wp_bind, (wp_send conn); [done|]. intros w2 Hr2 U2 O2.
  destruct (fallback_fails (Octet pc) w2) as (ue'&E&HS). unfold wp. cbn [default from_option Datatypes.id]. rewrite E.
  split; [exists b1; cbn; by rewrite O2, O1|]. intros pid' sess Hs Hp. apply (HS pid' sess); [|done]. by rewrite U2, U1.
Qed.

(** C1. The way to an active session: a connected UE with a security context
    that receives the network's Registration Accept, and then a PDU Session
    Establishment Accept for its default session, both protected under counts
    the UE follows, is registered, has answered with two messages
    (Registration Complete and the session request), and its default session
    goes from pending to active without an error. *)
Theorem ue_registration_to_session conn guti sess c1 c2 p1 p2 m1 m2 e1 e2 (w : world) :
  ready conn w → PduSessions (w_ue w) !! 1 = Some sess → slen (Dnn sess) < 255 →
  Id (PduSession (w_ue w)) = 1 → Sst (PduSession (w_ue w)) ≠ 0 →
  plain_ok p1 → PlainNasDecode (MkMessage 0 2 None None) p1 = Ret (m1, e1) → registration_accept m1 guti →
  plain_ok p2 → PlainNasDecode (MkMessage 0 2 None None) p2 = Ret (m2, e2) → session_accept m2 1 →
  let sec := UeSecurity (w_ue w) in
  DLCount sec ≤ c1 < DLCount sec + 256 → c1 ≤ c2 < c1 + 256 → in_width 24 c1 → in_width 24 c2 →
  ∃ w1 w2 sess1 sess2 b1 b2,
    DispatchNas cmac_sum range (downlink sec c1 p1) w = Ret (tt, w1) ∧
    StateMM (w_ue w1) = MM5G_REGISTERED ∧
    PduSessions (w_ue w1) !! 1 = Some sess1 ∧ State sess1 = SM5G_PDU_SESSION_ACTIVE_PENDING ∧
    DispatchNas cmac_sum range (downlink sec c2 p2) w1 = Ret (tt, w2) ∧
    StateMM (w_ue w2) = MM5G_REGISTERED ∧
    PduSessions (w_ue w2) !! 1 = Some sess2 ∧ State sess2 = SM5G_PDU_SESSION_ACTIVE ∧ Error sess2 = ""%string ∧
    w_out w2 = w_out w ++ [Sent conn b1; Sent conn b2].
Proof.
  intros Hr Hs Hd Hid Hsst Hp1 Hm1 Ha1 Hp2 Hm2 Ha2 sec Hc1 Hc2 W1 W2.
  destruct (ue_wp_run (DispatchNas cmac_sum range (downlink sec c1 p1)) (λ _ w1, ready conn w1 ∧ StateMM (w_ue w1) = MM5G_REGISTERED ∧
    (∃ sess1, PduSessions (w_ue w1) !! 1 = Some sess1 ∧ State sess1 = SM5G_PDU_SESSION_ACTIVE_PENDING) ∧
    same_downlink (with_DLCount c1 sec) (UeSecurity (w_ue w1)) ∧ ∃ b1 b2, w_out w1 = w_out w ++ [Sent conn b1; Sent conn b2]) w)
    as ([]&w1&E1&Hr1&HS1&(sess1&Hs1&Hp)&Hsame&b1&b2&O1).
  { apply (wp_dispatch conn w c1 p1 m1 e1); [done..|]. intros w' Hr' U O. destruct Ha1 as (c&b&Hc&Ht&Hb&Hg).
    rewrite (proj1 (handle_type m1 c Hc) Ht). rewrite <-O. fold sec in U.
    assert (with_DLCount c1 sec = UeSecurity (w_ue w')) as -> by by rewrite U.
    apply (wp_registration_accept conn m1 guti sess); [done|by exists c, b|rewrite ?U; done..]. }
  destruct Hsame as (D1&D2&D3&D4&D5). cbn in D1, D2, D3, D4, D5.
  destruct (ue_wp_run (DispatchNas cmac_sum range (downlink sec c2 p2)) (λ _ w2, StateMM (w_ue w2) = MM5G_REGISTERED ∧
    (∃ sess2, PduSessions (w_ue w2) !! 1 = Some sess2 ∧ State sess2 = SM5G_PDU_SESSION_ACTIVE ∧ Error sess2 = ""%string) ∧
    w_out w2 = w_out w1) w1) as ([]&w2&E2&HS2&(sess2&Hs2&Hact&Herr)&O2).
  { assert (downlink sec c2 p2 = downlink (UeSecurity (w_ue w1)) c2 p2) as -> by (unfold downlink, protected; by rewrite D1, D2, D3, D4).
    apply (wp_dispatch conn w1 c2 p2 m2 e2); [done|done|done|by rewrite D5|done|]. intros w' Hr' U O.
    pose proof Ha2 as (gmm&_&_&_&_&_&_&Hg&Ht&_).
    rewrite (proj1 (proj2 (handle_type m2 gmm Hg)) Ht). pose proof (wp_session_accept conn m2 1 sess1 w' Hr' Ha2) as Hwp.
    rewrite U in Hwp. specialize (Hwp Hs1). unfold wp in *. destruct (HandlerDlNasTransportPduaccept _ _ _ _) as [[? w2]| |]; [|done..].
    destruct Hwp as (_&Hmm&Hsess&Hout). split; [by rewrite Hmm|]. split; [done|]. by rewrite Hout, O. }
  exists w1, w2, sess1, sess2, b1, b2. repeat (split; [done|]). by rewrite O2.
Qed.
End Ue.

(** ** A session on concrete octets *)

Definition demo_session : PDUSession := session_of 1 "internet" "IPv4" 1 "010203".
Definition demo_ue : UEContext :=
  with_PduSessions {[1 := demo_session]} (with_PduSession demo_session (with_UnixConn (Some 3) (demo_secured 2))).
Definition demo_world : @world Z := MkWorld demo_ue globals0 ∅ GlobalChaosManager 1 0 [].
Definition demo_accept : list Z := [0x7e; 0; 66; 1; 1; 0x77; 0; 11; 0xf2; 0; 0xf1; 0x10; 2; 0; 0x40; 1; 2; 3; 4].
Definition demo_session_accept : list Z :=
  [0x7e; 0; 104; 1; 0; 21; 0x2e; 1; 1; 194; 0x11; 0; 0; 6; 1; 0; 1; 1; 0; 1; 0x29; 5; 1; 10; 60; 0; 7].

Lemma demo_ready : ready 3 demo_world.
Proof.
  split; [exact demo_secured_ok|by split|split; [reflexivity|]|reflexivity].
  intros config E. vm_compute in E. discriminate E.
Qed.

Lemma demo_plain p : forallb (λ z, (0 <=? z) && (z <? 256)) p && (1 <=? blen p) && (8 * blen p + 31 <? 2 ^ 32) = true → plain_ok p.
Proof.
  intros Hp. apply andb_prop in Hp as [Hp H3]. apply andb_prop in Hp as [H1 H2].
  split; [split; unfold blen in *; lia|by apply bytes_dec].
Qed.

(** Messages given by their elements. *)
Definition gmm_received (t : Z) (l : list (string * IE)) : Message :=
  MkMessage 0 2 (Some (MkContents [0x7e; 0; t] {[ t := elements l ]})) None.
Definition gsm_received (pid t : Z) (l : list (string * IE)) : Message :=
  MkMessage 0 0 None (Some (MkContents [0x2e; pid; 1; t] {[ t := elements l ]})).

Definition demo_guti : IE := MkIE 0x77 11 [0xf2; 0; 0xf1; 0x10; 2; 0; 0x40; 1; 2; 3; 4].
Definition demo_accept_message : Message := gmm_received 66 (gmm_head "RegistrationAcceptMessageIdentity" 66 ++
  ["RegistrationResult5GS" |-> MkIE 0 1 [1]; "GUTI5G" |-> demo_guti]).
Definition demo_accept_payload : Message := gsm_received 1 194 (gsm_head "PDUSESSIONESTABLISHMENTACCEPTMessageIdentity" 1 194 ++
  ["SelectedSSCModeAndSelectedPDUSessionType" |-> oct 0x11; "AuthorizedQosRules" |-> MkIE 0 0 [];
   "SessionAMBR" |-> MkIE 0 6 [1; 0; 1; 1; 0; 1]; "PDUAddress" |-> MkIE 0x29 5 [1; 10; 60; 0; 7; 0; 0; 0; 0; 0; 0; 0; 0]]).
Definition demo_session_message : Message := gmm_received 104 (gmm_head "DLNASTRANSPORTMessageIdentity" 104 ++
  ["SpareHalfOctetAndPayloadContainerType" |-> oct 1; "PayloadContainer" |-> MkIE 0 21 (drop 6 demo_session_accept)]).

Lemma demo_accept_decoded : PlainNasDecode (MkMessage 0 2 None None) demo_accept = Ret (demo_accept_message, None).
Proof. vm_compute. reflexivity. Qed.
Lemma demo_session_decoded : PlainNasDecode (MkMessage 0 2 None None) demo_session_accept = Ret (demo_session_message, None).
Proof. vm_compute. reflexivity. Qed.
Lemma demo_payload_decoded : PlainNasDecode NewMessage (drop 6 demo_session_accept) = Ret (demo_accept_payload, None).
Proof. vm_compute. reflexivity. Qed.

Lemma demo_accept_ok : registration_accept demo_accept_message demo_guti.
Proof.
  do 2 eexists. split; [reflexivity|]. split; [reflexivity|]. split; [apply lookup_singleton_eq|]. by rewrite elements_lookup.
Qed.

Lemma demo_session_ok : session_accept demo_session_message 1.
Proof.
  do 7 eexists. split; [reflexivity|]. split; [reflexivity|]. split; [apply lookup_singleton_eq|].
  split; [by rewrite elements_lookup|]. split; [exact demo_payload_decoded|]. split; [reflexivity|]. split; [reflexivity|].
  split; [apply lookup_singleton_eq|]. unfold mand_octet. rewrite !elements_lookup. by split.
Qed.

Lemma ue_registration_to_session_witness : ∃ w1 w2 b1 b2 sess2,
  DispatchNas demo_cmac map_to_list (downlink demo_cmac (UeSecurity demo_ue) 6 demo_accept) demo_world = Ret (tt, w1) ∧
  DispatchNas demo_cmac map_to_list (downlink demo_cmac (UeSecurity demo_ue) 7 demo_session_accept) w1 = Ret (tt, w2) ∧
  PduSessions (w_ue w2) !! 1 = Some sess2 ∧ State sess2 = SM5G_PDU_SESSION_ACTIVE ∧ w_out w2 = w_out demo_world ++ [Sent 3 b1; Sent 3 b2].
Proof.
  destruct (ue_registration_to_session demo_cmac demo_cmac_ok map_to_list 3 demo_guti demo_session 6 7 demo_accept
    demo_session_accept demo_accept_message demo_session_message None None demo_world)
    as (w1&w2&sess1&sess2&b1&b2&H1&_&_&_&H2&_&H3&H4&_&H5);
    [exact demo_ready|apply lookup_singleton_eq|reflexivity|reflexivity|discriminate
    |apply demo_plain; reflexivity|exact demo_accept_decoded|exact demo_accept_ok
    |apply demo_plain; reflexivity|exact demo_session_decoded|exact demo_session_ok
    |vm_compute; split; [discriminate|reflexivity]..|].
  exists w1, w2, b1, b2, sess2. exact (conj H1 (conj H2 (conj H3 (conj H4 H5)))).
Defined.

Definition demo_deregistration : Message := gmm_message 71 (gmm_head "DeregistrationRequestMessageIdentity" 71).

Lemma ue_deregistration_unanswered_witness : ∃ w' acts,
  handle demo_cmac map_to_list demo_deregistration demo_world = Ret (tt, w') ∧
  StateMM (w_ue w') = MM5G_DEREGISTERED ∧ w_out w' = Undone <$> (acts ++ [CloseConn 3]).
Proof.
  edestruct (ue_deregistration_unanswered demo_cmac demo_cmac_ok map_to_list 3 demo_deregistration) as (w'&acts&H1&H2&_&_&H3);
    [exact demo_ready|reflexivity|reflexivity|]. exists w', acts. split; [exact H1|split; [exact H2|exact H3]].
Defined.

(** The modification of session 5 while session 1 is pending. *)
Definition demo_modification : Message := gmm_message 104 (gmm_head "DLNASTRANSPORTMessageIdentity" 104 ++
  ["SpareHalfOctetAndPayloadContainerType" |-> oct 1; "PayloadContainer" |-> MkIE 0 4 [0x2e; 5; 1; 203]]).
Definition demo_pending : @world Z :=
  with_ue (with_PduSessions {[1 := with_State SM5G_PDU_SESSION_ACTIVE_PENDING demo_session]} demo_ue) demo_world.

Lemma demo_modification_decoded : PlainNasDecode NewMessage [0x2e; 5; 1; 203] =
  Ret (gsm_received 5 203 (gsm_head "PDUSESSIONMODIFICATIONCOMMANDMessageIdentity" 5 203), None).
Proof. vm_compute. reflexivity. Qed.

Lemma demo_modification_ok : modification_command demo_modification 5.
Proof.
  do 6 eexists. split; [reflexivity|]. split; [reflexivity|]. split; [apply lookup_singleton_eq|].
  split; [by rewrite elements_lookup|]. split; [exact demo_modification_decoded|]. split; [reflexivity|]. split; [reflexivity|].
  split; [apply lookup_singleton_eq|]. unfold mand_octet. rewrite elements_lookup. by split.
Qed.

Lemma demo_pending_ready : ready 3 demo_pending.
Proof. destruct demo_ready. by split. Qed.

Lemma ue_modification_fails_pending_witness : ∃ w' b sess,
  handle demo_cmac map_to_list demo_modification demo_pending = Ret (tt, w') ∧ w_out w' = w_out demo_pending ++ [Sent 3 b] ∧
  PduSessions (w_ue w') !! 1 = Some sess ∧ State sess = SM5G_PDU_SESSION_INACTIVE.
Proof.
  destruct (ue_modification_fails_pending demo_cmac demo_cmac_ok map_to_list 3 demo_modification 5 demo_pending
    demo_pending_ready demo_modification_ok) as (w'&b&H1&H2&H3).
  destruct (H3 1 (with_State SM5G_PDU_SESSION_ACTIVE_PENDING demo_session) (lookup_singleton_eq _ _) eq_refl) as (sess&H4&H5&_).
  exists w', b, sess. exact (conj H1 (conj H2 (conj H4 H5))).
Defined.
