(* ===== verification/GnbContext.v ===== *)
(** * internal/control_test_engine/gnb/context: the gNB

    The gNB, its UEs and its AMFs with the fields of context.go, ue.go and
    amf.go.  The objects live in a [heap] under numbers that stand for their
    addresses: the pools hold addresses, so that one UE is reached through
    several pools.  A socket or association is a number.  A linked list is the
    list of its elements.  The class [MapOrder] is the order in which Go visits
    a map. *)

From S2P Require Import Prelude GoStrings.

#[local] Open Scope Z_scope.
#[local] Open Scope go_scope.

(** ** Addresses *)

(** [net.IP] as the code makes them: nil, or [net.IPv4(a, b, c, d)]. *)
Inductive IP := NoIP | IPv4 (a b c d : Z).

#[export] Instance IP_eq_dec : EqDecision IP.
Proof. solve_decision. Defined.

(** The sixteen bytes of the slice. *)
Definition ip_bytes (ip : IP) : list Z :=
  match ip with NoIP => [] | IPv4 a b c d => replicate 10 0 ++ [0xff; 0xff; a; b; c; d] end.

Definition IP_String (ip : IP) : string :=
  match ip with
  | NoIP => "<nil>"
  | IPv4 a b c d => dec a +:+ "." +:+ dec b +:+ "." +:+ dec c +:+ "." +:+ dec d
  end.

(** ** Data *)

Definition Initialized : Z := 0x00.
Definition Ongoing : Z := 0x01.
Definition Ready : Z := 0x02.

Definition Inactive : Z := 0x00.
Definition Active : Z := 0x01.
Definition Overload : Z := 0x02.

Record SliceSupported := MkSlice { sst : string; sd : string; status : string }.

(** What the gNB sends, reports and closes, in order. *)
Inductive event :=
  ToUe (conn : Z) (message : list Z)
| ToAmf (conn stream : Z) (message : list Z)
| ToXn (conn : Z) (ip : string) (port : Z) (message : list Z)
| ToUpf (conn teid : Z) (upf : string) (port : Z) (packet : list Z)
| ToUePlane (conn : option Z) (ip : IP) (packet : list Z)
| Reported (message text : string)
| Closed (conn : Z).

Record PDUSession := MkPdu {
  pduSessionId : Z;
  ranUeIP : IP;
  uplinkTeid : Z;
  downlinkTeid : Z;
  slices : list SliceSupported;
  lenSlice : Z;
  pduType : Z;
  qosId : Z;
  fiveQi : Z;
  priArp : Z;
}.

Definition with_pduSessionId (v : Z) (r : PDUSession) : PDUSession :=
  MkPdu v (ranUeIP r) (uplinkTeid r) (downlinkTeid r) (slices r) (lenSlice r) (pduType r) (qosId r)
    (fiveQi r) (priArp r).
Definition with_ranUeIP (v : IP) (r : PDUSession) : PDUSession :=
  MkPdu (pduSessionId r) v (uplinkTeid r) (downlinkTeid r) (slices r) (lenSlice r) (pduType r)
    (qosId r) (fiveQi r) (priArp r).
Definition with_uplinkTeid (v : Z) (r : PDUSession) : PDUSession :=
  MkPdu (pduSessionId r) (ranUeIP r) v (downlinkTeid r) (slices r) (lenSlice r) (pduType r) (qosId
    r) (fiveQi r) (priArp r).
Definition with_downlinkTeid (v : Z) (r : PDUSession) : PDUSession :=
  MkPdu (pduSessionId r) (ranUeIP r) (uplinkTeid r) v (slices r) (lenSlice r) (pduType r) (qosId r)
    (fiveQi r) (priArp r).
Definition with_slices (v : list SliceSupported) (r : PDUSession) : PDUSession :=
  MkPdu (pduSessionId r) (ranUeIP r) (uplinkTeid r) (downlinkTeid r) v (lenSlice r) (pduType r)
    (qosId r) (fiveQi r) (priArp r).
Definition with_lenSlice (v : Z) (r : PDUSession) : PDUSession :=
  MkPdu (pduSessionId r) (ranUeIP r) (uplinkTeid r) (downlinkTeid r) (slices r) v (pduType r) (qosId
    r) (fiveQi r) (priArp r).
Definition with_qosId (v : Z) (r : PDUSession) : PDUSession :=
  MkPdu (pduSessionId r) (ranUeIP r) (uplinkTeid r) (downlinkTeid r) (slices r) (lenSlice r)
    (pduType r) v (fiveQi r) (priArp r).

Record Context := MkContext {
  mobilityInfo : string * string;
  maskedIMEISV : string;
  pduSession : PDUSession;
}.

Definition with_pduSession (v : PDUSession) (r : Context) : Context :=
  MkContext (mobilityInfo r) (maskedIMEISV r) v.

Record GNBUe := MkGnbUe {
  ranUeNgapId : Z;
  amfUeNgapId : Z;
  sourceAmfUeNgapId : Z;
  ueAmfId : Z;
  state : Z;
  sctpConnection : option Z;
  unixSocketConnection : option Z;
  context : Context;
  pduSessions : gmap Z PDUSession;
}.

Definition with_ranUeNgapId (v : Z) (r : GNBUe) : GNBUe :=
  MkGnbUe v (amfUeNgapId r) (sourceAmfUeNgapId r) (ueAmfId r) (state r) (sctpConnection r)
    (unixSocketConnection r) (context r) (pduSessions r).
Definition with_amfUeNgapId (v : Z) (r : GNBUe) : GNBUe :=
  MkGnbUe (ranUeNgapId r) v (sourceAmfUeNgapId r) (ueAmfId r) (state r) (sctpConnection r)
    (unixSocketConnection r) (context r) (pduSessions r).
Definition with_sourceAmfUeNgapId (v : Z) (r : GNBUe) : GNBUe :=
  MkGnbUe (ranUeNgapId r) (amfUeNgapId r) v (ueAmfId r) (state r) (sctpConnection r)
    (unixSocketConnection r) (context r) (pduSessions r).
Definition with_ueAmfId (v : Z) (r : GNBUe) : GNBUe :=
  MkGnbUe (ranUeNgapId r) (amfUeNgapId r) (sourceAmfUeNgapId r) v (state r) (sctpConnection r)
    (unixSocketConnection r) (context r) (pduSessions r).
Definition with_state (v : Z) (r : GNBUe) : GNBUe :=
  MkGnbUe (ranUeNgapId r) (amfUeNgapId r) (sourceAmfUeNgapId r) (ueAmfId r) v (sctpConnection r)
    (unixSocketConnection r) (context r) (pduSessions r).
Definition with_sctpConnection (v : option Z) (r : GNBUe) : GNBUe :=
  MkGnbUe (ranUeNgapId r) (amfUeNgapId r) (sourceAmfUeNgapId r) (ueAmfId r) (state r) v
    (unixSocketConnection r) (context r) (pduSessions r).
Definition with_unixSocketConnection (v : option Z) (r : GNBUe) : GNBUe :=
  MkGnbUe (ranUeNgapId r) (amfUeNgapId r) (sourceAmfUeNgapId r) (ueAmfId r) (state r)
    (sctpConnection r) v (context r) (pduSessions r).
Definition with_context (v : Context) (r : GNBUe) : GNBUe :=
  MkGnbUe (ranUeNgapId r) (amfUeNgapId r) (sourceAmfUeNgapId r) (ueAmfId r) (state r)
    (sctpConnection r) (unixSocketConnection r) v (pduSessions r).
Definition with_pduSessions (v : gmap Z PDUSession) (r : GNBUe) : GNBUe :=
  MkGnbUe (ranUeNgapId r) (amfUeNgapId r) (sourceAmfUeNgapId r) (ueAmfId r) (state r)
    (sctpConnection r) (unixSocketConnection r) (context r) v.

Record GNBAmf := MkAmf {
  amfIp : string;
  amfPort : Z;
  amfId : Z;
  sctpConn : option Z;
  tnlaWeightFactor : Z;
  tnlaUsage : bool;
  streams : Z;
  relativeAmfCapacity : Z;
  amfState : Z;
  amfName : string;
  plmns : list (string * string);
  amfSlices : list SliceSupported;
  amfLenSlice : Z;
  lenPlmn : Z;
}.

Definition with_amfIp (v : string) (r : GNBAmf) : GNBAmf :=
  MkAmf v (amfPort r) (amfId r) (sctpConn r) (tnlaWeightFactor r) (tnlaUsage r) (streams r)
    (relativeAmfCapacity r) (amfState r) (amfName r) (plmns r) (amfSlices r) (amfLenSlice r)
    (lenPlmn r).
Definition with_amfPort (v : Z) (r : GNBAmf) : GNBAmf :=
  MkAmf (amfIp r) v (amfId r) (sctpConn r) (tnlaWeightFactor r) (tnlaUsage r) (streams r)
    (relativeAmfCapacity r) (amfState r) (amfName r) (plmns r) (amfSlices r) (amfLenSlice r)
    (lenPlmn r).
Definition with_amfId (v : Z) (r : GNBAmf) : GNBAmf :=
  MkAmf (amfIp r) (amfPort r) v (sctpConn r) (tnlaWeightFactor r) (tnlaUsage r) (streams r)
    (relativeAmfCapacity r) (amfState r) (amfName r) (plmns r) (amfSlices r) (amfLenSlice r)
    (lenPlmn r).
Definition with_sctpConn (v : option Z) (r : GNBAmf) : GNBAmf :=
  MkAmf (amfIp r) (amfPort r) (amfId r) v (tnlaWeightFactor r) (tnlaUsage r) (streams r)
    (relativeAmfCapacity r) (amfState r) (amfName r) (plmns r) (amfSlices r) (amfLenSlice r)
    (lenPlmn r).
Definition with_tnlaWeightFactor (v : Z) (r : GNBAmf) : GNBAmf :=
  MkAmf (amfIp r) (amfPort r) (amfId r) (sctpConn r) v (tnlaUsage r) (streams r)
    (relativeAmfCapacity r) (amfState r) (amfName r) (plmns r) (amfSlices r) (amfLenSlice r)
    (lenPlmn r).
Definition with_tnlaUsage (v : bool) (r : GNBAmf) : GNBAmf :=
  MkAmf (amfIp r) (amfPort r) (amfId r) (sctpConn r) (tnlaWeightFactor r) v (streams r)
    (relativeAmfCapacity r) (amfState r) (amfName r) (plmns r) (amfSlices r) (amfLenSlice r)
    (lenPlmn r).
Definition with_streams (v : Z) (r : GNBAmf) : GNBAmf :=
  MkAmf (amfIp r) (amfPort r) (amfId r) (sctpConn r) (tnlaWeightFactor r) (tnlaUsage r) v
    (relativeAmfCapacity r) (amfState r) (amfName r) (plmns r) (amfSlices r) (amfLenSlice r)
    (lenPlmn r).
Definition with_relativeAmfCapacity (v : Z) (r : GNBAmf) : GNBAmf :=
  MkAmf (amfIp r) (amfPort r) (amfId r) (sctpConn r) (tnlaWeightFactor r) (tnlaUsage r) (streams r)
    v (amfState r) (amfName r) (plmns r) (amfSlices r) (amfLenSlice r) (lenPlmn r).
Definition with_amfState (v : Z) (r : GNBAmf) : GNBAmf :=
  MkAmf (amfIp r) (amfPort r) (amfId r) (sctpConn r) (tnlaWeightFactor r) (tnlaUsage r) (streams r)
    (relativeAmfCapacity r) v (amfName r) (plmns r) (amfSlices r) (amfLenSlice r) (lenPlmn r).
Definition with_amfName (v : string) (r : GNBAmf) : GNBAmf :=
  MkAmf (amfIp r) (amfPort r) (amfId r) (sctpConn r) (tnlaWeightFactor r) (tnlaUsage r) (streams r)
    (relativeAmfCapacity r) (amfState r) v (plmns r) (amfSlices r) (amfLenSlice r) (lenPlmn r).
Definition with_plmns (v : list (string * string)) (r : GNBAmf) : GNBAmf :=
  MkAmf (amfIp r) (amfPort r) (amfId r) (sctpConn r) (tnlaWeightFactor r) (tnlaUsage r) (streams r)
    (relativeAmfCapacity r) (amfState r) (amfName r) v (amfSlices r) (amfLenSlice r) (lenPlmn r).
Definition with_amfSlices (v : list SliceSupported) (r : GNBAmf) : GNBAmf :=
  MkAmf (amfIp r) (amfPort r) (amfId r) (sctpConn r) (tnlaWeightFactor r) (tnlaUsage r) (streams r)
    (relativeAmfCapacity r) (amfState r) (amfName r) (plmns r) v (amfLenSlice r) (lenPlmn r).
Definition with_amfLenSlice (v : Z) (r : GNBAmf) : GNBAmf :=
  MkAmf (amfIp r) (amfPort r) (amfId r) (sctpConn r) (tnlaWeightFactor r) (tnlaUsage r) (streams r)
    (relativeAmfCapacity r) (amfState r) (amfName r) (plmns r) (amfSlices r) v (lenPlmn r).
Definition with_lenPlmn (v : Z) (r : GNBAmf) : GNBAmf :=
  MkAmf (amfIp r) (amfPort r) (amfId r) (sctpConn r) (tnlaWeightFactor r) (tnlaUsage r) (streams r)
    (relativeAmfCapacity r) (amfState r) (amfName r) (plmns r) (amfSlices r) (amfLenSlice r) v.

Record DataInfo := MkData {
  gnbDataIp : string;
  gnbDataPort : Z;
  upfIp : string;
  upfPort : Z;
  gtpPlane : option Z;
  gatewayGnbIp : string;
  uePlane : option Z;
}.

Definition with_upfIp (v : string) (r : DataInfo) : DataInfo :=
  MkData (gnbDataIp r) (gnbDataPort r) v (upfPort r) (gtpPlane r) (gatewayGnbIp r) (uePlane r).
Definition with_upfPort (v : Z) (r : DataInfo) : DataInfo :=
  MkData (gnbDataIp r) (gnbDataPort r) (upfIp r) v (gtpPlane r) (gatewayGnbIp r) (uePlane r).
Definition with_gtpPlane (v : option Z) (r : DataInfo) : DataInfo :=
  MkData (gnbDataIp r) (gnbDataPort r) (upfIp r) (upfPort r) v (gatewayGnbIp r) (uePlane r).
Definition with_uePlane (v : option Z) (r : DataInfo) : DataInfo :=
  MkData (gnbDataIp r) (gnbDataPort r) (upfIp r) (upfPort r) (gtpPlane r) (gatewayGnbIp r) v.

Record ControlInfo := MkControl {
  mcc : string;
  mnc : string;
  tac : string;
  gnbId : string;
  gnbIp : string;
  gnbPort : Z;
  unixlistener : option Z;
  n2 : option Z;
  linkType : string;
  linkPort : Z;
  socketPath : string;
  xnConn : option Z;
  cellId : Z;
  pagingDRX : string;
}.

Definition with_mcc (v : string) (r : ControlInfo) : ControlInfo :=
  MkControl v (mnc r) (tac r) (gnbId r) (gnbIp r) (gnbPort r) (unixlistener r) (n2 r) (linkType r)
    (linkPort r) (socketPath r) (xnConn r) (cellId r) (pagingDRX r).
Definition with_mnc (v : string) (r : ControlInfo) : ControlInfo :=
  MkControl (mcc r) v (tac r) (gnbId r) (gnbIp r) (gnbPort r) (unixlistener r) (n2 r) (linkType r)
    (linkPort r) (socketPath r) (xnConn r) (cellId r) (pagingDRX r).
Definition with_tac (v : string) (r : ControlInfo) : ControlInfo :=
  MkControl (mcc r) (mnc r) v (gnbId r) (gnbIp r) (gnbPort r) (unixlistener r) (n2 r) (linkType r)
    (linkPort r) (socketPath r) (xnConn r) (cellId r) (pagingDRX r).
Definition with_gnbId (v : string) (r : ControlInfo) : ControlInfo :=
  MkControl (mcc r) (mnc r) (tac r) v (gnbIp r) (gnbPort r) (unixlistener r) (n2 r) (linkType r)
    (linkPort r) (socketPath r) (xnConn r) (cellId r) (pagingDRX r).
Definition with_gnbIp (v : string) (r : ControlInfo) : ControlInfo :=
  MkControl (mcc r) (mnc r) (tac r) (gnbId r) v (gnbPort r) (unixlistener r) (n2 r) (linkType r)
    (linkPort r) (socketPath r) (xnConn r) (cellId r) (pagingDRX r).
Definition with_gnbPort (v : Z) (r : ControlInfo) : ControlInfo :=
  MkControl (mcc r) (mnc r) (tac r) (gnbId r) (gnbIp r) v (unixlistener r) (n2 r) (linkType r)
    (linkPort r) (socketPath r) (xnConn r) (cellId r) (pagingDRX r).
Definition with_unixlistener (v : option Z) (r : ControlInfo) : ControlInfo :=
  MkControl (mcc r) (mnc r) (tac r) (gnbId r) (gnbIp r) (gnbPort r) v (n2 r) (linkType r) (linkPort
    r) (socketPath r) (xnConn r) (cellId r) (pagingDRX r).
Definition with_n2 (v : option Z) (r : ControlInfo) : ControlInfo :=
  MkControl (mcc r) (mnc r) (tac r) (gnbId r) (gnbIp r) (gnbPort r) (unixlistener r) v (linkType r)
    (linkPort r) (socketPath r) (xnConn r) (cellId r) (pagingDRX r).
Definition with_linkType (v : string) (r : ControlInfo) : ControlInfo :=
  MkControl (mcc r) (mnc r) (tac r) (gnbId r) (gnbIp r) (gnbPort r) (unixlistener r) (n2 r) v
    (linkPort r) (socketPath r) (xnConn r) (cellId r) (pagingDRX r).
Definition with_linkPort (v : Z) (r : ControlInfo) : ControlInfo :=
  MkControl (mcc r) (mnc r) (tac r) (gnbId r) (gnbIp r) (gnbPort r) (unixlistener r) (n2 r)
    (linkType r) v (socketPath r) (xnConn r) (cellId r) (pagingDRX r).
Definition with_socketPath (v : string) (r : ControlInfo) : ControlInfo :=
  MkControl (mcc r) (mnc r) (tac r) (gnbId r) (gnbIp r) (gnbPort r) (unixlistener r) (n2 r)
    (linkType r) (linkPort r) v (xnConn r) (cellId r) (pagingDRX r).
Definition with_xnConn (v : option Z) (r : ControlInfo) : ControlInfo :=
  MkControl (mcc r) (mnc r) (tac r) (gnbId r) (gnbIp r) (gnbPort r) (unixlistener r) (n2 r)
    (linkType r) (linkPort r) (socketPath r) v (cellId r) (pagingDRX r).
Definition with_cellId (v : Z) (r : ControlInfo) : ControlInfo :=
  MkControl (mcc r) (mnc r) (tac r) (gnbId r) (gnbIp r) (gnbPort r) (unixlistener r) (n2 r)
    (linkType r) (linkPort r) (socketPath r) (xnConn r) v (pagingDRX r).
Definition with_pagingDRX (v : string) (r : ControlInfo) : ControlInfo :=
  MkControl (mcc r) (mnc r) (tac r) (gnbId r) (gnbIp r) (gnbPort r) (unixlistener r) (n2 r)
    (linkType r) (linkPort r) (socketPath r) (xnConn r) (cellId r) v.

Record GNBContext := MkGnb {
  dataInfo : DataInfo;
  controlInfo : ControlInfo;
  uePool : gmap Z Z;
  amfPool : gmap Z Z;
  teidPool : gmap Z Z;
  ueIpPool : gmap string Z;
  sliceSst : string;
  sliceSd : string;
  idUeGenerator : Z;
  idAmfGenerator : Z;
  teidGenerator : Z;
  ueIpGenerator : Z;
  connLossChan : option bool;
  connLossOnce : bool;
  lastError : string;
}.

Definition with_dataInfo (v : DataInfo) (r : GNBContext) : GNBContext :=
  MkGnb v (controlInfo r) (uePool r) (amfPool r) (teidPool r) (ueIpPool r) (sliceSst r) (sliceSd r)
    (idUeGenerator r) (idAmfGenerator r) (teidGenerator r) (ueIpGenerator r) (connLossChan r)
    (connLossOnce r) (lastError r).
Definition with_controlInfo (v : ControlInfo) (r : GNBContext) : GNBContext :=
  MkGnb (dataInfo r) v (uePool r) (amfPool r) (teidPool r) (ueIpPool r) (sliceSst r) (sliceSd r)
    (idUeGenerator r) (idAmfGenerator r) (teidGenerator r) (ueIpGenerator r) (connLossChan r)
    (connLossOnce r) (lastError r).
Definition with_uePool (v : gmap Z Z) (r : GNBContext) : GNBContext :=
  MkGnb (dataInfo r) (controlInfo r) v (amfPool r) (teidPool r) (ueIpPool r) (sliceSst r) (sliceSd
    r) (idUeGenerator r) (idAmfGenerator r) (teidGenerator r) (ueIpGenerator r) (connLossChan r)
    (connLossOnce r) (lastError r).
Definition with_amfPool (v : gmap Z Z) (r : GNBContext) : GNBContext :=
  MkGnb (dataInfo r) (controlInfo r) (uePool r) v (teidPool r) (ueIpPool r) (sliceSst r) (sliceSd r)
    (idUeGenerator r) (idAmfGenerator r) (teidGenerator r) (ueIpGenerator r) (connLossChan r)
    (connLossOnce r) (lastError r).
Definition with_teidPool (v : gmap Z Z) (r : GNBContext) : GNBContext :=
  MkGnb (dataInfo r) (controlInfo r) (uePool r) (amfPool r) v (ueIpPool r) (sliceSst r) (sliceSd r)
    (idUeGenerator r) (idAmfGenerator r) (teidGenerator r) (ueIpGenerator r) (connLossChan r)
    (connLossOnce r) (lastError r).
Definition with_ueIpPool (v : gmap string Z) (r : GNBContext) : GNBContext :=
  MkGnb (dataInfo r) (controlInfo r) (uePool r) (amfPool r) (teidPool r) v (sliceSst r) (sliceSd r)
    (idUeGenerator r) (idAmfGenerator r) (teidGenerator r) (ueIpGenerator r) (connLossChan r)
    (connLossOnce r) (lastError r).
Definition with_idUeGenerator (v : Z) (r : GNBContext) : GNBContext :=
  MkGnb (dataInfo r) (controlInfo r) (uePool r) (amfPool r) (teidPool r) (ueIpPool r) (sliceSst r)
    (sliceSd r) v (idAmfGenerator r) (teidGenerator r) (ueIpGenerator r) (connLossChan r)
    (connLossOnce r) (lastError r).
Definition with_idAmfGenerator (v : Z) (r : GNBContext) : GNBContext :=
  MkGnb (dataInfo r) (controlInfo r) (uePool r) (amfPool r) (teidPool r) (ueIpPool r) (sliceSst r)
    (sliceSd r) (idUeGenerator r) v (teidGenerator r) (ueIpGenerator r) (connLossChan r)
    (connLossOnce r) (lastError r).
Definition with_teidGenerator (v : Z) (r : GNBContext) : GNBContext :=
  MkGnb (dataInfo r) (controlInfo r) (uePool r) (amfPool r) (teidPool r) (ueIpPool r) (sliceSst r)
    (sliceSd r) (idUeGenerator r) (idAmfGenerator r) v (ueIpGenerator r) (connLossChan r)
    (connLossOnce r) (lastError r).
Definition with_ueIpGenerator (v : Z) (r : GNBContext) : GNBContext :=
  MkGnb (dataInfo r) (controlInfo r) (uePool r) (amfPool r) (teidPool r) (ueIpPool r) (sliceSst r)
    (sliceSd r) (idUeGenerator r) (idAmfGenerator r) (teidGenerator r) v (connLossChan r)
    (connLossOnce r) (lastError r).
Definition with_connLossChan (v : option bool) (r : GNBContext) : GNBContext :=
  MkGnb (dataInfo r) (controlInfo r) (uePool r) (amfPool r) (teidPool r) (ueIpPool r) (sliceSst r)
    (sliceSd r) (idUeGenerator r) (idAmfGenerator r) (teidGenerator r) (ueIpGenerator r) v
    (connLossOnce r) (lastError r).
Definition with_connLossOnce (v : bool) (r : GNBContext) : GNBContext :=
  MkGnb (dataInfo r) (controlInfo r) (uePool r) (amfPool r) (teidPool r) (ueIpPool r) (sliceSst r)
    (sliceSd r) (idUeGenerator r) (idAmfGenerator r) (teidGenerator r) (ueIpGenerator r)
    (connLossChan r) v (lastError r).
Definition with_lastError (v : string) (r : GNBContext) : GNBContext :=
  MkGnb (dataInfo r) (controlInfo r) (uePool r) (amfPool r) (teidPool r) (ueIpPool r) (sliceSst r)
    (sliceSd r) (idUeGenerator r) (idAmfGenerator r) (teidGenerator r) (ueIpGenerator r)
    (connLossChan r) (connLossOnce r) v.

Record heap := MkHeap {
  gnbs : gmap Z GNBContext;
  ues : gmap Z GNBUe;
  amfs : gmap Z GNBAmf;
  ActiveGNBs : gmap string Z;
  next : Z;
  out : list event;
}.

Definition with_gnbs (v : gmap Z GNBContext) (r : heap) : heap :=
  MkHeap v (ues r) (amfs r) (ActiveGNBs r) (next r) (out r).
Definition with_ues (v : gmap Z GNBUe) (r : heap) : heap :=
  MkHeap (gnbs r) v (amfs r) (ActiveGNBs r) (next r) (out r).
Definition with_amfs (v : gmap Z GNBAmf) (r : heap) : heap :=
  MkHeap (gnbs r) (ues r) v (ActiveGNBs r) (next r) (out r).
Definition with_ActiveGNBs (v : gmap string Z) (r : heap) : heap :=
  MkHeap (gnbs r) (ues r) (amfs r) v (next r) (out r).
Definition with_next (v : Z) (r : heap) : heap :=
  MkHeap (gnbs r) (ues r) (amfs r) (ActiveGNBs r) v (out r).
Definition with_out (v : list event) (r : heap) : heap :=
  MkHeap (gnbs r) (ues r) (amfs r) (ActiveGNBs r) (next r) v.

(** ** Stateful calls *)

(** A call that may change a state of type [S]. *)
Definition St (S A : Type) : Type := S → outcome (A * S).
#[export] Instance St_ret {S} : MRet (St S) := λ A a s, Ret (a, s).
#[export] Instance St_bind {S} : MBind (St S) := λ A B f m s,
  match m s with Ret (a, s) => f a s | Fail e => Fail e | Panic => Panic end.

Definition H : Type → Type := St heap.

Definition panic {S A} : St S A := λ s, Panic.
Definition run {S A} (r : outcome A) : St S A := λ s, a ← r; Ret (a, s).
Definition emit (e : event) : H unit := λ h, Ret (tt, with_out (out h ++ [e]) h).

(** The object at an address; a nil pointer has none. *)
Definition get_gnb (p : Z) : H GNBContext := λ h, match gnbs h !! p with Some g => Ret (g, h) | None => Panic end.
Definition get_ue (p : Z) : H GNBUe := λ h, match ues h !! p with Some u => Ret (u, h) | None => Panic end.
Definition get_amf (p : Z) : H GNBAmf := λ h, match amfs h !! p with Some a => Ret (a, h) | None => Panic end.
Definition set_gnb (p : Z) (f : GNBContext → GNBContext) : H unit := λ h,
  match gnbs h !! p with Some g => Ret (tt, with_gnbs (<[p := f g]> (gnbs h)) h) | None => Panic end.
Definition set_ue (p : Z) (f : GNBUe → GNBUe) : H unit := λ h,
  match ues h !! p with Some u => Ret (tt, with_ues (<[p := f u]> (ues h)) h) | None => Panic end.
Definition set_amf (p : Z) (f : GNBAmf → GNBAmf) : H unit := λ h,
  match amfs h !! p with Some a => Ret (tt, with_amfs (<[p := f a]> (amfs h)) h) | None => Panic end.

Definition set_active (f : gmap string Z → gmap string Z) : H unit := λ h, Ret (tt, with_ActiveGNBs (f (ActiveGNBs h)) h).

(** The order of a [range] over a map. *)
Class MapOrder := {
  visit : ∀ {K} `{Countable K} {V}, gmap K V → list (K * V);
  visit_perm : ∀ {K} `{Countable K} {V} (m : gmap K V), visit m ≡ₚ map_to_list m;
}.

(** The order of the keys, for examples. *)
Definition key_order : MapOrder := {| visit := λ K _ _ V m, map_to_list m; visit_perm := λ K _ _ V m, Permutation_refl _ |}.

(** ** Linked lists *)

(** Appending: the loop that walks [len] times, from the head, to the element
    without a successor; an empty list is replaced. *)
Fixpoint append_loop {A} (n : nat) (e : A) (mov : nat) (l : list A) : outcome (list A) :=
  match n with
  | O => Ret l
  | S n =>
    match l !! mov with
    | None => Panic
    | Some _ => if (S mov =? length l)%nat then append_loop n e mov (l ++ [e]) else append_loop n e (S mov) l
    end
  end.
Definition append {A} (len : Z) (e : A) (l : list A) : outcome (list A) :=
  if len =? 0 then Ret [e] else append_loop (Z.to_nat len) e 0 l.

(** The element an index leads to. *)
Definition nth {A} (index : Z) (l : list A) : outcome A := rd l (Z.max 0 index).

(** ** amf.go *)

(** [s[i:i+1]] and [s[i]] of a string within range. *)
Definition str_slice (a b : nat) (s : string) : outcome string :=
  if (String.length s <? b)%nat then Panic else Ret (sub a b s).

Definition convertMccMnc (plmn : string) : outcome (string * string) :=
  mcc12 ← str_slice 0 2 plmn;
  mnc3 ← str_slice 2 3 plmn;
  mcc3 ← str_slice 3 4 plmn;
  mnc12 ← str_slice 4 (Nat.max 4 (String.length plmn)) plmn;
  Ret (if negb (mcc3 =? "f")%string then reverse mcc12 +:+ mcc3 else reverse mcc12,
       if negb (mnc3 =? "f")%string then reverse mnc12 +:+ mnc3 else reverse mnc12).

Definition GetSliceSupport (amf : GNBAmf) (index : Z) : outcome (string * string) :=
  mov ← nth index (amfSlices amf); Ret (sst mov, sd mov).
Definition GetPlmnSupport (amf : GNBAmf) (index : Z) : outcome (string * string) := nth index (plmns amf).

Definition AddedPlmn (plmn : string) (amf : GNBAmf) : outcome GNBAmf :=
  newElem ← convertMccMnc plmn;
  l ← append (lenPlmn amf) newElem (plmns amf);
  Ret (with_lenPlmn (lenPlmn amf + 1) (with_plmns l amf)).

Definition AddedSlice (s d : string) (amf : GNBAmf) : outcome GNBAmf :=
  l ← append (amfLenSlice amf) (MkSlice s d "") (amfSlices amf);
  Ret (with_amfLenSlice (amfLenSlice amf + 1) (with_amfSlices l amf)).

(** ** ue.go *)

Definition with_pduSession_of (f : PDUSession → PDUSession) (ue : GNBUe) : GNBUe :=
  with_context (with_pduSession (f (pduSession (context ue))) (context ue)) ue.

Definition addedSlice (s d st : string) (ue : GNBUe) : outcome GNBUe :=
  let p := pduSession (context ue) in
  l ← append (lenSlice p) (MkSlice s d st) (slices p);
  Ret (with_pduSession_of (λ p, with_lenSlice (lenSlice p + 1) (with_slices l p)) ue).

(** The loop over the slices of the context. *)
Fixpoint added_slices (ssts sds : list string) (ue : GNBUe) : outcome GNBUe :=
  match ssts, sds with
  | [], _ => Ret ue
  | s :: ssts, d :: sds => ue ← addedSlice s d "inactive" ue; added_slices ssts sds ue
  | _ :: _, [] => Panic
  end.

Definition CreateUeContext (plmn imeisv : string) (ssts sds : list string) (ue : GNBUe) : outcome GNBUe :=
  let ue := with_pduSession_of (with_lenSlice 0) ue in
  mobility ← (if negb (plmn =? "not informed")%string then convertMccMnc plmn else Ret (plmn, plmn));
  let c := context ue in
  added_slices ssts sds (with_context (MkContext mobility imeisv (pduSession c)) ue).

(** The position of the first slice among [n], walking the list. *)
Fixpoint find_slice (n : nat) (s d : string) (l : list SliceSupported) : outcome (option nat) :=
  match n with
  | O => Ret None
  | S n =>
    match l with
    | [] => Panic
    | x :: l =>
      if ((sst x =? s) && (sd x =? d))%string then Ret (Some O)
      else r ← find_slice n s d l; Ret (option_map S r)
    end
  end.

Definition activate (x : SliceSupported) : SliceSupported := MkSlice (sst x) (sd x) "active".

Definition pduSessionNssai (s d : string) (ue : GNBUe) : outcome (bool * GNBUe) :=
  let p := pduSession (context ue) in
  r ← find_slice (Z.to_nat (lenSlice p)) s d (slices p);
  match r with
  | Some i => Ret (true, with_pduSession_of (with_slices (alter activate i (slices p))) ue)
  | None => Ret (false, ue)
  end.

(** The error text is empty on success.  The slice a stored session points to
    is the list from that slice on. *)
Definition CreatePduSession (pid : Z) (s d : string) (type qos arp fqi ulTeid : Z) (ueIp : IP) (dlTeid : Z)
    (ue : GNBUe) : outcome (string * GNBUe) :=
  let ue := with_pduSession_of (λ p,
    MkPdu pid ueIp ulTeid dlTeid (slices p) (lenSlice p) type qos fqi arp) ue in
  '(found, ue) ← pduSessionNssai s d ue;
  if negb found then Ret ("Slice was not found"%string, ue)
  else
    let p := pduSession (context ue) in
    r ← find_slice (Z.to_nat (lenSlice p)) s d (slices p);
    let mov := match r with Some i => drop i (slices p) | None => [] end in
    let sess := MkPdu pid ueIp ulTeid dlTeid mov 0 type qos fqi arp in
    Ret (""%string, with_pduSessions (<[pid := sess]> (pduSessions ue)) ue).

Definition GetTeidDownlinkOfSession (ue : GNBUe) (pid : Z) : Z :=
  match pduSessions ue !! pid with Some sess => downlinkTeid sess | None => 0 end.
Definition GetQosIdOfSession (ue : GNBUe) (pid : Z) : Z :=
  match pduSessions ue !! pid with Some sess => qosId sess | None => 0 end.
Definition SetQosIdOfSession (pid qos : Z) (ue : GNBUe) : GNBUe :=
  with_pduSessions (alter (with_qosId qos) pid (pduSessions ue)) ue.

Definition GetPduType (ue : GNBUe) : string :=
  let t := pduType (pduSession (context ue)) in
  if t =? 0 then "ipv4" else if t =? 1 then "ipv6" else if t =? 2 then "Ipv4Ipv6"
  else if t =? 3 then "ethernet" else "".

Definition GetAllowedNssai (ue : GNBUe) (index : Z) : outcome (string * string) :=
  mov ← nth index (slices (pduSession (context ue))); Ret (sst mov, sd mov).

Fixpoint find_active (n : nat) (l : list SliceSupported) : outcome (string * string) :=
  match n with
  | O => Ret ("NSSAI was not selected", "NSSAI was not selected")%string
  | S n =>
    match l with
    | [] => Panic
    | x :: l => if (status x =? "active")%string then Ret (sst x, sd x) else find_active n l
    end
  end.
Definition GetSelectedNssai (ue : GNBUe) : outcome (string * string) :=
  find_active (Z.to_nat (lenSlice (pduSession (context ue)))) (slices (pduSession (context ue))).

Definition SetStateInitialized : GNBUe → GNBUe := with_state Initialized.
Definition SetStateOngoing : GNBUe → GNBUe := with_state Ongoing.
Definition SetStateReady : GNBUe → GNBUe := with_state Ready.
Definition SetTeidDownlink (t : Z) : GNBUe → GNBUe := with_pduSession_of (with_downlinkTeid t).
Definition GetTeidDownlink (ue : GNBUe) : Z := downlinkTeid (pduSession (context ue)).
Definition SetTeidUplink (t : Z) : GNBUe → GNBUe := with_pduSession_of (with_uplinkTeid t).
Definition GetTeidUplink (ue : GNBUe) : Z := uplinkTeid (pduSession (context ue)).
Definition SetPduSessionId (i : Z) : GNBUe → GNBUe := with_pduSession_of (with_pduSessionId i).
Definition GetPduSessionId (ue : GNBUe) : Z := pduSessionId (pduSession (context ue)).
Definition SetIp (ueIp : Z) : GNBUe → GNBUe := with_pduSession_of (with_ranUeIP (IPv4 127 0 0 ueIp)).
Definition GetIp (ue : GNBUe) : IP := ranUeIP (pduSession (context ue)).

(** A UE with a socket is told its new identifier. *)
Definition SetAmfUeId (ue : Z) (amfUeId : Z) : H unit :=
  _ ← set_ue ue (with_amfUeNgapId amfUeId);
  u ← get_ue ue;
  match unixSocketConnection u with
  | Some conn => emit (ToUe conn ([0x00; 0x03] ++ be_bytes 8 amfUeId))
  | None => mret tt
  end.

(** ** context.go *)

Definition GetPagingDRX (g : GNBContext) : string :=
  if (pagingDRX (controlInfo g) =? "")%string then "v128" else pagingDRX (controlInfo g).
Definition GetCellId (g : GNBContext) : Z :=
  if cellId (controlInfo g) =? 0 then 1 else cellId (controlInfo g).
Definition GetLinkType (g : GNBContext) : string :=
  if (linkType (controlInfo g) =? "")%string then "unix" else linkType (controlInfo g).
Definition GetLinkPort (g : GNBContext) : Z :=
  if linkPort (controlInfo g) =? 0 then 9488 else linkPort (controlInfo g).
Definition GetSocketPath (g : GNBContext) : string :=
  if (socketPath (controlInfo g) =? "")%string then "/tmp/gnb.sock" else socketPath (controlInfo g).

Definition on_control (f : ControlInfo → ControlInfo) (g : GNBContext) : GNBContext := with_controlInfo (f (controlInfo g)) g.
Definition on_data (f : DataInfo → DataInfo) (g : GNBContext) : GNBContext := with_dataInfo (f (dataInfo g)) g.

Definition SetPagingDRX (drx : string) : GNBContext → GNBContext := on_control (with_pagingDRX drx).
Definition SetCellId (c : Z) : GNBContext → GNBContext := on_control (with_cellId c).
Definition SetLinkType (t : string) : GNBContext → GNBContext := on_control (with_linkType t).
Definition SetLinkPort (p : Z) : GNBContext → GNBContext := on_control (with_linkPort p).
Definition SetSocketPath (p : string) : GNBContext → GNBContext := on_control (with_socketPath p).
Definition SetListener (conn : option Z) : GNBContext → GNBContext := on_control (with_unixlistener conn).
Definition SetN2 (conn : option Z) : GNBContext → GNBContext := on_control (with_n2 conn).
Definition SetXnConn (conn : option Z) : GNBContext → GNBContext := on_control (with_xnConn conn).
Definition SetUpfIp (ip : string) : GNBContext → GNBContext := on_data (with_upfIp ip).
Definition SetN3Plane (conn : option Z) : GNBContext → GNBContext := on_data (with_gtpPlane conn).
Definition SetUePlane (conn : option Z) : GNBContext → GNBContext := on_data (with_uePlane conn).
Definition SetError (err : string) : GNBContext → GNBContext := with_lastError err.

(** The gNB at address [p], whatever it held before, with its pools. *)
Definition NewRanGnbContext (p : Z) (gnb_id mcc_ mnc_ tac_ sst_ sd_ ip ipData : string) (port portData : Z) : H unit :=
  _ ← set_gnb p (λ g,
    let c := controlInfo g in let d := dataInfo g in
    MkGnb (MkData ipData portData "" 2152 None "127.0.0.2" (uePlane d))
      (MkControl mcc_ mnc_ tac_ gnb_id ip port (unixlistener c) (n2 c) (linkType c) (linkPort c) (socketPath c)
        (xnConn c) (cellId c) (pagingDRX c))
      (uePool g) (amfPool g) (teidPool g) (ueIpPool g) sst_ sd_ 1 1 1 3 (Some true) false (lastError g));
  set_active <[gnb_id := p]>.

(** The channel is open ([Some true]), closed ([Some false]) or nil. *)
Definition SignalConnLoss (g : GNBContext) : GNBContext :=
  if connLossOnce g then g
  else with_connLossOnce true (with_connLossChan (option_map (λ _, false) (connLossChan g)) g).

Definition getRanUeIp (p : Z) : H Z :=
  g ← get_gnb p; _ ← set_gnb p (with_ueIpGenerator (u8 (ueIpGenerator g + 1))); mret (ueIpGenerator g).
Definition getRanUeId (p : Z) : H Z :=
  g ← get_gnb p; _ ← set_gnb p (with_idUeGenerator (s64 (idUeGenerator g + 1))); mret (idUeGenerator g).
Definition GetUeTeid (p : Z) : H Z :=
  g ← get_gnb p; _ ← set_gnb p (with_teidGenerator (u32 (teidGenerator g + 1))); mret (teidGenerator g).
Definition getRanAmfId (p : Z) : H Z :=
  g ← get_gnb p; _ ← set_gnb p (with_idAmfGenerator (s64 (idAmfGenerator g + 1))); mret (idAmfGenerator g).

Definition StoreTeid (p teid ue : Z) : H unit := set_gnb p (λ g, with_teidPool (<[teid := ue]> (teidPool g)) g).
Definition StoreUeIp (p : Z) (ip : string) (ue : Z) : H unit := set_gnb p (λ g, with_ueIpPool (<[ip := ue]> (ueIpPool g)) g).
Definition StoreUe (p ranUeId ue : Z) : H unit := set_gnb p (λ g, with_uePool (<[ranUeId := ue]> (uePool g)) g).
Definition DeleteGnBUeByTeid (p teid : Z) : H unit := set_gnb p (λ g, with_teidPool (delete teid (teidPool g)) g).
Definition DeleteGnBUe (p ranUeId : Z) : H unit := set_gnb p (λ g, with_uePool (delete ranUeId (uePool g)) g).
Definition DeleteGnBUeByIp (p : Z) (ip : string) : H unit := set_gnb p (λ g, with_ueIpPool (delete ip (ueIpPool g)) g).

Definition GetGnbUe (g : GNBContext) (ranUeId : Z) : option Z := uePool g !! ranUeId.
Definition GetGnbUeByIp (g : GNBContext) (ip : string) : option Z := ueIpPool g !! ip.
Definition GetGnbUeByTeid (g : GNBContext) (teid : Z) : option Z := teidPool g !! teid.
Definition getGnbAmf (g : GNBContext) (i : Z) : option Z := amfPool g !! i.

(** [GNBUe{}] and [GNBAmf{}] *)
Definition blank_ue : GNBUe :=
  MkGnbUe 0 0 0 0 0 None None (MkContext ("", "")%string "" (MkPdu 0 NoIP 0 0 [] 0 0 0 0 0)) ∅.
Definition blank_amf : GNBAmf := MkAmf "" 0 0 None 0 false 0 0 0 "" [] [] 0 0.

Definition new_ue : H Z := λ h, Ret (next h, with_next (next h + 1) (with_ues (<[next h := blank_ue]> (ues h)) h)).
Definition new_amf : H Z := λ h, Ret (next h, with_next (next h + 1) (with_amfs (<[next h := blank_amf]> (amfs h)) h)).

Definition NewGnBAmf (p : Z) (ip : string) (port : Z) : H Z :=
  amf ← new_amf;
  i ← getRanAmfId p;
  _ ← set_amf amf (λ a, with_amfState Inactive (with_amfPort port (with_amfIp ip (with_amfId i a))));
  _ ← set_gnb p (λ g, with_amfPool (<[i := amf]> (amfPool g)) g);
  _ ← set_amf amf (λ a, with_amfLenSlice 0 (with_lenPlmn 0 a));
  mret amf.

Section Order.
Context `{MapOrder}.

(** The first entry of a pool whose object satisfies [P]; a [sync.Map] holds
    no nil pointer. *)
Fixpoint find_ptr {K A} (get : Z → H A) (P : A → bool) (l : list (K * Z)) : H (option (K * Z)) :=
  match l with
  | [] => mret None
  | (k, p) :: l => a ← get p; if P a then mret (Some (k, p)) else find_ptr get P l
  end.

Definition selectAmFByActive (p : Z) : H (option Z) :=
  g ← get_gnb p;
  r ← find_ptr get_amf (λ a, amfState a =? Active) (visit (amfPool g));
  mret (option_map snd r).

Definition selectAmFByCapacity (p : Z) : H (option Z) :=
  g ← get_gnb p;
  r ← find_ptr get_amf (λ a, 0 <? relativeAmfCapacity a) (visit (amfPool g));
  match r with
  | Some (_, amf) => _ ← set_amf amf (λ a, with_relativeAmfCapacity (relativeAmfCapacity a - 1) a); mret (Some amf)
  | None => mret None
  end.

(** The first AMF visited. *)
Definition GetActiveAmf (g : GNBContext) : option Z := snd <$> head (visit (amfPool g)).

Definition GetActiveAmfIp (p : Z) : H string :=
  r ← selectAmFByActive p;
  match r with Some amf => a ← get_amf amf; mret (amfIp a) | None => mret "127.0.0.1"%string end.

(** A nil result leaves the UE in the pools. *)
Definition NewGnBUe (p : Z) (conn : option Z) : H (option Z) :=
  ue ← new_ue;
  ranId ← getRanUeId p;
  _ ← set_ue ue (with_ranUeNgapId ranId);
  _ ← SetAmfUeId ue 0;
  _ ← set_ue ue (with_unixSocketConnection conn);
  _ ← set_ue ue SetStateInitialized;
  teidDown ← GetUeTeid p;
  _ ← set_ue ue (SetTeidDownlink teidDown);
  _ ← StoreTeid p teidDown ue;
  _ ← StoreUe p ranId ue;
  ueIp ← getRanUeIp p;
  _ ← set_ue ue (SetIp ueIp);
  _ ← StoreUeIp p (IP_String (IPv4 127 0 0 ueIp)) ue;
  amf ← selectAmFByActive p;
  g ← get_gnb p;
  match (match amf with Some a => Some a | None => GetActiveAmf g end) with
  | None => mret None
  | Some amf =>
    a ← get_amf amf;
    _ ← set_ue ue (with_ueAmfId (amfId a));
    _ ← set_ue ue (with_sctpConnection (sctpConn a));
    mret (Some ue)
  end.

Definition find_ue (p : Z) (P : GNBUe → bool) : H (option (Z * Z)) :=
  g ← get_gnb p; find_ptr get_ue P (visit (uePool g)).

(** The other active gNB that serves the UE. *)
Fixpoint find_in_gnbs (excludeGnbId : string) (amfUeId : Z) (l : list (string * Z)) : H (option (Z * Z)) :=
  match l with
  | [] => mret None
  | (gId, g) :: l =>
    if (gId =? excludeGnbId)%string then find_in_gnbs excludeGnbId amfUeId l
    else r ← find_ue g (λ u, amfUeNgapId u =? amfUeId);
      match r with Some (_, ue) => mret (Some (g, ue)) | None => find_in_gnbs excludeGnbId amfUeId l end
  end.
Definition FindUeInOtherGnb (excludeGnbId : string) (amfUeId : Z) : H (option (Z * Z)) := λ h,
  find_in_gnbs excludeGnbId amfUeId (visit (ActiveGNBs h)) h.

Definition FindPduSessionByIp (ue : GNBUe) (ip : string) : option PDUSession :=
  snd <$> List.find (λ '(_, sess), negb (bool_decide (ranUeIP sess = NoIP)) && (IP_String (ranUeIP sess) =? ip)%string)
    (visit (pduSessions ue)).
Definition FindPduSessionByDownlinkTeid (ue : GNBUe) (teid : Z) : option PDUSession :=
  snd <$> List.find (λ '(_, sess), downlinkTeid sess =? teid) (visit (pduSessions ue)).

End Order.

Definition GetGnbIdInBytes (g : GNBContext) : list Z := DecodeString (gnbId (controlInfo g)).
Definition GetTacInBytes (g : GNBContext) : list Z := DecodeString (tac (controlInfo g)).
(** SST and, unless empty, SD. *)
Definition GetSliceInBytes (g : GNBContext) : list Z * option (list Z) :=
  (DecodeString (sliceSst g),
   if negb (sliceSd g =? "")%string then Some (DecodeString (sliceSd g)) else None).
(** The same code as in the UE context. *)
Definition GetMccAndMncInOctets (g : GNBContext) : list Z :=
  GoStrings.GetMccAndMncInOctets (mcc (controlInfo g)) (mnc (controlInfo g)).

Definition close (conn : option Z) : H unit :=
  match conn with Some c => emit (Closed c) | None => mret tt end.

Definition Terminate (p : Z) : H unit :=
  g ← get_gnb p;
  _ ← close (unixlistener (controlInfo g));
  _ ← close (n2 (controlInfo g));
  _ ← close (xnConn (controlInfo g));
  set_active (delete (gnbId (controlInfo g))).
