(* ===== verification/Ngap.v ===== *)
(** * NGAP messages

    The NGAP messages the gNB reads and writes: procedure codes and element
    identifiers of lib/ngap/ngapType, the elements as one type [content] with
    the pointer that is set as its constructor, the builders of
    gnb/ngap/message/ngap_control and its compliance validator.

    The octets of a message are those of lib/ngap, the traversal of Go
    structures by reflection: the class [NgapCodec] is what the gNB calls of it.
    [Host] is what it asks the operating system. *)

From Stdlib Require Import Ascii.
From S2P Require Import Prelude GoStrings GnbContext.

#[local] Open Scope Z_scope.
#[local] Open Scope go_scope.

(** ** Constants *)

Definition ProtocolIEIDAllowedNSSAI : Z := 0.
Definition ProtocolIEIDAMFName : Z := 1.
Definition ProtocolIEIDAMFUENGAPID : Z := 10.
Definition ProtocolIEIDCause : Z := 15.
Definition ProtocolIEIDDefaultPagingDRX : Z := 21.
Definition ProtocolIEIDFiveGSTMSI : Z := 26.
Definition ProtocolIEIDGlobalRANNodeID : Z := 27.
Definition ProtocolIEIDGUAMI : Z := 28.
Definition ProtocolIEIDHandoverType : Z := 29.
Definition ProtocolIEIDMaskedIMEISV : Z := 34.
Definition ProtocolIEIDMobilityRestrictionList : Z := 36.
Definition ProtocolIEIDNASPDU : Z := 38.
Definition ProtocolIEIDPDUSessionResourceAdmittedList : Z := 53.
Definition ProtocolIEIDPDUSessionResourceListHORqd : Z := 61.
Definition ProtocolIEIDPDUSessionResourceModifyListModReq : Z := 64.
Definition ProtocolIEIDPDUSessionResourceModifyListModRes : Z := 65.
Definition ProtocolIEIDPDUSessionResourceReleasedListRelRes : Z := 70.
Definition ProtocolIEIDPDUSessionResourceSetupListCxtReq : Z := 71.
Definition ProtocolIEIDPDUSessionResourceSetupListCxtRes : Z := 72.
Definition ProtocolIEIDPDUSessionResourceSetupListHOReq : Z := 73.
Definition ProtocolIEIDPDUSessionResourceSetupListSUReq : Z := 74.
Definition ProtocolIEIDPDUSessionResourceSetupListSURes : Z := 75.
Definition ProtocolIEIDPDUSessionResourceToBeSwitchedDLList : Z := 76.
Definition ProtocolIEIDPDUSessionResourceSwitchedList : Z := 77.
Definition ProtocolIEIDPDUSessionResourceToReleaseListRelCmd : Z := 79.
Definition ProtocolIEIDPLMNSupportList : Z := 80.
Definition ProtocolIEIDRANNodeName : Z := 82.
Definition ProtocolIEIDRANUENGAPID : Z := 85.
Definition ProtocolIEIDRelativeAMFCapacity : Z := 86.
Definition ProtocolIEIDRRCEstablishmentCause : Z := 90.
Definition ProtocolIEIDSecurityContext : Z := 93.
Definition ProtocolIEIDSecurityKey : Z := 94.
Definition ProtocolIEIDServedGUAMIList : Z := 96.
Definition ProtocolIEIDSourceAMFUENGAPID : Z := 100.
Definition ProtocolIEIDSourceToTargetTransparentContainer : Z := 101.
Definition ProtocolIEIDSupportedTAList : Z := 102.
Definition ProtocolIEIDTargetID : Z := 105.
Definition ProtocolIEIDTargetToSourceTransparentContainer : Z := 106.
Definition ProtocolIEIDTimeToWait : Z := 107.
Definition ProtocolIEIDUEAggregateMaximumBitRate : Z := 110.
Definition ProtocolIEIDUEContextRequest : Z := 112.
Definition ProtocolIEIDUENGAPIDs : Z := 114.
Definition ProtocolIEIDUEPagingIdentity : Z := 115.
Definition ProtocolIEIDUESecurityCapabilities : Z := 119.
Definition ProtocolIEIDUserLocationInformation : Z := 121.
Definition ProtocolIEIDPDUSessionType : Z := 134.
Definition ProtocolIEIDQosFlowAddOrModifyRequestList : Z := 135.
Definition ProtocolIEIDQosFlowSetupRequestList : Z := 136.
Definition ProtocolIEIDULNGUUPTNLInformation : Z := 139.

Definition ProcedureCodeAMFConfigurationUpdate : Z := 0.
Definition ProcedureCodeDownlinkNASTransport : Z := 4.
Definition ProcedureCodeErrorIndication : Z := 9.
Definition ProcedureCodeHandoverNotification : Z := 11.
Definition ProcedureCodeHandoverPreparation : Z := 12.
Definition ProcedureCodeHandoverResourceAllocation : Z := 13.
Definition ProcedureCodeInitialContextSetup : Z := 14.
Definition ProcedureCodeInitialUEMessage : Z := 15.
Definition ProcedureCodeNGReset : Z := 20.
Definition ProcedureCodeNGSetup : Z := 21.
Definition ProcedureCodeOverloadStart : Z := 22.
Definition ProcedureCodeOverloadStop : Z := 23.
Definition ProcedureCodePaging : Z := 24.
Definition ProcedureCodePathSwitchRequest : Z := 25.
Definition ProcedureCodePDUSessionResourceModify : Z := 26.
Definition ProcedureCodePDUSessionResourceRelease : Z := 28.
Definition ProcedureCodePDUSessionResourceSetup : Z := 29.
Definition ProcedureCodeUEContextRelease : Z := 41.
Definition ProcedureCodeUEContextReleaseRequest : Z := 42.
Definition ProcedureCodeUplinkNASTransport : Z := 46.

Definition CriticalityPresentReject : Z := 0.
Definition CriticalityPresentIgnore : Z := 1.

Definition NGAPPDUPresentInitiatingMessage : Z := 1.
Definition NGAPPDUPresentSuccessfulOutcome : Z := 2.
Definition NGAPPDUPresentUnsuccessfulOutcome : Z := 3.

(** ** Messages *)

(** A nil byte slice is [None] where the code tells it from an empty one. *)
Record SNSSAI := MkNssai { SST : option (list Z); SD : option (list Z) }.
Record BitString := MkBits { Bytes : list Z; BitLength : Z }.
(** A nil tunnel pointer is [None] where this type is used. *)
Record GTPTunnel := MkTunnel { TransportLayerAddress : BitString; GTPTEID : list Z }.

Record SetupItem := MkSetup {
  si_PDUSessionID : Z; si_NASPDU : option (list Z); si_SNSSAI : SNSSAI; si_Transfer : option (list Z) }.
Record ModifyItem := MkModify { mi_PDUSessionID : Z; mi_NASPDU : option (list Z); mi_Transfer : list Z }.
(** [AMFRegionID], [AMFPointer], [AMFSetID] *)
Record GuamiItem := MkGuami { gi_Region : option (list Z); gi_Pointer : option (list Z); gi_Set : option (list Z) }.
Record PlmnSupportItem := MkPlmnItem { pi_PLMN : list Z; pi_Slices : option (list SNSSAI) }.

Inductive cause :=
  CauseNothing | CauseRadioNetwork (v : Z) | CauseTransport (v : Z) | CauseNas (v : Z)
| CauseProtocol (v : Z) | CauseMisc (v : Z).
Inductive uengapids := UENGAPIDPair (amf ran : Z) | UEAMFUENGAPID (amf : Z) | NoUENGAPIDs.

(** The pointer of an element's value that is set, with what it points to. *)
Inductive content :=
  AMFUENGAPID (v : Z) | RANUENGAPID (v : Z) | SourceAMFUENGAPID (v : Z) | NASPDU (v : list Z)
| SecurityKey (v : BitString) | GUAMI | AllowedNSSAI (l : list SNSSAI)
| MobilityRestrictionList (servingPLMN : list Z) | MaskedIMEISV (v : BitString)
| UESecurityCapabilities (nrEnc nrInt eutraEnc eutraInt : BitString)
| PDUSessionResourceSetupListCxtReq (l : list SetupItem)
| PDUSessionResourceSetupListSUReq (l : list SetupItem)
| PDUSessionResourceSetupListHOReq (l : list (Z * SNSSAI * list Z))
| PDUSessionResourceToReleaseListRelCmd (l : list Z)
| PDUSessionResourceModifyListModReq (l : list ModifyItem)
| PDUSessionResourceSwitchedList (l : list (Z * list Z))
| AMFName (v : string) | ServedGUAMIList (l : option (list GuamiItem)) | RelativeAMFCapacity (v : Z)
| PLMNSupportList (l : list PlmnSupportItem)
| Cause (c : cause) | TimeToWait (v : Z)
| UEPagingIdentity (fiveGSTMSI : option (list Z)) | UENGAPIDs (v : uengapids)
| SourceToTargetTransparentContainer (v : list Z) | TargetToSourceTransparentContainer (v : list Z)
| UserLocationInformation (plmn : list Z) (cell : BitString) (taiPlmn tac : list Z)
| RRCEstablishmentCause (v : Z) | FiveGSTMSI (amfSetID amfPointer : BitString) (tmsi : list Z)
| UEContextRequest (v : Z)
| PDUSessionResourceSetupListSURes (l : list (Z * list Z))
| PDUSessionResourceSetupListCxtRes (l : list (Z * list Z))
| PDUSessionResourceReleasedListRelRes (l : list (Z * list Z))
| PDUSessionResourceModifyListModRes (l : list (Z * list Z))
| PDUSessionResourceAdmittedList (l : list (Z * list Z))
| PDUSessionResourceListHORqd (l : list (Z * list Z))
| PDUSessionResourceToBeSwitchedDLList (l : list (Z * list Z))
| GlobalRANNodeID (plmn : list Z) (gnb : BitString) | RANNodeName (v : string)
| SupportedTAList (tac : list Z) (plmn : list Z) (slices : list SNSSAI) | DefaultPagingDRX (v : Z)
| HandoverType (v : Z) | TargetID (plmn : list Z) (gnb : BitString) (taiPlmn tac : list Z)
| UEAggregateMaximumBitRate (dl ul : Z) | SecurityContext (ncc : Z) (nh : BitString).

(** A protocol element: [Id], [Criticality] and [Value]. *)
Record IE := MkIE { ie_Id : Z; ie_Criticality : Z; ie_Value : option content }.

(** The pointer of a message's value that is set. *)
Inductive alternative :=
  MNothing | MNGSetupRequest | MInitialUEMessage | MUplinkNASTransport | MDownlinkNASTransport
| MInitialContextSetupRequest | MInitialContextSetupResponse
| MPDUSessionResourceSetupRequest | MPDUSessionResourceSetupResponse
| MPDUSessionResourceReleaseCommand | MPDUSessionResourceReleaseResponse
| MPDUSessionResourceModifyRequest | MPDUSessionResourceModifyResponse
| MNGSetupResponse | MNGSetupFailure | MPaging | MErrorIndication
| MPathSwitchRequest | MPathSwitchRequestAcknowledge
| MHandoverRequired | MHandoverRequest | MHandoverRequestAcknowledge | MHandoverCommand | MHandoverNotify
| MUEContextReleaseRequest | MUEContextReleaseCommand | MUEContextReleaseComplete.

#[export] Instance alternative_eq_dec : EqDecision alternative.
Proof. solve_decision. Defined.

Record Message := MkMessage { ProcedureCode : Z; Criticality : Z; Value : alternative; ProtocolIEs : list IE }.
(** [Present] and the message it says is set, which may be nil. *)
Record NGAPPDU := MkNgap { Present : Z; Outcome : option Message }.

(** What is marshalled into an octet string of its own. *)
Inductive transfer :=
  SetupResponseTransfer (tunnel : GTPTunnel) (qosFlow : Z)
| ModifyResponseTransfer (qosFlow : Z)
| ReleaseResponseTransfer
| HandoverRequiredTransfer
| HandoverRequestAcknowledgeTransfer (tunnel : GTPTunnel) (qosFlow : Z)
| PathSwitchRequestTransfer (tunnel : GTPTunnel) (qosFlow : Z)
| PathSwitchRequestAcknowledgeTransfer (tunnel : GTPTunnel)
| TargetToSource (rrc : list Z)
| SourceToTarget (rrc targetPlmn : list Z) (targetCell : BitString) (sourcePlmn : list Z) (sourceCell : BitString)
    (cellSize time : Z).

(** A QoS flow asked for: its identifier, its 5QI unless dynamic, its priority. *)
Record QosFlow := MkFlow { QosFlowIdentifier : Z; FiveQI : option Z; PriorityLevelARP : Z }.
(** An element of a PDU Session Resource Setup Request Transfer. *)
Inductive setup_ie :=
  ULNGUUPTNLInformation (tunnel : option GTPTunnel) | QosFlowSetupRequestList (l : list QosFlow)
| PDUSessionType (v : Z) | OtherSetupIE.
(** An element of a Modify Request Transfer: the flow identifiers of its list. *)
Inductive modify_ie := QosFlowAddOrModifyRequestList (l : list Z) | OtherModifyIE.
(** The uplink information of a Path Switch Request Acknowledge Transfer; a
    tunnel is present or another choice. *)
Definition ul_information : Type := option (option GTPTunnel).

(** lib/ngap and lib/aper as the gNB calls them. *)
Class NgapCodec := {
  Encoder : NGAPPDU → list Z + string;
  (** the structure, as far as it was decoded, and the error *)
  Decoder : list Z → NGAPPDU * option string;
  Marshal : transfer → list Z + string;
  UnmarshalSetup : list Z → list setup_ie + string;
  UnmarshalModify : list Z → list modify_ie + string;
  UnmarshalSwitch : list Z → ul_information + string;
  (** the RRC container *)
  UnmarshalSourceToTarget : list Z → list Z + string;
}.

(** The operating system: name resolution, the result of writing to an
    association, the sockets of the data plane (a GTP connection from a local to
    a remote address, a raw socket at an address); the text forms of an IPv6
    address belong to Go's net/netip. *)
Class Host := {
  LookupHost : string → list string + string;
  ResolveUDPAddr : string → Z → option string;
  SCTPWrite : Z → Z → list Z → option string;
  DialUPlane : string → string → option Z;
  ListenPacket : string → option Z;
  ResolveSCTPAddr : string → bool;
  DialSCTP : string → string → option Z;
  Listen : string → string → option Z;
  parseIPv6 : string → option (list Z);
}.

(** ** Addresses in messages *)

Fixpoint decimal_val (acc : Z) (s : string) : option Z :=
  match s with
  | EmptyString => Some acc
  | String a s =>
    let n := Z.of_N (Ascii.N_of_ascii a) - 48 in
    if (0 <=? n) && (n <=? 9) then decimal_val (acc * 10 + n) s else None
  end.
(** A field of a dotted address: no leading zero, at most 255. *)
Definition field_val (s : string) : option Z :=
  match s with
  | EmptyString => None
  | String "0"%char (String _ _) => None
  | _ => v ← decimal_val 0 s; if v <=? 255 then Some v else None
  end.
Definition parseIPv4 (s : string) : option IP :=
  match split_on "."%char s with
  | [a; b; c; d] =>
    a ← field_val a; b ← field_val b; c ← field_val c; d ← field_val d; Some (IPv4 a b c d)
  | _ => None
  end.

Section Builders.
Context `{Host} `{NgapCodec}.

(** [net.ParseIP]; nil is the empty slice. *)
Definition ParseIP (s : string) : list Z :=
  match parseIPv4 s with Some ip => ip_bytes ip | None => default [] (parseIPv6 s) end.

(** [IPAddressToNgap] with an IPv4 address alone *)
Definition IPAddressToNgap (ipv4Addr : string) : outcome BitString :=
  if (ipv4Addr =? "")%string then Ret (MkBits [] 0)
  else
    let ipv4NetIP := To4 (ParseIP ipv4Addr) in
    a ← rd ipv4NetIP 0; b ← rd ipv4NetIP 1; c ← rd ipv4NetIP 2; d ← rd ipv4NetIP 3;
    Ret (MkBits [a; b; c; d] 32).

(** The octets of a marshalled value whose error is not looked at. *)
Definition marshalled (t : transfer) : list Z := match Marshal t with inl b => b | inr _ => [] end.

(** [plmn] of three MCC digits and two or three MNC digits *)
Definition PlmnIdToNgap (mcc mnc : string) : outcome (list Z) :=
  let ch := λ s i, str_slice i (S i) s in
  c0 ← ch mcc 0%nat; c1 ← ch mcc 1%nat; c2 ← ch mcc 2%nat;
  hexString ← (if slen mnc =? 2 then
      n0 ← ch mnc 0%nat; n1 ← ch mnc 1%nat; Ret (c1 +:+ c0 +:+ "f" +:+ c2 +:+ n1 +:+ n0)
    else
      n0 ← ch mnc 0%nat; n1 ← ch mnc 1%nat; n2 ← ch mnc 2%nat; Ret (c1 +:+ c0 +:+ n0 +:+ c2 +:+ n2 +:+ n1));
  Ret (DecodeString hexString).

(** The 36 bits of a cell: the gNB's 24 and the cell's 12. *)
Definition cell_identity (gnb : list Z) (cid : Z) : BitString :=
  MkBits ((if 3 <=? blen gnb then take 3 gnb else [0; 0; 0])
    ++ [u8 ((cid ≫ 4) & 0xff); u8 (Z.shiftl (cid & 0x0f) 4)]) 36.

Definition location (plmn tac gnb : list Z) (cid : Z) : content :=
  UserLocationInformation plmn (cell_identity gnb cid) plmn tac.

Definition reject (i : Z) (c : content) : IE := MkIE i CriticalityPresentReject (Some c).
Definition ignore (i : Z) (c : content) : IE := MkIE i CriticalityPresentIgnore (Some c).
Definition initiating (code crit : Z) (v : alternative) (ies : list IE) : NGAPPDU :=
  MkNgap NGAPPDUPresentInitiatingMessage (Some (MkMessage code crit v ies)).
Definition successful (code : Z) (v : alternative) (ies : list IE) : NGAPPDU :=
  MkNgap NGAPPDUPresentSuccessfulOutcome (Some (MkMessage code CriticalityPresentReject v ies)).

(** ** Builders *)

Definition paging_drx (s : string) : Z :=
  if (s =? "v32")%string then 0 else if (s =? "v64")%string then 1 else if (s =? "v128")%string then 2
  else if (s =? "v256")%string then 3 else 2.

(** With the name [NGSetupRequest] puts in afterwards. *)
Definition NGSetupRequest (gnb : GNBContext) (name : string) : NGAPPDU :=
  let '(s, d) := GetSliceInBytes gnb in
  initiating ProcedureCodeNGSetup CriticalityPresentReject MNGSetupRequest
    [reject ProtocolIEIDGlobalRANNodeID (GlobalRANNodeID (GetMccAndMncInOctets gnb) (MkBits (GetGnbIdInBytes gnb) 24));
     ignore ProtocolIEIDRANNodeName (RANNodeName name);
     reject ProtocolIEIDSupportedTAList
       (SupportedTAList (GetTacInBytes gnb) (GetMccAndMncInOctets gnb) [MkNssai (Some s) d]);
     ignore ProtocolIEIDDefaultPagingDRX (DefaultPagingDRX (paging_drx (GetPagingDRX gnb)))].

(** The 5G-S-TMSI is a hexadecimal string, empty in every call of the gNB. *)
Definition BuildInitialUEMessage (ran : Z) (nas : list Z) (tmsi : string) (plmn tac : list Z) (rrcCause : Z)
    (gnb : list Z) (cid : Z) : outcome NGAPPDU :=
  tmsi_ie ← (if (tmsi =? "")%string then Ret []
    else
      setId ← str_slice 0 4 tmsi; pointer ← str_slice 2 4 tmsi;
      Ret [reject ProtocolIEIDFiveGSTMSI (FiveGSTMSI (MkBits (DecodeString setId) 10) (MkBits (DecodeString pointer) 6)
        (DecodeString (sub 4 (String.length tmsi) tmsi)))]);
  Ret (initiating ProcedureCodeInitialUEMessage CriticalityPresentIgnore MInitialUEMessage
    ([reject ProtocolIEIDRANUENGAPID (RANUENGAPID ran);
      reject ProtocolIEIDNASPDU (NASPDU nas);
      reject ProtocolIEIDUserLocationInformation (location plmn tac gnb cid);
      ignore ProtocolIEIDRRCEstablishmentCause (RRCEstablishmentCause rrcCause)]
     ++ tmsi_ie ++ [ignore ProtocolIEIDUEContextRequest (UEContextRequest 0)])).

(** By release: mo-Signalling, mt-Access, highPriorityAccess, mo-VoiceCall. *)
Definition rrc_cause (activeRel : string) : Z :=
  if (activeRel =? "17")%string then 2 else if (activeRel =? "18")%string then 1
  else if (activeRel =? "19")%string then 5 else 3.

(** Release 17 prints three octets of PLMN and TAC once the message is coded. *)
Definition InitialUeMessage (activeRel : string) (nas : list Z) (ue : GNBUe) (gnb : GNBContext) : outcome NGAPPDU :=
  let plmn := GetMccAndMncInOctets gnb in let tac := GetTacInBytes gnb in
  pdu ← BuildInitialUEMessage (ranUeNgapId ue) nas "" plmn tac (rrc_cause activeRel) (GetGnbIdInBytes gnb) (GetCellId gnb);
  match Encoder pdu with
  | inl _ => if (activeRel =? "17")%string then _ ← rd plmn 2; _ ← rd tac 2; Ret pdu else Ret pdu
  | inr _ => Ret pdu
  end.

Definition buildUplinkNasTransport (amf ran : Z) (nas plmn tac gnb : list Z) (cid : Z) : NGAPPDU :=
  initiating ProcedureCodeUplinkNASTransport CriticalityPresentIgnore MUplinkNASTransport
    [reject ProtocolIEIDAMFUENGAPID (AMFUENGAPID amf);
     reject ProtocolIEIDRANUENGAPID (RANUENGAPID ran);
     reject ProtocolIEIDNASPDU (NASPDU nas);
     ignore ProtocolIEIDUserLocationInformation (location plmn tac gnb cid)].

Definition UplinkNasTransport (nas : list Z) (ue : GNBUe) (gnb : GNBContext) : NGAPPDU :=
  buildUplinkNasTransport (amfUeNgapId ue) (ranUeNgapId ue) nas (GetMccAndMncInOctets gnb) (GetTacInBytes gnb)
    (GetGnbIdInBytes gnb) (GetCellId gnb).

Definition buildPDUSessionResourceSetupResponseTransfer (ipv4 : string) (teid qos : Z) : outcome transfer :=
  address ← IPAddressToNgap ipv4;
  Ret (SetupResponseTransfer (MkTunnel address (be_bytes 4 teid)) qos).
Definition GetPDUSessionResourceSetupResponseTransfer (ipv4 : string) (teid qos : Z) : outcome (list Z) :=
  t ← buildPDUSessionResourceSetupResponseTransfer ipv4 teid qos; Ret (marshalled t).

Definition buildPDUSessionResourceSetupResponse (amf ran : Z) (ipv4 : string) (pduId teid qos : Z) : outcome NGAPPDU :=
  t ← GetPDUSessionResourceSetupResponseTransfer ipv4 teid qos;
  Ret (successful ProcedureCodePDUSessionResourceSetup MPDUSessionResourceSetupResponse
    [ignore ProtocolIEIDAMFUENGAPID (AMFUENGAPID amf);
     ignore ProtocolIEIDRANUENGAPID (RANUENGAPID ran);
     ignore ProtocolIEIDPDUSessionResourceSetupListSURes (PDUSessionResourceSetupListSURes [(pduId, t)])]).

(** A host name is resolved first; its failure is the error. *)
Definition PDUSessionResourceSetupResponse (ue : GNBUe) (ipv4 : string) (pid : Z) : outcome (NGAPPDU + string) :=
  match LookupHost ipv4 with
  | inr err => Ret (inr err)
  | inl nameIp =>
    ip ← rd nameIp 0;
    pdu ← buildPDUSessionResourceSetupResponse (amfUeNgapId ue) (ranUeNgapId ue) ip pid
      (GetTeidDownlinkOfSession ue pid) (GetQosIdOfSession ue pid);
    Ret (inl pdu)
  end.

(** The transfers of the sessions in the order of the map. *)
Fixpoint cxt_res (gnbIp : string) (l : list (Z * PDUSession)) : outcome (list (Z * list Z)) :=
  match l with
  | [] => Ret []
  | (i, sess) :: l =>
    t ← GetPDUSessionResourceSetupResponseTransfer gnbIp (downlinkTeid sess) (qosId sess);
    r ← cxt_res gnbIp l; Ret ((i, t) :: r)
  end.

Definition BuildInitialContextSetupResponse `{MapOrder} (ue : GNBUe) (gnbIp : string) : outcome NGAPPDU :=
  l ← cxt_res gnbIp (visit (pduSessions ue));
  Ret (successful ProcedureCodeInitialContextSetup MInitialContextSetupResponse
    ([ignore ProtocolIEIDAMFUENGAPID (AMFUENGAPID (amfUeNgapId ue));
      ignore ProtocolIEIDRANUENGAPID (RANUENGAPID (ranUeNgapId ue))]
     ++ if bool_decide (pduSessions ue = ∅) then []
        else [ignore ProtocolIEIDPDUSessionResourceSetupListCxtRes (PDUSessionResourceSetupListCxtRes l)])).

Definition buildPDUSessionResourceModifyResponse (ue : GNBUe) (ids : list Z) : NGAPPDU :=
  successful ProcedureCodePDUSessionResourceModify MPDUSessionResourceModifyResponse
    ([ignore ProtocolIEIDAMFUENGAPID (AMFUENGAPID (amfUeNgapId ue));
      ignore ProtocolIEIDRANUENGAPID (RANUENGAPID (ranUeNgapId ue))]
     ++ match ids with
        | [] => []
        | _ => [ignore ProtocolIEIDPDUSessionResourceModifyListModRes (PDUSessionResourceModifyListModRes
            ((λ i, (i, marshalled (ModifyResponseTransfer (GetQosIdOfSession ue i)))) <$> ids))]
        end).

Definition buildPDUSessionResourceReleaseResponse (amf ran : Z) (ids : list Z) : NGAPPDU :=
  successful ProcedureCodePDUSessionResourceRelease MPDUSessionResourceReleaseResponse
    [ignore ProtocolIEIDAMFUENGAPID (AMFUENGAPID amf);
     ignore ProtocolIEIDRANUENGAPID (RANUENGAPID ran);
     ignore ProtocolIEIDPDUSessionResourceReleasedListRelRes (PDUSessionResourceReleasedListRelRes
       ((λ i, (i, match Marshal ReleaseResponseTransfer with inl b => b | inr _ => [0x00] end)) <$> ids))].

Definition BuildUEContextReleaseComplete (ran amf : Z) : NGAPPDU :=
  successful ProcedureCodeUEContextRelease MUEContextReleaseComplete
    [ignore ProtocolIEIDAMFUENGAPID (AMFUENGAPID amf); ignore ProtocolIEIDRANUENGAPID (RANUENGAPID ran)].

(** Without a cause: radio network, user inactivity. *)
Definition BuildUEContextReleaseRequest (ran amf : Z) (c : option cause) : NGAPPDU :=
  initiating ProcedureCodeUEContextReleaseRequest CriticalityPresentIgnore MUEContextReleaseRequest
    [reject ProtocolIEIDAMFUENGAPID (AMFUENGAPID amf); reject ProtocolIEIDRANUENGAPID (RANUENGAPID ran);
     ignore ProtocolIEIDCause (Cause (default (CauseRadioNetwork 20) c))].

Definition BuildErrorIndication (amf ran : option Z) (c : option cause) : NGAPPDU :=
  initiating ProcedureCodeErrorIndication CriticalityPresentIgnore MErrorIndication
    (match amf with Some v => [ignore ProtocolIEIDAMFUENGAPID (AMFUENGAPID v)] | None => [] end
     ++ match ran with Some v => [ignore ProtocolIEIDRANUENGAPID (RANUENGAPID v)] | None => [] end
     ++ match c with Some c => [ignore ProtocolIEIDCause (Cause c)] | None => [] end).

Definition BuildHandoverNotify (ran amf : Z) (plmn tac gnb : list Z) (cid : Z) : NGAPPDU :=
  initiating ProcedureCodeHandoverNotification CriticalityPresentIgnore MHandoverNotify
    [reject ProtocolIEIDAMFUENGAPID (AMFUENGAPID amf); reject ProtocolIEIDRANUENGAPID (RANUENGAPID ran);
     ignore ProtocolIEIDUserLocationInformation (location plmn tac gnb cid)].

Definition tunnel_to (ip teid : list Z) : GTPTunnel := MkTunnel (MkBits ip (blen ip * 8)) teid.

Definition BuildHandoverRequestAcknowledge (ran amf pid : Z) (gnbIp dlTeid : list Z) (qos : Z) : NGAPPDU :=
  successful ProcedureCodeHandoverResourceAllocation MHandoverRequestAcknowledge
    [ignore ProtocolIEIDAMFUENGAPID (AMFUENGAPID amf);
     ignore ProtocolIEIDRANUENGAPID (RANUENGAPID ran);
     ignore ProtocolIEIDPDUSessionResourceAdmittedList (PDUSessionResourceAdmittedList
       [(pid, marshalled (HandoverRequestAcknowledgeTransfer (tunnel_to gnbIp dlTeid) qos))]);
     ignore ProtocolIEIDTargetToSourceTransparentContainer
       (TargetToSourceTransparentContainer (marshalled (TargetToSource [0x00; 0x01; 0x02; 0x03])))].

Definition intTo3Bytes (val : Z) : list Z := [u8 ((val ≫ 16) & 0xff); u8 ((val ≫ 8) & 0xff); u8 (val & 0xff)].

(** With the one cell identity the gNB passes, source and target cell have it. *)
Definition BuildHandoverRequired (ran amf : Z) (targetMcc targetMnc : string) (targetGnbId : Z) (targetTac : list Z)
    (pid : Z) (sourceGnbId : list Z) (cid : Z) : outcome NGAPPDU :=
  plmn ← PlmnIdToNgap targetMcc targetMnc;
  Ret (initiating ProcedureCodeHandoverPreparation CriticalityPresentReject MHandoverRequired
    [reject ProtocolIEIDAMFUENGAPID (AMFUENGAPID amf);
     reject ProtocolIEIDRANUENGAPID (RANUENGAPID ran);
     reject ProtocolIEIDHandoverType (HandoverType 0);
     ignore ProtocolIEIDCause (Cause (CauseRadioNetwork 16));
     reject ProtocolIEIDTargetID (TargetID plmn (MkBits (intTo3Bytes targetGnbId) 24) plmn targetTac);
     reject ProtocolIEIDPDUSessionResourceListHORqd
       (PDUSessionResourceListHORqd [(pid, marshalled HandoverRequiredTransfer)]);
     reject ProtocolIEIDSourceToTargetTransparentContainer (SourceToTargetTransparentContainer
       (marshalled (SourceToTarget ([0x05; 0x06] ++ be_bytes 8 amf)
         plmn (cell_identity (intTo3Bytes targetGnbId) cid) plmn (cell_identity sourceGnbId cid) 0 10)))]).

Definition all_algorithms : content :=
  let b := MkBits [0xe0; 0x00] 16 in UESecurityCapabilities b b b b.

Definition BuildPathSwitchRequest (ran amf : Z) (plmn tac : list Z) (pid : Z) (gnbIp dlTeid gnb : list Z) (cid : Z) : NGAPPDU :=
  initiating ProcedureCodePathSwitchRequest CriticalityPresentReject MPathSwitchRequest
    [reject ProtocolIEIDRANUENGAPID (RANUENGAPID ran);
     reject ProtocolIEIDSourceAMFUENGAPID (SourceAMFUENGAPID amf);
     ignore ProtocolIEIDUserLocationInformation (location plmn tac gnb cid);
     ignore ProtocolIEIDUESecurityCapabilities all_algorithms;
     reject ProtocolIEIDPDUSessionResourceToBeSwitchedDLList (PDUSessionResourceToBeSwitchedDLList
       [(pid, marshalled (PathSwitchRequestTransfer (tunnel_to gnbIp dlTeid) 1))])].

(** ** The messages of the simulated AMF *)

Definition GetHandoverRequest (ran amf pid : Z) : NGAPPDU :=
  initiating ProcedureCodeHandoverResourceAllocation CriticalityPresentReject MHandoverRequest
    [reject ProtocolIEIDAMFUENGAPID (AMFUENGAPID amf);
     reject ProtocolIEIDHandoverType (HandoverType 0);
     ignore ProtocolIEIDCause (Cause (CauseRadioNetwork 16));
     reject ProtocolIEIDPDUSessionResourceSetupListHOReq (PDUSessionResourceSetupListHOReq
       [(pid, MkNssai (Some [0x01]) (Some [0x01; 0x02; 0x03]), [0x00; 0x01; 0x02; 0x03])]);
     reject ProtocolIEIDUEAggregateMaximumBitRate (UEAggregateMaximumBitRate 100000000 50000000);
     reject ProtocolIEIDUESecurityCapabilities all_algorithms;
     reject ProtocolIEIDSecurityContext (SecurityContext 1 (MkBits (replicate 32 0) 256))].

Definition GetHandoverCommand (ran amf : Z) : NGAPPDU :=
  successful ProcedureCodeHandoverPreparation MHandoverCommand
    [ignore ProtocolIEIDAMFUENGAPID (AMFUENGAPID amf);
     ignore ProtocolIEIDRANUENGAPID (RANUENGAPID ran);
     reject ProtocolIEIDHandoverType (HandoverType 0)].

Definition GetUEContextReleaseCommand (ran amf : Z) : NGAPPDU :=
  initiating ProcedureCodeUEContextRelease CriticalityPresentReject MUEContextReleaseCommand
    [reject ProtocolIEIDUENGAPIDs (UENGAPIDs (UENGAPIDPair amf ran));
     ignore ProtocolIEIDCause (Cause (CauseRadioNetwork 2))].

Definition GetPathSwitchRequestAcknowledge (ran amf pid : Z) (upf ulTeid : list Z) : NGAPPDU :=
  successful ProcedureCodePathSwitchRequest MPathSwitchRequestAcknowledge
    [ignore ProtocolIEIDAMFUENGAPID (AMFUENGAPID amf);
     ignore ProtocolIEIDRANUENGAPID (RANUENGAPID ran);
     ignore ProtocolIEIDPDUSessionResourceSwitchedList (PDUSessionResourceSwitchedList
       [(pid, marshalled (PathSwitchRequestAcknowledgeTransfer (tunnel_to upf ulTeid)))])].

End Builders.

(** ** compliance_validator.go *)

Fixpoint missing (present mandatory : list Z) : option Z :=
  match mandatory with
  | [] => None
  | i :: mandatory => if bool_decide (i ∈ present) then missing present mandatory else Some i
  end.
Definition verifyIEsPresent (msgName : string) (present mandatory : list Z) : option string :=
  match missing present mandatory with
  | Some i => Some (msgName +:+ " missing mandatory Protocol IE ID: " +:+ dec i)
  | None => None
  end.

(** The message an initiating procedure must carry, and its mandatory elements. *)
Definition initiating_rule (code : Z) : option (alternative * string * list Z) :=
  if code =? ProcedureCodeNGSetup then
    Some (MNGSetupRequest, "NGSetupRequest"%string, [ProtocolIEIDGlobalRANNodeID; ProtocolIEIDSupportedTAList])
  else if code =? ProcedureCodeInitialUEMessage then
    Some (MInitialUEMessage, "InitialUEMessage"%string,
      [ProtocolIEIDRANUENGAPID; ProtocolIEIDNASPDU; ProtocolIEIDUserLocationInformation; ProtocolIEIDRRCEstablishmentCause])
  else if code =? ProcedureCodeUplinkNASTransport then
    Some (MUplinkNASTransport, "UplinkNASTransport"%string,
      [ProtocolIEIDAMFUENGAPID; ProtocolIEIDRANUENGAPID; ProtocolIEIDNASPDU; ProtocolIEIDUserLocationInformation])
  else if code =? ProcedureCodeUEContextReleaseRequest then
    Some (MUEContextReleaseRequest, "UEContextReleaseRequest"%string,
      [ProtocolIEIDAMFUENGAPID; ProtocolIEIDRANUENGAPID; ProtocolIEIDCause])
  else if code =? ProcedureCodeHandoverPreparation then
    Some (MHandoverRequired, "HandoverRequired"%string,
      [ProtocolIEIDAMFUENGAPID; ProtocolIEIDRANUENGAPID; ProtocolIEIDHandoverType; ProtocolIEIDCause;
       ProtocolIEIDTargetID; ProtocolIEIDSourceToTargetTransparentContainer])
  else if code =? ProcedureCodeHandoverNotification then
    Some (MHandoverNotify, "HandoverNotify"%string,
      [ProtocolIEIDAMFUENGAPID; ProtocolIEIDRANUENGAPID; ProtocolIEIDUserLocationInformation])
  else if code =? ProcedureCodePathSwitchRequest then
    Some (MPathSwitchRequest, "PathSwitchRequest"%string,
      [ProtocolIEIDRANUENGAPID; ProtocolIEIDSourceAMFUENGAPID; ProtocolIEIDUserLocationInformation;
       ProtocolIEIDUESecurityCapabilities; ProtocolIEIDPDUSessionResourceToBeSwitchedDLList])
  else None.

Definition successful_rule (code : Z) : option (alternative * string * list Z) :=
  let both := [ProtocolIEIDAMFUENGAPID; ProtocolIEIDRANUENGAPID] in
  if code =? ProcedureCodeInitialContextSetup then Some (MInitialContextSetupResponse, "InitialContextSetupResponse"%string, both)
  else if code =? ProcedureCodePDUSessionResourceSetup then
    Some (MPDUSessionResourceSetupResponse, "PDUSessionResourceSetupResponse"%string, both)
  else if code =? ProcedureCodePDUSessionResourceRelease then
    Some (MPDUSessionResourceReleaseResponse, "PDUSessionResourceReleaseResponse"%string, both)
  else if code =? ProcedureCodePDUSessionResourceModify then
    Some (MPDUSessionResourceModifyResponse, "PDUSessionResourceModifyResponse"%string, both)
  else if code =? ProcedureCodeUEContextRelease then Some (MUEContextReleaseComplete, "UEContextReleaseComplete"%string, both)
  else if code =? ProcedureCodeHandoverResourceAllocation then
    Some (MHandoverRequestAcknowledge, "HandoverRequestAcknowledge"%string, both ++ [ProtocolIEIDTargetToSourceTransparentContainer])
  else None.

Definition validate (rule : option (alternative * string * list Z)) (m : Message) : option string :=
  match rule with
  | None => None
  | Some (v, name, mandatory) =>
    if bool_decide (Value m = v) then verifyIEsPresent name (ie_Id <$> ProtocolIEs m) mandatory
    else Some (name +:+ " value is nil")
  end.

(** No error is [None]. *)
Definition validateMessageInternal (pdu : NGAPPDU) : option string :=
  if Present pdu =? NGAPPDUPresentInitiatingMessage then
    match Outcome pdu with None => Some "initiating message is nil"%string | Some m => validate (initiating_rule (ProcedureCode m)) m end
  else if Present pdu =? NGAPPDUPresentSuccessfulOutcome then
    match Outcome pdu with None => Some "successful outcome is nil"%string | Some m => validate (successful_rule (ProcedureCode m)) m end
  else if Present pdu =? NGAPPDUPresentUnsuccessfulOutcome then None
  else Some ("unknown NGAP PDU type: " +:+ dec (Present pdu)).

(** The package's counters. *)
Record Validation := MkValidation { TotalValidated : Z; TotalFailed : Z; ValidationErrors : list string }.
Definition ResetValidationStats : Validation := MkValidation 0 0 [].
Definition ValidateNGAPMessage (pdu : NGAPPDU) (v : Validation) : Validation :=
  match validateMessageInternal pdu with
  | None => MkValidation (s64 (TotalValidated v + 1)) (TotalFailed v) (ValidationErrors v)
  | Some err => MkValidation (s64 (TotalValidated v + 1)) (s64 (TotalFailed v + 1)) (ValidationErrors v ++ [err])
  end.
