(* ===== verification/GnbNgap.v ===== *)
(** * The gNB's NGAP side

    gnb/ngap: the sender, the triggers, the handlers and their dispatcher.  A
    handler works on the [world]: the heap of the gNB context, the chaos
    manager with its random state, the validator's counters and the release.
    A handler that returns early reports through the error hook.  Logging,
    sleeping and packet capture are left out; what runs in a goroutine is a
    step of its own. *)

From S2P Require Import Prelude GoStrings GnbContext Ngap Chaos.

#[local] Open Scope Z_scope.
#[local] Open Scope go_scope.

Section Gnb.
Context {G : Type} `{Rand G} `{MapOrder} `{Host} `{NgapCodec}.

Record world := MkWorld {
  w_heap : heap;
  w_chaos : ChaosManager;
  w_rng : G;
  w_validation : Validation;
  w_release : string;
}.

Definition Gn : Type → Type := St world.
Definition on_heap {A} (m : H A) : Gn A := λ w,
  '(a, h) ← m (w_heap w); Ret (a, MkWorld h (w_chaos w) (w_rng w) (w_validation w) (w_release w)).
Definition report (message text : string) : Gn unit := on_heap (emit (Reported message text)).
Definition validated (pdu : NGAPPDU) : Gn unit := λ w,
  Ret (tt, MkWorld (w_heap w) (w_chaos w) (w_rng w) (ValidateNGAPMessage pdu (w_validation w)) (w_release w)).
Definition get_world {A} (f : world → A) : Gn A := λ w, Ret (f w, w).

(** ** nas/message/sender: a message to the UE; without a socket it panics. *)
Definition SendToUe (ue : Z) (message : list Z) : Gn unit :=
  u ← on_heap (get_ue ue);
  match unixSocketConnection u with
  | Some conn => on_heap (emit (ToUe conn message))
  | None => panic
  end.

(** ** ngap/message/sender *)

Fixpoint find_gnb_id (conn : Z) (l : list (string * Z)) : H string :=
  match l with
  | [] => mret ""%string
  | (i, p) :: l => g ← get_gnb p; if bool_decide (n2 (controlInfo g) = Some conn) then mret i else find_gnb_id conn l
  end.
Definition findGnbId (conn : Z) : H string := λ h, find_gnb_id conn (visit (ActiveGNBs h)) h.

Definition named (cases : list (Z * string)) (code : Z) : string := default "NGAP-Message"%string (switch cases code).

Definition getNgapMsgType (message : list Z) : string :=
  let '(pdu, err) := Decoder message in
  if bool_decide (err ≠ None) then "Unknown"
  else if Present pdu =? NGAPPDUPresentInitiatingMessage then
    match Outcome pdu with
    | None => "Unknown"
    | Some m => named
        [(ProcedureCodeNGSetup, "NGSetupRequest"); (ProcedureCodeInitialUEMessage, "InitialUEMessage");
         (ProcedureCodeUplinkNASTransport, "UplinkNASTransport");
         (ProcedureCodePDUSessionResourceSetup, "PDUSessionResourceSetupResponse");
         (ProcedureCodeInitialContextSetup, "InitialContextSetupResponse");
         (ProcedureCodeHandoverPreparation, "HandoverRequired");
         (ProcedureCodeHandoverResourceAllocation, "HandoverRequest");
         (ProcedureCodePathSwitchRequest, "PathSwitchRequest")]%string (ProcedureCode m)
    end
  else if Present pdu =? NGAPPDUPresentSuccessfulOutcome then
    match Outcome pdu with
    | None => "Unknown"
    | Some m => named
        [(ProcedureCodeNGSetup, "NGSetupResponse"); (ProcedureCodeInitialContextSetup, "InitialContextSetupResponse");
         (ProcedureCodePDUSessionResourceSetup, "PDUSessionResourceSetupResponse");
         (ProcedureCodePathSwitchRequest, "PathSwitchRequestAcknowledge")]%string (ProcedureCode m)
    end
  else if Present pdu =? NGAPPDUPresentUnsuccessfulOutcome then
    match Outcome pdu with
    | None => "Unknown"
    | Some m => named
        [(ProcedureCodeNGSetup, "NGSetupFailure"); (ProcedureCodeInitialContextSetup, "InitialContextSetupFailure")]%string
        (ProcedureCode m)
    end
  else "NGAP-Message".

Definition isUeAssociatedMessage (msgType : string) : bool :=
  negb (bool_decide (msgType ∈ ["NGSetupRequest"; "NGSetupResponse"; "NGSetupFailure"; "Unknown"; "NGAP-Message"]%string)).

(** The error, if any. *)
Definition sendToAmfOnStream (message : list Z) (conn : option Z) (stream : Z) : Gn (option string) :=
  match conn with
  | None => mret (Some "SCTPConn is nil"%string)
  | Some conn =>
    gnb_id ← on_heap (findGnbId conn);
    let msgType := getNgapMsgType message in
    w ← get_world Datatypes.id;
    '(_, message, m, g) ← run (EvalFuzz msgType message (w_chaos w) (w_rng w));
    let '(shouldDrop, _, m, g) := EvalNgap gnb_id msgType m g in
    _ ← (λ w, Ret (tt, MkWorld (w_heap w) m g (w_validation w) (w_release w)) : outcome (unit * world));
    if shouldDrop : bool then mret None
    else
      _ ← on_heap (emit (ToAmf conn stream message));
      mret (option_map (String.append "Error sending NGAP message: ") (SCTPWrite conn stream message))
  end.

Definition SendToAmF (message : list Z) (conn : option Z) : Gn (option string) :=
  let msgType := getNgapMsgType message in
  let '(pdu, err) := Decoder message in
  _ ← (if bool_decide (err = None) then validated pdu else mret tt);
  sendToAmfOnStream message conn (if isUeAssociatedMessage msgType then 1 else 0).

Definition SendToAmfUeAssociated (message : list Z) (conn : option Z) : Gn (option string) :=
  sendToAmfOnStream message conn 1.

(** ** ngap/trigger *)

(** Encode and send; an encoding error is reported when there is a text. *)
Definition encode_and_send (message : string) (pdu : NGAPPDU) (conn : option Z) (before : Gn unit) : Gn unit :=
  match Encoder pdu with
  | inr _ => report message ("Error building " +:+ message)
  | inl octets =>
    _ ← before;
    err ← SendToAmF octets conn;
    match err with
    | Some e => report message ("Error sending " +:+ message +:+ ": " +:+ e)
    | None => mret tt
    end
  end.

Definition SendPduSessionResourceSetupResponse (ue gnb pid : Z) : Gn unit :=
  g ← on_heap (get_gnb gnb); u ← on_heap (get_ue ue);
  r ← run (PDUSessionResourceSetupResponse u (gnbDataIp (dataInfo g)) pid);
  match r with
  | inr _ => report "PDUSessionResourceSetupResponse" "Error building PDUSessionResourceSetupResponse"
  | inl pdu => encode_and_send "PDUSessionResourceSetupResponse" pdu (sctpConnection u) (on_heap (set_ue ue SetStateReady))
  end.

Definition SendInitialContextSetupResponse (ue gnb : Z) : Gn unit :=
  g ← on_heap (get_gnb gnb); u ← on_heap (get_ue ue);
  pdu ← run (BuildInitialContextSetupResponse u (gnbDataIp (dataInfo g)));
  encode_and_send "InitialContextSetupResponse" pdu (sctpConnection u) (mret tt).

(** An encoding error leaves a nil message, which is sent. *)
Definition SendNgSetupRequest (gnb amf : Z) : Gn unit :=
  g ← on_heap (get_gnb gnb); a ← on_heap (get_amf amf);
  _ ← SendToAmF (match Encoder (NGSetupRequest g "OmniRANEmulator") with inl b => b | inr _ => [] end) (sctpConn a);
  mret tt.

(** Encode and send, errors only logged. *)
Definition try_send (pdu : NGAPPDU) (conn : option Z) : Gn unit :=
  match Encoder pdu with inr _ => mret tt | inl octets => _ ← SendToAmF octets conn; mret tt end.

Definition SendPduSessionResourceReleaseResponse (ue : Z) (ids : list Z) : Gn unit :=
  u ← on_heap (get_ue ue);
  try_send (buildPDUSessionResourceReleaseResponse (amfUeNgapId u) (ranUeNgapId u) ids) (sctpConnection u).

Definition SendPDUSessionResourceModifyResponse (ue : Z) (ids : list Z) : Gn unit :=
  u ← on_heap (get_ue ue);
  try_send (buildPDUSessionResourceModifyResponse u ids) (sctpConnection u).

(** ** ngap/handler *)

(** The message that must be set, and its elements; a nil pointer panics. *)
Definition value_of (present : Z) (v : alternative) (pdu : NGAPPDU) : outcome (option (list IE)) :=
  if Present pdu =? present then
    match Outcome pdu with
    | Some m => Ret (if bool_decide (Value m = v) then Some (ProtocolIEs m) else None)
    | None => Panic
    end
  else Panic.
Definition elements_of (present : Z) (v : alternative) (pdu : NGAPPDU) : outcome (list IE) :=
  r ← value_of present v pdu; match r with Some l => Ret l | None => Panic end.

(** A loop over the elements that updates its variables or returns an error. *)
Fixpoint scan {A S} (f : A → S → outcome (S + string)) (l : list A) (s : S) : outcome (S + string) :=
  match l with
  | [] => Ret (inl s)
  | x :: l => r ← f x s; match r with inl s => scan f l s | inr e => Ret (inr e) end
  end.

(** What a mandatory element holds. *)
Definition amf_id (ie : IE) : option Z := match ie_Value ie with Some (AMFUENGAPID v) => Some v | _ => None end.
Definition ran_id (ie : IE) : option Z := match ie_Value ie with Some (RANUENGAPID v) => Some v | _ => None end.
Definition nas_pdu (ie : IE) : option (list Z) := match ie_Value ie with Some (NASPDU v) => Some v | _ => None end.
Definition or_error {A B} (o : option A) (k : A → outcome (B + string)) (e : string) : outcome (B + string) :=
  match o with Some a => k a | None => Ret (inr e) end.
Definition deref {A} (o : option A) : outcome A := match o with Some a => Ret a | None => Panic end.

(** The UE with this RAN identifier, if its AMF identifier is the one given. *)
Definition the_ue (gnb : Z) (message missing : string) (ranUeId : Z) (k : Z → Gn unit) : Gn unit :=
  g ← on_heap (get_gnb gnb);
  match GetGnbUe g ranUeId with
  | None => report message missing
  | Some ue => k ue
  end.
Definition same_amf_id (ue : Z) (message wrong : string) (amfUeId : Z) (k : Gn unit) : Gn unit :=
  u ← on_heap (get_ue ue);
  if amfUeNgapId u =? amfUeId then k else report message wrong.

(** *** Downlink NAS Transport: [ranUeId], [amfUeId], [messageNas] *)

Definition downlink_ie (ie : IE) (s : Z * Z * list Z) : outcome (Z * Z * list Z + string) :=
  let '(ran, amf, nas) := s in
  if ie_Id ie =? ProtocolIEIDAMFUENGAPID then
    or_error (amf_id ie) (λ v, Ret (inl (ran, v, nas))) "AMF UE NGAP ID is missing"
  else if ie_Id ie =? ProtocolIEIDRANUENGAPID then
    or_error (ran_id ie) (λ v, Ret (inl (v, amf, nas))) "RAN UE NGAP ID is missing"
  else if ie_Id ie =? ProtocolIEIDNASPDU then
    or_error (nas_pdu ie) (λ v, Ret (inl (ran, amf, v))) "NAS PDU is missing"
  else Ret (inl s).

Definition HandlerDownlinkNasTransport (gnb : Z) (message : NGAPPDU) : Gn unit :=
  ies ← run (elements_of NGAPPDUPresentInitiatingMessage MDownlinkNASTransport message);
  r ← run (scan downlink_ie ies (0, 0, []));
  match r with
  | inr e => report "DownlinkNasTransport" e
  | inl (ran, amf, nas) =>
    the_ue gnb "DownlinkNasTransport" "RAN UE NGAP ID is incorrect" ran (λ ue,
      u ← on_heap (get_ue ue);
      if amfUeNgapId u =? 0 then _ ← on_heap (SetAmfUeId ue amf); SendToUe ue nas
      else same_amf_id ue "DownlinkNasTransport" "AMF UE NGAP ID is incorrect" amf (SendToUe ue nas))
  end.

(** *** Initial Context Setup and PDU Session Resource Setup *)

(** [%x] of the slice, or [absent] when it is nil. *)
Definition hex_or (absent : string) (o : option (list Z)) : string :=
  match o with Some b => hex_bytes b | None => absent end.

(** [ulTeid], [upfAddress], [qosId], [fiveQi], [priArp], [pduSType] *)
Record setup := MkSetupVars {
  v_ulTeid : Z; v_upfAddress : list Z; v_qosId : Z; v_fiveQi : Z; v_priArp : Z; v_pduSType : Z }.
Definition no_setup : setup := MkSetupVars 0 [] 0 0 0 0.

(** [binary.BigEndian.Uint32] *)
Definition Uint32 (b : list Z) : outcome Z :=
  b3 ← rd b 3; b0 ← rd b 0; b1 ← rd b 1; b2 ← rd b 2; Ret (word4 b0 b1 b2 b3).

Fixpoint flows (l : list QosFlow) (v : setup) : outcome setup :=
  match l with
  | [] => Ret v
  | f :: l =>
    fqi ← deref (FiveQI f);
    flows l (MkSetupVars (v_ulTeid v) (v_upfAddress v) (QosFlowIdentifier f) fqi (PriorityLevelARP f) (v_pduSType v))
  end.

Fixpoint setup_ies (l : list setup_ie) (v : setup) : outcome setup :=
  match l with
  | [] => Ret v
  | ie :: l =>
    v ← (match ie with
      | ULNGUUPTNLInformation t =>
        t ← deref t; teid ← Uint32 (GTPTEID t);
        Ret (MkSetupVars teid (Bytes (TransportLayerAddress t)) (v_qosId v) (v_fiveQi v) (v_priArp v) (v_pduSType v))
      | QosFlowSetupRequestList l => flows l v
      | PDUSessionType t => Ret (MkSetupVars (v_ulTeid v) (v_upfAddress v) (v_qosId v) (v_fiveQi v) (v_priArp v) (u64 t))
      | OtherSetupIE => Ret v
      end);
    setup_ies l v
  end.

(** A transfer that does not decode changes nothing. *)
Definition setup_transfer (octets : list Z) (v : setup) : outcome setup :=
  match UnmarshalSetup octets with inl l => setup_ies l v | inr _ => Ret v end.

(** [%d.%d.%d.%d] of the first four bytes *)
Definition dotted (b : list Z) : string :=
  dec (b !!! 0%nat) +:+ "." +:+ dec (b !!! 1%nat) +:+ "." +:+ dec (b !!! 2%nat) +:+ "." +:+ dec (b !!! 3%nat).

Definition learn_upf (gnb : Z) (upfAddress : list Z) : Gn unit :=
  g ← on_heap (get_gnb gnb);
  if (upfIp (dataInfo g) =? "")%string && (4 <=? blen upfAddress)
  then on_heap (set_gnb gnb (SetUpfIp (dotted upfAddress))) else mret tt.

(** A downlink TEID and an address for a session, which is created with them
    unless its slice is not allowed; the address is returned. *)
Definition create_session (gnb ue pid : Z) (sstVal sdVal : string) (v : setup) : Gn IP :=
  teidDown ← on_heap (GetUeTeid gnb);
  _ ← on_heap (StoreTeid gnb teidDown ue);
  ueGnbIpVal ← on_heap (getRanUeIp gnb);
  let ueGnbIp := IPv4 127 0 0 ueGnbIpVal in
  _ ← on_heap (StoreUeIp gnb (IP_String ueGnbIp) ue);
  u ← on_heap (get_ue ue);
  '(_, u) ← run (CreatePduSession pid sstVal sdVal (v_pduSType v) (v_qosId v) (v_priArp v) (v_fiveQi v) (v_ulTeid v)
    ueGnbIp teidDown u);
  _ ← on_heap (set_ue ue (λ _, u));
  mret ueGnbIp.

Record icsr := MkIcsr {
  i_ran : Z; i_amf : Z; i_nas : list Z; i_sst : list string; i_sd : list string;
  i_mobility : string; i_imeisv : string; i_sessions : option (list SetupItem) }.

Definition context_ie (ie : IE) (s : icsr) : outcome (icsr + string) :=
  let '(MkIcsr ran amf nas ssts sds mob imeisv sess) := s in
  let i := ie_Id ie in
  if i =? ProtocolIEIDPDUSessionResourceSetupListCxtReq then
    match ie_Value ie with
    | Some (PDUSessionResourceSetupListCxtReq l) => Ret (inl (MkIcsr ran amf nas ssts sds mob imeisv (Some l)))
    | _ => Ret (inr "PDU Session Resource Setup List Cxt Req is missing"%string)
    end
  else if i =? ProtocolIEIDAMFUENGAPID then
    or_error (amf_id ie) (λ v, Ret (inl (MkIcsr ran v nas ssts sds mob imeisv sess))) "AMF UE NGAP ID is missing"
  else if i =? ProtocolIEIDRANUENGAPID then
    or_error (ran_id ie) (λ v, Ret (inl (MkIcsr v amf nas ssts sds mob imeisv sess))) "RAN UE NGAP ID is missing"
  else if i =? ProtocolIEIDNASPDU then
    v ← deref (nas_pdu ie); Ret (inl (MkIcsr ran amf v ssts sds mob imeisv sess))
  else if i =? ProtocolIEIDSecurityKey then
    match ie_Value ie with Some (SecurityKey _) => Ret (inl s) | _ => Ret (inr "Security-Key is missing"%string) end
  else if i =? ProtocolIEIDGUAMI then
    match ie_Value ie with Some GUAMI => Ret (inl s) | _ => Ret (inr "GUAMI is missing"%string) end
  else if i =? ProtocolIEIDAllowedNSSAI then
    match ie_Value ie with
    | Some (AllowedNSSAI l) =>
      Ret (inl (MkIcsr ran amf nas (hex_or "not informed" ∘ SST <$> l) (hex_or "not informed" ∘ SD <$> l) mob imeisv sess))
    | _ => Ret (inr "Allowed NSSAI is missing"%string)
    end
  else if i =? ProtocolIEIDMobilityRestrictionList then
    match ie_Value ie with
    | Some (MobilityRestrictionList p) => Ret (inl (MkIcsr ran amf nas ssts sds (hex_bytes p) imeisv sess))
    | _ => Ret (inl (MkIcsr ran amf nas ssts sds "not informed" imeisv sess))
    end
  else if i =? ProtocolIEIDMaskedIMEISV then
    match ie_Value ie with
    | Some (MaskedIMEISV b) => Ret (inl (MkIcsr ran amf nas ssts sds mob (hex_bytes (Bytes b)) sess))
    | _ => Ret (inl (MkIcsr ran amf nas ssts sds mob "not informed" sess))
    end
  else if i =? ProtocolIEIDUESecurityCapabilities then
    match ie_Value ie with
    | Some (UESecurityCapabilities _ _ _ _) => Ret (inl s)
    | _ => Ret (inr "UE Security Capabilities is missing"%string)
    end
  else Ret (inl s).

(** The sessions that come with the context, one by one. *)
Fixpoint piggybacked (gnb ue : Z) (l : list SetupItem) : Gn unit :=
  match l with
  | [] => mret tt
  | item :: l =>
    v ← run (match si_Transfer item with Some octets => setup_transfer octets no_setup | None => Ret no_setup end);
    _ ← create_session gnb ue (si_PDUSessionID item) (hex_or "not informed" (SST (si_SNSSAI item)))
      (hex_or "not informed" (SD (si_SNSSAI item))) v;
    _ ← learn_upf gnb (v_upfAddress v);
    piggybacked gnb ue l
  end.

Definition HandlerInitialContextSetupRequest (gnb : Z) (message : NGAPPDU) : Gn unit :=
  ies ← run (elements_of NGAPPDUPresentInitiatingMessage MInitialContextSetupRequest message);
  r ← run (scan context_ie ies (MkIcsr 0 0 [] [] [] "not informed" "" None));
  match r with
  | inr e => report "InitialContextSetupRequest" e
  | inl s =>
    the_ue gnb "InitialContextSetupRequest" "RAN UE NGAP ID is incorrect" (i_ran s) (λ ue,
      same_amf_id ue "InitialContextSetupRequest" "AMF UE NGAP ID is incorrect" (i_amf s) (
        u ← on_heap (get_ue ue);
        u ← run (CreateUeContext (i_mobility s) (i_imeisv s) (i_sst s) (i_sd s) u);
        _ ← on_heap (set_ue ue (λ _, u));
        _ ← match i_sessions s with Some l => piggybacked gnb ue l | None => mret tt end;
        _ ← SendToUe ue (i_nas s);
        SendInitialContextSetupResponse ue gnb))
  end.

(** [ranUeId], [amfUeId], [pduSessionId], [messageNas], [sst], [sd] and the
    variables of the transfer; all keep what the last item left. *)
Record sureq := MkSureq {
  q_ran : Z; q_amf : Z; q_pid : Z; q_nas : list Z; q_sst : string; q_sd : string; q_setup : setup }.

Definition setup_item (item : SetupItem) (s : sureq) : outcome (sureq + string) :=
  or_error (si_NASPDU item) (λ nas,
    let s := MkSureq (q_ran s) (q_amf s) (si_PDUSessionID item) nas (hex_or "not informed" (SST (si_SNSSAI item)))
      (hex_or "not informed" (SD (si_SNSSAI item))) (q_setup s) in
    or_error (si_Transfer item) (λ octets,
      v ← setup_transfer octets (q_setup s);
      Ret (inl (MkSureq (q_ran s) (q_amf s) (q_pid s) (q_nas s) (q_sst s) (q_sd s) v)))
      "Pdu Session Resource Setup Request Transfer is missing") "NAS PDU is missing".

Definition setup_request_ie (ie : IE) (s : sureq) : outcome (sureq + string) :=
  if ie_Id ie =? ProtocolIEIDAMFUENGAPID then
    or_error (amf_id ie) (λ v, Ret (inl (MkSureq (q_ran s) v (q_pid s) (q_nas s) (q_sst s) (q_sd s) (q_setup s))))
      "AMF UE ID is missing"
  else if ie_Id ie =? ProtocolIEIDRANUENGAPID then
    or_error (ran_id ie) (λ v, Ret (inl (MkSureq v (q_amf s) (q_pid s) (q_nas s) (q_sst s) (q_sd s) (q_setup s))))
      "RAN UE ID is missing"
  else if ie_Id ie =? ProtocolIEIDPDUSessionResourceSetupListSUReq then
    match ie_Value ie with
    | Some (PDUSessionResourceSetupListSUReq l) => scan setup_item l s
    | _ => Ret (inr "PDU SESSION RESOURCE SETUP LIST SU REQ is missing"%string)
    end
  else Ret (inl s).

(** The N3 tunnel and the gateway for the UEs, when they can be opened. *)
Definition InitGTPTunnel (gnb : Z) : Gn unit :=
  g ← on_heap (get_gnb gnb);
  let d := dataInfo g in
  match DialUPlane (gnbDataIp d +:+ ":" +:+ dec (gnbDataPort d)) (upfIp d +:+ ":" +:+ dec (upfPort d)) with
  | Some conn => on_heap (set_gnb gnb (SetN3Plane (Some conn)))
  | None => mret tt
  end.
Definition InitGatewayGnb (gnb : Z) : Gn unit :=
  g ← on_heap (get_gnb gnb);
  match ListenPacket (gatewayGnbIp (dataInfo g)) with
  | Some conn => on_heap (set_gnb gnb (SetUePlane (Some conn)))
  | None => mret tt
  end.

Definition HandlerPduSessionResourceSetupRequest (gnb : Z) (message : NGAPPDU) : Gn unit :=
  ies ← run (elements_of NGAPPDUPresentInitiatingMessage MPDUSessionResourceSetupRequest message);
  r ← run (scan setup_request_ie ies (MkSureq 0 0 0 [] "" "" no_setup));
  match r with
  | inr e => report "PDUSessionResourceSetupRequest" e
  | inl s =>
    the_ue gnb "PDUSessionResourceSetupRequest" "UE was not found in GNB POOL" (q_ran s) (λ ue,
      same_amf_id ue "PDUSessionResourceSetupRequest" "Problem in AMF UE ID from CORE" (q_amf s) (
        ueGnbIp ← create_session gnb ue (q_pid s) (q_sst s) (q_sd s) (q_setup s);
        _ ← learn_upf gnb (v_upfAddress (q_setup s));
        _ ← SendToUe ue (q_nas s);
        _ ← SendPduSessionResourceSetupResponse ue gnb (q_pid s);
        g ← on_heap (get_gnb gnb);
        _ ← match gtpPlane (dataInfo g) with
            | None => _ ← InitGTPTunnel gnb; InitGatewayGnb gnb
            | Some _ => mret tt
            end;
        SendToUe ue (u8 (q_pid s) :: ip_bytes ueGnbIp)))
  end.

(** *** Release and modification *)

Definition opt_id (o : option Z) (old : Z) : Z := default old o.

(** [ranUeId], [amfUeId], [messageNas], [pduSessionIds] *)
Definition release_ie (s : Z * option (list Z) * list Z) (ie : IE) : Z * option (list Z) * list Z :=
  let '(ran, nas, ids) := s in
  if ie_Id ie =? ProtocolIEIDRANUENGAPID then (opt_id (ran_id ie) ran, nas, ids)
  else if ie_Id ie =? ProtocolIEIDNASPDU then (ran, match nas_pdu ie with Some v => Some v | None => nas end, ids)
  else if ie_Id ie =? ProtocolIEIDPDUSessionResourceToReleaseListRelCmd then
    match ie_Value ie with Some (PDUSessionResourceToReleaseListRelCmd l) => (ran, nas, ids ++ l) | _ => s end
  else s.

(** A UE the gNB does not know is only logged. *)
Definition if_ue (gnb ranUeId : Z) (k : Z → Gn unit) : Gn unit :=
  g ← on_heap (get_gnb gnb); match GetGnbUe g ranUeId with None => mret tt | Some ue => k ue end.
Definition forward (ue : Z) (nas : option (list Z)) : Gn unit :=
  match nas with Some nas => SendToUe ue nas | None => mret tt end.

Definition HandlerPduSessionResourceReleaseCommand (gnb : Z) (message : NGAPPDU) : Gn unit :=
  ies ← run (elements_of NGAPPDUPresentInitiatingMessage MPDUSessionResourceReleaseCommand message);
  let '(ran, nas, ids) := foldl release_ie (0, None, []) ies in
  if_ue gnb ran (λ ue, _ ← forward ue nas; SendPduSessionResourceReleaseResponse ue ids).

(** The flows of a transfer for a session: the last one counts. *)
Definition modify_ies (pid : Z) (qosIds : gmap Z Z) (l : list modify_ie) : gmap Z Z :=
  foldl (λ m ie, match ie with
    | QosFlowAddOrModifyRequestList l => foldl (λ m q, <[pid := q]> m) m l
    | OtherModifyIE => m end) qosIds l.

Definition modify_item (s : option (list Z) * list Z * gmap Z Z) (item : ModifyItem) : option (list Z) * list Z * gmap Z Z :=
  let '(nas, ids, qosIds) := s in
  (match mi_NASPDU item with Some v => Some v | None => nas end, ids ++ [mi_PDUSessionID item],
   match mi_Transfer item with
   | [] => qosIds
   | octets => match UnmarshalModify octets with inl l => modify_ies (mi_PDUSessionID item) qosIds l | inr _ => qosIds end
   end).

Definition modify_request_ie (s : Z * (option (list Z) * list Z * gmap Z Z)) (ie : IE) : Z * (option (list Z) * list Z * gmap Z Z) :=
  let '(ran, r) := s in
  if ie_Id ie =? ProtocolIEIDRANUENGAPID then (opt_id (ran_id ie) ran, r)
  else if ie_Id ie =? ProtocolIEIDPDUSessionResourceModifyListModReq then
    match ie_Value ie with Some (PDUSessionResourceModifyListModReq l) => (ran, foldl modify_item r l) | _ => s end
  else s.

Definition HandlerPDUSessionResourceModifyRequest (gnb : Z) (message : NGAPPDU) : Gn unit :=
  r ← run (value_of NGAPPDUPresentInitiatingMessage MPDUSessionResourceModifyRequest message);
  match r with
  | None => mret tt
  | Some ies =>
    let '(ran, (nas, ids, qosIds)) := foldl modify_request_ie (0, (None, [], ∅)) ies in
    if_ue gnb ran (λ ue,
      _ ← on_heap (set_ue ue (λ u, foldl (λ u '(pid, q), SetQosIdOfSession pid q u) u (visit qosIds)));
      _ ← forward ue nas;
      SendPDUSessionResourceModifyResponse ue ids)
  end.

(** *** NG Setup *)

Definition guami_bad (i : GuamiItem) : bool :=
  bool_decide (gi_Region i = None) || bool_decide (gi_Pointer i = None) || bool_decide (gi_Set i = None).

Fixpoint added_plmn_slices (l : list SNSSAI) (a : GNBAmf) : outcome GNBAmf :=
  match l with
  | [] => Ret a
  | n :: l => a ← AddedSlice (hex_or "was not informed" (SST n)) (hex_or "was not informed" (SD n)) a; added_plmn_slices l a
  end.
Fixpoint plmn_items (l : list PlmnSupportItem) (s : GNBAmf * bool) : outcome (GNBAmf * bool) :=
  match l with
  | [] => Ret s
  | i :: l =>
    let '(a, err) := s in
    a ← AddedPlmn (hex_bytes (pi_PLMN i)) a;
    a ← added_plmn_slices (default [] (pi_Slices i)) a;
    plmn_items l (a, err || bool_decide (pi_Slices i = None))
  end.

(** The AMF and whether something mandatory is missing. *)
Definition ng_setup_ie (ie : IE) (s : GNBAmf * bool) : outcome (GNBAmf * bool) :=
  let '(a, err) := s in
  if ie_Id ie =? ProtocolIEIDAMFName then
    match ie_Value ie with Some (AMFName v) => Ret (with_amfName v a, err) | _ => Ret (a, true) end
  else if ie_Id ie =? ProtocolIEIDServedGUAMIList then
    match ie_Value ie with
    | Some (ServedGUAMIList l) => Ret (a, err || bool_decide (l = None) || existsb guami_bad (default [] l))
    | _ => Panic
    end
  else if ie_Id ie =? ProtocolIEIDRelativeAMFCapacity then
    match ie_Value ie with Some (RelativeAMFCapacity v) => Ret (with_relativeAmfCapacity v a, err) | _ => Ret s end
  else if ie_Id ie =? ProtocolIEIDPLMNSupportList then
    match ie_Value ie with Some (PLMNSupportList l) => plmn_items l s | _ => Panic end
  else Ret s.

Definition HandlerNgSetupResponse (amf gnb : Z) (message : NGAPPDU) : Gn unit :=
  ies ← run (elements_of NGAPPDUPresentSuccessfulOutcome MNGSetupResponse message);
  a ← on_heap (get_amf amf);
  '(a, err) ← run (forM ies ng_setup_ie (a, false));
  _ ← on_heap (set_amf amf (λ _, with_amfState (if err then Inactive else Active) a));
  if err : bool then report "NGSetupResponse" "AMF is inactive" else mret tt.

Definition cause_text (old : string) (c : cause) : string :=
  match c with
  | CauseMisc v =>
    if v =? 4 then "Unknown PLMN in Supported TAI (AMF core does not serve this MCC/MNC)"
    else if v =? 5 then "AMF rejected setup (Cause unspecified)"
    else "AMF Misc Cause #" +:+ dec v
  | CauseRadioNetwork v => "AMF RadioNetwork Cause #" +:+ dec v
  | CauseTransport v => "AMF Transport Cause #" +:+ dec v
  | CauseProtocol v => "AMF Protocol Cause #" +:+ dec v
  | CauseNas v => "AMF NAS Cause #" +:+ dec v
  | CauseNothing => old
  end.

Definition ng_failure_ie (ie : IE) (causeText : string) : outcome string :=
  if ie_Id ie =? ProtocolIEIDCause then
    match ie_Value ie with Some (Cause c) => Ret (cause_text causeText c) | _ => Panic end
  else if ie_Id ie =? ProtocolIEIDTimeToWait then
    match ie_Value ie with Some (TimeToWait _) => Ret causeText | _ => Panic end
  else Ret causeText.

Definition HandlerNgSetupFailure (amf gnb : Z) (message : NGAPPDU) : Gn unit :=
  ies ← run (elements_of NGAPPDUPresentUnsuccessfulOutcome MNGSetupFailure message);
  causeText ← run (forM ies ng_failure_ie "Unspecified NG Setup Failure"%string);
  a ← on_heap (get_amf amf);
  _ ← on_heap (set_gnb gnb (SetError ("NGAP NG Setup Rejected by AMF (" +:+ amfIp a +:+ ":" +:+ dec (amfPort a)
    +:+ "): " +:+ causeText)));
  _ ← on_heap (set_gnb gnb SignalConnLoss);
  on_heap (set_amf amf (with_amfState Inactive)).

(** *** Paging: every UE with a socket, whatever identity is paged *)

Fixpoint page (l : list (Z * Z)) : Gn unit :=
  match l with
  | [] => mret tt
  | (_, ue) :: l =>
    u ← on_heap (get_ue ue);
    _ ← match unixSocketConnection u with Some conn => on_heap (emit (ToUe conn [0x00; 0x01])) | None => mret tt end;
    page l
  end.

Definition HandlerPaging (gnb : Z) (message : NGAPPDU) : Gn unit :=
  r ← run (value_of NGAPPDUPresentInitiatingMessage MPaging message);
  match r with
  | None => mret tt
  | Some _ => g ← on_heap (get_gnb gnb); page (visit (uePool g))
  end.

(** *** Handover and release of the UE *)

(** The uplink TEID of a switched session goes into the pool of downlink
    TEIDs; without uplink information the handler panics. *)
Definition switched_item (gnb ranUeId : Z) (item : Z * list Z) : Gn unit :=
  match UnmarshalSwitch (snd item) with
  | inr _ => mret tt
  | inl info =>
    choice ← run (deref info);
    match choice with
    | None => mret tt
    | Some t =>
      ulTeid ← run (Uint32 (GTPTEID t));
      if_ue gnb ranUeId (λ ue, on_heap (StoreTeid gnb ulTeid ue))
    end
  end.

Fixpoint each {A} (f : A → Gn unit) (l : list A) : Gn unit :=
  match l with [] => mret tt | x :: l => _ ← f x; each f l end.

(** The elements in order: a list before the RAN identifier finds no UE. *)
Fixpoint switch_ies (gnb : Z) (l : list IE) (ran amf : Z) : Gn (Z * Z) :=
  match l with
  | [] => mret (ran, amf)
  | ie :: l =>
    if ie_Id ie =? ProtocolIEIDAMFUENGAPID then v ← run (deref (amf_id ie)); switch_ies gnb l ran v
    else if ie_Id ie =? ProtocolIEIDRANUENGAPID then v ← run (deref (ran_id ie)); switch_ies gnb l v amf
    else if ie_Id ie =? ProtocolIEIDPDUSessionResourceSwitchedList then
      match ie_Value ie with
      | Some (PDUSessionResourceSwitchedList items) => _ ← each (switched_item gnb ran) items; switch_ies gnb l ran amf
      | _ => panic
      end
    else switch_ies gnb l ran amf
  end.

(** An XnAP message: its type and an AMF UE identifier. *)
Definition xn_message (type amfUeId : Z) : list Z := [0x58; 0x4e; type] ++ be_bytes 8 amfUeId.

Definition send_xn (gnb : Z) (ip : string) (port : Z) (message : list Z) : Gn unit :=
  g ← on_heap (get_gnb gnb);
  match xnConn (controlInfo g) with
  | Some conn => on_heap (emit (ToXn conn ip port message))
  | None => mret tt
  end.

Definition HandlerPathSwitchRequestAcknowledge (gnb : Z) (message : NGAPPDU) : Gn unit :=
  ies ← run (elements_of NGAPPDUPresentSuccessfulOutcome MPathSwitchRequestAcknowledge message);
  '(ran, amf) ← switch_ies gnb ies 0 0;
  if_ue gnb ran (λ ue,
    _ ← on_heap (SetAmfUeId ue amf);
    g ← on_heap (get_gnb gnb);
    source ← on_heap (FindUeInOtherGnb (gnbId (controlInfo g)) amf);
    match source, xnConn (controlInfo g) with
    | Some (sourceGnb, _), Some _ =>
      s ← on_heap (get_gnb sourceGnb);
      match ResolveUDPAddr (gnbIp (controlInfo s)) (GetLinkPort s + 1) with
      | Some ip => send_xn gnb ip (GetLinkPort s + 1) (xn_message 0x03 amf)
      | None => mret tt
      end
    | _, _ => mret tt
    end).

(** [int64(binary.BigEndian.Uint64(b))] *)
Definition Int64 (b : list Z) : outcome Z :=
  b0 ← slice b 0 4; b1 ← slice b 4 8; hi ← Uint32 b0; lo ← Uint32 b1; Ret (s64 (hi * 2 ^ 32 + lo)).

(** [amfUeId], [pduSessionId], [sourceAmfUeId] *)
Definition handover_request_ie (ie : IE) (s : Z * Z * Z) : outcome (Z * Z * Z) :=
  let '(amf, pid, source) := s in
  if ie_Id ie =? ProtocolIEIDAMFUENGAPID then v ← deref (amf_id ie); Ret (v, pid, source)
  else if ie_Id ie =? ProtocolIEIDPDUSessionResourceSetupListHOReq then
    match ie_Value ie with
    | Some (PDUSessionResourceSetupListHOReq l) => Ret (amf, foldl (λ _ '(i, _, _), u8 i) pid l, source)
    | _ => Ret s
    end
  else if ie_Id ie =? ProtocolIEIDSourceToTargetTransparentContainer then
    match ie_Value ie with
    | Some (SourceToTargetTransparentContainer octets) =>
      match UnmarshalSourceToTarget octets with
      | inl ((0x05 :: 0x06 :: rest) as rrc) =>
        if 10 <=? blen rrc then v ← Int64 (take 8 rest); Ret (amf, pid, v) else Ret s
      | _ => Ret s
      end
    | _ => Ret s
    end
  else Ret s.

(** The address the gNB gives for its data plane. *)
Definition data_address (g : GNBContext) : list Z :=
  let ip := ParseIP (gnbDataIp (dataInfo g)) in
  match To4 ip with [] => ip | b => b end.

Definition HandlerHandoverRequest (gnb : Z) (message : NGAPPDU) : Gn unit :=
  r ← run (value_of NGAPPDUPresentInitiatingMessage MHandoverRequest message);
  match r with
  | None => mret tt
  | Some ies =>
    '(amf, pid, source) ← run (forM ies handover_request_ie (0, 1, -1));
    r ← on_heap (NewGnBUe gnb None);
    match r with
    | None => mret tt
    | Some ue =>
      _ ← on_heap (SetAmfUeId ue amf);
      _ ← (if source =? -1 then mret tt else on_heap (set_ue ue (with_sourceAmfUeNgapId source)));
      _ ← on_heap (set_ue ue SetStateOngoing);
      u ← on_heap (get_ue ue);
      '(_, u) ← run (CreatePduSession pid "01" "010203" 1 1 1 1 (GetTeidDownlink u) (GetIp u) 0 u);
      _ ← on_heap (set_ue ue (λ _, u));
      g ← on_heap (get_gnb gnb);
      try_send (BuildHandoverRequestAcknowledge (ranUeNgapId u) amf pid (data_address g)
        (be_bytes 4 (GetTeidDownlink u)) 1) (sctpConnection u)
    end
  end.

(** [ranUeId] of a handover command *)
Definition command_ie (ie : IE) (ran : Z) : outcome Z :=
  if ie_Id ie =? ProtocolIEIDAMFUENGAPID then _ ← deref (amf_id ie); Ret ran
  else if ie_Id ie =? ProtocolIEIDRANUENGAPID then deref (ran_id ie)
  else Ret ran.

Definition HandlerHandoverCommand (gnb : Z) (message : NGAPPDU) : Gn unit :=
  r ← run (value_of NGAPPDUPresentSuccessfulOutcome MHandoverCommand message);
  match r with
  | None => mret tt
  | Some ies => ran ← run (forM ies command_ie 0); if_ue gnb ran (λ ue, SendToUe ue [0x00; 0x05])
  end.

(** [ranUeId], [amfUeId] *)
Definition ngapids_ie (s : Z * Z) (ie : IE) : Z * Z :=
  let '(ran, amf) := s in
  if ie_Id ie =? ProtocolIEIDUENGAPIDs then
    match ie_Value ie with
    | Some (UENGAPIDs (UENGAPIDPair a r)) => (r, a)
    | Some (UENGAPIDs (UEAMFUENGAPID a)) => (ran, a)
    | _ => s
    end
  else s.

Definition drop_session (gnb : Z) (e : Z * PDUSession) : Gn unit :=
  _ ← on_heap (DeleteGnBUeByTeid gnb (downlinkTeid (snd e)));
  match ranUeIP (snd e) with
  | NoIP => mret tt
  | ip => on_heap (DeleteGnBUeByIp gnb (IP_String ip))
  end.

(** The UE is told and loses its tunnels; it stays in the pool. *)
Definition release_ue (gnb ue : Z) : Gn unit :=
  u ← on_heap (get_ue ue);
  _ ← match unixSocketConnection u with Some conn => on_heap (emit (ToUe conn [0x00; 0x06])) | None => mret tt end;
  _ ← on_heap (DeleteGnBUeByTeid gnb (GetTeidDownlink u));
  _ ← on_heap (DeleteGnBUeByIp gnb (IP_String (GetIp u)));
  _ ← each (drop_session gnb) (visit (pduSessions u));
  on_heap (set_ue ue SetStateInitialized).

Definition HandlerUeContextReleaseCommand (gnb : Z) (message : NGAPPDU) : Gn unit :=
  r ← run (value_of NGAPPDUPresentInitiatingMessage MUEContextReleaseCommand message);
  match r with
  | None => mret tt
  | Some ies =>
    let '(ran, amf) := foldl ngapids_ie (0, 0) ies in
    found ← on_heap (if (ran =? 0) && negb (amf =? 0) then find_ue gnb (λ u, amfUeNgapId u =? amf) else mret None);
    let ran := match found with Some (i, _) => i | None => ran end in
    _ ← if_ue gnb ran (release_ue gnb);
    g ← on_heap (get_gnb gnb);
    match n2 (controlInfo g) with
    | None => mret tt
    | Some conn => try_send (BuildUEContextReleaseComplete ran amf) (Some conn)
    end
  end.

(** ** ngap/dispatcher.go *)

(** The error of the decoder is only logged: what was decoded is handled. *)
Definition Dispatch (amf gnb : Z) (message : list Z) : Gn unit :=
  let '(ngapMsg, err) := Decoder message in
  _ ← (if bool_decide (err = None) then validated ngapMsg else mret tt);
  if Present ngapMsg =? NGAPPDUPresentInitiatingMessage then
    m ← run (deref (Outcome ngapMsg));
    let code := ProcedureCode m in
    if code =? ProcedureCodeDownlinkNASTransport then HandlerDownlinkNasTransport gnb ngapMsg
    else if code =? ProcedureCodeInitialContextSetup then HandlerInitialContextSetupRequest gnb ngapMsg
    else if code =? ProcedureCodePDUSessionResourceSetup then HandlerPduSessionResourceSetupRequest gnb ngapMsg
    else if code =? ProcedureCodePDUSessionResourceRelease then HandlerPduSessionResourceReleaseCommand gnb ngapMsg
    else if code =? ProcedureCodePDUSessionResourceModify then HandlerPDUSessionResourceModifyRequest gnb ngapMsg
    else if code =? ProcedureCodePaging then HandlerPaging gnb ngapMsg
    else if code =? ProcedureCodeHandoverResourceAllocation then HandlerHandoverRequest gnb ngapMsg
    else if code =? ProcedureCodeUEContextRelease then HandlerUeContextReleaseCommand gnb ngapMsg
    else mret tt
  else if Present ngapMsg =? NGAPPDUPresentSuccessfulOutcome then
    m ← run (deref (Outcome ngapMsg));
    let code := ProcedureCode m in
    if code =? ProcedureCodeNGSetup then HandlerNgSetupResponse amf gnb ngapMsg
    else if code =? ProcedureCodePathSwitchRequest then HandlerPathSwitchRequestAcknowledge gnb ngapMsg
    else if code =? ProcedureCodeHandoverPreparation then HandlerHandoverCommand gnb ngapMsg
    else mret tt
  else if Present ngapMsg =? NGAPPDUPresentUnsuccessfulOutcome then
    m ← run (deref (Outcome ngapMsg));
    if ProcedureCode m =? ProcedureCodeNGSetup then HandlerNgSetupFailure amf gnb ngapMsg else mret tt
  else mret tt.

End Gnb.
