(* ===== verification/GnbNas.v ===== *)
(** * The gNB's side towards UEs, other gNBs and the user plane

    gnb/nas (accepting a UE, its messages by state, the hand-over triggers),
    the XnAP messages of gnb/ngap/service, and the forwarding of user data of
    gnb/gtp and gnb/data.  The goroutines of the simulated AMF are steps of
    their own ([mock_...]), to be run after the trigger that starts them. *)

From Stdlib Require Import Ascii.
From S2P Require Import Prelude GoStrings GnbContext Ngap Chaos GnbNgap.

#[local] Open Scope Z_scope.
#[local] Open Scope go_scope.

Section Nas.
Context {G : Type} `{Rand G} `{MapOrder} `{Host} `{NgapCodec}.

#[local] Abbreviation Gn := (Gn (G:=G)).

(** ** Start-up: ngap/service, nas/service and gnb.go *)

(** The association with the AMF, from the configured port or any. *)
Definition InitConn (amf gnb : Z) : Gn bool :=
  a ← on_heap (get_amf amf); g ← on_heap (get_gnb gnb);
  let remote := amfIp a +:+ ":" +:+ dec (amfPort a) in
  let ip := gnbIp (controlInfo g) in
  let local := ip +:+ ":" +:+ dec (gnbPort (controlInfo g)) in
  if negb (ResolveSCTPAddr remote && ResolveSCTPAddr local) then mret false
  else
    let conn := match DialSCTP local remote with
      | Some c => Some c
      | None => if ResolveSCTPAddr (ip +:+ ":0") then DialSCTP (ip +:+ ":0") remote else None
      end in
    _ ← on_heap (set_amf amf (with_sctpConn conn));
    match conn with
    | None => mret false
    | Some c => _ ← on_heap (set_gnb gnb (SetN2 (Some c))); mret true
    end.

(** The socket for the UEs. *)
Definition InitServer (gnb : Z) : Gn bool :=
  g ← on_heap (get_gnb gnb);
  let ln := if (GetLinkType g =? "tcp")%string
    then Listen "tcp" (gnbIp (controlInfo g) +:+ ":" +:+ dec (GetLinkPort g))
    else Listen "unix" (GetSocketPath g) in
  match ln with
  | None => mret false
  | Some c => _ ← on_heap (set_gnb gnb (SetListener (Some c))); mret true
  end.

Definition StartXnListener (gnb : Z) : Gn bool :=
  g ← on_heap (get_gnb gnb);
  match Listen "udp" (gnbIp (controlInfo g) +:+ ":" +:+ dec (GetLinkPort g + 1)) with
  | None => mret false
  | Some c => _ ← on_heap (set_gnb gnb (SetXnConn (Some c))); mret true
  end.

(** The part of the configuration a gNB is made from. *)
Record GnbConfig := MkGnbConfig {
  conf_GnbId : string; conf_Mcc : string; conf_Mnc : string; conf_Tac : string; conf_Sst : string; conf_Sd : string;
  conf_ControlIp : string; conf_DataIp : string; conf_ControlPort : Z; conf_DataPort : Z;
  conf_LinkType : string; conf_LinkPort : Z; conf_PagingDRX : string; conf_CellId : Z;
  conf_AmfIp : string; conf_AmfPort : Z }.

(** Up to waiting for the signal that ends it, without the error texts of the
    system; the AMF is returned when all
    is started. *)
Definition InitGnb (c : GnbConfig) (gnb : Z) : Gn (option Z) :=
  _ ← on_heap (NewRanGnbContext gnb (conf_GnbId c) (conf_Mcc c) (conf_Mnc c) (conf_Tac c) (conf_Sst c) (conf_Sd c)
    (conf_ControlIp c) (conf_DataIp c) (conf_ControlPort c) (conf_DataPort c));
  _ ← on_heap (set_gnb gnb (λ g, SetCellId (conf_CellId c) (SetPagingDRX (conf_PagingDRX c)
    (SetLinkPort (conf_LinkPort c) (SetLinkType (conf_LinkType c) g)))));
  amf ← on_heap (NewGnBAmf gnb (conf_AmfIp c) (conf_AmfPort c));
  ok ← InitConn amf gnb;
  if negb ok then _ ← report "InitGnb" "SCTP/NGAP InitConn failed"; mret None else
  ok ← InitServer gnb;
  if negb ok then _ ← report "InitGnb" "UNIX/NAS InitServer failed"; mret None else
  _ ← StartXnListener gnb;
  _ ← SendNgSetupRequest gnb amf;
  mret (Some amf).

(** A new connection; without an AMF the listener stops. *)
Definition accept (gnb conn : Z) : Gn (option Z) := on_heap (NewGnBUe gnb (Some conn)).

(** The UE that now has the connection a UE was accepted with. *)
Definition active_ue (gnb ue conn : Z) : Gn Z :=
  r ← on_heap (find_ue gnb (λ t, bool_decide (unixSocketConnection t = Some conn)));
  mret (match r with Some (_, t) => t | None => ue end).

(** ** nas/handler: the triggers a UE sends instead of a NAS message *)

(** [string(message[a:b])] *)
Definition bytes_string (l : list Z) : string :=
  String.string_of_list_ascii ((λ b, Ascii.ascii_of_N (Z.to_N b)) <$> l).
(** [strings.TrimRight(s, "\x00")] *)
Fixpoint trim_zeros (l : list Z) : list Z :=
  match l with
  | [] => []
  | b :: l => match trim_zeros l with [] => if b =? 0 then [] else [b] | l' => b :: l' end
  end.

Definition starts (a b : Z) (len : nat) (message : list Z) : bool :=
  (length message =? len)%nat && bool_decide (take 2 message = [a; b]).

(** To another gNB: the Xn hand-over request. *)
Definition handleXnHandoverTrigger (ue : Z) (message : list Z) (gnb : Z) : Gn bool :=
  if starts 0x00 0x06 17 message then
    let ip := IPv4 (message !!! 2%nat) (message !!! 3%nat) (message !!! 4%nat) (message !!! 5%nat) in
    let port := u16 ((message !!! 6%nat) * 256 + message !!! 7%nat + 1) in
    amf ← run (Int64 (take 8 (drop 8 message)));
    match ResolveUDPAddr (IP_String ip) port with
    | None => mret true
    | Some ip =>
      g ← on_heap (get_gnb gnb);
      match xnConn (controlInfo g) with
      | None => panic
      | Some conn => _ ← on_heap (emit (ToXn conn ip port (xn_message 0x01 amf))); mret true
      end
    end
  else mret false.

(** To the AMF: Handover Required. *)
Definition handleN2HandoverTrigger (ue : Z) (message : list Z) (gnb : Z) : Gn bool :=
  if starts 0x00 0x02 28 message then
    amf ← run (Int64 (take 8 (drop 2 message)));
    let pid := message !!! 10%nat in
    let targetMcc := bytes_string (take 3 (drop 11 message)) in
    let targetMnc := bytes_string (trim_zeros (take 3 (drop 14 message))) in
    let targetTac := take 3 (drop 17 message) in
    target ← run (Int64 (take 8 (drop 20 message)));
    _ ← on_heap (SetAmfUeId ue amf);
    u ← on_heap (get_ue ue); g ← on_heap (get_gnb gnb);
    pdu ← run (BuildHandoverRequired (ranUeNgapId u) amf targetMcc targetMnc target targetTac pid (GetGnbIdInBytes g) (GetCellId g));
    _ ← try_send pdu (sctpConnection u);
    mret true
  else mret false.

(** At the target: the prepared UE takes over the connection. *)
Definition handleTargetAccessTrigger (ue : Z) (message : list Z) (gnb : Z) : Gn bool :=
  if starts 0x00 0x04 10 message then
    amf ← run (Int64 (drop 2 message));
    r ← on_heap (find_ue gnb (λ t, (amfUeNgapId t =? amf) || (sourceAmfUeNgapId t =? amf)));
    match r with
    | None => mret true
    | Some (_, realUe) =>
      u ← on_heap (get_ue ue);
      _ ← on_heap (set_ue realUe (with_unixSocketConnection (unixSocketConnection u)));
      _ ← on_heap (set_ue realUe SetStateReady);
      real ← on_heap (get_ue realUe);
      _ ← (if amfUeNgapId real =? amf then mret tt
           else SendToUe realUe ([0x00; 0x03] ++ be_bytes 8 (amfUeNgapId real)));
      u ← on_heap (get_ue ue);
      _ ← on_heap (DeleteGnBUe gnb (ranUeNgapId u));
      real ← on_heap (get_ue realUe);
      g ← on_heap (get_gnb gnb);
      _ ← try_send (BuildHandoverNotify (ranUeNgapId real) amf (GetMccAndMncInOctets g) (GetTacInBytes g)
        (GetGnbIdInBytes g) (GetCellId g)) (sctpConnection real);
      mret true
    end
  else mret false.

(** At the target of an Xn hand-over: Path Switch Request. *)
Definition handlePathSwitchTrigger (ue : Z) (message : list Z) (gnb : Z) : Gn bool :=
  if starts 0x00 0x03 11 message then
    amf ← run (Int64 (take 8 (drop 2 message)));
    let pid := message !!! 10%nat in
    _ ← on_heap (SetAmfUeId ue amf);
    _ ← on_heap (set_ue ue SetStateReady);
    u ← on_heap (get_ue ue); g ← on_heap (get_gnb gnb);
    _ ← try_send (BuildPathSwitchRequest (ranUeNgapId u) amf (GetMccAndMncInOctets g) (GetTacInBytes g) pid
      (data_address g) (be_bytes 4 (GetTeidDownlink u)) (GetGnbIdInBytes g) (GetCellId g)) (sctpConnection u);
    mret true
  else mret false.

(** The first trigger that recognises the message. *)
Definition triggered (ue : Z) (message : list Z) (gnb : Z) : Gn bool :=
  xn ← handleXnHandoverTrigger ue message gnb;
  if xn : bool then mret true else
  n2 ← handleN2HandoverTrigger ue message gnb;
  if n2 : bool then mret true else
  target ← handleTargetAccessTrigger ue message gnb;
  if target : bool then mret true else
  handlePathSwitchTrigger ue message gnb.

(** The octets of a message, nil on an error. *)
Definition octets_of (pdu : NGAPPDU) : list Z := match Encoder pdu with inl b => b | inr _ => [] end.

Definition HandlerUeInitialized (ue : Z) (message : list Z) (gnb : Z) : Gn unit :=
  t ← triggered ue message gnb;
  if t : bool then mret tt else
  u ← on_heap (get_ue ue); g ← on_heap (get_gnb gnb); release ← get_world w_release;
  pdu ← run (InitialUeMessage release message u g);
  _ ← on_heap (set_ue ue SetStateOngoing);
  _ ← SendToAmF (octets_of pdu) (sctpConnection u);
  mret tt.

Definition HandlerUeOngoing (ue : Z) (message : list Z) (gnb : Z) : Gn unit :=
  t ← triggered ue message gnb;
  if t : bool then mret tt else
  u ← on_heap (get_ue ue); g ← on_heap (get_gnb gnb);
  _ ← SendToAmF (octets_of (UplinkNasTransport message u g)) (sctpConnection u);
  mret tt.

Definition HandlerUeReady (ue : Z) (message : list Z) (gnb : Z) : Gn unit :=
  t ← triggered ue message gnb;
  if t : bool then mret tt else
  u ← on_heap (get_ue ue); g ← on_heap (get_gnb gnb);
  try_send (UplinkNasTransport message u g) (sctpConnection u).

Definition DispatchUe (ue : Z) (message : list Z) (gnb : Z) : Gn unit :=
  u ← on_heap (get_ue ue);
  if state u =? Initialized then HandlerUeInitialized ue message gnb
  else if state u =? Ongoing then HandlerUeOngoing ue message gnb
  else if state u =? Ready then HandlerUeReady ue message gnb
  else mret tt.

(** What arrives on the connection a UE was accepted with. *)
Definition receive_ue (gnb ue conn : Z) (message : list Z) : Gn unit :=
  ue ← active_ue gnb ue conn; DispatchUe ue message gnb.

(** *** The simulated AMF, while there is no N2 association *)

(** Encode, decode and handle. *)
Definition loop_back (pdu : NGAPPDU) (k : NGAPPDU → Gn unit) : Gn unit :=
  match Encoder pdu with
  | inr _ => mret tt
  | inl octets => let '(pdu, err) := Decoder octets in if bool_decide (err = None) then k pdu else mret tt
  end.

(** [%06x] *)
Fixpoint hex_digits (fuel : nat) (v : Z) : string :=
  match fuel with
  | O => EmptyString
  | S fuel => if v <? 16 then hex_digit v else hex_digits fuel (v ≫ 4) +:+ hex_digit (v & 15)
  end.
Fixpoint zero_padded (n : nat) (s : string) : string :=
  match n with
  | O => s
  | S m => if (String.length s <? n)%nat then String "0"%char (zero_padded m s) else s
  end.
Definition hex06 (v : Z) : string :=
  if v <? 0 then String "-"%char (zero_padded 5 (hex_digits 16 (- v))) else zero_padded 6 (hex_digits 16 v).

Definition active_gnb (i : string) : Gn (option Z) := get_world (λ w, ActiveGNBs (w_heap w) !! i).

(** The N2 hand-over; [sleep] is what happens elsewhere in the pauses. *)
Definition mock_handover (src ran amf target pid : Z) (sleep1 sleep2 sleep3 : Gn unit) : Gn unit :=
  _ ← sleep1;
  t ← active_gnb (hex06 target);
  match t with
  | None => mret tt
  | Some targetGnb =>
    _ ← loop_back (GetHandoverRequest ran amf pid) (HandlerHandoverRequest targetGnb);
    _ ← sleep2;
    r ← on_heap (find_ue targetGnb (λ u, amfUeNgapId u =? amf));
    match r with
    | None => mret tt
    | Some _ =>
      _ ← loop_back (GetHandoverCommand ran amf) (HandlerHandoverCommand src);
      _ ← sleep3;
      loop_back (GetUEContextReleaseCommand ran amf) (HandlerUeContextReleaseCommand src)
    end
  end.

(** The Xn hand-over. *)
Definition mock_path_switch (target ran amf pid : Z) : Gn unit :=
  loop_back (GetPathSwitchRequestAcknowledge ran amf pid [127; 0; 0; 1] (be_bytes 4 ran))
    (HandlerPathSwitchRequestAcknowledge target).

(** ** ngap/service: XnAP messages *)

(** The AMF identifier behind the header, zero when the message is short. *)
Definition xn_amf_id (data : list Z) : outcome Z := if 11 <=? blen data then Int64 (take 8 (drop 3 data)) else Ret 0.

Definition processXnMessage (gnb : Z) (data : list Z) (remoteIp : string) (remotePort : Z) : Gn unit :=
  match data with
  | 0x58 :: 0x4e :: msgType :: _ =>
    if msgType =? 0x01 then
      amf ← run (xn_amf_id data);
      g ← on_heap (get_gnb gnb);
      match xnConn (controlInfo g) with
      | None => panic
      | Some conn => on_heap (emit (ToXn conn remoteIp remotePort (xn_message 0x02 amf)))
      end
    else if msgType =? 0x02 then
      amf ← run (xn_amf_id data);
      r ← on_heap (find_ue gnb (λ u, amfUeNgapId u =? amf));
      match r with
      | None => mret tt
      | Some _ =>
        g ← on_heap (get_gnb gnb);
        match xnConn (controlInfo g) with
        | None => panic
        | Some conn => on_heap (emit (ToXn conn remoteIp remotePort (xn_message 0x04 amf)))
        end
      end
    else if msgType =? 0x03 then
      if 11 <=? blen data then
        amf ← run (Int64 (take 8 (drop 3 data)));
        r ← on_heap (find_ue gnb (λ u, amfUeNgapId u =? amf));
        match r with None => mret tt | Some (ran, _) => on_heap (DeleteGnBUe gnb ran) end
      else mret tt
    else mret tt
  | _ => mret tt
  end.

(** ** User data *)

(** gtp/service: a packet from the UPF with its TEID, the first [n] bytes of
    the buffer; the result says whether the listener goes on. *)
Definition from_upf (gnb teid : Z) (buf : list Z) (n : Z) : Gn bool :=
  b3 ← run (rd buf 3);
  packet ← run (
    if b3 =? 133 then p ← slice buf 8 n; Ret (gocopy (replicate (Z.to_nat n) 0) p) else slice buf 0 n);
  g ← on_heap (get_gnb gnb);
  match GetGnbUeByTeid g teid with
  | None => mret false
  | Some ue =>
    u ← on_heap (get_ue ue);
    match FindPduSessionByDownlinkTeid u teid with
    | None => mret true
    | Some sess => _ ← on_heap (emit (ToUePlane (uePlane (dataInfo g)) (ranUeIP sess) packet)); mret true
    end
  end.

(** data/service: a packet from a UE's address to the UPF. *)
Definition from_ue (gnb : Z) (src : IP) (packet : list Z) : Gn bool :=
  g ← on_heap (get_gnb gnb);
  match GetGnbUeByIp g (IP_String src) with
  | None => mret false
  | Some ue =>
    match gtpPlane (dataInfo g) with
    | None =>
      _ ← report "N3GTP" ("[GNB][GTP] N3 GTP/UDP user-plane socket is not active on gNodeB " +:+ gnbId (controlInfo g)
        +:+ ". User-plane data forwarding to UPF (2152) requires N3 tunnel setup.");
      mret true
    | Some conn =>
      u ← on_heap (get_ue ue);
      let teid := match FindPduSessionByIp u (IP_String src) with Some sess => uplinkTeid sess | None => GetTeidUplink u end in
      match ResolveUDPAddr (upfIp (dataInfo g)) (upfPort (dataInfo g)) with
      | None => mret true
      | Some ip => _ ← on_heap (emit (ToUpf conn teid ip (upfPort (dataInfo g)) packet)); mret true
      end
    end
  end.

End Nas.
