(* ===== verification/GnbProps.v ===== *)
(** * Properties of the gNB context and of the NGAP messages

    The linked lists are lists, the two codings of a PLMN, the addresses given
    to UEs, and the compliance of every message the gNB builds. *)

From Stdlib Require Import Ascii.
From S2P Require Import Prelude GoStrings GnbContext Ngap.

#[local] Open Scope Z_scope.
#[local] Open Scope go_scope.

#[local] Arguments String.append : simpl nomatch.
#[local] Opaque digit.

(** ** Linked lists *)

Lemma append_loop_spec {A} (e : A) n mov l :
  (n + mov = length l)%nat → (0 < n)%nat → append_loop n e mov l = Ret (l ++ [e]).
Proof.
  revert mov. induction n as [|n IH]; intros mov Hl Hn; [lia|]. cbn [append_loop].
  destruct (lookup_lt_is_Some_2 l mov) as [x ->]; [lia|].
  destruct (Nat.eqb_spec (S mov) (length l)) as [E|E].
  - assert (n = 0%nat) as -> by lia. done.
  - apply IH; lia.
Qed.

(** The loops of [AddedPlmn], [AddedSlice] and [addedSlice] append. *)
Lemma append_spec {A} (e : A) len l :
  len = 0 ∧ l = [] ∨ len = blen l → append len e l = Ret (l ++ [e]).
Proof.
  unfold append, blen. intros [[-> ->]| ->]; [done|]. destruct l as [|x l]; [done|].
  rewrite (proj2 (Z.eqb_neq _ 0)) by (simpl; lia). apply append_loop_spec; simpl; lia.
Qed.

(** ** The PLMN *)

(** The text of TS 38.413 9.3.3.5: the digits of MCC and MNC one after the
    other, with a filler after the MCC when the MNC has two. *)
Definition ngap_coding (mccs mncs : list Z) : list Z :=
  match mccs, mncs with
  | [a; b; c], [d; e] => [b * 16 + a; 15 * 16 + c; e * 16 + d]
  | [a; b; c], [d; e; f] => [b * 16 + a; d * 16 + c; f * 16 + e]
  | _, _ => []
  end.

Lemma str_slice_digit ds i : (i < length ds)%nat →
  str_slice i (S i) (digit_string ds) = Ret (digit_string [ds !!! i]).
Proof.
  intros Hi. unfold str_slice.
  assert (∀ l, String.length (digit_string l) = length l) as El.
  { induction l as [|x l IH]; [done|]. simpl. by rewrite IH. }
  rewrite El. destruct (Nat.ltb_spec (length ds) (S i)); [lia|]. f_equal. unfold sub.
  replace (S i - i)%nat with 1%nat by lia. revert i Hi H. induction ds as [|d ds IH]; intros [|i] Hi H; simpl in *; try lia.
  - by destruct (digit_string ds).
  - apply IH; lia.
Qed.

Lemma plmn_to_ngap mccs mncs : length mccs = 3%nat → length mncs = 2%nat ∨ length mncs = 3%nat →
  Forall decimal mccs → Forall decimal mncs →
  PlmnIdToNgap (digit_string mccs) (digit_string mncs) = Ret (ngap_coding mccs mncs).
Proof.
  intros H3 H23 Hc Hn. destruct mccs as [|a [|b [|c [|]]]]; try done.
  rewrite !Forall_cons in Hc. destruct Hc as (Ha&Hb&Hc&_).
  unfold PlmnIdToNgap. rewrite !str_slice_digit by (simpl; lia). ret_bind.
  destruct mncs as [|d [|e [|f [|]]]]; try (destruct H23; done); rewrite !Forall_cons in Hn; destruct_and! Hn;
    rewrite slen_digits; [change (blen [d; e] =? 2) with true | change (blen [d; e; f] =? 2) with false];
    cbv iota; rewrite !str_slice_digit by (simpl; lia); ret_bind; f_equal; unfold DecodeString;
    cbn [lookup_total list_lookup_total digit_string String.append].
  - rewrite hex_decode_pair by done. cbn [fst].
    change (String "f"%char (String (digit c) (String (digit e) (String (digit d) ""))))
      with ("f" +:+ String (digit c) (String (digit e) (String (digit d) ""))).
    rewrite hex_decode_filler by done. cbn [fst]. by rewrite hex_decode_pair.
  - by rewrite !hex_decode_pair.
Qed.

Lemma hex2_digits a b : decimal a → decimal b → hex2 (a * 16 + b) = String (digit a) (String (digit b) "").
Proof. intros Ha Hb. each_digit a Ha; each_digit b Hb; reflexivity. Qed.

Lemma hex2_filler b : decimal b → hex2 (15 * 16 + b) = String "f" (String (digit b) "").
Proof. intros Hb. each_digit b Hb; reflexivity. Qed.

Lemma digit_not_f d : decimal d → (String (digit d) "" =? "f")%string = false.
Proof. intros Hd. each_digit d Hd; reflexivity. Qed.

Lemma convert_plmn mccs mncs : length mccs = 3%nat → length mncs = 2%nat ∨ length mncs = 3%nat →
  Forall decimal mccs → Forall decimal mncs →
  convertMccMnc (hex_bytes (plmn_coding mccs mncs)) = Ret (digit_string mccs, digit_string mncs).
Proof.
  intros H3 H23 Hc Hn. destruct mccs as [|a [|b [|c [|]]]]; try done.
  rewrite !Forall_cons in Hc. destruct Hc as (Ha&Hb&Hc&_).
  destruct mncs as [|d [|e [|f [|]]]]; try (destruct H23; done); rewrite !Forall_cons in Hn; destruct_and! Hn;
    cbn [plmn_coding]; unfold hex_bytes; cbn [fmap list_fmap foldr].
  - rewrite (hex2_digits b a), (hex2_filler c), (hex2_digits e d) by done. cbn [String.append].
    unfold convertMccMnc, str_slice. cbn [String.length Nat.ltb Nat.leb Nat.max mbind outcome_mbind sub String.substring Nat.sub].
    rewrite digit_not_f by done. done.
  - rewrite !hex2_digits by done. cbn [String.append].
    unfold convertMccMnc, str_slice. cbn [String.length Nat.ltb Nat.leb Nat.max mbind outcome_mbind sub String.substring Nat.sub].
    rewrite !digit_not_f by done. done.
Qed.

(** With three MCC digits and two or three MNC digits, the octets the gNB
    sends are those of TS 24.501, and what it prints of octets it receives are
    the digits; the target PLMN of a hand-over is coded as TS 38.413 says.  The
    two codings agree when the MNC has two digits, and for a three-digit MNC
    only if its digits are equal. *)
Theorem gnb_plmn_codings g mccs mncs :
  length mccs = 3%nat → length mncs = 2%nat ∨ length mncs = 3%nat →
  Forall decimal mccs → Forall decimal mncs →
  mcc (controlInfo g) = digit_string mccs → mnc (controlInfo g) = digit_string mncs →
  GetMccAndMncInOctets g = plmn_coding mccs mncs ∧
  convertMccMnc (hex_bytes (GetMccAndMncInOctets g)) = Ret (digit_string mccs, digit_string mncs) ∧
  PlmnIdToNgap (digit_string mccs) (digit_string mncs) = Ret (ngap_coding mccs mncs) ∧
  (PlmnIdToNgap (digit_string mccs) (digit_string mncs) = Ret (GetMccAndMncInOctets g) ↔
   length mncs = 2%nat ∨ ∃ d, mncs = [d; d; d]).
Proof.
  intros H3 H23 Hc Hn Em En. unfold GetMccAndMncInOctets. rewrite Em, En, plmn_octets, plmn_to_ngap by done.
  split; [done|]. split; [by apply convert_plmn|]. split; [done|].
  destruct mccs as [|a [|b [|c [|]]]]; try done.
  destruct mncs as [|d [|e [|f [|]]]]; try (destruct H23; done); cbn [plmn_coding ngap_coding].
  { split; [by left|done]. }
  rewrite !Forall_cons in *. destruct_and! Hn. unfold decimal in *. split.
  - intros E%Ret_inj. injection E as E1 E2. right. exists d.
    assert (e = d ∧ f = d) as [-> ->] by lia. done.
  - intros [?|[x [= -> -> ->]]]; [done|reflexivity].
Qed.

Definition example_gnb (mnc_ : string) : GNBContext :=
  MkGnb (MkData "127.0.0.1" 2152 "" 2152 None "127.0.0.2" None)
    (MkControl "208" mnc_ "000001" "000001" "127.0.0.1" 9487 None None "" 0 "" None 0 "")
    ∅ ∅ ∅ ∅ "01" "010203" 1 1 1 3 None false "".

Lemma gnb_plmn_codings_witness :
  PlmnIdToNgap "208" "930" = Ret (GetMccAndMncInOctets (example_gnb "930")) ↔ 3%nat = 2%nat ∨ ∃ d, [9; 3; 0] = [d; d; d].
Proof.
  refine (proj2 (proj2 (proj2 (gnb_plmn_codings (example_gnb "930") [2; 0; 8] [9; 3; 0] _ _ _ _ _ _))));
    first [by left | by right | reflexivity | repeat constructor; done].
Defined.

(** Open the calls that returned. *)
Ltac returned :=
  repeat match goal with
  | H : mbind _ _ = Ret _ |- _ => let a := fresh "a" in let Ha := fresh "Ha" in apply bind_inv in H as (a & Ha & H)
  | H : Ret _ = Ret _ |- _ => apply Ret_inj in H
  | H : inl _ = inl _ |- _ => injection H as H
  end; try subst.

(** ** The messages of the gNB *)

Section Messages.
Context `{Host} `{NgapCodec} `{MapOrder}.

(** Every message the gNB or its simulated AMF builds. *)
Inductive gnb_message : NGAPPDU → Prop :=
| m_setup g name : gnb_message (NGSetupRequest g name)
| m_initial rel nas ue g pdu : InitialUeMessage rel nas ue g = Ret pdu → gnb_message pdu
| m_uplink nas ue g : gnb_message (UplinkNasTransport nas ue g)
| m_session ue ip pid pdu : PDUSessionResourceSetupResponse ue ip pid = Ret (inl pdu) → gnb_message pdu
| m_context ue ip pdu : BuildInitialContextSetupResponse ue ip = Ret pdu → gnb_message pdu
| m_modify ue ids : gnb_message (buildPDUSessionResourceModifyResponse ue ids)
| m_release amf ran ids : gnb_message (buildPDUSessionResourceReleaseResponse amf ran ids)
| m_complete ran amf : gnb_message (BuildUEContextReleaseComplete ran amf)
| m_request ran amf c : gnb_message (BuildUEContextReleaseRequest ran amf c)
| m_error amf ran c : gnb_message (BuildErrorIndication amf ran c)
| m_notify ran amf plmn tac gnb cid : gnb_message (BuildHandoverNotify ran amf plmn tac gnb cid)
| m_acknowledge ran amf pid ip teid qos : gnb_message (BuildHandoverRequestAcknowledge ran amf pid ip teid qos)
| m_required ran amf mc mn target tac pid gnb cid pdu :
    BuildHandoverRequired ran amf mc mn target tac pid gnb cid = Ret pdu → gnb_message pdu
| m_switch ran amf plmn tac pid ip teid gnb cid : gnb_message (BuildPathSwitchRequest ran amf plmn tac pid ip teid gnb cid)
| m_mock_request ran amf pid : gnb_message (GetHandoverRequest ran amf pid)
| m_mock_command ran amf : gnb_message (GetHandoverCommand ran amf)
| m_mock_release ran amf : gnb_message (GetUEContextReleaseCommand ran amf)
| m_mock_switch ran amf pid upf teid : gnb_message (GetPathSwitchRequestAcknowledge ran amf pid upf teid).

(** The procedure and the message of each. *)
Definition code_of (v : alternative) : Z :=
  match v with
  | MNGSetupRequest | MNGSetupResponse | MNGSetupFailure => ProcedureCodeNGSetup
  | MInitialUEMessage => ProcedureCodeInitialUEMessage
  | MUplinkNASTransport => ProcedureCodeUplinkNASTransport
  | MDownlinkNASTransport => ProcedureCodeDownlinkNASTransport
  | MInitialContextSetupRequest | MInitialContextSetupResponse => ProcedureCodeInitialContextSetup
  | MPDUSessionResourceSetupRequest | MPDUSessionResourceSetupResponse => ProcedureCodePDUSessionResourceSetup
  | MPDUSessionResourceReleaseCommand | MPDUSessionResourceReleaseResponse => ProcedureCodePDUSessionResourceRelease
  | MPDUSessionResourceModifyRequest | MPDUSessionResourceModifyResponse => ProcedureCodePDUSessionResourceModify
  | MPaging => ProcedureCodePaging
  | MErrorIndication => ProcedureCodeErrorIndication
  | MPathSwitchRequest | MPathSwitchRequestAcknowledge => ProcedureCodePathSwitchRequest
  | MHandoverRequired | MHandoverCommand => ProcedureCodeHandoverPreparation
  | MHandoverRequest | MHandoverRequestAcknowledge => ProcedureCodeHandoverResourceAllocation
  | MHandoverNotify => ProcedureCodeHandoverNotification
  | MUEContextReleaseRequest => ProcedureCodeUEContextReleaseRequest
  | MUEContextReleaseCommand | MUEContextReleaseComplete => ProcedureCodeUEContextRelease
  | MNothing => -1
  end.

Lemma initial_message rel nas ue g pdu : InitialUeMessage rel nas ue g = Ret pdu →
  pdu = initiating ProcedureCodeInitialUEMessage CriticalityPresentIgnore MInitialUEMessage
    [reject ProtocolIEIDRANUENGAPID (RANUENGAPID (ranUeNgapId ue));
     reject ProtocolIEIDNASPDU (NASPDU nas);
     reject ProtocolIEIDUserLocationInformation (location (GetMccAndMncInOctets g) (GetTacInBytes g) (GetGnbIdInBytes g) (GetCellId g));
     ignore ProtocolIEIDRRCEstablishmentCause (RRCEstablishmentCause (rrc_cause rel));
     ignore ProtocolIEIDUEContextRequest (UEContextRequest 0)].
Proof.
  unfold InitialUeMessage, BuildInitialUEMessage. cbn [String.eqb mbind outcome_mbind]. intros E.
  destruct (Encoder _); [|by injection E as <-]. destruct (rel =? "17")%string; [|by injection E as <-]. by returned.
Qed.
Ltac message_shape :=
  eexists; split; [reflexivity|]; split; [reflexivity|];
  first [left; split; [reflexivity|set_solver] | right; split; [reflexivity|set_solver]].

Lemma gnb_message_shape pdu : gnb_message pdu → ∃ m,
  Outcome pdu = Some m ∧ ProcedureCode m = code_of (Value m) ∧
  (Present pdu = NGAPPDUPresentInitiatingMessage ∧
     Value m ∈ [MNGSetupRequest; MInitialUEMessage; MUplinkNASTransport; MUEContextReleaseRequest; MErrorIndication;
       MHandoverNotify; MHandoverRequired; MPathSwitchRequest; MHandoverRequest; MUEContextReleaseCommand]
   ∨ Present pdu = NGAPPDUPresentSuccessfulOutcome ∧
     Value m ∈ [MPDUSessionResourceSetupResponse; MInitialContextSetupResponse; MPDUSessionResourceModifyResponse;
       MPDUSessionResourceReleaseResponse; MUEContextReleaseComplete; MHandoverRequestAcknowledge; MHandoverCommand;
       MPathSwitchRequestAcknowledge]).
Proof.
  destruct 1 as [| ? ? ? ? ? E | | ? ? ? ? E | ? ? ? E | | | | | | | | ? ? ? ? ? ? ? ? ? ? E | | | | |];
    try solve [message_shape].
  - apply initial_message in E. rewrite E. message_shape.
  - unfold PDUSessionResourceSetupResponse, buildPDUSessionResourceSetupResponse in E.
    destruct (LookupHost ip); [|discriminate]. returned. message_shape.
  - unfold BuildInitialContextSetupResponse in E. returned. message_shape.
  - unfold BuildHandoverRequired in E. returned. message_shape.
Qed.

(** Every message the gNB builds, and every one of its simulated AMF,
    passes the compliance validator: all mandatory elements it checks are there. *)
Theorem gnb_messages_compliant pdu : gnb_message pdu → validateMessageInternal pdu = None.
Proof.
  destruct 1 as [| ? ? ? ? ? E | | ? ? ? ? E | ? ? ? E | | | | | | | | ? ? ? ? ? ? ? ? ? ? E | | | | |];
    try reflexivity.
  - apply initial_message in E. rewrite E. reflexivity.
  - unfold PDUSessionResourceSetupResponse, buildPDUSessionResourceSetupResponse in E.
    destruct (LookupHost ip); [|discriminate]. returned. reflexivity.
  - unfold BuildInitialContextSetupResponse in E. returned. destruct (bool_decide _); reflexivity.
  - unfold BuildHandoverRequired in E. returned. reflexivity.
Qed.
End Messages.
