(* ===== verification/GnbWp.v ===== *)
(** * A program logic for the gNB

    [wp m s Q]: the call [m] returns from state [s], with a result and state
    in [Q].  [wlp m s Q] leaves out that it returns.  Each primitive of the heap has a rule; an
    update of an object is [put_gnb], [put_ue] or [put_amf], whose lookups the
    rewrite base [heap] evaluates. *)

From S2P Require Import Prelude GoStrings GnbContext Ngap Chaos GnbNgap.

#[local] Open Scope Z_scope.
#[local] Open Scope go_scope.

(** ** Updates of the heap *)

Definition put_gnb (p : Z) (g : GNBContext) (h : heap) : heap := with_gnbs (<[p := g]> (gnbs h)) h.
Definition put_ue (p : Z) (u : GNBUe) (h : heap) : heap := with_ues (<[p := u]> (ues h)) h.
Definition put_amf (p : Z) (a : GNBAmf) (h : heap) : heap := with_amfs (<[p := a]> (amfs h)) h.
Definition log (e : event) (h : heap) : heap := with_out (out h ++ [e]) h.

Create Rewrite HintDb heap.
Lemma gnbs_put_gnb p g h : gnbs (put_gnb p g h) !! p = Some g.
Proof. apply lookup_insert_eq. Qed.
Lemma gnbs_put_ue p u h : gnbs (put_ue p u h) = gnbs h.
Proof. done. Qed.
Lemma gnbs_put_amf p a h : gnbs (put_amf p a h) = gnbs h.
Proof. done. Qed.
Lemma gnbs_log e h : gnbs (log e h) = gnbs h.
Proof. done. Qed.
Lemma ues_put_ue p u h : ues (put_ue p u h) !! p = Some u.
Proof. apply lookup_insert_eq. Qed.
Lemma ues_put_gnb p g h : ues (put_gnb p g h) = ues h.
Proof. done. Qed.
Lemma ues_put_amf p a h : ues (put_amf p a h) = ues h.
Proof. done. Qed.
Lemma ues_log e h : ues (log e h) = ues h.
Proof. done. Qed.
Lemma amfs_put_amf p a h : amfs (put_amf p a h) !! p = Some a.
Proof. apply lookup_insert_eq. Qed.
Lemma amfs_put_gnb p g h : amfs (put_gnb p g h) = amfs h.
Proof. done. Qed.
Lemma amfs_put_ue p u h : amfs (put_ue p u h) = amfs h.
Proof. done. Qed.
Lemma amfs_log e h : amfs (log e h) = amfs h.
Proof. done. Qed.
Lemma out_put_gnb p g h : out (put_gnb p g h) = out h.
Proof. done. Qed.
Lemma out_put_ue p u h : out (put_ue p u h) = out h.
Proof. done. Qed.
Lemma out_put_amf p a h : out (put_amf p a h) = out h.
Proof. done. Qed.
Lemma out_log e h : out (log e h) = out h ++ [e].
Proof. done. Qed.
Lemma active_put_gnb p g h : ActiveGNBs (put_gnb p g h) = ActiveGNBs h.
Proof. done. Qed.
Lemma active_put_ue p u h : ActiveGNBs (put_ue p u h) = ActiveGNBs h.
Proof. done. Qed.
Lemma active_put_amf p a h : ActiveGNBs (put_amf p a h) = ActiveGNBs h.
Proof. done. Qed.
Lemma active_log e h : ActiveGNBs (log e h) = ActiveGNBs h.
Proof. done. Qed.
Lemma put_gnb_put_gnb p g g' h : put_gnb p g (put_gnb p g' h) = put_gnb p g h.
Proof. unfold put_gnb, with_gnbs. cbn. by rewrite insert_insert_eq. Qed.
Lemma put_gnb_id p g h : gnbs h !! p = Some g → put_gnb p g h = h.
Proof. intros E. unfold put_gnb, with_gnbs. rewrite insert_id by done. by destruct h. Qed.
Lemma put_ue_id p u h : ues h !! p = Some u → put_ue p u h = h.
Proof. intros E. unfold put_ue, with_ues. rewrite insert_id by done. by destruct h. Qed.
Lemma put_ue_put_ue p u u' h : put_ue p u (put_ue p u' h) = put_ue p u h.
Proof. unfold put_ue, with_ues. cbn. by rewrite insert_insert_eq. Qed.
Lemma put_ue_put_gnb p u q g h : put_ue p u (put_gnb q g h) = put_gnb q g (put_ue p u h).
Proof. done. Qed.
Lemma put_ue_log p u e h : put_ue p u (log e h) = log e (put_ue p u h).
Proof. done. Qed.
Lemma put_gnb_log p g e h : put_gnb p g (log e h) = log e (put_gnb p g h).
Proof. done. Qed.
#[export] Hint Rewrite gnbs_put_gnb gnbs_put_ue gnbs_put_amf gnbs_log ues_put_ue ues_put_gnb ues_put_amf ues_log
  amfs_put_amf amfs_put_gnb amfs_put_ue amfs_log out_put_gnb out_put_ue out_put_amf out_log
  active_put_gnb active_put_ue active_put_amf active_log
  put_gnb_put_gnb put_ue_put_ue put_ue_put_gnb put_ue_log put_gnb_log : heap.

(** ** Rules *)

Section Rules.
Context {S : Type}.
Implicit Types s : S.

Definition wp {A} (m : St S A) (s : S) (Q : A → S → Prop) : Prop :=
  match m s with Ret (a, s') => Q a s' | _ => False end.
Definition wlp {A} (m : St S A) (s : S) (Q : A → S → Prop) : Prop :=
  ∀ a s', m s = Ret (a, s') → Q a s'.

Lemma wp_ret {A} (a : A) s (Q : A → S → Prop) : Q a s → wp (mret a) s Q.
Proof. done. Qed.
Lemma wp_bind {A B} (m : St S A) (k : A → St S B) s Q :
  wp m s (λ a s', wp (k a) s' Q) → wp (m ≫= k) s Q.
Proof. unfold wp, mbind, St_bind. destruct (m s) as [[a t]| |]; [intros Hk; exact Hk|done|done]. Qed.
Lemma wp_run {A} (r : outcome A) (a : A) s (Q : A → S → Prop) : r = Ret a → Q a s → wp (run r) s Q.
Proof. intros ->. done. Qed.
Lemma wp_mono {A} (m : St S A) s (P Q : A → S → Prop) : wp m s P → (∀ a s', P a s' → Q a s') → wp m s Q.
Proof. unfold wp. destruct (m s) as [[a t]| |]; auto. Qed.
Lemma wp_result {A} (m : St S A) s (Q : A → S → Prop) : wp m s Q → ∃ a s', m s = Ret (a, s') ∧ Q a s'.
Proof. unfold wp. destruct (m s) as [[a s']| |]; [eauto|done|done]. Qed.

Lemma wlp_ret {A} (a : A) s (Q : A → S → Prop) : Q a s → wlp (mret a) s Q.
Proof. intros HQ b s' E. change (Ret (a, s) = Ret (b, s')) in E. injection E as <- <-. done. Qed.
Lemma wlp_bind {A B} (m : St S A) (k : A → St S B) s Q :
  wlp m s (λ a s', wlp (k a) s' Q) → wlp (m ≫= k) s Q.
Proof.
  unfold wlp, mbind, St_bind. intros Hm b s' Hk. destruct (m s) as [[a t]| |] eqn:E; [|discriminate Hk..].
  by eapply Hm.
Qed.
Lemma wlp_panic {A} s (Q : A → S → Prop) : wlp panic s Q.
Proof. intros a s' E. discriminate E. Qed.
Lemma wlp_run {A} (r : outcome A) s (Q : A → S → Prop) : (∀ a, r = Ret a → Q a s) → wlp (run r) s Q.
Proof. intros HQ a s' E. unfold run in E. destruct r; [|discriminate E..]. injection E as <- <-. by apply HQ. Qed.
Lemma wlp_mono {A} (m : St S A) s (P Q : A → S → Prop) : wlp m s P → (∀ a s', P a s' → Q a s') → wlp m s Q.
Proof. unfold wlp. eauto. Qed.
End Rules.

Lemma wp_get_gnb p g h Q : gnbs h !! p = Some g → Q g h → wp (get_gnb p) h Q.
Proof. intros E HQ. unfold wp, get_gnb. by rewrite E. Qed.
Lemma wp_get_ue p u h Q : ues h !! p = Some u → Q u h → wp (get_ue p) h Q.
Proof. intros E HQ. unfold wp, get_ue. by rewrite E. Qed.
Lemma wp_get_amf p a h Q : amfs h !! p = Some a → Q a h → wp (get_amf p) h Q.
Proof. intros E HQ. unfold wp, get_amf. by rewrite E. Qed.
Lemma wp_set_gnb p f g h Q : gnbs h !! p = Some g → Q tt (put_gnb p (f g) h) → wp (set_gnb p f) h Q.
Proof. intros E HQ. unfold wp, set_gnb. by rewrite E. Qed.
Lemma wp_set_ue p f u h Q : ues h !! p = Some u → Q tt (put_ue p (f u) h) → wp (set_ue p f) h Q.
Proof. intros E HQ. unfold wp, set_ue. by rewrite E. Qed.
Lemma wp_set_amf p f a h Q : amfs h !! p = Some a → Q tt (put_amf p (f a) h) → wp (set_amf p f) h Q.
Proof. intros E HQ. unfold wp, set_amf. by rewrite E. Qed.
Lemma wp_emit e h (Q : unit → heap → Prop) : Q tt (log e h) → wp (emit e) h Q.
Proof. done. Qed.

(** An update of the first entry that satisfies a predicate. *)
Lemma find_ptr_spec {K A} (get : Z → H A) (P : A → bool) (l : list (K * Z)) (v : Z → A) h :
  (∀ k p, (k, p) ∈ l → get p h = Ret (v p, h)) →
  find_ptr get P l h = Ret (List.find (λ e, P (v (snd e))) l, h).
Proof.
  induction l as [|[k p] l IH]; intros Hg; [done|]. cbn [find_ptr]. unfold mbind, St_bind.
  rewrite (Hg k p) by set_solver. cbn [List.find snd]. destruct (P (v p)); [done|].
  apply IH. intros k' p' Hin. apply (Hg k'). set_solver.
Qed.

(** Walking a map. *)
Lemma elem_visit `{MapOrder} {K} `{Countable K} {V} (m : gmap K V) k v : (k, v) ∈ visit m ↔ m !! k = Some v.
Proof. rewrite <- elem_of_map_to_list. apply elem_of_Permutation_proper, visit_perm. Qed.

Lemma find_unique {A} (P : A → bool) (l : list A) x :
  x ∈ l → P x = true → (∀ y, y ∈ l → P y = true → y = x) → List.find P l = Some x.
Proof.
  induction l as [|y l IH]; intros Hx HP Hu; [by apply not_elem_of_nil in Hx|]. cbn [List.find].
  destruct (P y) eqn:E; [f_equal; apply Hu; [by left|done]|].
  apply elem_of_cons in Hx as [->|Hx]; [congruence|]. apply IH; [done..|]. intros z Hz. apply Hu. by right.
Qed.

(** The one entry of a map that satisfies a predicate. *)
Lemma find_visit `{MapOrder} {K} `{Countable K} {V} (P : K * V → bool) (m : gmap K V) k v :
  m !! k = Some v → P (k, v) = true → (∀ i s, m !! i = Some s → P (i, s) = true → i = k) →
  List.find P (visit m) = Some (k, v).
Proof.
  intros Ek HP Hu. apply find_unique; [by apply elem_visit|done|]. intros [i s] Hin%elem_visit Hs.
  assert (i = k) as -> by eauto. congruence.
Qed.

Lemma find_visit_none `{MapOrder} {K} `{Countable K} {V} (P : K * V → bool) (m : gmap K V) :
  (∀ i s, m !! i = Some s → P (i, s) = false) → List.find P (visit m) = None.
Proof.
  intros Hm. destruct (List.find P (visit m)) as [[i s]|] eqn:E; [|done]. apply List.find_some in E as [Hin HP].
  apply list_elem_of_In, elem_visit in Hin. by rewrite (Hm i s Hin) in HP.
Qed.

Section World.
Context {G : Type} `{Rand G} `{MapOrder} `{Host} `{NgapCodec}.
#[local] Abbreviation world := (GnbNgap.world (G:=G)).

(** A world with another heap, or another manager. *)
Definition put_heap (h : heap) (w : world) : world :=
  MkWorld h (w_chaos w) (w_rng w) (w_validation w) (w_release w).

Lemma put_heap_id w : put_heap (w_heap w) w = w.
Proof. by destruct w. Qed.
Lemma w_heap_put h w : w_heap (put_heap h w) = h.
Proof. done. Qed.
Lemma put_heap_put h h' w : put_heap h (put_heap h' w) = put_heap h w.
Proof. done. Qed.

Lemma wp_on_heap {A} (m : H A) (w : world) Q :
  wp m (w_heap w) (λ a h, Q a (put_heap h w)) → wp (on_heap m) w Q.
Proof. unfold wp, on_heap. cbn. destruct (m (w_heap w)) as [[a h]| |]; done. Qed.
Lemma wlp_on_heap {A} (m : H A) (w : world) Q :
  wlp m (w_heap w) (λ a h, Q a (put_heap h w)) → wlp (on_heap m) w Q.
Proof.
  unfold wlp, on_heap. intros Hm a w'. destruct (m (w_heap w)) as [[b h]| |] eqn:E; [|done|done].
  cbn. intros E'. injection E' as <- <-. by apply Hm.
Qed.
Lemma wp_report message text (w : world) (Q : unit → world → Prop) :
  Q tt (put_heap (log (Reported message text) (w_heap w)) w) → wp (report message text) w Q.
Proof. done. Qed.

(** *** Sending *)

Lemma wp_SendToUe ue u conn message (w : world) Q :
  ues (w_heap w) !! ue = Some u → unixSocketConnection u = Some conn →
  Q tt (put_heap (log (ToUe conn message) (w_heap w)) w) → wp (SendToUe ue message) w Q.
Proof.
  intros Eu Ec HQ. unfold SendToUe. apply wp_bind, wp_on_heap. eapply wp_get_ue; [done|]. by rewrite Ec.
Qed.

(** No message is changed, dropped or delayed. *)
Definition quiet (m : ChaosManager) : Prop := FuzzEnabled (FuzzRule m) = false ∧ NgapRules m = ∅.

(** The registered gNBs exist. *)
Definition active_ok (h : heap) : Prop := map_Forall (λ _ p, is_Some (gnbs h !! p)) (ActiveGNBs h).

Lemma active_put_ue_ok p u h : active_ok h → active_ok (put_ue p u h).
Proof. done. Qed.
Lemma active_log_ok e h : active_ok h → active_ok (log e h).
Proof. done. Qed.
Lemma active_put_gnb_ok p g h : active_ok h → active_ok (put_gnb p g h).
Proof.
  intros Ha i q E. unfold put_gnb. cbn. apply lookup_insert_is_Some.
  destruct (decide (p = q)); [by left|right]. split; [done|]. exact (Ha i q E).
Qed.

Lemma find_gnb_id_returns conn l h :
  (∀ i p, (i, p) ∈ l → is_Some (gnbs h !! p)) → ∃ i, find_gnb_id conn l h = Ret (i, h).
Proof.
  induction l as [|[i p] l IH]; intros Hl; [by eexists|].
  destruct (Hl i p) as [g Hg]; [set_solver|].
  cbn [find_gnb_id]. unfold mbind, St_bind, get_gnb. rewrite Hg.
  case_bool_decide; [by eexists|]. apply IH. intros j q Hin. apply (Hl j). set_solver.
Qed.

Lemma findGnbId_returns conn h : active_ok h → ∃ i, findGnbId conn h = Ret (i, h).
Proof.
  intros Ha. apply find_gnb_id_returns. intros i p Hin. apply (Ha i).
  by apply elem_of_map_to_list, (elem_of_Permutation_proper _ _ _ (visit_perm _)).
Qed.

Lemma EvalFuzz_quiet msgType msg m (g : G) : quiet m → EvalFuzz msgType msg m g = Ret (false, msg, m, g).
Proof. intros [Hf _]. unfold EvalFuzz, applies. by rewrite Hf. Qed.
Lemma EvalNgap_quiet gnb_id msgType m (g : G) : quiet m → EvalNgap gnb_id msgType m g = (false, 0, m, g).
Proof. intros [_ Hn]. unfold EvalNgap. by rewrite Hn, lookup_empty. Qed.

(** The stream a message is sent on. *)
Definition stream_of (octets : list Z) : Z := if isUeAssociatedMessage (getNgapMsgType octets) then 1 else 0.

Definition checked (octets : list Z) (v : Validation) : Validation :=
  let '(pdu, err) := Decoder octets in if bool_decide (err = None) then ValidateNGAPMessage pdu v else v.

(** The world after a message to the AMF. *)
Definition amf_sent (conn : Z) (octets : list Z) (w : world) : world :=
  MkWorld (log (ToAmf conn (stream_of octets) octets) (w_heap w)) (w_chaos w) (w_rng w)
    (checked octets (w_validation w)) (w_release w).

Lemma send_quiet octets conn stream (w : world) : quiet (w_chaos w) → active_ok (w_heap w) →
  sendToAmfOnStream octets (Some conn) stream w =
  Ret (option_map (String.append "Error sending NGAP message: ") (SCTPWrite conn stream octets),
       MkWorld (log (ToAmf conn stream octets) (w_heap w)) (w_chaos w) (w_rng w) (w_validation w) (w_release w)).
Proof.
  intros Hq Ha. destruct (findGnbId_returns conn _ Ha) as [i Hi].
  unfold sendToAmfOnStream, mbind, St_bind. unfold on_heap at 1. rewrite Hi. cbn [mbind outcome_mbind].
  unfold get_world, run. cbn [w_chaos w_rng Datatypes.id]. rewrite EvalFuzz_quiet by done.
  cbn [mbind outcome_mbind]. by rewrite EvalNgap_quiet.
Qed.

Lemma SendToAmF_quiet octets conn (w : world) : quiet (w_chaos w) → active_ok (w_heap w) →
  SendToAmF octets (Some conn) w =
  Ret (option_map (String.append "Error sending NGAP message: ") (SCTPWrite conn (stream_of octets) octets),
       amf_sent conn octets w).
Proof.
  intros Hq Ha. unfold SendToAmF, amf_sent, checked. destruct (Decoder octets) as [pdu err] eqn:E.
  unfold mbind, St_bind. case_bool_decide.
  - change (validated pdu w) with (@Ret (unit * world) (tt, MkWorld (w_heap w) (w_chaos w) (w_rng w)
      (ValidateNGAPMessage pdu (w_validation w)) (w_release w))). cbv beta iota. by rewrite send_quiet.
  - change ((mret tt : St world unit) w) with (@Ret (unit * world) (tt, w)). cbv beta iota. by rewrite send_quiet.
Qed.

Lemma wp_encode_and_send message pdu octets conn before (w : world) (Q : unit → world → Prop) :
  Encoder pdu = inl octets →
  wp before w (λ _ w', quiet (w_chaos w') ∧ active_ok (w_heap w') ∧
    SCTPWrite conn (stream_of octets) octets = None ∧ Q tt (amf_sent conn octets w')) →
  wp (encode_and_send message pdu (Some conn) before) w Q.
Proof.
  intros E Hb. unfold encode_and_send. rewrite E. apply wp_bind. eapply wp_mono; [exact Hb|].
  intros [] w' (Hq&Ha&Hw&HQ). apply wp_bind. unfold wp at 1. rewrite SendToAmF_quiet, Hw by done. exact HQ.
Qed.

Lemma wp_try_send pdu octets conn (w : world) (Q : unit → world → Prop) :
  Encoder pdu = inl octets → quiet (w_chaos w) → active_ok (w_heap w) →
  Q tt (amf_sent conn octets w) → wp (try_send pdu (Some conn)) w Q.
Proof.
  intros E Hq Ha HQ. unfold try_send. rewrite E. apply wp_bind. unfold wp at 1. by rewrite SendToAmF_quiet.
Qed.

End World.

#[export] Hint Rewrite @w_heap_put @put_heap_put @put_heap_id : heap.
#[export] Hint Resolve active_put_ue_ok active_put_gnb_ok active_log_ok : core.

(** One call of a handler, with the object it looks up. *)
Ltac heap_eq := autorewrite with heap; first [eassumption | reflexivity].
Ltac wp_step :=
  lazymatch goal with
  | |- wp (mbind _ _) _ _ => apply wp_bind
  | |- wp (mret _) _ _ => apply wp_ret
  | |- wp (on_heap _) _ _ => apply wp_on_heap
  | |- wp (emit _) _ _ => apply wp_emit
  | |- wp (report _ _) _ _ => apply wp_report
  | |- wp (get_gnb _) _ _ => eapply wp_get_gnb; [heap_eq|]
  | |- wp (get_ue _) _ _ => eapply wp_get_ue; [heap_eq|]
  | |- wp (get_amf _) _ _ => eapply wp_get_amf; [heap_eq|]
  | |- wp (set_gnb _ _) _ _ => eapply wp_set_gnb; [heap_eq|]
  | |- wp (set_ue _ _) _ _ => eapply wp_set_ue; [heap_eq|]
  | |- wp (set_amf _ _) _ _ => eapply wp_set_amf; [heap_eq|]
  | |- wp (match _ with _ => _ end) _ _ => progress cbv beta iota
  end; cbv beta iota.
Ltac wp_steps := repeat wp_step; autorewrite with heap.
