(* ===== verification/GnbDemo.v ===== *)
(** * A small gNB to try the theorems on

    One gNB with one UE, a host on which every call succeeds, and a codec whose
    one message is a parameter. *)

From S2P Require Import Prelude GoStrings GnbContext Ngap Chaos GnbNgap GnbProps GnbWp.

#[local] Open Scope Z_scope.

Definition demo_host : Host :=
  {| LookupHost := λ s, inl [s]; ResolveUDPAddr := λ ip _, Some ip; SCTPWrite := λ _ _ _, None;
     DialUPlane := λ _ _, Some 3; ListenPacket := λ _, Some 5; ResolveSCTPAddr := λ _, true;
     DialSCTP := λ _ _, Some 2; Listen := λ _ _, Some 6; parseIPv6 := λ _, None |}.

(** The tunnel 10.0.0.1, TEID 9, and a flow. *)
Definition demo_setup : list setup_ie :=
  [ULNGUUPTNLInformation (Some (MkTunnel (MkBits [10; 0; 0; 1] 32) [0; 0; 0; 9])); QosFlowSetupRequestList [MkFlow 1 (Some 9) 8];
   PDUSessionType 0].

(** Every message is coded as one octet, which stands for [pdu]. *)
Definition demo_codec (pdu : NGAPPDU) : NgapCodec :=
  {| Encoder := λ _, inl [1]; Decoder := λ _, (pdu, None); Marshal := λ _, inl [2];
     UnmarshalSetup := λ _, inl demo_setup; UnmarshalModify := λ _, inl [QosFlowAddOrModifyRequestList [5]];
     UnmarshalSwitch := λ _, inl (Some (Some (MkTunnel (MkBits [10; 0; 0; 1] 32) [0; 0; 0; 1])));
     UnmarshalSourceToTarget := λ _, inr "no container"%string |}.

Definition demo_slice : SNSSAI := MkNssai (Some [0x01]) (Some [0x01; 0x02; 0x03]).

(** A UE with identifiers 1 and 7, its slice, association 2 and socket 4. *)
Definition demo_ue (sessions : gmap Z PDUSession) : GNBUe :=
  MkGnbUe 1 7 0 1 Ongoing (Some 2) (Some 4)
    (MkContext ("208", "93")%string "" (MkPdu 0 (IPv4 127 0 0 3) 0 1 [MkSlice "01" "010203" "inactive"] 1 0 0 0 0)) sessions.

Definition demo_gnb : GNBContext :=
  MkGnb (MkData "127.0.0.1" 2152 "" 2152 (Some 3) "127.0.0.2" (Some 5))
    (MkControl "208" "93" "000001" "000001" "127.0.0.1" 9487 (Some 6) (Some 2) "" 0 "" None 1 "")
    {[1 := 10]} {[1 := 11]} {[1 := 10]} {["127.0.0.3"%string := 10]} "01" "010203" 2 2 2 4 (Some true) false "".

Definition demo_amf : GNBAmf := MkAmf "127.0.0.1" 38412 1 (Some 2) 0 false 0 255 Active "AMF" [] [] 0 0.

Definition demo_world (u : GNBUe) : world :=
  MkWorld (MkHeap {[0 := demo_gnb]} {[10 := u]} {[11 := demo_amf]} {["000001"%string := 0]} 20 [])
    GlobalChaosManager 7 ResetValidationStats "15".

Lemma gnb_messages_compliant_witness :
  let H1 := key_order in let H2 := demo_host in let H3 := demo_codec (MkNgap 0 None) in
  gnb_message (BuildUEContextReleaseComplete 1 7) ∧ validateMessageInternal (BuildUEContextReleaseComplete 1 7) = None.
Proof.
  intros H1 H2 H3. split; [apply m_complete|].
  apply (gnb_messages_compliant (BuildUEContextReleaseComplete 1 7)). apply m_complete.
Defined.
