(* ===== verification/GnbSession.v ===== *)
(** * The sessions of the gNB

    What PDU Session Resource Setup does to the pools, what UE, AMF and UPF
    then see, and what happens to a slice that is not allowed, to several
    sessions at once, and at a hand-over. *)

From S2P Require Import Prelude GoStrings GnbContext Ngap Chaos GnbNgap GnbNas GnbProps GnbWp GnbDemo.

#[local] Open Scope Z_scope.
#[local] Open Scope go_scope.

(** ** Slices *)

Definition not_allowed (s d : string) (u : GNBUe) : Prop :=
  let p := pduSession (context u) in
  lenSlice p ≤ blen (slices p) ∧ ∀ x, x ∈ take (Z.to_nat (lenSlice p)) (slices p) → ¬ (sst x = s ∧ sd x = d).


Lemma find_slice_none n s d l : (n ≤ length l)%nat → (∀ x, x ∈ take n l → ¬ (sst x = s ∧ sd x = d)) →
  find_slice n s d l = Ret None.
Proof.
  revert l. induction n as [|n IH]; intros l Hl Hx; [done|]. destruct l as [|y l]; [simpl in Hl; lia|].
  cbn [find_slice]. destruct (String.eqb_spec (sst y) s) as [E1|E1], (String.eqb_spec (sd y) d) as [E2|E2]; cbn [andb];
    [destruct (Hx y); [simpl; set_solver|done]|..];
    (rewrite IH; [done|simpl in Hl; lia|intros x Hin; apply Hx; simpl; set_solver]).
Qed.




Lemma CreatePduSession_refused pid s d type qos arp fqi ul ip dl u : not_allowed s d u →
  CreatePduSession pid s d type qos arp fqi ul ip dl u =
  Ret ("Slice was not found"%string,
    with_pduSession_of (λ p, MkPdu pid ip ul dl (slices p) (lenSlice p) type qos fqi arp) u).
Proof.
  intros [Hl Hx]. unfold CreatePduSession, pduSessionNssai, with_pduSession_of. cbn.
  rewrite find_slice_none; [done|unfold blen in Hl; lia|done].
Qed.

Section Sessions.
Context {G : Type} `{Rand G} `{MapOrder} `{Host} `{NgapCodec}.
#[local] Abbreviation world := (GnbNgap.world (G:=G)).
#[local] Abbreviation St := GnbContext.St.

(** The gNB after a TEID and an address were given to a session of a UE. *)
Definition session_ip (g : GNBContext) : IP := IPv4 127 0 0 (ueIpGenerator g).
Definition session_gnb (ue : Z) (g : GNBContext) : GNBContext :=
  with_ueIpPool (<[IP_String (session_ip g) := ue]> (ueIpPool g))
    (with_ueIpGenerator (u8 (ueIpGenerator g + 1))
      (with_teidPool (<[teidGenerator g := ue]> (teidPool g))
        (with_teidGenerator (u32 (teidGenerator g + 1)) g))).

Lemma wp_create_session gnb ue pid s d v g u err u' (w : world) (Q : IP → world → Prop) :
  gnbs (w_heap w) !! gnb = Some g → ues (w_heap w) !! ue = Some u →
  CreatePduSession pid s d (v_pduSType v) (v_qosId v) (v_priArp v) (v_fiveQi v) (v_ulTeid v) (session_ip g)
    (teidGenerator g) u = Ret (err, u') →
  Q (session_ip g) (put_heap (put_ue ue u' (put_gnb gnb (session_gnb ue g) (w_heap w))) w) →
  wp (create_session gnb ue pid s d v) w Q.
Proof.
  intros Eg Eu Ec HQ. unfold create_session, GetUeTeid, getRanUeIp, StoreTeid, StoreUeIp. 
  wp_steps. eapply wp_run; [exact Ec|]; cbv beta iota. wp_steps. exact HQ.
Qed.

(** The address of the UPF, learnt from the first session. *)
Definition learned (upfAddress : list Z) (g : GNBContext) : GNBContext :=
  if (upfIp (dataInfo g) =? "")%string && (4 <=? blen upfAddress) then SetUpfIp (dotted upfAddress) g else g.

Lemma wp_learn_upf gnb a g (w : world) (Q : unit → world → Prop) :
  gnbs (w_heap w) !! gnb = Some g →
  Q tt (put_heap (put_gnb gnb (learned a g) (w_heap w)) w) → wp (learn_upf gnb a) w Q.
Proof.
  intros Eg HQ. unfold learn_upf. wp_steps. unfold learned in HQ. destruct (_ && _); wp_steps; [exact HQ|].
  by rewrite put_gnb_id, put_heap_id in HQ.
Qed.

(** ** The response *)

Definition setup_response (amf ran pid teid qos : Z) (address : BitString) : NGAPPDU :=
  successful ProcedureCodePDUSessionResourceSetup MPDUSessionResourceSetupResponse
    [ignore ProtocolIEIDAMFUENGAPID (AMFUENGAPID amf);
     ignore ProtocolIEIDRANUENGAPID (RANUENGAPID ran);
     ignore ProtocolIEIDPDUSessionResourceSetupListSURes (PDUSessionResourceSetupListSURes
       [(pid, marshalled (SetupResponseTransfer (MkTunnel address (be_bytes 4 teid)) qos))])].
(** What the gNB answers for a session of a UE; without it the identifiers are zero. *)
Definition response_for (u : GNBUe) (pid : Z) : BitString → NGAPPDU :=
  setup_response (amfUeNgapId u) (ranUeNgapId u) pid (GetTeidDownlinkOfSession u pid) (GetQosIdOfSession u pid).

(** A gNB that serves a UE over a socket and an association. *)
Record serving (gnb ran ue : Z) (g : GNBContext) (u : GNBUe) (conn assoc : Z) (w : world) : Prop := {
  s_gnb : gnbs (w_heap w) !! gnb = Some g;
  s_pool : uePool g !! ran = Some ue;
  s_ue : ues (w_heap w) !! ue = Some u;
  s_socket : unixSocketConnection u = Some conn;
  s_assoc : sctpConnection u = Some assoc;
  s_quiet : quiet (w_chaos w);
  s_active : active_ok (w_heap w);
}.

(** The gNB's own data address is known, and the response can be coded and
    reaches the AMF. *)
Record answerable (g : GNBContext) (assoc : Z) (response : BitString → NGAPPDU) (octets : list Z) : Prop := {
  a_host : ∃ ip rest address, LookupHost (gnbDataIp (dataInfo g)) = inl (ip :: rest) ∧
    IPAddressToNgap ip = Ret address ∧ Encoder (response address) = inl octets ∧ Decoder octets = (response address, None);
  a_write : SCTPWrite assoc 1 octets = None;
}.

Lemma response_stream octets amf ran pid teid qos address :
  Decoder octets = (setup_response amf ran pid teid qos address, None) → stream_of octets = 1.
Proof. intros E. unfold stream_of, getNgapMsgType. by rewrite E. Qed.

Lemma wp_setup_response ue gnb pid g u assoc octets (w : world) (Q : unit → world → Prop) :
  gnbs (w_heap w) !! gnb = Some g → ues (w_heap w) !! ue = Some u → sctpConnection u = Some assoc →
  quiet (w_chaos w) → active_ok (w_heap w) → answerable g assoc (response_for u pid) octets →
  Q tt (amf_sent assoc octets (put_heap (put_ue ue (SetStateReady u) (w_heap w)) w)) →
  wp (SendPduSessionResourceSetupResponse ue gnb pid) w Q.
Proof.
  intros Eg Eu Es Hq Ha [(ip&rest&address&El&Ei&Ee&Ed) Ew] HQ. unfold SendPduSessionResourceSetupResponse. wp_steps.
  eapply (wp_run _ (inl (response_for u pid address))).
  { unfold PDUSessionResourceSetupResponse, buildPDUSessionResourceSetupResponse,
      GetPDUSessionResourceSetupResponseTransfer, buildPDUSessionResourceSetupResponseTransfer.
    rewrite El. change (rd (ip :: rest) 0) with (@Ret string ip). ret_bind. rewrite Ei. by ret_bind. }
  cbv iota beta. rewrite Es. eapply wp_encode_and_send; [exact Ee|]. wp_steps. split_and!; [done|auto| |exact HQ].
  by rewrite (response_stream _ _ _ _ _ _ _ Ed).
Qed.

(** ** The handler *)

(** The world after the request [s] of the AMF, with the UE as [u']. *)
Definition setup_gnb (ue : Z) (s : sureq) (g : GNBContext) : GNBContext :=
  learned (v_upfAddress (q_setup s)) (session_gnb ue g).
Definition setup_done (gnb ue conn assoc : Z) (s : sureq) (g : GNBContext) (u' : GNBUe) (octets : list Z) (w : world) : world :=
  let h := log (ToUe conn (q_nas s)) (put_ue ue u' (put_gnb gnb (setup_gnb ue s g) (w_heap w))) in
  let w' := amf_sent assoc octets (put_heap (put_ue ue (SetStateReady u') h) w) in
  put_heap (log (ToUe conn (u8 (q_pid s) :: ip_bytes (session_ip g))) (w_heap w')) w'.

Definition create (s : sureq) (g : GNBContext) : GNBUe → outcome (string * GNBUe) :=
  let v := q_setup s in
  CreatePduSession (q_pid s) (q_sst s) (q_sd s) (v_pduSType v) (v_qosId v) (v_priArp v) (v_fiveQi v) (v_ulTeid v)
    (session_ip g) (teidGenerator g).

Lemma data_learned a g : gnbDataIp (dataInfo (learned a g)) = gnbDataIp (dataInfo g).
Proof. unfold learned. by destruct (_ && _). Qed.
Lemma plane_learned a g : gtpPlane (dataInfo (learned a g)) = gtpPlane (dataInfo g).
Proof. unfold learned. by destruct (_ && _). Qed.

Lemma wp_setup_request gnb message ies s ue g u conn assoc err u' n3 octets (w : world) (Q : unit → world → Prop) :
  elements_of NGAPPDUPresentInitiatingMessage MPDUSessionResourceSetupRequest message = Ret ies →
  scan setup_request_ie ies (MkSureq 0 0 0 [] "" "" no_setup) = Ret (inl s) →
  serving gnb (q_ran s) ue g u conn assoc w → amfUeNgapId u = q_amf s →
  create s g u = Ret (err, u') → unixSocketConnection u' = Some conn → sctpConnection u' = Some assoc →
  gtpPlane (dataInfo g) = Some n3 → answerable g assoc (response_for u' (q_pid s)) octets →
  Q tt (setup_done gnb ue conn assoc s g u' octets w) →
  wp (HandlerPduSessionResourceSetupRequest gnb message) w Q.
Proof.
  intros Ei Es [Eg Ep Eu Ec Ea Hq Hok] Eamf Ecr Ec' Ea' En Hans HQ. unfold HandlerPduSessionResourceSetupRequest.
  wp_steps. eapply wp_run; [exact Ei|]. wp_steps. eapply wp_run; [exact Es|]. cbv beta iota.
  unfold the_ue, GetGnbUe. wp_steps. rewrite Ep. unfold same_amf_id. wp_steps. rewrite Eamf, Z.eqb_refl.
  wp_steps. eapply wp_create_session; [done|done|exact Ecr|].
  wp_steps. eapply wp_learn_upf; [heap_eq|]. wp_steps.
  eapply wp_SendToUe; [heap_eq|exact Ec'|]. wp_steps.
  eapply wp_setup_response; [heap_eq|heap_eq|exact Ea'|exact Hq|autorewrite with heap; auto| |].
  { destruct Hans as [Hl Hw]. split; [|exact Hw]. by rewrite data_learned. }
  wp_steps. eapply wp_get_gnb; [unfold amf_sent; cbn [w_heap]; heap_eq|]. rewrite plane_learned.
  change (gtpPlane (dataInfo (session_gnb ue g))) with (gtpPlane (dataInfo g)). rewrite En. wp_steps.
  eapply wp_SendToUe; [unfold amf_sent; cbn [w_heap]; heap_eq|exact Ec'|].
  unfold setup_done, setup_gnb in HQ. autorewrite with heap in *. exact HQ.
Qed.

(** ** User data *)


Lemma from_upf_dropped gnb teid buf n b3 packet g ue u (w : world) :
  gnbs (w_heap w) !! gnb = Some g → teidPool g !! teid = Some ue → ues (w_heap w) !! ue = Some u →
  (∀ i s, pduSessions u !! i = Some s → downlinkTeid s ≠ teid) →
  rd buf 3 = Ret b3 → b3 ≠ 133 → slice buf 0 n = Ret packet → from_upf gnb teid buf n w = Ret (true, w).
Proof.
  intros Eg Et Eu Hu Eb Hb Ep. enough (wp (from_upf gnb teid buf n) w (λ a w', a = true ∧ w' = w))
    as (a&w'&->&->&->)%wp_result by done.
  unfold from_upf. wp_steps. eapply wp_run; [exact Eb|]. wp_steps. rewrite (proj2 (Z.eqb_neq _ _) Hb).
  eapply wp_run; [exact Ep|]. wp_steps. unfold GetGnbUeByTeid. rewrite Et. wp_steps.
  unfold FindPduSessionByDownlinkTeid. rewrite find_visit_none; [|intros i s Hi; by apply Z.eqb_neq, (Hu i s)].
  cbn [fmap option_fmap option_map]. wp_steps. done.
Qed.


(** ** Establishment of a session *)

Definition setup_request (amf ran : Z) (items : list SetupItem) : NGAPPDU :=
  initiating ProcedureCodePDUSessionResourceSetup CriticalityPresentReject MPDUSessionResourceSetupRequest
    [reject ProtocolIEIDAMFUENGAPID (AMFUENGAPID amf); reject ProtocolIEIDRANUENGAPID (RANUENGAPID ran);
     reject ProtocolIEIDPDUSessionResourceSetupListSUReq (PDUSessionResourceSetupListSUReq items)].

(** What the gNB reads of a request with one session. *)
Definition one_item (pid : Z) (nas transfer : list Z) (n : SNSSAI) : SetupItem := MkSetup pid (Some nas) n (Some transfer).
Definition request_of (amf ran pid : Z) (nas : list Z) (n : SNSSAI) (v : setup) : sureq :=
  MkSureq ran amf pid nas (hex_or "not informed" (SST n)) (hex_or "not informed" (SD n)) v.

Lemma scan_request amf ran pid nas transfer n v : setup_transfer transfer no_setup = Ret v →
  scan setup_request_ie (default [] (ProtocolIEs <$> Outcome (setup_request amf ran [one_item pid nas transfer n])))
    (MkSureq 0 0 0 [] "" "" no_setup) = Ret (inl (request_of amf ran pid nas n v)).
Proof. intros E. cbn. by rewrite E. Qed.

Lemma setup_done_out gnb ue conn assoc s g u octets w :
  stream_of octets = 1 →
  out (w_heap (setup_done gnb ue conn assoc s g u octets w)) =
  out (w_heap w) ++ [ToUe conn (q_nas s); ToAmf assoc 1 octets; ToUe conn (u8 (q_pid s) :: ip_bytes (session_ip g))].
Proof. intros E. unfold setup_done, amf_sent. cbn [w_heap put_heap log out with_out]. rewrite E. cbn. by rewrite <-!(assoc_L (++)). Qed.

Lemma setup_done_gnb gnb ue conn assoc s g u octets w :
  gnbs (w_heap (setup_done gnb ue conn assoc s g u octets w)) !! gnb = Some (setup_gnb ue s g).
Proof. unfold setup_done, amf_sent. cbn [w_heap put_heap]. heap_eq. Qed.
Lemma setup_done_ue gnb ue conn assoc s g u octets w :
  ues (w_heap (setup_done gnb ue conn assoc s g u octets w)) !! ue = Some (SetStateReady u).
Proof. unfold setup_done, amf_sent. cbn [w_heap put_heap]. heap_eq. Qed.

Lemma setup_gnb_pools ue s g :
  teidPool (setup_gnb ue s g) !! teidGenerator g = Some ue ∧
  ueIpPool (setup_gnb ue s g) !! IP_String (session_ip g) = Some ue ∧
  gtpPlane (dataInfo (setup_gnb ue s g)) = gtpPlane (dataInfo g) ∧
  uePlane (dataInfo (setup_gnb ue s g)) = uePlane (dataInfo g) ∧
  upfPort (dataInfo (setup_gnb ue s g)) = upfPort (dataInfo g).
Proof.
  unfold setup_gnb, learned. destruct (_ && _); cbn [SetUpfIp on_data with_dataInfo session_gnb with_ueIpPool with_ueIpGenerator
    with_teidPool with_teidGenerator teidPool ueIpPool dataInfo with_upfIp gtpPlane uePlane upfPort];
    by rewrite !lookup_insert_eq.
Qed.



(** C28. When the slice is not among the UE's allowed slices, the gNB still
    answers with a PDU Session Resource Setup Response that lists the session as
    set up, with downlink TEID 0 and QoS flow 0, makes the UE ready and gives it
    an address; no session is stored, and packets of the UPF for the TEID that
    was taken are dropped. *)
Theorem gnb_session_refused gnb ran ue g u conn assoc amf pid nas transfer n v n3 octets (w : world) :
  serving gnb ran ue g u conn assoc w → amfUeNgapId u = amf → ranUeNgapId u = ran →
  not_allowed (hex_or "not informed" (SST n)) (hex_or "not informed" (SD n)) u →
  setup_transfer transfer no_setup = Ret v → gtpPlane (dataInfo g) = Some n3 →
  answerable g assoc (setup_response amf ran pid 0 0) octets →
  (∀ i s, pduSessions u !! i = Some s → i ≠ pid ∧ downlinkTeid s ≠ teidGenerator g) →
  ∃ w' u',
    HandlerPduSessionResourceSetupRequest gnb (setup_request amf ran [one_item pid nas transfer n]) w = Ret (tt, w') ∧
    out (w_heap w') = out (w_heap w) ++
      [ToUe conn nas; ToAmf assoc 1 octets; ToUe conn (u8 pid :: ip_bytes (session_ip g))] ∧
    ues (w_heap w') !! ue = Some u' ∧ state u' = Ready ∧ pduSessions u' = pduSessions u ∧
    (∀ buf len b3 packet, rd buf 3 = Ret b3 → b3 ≠ 133 → slice buf 0 len = Ret packet →
      from_upf gnb (teidGenerator g) buf len w' = Ret (true, w')).
Proof.
  intros Hs Eamf Eran Hal Ev En Hans Hf. set (s := request_of amf ran pid nas n v).
  pose proof (CreatePduSession_refused pid _ _ (v_pduSType v) (v_qosId v) (v_priArp v) (v_fiveQi v) (v_ulTeid v)
    (session_ip g) (teidGenerator g) u Hal) as Ecr. set (u' := with_pduSession_of _ u) in Ecr.
  assert (response_for u' pid = setup_response amf ran pid 0 0) as Eresp.
  { unfold response_for, GetTeidDownlinkOfSession, GetQosIdOfSession. change (pduSessions u') with (pduSessions u).
    destruct (pduSessions u !! pid) eqn:E; [by apply Hf in E as []|]. unfold u', with_pduSession_of. cbn. by rewrite Eamf, Eran. }
  assert (stream_of octets = 1) as Est by (destruct Hans as [(?&?&?&?&?&?&?%response_stream) _]; done).
  exists (setup_done gnb ue conn assoc s g u' octets w), (SetStateReady u').
  split.
  { enough (wp (HandlerPduSessionResourceSetupRequest gnb (setup_request amf ran [one_item pid nas transfer n])) w
      (λ _ w', w' = setup_done gnb ue conn assoc s g u' octets w)) as ([]&w'&E&->)%wp_result by exact E.
    rewrite <- Eresp in Hans.
    eapply (wp_setup_request _ _ _ s); [reflexivity|by apply scan_request|exact Hs|exact Eamf|exact Ecr| | |exact En|exact Hans|done];
      by destruct Hs. }
  destruct (setup_gnb_pools ue s g) as (Hp1&_).
  split; [by apply setup_done_out|]. split; [apply setup_done_ue|]. do 2 (split; [done|]).
  intros buf len b3 packet Eb Hb Ep.
  eapply from_upf_dropped; [apply setup_done_gnb|exact Hp1|apply setup_done_ue|intros i x; cbn; apply Hf|exact Eb|done|done].
Qed.

(** *** Several sessions in one request *)

(** An item the handler reads: with its NAS message and a transfer that it gets through. *)
Definition readable (i : SetupItem) : Prop :=
  is_Some (si_NASPDU i) ∧ ∃ octets, si_Transfer i = Some octets ∧ ∀ v, ∃ v', setup_transfer octets v = Ret v'.

Lemma setup_item_read item nas octets v s :
  si_NASPDU item = Some nas → si_Transfer item = Some octets → setup_transfer octets (q_setup s) = Ret v →
  setup_item item s = Ret (inl (MkSureq (q_ran s) (q_amf s) (si_PDUSessionID item) nas
    (hex_or "not informed" (SST (si_SNSSAI item))) (hex_or "not informed" (SD (si_SNSSAI item))) v)).
Proof. intros En Et Ev. unfold setup_item. rewrite En, Et. cbn [or_error q_setup]. by rewrite Ev. Qed.

Lemma scan_items items item s v : Forall readable items → is_Some (si_NASPDU item) →
  (∃ octets, si_Transfer item = Some octets ∧ ∀ v', setup_transfer octets v' = Ret v) →
  scan setup_item (items ++ [item]) s = scan setup_item [item] s.
Proof.
  intros Hl [nas En] (octets&Et&Ev). revert s. induction Hl as [|i l [[nas' En'] (o&Eo&Ho)] _ IH]; intros s; [done|].
  cbn [app scan]. destruct (Ho (q_setup s)) as [v' Ev']. rewrite (setup_item_read _ _ _ _ _ En' Eo Ev'). ret_bind.
  rewrite IH. cbn [scan]. by rewrite !(setup_item_read _ _ _ _ _ En Et (Ev _)).
Qed.

(** C30. Of several sessions in one request only the last is set up: the
    handler does exactly what it would do for a request with the last item
    alone, the others get no session, no answer and no NAS message. *)
Theorem gnb_last_session_only gnb amf ran items item v (w : world) :
  Forall readable items → is_Some (si_NASPDU item) →
  (∃ octets, si_Transfer item = Some octets ∧ ∀ v', setup_transfer octets v' = Ret v) →
  HandlerPduSessionResourceSetupRequest gnb (setup_request amf ran (items ++ [item])) w =
  HandlerPduSessionResourceSetupRequest gnb (setup_request amf ran [item]) w.
Proof.
  intros Hl Hn Ht. unfold HandlerPduSessionResourceSetupRequest, mbind, St_bind, run.
  change (elements_of _ _ (setup_request amf ran ?l)) with (@Ret (list IE) [reject ProtocolIEIDAMFUENGAPID (AMFUENGAPID amf);
    reject ProtocolIEIDRANUENGAPID (RANUENGAPID ran);
    reject ProtocolIEIDPDUSessionResourceSetupListSUReq (PDUSessionResourceSetupListSUReq l)]).
  cbn [mbind outcome_mbind scan setup_request_ie ie_Id reject]. cbn. by rewrite (scan_items _ _ _ v).
Qed.

End Sessions.

(** ** Examples *)

Definition demo_setup_vars : setup := MkSetupVars 9 [10; 0; 0; 1] 1 9 8 0.
Definition demo_response (teid qos : Z) : NGAPPDU :=
  let _ := demo_host in let _ := demo_codec (MkNgap 0 None) in
  setup_response 7 1 5 teid qos (MkBits [127; 0; 0; 1] 32).

Lemma demo_serving sessions : serving (G:=Z) 0 1 10 demo_gnb (demo_ue sessions) 4 2 (demo_world (demo_ue sessions)).
Proof.
  split; try reflexivity; [by split|]. intros i p E. unfold demo_world in E. cbn in E.
  apply lookup_singleton_Some in E as [_ <-]. by eexists.
Qed.


Lemma gnb_session_refused_witness :
  let H1 := key_order in let H2 := demo_host in let H3 := demo_codec (demo_response 0 0) in
  ∃ w' u', HandlerPduSessionResourceSetupRequest 0 (setup_request 7 1 [one_item 5 [0x7e] [0] (MkNssai (Some [0x02]) None)])
      (demo_world (demo_ue ∅)) = Ret (tt, w') ∧
    ues (w_heap w') !! 10 = Some u' ∧ state u' = Ready ∧ pduSessions u' = ∅.
Proof.
  intros H1 H2 H3.
  destruct (gnb_session_refused (G:=Z) 0 1 10 demo_gnb (demo_ue ∅) 4 2 7 5 [0x7e] [0] (MkNssai (Some [0x02]) None) demo_setup_vars 3 [1]
    (demo_world (demo_ue ∅))) as (w'&u'&E&_&Eu&Es&Ep&_).
  - apply demo_serving.
  - reflexivity.
  - reflexivity.
  - split; [done|]. intros x Hx. apply list_elem_of_singleton in Hx as ->. intros [E _]. discriminate E.
  - reflexivity.
  - reflexivity.
  - split; [|reflexivity]. exists "127.0.0.1"%string, [], (MkBits [127; 0; 0; 1] 32). by split_and!.
  - intros i s E. cbn in E. by rewrite lookup_empty in E.
  - exists w', u'. by split_and!.
Defined.

Lemma gnb_last_session_only_witness :
  let H1 := key_order in let H2 := demo_host in let H3 := demo_codec (demo_response 2 1) in
  HandlerPduSessionResourceSetupRequest 0 (setup_request 7 1 [one_item 5 [0x7e] [0] demo_slice; one_item 6 [0x7f] [0] demo_slice])
    (demo_world (demo_ue ∅)) =
  HandlerPduSessionResourceSetupRequest 0 (setup_request 7 1 [one_item 6 [0x7f] [0] demo_slice]) (demo_world (demo_ue ∅)).
Proof.
  intros H1 H2 H3.
  apply (gnb_last_session_only (G:=Z) 0 7 1 [one_item 5 [0x7e] [0] demo_slice] (one_item 6 [0x7f] [0] demo_slice) demo_setup_vars).
  - constructor; [|constructor]. split; [by eexists|]. exists [0]. split; [reflexivity|]. intros v. by eexists.
  - by eexists.
  - exists [0]. split; [reflexivity|]. intros [? ? ? ? ? ?]. reflexivity.
Defined.
