(* ===== verification/GnbInv.v ===== *)
(** * The heap of the gNBs

    In every world the gNBs reach, the pools hold existing objects, a UE is in
    the pool under its own RAN identifier and an AMF under its own, the lists
    have the length that is kept beside them, a session is stored under its
    identifier, and the registered gNBs exist. *)

From S2P Require Import Prelude GoStrings GnbContext Ngap Chaos GnbNgap GnbNas GnbProps GnbWp GnbDemo.

#[local] Open Scope Z_scope.
#[local] Open Scope go_scope.

(** ** The invariant *)

(** A list and its length field: before the first element the length is zero
    whatever an earlier list left. *)
Definition counted {A} (n : Z) (l : list A) : Prop := n = 0 ∨ n = blen l.

Definition ue_ok (u : GNBUe) : Prop :=
  counted (lenSlice (pduSession (context u))) (slices (pduSession (context u))) ∧
  map_Forall (λ i s, pduSessionId s = i) (pduSessions u).
Definition amf_ok (a : GNBAmf) : Prop := counted (lenPlmn a) (plmns a) ∧ counted (amfLenSlice a) (amfSlices a).

Definition has_ue (h : heap) (p : Z) : Prop := is_Some (ues h !! p).
Definition has_amf (h : heap) (p : Z) : Prop := is_Some (amfs h !! p).
Definition ran_is (h : heap) (i p : Z) : Prop := ∃ u, ues h !! p = Some u ∧ ranUeNgapId u = i.
Definition amf_is (h : heap) (i p : Z) : Prop := ∃ a, amfs h !! p = Some a ∧ amfId a = i.

Record gnb_ok (h : heap) (g : GNBContext) : Prop := {
  g_ues : map_Forall (ran_is h) (uePool g);
  g_teids : map_Forall (λ _, has_ue h) (teidPool g);
  g_ips : map_Forall (λ _, has_ue h) (ueIpPool g);
  g_amfs : map_Forall (amf_is h) (amfPool g);
}.

Record heap_ok (h : heap) : Prop := {
  h_ues : map_Forall (λ p u, p < next h ∧ ue_ok u) (ues h);
  h_amfs : map_Forall (λ p a, p < next h ∧ amf_ok a) (amfs h);
  h_gnbs : map_Forall (λ _, gnb_ok h) (gnbs h);
  h_active : active_ok h;
}.

(** Objects are not lost, and UEs and AMFs keep their identifiers. *)
Record grows (h h' : heap) : Prop := {
  gr_ok : heap_ok h';
  gr_ue : ∀ i p, ran_is h i p → ran_is h' i p;
  gr_amf : ∀ i p, amf_is h i p → amf_is h' i p;
  gr_gnb : ∀ p, is_Some (gnbs h !! p) → is_Some (gnbs h' !! p);
}.

Lemma has_ran h p : has_ue h p ↔ ∃ i, ran_is h i p.
Proof. split; [intros [u E]; by exists (ranUeNgapId u), u|intros (i&u&E&_); by exists u]. Qed.
Lemma has_amf_is h p : has_amf h p ↔ ∃ i, amf_is h i p.
Proof. split; [intros [a E]; by exists (amfId a), a|intros (i&a&E&_); by exists a]. Qed.

Lemma grows_refl h : heap_ok h → grows h h.
Proof. by split. Qed.
Lemma grows_trans h1 h2 h3 : grows h1 h2 → grows h2 h3 → grows h1 h3.
Proof. intros [] []. split; auto. Qed.
Lemma grows_has h h' p : grows h h' → has_ue h p → has_ue h' p.
Proof. intros Hg. rewrite !has_ran. intros [i Hi]. exists i. by apply (gr_ue _ _ Hg). Qed.
Lemma gnb_ok_grows h h' g :
  (∀ i p, ran_is h i p → ran_is h' i p) → (∀ i p, amf_is h i p → amf_is h' i p) → gnb_ok h g → gnb_ok h' g.
Proof.
  intros Hu Ha [G1 G2 G3 G4]. split; intros i p E; [by apply Hu, G1| | |by apply Ha, G4].
  - apply has_ran. apply G2, has_ran in E as [j Hj]. eauto.
  - apply has_ran. apply G3, has_ran in E as [j Hj]. eauto.
Qed.

(** ** Updates *)

Lemma ran_put_ue h p u f i q : ues h !! p = Some u → ranUeNgapId (f u) = ranUeNgapId u →
  ran_is h i q → ran_is (put_ue p (f u) h) i q.
Proof.
  intros E Hi (v&Ev&Hv). destruct (decide (q = p)) as [->|Hne].
  - exists (f u). split; [apply ues_put_ue|]. congruence.
  - exists v. split; [|done]. unfold put_ue. cbn. by rewrite lookup_insert_ne.
Qed.

Lemma grows_put_ue h p u f : heap_ok h → ues h !! p = Some u → ue_ok (f u) → ranUeNgapId (f u) = ranUeNgapId u →
  grows h (put_ue p (f u) h).
Proof.
  intros Hh E Hok Hi. assert (∀ i q, ran_is h i q → ran_is (put_ue p (f u) h) i q) as Hr by (intros; by eapply ran_put_ue).
  destruct Hh as [H1 H2 H3 H4]. split; [|done|done|done]. split; [|done| |done].
  - apply map_Forall_insert_2; [|done]. split; [|done]. by apply (H1 p u).
  - intros q g Eg. eapply gnb_ok_grows; [exact Hr|done|]. exact (H3 q g Eg).
Qed.

Lemma grows_put_amf h p a f : heap_ok h → amfs h !! p = Some a → amf_ok (f a) → amfId (f a) = amfId a →
  grows h (put_amf p (f a) h).
Proof.
  intros Hh E Hok Hi. assert (∀ i q, amf_is h i q → amf_is (put_amf p (f a) h) i q) as Hr.
  { intros i q (b&Eb&Hb). destruct (decide (q = p)) as [->|Hne].
    - exists (f a). split; [apply amfs_put_amf|]. congruence.
    - exists b. split; [|done]. unfold put_amf. cbn. by rewrite lookup_insert_ne. }
  destruct Hh as [H1 H2 H3 H4]. split; [|done|done|done]. split; [done| | |done].
  - apply map_Forall_insert_2; [|done]. split; [|done]. by apply (H2 p a).
  - intros q g Eg. eapply (gnb_ok_grows h); [done|exact Hr|]. exact (H3 q g Eg).
Qed.

Lemma grows_put_gnb h p g f : heap_ok h → gnbs h !! p = Some g → gnb_ok h (f g) → grows h (put_gnb p (f g) h).
Proof.
  intros [H1 H2 H3 H4] E Hok. split; [|done|done|].
  - split; [done|done| |by apply active_put_gnb_ok]. apply map_Forall_insert_2.
    + by apply (gnb_ok_grows h).
    + intros q g' Eg. apply (gnb_ok_grows h); [done..|]. exact (H3 q g' Eg).
  - intros q Hq. unfold put_gnb. cbn. apply lookup_insert_is_Some'. by right.
Qed.

Lemma grows_log h e : heap_ok h → grows h (log e h).
Proof.
  intros [H1 H2 H3 H4]. split; [|done..]. split; [done|done| |done].
  intros q g Eg. apply (gnb_ok_grows h); [done..|]. exact (H3 q g Eg).
Qed.

(** ** Calls that keep the invariant *)

Section Keeps.
Context {S : Type} (hp : S → heap).

Definition keeps {A} (m : St S A) (s : S) : Prop := ∀ a s', m s = Ret (a, s') → grows (hp s) (hp s').

Lemma keeps_ret {A} (a : A) s : heap_ok (hp s) → keeps (mret a) s.
Proof. intros Hs b s' E. change (Ret (a, s) = Ret (b, s')) in E. injection E as _ <-. by apply grows_refl. Qed.
Lemma keeps_panic {A} s : keeps (panic : St S A) s.
Proof. intros a s' E. discriminate E. Qed.
Lemma keeps_bind {A B} (m : St S A) (k : A → St S B) s : keeps m s →
  (∀ a s', m s = Ret (a, s') → grows (hp s) (hp s') → keeps (k a) s') → keeps (m ≫= k) s.
Proof.
  intros Hm Hk b s' E. unfold mbind, St_bind in E. destruct (m s) as [[a t]| |] eqn:Em; [|discriminate E..].
  eapply grows_trans; [by apply (Hm a)|]. eapply Hk; [done|by apply (Hm a)|done].
Qed.
Lemma keeps_run {A B} (r : outcome A) (k : A → St S B) s : (∀ a, r = Ret a → keeps (k a) s) → keeps (run r ≫= k) s.
Proof. intros Hk b s' E. unfold mbind, St_bind, run in E. destruct r as [a| |]; [|discriminate E..]. exact (Hk a eq_refl b s' E). Qed.
End Keeps.

#[local] Abbreviation keepsH := (keeps (λ h : heap, h)).

Section HeapCalls.
Implicit Types h : heap.

Lemma keepsH_get_gnb {B} p (k : GNBContext → H B) h :
  (∀ g, gnbs h !! p = Some g → keepsH (k g) h) → keepsH (get_gnb p ≫= k) h.
Proof. intros Hk b s' E. unfold mbind, St_bind, get_gnb in E. destruct (gnbs h !! p); [|discriminate E]. by eapply Hk. Qed.
Lemma keepsH_get_ue {B} p (k : GNBUe → H B) h :
  (∀ u, ues h !! p = Some u → keepsH (k u) h) → keepsH (get_ue p ≫= k) h.
Proof. intros Hk b s' E. unfold mbind, St_bind, get_ue in E. destruct (ues h !! p); [|discriminate E]. by eapply Hk. Qed.
Lemma keepsH_get_amf {B} p (k : GNBAmf → H B) h :
  (∀ a, amfs h !! p = Some a → keepsH (k a) h) → keepsH (get_amf p ≫= k) h.
Proof. intros Hk b s' E. unfold mbind, St_bind, get_amf in E. destruct (amfs h !! p); [|discriminate E]. by eapply Hk. Qed.

Lemma keepsH_set_ue p f h : heap_ok h →
  (∀ u, ues h !! p = Some u → ue_ok u → ue_ok (f u) ∧ ranUeNgapId (f u) = ranUeNgapId u) → keepsH (set_ue p f) h.
Proof.
  intros Hh Hf a s' E. unfold set_ue in E. destruct (ues h !! p) as [u|] eqn:Eu; [|discriminate E]. injection E as _ <-.
  destruct (Hf u eq_refl) as [Hok Hi]; [by apply (h_ues h Hh p u)|]. by apply grows_put_ue.
Qed.
Lemma keepsH_set_amf p f h : heap_ok h →
  (∀ a, amfs h !! p = Some a → amf_ok a → amf_ok (f a) ∧ amfId (f a) = amfId a) → keepsH (set_amf p f) h.
Proof.
  intros Hh Hf b s' E. unfold set_amf in E. destruct (amfs h !! p) as [a|] eqn:Ea; [|discriminate E]. injection E as _ <-.
  destruct (Hf a eq_refl) as [Hok Hi]; [by apply (h_amfs h Hh p a)|]. by apply grows_put_amf.
Qed.
Lemma keepsH_set_gnb p f h : heap_ok h →
  (∀ g, gnbs h !! p = Some g → gnb_ok h g → gnb_ok h (f g)) → keepsH (set_gnb p f) h.
Proof.
  intros Hh Hf b s' E. unfold set_gnb in E. destruct (gnbs h !! p) as [g|] eqn:Eg; [|discriminate E]. injection E as _ <-.
  apply grows_put_gnb; [done|done|]. apply Hf; [done|]. by apply (h_gnbs h Hh p g).
Qed.
Lemma keepsH_emit e h : heap_ok h → keepsH (emit e) h.
Proof. intros Hh b s' E. change (Ret (tt, log e h) = Ret (b, s')) in E. injection E as _ <-. by apply grows_log. Qed.

End HeapCalls.

(** A change of a gNB that leaves its pools. *)
Lemma gnb_ok_pools h g g' : uePool g' = uePool g → teidPool g' = teidPool g → ueIpPool g' = ueIpPool g →
  amfPool g' = amfPool g → gnb_ok h g → gnb_ok h g'.
Proof. intros E1 E2 E3 E4 [G1 G2 G3 G4]. split; [by rewrite E1|by rewrite E2|by rewrite E3|by rewrite E4]. Qed.

Lemma gnb_ok_teid h g t ue : gnb_ok h g → has_ue h ue → gnb_ok h (with_teidPool (<[t := ue]> (teidPool g)) g).
Proof. intros [G1 G2 G3 G4] Hu. split; [done| |done|done]. by apply map_Forall_insert_2. Qed.
Lemma gnb_ok_ip h g i ue : gnb_ok h g → has_ue h ue → gnb_ok h (with_ueIpPool (<[i := ue]> (ueIpPool g)) g).
Proof. intros [G1 G2 G3 G4] Hu. split; [done|done| |done]. by apply map_Forall_insert_2. Qed.
Lemma gnb_ok_ue h g i ue : gnb_ok h g → ran_is h i ue → gnb_ok h (with_uePool (<[i := ue]> (uePool g)) g).
Proof. intros [G1 G2 G3 G4] Hu. split; [|done..]. by apply map_Forall_insert_2. Qed.
Lemma gnb_ok_amf h g i amf : gnb_ok h g → amf_is h i amf → gnb_ok h (with_amfPool (<[i := amf]> (amfPool g)) g).
Proof. intros [G1 G2 G3 G4] Hu. split; [done..|]. by apply map_Forall_insert_2. Qed.
Lemma gnb_ok_del_teid h g t : gnb_ok h g → gnb_ok h (with_teidPool (delete t (teidPool g)) g).
Proof. intros [G1 G2 G3 G4]. split; [done| |done|done]. by apply map_Forall_delete. Qed.
Lemma gnb_ok_del_ip h g i : gnb_ok h g → gnb_ok h (with_ueIpPool (delete i (ueIpPool g)) g).
Proof. intros [G1 G2 G3 G4]. split; [done|done| |done]. by apply map_Forall_delete. Qed.
Lemma gnb_ok_del_ue h g i : gnb_ok h g → gnb_ok h (with_uePool (delete i (uePool g)) g).
Proof. intros [G1 G2 G3 G4]. split; [|done..]. by apply map_Forall_delete. Qed.

(** What is known of a heap is known of the next. *)
Ltac carry Hg :=
  cbv beta in Hg; pose proof (gr_ok _ _ Hg);
  repeat match goal with
  | Hu : has_ue ?h _ |- _ => match type of Hg with grows h _ => apply (grows_has _ _ _ Hg) in Hu end
  | Hu : ran_is ?h _ _ |- _ => match type of Hg with grows h _ => apply (gr_ue _ _ Hg) in Hu end
  | Hu : amf_is ?h _ _ |- _ => match type of Hg with grows h _ => apply (gr_amf _ _ Hg) in Hu end
  end; clear Hg.
Ltac keeps_step :=
  lazymatch goal with
  | |- keeps _ (get_gnb _ ≫= _) _ => apply keepsH_get_gnb; intros ? ?
  | |- keeps _ (get_ue _ ≫= _) _ => apply keepsH_get_ue; intros ? ?
  | |- keeps _ (get_amf _ ≫= _) _ => apply keepsH_get_amf; intros ? ?
  | |- keeps _ (run _ ≫= _) _ => apply keeps_run; intros ? ?
  | |- keeps _ (_ ≫= _) _ => apply keeps_bind; [|let Hg := fresh in intros ? ? _ Hg; carry Hg]
  | |- keeps _ (mret _) _ => apply keeps_ret
  | |- keeps _ panic _ => apply keeps_panic
  | |- keeps _ (emit _) _ => apply keepsH_emit
  | |- keeps _ (set_gnb _ _) _ => apply keepsH_set_gnb; [|intros ? ? ?]
  | |- keeps _ (set_ue _ _) _ => apply keepsH_set_ue; [|intros ? ? ?]
  | |- keeps _ (set_amf _ _) _ => apply keepsH_set_amf; [|intros ? ? ?]
  | |- keeps _ (match ?x with _ => _ end) _ => destruct x eqn:?
  end; cbv beta.

Create HintDb keeps.
#[local] Hint Resolve gr_ok grows_has grows_refl gr_ue gr_amf : keeps.
#[local] Hint Resolve gnb_ok_teid gnb_ok_ip gnb_ok_ue gnb_ok_amf gnb_ok_del_teid gnb_ok_del_ip gnb_ok_del_ue : keeps.
#[local] Hint Extern 1 (gnb_ok _ _) => eapply gnb_ok_pools; [..|eassumption]; reflexivity : keeps.
#[local] Hint Extern 1 (ue_ok _ ∧ _) => split; [eassumption|reflexivity] : keeps.
#[local] Hint Extern 1 (amf_ok _ ∧ _) => split; [eassumption|reflexivity] : keeps.
Ltac keeps_tac := repeat keeps_step; eauto with keeps.

Section HeapOps.
Implicit Types h : heap.

Lemma keeps_SetAmfUeId ue a h : heap_ok h → keepsH (SetAmfUeId ue a) h.
Proof. intros Hh. unfold SetAmfUeId. keeps_tac. Qed.
Lemma keeps_getRanUeIp p h : heap_ok h → keepsH (getRanUeIp p) h.
Proof. intros Hh. unfold getRanUeIp. keeps_tac. Qed.
Lemma keeps_getRanUeId p h : heap_ok h → keepsH (getRanUeId p) h.
Proof. intros Hh. unfold getRanUeId. keeps_tac. Qed.
Lemma keeps_GetUeTeid p h : heap_ok h → keepsH (GetUeTeid p) h.
Proof. intros Hh. unfold GetUeTeid. keeps_tac. Qed.
Lemma keeps_getRanAmfId p h : heap_ok h → keepsH (getRanAmfId p) h.
Proof. intros Hh. unfold getRanAmfId. keeps_tac. Qed.
Lemma keeps_StoreTeid p t ue h : heap_ok h → has_ue h ue → keepsH (StoreTeid p t ue) h.
Proof. intros Hh Hu. unfold StoreTeid. keeps_tac. Qed.
Lemma keeps_StoreUeIp p i ue h : heap_ok h → has_ue h ue → keepsH (StoreUeIp p i ue) h.
Proof. intros Hh Hu. unfold StoreUeIp. keeps_tac. Qed.
Lemma keeps_StoreUe p i ue h : heap_ok h → ran_is h i ue → keepsH (StoreUe p i ue) h.
Proof. intros Hh Hu. unfold StoreUe. keeps_tac. Qed.
Lemma keeps_DeleteTeid p t h : heap_ok h → keepsH (DeleteGnBUeByTeid p t) h.
Proof. intros Hh. unfold DeleteGnBUeByTeid. keeps_tac. Qed.
Lemma keeps_DeleteIp p i h : heap_ok h → keepsH (DeleteGnBUeByIp p i) h.
Proof. intros Hh. unfold DeleteGnBUeByIp. keeps_tac. Qed.
Lemma keeps_DeleteUe p i h : heap_ok h → keepsH (DeleteGnBUe p i) h.
Proof. intros Hh. unfold DeleteGnBUe. keeps_tac. Qed.
Lemma keeps_close conn h : heap_ok h → keepsH (GnbContext.close conn) h.
Proof. intros Hh. unfold GnbContext.close. keeps_tac. Qed.
End HeapOps.
#[local] Hint Resolve keeps_SetAmfUeId keeps_getRanUeIp keeps_getRanUeId keeps_GetUeTeid keeps_getRanAmfId
  keeps_StoreTeid keeps_StoreUeIp keeps_StoreUe keeps_DeleteTeid keeps_DeleteIp keeps_DeleteUe keeps_close : keeps.

(** ** New objects *)

Definition alloc_ue (p : Z) (g : GNBContext) (h : heap) : heap :=
  put_ue (next h) (with_ranUeNgapId (idUeGenerator g) blank_ue)
    (put_gnb p (with_idUeGenerator (s64 (idUeGenerator g + 1)) g)
      (with_next (next h + 1) (put_ue (next h) blank_ue h))).
Definition alloc_amf (p : Z) (f : GNBAmf → GNBAmf) (g : GNBContext) (h : heap) : heap :=
  put_amf (next h) (f (with_amfId (idAmfGenerator g) blank_amf))
    (put_gnb p (with_idAmfGenerator (s64 (idAmfGenerator g + 1)) g)
      (with_next (next h + 1) (put_amf (next h) blank_amf h))).

Lemma created_ue {B} p (k : Z → Z → H B) h r :
  (ue ← new_ue; i ← getRanUeId p; _ ← set_ue ue (with_ranUeNgapId i); k ue i) h = Ret r →
  ∃ g, gnbs h !! p = Some g ∧ k (next h) (idUeGenerator g) (alloc_ue p g h) = Ret r.
Proof.
  unfold mbind, St_bind, new_ue, getRanUeId, mbind, St_bind, get_gnb. cbn [gnbs with_ues with_next].
  destruct (gnbs h !! p) as [g|] eqn:Eg; [|done]. unfold set_gnb. cbn [gnbs with_ues with_next]. rewrite Eg.
  cbn [mret St_ret]. unfold set_ue. cbn [ues with_ues with_next with_gnbs]. rewrite lookup_insert_eq. intros E. by exists g.
Qed.
Lemma created_amf {B} p f (k : Z → Z → H B) h r :
  (amf ← new_amf; i ← getRanAmfId p; _ ← set_amf amf (λ a, f (with_amfId i a)); k amf i) h = Ret r →
  ∃ g, gnbs h !! p = Some g ∧ k (next h) (idAmfGenerator g) (alloc_amf p f g h) = Ret r.
Proof.
  unfold mbind, St_bind, new_amf, getRanAmfId, mbind, St_bind, get_gnb. cbn [gnbs with_amfs with_next].
  destruct (gnbs h !! p) as [g|] eqn:Eg; [|done]. unfold set_gnb. cbn [gnbs with_amfs with_next]. rewrite Eg.
  cbn [mret St_ret]. unfold set_amf. cbn [amfs with_amfs with_next with_gnbs]. rewrite lookup_insert_eq. intros E. by exists g.
Qed.

(** A new object breaks nothing. *)
Lemma grows_next h : heap_ok h → grows h (with_next (next h + 1) h).
Proof.
  intros [H1 H2 H3 H4]. split; [|done..]. split; [| | |done].
  - intros p u E. destruct (H1 p u E). split; [cbn; lia|done].
  - intros p a E. destruct (H2 p a E). split; [cbn; lia|done].
  - intros q g E. apply (gnb_ok_grows h); [done..|]. exact (H3 q g E).
Qed.
Lemma grows_new_ue h u : heap_ok h → ue_ok u → grows h (with_next (next h + 1) (put_ue (next h) u h)).
Proof.
  intros Hh Hu. assert (∀ i q, ran_is h i q → ran_is (put_ue (next h) u h) i q) as Hr.
  { intros i q (v&Ev&Hv). exists v. split; [|done]. destruct (h_ues h Hh q v Ev). unfold put_ue. cbn. by rewrite lookup_insert_ne by lia. }
  destruct Hh as [H1 H2 H3 H4]. split; [|exact Hr|done|done]. split; [| | |done].
  - cbn. apply map_Forall_insert_2; [split; [lia|done]|]. intros p v E. destruct (H1 p v E). split; [lia|done].
  - intros p a E. destruct (H2 p a E). split; [cbn; lia|done].
  - intros q g E. apply (gnb_ok_grows h); [exact Hr|done|]. exact (H3 q g E).
Qed.
Lemma grows_new_amf h a : heap_ok h → amf_ok a → grows h (with_next (next h + 1) (put_amf (next h) a h)).
Proof.
  intros Hh Hu. assert (∀ i q, amf_is h i q → amf_is (put_amf (next h) a h) i q) as Hr.
  { intros i q (v&Ev&Hv). exists v. split; [|done]. destruct (h_amfs h Hh q v Ev). unfold put_amf. cbn. by rewrite lookup_insert_ne by lia. }
  destruct Hh as [H1 H2 H3 H4]. split; [|done|exact Hr|done]. split; [| | |done].
  - intros p u E. destruct (H1 p u E). split; [cbn; lia|done].
  - cbn. apply map_Forall_insert_2; [split; [lia|done]|]. intros p v E. destruct (H2 p v E). split; [lia|done].
  - intros q g E. apply (gnb_ok_grows h); [done|exact Hr|]. exact (H3 q g E).
Qed.

Lemma alloc_ue_alt p g h : alloc_ue p g h =
  put_gnb p (with_idUeGenerator (s64 (idUeGenerator g + 1)) g)
    (with_next (next h + 1) (put_ue (next h) (with_ranUeNgapId (idUeGenerator g) blank_ue) h)).
Proof. unfold alloc_ue. autorewrite with heap. f_equal. unfold put_ue, with_ues, with_next. cbn. by rewrite insert_insert_eq. Qed.

Lemma blank_ue_ok i : ue_ok (with_ranUeNgapId i blank_ue).
Proof. split; [by left|apply map_Forall_empty]. Qed.

Lemma grows_alloc_ue p g h : heap_ok h → gnbs h !! p = Some g →
  grows h (alloc_ue p g h) ∧ ran_is (alloc_ue p g h) (idUeGenerator g) (next h).
Proof.
  intros Hh Eg. split; [|eexists; split; [apply ues_put_ue|done]]. rewrite alloc_ue_alt.
  pose proof (grows_new_ue h _ Hh (blank_ue_ok (idUeGenerator g))) as Hg. eapply grows_trans; [exact Hg|].
  apply (grows_put_gnb _ _ g (with_idUeGenerator _)); [apply Hg|exact Eg|].
  apply (gnb_ok_pools _ g); [done..|]. eapply gnb_ok_grows; [apply (gr_ue _ _ Hg)|apply (gr_amf _ _ Hg)|]. exact (h_gnbs h Hh p g Eg).
Qed.
Lemma grows_alloc_amf p f g h : heap_ok h → gnbs h !! p = Some g → (∀ a, amf_ok a → amf_ok (f a) ∧ amfId (f a) = amfId a) →
  grows h (alloc_amf p f g h) ∧ amf_is (alloc_amf p f g h) (idAmfGenerator g) (next h).
Proof.
  intros Hh Eg Hf. split; [|eexists; split; [apply amfs_put_amf|by apply Hf; split; left]].
  assert (alloc_amf p f g h = put_gnb p (with_idAmfGenerator (s64 (idAmfGenerator g + 1)) g)
    (with_next (next h + 1) (put_amf (next h) (f (with_amfId (idAmfGenerator g) blank_amf)) h))) as ->.
  { unfold alloc_amf, put_amf, put_gnb, with_amfs, with_next, with_gnbs. cbn. by rewrite insert_insert_eq. }
  pose proof (grows_new_amf h (f (with_amfId (idAmfGenerator g) blank_amf)) Hh) as Hg.
  destruct (Hf (with_amfId (idAmfGenerator g) blank_amf)) as [Hok _]; [by split; left|]. specialize (Hg Hok).
  eapply grows_trans; [exact Hg|]. apply (grows_put_gnb _ _ g (with_idAmfGenerator _)); [apply Hg|exact Eg|].
  apply (gnb_ok_pools _ g); [done..|]. eapply gnb_ok_grows; [apply (gr_ue _ _ Hg)|apply (gr_amf _ _ Hg)|]. exact (h_gnbs h Hh p g Eg).
Qed.

Lemma keeps_created_ue {B} p (k : Z → Z → H B) h : heap_ok h →
  (∀ ue i h', grows h h' → ran_is h' i ue → keepsH (k ue i) h') →
  keepsH (ue ← new_ue; i ← getRanUeId p; _ ← set_ue ue (with_ranUeNgapId i); k ue i) h.
Proof.
  intros Hh Hk b s' E. apply created_ue in E as (g&Eg&E). destruct (grows_alloc_ue p g h Hh Eg) as [Hg Hr].
  eapply grows_trans; [exact Hg|]. exact (Hk _ _ _ Hg Hr b s' E).
Qed.
Lemma keeps_created_amf {B} p f (k : Z → Z → H B) h : heap_ok h → (∀ a, amf_ok a → amf_ok (f a) ∧ amfId (f a) = amfId a) →
  (∀ amf i h', grows h h' → amf_is h' i amf → keepsH (k amf i) h') →
  keepsH (amf ← new_amf; i ← getRanAmfId p; _ ← set_amf amf (λ a, f (with_amfId i a)); k amf i) h.
Proof.
  intros Hh Hf Hk b s' E. apply created_amf in E as (g&Eg&E). destruct (grows_alloc_amf p f g h Hh Eg Hf) as [Hg Hr].
  eapply grows_trans; [exact Hg|]. exact (Hk _ _ _ Hg Hr b s' E).
Qed.

(** ** Pools *)

Section Pools.
Context `{MapOrder}.
Implicit Types h : heap.

Lemma find_ptr_same {K A} (get : Z → H A) (P : A → bool) (l : list (K * Z)) r h h' :
  (∀ p a s s', get p s = Ret (a, s') → s' = s) → find_ptr get P l h = Ret (r, h') →
  h' = h ∧ ∀ k p, r = Some (k, p) → (k, p) ∈ l.
Proof.
  intros Hg. induction l as [|[k p] l IH]; cbn [find_ptr].
  - intros E. change (Ret (None, h) = Ret (r, h')) in E. injection E as <- <-. by split.
  - unfold mbind, St_bind. destruct (get p h) as [[a s]| |] eqn:E; [|discriminate..]. apply Hg in E as ->.
    destruct (P a); [|intros [-> Hr]%IH; split; [done|]; intros ? ? ?; right; by apply Hr].
    intros E. change (Ret (Some (k, p), h) = Ret (r, h')) in E. injection E as <- <-. split; [done|].
    intros ? ? [= <- <-]. by left.
Qed.
Lemma get_ue_same p a h h' : get_ue p h = Ret (a, h') → h' = h.
Proof. unfold get_ue. destruct (ues h !! p); [|done]. by intros [= _ ->]. Qed.
Lemma get_amf_same p a h h' : get_amf p h = Ret (a, h') → h' = h.
Proof. unfold get_amf. destruct (amfs h !! p); [|done]. by intros [= _ ->]. Qed.

Lemma keeps_find_ue P l h : heap_ok h → keepsH (find_ptr (K:=Z) get_ue P l) h.
Proof. intros Hh a s' [-> _]%find_ptr_same; [by apply grows_refl|apply get_ue_same]. Qed.
Lemma keeps_find_amf P l h : heap_ok h → keepsH (find_ptr (K:=Z) get_amf P l) h.
Proof. intros Hh a s' [-> _]%find_ptr_same; [by apply grows_refl|apply get_amf_same]. Qed.
#[local] Hint Resolve keeps_find_ue keeps_find_amf : keeps.

Lemma keeps_find p P h : heap_ok h → keepsH (find_ue p P) h.
Proof. intros Hh. unfold find_ue. keeps_tac. Qed.
Lemma keeps_active p h : heap_ok h → keepsH (selectAmFByActive p) h.
Proof. intros Hh. unfold selectAmFByActive. keeps_tac. Qed.
Lemma keeps_capacity p h : heap_ok h → keepsH (selectAmFByCapacity p) h.
Proof. intros Hh. unfold selectAmFByCapacity. keeps_tac. Qed.
#[local] Hint Resolve keeps_find keeps_active : keeps.

Lemma keeps_find_in_gnbs i a l h : heap_ok h → keepsH (find_in_gnbs i a l) h.
Proof.
  revert h. induction l as [|[j p] l IH]; intros h Hh; cbn [find_in_gnbs]; keeps_tac.
Qed.
Lemma keeps_FindUeInOtherGnb i a h : heap_ok h → keepsH (FindUeInOtherGnb i a) h.
Proof. intros Hh. unfold FindUeInOtherGnb. intros r h'. by apply keeps_find_in_gnbs. Qed.

Lemma keeps_NewGnBUe p conn h : heap_ok h → keepsH (NewGnBUe p conn) h.
Proof.
  intros Hh. unfold NewGnBUe. apply keeps_created_ue; [done|]. intros ue i h' Hg Hi.
  assert (has_ue h' ue) as Hu by (apply has_ran; eauto). keeps_tac.
Qed.
Lemma keeps_NewGnBAmf p ip port h : heap_ok h → keepsH (NewGnBAmf p ip port) h.
Proof.
  intros Hh. unfold NewGnBAmf. apply (keeps_created_amf p (λ a, with_amfState Inactive (with_amfPort port (with_amfIp ip a)))).
  - done.
  - intros a Ha. by split.
  - intros amf i h' Hg Hi. keeps_tac. split; [|done]. split; by left.
Qed.
End Pools.

(** ** UEs and AMFs *)

Definition same_ue (u u' : GNBUe) : Prop := (ue_ok u → ue_ok u') ∧ ranUeNgapId u' = ranUeNgapId u.
Definition same_amf (a a' : GNBAmf) : Prop := (amf_ok a → amf_ok a') ∧ amfId a' = amfId a.
#[local] Instance same_ue_trans : Transitive same_ue.
Proof. intros u v w [H1 H2] [H3 H4]. split; [auto|congruence]. Qed.
#[local] Instance same_amf_trans : Transitive same_amf.
Proof. intros u v w [H1 H2] [H3 H4]. split; [auto|congruence]. Qed.
#[local] Instance same_amf_refl : Reflexive same_amf.
Proof. intros u. by split. Qed.
#[local] Instance same_ue_refl : Reflexive same_ue.
Proof. intros u. by split. Qed.

Lemma append_counted {A} n (e : A) l l' : counted n l → append n e l = Ret l' → counted (n + 1) l'.
Proof.
  intros Hn E. right. destruct (decide (n = 0)) as [->|Hne]; [injection E as <-; done|].
  destruct Hn as [? | ->]; [done|]. rewrite append_spec in E by by right. injection E as <-.
  unfold blen. rewrite length_app. simpl. lia.
Qed.

Lemma addedSlice_same s d st u u' : addedSlice s d st u = Ret u' → same_ue u u'.
Proof.
  unfold addedSlice. intros (l&El&E)%bind_inv. injection E as <-. split; [|done].
  intros [Hc Hs]. split; [|exact Hs]. by eapply append_counted.
Qed.

Lemma added_slices_same ss ds u u' : added_slices ss ds u = Ret u' → same_ue u u'.
Proof.
  revert ds u. induction ss as [|s ss IH]; intros ds u E; [by injection E as <-|]. destruct ds as [|d ds]; [done|].
  cbn in E. apply bind_inv in E as (v&Ev&E). etrans; [by eapply addedSlice_same|by eapply IH].
Qed.

Lemma CreateUeContext_same plmn imeisv ss ds u u' : CreateUeContext plmn imeisv ss ds u = Ret u' → same_ue u u'.
Proof.
  unfold CreateUeContext. intros (m&_&E)%bind_inv. etrans; [|by eapply added_slices_same].
  split; [|done]. intros [_ Hs]. split; [by left|exact Hs].
Qed.

Lemma CreatePduSession_same pid s d type qos arp fqi ul ip dl u err u' :
  CreatePduSession pid s d type qos arp fqi ul ip dl u = Ret (err, u') → same_ue u u'.
Proof.
  unfold CreatePduSession. set (u0 := with_pduSession_of _ u). intros E.
  assert (same_ue u u0) as H0 by done. apply bind_inv in E as ([found u1]&E1&E).
  assert (same_ue u0 u1) as H1.
  { unfold pduSessionNssai in E1. apply bind_inv in E1 as (r&_&E1). destruct r as [i|]; injection E1 as _ <-; [|done].
    split; [|done]. intros [Hc Hs]. split; [|exact Hs]. unfold counted, blen in *. cbn in *. by rewrite length_alter. }
  etrans; [exact H0|]. etrans; [exact H1|]. cbn beta iota in E. destruct found; cbn [negb] in E; [|by injection E as _ <-].
  apply bind_inv in E as (r&_&E). injection E as _ <-. split; [|done]. intros [Hc Hs]. split; [exact Hc|].
  apply map_Forall_insert_2; [done|exact Hs].
Qed.

Lemma SetQosIdOfSession_same pid q u : same_ue u (SetQosIdOfSession pid q u).
Proof.
  split; [|done]. intros [Hc Hs]. split; [exact Hc|]. intros i s. unfold SetQosIdOfSession. cbn.
  rewrite lookup_alter_Some. intros [(->&x&Ex&->)|[_ Es]]; [exact (Hs i x Ex)|exact (Hs i s Es)].
Qed.
Lemma qos_ids_same l u : same_ue u (foldl (λ u '(pid, q), SetQosIdOfSession pid q u) u l).
Proof. revert u. induction l as [|[i q] l IH]; intros u; [done|]. cbn. etrans; [apply SetQosIdOfSession_same|apply IH]. Qed.

Lemma AddedPlmn_same plmn a a' : AddedPlmn plmn a = Ret a' → same_amf a a'.
Proof.
  unfold AddedPlmn. intros (e&_&E)%bind_inv. apply bind_inv in E as (l&El&E). injection E as <-. split; [|done].
  intros [Hp Hs]. split; [by eapply append_counted|exact Hs].
Qed.
Lemma AddedSlice_same s d a a' : AddedSlice s d a = Ret a' → same_amf a a'.
Proof.
  unfold AddedSlice. intros (l&El&E)%bind_inv. injection E as <-. split; [|done].
  intros [Hp Hs]. split; [exact Hp|by eapply append_counted].
Qed.
Lemma added_plmn_slices_same l a a' : added_plmn_slices l a = Ret a' → same_amf a a'.
Proof.
  revert a. induction l as [|n l IH]; intros a E; [by injection E as <-|]. cbn in E. apply bind_inv in E as (b&Eb&E).
  etrans; [by eapply AddedSlice_same|by apply IH].
Qed.
Lemma plmn_items_same l a e a' e' : plmn_items l (a, e) = Ret (a', e') → same_amf a a'.
Proof.
  revert a e. induction l as [|i l IH]; intros a e E; [by injection E as <- _|]. cbn in E.
  apply bind_inv in E as (b&Eb&E). apply bind_inv in E as (c&Ec&E).
  etrans; [by eapply AddedPlmn_same|]. etrans; [by eapply added_plmn_slices_same|by eapply IH].
Qed.
Lemma ng_setup_ie_same ie a e a' e' : ng_setup_ie ie (a, e) = Ret (a', e') → same_amf a a'.
Proof.
  unfold ng_setup_ie. intros E.
  repeat case_match; simplify_eq; try (injection E as <- <-; done); try done. by eapply plmn_items_same.
Qed.
Lemma ng_setup_same l a e a' e' : forM l ng_setup_ie (a, e) = Ret (a', e') → same_amf a a'.
Proof.
  revert a e. induction l as [|ie l IH]; intros a e E; [by injection E as <- _|]. cbn in E.
  apply bind_inv in E as ([b f]&Eb&E). etrans; [by eapply ng_setup_ie_same|by eapply IH].
Qed.

Lemma same_ue_at h p u v u' : ues h !! p = Some u → ues h !! p = Some v → same_ue u u' → ue_ok v →
  ue_ok u' ∧ ranUeNgapId u' = ranUeNgapId v.
Proof. intros Eu Ev [Hok Hi] Hv. assert (u = v) as -> by congruence. auto. Qed.
Lemma same_amf_at h p a b a' : amfs h !! p = Some a → amfs h !! p = Some b → same_amf a a' → amf_ok b →
  amf_ok a' ∧ amfId a' = amfId b.
Proof. intros Ea Eb [Hok Hi] Hb. assert (a = b) as -> by congruence. auto. Qed.
Lemma qos_ids_ok l u : ue_ok u → let u' := foldl (λ u '(pid, q), SetQosIdOfSession pid q u) u l in
  ue_ok u' ∧ ranUeNgapId u' = ranUeNgapId u.
Proof. destruct (qos_ids_same l u). auto. Qed.
#[local] Hint Resolve qos_ids_ok : keeps.
Lemma ng_setup_ok h p l a b a' e e' st : amfs h !! p = Some a → amfs h !! p = Some b → forM l ng_setup_ie (a, e) = Ret (a', e') →
  amf_ok b → amf_ok (with_amfState st a') ∧ amfId (with_amfState st a') = amfId b.
Proof. intros Ea Eb E Hb. exact (same_amf_at h p a b a' Ea Eb (ng_setup_same _ _ _ _ _ E) Hb). Qed.
#[local] Hint Resolve ng_setup_ok : keeps.
#[local] Hint Resolve same_ue_at same_amf_at CreatePduSession_same CreateUeContext_same : keeps.

(** ** Handlers *)

Section Worlds.
Context {G : Type} `{Rand G} `{MapOrder} `{Host} `{NgapCodec}.
#[local] Abbreviation world := (GnbNgap.world (G:=G)).
#[local] Abbreviation Gn := (GnbNgap.Gn (G:=G)).
#[local] Abbreviation keepsW := (keeps (w_heap (G:=G))).
Implicit Types w : world.

Lemma keeps_on_heap {A} (m : H A) w : keepsH m (w_heap w) → keepsW (on_heap m) w.
Proof.
  intros Hm a w' E. unfold on_heap in E. destruct (m (w_heap w)) as [[b h]| |] eqn:Em; [|discriminate E..].
  injection E as <- <-. exact (Hm b h Em).
Qed.
Lemma keepsW_get_gnb {B} p (k : GNBContext → Gn B) w :
  (∀ g, gnbs (w_heap w) !! p = Some g → keepsW (k g) w) → keepsW (on_heap (get_gnb p) ≫= k) w.
Proof.
  intros Hk b w' E. unfold mbind, St_bind, on_heap, get_gnb in E. destruct (gnbs (w_heap w) !! p) as [g|]; [|discriminate E].
  destruct w. exact (Hk g eq_refl b w' E).
Qed.
Lemma keepsW_get_ue {B} p (k : GNBUe → Gn B) w :
  (∀ u, ues (w_heap w) !! p = Some u → keepsW (k u) w) → keepsW (on_heap (get_ue p) ≫= k) w.
Proof.
  intros Hk b w' E. unfold mbind, St_bind, on_heap, get_ue in E. destruct (ues (w_heap w) !! p) as [u|]; [|discriminate E].
  destruct w. exact (Hk u eq_refl b w' E).
Qed.
Lemma keepsW_get_amf {B} p (k : GNBAmf → Gn B) w :
  (∀ a, amfs (w_heap w) !! p = Some a → keepsW (k a) w) → keepsW (on_heap (get_amf p) ≫= k) w.
Proof.
  intros Hk b w' E. unfold mbind, St_bind, on_heap, get_amf in E. destruct (amfs (w_heap w) !! p) as [u|]; [|discriminate E].
  destruct w. exact (Hk u eq_refl b w' E).
Qed.
Lemma keepsW_get_world {A B} (f : world → A) (k : A → Gn B) w : keepsW (k (f w)) w → keepsW (get_world f ≫= k) w.
Proof. done. Qed.
(** A change of the other parts of the world. *)
Lemma keeps_other (f : world → world) w : (∀ v, w_heap (f v) = w_heap v) → heap_ok (w_heap w) →
  keepsW (λ v, Ret (tt, f v)) w.
Proof. intros Hf Hh a w' E. injection E as _ <-. rewrite Hf. by apply grows_refl. Qed.

Ltac keeps_world :=
  lazymatch goal with
  | |- keeps _ (on_heap (get_gnb _) ≫= _) _ => apply keepsW_get_gnb; intros ? ?
  | |- keeps _ (on_heap (get_ue _) ≫= _) _ => apply keepsW_get_ue; intros ? ?
  | |- keeps _ (on_heap (get_amf _) ≫= _) _ => apply keepsW_get_amf; intros ? ?
  | |- keeps _ (get_world _ ≫= _) _ => apply keepsW_get_world
  | |- keeps _ (on_heap _) _ => apply keeps_on_heap
  | |- keeps _ (report _ _) _ => apply keeps_on_heap, keepsH_emit
  | |- keeps _ (validated _) _ => apply (keeps_other (λ w, MkWorld (w_heap w) _ _ _ _)); [done|]
  | |- _ => keeps_step
  end; cbv beta.
Ltac keepsW_tac := repeat keeps_world; eauto with keeps.
#[local] Hint Resolve keeps_find keeps_active keeps_FindUeInOtherGnb keeps_NewGnBUe keeps_NewGnBAmf : keeps.

Lemma keeps_SendToUe ue message w : heap_ok (w_heap w) → keepsW (SendToUe ue message) w.
Proof. intros Hh. unfold SendToUe. keepsW_tac. Qed.

Lemma keeps_find_gnb_id conn l h : heap_ok h → keepsH (find_gnb_id conn l) h.
Proof. revert h. induction l as [|[i p] l IH]; intros h Hh; cbn [find_gnb_id]; keeps_tac. Qed.

Lemma keeps_send message conn stream w : heap_ok (w_heap w) → keepsW (sendToAmfOnStream message conn stream) w.
Proof.
  intros Hh. unfold sendToAmfOnStream. destruct conn as [conn|]; [|keepsW_tac].
  apply keeps_bind; [by apply keeps_on_heap, keeps_find_gnb_id|intros i w' _ Hg; carry Hg].
  apply keepsW_get_world, keeps_run. intros [[[? octets] m] g] _. destruct (EvalNgap _ _ _ _) as [[[drop ?] m'] g'].
  apply keeps_bind; [apply (keeps_other (λ w, MkWorld (w_heap w) m' g' (w_validation w) (w_release w))); done|].
  intros _ w'' _ Hg. carry Hg. destruct drop; keepsW_tac.
Qed.
#[local] Hint Resolve keeps_SendToUe keeps_send : keeps.

Lemma keeps_SendToAmF message conn w : heap_ok (w_heap w) → keepsW (SendToAmF message conn) w.
Proof. intros Hh. unfold SendToAmF. destruct (Decoder message) as [pdu err]. keepsW_tac. Qed.
#[local] Hint Resolve keeps_SendToAmF : keeps.

Lemma keeps_encode message pdu conn before w : heap_ok (w_heap w) → keepsW before w →
  keepsW (encode_and_send message pdu conn before) w.
Proof. intros Hh Hb. unfold encode_and_send. keepsW_tac. Qed.
Lemma keeps_try_send pdu conn w : heap_ok (w_heap w) → keepsW (try_send pdu conn) w.
Proof. intros Hh. unfold try_send. keepsW_tac. Qed.
#[local] Hint Resolve keeps_encode keeps_try_send : keeps.

Lemma keeps_the_ue gnb message missing ran k w : heap_ok (w_heap w) →
  (∀ ue, has_ue (w_heap w) ue → keepsW (k ue) w) → keepsW (the_ue gnb message missing ran k) w.
Proof.
  intros Hh Hk. unfold the_ue. apply keepsW_get_gnb. intros g Eg. destruct (GetGnbUe g ran) as [ue|] eqn:Eu; [|keepsW_tac].
  apply Hk, has_ran. exists ran. exact (g_ues _ _ (h_gnbs _ Hh gnb g Eg) ran ue Eu).
Qed.
Lemma keeps_if_ue gnb ran k w : heap_ok (w_heap w) →
  (∀ ue, has_ue (w_heap w) ue → keepsW (k ue) w) → keepsW (if_ue gnb ran k) w.
Proof.
  intros Hh Hk. unfold if_ue. apply keepsW_get_gnb. intros g Eg. destruct (GetGnbUe g ran) as [ue|] eqn:Eu; [|keepsW_tac].
  apply Hk, has_ran. exists ran. exact (g_ues _ _ (h_gnbs _ Hh gnb g Eg) ran ue Eu).
Qed.
Lemma keeps_same_amf_id ue message wrong amf k w : heap_ok (w_heap w) → keepsW k w → keepsW (same_amf_id ue message wrong amf k) w.
Proof. intros Hh Hk. unfold same_amf_id. keepsW_tac. Qed.

Lemma keeps_downlink gnb message w : heap_ok (w_heap w) → keepsW (HandlerDownlinkNasTransport gnb message) w.
Proof.
  intros Hh. unfold HandlerDownlinkNasTransport. keepsW_tac. apply keeps_the_ue; [done|]. intros ue Hu.
  keepsW_tac. apply keeps_same_amf_id; eauto with keeps.
Qed.

Lemma keeps_learn gnb a w : heap_ok (w_heap w) → keepsW (learn_upf gnb a) w.
Proof. intros Hh. unfold learn_upf. keepsW_tac. Qed.
Lemma keeps_create gnb ue pid s d v w : heap_ok (w_heap w) → has_ue (w_heap w) ue → keepsW (create_session gnb ue pid s d v) w.
Proof.
  intros Hh Hu. unfold create_session. keepsW_tac.
Qed.
#[local] Hint Resolve keeps_learn keeps_create : keeps.

Lemma keeps_piggybacked gnb ue l w : heap_ok (w_heap w) → has_ue (w_heap w) ue → keepsW (piggybacked gnb ue l) w.
Proof. revert w. induction l as [|i l IH]; intros w Hh Hu; cbn [piggybacked]; keepsW_tac. Qed.
#[local] Hint Resolve keeps_piggybacked : keeps.

Lemma keeps_context_response ue gnb w : heap_ok (w_heap w) → keepsW (SendInitialContextSetupResponse ue gnb) w.
Proof. intros Hh. unfold SendInitialContextSetupResponse. keepsW_tac. apply keeps_encode; keepsW_tac. Qed.
Lemma keeps_setup_response ue gnb pid w : heap_ok (w_heap w) → keepsW (SendPduSessionResourceSetupResponse ue gnb pid) w.
Proof. intros Hh. unfold SendPduSessionResourceSetupResponse. keepsW_tac. apply keeps_encode; keepsW_tac. Qed.
#[local] Hint Resolve keeps_context_response keeps_setup_response : keeps.

Lemma keeps_context gnb message w : heap_ok (w_heap w) → keepsW (HandlerInitialContextSetupRequest gnb message) w.
Proof.
  intros Hh. unfold HandlerInitialContextSetupRequest. keepsW_tac. apply keeps_the_ue; [done|]. intros ue Hu.
  apply keeps_same_amf_id; [done|]. keepsW_tac.
Qed.

Lemma keeps_tunnel gnb w : heap_ok (w_heap w) → keepsW (InitGTPTunnel gnb) w.
Proof. intros Hh. unfold InitGTPTunnel. keepsW_tac. Qed.
Lemma keeps_gateway gnb w : heap_ok (w_heap w) → keepsW (InitGatewayGnb gnb) w.
Proof. intros Hh. unfold InitGatewayGnb. keepsW_tac. Qed.
#[local] Hint Resolve keeps_tunnel keeps_gateway : keeps.

Lemma keeps_setup gnb message w : heap_ok (w_heap w) → keepsW (HandlerPduSessionResourceSetupRequest gnb message) w.
Proof.
  intros Hh. unfold HandlerPduSessionResourceSetupRequest. keepsW_tac. apply keeps_the_ue; [done|]. intros ue Hu.
  apply keeps_same_amf_id; [done|]. keepsW_tac.
Qed.

Lemma keeps_forward ue nas w : heap_ok (w_heap w) → keepsW (forward ue nas) w.
Proof. intros Hh. unfold forward. keepsW_tac. Qed.
Lemma keeps_release_response ue ids w : heap_ok (w_heap w) → keepsW (SendPduSessionResourceReleaseResponse ue ids) w.
Proof. intros Hh. unfold SendPduSessionResourceReleaseResponse. keepsW_tac. Qed.
Lemma keeps_modify_response ue ids w : heap_ok (w_heap w) → keepsW (SendPDUSessionResourceModifyResponse ue ids) w.
Proof. intros Hh. unfold SendPDUSessionResourceModifyResponse. keepsW_tac. Qed.
#[local] Hint Resolve keeps_forward keeps_release_response keeps_modify_response : keeps.

Lemma keeps_release_command gnb message w : heap_ok (w_heap w) → keepsW (HandlerPduSessionResourceReleaseCommand gnb message) w.
Proof.
  intros Hh. unfold HandlerPduSessionResourceReleaseCommand. keepsW_tac. apply keeps_if_ue; [done|]. intros ue Hu. keepsW_tac.
Qed.
Lemma keeps_modify gnb message w : heap_ok (w_heap w) → keepsW (HandlerPDUSessionResourceModifyRequest gnb message) w.
Proof.
  intros Hh. unfold HandlerPDUSessionResourceModifyRequest. keepsW_tac. apply keeps_if_ue; [done|]. intros ue Hu. keepsW_tac.
Qed.

Lemma keeps_ng_setup amf gnb message w : heap_ok (w_heap w) → keepsW (HandlerNgSetupResponse amf gnb message) w.
Proof.
  intros Hh. unfold HandlerNgSetupResponse. keepsW_tac.
Qed.
Lemma keeps_ng_failure amf gnb message w : heap_ok (w_heap w) → keepsW (HandlerNgSetupFailure amf gnb message) w.
Proof.
  intros Hh. unfold HandlerNgSetupFailure. keepsW_tac. unfold SignalConnLoss. destruct (connLossOnce _); eauto with keeps.
Qed.

Lemma keeps_page l w : heap_ok (w_heap w) → keepsW (page l) w.
Proof. revert w. induction l as [|[i p] l IH]; intros w Hh; cbn [page]; keepsW_tac. Qed.
#[local] Hint Resolve keeps_page : keeps.
Lemma keeps_paging gnb message w : heap_ok (w_heap w) → keepsW (HandlerPaging gnb message) w.
Proof. intros Hh. unfold HandlerPaging. keepsW_tac. Qed.

Lemma keeps_each {A} (f : A → Gn unit) l w : heap_ok (w_heap w) →
  (∀ x w, heap_ok (w_heap w) → keepsW (f x) w) → keepsW (each f l) w.
Proof. intros Hh Hf. revert w Hh. induction l as [|x l IH]; intros w Hh; cbn [each]; keepsW_tac. Qed.
Lemma keeps_switched gnb ran item w : heap_ok (w_heap w) → keepsW (switched_item gnb ran item) w.
Proof. intros Hh. unfold switched_item. keepsW_tac. apply keeps_if_ue; [done|]. intros ue Hu. keepsW_tac. Qed.
#[local] Hint Resolve keeps_each keeps_switched : keeps.
Lemma keeps_switch_ies gnb l ran amf w : heap_ok (w_heap w) → keepsW (switch_ies gnb l ran amf) w.
Proof. revert ran amf w. induction l as [|ie l IH]; intros ran amf w Hh; cbn [switch_ies]; keepsW_tac. Qed.
Lemma keeps_send_xn gnb ip port message w : heap_ok (w_heap w) → keepsW (send_xn gnb ip port message) w.
Proof. intros Hh. unfold send_xn. keepsW_tac. Qed.
#[local] Hint Resolve keeps_switch_ies keeps_send_xn : keeps.
Lemma keeps_path_switch gnb message w : heap_ok (w_heap w) → keepsW (HandlerPathSwitchRequestAcknowledge gnb message) w.
Proof.
  intros Hh. unfold HandlerPathSwitchRequestAcknowledge. keepsW_tac. apply keeps_if_ue; [done|]. intros ue Hu. keepsW_tac.
Qed.

Lemma keeps_handover gnb message w : heap_ok (w_heap w) → keepsW (HandlerHandoverRequest gnb message) w.
Proof. intros Hh. unfold HandlerHandoverRequest. keepsW_tac. Qed.
Lemma keeps_command gnb message w : heap_ok (w_heap w) → keepsW (HandlerHandoverCommand gnb message) w.
Proof. intros Hh. unfold HandlerHandoverCommand. keepsW_tac. apply keeps_if_ue; [done|]. intros ue Hu. keepsW_tac. Qed.

Lemma keeps_drop gnb e w : heap_ok (w_heap w) → keepsW (drop_session gnb e) w.
Proof. intros Hh. unfold drop_session. keepsW_tac. Qed.
#[local] Hint Resolve keeps_drop : keeps.
Lemma keeps_release_ue gnb ue w : heap_ok (w_heap w) → keepsW (release_ue gnb ue) w.
Proof. intros Hh. unfold release_ue. keepsW_tac. Qed.
#[local] Hint Resolve keeps_release_ue : keeps.
Lemma keeps_release gnb message w : heap_ok (w_heap w) → keepsW (HandlerUeContextReleaseCommand gnb message) w.
Proof. intros Hh. unfold HandlerUeContextReleaseCommand. keepsW_tac; apply keeps_if_ue; eauto with keeps. Qed.
#[local] Hint Resolve keeps_downlink keeps_context keeps_setup keeps_release_command keeps_modify keeps_ng_setup keeps_ng_failure
  keeps_paging keeps_path_switch keeps_handover keeps_command keeps_release : keeps.

Lemma keeps_dispatch amf gnb message w : heap_ok (w_heap w) → keepsW (GnbNgap.Dispatch amf gnb message) w.
Proof. intros Hh. unfold GnbNgap.Dispatch. destruct (Decoder message) as [pdu err]. keepsW_tac. Qed.

(** *** The side of the UEs *)

Lemma keeps_xn_trigger ue message gnb w : heap_ok (w_heap w) → keepsW (handleXnHandoverTrigger ue message gnb) w.
Proof. intros Hh. unfold handleXnHandoverTrigger. keepsW_tac. Qed.
Lemma keeps_n2_trigger ue message gnb w : heap_ok (w_heap w) → keepsW (handleN2HandoverTrigger ue message gnb) w.
Proof. intros Hh. unfold handleN2HandoverTrigger. keepsW_tac. Qed.
Lemma keeps_target_trigger ue message gnb w : heap_ok (w_heap w) → keepsW (handleTargetAccessTrigger ue message gnb) w.
Proof. intros Hh. unfold handleTargetAccessTrigger. keepsW_tac. Qed.
Lemma keeps_switch_trigger ue message gnb w : heap_ok (w_heap w) → keepsW (handlePathSwitchTrigger ue message gnb) w.
Proof. intros Hh. unfold handlePathSwitchTrigger. keepsW_tac. Qed.
#[local] Hint Resolve keeps_xn_trigger keeps_n2_trigger keeps_target_trigger keeps_switch_trigger : keeps.
Lemma keeps_triggered ue message gnb w : heap_ok (w_heap w) → keepsW (triggered ue message gnb) w.
Proof. intros Hh. unfold triggered. keepsW_tac. Qed.
#[local] Hint Resolve keeps_triggered : keeps.
Lemma keeps_DispatchUe ue message gnb w : heap_ok (w_heap w) → keepsW (DispatchUe ue message gnb) w.
Proof.
  intros Hh. unfold DispatchUe, HandlerUeInitialized, HandlerUeOngoing, HandlerUeReady. keepsW_tac.
Qed.
#[local] Hint Resolve keeps_DispatchUe : keeps.
Lemma keeps_receive gnb ue conn message w : heap_ok (w_heap w) → keepsW (receive_ue gnb ue conn message) w.
Proof. intros Hh. unfold receive_ue, active_ue. keepsW_tac. Qed.
Lemma keeps_accept gnb conn w : heap_ok (w_heap w) → keepsW (accept gnb conn) w.
Proof. intros Hh. unfold accept. keepsW_tac. Qed.
Lemma keeps_xn gnb data ip port w : heap_ok (w_heap w) → keepsW (processXnMessage gnb data ip port) w.
Proof. intros Hh. unfold processXnMessage. keepsW_tac. Qed.
Lemma keeps_from_upf gnb teid buf n w : heap_ok (w_heap w) → keepsW (from_upf gnb teid buf n) w.
Proof. intros Hh. unfold from_upf. keepsW_tac. Qed.
Lemma keeps_from_ue gnb src packet w : heap_ok (w_heap w) → keepsW (from_ue gnb src packet) w.
Proof. intros Hh. unfold from_ue. keepsW_tac. Qed.

Lemma keeps_loop_back pdu k w : heap_ok (w_heap w) → (∀ p w, heap_ok (w_heap w) → keepsW (k p) w) → keepsW (loop_back pdu k) w.
Proof. intros Hh Hk. unfold loop_back. destruct (Encoder pdu) as [octets|]; [|keepsW_tac]. destruct (Decoder octets). keepsW_tac. Qed.

(** *** Start and end *)

Lemma grows_active f h : heap_ok h → map_Forall (λ _ p, is_Some (gnbs h !! p)) (f (ActiveGNBs h)) →
  grows h (with_ActiveGNBs (f (ActiveGNBs h)) h).
Proof.
  intros [H1' H2' H3' H4'] Hf. split; [|done..]. split; [done|done| |exact Hf].
  intros q g E. apply (gnb_ok_grows h); [done..|]. exact (H3' q g E).
Qed.

Lemma keeps_NewRan p i mc mn t s d ip ipd port portd h : heap_ok h →
  keepsH (NewRanGnbContext p i mc mn t s d ip ipd port portd) h.
Proof.
  intros Hh b h' E. unfold NewRanGnbContext, mbind, St_bind in E. set (f := λ g : GNBContext, _) in E.
  unfold set_gnb in E. destruct (gnbs h !! p) as [g|] eqn:Eg; [|discriminate E]. injection E as _ <-.
  assert (grows h (put_gnb p (f g) h)) as Hg.
  { apply grows_put_gnb; [done|done|]. apply (gnb_ok_pools _ g); [done..|]. by apply (h_gnbs h Hh p). }
  eapply grows_trans; [exact Hg|]. apply (grows_active <[i := p]> (put_gnb p (f g) h)); [apply Hg|].
  apply map_Forall_insert_2; [by rewrite gnbs_put_gnb|]. apply (h_active _ (gr_ok _ _ Hg)).
Qed.

Lemma keeps_InitConn amf gnb w : heap_ok (w_heap w) → keepsW (GnbNas.InitConn amf gnb) w.
Proof. intros Hh. unfold GnbNas.InitConn. keepsW_tac. Qed.
Lemma keeps_InitServer gnb w : heap_ok (w_heap w) → keepsW (InitServer gnb) w.
Proof. intros Hh. unfold InitServer. keepsW_tac. Qed.
Lemma keeps_StartXn gnb w : heap_ok (w_heap w) → keepsW (StartXnListener gnb) w.
Proof. intros Hh. unfold StartXnListener. keepsW_tac. Qed.
Lemma keeps_setup_request gnb amf w : heap_ok (w_heap w) → keepsW (SendNgSetupRequest gnb amf) w.
Proof. intros Hh. unfold SendNgSetupRequest. keepsW_tac. Qed.
#[local] Hint Resolve keeps_NewRan keeps_InitConn keeps_InitServer keeps_StartXn keeps_setup_request : keeps.
Lemma keeps_InitGnb c gnb w : heap_ok (w_heap w) → keepsW (InitGnb c gnb) w.
Proof. intros Hh. unfold InitGnb. keepsW_tac. Qed.

Lemma keeps_Terminate p h : heap_ok h → keepsH (GnbContext.Terminate p) h.
Proof.
  intros Hh. unfold GnbContext.Terminate. keeps_tac. intros b h' E. injection E as _ <-.
  apply (grows_active (delete _)); [done|]. by apply map_Forall_delete, h_active.
Qed.

(** *** Steps *)

(** What can happen to the gNBs of a process.  The messages of the simulated
    AMF may come at any time. *)
Inductive gnb_step (w : world) : world → Prop :=
| step_init c gnb r w' : InitGnb c gnb w = Ret (r, w') → gnb_step w w'
| step_amf amf gnb message w' : GnbNgap.Dispatch amf gnb message w = Ret (tt, w') → gnb_step w w'
| step_accept gnb conn r w' : accept gnb conn w = Ret (r, w') → gnb_step w w'
| step_ue gnb ue conn message w' : receive_ue gnb ue conn message w = Ret (tt, w') → gnb_step w w'
| step_xn gnb data ip port w' : processXnMessage gnb data ip port w = Ret (tt, w') → gnb_step w w'
| step_from_upf gnb teid buf n r w' : from_upf gnb teid buf n w = Ret (r, w') → gnb_step w w'
| step_from_ue gnb src packet r w' : from_ue gnb src packet w = Ret (r, w') → gnb_step w w'
| step_mock_request target ran amf pid w' :
    loop_back (GetHandoverRequest ran amf pid) (HandlerHandoverRequest target) w = Ret (tt, w') → gnb_step w w'
| step_mock_command src ran amf w' :
    loop_back (GetHandoverCommand ran amf) (HandlerHandoverCommand src) w = Ret (tt, w') → gnb_step w w'
| step_mock_release src ran amf w' :
    loop_back (GetUEContextReleaseCommand ran amf) (HandlerUeContextReleaseCommand src) w = Ret (tt, w') → gnb_step w w'
| step_mock_switch target ran amf pid w' : mock_path_switch target ran amf pid w = Ret (tt, w') → gnb_step w w'
| step_terminate gnb w' : on_heap (GnbContext.Terminate gnb) w = Ret (tt, w') → gnb_step w w'.

Lemma step_grows w w' : gnb_step w w' → heap_ok (w_heap w) → grows (w_heap w) (w_heap w').
Proof.
  intros Hs Hh. destruct Hs as [| | | | | | | | | | |? ? E]; [| | | | | | | | | | |apply (keeps_on_heap _ _ (keeps_Terminate _ _ Hh) _ _ E)].
  - by eapply keeps_InitGnb.
  - by eapply keeps_dispatch.
  - by eapply keeps_accept.
  - by eapply keeps_receive.
  - by eapply keeps_xn.
  - by eapply keeps_from_upf.
  - by eapply keeps_from_ue.
  - eapply keeps_loop_back; [done| |done]. eauto with keeps.
  - eapply keeps_loop_back; [done| |done]. eauto with keeps.
  - eapply keeps_loop_back; [done| |done]. eauto with keeps.
  - unfold mock_path_switch in *. eapply keeps_loop_back; [done| |done]. eauto with keeps.
Qed.

(** [GNBContext{}] *)
Definition blank_gnb : GNBContext :=
  MkGnb (MkData "" 0 "" 0 None "" None) (MkControl "" "" "" "" "" 0 None None "" 0 "" None 0 "")
    ∅ ∅ ∅ ∅ "" "" 0 0 0 0 None false "".

(** Nothing but gNBs not started yet. *)
Definition initial (w : world) : Prop :=
  let h := w_heap w in
  map_Forall (λ _ g, g = blank_gnb) (gnbs h) ∧ ues h = ∅ ∧ amfs h = ∅ ∧ ActiveGNBs h = ∅.

Lemma initial_ok w : initial w → heap_ok (w_heap w).
Proof.
  intros (Hg&Hu&Ha&Hn). split; rewrite ?Hu, ?Ha; [apply map_Forall_empty..| |].
  - intros p g E. rewrite (Hg p g E). split; apply map_Forall_empty.
  - unfold active_ok. rewrite Hn. apply map_Forall_empty.
Qed.

Lemma reachable_grows w w' : rtc gnb_step w w' → heap_ok (w_heap w) → grows (w_heap w) (w_heap w').
Proof.
  induction 1 as [w|w1 w2 w3 Hs _ IH]; intros Hh; [by apply grows_refl|].
  pose proof (step_grows _ _ Hs Hh) as Hg. eapply grows_trans; [exact Hg|]. apply IH, Hg.
Qed.

(** C4. In every world that gNBs reach from their start, by any sequence of
    messages of AMFs, UEs and other gNBs, packets, new UEs, hand-overs and
    terminations, each pool entry leads to an existing object; a UE is in the
    UE pool under its own RAN identifier, an AMF under its own; a UE's slices
    and an AMF's lists have the length kept for them; a session is stored under
    its identifier; a registered gNB exists.  From one such world to a later one
    no object disappears and no identifier changes. *)
Theorem gnb_heap_invariant w0 w w' : initial w0 → rtc gnb_step w0 w → rtc gnb_step w w' →
  heap_ok (w_heap w) ∧ grows (w_heap w) (w_heap w').
Proof.
  intros Hi Hw Hw'. pose proof (gr_ok _ _ (reachable_grows _ _ Hw (initial_ok _ Hi))) as Hh.
  split; [exact Hh|]. by apply reachable_grows.
Qed.
End Worlds.

(** ** Example: a gNB that starts and accepts a UE *)

Definition demo_start : world (G:=Z) :=
  MkWorld (MkHeap {[0 := blank_gnb]} ∅ ∅ ∅ 1 []) GlobalChaosManager 7 ResetValidationStats "15".
Definition demo_conf : GnbConfig :=
  MkGnbConfig "000001" "208" "93" "000001" "01" "010203" "127.0.0.1" "127.0.0.1" 9487 2152 "unix" 9488 "v128" 1 "127.0.0.1" 38412.
Definition after {A} (r : outcome (A * world (G:=Z))) : world (G:=Z) := match r with Ret (_, w) => w | _ => demo_start end.

Lemma gnb_heap_invariant_witness :
  let H1 := key_order in let H2 := demo_host in let H3 := demo_codec (MkNgap 0 None) in
  let w := after (InitGnb demo_conf 0 demo_start) in let w' := after (accept 0 4 w) in
  (ues (w_heap w') !! 2 = Some (default blank_ue (ues (w_heap w') !! 2)) ∧
   (uePool <$> gnbs (w_heap w') !! 0) = Some {[1 := 2]}) ∧
  heap_ok (w_heap w) ∧ grows (w_heap w) (w_heap w').
Proof.
  intros H1 H2 H3 w w'. split; [by vm_compute|].
  apply (gnb_heap_invariant demo_start w w').
  - split_and!; [|reflexivity..]. by apply map_Forall_singleton.
  - apply rtc_once. apply (step_init _ demo_conf 0 (Some 1)). vm_compute. reflexivity.
  - apply rtc_once. apply (step_accept _ 0 4 (Some 2)). vm_compute. reflexivity.
Defined.
