(* ===== verification/GnbRelay.v ===== *)
(** * Relay of NAS messages

    The way of a NAS message from the AMF to the UE and back, with the frames
    the gNB puts in between, up to what the UE does with them, and the
    association stream each message takes. *)

From S2P Require Import Prelude AperCodec NasMessage UeContext UeNas UeNasLive.
From S2P Require Import GoStrings GnbContext Ngap Chaos GnbNgap GnbNas GnbProps GnbWp GnbInv GnbDemo.

#[local] Open Scope Z_scope.
#[local] Open Scope go_scope.

Section Relay.
Context {G : Type} `{Rand G} `{MapOrder} `{Host} `{NgapCodec}.
#[local] Abbreviation world := (GnbNgap.world (G:=G)).

(** ** Downlink *)

Definition downlink_pdu (l : list IE) : NGAPPDU :=
  initiating ProcedureCodeDownlinkNASTransport CriticalityPresentIgnore MDownlinkNASTransport l.
Definition downlink_message (amf ran : Z) (nas : list Z) : NGAPPDU :=
  downlink_pdu [reject ProtocolIEIDAMFUENGAPID (AMFUENGAPID amf); reject ProtocolIEIDRANUENGAPID (RANUENGAPID ran);
    reject ProtocolIEIDNASPDU (NASPDU nas)].

(** An element that names a mandatory value and does not hold it, and what the
    gNB reports then. *)
Inductive lacks : IE → string → Prop :=
  | no_amf_id ie : ie_Id ie = ProtocolIEIDAMFUENGAPID → (∀ v, ie_Value ie ≠ Some (AMFUENGAPID v)) → lacks ie "AMF UE NGAP ID is missing"
  | no_ran_id ie : ie_Id ie = ProtocolIEIDRANUENGAPID → (∀ v, ie_Value ie ≠ Some (RANUENGAPID v)) → lacks ie "RAN UE NGAP ID is missing"
  | no_nas_pdu ie : ie_Id ie = ProtocolIEIDNASPDU → (∀ v, ie_Value ie ≠ Some (NASPDU v)) → lacks ie "NAS PDU is missing".
Definition sound (ie : IE) : Prop := ∀ e, ¬ lacks ie e.

(** What the last element of this kind holds, or [d] if there is none. *)
Definition last_value {A} (id : Z) (get : IE → option A) (d : A) (l : list IE) : A :=
  default d (last (omap (λ ie, if ie_Id ie =? id then get ie else None) l)).

Lemma last_value_cons {A} id (get : IE → option A) d ie l :
  last_value id get d (ie :: l) = last_value id get (if ie_Id ie =? id then default d (get ie) else d) l.
Proof.
  unfold last_value. cbn [omap list_omap]. destruct (ie_Id ie =? id); [|done]. destruct (get ie) as [v|]; [|done].
  rewrite last_cons. by destruct (last _).
Qed.

Lemma sound_amf ie : sound ie → ie_Id ie = ProtocolIEIDAMFUENGAPID → ∃ v, amf_id ie = Some v.
Proof.
  intros Hs Hi. unfold amf_id. destruct (ie_Value ie) as [[]|] eqn:E; eauto; destruct (Hs "AMF UE NGAP ID is missing"%string); constructor; [done|congruence..].
Qed.
Lemma sound_ran ie : sound ie → ie_Id ie = ProtocolIEIDRANUENGAPID → ∃ v, ran_id ie = Some v.
Proof.
  intros Hs Hi. unfold ran_id. destruct (ie_Value ie) as [[]|] eqn:E; eauto; destruct (Hs "RAN UE NGAP ID is missing"%string); constructor; [done|congruence..].
Qed.
Lemma sound_nas ie : sound ie → ie_Id ie = ProtocolIEIDNASPDU → ∃ v, nas_pdu ie = Some v.
Proof.
  intros Hs Hi. unfold nas_pdu. destruct (ie_Value ie) as [[]|] eqn:E; eauto; destruct (Hs "NAS PDU is missing"%string); constructor; [done|congruence..].
Qed.

Lemma sound_element ie ran amf nas : sound ie → downlink_ie ie (ran, amf, nas) =
  Ret (inl (if ie_Id ie =? ProtocolIEIDRANUENGAPID then default ran (ran_id ie) else ran,
    if ie_Id ie =? ProtocolIEIDAMFUENGAPID then default amf (amf_id ie) else amf,
    if ie_Id ie =? ProtocolIEIDNASPDU then default nas (nas_pdu ie) else nas)).
Proof.
  intros Hs. unfold downlink_ie. destruct (Z.eqb_spec (ie_Id ie) ProtocolIEIDAMFUENGAPID) as [Ei|_].
  { destruct (sound_amf ie Hs Ei) as [v ->]. by rewrite Ei. }
  destruct (Z.eqb_spec (ie_Id ie) ProtocolIEIDRANUENGAPID) as [Ei|_].
  { destruct (sound_ran ie Hs Ei) as [v ->]. by rewrite Ei. }
  destruct (Z.eqb_spec (ie_Id ie) ProtocolIEIDNASPDU) as [Ei|_]; [|done]. by destruct (sound_nas ie Hs Ei) as [v ->].
Qed.
Lemma scan_sound l ran amf nas : Forall sound l → scan downlink_ie l (ran, amf, nas) =
  Ret (inl (last_value ProtocolIEIDRANUENGAPID ran_id ran l, last_value ProtocolIEIDAMFUENGAPID amf_id amf l,
    last_value ProtocolIEIDNASPDU nas_pdu nas l)).
Proof.
  intros H. revert ran amf nas. induction H as [|ie l Hs _ IH]; intros ran amf nas; [done|].
  rewrite !last_value_cons. cbn [scan]. rewrite sound_element by done. apply IH.
Qed.
Lemma lacks_error ie e s : lacks ie e → downlink_ie ie s = Ret (inr e).
Proof.
  destruct s as [[ran amf] nas]. unfold downlink_ie, amf_id, ran_id, nas_pdu.
  intros [ie' Ei Hv|ie' Ei Hv|ie' Ei Hv]; rewrite Ei; cbn [Z.eqb]; (destruct (ie_Value ie') as [[]|] eqn:E; try reflexivity; by edestruct Hv).
Qed.
Lemma scan_lacks before ie after e ran amf nas : Forall sound before → lacks ie e →
  scan downlink_ie (before ++ ie :: after) (ran, amf, nas) = Ret (inr e).
Proof.
  intros Hb He. assert (∀ l s, scan downlink_ie (l ++ ie :: after) s =
    match scan downlink_ie l s with Ret (inl s') => scan downlink_ie (ie :: after) s' | r => r end) as Happ.
  { induction l as [|x l IH]; intros s; [done|]. cbn [scan app]. destruct (downlink_ie x s) as [[s'|e']|e'|]; [apply IH|done..]. }
  rewrite Happ, scan_sound by done. cbn [scan]. by rewrite (lacks_error _ e).
Qed.

(** The frame that tells the UE its AMF identifier. *)
Definition id_frame (amf : Z) : list Z := [0x00; 0x03] ++ be_bytes 8 amf.

Lemma wp_SetAmfUeId ue a u conn h (Q : unit → heap → Prop) :
  ues h !! ue = Some u → unixSocketConnection u = Some conn →
  Q tt (log (ToUe conn (id_frame a)) (put_ue ue (with_amfUeNgapId a u) h)) → wp (SetAmfUeId ue a) h Q.
Proof.
  intros Eu Ec HQ. unfold SetAmfUeId. wp_steps. cbn [unixSocketConnection with_amfUeNgapId]. rewrite Ec. wp_steps. exact HQ.
Qed.

Lemma wp_downlink gnb amf ran nas g ue (w : world) (Q : unit → world → Prop) :
  gnbs (w_heap w) !! gnb = Some g → uePool g !! ran = Some ue →
  wp (u ← on_heap (get_ue ue);
      if amfUeNgapId u =? 0 then _ ← on_heap (SetAmfUeId ue amf); SendToUe ue nas
      else same_amf_id ue "DownlinkNasTransport" "AMF UE NGAP ID is incorrect" amf (SendToUe ue nas)) w Q →
  wp (HandlerDownlinkNasTransport gnb (downlink_message amf ran nas)) w Q.
Proof.
  intros Eg Ep HQ. unfold HandlerDownlinkNasTransport. wp_steps. eapply wp_run; [reflexivity|].
  wp_steps. eapply wp_run; [reflexivity|]. cbv beta iota. unfold the_ue, GetGnbUe. wp_steps. rewrite Ep. exact HQ.
Qed.

(** A call that comes out one way. *)
Lemma wp_exact {S A} (m : St S A) s a t : wp m s (λ b s', b = a ∧ s' = t) → m s = Ret (a, t).
Proof. intros (b&s'&E&->&->)%wp_result. exact E. Qed.

(** What the handler does with a message whose elements hold their values. *)
Lemma downlink_known gnb l g (w : world) : gnbs (w_heap w) !! gnb = Some g → Forall sound l →
  let amf := last_value ProtocolIEIDAMFUENGAPID amf_id 0 l in let nas := last_value ProtocolIEIDNASPDU nas_pdu [] l in
  HandlerDownlinkNasTransport gnb (downlink_pdu l) w =
  match uePool g !! last_value ProtocolIEIDRANUENGAPID ran_id 0 l with
  | None => Ret (tt, put_heap (log (Reported "DownlinkNasTransport" "RAN UE NGAP ID is incorrect") (w_heap w)) w)
  | Some ue => (u ← on_heap (get_ue ue);
      if amfUeNgapId u =? 0 then _ ← on_heap (SetAmfUeId ue amf); SendToUe ue nas
      else same_amf_id ue "DownlinkNasTransport" "AMF UE NGAP ID is incorrect" amf (SendToUe ue nas)) w
  end.
Proof.
  intros Eg Hl amf nas. unfold HandlerDownlinkNasTransport, run, mbind, St_bind.
  change (elements_of _ _ (downlink_pdu l)) with (Ret l). cbn [mbind outcome_mbind]. rewrite scan_sound by done.
  unfold the_ue, mbind, St_bind, outcome_mbind. cbv beta iota.
  assert (on_heap (get_gnb gnb) w = Ret (g, w)) as -> by (destruct w; unfold on_heap, get_gnb; cbn in *; by rewrite Eg).
  unfold GetGnbUe. by destruct (uePool g !! _).
Qed.

Lemma bind_at {S A B} (m : St S A) (k : A → St S B) s a t : m s = Ret (a, t) → (m ≫= k) s = k a t.
Proof. intros E. unfold mbind, St_bind. by rewrite E. Qed.
Lemma SendToUe_panics ue u nas (w : world) : ues (w_heap w) !! ue = Some u → unixSocketConnection u = None → SendToUe ue nas w = Panic.
Proof. intros Eu En. unfold SendToUe. etrans; [apply bind_at; apply wp_exact; wp_steps; done|cbv beta]. by rewrite En. Qed.
Lemma unconnected_panics ue u amf nas (w : world) : ues (w_heap w) !! ue = Some u → unixSocketConnection u = None →
  amfUeNgapId u = 0 ∨ amfUeNgapId u = amf →
  (u ← on_heap (get_ue ue);
   if amfUeNgapId u =? 0 then _ ← on_heap (SetAmfUeId ue amf); SendToUe ue nas
   else same_amf_id ue "DownlinkNasTransport" "AMF UE NGAP ID is incorrect" amf (SendToUe ue nas)) w = Panic.
Proof.
  intros Eu En Ha. etrans; [apply bind_at; apply wp_exact; wp_steps; done|cbv beta]. destruct (decide (amfUeNgapId u = 0)) as [E0|E0].
  - rewrite (proj2 (Z.eqb_eq _ _) E0). etrans; [apply bind_at; apply wp_exact; unfold SetAmfUeId; wp_steps;
      cbn [unixSocketConnection with_amfUeNgapId]; rewrite En; wp_steps; done|cbv beta].
    eapply (SendToUe_panics _ (with_amfUeNgapId amf u)); [heap_eq|exact En].
  - destruct Ha as [?|Ha]; [done|]. rewrite (proj2 (Z.eqb_neq _ _) E0). unfold same_amf_id. etrans; [apply bind_at; apply wp_exact; wp_steps; done|cbv beta].
    rewrite (proj2 (Z.eqb_eq _ _) Ha). by apply (SendToUe_panics _ u).
Qed.

(** C26. A Downlink NAS Transport with any elements.  The first element that
    does not hold its value is reported, and nothing else happens.  Else the last
    element of each kind counts (0, 0 and no octets without one): an
    unknown RAN identifier changes nothing but a report; the first message for a
    UE binds it to the AMF identifier, and tells the UE so before the NAS
    message; a later one passes the NAS message on if it has the same
    identifier, and otherwise changes nothing but a report.  For a UE that
    has no connection to the gNB, a message to be passed on is a panic. *)
Theorem gnb_downlink_relay gnb l g (w : world) : gnbs (w_heap w) !! gnb = Some g →
  let run := HandlerDownlinkNasTransport gnb (downlink_pdu l) w in
  let reported e := Ret (tt, put_heap (log (Reported "DownlinkNasTransport" e) (w_heap w)) w) in
  let amf := last_value ProtocolIEIDAMFUENGAPID amf_id 0 l in
  let ran := last_value ProtocolIEIDRANUENGAPID ran_id 0 l in
  let nas := last_value ProtocolIEIDNASPDU nas_pdu [] l in
  (∀ before ie after e, l = before ++ ie :: after → Forall sound before → lacks ie e → run = reported e) ∧
  (Forall sound l → uePool g !! ran = None → run = reported "RAN UE NGAP ID is incorrect"%string) ∧
  (∀ ue u, Forall sound l → uePool g !! ran = Some ue → ues (w_heap w) !! ue = Some u →
    (∀ conn, unixSocketConnection u = Some conn →
      (amfUeNgapId u = 0 → run = Ret (tt, put_heap (log (ToUe conn nas) (log (ToUe conn (id_frame amf))
        (put_ue ue (with_amfUeNgapId amf u) (w_heap w)))) w)) ∧
      (amfUeNgapId u ≠ 0 → amfUeNgapId u = amf → run = Ret (tt, put_heap (log (ToUe conn nas) (w_heap w)) w))) ∧
    (unixSocketConnection u = None → amfUeNgapId u = 0 ∨ amfUeNgapId u = amf → run = Panic) ∧
    (amfUeNgapId u ≠ 0 → amfUeNgapId u ≠ amf → run = reported "AMF UE NGAP ID is incorrect"%string)).
Proof.
  intros Eg run reported amf ran nas. split; [|split].
  - intros before ie after e -> Hb He. unfold run, HandlerDownlinkNasTransport. apply wp_exact. wp_steps.
    eapply wp_run; [reflexivity|]. wp_steps. eapply wp_run; [by apply scan_lacks|]. wp_steps. done.
  - intros Hl En. unfold run. rewrite (downlink_known _ _ g) by done. fold ran. by rewrite En.
  - intros ue u Hl Ep Eu. unfold run. rewrite (downlink_known _ _ g) by done. fold ran amf nas. rewrite Ep.
    split; [intros conn Ec; split; [intros Ea|intros Ea Ea']|split; [intros En Ea|intros Ea Ea']].
    + apply wp_exact. wp_steps. rewrite (proj2 (Z.eqb_eq _ _) Ea). wp_steps. eapply wp_SetAmfUeId; [done|done|]. wp_steps.
      eapply wp_SendToUe; [heap_eq|done|]. by autorewrite with heap.
    + apply wp_exact. wp_steps. rewrite (proj2 (Z.eqb_neq _ _) Ea). unfold same_amf_id. wp_steps. rewrite Ea', Z.eqb_refl.
      by eapply wp_SendToUe.
    + by apply (unconnected_panics _ u).
    + apply wp_exact. wp_steps. rewrite (proj2 (Z.eqb_neq _ _) Ea). unfold same_amf_id. wp_steps.
      rewrite (proj2 (Z.eqb_neq _ _) Ea'). wp_steps. done.
Qed.

(** ** The UE at the other end *)

(** What a UE does with the frames of the link, one after the other. *)
Section Ue.
Context {GU : Type} `{Rand GU} (cmac_sum : list Z → list Z → outcome (list Z)).
Context (range : gmap Z UeContext.PDUSession → list (Z * UeContext.PDUSession)).
Context (netlink : netop → bool) (dial : string → nat → option Z).
#[local] Abbreviation ue_reads := (UeNas.DispatchState cmac_sum range netlink dial).

Lemma s64_be_nat a : 0 ≤ a < 2 ^ 63 → s64 (be_nat (be_bytes 8 a)) = a.
Proof. intros Ha. rewrite be_nat_bytes by lia. apply s64_small. lia. Qed.

Lemma ue_reads_id a (v : UeNas.world (G:=GU)) : 0 ≤ a < 2 ^ 63 →
  ue_reads (id_frame a) v = Ret (tt, with_ue (UeContext.SetAmfUeId a (w_ue v)) v).
Proof.
  intros Ha. rewrite <- (s64_be_nat a Ha) at 2. reflexivity.
Qed.
Lemma ue_reads_joined a x rest (v : UeNas.world (G:=GU)) : ue_reads (id_frame a ++ x :: rest) v = Ret (tt, v).
Proof.
  assert ((blen (be_bytes 8 a ++ x :: rest) =? 8) = false) as E.
  { apply Z.eqb_neq. unfold blen. rewrite length_app, be_bytes_length. simpl. lia. }
  transitivity ((if blen (be_bytes 8 a ++ x :: rest) =? 8
    then UeNas.modify (UeContext.SetAmfUeId (s64 (be_nat (be_bytes 8 a ++ x :: rest)))) else mret tt) v); [reflexivity|].
  by rewrite E.
Qed.

(** C13. The first Downlink NAS Transport, as far as the UE: read as two
    frames, the UE takes over its AMF identifier and then handles the NAS
    message.  The link is a stream without frame borders: read at once, both are
    lost, and the UE does nothing. *)
Theorem gnb_first_downlink_to_ue gnb amf ran nas rest g ue u conn (w : world) (v : UeNas.world (G:=GU)) :
  gnbs (w_heap w) !! gnb = Some g → uePool g !! ran = Some ue → ues (w_heap w) !! ue = Some u →
  unixSocketConnection u = Some conn → amfUeNgapId u = 0 → 0 ≤ amf < 2 ^ 63 → nas = 0x7e :: rest →
  ∃ w' v', HandlerDownlinkNasTransport gnb (downlink_message amf ran nas) w = Ret (tt, w') ∧
    out (w_heap w') = out (w_heap w) ++ [ToUe conn (id_frame amf); ToUe conn nas] ∧
    ues (w_heap w') !! ue = Some (with_amfUeNgapId amf u) ∧
    ue_reads (id_frame amf) v = Ret (tt, v') ∧ AmfUeNgapId (w_ue v') = amf ∧
    ue_reads nas v' = DispatchNas cmac_sum range nas v' ∧
    ue_reads (id_frame amf ++ nas) v = Ret (tt, v).
Proof.
  intros Eg Ep Eu Ec Ea Hamf En.
  exists (put_heap (log (ToUe conn nas) (log (ToUe conn (id_frame amf)) (put_ue ue (with_amfUeNgapId amf u) (w_heap w)))) w),
    (with_ue (UeContext.SetAmfUeId amf (w_ue v)) v).
  split; [|split; [|split; [|split; [|split; [|split]]]]].
  - apply wp_exact. eapply wp_downlink; [exact Eg|exact Ep|]. wp_steps. rewrite (proj2 (Z.eqb_eq _ _) Ea). wp_steps.
    eapply wp_SetAmfUeId; [done|done|]. wp_steps. eapply wp_SendToUe; [heap_eq|done|]. by autorewrite with heap.
  - cbn. by rewrite <- (assoc_L (++)).
  - heap_eq.
  - by apply ue_reads_id.
  - done.
  - by rewrite En.
  - rewrite En. apply ue_reads_joined.
Qed.
End Ue.

(** ** Uplink *)

(** The UE that has a connection is found by it. *)
Lemma wp_active_ue gnb ue0 ue conn g u i (w : world) (Q : Z → world → Prop) :
  heap_ok (w_heap w) → gnbs (w_heap w) !! gnb = Some g → uePool g !! i = Some ue → ues (w_heap w) !! ue = Some u →
  unixSocketConnection u = Some conn →
  (∀ j p t, uePool g !! j = Some p → ues (w_heap w) !! p = Some t → unixSocketConnection t = Some conn → p = ue) →
  Q ue w → wp (active_ue gnb ue0 conn) w Q.
Proof.
  intros Hh Eg Ei Eu Ec Hu HQ. unfold active_ue, find_ue. wp_steps.
  set (v := λ p, default blank_ue (ues (w_heap w) !! p)).
  assert (∀ k p, uePool g !! k = Some p → ues (w_heap w) !! p = Some (v p)) as Hv.
  { intros k p Ek. destruct (g_ues _ _ (h_gnbs _ Hh gnb g Eg) k p Ek) as (t&Et&_). unfold v. by rewrite Et. }
  unfold wp at 1. rewrite (find_ptr_spec get_ue _ _ v).
  2: { intros k p Hin%elem_visit%Hv. unfold get_ue. by rewrite Hin. }
  rewrite put_heap_id. wp_steps. destruct (List.find _ _) as [[k p]|] eqn:E.
  - apply List.find_some in E as [Hin%list_elem_of_In%elem_visit Hc%bool_decide_eq_true]. cbn [snd] in Hc.
    assert (p = ue) as -> by eauto. exact HQ.
  - exfalso. assert (List.In (i, ue) (visit (uePool g))) as Hin by by apply list_elem_of_In, elem_visit.
    pose proof (List.find_none _ _ E _ Hin) as Hn. apply bool_decide_eq_false in Hn. apply Hn. unfold v. cbn [snd]. by rewrite Eu.
Qed.

Lemma triggered_nas ue x rest gnb (w : world) : x ≠ 0 → triggered ue (x :: rest) gnb w = Ret (false, w).
Proof.
  intros Hx. assert (∀ b n, starts 0x00 b n (x :: rest) = false) as Hs.
  { intros b n. unfold starts. rewrite (bool_decide_eq_false_2 (take 2 (x :: rest) = _)); [by rewrite andb_false_r|].
    by intros [= E _]. }
  unfold triggered, handleXnHandoverTrigger, handleN2HandoverTrigger, handleTargetAccessTrigger, handlePathSwitchTrigger.
  by rewrite !Hs.
Qed.

Lemma wp_SendToAmF octets conn (w : world) (Q : option string → world → Prop) :
  quiet (w_chaos w) → active_ok (w_heap w) →
  Q (option_map (String.append "Error sending NGAP message: ") (SCTPWrite conn (stream_of octets) octets)) (amf_sent conn octets w) →
  wp (SendToAmF octets (Some conn)) w Q.
Proof. intros Hq Ha HQ. unfold wp. by rewrite SendToAmF_quiet. Qed.

(** What the UE's message is carried in: the initial message of an idle UE, and
    else Uplink NAS Transport. *)
Definition uplink_carrier (release : string) (nas : list Z) (u : GNBUe) (g : GNBContext) (pdu : NGAPPDU) : Prop :=
  state u = GnbContext.Initialized ∧ InitialUeMessage release nas u g = Ret pdu ∨
  (state u = GnbContext.Ongoing ∨ state u = GnbContext.Ready) ∧ pdu = UplinkNasTransport nas u g.

Lemma carrier_compliant release nas u g pdu : uplink_carrier release nas u g pdu →
  validateMessageInternal pdu = None ∧ ∀ octets, Decoder octets = (pdu, None) → stream_of octets = 1.
Proof.
  intros [[_ E%initial_message]|[_ E]]; rewrite E; (split; [reflexivity|]);
    intros octets Ed; unfold stream_of, getNgapMsgType; by rewrite Ed.
Qed.

Definition relayed (u : GNBUe) : GNBUe := if state u =? GnbContext.Initialized then SetStateOngoing u else u.

Lemma wp_uplink gnb ue g u assoc x rest pdu octets (w : world) (Q : unit → world → Prop) :
  gnbs (w_heap w) !! gnb = Some g → ues (w_heap w) !! ue = Some u → sctpConnection u = Some assoc → x ≠ 0 →
  quiet (w_chaos w) → active_ok (w_heap w) → uplink_carrier (w_release w) (x :: rest) u g pdu → Encoder pdu = inl octets →
  Q tt (amf_sent assoc octets (put_heap (put_ue ue (relayed u) (w_heap w)) w)) →
  wp (DispatchUe ue (x :: rest) gnb) w Q.
Proof.
  intros Eg Eu Es Hx Hq Ha Hc Ee HQ. unfold DispatchUe, relayed in *. wp_steps.
  destruct Hc as [[Est Ei]|[Hst ->]].
  - rewrite Est in *. cbn [Z.eqb] in HQ. change (GnbContext.Initialized =? GnbContext.Initialized) with true. cbv iota.
    unfold HandlerUeInitialized. wp_steps. unfold wp at 1. rewrite triggered_nas by done. wp_steps.
    unfold wp at 1. cbn [get_world]. wp_steps. eapply wp_run; [exact Ei|]. wp_steps. rewrite Es. unfold octets_of. rewrite Ee.
    apply wp_SendToAmF; [done|auto|]. wp_steps. exact HQ.
  - assert ((state u =? GnbContext.Initialized) = false) as E0 by (destruct Hst as [-> | ->]; done). rewrite E0 in *.
    rewrite put_ue_id, put_heap_id in HQ by done.
    assert (∃ b, (state u =? GnbContext.Ongoing) = b ∧ (b = false → (state u =? GnbContext.Ready) = true)) as (b&Eb&Er).
    { eexists. split; [reflexivity|]. by destruct Hst as [-> | ->]. }
    rewrite Eb. destruct b; [|rewrite (Er eq_refl)]; [unfold HandlerUeOngoing|unfold HandlerUeReady];
      wp_steps; unfold wp at 1; rewrite triggered_nas by done; wp_steps; rewrite Es; unfold octets_of, try_send; rewrite Ee;
      wp_steps; (apply wp_SendToAmF; [done|done|]); wp_steps; exact HQ.
Qed.

(** C15. A NAS message that a UE sends on its connection goes to the UE's AMF,
    inside an Initial UE Message if the UE was idle, which then is not, and
    else inside an Uplink NAS Transport; it takes stream 1 and passes the
    compliance check. *)
Theorem gnb_uplink_relay gnb ue0 ue conn g u i assoc x rest pdu octets (w : world) :
  heap_ok (w_heap w) → gnbs (w_heap w) !! gnb = Some g → uePool g !! i = Some ue → ues (w_heap w) !! ue = Some u →
  unixSocketConnection u = Some conn → sctpConnection u = Some assoc →
  (∀ j p t, uePool g !! j = Some p → ues (w_heap w) !! p = Some t → unixSocketConnection t = Some conn → p = ue) →
  x ≠ 0 → quiet (w_chaos w) → uplink_carrier (w_release w) (x :: rest) u g pdu →
  Encoder pdu = inl octets → Decoder octets = (pdu, None) →
  ∃ w', receive_ue gnb ue0 conn (x :: rest) w = Ret (tt, w') ∧
    out (w_heap w') = out (w_heap w) ++ [ToAmf assoc 1 octets] ∧
    ues (w_heap w') !! ue = Some (relayed u) ∧
    TotalFailed (w_validation w') = TotalFailed (w_validation w).
Proof.
  intros Hh Eg Ei Eu Ec Es Hu Hx Hq Hc Ee Ed. destruct (carrier_compliant _ _ _ _ _ Hc) as [Hv Hst].
  exists (amf_sent assoc octets (put_heap (put_ue ue (relayed u) (w_heap w)) w)). split; [|split_and!].
  - apply wp_exact. unfold receive_ue. wp_steps. eapply wp_active_ue; [done..|].
    eapply wp_uplink; [exact Eg|exact Eu|exact Es|done|done|by apply h_active|exact Hc|exact Ee|done].
  - unfold amf_sent. cbn. by rewrite (Hst octets Ed).
  - unfold amf_sent. cbn [w_heap]. heap_eq.
  - unfold amf_sent, checked. cbn [w_validation put_heap]. rewrite Ed, bool_decide_eq_true_2 by done.
    unfold ValidateNGAPMessage. by rewrite Hv.
Qed.

(** ** Streams *)

(** Of the messages the gNB and its simulated AMF build, stream 1 carries
    the ones below; every other one goes to stream 0, also UE-associated ones:
    the responses to release, modification and hand-over requests, Handover
    Notify, and UE context release. *)
Theorem gnb_streams pdu octets : gnb_message pdu → Decoder octets = (pdu, None) →
  (stream_of octets = 1 ↔ ∃ m, Outcome pdu = Some m ∧ Value m ∈
    [MInitialUEMessage; MUplinkNASTransport; MPDUSessionResourceSetupResponse; MInitialContextSetupResponse;
     MHandoverRequired; MHandoverRequest; MPathSwitchRequest; MPathSwitchRequestAcknowledge]) ∧
  (stream_of octets = 0 ∨ stream_of octets = 1).
Proof.
  intros Hm Ed. destruct (gnb_message_shape pdu Hm) as (m&Eo&Ecode&Hp). unfold stream_of, getNgapMsgType. rewrite Ed.
  rewrite (bool_decide_eq_false_2 (None ≠ None)) by (intros Hn; by apply Hn). rewrite Eo.
  split; [|destruct (isUeAssociatedMessage _); [by right|by left]].
  destruct Hp as [[Ep Hv]|[Ep Hv]]; rewrite Ep; cbn [Z.eqb]; unfold code_of in Ecode;
    repeat (apply elem_of_cons in Hv as [Ev|Hv]; [rewrite Ev in Ecode; rewrite Ecode; split;
      [intros Es; first [discriminate Es | exists m; split; [done|rewrite Ev; apply (bool_decide_eq_true_1 _); reflexivity]]
      |intros (m'&[= <-]&Hin); rewrite Ev in Hin; first [reflexivity | exfalso; revert Hin; apply (bool_decide_eq_false_1 _); reflexivity]]|]);
    by apply not_elem_of_nil in Hv.
Qed.

End Relay.

(** ** Examples *)

Definition new_ue_7 : GNBUe := with_state GnbContext.Initialized (with_amfUeNgapId 0 (GnbDemo.demo_ue ∅)).
Definition no_cmac (k m : list Z) : outcome (list Z) := Ret (replicate 16 0).

Lemma gnb_downlink_relay_witness :
  let H1 := key_order in let H2 := demo_host in let H3 := demo_codec (MkNgap 0 None) in
  let run l := HandlerDownlinkNasTransport 0 (downlink_pdu l) (GnbDemo.demo_world (GnbDemo.demo_ue ∅)) in
  gnbs (w_heap (GnbDemo.demo_world (GnbDemo.demo_ue ∅))) !! 0 = Some demo_gnb ∧
  (∃ w', run [reject ProtocolIEIDRANUENGAPID (RANUENGAPID 2)] = Ret (tt, w') ∧
    out (w_heap w') = [Reported "DownlinkNasTransport" "RAN UE NGAP ID is incorrect"]) ∧
  (∃ w', run [reject ProtocolIEIDRANUENGAPID (RANUENGAPID 1); MkIE ProtocolIEIDNASPDU 0 None] = Ret (tt, w') ∧
    out (w_heap w') = [Reported "DownlinkNasTransport" "NAS PDU is missing"]) ∧
  (∃ w', run [reject ProtocolIEIDRANUENGAPID (RANUENGAPID 2); reject ProtocolIEIDAMFUENGAPID (AMFUENGAPID 7);
      reject ProtocolIEIDRANUENGAPID (RANUENGAPID 1); reject ProtocolIEIDNASPDU (NASPDU [0x7e])] = Ret (tt, w') ∧
    out (w_heap w') = [ToUe 4 [0x7e]]).
Proof.
  intros H1 H2 H3 run.
  pose proof (λ l, gnb_downlink_relay (G:=Z) 0 l demo_gnb (GnbDemo.demo_world (GnbDemo.demo_ue ∅)) eq_refl) as R. cbv zeta in R.
  assert (∀ v, sound (reject ProtocolIEIDRANUENGAPID (RANUENGAPID v))) as Sr.
  { intros v e L. inversion L as [? Ei|? _ Hv|? Ei]; [by vm_compute in Ei|by eapply Hv|by vm_compute in Ei]. }
  assert (∀ v, sound (reject ProtocolIEIDAMFUENGAPID (AMFUENGAPID v))) as Sa.
  { intros v e L. inversion L as [? _ Hv|? Ei|? Ei]; [by eapply Hv|by vm_compute in Ei..]. }
  assert (∀ v, sound (reject ProtocolIEIDNASPDU (NASPDU v))) as Sn.
  { intros v e L. inversion L as [? Ei|? Ei|? _ Hv]; [by vm_compute in Ei..|by eapply Hv]. }
  split; [reflexivity|]. split; [|split].
  - destruct (R [reject ProtocolIEIDRANUENGAPID (RANUENGAPID 2)]) as (_&R2&_). eexists.
    split; [apply R2; [repeat constructor; apply Sr|reflexivity]|reflexivity].
  - destruct (R [reject ProtocolIEIDRANUENGAPID (RANUENGAPID 1); MkIE ProtocolIEIDNASPDU 0 None]) as (R1&_&_). eexists.
    split; [eapply (R1 [_]); [reflexivity|repeat constructor; apply Sr|by apply no_nas_pdu]|reflexivity].
  - destruct (R [reject ProtocolIEIDRANUENGAPID (RANUENGAPID 2); reject ProtocolIEIDAMFUENGAPID (AMFUENGAPID 7);
      reject ProtocolIEIDRANUENGAPID (RANUENGAPID 1); reject ProtocolIEIDNASPDU (NASPDU [0x7e])]) as (_&_&R3).
    destruct (R3 10 (GnbDemo.demo_ue ∅)) as [R4 _]; [by repeat (constructor; [done|])|reflexivity..|].
    destruct (R4 4 eq_refl) as [_ R5]. eexists. split; [apply R5; [discriminate|reflexivity]|reflexivity].
Defined.

Lemma gnb_first_downlink_to_ue_witness :
  let H1 := key_order in let H2 := demo_host in let H3 := demo_codec (MkNgap 0 None) in
  ∃ w' v', HandlerDownlinkNasTransport 0 (downlink_message 7 1 [0x7e]) (GnbDemo.demo_world new_ue_7) = Ret (tt, w') ∧
    out (w_heap w') = [ToUe 4 (id_frame 7); ToUe 4 [0x7e]] ∧
    UeNas.DispatchState no_cmac map_to_list (λ _, true) (λ _ _, None) (id_frame 7) UeNasLive.demo_world = Ret (tt, v') ∧
    AmfUeNgapId (w_ue v') = 7.
Proof.
  intros H1 H2 H3.
  destruct (gnb_first_downlink_to_ue (G:=Z) no_cmac map_to_list (λ _, true) (λ _ _, None) 0 7 1 [0x7e] [] demo_gnb 10 new_ue_7 4
    (GnbDemo.demo_world new_ue_7) UeNasLive.demo_world) as (w'&v'&E1&E2&_&E4&E5&_); [reflexivity..|lia|reflexivity|].
  exists w', v'. by split_and!.
Defined.

Definition demo_initial : NGAPPDU :=
  initiating ProcedureCodeInitialUEMessage CriticalityPresentIgnore MInitialUEMessage
    [reject ProtocolIEIDRANUENGAPID (RANUENGAPID 1); reject ProtocolIEIDNASPDU (NASPDU [0x7e; 0; 65]);
     reject ProtocolIEIDUserLocationInformation (location [2; 0xf8; 0x39] [0; 0; 1] [0; 0; 1] 1);
     ignore ProtocolIEIDRRCEstablishmentCause (RRCEstablishmentCause 3);
     ignore ProtocolIEIDUEContextRequest (UEContextRequest 0)].

Lemma demo_world_ok u : ranUeNgapId u = 1 → ue_ok u → heap_ok (w_heap (GnbDemo.demo_world u)).
Proof.
  intros Hi Hu. split.
  - by apply map_Forall_singleton.
  - apply map_Forall_singleton. split; [done|]. split; by right.
  - apply map_Forall_singleton. split; apply map_Forall_singleton; [by exists u|by eexists..|by exists demo_amf].
  - apply map_Forall_singleton. by eexists.
Qed.

Lemma gnb_uplink_relay_witness :
  let H1 := key_order in let H2 := demo_host in let H3 := demo_codec demo_initial in
  ∃ w', receive_ue 0 10 4 [0x7e; 0; 65] (GnbDemo.demo_world new_ue_7) = Ret (tt, w') ∧
    out (w_heap w') = [ToAmf 2 1 [1]].
Proof.
  intros H1 H2 H3.
  destruct (gnb_uplink_relay (G:=Z) 0 10 10 4 demo_gnb new_ue_7 1 2 0x7e [0; 65] demo_initial [1] (GnbDemo.demo_world new_ue_7))
    as (w'&E1&E2&_); try reflexivity.
  - apply demo_world_ok; [reflexivity|]. split; [by right|apply map_Forall_empty].
  - intros j p t E _ _. change (({[1 := 10]} : gmap Z Z) !! j = Some p) in E. by apply lookup_singleton_Some in E as [_ <-].
  - discriminate.
  - by split.
  - left. split; [reflexivity|]. vm_compute. reflexivity.
  - exists w'. by split.
Defined.

Lemma gnb_streams_witness :
  let H1 := key_order in let H2 := demo_host in let H3 := demo_codec (BuildUEContextReleaseComplete 1 7) in
  (stream_of [1] = 1 ↔ ∃ m, Outcome (BuildUEContextReleaseComplete 1 7) = Some m ∧ Value m ∈
    [MInitialUEMessage; MUplinkNASTransport; MPDUSessionResourceSetupResponse; MInitialContextSetupResponse;
     MHandoverRequired; MHandoverRequest; MPathSwitchRequest; MPathSwitchRequestAcknowledge]) ∧
  (stream_of [1] = 0 ∨ stream_of [1] = 1).
Proof.
  intros H1 H2 H3. apply (gnb_streams (BuildUEContextReleaseComplete 1 7) [1]); [apply m_complete|reflexivity].
Defined.
