(* ===== verification/GnbRelease.v ===== *)
(** * Release of a UE

    What UE Context Release takes from the pools, what it leaves, and what it
    does to the user data of everyone. *)

From S2P Require Import Prelude GoStrings GnbContext Ngap Chaos GnbNgap GnbNas GnbProps GnbWp GnbDemo GnbSession GnbInv GnbRelay.

#[local] Open Scope Z_scope.
#[local] Open Scope go_scope.

Section Release.
Context {G : Type} `{Rand G} `{MapOrder} `{Host} `{NgapCodec}.
#[local] Abbreviation world := (GnbNgap.world (G:=G)).

Definition without_teid (t : Z) (g : GNBContext) : GNBContext := with_teidPool (delete t (teidPool g)) g.
Definition without_ip (ip : string) (g : GNBContext) : GNBContext := with_ueIpPool (delete ip (ueIpPool g)) g.
Definition without_session (s : PDUSession) (g : GNBContext) : GNBContext :=
  let g := without_teid (downlinkTeid s) g in
  match ranUeIP s with NoIP => g | ip => without_ip (IP_String ip) g end.
Definition without_sessions (l : list (Z * PDUSession)) (g : GNBContext) : GNBContext :=
  foldl (λ g e, without_session (snd e) g) g l.
Definition released (u : GNBUe) (g : GNBContext) : GNBContext :=
  without_sessions (visit (pduSessions u)) (without_ip (IP_String (GetIp u)) (without_teid (GetTeidDownlink u) g)).

Lemma wp_drop_session gnb e g (w : world) (Q : unit → world → Prop) : gnbs (w_heap w) !! gnb = Some g →
  Q tt (put_heap (put_gnb gnb (without_session (snd e) g) (w_heap w)) w) → wp (drop_session gnb e) w Q.
Proof.
  intros Eg HQ. unfold drop_session, DeleteGnBUeByTeid, DeleteGnBUeByIp, without_session in *. wp_steps.
  destruct (ranUeIP (snd e)); wp_steps; exact HQ.
Qed.

Lemma wp_drop_sessions gnb l g (w : world) (Q : unit → world → Prop) : gnbs (w_heap w) !! gnb = Some g →
  Q tt (put_heap (put_gnb gnb (without_sessions l g) (w_heap w)) w) → wp (each (drop_session gnb) l) w Q.
Proof.
  revert g w. induction l as [|e l IH]; intros g w Eg HQ; cbn [each without_sessions foldl] in *.
  - wp_steps. rewrite put_gnb_id, put_heap_id in HQ by done. exact HQ.
  - wp_steps. eapply wp_drop_session; [exact Eg|]. eapply IH; [heap_eq|]. autorewrite with heap. exact HQ.
Qed.

Lemma wp_release_ue gnb ue g u conn (w : world) (Q : unit → world → Prop) :
  gnbs (w_heap w) !! gnb = Some g → ues (w_heap w) !! ue = Some u → unixSocketConnection u = Some conn →
  Q tt (put_heap (log (ToUe conn [0x00; 0x06]) (put_ue ue (SetStateInitialized u) (put_gnb gnb (released u g) (w_heap w)))) w) →
  wp (release_ue gnb ue) w Q.
Proof.
  intros Eg Eu Ec HQ. unfold release_ue, DeleteGnBUeByTeid, DeleteGnBUeByIp. wp_steps. rewrite Ec. wp_steps.
  eapply wp_drop_sessions; [heap_eq|]. wp_steps. exact HQ.
Qed.

(** ** What is left in the pools *)

Lemma sessions_pools l g : uePool (without_sessions l g) = uePool g ∧ amfPool (without_sessions l g) = amfPool g ∧
  controlInfo (without_sessions l g) = controlInfo g.
Proof.
  unfold without_sessions. revert g. induction l as [|e l IH]; intros g; [done|]. cbn [foldl].
  destruct (IH (without_session (snd e) g)) as (->&->&->). unfold without_session. by destruct (ranUeIP _).
Qed.

Lemma session_teid s g t : teidPool (without_session s g) !! t = if decide (downlinkTeid s = t) then None else teidPool g !! t.
Proof.
  transitivity (delete (downlinkTeid s) (teidPool g) !! t); [unfold without_session; by destruct (ranUeIP s)|].
  destruct (decide (downlinkTeid s = t)) as [->|Hne]; [by rewrite lookup_delete_eq|by rewrite lookup_delete_ne].
Qed.
Lemma sessions_teid l g t : teidPool (without_sessions l g) !! t =
  if decide (t ∈ (λ e, downlinkTeid (snd e)) <$> l) then None else teidPool g !! t.
Proof.
  unfold without_sessions. revert g. induction l as [|e l IH]; intros g; [done|]. cbn [foldl].
  rewrite IH, session_teid. destruct (decide (t ∈ _)) as [Hin|Hn].
  - rewrite decide_True; [done|by right].
  - destruct (decide (downlinkTeid (snd e) = t)) as [<-|Hne]; [rewrite decide_True; [done|by left]|].
    rewrite decide_False; [done|]. intros [?|?]%elem_of_cons; [by apply Hne|by apply Hn].
Qed.

(** The TEIDs that belong to a UE. *)
Definition teids_of (u : GNBUe) (t : Z) : Prop :=
  t = GetTeidDownlink u ∨ ∃ i s, pduSessions u !! i = Some s ∧ downlinkTeid s = t.

Lemma released_teid u g t : (teids_of u t → teidPool (released u g) !! t = None) ∧
  (¬ teids_of u t → teidPool (released u g) !! t = teidPool g !! t).
Proof.
  assert (t ∈ (λ e, downlinkTeid (snd e)) <$> visit (pduSessions u) ↔ ∃ i s, pduSessions u !! i = Some s ∧ downlinkTeid s = t) as Hin.
  { rewrite list_elem_of_fmap. split; [intros ([i s]&->&Hv%elem_visit); by exists i, s|].
    intros (i&s&E&<-). exists (i, s). split; [done|]. by apply elem_visit. }
  assert (teidPool (without_ip (IP_String (GetIp u)) (without_teid (GetTeidDownlink u) g)) = delete (GetTeidDownlink u) (teidPool g)) as E
    by done.
  unfold released, teids_of. rewrite sessions_teid, E. split.
  - intros [->|Ht]; destruct (decide _) as [?|Hn]; try done; [by rewrite lookup_delete_eq|by destruct Hn; apply Hin].
  - intros Hn. rewrite decide_False by (rewrite Hin; tauto). rewrite lookup_delete_ne; [done|]. intros E'. apply Hn. by left.
Qed.

(** The addresses that belong to a UE. *)
Definition ips_of (u : GNBUe) (ip : string) : Prop :=
  ip = IP_String (GetIp u) ∨ ∃ i s, pduSessions u !! i = Some s ∧ ranUeIP s ≠ NoIP ∧ IP_String (ranUeIP s) = ip.

Lemma sessions_ip l g ip :
  ((∃ e, e ∈ l ∧ ranUeIP (snd e) ≠ NoIP ∧ IP_String (ranUeIP (snd e)) = ip) → ueIpPool (without_sessions l g) !! ip = None) ∧
  ((∀ e, e ∈ l → ranUeIP (snd e) ≠ NoIP → IP_String (ranUeIP (snd e)) ≠ ip) → ueIpPool (without_sessions l g) !! ip = ueIpPool g !! ip).
Proof.
  unfold without_sessions. revert g. induction l as [|e l IH]; intros g; [split; [intros (e&He&_); by apply not_elem_of_nil in He|done]|].
  cbn [foldl]. destruct (IH (without_session (snd e) g)) as [IH1 IH2].
  assert (ueIpPool (without_session (snd e) g) !! ip =
    if decide (ranUeIP (snd e) ≠ NoIP ∧ IP_String (ranUeIP (snd e)) = ip) then None else ueIpPool g !! ip) as Es.
  { unfold without_session. destruct (decide (ranUeIP (snd e) ≠ NoIP ∧ IP_String (ranUeIP (snd e)) = ip)) as [[Hn <-]|Hd].
    - destruct (ranUeIP (snd e)); [done|apply lookup_delete_eq].
    - destruct (ranUeIP (snd e)) eqn:Er; [done|]; cbn; (rewrite lookup_delete_ne; [done|]); intros E; by apply Hd. }
  split.
  - intros (e'&[->|He]%elem_of_cons&Hn&Hs); [|apply IH1; by exists e'].
    destruct (decide (Exists (λ e, ranUeIP (snd e) ≠ NoIP ∧ IP_String (ranUeIP (snd e)) = ip) l)) as [(e'&He&?&?)%Exists_exists|Hex].
    + apply IH1. by exists e'.
    + rewrite IH2, Es by (intros e' He Hn' Hs'; apply Hex, Exists_exists; by exists e'). by rewrite decide_True.
  - intros Hall. rewrite IH2, Es by (intros e' He; apply Hall; by right).
    rewrite decide_False; [done|]. intros [Hn Hs]. by apply (Hall e); [left| |].
Qed.
Lemma released_ip u g ip : (ips_of u ip → ueIpPool (released u g) !! ip = None) ∧
  (¬ ips_of u ip → ueIpPool (released u g) !! ip = ueIpPool g !! ip).
Proof.
  set (g0 := without_ip (IP_String (GetIp u)) (without_teid (GetTeidDownlink u) g)).
  destruct (sessions_ip (visit (pduSessions u)) g0 ip) as [Hin Hout].
  assert (ueIpPool g0 = delete (IP_String (GetIp u)) (ueIpPool g)) as E by done. unfold released, ips_of. fold g0. split.
  - intros [->|(i&s&Ei&Hn&Es)]; [|apply Hin; exists (i, s); split; [by apply elem_visit|done]].
    destruct (decide (Exists (λ e, ranUeIP (snd e) ≠ NoIP ∧ IP_String (ranUeIP (snd e)) = IP_String (GetIp u)) (visit (pduSessions u))))
      as [(e&He&Hn&Es)%Exists_exists|Hex]; [apply Hin; by exists e|].
    rewrite Hout, E, lookup_delete_eq; [done|]. intros e He Hn Es. apply Hex, Exists_exists. by exists e.
  - intros Hn. rewrite Hout, E, lookup_delete_ne; [done|intros <-; apply Hn; by left|]. intros [i s] Hi%elem_visit Hne Es.
    apply Hn. right. by exists i, s.
Qed.

Lemma unknown_ip_stops gnb src packet g (w : world) : gnbs (w_heap w) !! gnb = Some g → ueIpPool g !! IP_String src = None →
  from_ue gnb src packet w = Ret (false, w).
Proof. intros Eg Ei. apply wp_exact. unfold from_ue. wp_steps. unfold GetGnbUeByIp. rewrite Ei. wp_steps. done. Qed.

(** ** The command *)

Definition release_message (amf ran : Z) (c : cause) : NGAPPDU :=
  initiating ProcedureCodeUEContextRelease CriticalityPresentReject MUEContextReleaseCommand
    [reject ProtocolIEIDUENGAPIDs (UENGAPIDs (UENGAPIDPair amf ran)); ignore ProtocolIEIDCause (Cause c)].

Lemma wp_release_command gnb ran ue g u conn assoc amf c n2conn octets (w : world) (Q : unit → world → Prop) :
  serving gnb ran ue g u conn assoc w → ran ≠ 0 → n2 (controlInfo g) = Some n2conn →
  Encoder (BuildUEContextReleaseComplete ran amf) = inl octets →
  Q tt (amf_sent n2conn octets (put_heap (log (ToUe conn [0x00; 0x06]) (put_ue ue (SetStateInitialized u)
    (put_gnb gnb (released u g) (w_heap w)))) w)) →
  wp (HandlerUeContextReleaseCommand gnb (release_message amf ran c)) w Q.
Proof.
  intros [Eg Ep Eu Ec Es Hq Ha] Hran En Ee HQ.
  destruct (sessions_pools (visit (pduSessions u)) (without_ip (IP_String (GetIp u)) (without_teid (GetTeidDownlink u) g)))
    as (_&_&Hci).
  unfold HandlerUeContextReleaseCommand. wp_steps.
  eapply (wp_run _ (Some [reject ProtocolIEIDUENGAPIDs (UENGAPIDs (UENGAPIDPair amf ran));
    ignore ProtocolIEIDCause (Cause c)])); [reflexivity|].
  cbv beta iota. change (foldl ngapids_ie (0, 0) ?l) with (ran, amf). cbv beta iota.
  rewrite (proj2 (Z.eqb_neq _ _) Hran). cbn [andb]. wp_steps. unfold if_ue, GetGnbUe. wp_steps. rewrite Ep.
  eapply wp_release_ue; [done..|]. wp_steps. unfold released. rewrite Hci.
  cbn [controlInfo without_ip without_teid with_ueIpPool with_teidPool].
  rewrite En. eapply wp_try_send; [exact Ee|done|cbn [w_heap put_heap]; auto|exact HQ].
Qed.

Lemma unknown_teid_stops gnb t buf n b3 packet g (w : world) :
  gnbs (w_heap w) !! gnb = Some g → teidPool g !! t = None → rd buf 3 = Ret b3 → b3 ≠ 133 → slice buf 0 n = Ret packet →
  from_upf gnb t buf n w = Ret (false, w).
Proof.
  intros Eg Et Eb Hb Ep. apply wp_exact. unfold from_upf. wp_steps. eapply wp_run; [exact Eb|]. wp_steps.
  rewrite (proj2 (Z.eqb_neq _ _) Hb). eapply wp_run; [exact Ep|]. wp_steps. unfold GetGnbUeByTeid. rewrite Et. wp_steps. done.
Qed.

(** C16. UE Context Release Command, for a UE the gNB serves: the UE is told,
    the AMF gets the completion, the UE stays in the pool, idle, with its
    identifiers and its sessions; exactly its TEIDs leave the pool of TEIDs and
    exactly its addresses the pool of addresses.  From then on one packet of the
    UPF for one of these TEIDs, or of a UE from one of these addresses, ends the
    gNB's listener, for all UEs. *)
Theorem gnb_release gnb ran ue g u conn assoc amf c n2conn octets (w : world) :
  serving gnb ran ue g u conn assoc w → ran ≠ 0 → n2 (controlInfo g) = Some n2conn →
  Encoder (BuildUEContextReleaseComplete ran amf) = inl octets →
  ∃ w' g', HandlerUeContextReleaseCommand gnb (release_message amf ran c) w = Ret (tt, w') ∧
    out (w_heap w') = out (w_heap w) ++ [ToUe conn [0x00; 0x06]; ToAmf n2conn (stream_of octets) octets] ∧
    ues (w_heap w') !! ue = Some (with_state GnbContext.Initialized u) ∧
    gnbs (w_heap w') !! gnb = Some g' ∧ uePool g' = uePool g ∧
    (∀ t, ¬ teids_of u t → teidPool g' !! t = teidPool g !! t) ∧
    (∀ t, teids_of u t → teidPool g' !! t = None ∧
      ∀ buf len b3 packet, rd buf 3 = Ret b3 → b3 ≠ 133 → slice buf 0 len = Ret packet →
        from_upf gnb t buf len w' = Ret (false, w')) ∧
    (∀ ip, ¬ ips_of u ip → ueIpPool g' !! ip = ueIpPool g !! ip) ∧
    (∀ ip, ips_of u ip → ueIpPool g' !! ip = None) ∧
    (∀ src packet, ips_of u (IP_String src) → from_ue gnb src packet w' = Ret (false, w')).
Proof.
  intros Hs Hran En Ee. pose proof Hs as [Eg _ _ _ _ _ _].
  exists (amf_sent n2conn octets (put_heap (log (ToUe conn [0x00; 0x06]) (put_ue ue (SetStateInitialized u)
    (put_gnb gnb (released u g) (w_heap w)))) w)), (released u g).
  destruct (sessions_pools (visit (pduSessions u)) (without_ip (IP_String (GetIp u)) (without_teid (GetTeidDownlink u) g)))
    as (Hue&_&_). split; [|split; [|split; [|split; [|split; [exact Hue|split; [|split; [|split; [|split]]]]]]]].
  - apply wp_exact. by eapply wp_release_command.
  - unfold amf_sent. cbn. by rewrite <- (assoc_L (++)).
  - unfold amf_sent. cbn [w_heap]. heap_eq.
  - unfold amf_sent. cbn [w_heap]. heap_eq.
  - intros t. apply released_teid.
  - intros t Ht. destruct (released_teid u g t) as [Hn _]. split; [by apply Hn|]. intros buf len b3 packet Eb Hb Epk.
    eapply unknown_teid_stops; [|by apply Hn|done..]. unfold amf_sent. cbn [w_heap]. heap_eq.
  - intros ip. apply released_ip.
  - intros ip. apply released_ip.
  - intros src packet Hip. eapply unknown_ip_stops; [|by apply released_ip]. unfold amf_sent. cbn [w_heap]. heap_eq.
Qed.
End Release.

Definition demo_released : list Z := [0; 133; 1; 44].

Lemma gnb_release_witness :
  let H1 := key_order in let H2 := demo_host in let H3 := demo_codec (BuildUEContextReleaseComplete 1 7) in
  ∃ w' g', HandlerUeContextReleaseCommand 0 (release_message 7 1 (CauseNas 0)) (GnbDemo.demo_world (GnbDemo.demo_ue ∅)) = Ret (tt, w') ∧
    out (w_heap w') = [ToUe 4 [0x00; 0x06]; ToAmf 2 0 [1]] ∧
    gnbs (w_heap w') !! 0 = Some g' ∧ teidPool demo_gnb !! 1 = Some 10 ∧ teidPool g' !! 1 = None ∧
    from_upf 0 1 demo_released 4 w' = Ret (false, w') ∧
    ueIpPool demo_gnb !! "127.0.0.3"%string = Some 10 ∧ ueIpPool g' !! "127.0.0.3"%string = None.
Proof.
  intros H1 H2 H3.
  destruct (gnb_release (G:=Z) 0 1 10 demo_gnb (GnbDemo.demo_ue ∅) 4 2 7 (CauseNas 0) 2 [1] (GnbDemo.demo_world (GnbDemo.demo_ue ∅))
    (demo_serving ∅)) as (w'&g'&E&Eo&Eu&Eg&_&_&Ht&_&Hi&_); [lia|reflexivity..|].
  destruct (Ht 1) as [En Hs]; [by left|].
  exists w', g'. split_and!; [exact E|exact Eo|exact Eg|reflexivity|exact En| |reflexivity|apply Hi; by left].
  eapply (Hs demo_released 4 44 demo_released); [reflexivity|lia|reflexivity].
Defined.
