(* ===== verification/GnbHandover.v ===== *)
(** * Hand-over

    A new UE at a gNB, the hand-over of a UE from one gNB to another over N2
    with the messages of the AMF and of the UE in their order, and what both
    gNBs hold at its end. *)

From S2P Require Import Prelude AperCodec NasMessage.
From S2P Require Import GoStrings GnbContext Ngap Chaos GnbNgap GnbNas GnbProps GnbWp GnbDemo GnbSession GnbInv GnbRelay GnbRelease.

#[local] Open Scope Z_scope.
#[local] Open Scope go_scope.

(** ** A new UE *)

(** A heap that has given out one more address. *)
Definition bump (h : heap) : heap := with_next (next h + 1) h.

Lemma gnbs_bump h : gnbs (bump h) = gnbs h.
Proof. done. Qed.
Lemma ues_bump h : ues (bump h) = ues h.
Proof. done. Qed.
Lemma amfs_bump h : amfs (bump h) = amfs h.
Proof. done. Qed.
Lemma out_bump h : out (bump h) = out h.
Proof. done. Qed.
Lemma active_bump_ok h : active_ok h → active_ok (bump h).
Proof. done. Qed.
#[local] Hint Rewrite gnbs_bump ues_bump amfs_bump out_bump : heap.
#[local] Hint Resolve active_bump_ok : core.

Lemma wp_new_ue h (Q : Z → heap → Prop) : Q (next h) (put_ue (next h) blank_ue (bump h)) → wp new_ue h Q.
Proof. done. Qed.

Section Handover.
Context {G : Type} `{Rand G} `{MapOrder} `{Host} `{NgapCodec}.
#[local] Abbreviation world := (GnbNgap.world (G:=G)).
#[local] Abbreviation Gn := (GnbNgap.Gn (G:=G)).

(** A gNB with its one AMF. *)
Definition sole_amf (g : GNBContext) (h : heap) (a : GNBAmf) : Prop :=
  ∃ i p, amfPool g = {[i := p]} ∧ amfs h !! p = Some a.

Lemma visit_singleton {K} `{Countable K} {V} (k : K) (v : V) : visit ({[k := v]} : gmap K V) = [(k, v)].
Proof.
  apply Permutation_singleton_r. rewrite <- map_to_list_singleton. apply visit_perm.
Qed.

(** What the gNB is afterwards and what the UE starts as. *)
Definition enrolled (ue : Z) (g : GNBContext) : GNBContext :=
  with_ueIpPool (<[IP_String (IPv4 127 0 0 (ueIpGenerator g)) := ue]> (ueIpPool g))
  (with_ueIpGenerator (u8 (ueIpGenerator g + 1))
  (with_uePool (<[idUeGenerator g := ue]> (uePool g))
  (with_teidPool (<[teidGenerator g := ue]> (teidPool g))
  (with_teidGenerator (u32 (teidGenerator g + 1))
  (with_idUeGenerator (s64 (idUeGenerator g + 1)) g))))).
Definition new_gnb_ue (g : GNBContext) (a : GNBAmf) (conn : option Z) : GNBUe :=
  MkGnbUe (idUeGenerator g) 0 0 (amfId a) GnbContext.Initialized (sctpConn a) conn
    (MkContext ("", "")%string "" (MkPdu 0 (IPv4 127 0 0 (ueIpGenerator g)) 0 (teidGenerator g) [] 0 0 0 0 0)) ∅.

Lemma wp_SetAmfUeId_silent ue a u h (Q : unit → heap → Prop) :
  ues h !! ue = Some u → unixSocketConnection u = None →
  Q tt (put_ue ue (with_amfUeNgapId a u) h) → wp (SetAmfUeId ue a) h Q.
Proof.
  intros Eu Ec HQ. unfold SetAmfUeId. wp_steps. cbn [unixSocketConnection with_amfUeNgapId]. rewrite Ec. wp_steps. exact HQ.
Qed.

Lemma wp_selectAmFByActive gnb g i p a h (Q : option Z → heap → Prop) :
  gnbs h !! gnb = Some g → amfPool g = {[i := p]} → amfs h !! p = Some a →
  Q (if amfState a =? Active then Some p else None) h → wp (selectAmFByActive gnb) h Q.
Proof.
  intros Eg Ep Ea HQ. unfold selectAmFByActive. wp_steps. rewrite Ep, visit_singleton. cbn [find_ptr]. wp_steps.
  destruct (amfState a =? Active); wp_steps; exact HQ.
Qed.

Lemma wp_NewGnBUe gnb conn g a h (Q : option Z → heap → Prop) :
  gnbs h !! gnb = Some g → sole_amf g h a →
  Q (Some (next h)) (put_gnb gnb (enrolled (next h) g) (put_ue (next h) (new_gnb_ue g a conn) (bump h))) →
  wp (NewGnBUe gnb conn) h Q.
Proof.
  intros Eg (i&p&Ep&Ea) HQ. unfold NewGnBUe. apply wp_bind, wp_new_ue.
  unfold getRanUeId, GetUeTeid, StoreTeid, StoreUe, getRanUeIp, StoreUeIp. wp_steps.
  eapply wp_SetAmfUeId_silent; [heap_eq|reflexivity|]. wp_steps.
  eapply wp_selectAmFByActive; [heap_eq|exact Ep|exact Ea|]. wp_steps.
  assert ((match (if amfState a =? Active then Some p else None) with Some a => Some a | None =>
    GetActiveAmf (enrolled (next h) g) end) = Some p) as E.
  { unfold GetActiveAmf. cbn [amfPool enrolled with_ueIpPool with_ueIpGenerator with_uePool with_teidPool with_teidGenerator with_idUeGenerator].
    rewrite Ep, visit_singleton. by destruct (amfState a =? Active). }
  unfold enrolled in E. cbn in E |- *. rewrite E. wp_steps. exact HQ.
Qed.

(** ** Hand-over Request: the UE at the target *)

(** The UE the target prepares. *)
Definition prepared_ue (g : GNBContext) (a : GNBAmf) (amf pid source : Z) : GNBUe :=
  MkGnbUe (idUeGenerator g) amf (if source =? -1 then 0 else source) (amfId a) Ongoing (sctpConn a) None
    (MkContext ("", "")%string "" (MkPdu pid (IPv4 127 0 0 (ueIpGenerator g)) (teidGenerator g) 0 [] 0 1 1 1 1)) ∅.
Definition handover_ack (g : GNBContext) (amf pid : Z) : NGAPPDU :=
  BuildHandoverRequestAcknowledge (idUeGenerator g) amf pid (data_address g) (be_bytes 4 0) 1.
Definition handover_request (ies : list IE) : NGAPPDU :=
  initiating ProcedureCodeHandoverResourceAllocation CriticalityPresentReject MHandoverRequest ies.

Lemma wp_handover_request gnb ies g a assoc amf pid source octets (w : world) (Q : unit → world → Prop) :
  gnbs (w_heap w) !! gnb = Some g → sole_amf g (w_heap w) a → sctpConn a = Some assoc →
  forM ies handover_request_ie (0, 1, -1) = Ret (amf, pid, source) →
  Encoder (handover_ack g amf pid) = inl octets → quiet (w_chaos w) → active_ok (w_heap w) →
  Q tt (amf_sent assoc octets (put_heap (put_gnb gnb (enrolled (next (w_heap w)) g)
    (put_ue (next (w_heap w)) (prepared_ue g a amf pid source) (bump (w_heap w)))) w)) →
  wp (HandlerHandoverRequest gnb (handover_request ies)) w Q.
Proof.
  intros Eg Ha Es Ei Ee Hq Hact HQ. unfold HandlerHandoverRequest, handover_request. wp_steps.
  eapply (wp_run _ (Some ies)); [reflexivity|]. cbv beta iota. wp_steps. eapply wp_run; [exact Ei|]. wp_steps.
  eapply wp_NewGnBUe; [done..|]. wp_steps. eapply wp_SetAmfUeId_silent; [heap_eq|reflexivity|]. wp_steps.
  assert (wp (if source =? -1 then mret tt else on_heap (set_ue (next (w_heap w)) (with_sourceAmfUeNgapId source)))
    (put_heap (put_gnb gnb (enrolled (next (w_heap w)) g) (put_ue (next (w_heap w))
      (with_amfUeNgapId amf (new_gnb_ue g a None)) (bump (w_heap w)))) w)
    (λ _ w', w' = put_heap (put_gnb gnb (enrolled (next (w_heap w)) g) (put_ue (next (w_heap w))
      (with_sourceAmfUeNgapId (if source =? -1 then 0 else source) (with_amfUeNgapId amf (new_gnb_ue g a None))) (bump (w_heap w)))) w)) as Hs.
  { destruct (source =? -1); wp_steps; done. }
  eapply wp_mono; [exact Hs|]. intros [] w' ->. wp_steps. eapply wp_run; [reflexivity|]. wp_steps.
  change (try_send _ _) with (try_send (handover_ack g amf pid) (sctpConn a)). rewrite Es.
  eapply wp_try_send; [exact Ee|done|cbn [w_heap put_heap]; auto|exact HQ].
Qed.

(** C29. A Handover Request prepares a UE at the target: under a fresh RAN
    identifier the pool holds a UE with the AMF identifier of the request and the
    identifier at the source if the container has one.  No session is set up for
    it, since a new UE has no allowed slices: the acknowledgement admits the
    session with downlink TEID 0, packets of the UPF for the TEID that was taken
    are dropped, and the first packet for TEID 0 ends the gNB's listener. *)
Theorem gnb_handover_request gnb ies g a assoc amf pid source octets (w : world) :
  gnbs (w_heap w) !! gnb = Some g → sole_amf g (w_heap w) a → sctpConn a = Some assoc →
  forM ies handover_request_ie (0, 1, -1) = Ret (amf, pid, source) →
  Encoder (handover_ack g amf pid) = inl octets → quiet (w_chaos w) → active_ok (w_heap w) →
  ∃ w' g' ue u, HandlerHandoverRequest gnb (handover_request ies) w = Ret (tt, w') ∧
    out (w_heap w') = out (w_heap w) ++ [ToAmf assoc (stream_of octets) octets] ∧
    gnbs (w_heap w') !! gnb = Some g' ∧ uePool g' = <[idUeGenerator g := ue]> (uePool g) ∧
    ues (w_heap w') = <[ue := u]> (ues (w_heap w)) ∧ ue = next (w_heap w) ∧
    ranUeNgapId u = idUeGenerator g ∧ amfUeNgapId u = amf ∧ state u = Ongoing ∧ unixSocketConnection u = None ∧
    (source ≠ -1 → sourceAmfUeNgapId u = source) ∧ pduSessions u = ∅ ∧
    (∀ buf len b3 packet, rd buf 3 = Ret b3 → b3 ≠ 133 → slice buf 0 len = Ret packet →
      from_upf gnb (teidGenerator g) buf len w' = Ret (true, w') ∧
      (teidGenerator g ≠ 0 → teidPool g !! 0 = None → from_upf gnb 0 buf len w' = Ret (false, w'))).
Proof.
  intros Eg Ha Es Ei Ee Hq Hact.
  exists (amf_sent assoc octets (put_heap (put_gnb gnb (enrolled (next (w_heap w)) g)
    (put_ue (next (w_heap w)) (prepared_ue g a amf pid source) (bump (w_heap w)))) w)),
    (enrolled (next (w_heap w)) g), (next (w_heap w)), (prepared_ue g a amf pid source).
  unfold amf_sent. cbn [w_heap]. split_and!; try reflexivity.
  - apply wp_exact. eapply wp_handover_request; done.
  - heap_eq.
  - intros Hs. cbn. by rewrite (proj2 (Z.eqb_neq _ _) Hs).
  - intros buf len b3 packet Eb Hb Ep. split.
    + eapply from_upf_dropped; [cbn [w_heap]; heap_eq|apply lookup_insert_eq|cbn [w_heap]; heap_eq| |exact Eb|exact Hb|exact Ep].
      intros i s Hi. cbn in Hi. by rewrite lookup_empty in Hi.
    + intros Ht Hp. eapply unknown_teid_stops; [cbn [w_heap]; heap_eq| |exact Eb|exact Hb|exact Ep].
      cbn. by rewrite lookup_insert_ne.
Qed.

(** ** Access at the target *)

Lemma ues_put_ue_ne p q u h : p ≠ q → ues (put_ue p u h) !! q = ues h !! q.
Proof. apply lookup_insert_ne. Qed.
Lemma gnbs_put_gnb_ne p q g h : p ≠ q → gnbs (put_gnb p g h) !! q = gnbs h !! q.
Proof. apply lookup_insert_ne. Qed.

Lemma wp_find_ue gnb g P i p u h (Q : option (Z * Z) → heap → Prop) :
  heap_ok h → gnbs h !! gnb = Some g → uePool g !! i = Some p → ues h !! p = Some u → P u = true →
  (∀ j q t, uePool g !! j = Some q → ues h !! q = Some t → P t = true → j = i) →
  Q (Some (i, p)) h → wp (find_ue gnb P) h Q.
Proof.
  intros Hh Eg Ei Eu HP Hu HQ. unfold find_ue. wp_steps. set (v := λ p, default blank_ue (ues h !! p)).
  assert (∀ k q, uePool g !! k = Some q → ues h !! q = Some (v q)) as Hv.
  { intros k q Ek. destruct (g_ues _ _ (h_gnbs _ Hh gnb g Eg) k q Ek) as (t&Et&_). unfold v. by rewrite Et. }
  unfold wp. rewrite (find_ptr_spec get_ue _ _ v).
  2: { intros k q Hin%elem_visit%Hv. unfold get_ue. by rewrite Hin. }
  rewrite (find_visit _ _ i p); [exact HQ|exact Ei|cbn; unfold v; by rewrite Eu|].
  intros j q Ej HPq. apply (Hu j q (v q)); [exact Ej|by eapply Hv|exact HPq].
Qed.

(** The frame of a UE that comes to the target. *)
Definition access_frame (amf : Z) : list Z := [0x00; 0x04] ++ be_bytes 8 amf.
Definition accessed (conn : Z) (u : GNBUe) : GNBUe := SetStateReady (with_unixSocketConnection (Some conn) u).
Definition dropped (i : Z) (g : GNBContext) : GNBContext := with_uePool (delete i (uePool g)) g.
Definition handover_notify (g : GNBContext) (ran amf : Z) : NGAPPDU :=
  BuildHandoverNotify ran amf (GetMccAndMncInOctets g) (GetTacInBytes g) (GetGnbIdInBytes g) (GetCellId g).

Lemma Int64_octets l : length l = 8%nat → Int64 l = Ret (s64 (be_nat l)).
Proof.
  intros Hl. destruct l as [|b0 [|b1 [|b2 [|b3 [|b4 [|b5 [|b6 [|b7 [|]]]]]]]]]; try discriminate Hl.
  transitivity (Ret (s64 (word4 b0 b1 b2 b3 * 2 ^ 32 + word4 b4 b5 b6 b7))); [reflexivity|].
  unfold word4, be_nat. cbn [foldl]. do 2 f_equal. lia.
Qed.
Lemma Int64_be_bytes a : 0 ≤ a < 2 ^ 63 → Int64 (be_bytes 8 a) = Ret a.
Proof. intros Ha. rewrite Int64_octets by apply be_bytes_length. by rewrite s64_be_nat. Qed.

Lemma wp_target_access gnb ue ut conn i real u g amf assoc octets (w : world) (Q : bool → world → Prop) :
  heap_ok (w_heap w) → gnbs (w_heap w) !! gnb = Some g → ues (w_heap w) !! ue = Some ut → unixSocketConnection ut = Some conn →
  uePool g !! i = Some real → ues (w_heap w) !! real = Some u → real ≠ ue → amfUeNgapId u = amf → 0 ≤ amf < 2 ^ 63 →
  (∀ j q t, uePool g !! j = Some q → ues (w_heap w) !! q = Some t → amfUeNgapId t = amf ∨ sourceAmfUeNgapId t = amf → j = i) →
  sctpConnection u = Some assoc → Encoder (handover_notify g (ranUeNgapId u) amf) = inl octets → quiet (w_chaos w) →
  Q true (amf_sent assoc octets (put_heap (put_gnb gnb (dropped (ranUeNgapId ut) g) (put_ue real (accessed conn u) (w_heap w))) w)) →
  wp (handleTargetAccessTrigger ue (access_frame amf) gnb) w Q.
Proof.
  intros Hh Eg Eut Ec Ei Eu Hne Ea Hamf Huniq Es Ee Hq HQ. unfold handleTargetAccessTrigger.
  change (starts 0x00 0x04 10 (access_frame amf)) with true. cbv iota. change (drop 2 (access_frame amf)) with (be_bytes 8 amf).
  wp_steps. eapply wp_run; [by apply Int64_be_bytes|]. wp_steps.
  eapply wp_find_ue; [exact Hh|exact Eg|exact Ei|exact Eu|by rewrite Ea, Z.eqb_refl| |].
  { intros j q t Ej Et [E%Z.eqb_eq|E%Z.eqb_eq]%orb_true_iff; eapply Huniq; eauto. }
  wp_steps. change (amfUeNgapId (SetStateReady _)) with (amfUeNgapId u). rewrite Ea, Z.eqb_refl. wp_steps.
  eapply wp_get_ue; [rewrite ues_put_ue_ne by done; exact Eut|]. wp_steps. unfold DeleteGnBUe. wp_steps. rewrite Ec.
  change (sctpConnection _) with (sctpConnection u). rewrite Es.
  eapply wp_try_send; [exact Ee|done|cbn [w_heap put_heap]; auto using h_active|]. wp_steps. exact HQ.
Qed.

(** ** Hand-over over N2 *)

(** The messages of an N2 hand-over in their order: the AMF prepares the target
    and commands the source, the UE comes to the target on a new connection,
    and the AMF releases the UE at the source. *)
Definition n2_handover (src tgt : Z) (ies : list IE) (amf ran conn : Z) : Gn unit :=
  _ ← HandlerHandoverRequest tgt (handover_request ies);
  _ ← HandlerHandoverCommand src (GetHandoverCommand ran amf);
  t ← accept tgt conn;
  _ ← match t with Some t => receive_ue tgt t conn (access_frame amf) | None => mret tt end;
  HandlerUeContextReleaseCommand src (GetUEContextReleaseCommand ran amf).

Lemma wp_handover_command gnb amf ran ue g u conn (w : world) (Q : unit → world → Prop) :
  gnbs (w_heap w) !! gnb = Some g → uePool g !! ran = Some ue → ues (w_heap w) !! ue = Some u →
  unixSocketConnection u = Some conn → Q tt (put_heap (log (ToUe conn [0x00; 0x05]) (w_heap w)) w) →
  wp (HandlerHandoverCommand gnb (GetHandoverCommand ran amf)) w Q.
Proof.
  intros Eg Ep Eu Ec HQ. unfold HandlerHandoverCommand. wp_steps.
  eapply (wp_run _ (Some [ignore ProtocolIEIDAMFUENGAPID (AMFUENGAPID amf); ignore ProtocolIEIDRANUENGAPID (RANUENGAPID ran);
    reject ProtocolIEIDHandoverType (HandoverType 0)])); [reflexivity|]. cbv beta iota. wp_steps.
  eapply (wp_run _ ran); [reflexivity|]. unfold if_ue, GetGnbUe. wp_steps. rewrite Ep. eapply wp_SendToUe; [done..|exact HQ].
Qed.

(** A UE whose message is not one of the other triggers. *)
Lemma wp_access gnb ue0 ue ut conn i real u g amf k assoc octets (w : world) (Q : unit → world → Prop) :
  heap_ok (w_heap w) → gnbs (w_heap w) !! gnb = Some g →
  uePool g !! k = Some ue → ues (w_heap w) !! ue = Some ut → unixSocketConnection ut = Some conn → state ut = GnbContext.Initialized →
  (∀ j p t, uePool g !! j = Some p → ues (w_heap w) !! p = Some t → unixSocketConnection t = Some conn → p = ue) →
  uePool g !! i = Some real → ues (w_heap w) !! real = Some u → real ≠ ue → amfUeNgapId u = amf → 0 ≤ amf < 2 ^ 63 →
  (∀ j q t, uePool g !! j = Some q → ues (w_heap w) !! q = Some t → amfUeNgapId t = amf ∨ sourceAmfUeNgapId t = amf → j = i) →
  sctpConnection u = Some assoc → Encoder (handover_notify g (ranUeNgapId u) amf) = inl octets → quiet (w_chaos w) →
  Q tt (amf_sent assoc octets (put_heap (put_gnb gnb (dropped (ranUeNgapId ut) g) (put_ue real (accessed conn u) (w_heap w))) w)) →
  wp (receive_ue gnb ue0 conn (access_frame amf)) w Q.
Proof.
  intros Hh Eg Ek Et Ec Es Hu Ei Eu Hne Ea Hamf Hun Esc Ee Hq HQ. unfold receive_ue. wp_steps.
  eapply wp_active_ue; [exact Hh|exact Eg|exact Ek|exact Et|exact Ec|exact Hu|].
  unfold DispatchUe. wp_steps. rewrite Es. change (GnbContext.Initialized =? GnbContext.Initialized) with true. cbv iota.
  unfold HandlerUeInitialized, triggered. wp_steps.
  change (handleXnHandoverTrigger ue (access_frame amf) gnb) with (mret false : Gn bool). wp_steps.
  change (handleN2HandoverTrigger ue (access_frame amf) gnb) with (mret false : Gn bool). wp_steps.
  eapply wp_target_access; [exact Hh|exact Eg|exact Et|exact Ec|exact Ei|exact Eu|done..|]. wp_steps. exact HQ.
Qed.

(** The worlds after each message, for a UE [ue] at the source [src] with state
    [us], and the target [tgt] in state [gt] with its AMF [a]. *)
Section Stages.
Context (src tgt ran ue conn conn' assoc amf pid source n2conn : Z) (gs gt : GNBContext) (us : GNBUe) (a : GNBAmf).
Context (ies : list IE) (o1 o2 o3 : list Z) (w : world).
#[local] Abbreviation n := (next (w_heap w)).
#[local] Abbreviation id0 := (idUeGenerator gt).

(** The source serves the UE; the target has not seen its identifier or its new
    connection. *)
Record handover_ready : Prop := {
  r_heap : heap_ok (w_heap w);
  r_source : ∃ assoc_s, serving src ran ue gs us conn assoc_s w;
  r_ran : ran ≠ 0;
  r_n2 : n2 (controlInfo gs) = Some n2conn;
  r_differ : src ≠ tgt;
  r_target : gnbs (w_heap w) !! tgt = Some gt;
  r_amf : sole_amf gt (w_heap w) a;
  r_assoc : sctpConn a = Some assoc;
  r_id : 0 ≤ id0 < 2 ^ 63 - 1;
  r_request : forM ies handover_request_ie (0, 1, -1) = Ret (amf, pid, source);
  r_amf_id : 0 < amf < 2 ^ 63;
  r_unseen : ∀ j q t, uePool gt !! j = Some q → ues (w_heap w) !! q = Some t →
    amfUeNgapId t ≠ amf ∧ sourceAmfUeNgapId t ≠ amf ∧ unixSocketConnection t ≠ Some conn';
  r_ack : Encoder (handover_ack gt amf pid) = inl o1;
  r_notify : Encoder (handover_notify gt id0 amf) = inl o2;
  r_complete : Encoder (BuildUEContextReleaseComplete ran amf) = inl o3;
}.

Definition gt1 := enrolled n gt.
Definition gt3 := enrolled (n + 1) gt1.
Definition gt4 := dropped (idUeGenerator gt1) gt3.
Definition up := prepared_ue gt a amf pid source.
Definition ut := new_gnb_ue gt1 a (Some conn').
Definition up4 := accessed conn' up.
Definition w1 := amf_sent assoc o1 (put_heap (put_gnb tgt gt1 (put_ue n up (bump (w_heap w)))) w).
Definition w2 := put_heap (log (ToUe conn [0x00; 0x05]) (w_heap w1)) w1.
Definition w3 := put_heap (put_gnb tgt gt3 (put_ue (n + 1) ut (bump (w_heap w2)))) w2.
Definition w4 := amf_sent assoc o2 (put_heap (put_gnb tgt gt4 (put_ue n up4 (w_heap w3))) w3).
Definition w5 := amf_sent n2conn o3 (put_heap (log (ToUe conn [0x00; 0x06]) (put_ue ue (SetStateInitialized us)
  (put_gnb src (released us gs) (w_heap w4)))) w4).

Context (Hr : handover_ready).

Lemma ue_old p u : ues (w_heap w) !! p = Some u → p ≠ n ∧ p ≠ n + 1.
Proof. intros Ep. destruct (h_ues _ (r_heap Hr) p u Ep) as [? _]. lia. Qed.

Lemma stage1 : HandlerHandoverRequest tgt (handover_request ies) w = Ret (tt, w1).
Proof.
  destruct Hr as [Hh [? Hs] ? ? ? ? ? ? ? ? ? ? ? ? ?]. destruct Hs. apply wp_exact. eapply wp_handover_request; done.
Qed.

Lemma stage2 : HandlerHandoverCommand src (GetHandoverCommand ran amf) w1 = Ret (tt, w2).
Proof.
  destruct Hr as [Hh [? Hs] ? ? ? ? ? ? ? ? ? ? ? ? ?]. destruct Hs as [Es Ep Eu Ec _ _ _].
  destruct (ue_old _ _ Eu). apply wp_exact. unfold w2. eapply wp_handover_command; [| |  |exact Ec|done].
  - unfold w1, amf_sent. cbn [w_heap put_heap]. rewrite gnbs_log, gnbs_put_gnb_ne by done. exact Es.
  - exact Ep.
  - unfold w1, amf_sent. cbn [w_heap put_heap]. rewrite ues_log, ues_put_gnb, ues_put_ue_ne by done. exact Eu.
Qed.

Lemma stage3 : accept tgt conn' w2 = Ret (Some (n + 1), w3).
Proof.
  destruct Hr as [Hh [? Hs] ? ? ? ? (i&p&Epool&Ea) ? ? ? ? ? ? ? ?]. apply wp_exact. unfold accept. wp_steps.
  eapply wp_NewGnBUe; [unfold w2, w1, amf_sent; cbn [w_heap put_heap]; heap_eq|by exists i, p|]. done.
Qed.

Lemma id1_next : idUeGenerator gt1 = id0 + 1.
Proof. destruct (r_id Hr). cbn. apply s64_small. lia. Qed.

(** Who the target knows at the third message. *)
Lemma pool3 j q t : uePool gt3 !! j = Some q → ues (w_heap w3) !! q = Some t →
  j = id0 + 1 ∧ q = n + 1 ∧ t = ut ∨ j = id0 ∧ q = n ∧ t = up ∨ uePool gt !! j = Some q ∧ ues (w_heap w) !! q = Some t.
Proof.
  change (uePool gt3) with (<[idUeGenerator gt1 := n + 1]> (<[id0 := n]> (uePool gt))). rewrite id1_next.
  change (ues (w_heap w3)) with (<[n + 1 := ut]> (<[n := up]> (ues (w_heap w)))). intros Ej Eq.
  apply lookup_insert_Some in Ej as [[<- <-]|[_ Ej]]; [left; split_and!; [done..|]; rewrite lookup_insert_eq in Eq; congruence|].
  apply lookup_insert_Some in Ej as [[<- <-]|[_ Ej]].
  - right; left. rewrite lookup_insert_ne, lookup_insert_eq in Eq by lia. split_and!; congruence.
  - right; right. split; [done|]. destruct (g_ues _ _ (h_gnbs _ (r_heap Hr) tgt gt (r_target Hr)) j q Ej) as (x&Ex&_).
    destruct (ue_old _ _ Ex). by rewrite !lookup_insert_ne in Eq by done.
Qed.

Lemma heap3_ok : heap_ok (w_heap w3).
Proof.
  pose proof (gr_ok _ _ (keeps_handover _ _ _ (r_heap Hr) _ _ stage1)) as Hw1.
  pose proof (gr_ok _ _ (keeps_command _ _ _ Hw1 _ _ stage2)) as Hw2.
  exact (gr_ok _ _ (keeps_accept _ _ _ Hw2 _ _ stage3)).
Qed.

Lemma stage4 : receive_ue tgt (n + 1) conn' (access_frame amf) w3 = Ret (tt, w4).
Proof.
  pose proof id1_next as Hid. pose proof (r_unseen Hr) as Hu. pose proof (r_amf_id Hr) as Ha. destruct (r_source Hr) as [assoc_s [_ _ _ _ _ Hq _]].
  apply wp_exact. eapply (wp_access tgt (n + 1) (n + 1) ut conn' id0 n up gt3 amf (id0 + 1)).
  - exact heap3_ok.
  - apply gnbs_put_gnb.
  - cbn. change (s64 (id0 + 1)) with (idUeGenerator gt1). rewrite Hid. apply lookup_insert_eq.
  - unfold w3. cbn [w_heap put_heap]. heap_eq.
  - done.
  - done.
  - intros j q t Ej Eq Et. destruct (pool3 j q t Ej Eq) as [(_&->&_)|[(_&_&->)|[Ej' Eq']]]; [done|discriminate Et|].
    by destruct (Hu j q t Ej' Eq') as (_&_&?).
  - cbn. change (s64 (id0 + 1)) with (idUeGenerator gt1). rewrite Hid, lookup_insert_ne by lia. apply lookup_insert_eq.
  - change (ues (w_heap w3)) with (<[n + 1 := ut]> (<[n := up]> (ues (w_heap w)))). rewrite lookup_insert_ne by lia. apply lookup_insert_eq.
  - lia.
  - done.
  - lia.
  - intros j q t Ej Eq Et. destruct (pool3 j q t Ej Eq) as [(_&_&->)|[(?&_&_)|[Ej' Eq']]]; [|done|].
    + cbn in Et. lia.
    + destruct (Hu j q t Ej' Eq') as (?&?&_). tauto.
  - exact (r_assoc Hr).
  - exact (r_notify Hr).
  - exact Hq.
  - done.
Qed.

Lemma stage5 : HandlerUeContextReleaseCommand src (GetUEContextReleaseCommand ran amf) w4 = Ret (tt, w5).
Proof.
  destruct (r_source Hr) as [assoc_s [Es Ep Eu Ec Eas Hq Hact]]. destruct (ue_old _ _ Eu) as [Hn Hn1]. pose proof (r_differ Hr).
  apply wp_exact. eapply (wp_release_command src ran ue gs us conn); [split| | | |done].
  - unfold w4, amf_sent. cbn [w_heap put_heap]. rewrite gnbs_log, gnbs_put_gnb_ne by done.
    unfold w3. cbn [w_heap put_heap]. rewrite gnbs_put_ue, gnbs_put_gnb_ne by done. unfold w2, w1, amf_sent.
    cbn [w_heap put_heap]. change (gnbs (put_ue ?p ?u (bump ?h))) with (gnbs h). rewrite !gnbs_log, gnbs_put_gnb_ne by done. exact Es.
  - exact Ep.
  - change (ues (w_heap w4)) with (<[n := up4]> (<[n + 1 := ut]> (<[n := up]> (ues (w_heap w))))).
    rewrite !lookup_insert_ne by done. exact Eu.
  - exact Ec.
  - exact Eas.
  - exact Hq.
  - apply h_active. exact (gr_ok _ _ (keeps_receive _ _ _ _ _ heap3_ok _ _ stage4)).
  - exact (r_ran Hr).
  - exact (r_n2 Hr).
  - exact (r_complete Hr).
Qed.

Lemma handover_run : n2_handover src tgt ies amf ran conn' w = Ret (tt, w5).
Proof.
  unfold n2_handover, mbind, St_bind. rewrite stage1. cbv beta iota. rewrite stage2. cbv beta iota. rewrite stage3. cbv beta iota.
  rewrite stage4. cbv beta iota. exact stage5.
Qed.

Lemma gt4_pool : uePool gt4 = <[id0 := n]> (delete (id0 + 1) (uePool gt)).
Proof.
  change (uePool gt4) with (delete (idUeGenerator gt1) (<[idUeGenerator gt1 := n + 1]> (<[id0 := n]> (uePool gt)))).
  rewrite id1_next, delete_insert_eq, delete_insert_ne by lia. done.
Qed.

Lemma ues5 : ues (w_heap w5) = <[ue := SetStateInitialized us]> (<[n := up4]> (<[n + 1 := ut]> (<[n := up]> (ues (w_heap w))))).
Proof. done. Qed.
Lemma gnb5_target : gnbs (w_heap w5) !! tgt = Some gt4.
Proof.
  unfold w5, amf_sent. cbn [w_heap put_heap]. rewrite !gnbs_log, gnbs_put_ue, gnbs_put_gnb_ne by exact (r_differ Hr).
  unfold w4, amf_sent. cbn [w_heap put_heap]. heap_eq.
Qed.
Lemma moved_ue : ues (w_heap w5) !! n = Some up4.
Proof.
  destruct (r_source Hr) as [assoc_s [_ _ Eu _ _ _ _]]. destruct (ue_old _ _ Eu). rewrite ues5, lookup_insert_ne by done. apply lookup_insert_eq.
Qed.

(** The new connection belongs to the moved UE alone. *)
Lemma moved_alone j q t : uePool gt4 !! j = Some q → ues (w_heap w5) !! q = Some t → unixSocketConnection t = Some conn' → q = n.
Proof.
  rewrite gt4_pool, ues5. destruct (r_source Hr) as [assoc_s [_ _ Eu _ _ _ _]]. destruct (ue_old _ _ Eu) as [Hn Hn1].
  intros Ej Eq Et. apply lookup_insert_Some in Ej as [[_ <-]|[_ [_ Ej]%lookup_delete_Some]]; [done|].
  destruct (g_ues _ _ (h_gnbs _ (r_heap Hr) tgt gt (r_target Hr)) j q Ej) as (x&Ex&_). destruct (ue_old _ _ Ex) as [Hq Hq1].
  destruct (r_unseen Hr j q x Ej Ex) as (_&_&Hc). exfalso. apply Hc. destruct (decide (q = ue)) as [->|Hne].
  - rewrite lookup_insert_eq in Eq. injection Eq as <-. rewrite Eu in Ex. injection Ex as <-. exact Et.
  - rewrite !lookup_insert_ne in Eq by done. rewrite Ex in Eq. by injection Eq as <-.
Qed.

Lemma moved_uplink x rest octets t : x ≠ 0 → Encoder (UplinkNasTransport (x :: rest) up4 gt4) = inl octets →
  receive_ue tgt t conn' (x :: rest) w5 = Ret (tt, amf_sent assoc octets w5).
Proof.
  intros Hx Ee. destruct (r_source Hr) as [assoc_s [_ _ _ _ _ Hq _]].
  pose proof (gr_ok _ _ (keeps_receive _ _ _ _ _ heap3_ok _ _ stage4)) as Hw4.
  pose proof (gr_ok _ _ (keeps_release _ _ _ Hw4 _ _ stage5)) as Hw5.
  apply wp_exact. unfold receive_ue. wp_steps.
  eapply (wp_active_ue _ _ n conn' gt4 up4 id0); [exact Hw5|exact gnb5_target|rewrite gt4_pool; apply lookup_insert_eq|exact moved_ue|done|exact moved_alone|].
  eapply wp_uplink; [exact gnb5_target|exact moved_ue|exact (r_assoc Hr)|exact Hx|exact Hq|by apply h_active|right; split; [by right|done]|exact Ee|].
  change (relayed up4) with up4. rewrite put_ue_id, put_heap_id by exact moved_ue. done.
Qed.
End Stages.

(** C17. An N2 hand-over, from the Handover Request to the release at the
    source, moves the UE: at the target it is ready, under a fresh RAN
    identifier, on its new connection, with the association of the target's
    AMF, and its NAS messages go there; the UE that was accepted with the
    connection is gone from the pool.  What does not move is its user data: it
    has no session at the target, and the source keeps it in its pool, idle. *)
Theorem gnb_n2_handover src tgt ran ue conn conn' assoc amf pid source n2conn gs gt us a ies o1 o2 o3 (w : world) :
  handover_ready src tgt ran ue conn conn' assoc amf pid source n2conn gs gt us a ies o1 o2 o3 w →
  ∃ w' new u' gs' gt', n2_handover src tgt ies amf ran conn' w = Ret (tt, w') ∧
    out (w_heap w') = out (w_heap w) ++ [ToAmf assoc (stream_of o1) o1; ToUe conn [0x00; 0x05];
      ToAmf assoc (stream_of o2) o2; ToUe conn [0x00; 0x06]; ToAmf n2conn (stream_of o3) o3] ∧
    gnbs (w_heap w') !! tgt = Some gt' ∧
    uePool gt' = <[idUeGenerator gt := new]> (delete (idUeGenerator gt + 1) (uePool gt)) ∧
    ues (w_heap w') !! new = Some u' ∧ ranUeNgapId u' = idUeGenerator gt ∧ amfUeNgapId u' = amf ∧ state u' = Ready ∧
    unixSocketConnection u' = Some conn' ∧ sctpConnection u' = Some assoc ∧ pduSessions u' = ∅ ∧
    gnbs (w_heap w') !! src = Some gs' ∧ uePool gs' = uePool gs ∧
    ues (w_heap w') !! ue = Some (with_state GnbContext.Initialized us) ∧
    (∀ x rest octets t, x ≠ 0 → Encoder (UplinkNasTransport (x :: rest) u' gt') = inl octets →
      receive_ue tgt t conn' (x :: rest) w' = Ret (tt, amf_sent assoc octets w')).
Proof.
  intros Hr. eexists _, (next (w_heap w)), _, _, _. split; [exact (handover_run _ _ _ _ _ _ _ _ _ _ _ _ _ _ _ _ _ _ _ _ Hr)|].
  split; [|split; [eapply gnb5_target; exact Hr|split; [eapply gt4_pool; exact Hr|split; [eapply moved_ue; exact Hr|]]]].
  { unfold w5, w4, w3, w2, w1, amf_sent. cbn. by rewrite <- !(assoc_L (++)). }
  split; [done|]. split; [done|]. split; [done|]. split; [done|]. split; [exact (r_assoc _ _ _ _ _ _ _ _ _ _ _ _ _ _ _ _ _ _ _ _ Hr)|].
  split; [done|]. split; [unfold w5, amf_sent; cbn [w_heap put_heap]; heap_eq|].
  split; [apply (sessions_pools (visit (pduSessions us)) (without_ip (IP_String (GetIp us)) (without_teid (GetTeidDownlink us) gs)))|].
  split; [rewrite ues5; apply lookup_insert_eq|]. intros x rest octets t Hx Ee. eapply moved_uplink; [exact Hr|exact Hx|exact Ee].
Qed.
End Handover.

(** ** Two gNBs to try the theorems on *)

Definition demo_target : GNBContext :=
  MkGnb (MkData "127.0.0.3" 2152 "" 2152 (Some 8) "127.0.0.4" (Some 9))
    (MkControl "208" "93" "000001" "000002" "127.0.0.3" 9488 (Some 10) (Some 2) "" 0 "" None 1 "")
    ∅ {[1 := 11]} ∅ ∅ "01" "010203" 5 2 5 5 (Some true) false "".
Definition demo_world2 : GnbNgap.world (G:=Z) :=
  let w := GnbDemo.demo_world (GnbDemo.demo_ue ∅) in
  put_heap (put_gnb 1 demo_target (w_heap w)) w.
Definition demo_ies : list IE := [reject ProtocolIEIDAMFUENGAPID (AMFUENGAPID 7)].

Lemma gnb_handover_request_witness :
  let H1 := key_order in let H2 := demo_host in let H3 := demo_codec (MkNgap 0 None) in
  ∃ w', HandlerHandoverRequest 1 (handover_request demo_ies) demo_world2 = Ret (tt, w') ∧
    from_upf 1 5 demo_released 4 w' = Ret (true, w') ∧ from_upf 1 0 demo_released 4 w' = Ret (false, w').
Proof.
  intros H1 H2 H3.
  destruct (gnb_handover_request (G:=Z) 1 demo_ies demo_target demo_amf 2 7 1 (-1) [1] demo_world2)
    as (w'&g'&ue&u&E&_&_&_&_&_&_&_&_&_&_&_&Ht); [reflexivity|by exists 1, 11|reflexivity..|by split| |].
  - intros i p E. change (({["000001"%string := 0]} : gmap string Z) !! i = Some p) in E.
    apply lookup_singleton_Some in E as [_ <-]. by eexists.
  - destruct (Ht demo_released 4 44 demo_released) as [Ha Hb]; [reflexivity|lia|reflexivity|].
    exists w'. split_and!; [exact E|exact Ha|by apply Hb].
Defined.

Lemma demo_world2_ok : heap_ok (w_heap demo_world2).
Proof.
  assert (heap_ok (w_heap (GnbDemo.demo_world (GnbDemo.demo_ue ∅)))) as Hh.
  { apply demo_world_ok; [done|]. split; [by right|apply map_Forall_empty]. }
  destruct Hh as [Hu Ha Hg Hact]. split; [exact Hu|exact Ha| |by apply active_put_gnb_ok].
  apply map_Forall_insert_2; [|intros q g Eg; exact (gnb_ok_grows (w_heap (GnbDemo.demo_world (GnbDemo.demo_ue ∅))) (w_heap demo_world2) g (λ _ _ h, h) (λ _ _ h, h) (Hg q g Eg))].
  split; [apply map_Forall_empty..|]. apply map_Forall_singleton. by exists demo_amf.
Qed.

Lemma gnb_n2_handover_witness :
  let H1 := key_order in let H2 := demo_host in let H3 := demo_codec (MkNgap 0 None) in
  ∃ w' new u', n2_handover 0 1 demo_ies 7 1 6 demo_world2 = Ret (tt, w') ∧
    ues (w_heap w') !! new = Some u' ∧ state u' = Ready ∧ unixSocketConnection u' = Some 6 ∧ pduSessions u' = ∅.
Proof.
  intros H1 H2 H3.
  destruct (gnb_n2_handover (G:=Z) 0 1 1 10 4 6 2 7 1 (-1) 2 demo_gnb demo_target (GnbDemo.demo_ue ∅) demo_amf demo_ies [1] [1] [1] demo_world2)
    as (w'&new&u'&gs'&gt'&E&_&_&_&Eu&_&_&Es&Ec&_&Ep&_).
  - split; try done; try lia; try exact demo_world2_ok.
    + exists 2. split; try reflexivity; [by split|]. apply h_active, demo_world2_ok.
    + by exists 1, 11.
  - exists w', new, u'. by split_and!.
Defined.
