(* ===== verification/NgapValues.v ===== *)
(** * The gNB's messages as values of ngapType

    What the builders of gnb/ngap/message/ngap_control put together, field by
    field, for lib/ngap to encode: a struct literal is [VStruct], a CHOICE whose
    Present says which pointer is set is [choose], a pointer or slice that is
    not set is [VNil].  [pdu_value] is the structure that a [NGAPPDU] of the
    gNB's model stands for. *)

From S2P Require Import Prelude GoStrings AperBits AperPrim AperCodec AperField AperFieldProps AperSize NgapTypes NgapOctets GnbContext Ngap.

#[local] Open Scope Z_scope.
#[local] Open Scope go_scope.

(** ** Literals *)

#[local] Abbreviation fields := (list (string * gotype * string)).
Definition struct_fields (t : gotype) : fields := match t with TStruct _ fs => fs | _ => [] end.
Fixpoint field_index (name : string) (fs : fields) : nat :=
  match fs with [] => O | f :: fs => if (f.1.1 =? name)%string then O else S (field_index name fs) end.
Definition field_at (t : gotype) (name : string) : gotype * string :=
  match struct_fields t !! field_index name (struct_fields t) with Some f => (f.1.2, f.2) | None => (TOther, "")%string end.
Definition field_type (t : gotype) (name : string) : gotype := (field_at t name).1.
Definition elem (t : gotype) : gotype := match t with TPtr t | TSlice t => t | _ => t end.

(** [Present] names the alternative, which points to [v]; the others are nil. *)
Definition choose (t : gotype) (name : string) (v : value) : value :=
  let i := field_index name (struct_fields t) in
  VStruct (VInt (Z.of_nat i) :: <[(i - 1)%nat := VPtr v]> (List.map (λ f, zero f.1.2) (drop 1 (struct_fields t)))).
Definition octets (s : list Z) : value := VStruct [VOctets s].
Definition bits (b : BitString) : value := VBits (Bytes b) (BitLength b).
Definition list_of (l : list value) : value := VStruct [VSlice l].

(** ** Elements *)

Definition tai (plmn tac : list Z) : value := VStruct [octets plmn; octets tac; VNil].
Definition cgi (plmn : list Z) (cell : BitString) : value := VStruct [octets plmn; VStruct [bits cell]; VNil].
Definition nssai (s : SNSSAI) : value :=
  VStruct [octets (default [] (SST s));
    match SD s with Some b => VPtr (octets b) | None => VNil end; VNil].
Definition gnb_node (plmn : list Z) (gnb : BitString) : value :=
  choose NgapTypes.GlobalRANNodeID "GlobalGNBID" (VStruct [octets plmn; choose GNBID "GNBID" (bits gnb); VNil]).
(** A session's identifier and its transfer. *)
Definition session (s : Z * list Z) : value := VStruct [int s.1; VOctets s.2; VNil].
Definition modified (s : Z * list Z) : value := VStruct [int s.1; VPtr (VOctets s.2); VNil].
Definition name_octets (s : string) : list Z := List.map (λ a, Z.of_N (Ascii.N_of_ascii a)) (String.list_ascii_of_string s).

Definition cause_value (c : cause) : value :=
  match c with
  | CauseNothing => zero NgapTypes.Cause
  | Ngap.CauseRadioNetwork v => choose NgapTypes.Cause "RadioNetwork" (enum v)
  | Ngap.CauseTransport v => choose NgapTypes.Cause "Transport" (enum v)
  | Ngap.CauseNas v => choose NgapTypes.Cause "Nas" (enum v)
  | Ngap.CauseProtocol v => choose NgapTypes.Cause "Protocol" (enum v)
  | Ngap.CauseMisc v => choose NgapTypes.Cause "Misc" (enum v)
  end.

(** The pointer that is set and what it points to, for the elements that the
    gNB and the simulated AMF build. *)
Definition content_value (c : content) : option (string * value) :=
  match c with
  | Ngap.AMFUENGAPID v => Some ("AMFUENGAPID", int v)
  | Ngap.RANUENGAPID v => Some ("RANUENGAPID", int v)
  | SourceAMFUENGAPID v => Some ("SourceAMFUENGAPID", int v)
  | Ngap.NASPDU v => Some ("NASPDU", octets v)
  | Ngap.UserLocationInformation plmn cell taiPlmn tac =>
    Some ("UserLocationInformation", choose NgapTypes.UserLocationInformation "UserLocationInformationNR"
      (VStruct [cgi plmn cell; tai taiPlmn tac; VNil; VNil]))
  | Ngap.RRCEstablishmentCause v => Some ("RRCEstablishmentCause", enum v)
  | Ngap.FiveGSTMSI set pointer tmsi => Some ("FiveGSTMSI", VStruct [VStruct [bits set]; VStruct [bits pointer]; octets tmsi; VNil])
  | Ngap.UEContextRequest v => Some ("UEContextRequest", enum v)
  | Ngap.GlobalRANNodeID plmn gnb => Some ("GlobalRANNodeID", gnb_node plmn gnb)
  | Ngap.RANNodeName v => Some ("RANNodeName", VStruct [VString (name_octets v)])
  | Ngap.SupportedTAList tac plmn slices =>
    Some ("SupportedTAList", list_of [VStruct [octets tac;
      list_of [VStruct [octets plmn; list_of (List.map (λ s, VStruct [nssai s; VNil]) slices); VNil]]; VNil]])
  | DefaultPagingDRX v => Some ("DefaultPagingDRX", enum v)
  | Ngap.Cause c => Some ("Cause", cause_value c)
  | Ngap.PDUSessionResourceSetupListSURes l => Some ("PDUSessionResourceSetupListSURes", list_of (List.map session l))
  | Ngap.PDUSessionResourceSetupListCxtRes l => Some ("PDUSessionResourceSetupListCxtRes", list_of (List.map session l))
  | Ngap.PDUSessionResourceReleasedListRelRes l => Some ("PDUSessionResourceReleasedListRelRes", list_of (List.map session l))
  | Ngap.PDUSessionResourceModifyListModRes l => Some ("PDUSessionResourceModifyListModRes", list_of (List.map modified l))
  | Ngap.PDUSessionResourceAdmittedList l => Some ("PDUSessionResourceAdmittedList", list_of (List.map session l))
  | Ngap.PDUSessionResourceListHORqd l => Some ("PDUSessionResourceListHORqd", list_of (List.map session l))
  | Ngap.PDUSessionResourceToBeSwitchedDLList l => Some ("PDUSessionResourceToBeSwitchedDLList", list_of (List.map session l))
  | Ngap.PDUSessionResourceSwitchedList l => Some ("PDUSessionResourceSwitchedList", list_of (List.map session l))
  | Ngap.TargetToSourceTransparentContainer v => Some ("TargetToSourceTransparentContainer", octets v)
  | Ngap.SourceToTargetTransparentContainer v => Some ("SourceToTargetTransparentContainer", octets v)
  | Ngap.HandoverType v => Some ("HandoverType", enum v)
  | Ngap.TargetID plmn gnb taiPlmn tac =>
    Some ("TargetID", choose NgapTypes.TargetID "TargetRANNodeID" (VStruct [gnb_node plmn gnb; tai taiPlmn tac; VNil]))
  | Ngap.UESecurityCapabilities nrEnc nrInt eutraEnc eutraInt =>
    Some ("UESecurityCapabilities", VStruct [VStruct [bits nrEnc]; VStruct [bits nrInt]; VStruct [bits eutraEnc]; VStruct [bits eutraInt]; VNil])
  | Ngap.UEAggregateMaximumBitRate dl ul => Some ("UEAggregateMaximumBitRate", VStruct [int dl; int ul; VNil])
  | Ngap.SecurityContext ncc nh => Some ("SecurityContext", VStruct [int ncc; VStruct [bits nh]; VNil])
  | Ngap.PDUSessionResourceSetupListHOReq l =>
    Some ("PDUSessionResourceSetupListHOReq", list_of (List.map (λ s, VStruct [int s.1.1; nssai s.1.2; VOctets s.2; VNil]) l))
  | Ngap.UENGAPIDs (Ngap.UENGAPIDPair amf ran) =>
    Some ("UENGAPIDs", choose NgapTypes.UENGAPIDs "UENGAPIDPair" (VStruct [int amf; int ran; VNil]))
  | Ngap.UENGAPIDs (UEAMFUENGAPID amf) => Some ("UENGAPIDs", choose NgapTypes.UENGAPIDs "AMFUENGAPID" (int amf))
  | _ => None
  end%string.

(** ** Messages *)

Definition alternative_name (a : alternative) : string :=
  match a with
  | MNothing => "" | MNGSetupRequest => "NGSetupRequest" | MInitialUEMessage => "InitialUEMessage"
  | MUplinkNASTransport => "UplinkNASTransport" | MDownlinkNASTransport => "DownlinkNASTransport"
  | MInitialContextSetupRequest => "InitialContextSetupRequest" | MInitialContextSetupResponse => "InitialContextSetupResponse"
  | MPDUSessionResourceSetupRequest => "PDUSessionResourceSetupRequest" | MPDUSessionResourceSetupResponse => "PDUSessionResourceSetupResponse"
  | MPDUSessionResourceReleaseCommand => "PDUSessionResourceReleaseCommand"
  | MPDUSessionResourceReleaseResponse => "PDUSessionResourceReleaseResponse"
  | MPDUSessionResourceModifyRequest => "PDUSessionResourceModifyRequest" | MPDUSessionResourceModifyResponse => "PDUSessionResourceModifyResponse"
  | MNGSetupResponse => "NGSetupResponse" | MNGSetupFailure => "NGSetupFailure" | MPaging => "Paging" | MErrorIndication => "ErrorIndication"
  | MPathSwitchRequest => "PathSwitchRequest" | MPathSwitchRequestAcknowledge => "PathSwitchRequestAcknowledge"
  | MHandoverRequired => "HandoverRequired" | MHandoverRequest => "HandoverRequest"
  | MHandoverRequestAcknowledge => "HandoverRequestAcknowledge" | MHandoverCommand => "HandoverCommand" | MHandoverNotify => "HandoverNotify"
  | MUEContextReleaseRequest => "UEContextReleaseRequest" | MUEContextReleaseCommand => "UEContextReleaseCommand"
  | MUEContextReleaseComplete => "UEContextReleaseComplete"
  end.

Definition ie_value (t : gotype) (i : IE) : value :=
  VStruct [int (ie_Id i); enum (ie_Criticality i);
    match i.(ie_Value) ≫= content_value with
    | Some (name, v) => choose (field_type t "Value") name v
    | None => zero (field_type t "Value")
    end].

(** The element type of the list of a message's elements. *)
Definition ie_type (message : gotype) : gotype := elem (field_type (field_type message "ProtocolIEs") "List").

(** An InitiatingMessage, SuccessfulOutcome or UnsuccessfulOutcome. *)
Definition message_value (t : gotype) (m : Message) : value :=
  let name := alternative_name (Value m) in let message := elem (field_type (field_type t "Value") name) in
  VStruct [int (ProcedureCode m); enum (Criticality m);
    choose (field_type t "Value") name (VStruct [list_of (List.map (ie_value (ie_type message)) (ProtocolIEs m))])].

Definition pdu_value (pdu : Ngap.NGAPPDU) : value :=
  match Outcome pdu with
  | Some m =>
    if Present pdu =? NGAPPDUPresentInitiatingMessage then choose NgapTypes.NGAPPDU "InitiatingMessage" (message_value InitiatingMessage m)
    else if Present pdu =? NGAPPDUPresentSuccessfulOutcome then choose NgapTypes.NGAPPDU "SuccessfulOutcome" (message_value SuccessfulOutcome m)
    else choose NgapTypes.NGAPPDU "UnsuccessfulOutcome" (message_value UnsuccessfulOutcome m)
  | None => VStruct [VInt (Present pdu); VNil; VNil; VNil]
  end.
