(* ===== verification/NgapFits.v ===== *)
(** * The gNB's messages fit their types

    Rules that take a value apart along its type, with the tags computed, and
    by them: every message the gNB and its simulated AMF build from contents
    within their ranges fits [NGAPPDU], so lib/ngap encodes it and decodes it
    to the same structure. *)

From S2P Require Import Prelude GoStrings AperBits AperPrim AperCodec AperField AperFieldProps AperSize NgapTypes NgapOctets GnbContext Ngap GnbProps NgapValues GnbDemo.

#[local] Open Scope Z_scope.
#[local] Open Scope go_scope.

#[local] Abbreviation fields := (list (string * gotype * string)).
#[local] Abbreviation tag_of f := (parseFieldParameters (snd f)).

(** ** SEQUENCE *)

Definition sequence_ok (fs : fields) : bool :=
  negb (is_choice fs) && (0 <? blen fs) && (length (List.filter optional (tags fs)) <=? 64)%nat &&
  forallb (λ f, exported f.1.1 && (negb (optional (tag_of f)) || nilable f.1.2) && negb (openType (tag_of f))) fs.

(** A field that is left out, or fits. *)
Definition field_ok (f : string * gotype * string) (v : value) : Prop :=
  optional (tag_of f) = true ∧ v = VNil ∨ fits v f.1.2 (tag_of f) = true.

Lemma fields_fit before fs vs : Forall2 field_ok fs vs →
  forallb (λ f, exported f.1.1 && (negb (optional (tag_of f)) || nilable f.1.2) && negb (openType (tag_of f))) fs = true →
  fits_fields before fs vs (List.map fits vs) = true.
Proof.
  intros H. revert before. induction H as [|[[n t] tag] v fs vs Hv _ IH]; intros before Hf; [done|]. cbn [forallb fst snd] in Hf.
  apply andb_true_iff in Hf as [[He Ho%negb_true_iff]%andb_true_iff Hf]. cbn [fits_fields List.map]. rewrite He, (IH _ Hf), andb_true_r. cbn [andb].
  unfold resolve. rewrite Ho. destruct Hv as [[Hopt ->]|Hv]; cbn [fst snd] in *; [by rewrite Hopt|]. rewrite Hv. by destruct (_ && is_nil v).
Qed.
Lemma fits_sequence name fs vs p : sizeExtensible p = false → sequence_ok fs = true → Forall2 field_ok fs vs →
  fits (VStruct vs) (TStruct name fs) p = true.
Proof.
  intros Hs Hok Hv. unfold sequence_ok in Hok. apply andb_true_iff in Hok as [[[Hc%negb_true_iff Hn]%andb_true_iff H64]%andb_true_iff Hf].
  cbn [fits]. rewrite Hs, Hc, Hn, H64, (fields_fit [] fs vs) by done. done.
Qed.

(** A SEQUENCE whose third field is an open type that refers to the first. *)
Lemma fits_open name idname idt cn ct tv tag vid vc v r p : sizeExtensible p = false →
  exported idname && exported cn && negb (idname =? "Present")%string && negb (idname =? cn)%string = true →
  parseFieldParameters tag = MkParams false false false None None None None None true idname None →
  getReferenceFieldValue vid idt = Ret r → fits vid idt no_params = true → fits vc ct no_params = true →
  fits v tv (MkParams false false false None None None None None true idname (Some r)) = true →
  fits (VStruct [vid; vc; v]) (TStruct name [(idname, idt, ""); (cn, ct, ""); ("Value", tv, tag)]%string) p = true.
Proof.
  intros Hs Hn Ht Hr Hid Hc Hv. apply andb_true_iff in Hn as [[[He1 He2]%andb_true_iff Hp%negb_true_iff]%andb_true_iff Hne%negb_true_iff].
  cbn [fits is_choice]. rewrite Hs, Hp. cbn [negb andb]. unfold tags. cbn [List.map snd]. rewrite Ht.
  change (parseFieldParameters "") with no_params. cbn [List.filter optional no_params]. change (0 <? blen _) with true. cbn [length Nat.leb andb].
  cbn [fits_fields List.map]. rewrite Ht, He1, He2. change (parseFieldParameters "") with no_params. cbn [optional no_params negb orb andb].
  change (resolve [] no_params) with (Ret (A:=fieldParameters) no_params). unfold resolve at 1. cbn [openType no_params]. rewrite Hid, Hc.
  unfold resolve. cbn [openType referenceFieldName app find_field]. rewrite (String.eqb_refl idname), Hr. cbn [mbind outcome_mbind with_reference].
  change (exported "Value") with true. by rewrite Hv.
Qed.

(** ** CHOICE *)

Definition choice_ok (fs : fields) (i : nat) (p : fieldParameters) : bool :=
  is_choice fs && (0 <? i)%nat && negb (sizeExtensible p) && forallb (λ f, nilable f.1.2) (drop 1 fs) &&
  forallb (λ f, exported f.1.1 && negb (optional (tag_of f))) fs &&
  if openType p then match referenceFieldValue p with Some r => find_reference r (drop 1 (tags fs)) 1 =? Z.of_nat i | None => false end
  else match valueUpperBound p with Some ub => (Z.of_nat i <=? ub + 1) && (ub <? 65536) | None => false end.

Lemma others_zero j fs : forallb (λ f, nilable f.1.2) fs = true → forallb (λ f, exported f.1.1 && negb (optional (tag_of f))) fs = true →
  (length fs ≤ j)%nat → others_nil j fs (List.map (λ f, zero f.1.2) fs) = true.
Proof.
  revert j. induction fs as [|f fs IH]; intros j Hn Hf Hj; [done|]. destruct j as [|j]; [cbn in Hj; lia|]. cbn [forallb] in *.
  apply andb_true_iff in Hn as [Hn1 Hn]. apply andb_true_iff in Hf as [Hf1 Hf]. cbn [others_nil List.map]. rewrite Hf1, Hn1.
  rewrite IH by (done || (cbn in Hj; lia)). destruct (f.1.2); try discriminate Hn1; done.
Qed.
Lemma others_chosen j fs v : forallb (λ f, nilable f.1.2) fs = true → forallb (λ f, exported f.1.1 && negb (optional (tag_of f))) fs = true →
  (j < length fs)%nat → others_nil j fs (<[j := v]> (List.map (λ f, zero f.1.2) fs)) = true.
Proof.
  revert j. induction fs as [|f fs IH]; intros j Hn Hf Hj; [cbn in Hj; lia|]. cbn [forallb] in *.
  apply andb_true_iff in Hn as [Hn1 Hn]. apply andb_true_iff in Hf as [Hf1 Hf]. destruct j as [|j].
  - cbn [List.map insert list_insert]. unfold insert. cbn [list_insert others_nil]. rewrite Hf1. by apply others_zero.
  - cbn [List.map]. unfold insert. cbn [list_insert others_nil]. rewrite Hf1, Hn1.
    change (list_insert j v (List.map (λ f, zero f.1.2) fs)) with (<[j := v]> (List.map (λ f, zero f.1.2) fs)).
    rewrite IH by (done || (cbn in Hj; lia)). destruct (f.1.2); try discriminate Hn1; done.
Qed.

(** The alternative that is set fits, and its weight is that of one fragment. *)
Lemma fits_choose n fs name v f p : let i := field_index name fs in
  choice_ok fs i p = true → fs !! i = Some f → (openType p = true → weight v < 16384) → fits (VPtr v) f.1.2 (tag_of f) = true →
  fits (choose (TStruct n fs) name v) (TStruct n fs) p = true.
Proof.
  intros i Hok Ef Hw Hv. unfold choice_ok in Hok.
  apply andb_true_iff in Hok as [[[[[Hc Hi%Nat.ltb_lt]%andb_true_iff Hs]%andb_true_iff Hn]%andb_true_iff Hf]%andb_true_iff Hp].
  unfold choose. cbn [struct_fields fits]. rewrite Hs, Hc. cbn [andb]. fold i. clearbody i. pose proof (lookup_lt_Some _ _ _ Ef) as Hl.
  destruct fs as [|f0 fs]; [done|]. change (drop 1 (f0 :: fs)) with fs in *. unfold fits_choice. cbn [forallb] in Hf. apply andb_true_iff in Hf as [Hf0 Hf].
  assert (∃ j, Z.of_nat i = Zpos j ∧ Pos.to_nat j = i) as (j&Ej&Ej').
  { exists (Pos.of_nat i). split; [lia|]. by rewrite Nat2Pos.id by lia. }
  rewrite Ej. cbv zeta. rewrite Ej', Hf0. rewrite others_chosen by (done || (cbn in Hl; lia)). cbn [andb].
  unfold tags. rewrite !lookup_map, Ef. cbn [fmap option_fmap option_map].
  assert ((VInt (Z.pos j) :: <[(i - 1)%nat := VPtr v]> (List.map (λ f, zero f.1.2) fs)) !! i = Some (VPtr v)) as ->.
  { rewrite lookup_cons_ne_0 by lia. replace (Init.Nat.pred i) with (i - 1)%nat by lia. apply list_lookup_insert_eq. rewrite length_map. cbn in Hl. lia. }
  cbn [fmap option_fmap option_map]. rewrite Hv. cbn [andb]. destruct (openType p); [|done]. specialize (Hw eq_refl).
  destruct (referenceFieldValue p); [|done]. change (List.map (λ f, tag_of f) (f0 :: fs)) with (tags (f0 :: fs)). rewrite Hp. cbn [andb]. by apply light_content.
Qed.

(** ** Values of basic types *)

Lemma fits_single n f t tag v p : sizeExtensible p = false → sequence_ok [(f, t, tag)] = true → fits v t (parseFieldParameters tag) = true →
  fits (VStruct [v]) (TStruct n [(f, t, tag)]) p = true.
Proof. intros Hs Hok Hv. apply fits_sequence; [done|done|]. constructor; [by right|constructor]. Qed.

(** Writer and reader agree on how many octets an upper bound takes. *)
Definition range_ok (hi : Z) : bool :=
  (hi <? 65536) || (least_width 8 1 (range_bytes 127 0 1 hi) =? least_width 8 1 (range_bytes 127 1 1 hi)).
Lemma fits_int z p hi : sizeExtensible p = false → valueLowerBound p = Some 0 → valueUpperBound p = Some hi → 0 ≤ z ≤ hi → 0 < hi < 2 ^ 60 →
  range_ok hi = true → fits (VInt z) (TInt 64) p = true.
Proof.
  intros Hs Hl Hu Hz Hhi Hr. cbn [fits]. rewrite Hs, Hl, Hu. cbn [negb]. rewrite !bool_decide_eq_true_2.
  - cbn [andb]. apply orb_true_iff. right. unfold not_one. rewrite andb_comm, bool_decide_eq_false_2 by (intros [= <-]; lia). done.
  - unfold signed. change (2 ^ (64 - 1)) with (2 ^ 63). rewrite Z.mod_small; lia.
  - unfold integer_ok. split; [lia|]. split; [lia|]. split; [lia|]. left. split; [lia|].
    unfold range_ok in Hr. rewrite orb_true_iff, Z.ltb_lt, Z.eqb_eq in Hr. destruct Hr as [Hr|Hr]; [left; lia|right; split; [done|exact Hr]].
Qed.
Lemma fits_enum z p hi : sizeExtensible p = false → valueLowerBound p = Some 0 → valueUpperBound p = Some hi →
  valueExtensible p || (0 <? hi) = true → 0 ≤ z ≤ hi → hi < 65536 → fits (VEnum z) TEnumerated p = true.
Proof.
  intros Hs Hl Hu He Hz Hhi. cbn [fits]. rewrite Hs, Hl, Hu, He. cbn [negb andb]. rewrite bool_decide_eq_true_2 by done.
  rewrite !andb_true_iff, Z.leb_le, Z.leb_le, Z.ltb_lt. repeat split; lia || done.
Qed.

(** An octet string of a fixed size, and one without a constraint. *)
Definition octets_ok (n : Z) (s : list Z) : Prop := bytes_ok s ∧ blen s = n.
Definition text_ok (s : list Z) : Prop := bytes_ok s ∧ blen s < 16384.
Lemma fits_fixed n s p : sizeExtensible p = false → sizeLowerBound p = Some n → sizeUpperBound p = Some n → 0 < n < 2 ^ 50 →
  octets_ok n s → fits (VOctets s) TOctetString p = true.
Proof.
  intros Hs Hl Hu Hn [Hb Hlen]. cbn [fits]. rewrite Hs, Hl, Hu. apply bool_decide_eq_true_2. split; [done|]. unfold size_ok. lia.
Qed.
Lemma fits_text s p : sizeExtensible p = false → sizeLowerBound p = None → sizeUpperBound p = None → text_ok s →
  fits (VOctets s) TOctetString p = true.
Proof.
  intros Hs Hl Hu [Hb Hlen]. cbn [fits]. rewrite Hs, Hl, Hu. apply bool_decide_eq_true_2. split; [done|]. unfold size_ok, blen in *. lia.
Qed.
Definition bits_ok (n : Z) (b : BitString) : Prop := BitLength b = n ∧ bytes_ok (Bytes b) ∧ blen (Bytes b) = (n + 7) / 8.
Lemma fits_bits n lo hi b p : valueExtensible p = false → sizeLowerBound p = Some lo → sizeUpperBound p = Some hi → 0 < lo ≤ n → n ≤ hi → hi < 16384 →
  bits_ok n b → fits (bits b) TBitString p = true.
Proof.
  intros Hs Hl Hu Hlo Hhi Hh (Hn&Hb&Hlen). cbn [fits bits]. rewrite Hs, Hl, Hu, Hn. cbn [negb andb].
  rewrite (proj2 (Z.leb_le _ _)) by lia. apply bool_decide_eq_true_2. split; [done|]. split.
  - unfold blen in Hlen. apply Nat2Z.inj. rewrite Hlen, Nat2Z.inj_div. f_equal. lia.
  - unfold size_ok. rewrite Z2Nat.id by lia. lia.
Qed.

Lemma fits_list vs t p lo hi : sizeExtensible p = false → sizeLowerBound p = Some lo → sizeUpperBound p = Some hi →
  0 ≤ lo ≤ blen vs → blen vs ≤ hi → lo < hi → hi < 65536 →
  Forall (λ v, fits v t (element_params p) = true) vs → fits (VSlice vs) (TSlice t) p = true.
Proof.
  intros Hs Hl Hu Hlo Hhi Hne Hh Hv. cbn [fits]. rewrite Hs, Hl, Hu. rewrite bool_decide_eq_true_2.
  - cbn [andb default]. rewrite bool_decide_eq_false_2 by (intros [= <-]; cbn in *; lia). rewrite orb_true_r. cbn [andb].
    clear -Hv. induction Hv as [|v vs Hv _ IH]; [done|]. cbn [List.map forallb]. by rewrite Hv.
  - unfold count_ok. change (default 0 (Some lo)) with lo. cbv zeta. lia.
Qed.

(** ** Contents *)

Lemma fits_ptr v t p : fits v t p = true → fits (VPtr v) (TPtr t) p = true.
Proof. done. Qed.

Ltac closed := vm_compute; reflexivity.
(** Down to the values of basic types. *)
Ltac field_tac := first [left; split; [closed|reflexivity] | right; cbn [fst snd]].
Ltac fields_tac := repeat lazymatch goal with |- Forall2 _ _ _ => first [apply Forall2_nil_2 | apply Forall2_cons_2; [field_tac|]] end.

(** The alternative of a CHOICE that is not an open type. *)
#[local] Ltac pick := eapply fits_choose; [closed|reflexivity|done|cbn [fst snd]; apply fits_ptr].

Definition nssai_ok (s : SNSSAI) : Prop :=
  (∃ b, SST s = Some b ∧ octets_ok 1 b) ∧ match SD s with Some d => octets_ok 3 d | None => True end.
Definition session_ok (s : Z * list Z) : Prop := 0 ≤ s.1 ≤ 255 ∧ text_ok s.2.
Definition sessions_ok (l : list (Z * list Z)) : Prop := 1 ≤ blen l ≤ 256 ∧ Forall session_ok l.
Definition cause_ok (c : cause) : Prop :=
  match c with
  | CauseNothing => False
  | Ngap.CauseRadioNetwork v => 0 ≤ v ≤ 44
  | Ngap.CauseTransport v => 0 ≤ v ≤ 1
  | Ngap.CauseNas v => 0 ≤ v ≤ 3
  | Ngap.CauseProtocol v => 0 ≤ v ≤ 6
  | Ngap.CauseMisc v => 0 ≤ v ≤ 5
  end.

Lemma fits_plmn s p : sizeExtensible p = false → octets_ok 3 s → fits (octets s) PLMNIdentity p = true.
Proof. intros Hp Hs. apply fits_single; [done|closed|]. by apply (fits_fixed 3). Qed.
Lemma fits_tac s p : sizeExtensible p = false → octets_ok 3 s → fits (octets s) TAC p = true.
Proof. intros Hp Hs. apply fits_single; [done|closed|]. by apply (fits_fixed 3). Qed.
Lemma fits_tai plmn tac p : sizeExtensible p = false → octets_ok 3 plmn → octets_ok 3 tac → fits (tai plmn tac) TAI p = true.
Proof. intros Hp H1 H2. apply fits_sequence; [done|closed|]. fields_tac; [by apply fits_plmn|by apply fits_tac]. Qed.
Lemma fits_cgi plmn cell p : sizeExtensible p = false → octets_ok 3 plmn → bits_ok 36 cell → fits (cgi plmn cell) NRCGI p = true.
Proof.
  intros Hp H1 H2. apply fits_sequence; [done|closed|]. fields_tac; [by apply fits_plmn|].
  apply fits_single; [done|closed|]. by apply (fits_bits 36 36 36).
Qed.
Lemma fits_location plmn cell taiPlmn tac :
  octets_ok 3 plmn → bits_ok 36 cell → octets_ok 3 taiPlmn → octets_ok 3 tac →
  fits (choose NgapTypes.UserLocationInformation "UserLocationInformationNR" (VStruct [cgi plmn cell; tai taiPlmn tac; VNil; VNil]))
    NgapTypes.UserLocationInformation (parseFieldParameters "referenceFieldValue:121,valueLB:0,valueUB:3") = true.
Proof.
  intros H1 H2 H3 H4. pick. apply fits_sequence; [done|closed|].
  fields_tac; [by apply fits_cgi|by apply fits_tai].
Qed.

Lemma fits_gnb_node plmn gnb p : choice_ok (struct_fields NgapTypes.GlobalRANNodeID) 1 p = true → openType p = false →
  octets_ok 3 plmn → bits_ok 24 gnb → fits (gnb_node plmn gnb) NgapTypes.GlobalRANNodeID p = true.
Proof.
  intros Hc Hp H1 H2. eapply fits_choose; [exact Hc|reflexivity|by rewrite Hp|cbn [fst snd]; apply fits_ptr].
  apply fits_sequence; [done|closed|]. fields_tac; [by apply fits_plmn|]. pick. by apply (fits_bits 24 22 32).
Qed.
Lemma fits_target plmn gnb taiPlmn tac : octets_ok 3 plmn → bits_ok 24 gnb → octets_ok 3 taiPlmn → octets_ok 3 tac →
  fits (choose NgapTypes.TargetID "TargetRANNodeID" (VStruct [gnb_node plmn gnb; tai taiPlmn tac; VNil]))
    NgapTypes.TargetID (parseFieldParameters "referenceFieldValue:105,valueLB:0,valueUB:2") = true.
Proof.
  intros H1 H2 H3 H4. pick. apply fits_sequence; [done|closed|].
  fields_tac; [apply fits_gnb_node; [closed|done|done|done]|by apply fits_tai].
Qed.
Lemma fits_nssai s p : sizeExtensible p = false → nssai_ok s → fits (nssai s) NgapTypes.SNSSAI p = true.
Proof.
  intros Hp [(b&Eb&Hb) Hd]. unfold nssai. rewrite Eb. apply fits_sequence; [done|closed|]. repeat apply Forall2_cons_2; [| | |apply Forall2_nil_2].
  - right. apply fits_single; [done|closed|]. by apply (fits_fixed 1).
  - destruct (SD s) as [d|]; [right|left; split; [closed|done]]. apply fits_ptr, fits_single; [done|closed|]. by apply (fits_fixed 3).
  - left. split; [closed|done].
Qed.
Lemma fits_cause c : cause_ok c → fits (cause_value c) NgapTypes.Cause (parseFieldParameters "referenceFieldValue:15,valueLB:0,valueUB:5") = true.
Proof.
  intros Hc. destruct c as [|v|v|v|v|v]; cbn [cause_ok cause_value] in *; [done|..]; pick; (apply fits_single; [done|closed|]).
  - by apply (fits_enum v _ 44). - by apply (fits_enum v _ 1). - by apply (fits_enum v _ 3). - by apply (fits_enum v _ 6). - by apply (fits_enum v _ 5).
Qed.

(** Lists of sessions with their transfers. *)
Lemma fits_sessions (item : Z * list Z → value) n t l p : sizeExtensible p = false →
  (∀ s p, sizeExtensible p = false → session_ok s → fits (item s) t p = true) → sessions_ok l →
  fits (list_of (List.map item l)) (TStruct n [("List", TSlice t, "valueExt,sizeLB:1,sizeUB:256")]%string) p = true.
Proof.
  intros Hp Hi [Hl Hs]. apply fits_single; [done|closed|]. apply (fits_list _ _ _ 1 256); try done; [unfold blen in *; rewrite length_map; lia..|].
  apply Forall_forall. intros v (s&<-&Hin%list_elem_of_In)%list_elem_of_In%in_map_iff. apply Hi; [done|]. by eapply Forall_forall in Hs.
Qed.

Lemma fits_session n f e s p : sizeExtensible p = false →
  sequence_ok [("PDUSessionID", PDUSessionID, ""); (f, TOctetString, ""); ("IEExtensions", TPtr e, "optional")]%string = true → session_ok s →
  fits (session s) (TStruct n [("PDUSessionID", PDUSessionID, ""); (f, TOctetString, ""); ("IEExtensions", TPtr e, "optional")]%string) p = true.
Proof.
  intros Hp Hok [Hi Ht]. apply fits_sequence; [done|done|]. fields_tac.
  - apply fits_single; [done|closed|]. by apply (fits_int s.1 _ 255).
  - by apply fits_text.
Qed.
Lemma fits_modified s p : sizeExtensible p = false → session_ok s → fits (modified s) PDUSessionResourceModifyItemModRes p = true.
Proof.
  intros Hp [Hi Ht]. apply fits_sequence; [done|closed|]. repeat apply Forall2_cons_2; [right|right|left; by split|apply Forall2_nil_2].
  - apply fits_single; [done|closed|]. by apply (fits_int s.1 _ 255).
  - apply fits_ptr. by apply fits_text.
Qed.

(** The ranges of the contents. *)
Definition content_ok (c : content) : Prop :=
  match c with
  | Ngap.AMFUENGAPID v | SourceAMFUENGAPID v => 0 ≤ v < 2 ^ 40
  | Ngap.RANUENGAPID v => 0 ≤ v < 2 ^ 32
  | Ngap.NASPDU v | Ngap.TargetToSourceTransparentContainer v | Ngap.SourceToTargetTransparentContainer v => text_ok v
  | Ngap.UserLocationInformation plmn cell taiPlmn tac => octets_ok 3 plmn ∧ bits_ok 36 cell ∧ octets_ok 3 taiPlmn ∧ octets_ok 3 tac
  | Ngap.RRCEstablishmentCause v => 0 ≤ v ≤ 9
  | Ngap.FiveGSTMSI set pointer tmsi => bits_ok 10 set ∧ bits_ok 6 pointer ∧ octets_ok 4 tmsi
  | Ngap.UEContextRequest v => v = 0
  | Ngap.GlobalRANNodeID plmn gnb => octets_ok 3 plmn ∧ bits_ok 24 gnb
  | Ngap.RANNodeName v => 1 ≤ slen v ≤ 150
  | Ngap.SupportedTAList tac plmn slices => octets_ok 3 tac ∧ octets_ok 3 plmn ∧ 1 ≤ blen slices ≤ 1024 ∧ Forall nssai_ok slices
  | DefaultPagingDRX v => 0 ≤ v ≤ 3
  | Ngap.Cause c => cause_ok c
  | Ngap.PDUSessionResourceSetupListSURes l | Ngap.PDUSessionResourceSetupListCxtRes l | Ngap.PDUSessionResourceReleasedListRelRes l
  | Ngap.PDUSessionResourceModifyListModRes l | Ngap.PDUSessionResourceAdmittedList l | Ngap.PDUSessionResourceListHORqd l
  | Ngap.PDUSessionResourceToBeSwitchedDLList l | Ngap.PDUSessionResourceSwitchedList l => sessions_ok l
  | Ngap.HandoverType v => 0 ≤ v ≤ 2
  | Ngap.TargetID plmn gnb taiPlmn tac => octets_ok 3 plmn ∧ bits_ok 24 gnb ∧ octets_ok 3 taiPlmn ∧ octets_ok 3 tac
  | Ngap.UESecurityCapabilities a b c d => bits_ok 16 a ∧ bits_ok 16 b ∧ bits_ok 16 c ∧ bits_ok 16 d
  | Ngap.UEAggregateMaximumBitRate dl ul => 0 ≤ dl ≤ 4000000000000 ∧ 0 ≤ ul ≤ 4000000000000
  | Ngap.SecurityContext ncc nh => 0 ≤ ncc ≤ 7 ∧ bits_ok 256 nh
  | Ngap.PDUSessionResourceSetupListHOReq l =>
    1 ≤ blen l ≤ 256 ∧ Forall (λ s, 0 ≤ s.1.1 ≤ 255 ∧ nssai_ok s.1.2 ∧ text_ok s.2) l
  | Ngap.UENGAPIDs (Ngap.UENGAPIDPair amf ran) => 0 ≤ amf < 2 ^ 40 ∧ 0 ≤ ran < 2 ^ 32
  | Ngap.UENGAPIDs (UEAMFUENGAPID amf) => 0 ≤ amf < 2 ^ 40
  | _ => False
  end.

(** The type and the tag of its field. *)
Definition content_slot (c : content) : gotype * string :=
  match c with
  | Ngap.AMFUENGAPID _ => (TPtr NgapTypes.AMFUENGAPID, "referenceFieldValue:10")
  | SourceAMFUENGAPID _ => (TPtr NgapTypes.AMFUENGAPID, "referenceFieldValue:100")
  | Ngap.RANUENGAPID _ => (TPtr NgapTypes.RANUENGAPID, "referenceFieldValue:85")
  | Ngap.NASPDU _ => (TPtr NgapTypes.NASPDU, "referenceFieldValue:38")
  | Ngap.UserLocationInformation _ _ _ _ => (TPtr NgapTypes.UserLocationInformation, "referenceFieldValue:121,valueLB:0,valueUB:3")
  | Ngap.RRCEstablishmentCause _ => (TPtr NgapTypes.RRCEstablishmentCause, "referenceFieldValue:90")
  | Ngap.FiveGSTMSI _ _ _ => (TPtr NgapTypes.FiveGSTMSI, "valueExt,referenceFieldValue:26")
  | Ngap.UEContextRequest _ => (TPtr NgapTypes.UEContextRequest, "referenceFieldValue:112")
  | Ngap.GlobalRANNodeID _ _ => (TPtr NgapTypes.GlobalRANNodeID, "referenceFieldValue:27,valueLB:0,valueUB:3")
  | Ngap.RANNodeName _ => (TPtr NgapTypes.RANNodeName, "referenceFieldValue:82")
  | Ngap.SupportedTAList _ _ _ => (TPtr NgapTypes.SupportedTAList, "referenceFieldValue:102")
  | DefaultPagingDRX _ => (TPtr PagingDRX, "referenceFieldValue:21")
  | Ngap.Cause _ => (TPtr NgapTypes.Cause, "referenceFieldValue:15,valueLB:0,valueUB:5")
  | Ngap.PDUSessionResourceSetupListSURes _ => (TPtr NgapTypes.PDUSessionResourceSetupListSURes, "referenceFieldValue:75")
  | Ngap.PDUSessionResourceSetupListCxtRes _ => (TPtr NgapTypes.PDUSessionResourceSetupListCxtRes, "referenceFieldValue:72")
  | Ngap.PDUSessionResourceReleasedListRelRes _ => (TPtr NgapTypes.PDUSessionResourceReleasedListRelRes, "referenceFieldValue:70")
  | Ngap.PDUSessionResourceModifyListModRes _ => (TPtr NgapTypes.PDUSessionResourceModifyListModRes, "referenceFieldValue:65")
  | Ngap.PDUSessionResourceAdmittedList _ => (TPtr NgapTypes.PDUSessionResourceAdmittedList, "referenceFieldValue:53")
  | Ngap.PDUSessionResourceListHORqd _ => (TPtr NgapTypes.PDUSessionResourceListHORqd, "referenceFieldValue:61")
  | Ngap.PDUSessionResourceToBeSwitchedDLList _ => (TPtr NgapTypes.PDUSessionResourceToBeSwitchedDLList, "referenceFieldValue:76")
  | Ngap.PDUSessionResourceSwitchedList _ => (TPtr NgapTypes.PDUSessionResourceSwitchedList, "referenceFieldValue:77")
  | Ngap.TargetToSourceTransparentContainer _ => (TPtr NgapTypes.TargetToSourceTransparentContainer, "referenceFieldValue:106")
  | Ngap.SourceToTargetTransparentContainer _ => (TPtr NgapTypes.SourceToTargetTransparentContainer, "referenceFieldValue:101")
  | Ngap.HandoverType _ => (TPtr NgapTypes.HandoverType, "referenceFieldValue:29")
  | Ngap.TargetID _ _ _ _ => (TPtr NgapTypes.TargetID, "referenceFieldValue:105,valueLB:0,valueUB:2")
  | Ngap.UESecurityCapabilities _ _ _ _ => (TPtr NgapTypes.UESecurityCapabilities, "valueExt,referenceFieldValue:119")
  | Ngap.UEAggregateMaximumBitRate _ _ => (TPtr NgapTypes.UEAggregateMaximumBitRate, "valueExt,referenceFieldValue:110")
  | Ngap.SecurityContext _ _ => (TPtr NgapTypes.SecurityContext, "valueExt,referenceFieldValue:93")
  | Ngap.PDUSessionResourceSetupListHOReq _ => (TPtr NgapTypes.PDUSessionResourceSetupListHOReq, "referenceFieldValue:73")
  | Ngap.UENGAPIDs _ => (TPtr NgapTypes.UENGAPIDs, "referenceFieldValue:114,valueLB:0,valueUB:2")
  | _ => (TOther, "")
  end%string.

Lemma fits_name v : 1 ≤ slen v ≤ 150 →
  fits (VStruct [VString (name_octets v)]) NgapTypes.RANNodeName (parseFieldParameters "referenceFieldValue:82") = true.
Proof.
  intros Hv. apply fits_single; [done|closed|].
  change (parseFieldParameters "sizeExt,sizeLB:1,sizeUB:150") with (MkParams false true false (Some 1) (Some 150) None None None false "" None).
  cbn [fits sizeExtensible valueExtensible sizeLowerBound sizeUpperBound negb andb]. apply bool_decide_eq_true_2. unfold name_octets. split.
  - apply Forall_forall. intros z (a&<-&_)%list_elem_of_In%in_map_iff. unfold in_width. pose proof (Ascii.N_ascii_bounded a). lia.
  - assert (blen (List.map (λ a, Z.of_N (Ascii.N_of_ascii a)) (String.list_ascii_of_string v)) = slen v) as ->; [|unfold size_ok; lia].
    unfold blen, slen. rewrite length_map. f_equal. clear. induction v as [|a v IH]; [done|]. cbn. by rewrite IH.
Qed.
Lemma fits_supported tac plmn slices : octets_ok 3 tac → octets_ok 3 plmn → 1 ≤ blen slices ≤ 1024 → Forall nssai_ok slices →
  fits (list_of [VStruct [octets tac; list_of [VStruct [octets plmn; list_of (List.map (λ s, VStruct [nssai s; VNil]) slices); VNil]]; VNil]])
    NgapTypes.SupportedTAList (parseFieldParameters "referenceFieldValue:102") = true.
Proof.
  intros H1 H2 Hl Hs. apply fits_single; [done|closed|]. apply (fits_list _ _ _ 1 256); try done. apply List.Forall_cons; [|constructor].
  apply fits_sequence; [done|closed|]. fields_tac; [by apply fits_tac|].
  apply fits_single; [done|closed|]. apply (fits_list _ _ _ 1 12); try done. apply List.Forall_cons; [|constructor].
  apply fits_sequence; [done|closed|]. fields_tac; [by apply fits_plmn|].
  apply fits_single; [done|closed|]. apply (fits_list _ _ _ 1 1024); try done; [unfold blen in *; rewrite length_map; lia..|].
  apply Forall_forall. intros v (s&<-&Hin%list_elem_of_In)%list_elem_of_In%in_map_iff. apply fits_sequence; [done|closed|].
  fields_tac. apply fits_nssai; [done|]. by eapply Forall_forall in Hs.
Qed.
Lemma fits_requested l : 1 ≤ blen l ≤ 256 → Forall (λ s : Z * SNSSAI * list Z, 0 ≤ s.1.1 ≤ 255 ∧ nssai_ok s.1.2 ∧ text_ok s.2) l →
  fits (list_of (List.map (λ s, VStruct [int s.1.1; nssai s.1.2; VOctets s.2; VNil]) l)) NgapTypes.PDUSessionResourceSetupListHOReq
    (parseFieldParameters "referenceFieldValue:73") = true.
Proof.
  intros Hl Hs. apply fits_single; [done|closed|]. apply (fits_list _ _ _ 1 256); try done; [unfold blen in *; rewrite length_map; lia..|].
  apply Forall_forall. intros v (s&<-&Hin%list_elem_of_In)%list_elem_of_In%in_map_iff. eapply Forall_forall in Hs; [|exact Hin]. destruct Hs as (Hi&Hn&Ht).
  apply fits_sequence; [done|closed|]. fields_tac; [|by apply fits_nssai|by apply fits_text].
  apply fits_single; [done|closed|]. by apply (fits_int s.1.1 _ 255).
Qed.
Lemma fits_security a b c d : bits_ok 16 a → bits_ok 16 b → bits_ok 16 c → bits_ok 16 d →
  fits (VStruct [VStruct [bits a]; VStruct [bits b]; VStruct [bits c]; VStruct [bits d]; VNil]) NgapTypes.UESecurityCapabilities
    (parseFieldParameters "valueExt,referenceFieldValue:119") = true.
Proof.
  intros Ha Hb Hc Hd. apply fits_sequence; [done|closed|].
  fields_tac; (apply fits_single; [done|closed|]); by apply (fits_bits 16 16 16).
Qed.

Lemma fits_amf_id v p : sizeExtensible p = false → 0 ≤ v < 2 ^ 40 → fits (int v) NgapTypes.AMFUENGAPID p = true.
Proof. intros Hp Hv. apply fits_single; [done|closed|]. apply (fits_int v _ (2 ^ 40 - 1)); [closed..|lia|lia|closed]. Qed.
Lemma fits_ran_id v p : sizeExtensible p = false → 0 ≤ v < 2 ^ 32 → fits (int v) NgapTypes.RANUENGAPID p = true.
Proof. intros Hp Hv. apply fits_single; [done|closed|]. apply (fits_int v _ (2 ^ 32 - 1)); [closed..|lia|lia|closed]. Qed.
Lemma fits_rate v p : sizeExtensible p = false → 0 ≤ v ≤ 4000000000000 → fits (int v) BitRate p = true.
Proof. intros Hp Hv. apply fits_single; [done|closed|]. apply (fits_int v _ 4000000000000); [closed..|lia|lia|closed]. Qed.
Lemma fits_text_struct n f s p : sizeExtensible p = false → sequence_ok [(f, TOctetString, "")]%string = true → text_ok s →
  fits (octets s) (TStruct n [(f, TOctetString, "")]%string) p = true.
Proof. intros Hp Hf Hs. apply fits_single; [done|done|]. by apply fits_text. Qed.
Lemma fits_enum_struct hi n f tag v p : sizeExtensible p = false → sequence_ok [(f, TEnumerated, tag)] = true →
  (let q := parseFieldParameters tag in negb (sizeExtensible q) && bool_decide (valueLowerBound q = Some 0) &&
     bool_decide (valueUpperBound q = Some hi) && (valueExtensible q || (0 <? hi))) = true →
  0 ≤ v ≤ hi → hi < 65536 → fits (enum v) (TStruct n [(f, TEnumerated, tag)]) p = true.
Proof.
  intros Hp Hf Hq Hv Hhi. apply fits_single; [done|done|]. cbv zeta in Hq.
  apply andb_true_iff in Hq as [[[H1%negb_true_iff H2%bool_decide_eq_true]%andb_true_iff H3%bool_decide_eq_true]%andb_true_iff H4].
  by apply (fits_enum v _ hi).
Qed.
Lemma fits_pair amf ran : 0 ≤ amf < 2 ^ 40 → 0 ≤ ran < 2 ^ 32 →
  fits (choose NgapTypes.UENGAPIDs "UENGAPIDPair" (VStruct [int amf; int ran; VNil])) NgapTypes.UENGAPIDs
    (parseFieldParameters "referenceFieldValue:114,valueLB:0,valueUB:2") = true.
Proof. intros Ha Hr. pick. apply fits_sequence; [done|closed|]. fields_tac; [by apply fits_amf_id|by apply fits_ran_id]. Qed.
Lemma fits_amf_choice amf : 0 ≤ amf < 2 ^ 40 →
  fits (choose NgapTypes.UENGAPIDs "AMFUENGAPID" (int amf)) NgapTypes.UENGAPIDs (parseFieldParameters "referenceFieldValue:114,valueLB:0,valueUB:2") = true.
Proof. intros Ha. pick. by apply fits_amf_id. Qed.
Lemma fits_tmsi set pointer tmsi : bits_ok 10 set → bits_ok 6 pointer → octets_ok 4 tmsi →
  fits (VStruct [VStruct [bits set]; VStruct [bits pointer]; octets tmsi; VNil]) NgapTypes.FiveGSTMSI
    (parseFieldParameters "valueExt,referenceFieldValue:26") = true.
Proof.
  intros H1 H2 H3. apply fits_sequence; [done|closed|]. fields_tac; (apply fits_single; [done|closed|]);
    [by apply (fits_bits 10 10 10)|by apply (fits_bits 6 6 6)|by apply (fits_fixed 4)].
Qed.

Lemma content_fits c name v : content_ok c → content_value c = Some (name, v) →
  fits (VPtr v) (content_slot c).1 (parseFieldParameters (content_slot c).2) = true.
Proof.
  intros Hok E. destruct c; cbn [content_ok] in Hok; try contradiction; cbn [content_value] in E; cbn [content_slot fst snd];
    try (injection E as <- <-; apply fits_ptr).
  - by apply fits_amf_id.
  - by apply fits_ran_id.
  - by apply fits_amf_id.
  - by apply fits_text_struct.
  - destruct Hok as (?&?&?&?). by apply fits_security.
  - destruct Hok. by apply fits_requested.
  - apply fits_sessions; [done| |done]. intros s p Hp Hs. by apply fits_session.
  - by apply fits_cause.
  - match goal with H : context [match ?x with _ => _ end] |- _ => destruct x end; try contradiction; injection E as <- <-; apply fits_ptr.
    + destruct Hok. by apply fits_pair.
    + by apply fits_amf_choice.
  - by apply fits_text_struct.
  - by apply fits_text_struct.
  - destruct Hok as (?&?&?&?). by apply fits_location.
  - by apply (fits_enum_struct 9).
  - destruct Hok as (?&?&?). by apply fits_tmsi.
  - subst. by apply (fits_enum_struct 0).
  - apply fits_sessions; [done| |done]. intros s p Hp Hs. by apply fits_session.
  - apply fits_sessions; [done| |done]. intros s p Hp Hs. by apply fits_session.
  - apply fits_sessions; [done| |done]. intros s p Hp Hs. by apply fits_session.
  - apply fits_sessions; [done| |done]. intros s p Hp Hs. by apply fits_modified.
  - apply fits_sessions; [done| |done]. intros s p Hp Hs. by apply fits_session.
  - apply fits_sessions; [done| |done]. intros s p Hp Hs. by apply fits_session.
  - apply fits_sessions; [done| |done]. intros s p Hp Hs. by apply fits_session.
  - destruct Hok. by apply fits_gnb_node.
  - by apply fits_name.
  - destruct Hok as (?&?&?&?). by apply fits_supported.
  - by apply (fits_enum_struct 3).
  - by apply (fits_enum_struct 2).
  - destruct Hok as (?&?&?&?). by apply fits_target.
  - destruct Hok as [? ?]. apply fits_sequence; [done|closed|]. fields_tac; by apply fits_rate.
  - destruct Hok as [? ?]. apply fits_sequence; [done|closed|]. fields_tac; (apply fits_single; [done|closed|]);
      [by apply (fits_int ncc _ 7)|by apply (fits_bits 256 256 256)].
Qed.

(** ** Open types *)

(** The tag of an open type once its reference is known. *)
Definition open_params (reference : string) (r : Z) : fieldParameters :=
  MkParams false false false None None None None None true reference (Some r).

Lemma weight_member vs v : In v vs → weight v ≤ weights vs.
Proof. intros [j Hj]%list_elem_of_In%list_elem_of_lookup. by eapply weight_in. Qed.
Lemma weight_choose n fs name v f : (0 < field_index name fs)%nat → fs !! field_index name fs = Some f →
  weight v ≤ weight (choose (TStruct n fs) name v).
Proof.
  intros Hi Hf. unfold choose. cbn [struct_fields]. set (i := field_index name fs) in *. clearbody i.
  assert (weight (VPtr v) ≤ weights (VInt (Z.of_nat i) :: <[(i - 1)%nat:=VPtr v]> (List.map (λ f, zero f.1.2) (drop 1 fs)))) as H; [|cbn [weight] in *; unfold weights in H; lia].
  apply (weight_in _ i). rewrite lookup_cons_ne_0 by lia. replace (Init.Nat.pred i) with (i - 1)%nat by lia.
  apply list_lookup_insert_eq. rewrite length_map, length_drop. apply lookup_lt_Some in Hf. lia.
Qed.

(** An identifier, a criticality and what the identifier selects. *)
Lemma fits_selected n idn idt vn fs tag r crit name v f p : sizeExtensible p = false →
  exported idn && negb (idn =? "Present")%string && negb (idn =? "Criticality")%string = true →
  parseFieldParameters tag = MkParams false false false None None None None None true idn None →
  getReferenceFieldValue (int r) idt = Ret r → fits (int r) idt no_params = true → 0 ≤ crit ≤ 2 →
  choice_ok fs (field_index name fs) (open_params idn r) = true → fs !! field_index name fs = Some f →
  fits (VPtr v) f.1.2 (tag_of f) = true →
  weight (VStruct [int r; enum crit; choose (TStruct vn fs) name v]) < 16384 →
  fits (VStruct [int r; enum crit; choose (TStruct vn fs) name v])
    (TStruct n [(idn, idt, ""); ("Criticality", NgapTypes.Criticality, ""); ("Value", TStruct vn fs, tag)]%string) p = true.
Proof.
  intros Hp Hn Ht Hr Hid Hc Hok Ef Hv Hw. apply (fits_open _ _ _ _ _ _ _ _ _ _ r); try done.
  - apply andb_true_iff in Hn as [[-> ->]%andb_true_iff ->]. done.
  - by apply (fits_enum_struct 2).
  - eapply fits_choose; try done. intros _.
    assert (0 < field_index name fs)%nat as Hi by (unfold choice_ok in Hok; rewrite !andb_true_iff, Nat.ltb_lt in Hok; tauto).
    pose proof (weight_choose vn fs name v f Hi Ef) as Hle. clear -Hw Hle. cbn [weight List.map foldr int enum] in Hw. lia.
Qed.

(** An element of a message. *)
Definition ie_content_ok (i : IE) : Prop := match ie_Value i with Some c => content_ok c | None => False end.
Definition ie_fits (t : gotype) (i : IE) : Prop :=
  ie_content_ok i → weight (ie_value t i) < 16384 → ∀ p, sizeExtensible p = false → fits (ie_value t i) t p = true.

Lemma fits_ie n vn fs tag id crit c name v :
  let t := TStruct n [("Id", ProtocolIEID, ""); ("Criticality", NgapTypes.Criticality, ""); ("Value", TStruct vn fs, tag)]%string in
  content_value c = Some (name, v) →
  (parseFieldParameters tag = MkParams false false false None None None None None true "Id" None)%string →
  choice_ok fs (field_index name fs) (open_params "Id" id) = true →
  fs !! field_index name fs = Some (name, (content_slot c).1, (content_slot c).2) →
  0 ≤ id ≤ 65535 → 0 ≤ crit ≤ 2 → ie_fits t (MkIE id crit (Some c)).
Proof.
  intros t Ec Ht Hok Ef Hid Hcr Hc Hw p Hp. unfold ie_content_ok in Hc. cbn [ie_Value] in Hc. unfold ie_value in *.
  cbn [ie_Id ie_Criticality ie_Value mbind option_bind] in *. rewrite Ec in *.
  change (field_type t "Value") with (TStruct vn fs) in *.
  refine (fits_selected _ _ _ _ _ _ _ _ _ _ _ _ Hp _ Ht _ _ Hcr Hok Ef _ Hw); [done|done| |by eapply content_fits].
  apply fits_single; [done|closed|]. by apply (fits_int id _ 65535).
Qed.

(** ** Messages *)

Lemma fits_elements mn cn it ies p : sizeExtensible p = false → blen ies ≤ 65535 → Forall (ie_fits it) ies → Forall ie_content_ok ies →
  weights (List.map (ie_value it) ies) < 16384 →
  fits (VStruct [list_of (List.map (ie_value it) ies)])
    (TStruct mn [("ProtocolIEs", TStruct cn [("List", TSlice it, "sizeLB:0,sizeUB:65535")], "")]%string) p = true.
Proof.
  intros Hp Hl Hf Hok Hw. apply fits_single; [done|closed|]. apply fits_single; [done|closed|].
  apply (fits_list _ _ _ 0 65535); try done; [unfold blen in *; rewrite length_map; lia..|].
  apply Forall_forall. intros v Hin%list_elem_of_In. pose proof (weight_member _ _ Hin) as Hv.
  apply in_map_iff in Hin as (i&<-&Hi%list_elem_of_In). eapply Forall_forall in Hf, Hok; [|exact Hi..]. apply Hf; [done|lia|done].
Qed.

Lemma fits_outcome n vn fs tag a code crit ies mn cn it mtag p :
  let t := TStruct n [("ProcedureCode", NgapTypes.ProcedureCode, ""); ("Criticality", NgapTypes.Criticality, ""); ("Value", TStruct vn fs, tag)]%string in
  let name := alternative_name a in
  (parseFieldParameters tag = MkParams false false false None None None None None true "ProcedureCode" None)%string →
  choice_ok fs (field_index name fs) (open_params "ProcedureCode" code) = true →
  (fs !! field_index name fs = Some (name, TPtr (TStruct mn [("ProtocolIEs", TStruct cn [("List", TSlice it, "sizeLB:0,sizeUB:65535")], "")]), mtag))%string →
  sizeExtensible (parseFieldParameters mtag) = false → 0 ≤ code ≤ 255 → 0 ≤ crit ≤ 2 → blen ies ≤ 65535 →
  Forall (ie_fits it) ies → Forall ie_content_ok ies → sizeExtensible p = false →
  weight (message_value t (MkMessage code crit a ies)) < 16384 → fits (message_value t (MkMessage code crit a ies)) t p = true.
Proof.
  intros t name Ht Hok Ef Hm Hcode Hcr Hl Hf Hc Hp Hw. unfold message_value in *. cbn [Value ProcedureCode Criticality ProtocolIEs] in *.
  change (field_type t "Value") with (TStruct vn fs) in *. fold name in Hw |- *.
  assert (field_type (TStruct vn fs) name = TPtr (TStruct mn [("ProtocolIEs", TStruct cn [("List", TSlice it, "sizeLB:0,sizeUB:65535")], "")])%string) as Et.
  { unfold field_type, field_at. cbn [struct_fields]. by rewrite Ef. }
  rewrite Et in *. cbn [elem] in *.
  change (ie_type (TStruct mn [("ProtocolIEs", TStruct cn [("List", TSlice it, "sizeLB:0,sizeUB:65535")], "")]%string)) with it in *.
  refine (fits_selected _ _ _ _ _ _ _ _ _ _ _ _ Hp _ Ht _ _ Hcr Hok Ef _ Hw); [done|done| |].
  - apply fits_single; [done|closed|]. by apply (fits_int code _ 255).
  - apply fits_ptr, fits_elements; try done.
    assert (0 < field_index name fs)%nat as Hi by (unfold choice_ok in Hok; rewrite !andb_true_iff, Nat.ltb_lt in Hok; tauto).
    pose proof (weight_choose vn fs name (VStruct [list_of (List.map (ie_value it) ies)]) _ Hi Ef) as Hle. unfold weights.
    cbn [weight List.map foldr int enum list_of] in Hw, Hle. lia.
Qed.

Lemma fits_pdu name v f : let fs := struct_fields NgapTypes.NGAPPDU in
  choice_ok fs (field_index name fs) (parseFieldParameters pdu_params) = true → fs !! field_index name fs = Some f →
  (weight (choose NgapTypes.NGAPPDU name v) < 16384 → fits (VPtr v) f.1.2 (tag_of f) = true) →
  weight (choose NgapTypes.NGAPPDU name v) < 16384 → pdu_ok (choose NgapTypes.NGAPPDU name v) = true.
Proof.
  intros fs Hok Ef Hv Hw. unfold pdu_ok, NgapTypes.NGAPPDU. eapply fits_choose; [exact Hok|exact Ef| |by apply Hv]. intros Ho.
  assert (openType (parseFieldParameters pdu_params) = false) as E by closed. by rewrite E in Ho.
Qed.

(** The tables: what the code of a procedure selects. *)
Lemma pdu_initiating code crit a ies mn cn it mtag : 
  let fs := struct_fields InitiatingMessageValue in let name := alternative_name a in
  choice_ok fs (field_index name fs) (open_params "ProcedureCode" code) = true →
  (fs !! field_index name fs = Some (name, TPtr (TStruct mn [("ProtocolIEs", TStruct cn [("List", TSlice it, "sizeLB:0,sizeUB:65535")], "")]), mtag))%string →
  sizeExtensible (parseFieldParameters mtag) = false → 0 ≤ code ≤ 255 → 0 ≤ crit ≤ 2 → blen ies ≤ 65535 →
  Forall (ie_fits it) ies → Forall ie_content_ok ies →
  weight (pdu_value (initiating code crit a ies)) < 16384 → pdu_ok (pdu_value (initiating code crit a ies)) = true.
Proof.
  intros fs name Hok Ef Hm Hcode Hcr Hl Hf Hc. change (pdu_value (initiating code crit a ies)) with
    (choose NgapTypes.NGAPPDU "InitiatingMessage" (message_value InitiatingMessage (MkMessage code crit a ies))).
  eapply fits_pdu; [closed|reflexivity|]. intros Hw. cbn [fst snd]. apply fits_ptr.
  eapply (fits_outcome _ _ fs); try done.
  eapply Z.le_lt_trans; [|exact Hw]. by eapply (weight_choose "NGAPPDU" (struct_fields NgapTypes.NGAPPDU)); [apply Nat.ltb_lt; closed|reflexivity].
Qed.
Lemma pdu_successful code a ies mn cn it mtag :
  let fs := struct_fields SuccessfulOutcomeValue in let name := alternative_name a in
  choice_ok fs (field_index name fs) (open_params "ProcedureCode" code) = true →
  (fs !! field_index name fs = Some (name, TPtr (TStruct mn [("ProtocolIEs", TStruct cn [("List", TSlice it, "sizeLB:0,sizeUB:65535")], "")]), mtag))%string →
  sizeExtensible (parseFieldParameters mtag) = false → 0 ≤ code ≤ 255 → blen ies ≤ 65535 →
  Forall (ie_fits it) ies → Forall ie_content_ok ies →
  weight (pdu_value (successful code a ies)) < 16384 → pdu_ok (pdu_value (successful code a ies)) = true.
Proof.
  intros fs name Hok Ef Hm Hcode Hl Hf Hc. change (pdu_value (successful code a ies)) with
    (choose NgapTypes.NGAPPDU "SuccessfulOutcome" (message_value SuccessfulOutcome (MkMessage code CriticalityPresentReject a ies))).
  eapply fits_pdu; [closed|reflexivity|]. intros Hw. cbn [fst snd]. apply fits_ptr.
  eapply (fits_outcome _ _ fs); try done.
  eapply Z.le_lt_trans; [|exact Hw]. by eapply (weight_choose "NGAPPDU" (struct_fields NgapTypes.NGAPPDU)); [apply Nat.ltb_lt; closed|reflexivity].
Qed.

(** The elements of a list, each found in its message's table. *)
#[local] Ltac element := first [eapply fits_ie; [reflexivity|closed|closed|reflexivity|by vm_compute; split|by vm_compute; split]].
#[local] Ltac elements :=
  repeat lazymatch goal with |- Forall _ _ => first [apply Forall_nil_2 | apply Forall_cons_2; [unfold reject, ignore; element|]] end.
Section Messages.
Context `{Host} `{NgapCodec} `{MapOrder}.

Definition message_ok (pdu : Ngap.NGAPPDU) : Prop :=
  match Outcome pdu with Some m => Forall ie_content_ok (ProtocolIEs m) | None => False end ∧ weight (pdu_value pdu) < 16384.

#[local] Ltac init Hc Hw := eapply pdu_initiating;
  [closed|reflexivity|closed|by vm_compute; split|by vm_compute; split|by vm_compute|elements|exact Hc|exact Hw].
#[local] Ltac succ Hc Hw := eapply pdu_successful;
  [closed|reflexivity|closed|by vm_compute; split|by vm_compute|elements|exact Hc|exact Hw].

Lemma gnb_message_fits pdu : gnb_message pdu → message_ok pdu → pdu_ok (pdu_value pdu) = true.
Proof.
  intros Hm [Hc Hw]. destruct Hm as [| ? ? ? ? ? E | | ? ? ? ? E | ? ? ? E | | | | | | | | ? ? ? ? ? ? ? ? ? ? E | | | | |].
  - unfold Ngap.NGSetupRequest in *. destruct (GetSliceInBytes g). init Hc Hw.
  - apply initial_message in E. rewrite E in *. init Hc Hw.
  - unfold UplinkNasTransport, buildUplinkNasTransport in *. init Hc Hw.
  - unfold Ngap.PDUSessionResourceSetupResponse, buildPDUSessionResourceSetupResponse in E.
    destruct (LookupHost ip); [|discriminate]. returned. succ Hc Hw.
  - unfold BuildInitialContextSetupResponse in E. returned. destruct (bool_decide _); succ Hc Hw.
  - unfold buildPDUSessionResourceModifyResponse in *. destruct ids; succ Hc Hw.
  - unfold buildPDUSessionResourceReleaseResponse in *. succ Hc Hw.
  - unfold BuildUEContextReleaseComplete in *. succ Hc Hw.
  - unfold BuildUEContextReleaseRequest in *. init Hc Hw.
  - unfold BuildErrorIndication in *. destruct amf, ran, c; init Hc Hw.
  - unfold BuildHandoverNotify in *. init Hc Hw.
  - unfold BuildHandoverRequestAcknowledge in *. succ Hc Hw.
  - unfold BuildHandoverRequired in E. returned. init Hc Hw.
  - unfold BuildPathSwitchRequest in *. init Hc Hw.
  - unfold GetHandoverRequest in *. init Hc Hw.
  - unfold GetHandoverCommand in *. succ Hc Hw.
  - unfold GetUEContextReleaseCommand in *. init Hc Hw.
  - unfold GetPathSwitchRequestAcknowledge in *. succ Hc Hw.
Qed.

End Messages.

Definition demo_setup_request : Ngap.NGAPPDU := Eval vm_compute in Ngap.NGSetupRequest demo_gnb "free5gc".
Lemma demo_setup_ok : message_ok demo_setup_request.
Proof.
  assert (∀ l, forallb (λ z, (0 <=? z) && (z <? 256)) l = true → bytes_ok l) as Hb.
  { intros l Hl. apply Forall_forall. intros z Hz%list_elem_of_In. rewrite forallb_forall in Hl. specialize (Hl z Hz).
    unfold in_width. change (2 ^ 8) with 256. lia. }
  split; [|apply Z.ltb_lt; closed]. unfold demo_setup_request. cbn [Outcome ProtocolIEs].
  repeat apply Forall_cons_2; try apply Forall_nil_2; unfold ie_content_ok; cbn [ie_Value content_ok].
  - split; [split|split; [done|split]]; first [by apply Hb|done].
  - change (slen _) with 7. lia.
  - split; [split; [by apply Hb|done]|]. split; [split; [by apply Hb|done]|]. split; [by vm_compute|]. apply Forall_cons_2; [|apply Forall_nil_2].
    split; [eexists; split; [reflexivity|]|]; (split; [by apply Hb|done]).
  - lia.
Qed.
