(* ===== verification/NgapTransfers.v ===== *)
(** * The octet strings inside the gNB's messages

    The transfers and containers the gNB marshals on their own, as values of
    ngapType.  Each fits its type when its tunnel and flow are within their
    ranges, so its octets are decoded to it again, and they fit the octet string
    of the message they are put in. *)

From S2P Require Import Prelude GoStrings AperBits AperPrim AperCodec AperField AperFieldProps AperSize NgapTypes NgapOctets GnbContext Ngap GnbProps NgapValues GnbDemo NgapFits.

#[local] Open Scope Z_scope.
#[local] Open Scope go_scope.

(** ** Values *)

Definition tunnel_value (t : Ngap.GTPTunnel) : value :=
  choose UPTransportLayerInformation "GTPTunnel" (VStruct [VStruct [bits (Ngap.TransportLayerAddress t)]; octets (Ngap.GTPTEID t); VNil]).
Definition nr_cell (plmn : list Z) (cell : BitString) : value := choose NGRANCGI "NRCGI" (cgi plmn cell).

Definition transfer_type (t : transfer) : gotype :=
  match t with
  | SetupResponseTransfer _ _ => PDUSessionResourceSetupResponseTransfer
  | ModifyResponseTransfer _ => PDUSessionResourceModifyResponseTransfer
  | ReleaseResponseTransfer => PDUSessionResourceReleaseResponseTransfer
  | Ngap.HandoverRequiredTransfer => NgapTypes.HandoverRequiredTransfer
  | Ngap.HandoverRequestAcknowledgeTransfer _ _ => NgapTypes.HandoverRequestAcknowledgeTransfer
  | Ngap.PathSwitchRequestTransfer _ _ => NgapTypes.PathSwitchRequestTransfer
  | Ngap.PathSwitchRequestAcknowledgeTransfer _ => NgapTypes.PathSwitchRequestAcknowledgeTransfer
  | TargetToSource _ => TargetNGRANNodeToSourceNGRANNodeTransparentContainer
  | SourceToTarget _ _ _ _ _ _ _ => SourceNGRANNodeToTargetNGRANNodeTransparentContainer
  end.
Definition transfer_value (t : transfer) : value :=
  match t with
  | SetupResponseTransfer tunnel q =>
    VStruct [VStruct [tunnel_value tunnel; list_of [VStruct [int q; VNil; VNil]]; VNil]; VNil; VNil; VNil; VNil]
  | ModifyResponseTransfer q => VStruct [VNil; VNil; VPtr (list_of [VStruct [int q; VNil]]); VNil; VNil; VNil]
  | ReleaseResponseTransfer => VStruct [VNil]
  | Ngap.HandoverRequiredTransfer => VStruct [VNil; VNil]
  | Ngap.HandoverRequestAcknowledgeTransfer tunnel q =>
    VStruct [tunnel_value tunnel; VNil; VNil; list_of [VStruct [int q; VNil; VNil]]; VNil; VNil; VNil]
  | Ngap.PathSwitchRequestTransfer tunnel q =>
    VStruct [tunnel_value tunnel; VNil; VNil; list_of [VStruct [int q; VNil]]; VNil]
  | Ngap.PathSwitchRequestAcknowledgeTransfer tunnel => VStruct [VPtr (tunnel_value tunnel); VNil; VNil]
  | TargetToSource rrc => VStruct [octets rrc; VNil]
  | SourceToTarget rrc targetPlmn targetCell sourcePlmn sourceCell cellSize time =>
    VStruct [octets rrc; VNil; VNil; nr_cell targetPlmn targetCell; VNil;
      list_of [VStruct [choose LastVisitedCellInformation "NGRANCell"
        (VStruct [nr_cell sourcePlmn sourceCell; VStruct [enum cellSize; VNil]; int time; VNil; VNil; VNil]); VNil]]; VNil]
  end.
Definition transfer_octets (t : transfer) : outcome (list Z) := MarshalWithParams (transfer_value t) (transfer_type t) "valueExt".

(** ** Ranges *)

Definition tunnel_ok (t : Ngap.GTPTunnel) : Prop :=
  (∃ n, 1 ≤ n ≤ 160 ∧ bits_ok n (Ngap.TransportLayerAddress t)) ∧ octets_ok 4 (Ngap.GTPTEID t).
Definition transfer_ok (t : transfer) : Prop :=
  match t with
  | SetupResponseTransfer tunnel q | Ngap.HandoverRequestAcknowledgeTransfer tunnel q | Ngap.PathSwitchRequestTransfer tunnel q =>
    tunnel_ok tunnel ∧ 0 ≤ q ≤ 63
  | ModifyResponseTransfer q => 0 ≤ q ≤ 63
  | ReleaseResponseTransfer | Ngap.HandoverRequiredTransfer => True
  | Ngap.PathSwitchRequestAcknowledgeTransfer tunnel => tunnel_ok tunnel
  | TargetToSource rrc => bytes_ok rrc ∧ blen rrc < 8192
  | SourceToTarget rrc targetPlmn targetCell sourcePlmn sourceCell cellSize time =>
    (bytes_ok rrc ∧ blen rrc < 8192) ∧ octets_ok 3 targetPlmn ∧ bits_ok 36 targetCell ∧ octets_ok 3 sourcePlmn ∧ bits_ok 36 sourceCell ∧
    0 ≤ cellSize ≤ 3 ∧ 0 ≤ time ≤ 4095
  end.

Lemma fits_tunnel t p : choice_ok (struct_fields UPTransportLayerInformation) 1 p = true → openType p = false → tunnel_ok t →
  fits (tunnel_value t) UPTransportLayerInformation p = true.
Proof.
  intros Hc Hp ((n&Hn&Hb)&Ht). eapply fits_choose; [exact Hc|reflexivity|by rewrite Hp|cbn [fst snd]; apply fits_ptr].
  apply fits_sequence; [done|closed|]. fields_tac; (apply fits_single; [done|closed|]); [apply (fits_bits n 1 160); try lia; done|by apply (fits_fixed 4)].
Qed.
Lemma fits_flow n fs q p : sizeExtensible p = false →
  sequence_ok (("QosFlowIdentifier", NgapTypes.QosFlowIdentifier, "")%string :: fs) = true →
  forallb (λ f, optional (parseFieldParameters f.2)) fs = true → 0 ≤ q ≤ 63 →
  fits (VStruct (int q :: List.map (λ _, VNil) fs)) (TStruct n (("QosFlowIdentifier", NgapTypes.QosFlowIdentifier, "")%string :: fs)) p = true.
Proof.
  intros Hp Hok Ho Hq. apply fits_sequence; [done|done|]. apply Forall2_cons_2.
  - right. apply fits_single; [done|closed|]. by apply (fits_int q _ 63).
  - clear Hok. induction fs as [|f fs IH]; [constructor|]. cbn [forallb] in Ho. apply andb_true_iff in Ho as [Ho1 Ho].
    apply Forall2_cons_2; [by left|by apply IH].
Qed.
Lemma fits_nr_cell plmn cell p : choice_ok (struct_fields NGRANCGI) 1 p = true → openType p = false → octets_ok 3 plmn → bits_ok 36 cell →
  fits (nr_cell plmn cell) NGRANCGI p = true.
Proof.
  intros Hc Hp H1 H2. eapply fits_choose; [exact Hc|reflexivity|by rewrite Hp|cbn [fst snd]; apply fits_ptr].
  by apply fits_cgi.
Qed.
(** A list of one element. *)
Lemma fits_one n tag t v p hi : sizeExtensible p = false → sequence_ok [("List", TSlice t, tag)]%string = true →
  (let q := parseFieldParameters tag in negb (sizeExtensible q) && bool_decide (sizeLowerBound q = Some 1) && bool_decide (sizeUpperBound q = Some hi)) = true →
  1 < hi < 65536 → fits v t (element_params (parseFieldParameters tag)) = true → fits (list_of [v]) (TStruct n [("List", TSlice t, tag)]%string) p = true.
Proof.
  intros Hp Hok Hq Hhi Hv. apply fits_single; [done|done|]. cbv zeta in Hq.
  apply andb_true_iff in Hq as [[H1%negb_true_iff H2%bool_decide_eq_true]%andb_true_iff H3%bool_decide_eq_true].
  apply (fits_list _ _ _ 1 hi); try done; try (change (blen [v]) with 1; lia). by apply List.Forall_cons.
Qed.

Lemma fits_flows n f it fs q p : sizeExtensible p = false →
  it = TStruct f (("QosFlowIdentifier", NgapTypes.QosFlowIdentifier, "")%string :: fs) →
  sequence_ok (("QosFlowIdentifier", NgapTypes.QosFlowIdentifier, "")%string :: fs) = true →
  forallb (λ f, optional (parseFieldParameters f.2)) fs = true → 0 ≤ q ≤ 63 →
  fits (list_of [VStruct (int q :: List.map (λ _, VNil) fs)]) (TStruct n [("List", TSlice it, "valueExt,sizeLB:1,sizeUB:64")]%string) p = true.
Proof.
  intros Hp -> Hok Ho Hq. apply (fits_one _ _ _ _ _ 64); [done|by vm_compute|by vm_compute|lia|]. by apply fits_flow.
Qed.

Lemma transfer_fits t : transfer_ok t → fits (transfer_value t) (transfer_type t) (parseFieldParameters "valueExt") = true.
Proof.
  intros H. destruct t as [tunnel q|q| | |tunnel q|tunnel q|tunnel|rrc|rrc tp tc sp sc size time]; cbn [transfer_ok] in H; cbn [transfer_value transfer_type].
  - destruct H as [Ht Hq]. apply fits_sequence; [done|closed|]. fields_tac. apply fits_sequence; [done|closed|]. fields_tac.
    + apply fits_tunnel; [closed|done|done].
    + by eapply (fits_flows _ _ _ [_; _]).
  - apply fits_sequence; [done|closed|]. fields_tac. apply fits_ptr. by eapply (fits_flows _ _ _ [_]).
  - closed.
  - closed.
  - destruct H as [Ht Hq]. apply fits_sequence; [done|closed|]. fields_tac.
    + apply fits_tunnel; [closed|done|done].
    + by eapply (fits_flows _ _ _ [_; _]).
  - destruct H as [Ht Hq]. apply fits_sequence; [done|closed|]. fields_tac.
    + apply fits_tunnel; [closed|done|done].
    + by eapply (fits_flows _ _ _ [_]).
  - apply fits_sequence; [done|closed|]. fields_tac. apply fits_ptr. apply fits_tunnel; [closed|done|done].
  - apply fits_sequence; [done|closed|]. fields_tac. apply fits_text_struct; [done|closed|]. split; [apply H|lia].
  - destruct H as (Hr&H1&H2&H3&H4&H5&H6). apply fits_sequence; [done|closed|]. fields_tac.
    + apply fits_text_struct; [done|closed|]. split; [apply Hr|lia].
    + apply fits_nr_cell; [closed|done..].
    + apply (fits_one _ _ _ _ _ 16); [done|by vm_compute|by vm_compute|lia|]. apply fits_sequence; [done|closed|]. fields_tac.
      eapply fits_choose; [closed|reflexivity|done|cbn [fst snd]; apply fits_ptr]. apply fits_sequence; [done|closed|]. fields_tac.
      * apply fits_nr_cell; [closed|done..].
      * apply fits_sequence; [done|closed|]. fields_tac. by apply (fits_enum_struct 3).
      * apply fits_single; [done|closed|]. by apply (fits_int time _ 4095).
Qed.

(** ** Lengths *)

Lemma tunnel_weight t : tunnel_ok t → weight (tunnel_value t) < 1000.
Proof.
  intros ((n&Hn&_&_&Hl)&_&Ht). change (tunnel_value t) with (VStruct [VInt 1;
    VPtr (VStruct [VStruct [bits (Ngap.TransportLayerAddress t)]; octets (Ngap.GTPTEID t); VNil]); VNil]).
  cbn [weight List.map foldr bits octets]. rewrite Hl, Ht. assert ((n + 7) / 8 ≤ 167 / 8) by (apply Z.div_le_mono; lia).
  change (167 / 8) with 20 in *. lia.
Qed.
Lemma nr_cell_weight plmn cell : octets_ok 3 plmn → bits_ok 36 cell → weight (nr_cell plmn cell) < 1000.
Proof.
  intros [_ Hp] (_&_&Hl). change (nr_cell plmn cell) with (VStruct [VInt 1; VPtr (cgi plmn cell); VNil; VNil]).
  cbn [weight List.map foldr cgi bits octets]. rewrite Hp, Hl. done.
Qed.

Lemma transfer_weight t : transfer_ok t → weight (transfer_value t) < 16384.
Proof.
  intros H. destruct t as [tunnel q|q| | |tunnel q|tunnel q|tunnel|rrc|rrc tp tc sp sc size time]; cbn [transfer_ok] in H; cbn [transfer_value].
  - destruct H as [Ht _]. pose proof (tunnel_weight _ Ht). cbn [weight List.map foldr list_of int octets]. lia.
  - done.
  - done.
  - done.
  - destruct H as [Ht _]. pose proof (tunnel_weight _ Ht). cbn [weight List.map foldr list_of int octets]. lia.
  - destruct H as [Ht _]. pose proof (tunnel_weight _ Ht). cbn [weight List.map foldr list_of int octets]. lia.
  - pose proof (tunnel_weight _ H). cbn [weight List.map foldr]. lia.
  - cbn [weight List.map foldr octets]. lia.
  - destruct H as (Hr&H1&H2&H3&H4&_). pose proof (nr_cell_weight _ _ H1 H2). pose proof (nr_cell_weight _ _ H3 H4).
    change (choose LastVisitedCellInformation "NGRANCell" ?v) with (VStruct [VInt 1; VPtr v; VNil; VNil; VNil; VNil]).
    cbn [weight List.map foldr list_of octets int enum]. lia.
Qed.
