(* ===== verification/NgapReader.v ===== *)
(** * lib/ngap as the gNB's codec

    What the gNB reads of a decoded structure, and with it an instance of
    [NgapCodec] whose octets are those of lib/aper.  [LibraryCodec] is what the
    gNB may rely on: its messages are encoded, and decoded to themselves. *)

From Stdlib Require Import Ascii.
From S2P Require Import Prelude GoStrings AperBits AperPrim AperCodec AperField AperFieldProps AperSize NgapTypes NgapOctets GnbContext Ngap Chaos GnbNgap GnbProps GnbWp GnbDemo GnbSession NgapValues NgapFits NgapTransfers.

#[local] Open Scope Z_scope.
#[local] Open Scope go_scope.

(** ** Reading a structure *)

Definition at_ (i : nat) (v : value) : value := match v with VStruct vs => List.nth i vs VNil | _ => VNil end.
Definition pointed (v : value) : option value := match v with VPtr v => Some v | _ => None end.
Definition int_of (v : value) : Z := match at_ 0 v with VInt z | VEnum z => z | _ => 0 end.
Definition raw_octets (v : value) : list Z := match v with VOctets s | VString s => s | _ => [] end.
Definition octets_of (v : value) : list Z := raw_octets (at_ 0 v).
Definition raw_bits (v : value) : BitString := match v with VBits bs n => MkBits bs n | _ => MkBits [] 0 end.
Definition bits_in (v : value) : BitString := raw_bits (at_ 0 v).
Definition items_of (v : value) : list value := match at_ 0 v with VSlice l => l | _ => [] end.
Definition string_of (s : list Z) : string := String.string_of_list_ascii (List.map (λ z, Ascii.ascii_of_N (Z.to_N z)) s).

(** The alternative of a CHOICE: the name of the field, and what it points to. *)
Definition chosen (t : gotype) (v : value) : option (string * value) :=
  match at_ 0 v with
  | VInt (Zpos j) =>
    let j := Pos.to_nat j in f ← struct_fields t !! j; w ← pointed (at_ j v); Some (f.1.1, w)
  | _ => None
  end.

Definition nssai_of (v : value) : SNSSAI := MkNssai (Some (octets_of (at_ 0 v))) (octets_of <$> pointed (at_ 1 v)).
Definition session_of (v : value) : Z * list Z := (int_of (at_ 0 v), raw_octets (at_ 1 v)).
Definition modified_of (v : value) : Z * list Z := (int_of (at_ 0 v), default [] (raw_octets <$> pointed (at_ 1 v))).
Definition setup_item_of (v : value) : SetupItem :=
  MkSetup (int_of (at_ 0 v)) (octets_of <$> pointed (at_ 1 v)) (nssai_of (at_ 2 v)) (Some (raw_octets (at_ 3 v))).
Definition gnb_node_of (v : value) : list Z * BitString :=
  match chosen NgapTypes.GlobalRANNodeID v with
  | Some ("GlobalGNBID"%string, w) =>
    (octets_of (at_ 0 w), match chosen GNBID (at_ 1 w) with Some (_, b) => raw_bits b | None => MkBits [] 0 end)
  | _ => ([], MkBits [] 0)
  end.

Definition cause_of (v : value) : cause :=
  match chosen NgapTypes.Cause v with
  | Some ("RadioNetwork"%string, w) => Ngap.CauseRadioNetwork (int_of w)
  | Some ("Transport"%string, w) => Ngap.CauseTransport (int_of w)
  | Some ("Nas"%string, w) => Ngap.CauseNas (int_of w)
  | Some ("Protocol"%string, w) => Ngap.CauseProtocol (int_of w)
  | Some ("Misc"%string, w) => Ngap.CauseMisc (int_of w)
  | _ => CauseNothing
  end.
Definition uengapids_of (v : value) : uengapids :=
  match chosen NgapTypes.UENGAPIDs v with
  | Some ("UENGAPIDPair"%string, w) => Ngap.UENGAPIDPair (int_of (at_ 0 w)) (int_of (at_ 1 w))
  | Some ("AMFUENGAPID"%string, w) => UEAMFUENGAPID (int_of w)
  | _ => NoUENGAPIDs
  end.
Definition guami_of (v : value) : GuamiItem :=
  let part i := Some (Bytes (bits_in (at_ i (at_ 0 v)))) in MkGuami (part 1%nat) (part 3%nat) (part 2%nat).
Definition plmn_item_of (v : value) : PlmnSupportItem :=
  MkPlmnItem (octets_of (at_ 0 v)) (Some (List.map (λ s, nssai_of (at_ 0 s)) (items_of (at_ 1 v)))).

(** The content of an element by the field that is set; [None] for the fields
    the gNB does not look at. *)
Definition location_of (v : value) : option content :=
  match chosen NgapTypes.UserLocationInformation v with
  | Some ("UserLocationInformationNR"%string, w) =>
    let cgi := at_ 0 w in let tai := at_ 1 w in
    Some (Ngap.UserLocationInformation (octets_of (at_ 0 cgi)) (bits_in (at_ 1 cgi)) (octets_of (at_ 0 tai)) (octets_of (at_ 1 tai)))
  | _ => None
  end.
Definition target_of (v : value) : option content :=
  match chosen NgapTypes.TargetID v with
  | Some ("TargetRANNodeID"%string, w) =>
    let '(plmn, gnb) := gnb_node_of (at_ 0 w) in let tai := at_ 1 w in
    Some (Ngap.TargetID plmn gnb (octets_of (at_ 0 tai)) (octets_of (at_ 1 tai)))
  | _ => None
  end.
(** The one tracking area with its one PLMN. *)
Definition supported_of (v : value) : option content :=
  match items_of v with
  | area :: _ =>
    match items_of (at_ 1 area) with
    | broadcast :: _ =>
      Some (Ngap.SupportedTAList (octets_of (at_ 0 area)) (octets_of (at_ 0 broadcast))
        (List.map (λ s, nssai_of (at_ 0 s)) (items_of (at_ 1 broadcast))))
    | [] => None
    end
  | [] => None
  end.

Definition readers : list (string * (value → option content)) :=
  [("AMFUENGAPID", λ v, Some (Ngap.AMFUENGAPID (int_of v)));
   ("RANUENGAPID", λ v, Some (Ngap.RANUENGAPID (int_of v)));
   ("SourceAMFUENGAPID", λ v, Some (SourceAMFUENGAPID (int_of v)));
   ("NASPDU", λ v, Some (Ngap.NASPDU (octets_of v)));
   ("SecurityKey", λ v, Some (Ngap.SecurityKey (bits_in v)));
   ("GUAMI", λ _, Some Ngap.GUAMI);
   ("AllowedNSSAI", λ v, Some (Ngap.AllowedNSSAI (List.map (λ s, nssai_of (at_ 0 s)) (items_of v))));
   ("MobilityRestrictionList", λ v, Some (Ngap.MobilityRestrictionList (octets_of (at_ 0 v))));
   ("MaskedIMEISV", λ v, Some (Ngap.MaskedIMEISV (bits_in v)));
   ("UESecurityCapabilities", λ v, let b i := bits_in (at_ i v) in Some (Ngap.UESecurityCapabilities (b 0%nat) (b 1%nat) (b 2%nat) (b 3%nat)));
   ("PDUSessionResourceSetupListCxtReq", λ v, Some (Ngap.PDUSessionResourceSetupListCxtReq (List.map setup_item_of (items_of v))));
   ("PDUSessionResourceSetupListSUReq", λ v, Some (Ngap.PDUSessionResourceSetupListSUReq (List.map setup_item_of (items_of v))));
   ("PDUSessionResourceSetupListHOReq", λ v, Some (Ngap.PDUSessionResourceSetupListHOReq
      (List.map (λ i, (int_of (at_ 0 i), nssai_of (at_ 1 i), raw_octets (at_ 2 i))) (items_of v))));
   ("PDUSessionResourceToReleaseListRelCmd", λ v, Some (Ngap.PDUSessionResourceToReleaseListRelCmd (List.map (λ i, int_of (at_ 0 i)) (items_of v))));
   ("PDUSessionResourceModifyListModReq", λ v, Some (Ngap.PDUSessionResourceModifyListModReq
      (List.map (λ i, MkModify (int_of (at_ 0 i)) (octets_of <$> pointed (at_ 1 i)) (raw_octets (at_ 2 i))) (items_of v))));
   ("PDUSessionResourceSwitchedList", λ v, Some (Ngap.PDUSessionResourceSwitchedList (List.map session_of (items_of v))));
   ("AMFName", λ v, Some (Ngap.AMFName (string_of (octets_of v))));
   ("ServedGUAMIList", λ v, Some (Ngap.ServedGUAMIList (Some (List.map guami_of (items_of v)))));
   ("RelativeAMFCapacity", λ v, Some (Ngap.RelativeAMFCapacity (int_of v)));
   ("PLMNSupportList", λ v, Some (Ngap.PLMNSupportList (List.map plmn_item_of (items_of v))));
   ("Cause", λ v, Some (Ngap.Cause (cause_of v)));
   ("TimeToWait", λ v, Some (Ngap.TimeToWait (int_of v)));
   ("UEPagingIdentity", λ v, Some (Ngap.UEPagingIdentity ('(_, w) ← chosen NgapTypes.UEPagingIdentity v; Some (octets_of (at_ 2 w)))));
   ("UENGAPIDs", λ v, Some (Ngap.UENGAPIDs (uengapids_of v)));
   ("SourceToTargetTransparentContainer", λ v, Some (Ngap.SourceToTargetTransparentContainer (octets_of v)));
   ("TargetToSourceTransparentContainer", λ v, Some (Ngap.TargetToSourceTransparentContainer (octets_of v)));
   ("UserLocationInformation", location_of);
   ("RRCEstablishmentCause", λ v, Some (Ngap.RRCEstablishmentCause (int_of v)));
   ("FiveGSTMSI", λ v, Some (Ngap.FiveGSTMSI (bits_in (at_ 0 v)) (bits_in (at_ 1 v)) (octets_of (at_ 2 v))));
   ("UEContextRequest", λ v, Some (Ngap.UEContextRequest (int_of v)));
   ("PDUSessionResourceSetupListSURes", λ v, Some (Ngap.PDUSessionResourceSetupListSURes (List.map session_of (items_of v))));
   ("PDUSessionResourceSetupListCxtRes", λ v, Some (Ngap.PDUSessionResourceSetupListCxtRes (List.map session_of (items_of v))));
   ("PDUSessionResourceReleasedListRelRes", λ v, Some (Ngap.PDUSessionResourceReleasedListRelRes (List.map session_of (items_of v))));
   ("PDUSessionResourceModifyListModRes", λ v, Some (Ngap.PDUSessionResourceModifyListModRes (List.map modified_of (items_of v))));
   ("PDUSessionResourceAdmittedList", λ v, Some (Ngap.PDUSessionResourceAdmittedList (List.map session_of (items_of v))));
   ("PDUSessionResourceListHORqd", λ v, Some (Ngap.PDUSessionResourceListHORqd (List.map session_of (items_of v))));
   ("PDUSessionResourceToBeSwitchedDLList", λ v, Some (Ngap.PDUSessionResourceToBeSwitchedDLList (List.map session_of (items_of v))));
   ("GlobalRANNodeID", λ v, let '(plmn, gnb) := gnb_node_of v in Some (Ngap.GlobalRANNodeID plmn gnb));
   ("RANNodeName", λ v, Some (Ngap.RANNodeName (string_of (octets_of v))));
   ("SupportedTAList", supported_of);
   ("DefaultPagingDRX", λ v, Some (DefaultPagingDRX (int_of v)));
   ("HandoverType", λ v, Some (Ngap.HandoverType (int_of v)));
   ("TargetID", target_of);
   ("UEAggregateMaximumBitRate", λ v, Some (Ngap.UEAggregateMaximumBitRate (int_of (at_ 0 v)) (int_of (at_ 1 v))));
   ("SecurityContext", λ v, Some (Ngap.SecurityContext (int_of (at_ 0 v)) (bits_in (at_ 1 v))))]%string.

Definition content_of (name : string) (v : value) : option content :=
  match List.find (λ r, (r.1 =? name)%string) readers with Some r => r.2 v | None => None end.

Definition ie_of (t : gotype) (v : value) : IE :=
  MkIE (int_of (at_ 0 v)) (int_of (at_ 1 v)) ('(name, w) ← chosen (field_type t "Value") (at_ 2 v); content_of name w).

Definition alternatives : list alternative :=
  [MNGSetupRequest; MInitialUEMessage; MUplinkNASTransport; MDownlinkNASTransport; MInitialContextSetupRequest; MInitialContextSetupResponse;
   MPDUSessionResourceSetupRequest; MPDUSessionResourceSetupResponse; MPDUSessionResourceReleaseCommand; MPDUSessionResourceReleaseResponse;
   MPDUSessionResourceModifyRequest; MPDUSessionResourceModifyResponse; MNGSetupResponse; MNGSetupFailure; MPaging; MErrorIndication;
   MPathSwitchRequest; MPathSwitchRequestAcknowledge; MHandoverRequired; MHandoverRequest; MHandoverRequestAcknowledge; MHandoverCommand;
   MHandoverNotify; MUEContextReleaseRequest; MUEContextReleaseCommand; MUEContextReleaseComplete].
Definition alternative_of (name : string) : alternative := default MNothing (List.find (λ a, (alternative_name a =? name)%string) alternatives).

Definition message_of (t : gotype) (v : value) : Message :=
  let '(a, ies) := match chosen (field_type t "Value") (at_ 2 v) with
    | Some (name, w) =>
      (alternative_of name, List.map (ie_of (ie_type (elem (field_type (field_type t "Value") name)))) (items_of (at_ 0 w)))
    | None => (MNothing, [])
    end in
  MkMessage (int_of (at_ 0 v)) (int_of (at_ 1 v)) a ies.

Definition pdu_of (v : value) : Ngap.NGAPPDU :=
  MkNgap (match at_ 0 v with VInt z => z | _ => 0 end)
    match chosen NgapTypes.NGAPPDU v with
    | Some (name, w) =>
      Some (message_of (if (name =? "InitiatingMessage")%string then InitiatingMessage
        else if (name =? "SuccessfulOutcome")%string then SuccessfulOutcome else UnsuccessfulOutcome) w)
    | None => None
    end.

(** ** The transfers the gNB reads *)

Definition tunnel_of (v : value) : option Ngap.GTPTunnel :=
  match chosen UPTransportLayerInformation v with
  | Some ("GTPTunnel"%string, w) => Some (MkTunnel (bits_in (at_ 0 w)) (octets_of (at_ 1 w)))
  | _ => None
  end.
Definition flow_of (v : value) : QosFlow :=
  let qos := at_ 1 v in
  MkFlow (int_of (at_ 0 v))
    match chosen QosCharacteristics (at_ 0 qos) with Some ("NonDynamic5QI"%string, w) => Some (int_of (at_ 0 w)) | _ => None end
    (int_of (at_ 0 (at_ 1 qos))).
Definition setup_ie_of (v : value) : setup_ie :=
  match chosen PDUSessionResourceSetupRequestTransferIEsValue (at_ 2 v) with
  | Some ("ULNGUUPTNLInformation"%string, w) => Ngap.ULNGUUPTNLInformation (tunnel_of w)
  | Some ("QosFlowSetupRequestList"%string, w) => Ngap.QosFlowSetupRequestList (List.map flow_of (items_of w))
  | Some ("PDUSessionType"%string, w) => Ngap.PDUSessionType (int_of w)
  | _ => OtherSetupIE
  end.
Definition modify_ie_of (v : value) : modify_ie :=
  match chosen PDUSessionResourceModifyRequestTransferIEsValue (at_ 2 v) with
  | Some ("QosFlowAddOrModifyRequestList"%string, w) => Ngap.QosFlowAddOrModifyRequestList (List.map (λ i, int_of (at_ 0 i)) (items_of w))
  | _ => OtherModifyIE
  end.

(** An outcome as the two results of a Go function; the class does not tell a
    panic, which ends the program, from an error. *)
Definition go_result {A} (o : outcome A) : A + string :=
  match o with Ret a => inl a | Fail e => inr e | Panic => inr "panic"%string end.
Definition unmarshalled {A} (t : gotype) (f : value → A) (octets : list Z) : A + string :=
  match UnmarshalWithParams octets t "valueExt" with
  | Ret (v, None) => inl (f v) | Ret (_, Some e) => inr e | Fail e => inr e | Panic => inr "panic"%string
  end.

Definition library_codec : NgapCodec :=
  {| Ngap.Encoder := λ pdu, go_result (NgapOctets.Encoder (pdu_value pdu));
     Ngap.Decoder := λ octets, match NgapOctets.Decoder octets with
       | Ret (v, err) => (pdu_of v, err) | Fail e => (MkNgap 0 None, Some e) | Panic => (MkNgap 0 None, Some "panic"%string) end;
     Ngap.Marshal := λ t, go_result (transfer_octets t);
     UnmarshalSetup := unmarshalled PDUSessionResourceSetupRequestTransfer (λ v, List.map setup_ie_of (items_of (at_ 0 v)));
     UnmarshalModify := unmarshalled PDUSessionResourceModifyRequestTransfer (λ v, List.map modify_ie_of (items_of (at_ 0 v)));
     UnmarshalSwitch := unmarshalled NgapTypes.PathSwitchRequestAcknowledgeTransfer (λ v, tunnel_of <$> pointed (at_ 0 v));
     UnmarshalSourceToTarget := unmarshalled SourceNGRANNodeToTargetNGRANNodeTransparentContainer (λ v, octets_of (at_ 0 v)) |}.

(** ** Reading back what was put together *)

Lemma field_index_at name fs : (field_index name fs < length fs)%nat → ∃ f, fs !! field_index name fs = Some f ∧ f.1.1 = name.
Proof.
  induction fs as [|f fs IH]; cbn; intros Hl; [lia|]. destruct (String.eqb_spec f.1.1 name) as [E|E]; [by exists f|]. apply IH. lia.
Qed.
Definition known_field (name : string) (t : gotype) : bool :=
  let i := field_index name (struct_fields t) in (0 <? i)%nat && (i <? length (struct_fields t))%nat.
Lemma chosen_choose t name v : known_field name t = true → chosen t (choose t name v) = Some (name, v).
Proof.
  unfold known_field. intros [Hi%Nat.ltb_lt Hl%Nat.ltb_lt]%andb_true_iff. destruct (field_index_at _ _ Hl) as (f&Ef&En).
  unfold chosen, choose. set (i := field_index name (struct_fields t)) in *. clearbody i. cbn [at_ List.nth].
  destruct i as [|i]; [lia|]. replace (Z.of_nat (S i)) with (Z.pos (Pos.of_nat (S i))) by lia. cbv zeta.
  rewrite Nat2Pos.id by lia. rewrite Ef. cbn [mbind option_bind at_ List.nth].
  rewrite nth_lookup. replace (S i - 1)%nat with i by lia. rewrite list_lookup_insert_eq by (rewrite length_map, length_drop; lia).
  cbn [default pointed mbind option_bind]. by rewrite En.
Qed.

Lemma string_of_name v : string_of (name_octets v) = v.
Proof.
  unfold string_of, name_octets. rewrite map_map. transitivity (String.string_of_list_ascii (String.list_ascii_of_string v)).
  - f_equal. erewrite map_ext; [by rewrite List.map_id|]. intros a. cbn. by rewrite N2Z.id, Ascii.ascii_N_embedding.
  - apply String.string_of_list_ascii_of_string.
Qed.
Lemma bits_back b : raw_bits (bits b) = b.
Proof. by destruct b. Qed.
Lemma bits_struct_back b : bits_in (VStruct [bits b]) = b.
Proof. by destruct b. Qed.
Lemma gnb_node_back plmn gnb : gnb_node_of (gnb_node plmn gnb) = (plmn, gnb).
Proof. by destruct gnb. Qed.
Lemma nssai_back s : nssai_ok s → nssai_of (nssai s) = s.
Proof. destruct s as [sst sd]. intros [(b&Eb&_) _]. cbn in Eb. subst. by destruct sd. Qed.
Lemma back_map {A} (f : A → value) (g : value → A) (P : A → Prop) l : (∀ a, P a → g (f a) = a) → Forall P l → List.map g (List.map f l) = l.
Proof. intros H. induction 1 as [|a l Ha _ IH]; [done|]. cbn [List.map]. by rewrite H, IH. Qed.
Lemma sessions_back l : List.map session_of (List.map session l) = l.
Proof. apply (back_map _ _ (λ _, True)); [by intros []|by apply Forall_true]. Qed.
Lemma modifieds_back l : List.map modified_of (List.map modified l) = l.
Proof. apply (back_map _ _ (λ _, True)); [by intros []|by apply Forall_true]. Qed.
Lemma cause_back c : cause_of (cause_value c) = c.
Proof. by destruct c. Qed.

Lemma content_back c name v : content_ok c → content_value c = Some (name, v) → content_of name v = Some c.
Proof.
  intros Hok E. destruct c; cbn [content_ok] in Hok; try contradiction; cbn [content_value] in E;
    try (injection E as <- <-; unfold content_of; cbn -[choose nssai bits cause_value cause_of session modified gnb_node string_of name_octets]).
  all: rewrite ?sessions_back, ?modifieds_back, ?cause_back, ?string_of_name, ?bits_struct_back, ?gnb_node_back; try done.
  - do 2 f_equal. destruct Hok as [_ Hl]. eapply (back_map _ _ _ _ _ Hl). Unshelve. intros [[i s] t] (_&Hs&_). cbn -[nssai nssai_of] in *. by rewrite nssai_back.
  - match goal with H : context [match ?x with _ => _ end] |- _ => destruct x end; try contradiction; injection E as <- <-; reflexivity.
  - by destruct cell.
  - do 2 f_equal. destruct Hok as (_&_&_&Hl). eapply (back_map _ _ _ _ _ Hl). Unshelve. intros s Hs. by apply nssai_back.
  - by destruct gnb.
Qed.

(** The names a message uses are fields of its types. *)
Definition ie_known (t : gotype) (i : IE) : bool :=
  match ie_Value i ≫= content_value with Some (name, _) => known_field name (field_type t "Value") | None => false end.
Definition message_known (t : gotype) (m : Message) : bool :=
  let name := alternative_name (Value m) in
  known_field name (field_type t "Value") && forallb (ie_known (ie_type (elem (field_type (field_type t "Value") name)))) (ProtocolIEs m).
Definition pdu_known (pdu : Ngap.NGAPPDU) : bool :=
  match Outcome pdu with
  | Some m =>
    (Present pdu =? NGAPPDUPresentInitiatingMessage) && message_known InitiatingMessage m ||
    (Present pdu =? NGAPPDUPresentSuccessfulOutcome) && message_known SuccessfulOutcome m
  | None => false
  end.

Lemma ie_back t i : ie_known t i = true → ie_content_ok i → ie_of t (ie_value t i) = i.
Proof.
  destruct i as [id crit [c|]]; [|done]. unfold ie_known, ie_content_ok, ie_of, ie_value.
  cbn [ie_Id ie_Criticality ie_Value mbind option_bind].
  destruct (content_value c) as [[name v]|] eqn:E; [|done]. intros Hk Hc. cbn [at_ List.nth]. rewrite chosen_choose by done.
  cbn [mbind option_bind]. by rewrite (content_back c name v).
Qed.
Lemma message_back t m : message_known t m = true → Forall ie_content_ok (ProtocolIEs m) → message_of t (message_value t m) = m.
Proof.
  destruct m as [code crit a ies]. unfold message_known, message_of, message_value. cbn [Value ProtocolIEs ProcedureCode Criticality].
  intros [Hk Hi]%andb_true_iff Hc. cbn [at_ List.nth]. rewrite chosen_choose by done.
  assert (alternative_of (alternative_name a) = a) as -> by (by destruct a).
  cbn [items_of at_ List.nth list_of]. change (int_of (int code)) with code. change (int_of (enum crit)) with crit. f_equal.
  rewrite forallb_forall in Hi. rewrite map_map. erewrite map_ext_in; [by rewrite List.map_id|]. intros i Hin. cbn beta.
  apply ie_back; [by apply Hi|]. eapply Forall_forall in Hc; [exact Hc|by apply list_elem_of_In].
Qed.
Lemma pdu_back pdu m : Outcome pdu = Some m → pdu_known pdu = true → Forall ie_content_ok (ProtocolIEs m) → pdu_of (pdu_value pdu) = pdu.
Proof.
  destruct pdu as [p o]. unfold pdu_known, pdu_value. cbn [Outcome Present]. intros -> Hk Hc.
  apply orb_true_iff in Hk as [[Hp%Z.eqb_eq Hk]%andb_true_iff|[Hp%Z.eqb_eq Hk]%andb_true_iff]; subst p.
  - change (NGAPPDUPresentInitiatingMessage =? NGAPPDUPresentInitiatingMessage) with true. cbn iota. unfold pdu_of. rewrite chosen_choose by done.
    cbn [String.eqb]. f_equal. f_equal. by apply message_back.
  - change (NGAPPDUPresentSuccessfulOutcome =? NGAPPDUPresentInitiatingMessage) with false.
    change (NGAPPDUPresentSuccessfulOutcome =? NGAPPDUPresentSuccessfulOutcome) with true. cbn iota. unfold pdu_of. rewrite chosen_choose by done.
    change (_ =? "InitiatingMessage")%string with false. change (_ =? "SuccessfulOutcome")%string with true. cbn iota. f_equal. f_equal. by apply message_back.
Qed.

Section Known.
Context `{Host} `{NgapCodec} `{MapOrder}.

Lemma gnb_message_known pdu : gnb_message pdu → pdu_known pdu = true.
Proof.
  destruct 1 as [| ? ? ? ? ? E | | ? ? ? ? E | ? ? ? E | | | | | | | | ? ? ? ? ? ? ? ? ? ? E | | | | |]; try reflexivity.
  - apply initial_message in E. by rewrite E.
  - unfold Ngap.PDUSessionResourceSetupResponse, buildPDUSessionResourceSetupResponse in E.
    destruct (LookupHost ip); [|discriminate]. returned. reflexivity.
  - unfold BuildInitialContextSetupResponse in E. returned. destruct (bool_decide _); reflexivity.
  - unfold buildPDUSessionResourceModifyResponse. destruct ids; reflexivity.
  - unfold BuildErrorIndication. destruct amf, ran, c; reflexivity.
  - unfold BuildHandoverRequired in E. returned. reflexivity.
Qed.
End Known.

Section Library.
Context `{Host} `{MapOrder}.
#[local] Existing Instance library_codec.

(** A message of the gNB through lib/ngap. *)
Lemma library_message pdu : gnb_message pdu → message_ok pdu →
  ∃ octets v, Ngap.Encoder pdu = inl octets ∧ bytes_ok octets ∧ same (pdu_value pdu) v ∧ NgapOctets.Encoder v = Ret octets ∧
    Ngap.Decoder octets = (pdu_of v, None) ∧ (whole (pdu_value pdu) = true → pdu_of v = pdu).
Proof.
  intros Hm Hok. destruct (marshalled_light _ _ pdu_params (gnb_message_fits _ Hm Hok) (proj2 Hok)) as (bytes&E&Hb&_&v&Hs&Ed&Ee).
  exists bytes, v. cbn [Ngap.Encoder Ngap.Decoder library_codec]. unfold NgapOctets.Encoder, NgapOctets.Decoder. rewrite E, Ed, Ee.
  do 5 (split; [done|]). intros Hw. rewrite (same_whole _ _ Hs Hw). destruct Hok as [Hc _]. destruct (Outcome pdu) as [m|] eqn:Em; [|done].
  apply (pdu_back pdu m Em); [by apply gnb_message_known|done].
Qed.

(** C5. With lib/ngap as the codec, every message the gNB or its simulated AMF
    builds from contents within their ranges, and not too large for open types
    of one fragment, is encoded, and the octets are decoded without an error to
    the same structure; the gNB reads the very message in it, unless a bit
    string leaves bits of its last octet unused. *)
Theorem library_messages pdu : gnb_message pdu → message_ok pdu →
  ∃ octets v, Ngap.Encoder pdu = inl octets ∧ bytes_ok octets ∧ same (pdu_value pdu) v ∧ NgapOctets.Encoder v = Ret octets ∧
    Ngap.Decoder octets = (pdu_of v, None) ∧ (whole (pdu_value pdu) = true → pdu_of v = pdu).
Proof. apply library_message. Qed.
End Library.

(** The NG Setup Request is read back from its octets. *)
Lemma library_messages_witness :
  let H1 := key_order in let H2 := demo_host in let H3 := library_codec in
  Ngap.Encoder (Ngap.NGSetupRequest demo_gnb "free5gc") = inl setup_octets ∧
  Ngap.Decoder setup_octets = (Ngap.NGSetupRequest demo_gnb "free5gc", None).
Proof.
  intros H1 H2 H3. destruct (library_messages (Ngap.NGSetupRequest demo_gnb "free5gc")) as (octets&v&E&_&_&_&D&R).
  - apply m_setup.
  - exact demo_setup_ok.
  - assert (octets = setup_octets) as ->.
    { assert (Ngap.Encoder (Ngap.NGSetupRequest demo_gnb "free5gc") = inl setup_octets) as E' by (vm_compute; reflexivity).
      pose proof (eq_trans (eq_sym E) E') as E2. injection E2 as E2. exact E2. }
    split; [exact E|]. rewrite <-(R ltac:(vm_compute; reflexivity)). exact D.
Defined.

(** ** The gNB's answer to a session *)

Lemma transfer_encoded t : transfer_ok t →
  ∃ bytes, transfer_octets t = Ret bytes ∧ text_ok bytes ∧ blen bytes ≤ Z.max 1 (weight (transfer_value t)) ∧
    ∃ v, same (transfer_value t) v ∧ UnmarshalWithParams bytes (transfer_type t) "valueExt" = Ret (v, None).
Proof.
  intros H. pose proof (transfer_weight t H) as Hw.
  destruct (marshalled_light _ _ "valueExt" (transfer_fits t H) Hw) as (bytes&E&Hb&Hl&v&Hs&Ed&_).
  exists bytes. split; [done|]. split; [split; [done|lia]|]. split; [done|]. by exists v.
Qed.

Lemma decimal_val_nonneg s acc v : 0 ≤ acc → decimal_val acc s = Some v → 0 ≤ v.
Proof.
  revert acc. induction s as [|a s IH]; intros acc Ha; cbn [decimal_val]; [by intros [= <-]|]. cbv zeta.
  destruct (_ && _) eqn:E; [|done]. apply andb_true_iff in E as [E%Z.leb_le _]. apply IH. lia.
Qed.
Lemma field_val_byte s v : field_val s = Some v → in_width 8 v.
Proof.
  assert (∀ s, (v0 ← decimal_val 0 s; if v0 <=? 255 then Some v0 else None) = Some v → in_width 8 v) as Hv.
  { intros s' E. destruct (decimal_val 0 s') as [x|] eqn:Ex; [|done]. cbn in E. destruct (Z.leb_spec x 255); [|done]. injection E as <-.
    apply decimal_val_nonneg in Ex; [|done]. unfold in_width. lia. }
  unfold field_val. destruct s as [|a s]; [done|]. destruct a as [[] [] [] [] [] [] [] []]; try apply (Hv (String _ s)).
  destruct s as [|a s]; [apply (Hv "0"%string)|done].
Qed.
Lemma parsed_octets s ip : parseIPv4 s = Some ip → ∃ a b c d, ip = IPv4 a b c d ∧ bytes_ok [a; b; c; d].
Proof.
  unfold parseIPv4. intros E. destruct (split_on _ s) as [|f1 [|f2 [|f3 [|f4 [|]]]]]; try discriminate.
  destruct (field_val f1) as [a|] eqn:E1; [|done]. destruct (field_val f2) as [b|] eqn:E2; [|done].
  destruct (field_val f3) as [c|] eqn:E3; [|done]. destruct (field_val f4) as [d|] eqn:E4; [|done]. injection E as <-.
  exists a, b, c, d. split; [done|]. repeat apply Forall_cons_2; try apply Forall_nil_2; by eapply field_val_byte.
Qed.

Section Answer.
Context {host : Host} {order : MapOrder}.
#[local] Existing Instance library_codec.

Lemma parsed_address s ip : parseIPv4 s = Some ip → ∃ bs, IPAddressToNgap s = Ret (MkBits bs 32) ∧ octets_ok 4 bs.
Proof.
  intros E. destruct (parsed_octets s ip E) as (a&b&c&d&->&Hb). exists [a; b; c; d]. split; [|done].
  unfold IPAddressToNgap, ParseIP. rewrite E. by destruct s.
Qed.

Lemma whole_setup bs teid q : bytes_ok bs → blen bs = 4 →
  whole (transfer_value (SetupResponseTransfer (MkTunnel (MkBits bs 32) teid) q)) = true.
Proof.
  intros Hb Hl. cbn -[Z.mul Z.eqb bool_decide]. by rewrite Hl, bool_decide_eq_true_2 by done.
Qed.
Lemma setup_response_weight amf ran pid teid qos address : weight (pdu_value (setup_response amf ran pid teid qos address)) ≤
  1000 + blen (marshalled (SetupResponseTransfer (MkTunnel address (be_bytes 4 teid)) qos)).
Proof.
  unfold setup_response. set (b := marshalled _). clearbody b. cbn -[Z.add blen]. lia.
Qed.

(** C14. With lib/ngap as the codec the gNB can answer: for an IPv4 address of
    its own and identifiers in their ranges, the response of a session is
    encoded, its octets are decoded to that response, and the transfer in it to
    the tunnel and the flow of the session. *)
Theorem library_answerable g u pid assoc ip rest addr : LookupHost (gnbDataIp (dataInfo g)) = inl (ip :: rest) → parseIPv4 ip = Some addr →
  0 ≤ amfUeNgapId u < 2 ^ 40 → 0 ≤ ranUeNgapId u < 2 ^ 32 → 0 ≤ pid ≤ 255 → 0 ≤ GetQosIdOfSession u pid ≤ 63 →
  (∀ octets, SCTPWrite assoc 1 octets = None) →
  ∃ octets address, answerable g assoc (response_for u pid) octets ∧ IPAddressToNgap ip = Ret address ∧
    let t := SetupResponseTransfer (MkTunnel address (be_bytes 4 (GetTeidDownlinkOfSession u pid))) (GetQosIdOfSession u pid) in
    UnmarshalWithParams (marshalled t) PDUSessionResourceSetupResponseTransfer "valueExt" = Ret (transfer_value t, None).
Proof.
  intros Hl Hip Ha Hr Hp Hq Hw. destruct (parsed_address ip addr Hip) as (bs&Ei&Hbs). set (address := MkBits bs 32) in *.
  set (t := SetupResponseTransfer (MkTunnel address (be_bytes 4 (GetTeidDownlinkOfSession u pid))) (GetQosIdOfSession u pid)).
  assert (transfer_ok t) as Ht.
  { split; [|done]. split; [exists 32; split; [lia|]; split; [done|]; split; apply Hbs|]. split; [apply be_bytes_ok|].
    unfold blen. cbn [Ngap.GTPTEID]. by rewrite be_bytes_length. }
  destruct (transfer_encoded t Ht) as (tb&Et&Htb&Hlt&v&Hs&Ed). assert (marshalled t = tb) as Em by (unfold marshalled; cbn [Ngap.Marshal library_codec]; by rewrite Et).
  assert (gnb_message (response_for u pid address)) as Hm.
  { apply (m_session u (gnbDataIp (dataInfo g)) pid). unfold Ngap.PDUSessionResourceSetupResponse. rewrite Hl. ret_bind.
    change (rd (ip :: rest) 0) with (Ret (A:=string) ip). ret_bind. unfold buildPDUSessionResourceSetupResponse, GetPDUSessionResourceSetupResponseTransfer,
      buildPDUSessionResourceSetupResponseTransfer. rewrite Ei. reflexivity. }
  assert (message_ok (response_for u pid address)) as Hok.
  { split.
    - cbn [Outcome response_for setup_response successful ProtocolIEs].
      repeat apply Forall_cons_2; try apply Forall_nil_2; [exact Ha|exact Hr|]. split; [unfold blen; cbn [length]; lia|].
      apply Forall_cons_2; [|apply Forall_nil_2]. split; [exact Hp|]. cbn [snd]. fold t. by rewrite Em.
    - unfold response_for. eapply Z.le_lt_trans; [apply setup_response_weight|]. fold t. rewrite Em.
      assert (weight (transfer_value t) < 1300); [|lia]. pose proof (tunnel_weight _ (proj1 Ht)) as Htw. unfold t.
      cbn [transfer_value weight List.map foldr list_of int]. lia. }
  destruct (library_messages _ Hm Hok) as (octets&w&Eo&_&_&_&Edo&Hback). exists octets, address.
  split; [|split; [done|]].
  - split; [|apply Hw]. exists ip, rest, address. do 3 (split; [done|]). rewrite Edo. by rewrite Hback.
  - change (UnmarshalWithParams (marshalled t) (transfer_type t) "valueExt" = Ret (transfer_value t, None)).
    rewrite Em, Ed. do 2 f_equal. apply (same_whole _ _ Hs). apply whole_setup; [apply Hbs|apply Hbs].
Qed.
End Answer.

Lemma library_answerable_witness :
  let H1 := key_order in let H2 := demo_host in let H3 := library_codec in
  let u := demo_ue {[1 := MkPdu 1 (IPv4 127 0 0 3) 0 9 [] 1 8 9 5 6]} in
  ∃ octets, answerable demo_gnb 2 (response_for u 1) octets.
Proof.
  intros H1 H2 H3 u. destruct (library_answerable demo_gnb u 1 2 "127.0.0.1" [] (IPv4 127 0 0 1)) as (octets&address&A&_);
    [reflexivity|vm_compute; reflexivity|vm_compute; by split..|reflexivity|]. exists octets. exact A.
Defined.
