(* ===== verification/Monitoring.v ===== *)
(** * monitoring

    The counters of the load, latency and availability tests.  The mutex is left
    out: each operation is one step. *)

From S2P Require Import Prelude.

#[local] Open Scope Z_scope.

Record Monitor := MkMonitor { RqsG : Z; RqsL : Z; pcktLoss : Z; LtRegisterLocal : Z; LtRegisterGlobal : Z; availability : bool }.

Definition IncRqs (m : Monitor) : Monitor :=
  MkMonitor (RqsG m) (s64 (RqsL m + 1)) (pcktLoss m) (LtRegisterLocal m) (LtRegisterGlobal m) (availability m).
Definition IncPcktLoss (m : Monitor) : Monitor :=
  MkMonitor (RqsG m) (RqsL m) (s64 (pcktLoss m + 1)) (LtRegisterLocal m) (LtRegisterGlobal m) (availability m).
Definition IncAvaibility (m : Monitor) : Monitor :=
  MkMonitor (RqsG m) (RqsL m) (pcktLoss m) (LtRegisterLocal m) (LtRegisterGlobal m) true.
Definition InitRqsLocal (m : Monitor) : Monitor :=
  MkMonitor (RqsG m) 0 (pcktLoss m) (LtRegisterLocal m) (LtRegisterGlobal m) (availability m).
Definition InitAvaibility (m : Monitor) : Monitor :=
  MkMonitor (RqsG m) (RqsL m) (pcktLoss m) (LtRegisterLocal m) (LtRegisterGlobal m) false.
Definition SetRqsGlobal (rqs : Z) (m : Monitor) : Monitor :=
  MkMonitor (s64 (RqsG m + rqs)) (RqsL m) (pcktLoss m) (LtRegisterLocal m) (LtRegisterGlobal m) (availability m).
Definition GetRqsLocal (m : Monitor) : Z := RqsL m.
Definition GetRqsGlobal (m : Monitor) : Z := RqsG m.
Definition GetAvailability (m : Monitor) : bool := availability m.
Definition SetLtRegisterLocal (lt : Z) (m : Monitor) : Monitor :=
  MkMonitor (RqsG m) (RqsL m) (pcktLoss m) lt (LtRegisterGlobal m) (availability m).
Definition SetLtGlobal (ltLocal : Z) (m : Monitor) : Monitor :=
  MkMonitor (RqsG m) (RqsL m) (pcktLoss m) (LtRegisterLocal m) (s64 (LtRegisterGlobal m + ltLocal)) (availability m).
Definition GetLtGlobal (m : Monitor) : Z := LtRegisterGlobal m.
