(* ===== verification/GnbStart.v ===== *)
(** * The other starts of a gNB: gnb/gnb.go

    For load tests, for the availability test and for the fleet.  What happens
    elsewhere while a start waits is an argument ([sleep], [running]), as for the
    simulated AMF.  A panic of the fleet's goroutine, which the code recovers
    from, is a panic here. *)

From S2P Require Import Prelude Monitoring GoStrings GnbContext Ngap Chaos GnbNgap GnbNas GnbProps GnbWp GnbDemo GnbInv.

#[local] Open Scope Z_scope.
#[local] Open Scope go_scope.

Section Starts.
Context {G : Type} `{Rand G} `{MapOrder} `{Host} `{NgapCodec}.
#[local] Abbreviation world := (GnbNgap.world (G:=G)).
#[local] Abbreviation Gn := (GnbNgap.Gn (G:=G)).

(** The context of every start, with the setters that all of them call last;
    the result is the AMF. *)
Definition gnb_context (c : GnbConfig) (gnb : Z) (links : GNBContext → GNBContext) : Gn Z :=
  _ ← on_heap (NewRanGnbContext gnb (conf_GnbId c) (conf_Mcc c) (conf_Mnc c) (conf_Tac c) (conf_Sst c) (conf_Sd c)
    (conf_ControlIp c) (conf_DataIp c) (conf_ControlPort c) (conf_DataPort c));
  _ ← on_heap (set_gnb gnb (λ g, SetCellId (conf_CellId c) (SetPagingDRX (conf_PagingDRX c) (links g))));
  on_heap (NewGnBAmf gnb (conf_AmfIp c) (conf_AmfPort c)).

(** What the start sends on [synch]; [running] is the time until the signal. *)
Definition InitGnbForUeLatency (c : GnbConfig) (gnb : Z) (running : Gn unit) : Gn (list bool) :=
  amf ← gnb_context c gnb (λ g, SetLinkPort (conf_LinkPort c) (SetLinkType (conf_LinkType c) g));
  ok ← InitConn amf gnb;
  if negb ok then mret [false] else
  ok ← InitServer gnb;
  _ ← StartXnListener gnb;
  _ ← SendNgSetupRequest gnb amf;
  _ ← running;
  _ ← on_heap (Terminate gnb);
  mret ((if ok : bool then [] else [false]) ++ [true]).

(** Both wait for a second and count an AMF that is active then.  The result is
    the new monitor. *)
Definition InitGnbForLoadSeconds (c : GnbConfig) (gnb : Z) (sleep : Gn unit) (monitor : Monitor) : Gn Monitor :=
  amf ← gnb_context c gnb (λ g, g);
  ok ← InitConn amf gnb;
  if negb ok then mret monitor else
  _ ← SendNgSetupRequest gnb amf;
  _ ← sleep;
  a ← on_heap (get_amf amf);
  _ ← on_heap (Terminate gnb);
  mret (if amfState a =? 0x01 then IncRqs monitor else monitor).
Definition InitGnbForAvaibility (c : GnbConfig) (gnb : Z) (sleep : Gn unit) (monitor : Monitor) : Gn Monitor :=
  amf ← gnb_context c gnb (λ g, g);
  ok ← InitConn amf gnb;
  if negb ok then mret monitor else
  _ ← SendNgSetupRequest gnb amf;
  _ ← sleep;
  a ← on_heap (get_amf amf);
  _ ← on_heap (Terminate gnb);
  mret (if amfState a =? 0x01 then IncAvaibility monitor else monitor).

(** How a start of the fleet ends: an error of a call, the text for an NG Setup
    that failed within 400 ms, or no error. *)
Inductive fleet_end := CallFailed | SetupFailed (text : string) | Stopped.

Definition connection_lost (g : GNBContext) : bool := bool_decide (connLossChan g = Some false).
Definition setup_error (c : GnbConfig) (g : GNBContext) : string :=
  if negb (lastError g =? "")%string then lastError g else
  "gNB " +:+ conf_GnbId c +:+ " NG Setup failed: AMF (" +:+ conf_AmfIp c +:+ ":" +:+ dec (conf_AmfPort c) +:+
  ") disconnected or rejected NG Setup Request (PLMN: MCC " +:+ conf_Mcc c +:+ ", MNC " +:+ conf_Mnc c +:+ ", TAC " +:+ conf_Tac c +:+ ")".

(** [setup] is what happens in the first 400 ms, [running] until the context is
    cancelled or the connection lost. *)
Definition InitGnbFleet (c : GnbConfig) (gnb : Z) (gnbSocketPath : string) (setup running : Gn unit) : Gn fleet_end :=
  _ ← (if negb (gnbSocketPath =? "")%string then on_heap (set_gnb gnb (SetSocketPath gnbSocketPath)) else mret tt);
  amf ← gnb_context c gnb (λ g, SetLinkPort (conf_LinkPort c) (SetLinkType (conf_LinkType c) g));
  ok ← InitConn amf gnb;
  if negb ok then mret CallFailed else
  ok ← InitServer gnb;
  if negb ok then mret CallFailed else
  _ ← StartXnListener gnb;
  _ ← SendNgSetupRequest gnb amf;
  _ ← setup;
  g ← on_heap (get_gnb gnb);
  if connection_lost g then _ ← on_heap (Terminate gnb); mret (SetupFailed (setup_error c g)) else
  _ ← running;
  _ ← on_heap (Terminate gnb);
  mret Stopped.

(** What follows the start in the fleet. *)
Definition fleet_rest (c : GnbConfig) (gnb : Z) (setup running : Gn unit) : Gn fleet_end :=
  _ ← setup;
  g ← on_heap (get_gnb gnb);
  if connection_lost g then _ ← on_heap (Terminate gnb); mret (SetupFailed (setup_error c g)) else
  _ ← running;
  _ ← on_heap (Terminate gnb);
  mret Stopped.

(** Where InitGnb starts a gNB, so do the other starts with its links, to the
    same world. *)
Theorem starts_agree c gnb amf (w w' : world) : InitGnb c gnb w = Ret (Some amf, w') →
  (∀ setup running, InitGnbFleet c gnb "" setup running w = fleet_rest c gnb setup running w') ∧
  (∀ running, InitGnbForUeLatency c gnb running w = (_ ← running; _ ← on_heap (Terminate gnb); mret [true]) w').
Proof.
  unfold InitGnb, InitGnbFleet, InitGnbForUeLatency, gnb_context, mbind, St_bind, mret, St_ret. change ("" =? "")%string with true. cbn [negb].
  destruct (on_heap (NewRanGnbContext _ _ _ _ _ _ _ _ _ _ _) w) as [[[] w1]| |]; [|done..].
  destruct (on_heap (set_gnb _ _) w1) as [[[] w2]| |]; [|done..]. destruct (on_heap (NewGnBAmf _ _ _) w2) as [[a w3]| |]; [|done..].
  destruct (InitConn a gnb w3) as [[[] w4]| |]; [|intros E; discriminate E|done..]. cbn [negb].
  destruct (InitServer gnb w4) as [[[] w5]| |]; [|intros E; discriminate E|done..]. cbn [negb].
  destruct (StartXnListener gnb w5) as [[? w6]| |]; [|done..]. destruct (SendNgSetupRequest gnb a w6) as [[[] w7]| |]; [|done..].
  intros [= <- <-]. split; intros; reflexivity.
Qed.
End Starts.

(** ** templates/test-amf-requests-per-second.go *)

Definition gnbIdGenerator (i : Z) : string :=
  (if i <? 10 then "00000" else if i <? 100 then "0000" else "000") +:+ dec i.

(** The identifiers of up to 999 gNBs are those of different gNBs; from the
    thousandth on there is a digit too many, and ten gNBs in a row announce
    themselves with the identifier of another one. *)
Theorem generated_ids :
  NoDup ((λ i, DecodeString (gnbIdGenerator i)) <$> seqZ 1 999) ∧ Forall (λ i, slen (gnbIdGenerator i) = 6) (seqZ 1 999) ∧
  Forall (λ i, slen (gnbIdGenerator i) = 7 ∧ DecodeString (gnbIdGenerator i) = DecodeString (gnbIdGenerator (i / 10))) (seqZ 1000 100).
Proof.
  split; [|split]; refine (bool_decide_unpack _ _); vm_compute; exact I.
Qed.
