(* ===== verification/Config.v ===== *)
(** * config/config.go

    The configuration, the order in which its file is looked for, and
    [Validate], with what it accepts stated field by field.  Reading a file and
    parsing its YAML belong to the system and to gopkg.in/yaml.v2: one function
    from a path to a configuration or an error. *)

From Stdlib Require Import Ascii.
From S2P Require Import Prelude GoStrings UeContext GnbContext Ngap GnbNas.

#[local] Open Scope Z_scope.
#[local] Open Scope go_scope.

(** ** Config *)

Record Interface := MkInterface { Ip : string; Port : Z }.
Record PlmnList := MkPlmnList { plmn_Mcc : string; plmn_Mnc : string; plmn_Tac : string; plmn_GnbId : string }.
Record SliceSupportList := MkSliceList { list_Sst : string; list_Sd : string }.
Record HplmnConfig := MkHplmn { hplmn_Mcc : string; hplmn_Mnc : string }.
Record SnssaiConfig := MkSnssai { snssai_Sst : Z; snssai_Sd : string }.

Record GNodeBConfig := MkGNodeB {
  ControlIF : Interface; DataIF : Interface; gnb_PlmnList : PlmnList; gnb_SliceSupportList : SliceSupportList;
  gnb_LinkType : string; gnb_LinkPort : Z; gnb_PagingDRX : string; gnb_CellId : Z }.
Record UeConfig := MkUeConfig {
  ue_Msin : string; ue_Key : string; ue_Opc : string; ue_Amf : string; ue_Sqn : string; ue_Dnn : string;
  ue_PduSessionType : string; ue_RegistrationType : string; ue_Hplmn : HplmnConfig; ue_Snssai : SnssaiConfig;
  ue_PduSessions : list PDUSessionConfig }.
Record Config := MkConfig { GNodeB : GNodeBConfig; Ue : UeConfig; AMF : Interface; LogLevel : Z }.

Definition no_config : Config :=
  let none := MkInterface "" 0 in
  MkConfig (MkGNodeB none none (MkPlmnList "" "" "" "") (MkSliceList "" "") "" 0 "" 0)
    (MkUeConfig "" "" "" "" "" "" "" "" (MkHplmn "" "") (MkSnssai 0 "") []) none 0.

(** The package variables [Data] and [ActiveRelease]. *)
Record Package := MkPackage { Data : Config; ActiveRelease : string }.
Definition initial_package : Package := MkPackage no_config "15".
Definition GetActiveRelease (p : Package) : string := ActiveRelease p.
Definition SetActiveRelease (rel : string) (p : Package) : Package := MkPackage (Data p) rel.
Definition GetConfig (p : Package) : Config := Data p.

Section Loading.
(** The file at a path, parsed; the directory of the sources when it is known. *)
Context (file : string → Config + string) (source_dir : option string).

Definition LoadConfig (path : string) (p : Package) : option string * Package :=
  match file path with
  | inl cfg => (None, MkPackage cfg (ActiveRelease p))
  | inr err => (Some err, p)
  end.
Definition DefaultInit (p : Package) : option string * Package :=
  match LoadConfig "config/config.yml" p with
  | (None, p) => (None, p)
  | (Some _, p) =>
    match LoadConfig "config.yml" p with
    | (None, p) => (None, p)
    | (Some err, p) =>
      match source_dir with Some dir => LoadConfig (dir +:+ "/config/config.yml") p | None => (Some err, p) end
    end
  end.
End Loading.

(** ** Validate *)

(** [^[0-9]{lo,hi}$] *)
Definition digits_between (lo hi : Z) (s : string) : bool :=
  forallb is_digit (String.list_ascii_of_string s) && (lo <=? slen s) && (slen s <=? hi).
Definition is_hex (s : string) : bool := negb (snd (hex_decode s)).
Definition port_ok (p : Z) : bool := (0 <? p) && (p <=? 65535).
Definition sst_ok (sst : Z) : bool := (0 <=? sst) && (sst <=? 255).
Definition nonnil {A} (l : list A) : bool := match l with [] => false | _ => true end.

(** The first check that does not hold gives the error. *)
Fixpoint first_error (checks : list (bool * string)) : option string :=
  match checks with
  | [] => None
  | (ok, err) :: checks => if ok : bool then first_error checks else Some err
  end.

Definition check (ok : bool) (err : string) : bool * string := (ok, err).
Definition sd_checks (who : string) (sd : string) : list (bool * string) :=
  if (sd =? "")%string then [] else
  [check (slen sd =? 6) (who +:+ "SD must be exactly 6 hex characters (or empty)"); check (is_hex sd) (who +:+ "SD must be a valid hex string")].

Definition session_checks (s : PDUSessionConfig) : list (bool * string) :=
  let who := "PDU Session " +:+ dec (c_Id s) +:+ " " in
  [check ((2 <=? c_Id s) && (c_Id s <=? 15)) ("Secondary PDU Session ID " +:+ dec (c_Id s) +:+ " must be between 2 and 15");
   check (sst_ok (c_Sst s)) (who +:+ "SST must be between 0 and 255")] ++ sd_checks who (c_Sd s).

Section Validate.
Context `{Host}.

Definition checks (c : Config) : list (bool * string) :=
  let g := GNodeB c in let u := Ue c in
  [check (digits_between 3 3 (plmn_Mcc (gnb_PlmnList g))) ("GNodeB PLMN MCC must be exactly 3 digits");
   check (digits_between 2 3 (plmn_Mnc (gnb_PlmnList g))) ("GNodeB PLMN MNC must be 2 or 3 digits");
   check (digits_between 3 3 (hplmn_Mcc (ue_Hplmn u))) ("UE HPLMN MCC must be exactly 3 digits");
   check (digits_between 2 3 (hplmn_Mnc (ue_Hplmn u))) ("UE HPLMN MNC must be 2 or 3 digits");
   check (slen (ue_Key u) =? 32) ("UE Key must be exactly 32 hex characters (128-bit)");
   check (is_hex (ue_Key u)) ("UE Key must be a valid hex string");
   check (slen (ue_Opc u) =? 32) ("UE OPc must be exactly 32 hex characters (128-bit)");
   check (is_hex (ue_Opc u)) ("UE OPc must be a valid hex string");
   check (slen (ue_Amf u) =? 4) ("UE AMF field must be exactly 4 hex characters");
   check (is_hex (ue_Amf u)) ("UE AMF must be a valid hex string");
   check (slen (ue_Sqn u) =? 12) ("UE SQN field must be exactly 12 hex characters");
   check (is_hex (ue_Sqn u)) ("UE SQN must be a valid hex string");
   check (digits_between 8 10 (ue_Msin u)) ("UE MSIN must be between 8 and 10 numeric digits");
   check (nonnil (ParseIP (Ip (ControlIF g)))) ("GNodeB Control IP '" +:+ Ip (ControlIF g) +:+ "' is invalid");
   check (nonnil (ParseIP (Ip (DataIF g)))) ("GNodeB Data IP '" +:+ Ip (DataIF g) +:+ "' is invalid");
   check (nonnil (ParseIP (Ip (AMF c)))) ("AMF IP '" +:+ Ip (AMF c) +:+ "' is invalid");
   check (port_ok (Port (ControlIF g))) ("GNodeB Control Port must be between 1 and 65535");
   check (port_ok (Port (DataIF g))) ("GNodeB Data Port must be between 1 and 65535");
   check (port_ok (gnb_LinkPort g)) ("GNodeB Link Port must be between 1 and 65535");
   check (port_ok (Port (AMF c))) ("AMF Port must be between 1 and 65535");
   check (sst_ok (snssai_Sst (ue_Snssai u))) ("UE Slice SST must be between 0 and 255")]
  ++ sd_checks "UE Slice " (snssai_Sd (ue_Snssai u)) ++ flat_map session_checks (ue_PduSessions u).

(** No error is [None]. *)
Definition Validate (c : Config) : option string := first_error (checks c).
End Validate.
