(* ===== verification/UeStart.v ===== *)
(** * ue/ue.go: the start of a UE and its hand-overs

    A UE made from the configuration and registered, up to its wait for a
    signal, and [TriggerHandover] with the frames it sends to the source and the
    target gNB.  Goroutines, sleeping, logging and packet capture are left out;
    of the error texts it is kept whether there is one. *)

From Stdlib Require Import Ascii.
From S2P Require Import Prelude Monitoring GoStrings Ngap Chaos UeContext UeNas Config.

#[local] Open Scope Z_scope.
#[local] Open Scope go_scope.

(** ** The UE of a configuration *)

Definition registration_type (s : string) : Z :=
  if (s =? "mobility")%string then 2 else if (s =? "periodic")%string then 3 else if (s =? "emergency")%string then 4 else 1.

(** With NEA0, NIA2 and the operator code of the test network. *)
Definition new_ue (conf : Config) (id : Z) : outcome UEContext :=
  let g := GNodeB conf in let u := Ue conf in
  ue ← NewRanUeContext (ue_Msin u) 0 2 (ue_Key u) (ue_Opc u) "c9e8763286b5b9ffbdf56e1297d0887b" (ue_Amf u) (ue_Sqn u)
    (hplmn_Mcc (ue_Hplmn u)) (hplmn_Mnc (ue_Hplmn u)) (ue_Dnn u) (ue_PduSessionType u) (s32 (snssai_Sst (ue_Snssai u)))
    (snssai_Sd (ue_Snssai u)) id (ue_PduSessions u)
    (UeContext.SetGnbControlIp (Ip (ControlIF g)) (UeContext.SetGnbLinkPort (gnb_LinkPort g) (UeContext.SetGnbLinkType (gnb_LinkType g) blank_ue)));
  Ret (SetRegistrationType (registration_type (ue_RegistrationType u)) ue).

(** ** Numbers *)

(** [strconv.ParseInt(s, base, 64)] for bases 10 and 16, [None] with an error. *)
Fixpoint digits_val (base acc : Z) (s : string) : option Z :=
  match s with
  | EmptyString => Some acc
  | String c s => match hex_val c with Some d => if d <? base then digits_val base (acc * base + d) s else None | None => None end
  end.
Definition ParseInt (base : Z) (s : string) : option Z :=
  let '(sign, ds) := match s with String "+" s => (1, s) | String "-" s => (-1, s) | _ => (1, s) end%char in
  match ds with
  | EmptyString => None
  | _ => v ← digits_val base 0 ds; if (- 2 ^ 63 <=? sign * v) && (sign * v <? 2 ^ 63) then Some (sign * v) else None
  end.

(** The number of the target: its identifier as a decimal number, or else as a
    hexadecimal one, or else 2. *)
Definition target_number (targetGnbId : string) : Z :=
  if (targetGnbId =? "")%string then 2 else
  match ParseInt 10 targetGnbId with Some v => v | None => match ParseInt 16 targetGnbId with Some v => v | None => 2 end end.

(** ** Frames *)

Definition n2_trigger (ue : UEContext) (pid : Z) (targetGnbId : string) : list Z :=
  let mnc := string_bytes (UeContext.mnc (UeSecurity ue)) in
  let mnc := if blen mnc <? 3 then mnc ++ [0x00] else mnc in
  [0x00; 0x02] ++ be_bytes 8 (u64 (AmfUeNgapId ue)) ++ [pid] ++ gocopy [0; 0; 0] (string_bytes (UeContext.mcc (UeSecurity ue))) ++
  gocopy [0; 0; 0] mnc ++ [0x00; 0x00; 0x01] ++ be_bytes 8 (u64 (target_number targetGnbId)).

Definition xn_trigger `{Host} (ue : UEContext) (pid : Z) (ip : string) (port : Z) : list Z :=
  let targetIp := match To4 (ParseIP ip) with [] => [127; 0; 0; 1] | ip => ip end in
  [0x00; 0x06] ++ gocopy [0; 0; 0; 0] targetIp ++ be_bytes 2 (u16 port) ++ be_bytes 8 (u64 (AmfUeNgapId ue)) ++ [pid].

Definition path_switch_trigger (ue : UEContext) (pid : Z) : list Z := [0x00; 0x03] ++ be_bytes 8 (u64 (AmfUeNgapId ue)) ++ [pid].

Section Start.
Context {G : Type} `{Rand G} `{Host}.
Context (range : gmap Z PDUSession → list (Z * PDUSession)).
(** The connection an address gives at an attempt, and whether a frame can be
    written to a connection. *)
Context (dial : string → nat → option Z) (writes : Z → list Z → bool).

#[local] Abbreviation M := (UeNas.M (G:=G)).
#[local] Existing Instance M_ret.
#[local] Existing Instance M_bind.

Definition RegistrationUe (conf : Config) (id : Z) : M unit := λ w,
  ue ← new_ue conf id;
  (ok ← InitConn dial; if ok : bool then InitRegistration else mret tt) (with_ue ue w).

(** For the latency test: [polling] is what happens until the loop that looks at
    the state ends, with the time since [start] then.  The result is the new
    monitor, and whether the wait group was told the end. *)
Definition RegistrationUeMonitor (conf : Config) (id : Z) (polling : M Z) (monitor : Monitor) : M (Monitor * bool) := λ w,
  ue ← new_ue conf id;
  (ok ← InitConn dial;
   if negb ok then mret (monitor, false) else
   _ ← InitRegistration;
   elapsed ← polling;
   state ← get StateMM;
   _ ← terminate range;
   mret (if state =? 0x03 then SetLtRegisterLocal elapsed monitor else monitor, true)) (with_ue ue w).

(** The first session the iteration meets, or 1. *)
Definition first_session (ue : UEContext) : Z := match range (PduSessions ue) with (id, _) :: _ => id | [] => 1 end.

(** [conn.Write]; the result says whether there was no error. *)
Definition write (conn : Z) (frame : list Z) : M bool :=
  if writes conn frame then _ ← emit [Sent conn frame]; mret true else mret false.

Definition set_target (ip : string) (port : Z) (linkType socketPath gnbId name : string) (ue : UEContext) : UEContext :=
  let ue := UeContext.SetGnbControlIp ip (UeContext.SetGnbLinkPort port (UeContext.SetGnbLinkType linkType ue)) in
  let ue := if (linkType =? "unix")%string then UeContext.SetGnbSocketPath socketPath ue else ue in
  let ue := if negb (gnbId =? "")%string then UeContext.SetGnbId gnbId ue else ue in
  if negb (name =? "")%string then UeContext.SetGnbProfileName name ue else ue.

(** TCP once, a UNIX socket up to ten times. *)
Definition dial_new (ip : string) (port : Z) (linkType socketPath : string) : option Z :=
  if (linkType =? "tcp")%string then dial (ip +:+ ":" +:+ dec port) 0
  else
    let path := if (socketPath =? "")%string then "/tmp/gnb.sock"%string else socketPath in
    foldr (λ i r, match dial path i with Some c => Some c | None => r end) None (seq 0 10).

(** Whether it returned no error. *)
Definition TriggerHandover (ip : string) (port : Z) (linkType socketPath : string) (isXn : bool) (gnbId name : string) : M bool :=
  ue ← get (λ ue, ue);
  if negb isXn then
    match UnixConn ue with
    | None => mret false
    | Some oldConn =>
      _ ← modify (set_target ip port linkType socketPath gnbId name);
      ue ← get (λ ue, ue);
      write oldConn (n2_trigger ue (first_session ue) gnbId)
    end
  else
    _ ← (match UnixConn ue with
         | Some oldConn => _ ← write oldConn (xn_trigger ue (first_session ue) ip port); emit [Undone (CloseConn oldConn)]
         | None => mret tt
         end);
    match dial_new ip port linkType socketPath with
    | None => mret false
    | Some conn =>
      _ ← modify (λ ue, set_target ip port linkType socketPath gnbId name (UeContext.SetUnixConn (Some conn) ue));
      ue ← get (λ ue, ue);
      write conn (path_switch_trigger ue (first_session ue))
    end.
End Start.
