(* ===== verification/Fleet.v ===== *)
(** * config/fleet.go

    The saved profiles of UEs, gNBs, AMFs, slices and credentials.  The five
    kinds have the same operations in the code, a copy each; here they are one
    set of operations on a kind of profile with a name and a check.  The file is
    part of the state; its JSON belongs to encoding/json. *)

From S2P Require Import Prelude GoStrings UeContext GnbContext Ngap GnbNas Config.

#[local] Open Scope Z_scope.
#[local] Open Scope go_scope.

(** ** Profiles *)

Record UEProfile := MkUEProfile {
  up_Name : string; up_Msin : string; up_Key : string; up_Opc : string; up_Amf : string; up_Sqn : string; up_Dnn : string;
  up_PduSessionType : string; up_RegistrationType : string; up_Hplmn : HplmnConfig; up_Snssai : SnssaiConfig;
  up_PduSessions : option (list PDUSessionConfig) }.
Record GNBProfile := MkGNBProfile {
  gp_Name : string; gp_GnbId : string; gp_Mcc : string; gp_Mnc : string; gp_Tac : string; gp_SliceSst : string; gp_SliceSd : string;
  gp_ControlIp : string; gp_ControlPort : Z; gp_DataIp : string; gp_DataPort : Z; gp_LinkType : string; gp_LinkPort : Z;
  gp_AmfIp : string; gp_AmfPort : Z }.
Record AMFProfile := MkAMFProfile { ap_Name : string; ap_Ip : string; ap_Port : Z; ap_Mcc : string; ap_Mnc : string; ap_Description : string }.
Record SliceProfile := MkSliceProfile { sp_Name : string; sp_Sst : Z; sp_Sd : string; sp_Category : string; sp_Description : string }.
Record SecurityProfile := MkSecurityProfile {
  cp_Name : string; cp_Key : string; cp_Opc : string; cp_Amf : string; cp_Sqn : string; cp_Description : string }.

(** A slice that may be nil. *)
Record FleetConfig := MkFleet {
  UEProfiles : option (list UEProfile); GNBProfiles : option (list GNBProfile); AMFProfiles : option (list AMFProfile);
  SliceProfiles : option (list SliceProfile); SecurityProfiles : option (list SecurityProfile) }.

Definition getDefaultAMFProfiles : list AMFProfile :=
  [MkAMFProfile "Local Open5GS Core" "127.0.0.18" 38412 "208" "93" "Default local Open5GS 5G Core AMF";
   MkAMFProfile "Loopback AMF (127.0.0.1)" "127.0.0.1" 38412 "208" "93" "Standard loopback 5GC AMF"].
Definition getDefaultSliceProfiles : list SliceProfile :=
  [MkSliceProfile "eMBB General (SST:1, SD:010203)" 1 "010203" "eMBB" "Enhanced Mobile Broadband standard slice";
   MkSliceProfile "URLLC Ultra-Low Latency (SST:2, SD:112233)" 2 "112233" "URLLC" "Ultra-reliable low-latency communications";
   MkSliceProfile "MIoT Smart Metering (SST:3, SD:FFFFFF)" 3 "FFFFFF" "MIoT" "Massive Internet of Things slice";
   MkSliceProfile "IMS VoNR Voice (SST:1, SD:111111)" 1 "111111" "VoNR" "Dedicated Voice over NR IMS slice"].
Definition getDefaultSecurityProfiles : list SecurityProfile :=
  [MkSecurityProfile "Standard 3GPP Test Keys" "465B5CE8B2E8863F638D4F72EC869C96" "E8ED289DEBA952E4283B54E88E6183CA" "8000" "000000000020"
     "Default 5G AKA authentication credentials"].

(** A kind of profile: its list in the fleet, its name, what is asked of it
    before it is stored, and the text of the error for an unknown name. *)
Class Kind (A : Type) := {
  profiles : FleetConfig → option (list A);
  with_profiles : option (list A) → FleetConfig → FleetConfig;
  Name : A → string;
  accepted : A → option string;
  kind_name : string;
}.
Definition named (kind name : string) : option string := if (name =? "")%string then Some (kind +:+ " profile name cannot be empty") else None.

#[export] Instance ue_kind : Kind UEProfile :=
  {| profiles := UEProfiles; with_profiles := λ l f, MkFleet l (GNBProfiles f) (AMFProfiles f) (SliceProfiles f) (SecurityProfiles f);
     Name := up_Name; accepted := λ p, named "UE" (up_Name p); kind_name := "UE" |}.
#[export] Instance gnb_kind : Kind GNBProfile :=
  {| profiles := GNBProfiles; with_profiles := λ l f, MkFleet (UEProfiles f) l (AMFProfiles f) (SliceProfiles f) (SecurityProfiles f);
     Name := gp_Name; accepted := λ p, named "gNB" (gp_Name p); kind_name := "gNB" |}.
#[export] Instance amf_kind : Kind AMFProfile :=
  {| profiles := AMFProfiles; with_profiles := λ l f, MkFleet (UEProfiles f) (GNBProfiles f) l (SliceProfiles f) (SecurityProfiles f);
     Name := ap_Name;
     accepted := λ p, match named "AMF" (ap_Name p) with
       | Some err => Some err
       | None => if (ap_Ip p =? "")%string || negb (port_ok (ap_Port p)) then Some "invalid AMF IP or Port" else None end;
     kind_name := "AMF" |}.
#[export] Instance slice_kind : Kind SliceProfile :=
  {| profiles := SliceProfiles; with_profiles := λ l f, MkFleet (UEProfiles f) (GNBProfiles f) (AMFProfiles f) l (SecurityProfiles f);
     Name := sp_Name; accepted := λ p, named "Slice" (sp_Name p); kind_name := "Slice" |}.
#[export] Instance security_kind : Kind SecurityProfile :=
  {| profiles := SecurityProfiles; with_profiles := λ l f, MkFleet (UEProfiles f) (GNBProfiles f) (AMFProfiles f) (SliceProfiles f) l;
     Name := cp_Name; accepted := λ p, named "Security" (cp_Name p); kind_name := "Security" |}.

(** encoding/json, and whether the file can be read and written. *)
Class Json := {
  MarshalIndent : FleetConfig → string + string;
  Unmarshal : string → FleetConfig + string;
  read_error : option string;
  write_error : option string;
}.

(** The package variable and the file. *)
Record fleet := MkFleetState { fleetData : FleetConfig; file : option string }.

Section Operations.
Context `{Json}.

(** A result, an error ([None] for nil) and the state. *)
Definition saveFleetLocked (s : fleet) : option string * fleet :=
  match MarshalIndent (fleetData s) with
  | inr err => (Some ("failed to marshal fleet config: " +:+ err), s)
  | inl data =>
    match write_error with
    | Some err => (Some ("failed to write fleet config: " +:+ err), s)
    | None => (None, MkFleetState (fleetData s) (Some data))
    end
  end.
Definition store (f : FleetConfig) (s : fleet) : option string * fleet := saveFleetLocked (MkFleetState f (file s)).

Definition filled {A} (l : option (list A)) : list A := default [] l.
(** Nil or empty lists are replaced. *)
Definition or_default {A} (d : list A) (l : option (list A)) : option (list A) :=
  match filled l with [] => Some d | l => Some l end.

Definition LoadFleet (s : fleet) : option string * fleet :=
  match read_error with
  | Some err => (Some ("failed to read fleet config: " +:+ err), s)
  | None =>
    match file s with
    | None => store (MkFleet (Some []) (Some []) (Some getDefaultAMFProfiles) (Some getDefaultSliceProfiles) (Some getDefaultSecurityProfiles)) s
    | Some data =>
      match Unmarshal data with
      | inr err => (Some ("failed to parse fleet config: " +:+ err), s)
      | inl fc =>
        (None, MkFleetState (MkFleet (Some (filled (UEProfiles fc))) (Some (filled (GNBProfiles fc)))
          (or_default getDefaultAMFProfiles (AMFProfiles fc)) (or_default getDefaultSliceProfiles (SliceProfiles fc))
          (or_default getDefaultSecurityProfiles (SecurityProfiles fc))) (file s))
      end
    end
  end.

(** Copies of the lists, empty where they were nil. *)
Definition GetFleet (s : fleet) : FleetConfig :=
  let f := fleetData s in
  MkFleet (Some (filled (UEProfiles f))) (Some (filled (GNBProfiles f))) (Some (filled (AMFProfiles f)))
    (Some (filled (SliceProfiles f))) (Some (filled (SecurityProfiles f))).

Section Profiles.
Context `{Kind A}.

(** The loop over the list: the first of that name, by index. *)
Fixpoint find_name (name : string) (l : list A) : option nat :=
  match l with
  | [] => None
  | p :: l => if (Name p =? name)%string then Some O else S <$> find_name name l
  end.

Definition Upsert (p : A) (s : fleet) : option string * fleet :=
  match accepted p with
  | Some err => (Some err, s)
  | None =>
    let l := filled (profiles (fleetData s)) in
    let l := match find_name (Name p) l with Some i => <[i := p]> l | None => l ++ [p] end in
    store (with_profiles (Some l) (fleetData s)) s
  end.
Definition Delete (name : string) (s : fleet) : option string * fleet :=
  let l := filled (profiles (fleetData s)) in
  match find_name name l with
  | Some i => store (with_profiles (Some (take i l ++ drop (S i) l)) (fleetData s)) s
  | None => (Some (kind_name +:+ " profile '" +:+ name +:+ "' not found"), s)
  end.
Definition GetProfile (name : string) (s : fleet) : option A :=
  let l := filled (profiles (fleetData s)) in i ← find_name name l; l !! i.
End Profiles.

Definition UpsertUEProfile : UEProfile → fleet → option string * fleet := Upsert.
Definition DeleteUEProfile : string → fleet → option string * fleet := Delete (A:=UEProfile).
Definition GetUEProfile : string → fleet → option UEProfile := GetProfile.
Definition UpsertGNBProfile : GNBProfile → fleet → option string * fleet := Upsert.
Definition DeleteGNBProfile : string → fleet → option string * fleet := Delete (A:=GNBProfile).
Definition GetGNBProfile : string → fleet → option GNBProfile := GetProfile.
Definition UpsertAMFProfile : AMFProfile → fleet → option string * fleet := Upsert.
Definition DeleteAMFProfile : string → fleet → option string * fleet := Delete (A:=AMFProfile).
Definition UpsertSliceProfile : SliceProfile → fleet → option string * fleet := Upsert.
Definition DeleteSliceProfile : string → fleet → option string * fleet := Delete (A:=SliceProfile).
Definition UpsertSecurityProfile : SecurityProfile → fleet → option string * fleet := Upsert.
Definition DeleteSecurityProfile : string → fleet → option string * fleet := Delete (A:=SecurityProfile).

(** What is not nil replaces the list of its kind. *)
Definition or_keep {A} (new old : option (list A)) : option (list A) := match new with Some _ => new | None => old end.
Definition ImportFleet (fc : FleetConfig) (s : fleet) : option string * fleet :=
  let f := fleetData s in
  store (MkFleet (or_keep (UEProfiles fc) (UEProfiles f)) (or_keep (GNBProfiles fc) (GNBProfiles f))
    (or_keep (AMFProfiles fc) (AMFProfiles f)) (or_keep (SliceProfiles fc) (SliceProfiles f))
    (or_keep (SecurityProfiles fc) (SecurityProfiles f))) s.
End Operations.

(** ** From a profile to a configuration *)

Definition BuildConfigFromGNBProfile (base : Config) (p : GNBProfile) : Config :=
  let g := GNodeB base in
  MkConfig
    (MkGNodeB (MkInterface (gp_ControlIp p) (gp_ControlPort p)) (MkInterface (gp_DataIp p) (gp_DataPort p))
      (MkPlmnList (gp_Mcc p) (gp_Mnc p) (gp_Tac p) (gp_GnbId p)) (MkSliceList (gp_SliceSst p) (gp_SliceSd p))
      (gp_LinkType p) (gp_LinkPort p) (gnb_PagingDRX g) (gnb_CellId g))
    (Ue base)
    (MkInterface (if (gp_AmfIp p =? "")%string then Ip (AMF base) else gp_AmfIp p) (if gp_AmfPort p =? 0 then Port (AMF base) else gp_AmfPort p))
    (LogLevel base).

Definition or_base (s base : string) : string := if (s =? "")%string then base else s.
Definition BuildConfigFromUEProfile (base : Config) (p : UEProfile) : Config :=
  let u := Ue base in
  MkConfig (GNodeB base)
    (MkUeConfig (up_Msin p) (up_Key p) (up_Opc p) (up_Amf p) (up_Sqn p) (up_Dnn p) (or_base (up_PduSessionType p) (ue_PduSessionType u))
      (or_base (up_RegistrationType p) (ue_RegistrationType u)) (up_Hplmn p) (up_Snssai p) (default (ue_PduSessions u) (up_PduSessions p)))
    (AMF base) (LogLevel base).

Definition ValidateUEProfile `{Host} (base : Config) (p : UEProfile) : option string :=
  if (up_Name p =? "")%string then Some "profile name is required"%string else Validate (BuildConfigFromUEProfile base p).
Definition ValidateGNBProfile (p : GNBProfile) : option string :=
  first_error
    [check (negb (gp_Name p =? "")%string) "profile name is required"; check (negb (gp_GnbId p =? "")%string) "gNB ID is required";
     check (negb (gp_ControlIp p =? "")%string) "control IP is required"; check (port_ok (gp_ControlPort p)) "control port must be 1-65535";
     check (port_ok (gp_LinkPort p)) "link port must be 1-65535"; check (negb (gp_AmfIp p =? "")%string) "AMF IP is required";
     check (port_ok (gp_AmfPort p)) "AMF port must be 1-65535"].

(** ** Each kind is a map from names to profiles *)

Class LawfulKind A `{Kind A} := {
  profiles_set l f : profiles (with_profiles l f) = l;
  accepted_named p : accepted p = None → Name p ≠ ""%string;
}.
Lemma named_accepts kind name : named kind name = None → name ≠ ""%string.
Proof. unfold named. by destruct (String.eqb_spec name ""). Qed.
#[export] Instance ue_lawful : LawfulKind UEProfile.
Proof. split; [done|]. intros p. apply named_accepts. Qed.
#[export] Instance gnb_lawful : LawfulKind GNBProfile.
Proof. split; [done|]. intros p. apply named_accepts. Qed.
#[export] Instance slice_lawful : LawfulKind SliceProfile.
Proof. split; [done|]. intros p. apply named_accepts. Qed.
#[export] Instance security_lawful : LawfulKind SecurityProfile.
Proof. split; [done|]. intros p. apply named_accepts. Qed.
#[export] Instance amf_lawful : LawfulKind AMFProfile.
Proof.
  split; [done|]. intros p. cbn [accepted Name amf_kind]. destruct (named "AMF" (ap_Name p)) eqn:E; [done|]. intros _. by eapply named_accepts.
Qed.

Section Refinement.
Context `{Json} `{LawfulKind A}.

Definition stored (s : fleet) : list A := filled (profiles (fleetData s)).
(** The specification: of two profiles with a name, the first. *)
Definition entries (l : list A) : gmap string A := list_to_map ((λ p, (Name p, p)) <$> l).
Definition unique (l : list A) : Prop := NoDup (Name <$> l).

Lemma find_name_spec name l :
  match find_name name l with
  | Some i => ∃ p, l !! i = Some p ∧ Name p = name ∧ Forall (λ q, Name q ≠ name) (take i l)
  | None => Forall (λ q, Name q ≠ name) l
  end.
Proof.
  induction l as [|p l IH]; cbn; [constructor|]. destruct (String.eqb_spec (Name p) name) as [E|E]; [by exists p|].
  destruct (find_name name l) as [i|]; cbn in *; [|by constructor]. destruct IH as (q&Hq&Hn&Hf). exists q. split; [done|]. split; [done|]. by constructor.
Qed.
Lemma entries_app_other l l' name : Forall (λ q, Name q ≠ name) l → entries (l ++ l') !! name = entries l' !! name.
Proof.
  unfold entries. induction 1 as [|p l Hp _ IH]; [done|]. cbn. by rewrite lookup_insert_ne.
Qed.
Lemma entries_absent l name : Forall (λ q, Name q ≠ name) l → entries l !! name = None.
Proof. intros Hl. rewrite <-(app_nil_r l). by rewrite entries_app_other. Qed.
Lemma entries_find name l : entries l !! name = (i ← find_name name l; l !! i).
Proof.
  pose proof (find_name_spec name l) as Hs. destruct (find_name name l) as [i|]; cbn [mbind option_bind].
  - destruct Hs as (p&Hp&Hn&Hf). rewrite <-(take_drop_middle l i p Hp), entries_app_other by done.
    rewrite take_drop_middle by done. rewrite Hp. unfold entries. cbn. rewrite Hn. by rewrite lookup_insert_eq.
  - by apply entries_absent.
Qed.
Lemma entries_app l l' : entries (l ++ l') = entries l ∪ entries l'.
Proof. unfold entries. by rewrite fmap_app, list_to_map_app. Qed.

Lemma entries_upsert l p :
  entries (match find_name (Name p) l with Some i => <[i := p]> l | None => l ++ [p] end) = <[Name p := p]> (entries l).
Proof.
  pose proof (find_name_spec (Name p) l) as Hs. apply map_eq. intros name. destruct (find_name (Name p) l) as [i|].
  - destruct Hs as (q&Hq&Hn&Hf). assert (l = take i l ++ q :: drop (S i) l) as El by by rewrite take_drop_middle.
    assert (<[i := p]> l = take i l ++ p :: drop (S i) l) as -> by (apply insert_take_drop; by eapply lookup_lt_Some).
    rewrite El at 3. destruct (decide (name = Name p)) as [->|Hne].
    + rewrite lookup_insert_eq, entries_app_other by done. unfold entries. cbn. by rewrite lookup_insert_eq.
    + rewrite lookup_insert_ne by done. rewrite !entries_app. change (entries (p :: ?l)) with (<[Name p := p]> (entries l)).
      change (entries (q :: ?l)) with (<[Name q := q]> (entries l)). rewrite !lookup_union, Hn, !lookup_insert_ne by done. done.
  - rewrite entries_app. destruct (decide (name = Name p)) as [->|Hne].
    + rewrite lookup_insert_eq, lookup_union_r by by apply entries_absent. unfold entries. cbn. by rewrite lookup_insert_eq.
    + rewrite lookup_insert_ne by done. rewrite lookup_union_l; [done|]. unfold entries. cbn. by rewrite lookup_insert_ne.
Qed.

Lemma unique_upsert l p : unique l → unique (match find_name (Name p) l with Some i => <[i := p]> l | None => l ++ [p] end).
Proof.
  intros Hu. pose proof (find_name_spec (Name p) l) as Hs. unfold unique in *. destruct (find_name (Name p) l) as [i|].
  - destruct Hs as (q&Hq&Hn&_). rewrite list_fmap_insert, list_insert_id; [done|]. rewrite list_lookup_fmap, Hq. cbn. by rewrite Hn.
  - rewrite fmap_app. apply NoDup_app. split; [done|]. split; [|apply NoDup_singleton].
    intros x (q&->&Hq)%list_elem_of_fmap E%list_elem_of_singleton. eapply Forall_forall in Hs; [|exact Hq]. done.
Qed.
Lemma entries_delete l name i : unique l → find_name name l = Some i →
  entries (take i l ++ drop (S i) l) = delete name (entries l) ∧ unique (take i l ++ drop (S i) l).
Proof.
  intros Hu Ei. pose proof (find_name_spec name l) as Hs. rewrite Ei in Hs. destruct Hs as (q&Hq&Hn&Hf).
  assert (l = take i l ++ q :: drop (S i) l) as El by by rewrite take_drop_middle. unfold unique in *.
  rewrite El, fmap_app in Hu. cbn [fmap list_fmap] in Hu. apply NoDup_app in Hu as (Hu1&Hu2&[Hu3 Hu4]%NoDup_cons).
  assert (Forall (λ p, Name p ≠ name) (drop (S i) l)) as Hd.
  { apply Forall_forall. intros p Hp E. apply Hu3. apply list_elem_of_fmap. exists p. split; [congruence|exact Hp]. }
  split.
  - apply map_eq. intros x. destruct (decide (x = name)) as [->|Hne].
    + rewrite lookup_delete_eq. apply entries_absent. by apply Forall_app.
    + rewrite lookup_delete_ne by done. rewrite El at 3. rewrite !entries_app. change (entries (q :: ?l)) with (<[Name q := q]> (entries l)).
      rewrite !lookup_union, Hn, lookup_insert_ne by done. done.
  - rewrite fmap_app. apply NoDup_app. split; [done|]. split; [|done]. intros x Hx Hx'. apply (Hu2 x Hx). by right.
Qed.

(** The fleet that is stored by an operation, whatever becomes of the file. *)
Lemma store_data f s : fleetData (store f s).2 = f.
Proof. unfold store, saveFleetLocked. cbn. destruct (MarshalIndent f); [|done]. by destruct write_error. Qed.

Lemma stored_store l s : stored (store (with_profiles (Some l) (fleetData s)) s).2 = l.
Proof. unfold stored. by rewrite store_data, profiles_set. Qed.

(** C23. Each kind of profile is a map from names to profiles: reading is lookup,
    storing an accepted profile is insertion and leaves one profile per name,
    and with one profile per name deleting is deletion, refused with an error
    exactly for a name that is not there. *)
Theorem fleet_refines_map (s : fleet) (p : A) (name : string) :
  GetProfile name s = entries (stored s) !! name ∧
  (accepted p = None → entries (stored (Upsert p s).2) = <[Name p := p]> (entries (stored s)) ∧
    (unique (stored s) → unique (stored (Upsert p s).2))) ∧
  (∀ err, accepted p = Some err → Upsert p s = (Some err, s)) ∧
  (unique (stored s) → entries (stored (Delete (A:=A) name s).2) = delete name (entries (stored s)) ∧
    unique (stored (Delete (A:=A) name s).2) ∧
    (entries (stored s) !! name = None → Delete (A:=A) name s = (Some (kind_name +:+ " profile '" +:+ name +:+ "' not found"), s))).
Proof.
  split; [symmetry; apply entries_find|]. split; [|split].
  - intros Ha. unfold Upsert. rewrite Ha. cbv zeta. rewrite !stored_store. split; [apply entries_upsert|apply unique_upsert].
  - intros err Ha. unfold Upsert. by rewrite Ha.
  - intros Hu. unfold Delete. change (filled (profiles (fleetData s))) with (stored s).
    pose proof (find_name_spec name (stored s)) as Hs. destruct (find_name name (stored s)) as [i|] eqn:Ei.
    + rewrite !stored_store. destruct (entries_delete _ _ _ Hu Ei) as [E1 E2]. split; [exact E1|]. split; [exact E2|]. intros En. exfalso.
      rewrite entries_find, Ei in En. destruct Hs as (q&Hq&_). cbn in En. by rewrite Hq in En.
    + split; [|done]. symmetry. apply delete_id. by apply entries_absent.
Qed.
End Refinement.

(** ** The file *)

Section Persistence.
Context `{Json} (round_trip : ∀ f data, MarshalIndent f = inl data → Unmarshal data = inl f) (readable : read_error = None).

(** No list is nil, and those that have defaults are not empty. *)
Definition complete (f : FleetConfig) : Prop :=
  UEProfiles f ≠ None ∧ GNBProfiles f ≠ None ∧ filled (AMFProfiles f) ≠ [] ∧ filled (SliceProfiles f) ≠ [] ∧ filled (SecurityProfiles f) ≠ [].
Lemma or_default_kept {A} (d : list A) l : filled l ≠ [] → or_default d l = l.
Proof. unfold or_default. destruct l as [[|x l]|]; done. Qed.

(** What was stored without an error is what the program starts with next time,
    when no list is empty whose defaults would come back. *)
Theorem fleet_persistent f s s' t : store f s = (None, s') → complete f → file t = file s' →
  LoadFleet t = (None, MkFleetState f (file s')).
Proof.
  intros Hs (Hu&Hg&Ha&Hl&Hc) Ht. unfold store, saveFleetLocked in Hs. cbn [fleetData file] in Hs.
  destruct (MarshalIndent f) as [data|] eqn:Em; [|done]. destruct write_error; [done|]. injection Hs as <-. cbn [file] in *.
  unfold LoadFleet. rewrite readable, Ht, (round_trip f data Em). do 2 f_equal. rewrite !or_default_kept by done.
  destruct f as [[?|] [?|] ? ? ?]; done.
Qed.
End Persistence.

Definition demo_json : Json := {| MarshalIndent := λ _, inl "{}"%string; Unmarshal := λ _, inr "no JSON"%string; read_error := None; write_error := None |}.
Definition demo_fleet : fleet := (@LoadFleet demo_json (MkFleetState (MkFleet None None None None None) None)).2.

Lemma fleet_refines_map_witness : let json := demo_json in
  let p := MkAMFProfile "Lab" "10.0.0.1" 38412 "208" "93" "" in let s' := (UpsertAMFProfile p demo_fleet).2 in
  entries (stored (A:=AMFProfile) s') = <["Lab"%string := p]> (entries (stored demo_fleet)) ∧
  entries (stored (A:=AMFProfile) (DeleteAMFProfile "Local Open5GS Core" demo_fleet).2) =
    delete "Local Open5GS Core"%string (entries (stored demo_fleet)).
Proof.
  intros json p s'. destruct (fleet_refines_map demo_fleet p "Local Open5GS Core") as (_&Hu&_&Hd). split.
  - exact (proj1 (Hu eq_refl)).
  - apply Hd. refine (bool_decide_unpack (NoDup (Name <$> stored (A:=AMFProfile) demo_fleet)) _). vm_compute. exact I.
Defined.
