(* ===== verification/Startup.v ===== *)
(** * From the configuration to the messages

    What a configuration that passes [Validate] gives: the UE's identity and
    the NG Setup Request of the gNB; and the frames with which a UE asks for
    a hand-over, as its gNB reads them. *)

From Stdlib Require Import Ascii.
From S2P Require Import Snow3g NasSecurity Prelude AperCodec NasMessage.
From S2P Require Import GoStrings Ngap NasConvert UeProps NasConvertProps UeContext UeNas Config UeStart.
From S2P Require Import GnbContext Chaos GnbNgap GnbNas GnbProps GnbWp GnbDemo GnbSession GnbInv GnbRelay GnbRelease GnbHandover.
From S2P Require Import AperField NgapOctets NgapValues NgapFits NgapReader.

#[local] Open Scope Z_scope.
#[local] Open Scope go_scope.

(** ** The number of a target gNB *)

(** A string of hexadecimal digits, and the number they stand for in a base. *)
Definition hex_string (hs : list Z) : string := foldr (λ h s, String (hex_char h) s) EmptyString hs.
Definition number (base acc : Z) (hs : list Z) : Z := foldl (λ v h, v * base + h) acc hs.

Lemma hex_char_range h : nibble h → (hex_val (hex_char h) = Some h) ∧ hex_char h ≠ "+"%char ∧ hex_char h ≠ "-"%char.
Proof.
  intros Hh. split; [by apply hex_char_val|]. unfold nibble in Hh.
  assert (forallb (λ h, negb (Ascii.eqb (hex_char h) "+") && negb (Ascii.eqb (hex_char h) "-")) (seqZ 0 16) = true) as Hb by reflexivity.
  rewrite forallb_forall in Hb. specialize (Hb h). rewrite andb_true_iff, !negb_true_iff, !Ascii.eqb_neq in Hb. apply Hb.
  apply list_elem_of_In, elem_of_seqZ. lia.
Qed.

Lemma digits_val_hex base hs acc : Forall nibble hs → Forall (λ h, h < base) hs →
  digits_val base acc (hex_string hs) = Some (number base acc hs).
Proof.
  intros Hn. revert acc. induction Hn as [|h hs Hh Hn IH]; intros acc Hb; [done|]. apply Forall_cons in Hb as [Hb Hbs].
  cbn [hex_string foldr digits_val]. rewrite hex_char_val by done. rewrite (proj2 (Z.ltb_lt _ _)) by done. by apply IH.
Qed.
Lemma digits_val_none base hs acc : Forall nibble hs → Exists (λ h, base ≤ h) hs → digits_val base acc (hex_string hs) = None.
Proof.
  intros Hn. revert acc. induction Hn as [|h hs Hh Hn IH]; intros acc He; [by apply Exists_nil in He|].
  cbn [hex_string foldr digits_val]. rewrite hex_char_val by done. destruct (Z.ltb_spec h base); [|done].
  apply Exists_cons in He as [?|He]; [lia|by apply IH].
Qed.

Lemma number_bounds base hs acc : 0 ≤ acc → 1 < base → Forall (λ h, 0 ≤ h < base) hs →
  0 ≤ number base acc hs < (acc + 1) * base ^ blen hs.
Proof.
  intros Ha Hb Hh. revert acc Ha. induction Hh as [|h hs Hh _ IH]; intros acc Ha.
  { change (blen []) with 0. rewrite Z.pow_0_r. cbn. lia. }
  cbn [number foldl]. destruct (IH (acc * base + h)) as [I1 I2]; [by apply Z.add_nonneg_nonneg; [apply Z.mul_nonneg_nonneg; lia|lia]|]. unfold number in *. split; [done|].
  eapply Z.lt_le_trans; [exact I2|]. unfold blen. cbn [length]. rewrite Nat2Z.inj_succ, Z.pow_succ_r by lia.
  rewrite Z.mul_assoc. apply Z.mul_le_mono_nonneg_r; [apply Z.pow_nonneg; lia|]. nia.
Qed.

Lemma ParseInt_hex base hs : hs ≠ [] → Forall nibble hs →
  ParseInt base (hex_string hs) = (v ← digits_val base 0 (hex_string hs); if (- 2 ^ 63 <=? 1 * v) && (1 * v <? 2 ^ 63) then Some (1 * v) else None).
Proof.
  intros Hne Hn. destruct hs as [|h hs]; [done|]. apply Forall_cons in Hn as [Hh _].
  destruct (hex_char_range h Hh) as (_&Hp&Hm). unfold ParseInt. cbn [hex_string foldr]. destruct (hex_char h) as [[] [] [] [] [] [] [] []]; done.
Qed.

(** [%06x] writes six digits. *)
Fixpoint low_digits (n : nat) (v : Z) : list Z := match n with O => [] | S n => low_digits n (v / 16) ++ [v mod 16] end.

Lemma hex_string_app l l' : hex_string (l ++ l') = hex_string l +:+ hex_string l'.
Proof. induction l as [|h l IH]; [done|]. change (String (hex_char h) (hex_string (l ++ l')) = String (hex_char h) (hex_string l +:+ hex_string l')). by rewrite IH. Qed.
Lemma length_hex_string l : String.length (hex_string l) = length l.
Proof. induction l as [|h l IH]; [done|]. cbn. by rewrite <-IH. Qed.
Lemma zero_padded_snoc n s h : zero_padded (S n) (s +:+ String h EmptyString) = zero_padded n s +:+ String h EmptyString.
Proof.
  induction n as [|n IH].
  - cbn [zero_padded]. destruct (Nat.ltb_spec (String.length (s +:+ String h EmptyString)) 1) as [Hl|]; [|done].
    rewrite length_app_string in Hl. cbn in Hl. assert (String.length s = 0%nat) as E by lia. destruct s; [cbn in Hl; lia|done].
  - change (zero_padded (S (S n)) ?t) with (if (String.length t <? S (S n))%nat then String "0" (zero_padded (S n) t) else t).
    change (zero_padded (S n) s) with (if (String.length s <? S n)%nat then String "0" (zero_padded n s) else s).
    rewrite length_app_string, IH. cbn [String.length]. destruct (Nat.ltb_spec (String.length s + 1) (S (S n))), (Nat.ltb_spec (String.length s) (S n)); try lia; done.
Qed.
Lemma zero_padded_zero n : zero_padded (S n) "0" = zero_padded (S n) "".
Proof. induction n as [|n IH]; [done|]. cbn [zero_padded String.length Nat.ltb Nat.leb] in *. by rewrite IH. Qed.
Lemma padded_digits n fuel v : 0 ≤ v < 16 ^ Z.of_nat (S n) → (n < fuel)%nat → zero_padded (S n) (hex_digits fuel v) = hex_string (low_digits (S n) v).
Proof.
  revert fuel v. induction n as [|n IH]; intros [|fuel] v Hv Hf; [lia| |lia|].
  - cbn [hex_digits]. rewrite (proj2 (Z.ltb_lt v 16)) by lia. cbn [low_digits app]. rewrite Z.mod_small, hex_digit_char by (unfold nibble; lia). done.
  - change (low_digits (S (S n)) v) with (low_digits (S n) (v / 16) ++ [v mod 16]). rewrite hex_string_app.
    pose proof (Z.mod_pos_bound v 16). rewrite Nat2Z.inj_succ, Z.pow_succ_r in Hv by lia.
    assert (0 ≤ v / 16 < 16 ^ Z.of_nat (S n)) as Hd by (split; [apply Z.div_pos; lia|apply Z.div_lt_upper_bound; lia]).
    cbn [hex_digits]. destruct (Z.ltb_spec v 16).
    + rewrite <-(IH (S n) (v / 16)), Z.div_small, Z.mod_small, hex_digit_char by (unfold nibble; lia).
      change (hex_digits (S n) 0) with "0"%string. rewrite zero_padded_zero. by apply (zero_padded_snoc (S n) "").
    + rewrite Z.shiftr_div_pow2 by lia. change (2 ^ 4) with 16. change 15 with (Z.ones 4). rewrite (Z.land_ones v 4) by lia. change (2 ^ 4) with 16.
      rewrite hex_digit_char by (unfold nibble; lia). rewrite zero_padded_snoc, IH by (done || lia). done.
Qed.

Lemma low_digits_number hs acc n : length hs = n → Forall nibble hs → 0 ≤ acc → low_digits n (number 16 acc hs) = hs.
Proof.
  intros <-. revert acc. induction hs as [|h hs IH] using rev_ind; intros acc Hn Ha; [done|].
  apply Forall_app in Hn as [Hn Hh]. apply Forall_cons in Hh as [Hh _]. unfold number. rewrite foldl_snoc, length_app, Nat.add_1_r. cbn [low_digits].
  unfold nibble in Hh. set (v := foldl _ acc hs). assert ((v * 16 + h) / 16 = v ∧ (v * 16 + h) mod 16 = h) as [-> ->].
  { pose proof (Z.div_mod (v * 16 + h) 16). pose proof (Z.mod_pos_bound (v * 16 + h) 16). lia. }
  f_equal. by apply IH.
Qed.
Lemma number_low_digits n v : 0 ≤ v < 16 ^ Z.of_nat n → number 16 0 (low_digits n v) = v.
Proof.
  revert v. induction n as [|n IH]; intros v Hv; [cbn in *; lia|]. cbn [low_digits]. unfold number. rewrite foldl_snoc.
  rewrite Nat2Z.inj_succ, Z.pow_succ_r in Hv by lia. fold (number 16 0 (low_digits n (v / 16))).
  rewrite IH; [pose proof (Z.div_mod v 16); lia|]. split; [apply Z.div_pos; lia|apply Z.div_lt_upper_bound; lia].
Qed.
Lemma hex_string_inj l l' : Forall nibble l → Forall nibble l' → hex_string l = hex_string l' → l = l'.
Proof.
  intros Hl. revert l'. induction Hl as [|x l Hx _ IH]; intros [|y l'] Hl' E; try done. apply Forall_cons in Hl' as [Hy Hl'].
  injection E as Ec E. f_equal; [|by apply IH]. pose proof (hex_char_val x Hx) as E1. rewrite Ec, hex_char_val in E1 by done. by injection E1.
Qed.
Lemma low_digits_nibbles n v : Forall nibble (low_digits n v).
Proof.
  revert v. induction n as [|n IH]; intros v; [constructor|]. cbn [low_digits]. apply Forall_app. split; [done|].
  apply Forall_singleton. apply Z.mod_pos_bound. lia.
Qed.
Lemma hex06_low v : 0 ≤ v < 16 ^ 6 → hex06 v = hex_string (low_digits 6 v).
Proof.
  intros Hv. unfold hex06. rewrite (proj2 (Z.ltb_ge v 0)) by lia. apply (padded_digits 5 16); [done|lia].
Qed.

Lemma hex06_number v hs : 0 ≤ v < 16 ^ 6 → length hs = 6%nat → Forall nibble hs →
  hex06 v = hex_string hs ↔ v = number 16 0 hs.
Proof.
  intros Hv Hl Hn. rewrite hex06_low by done. split.
  - intros E%hex_string_inj; [|apply low_digits_nibbles|done]. rewrite <-E. symmetry. by apply (number_low_digits 6).
  - intros ->. by rewrite low_digits_number.
Qed.

(** C25. The gNB a UE names as the target of an N2 hand-over by its identifier
    of six hexadecimal digits, letters in lower case, is the one that is looked up exactly when the
    identifier has a digit above 9, or is less than 10: the number in the frame
    is read as decimal where it can be, and written as hexadecimal. *)
Theorem target_gnb_found hs : length hs = 6%nat → Forall nibble hs →
  hex06 (target_number (hex_string hs)) = hex_string hs ↔ Exists (λ h, 10 ≤ h) hs ∨ Forall (λ h, h = 0) (take 5 hs).
Proof.
  intros Hl Hn. assert (hs ≠ []) as Hne by by intros ->.
  assert ((hex_string hs =? "")%string = false) as Hs.
  { destruct (String.eqb_spec (hex_string hs) ""); [|done]. destruct hs; done. }
  assert (∀ b, 1 < b ≤ 16 → Forall (λ h, 0 ≤ h < b) hs → 0 ≤ number b 0 hs < 16 ^ 6) as Hb.
  { intros b Hb Hd. destruct (number_bounds b hs 0) as [H1 H2]; [lia..|done|]. split; [done|]. unfold blen in H2. rewrite Hl, Z.mul_1_l in H2.
    eapply Z.lt_le_trans; [exact H2|]. apply Z.pow_le_mono_l. lia. }
  unfold target_number. rewrite Hs, !ParseInt_hex by done. destruct (decide (Exists (λ h, 10 ≤ h) hs)) as [He|He].
  - rewrite (digits_val_none 10) by done. cbn [mbind option_bind]. specialize (Hb 16 ltac:(lia) Hn).
    rewrite (digits_val_hex 16) by (done || by eapply Forall_impl; [exact Hn|unfold nibble; cbn; lia]). cbn [mbind option_bind].
    rewrite Z.mul_1_l. rewrite (proj2 (Z.leb_le _ _)), (proj2 (Z.ltb_lt _ _)) by lia. cbn [andb]. rewrite hex06_number by done.
    split; [by left|done].
  - assert (Forall (λ h, 0 ≤ h < 10) hs) as Hd.
    { apply Forall_forall. intros h Hh. rewrite Forall_forall in Hn. specialize (Hn h Hh). unfold nibble in Hn.
      destruct (Z_lt_ge_dec h 10); [lia|]. exfalso. apply He, Exists_exists. exists h. split; [done|lia]. }
    rewrite (digits_val_hex 10) by (done || by eapply Forall_impl; [exact Hd|cbn; lia]). cbn [mbind option_bind]. specialize (Hb 10 ltac:(lia) Hd).
    rewrite Z.mul_1_l. rewrite (proj2 (Z.leb_le _ _)), (proj2 (Z.ltb_lt _ _)) by lia. cbn [andb]. rewrite hex06_number by done.
    clear Hb Hs Hne He Hn. destruct hs as [|a [|b [|c [|d [|e [|f [|]]]]]]]; try done. rewrite !Forall_cons in Hd.
    cbn [number foldl take]. rewrite !Forall_cons. split.
    + intros E. right. split_and!; [lia..|constructor].
    + intros [He|(->&->&->&->&->&_)]; [|lia]. rewrite !Exists_cons, Exists_nil in He. lia.
Qed.

(** ** An N2 hand-over that the UE asks for *)

Lemma string_bytes_digits ds : Forall decimal ds → string_bytes (digit_string ds) = (λ d, 48 + d) <$> ds.
Proof.
  unfold string_bytes. induction 1 as [|d ds Hd _ IH]; [done|]. cbn [digit_string String.list_ascii_of_string fmap list_fmap].
  f_equal; [|exact IH]. by each_digit d Hd.
Qed.
Lemma bytes_string_digits ds : bytes_string ((λ d, 48 + d) <$> ds) = digit_string ds.
Proof.
  unfold bytes_string. induction ds as [|d ds IH]; [done|]. cbn [fmap list_fmap String.string_of_list_ascii digit_string]. by rewrite <-IH.
Qed.
Lemma trim_digits ds : Forall decimal ds → trim_zeros ((λ d, 48 + d) <$> ds) = (λ d, 48 + d) <$> ds.
Proof.
  induction 1 as [|d ds Hd _ IH]; [done|]. cbn [fmap list_fmap trim_zeros]. fold (list_fmap Z Z). change (list_fmap Z Z ?f ds) with (f <$> ds).
  rewrite IH. destruct ((λ d, 48 + d) <$> ds); [|done]. rewrite (proj2 (Z.eqb_neq _ _)) by (unfold decimal in Hd; lia). done.
Qed.

(** The frame as the gNB takes it apart. *)
Lemma n2_frame ue pid id mccs mncs : let f := n2_trigger ue pid id in
  UeContext.mcc (UeSecurity ue) = digit_string mccs → UeContext.mnc (UeSecurity ue) = digit_string mncs →
  length mccs = 3%nat → length mncs = 2%nat ∨ length mncs = 3%nat → Forall decimal mccs → Forall decimal mncs →
  starts 0x00 0x02 28 f = true ∧ starts 0x00 0x06 17 f = false ∧ take 8 (drop 2 f) = be_bytes 8 (u64 (UeContext.AmfUeNgapId ue)) ∧
  f !!! 10%nat = pid ∧ bytes_string (take 3 (drop 11 f)) = digit_string mccs ∧
  bytes_string (trim_zeros (take 3 (drop 14 f))) = digit_string mncs ∧ take 3 (drop 17 f) = [0; 0; 1] ∧
  take 8 (drop 20 f) = be_bytes 8 (u64 (target_number id)).
Proof.
  intros f Em En Hm Hn Hdm Hdn. unfold f, n2_trigger. rewrite Em, En, !string_bytes_digits by done. clear f.
  generalize (be_bytes_length 8 (u64 (UeContext.AmfUeNgapId ue))), (be_bytes_length 8 (u64 (target_number id))).
  generalize (be_bytes 8 (u64 (UeContext.AmfUeNgapId ue))), (be_bytes 8 (u64 (target_number id))). intros l l' Hl Hl'.
  do 8 (destruct l as [|? l]; [discriminate Hl|]). destruct l; [|discriminate Hl].
  do 8 (destruct l' as [|? l']; [discriminate Hl'|]). destruct l'; [|discriminate Hl'].
  destruct mccs as [|a [|b [|c [|]]]]; try discriminate Hm. 
  pose proof (bytes_string_digits [a; b; c]) as Hc. pose proof (trim_digits mncs Hdn) as Ht. pose proof (bytes_string_digits mncs) as Hb.
  destruct mncs as [|d [|e [|g [|]]]]; try (destruct Hn; discriminate); do 4 (split; [reflexivity|]); (split; [exact Hc|]); (split; [|by split]);
    rewrite <-Hb; f_equal; refine (eq_trans _ Ht); [|reflexivity].
  change (trim_zeros [48 + d; 48 + e; 0] = trim_zeros [48 + d; 48 + e]). cbn [trim_zeros]. by destruct (48 + e =? 0).
Qed.

Lemma Int64_signed a : - 2 ^ 63 ≤ a < 2 ^ 63 → Int64 (be_bytes 8 (u64 a)) = Ret a.
Proof.
  intros Ha. rewrite Int64_octets by apply be_bytes_length. rewrite be_nat_bytes by exact (Z.mod_pos_bound a (2 ^ 64) ltac:(lia)).
  rewrite <-(s64_small a) at 2 by done. unfold s64, wrap. by rewrite Zplus_mod_idemp_l.
Qed.
Lemma target_number_range id : - 2 ^ 63 ≤ target_number id < 2 ^ 63.
Proof.
  assert (∀ b s v, ParseInt b s = Some v → - 2 ^ 63 ≤ v < 2 ^ 63) as Hp.
  { intros b s v. unfold ParseInt. destruct (match s with EmptyString => _ | String _ _ => _ end) as [sign ds]. destruct ds as [|c ds]; [done|].
    destruct (digits_val b 0 (String c ds)) as [x|]; [|done]. cbn [mbind option_bind].
    destruct (Z.leb_spec (- 2 ^ 63) (sign * x)), (Z.ltb_spec (sign * x) (2 ^ 63)); try done. intros [= <-]. lia. }
  unfold target_number. destruct (id =? "")%string; [lia|]. destruct (ParseInt 10 id) eqn:E; [by eapply Hp|].
  destruct (ParseInt 16 id) eqn:E'; [by eapply Hp|lia].
Qed.

Section Handover.
Context {G : Type} `{Rand G} `{MapOrder} `{Host} `{NgapCodec}.
Context (range : gmap Z UeContext.PDUSession → list (Z * UeContext.PDUSession)).
Context (dial : string → nat → option Z) (writes : Z → list Z → bool).

(** What the gNB that has the UE sends the AMF, and its state then. *)
Definition handover_required (u : GNBUe) (g : GNBContext) (ue : UEContext) (pid : Z) (target : string) : outcome NGAPPDU :=
  BuildHandoverRequired (ranUeNgapId u) (UeContext.AmfUeNgapId ue) (UeContext.mcc (UeSecurity ue)) (UeContext.mnc (UeSecurity ue))
    (target_number target) [0; 0; 1] pid (GetGnbIdInBytes g) (GetCellId g).

Lemma wp_n2_trigger ue pid id mccs mncs gnb gue g u conn assoc pdu octets (w : GnbNgap.world (G:=G)) (Q : bool → GnbNgap.world (G:=G) → Prop) :
  UeContext.mcc (UeSecurity ue) = digit_string mccs → UeContext.mnc (UeSecurity ue) = digit_string mncs →
  length mccs = 3%nat → length mncs = 2%nat ∨ length mncs = 3%nat → Forall decimal mccs → Forall decimal mncs →
  - 2 ^ 63 ≤ UeContext.AmfUeNgapId ue < 2 ^ 63 →
  gnbs (w_heap w) !! gnb = Some g → ues (w_heap w) !! gue = Some u → unixSocketConnection u = Some conn → sctpConnection u = Some assoc →
  quiet (w_chaos w) → active_ok (w_heap w) → handover_required u g ue pid id = Ret pdu → Ngap.Encoder pdu = inl octets →
  Q true (amf_sent assoc octets (put_heap (log (ToUe conn (id_frame (UeContext.AmfUeNgapId ue)))
    (put_ue gue (with_amfUeNgapId (UeContext.AmfUeNgapId ue) u) (w_heap w))) w)) →
  wp (triggered gue (n2_trigger ue pid id) gnb) w Q.
Proof.
  intros Em En Hm Hn Hdm Hdn Ha Eg Eu Ec Es Hq Hact Ep Ee HQ.
  destruct (n2_frame ue pid id mccs mncs) as (F1&F2&F3&F4&F5&F6&F7&F8); [done..|].
  unfold triggered, handleXnHandoverTrigger. rewrite F2. wp_steps. unfold handleN2HandoverTrigger. rewrite F1, F3, F4, F5, F6, F7, F8.
  wp_steps. eapply wp_run; [by apply Int64_signed|]. wp_steps. eapply wp_run; [apply Int64_signed, target_number_range|]. wp_steps.
  eapply wp_SetAmfUeId; [done..|]. wp_steps. eapply wp_run.
  { change (ranUeNgapId (with_amfUeNgapId (UeContext.AmfUeNgapId ue) u)) with (ranUeNgapId u). rewrite <-Em, <-En. exact Ep. }
  wp_steps. change (sctpConnection (with_amfUeNgapId (UeContext.AmfUeNgapId ue) u)) with (sctpConnection u). rewrite Es.
  eapply wp_try_send; [exact Ee|exact Hq|cbn [w_heap put_heap]; auto|]. wp_steps. exact HQ.
Qed.

Lemma set_target_kept ip port lt sp i n ue : let ue' := set_target ip port lt sp i n ue in
  UeSecurity ue' = UeSecurity ue ∧ UeContext.AmfUeNgapId ue' = UeContext.AmfUeNgapId ue ∧ PduSessions ue' = PduSessions ue.
Proof. unfold set_target. destruct (lt =? "unix")%string, (i =? "")%string, (n =? "")%string; done. Qed.

(** C12. A UE that asks for an N2 hand-over sends its gNB one frame and remembers
    the target; the gNB takes out of it the UE's AMF identifier, which it
    confirms to the UE, the session, the UE's PLMN, tracking area 1 and the
    number of the target, and sends the AMF the Handover Required with them. *)
Theorem n2_handover_requested ip port lt sp id name c (uw : UeNas.world (G:=G)) mccs mncs
    gnb gue0 gue i g u conn assoc octets (gw : GnbNgap.world (G:=G)) :
  let ue := w_ue uw in let pid := first_session range ue in let frame := n2_trigger ue pid id in
  UeContext.mcc (UeSecurity ue) = digit_string mccs → UeContext.mnc (UeSecurity ue) = digit_string mncs →
  length mccs = 3%nat → length mncs = 2%nat ∨ length mncs = 3%nat → Forall decimal mccs → Forall decimal mncs →
  - 2 ^ 63 ≤ UeContext.AmfUeNgapId ue < 2 ^ 63 → UnixConn ue = Some c → writes c frame = true →
  heap_ok (w_heap gw) → gnbs (w_heap gw) !! gnb = Some g → uePool g !! i = Some gue → ues (w_heap gw) !! gue = Some u →
  unixSocketConnection u = Some conn → sctpConnection u = Some assoc →
  (∀ j p t, uePool g !! j = Some p → ues (w_heap gw) !! p = Some t → unixSocketConnection t = Some conn → p = gue) →
  state u = GnbContext.Initialized ∨ state u = GnbContext.Ongoing ∨ state u = GnbContext.Ready → quiet (w_chaos gw) →
  ∃ pdu, handover_required u g ue pid id = Ret pdu ∧
    (∃ uw', TriggerHandover range dial writes ip port lt sp false id name uw = Ret (true, uw') ∧
      w_ue uw' = set_target ip port lt sp id name ue ∧ w_out uw' = w_out uw ++ [Sent c frame]) ∧
    (Ngap.Encoder pdu = inl octets → ∃ gw', receive_ue gnb gue0 conn frame gw = Ret (tt, gw') ∧
      out (w_heap gw') = out (w_heap gw) ++ [ToUe conn (id_frame (UeContext.AmfUeNgapId ue)); ToAmf assoc (stream_of octets) octets] ∧
      ues (w_heap gw') !! gue = Some (with_amfUeNgapId (UeContext.AmfUeNgapId ue) u)).
Proof.
  intros ue pid frame Em En Hm Hn Hdm Hdn Ha Ec Hw Hh Eg Ei Eu Eco Es Hone Hst Hq.
  assert (∃ pdu, handover_required u g ue pid id = Ret pdu) as [pdu Ep].
  { unfold handover_required, BuildHandoverRequired. rewrite Em, En, plmn_to_ngap by done. by eexists. }
  exists pdu. split; [exact Ep|]. split.
  - destruct (set_target_kept ip port lt sp id name ue) as (K1&K2&K3).
    assert (n2_trigger (set_target ip port lt sp id name ue) (first_session range (set_target ip port lt sp id name ue)) id = frame) as Ef.
    { unfold frame, pid, n2_trigger, first_session. by rewrite K1, K2, K3. }
    eexists. unfold TriggerHandover, UeNas.get, UeNas.modify, mbind, UeNas.M_bind. cbn [negb]. fold ue. rewrite Ec. unfold write.
    cbn [w_ue UeNas.with_ue]. fold ue. rewrite Ef, Hw. split; [reflexivity|]. by split.
  - intros Ee. eexists. split; [apply wp_exact; unfold receive_ue; wp_steps; eapply wp_active_ue; [done..|]|].
    { unfold DispatchUe. wp_steps.
      destruct Hst as [-> |[-> | ->]]; (cbv [GnbContext.Initialized GnbContext.Ongoing GnbContext.Ready Z.eqb Pos.eqb]; unfold HandlerUeInitialized, HandlerUeOngoing, HandlerUeReady; wp_steps;
        eapply wp_n2_trigger; [exact Em|exact En|done..|by apply h_active|exact Ep|exact Ee|]; wp_steps; by split). }
    unfold amf_sent. cbn [w_heap]. split; [cbn; by rewrite <-(assoc_L (++))|]. heap_eq.
Qed.
End Handover.

(** ** What Validate asks for *)

Lemma first_error_none l : first_error l = None → Forall (λ c, fst c = true) l.
Proof. induction l as [|[[] e] l IH]; cbn; [constructor| |done]. intros Hl. constructor; auto. Qed.

Lemma digits_between_spec lo hi s : digits_between lo hi s = true →
  ∃ ds, s = digit_string ds ∧ Forall decimal ds ∧ lo ≤ blen ds ≤ hi.
Proof.
  unfold digits_between. rewrite !andb_true_iff, !Z.leb_le. intros [[Hd Hlo] Hhi].
  assert (∃ ds, s = digit_string ds ∧ Forall decimal ds) as (ds&->&Hds).
  { clear Hlo Hhi. induction s as [|c s IH]; [by exists []|]. cbn [String.list_ascii_of_string forallb] in Hd.
    apply andb_true_iff in Hd as [Hc Hd]. destruct (IH Hd) as (ds&->&Hds). unfold UeContext.is_digit in Hc.
    apply andb_true_iff in Hc as [H1%N.leb_le H2%N.leb_le]. exists (Z.of_N (Ascii.N_of_ascii c) - 48 :: ds). split.
    - cbn [digit_string]. f_equal. unfold digit. replace (Z.to_N _) with (Ascii.N_of_ascii c) by lia. by rewrite Ascii.ascii_N_embedding.
    - constructor; [unfold decimal; lia|done]. }
  exists ds. split; [done|]. split; [done|]. by rewrite <-slen_digits.
Qed.

(** Hexadecimal text of [n] octets. *)
Definition hex_octets (n : Z) (s : string) : Prop := slen s = 2 * n ∧ is_hex s = true.

Lemma hex_val_nibble c x : hex_val c = Some x → 0 ≤ x < 16.
Proof.
  unfold hex_val. cbv zeta. repeat case_match; intros E; try discriminate E; injection E as <-; rewrite ?andb_true_iff, ?Z.leb_le in *; lia.
Qed.
Lemma hex_octets_decoded n s : hex_octets n s → bytes_ok (DecodeString s) ∧ blen (DecodeString s) = n.
Proof.
  intros [Hl Hh]. unfold is_hex in Hh. apply negb_true_iff in Hh. unfold DecodeString.
  assert (∀ k s, (String.length s < k)%nat → snd (hex_decode s) = false →
    bytes_ok (fst (hex_decode s)) ∧ 2 * blen (fst (hex_decode s)) = slen s) as Hall.
  { clear. induction k as [|k IH]; intros s Hk Hs; [lia|]. destruct s as [|a [|b s]]; [by split; [constructor|]|discriminate Hs|].
    cbn [hex_decode] in *. destruct (hex_val a) as [x|] eqn:Ex; [|discriminate Hs]. destruct (hex_val b) as [y|] eqn:Ey; [|discriminate Hs].
    cbn [String.length] in Hk. specialize (IH s ltac:(lia)). destruct (hex_decode s) as [l e]. destruct IH as [I1 I2]; [done|].
    apply hex_val_nibble in Ex, Ey. cbn [fst]. split; [constructor; [unfold in_width; change (2 ^ 8) with 256; lia|done]|].
    unfold blen, slen in *. cbn [length String.length fst] in *. lia. }
  destruct (Hall (S (String.length s)) s ltac:(lia) Hh) as [H1 H2]. split; [done|lia].
Qed.

Lemma hex_decode_digits ds : Forall decimal ds → snd (hex_decode (digit_string ds)) = Nat.odd (length ds).
Proof.
  assert (∀ n ds, (length ds < n)%nat → Forall decimal ds → snd (hex_decode (digit_string ds)) = Nat.odd (length ds)) as Hall;
    [|intros; by apply (Hall (S (length ds))); [lia|]].
  clear ds. induction n as [|n IH]; intros ds Hn Hd; [lia|]. destruct ds as [|a [|b ds]]; [done..|]. rewrite !Forall_cons in Hd.
  destruct Hd as (Ha&Hb&Hd). cbn [digit_string]. rewrite hex_decode_pair by done. cbn [snd length] in *. rewrite IH by (done || lia). done.
Qed.

(** What a new UE keeps of its arguments, and its SUCI when the MSIN has an odd
    number of digits. *)
Lemma new_context_kept msin ca ia k opc op amf sqn mcc mnc dnn type sst sd uid extra ue ue' :
  NewRanUeContext msin ca ia k opc op amf sqn mcc mnc dnn type sst sd uid extra ue = Ret ue' →
  AuthenticationSubs (UeSecurity ue') = MkAuth k opc op amf sqn.
Proof.
  unfold NewRanUeContext. intros ([[[[v1 v2] v3] v4] v5]&_&E)%bind_inv. apply Ret_inj in E. by subst ue'.
Qed.
Lemma odd_msin ms ca ia k opc op amf sqn mcc mnc dnn type sst sd uid extra ue : Forall decimal ms → length ms = 9%nat →
  ∃ ue', NewRanUeContext (digit_string ms) ca ia k opc op amf sqn mcc mnc dnn type sst sd uid extra ue = Ret ue' ∧
    Suci (UeSecurity ue') = Suci (UeSecurity ue).
Proof.
  intros Hm Hl. unfold NewRanUeContext, EncodeUeSuci. rewrite reverse_digits.
  pose proof (hex_decode_digits (rev ms) ltac:(by apply Forall_rev)) as Ho. rewrite length_rev, Hl in Ho.
  destruct (hex_decode (digit_string (rev ms))) as [l e]. cbn [snd] in Ho. rewrite Ho. cbn [mbind outcome_mbind]. eexists. split; [reflexivity|].
  cbn [UeSecurity Suci]. rewrite slen_digits. unfold blen. by rewrite Hl.
Qed.

Section Validated.
Context `{Host}.

(** The numbers of a network, and what the UE's credentials have to be. *)
Definition plmn_digits_ok (mcc mnc : string) (mccs mncs : list Z) : Prop :=
  mcc = digit_string mccs ∧ mnc = digit_string mncs ∧ length mccs = 3%nat ∧ (length mncs = 2%nat ∨ length mncs = 3%nat) ∧
  Forall decimal mccs ∧ Forall decimal mncs.
Definition credentials_ok (u : UeConfig) : Prop :=
  hex_octets 16 (ue_Key u) ∧ hex_octets 16 (ue_Opc u) ∧ hex_octets 2 (ue_Amf u) ∧ hex_octets 6 (ue_Sqn u).

Lemma plmn_checked mcc mnc : digits_between 3 3 mcc = true → digits_between 2 3 mnc = true →
  ∃ mccs mncs, plmn_digits_ok mcc mnc mccs mncs.
Proof.
  intros (mccs&->&H1&H2)%digits_between_spec (mncs&->&H3&H4)%digits_between_spec. exists mccs, mncs.
  unfold blen in *. split_and!; try done; lia.
Qed.
Lemma hex_checked n s : (slen s =? 2 * n) = true → is_hex s = true → hex_octets n s.
Proof. intros ?%Z.eqb_eq ?. by split. Qed.

Lemma validated c : Validate c = None →
  (∃ mccs mncs, plmn_digits_ok (plmn_Mcc (gnb_PlmnList (GNodeB c))) (plmn_Mnc (gnb_PlmnList (GNodeB c))) mccs mncs) ∧
  (∃ mccs mncs, plmn_digits_ok (hplmn_Mcc (ue_Hplmn (Ue c))) (hplmn_Mnc (ue_Hplmn (Ue c))) mccs mncs) ∧
  credentials_ok (Ue c) ∧ ∃ ms, ue_Msin (Ue c) = digit_string ms ∧ Forall decimal ms ∧ 8 ≤ blen ms ≤ 10.
Proof.
  intros Hv%first_error_none. unfold checks in Hv. rewrite Forall_app in Hv. destruct Hv as [Hv _].
  do 13 (let Hc := fresh "Hc" in apply Forall_cons in Hv as [Hc Hv]; cbn [fst check] in Hc). clear Hv. split; [by apply plmn_checked|]. split; [by apply plmn_checked|].
  split; [|by apply digits_between_spec]. split_and!; by apply hex_checked.
Qed.

(** C24. A configuration that passes Validate gives a UE, without a panic, with
    credentials of 16, 16, 2 and 6 octets.  With an MSIN of eight or ten digits
    its SUCI is read by the network as the configured subscriber; with one of
    nine digits, which Validate accepts, its SUCI is empty. *)
Theorem validated_ue c id : Validate c = None →
  ∃ mccs mncs ms ue, plmn_digits_ok (hplmn_Mcc (ue_Hplmn (Ue c))) (hplmn_Mnc (ue_Hplmn (Ue c))) mccs mncs ∧
    ue_Msin (Ue c) = digit_string ms ∧ UeStart.new_ue c id = Ret ue ∧
    (length ms ≠ 9%nat → SuciToString (snd (Suci (UeSecurity ue))) =
      Ret (supi_string mccs mncs ms, digit_string mccs +:+ digit_string mncs)) ∧
    (length ms = 9%nat → Suci (UeSecurity ue) = (0, [])) ∧
    let sub := AuthenticationSubs (UeSecurity ue) in
    blen (DecodeString (PermanentKeyValue sub)) = 16 ∧ blen (DecodeString (OpcValue sub)) = 16 ∧
    blen (DecodeString (AuthenticationManagementField sub)) = 2 ∧ blen (DecodeString (SequenceNumber sub)) = 6.
Proof.
  intros (_&(mccs&mncs&Em)&Hc&ms&Es&Hm&Hl)%validated.
  destruct Em as (E1&E2&H3&H23&Hd3&Hd23). exists mccs, mncs, ms.
  assert (∃ ue, UeStart.new_ue c id = Ret ue ∧ AuthenticationSubs (UeSecurity ue) = MkAuth (ue_Key (Ue c)) (ue_Opc (Ue c))
      "c9e8763286b5b9ffbdf56e1297d0887b" (ue_Amf (Ue c)) (ue_Sqn (Ue c)) ∧
    (length ms ≠ 9%nat → SuciToString (snd (Suci (UeSecurity ue))) = Ret (supi_string mccs mncs ms, digit_string mccs +:+ digit_string mncs)) ∧
    (length ms = 9%nat → Suci (UeSecurity ue) = (0, []))) as (ue&En&Ea&H8&H9).
  { unfold UeStart.new_ue. rewrite Es, E1, E2. unfold blen in Hl. destruct (decide (length ms = 9%nat)) as [H9|H9].
    - edestruct odd_msin as (ue&E&Eu); [exact Hm|exact H9|]. rewrite E. eexists. split; [reflexivity|]. split; [exact (new_context_kept _ _ _ _ _ _ _ _ _ _ _ _ _ _ _ _ _ _ E)|].
      split; [done|]. intros _. exact Eu.
    - assert (length ms = 8%nat ∨ length ms = 10%nat) as H8 by lia.
      edestruct new_ue_suci as (ue&E&Eu); [exact H3|exact H23|exact H8|done..|]. rewrite E. eexists. split; [reflexivity|].
      split; [exact (new_context_kept _ _ _ _ _ _ _ _ _ _ _ _ _ _ _ _ _ _ E)|]. split; [|done]. intros _. change (UeSecurity (SetRegistrationType _ ue)) with (UeSecurity ue). rewrite Eu.
      cbn [snd]. apply suci_octets_read; try done; [by destruct H8 as [-> | ->]|]. intros ->. destruct H8; discriminate. }
  exists ue. split; [done|]. split; [done|]. split; [done|]. split; [done|]. split; [done|]. rewrite Ea.
  cbn [PermanentKeyValue OpcValue AuthenticationManagementField SequenceNumber]. destruct Hc as (K1&K2&K3&K4).
  split_and!; by apply hex_octets_decoded.
Qed.
End Validated.

(** ** The gNB of a configuration *)

(** The arguments of InitGnb in the configuration. *)
Definition gnb_config (c : Config) : GnbConfig :=
  let g := GNodeB c in
  MkGnbConfig (plmn_GnbId (gnb_PlmnList g)) (plmn_Mcc (gnb_PlmnList g)) (plmn_Mnc (gnb_PlmnList g)) (plmn_Tac (gnb_PlmnList g))
    (list_Sst (gnb_SliceSupportList g)) (list_Sd (gnb_SliceSupportList g)) (Ip (ControlIF g)) (Ip (DataIF g)) (Port (ControlIF g)) (Port (DataIF g))
    (gnb_LinkType g) (gnb_LinkPort g) (gnb_PagingDRX g) (gnb_CellId g) (Ip (AMF c)) (Port (AMF c)).

(** What Validate does not look at: the identifier, the tracking area and the
    slice of the gNB. *)
Definition identities_ok (c : Config) : Prop :=
  let g := GNodeB c in
  hex_octets 3 (plmn_GnbId (gnb_PlmnList g)) ∧ hex_octets 3 (plmn_Tac (gnb_PlmnList g)) ∧
  hex_octets 1 (list_Sst (gnb_SliceSupportList g)) ∧ (list_Sd (gnb_SliceSupportList g) = ""%string ∨ hex_octets 3 (list_Sd (gnb_SliceSupportList g))).

(** A gNB with the identities of a configuration. *)
Definition identified (c : Config) (g : GNBContext) : Prop :=
  let p := gnb_PlmnList (GNodeB c) in let s := gnb_SliceSupportList (GNodeB c) in
  GnbContext.mcc (controlInfo g) = plmn_Mcc p ∧ GnbContext.mnc (controlInfo g) = plmn_Mnc p ∧ GnbContext.tac (controlInfo g) = plmn_Tac p ∧
  GnbContext.gnbId (controlInfo g) = plmn_GnbId p ∧ sliceSst g = list_Sst s ∧ sliceSd g = list_Sd s.

Lemma plmn_octets_ok mcc mnc mccs mncs : plmn_digits_ok mcc mnc mccs mncs → octets_ok 3 (GoStrings.GetMccAndMncInOctets mcc mnc).
Proof.
  intros (->&->&H3&H23&Hc&Hn). rewrite plmn_octets by done. destruct mccs as [|a [|b [|c [|]]]]; try done.
  destruct mncs as [|d [|e [|f [|]]]]; try (destruct H23; done); rewrite !Forall_cons in *; unfold decimal in *; (split; [|done]);
    repeat apply Forall_cons_2; try apply Forall_nil_2; unfold in_width; change (2 ^ 8) with 256; lia.
Qed.

Lemma three_octets l : octets_ok 3 l → ∃ a b c, l = [a; b; c].
Proof. intros [_ Hl]. unfold blen in Hl. destruct l as [|a [|b [|c [|]]]]; cbn in Hl; try lia. by exists a, b, c. Qed.
Lemma paging_drx_range s : 0 ≤ paging_drx s ≤ 3.
Proof. unfold paging_drx. repeat case_match; lia. Qed.

Section Setup.
Context `{Host}.

Lemma setup_request_ok c g : Validate c = None → identities_ok c → identified c g →
  message_ok (Ngap.NGSetupRequest g "OmniRANEmulator") ∧ whole (pdu_value (Ngap.NGSetupRequest g "OmniRANEmulator")) = true.
Proof.
  intros ((mccs&mncs&Hp)&_)%validated (Hi&Ht&Hs&Hd) (E1&E2&E3&E4&E5&E6). unfold Ngap.NGSetupRequest, GetSliceInBytes.
  unfold GnbContext.GetMccAndMncInOctets, GetTacInBytes, GetGnbIdInBytes. rewrite E1, E2, E3, E4, E5, E6.
  pose proof (plmn_octets_ok _ _ _ _ Hp) as Hplmn. pose proof (hex_octets_decoded _ _ Hi) as Hid. pose proof (hex_octets_decoded _ _ Ht) as Htac.
  pose proof (hex_octets_decoded _ _ Hs) as Hsst.
  assert (∃ sd, (if negb (list_Sd (gnb_SliceSupportList (GNodeB c)) =? "")%string then Some (DecodeString (list_Sd (gnb_SliceSupportList (GNodeB c)))) else None) = sd ∧
    (sd = None ∨ ∃ l, sd = Some l ∧ octets_ok 3 l)) as (sd&->&Hsd).
  { eexists. split; [reflexivity|]. destruct Hd as [-> |Hd]; [by left|]. destruct (_ =? "")%string; [by left|]. right. eexists. split; [reflexivity|].
    exact (hex_octets_decoded _ _ Hd). }
  clear E1 E2 E3 E4 E5 E6 Hp Hi Ht Hs Hd. revert Hplmn Hid Htac Hsst.
  generalize (GoStrings.GetMccAndMncInOctets (plmn_Mcc (gnb_PlmnList (GNodeB c))) (plmn_Mnc (gnb_PlmnList (GNodeB c)))).
  generalize (DecodeString (plmn_GnbId (gnb_PlmnList (GNodeB c)))), (DecodeString (plmn_Tac (gnb_PlmnList (GNodeB c)))),
    (DecodeString (list_Sst (gnb_SliceSupportList (GNodeB c)))).
  intros gid tac sst plmn Hplmn Hid Htac Hsst. pose proof (paging_drx_range (GetPagingDRX g)) as Hdrx.
  split; [split|].
  - cbn [Outcome initiating ProtocolIEs]. repeat apply Forall_cons_2; try apply Forall_nil_2; unfold ie_content_ok, reject, ignore; cbn [ie_Value content_ok].
    + split; [exact Hplmn|]. split; [done|]. exact Hid.
    + change (slen _) with 15. lia.
    + split; [exact Htac|]. split; [exact Hplmn|]. split; [change (blen _) with 1; lia|]. apply Forall_singleton. split; [by eexists|].
      cbn [SD]. destruct Hsd as [-> |(l&->&Hl)]; done.
    + exact Hdrx.
  - destruct (three_octets _ Hplmn) as (?&?&?&->), (three_octets _ Hid) as (?&?&?&->), (three_octets _ Htac) as (?&?&?&->).
    destruct Hsst as [_ Hl]. unfold blen in Hl. destruct sst as [|? [|]]; cbn in Hl; try lia.
    apply Z.ltb_lt. destruct Hsd as [-> |(l&->&Hl')]; [vm_compute; reflexivity|].
    destruct (three_octets _ Hl') as (?&?&?&->). vm_compute. reflexivity.
  - destruct Hid as [Hb Hl]. destruct (three_octets gid) as (x&y&z&->); [done|].
    destruct Hsd as [-> |(l&->&_)]; lazy -[bool_decide bytes_ok]; by rewrite bool_decide_eq_true_2 by exact Hb.
Qed.
End Setup.

Section Started.
#[local] Hint Rewrite gnbs_bump ues_bump amfs_bump out_bump : heap.
Context {G : Type} `{Rand G} `{MapOrder} `{Host}.
#[local] Existing Instance library_codec.
#[local] Abbreviation world := (GnbNgap.world (G:=G)).

(** A host where the AMF answers and every socket can be opened. *)
Record reachable (n2c : Z) : Prop := {
  h_address : ∀ a, ResolveSCTPAddr a = true;
  h_amf : ∀ a b, DialSCTP a b = Some n2c;
  h_socket : ∀ a b, is_Some (Listen a b) }.

Lemma wp_set_active f h (Q : unit → heap → Prop) : Q tt (with_ActiveGNBs (f (ActiveGNBs h)) h) → wp (set_active f) h Q.
Proof. done. Qed.

(** All is started, and the AMF was sent the NG Setup Request of a gNB with the
    identities of the configuration, which it decodes to that. *)
Definition set_up (c : Config) (p n2c : Z) (w : world) (r : option Z) (w' : world) : Prop :=
  ∃ amf g octets, r = Some amf ∧ gnbs (w_heap w') !! p = Some g ∧ identified c g ∧
    out (w_heap w') = out (w_heap w) ++ [ToAmf n2c (stream_of octets) octets] ∧
    Ngap.Decoder octets = (Ngap.NGSetupRequest g "OmniRANEmulator", None).

Lemma wp_NewRanGnbContext c p g0 h (Q : unit → heap → Prop) : gnbs h !! p = Some g0 → active_ok h →
  (∀ h1 g1, gnbs h1 !! p = Some g1 → identified c g1 → active_ok h1 → out h1 = out h → Q tt h1) →
  let k := gnb_config c in
  wp (NewRanGnbContext p (conf_GnbId k) (conf_Mcc k) (conf_Mnc k) (conf_Tac k) (conf_Sst k) (conf_Sd k)
    (conf_ControlIp k) (conf_DataIp k) (conf_ControlPort k) (conf_DataPort k)) h Q.
Proof.
  intros Eg Ha HQ k. unfold NewRanGnbContext. wp_steps. apply wp_set_active. eapply HQ.
  - apply lookup_insert_eq.
  - by split_and!.
  - intros i q E. cbn in E. apply lookup_insert_Some in E as [[_ <-]|[_ E]]; cbn; apply lookup_insert_is_Some.
    + by left.
    + destruct (decide (p = q)); [by left|right]. split; [done|]. exact (Ha i q E).
  - done.
Qed.

Lemma wp_new_amf h (Q : Z → heap → Prop) : Q (next h) (put_amf (next h) blank_amf (bump h)) → wp new_amf h Q.
Proof. done. Qed.

Lemma active_put_amf_ok q a h : active_ok h → active_ok (put_amf q a h).
Proof. done. Qed.
#[local] Ltac active_tac := repeat lazymatch goal with
  | |- active_ok (put_gnb _ _ _) => apply active_put_gnb_ok
  | |- active_ok (put_amf _ _ _) => apply active_put_amf_ok
  | |- active_ok (bump _) => apply active_bump_ok
  end.

Lemma wp_InitGnb c p g0 n2c (w : world) : Validate c = None → identities_ok c →
  gnbs (w_heap w) !! p = Some g0 → quiet (w_chaos w) → active_ok (w_heap w) → reachable n2c →
  wp (InitGnb (gnb_config c) p) w (set_up c p n2c w).
Proof.
  intros Hv Hi Eg Hq Ha [Hadr Hamf Hsock]. unfold InitGnb. wp_steps. eapply wp_NewRanGnbContext; [exact Eg|exact Ha|].
  intros h1 g1 Eg1 Hg1 Ha1 Ho1. wp_steps. unfold NewGnBAmf. wp_steps. apply wp_new_amf. unfold getRanAmfId. wp_steps.
  unfold InitConn. wp_steps. rewrite !Hadr. cbn [andb negb]. wp_steps. rewrite Hamf. wp_steps. cbn [negb]. unfold InitServer. wp_steps.
  match goal with |- context [if ?b then Listen ?x ?y else Listen ?x' ?y'] =>
    assert (∃ l, (if b then Listen x y else Listen x' y') = Some l) as [l ->] by (destruct b; apply Hsock) end.
  wp_steps. cbn [negb]. unfold StartXnListener. wp_steps.
  match goal with |- context [Listen "udp" ?y] => destruct (Hsock "udp"%string y) as [x ->] end. wp_steps.
  unfold SendNgSetupRequest. wp_steps.
  match goal with |- context [Ngap.NGSetupRequest ?x _] => set (g := x); assert (identified c g) as Hg by exact Hg1 end.
  destruct (setup_request_ok c g Hv Hi Hg) as [Hok Hw].
  destruct (library_message (Ngap.NGSetupRequest g "OmniRANEmulator")) as (octets&v&Ee&_&_&_&Ed&Eq); [apply m_setup|exact Hok|].
  rewrite Ee. apply wp_SendToAmF; [exact Hq|cbn [w_heap put_heap]; active_tac; exact Ha1|]. wp_steps.
  unfold set_up. eexists _, g, octets. split; [reflexivity|]. unfold amf_sent. cbn [w_heap put_heap]. split; [heap_eq|]. split; [exact Hg|].
  split; [|by rewrite Ed, Eq]. autorewrite with heap. by rewrite <-Ho1.
Qed.

(** C11. A gNB with a configuration that passes Validate and has hexadecimal
    identities, which Validate does not ask for, on a host where the AMF and the
    sockets can be reached, starts and sends the AMF one message, an NG Setup
    Request with the PLMN, the identifier, the tracking area and the slice of
    the configuration, which lib/ngap decodes to just that. *)
Theorem configured_gnb_setup c p g0 n2c (w : world) : Validate c = None → identities_ok c →
  gnbs (w_heap w) !! p = Some g0 → quiet (w_chaos w) → active_ok (w_heap w) → reachable n2c →
  ∃ r w', InitGnb (gnb_config c) p w = Ret (r, w') ∧ set_up c p n2c w r w'.
Proof. intros Hv Hi Eg Hq Ha Hr. apply wp_result. by eapply wp_InitGnb. Qed.
End Started.

(** ** Examples *)

(** config/config.yml, with another tracking area and MSIN. *)
Definition file_config (tac msin : string) : Config :=
  let ip := "127.0.0.1"%string in
  MkConfig (MkGNodeB (MkInterface ip 9487) (MkInterface ip 2152) (MkPlmnList "999" "70" tac "000001") (MkSliceList "01" "") "unix" 9488 "" 0)
    (MkUeConfig msin "465b5ce8b199b49faa5f0a2ee238a6bc" "e8ed289deba952e4283b54e88e6183ca" "8000" "000000000000" "internet" "IPv4" "initial"
      (MkHplmn "999" "70") (MkSnssai 1 "") [])
    (MkInterface "127.0.0.18" 38412) 6.
Definition start_world : GnbNgap.world (G:=Z) :=
  MkWorld (MkHeap {[0 := demo_gnb]} ∅ ∅ ∅ 20 []) GlobalChaosManager 7 ResetValidationStats "15".

Lemma configured_gnb_setup_witness :
  let H1 := key_order in let H2 := demo_host in let H3 := library_codec in
  ∃ r w', InitGnb (gnb_config (file_config "000001" "0000000001")) 0 start_world = Ret (r, w') ∧
    set_up (file_config "000001" "0000000001") 0 2 start_world r w'.
Proof.
  intros H1 H2 H3. apply (configured_gnb_setup (G:=Z) (file_config "000001" "0000000001") 0 demo_gnb 2 start_world).
  - reflexivity.
  - split_and!; try by split. by left.
  - reflexivity.
  - by split.
  - apply map_Forall_empty.
  - split; [done|done|by eexists].
Defined.

(** A tracking area of one digit passes Validate, and an empty message is sent. *)
Lemma short_tac_empty_setup :
  let H1 := key_order in let H2 := demo_host in let H3 := library_codec in let c := file_config "1" "0000000001" in
  Validate c = None ∧ (λ '(r, w'), (r, out (w_heap w'))) <$> InitGnb (gnb_config c) 0 start_world = Ret (Some 20, [ToAmf 2 0 []]).
Proof. intros H1 H2 H3 c. split; [reflexivity|vm_compute; reflexivity]. Qed.

Lemma validated_ue_witness : let H1 := demo_host in
  Validate (file_config "000001" "000000001") = None ∧
  ∃ ue, UeStart.new_ue (file_config "000001" "000000001") 1 = Ret ue ∧ Suci (UeSecurity ue) = (0, []).
Proof.
  intros H1. split; [reflexivity|].
  destruct (validated_ue (file_config "000001" "000000001") 1) as (mccs&mncs&ms&ue&_&Em&E&_&H9&_); [reflexivity|].
  exists ue. split; [exact E|]. apply H9. apply (f_equal slen) in Em. rewrite slen_digits in Em. unfold blen in Em. change (slen _) with 9 in Em. lia.
Defined.

Lemma target_gnb_found_witness :
  hex06 (target_number "00000a") = "00000a"%string ∧ hex06 (target_number "000010") ≠ "000010"%string.
Proof.
  split.
  - apply (target_gnb_found [0; 0; 0; 0; 0; 10]); [done|repeat constructor; unfold nibble; lia|]. left. rewrite !Exists_cons. lia.
  - intros E. apply (target_gnb_found [0; 0; 0; 0; 1; 0]) in E; [|done|repeat constructor; unfold nibble; lia].
    cbn [take] in E. rewrite !Exists_cons, Exists_nil, !Forall_cons in E. lia.
Defined.

(** The UE of the file, served by a gNB on connection 4. *)
Definition running_ue : UEContext := Eval vm_compute in
  match UeStart.new_ue (file_config "000001" "0000000001") 1 with
  | Ret ue => UeContext.SetUnixConn (Some 4) (UeContext.SetAmfUeId 7 ue)
  | _ => UeContext.blank_ue
  end.
Definition ue_world : UeNas.world (G:=Z) := UeNas.MkWorld running_ue globals0 ∅ GlobalChaosManager 1 0 [].
Definition by_id (m : gmap Z UeContext.PDUSession) : list (Z * UeContext.PDUSession) := map_to_list m.

Lemma n2_handover_requested_witness :
  let H1 := key_order in let H2 := demo_host in let H3 := demo_codec (MkNgap 0 None) in
  let frame := n2_trigger running_ue 1 "00000a" in
  (∃ uw', TriggerHandover by_id (λ _ _, None) (λ _ _, true) "127.0.0.2" 9489 "tcp" "" false "00000a" "gNB 10" ue_world = Ret (true, uw') ∧
    w_out uw' = [Sent 4 frame]) ∧
  ∃ gw', receive_ue 0 10 4 frame (GnbDemo.demo_world (GnbDemo.demo_ue ∅)) = Ret (tt, gw') ∧
    out (w_heap gw') = [ToUe 4 (id_frame 7); ToAmf 2 (stream_of [1]) [1]].
Proof.
  intros H1 H2 H3 frame.
  destruct (n2_handover_requested (G:=Z) by_id (λ _ _, None) (λ _ _, true) "127.0.0.2" 9489 "tcp" "" "00000a" "gNB 10" 4 ue_world [9; 9; 9] [7; 0]
    0 10 10 1 demo_gnb (GnbDemo.demo_ue ∅) 4 2 [1] (GnbDemo.demo_world (GnbDemo.demo_ue ∅))) as (pdu&_&(uw'&E1&_&E2)&Hg).
  1-4, 8, 9, 11-15: first [reflexivity | by left].
  - repeat constructor; unfold decimal; lia.
  - repeat constructor; unfold decimal; lia.
  - change (UeContext.AmfUeNgapId (w_ue ue_world)) with 7. lia.
  - apply demo_world_ok; [reflexivity|]. split; [by right|apply map_Forall_empty].
  - intros j p t E _ _. change (({[1 := 10]} : gmap Z Z) !! j = Some p) in E. by apply lookup_singleton_Some in E as [_ <-].
  - right. by left.
  - by split.
  - assert (n2_trigger (w_ue ue_world) (first_session by_id (w_ue ue_world)) "00000a" = frame) as Ef by (vm_compute; reflexivity).
    destruct (Hg (eq_refl (inl [1]))) as (gw'&E3&E4&_). rewrite Ef in E2, E3. split; [exists uw'; split; [exact E1|exact E2]|].
    exists gw'. split; [exact E3|exact E4].
Defined.
